(* ===== verification/_CoqProject ===== *)
-Q . S2P
Prelude.v
Mem.v
Crc32.v
Sha1.v
Md5.v
PjString.v
Hash.v
Base64.v
Rtp.v
PjMath.v
FrameList.v
Jbuf.v
TimeVal.v
Timer.v
TimerService.v
Transaction.v
TsxMoves.v
TsxSteps.v
TsxTrace.v
TsxProps.v
TsxKey.v
TsxLayer.v
StunMsg.v
StunWire.v
StunMsgProps.v
StunDecode.v
StunAuth.v
StunTsx.v
Scanner.v
Sdp.v
SdpText.v
SdpTextProps.v
SdpAttr.v
SdpCmp.v
SdpNeg.v
SdpNegProps.v
SdpExchange.v
Rtcp.v
RtcpFb.v
RtcpRx.v
RtcpProps.v
RtcpReport.v
RtcpMeasure.v
RtcpRtt.v
RtcpBuild.v
