(* ===== verification/Prelude.v ===== *)
(** * PJPROJECT: a verification library for the portable core of the SIP stack

    PJPROJECT is a SIP and media stack in C: a base library (pjlib,
    pjlib-util), NAT traversal (pjnath), media (pjmedia) and SIP (pjsip).  This
    library models the parts of it that are algorithms over state, function by
    function, and proves what makes them correct.  Paths below are relative to
    src/pjproject/.

    ** The parts and how they interact

    - Prelude: record update, machine integers, bytes in memory, status codes.
    - Mem: reading packets and writing them: outcomes of code that may read past
      the end, and the lemmas on ranges of memory that the RTCP files share.
    - Crc32, Sha1, Md5 (pjlib-util/src/pjlib-util/crc32.c, sha1.c, hmac_sha1.c,
      md5.c): the checksum, the two hashes and the keyed hash.
    - PjString (pjlib/src/pj/string.c, pjlib/include/pj/string_i.h, ctype.h):
      comparison, tokens, trimming, numbers to text and back.
    - Hash (pjlib/src/pj/hash.c): the chained hash table and its iterator.
    - Base64 (pjlib-util/src/pjlib-util/base64.c): the encoder and the decoder.
    - Rtp (pjmedia/src/pjmedia/rtp.c): RTP packets and the sequence number
      controller that RTP and RTCP share.
    - PjMath (pjlib/include/pj/math.h): the integer square root and the running
      statistics.
    - FrameList, Jbuf (pjmedia/src/pjmedia/jbuf.c): the circular list of frames
      and the adaptive jitter buffer over it.  The calls of the jitter buffer are
      made of the operations of the frame list, and its statistics are those of
      PjMath.
    - TimeVal (pjlib/include/pj/types.h, pjlib/src/pj/types.c): time values.
    - Timer (pjlib/src/pj/timer.c): the timer heap: scheduling, cancelling and
      polling entries, with callbacks that re-enter the heap.
    - TimerService: the interface through which clients see the heap, a class of
      operations ([TimerService]) and a class of laws ([TimerPromise]); the heap
      of Timer is an instance of both.
    - StunMsg (pjnath/src/pjnath/stun_msg.c, stun_msg.h): STUN messages: the tables
      of their attributes, the encoder and decoder of each kind, the parser and the
      printer of messages with the keyed hash of Sha1 and the fingerprint of Crc32.
      StunWire: their format on the wire; StunMsgProps: what the printer makes of a
      message; StunDecode: what the parser makes of that and of any other packet.
    - StunAuth (pjnath/src/pjnath/stun_auth.c): the credentials of STUN: the keys, with
      Md5, and the checks of requests and responses over the messages of StunMsg.
    - StunTsx (pjnath/src/pjnath/stun_transaction.c): STUN client transactions of
      the messages of StunMsg, over any timer service; their user is a class of
      callbacks ([StunUser]) with what it promises ([UserPromise]).
    - Transaction (pjsip/src/pjsip/sip_transaction.c): the SIP transaction state
      machine; the class [TsxEnv] is what it asks of transports, resolver and
      message construction.  TsxMoves, TsxSteps and TsxTrace hold the lemmas on
      its steps, TsxProps its theorems.
    - TsxKey (the same file): the keys that identify transactions.
    - TsxLayer (the same file, [mod_tsx_layer]): the layer that creates
      transactions, keeps them in a hash table under their keys, dispatches
      received messages to them and stops them when the module ends.
    - Scanner (pjlib-util/src/pjlib-util/scanner.c): the text scanner, as far as
      the SDP parser uses it.
    - Sdp (pjmedia/src/pjmedia/sdp.c, sdp.h): session descriptions, their
      attributes and their validation; SdpText: their printer and their parser,
      SdpTextProps its round trip and bounds; SdpAttr: the rtcp and ssrc
      attributes; SdpCmp (sdp_cmp.c): their comparison.
    - SdpNeg (pjmedia/src/pjmedia/sdp_neg.c): the offer/answer negotiator; the
      format callbacks that codecs register are the class [FmtMatchCb], what they
      promise is [FmtMatchPromise].  SdpNegProps: what one negotiation agrees on;
      SdpExchange: the negotiator under any sequence of calls.
    - Rtcp (pjmedia/src/pjmedia/rtcp.c, rtcp.h): RTCP sessions and what they learn
      from RTP packets, with the sequence numbers of Rtp and the statistics of
      PjMath; RtcpFb (rtcp_fb.c): the feedback messages; RtcpRx (rtcp.c): the
      compound packets received, the reports, source descriptions and BYE packets
      built.  RtcpProps: the receiver on any datagram; RtcpReport: the state under
      any sequence of calls; RtcpMeasure: jitter, losses and what a report
      carries; RtcpRtt: the round trip time; RtcpBuild: feedback and source
      descriptions from one end to the other.

    A function of the source is a Definition or Fixpoint of the same name.  Its
    part of the state is passed in and returned; a [pj_status_t] is a value of
    [pj_status]; a function that can read outside a buffer or run out of fuel
    returns an option.  Loops of a function are Fixpoints beside it.

    ** What the theorems show

    - SIP transactions: every step is one of the diagrams of RFC 3261
      ([tsx_refines_rfc3261]); reachable transactions are consistent
      ([tsx_reachable_wf]) and a timeout ends them ([tsx_timeout_destroys]); the
      exact effects of failures, final answers, retransmissions and refused
      sends; what two messages must share to get one key, and how that differs
      from the RFC's matching rules ([tsx_key_identifies]); the key fits its
      buffer.
    - The layer: its table holds exactly the live transactions, under their keys
      ([layer_reachable_wf]); a message goes to the transaction that the RFC's rules
      match it to and to no other, but where the rules look at what a key leaves
      out ([layer_dispatch]); stopping ends and empties the table
      ([layer_stop_spec]).
    - STUN transactions: one outcome at most under any interleaving with
      callbacks that re-enter ([stun_one_outcome]); an unanswered request is sent
      seven times and then times out, at the stated times ([stun_times_out]); a
      waiting transaction always ends ([stun_ends]).
    - STUN messages: what is encoded is decoded again, whatever follows it in memory
      ([stun_encode_decode]); any other packet is decoded into a message that fits
      the tables or refused ([stun_decode_types]); a checked packet is decoded in
      bounds but for the cases stated ([stun_decode_in_bounds]); an attribute that must be understood and is not is
      answered with its type ([stun_unknown_attribute]); the fingerprint detects
      damage within four bytes ([stun_fingerprint_detects]).
    - STUN authentication: a request is accepted exactly when it shows the
      credential and has its hash ([stun_request_authentic]); what one end sends
      under a key passes the checks of the other under the keys with the same hash
      ([stun_sent_authenticated]); how a request is refused
      ([stun_request_challenged]).
    - The timer heap: well-formed under any sequence of re-entrant calls
      ([timer_reachable_wf]); a poll takes out the due entries in the order of their
      times, with any callback that keeps the heap well-formed
      ([timer_fires_in_order]); a poll ends ([timer_poll_spec]).
    - The jitter buffer: the ring refines a sliding window of frames
      ([framelist_refines_window]); frames are delivered in order, each
      once, with the bytes that were put ([jbuf_delivers_in_order]); well-formed under any calls.
    - RTP: encoding and decoding are inverse; the decoder is safe exactly on the
      packets stated; the 16 bit sequence numbers track the sender's unbounded
      count ([rtp_seq_tracks_sender]).
    - Hash tables refine finite maps ([hash_refines_map]); an iteration visits
      each entry once.  Number conversions saturate and invert; base64 decoding
      inverts encoding and agrees with a reference decoder.
    - The table-driven CRC-32 is the bitwise one however the data is laid out and
      cut ([crc32_is_bitwise]) and detects bursts of 32 bits
      ([crc32_detects_burst]); the hashes are those of FIPS 180 and RFC 1321, which
      are written out with their own constants ([sha1_is_fips180],
      [md5_is_rfc1321]), and the keyed hash that of RFC 2104 ([hmac_is_rfc2104]).
    - SDP: the negotiator implements the offer/answer exchange of RFC 3264, and what
      it allows beyond it, under any calls ([sdp_refines_offer_answer]) and a failed
      exchange leaves the session as it was but for the version of our description
      ([sdp_failed_exchange_rolls_back]); the answer to an
      offer has a line for each of its lines and names its codecs
      ([sdp_answer_matches_offer]); a remote answer leaves formats that match one
      for one ([sdp_formats_agree]), line by line ([sdp_answer_line_by_line]), in
      directions both sides agree to ([sdp_direction_is_agreed]).  Printing and
      parsing invert ([sdp_print_parse_roundtrip]); the parser ends on any text
      and what it gives fits the arrays ([sdp_parse_total], [sdp_parse_fits]);
      how far the printer writes ([sdp_print_in_bounds]); what the comparison
      means ([sdp_session_cmp_spec]).
    - RTCP: two sessions that exchange reports measure the round trip time between
      them, to about a millisecond, whatever their clocks, and record it, cut to
      three times the mean ([rtcp_rtt_is_round_trip]); a report carries what one end measured to the
      other ([rtcp_report_roundtrip]); the fraction lost and the losses of an
      interval ([rtcp_interval_report]); the jitter is at most the spread of the
      transit times ([rtcp_jitter_bounded]).  Compound packets of the sizes they
      state are taken apart in bounds ([rtcp_compound_spec]), and the receiver
      ends on any bytes (lemma [rtcp_rx_ends]); the session is well-formed under
      any calls and any datagrams, and what it copies of them fits its buffers
      ([rtcp_reachable_wf]); acknowledgements and
      source descriptions reach the peer (lemma [rtcp_nack_roundtrip],
      [rtcp_sdes_roundtrip]).  Where the receiver does not check what it reads is
      stated by the lemmas at the end of RtcpBuild.

    Each theorem with a hypothesis is followed by a lemma, named [_witness], that
    applies it at a concrete input.

    ** Configuration

    A little-endian LP64 host with signed [char]; the default build options
    ([PJ_TIMER_USE_COPY] = 1, no linked-list timers, [PJ_HAS_STRICMP_ALNUM] = 0,
    [PJ_HAS_FLOATING_POINT] = 0 for the statistics); a release build, in which
    [pj_assert] does nothing and [PJ_ASSERT_RETURN] returns.  CRC-32 has its
    tables ([PJ_CRC32_HAS_TABLES] = 1; the routine without them is its
    reference), SHA-1 overwrites the block it is given.  RTCP has no
    extended reports ([PJMEDIA_HAS_RTCP_XR] = 0), no raw jitter and no delay
    variation statistics, [PJMEDIA_RTCP_NORMALIZE_FACTOR] = 3 and a buffer of 64
    bytes for the peer's source description.  STUN messages have the keyed hash and
    the fingerprint of RFC 5389 ([PJ_STUN_OLD_STYLE_MI_FINGERPRINT] = 0).

    ** Fuel

    Recursion that is not structural takes fuel, and the theorems use amounts
    proved to be enough: making room in the frame list needs at most three
    rounds, discarding and skipping at most the size of the list and one; a sift
    in the timer heap the depth of its slot, a poll [max_entries_per_poll] and
    one; the square root 16 rounds, or 40 for its own termination theorem; a
    number 20 digits; growing a hash table 28 doublings; stopping the layer one
    round for each transaction; base64 decoding the length of the text; parsing
    a description or a format list the length of the text and one; a send
    inside a send one level; taking an RTCP datagram apart its size and one, a source
    description its size, padding to four bytes four rounds; hashing the whole blocks of
    a piece its length, padding a hash 64 rounds; the attributes of a STUN message its
    length field and one, the search for the text of an error code 19 rounds; the run of a STUN transaction one
    round for each transmission it has left and one for the timeout.

    ** Not modelled

    Threads and locks: each call is one step, and what a lock protects is taken
    as protected; the reference counts of group locks are kept where objects live
    by them.  Memory pools: allocation succeeds.  Log output, names of objects,
    addresses and reason phrases.  In a SIP transaction, a user that calls back
    into the transaction from inside a notification; in the layer, events on a
    transaction whose destruction is pending.  In a STUN transaction, callbacks
    that send on the transaction they are called for.  Of a SIP message, only what
    the modelled code reads.  In STUN messages, the sharing of attributes between
    messages.  In a session description, the sharing of strings
    and media between clones; a text to parse ends with a NUL, and an empty
    format reads as one.  In RTCP, the results of the clock functions, which do not
    fail on the platforms the model is of; the SDP attributes of feedback.

    Other parts of the source: I/O, sockets, SSL, the operating system layer and
    devices are system or third-party calls; codecs, signal processing, OpenSSL
    and the other vendored libraries are not this project's logic; applications
    and bindings sit above it.  The SIP parser and messages, dialogs, INVITE
    sessions, extended RTCP reports, STUN sessions, ICE and TURN are logic of the
    project that is not modelled: they are built of messages whose parsing and
    printing would have to be modelled with them. *)

From stdpp Require Export prelude.
From Stdlib Require Export ZArith Lia.
Open Scope Z_scope.

(** ** Record update

    [r <| f := v |>] is the C assignment [r->f = v] on a record value and
    [r <| f ::= g |>] the read-modify-write [r->f = g(r->f)].  The setter of a
    field is computed by abstracting the projection in the eta expansion of
    the record. *)

Class Eta (R : Type) := eta : R -> R.

Class Setter {R T : Type} (f : R -> T) := modify : (T -> T) -> R -> R.
Arguments modify {R T} f {Setter} g !r /.

Ltac solve_setter :=
  lazymatch goal with
  | |- @Setter ?R ?T ?f =>
      let inst := constr:(_ : Eta R) in
      let body := eval hnf in inst in
      lazymatch eval pattern f in body with
      | ?ctx _ =>
          let s := constr:(fun (g : T -> T) (r : R) => ctx (fun r' : R => g (f r')) r) in
          let s := eval cbv beta in s in
          exact s
      end
  end.

#[export] Hint Extern 1 (Setter _) => solve_setter : typeclass_instances.

Declare Scope pj_scope.
Delimit Scope pj_scope with pj.
Notation "r <| f := v |>" := (modify f (fun _ => v) r)
  (at level 1, left associativity, f constr at level 0, v at level 200,
   format "r  <| f  :=  v |>") : pj_scope.
Notation "r <| f ::= g |>" := (modify f g r)
  (at level 1, left associativity, f constr at level 0, g at level 200,
   format "r  <| f  ::=  g |>") : pj_scope.
Open Scope pj_scope.


(** ** Machine integers

    A w-bit unsigned C integer is a [Z] reduced modulo [2^w]; the [uN]
    functions are the conversions C performs on assignment, cast and unsigned
    arithmetic.  [sN] is the two's complement reading of the low N bits. *)

Definition u8 (x : Z) : Z := x mod 256.
Definition u16 (x : Z) : Z := x mod 65536.
Definition u32 (x : Z) : Z := x mod 4294967296.
Definition u64 (x : Z) : Z := x mod 18446744073709551616.
Definition s8 (x : Z) : Z := (x + 128) mod 256 - 128.
Definition s16 (x : Z) : Z := (x + 32768) mod 65536 - 32768.
Definition s32 (x : Z) : Z := (x + 2147483648) mod 4294967296 - 2147483648.

Definition PJ_MAXINT32 : Z := 2147483647.

(** Range predicates, one per C type. *)
Definition is_u8 (x : Z) : Prop := 0 <= x < 256.
Definition is_u16 (x : Z) : Prop := 0 <= x < 65536.
Definition is_u32 (x : Z) : Prop := 0 <= x < 4294967296.
Definition is_u64 (x : Z) : Prop := 0 <= x < 18446744073709551616.
Definition is_s32 (x : Z) : Prop := -2147483648 <= x < 2147483648.

(** [word_lia]: linear arithmetic over expressions with the conversions above. *)
Ltac unfold_words :=
  unfold is_u8, is_u16, is_u32, is_u64, is_s32, u8, u16, u32, u64, s8, s16, s32 in *.
Ltac word_lia := unfold_words; Z.to_euclidean_division_equations; lia.

Lemma u8_range x : is_u8 (u8 x).
Proof. word_lia. Qed.
Lemma u16_range x : is_u16 (u16 x).
Proof. word_lia. Qed.
Lemma u32_range x : is_u32 (u32 x).
Proof. word_lia. Qed.
Lemma u64_range x : is_u64 (u64 x).
Proof. word_lia. Qed.
Lemma s32_range x : is_s32 (s32 x).
Proof. word_lia. Qed.

Lemma u8_small x : is_u8 x -> u8 x = x.
Proof. intros. word_lia. Qed.
Lemma u16_small x : is_u16 x -> u16 x = x.
Proof. intros. word_lia. Qed.
Lemma u32_small x : is_u32 x -> u32 x = x.
Proof. intros. word_lia. Qed.
Lemma u64_small x : is_u64 x -> u64 x = x.
Proof. intros. word_lia. Qed.
Lemma s32_small x : is_s32 x -> s32 x = x.
Proof. intros. word_lia. Qed.

Lemma u16_idemp x : u16 (u16 x) = u16 x.
Proof. word_lia. Qed.
Lemma u32_idemp x : u32 (u32 x) = u32 x.
Proof. word_lia. Qed.
Lemma u16_add_l x y : u16 (u16 x + y) = u16 (x + y).
Proof. unfold u16. apply Zplus_mod_idemp_l. Qed.
Lemma u32_add_l x y : u32 (u32 x + y) = u32 (x + y).
Proof. unfold u32. apply Zplus_mod_idemp_l. Qed.
Lemma u32_add_r x y : u32 (x + u32 y) = u32 (x + y).
Proof. unfold u32. apply Zplus_mod_idemp_r. Qed.
Lemma u16_u32 x : u16 (u32 x) = u16 x.
Proof. word_lia. Qed.

Create HintDb pj.
Create Rewrite HintDb words.
#[export] Hint Resolve u8_range u16_range u32_range u64_range s32_range : pj.
#[export] Hint Rewrite u16_idemp u32_idemp u16_add_l u32_add_l u32_add_r u16_u32 : words.

(** A C truth value read from an integer, and back. *)
Definition truth (x : Z) : bool := negb (x =? 0).
Definition b2z (b : bool) : Z := if b then 1 else 0.

(** ** Bytes in memory

    A packet or buffer is the list of its bytes.  [rd8 p i] is the read
    [((pj_uint8_t* )p)[i]]; [None] is a read outside the buffer. *)

Definition is_bytes (l : list Z) : Prop := Forall is_u8 l.
Definition zlen {A} (l : list A) : Z := Z.of_nat (length l).

Definition rd8 (p : list Z) (i : Z) : option Z :=
  if i <? 0 then None else p !! Z.to_nat i.

(** A 16 and a 32 bit load on a little-endian host. *)
Definition rd16 (p : list Z) (i : Z) : option Z :=
  b0 ← rd8 p i; b1 ← rd8 p (i + 1); Some (b0 + 256 * b1).
Definition rd32 (p : list Z) (i : Z) : option Z :=
  b0 ← rd8 p i; b1 ← rd8 p (i + 1); b2 ← rd8 p (i + 2); b3 ← rd8 p (i + 3);
  Some (b0 + 256 * b1 + 65536 * b2 + 16777216 * b3).

(** The corresponding stores, as the bytes they write. *)
Definition st16 (v : Z) : list Z := [v mod 256; v / 256 mod 256].
Definition st32 (v : Z) : list Z :=
  [v mod 256; v / 256 mod 256; v / 65536 mod 256; v / 16777216 mod 256].

(** [pj_htons]/[pj_ntohs] and [pj_htonl]/[pj_ntohl] (the host is
    little-endian, so each is a byte swap). *)
Definition swap16 (v : Z) : Z := v mod 256 * 256 + v / 256 mod 256.
Definition swap32 (v : Z) : Z :=
  v mod 256 * 16777216 + v / 256 mod 256 * 65536 +
  v / 65536 mod 256 * 256 + v / 16777216 mod 256.

Lemma swap16_range v : is_u16 (swap16 v).
Proof. unfold swap16, is_u16. Z.to_euclidean_division_equations; lia. Qed.
Lemma swap32_range v : is_u32 (swap32 v).
Proof. unfold swap32, is_u32. Z.to_euclidean_division_equations; lia. Qed.
Lemma swap16_swap16 v : swap16 (swap16 v) = u16 v.
Proof. unfold swap16, u16. Z.to_euclidean_division_equations; lia. Qed.
Lemma swap32_swap32 v : swap32 (swap32 v) = u32 v.
Proof.
  unfold swap32 at 1.
  assert (swap32 v mod 256 = v / 16777216 mod 256 /\ swap32 v / 256 mod 256 = v / 65536 mod 256 /\
          swap32 v / 65536 mod 256 = v / 256 mod 256 /\ swap32 v / 16777216 mod 256 = v mod 256)
    as (-> & -> & -> & ->) by (unfold swap32; Z.to_euclidean_division_equations; lia).
  unfold u32; Z.to_euclidean_division_equations; lia.
Qed.

#[export] Hint Resolve swap16_range swap32_range : pj.
#[export] Hint Rewrite swap16_swap16 swap32_swap32 : words.

Lemma st32_sum v : is_u32 v ->
  v mod 256 + 256 * (v / 256 mod 256) + 65536 * (v / 65536 mod 256) +
  16777216 * (v / 16777216 mod 256) = v.
Proof. unfold is_u32. Z.to_euclidean_division_equations; lia. Qed.
Lemma st16_sum v : is_u16 v -> v mod 256 + 256 * (v / 256 mod 256) = v.
Proof. unfold is_u16. Z.to_euclidean_division_equations; lia. Qed.

Lemma zlen_nonneg {A} (l : list A) : 0 <= zlen l.
Proof. unfold zlen; lia. Qed.
Lemma zlen_app {A} (l k : list A) : zlen (l ++ k) = zlen l + zlen k.
Proof. unfold zlen. rewrite length_app. lia. Qed.
Lemma zlen_cons {A} (x : A) l : zlen (x :: l) = 1 + zlen l.
Proof. unfold zlen. cbn [length]. lia. Qed.

Lemma zlen_take {A} n (l : list A) : 0 <= n <= zlen l -> zlen (take (Z.to_nat n) l) = n.
Proof. unfold zlen. rewrite length_take. lia. Qed.
Lemma zlen_drop {A} n (l : list A) : 0 <= n <= zlen l -> zlen (drop (Z.to_nat n) l) = zlen l - n.
Proof. unfold zlen. rewrite length_drop. lia. Qed.
Lemma zlen_replicate {A} n (x : A) : 0 <= n -> zlen (replicate (Z.to_nat n) x) = n.
Proof. unfold zlen. rewrite length_replicate. lia. Qed.

Lemma zlen_0 {A} (l : list A) : zlen l = 0 <-> l = [].
Proof. destruct l; unfold zlen; cbn; split; (done || lia). Qed.

Lemma rd8_spec p i b : rd8 p i = Some b <-> 0 <= i /\ p !! Z.to_nat i = Some b.
Proof.
  unfold rd8. destruct (Z.ltb_spec i 0); split; [done|lia|auto|by intros [_ ?]].
Qed.

Lemma rd8_is_Some p i : is_Some (rd8 p i) <-> 0 <= i < zlen p.
Proof.
  unfold rd8, zlen. destruct (Z.ltb_spec i 0).
  - split; [intros [? ?]; done | lia].
  - rewrite lookup_lt_is_Some. lia.
Qed.

Lemma rd8_range p i b : is_bytes p -> rd8 p i = Some b -> is_u8 b.
Proof. intros Hp [_ H]%rd8_spec. eapply Forall_lookup_1; eauto. Qed.

Lemma alter_alter {A} (f g : A -> A) (i : nat) (l : list A) :
  alter f i (alter g i l) = alter (f ∘ g) i l.
Proof. revert i. induction l as [|x l IH]; intros [|i]; simpl; try done. f_equal. apply IH. Qed.

(** ** Status codes (pj/errno.h, pjmedia/errno.h, pjsip/sip_errno.h, pjnath/errno.h) *)

Inductive pj_status :=
  | PJ_SUCCESS
  | PJ_EINVAL | PJ_EINVALIDOP | PJ_ENOMEM | PJ_ENOTFOUND | PJ_EEXISTS
  | PJ_ETOOSMALL | PJ_ETOOBIG | PJ_ETOOMANY | PJ_ENOTSUP
  | PJ_MINUS_ONE (* the bare -1 some functions return *)
  | PJMEDIA_RTP_EINPACK | PJMEDIA_RTP_EINVER | PJMEDIA_RTP_EINLEN
  | PJ_EPENDING | PJ_EBUSY | PJ_EGONE
  | PJ_EBUG
  | PJNATH_STATUS (code : Z) (* [PJNATH_ERRNO_START + code] *)
  | PJMEDIA_STATUS (code : Z) (* [PJMEDIA_ERRNO_START + code] *).

#[export] Instance pj_status_eq_dec : EqDecision pj_status.
Proof. solve_decision. Defined.
