(* ===== verification/Mem.v ===== *)
(** * Memory that may end

    Reads and writes of memory given as the list of its bytes, as computations
    that say whether they stayed inside it, and the bit fields of machine words. *)

From S2P Require Import Prelude.

(** ** Reading memory that may end, in loops that may run *)

Inductive outcome (A : Type) :=
  | Done (a : A)
  | Overread    (* a read past the end of the memory *)
  | NoFuel      (* the loop has not ended *).
Arguments Done {_} a.
Arguments Overread {_}.
Arguments NoFuel {_}.

#[export] Instance outcome_ret : MRet outcome := fun A a => Done a.
#[export] Instance outcome_bind : MBind outcome := fun A B f m =>
  match m with Done a => f a | Overread => Overread | NoFuel => NoFuel end.

(** A read of memory. *)
Definition mem {A} (r : option A) : outcome A :=
  match r with Some a => Done a | None => Overread end.

(** A write at [off]; [None] is a write outside the buffer. *)
Definition wr (buf : list Z) (off : Z) (bs : list Z) : option (list Z) :=
  if (0 <=? off) && (off + zlen bs <=? zlen buf)
  then Some (take (Z.to_nat off) buf ++ bs ++ drop (Z.to_nat off + length bs) buf)
  else None.

(** ** Reads within a prefix *)

Lemma rd8_app_l k rest i : i < zlen k -> rd8 (k ++ rest) i = rd8 k i.
Proof.
  intros Hi. unfold rd8. destruct (Z.ltb_spec i 0); [done|].
  apply lookup_app_l. unfold zlen in Hi. lia.
Qed.

Lemma rd32_app_l k rest i : i + 3 < zlen k -> rd32 (k ++ rest) i = rd32 k i.
Proof. intros Hi. unfold rd32. by rewrite !rd8_app_l by lia. Qed.

Lemma rd8_drop k p i : 0 <= p -> 0 <= i -> rd8 (drop (Z.to_nat p) k) i = rd8 k (p + i).
Proof.
  intros Hp Hi. unfold rd8. destruct (Z.ltb_spec i 0), (Z.ltb_spec (p + i) 0); try lia.
  rewrite lookup_drop. f_equal. lia.
Qed.

Lemma rd32_drop k p i : 0 <= p -> 0 <= i -> rd32 (drop (Z.to_nat p) k) i = rd32 k (p + i).
Proof. intros. unfold rd32. rewrite !rd8_drop by lia. by rewrite !Z.add_assoc. Qed.

Lemma rd32_is_Some k i : 0 <= i -> i + 3 < zlen k -> is_Some (rd32 k i).
Proof.
  intros Hi Hk. unfold rd32.
  destruct (proj2 (rd8_is_Some k i) ltac:(lia)) as [? ->].
  destruct (proj2 (rd8_is_Some k (i + 1)) ltac:(lia)) as [? ->].
  destruct (proj2 (rd8_is_Some k (i + 2)) ltac:(lia)) as [? ->].
  destruct (proj2 (rd8_is_Some k (i + 3)) ltac:(lia)) as [? ->]. by eexists.
Qed.

Lemma rd32_range k i w : is_bytes k -> rd32 k i = Some w -> is_u32 w.
Proof.
  intros Hk H. unfold rd32 in H.
  destruct (rd8 k i) as [b0|] eqn:E0; [|done]. destruct (rd8 k (i + 1)) as [b1|] eqn:E1; [|done].
  destruct (rd8 k (i + 2)) as [b2|] eqn:E2; [|done]. destruct (rd8 k (i + 3)) as [b3|] eqn:E3; [|done].
  cbn in H. simplify_eq. apply rd8_range in E0, E1, E2, E3; auto. unfold_words. lia.
Qed.

Lemma wr_some buf off bs : 0 <= off -> off + zlen bs <= zlen buf ->
  wr buf off bs = Some (take (Z.to_nat off) buf ++ bs ++ drop (Z.to_nat (off + zlen bs)) buf).
Proof.
  intros H1 H2. unfold wr. rewrite (proj2 (Z.leb_le 0 off)), (proj2 (Z.leb_le _ (zlen buf))) by lia.
  cbn [andb]. do 4 f_equal. unfold zlen. lia.
Qed.

Lemma wr_spec buf off bs : 0 <= off -> off + zlen bs <= zlen buf ->
  exists buf', wr buf off bs = Some buf' /\ zlen buf' = zlen buf /\
  (is_bytes buf -> is_bytes bs -> is_bytes buf').
Proof.
  intros H1 H2. rewrite wr_some by done. eexists. split; [done|]. pose proof (zlen_nonneg bs). split.
  - rewrite !zlen_app, zlen_take, zlen_drop by lia. lia.
  - intros Hb Hs. repeat apply Forall_app_2; auto; [by apply Forall_take|by apply Forall_drop].
Qed.

Lemma wr_results buf off bs buf' : wr buf off bs = Some buf' -> is_bytes buf -> is_bytes bs ->
  zlen buf' = zlen buf /\ is_bytes buf'.
Proof.
  unfold wr. destruct (_ && _) eqn:E; [|done]. apply andb_true_iff in E as [E1%Z.leb_le E2%Z.leb_le].
  intros [= <-] Hb Hs. split.
  - unfold zlen in *. rewrite !length_app, length_take, length_drop. lia.
  - repeat apply Forall_app_2; auto; [by apply Forall_take|by apply Forall_drop].
Qed.

(** ** Computations *)

Lemma mem_bind {A B} (r : option A) (a : A) (f : A -> outcome B) :
  r = Some a -> (mem r ≫= f) = f a.
Proof. by intros ->. Qed.

Lemma bind_done {A B} (m : outcome A) (f : A -> outcome B) b :
  (m ≫= f) = Done b -> exists a, m = Done a /\ f a = Done b.
Proof. destruct m; cbn; [eauto|done|done]. Qed.

Lemma mem_ends {A} (r : option A) : mem r <> NoFuel.
Proof. by destruct r. Qed.

Lemma bind_ends {A B} (m : outcome A) (f : A -> outcome B) :
  m <> NoFuel -> (forall a, m = Done a -> f a <> NoFuel) -> (m ≫= f) <> NoFuel.
Proof. destruct m; cbn; auto. Qed.

Lemma mem_rd8_range k i b : is_bytes k -> mem (rd8 k i) = Done b -> is_u8 b.
Proof. intros Hk. destruct (rd8 k i) eqn:E; [|done]. intros [= <-]. by eapply rd8_range. Qed.

(** [m'] gives what [m] gives, whenever [m] gives something. *)
Definition refines {A} (m m' : outcome A) : Prop := forall a, m = Done a -> m' = Done a.

Lemma refines_refl {A} (m : outcome A) : refines m m.
Proof. by intros a. Qed.

Lemma refines_bind {A B} (m m' : outcome A) (f f' : A -> outcome B) :
  refines m m' -> (forall a, m = Done a -> refines (f a) (f' a)) -> refines (m ≫= f) (m' ≫= f').
Proof. intros Hm Hf b (a & Ha & Hb)%bind_done. rewrite (Hm a Ha). by apply (Hf a). Qed.

Lemma rd8_app k rest i b : rd8 k i = Some b -> rd8 (k ++ rest) i = Some b.
Proof. rewrite !rd8_spec. intros [? ?]. split; [done|]. by apply lookup_app_l_Some. Qed.

Lemma refines_rd8 k rest i : refines (mem (rd8 k i)) (mem (rd8 (k ++ rest) i)).
Proof. intros b. destruct (rd8 k i) eqn:E; [|done]. by rewrite (rd8_app _ _ _ _ E). Qed.

Lemma refines_rd32 k rest i : refines (mem (rd32 k i)) (mem (rd32 (k ++ rest) i)).
Proof.
  intros w. destruct (rd32 k i) eqn:E; [|done]. intros [= <-]. revert E. unfold rd32.
  destruct (rd8 k i) eqn:E0; [|done]. destruct (rd8 k (i + 1)) eqn:E1; [|done].
  destruct (rd8 k (i + 2)) eqn:E2; [|done]. destruct (rd8 k (i + 3)) eqn:E3; [|done].
  rewrite (rd8_app _ rest _ _ E0), (rd8_app _ rest _ _ E1), (rd8_app _ rest _ _ E2),
    (rd8_app _ rest _ _ E3). by intros ->.
Qed.

(** A computation that ends without an overread, in a result with [P]. *)
Definition yields {A} (m : outcome A) (P : A -> Prop) : Prop := exists a, m = Done a /\ P a.

Lemma yields_done {A} (a : A) (P : A -> Prop) : P a -> yields (Done a) P.
Proof. by exists a. Qed.

Lemma yields_bind {A B} (m : outcome A) (f : A -> outcome B) P Q :
  yields m P -> (forall a, P a -> yields (f a) Q) -> yields (m ≫= f) Q.
Proof. intros (a & -> & Ha) Hf. by apply Hf. Qed.

Lemma yields_mono {A} (m : outcome A) (P Q : A -> Prop) :
  yields m P -> (forall a, P a -> Q a) -> yields m Q.
Proof. intros (a & -> & Ha) HPQ. exists a. auto. Qed.

Lemma yields_rd8 k i : is_bytes k -> 0 <= i < zlen k ->
  yields (mem (rd8 k i)) (fun b => is_u8 b /\ rd8 k i = Some b).
Proof.
  intros Hk Hi. destruct (proj2 (rd8_is_Some k i) Hi) as [b E]. exists b. rewrite E.
  split_and!; auto. by eapply rd8_range.
Qed.

Lemma yields_rd32 k i : is_bytes k -> 0 <= i -> i + 3 < zlen k ->
  yields (mem (rd32 k i)) (fun w => is_u32 w /\ rd32 k i = Some w).
Proof.
  intros Hk Hi Hl. destruct (rd32_is_Some k i Hi Hl) as [w E]. exists w. rewrite E.
  split_and!; auto. by eapply rd32_range.
Qed.

(** A partial computation whose results all have [P]. *)
Definition results {A} (m : outcome A) (P : A -> Prop) : Prop := forall a, m = Done a -> P a.

Lemma results_bind {A B} (m : outcome A) (f : A -> outcome B) P Q :
  results m P -> (forall a, P a -> results (f a) Q) -> results (m ≫= f) Q.
Proof. intros Hm Hf b (a & Ha & Hb)%bind_done. exact (Hf a (Hm a Ha) b Hb). Qed.

Lemma results_done {A} (a : A) (P : A -> Prop) : P a -> results (Done a) P.
Proof. by intros ? ? [= <-]. Qed.

Lemma results_rd8 k i : is_bytes k -> results (mem (rd8 k i)) is_u8.
Proof. intros Hk b Hb. by eapply mem_rd8_range. Qed.

Lemma results_rd32 k i : is_bytes k -> results (mem (rd32 k i)) is_u32.
Proof. intros Hk w. destruct (rd32 k i) eqn:E; [|done]. intros [= <-]. by eapply rd32_range. Qed.

(** ** Bit fields *)

Lemma land_u8 x : is_u8 (Z.land x 255).
Proof.
  change 255 with (Z.ones 8). rewrite Z.land_ones by lia. change (2 ^ 8) with 256.
  apply u8_range.
Qed.

(** Bit fields: the [m] bits of [x] from bit [k] on, in place. *)
Lemma land_field x k m : 0 <= k -> 0 <= m ->
  Z.land x (Z.shiftl (Z.ones m) k) = x / 2 ^ k mod 2 ^ m * 2 ^ k.
Proof.
  intros Hk Hm. rewrite <- Z.shiftl_mul_pow2, <- Z.land_ones, <- Z.shiftr_div_pow2 by done.
  apply Z.bits_inj'. intros n Hn.
  rewrite Z.land_spec, !Z.shiftl_spec by done. destruct (Z.ltb_spec n k).
  - by rewrite !(Z.testbit_neg_r _ (n - k)), andb_false_r by lia.
  - rewrite Z.land_spec, Z.shiftr_spec by lia. do 2 f_equal. lia.
Qed.

(** Two fields that do not overlap. *)
Lemma lor_fields a b k : 0 <= k -> 0 <= b < 2 ^ k -> Z.lor (Z.shiftl a k) b = a * 2 ^ k + b.
Proof.
  intros Hk Hb. assert (Z.land (Z.shiftl a k) b = 0) as Hd.
  { replace b with (Z.land b (Z.ones k)) by (rewrite Z.land_ones by lia; by apply Z.mod_small).
    apply Z.bits_inj'. intros n Hn. rewrite !Z.land_spec, Z.shiftl_spec, Z.bits_0 by done.
    destruct (Z.ltb_spec n k); [by rewrite (Z.testbit_neg_r _ (n - k)) by lia|].
    by rewrite Z.ones_spec_high, !andb_false_r by lia. }
  rewrite <- Z.lxor_lor, <- Z.add_nocarry_lxor, Z.shiftl_mul_pow2 by done. done.
Qed.

(** [x & 0xFFFF0000] *)
Lemma land_hi x : is_u32 x -> Z.land x 4294901760 = x - x mod 65536.
Proof.
  intros Hx. change 4294901760 with (Z.shiftl (Z.ones 16) 16). rewrite land_field by lia.
  change (2 ^ 16) with 65536. word_lia.
Qed.

(** The two halves of a word, joined by [|]. *)
Lemma lor_hi_lo a b : 0 <= b < 65536 -> Z.lor (Z.shiftl a 16) b = a * 65536 + b.
Proof. intros Hb. by apply (lor_fields a b 16). Qed.

Lemma land_ffff x : Z.land x 65535 = x mod 65536.
Proof. change 65535 with (Z.ones 16). by rewrite Z.land_ones. Qed.

Lemma st32_bytes v : is_bytes (st32 v).
Proof. repeat constructor; unfold is_u8; Z.to_euclidean_division_equations; lia. Qed.
Lemma st16_bytes v : is_bytes (st16 v).
Proof. repeat constructor; unfold is_u8; Z.to_euclidean_division_equations; lia. Qed.

(** ** Lists in three parts *)

Lemma take_drop_mid (a b c : list Z) :
  take (Z.to_nat (zlen b)) (drop (Z.to_nat (zlen a)) (a ++ b ++ c)) = b.
Proof. unfold zlen. by rewrite !Nat2Z.id, drop_app_length, take_app_length. Qed.

Lemma rd8_mid pre b rest : rd8 (pre ++ b :: rest) (zlen pre) = Some b.
Proof.
  apply rd8_spec. split; [apply zlen_nonneg|]. unfold zlen. rewrite Nat2Z.id.
  by rewrite list_lookup_middle.
Qed.
