(* ===== verification/Crc32.v ===== *)
(** * CRC-32 (pjlib-util/src/pjlib-util/crc32.c)

    The table-driven routine of the default build, with its loops for unaligned
    bytes, words and trailing bytes, and the routine without tables of the same
    file.  They compute the same function, which detects every change within four
    consecutive bytes. *)

From S2P Require Import Prelude Mem.

(** ** The routine with tables, for a little-endian host *)

Definition CRC32_NEGL : Z := 0xffffffff.
Definition CRC32_INDEX (c : Z) : Z := Z.land c 0xff.
Definition CRC32_SHIFTED (c : Z) : Z := Z.shiftr c 8.
Definition CRC32_SWAP (c : Z) : Z := c.

Definition crc_tab : list Z :=
  [0x00000000; 0x77073096; 0xee0e612c; 0x990951ba; 0x076dc419; 0x706af48f;
   0xe963a535; 0x9e6495a3; 0x0edb8832; 0x79dcb8a4; 0xe0d5e91e; 0x97d2d988;
   0x09b64c2b; 0x7eb17cbd; 0xe7b82d07; 0x90bf1d91; 0x1db71064; 0x6ab020f2;
   0xf3b97148; 0x84be41de; 0x1adad47d; 0x6ddde4eb; 0xf4d4b551; 0x83d385c7;
   0x136c9856; 0x646ba8c0; 0xfd62f97a; 0x8a65c9ec; 0x14015c4f; 0x63066cd9;
   0xfa0f3d63; 0x8d080df5; 0x3b6e20c8; 0x4c69105e; 0xd56041e4; 0xa2677172;
   0x3c03e4d1; 0x4b04d447; 0xd20d85fd; 0xa50ab56b; 0x35b5a8fa; 0x42b2986c;
   0xdbbbc9d6; 0xacbcf940; 0x32d86ce3; 0x45df5c75; 0xdcd60dcf; 0xabd13d59;
   0x26d930ac; 0x51de003a; 0xc8d75180; 0xbfd06116; 0x21b4f4b5; 0x56b3c423;
   0xcfba9599; 0xb8bda50f; 0x2802b89e; 0x5f058808; 0xc60cd9b2; 0xb10be924;
   0x2f6f7c87; 0x58684c11; 0xc1611dab; 0xb6662d3d; 0x76dc4190; 0x01db7106;
   0x98d220bc; 0xefd5102a; 0x71b18589; 0x06b6b51f; 0x9fbfe4a5; 0xe8b8d433;
   0x7807c9a2; 0x0f00f934; 0x9609a88e; 0xe10e9818; 0x7f6a0dbb; 0x086d3d2d;
   0x91646c97; 0xe6635c01; 0x6b6b51f4; 0x1c6c6162; 0x856530d8; 0xf262004e;
   0x6c0695ed; 0x1b01a57b; 0x8208f4c1; 0xf50fc457; 0x65b0d9c6; 0x12b7e950;
   0x8bbeb8ea; 0xfcb9887c; 0x62dd1ddf; 0x15da2d49; 0x8cd37cf3; 0xfbd44c65;
   0x4db26158; 0x3ab551ce; 0xa3bc0074; 0xd4bb30e2; 0x4adfa541; 0x3dd895d7;
   0xa4d1c46d; 0xd3d6f4fb; 0x4369e96a; 0x346ed9fc; 0xad678846; 0xda60b8d0;
   0x44042d73; 0x33031de5; 0xaa0a4c5f; 0xdd0d7cc9; 0x5005713c; 0x270241aa;
   0xbe0b1010; 0xc90c2086; 0x5768b525; 0x206f85b3; 0xb966d409; 0xce61e49f;
   0x5edef90e; 0x29d9c998; 0xb0d09822; 0xc7d7a8b4; 0x59b33d17; 0x2eb40d81;
   0xb7bd5c3b; 0xc0ba6cad; 0xedb88320; 0x9abfb3b6; 0x03b6e20c; 0x74b1d29a;
   0xead54739; 0x9dd277af; 0x04db2615; 0x73dc1683; 0xe3630b12; 0x94643b84;
   0x0d6d6a3e; 0x7a6a5aa8; 0xe40ecf0b; 0x9309ff9d; 0x0a00ae27; 0x7d079eb1;
   0xf00f9344; 0x8708a3d2; 0x1e01f268; 0x6906c2fe; 0xf762575d; 0x806567cb;
   0x196c3671; 0x6e6b06e7; 0xfed41b76; 0x89d32be0; 0x10da7a5a; 0x67dd4acc;
   0xf9b9df6f; 0x8ebeeff9; 0x17b7be43; 0x60b08ed5; 0xd6d6a3e8; 0xa1d1937e;
   0x38d8c2c4; 0x4fdff252; 0xd1bb67f1; 0xa6bc5767; 0x3fb506dd; 0x48b2364b;
   0xd80d2bda; 0xaf0a1b4c; 0x36034af6; 0x41047a60; 0xdf60efc3; 0xa867df55;
   0x316e8eef; 0x4669be79; 0xcb61b38c; 0xbc66831a; 0x256fd2a0; 0x5268e236;
   0xcc0c7795; 0xbb0b4703; 0x220216b9; 0x5505262f; 0xc5ba3bbe; 0xb2bd0b28;
   0x2bb45a92; 0x5cb36a04; 0xc2d7ffa7; 0xb5d0cf31; 0x2cd99e8b; 0x5bdeae1d;
   0x9b64c2b0; 0xec63f226; 0x756aa39c; 0x026d930a; 0x9c0906a9; 0xeb0e363f;
   0x72076785; 0x05005713; 0x95bf4a82; 0xe2b87a14; 0x7bb12bae; 0x0cb61b38;
   0x92d28e9b; 0xe5d5be0d; 0x7cdcefb7; 0x0bdbdf21; 0x86d3d2d4; 0xf1d4e242;
   0x68ddb3f8; 0x1fda836e; 0x81be16cd; 0xf6b9265b; 0x6fb077e1; 0x18b74777;
   0x88085ae6; 0xff0f6a70; 0x66063bca; 0x11010b5c; 0x8f659eff; 0xf862ae69;
   0x616bffd3; 0x166ccf45; 0xa00ae278; 0xd70dd2ee; 0x4e048354; 0x3903b3c2;
   0xa7672661; 0xd06016f7; 0x4969474d; 0x3e6e77db; 0xaed16a4a; 0xd9d65adc;
   0x40df0b66; 0x37d83bf0; 0xa9bcae53; 0xdebb9ec5; 0x47b2cf7f; 0x30b5ffe9;
   0xbdbdf21c; 0xcabac28a; 0x53b39330; 0x24b4a3a6; 0xbad03605; 0xcdd70693;
   0x54de5729; 0x23d967bf; 0xb3667a2e; 0xc4614ab8; 0x5d681b02; 0x2a6f2b94;
   0xb40bbe37; 0xc30c8ea1; 0x5a05df1b; 0x2d02ef8d].

(** [crc_tab[i]]; the index is a byte. *)
Definition crc_lookup (i : Z) : Z := nth (Z.to_nat i) crc_tab 0.

Record pj_crc32_context := Crc32Context { crc_state : Z }.

Definition pj_crc32_init : pj_crc32_context := Crc32Context 0.

Definition crc_byte (crc b : Z) : Z :=
  Z.lxor (crc_lookup (Z.lxor (CRC32_INDEX crc) b)) (CRC32_SHIFTED crc).

(** The bytes before the first address that is a multiple of four. *)
Fixpoint crc_align (addr crc : Z) (data : list Z) : Z * list Z :=
  match data with
  | b :: rest =>
      if truth (Z.land addr 3) then crc_align (addr + 1) (crc_byte crc b) rest
      else (crc, data)
  | [] => (crc, data)
  end.

Definition crc_shift (crc : Z) : Z :=
  Z.lxor (crc_lookup (CRC32_INDEX crc)) (CRC32_SHIFTED crc).

(** Four bytes at a time. *)
Fixpoint crc_words (crc : Z) (data : list Z) : Z * list Z :=
  match data with
  | b0 :: b1 :: b2 :: b3 :: rest =>
      let crc := Z.lxor crc (b0 + 256 * b1 + 65536 * b2 + 16777216 * b3) in
      crc_words (crc_shift (crc_shift (crc_shift (crc_shift crc)))) rest
  | _ => (crc, data)
  end.

(** [data] are the [nbytes] bytes at the address [addr]. *)
Definition pj_crc32_update (ctx : pj_crc32_context) (addr : Z) (data : list Z) :
    pj_crc32_context * Z :=
  let crc := Z.lxor (crc_state ctx) CRC32_NEGL in
  let '(crc, data) := crc_align addr crc data in
  let '(crc, data) := crc_words crc data in
  let crc := fold_left crc_byte data crc in
  (Crc32Context (Z.lxor crc CRC32_NEGL), Z.lxor crc CRC32_NEGL).

Definition pj_crc32_final (ctx : pj_crc32_context) : Z := CRC32_SWAP (crc_state ctx).

Definition pj_crc32_calc (addr : Z) (data : list Z) : Z :=
  pj_crc32_final (pj_crc32_update pj_crc32_init addr data).1.

(** ** The routine without tables *)

Definition pj_crc32_init_bits : pj_crc32_context := Crc32Context CRC32_NEGL.

(** One round of the inner loop, and the eight of them. *)
Definition crc_round (temp : Z) : Z :=
  if truth (Z.land temp 1) then Z.lxor (Z.shiftr temp 1) 0xEDB88320 else Z.shiftr temp 1.
Definition crc_rounds (temp : Z) : Z := Nat.iter 8 crc_round temp.

Definition crc_octet (crc b : Z) : Z :=
  Z.lxor (Z.shiftr crc 8) (crc_rounds (Z.lxor (Z.land crc 0xFF) b)).

Definition pj_crc32_update_bits (ctx : pj_crc32_context) (octets : list Z) :
    pj_crc32_context * Z :=
  let crc := fold_left crc_octet octets (crc_state ctx) in
  (Crc32Context crc, Z.lxor crc CRC32_NEGL).

Definition pj_crc32_final_bits (ctx : pj_crc32_context) : pj_crc32_context * Z :=
  let ctx := Crc32Context (Z.lxor (crc_state ctx) CRC32_NEGL) in
  (ctx, crc_state ctx).

Example crc_check : pj_crc32_calc 0 [49; 50; 51; 52; 53; 54; 55; 56; 57] = 0xCBF43926.
Proof. reflexivity. Qed.

(** ** A table entry is eight rounds *)

Lemma crc_table_rounds i : is_u8 i -> crc_lookup i = crc_rounds i.
Proof.
  intros Hi.
  assert (forallb (fun n => crc_lookup (Z.of_nat n) =? crc_rounds (Z.of_nat n)) (seq 0 256) = true)
    as H by (vm_compute; reflexivity).
  rewrite forallb_forall in H. specialize (H (Z.to_nat i)). unfold is_u8 in Hi.
  rewrite Z2Nat.id in H by lia. apply Z.eqb_eq, H, in_seq. lia.
Qed.

Lemma index_u8 x : is_u8 (CRC32_INDEX x).
Proof. apply land_u8. Qed.

Lemma lxor_range x y k : 0 <= k -> 0 <= x < 2 ^ k -> 0 <= y < 2 ^ k -> 0 <= Z.lxor x y < 2 ^ k.
Proof.
  intros Hk Hx Hy. split; [apply Z.lxor_nonneg; lia|].
  destruct (decide (Z.lxor x y <= 0)); [pose proof (Z.pow_pos_nonneg 2 k); lia|].
  apply Z.log2_lt_pow2; [lia|].
  destruct (decide (k = 0)) as [->|]; [change (2 ^ 0) with 1 in *; replace x with 0 in * by lia;
    replace y with 0 in * by lia; done|].
  eapply Z.le_lt_trans; [apply Z.log2_lxor; lia|].
  apply Z.max_lub_lt; (destruct (decide (x <= 0)), (decide (y <= 0));
    rewrite ?Z.log2_nonpos by lia; try lia; apply Z.log2_lt_pow2; lia).
Qed.

Lemma crc_byte_octet crc b : is_u8 b -> crc_byte crc b = crc_octet crc b.
Proof.
  intros Hb. unfold crc_byte, crc_octet, CRC32_SHIFTED.
  rewrite crc_table_rounds by (apply (lxor_range _ _ 8); [done|apply index_u8|done]).
  apply Z.lxor_comm.
Qed.

(** ** The step is linear and loses nothing *)

Lemma land_lxor x y m : Z.land (Z.lxor x y) m = Z.lxor (Z.land x m) (Z.land y m).
Proof.
  apply Z.bits_inj'. intros n Hn. rewrite Z.land_spec, !Z.lxor_spec, !Z.land_spec.
  by destruct (Z.testbit x n), (Z.testbit y n), (Z.testbit m n).
Qed.

Lemma land_1 x : Z.land x 1 = b2z (Z.odd x).
Proof.
  change 1 with (Z.ones 1). rewrite Z.land_ones by lia. change (2 ^ 1) with 2.
  rewrite Zmod_odd. by destruct (Z.odd x).
Qed.

Lemma crc_round_lxor x y : crc_round (Z.lxor x y) = Z.lxor (crc_round x) (crc_round y).
Proof.
  unfold crc_round. rewrite land_lxor, Z.shiftr_lxor, !land_1.
  set (p := 0xEDB88320). apply Z.bits_inj'. intros n Hn.
  assert (forall a b, truth (Z.lxor (b2z a) (b2z b)) = xorb a b) as -> by (by intros [] []).
  assert (forall a, truth (b2z a) = a) as E by (by intros []). rewrite !E.
  destruct (Z.odd x), (Z.odd y); cbn [xorb]; rewrite ?Z.lxor_spec;
    by destruct (Z.testbit (Z.shiftr x 1) n), (Z.testbit (Z.shiftr y 1) n), (Z.testbit p n).
Qed.

Lemma crc_rounds_lxor x y : crc_rounds (Z.lxor x y) = Z.lxor (crc_rounds x) (crc_rounds y).
Proof. unfold crc_rounds. cbn [Nat.iter nat_rect]. by rewrite !crc_round_lxor. Qed.

Lemma lxor_4 a b c d : Z.lxor (Z.lxor a b) (Z.lxor c d) = Z.lxor (Z.lxor a c) (Z.lxor b d).
Proof.
  apply Z.bits_inj'. intros n Hn. rewrite !Z.lxor_spec.
  by destruct (Z.testbit a n), (Z.testbit b n), (Z.testbit c n), (Z.testbit d n).
Qed.

Lemma crc_shift_rounds x : crc_shift x = Z.lxor (crc_rounds (CRC32_INDEX x)) (CRC32_SHIFTED x).
Proof. unfold crc_shift. by rewrite crc_table_rounds by apply index_u8. Qed.

Lemma crc_shift_lxor x y : crc_shift (Z.lxor x y) = Z.lxor (crc_shift x) (crc_shift y).
Proof.
  rewrite !crc_shift_rounds. unfold CRC32_INDEX, CRC32_SHIFTED.
  by rewrite land_lxor, crc_rounds_lxor, Z.shiftr_lxor, lxor_4.
Qed.

(** A byte goes into the low bits. *)
Lemma crc_byte_shift crc b w : is_u8 b -> 0 <= w ->
  crc_shift (Z.lxor crc (b + 256 * w)) = Z.lxor (crc_byte crc b) w.
Proof.
  intros Hb Hw. rewrite crc_shift_lxor, crc_byte_octet, !crc_shift_rounds by done.
  assert (CRC32_INDEX (b + 256 * w) = b) as ->.
  { unfold CRC32_INDEX. change 0xff with (Z.ones 8). rewrite Z.land_ones by lia.
    change (2 ^ 8) with 256. unfold is_u8 in Hb. Z.to_euclidean_division_equations; lia. }
  assert (CRC32_SHIFTED (b + 256 * w) = w) as ->.
  { unfold CRC32_SHIFTED. rewrite Z.shiftr_div_pow2 by lia. change (2 ^ 8) with 256.
    unfold is_u8 in Hb. Z.to_euclidean_division_equations; lia. }
  unfold crc_octet. rewrite crc_rounds_lxor. unfold CRC32_INDEX, CRC32_SHIFTED.
  apply Z.bits_inj'. intros n Hn. rewrite !Z.lxor_spec.
  destruct (Z.testbit (crc_rounds (Z.land crc 0xff)) n), (Z.testbit (Z.shiftr crc 8) n),
    (Z.testbit (crc_rounds b) n); by destruct (Z.testbit w n).
Qed.

(** The bytes as one number, the first the lowest. *)
Fixpoint le_bytes (l : list Z) : Z :=
  match l with [] => 0 | b :: l => b + 256 * le_bytes l end.

Lemma le_bytes_bound l : is_bytes l -> 0 <= le_bytes l < 256 ^ zlen l.
Proof.
  induction 1 as [|b l Hb _ IH]; [done|]. rewrite zlen_cons, Z.pow_add_r by (pose proof (zlen_nonneg l); lia).
  cbn [le_bytes]. unfold is_u8 in Hb. lia.
Qed.

Lemma crc_bytes_shift l crc : is_bytes l ->
  fold_left crc_byte l crc = Nat.iter (length l) crc_shift (Z.lxor crc (le_bytes l)).
Proof.
  intros Hl. revert crc. induction Hl as [|b l Hb Hl IH]; intros crc.
  - cbn. by rewrite Z.lxor_0_r.
  - cbn [fold_left length le_bytes]. rewrite IH, Nat.iter_succ_r.
    by rewrite <- crc_byte_shift by (done || apply le_bytes_bound, Hl).
Qed.

Lemma crc_shift_zero x : is_u32 x -> crc_shift x = 0 -> x = 0.
Proof.
  intros Hx H. apply Z.lxor_eq in H.
  assert (forallb (fun n => 16777216 <=? crc_lookup (Z.of_nat n)) (seq 1 255) = true) as Ht
    by (vm_compute; reflexivity).
  assert (CRC32_SHIFTED x = x / 256) as E by (unfold CRC32_SHIFTED; by rewrite Z.shiftr_div_pow2).
  assert (CRC32_INDEX x = x mod 256) as E' by (unfold CRC32_INDEX; change 0xff with (Z.ones 8); by rewrite Z.land_ones).
  rewrite E, E' in H. rewrite forallb_forall in Ht. specialize (Ht (Z.to_nat (x mod 256))).
  destruct (decide (x mod 256 = 0)) as [E0|E0].
  - rewrite E0 in H. change (crc_lookup 0) with 0 in H. word_lia.
  - pose proof (Z.mod_pos_bound x 256). rewrite in_seq, Z2Nat.id, H, Z.leb_le in Ht by lia.
    specialize (Ht ltac:(lia)). word_lia.
Qed.

Lemma crc_shift_u32 x : is_u32 x -> is_u32 (crc_shift x).
Proof.
  intros Hx. apply (lxor_range _ _ 32); [done| |].
  - rewrite crc_table_rounds by apply index_u8. pose proof (index_u8 x) as Hi.
    assert (forallb (fun n => crc_rounds (Z.of_nat n) <? 4294967296) (seq 0 256) = true) as H1
      by (vm_compute; reflexivity).
    assert (forallb (fun n => 0 <=? crc_rounds (Z.of_nat n)) (seq 0 256) = true) as H2
      by (vm_compute; reflexivity).
    rewrite forallb_forall in H1, H2. unfold is_u8 in Hi.
    specialize (H1 (Z.to_nat (CRC32_INDEX x)) ltac:(apply in_seq; lia)).
    specialize (H2 (Z.to_nat (CRC32_INDEX x)) ltac:(apply in_seq; lia)).
    rewrite Z2Nat.id in H1, H2 by lia. lia.
  - unfold CRC32_SHIFTED. rewrite Z.shiftr_div_pow2 by lia. change (2 ^ 8) with 256.
    change (2 ^ 32) with 4294967296. word_lia.
Qed.

Lemma crc_shift_inj x y : is_u32 x -> is_u32 y -> crc_shift x = crc_shift y -> x = y.
Proof.
  intros Hx Hy E. apply Z.lxor_eq, crc_shift_zero; [by apply (lxor_range _ _ 32)|].
  rewrite crc_shift_lxor, E. apply Z.lxor_nilpotent.
Qed.

Lemma crc_shifts_inj n x y : is_u32 x -> is_u32 y ->
  Nat.iter n crc_shift x = Nat.iter n crc_shift y -> x = y.
Proof.
  revert x y. induction n as [|n IH]; intros x y Hx Hy; [done|]. rewrite !Nat.iter_succ_r.
  intros E. apply crc_shift_inj; [done..|]. apply IH; [by apply crc_shift_u32..|done].
Qed.

(** ** The loops *)

#[local] Opaque crc_shift crc_byte.

Lemma crc_align_spec addr crc data : is_bytes data ->
  let '(crc', data') := crc_align addr crc data in
  is_bytes data' /\ fold_left crc_byte data' crc' = fold_left crc_byte data crc.
Proof.
  intros Hd. revert addr crc. induction Hd as [|b l Hb Hl IH]; intros addr crc; [by repeat constructor|].
  cbn [crc_align]. destruct (truth _); [|split; [by constructor|done]].
  specialize (IH (addr + 1) (crc_byte crc b)). by destruct (crc_align _ _ _).
Qed.

Lemma crc_word_bytes b0 b1 b2 b3 crc : is_u8 b0 -> is_u8 b1 -> is_u8 b2 -> is_u8 b3 ->
  crc_shift (crc_shift (crc_shift (crc_shift
    (Z.lxor crc (b0 + 256 * b1 + 65536 * b2 + 16777216 * b3))))) =
  crc_byte (crc_byte (crc_byte (crc_byte crc b0) b1) b2) b3.
Proof.
  intros H0 H1 H2 H3.
  pose proof (crc_bytes_shift [b0; b1; b2; b3] crc 
    ltac:(repeat (apply Forall_cons_2; [assumption|]); apply Forall_nil_2)) as E.
  cbn [fold_left length Nat.iter nat_rect le_bytes] in E. rewrite E. do 5 f_equal. lia.
Qed.

Lemma fold_left_4 {A B} (f : A -> B -> A) b0 b1 b2 b3 l a :
  fold_left f (b0 :: b1 :: b2 :: b3 :: l) a = fold_left f l (f (f (f (f a b0) b1) b2) b3).
Proof. reflexivity. Qed.

Lemma crc_words_cons b0 b1 b2 b3 rest crc :
  crc_words crc (b0 :: b1 :: b2 :: b3 :: rest) =
  crc_words (crc_shift (crc_shift (crc_shift (crc_shift
    (Z.lxor crc (b0 + 256 * b1 + 65536 * b2 + 16777216 * b3)))))) rest.
Proof. reflexivity. Qed.

Lemma crc_words_spec n : forall crc data, (length data <= n)%nat -> is_bytes data ->
  is_bytes (crc_words crc data).2 /\
  fold_left crc_byte (crc_words crc data).2 (crc_words crc data).1 = fold_left crc_byte data crc.
Proof.
  induction n as [|n IH]; intros crc data Hn Hd; [by destruct data; [|cbn in Hn; lia]|].
  destruct data as [|b0 [|b1 [|b2 [|b3 rest]]]]; try (split; [exact Hd|reflexivity]).
  apply Forall_cons in Hd as [H0 Hd]. apply Forall_cons in Hd as [H1 Hd].
  apply Forall_cons in Hd as [H2 Hd]. apply Forall_cons in Hd as [H3 Hd].
  rewrite crc_words_cons, crc_word_bytes by assumption.
  destruct (IH (crc_byte (crc_byte (crc_byte (crc_byte crc b0) b1) b2) b3) rest) as [I1 I2];
    [cbn in Hn; lia|exact Hd|]. split; [exact I1|]. rewrite I2. symmetry. apply fold_left_4.
Qed.

Lemma crc_update_spec ctx addr data : is_bytes data ->
  crc_state (pj_crc32_update ctx addr data).1 =
  Z.lxor (fold_left crc_byte data (Z.lxor (crc_state ctx) CRC32_NEGL)) CRC32_NEGL.
Proof.
  intros Hd. unfold pj_crc32_update.
  pose proof (crc_align_spec addr (Z.lxor (crc_state ctx) CRC32_NEGL) data Hd) as H.
  destruct (crc_align _ _ _) as [crc1 data1]. destruct H as [H1 E1].
  pose proof (crc_words_spec (length data1) crc1 data1 (le_n _) H1) as H.
  destruct (crc_words _ _) as [crc2 data2]. destruct H as [_ E2]. cbn in E2 |- *. by rewrite E2, E1.
Qed.

Lemma lxor_cancel x y : Z.lxor (Z.lxor x y) y = x.
Proof. by rewrite Z.lxor_assoc, Z.lxor_nilpotent, Z.lxor_0_r. Qed.

Lemma crc_octets data crc : is_bytes data ->
  fold_left crc_octet data crc = fold_left crc_byte data crc.
Proof.
  intros Hd. revert crc. induction Hd as [|b l Hb _ IH]; intros crc; [done|].
  cbn. by rewrite IH, crc_byte_octet.
Qed.

Lemma crc_chunks_spec chunks ctx : Forall (fun c => is_bytes c.2) chunks ->
  crc_state (fold_left (fun ctx c => (pj_crc32_update ctx c.1 c.2).1) chunks ctx) =
  Z.lxor (fold_left crc_octet (concat (map snd chunks)) (Z.lxor (crc_state ctx) CRC32_NEGL)) CRC32_NEGL.
Proof.
  intros Hc. revert ctx. induction Hc as [|[addr data] chunks Hd _ IH]; intros ctx.
  - symmetry. apply lxor_cancel.
  - cbn [fold_left map concat fst snd]. rewrite IH, crc_update_spec, fold_left_app, lxor_cancel by done.
    by rewrite (crc_octets data).
Qed.

#[local] Transparent crc_shift crc_byte.

Lemma crc_byte_is_shift crc b : is_u8 b -> crc_byte crc b = crc_shift (Z.lxor crc b).
Proof.
  intros Hb. pose proof (crc_byte_shift crc b 0 Hb ltac:(lia)) as E.
  by rewrite Z.lxor_0_r, Z.mul_0_r, Z.add_0_r in E.
Qed.

Lemma crc_bytes_u32 l crc : is_bytes l -> is_u32 crc -> is_u32 (fold_left crc_byte l crc).
Proof.
  intros Hl. revert crc. induction Hl as [|b l Hb _ IH]; intros crc Hc; [done|]. cbn [fold_left].
  apply IH. rewrite crc_byte_is_shift by done. apply crc_shift_u32, (lxor_range _ _ 32); [done..|].
  unfold is_u8 in Hb. lia.
Qed.

Lemma crc_byte_inj x y b : is_u32 x -> is_u32 y -> is_u8 b -> crc_byte x b = crc_byte y b -> x = y.
Proof.
  intros Hx Hy Hb. rewrite !crc_byte_is_shift by done.
  assert (0 <= b < 2 ^ 32) by (unfold is_u8 in Hb; lia).
  intros E%crc_shift_inj; [|by apply (lxor_range _ _ 32)..].
  by rewrite <- (lxor_cancel x b), E, lxor_cancel.
Qed.

Lemma crc_bytes_inj l x y : is_bytes l -> is_u32 x -> is_u32 y ->
  fold_left crc_byte l x = fold_left crc_byte l y -> x = y.
Proof.
  intros Hl. revert x y. induction Hl as [|b l Hb Hl IH]; intros x y Hx Hy E; [done|].
  eapply crc_byte_inj; [done|done|exact Hb|]. apply IH; [| |exact E].
  - by apply (crc_bytes_u32 [b]); [repeat constructor; unfold is_u8 in *; lia|].
  - by apply (crc_bytes_u32 [b]); [repeat constructor; unfold is_u8 in *; lia|].
Qed.

Lemma le_bytes_inj a b : is_bytes a -> is_bytes b -> length a = length b ->
  le_bytes a = le_bytes b -> a = b.
Proof.
  intros Ha. revert b. induction Ha as [|x a Hx Ha IH]; intros [|y b] Hb Hl E; try done.
  apply Forall_cons in Hb as [Hy Hb]. cbn [le_bytes] in E. unfold is_u8 in *.
  assert (x = y) as -> by (Z.to_euclidean_division_equations; lia).
  f_equal. apply IH; [done|by injection Hl|lia].
Qed.

(** ** Properties *)

(** C36: The table-driven routine, wherever the data lies in memory and however it is
    cut into pieces, computes what the routine without tables computes bit by bit
    over the whole. *)
Theorem crc32_is_bitwise chunks : Forall (fun c => is_bytes c.2) chunks ->
  pj_crc32_final (fold_left (fun ctx c => (pj_crc32_update ctx c.1 c.2).1) chunks pj_crc32_init) =
  (pj_crc32_final_bits (pj_crc32_update_bits pj_crc32_init_bits (concat (map snd chunks))).1).2.
Proof. apply crc_chunks_spec. Qed.

Lemma crc32_is_bitwise_witness :
  Forall (fun c => is_bytes c.2) [(1, [49; 50; 51; 52; 53]); (6, [54]); (3, [55; 56; 57])] /\
  pj_crc32_final (fold_left (fun ctx c => (pj_crc32_update ctx c.1 c.2).1)
    [(1, [49; 50; 51; 52; 53]); (6, [54]); (3, [55; 56; 57])] pj_crc32_init) = 0xCBF43926.
Proof.
  assert (Forall (fun c : Z * list Z => is_bytes c.2) [(1, [49; 50; 51; 52; 53]); (6, [54]); (3, [55; 56; 57])])
    as H by (repeat constructor; unfold is_u8; cbn; lia).
  split; [exact H|]. rewrite (crc32_is_bitwise _ H). reflexivity.
Defined.

(** The checksum detects every change within four consecutive bytes: data that
    differs there, and nowhere else, has another checksum. *)
Lemma crc32_detects_burst addr addr' pre a b post :
  is_bytes pre -> is_bytes a -> is_bytes b -> is_bytes post ->
  length a = length b -> (length a <= 4)%nat -> a <> b ->
  pj_crc32_calc addr (pre ++ a ++ post) <> pj_crc32_calc addr' (pre ++ b ++ post).
Proof.
  intros Hpre Ha Hb Hpost Hl H4 Hab E. apply Hab. clear Hab. revert E.
  unfold pj_crc32_calc, pj_crc32_final, CRC32_SWAP.
  rewrite !crc_update_spec by (repeat apply Forall_app_2; done).
  rewrite !fold_left_app. set (s := fold_left crc_byte pre _).
  assert (is_u32 s) as Hs by (apply crc_bytes_u32; done).
  intros E%(f_equal (fun x => Z.lxor x CRC32_NEGL)). rewrite !lxor_cancel in E.
  apply crc_bytes_inj in E; [|done|by apply crc_bytes_u32..].
  rewrite !crc_bytes_shift, <- Hl in E by done.
  assert (forall l, is_bytes l -> (length l <= 4)%nat -> 0 <= le_bytes l < 2 ^ 32) as Hle.
  { intros l Hb' Hl4. pose proof (le_bytes_bound l Hb').
    pose proof (Z.pow_le_mono_r 256 (zlen l) 4 ltac:(lia) ltac:(unfold zlen; lia)). lia. }
  apply crc_shifts_inj in E; [|apply (lxor_range _ _ 32); [lia|exact Hs|by apply Hle; [|lia]]..].
  apply le_bytes_inj; [done..|].
  apply (f_equal (Z.lxor s)) in E. by rewrite <- !Z.lxor_assoc, !Z.lxor_nilpotent, !Z.lxor_0_l in E.
Qed.

Lemma crc32_detects_burst_witness :
  is_bytes [1; 2] /\ is_bytes [3; 4; 5] /\ is_bytes [3; 0; 5] /\ is_bytes [6] /\
  pj_crc32_calc 0 ([1; 2] ++ [3; 4; 5] ++ [6]) <> pj_crc32_calc 2 ([1; 2] ++ [3; 0; 5] ++ [6]).
Proof.
  assert (is_bytes [1; 2] /\ is_bytes [3; 4; 5] /\ is_bytes [3; 0; 5] /\ is_bytes [6]) as (H1 & H2 & H3 & H4)
    by (split_and!; repeat constructor; unfold is_u8; lia).
  do 4 (split; [assumption|]).
  apply (crc32_detects_burst 0 2 [1; 2] [3; 4; 5] [3; 0; 5] [6]); [assumption..|reflexivity|cbn; lia|discriminate].
Defined.
