(* ===== verification/Sha1.v ===== *)
(** * SHA-1 and HMAC (pjlib-util/src/pjlib-util/sha1.c, hmac_sha1.c)

    The incremental hash with its buffer of one block, and the keyed hash over
    it, on a little-endian host; they compute what FIPS 180 and RFC 2104 define. *)

From S2P Require Import Prelude Mem.

(** ** One block *)

Definition PJ_SHA1_DIGEST_SIZE : Z := 20.

(** A rotation of 32 bits. *)
Definition rol (value bits : Z) : Z :=
  Z.lor (u32 (Z.shiftl value bits)) (Z.shiftr value (32 - bits)).

(** The words of a block as the host reads them, and back. *)
Fixpoint words_of (l : list Z) : list Z :=
  match l with
  | b0 :: b1 :: b2 :: b3 :: l => b0 + 256 * b1 + 65536 * b2 + 16777216 * b3 :: words_of l
  | _ => []
  end.
Definition bytes_of (l : list Z) : list Z := concat (map st32 l).

Definition word (l : list Z) (i : nat) : Z := nth i l 0.

(** [blk0] and [blk]: the word of round [i], and the block with it stored. *)
Definition blk0 (l : list Z) (i : nat) : Z * list Z :=
  let v := Z.lor (Z.land (rol (word l i) 24) 0xFF00FF00) (Z.land (rol (word l i) 8) 0x00FF00FF) in
  (v, <[i := v]> l).

Definition blk (l : list Z) (i : nat) : Z * list Z :=
  let at_ k := word l (Nat.modulo k 16) in
  let v := rol (Z.lxor (Z.lxor (Z.lxor (at_ (i + 13)%nat) (at_ (i + 8)%nat)) (at_ (i + 2)%nat))
                       (at_ i)) 1 in
  (v, <[Nat.modulo i 16 := v]> l).

(** The working variables [a], [b], [c], [d], [e], renamed after each round. *)
Definition sha1_vars : Type := Z * Z * Z * Z * Z.

(** The operations [R0] to [R4] on them: function and constant. *)
Definition R_f (i : nat) (w x y : Z) : Z :=
  if (i <? 20)%nat then Z.lxor (Z.land w (Z.lxor x y)) y
  else if (i <? 40)%nat then Z.lxor (Z.lxor w x) y
  else if (i <? 60)%nat then Z.lor (Z.land (Z.lor w x) y) (Z.land w x)
  else Z.lxor (Z.lxor w x) y.
Definition R_k (i : nat) : Z :=
  if (i <? 20)%nat then 0x5A827999
  else if (i <? 40)%nat then 0x6ED9EBA1
  else if (i <? 60)%nat then 0x8F1BBCDC
  else 0xCA62C1D6.

Definition sha1_round (s : sha1_vars * list Z) (i : nat) : sha1_vars * list Z :=
  let '((v, w, x, y, z), l) := s in
  let '(m, l) := if (i <? 16)%nat then blk0 l i else blk l i in
  let z := u32 (z + (R_f i w x y + m + R_k i + rol v 5)) in
  ((z, v, rol w 30, x, y), l).

(** The new state, and the block, which is overwritten. *)
Definition SHA1_Transform (state : sha1_vars) (buffer : list Z) : sha1_vars * list Z :=
  let '((a, b, c, d, e), l) := fold_left sha1_round (seq 0 80) (state, words_of buffer) in
  let '(a0, b0, c0, d0, e0) := state in
  ((u32 (a0 + a), u32 (b0 + b), u32 (c0 + c), u32 (d0 + d), u32 (e0 + e)), bytes_of l).

(** ** The context *)

Record pj_sha1_context := Sha1Context {
  sha_state : sha1_vars; count0 : Z; count1 : Z; sha_buffer : list Z
}.
#[export] Instance eta_sha1_context : Eta pj_sha1_context := fun r =>
  Sha1Context (sha_state r) (count0 r) (count1 r) (sha_buffer r).

(** [buffer] is what the memory of the context holds. *)
Definition pj_sha1_init (buffer : list Z) : pj_sha1_context :=
  Sha1Context (0x67452301, 0xEFCDAB89, 0x98BADCFE, 0x10325476, 0xC3D2E1F0) 0 0 buffer.

(** Writing into the buffer at [j]. *)
Definition put_at (buffer : list Z) (j : nat) (l : list Z) : list Z :=
  take j buffer ++ l ++ drop (j + length l) buffer.

(** The whole blocks of the data; what is left of it. *)
Fixpoint sha1_blocks (fuel : nat) (state : sha1_vars) (data : list Z) : sha1_vars * list Z :=
  match fuel with
  | O => (state, data)
  | S fuel =>
      if (63 <? length data)%nat
      then sha1_blocks fuel (SHA1_Transform state (take 64 data)).1 (drop 64 data)
      else (state, data)
  end.

Definition pj_sha1_update (context : pj_sha1_context) (data : list Z) : pj_sha1_context :=
  let len := zlen data in
  let j := Z.to_nat (Z.land (Z.shiftr (count0 context) 3) 63) in
  let c0 := u32 (count0 context + u32 (Z.shiftl (u32 len) 3)) in
  let c1 := if c0 <? u64 (Z.shiftl len 3) then u32 (count1 context + 1) else count1 context in
  let c1 := u32 (c1 + Z.shiftr (u32 len) 29) in
  if Z.of_nat j + len >? 63 then
    let buffer := put_at (sha_buffer context) j (take (64 - j) data) in
    let '(state, buffer) := SHA1_Transform (sha_state context) buffer in
    let '(state, data) := sha1_blocks (length data) state (drop (64 - j) data) in
    Sha1Context state c0 c1 (put_at buffer 0 data)
  else Sha1Context (sha_state context) c0 c1 (put_at (sha_buffer context) j data).

(** ** The digest *)

(** The bytes of a word, the highest first. *)
Definition be32 (v : Z) : list Z :=
  map (fun i => Z.land (Z.shiftr v ((3 - i) * 8)) 255) [0; 1; 2; 3].

(** [while ((context->count[0] & 504) != 448)] *)
Fixpoint sha1_pad (fuel : nat) (context : pj_sha1_context) : pj_sha1_context :=
  match fuel with
  | O => context
  | S fuel =>
      if negb (Z.land (count0 context) 504 =? 448)
      then sha1_pad fuel (pj_sha1_update context [0]) else context
  end.

Definition digest_of (s : sha1_vars) : list Z :=
  let '(a, b, c, d, e) := s in be32 a ++ be32 b ++ be32 c ++ be32 d ++ be32 e.

(** The context is wiped. *)
Definition pj_sha1_final (context : pj_sha1_context) : pj_sha1_context * list Z :=
  let finalcount := be32 (count1 context) ++ be32 (count0 context) in
  let context := pj_sha1_update context [128] in
  let context := sha1_pad 64 context in
  let context := pj_sha1_update context finalcount in
  (Sha1Context (0, 0, 0, 0, 0) 0 0 (replicate 64 0), digest_of (sha_state context)).

(** ** The keyed hash *)

Record pj_hmac_sha1_context := HmacContext { hm_context : pj_sha1_context; k_opad : list Z }.

(** [stack] is what the memory of the contexts holds. *)
Definition pj_hmac_sha1_init (stack : list Z) (key : list Z) : pj_hmac_sha1_context :=
  let key := if zlen key >? 64
             then (pj_sha1_final (pj_sha1_update (pj_sha1_init stack) key)).2 else key in
  let pad := put_at (replicate 64 0) 0 key in
  HmacContext (pj_sha1_update (pj_sha1_init stack) (map (fun b => Z.lxor b 0x36) pad))
              (map (fun b => Z.lxor b 0x5c) pad).

Definition pj_hmac_sha1_update (hctx : pj_hmac_sha1_context) (input : list Z) :
    pj_hmac_sha1_context :=
  HmacContext (pj_sha1_update (hm_context hctx) input) (k_opad hctx).

Definition pj_hmac_sha1_final (hctx : pj_hmac_sha1_context) : list Z :=
  let '(context, digest) := pj_sha1_final (hm_context hctx) in
  let context := pj_sha1_init (sha_buffer context) in
  let context := pj_sha1_update context (k_opad hctx) in
  let context := pj_sha1_update context digest in
  (pj_sha1_final context).2.

Definition pj_hmac_sha1 (stack : list Z) (input key : list Z) : list Z :=
  pj_hmac_sha1_final (pj_hmac_sha1_update (pj_hmac_sha1_init stack key) input).

(** The test vectors of FIPS 180-1 that the source quotes. *)
Example sha1_abc : (pj_sha1_final (pj_sha1_update (pj_sha1_init (replicate 64 7)) [97; 98; 99])).2 =
  concat (map be32 [0xA9993E36; 0x4706816A; 0xBA3E2571; 0x7850C26C; 0x9CD0D89D]).
Proof. vm_compute. reflexivity. Qed.

(** ** FIPS 180-4 *)

Module Fips.
(** [ROTL] of a word: the bits shifted out on the left come in on the right. *)
Definition rotl (x n : Z) : Z := Z.lor (Z.shiftl x n mod 2 ^ 32) (Z.shiftr x (32 - n)).

(** The [n] bytes of a number, the highest first. *)
Definition be (n : nat) (v : Z) : list Z :=
  map (fun i => v / 2 ^ (8 * Z.of_nat (n - 1 - i)) mod 256) (seq 0 n).

Definition ch (x y z : Z) : Z := Z.lxor (Z.land x y) (Z.land (Z.lnot x) z).
Definition parity (x y z : Z) : Z := Z.lxor (Z.lxor x y) z.
Definition maj (x y z : Z) : Z := Z.lxor (Z.lxor (Z.land x y) (Z.land x z)) (Z.land y z).
Definition f (t : nat) : Z -> Z -> Z -> Z :=
  if (t <? 20)%nat then ch else if (t <? 40)%nat then parity
  else if (t <? 60)%nat then maj else parity.

(** The constants: [2^30] times the square roots of 2, 3, 5 and 10. *)
Definition K (t : nat) : Z :=
  Z.sqrt (2 ^ 60 * if (t <? 20)%nat then 2 else if (t <? 40)%nat then 3
                   else if (t <? 60)%nat then 5 else 10).

(** The first [16 + n] words of the message schedule of a block. *)
Fixpoint schedule (block : list Z) (n : nat) : list Z :=
  match n with
  | O => block
  | S n =>
      let w := schedule block n in
      w ++ [rotl (Z.lxor (Z.lxor (Z.lxor (nth (n + 13) w 0) (nth (n + 8) w 0)) (nth (n + 2) w 0))
                        (nth n w 0)) 1]
  end.

Definition round (w : list Z) (s : sha1_vars) (t : nat) : sha1_vars :=
  let '(a, b, c, d, e) := s in
  (u32 (rotl a 5 + f t b c d + e + K t + nth t w 0), a, rotl b 30, c, d).

Definition compress (h : sha1_vars) (block : list Z) : sha1_vars :=
  let '(a, b, c, d, e) := fold_left (round (schedule block 64)) (seq 0 80) h in
  let '(a0, b0, c0, d0, e0) := h in
  (u32 (a0 + a), u32 (b0 + b), u32 (c0 + c), u32 (d0 + d), u32 (e0 + e)).

(** The bytes as words, the first byte the highest. *)
Fixpoint be_words (l : list Z) : list Z :=
  match l with
  | b0 :: b1 :: b2 :: b3 :: l => 16777216 * b0 + 65536 * b1 + 256 * b2 + b3 :: be_words l
  | _ => []
  end.

(** The blocks of a message whose length is a multiple of 64. *)
Fixpoint blocks (n : nat) (l : list Z) : list (list Z) :=
  match n with O => [] | S n => take 64 l :: blocks n (drop 64 l) end.

Definition h0 : sha1_vars := (0x67452301, 0xEFCDAB89, 0x98BADCFE, 0x10325476, 0xC3D2E1F0).

Definition hash_blocks (n : nat) (l : list Z) : sha1_vars :=
  fold_left (fun h b => compress h (be_words b)) (blocks n l) h0.

(** The message, a bit, zeroes, and the length in bits as a number of 64 bits. *)
Definition pad (l : list Z) : list Z :=
  l ++ [128] ++ replicate (Z.to_nat ((55 - zlen l) mod 64)) 0
    ++ be 8 (8 * zlen l).

Definition digest (h : sha1_vars) : list Z :=
  let '(a, b, c, d, e) := h in concat (map (be 4) [a; b; c; d; e]).

Definition sha1 (l : list Z) : list Z :=
  let p := pad l in digest (hash_blocks (Z.to_nat (zlen p / 64)) p).
End Fips.

(** RFC 2104. *)
Definition hmac_spec (H : list Z -> list Z) (key text : list Z) : list Z :=
  let k := if zlen key >? 64 then H key else key in
  let k := k ++ replicate (64 - length k) 0 in
  H (map (fun b => Z.lxor b 0x5c) k ++ H (map (fun b => Z.lxor b 0x36) k ++ text)).

(** ** The transform is the compression function *)

Lemma R_f_fips i w x y : R_f i w x y = Fips.f i w x y.
Proof.
  unfold R_f, Fips.f, Fips.ch, Fips.maj, Fips.parity.
  repeat case_match; apply Z.bits_inj'; intros n Hn;
    rewrite ?Z.lxor_spec, ?Z.land_spec, ?Z.lor_spec, ?Z.land_spec, ?Z.lxor_spec, ?Z.lor_spec, ?Z.lnot_spec by done;
    by destruct (Z.testbit w n), (Z.testbit x n), (Z.testbit y n).
Qed.

Lemma rol_byte_order b0 b1 b2 b3 : is_u8 b0 -> is_u8 b1 -> is_u8 b2 -> is_u8 b3 ->
  let v := b0 + 256 * b1 + 65536 * b2 + 16777216 * b3 in
  Z.lor (Z.land (rol v 24) 0xFF00FF00) (Z.land (rol v 8) 0x00FF00FF) =
  16777216 * b0 + 65536 * b1 + 256 * b2 + b3.
Proof.
  intros H0 H1 H2 H3 v. unfold is_u8 in *.
  assert (rol v 24 = Z.shiftl b0 24 + (b1 + 256 * b2 + 65536 * b3)) as ->.
  { unfold rol. rewrite !Z.shiftl_mul_pow2, Z.shiftr_div_pow2 by lia.
    change (2 ^ 24) with 16777216. change (2 ^ (32 - 24)) with 256.
    replace (u32 (v * 16777216)) with (Z.shiftl b0 24)
      by (rewrite Z.shiftl_mul_pow2 by lia; unfold u32, v; Z.to_euclidean_division_equations; lia).
    rewrite lor_fields by (change (2 ^ 24) with 16777216; unfold v; Z.to_euclidean_division_equations; lia).
    change (2 ^ 24) with 16777216. unfold v. Z.to_euclidean_division_equations; lia. }
  assert (rol v 8 = Z.shiftl (b0 + 256 * b1 + 65536 * b2) 8 + b3) as ->.
  { unfold rol. rewrite !Z.shiftl_mul_pow2, Z.shiftr_div_pow2 by lia.
    change (2 ^ 8) with 256. change (2 ^ (32 - 8)) with 16777216.
    replace (u32 (v * 256)) with (Z.shiftl (b0 + 256 * b1 + 65536 * b2) 8)
      by (rewrite Z.shiftl_mul_pow2 by lia; unfold u32, v; Z.to_euclidean_division_equations; lia).
    rewrite lor_fields by (change (2 ^ 8) with 256; unfold v; Z.to_euclidean_division_equations; lia).
    change (2 ^ 8) with 256. unfold v. Z.to_euclidean_division_equations; lia. }
  replace 0xFF00FF00 with (Z.lor (Z.shiftl (Z.ones 8) 24) (Z.shiftl (Z.ones 8) 8)) by reflexivity.
  replace 0x00FF00FF with (Z.lor (Z.shiftl (Z.ones 8) 16) (Z.shiftl (Z.ones 8) 0)) by reflexivity.
  rewrite !Z.land_lor_distr_r, !land_field by lia. rewrite !Z.shiftl_mul_pow2 by lia.
  change (2 ^ 24) with 16777216. change (2 ^ 16) with 65536. change (2 ^ 8) with 256. change (2 ^ 0) with 1.
  set (x := b0 * 16777216 + _). set (y := (b0 + _ + _) * 256 + b3).
  replace (x / 16777216 mod 256) with b0 by (unfold x; Z.to_euclidean_division_equations; lia).
  replace (x / 256 mod 256) with b2 by (unfold x; Z.to_euclidean_division_equations; lia).
  replace (y / 65536 mod 256) with b1 by (unfold y; Z.to_euclidean_division_equations; lia).
  replace (y / 1 mod 256) with b3 by (unfold y; Z.to_euclidean_division_equations; lia).
  rewrite Z.mul_1_r.
  pose proof (lor_fields b0 (b1 * 65536 + (b2 * 256 + b3)) 24 ltac:(lia) ltac:(change (2 ^ 24) with 16777216; lia)) as E1.
  pose proof (lor_fields b1 (b2 * 256 + b3) 16 ltac:(lia) ltac:(change (2 ^ 16) with 65536; lia)) as E2.
  pose proof (lor_fields b2 b3 8 ltac:(lia) ltac:(change (2 ^ 8) with 256; lia)) as E3.
  rewrite !Z.shiftl_mul_pow2 in E1, E2, E3 by lia.
  change (2 ^ 24) with 16777216 in *. change (2 ^ 16) with 65536 in *. change (2 ^ 8) with 256 in *.
  rewrite <- E2, <- E3 in E1. rewrite <- Z.lor_assoc, (Z.lor_comm (b2 * 256)), <- Z.lor_assoc, (Z.lor_comm b3).
  rewrite E1, E3, E2. lia.
Qed.

(** The rotation, the constants and the encoding of the code are those of the standard. *)
Lemma rol_rotl v n : rol v n = Fips.rotl v n.
Proof. reflexivity. Qed.

Lemma R_k_fips t : R_k t = Fips.K t.
Proof. unfold R_k, Fips.K. by repeat case_match. Qed.

Lemma be32_fips v : be32 v = Fips.be 4 v.
Proof.
  unfold be32, Fips.be. cbn [map seq]. change 255 with (Z.ones 8).
  by rewrite !Z.land_ones, !Z.shiftr_div_pow2 by lia.
Qed.

Lemma be32_twice v : be32 (v / 4294967296) ++ be32 v = Fips.be 8 v.
Proof.
  rewrite !be32_fips. unfold Fips.be. cbn [map seq app]. rewrite !Z.div_div by done. reflexivity.
Qed.

Lemma digest_fips s : digest_of s = Fips.digest s.
Proof. destruct s as [[[[a b] c] d] e]. unfold digest_of. by rewrite !be32_fips. Qed.

(** The words of the schedule do not change as it grows. *)
Lemma schedule_length block n : length (Fips.schedule block n) = (length block + n)%nat.
Proof. induction n as [|n IH]; cbn; [lia|]. rewrite length_app, IH. cbn. lia. Qed.

Lemma schedule_stable block n m i : (i < length block + n)%nat ->
  nth i (Fips.schedule block (n + m)) 0 = nth i (Fips.schedule block n) 0.
Proof.
  intros Hi. induction m as [|m IH]; [by rewrite Nat.add_0_r|].
  rewrite Nat.add_succ_r. cbn [Fips.schedule]. rewrite app_nth1, IH; [done|].
  rewrite schedule_length. lia.
Qed.

(** The word [t] of the schedule, from the block as the host reads it. *)
Definition W (block : list Z) (t : nat) : Z := nth t (Fips.schedule block 64) 0.

Lemma W_low block t : length block = 16%nat -> (t < 16)%nat -> W block t = nth t block 0.
Proof. intros Hl Ht. unfold W. by rewrite (schedule_stable block 0 64) by lia. Qed.

Lemma W_next block n : length block = 16%nat -> (n < 64)%nat ->
  W block (16 + n) = rol (Z.lxor (Z.lxor (Z.lxor (W block (n + 13)) (W block (n + 8))) (W block (n + 2)))
                                 (W block n)) 1.
Proof.
  intros Hl Hn. unfold W.
  assert (forall i, (i < 16 + n)%nat -> nth i (Fips.schedule block 64) 0 = nth i (Fips.schedule block n) 0) as E
    by (intros i Hi; rewrite <- (schedule_stable block n (64 - n)) by lia; do 2 f_equal; lia).
  rewrite (E (n + 13)%nat), (E (n + 8)%nat), (E (n + 2)%nat), (E n) by lia.
  replace 64%nat with (S n + (63 - n))%nat by lia. rewrite schedule_stable by lia. cbn [Fips.schedule].
  rewrite app_nth2 by (rewrite schedule_length; lia). rewrite schedule_length, Hl, Nat.sub_diag. done.
Qed.

(** The ring after [t] rounds: each slot holds the last word of the schedule that
    was stored in it, or the word of the block as the host reads it. *)
Definition ring_ok (raw block l : list Z) (t : nat) : Prop :=
  length l = 16%nat /\
  forall i, (i < 16)%nat ->
    ((t <= i)%nat -> nth i l 0 = nth i raw 0) /\
    (forall k, (k < t)%nat -> (t <= k + 16)%nat -> Nat.modulo k 16 = i -> nth i l 0 = W block k).

Definition swapped (raw block : list Z) : Prop :=
  length raw = 16%nat /\ length block = 16%nat /\
  forall i, (i < 16)%nat ->
    Z.lor (Z.land (rol (nth i raw 0) 24) 0xFF00FF00) (Z.land (rol (nth i raw 0) 8) 0x00FF00FF) = nth i block 0.

Lemma nth_insert (l : list Z) i j v : (i < length l)%nat ->
  nth j (<[i := v]> l) 0 = if decide (i = j) then v else nth j l 0.
Proof.
  intros Hi. rewrite !nth_lookup. case_decide as E.
  - subst. by rewrite list_lookup_insert_eq.
  - by rewrite list_lookup_insert_ne.
Qed.

Lemma ring_step raw block l t : swapped raw block -> ring_ok raw block l t -> (t < 80)%nat ->
  let '(m, l') := if (t <? 16)%nat then blk0 l t else blk l t in
  m = W block t /\ ring_ok raw block l' (S t).
Proof.
  intros (Hr & Hb & Hsw) (Hl & Hring) Ht.
  assert (forall v, v = W block t -> ring_ok raw block (<[Nat.modulo t 16 := v]> l) (S t)) as Hstep.
  { intros v ->. pose proof (Nat.mod_upper_bound t 16 ltac:(lia)) as Hm.
    split; [by rewrite length_insert|]. intros i Hi16. rewrite nth_insert by lia. split.
    - intros Hti. rewrite decide_False by (rewrite Nat.mod_small; lia). apply Hring; lia.
    - intros k Hk1 Hk2 Hk. case_decide as E.
      + f_equal. pose proof (Nat.div_mod_eq t 16). pose proof (Nat.div_mod_eq k 16). lia.
      + destruct (Hring i Hi16) as [_ H]. apply H; [|lia|done]. destruct (decide (k = t)); [congruence|lia]. }
  destruct (Nat.ltb_spec t 16) as [H16|H16].
  - unfold blk0, word. destruct (Hring t H16) as [H _]. rewrite H, Hsw, <- W_low by (lia || done).
    split; [done|]. rewrite <- (Nat.mod_small t 16) at 1 by lia. by apply Hstep.
  - unfold blk, word.
    assert (forall d, (d < 16)%nat -> nth (Nat.modulo (t + d) 16) l 0 = W block (t - 16 + d)) as Hw.
    { intros d Hd. destruct (Hring (Nat.modulo (t + d) 16)) as [_ H]; [apply Nat.mod_upper_bound; lia|].
      apply H; [lia|lia|]. replace (t + d)%nat with (t - 16 + d + 1 * 16)%nat by lia.
      by rewrite Nat.Div0.mod_add. }
    pose proof (Hw 0%nat ltac:(lia)) as H0. rewrite !Nat.add_0_r in H0.
    rewrite !Hw, H0 by lia.
    rewrite <- W_next by lia. replace (16 + (t - 16))%nat with t by lia. split; [done|by apply Hstep].
Qed.

#[local] Opaque W Fips.schedule.

Lemma fips_round block a b c d e t :
  Fips.round (Fips.schedule block 64) (a, b, c, d, e) t =
  (u32 (rol a 5 + Fips.f t b c d + e + Fips.K t + W block t), a, rol b 30, c, d).
Proof. Transparent W. reflexivity. Qed.
#[local] Opaque W.

Lemma rounds_spec raw block n : forall s l t, swapped raw block -> ring_ok raw block l t -> (t + n <= 80)%nat ->
  let '(s', l') := fold_left sha1_round (seq t n) (s, l) in
  s' = fold_left (Fips.round (Fips.schedule block 64)) (seq t n) s /\ length l' = 16%nat.
Proof.
  induction n as [|n IH]; intros s l t Hs Hl Ht; cbn [seq fold_left];
    [split; [reflexivity|exact (proj1 Hl)]|].
  pose proof (ring_step _ _ _ t Hs Hl ltac:(lia)) as H. destruct s as [[[[a b] c] d] e].
  unfold sha1_round at 2. destruct (if (t <? 16)%nat then blk0 l t else blk l t) as [m l'].
  destruct H as [-> Hl'].
  specialize (IH (u32 (e + (R_f t b c d + W block t + R_k t + rol a 5)), a, rol b 30, c, d) l' (S t) Hs Hl' ltac:(lia)).
  destruct (fold_left sha1_round _ _) as [s' l'']. destruct IH as [-> IH]. split; [|done].
  f_equal. rewrite fips_round, R_f_fips, R_k_fips.
  assert (forall p q r s : Z, e + (p + q + r + s) = s + p + e + r + q) as -> by (intros; lia).
  reflexivity.
Qed.

Lemma words_swapped n : forall l, length l = (4 * n)%nat -> is_bytes l ->
  length (words_of l) = n /\ length (Fips.be_words l) = n /\
  forall i, (i < n)%nat ->
    Z.lor (Z.land (rol (nth i (words_of l) 0) 24) 0xFF00FF00)
          (Z.land (rol (nth i (words_of l) 0) 8) 0x00FF00FF) = nth i (Fips.be_words l) 0.
Proof.
  induction n as [|n IH]; intros l Hl Hb.
  - apply nil_length_inv in Hl as ->. split_and!; [reflexivity..|lia].
  - destruct l as [|b0 [|b1 [|b2 [|b3 l]]]]; try (cbn in Hl; lia).
    apply Forall_cons in Hb as [H0 Hb]. apply Forall_cons in Hb as [H1 Hb].
    apply Forall_cons in Hb as [H2 Hb]. apply Forall_cons in Hb as [H3 Hb].
    destruct (IH l ltac:(cbn in Hl; lia) Hb) as (I1 & I2 & I3). cbn [words_of Fips.be_words length].
    split_and!; [lia..|]. intros [|i] Hi; cbn [nth]; [by apply rol_byte_order|]. apply I3. lia.
Qed.

Lemma bytes_of_length l : length (bytes_of l) = (4 * length l)%nat.
Proof. unfold bytes_of. induction l as [|x l IH]; [done|]. cbn. rewrite IH. lia. Qed.

Lemma transform_spec state buffer : length buffer = 64%nat -> is_bytes buffer ->
  (SHA1_Transform state buffer).1 = Fips.compress state (Fips.be_words buffer) /\
  length (SHA1_Transform state buffer).2 = 64%nat.
Proof.
  intros Hl Hb. destruct (words_swapped 16 buffer Hl Hb) as (H1 & H2 & H3).
  pose proof (rounds_spec (words_of buffer) (Fips.be_words buffer) 80 state (words_of buffer) 0) as H.
  unfold SHA1_Transform, Fips.compress.
  destruct (fold_left sha1_round _ _) as [s' l'].
  destruct H as [<- Hl']; [by split_and!| |lia|].
  { split; [done|]. intros i Hi. split; [done|lia]. }
  destruct s' as [[[[a b] c] d] e], state as [[[[a0 b0] c0] d0] e0]. cbn [fst snd].
  split; [done|]. rewrite bytes_of_length, Hl'. reflexivity.
Qed.

(** ** The context holds what was hashed so far *)

(** [m] was put in: the state has its whole blocks, the buffer the rest, and the
    two counters its length in bits. *)
Record absorbed (c : pj_sha1_context) (m : list Z) : Prop := {
  ab_state : sha_state c = Fips.hash_blocks (length m / 64) m;
  ab_len : length (sha_buffer c) = 64%nat;
  ab_rest : take (length m mod 64) (sha_buffer c) = drop (64 * (length m / 64)) m;
  ab_count0 : count0 c = u32 (8 * zlen m);
  ab_count1 : count1 c = u32 (8 * zlen m / 4294967296)
}.

Lemma absorbed_init buffer : length buffer = 64%nat -> absorbed (pj_sha1_init buffer) [].
Proof. intros Hb. by constructor. Qed.

Lemma blocks_app n k : forall l, Fips.blocks (n + k) l = Fips.blocks n l ++ Fips.blocks k (drop (64 * n) l).
Proof.
  induction n as [|n IH]; intros l; [by rewrite drop_0|]. cbn [Fips.blocks Nat.add].
  rewrite IH, drop_drop. cbn [app]. do 4 f_equal. lia.
Qed.

Lemma blocks_prefix n : forall l k, (64 * n <= length l)%nat -> Fips.blocks n (l ++ k) = Fips.blocks n l.
Proof.
  induction n as [|n IH]; intros l k Hl; [done|]. cbn [Fips.blocks].
  rewrite take_app_le, drop_app_le by lia. f_equal. apply IH. rewrite length_drop. lia.
Qed.

Lemma hash_blocks_app n k l : Fips.hash_blocks (n + k) l =
  fold_left (fun h b => Fips.compress h (Fips.be_words b)) (Fips.blocks k (drop (64 * n) l)) (Fips.hash_blocks n l).
Proof. unfold Fips.hash_blocks. by rewrite blocks_app, fold_left_app. Qed.

Lemma sha1_blocks_spec fuel : forall state data, is_bytes data -> (length data / 64 <= fuel)%nat ->
  sha1_blocks fuel state data =
  (fold_left (fun h b => Fips.compress h (Fips.be_words b)) (Fips.blocks (length data / 64) data) state,
   drop (64 * (length data / 64)) data).
Proof.
  induction fuel as [|fuel IH]; intros state data Hb Hf.
  - replace (length data / 64)%nat with 0%nat by lia. reflexivity.
  - cbn [sha1_blocks]. destruct (Nat.ltb_spec 63 (length data)) as [H|H].
    + pose proof (length_drop data 64) as Hd.
      assert (length data / 64 = S (length (drop 64 data) / 64))%nat as E.
      { rewrite Hd. replace (length data) with (length data - 64 + 1 * 64)%nat at 1 by lia.
        rewrite Nat.div_add by lia. lia. }
      rewrite IH; [|by apply Forall_drop|lia]. rewrite E. cbn [Fips.blocks fold_left].
      rewrite drop_drop. rewrite (proj1 (transform_spec state (take 64 data) ltac:(rewrite length_take; lia) (Forall_take _ _ _ Hb))).
      do 2 f_equal. lia.
    + rewrite Nat.div_small by lia. reflexivity.
Qed.

Lemma counters_spec L n c0 c1 : 0 <= L -> 0 <= n < 536870912 ->
  c0 = u32 (8 * L) -> c1 = u32 (8 * L / 4294967296) ->
  let c0' := u32 (c0 + u32 (Z.shiftl (u32 n) 3)) in
  c0' = u32 (8 * (L + n)) /\
  u32 ((if c0' <? u64 (Z.shiftl n 3) then u32 (c1 + 1) else c1) + Z.shiftr (u32 n) 29) =
    u32 (8 * (L + n) / 4294967296).
Proof.
  intros HL Hn -> ->. cbn zeta. rewrite (u32_small n) by (unfold is_u32; lia).
  rewrite !Z.shiftl_mul_pow2, Z.shiftr_div_pow2 by lia. change (2 ^ 3) with 8. change (2 ^ 29) with 536870912.
  rewrite (Z.div_small n) by lia. rewrite Z.add_0_r.
  rewrite (u32_small (n * 8)) by (unfold is_u32; lia). rewrite (u64_small (n * 8)) by (unfold is_u64; lia).
  rewrite u32_add_l. replace (8 * L + n * 8) with (8 * (L + n)) by lia. split; [done|].
  destruct (Z.ltb_spec (u32 (8 * (L + n))) (n * 8)); word_lia.
Qed.

Lemma buffer_place L : 0 <= L ->
  Z.to_nat (Z.land (Z.shiftr (u32 (8 * L)) 3) 63) = Nat.modulo (Z.to_nat L) 64.
Proof.
  intros HL. change 63 with (Z.ones 6). rewrite Z.land_ones, Z.shiftr_div_pow2 by lia.
  change (2 ^ 3) with 8. change (2 ^ 6) with 64. apply Nat2Z.inj.
  rewrite Nat2Z.inj_mod, !Z2Nat.id by (word_lia). change (Z.of_nat 64) with 64. word_lia.
Qed.

Lemma split_length (m : list Z) : length m = (64 * (length m / 64) + length m mod 64)%nat.
Proof. apply Nat.div_mod_eq. Qed.

(** The whole blocks of a longer message. *)
Lemma hash_blocks_more m data k : let q := (length m / 64)%nat in
  Fips.hash_blocks (q + k) (m ++ data) =
  fold_left (fun h b => Fips.compress h (Fips.be_words b)) (Fips.blocks k (drop (64 * q) m ++ data))
    (Fips.hash_blocks q m).
Proof.
  cbn zeta. pose proof (split_length m). rewrite hash_blocks_app, drop_app_le by lia. f_equal.
  unfold Fips.hash_blocks. by rewrite blocks_prefix by lia.
Qed.

Lemma put_at_length buffer j l : (j + length l <= length buffer)%nat ->
  length (put_at buffer j l) = length buffer.
Proof. intros H. unfold put_at. rewrite !length_app, length_take, length_drop. lia. Qed.

Lemma take_put_at buffer j l : (j + length l <= length buffer)%nat ->
  take (j + length l) (put_at buffer j l) = take j buffer ++ l.
Proof.
  intros H. unfold put_at. rewrite app_assoc. apply take_app_length'.
  rewrite length_app, length_take. lia.
Qed.

Lemma total_blocks (m data : list Z) : let r := (length m mod 64)%nat in
  (64 <= r + length data)%nat ->
  (length (m ++ data) / 64)%nat =
    (length m / 64 + S (length (drop (64 - r) data) / 64))%nat /\
  (length (m ++ data) mod 64 = length (drop (64 - r) data) mod 64)%nat.
Proof.
  cbn zeta. intros H. rewrite length_app, length_drop. pose proof (split_length m) as Em.
  pose proof (Nat.mod_upper_bound (length m) 64 ltac:(lia)).
  set (q := (length m / 64)%nat) in *. set (r := (length m mod 64)%nat) in *.
  replace (length m + length data)%nat with (length data - (64 - r) + (q + 1) * 64)%nat by lia.
  rewrite Nat.div_add, Nat.Div0.mod_add by lia. lia.
Qed.

Lemma update_absorbed c m data : absorbed c m -> is_bytes m -> is_bytes data -> zlen data < 536870912 ->
  absorbed (pj_sha1_update c data) (m ++ data).
Proof.
  intros [Hst Hlb Hrest H0 H1] Hm Hd Hn.
  pose proof (zlen_nonneg data) as Hn0. pose proof (zlen_nonneg m) as Hm0.
  destruct (counters_spec (zlen m) (zlen data) _ _ Hm0 (conj Hn0 Hn) H0 H1) as [E0 E1].
  rewrite <- !zlen_app in E0, E1.
  pose proof (buffer_place (zlen m) Hm0) as Hj. rewrite <- H0 in Hj.
  replace (Z.to_nat (zlen m)) with (length m) in Hj by (unfold zlen; lia).
  pose proof (split_length m) as Em. pose proof (Nat.mod_upper_bound (length m) 64 ltac:(lia)) as Hr.
  unfold pj_sha1_update. rewrite Hj. set (r := (length m mod 64)%nat) in *. set (q := (length m / 64)%nat) in *.
  assert (Z.of_nat r + zlen data = Z.of_nat (r + length data)) as -> by (unfold zlen; lia).
  rewrite Z.gtb_ltb. destruct (Z.ltb_spec 63 (Z.of_nat (r + length data))) as [Hfull|Hfull].
  - pose proof (total_blocks m data ltac:(lia)) as [Eq Er]. fold r q in Eq, Er.
    set (tl := drop (64 - r) data) in *. set (b1 := put_at (sha_buffer c) r (take (64 - r) data)).
    assert (b1 = drop (64 * q) m ++ take (64 - r) data) as Eb.
    { unfold b1, put_at. rewrite Hrest, length_take, (Nat.min_l (64 - r)), (drop_ge (sha_buffer c)), app_nil_r by lia. done. }
    destruct (transform_spec (sha_state c) b1) as [T1 T2].
    { rewrite Eb, length_app, length_drop, length_take. lia. }
    { rewrite Eb. apply Forall_app_2; [by apply Forall_drop|by apply Forall_take]. }
    destruct (SHA1_Transform (sha_state c) b1) as [state1 b2]. cbn [fst snd] in T1, T2.
    rewrite sha1_blocks_spec;
      [|by apply Forall_drop|apply Nat.Div0.div_le_upper_bound; unfold tl; rewrite length_drop; lia].
    pose proof (Nat.mod_upper_bound (length tl) 64 ltac:(lia)). pose proof (split_length tl) as Etl.
    constructor; cbn [sha_state sha_buffer count0 count1]; [|..|exact E0|exact E1].
    + pose proof (hash_blocks_more m data (S (length tl / 64))) as HB. cbn zeta in HB. fold q in HB.
      rewrite Eq, HB. cbn [Fips.blocks fold_left].
      rewrite take_app_ge, drop_app_ge by (rewrite length_drop; lia).
      rewrite length_drop. replace (64 - (length m - 64 * q))%nat with (64 - r)%nat by lia.
      rewrite <- Eb, T1, Hst. done.
    + rewrite put_at_length; [done|]. rewrite length_drop, T2. lia.
    + rewrite Er, Eq. replace (length tl mod 64)%nat with (0 + length (drop (64 * (length tl / 64)) tl))%nat
        by (rewrite length_drop; lia).
      rewrite take_put_at by (rewrite length_drop, T2; lia). cbn [take app].
      rewrite drop_app_ge by lia. unfold tl. rewrite drop_drop. fold tl.
      generalize (length tl / 64)%nat. intros k. replace (64 * (q + S k) - length m)%nat with (64 - r + 64 * k)%nat by lia. done.
  - assert (length (m ++ data) / 64 = q /\ length (m ++ data) mod 64 = r + length data)%nat as [Eq Er].
    { rewrite length_app. replace (length m + length data)%nat with (r + length data + q * 64)%nat by lia.
      rewrite Nat.div_add, Nat.Div0.mod_add, Nat.div_small, Nat.mod_small by lia. lia. }
    constructor; cbn [sha_state sha_buffer count0 count1]; [..|exact E0|exact E1].
    + rewrite Eq, Hst. unfold Fips.hash_blocks. by rewrite blocks_prefix by lia.
    + rewrite put_at_length; lia.
    + rewrite Er, Eq, take_put_at, Hrest by lia. by rewrite drop_app_le by lia.
Qed.

(** ** Padding and the digest *)

Lemma be32_bytes v : is_bytes (be32 v).
Proof. unfold be32. repeat constructor; apply land_u8. Qed.

Lemma be32_u32 v : be32 (u32 v) = be32 v.
Proof.
  unfold be32. cbn [map]. change 255 with (Z.ones 8). rewrite !Z.land_ones, !Z.shiftr_div_pow2 by lia.
  change (2 ^ 8) with 256. unfold u32.
  change (2 ^ ((3 - 0) * 8)) with 16777216. change (2 ^ ((3 - 1) * 8)) with 65536.
  change (2 ^ ((3 - 2) * 8)) with 256. change (2 ^ ((3 - 3) * 8)) with 1.
  assert (forall a b c d a' b' c' d' : Z, a = a' -> b = b' -> c = c' -> d = d' ->
    [a; b; c; d] = [a'; b'; c'; d']) as H by congruence.
  apply H; Z.to_euclidean_division_equations; lia.
Qed.

Lemma pad_test L : 0 <= L -> (Z.land (u32 (8 * L)) 504 =? 448) = (L mod 64 =? 56).
Proof.
  intros HL. change 504 with (Z.shiftl (Z.ones 6) 3). rewrite land_field by lia.
  change (2 ^ 3) with 8. change (2 ^ 6) with 64.
  destruct (Z.eqb_spec (L mod 64) 56), (Z.eqb_spec (u32 (8 * L) / 8 mod 64 * 8) 448); word_lia.
Qed.

Lemma sha1_pad_absorbed fuel : forall c m, absorbed c m -> is_bytes m ->
  (56 - zlen m) mod 64 < Z.of_nat fuel ->
  absorbed (sha1_pad fuel c) (m ++ replicate (Z.to_nat ((56 - zlen m) mod 64)) 0).
Proof.
  induction fuel as [|fuel IH]; intros c m Hc Hm Hf;
    [pose proof (Z.mod_pos_bound (56 - zlen m) 64); lia|].
  pose proof (zlen_nonneg m) as Hm0. cbn [sha1_pad]. rewrite (ab_count0 _ _ Hc), pad_test by done.
  destruct (Z.eqb_spec (zlen m mod 64) 56) as [E|E]; cbn [negb].
  - replace ((56 - zlen m) mod 64) with 0 by (Z.to_euclidean_division_equations; lia).
    by rewrite app_nil_r.
  - assert (is_bytes [0]) as H0 by (repeat constructor; unfold is_u8; lia).
    pose proof (update_absorbed c m [0] Hc Hm H0 ltac:(unfold zlen; cbn; lia)) as H.
    specialize (IH _ _ H ltac:(by apply Forall_app_2)). rewrite zlen_app in IH. change (zlen [0]) with 1 in IH.
    assert ((56 - zlen m) mod 64 = (56 - (zlen m + 1)) mod 64 + 1) as -> by (Z.to_euclidean_division_equations; lia).
    pose proof (Z.mod_pos_bound (56 - (zlen m + 1)) 64 ltac:(lia)).
    rewrite Z2Nat.inj_add, Nat.add_comm by lia. cbn [replicate Nat.add Z.to_nat Pos.to_nat].
    rewrite <- app_assoc in IH. apply IH. Z.to_euclidean_division_equations; lia.
Qed.

Lemma pad_length l : (length (Fips.pad l) mod 64 = 0)%nat.
Proof.
  apply Nat2Z.inj. rewrite Nat2Z.inj_mod. change (Z.of_nat 64) with 64. change (Z.of_nat 0) with 0.
  change (Z.of_nat (length (Fips.pad l))) with (zlen (Fips.pad l)). unfold Fips.pad.
  rewrite !zlen_app, zlen_replicate by (apply Z.mod_pos_bound; lia).
  change (zlen [128]) with 1. change (zlen (Fips.be 8 ?x)) with 8. Z.to_euclidean_division_equations; lia.
Qed.

Lemma final_spec c m : absorbed c m -> is_bytes m -> (pj_sha1_final c).2 = Fips.sha1 m.
Proof.
  intros Hc Hm. pose proof (zlen_nonneg m). unfold pj_sha1_final. cbn [snd].
  rewrite (ab_count0 _ _ Hc), (ab_count1 _ _ Hc), !be32_u32.
  assert (is_bytes [128]) as H1 by (repeat constructor; unfold is_u8; lia).
  pose proof (update_absorbed c m [128] Hc Hm H1 ltac:(unfold zlen; cbn; lia)) as A1.
  assert (is_bytes (m ++ [128])) as Hb1 by by apply Forall_app_2.
  pose proof (sha1_pad_absorbed 64 _ _ A1 Hb1) as A2.
  rewrite zlen_app in A2. change (zlen [128]) with 1 in A2.
  replace (56 - (zlen m + 1)) with (55 - zlen m) in A2 by lia.
  pose proof (Z.mod_pos_bound (55 - zlen m) 64 ltac:(lia)).
  specialize (A2 ltac:(lia)).
  rewrite be32_twice, digest_fips. set (fin := Fips.be 8 (8 * zlen m)).
  pose proof (update_absorbed _ _ fin A2) as A3.
  replace ((m ++ [128]) ++ _) with (m ++ [128] ++ replicate (Z.to_nat ((55 - zlen m) mod 64)) 0) in A3
    by by rewrite app_assoc.
  rewrite <- !app_assoc in A3. fold (Fips.pad m) in A3.
  assert (absorbed (pj_sha1_update (sha1_pad 64 (pj_sha1_update c [128])) fin) (Fips.pad m)) as [Hs _ _ _ _].
  { apply A3.
    - repeat apply Forall_app_2; auto. apply Forall_replicate. unfold is_u8. lia.
    - unfold fin. rewrite <- be32_twice. apply Forall_app_2; apply be32_bytes.
    - unfold fin, zlen. cbn. lia. }
  rewrite Hs. unfold Fips.sha1. do 2 f_equal. unfold zlen.
  change 64 with (Z.of_nat 64). rewrite <- Nat2Z.inj_div. by rewrite Nat2Z.id.
Qed.

Lemma chunks_absorbed chunks : forall c m, absorbed c m -> is_bytes m ->
  Forall (fun d => is_bytes d /\ zlen d < 536870912) chunks ->
  absorbed (fold_left pj_sha1_update chunks c) (m ++ concat chunks) /\ is_bytes (m ++ concat chunks).
Proof.
  induction chunks as [|d chunks IH]; intros c m Hc Hm Hd; cbn [fold_left concat];
    [by rewrite app_nil_r|].
  apply Forall_cons in Hd as [[Hb Hl] Hd]. rewrite app_assoc.
  apply IH; [by apply update_absorbed|by apply Forall_app_2|done].
Qed.

(** Hashing in pieces, from a context whose memory holds anything. *)
Lemma hash_chunks buffer chunks : length buffer = 64%nat ->
  Forall (fun d => is_bytes d /\ zlen d < 536870912) chunks ->
  (pj_sha1_final (fold_left pj_sha1_update chunks (pj_sha1_init buffer))).2 = Fips.sha1 (concat chunks).
Proof.
  intros Hb Hc. destruct (chunks_absorbed chunks _ _ (absorbed_init buffer Hb) (Forall_nil_2 _) Hc) as [H1 H2].
  exact (final_spec _ _ H1 H2).
Qed.

(** ** Properties *)

(** C34: The incremental hash is SHA-1: whatever the memory of the context held, and
    however the message is cut into pieces of less than 2^29 bytes, the digest is
    the one that FIPS 180 defines for the whole message, with the constants, the
    padding, the length of 64 bits and the order of the bytes of the standard. *)
Theorem sha1_is_fips180 buffer chunks : length buffer = 64%nat ->
  Forall (fun d => is_bytes d /\ zlen d < 536870912) chunks ->
  (pj_sha1_final (fold_left pj_sha1_update chunks (pj_sha1_init buffer))).2 = Fips.sha1 (concat chunks).
Proof. apply hash_chunks. Qed.

Lemma sha1_is_fips180_witness :
  length (replicate 64 7) = 64%nat /\
  Forall (fun d => is_bytes d /\ zlen d < 536870912) [[97]; [98; 99]] /\
  (pj_sha1_final (fold_left pj_sha1_update [[97]; [98; 99]] (pj_sha1_init (replicate 64 7)))).2 =
    [0xA9; 0x99; 0x3E; 0x36; 0x47; 0x06; 0x81; 0x6A; 0xBA; 0x3E; 0x25; 0x71; 0x78; 0x50; 0xC2; 0x6C;
     0x9C; 0xD0; 0xD8; 0x9D].
Proof.
  assert (Forall (fun d => is_bytes d /\ zlen d < 536870912) [[97]; [98; 99]]) as H
    by (repeat constructor; unfold is_u8; cbn; lia).
  split; [reflexivity|]. split; [exact H|].
  rewrite (sha1_is_fips180 (replicate 64 7) [[97]; [98; 99]] eq_refl H). vm_compute. reflexivity.
Defined.

Lemma digest_length s : length (Fips.digest s) = 20%nat /\ is_bytes (Fips.digest s).
Proof.
  rewrite <- digest_fips.
  destruct s as [[[[a b] c] d] e]. split; [reflexivity|].
  unfold digest_of. repeat apply Forall_app_2; apply be32_bytes.
Qed.

Lemma key_padded key : (length key <= 64)%nat ->
  put_at (replicate 64 0) 0 key = key ++ replicate (64 - length key) 0.
Proof. intros H. unfold put_at. cbn [take app]. by rewrite drop_replicate. Qed.

Lemma xor_bytes k x : is_bytes k -> is_u8 x -> is_bytes (map (fun b => Z.lxor b x) k).
Proof.
  intros Hk Hx. induction Hk as [|b k Hb _ IH]; [constructor|]. constructor; [|exact IH].
  unfold is_u8 in *. split; [apply Z.lxor_nonneg; lia|].
  destruct (decide (Z.lxor b x <= 0)); [lia|]. change 256 with (2 ^ 8). apply Z.log2_lt_pow2; [lia|].
  eapply Z.le_lt_trans; [apply Z.log2_lxor; lia|].
  apply Z.max_lub_lt; (eapply Z.le_lt_trans; [apply (Z.log2_le_mono _ 255); lia|reflexivity]).
Qed.

Lemma hmac_final_eq c pad : pj_hmac_sha1_final (HmacContext c pad) =
  (pj_sha1_final (pj_sha1_update (pj_sha1_update (pj_sha1_init (replicate 64 0)) pad) (pj_sha1_final c).2)).2.
Proof. reflexivity. Qed.

Lemma hmac_updates chunks : forall c pad, fold_left pj_hmac_sha1_update chunks (HmacContext c pad) =
  HmacContext (fold_left pj_sha1_update chunks c) pad.
Proof. induction chunks as [|d chunks IH]; intros c pad; [done|]. cbn [fold_left]. apply IH. Qed.

(** The keyed hash of a message in pieces, whatever the memory held. *)
Lemma hmac_chunks stack key chunks : length stack = 64%nat ->
  is_bytes key -> zlen key < 536870912 -> Forall (fun d => is_bytes d /\ zlen d < 536870912) chunks ->
  pj_hmac_sha1_final (fold_left pj_hmac_sha1_update chunks (pj_hmac_sha1_init stack key)) =
  hmac_spec Fips.sha1 key (concat chunks).
Proof.
  intros Hst Hk Hlk Hc. unfold hmac_spec, pj_hmac_sha1_init.
  assert ((if zlen key >? 64 then (pj_sha1_final (pj_sha1_update (pj_sha1_init stack) key)).2 else key) =
          (if zlen key >? 64 then Fips.sha1 key else key)) as ->.
  { destruct (zlen key >? 64); [|done].
    pose proof (hash_chunks stack [key] Hst ltac:(by apply Forall_cons_2)) as E. cbn [fold_left concat] in E.
    by rewrite app_nil_r in E. }
  set (k := if zlen key >? 64 then Fips.sha1 key else key).
  assert (is_bytes k /\ (length k <= 64)%nat) as [Hkb Hkl].
  { unfold k. destruct (Z.gtb_spec (zlen key) 64).
    - destruct (digest_length (Fips.hash_blocks (Z.to_nat (zlen (Fips.pad key) / 64)) (Fips.pad key))) as [H1 H2].
      unfold Fips.sha1. split; [exact H2|rewrite H1; lia].
    - split; [exact Hk|unfold zlen in *; lia]. }
  rewrite key_padded by exact Hkl. set (kp := k ++ _).
  assert (is_bytes kp /\ length kp = 64%nat) as [Hp Hpl].
  { split; [apply Forall_app_2; [exact Hkb|apply Forall_replicate; unfold is_u8; lia]|].
    unfold kp. rewrite length_app, length_replicate. lia. }
  assert (forall x, is_u8 x -> is_bytes (map (fun b => Z.lxor b x) kp) /\
    zlen (map (fun b => Z.lxor b x) kp) < 536870912) as Hl
    by (intros x Hx; split; [by apply xor_bytes|unfold zlen; rewrite length_map, Hpl; reflexivity]).
  rewrite hmac_updates, hmac_final_eq.
  pose proof (hash_chunks stack (map (fun b => Z.lxor b 0x36) kp :: chunks) Hst
    ltac:(apply Forall_cons_2; [apply Hl; unfold is_u8; lia|done])) as E1. cbn [fold_left concat] in E1.
  rewrite E1.
  pose proof (hash_chunks (replicate 64 0) [map (fun b => Z.lxor b 0x5c) kp; Fips.sha1 (map (fun b => Z.lxor b 0x36) kp ++ concat chunks)]
    eq_refl) as E2. cbn [fold_left concat] in E2. rewrite app_nil_r in E2. apply E2.
  apply Forall_cons_2; [apply Hl; unfold is_u8; lia|]. apply Forall_cons_2; [|apply Forall_nil_2]. split.
  - apply (digest_length (Fips.hash_blocks _ _)).
  - unfold zlen, Fips.sha1. rewrite (proj1 (digest_length _)). lia.
Qed.

(** The keyed hash is HMAC-SHA1: whatever the memory held, and for keys of any
    length, the digest is the one that RFC 2104 defines over SHA-1. *)
Lemma hmac_is_rfc2104 stack input key : length stack = 64%nat ->
  is_bytes input -> is_bytes key -> zlen input < 536870912 -> zlen key < 536870912 ->
  pj_hmac_sha1 stack input key = hmac_spec Fips.sha1 key input.
Proof.
  intros Hst Hi Hk Hli Hlk.
  pose proof (hmac_chunks stack key [input] Hst Hk Hlk ltac:(by apply Forall_cons_2)) as E.
  cbn [fold_left concat] in E. by rewrite app_nil_r in E.
Qed.

Lemma hmac_is_rfc2104_witness :
  length (replicate 64 9) = 64%nat /\ is_bytes [72; 105] /\ is_bytes [75; 101; 121] /\
  pj_hmac_sha1 (replicate 64 9) [72; 105] [75; 101; 121] = hmac_spec Fips.sha1 [75; 101; 121] [72; 105].
Proof.
  assert (is_bytes [72; 105] /\ is_bytes [75; 101; 121]) as [H1 H2]
    by (split; repeat constructor; unfold is_u8; lia).
  split; [reflexivity|]. split; [exact H1|]. split; [exact H2|].
  apply (hmac_is_rfc2104 (replicate 64 9)); [reflexivity|exact H1|exact H2|reflexivity|reflexivity].
Defined.
