(* ===== verification/Md5.v ===== *)
(** * MD5 (pjlib-util/src/pjlib-util/md5.c)

    The incremental hash with its buffer of one block, on a little-endian host; it
    computes what RFC 1321 defines. *)

From S2P Require Import Prelude Mem Sha1.

(** ** One block *)

Definition F1 (x y z : Z) : Z := Z.lxor z (Z.land x (Z.lxor y z)).
Definition F2 (x y z : Z) : Z := F1 z x y.
Definition F3 (x y z : Z) : Z := Z.lxor (Z.lxor x y) z.
Definition F4 (x y z : Z) : Z := Z.lxor y (Z.lor x (u32 (Z.lnot z))).

(** The working variables, renamed after each step so that the first is the one
    that the next step changes. *)
Definition md5_vars : Type := Z * Z * Z * Z.

(** A step: its function, the index of its data, its constant and its rotation. *)
Definition md5_step : Type := (Z -> Z -> Z -> Z) * nat * Z * Z.

Definition MD5STEP (in_ : list Z) (v : md5_vars) (s : md5_step) : md5_vars :=
  let '(w, x, y, z) := v in
  let '(f, i, k, s) := s in
  let w := u32 (w + (f x y z + u32 (word in_ i + k))) in
  let w := rol w s in
  let w := u32 (w + x) in
  (z, w, x, y).

Definition md5_steps : list md5_step :=
  [
    (F1, 0%nat, 0xd76aa478, 7); (F1, 1%nat, 0xe8c7b756, 12); (F1, 2%nat, 0x242070db, 17); (F1, 3%nat, 0xc1bdceee, 22);
    (F1, 4%nat, 0xf57c0faf, 7); (F1, 5%nat, 0x4787c62a, 12); (F1, 6%nat, 0xa8304613, 17); (F1, 7%nat, 0xfd469501, 22);
    (F1, 8%nat, 0x698098d8, 7); (F1, 9%nat, 0x8b44f7af, 12); (F1, 10%nat, 0xffff5bb1, 17); (F1, 11%nat, 0x895cd7be, 22);
    (F1, 12%nat, 0x6b901122, 7); (F1, 13%nat, 0xfd987193, 12); (F1, 14%nat, 0xa679438e, 17); (F1, 15%nat, 0x49b40821, 22);
    (F2, 1%nat, 0xf61e2562, 5); (F2, 6%nat, 0xc040b340, 9); (F2, 11%nat, 0x265e5a51, 14); (F2, 0%nat, 0xe9b6c7aa, 20);
    (F2, 5%nat, 0xd62f105d, 5); (F2, 10%nat, 0x02441453, 9); (F2, 15%nat, 0xd8a1e681, 14); (F2, 4%nat, 0xe7d3fbc8, 20);
    (F2, 9%nat, 0x21e1cde6, 5); (F2, 14%nat, 0xc33707d6, 9); (F2, 3%nat, 0xf4d50d87, 14); (F2, 8%nat, 0x455a14ed, 20);
    (F2, 13%nat, 0xa9e3e905, 5); (F2, 2%nat, 0xfcefa3f8, 9); (F2, 7%nat, 0x676f02d9, 14); (F2, 12%nat, 0x8d2a4c8a, 20);
    (F3, 5%nat, 0xfffa3942, 4); (F3, 8%nat, 0x8771f681, 11); (F3, 11%nat, 0x6d9d6122, 16); (F3, 14%nat, 0xfde5380c, 23);
    (F3, 1%nat, 0xa4beea44, 4); (F3, 4%nat, 0x4bdecfa9, 11); (F3, 7%nat, 0xf6bb4b60, 16); (F3, 10%nat, 0xbebfbc70, 23);
    (F3, 13%nat, 0x289b7ec6, 4); (F3, 0%nat, 0xeaa127fa, 11); (F3, 3%nat, 0xd4ef3085, 16); (F3, 6%nat, 0x04881d05, 23);
    (F3, 9%nat, 0xd9d4d039, 4); (F3, 12%nat, 0xe6db99e5, 11); (F3, 15%nat, 0x1fa27cf8, 16); (F3, 2%nat, 0xc4ac5665, 23);
    (F4, 0%nat, 0xf4292244, 6); (F4, 7%nat, 0x432aff97, 10); (F4, 14%nat, 0xab9423a7, 15); (F4, 5%nat, 0xfc93a039, 21);
    (F4, 12%nat, 0x655b59c3, 6); (F4, 3%nat, 0x8f0ccc92, 10); (F4, 10%nat, 0xffeff47d, 15); (F4, 1%nat, 0x85845dd1, 21);
    (F4, 8%nat, 0x6fa87e4f, 6); (F4, 15%nat, 0xfe2ce6e0, 10); (F4, 6%nat, 0xa3014314, 15); (F4, 13%nat, 0x4e0811a1, 21);
    (F4, 4%nat, 0xf7537e82, 6); (F4, 11%nat, 0xbd3af235, 10); (F4, 2%nat, 0x2ad7d2bb, 15); (F4, 9%nat, 0xeb86d391, 21)
  ].

Definition MD5Transform (buf : md5_vars) (in_ : list Z) : md5_vars :=
  let '(a, b, c, d) := fold_left (MD5STEP in_) md5_steps buf in
  let '(a0, b0, c0, d0) := buf in
  (u32 (a0 + a), u32 (b0 + b), u32 (c0 + c), u32 (d0 + d)).

(** ** The context *)

Record pj_md5_context := Md5Context { md5_buf : md5_vars; bits0 : Z; bits1 : Z; md5_in : list Z }.
#[export] Instance eta_md5_context : Eta pj_md5_context := fun r =>
  Md5Context (md5_buf r) (bits0 r) (bits1 r) (md5_in r).

(** [memory] is what the memory of the block holds. *)
Definition pj_md5_init (memory : list Z) : pj_md5_context :=
  Md5Context (0x67452301, 0xefcdab89, 0x98badcfe, 0x10325476) 0 0 memory.

(** The 64 byte chunks of the data: the state, the block and what is left. *)
Fixpoint md5_chunks (fuel : nat) (buf : md5_vars) (block data : list Z) : md5_vars * list Z * list Z :=
  match fuel with
  | O => (buf, block, data)
  | S fuel =>
      if (64 <=? length data)%nat
      then
        let block := put_at block 0 (take 64 data) in
        md5_chunks fuel (MD5Transform buf (words_of block)) block (drop 64 data)
      else (buf, block, data)
  end.

Definition pj_md5_update (ctx : pj_md5_context) (data : list Z) : pj_md5_context :=
  let len := zlen data in
  let t := bits0 ctx in
  let b0 := u32 (t + u32 (Z.shiftl len 3)) in
  let b1 := if b0 <? t then u32 (bits1 ctx + 1) else bits1 ctx in
  let b1 := u32 (b1 + Z.shiftr len 29) in
  let t := Z.to_nat (Z.land (Z.shiftr t 3) 0x3f) in
  if (0 <? t)%nat && (length data <? 64 - t)%nat then
    Md5Context (md5_buf ctx) b0 b1 (put_at (md5_in ctx) t data)
  else
    let '(buf, block, data) :=
      if (0 <? t)%nat then
        let block := put_at (md5_in ctx) t (take (64 - t) data) in
        (MD5Transform (md5_buf ctx) (words_of block), block, drop (64 - t) data)
      else (md5_buf ctx, md5_in ctx, data) in
    let '(buf, block, data) := md5_chunks (length data) buf block data in
    Md5Context buf b0 b1 (put_at block 0 data).

Definition md5_digest (buf : md5_vars) : list Z :=
  let '(a, b, c, d) := buf in st32 a ++ st32 b ++ st32 c ++ st32 d.

(** The context is wiped. *)
Definition pj_md5_final (ctx : pj_md5_context) : pj_md5_context * list Z :=
  let count := Z.to_nat (Z.land (Z.shiftr (bits0 ctx) 3) 0x3F) in
  let block := put_at (md5_in ctx) count [0x80] in
  let room := (64 - 1 - count)%nat in
  let '(buf, block) :=
    if (room <? 8)%nat then
      let block := put_at block (count + 1) (replicate room 0) in
      (MD5Transform (md5_buf ctx) (words_of block), put_at block 0 (replicate 56 0))
    else (md5_buf ctx, put_at block (count + 1) (replicate (room - 8) 0)) in
  let block := put_at block 56 (st32 (bits0 ctx)) in
  let block := put_at block 60 (st32 (bits1 ctx)) in
  let buf := MD5Transform buf (words_of block) in
  (Md5Context (0, 0, 0, 0) 0 0 (replicate 64 0), md5_digest buf).

(** The digest of ["abc"] in RFC 1321. *)
Example md5_abc : (pj_md5_final (pj_md5_update (pj_md5_init (replicate 64 7)) [97; 98; 99])).2 =
  [0x90; 0x01; 0x50; 0x98; 0x3c; 0xd2; 0x4f; 0xb0; 0xd6; 0x96; 0x3f; 0x7d; 0x28; 0xe1; 0x7f; 0x72].
Proof. vm_compute. reflexivity. Qed.

(** ** RFC 1321 *)

Module Rfc1321.
Definition F (x y z : Z) : Z := Z.lor (Z.land x y) (Z.land (Z.lnot x) z).
Definition G (x y z : Z) : Z := Z.lor (Z.land x z) (Z.land y (Z.lnot z)).
Definition H (x y z : Z) : Z := Z.lxor (Z.lxor x y) z.
Definition I (x y z : Z) : Z := Z.lxor y (Z.lor x (u32 (Z.lnot z))).

(** A rotation to the left; the words of a block and the bytes of a number, the
    lowest first. *)
Definition rotl (x n : Z) : Z := Z.lor (Z.shiftl x n mod 2 ^ 32) (Z.shiftr x (32 - n)).
Fixpoint words (l : list Z) : list Z :=
  match l with
  | b0 :: b1 :: b2 :: b3 :: l => b0 + 2 ^ 8 * b1 + 2 ^ 16 * b2 + 2 ^ 24 * b3 :: words l
  | _ => []
  end.
Definition le (n : nat) (v : Z) : list Z := map (fun i => v / 2 ^ (8 * Z.of_nat i) mod 256) (seq 0 n).

(** The sine of [x] radians, in units of 2^-160: 128 terms of its series,
    x (1 - x^2/(2*3) (1 - x^2/(4*5) (1 - ...))), from the innermost outwards. *)
Definition unit : Z := 2 ^ 160.
Fixpoint sine_factor (n : nat) (x k : Z) : Z :=
  match n with
  | O => unit
  | S n => unit - x * x * sine_factor n x (k + 1) / (2 * k * (2 * k + 1))
  end.
Definition sine (x : Z) : Z := x * sine_factor 128 x 1.

(** The table: the integer part of 4294967296 times abs(sin(i)), i from 1 to 64. *)
Definition T (t : nat) : Z := 4294967296 * Z.abs (sine (Z.of_nat t + 1)) / unit.

(** Operation [t] of a block: its function, word and rotation. *)
Definition f (t : nat) : Z -> Z -> Z -> Z := nth (t / 16) [F; G; H; I] F.
Definition k (t : nat) : nat :=
  nth (t / 16) [t; 5 * t + 1; 3 * t + 5; 7 * t]%nat 0%nat mod 16.
Definition s (t : nat) : Z :=
  nth (t mod 4) (nth (t / 16) [[7; 12; 17; 22]; [5; 9; 14; 20]; [4; 11; 16; 23]; [6; 10; 15; 21]] []) 0.

(** [a = b + ((a + f(b, c, d) + X[k] + T[t]) <<< s)], and the words move on. *)
Definition round (x : list Z) (v : md5_vars) (t : nat) : md5_vars :=
  let '(a, b, c, d) := v in
  (d, u32 (b + rotl (u32 (a + f t b c d + nth (k t) x 0 + T t)) (s t)), b, c).

Definition compress (h : md5_vars) (x : list Z) : md5_vars :=
  let '(a, b, c, d) := fold_left (round x) (seq 0 64) h in
  let '(a0, b0, c0, d0) := h in
  (u32 (a0 + a), u32 (b0 + b), u32 (c0 + c), u32 (d0 + d)).

Definition h0 : md5_vars := (0x67452301, 0xefcdab89, 0x98badcfe, 0x10325476).

Definition hash_blocks (n : nat) (l : list Z) : md5_vars :=
  fold_left (fun h b => compress h (words b)) (Fips.blocks n l) h0.

(** The message, a bit, zeroes and the length in bits, the lowest byte first. *)
Definition pad (l : list Z) : list Z :=
  l ++ [128] ++ replicate (Z.to_nat ((55 - zlen l) mod 64)) 0
    ++ le 8 (8 * zlen l).

Definition digest (h : md5_vars) : list Z :=
  let '(a, b, c, d) := h in concat (map (le 4) [a; b; c; d]).

Definition md5 (l : list Z) : list Z :=
  let p := pad l in digest (hash_blocks (length p / 64) p).
End Rfc1321.

Lemma F1_rfc x y z : F1 x y z = Rfc1321.F x y z.
Proof.
  apply Z.bits_inj'. intros n Hn. unfold F1, Rfc1321.F.
  rewrite Z.lxor_spec, Z.land_spec, Z.lxor_spec, Z.lor_spec, !Z.land_spec, Z.lnot_spec by done.
  by destruct (Z.testbit x n), (Z.testbit y n), (Z.testbit z n).
Qed.

Lemma F2_rfc x y z : F2 x y z = Rfc1321.G x y z.
Proof.
  apply Z.bits_inj'. intros n Hn. unfold F2, F1, Rfc1321.G.
  rewrite Z.lxor_spec, Z.land_spec, Z.lxor_spec, Z.lor_spec, !Z.land_spec, Z.lnot_spec by done.
  by destruct (Z.testbit x n), (Z.testbit y n), (Z.testbit z n).
Qed.

(** The steps of the source are the operations of the RFC. *)
Definition step_at (c : Z) (t : nat) : md5_step :=
  (nth (t / 16) [F1; F2; F3; F4] F1, Rfc1321.k t, c, Rfc1321.s t).
Definition step_of (t : nat) : md5_step := step_at (Rfc1321.T t) t.

Lemma md5_constants : map (fun s : md5_step => s.1.2) md5_steps = map Rfc1321.T (seq 0 64).
Proof. vm_compute. reflexivity. Qed.

Lemma md5_steps_table : md5_steps = map step_of (seq 0 64).
Proof.
  assert (md5_steps = zip_with step_at (map (fun s : md5_step => s.1.2) md5_steps) (seq 0 64)) as -> by reflexivity.
  rewrite md5_constants. generalize (seq 0 64). intros l. induction l as [|t l IH]; [done|].
  cbn [map zip_with]. by rewrite IH.
Qed.

(** So are the words, the encoding and the digest. *)
Lemma words_rfc : Rfc1321.words = words_of.
Proof. reflexivity. Qed.

Lemma st32_rfc v : st32 v = Rfc1321.le 4 v.
Proof.
  unfold st32, Rfc1321.le. cbn [map seq]. change (2 ^ (8 * Z.of_nat 0)) with 1. by rewrite Z.div_1_r.
Qed.

Lemma st32_twice v : st32 v ++ st32 (v / 4294967296) = Rfc1321.le 8 v.
Proof.
  rewrite !st32_rfc. unfold Rfc1321.le. cbn [map seq app]. rewrite !Z.div_div by done. reflexivity.
Qed.

Lemma digest_rfc h : md5_digest h = Rfc1321.digest h.
Proof. destruct h as [[[a b] c] d]. unfold md5_digest. by rewrite !st32_rfc. Qed.

#[local] Opaque Rfc1321.T.

Lemma step_round x v t : (t < 64)%nat -> MD5STEP x v (step_of t) = Rfc1321.round x v t.
Proof.
  intros Ht. destruct v as [[[a b] c] d]. unfold MD5STEP, step_of, step_at, Rfc1321.round.
  assert (nth (t / 16) [F1; F2; F3; F4] F1 b c d = Rfc1321.f t b c d) as ->.
  { unfold Rfc1321.f. assert (t / 16 < 4)%nat as H by (apply Nat.Div0.div_lt_upper_bound; lia).
    destruct (t / 16)%nat as [|[|[|[|?]]]]; cbn [nth]; [apply F1_rfc|apply F2_rfc|done|done|lia]. }
  rewrite Z.add_assoc, u32_add_r, !Z.add_assoc, (Z.add_comm (rol _ _)). reflexivity.
Qed.

Lemma transform_rfc buf x : MD5Transform buf x = Rfc1321.compress buf x.
Proof.
  unfold MD5Transform, Rfc1321.compress.
  enough (fold_left (MD5STEP x) md5_steps buf = fold_left (Rfc1321.round x) (seq 0 64) buf) as -> by done.
  rewrite md5_steps_table. assert (Forall (fun t => (t < 64)%nat) (seq 0 64)) as Hs
    by (apply Forall_seq; intros; lia).
  revert buf. induction Hs as [|t l Ht _ IH]; intros buf; [done|].
  cbn [map fold_left]. by rewrite step_round, IH by done.
Qed.

(** ** The context holds what was hashed so far *)

Definition compress_all (bs : list (list Z)) (h : md5_vars) : md5_vars :=
  fold_left (fun h b => Rfc1321.compress h (words_of b)) bs h.

Record md5_absorbed (c : pj_md5_context) (m : list Z) : Prop := {
  md_buf : md5_buf c = Rfc1321.hash_blocks (length m / 64) m;
  md_len : length (md5_in c) = 64%nat;
  md_rest : take (length m mod 64) (md5_in c) = drop (64 * (length m / 64)) m;
  md_bits0 : bits0 c = u32 (8 * zlen m);
  md_bits1 : bits1 c = u32 (8 * zlen m / 4294967296)
}.

Lemma md5_absorbed_init memory : length memory = 64%nat -> md5_absorbed (pj_md5_init memory) [].
Proof. intros Hm. by constructor. Qed.

Lemma put_at_all block l : length block = length l -> put_at block 0 l = l.
Proof. intros Hl. unfold put_at. cbn [take app Nat.add]. by rewrite drop_ge, app_nil_r by lia. Qed.

Lemma put_at_app a k l : (length l <= length k)%nat ->
  put_at (a ++ k) (length a) l = a ++ l ++ drop (length l) k.
Proof. intros Hl. unfold put_at. by rewrite take_app_length, <- drop_drop, drop_app_length. Qed.

Lemma md5_chunks_spec fuel : forall buf block data, length block = 64%nat -> (length data / 64 <= fuel)%nat ->
  exists block', length block' = 64%nat /\
  md5_chunks fuel buf block data =
  (compress_all (Fips.blocks (length data / 64) data) buf, block', drop (64 * (length data / 64)) data).
Proof.
  induction fuel as [|fuel IH]; intros buf block data Hb Hf.
  - replace (length data / 64)%nat with 0%nat by lia. by exists block.
  - cbn [md5_chunks]. destruct (Nat.leb_spec 64 (length data)) as [H|H].
    + pose proof (length_drop data 64) as Hd.
      assert (length data / 64 = S (length (drop 64 data) / 64))%nat as E.
      { rewrite Hd. replace (length data) with (length data - 64 + 1 * 64)%nat at 1 by lia.
        rewrite Nat.div_add by lia. lia. }
      assert (length (take 64 data) = 64%nat) as Ht by (rewrite length_take; lia).
      rewrite put_at_all by lia.
      destruct (IH (MD5Transform buf (words_of (take 64 data))) (take 64 data) (drop 64 data) Ht ltac:(lia))
        as (block' & Hb' & ->). exists block'. split; [done|].
      rewrite E. cbn [Fips.blocks]. unfold compress_all. cbn [fold_left]. rewrite transform_rfc, drop_drop.
      do 2 f_equal. lia.
    + rewrite Nat.div_small by lia. by exists block.
Qed.

Lemma md5_counters L n b0 b1 : 0 <= L -> 0 <= n < 4294967296 ->
  b0 = u32 (8 * L) -> b1 = u32 (8 * L / 4294967296) ->
  let b0' := u32 (b0 + u32 (Z.shiftl n 3)) in
  b0' = u32 (8 * (L + n)) /\
  u32 ((if b0' <? b0 then u32 (b1 + 1) else b1) + Z.shiftr n 29) = u32 (8 * (L + n) / 4294967296).
Proof.
  intros HL Hn -> ->. cbn zeta. rewrite !Z.shiftl_mul_pow2, Z.shiftr_div_pow2 by lia.
  change (2 ^ 3) with 8. change (2 ^ 29) with 536870912.
  rewrite u32_add_r, u32_add_l. replace (8 * L + n * 8) with (8 * (L + n)) by lia. split; [done|].
  assert (8 * (L + n) / 4294967296 =
    8 * L / 4294967296 + n / 536870912 + (if u32 (8 * (L + n)) <? u32 (8 * L) then 1 else 0)) as ->.
  { destruct (Z.ltb_spec (u32 (8 * (L + n))) (u32 (8 * L))); word_lia. }
  destruct (_ <? _); autorewrite with words; rewrite <- ?Z.add_assoc, ?u32_add_l; f_equal; lia.
Qed.

Lemma md5_blocks_more m data k : let q := (length m / 64)%nat in
  Rfc1321.hash_blocks (q + k) (m ++ data) =
  compress_all (Fips.blocks k (drop (64 * q) m ++ data)) (Rfc1321.hash_blocks q m).
Proof.
  cbn zeta. pose proof (split_length m). unfold Rfc1321.hash_blocks, compress_all.
  rewrite blocks_app, fold_left_app, drop_app_le by lia. by rewrite (blocks_prefix (length m / 64)) by lia.
Qed.

(** The tail of the data behind its whole blocks. *)
Lemma absorbed_tail q0 tl buf block b0 b1 m : length block = 64%nat ->
  buf = Rfc1321.hash_blocks (q0 + length tl / 64) m -> drop (64 * q0) m = tl -> (64 * q0 <= length m)%nat ->
  b0 = u32 (8 * zlen m) -> b1 = u32 (8 * zlen m / 4294967296) ->
  md5_absorbed (Md5Context buf b0 b1 (put_at block 0 (drop (64 * (length tl / 64)) tl))) m.
Proof.
  intros Hl Hbuf Hd Hle H0 H1. pose proof (split_length tl) as Et.
  pose proof (Nat.mod_upper_bound (length tl) 64 ltac:(lia)) as Hr.
  assert (length m = (length tl + q0 * 64)%nat) as Em by (rewrite <- Hd, length_drop; lia).
  assert (length m / 64 = q0 + length tl / 64 /\ length m mod 64 = length tl mod 64)%nat as [Eq Er]
    by (rewrite Em, Nat.div_add, Nat.Div0.mod_add by lia; lia).
  constructor; cbn [md5_buf md5_in bits0 bits1]; [|..|exact H0|exact H1].
  - by rewrite Eq.
  - rewrite put_at_length; [done|]. rewrite length_drop. lia.
  - rewrite Er, Eq. replace (length tl mod 64)%nat with (0 + length (drop (64 * (length tl / 64)) tl))%nat
      by (rewrite length_drop; lia).
    rewrite take_put_at by (rewrite length_drop; lia). cbn [take app].
    rewrite take_0. cbn [app]. generalize (length tl / 64)%nat. intros k. rewrite <- Hd, drop_drop. f_equal. lia.
Qed.

Lemma md5_update_absorbed c m data : md5_absorbed c m -> zlen data < 4294967296 ->
  md5_absorbed (pj_md5_update c data) (m ++ data).
Proof.
  intros [Hst Hlb Hrest H0 H1] Hn. pose proof (zlen_nonneg data) as Hn0. pose proof (zlen_nonneg m) as Hm0.
  destruct (md5_counters (zlen m) (zlen data) _ _ Hm0 (conj Hn0 Hn) H0 H1) as [E0 E1].
  rewrite <- !zlen_app in E0, E1. pose proof (buffer_place (zlen m) Hm0) as Hj. rewrite <- H0 in Hj.
  replace (Z.to_nat (zlen m)) with (length m) in Hj by (unfold zlen; lia).
  pose proof (split_length m) as Em. pose proof (Nat.mod_upper_bound (length m) 64 ltac:(lia)) as Hr.
  unfold pj_md5_update. rewrite Hj. set (r := (length m mod 64)%nat) in *. set (q := (length m / 64)%nat) in *.
  destruct (Nat.ltb_spec 0 r) as [Hr0|Hr0]; cbn [andb].
  - destruct (Nat.ltb_spec (length data) (64 - r)) as [Hfit|Hfull].
    + assert (length (m ++ data) / 64 = q /\ length (m ++ data) mod 64 = r + length data)%nat as [Eq Er].
      { rewrite length_app. replace (length m + length data)%nat with (r + length data + q * 64)%nat by lia.
        rewrite Nat.div_add, Nat.Div0.mod_add, Nat.div_small, Nat.mod_small by lia. lia. }
      constructor; cbn [md5_buf md5_in bits0 bits1]; [..|exact E0|exact E1].
      * rewrite Eq, Hst. unfold Rfc1321.hash_blocks. by rewrite blocks_prefix by lia.
      * rewrite put_at_length; lia.
      * rewrite Er, Eq, take_put_at, Hrest by lia. by rewrite drop_app_le by lia.
    + set (b1 := put_at (md5_in c) r (take (64 - r) data)).
      assert (b1 = drop (64 * q) m ++ take (64 - r) data) as Eb.
      { unfold b1, put_at. rewrite Hrest, length_take, (Nat.min_l (64 - r)), (drop_ge (md5_in c)), app_nil_r by lia. done. }
      assert (length b1 = 64%nat) as Hb1 by (rewrite Eb, length_app, length_drop, length_take; lia).
      set (tl := drop (64 - r) data).
      destruct (md5_chunks_spec (length tl) (MD5Transform (md5_buf c) (words_of b1)) b1 tl Hb1
        ltac:(apply Nat.Div0.div_le_upper_bound; lia)) as (block & Hbl & ->).
      apply (absorbed_tail (q + 1) tl); [done| | |rewrite length_app; lia|exact E0|exact E1].
      * rewrite <- Nat.add_assoc. pose proof (md5_blocks_more m data (1 + length tl / 64)) as HB. cbn zeta in HB.
        fold q in HB. rewrite HB. cbn [Fips.blocks Nat.add]. unfold compress_all. cbn [fold_left].
        rewrite take_app_ge, drop_app_ge by (rewrite length_drop; lia). rewrite length_drop.
        replace (64 - (length m - 64 * q))%nat with (64 - r)%nat by lia. by rewrite <- Eb, transform_rfc, Hst.
      * rewrite drop_app_ge by lia. unfold tl. f_equal. lia.
  - destruct (md5_chunks_spec (length data) (md5_buf c) (md5_in c) data Hlb
      ltac:(apply Nat.Div0.div_le_upper_bound; lia)) as (block & Hbl & ->).
    assert (drop (64 * q) m = []) as Ed by (apply drop_ge; lia).
    apply (absorbed_tail q data); [done| | |rewrite length_app; lia|exact E0|exact E1].
    + pose proof (md5_blocks_more m data (length data / 64)) as HB. cbn zeta in HB. fold q in HB.
      by rewrite HB, Ed, Hst.
    + rewrite drop_app_ge by lia. replace (64 * q - length m)%nat with 0%nat by lia. done.
Qed.

(** ** Padding and the digest *)

Lemma st32_u32 v : st32 (u32 v) = st32 v.
Proof.
  unfold st32, u32.
  assert (forall a b c d a' b' c' d' : Z, a = a' -> b = b' -> c = c' -> d = d' ->
    [a; b; c; d] = [a'; b'; c'; d']) as H by congruence.
  apply H; Z.to_euclidean_division_equations; lia.
Qed.

Lemma blocks_two a b : length a = 64%nat -> length b = 64%nat -> Fips.blocks 2 (a ++ b) = [a; b].
Proof.
  intros Ha Hb. cbn [Fips.blocks]. rewrite take_app_le, drop_app_ge, Ha, Nat.sub_diag, drop_0, !take_ge by lia. done.
Qed.

Lemma md5_final_spec c m : md5_absorbed c m -> (pj_md5_final c).2 = Rfc1321.md5 m.
Proof.
  intros [Hst Hlb Hrest H0 H1]. pose proof (zlen_nonneg m) as Hm0.
  pose proof (buffer_place (zlen m) Hm0) as Hj. rewrite <- H0 in Hj.
  replace (Z.to_nat (zlen m)) with (length m) in Hj by (unfold zlen; lia).
  pose proof (split_length m) as Em. pose proof (Nat.mod_upper_bound (length m) 64 ltac:(lia)) as Hr.
  unfold pj_md5_final. rewrite Hj. set (r := (length m mod 64)%nat) in *. set (q := (length m / 64)%nat) in *.
  set (rest := drop (64 * q) m) in *. set (junk := drop r (md5_in c)).
  assert (md5_in c = rest ++ junk) as Ein by (rewrite <- Hrest; symmetry; apply take_drop).
  assert (length rest = r) as Hrl by (unfold rest; rewrite length_drop; lia).
  assert (length junk = 64 - r)%nat as Hjl by (unfold junk; rewrite length_drop; lia).
  pose proof (st32_twice (8 * zlen m)) as Elen.
  set (lens := st32 (8 * zlen m) ++ st32 (8 * zlen m / 4294967296)) in *.
  rewrite H0, H1, !st32_u32, Ein.
  pose proof (put_at_app rest junk [128]) as Ep. rewrite Hrl, Hjl in Ep. rewrite Ep by (cbn; lia). clear Ep.
  change (length [128]) with 1%nat.
  assert (forall a k, length a = 56%nat -> length k = 8%nat ->
    put_at (put_at (a ++ k) 56 (st32 (8 * zlen m))) 60 (st32 (8 * zlen m / 4294967296)) = a ++ lens) as Elens.
  { intros a k Ha Hk. rewrite <- Ha at 1. rewrite put_at_app by (cbn; lia).
    replace 60%nat with (length (a ++ st32 (8 * zlen m))) by (rewrite length_app, Ha; done).
    rewrite app_assoc, put_at_app by (rewrite length_drop, Hk; cbn; lia).
    rewrite drop_drop. rewrite (drop_ge k) by (cbn; lia). unfold lens. by rewrite app_nil_r, <- app_assoc. }
  assert (forall z, (z <= 63 - r)%nat -> put_at (rest ++ [128] ++ drop 1 junk) (r + 1) (replicate z 0) =
    rest ++ [128] ++ replicate z 0 ++ drop z (drop 1 junk)) as Ezero.
  { intros z Hz. pose proof (put_at_app (rest ++ [128]) (drop 1 junk) (replicate z 0)) as Ep.
    rewrite length_app, Hrl, length_replicate, length_drop, <- !app_assoc in Ep. apply Ep. lia. }
  assert (Rfc1321.pad m = m ++ [128] ++ replicate (Z.to_nat ((55 - Z.of_nat r) mod 64)) 0 ++ lens) as Epad.
  { unfold Rfc1321.pad. rewrite <- Elen. do 5 f_equal. unfold r, zlen. rewrite Nat2Z.inj_mod. Z.to_euclidean_division_equations; lia. }
  assert (forall z k n, z = Z.to_nat ((55 - Z.of_nat r) mod 64) -> (r + 1 + z + 8 = 64 * n)%nat ->
    k = rest ++ [128] ++ replicate z 0 ++ lens ->
    Rfc1321.md5 m = md5_digest (compress_all (Fips.blocks n k) (Rfc1321.hash_blocks q m))) as Emd.
  { intros z k n -> Hn ->. unfold Rfc1321.md5. rewrite Epad, digest_rfc.
    pose proof (md5_blocks_more m ([128] ++ replicate (Z.to_nat ((55 - Z.of_nat r) mod 64)) 0 ++ lens) n) as HB.
    cbn zeta in HB. fold q rest in HB. rewrite <- HB. do 2 f_equal.
    rewrite !length_app, length_replicate. cbn [length]. change (length lens) with 8%nat.
    replace (length m + (1 + (Z.to_nat ((55 - Z.of_nat r) mod 64) + 8)))%nat with ((q + n) * 64)%nat by lia.
    by rewrite Nat.div_mul. }
  cbn [snd].
  destruct (Nat.ltb_spec (64 - 1 - r) 8) as [Hlong|Hshort].
  - assert (Z.to_nat ((55 - Z.of_nat r) mod 64) = 119 - r)%nat as Ez by (Z.to_euclidean_division_equations; lia).
    remember (64 - 1 - r)%nat as z1 eqn:Hz1.
    rewrite Ezero by lia. rewrite (drop_ge (drop 1 junk)), app_nil_r by (rewrite length_drop; lia).
    set (block1 := rest ++ [128] ++ replicate z1 0).
    assert (length block1 = 64%nat) as Hb1 by (unfold block1; rewrite !length_app, length_replicate, Hrl; cbn [length]; lia).
    replace (put_at block1 0 (replicate 56 0)) with (replicate 56 0 ++ drop 56 block1) by reflexivity.
    rewrite Elens by (rewrite ?length_drop, ?length_replicate; lia).
    rewrite (Emd (119 - r)%nat (block1 ++ replicate 56 0 ++ lens) 2%nat).
    + rewrite blocks_two by (rewrite ?length_app, ?length_replicate; done).
      unfold compress_all. cbn [fold_left]. by rewrite !transform_rfc, Hst.
    + done.
    + lia.
    + unfold block1. rewrite <- !app_assoc. do 2 f_equal. rewrite (app_assoc (replicate z1 0)), <- replicate_add.
      do 2 f_equal. lia.
  - assert (Z.to_nat ((55 - Z.of_nat r) mod 64) = 55 - r)%nat as Ez by (Z.to_euclidean_division_equations; lia).
    remember (64 - 1 - r - 8)%nat as z1 eqn:Hz1.
    rewrite Ezero by lia. rewrite (app_assoc [128]), (app_assoc rest).
    rewrite Elens by (rewrite ?length_app, ?length_drop, ?length_replicate, ?Hrl, ?Hjl; cbn [length]; lia).
    rewrite (Emd (55 - r)%nat ((rest ++ [128] ++ replicate z1 0) ++ lens) 1%nat).
    + cbn [Fips.blocks]. rewrite take_ge by (rewrite !length_app, length_replicate, Hrl; cbn [length]; change (length lens) with 8%nat; lia).
      unfold compress_all. cbn [fold_left]. by rewrite transform_rfc, Hst.
    + done.
    + lia.
    + rewrite <- !app_assoc. do 4 f_equal. lia.
Qed.

Lemma md5_chunks_absorbed chunks : forall c m, md5_absorbed c m ->
  Forall (fun d => zlen d < 4294967296) chunks ->
  md5_absorbed (fold_left pj_md5_update chunks c) (m ++ concat chunks).
Proof.
  induction chunks as [|d chunks IH]; intros c m Hc Hd; cbn [fold_left concat]; [by rewrite app_nil_r|].
  apply Forall_cons in Hd as [Hl Hd]. rewrite app_assoc. apply IH; [by apply md5_update_absorbed|done].
Qed.

(** ** Properties *)

(** C35: The incremental hash is MD5: whatever the memory of the context held, and
    however the message is cut into pieces of less than 2^32 bytes, the digest is the
    one that RFC 1321 defines for the whole message, with the table of sines, the
    padding, the length of 64 bits and the order of the bytes of the RFC. *)
Theorem md5_is_rfc1321 memory chunks : length memory = 64%nat ->
  Forall (fun d => zlen d < 4294967296) chunks ->
  (pj_md5_final (fold_left pj_md5_update chunks (pj_md5_init memory))).2 = Rfc1321.md5 (concat chunks).
Proof.
  intros Hm Hc. apply md5_final_spec. exact (md5_chunks_absorbed chunks _ [] (md5_absorbed_init memory Hm) Hc).
Qed.

Lemma md5_is_rfc1321_witness :
  length (replicate 64 7) = 64%nat /\ Forall (fun d : list Z => zlen d < 4294967296) [[97]; [98; 99]] /\
  (pj_md5_final (fold_left pj_md5_update [[97]; [98; 99]] (pj_md5_init (replicate 64 7)))).2 =
  [0x90; 0x01; 0x50; 0x98; 0x3c; 0xd2; 0x4f; 0xb0; 0xd6; 0x96; 0x3f; 0x7d; 0x28; 0xe1; 0x7f; 0x72].
Proof.
  assert (Forall (fun d : list Z => zlen d < 4294967296) [[97]; [98; 99]]) as H
    by (apply Forall_cons_2; [reflexivity|apply Forall_cons_2; [reflexivity|apply Forall_nil_2]]).
  split; [reflexivity|]. split; [exact H|].
  rewrite (md5_is_rfc1321 (replicate 64 7) [[97]; [98; 99]] eq_refl H). vm_compute. reflexivity.
Defined.
