(* ===== verification/PjString.v ===== *)
(** * Strings (pjlib/include/pj/string_i.h, pjlib/src/pj/string.c,
      pjlib/include/pj/ctype.h)

    A [pj_str_t] is the list of its bytes, 0 to 255.  [char] is signed, as on
    the common hosts; [unsigned long] has 64 bits.  Comparison, tokens, trimming
    and the conversions between numbers and text; the functions that only copy
    bytes and [pj_strtof] are left out. *)

From stdpp Require Import list.
From Stdlib Require Import Ascii.
From Stdlib Require String.
From S2P Require Import Prelude.
Set Warnings "-clear-no-such-hyp".

(** ** Characters, in the C locale *)

Definition pj_isdigit (c : Z) : bool := (48 <=? c) && (c <=? 57).
Definition pj_isspace (c : Z) : bool := (c =? 32) || (9 <=? c) && (c <=? 13).
Definition pj_isxdigit (c : Z) : bool :=
  pj_isdigit c || (65 <=? c) && (c <=? 70) || (97 <=? c) && (c <=? 102).
Definition pj_tolower (c : Z) : Z := if (65 <=? c) && (c <=? 90) then c + 32 else c.

Definition pj_hex_digit_to_val (c : Z) : Z :=
  if c <=? 57 then Z.land (u32 (c - 48)) 15
  else if c <=? 70 then Z.land (u32 (c - 65 + 10)) 15
  else Z.land (u32 (c - 97 + 10)) 15.

(** ** Comparison

    [memcmp], [strncmp] and [strncasecmp] of the C library: the sign of the
    first difference; the last two stop at a NUL.  [nth] past the end stands for
    the terminator and is reached by no caller. *)

Definition at0 (l : list Z) : Z := hd 0 l.

Fixpoint memcmp (n : nat) (a b : list Z) : Z :=
  match n with
  | O => 0
  | S n => if at0 a =? at0 b then memcmp n (tail a) (tail b) else Z.sgn (at0 a - at0 b)
  end.

Fixpoint strncmp_by (f : Z -> Z) (n : nat) (a b : list Z) : Z :=
  match n with
  | O => 0
  | S n =>
      if f (at0 a) =? f (at0 b)
      then if at0 a =? 0 then 0 else strncmp_by f n (tail a) (tail b)
      else Z.sgn (f (at0 a) - f (at0 b))
  end.
Definition strncmp : nat -> list Z -> list Z -> Z := strncmp_by (fun c => c).
Definition strncasecmp : nat -> list Z -> list Z -> Z := strncmp_by pj_tolower.

(** [pj_strcmp] and [pj_stricmp] differ in the comparison of the bytes. *)
Definition str_compare (cmp : nat -> list Z -> list Z -> Z) (str1 str2 : list Z) : Z :=
  if zlen str1 =? 0 then if zlen str2 =? 0 then 0 else -1
  else if zlen str2 =? 0 then 1
  else
    let min := if zlen str1 <? zlen str2 then length str1 else length str2 in
    let res := cmp min str1 str2 in
    if res =? 0 then
      if zlen str1 <? zlen str2 then -1
      else if zlen str1 =? zlen str2 then 0 else 1
    else res.
Definition pj_strcmp : list Z -> list Z -> Z := str_compare memcmp.
Definition pj_stricmp : list Z -> list Z -> Z := str_compare strncasecmp.

(** [copy.slen = len] when [len < (unsigned)str->slen]. *)
Definition cut_at (len : Z) (str : list Z) : list Z :=
  if len <? u32 (zlen str) then take (Z.to_nat len) str else str.
Definition pj_strncmp (str1 str2 : list Z) (len : Z) : Z :=
  pj_strcmp (cut_at len str1) (cut_at len str2).
Definition pj_strnicmp (str1 str2 : list Z) (len : Z) : Z :=
  pj_stricmp (cut_at len str1) (cut_at len str2).

(** ** Searching and tokens *)

Definition occurrences (c : Z) (set_char : list Z) : Z :=
  foldr (fun x n => b2z (c =? x) + n) 0 set_char.

Fixpoint strspn_loop (str set_char : list Z) (i count : Z) : Z :=
  match str with
  | [] => count
  | c :: str =>
      if negb (count =? i) then count
      else strspn_loop str set_char (i + 1) (count + occurrences c set_char)
  end.
Definition pj_strspn (str set_char : list Z) : Z := strspn_loop str set_char 0 0.

Fixpoint strcspn_loop (str set_char : list Z) (i : Z) : Z :=
  match str with
  | [] => i
  | c :: str => if 0 <? occurrences c set_char then i else strcspn_loop str set_char (i + 1)
  end.
Definition pj_strcspn (str set_char : list Z) : Z := strcspn_loop str set_char 0.

(** The token found and the index returned. *)
Definition pj_strtok (str delim : list Z) (start_idx : Z) : list Z * Z :=
  if (zlen str =? 0) || (zlen str <? start_idx) then ([], zlen str)
  else
    let tok := drop (Z.to_nat start_idx) str in
    let str_idx := pj_strspn tok delim in
    if start_idx + str_idx =? zlen str then (tok, zlen str)
    else
      let tok := drop (Z.to_nat str_idx) tok in
      (take (Z.to_nat (pj_strcspn tok delim)) tok, start_idx + str_idx).

(** The offset of the match. *)
Fixpoint strstr_loop (cmp : nat -> list Z -> list Z -> Z) (fuel : nat) (s substr : list Z)
    (i : Z) : option Z :=
  match fuel with
  | O => None
  | S fuel =>
      if cmp (length substr) s substr =? 0 then Some i
      else strstr_loop cmp fuel (tail s) substr (i + 1)
  end.
Definition pj_strstr (str substr : list Z) : option Z :=
  if zlen substr =? 0 then Some 0
  else strstr_loop strncmp (Z.to_nat (zlen str - zlen substr + 1)) str substr 0.
Definition pj_stristr (str substr : list Z) : option Z :=
  if zlen substr =? 0 then Some 0
  else strstr_loop strncasecmp (Z.to_nat (zlen str - zlen substr + 1)) str substr 0.

Fixpoint pj_strltrim (str : list Z) : list Z :=
  match str with
  | c :: str' => if pj_isspace c then pj_strltrim str' else str
  | [] => []
  end.
Definition pj_strrtrim (str : list Z) : list Z := reverse (pj_strltrim (reverse str)).
Definition pj_strtrim (str : list Z) : list Z := pj_strrtrim (pj_strltrim str).

(** C strings: [pj_str("text")], and the functions that take one. *)
Definition pj_str (s : String.string) : list Z :=
  (fun c => Z.of_N (N_of_ascii c)) <$> String.list_ascii_of_string s.

Definition pj_strcmp2 (str1 : list Z) (str2 : String.string) : Z := pj_strcmp str1 (pj_str str2).
Definition pj_stricmp2 (str1 : list Z) (str2 : String.string) : Z := pj_stricmp str1 (pj_str str2).
Definition pj_strtok2 (str : list Z) (delim : String.string) (start_idx : Z) : list Z * Z :=
  pj_strtok str (pj_str delim) start_idx.

(** ** Numbers from text *)

Definition PJ_MAXULONG : Z := 2 ^ 64 - 1.
Definition PJ_MAXLONG : Z := 2 ^ 63 - 1.
Definition PJ_MINLONG : Z := - 2 ^ 63.

Fixpoint strtoul_loop (str : list Z) (value : Z) : Z :=
  match str with
  | c :: str => if pj_isdigit c then strtoul_loop str (u64 (value * 10 + (c - 48))) else value
  | [] => value
  end.
Definition pj_strtoul (str : list Z) : Z := strtoul_loop str 0.

(** The value, and what is left of the string. *)
Fixpoint strtoul2_loop (digit : Z -> option Z) (base : Z) (str : list Z) (value : Z) :
    Z * list Z :=
  match str with
  | c :: str' =>
      match digit c with
      | Some d => strtoul2_loop digit base str' (u64 (value * base + d))
      | None => (value, str)
      end
  | [] => (value, [])
  end.
Definition digit2 (base c : Z) : option Z :=
  if base <=? 10 then
    let d := u32 (s8 c - 48) in if d >=? base then None else Some d
  else if pj_isxdigit c then Some (pj_hex_digit_to_val c) else None.
Definition pj_strtoul2 (str : list Z) (base : Z) : Z * list Z :=
  if (base <=? 10) || (base =? 16) then strtoul2_loop (digit2 base) base str 0
  else (4294967295, str).

Definition digit3 (base c : Z) : option Z :=
  if base <=? 10 then
    if (s8 c <? 48) || (u32 (s8 c) >? 47 + base) then None else Some (u32 (s8 c - 48))
  else if pj_isxdigit c then Some (pj_hex_digit_to_val c) else None.
Fixpoint strtoul3_loop (base : Z) (str : list Z) (value : Z) : Z * pj_status :=
  match str with
  | c :: str =>
      match digit3 base c with
      | None => (value, PJ_SUCCESS)
      | Some d =>
          if value >? PJ_MAXULONG / base then (PJ_MAXULONG, PJ_ETOOBIG)
          else
            let value := u64 (value * base) in
            if PJ_MAXULONG - value <? d then (PJ_MAXULONG, PJ_ETOOBIG)
            else strtoul3_loop base str (u64 (value + d))
      end
  | [] => (value, PJ_SUCCESS)
  end.

(** [None] is a [*value] that is not written. *)
Definition pj_strtoul3 (str : list Z) (base : Z) : option Z * pj_status :=
  let s := pj_strltrim str in
  match s with
  | [] => (None, PJ_EINVAL)
  | c :: _ =>
      if (s8 c <? 48) || (base <=? 10) && (u32 (s8 c) >? 47 + base) ||
         (base =? 16) && negb (pj_isxdigit c)
      then (None, PJ_EINVAL)
      else if (base <=? 10) || (base =? 16) then
        let '(v, st) := strtoul3_loop base s 0 in (Some v, st)
      else (Some 0, PJ_EINVAL)
  end.

Definition s64 (x : Z) : Z := (x + 2 ^ 63) mod 2 ^ 64 - 2 ^ 63.

Definition pj_strtol (str : list Z) : Z :=
  match str with
  | 43 :: s => s64 (pj_strtoul s)
  | 45 :: s => s64 (- s64 (pj_strtoul s))
  | _ => s64 (pj_strtoul str)
  end.

Definition pj_strtol2 (str : list Z) : option Z * pj_status :=
  let s := pj_strltrim str in
  match s with
  | [] => (None, PJ_EINVAL)
  | c :: s' =>
      let is_negative := c =? 45 in
      let s := if (c =? 43) || (c =? 45) then s' else s in
      let '(retval, rc) := pj_strtoul3 s 10 in
      let retval := default 0 retval in
      if bool_decide (rc = PJ_EINVAL) then (None, rc)
      else if negb (bool_decide (rc = PJ_SUCCESS)) then
        if is_negative then (Some PJ_MINLONG, PJ_ETOOSMALL) else (Some PJ_MAXLONG, PJ_ETOOBIG)
      else if (retval >? PJ_MAXLONG) && negb is_negative then (Some PJ_MAXLONG, PJ_ETOOBIG)
      else if (retval >? PJ_MAXLONG + 1) && is_negative then (Some PJ_MINLONG, PJ_ETOOSMALL)
      else (Some (if is_negative then s64 (- s64 retval) else s64 retval), PJ_SUCCESS)
  end.

(** ** Text from numbers

    The digits are written lowest first, then the buffer is turned around in
    place from both ends. *)

Fixpoint utoa_digits (fuel : nat) (val : Z) : list Z :=
  match fuel with
  | O => []
  | S fuel => (val mod 10 + 48) :: (if val / 10 >? 0 then utoa_digits fuel (val / 10) else [])
  end.

Fixpoint utoa_swap (fuel : nat) (buf : list Z) (i p : nat) : list Z :=
  match fuel with
  | O => buf
  | S fuel =>
      let temp := default 0 (buf !! p) in
      let buf := <[p := default 0 (buf !! i)]> buf in
      let buf := <[i := temp]> buf in
      if decide (S i < p - 1)%nat then utoa_swap fuel buf (S i) (p - 1) else buf
  end.

(** The characters written before the NUL. *)
Definition pj_utoa_pad (val min_dig pad : Z) : list Z :=
  let digits := utoa_digits 20 val in
  let buf := digits ++ replicate (Z.to_nat (min_dig - zlen digits)) pad in
  utoa_swap (length buf) buf 0 (length buf - 1).
Definition pj_utoa (val : Z) : list Z := pj_utoa_pad val 0 0.

(** ** Comparison *)

Lemma memcmp_eq a b : length a = length b -> memcmp (length b) a b = 0 <-> a = b.
Proof.
  revert b. induction a as [|c a IH]; intros [|d b] Hl; try done. injection Hl as Hl.
  cbn [length memcmp at0 hd tail]. destruct (Z.eqb_spec c d) as [->|Hne].
  - rewrite IH by done. split; [by intros ->|by intros [= ->]].
  - split; [|congruence]. intros H. destruct (Z.sgn_spec (c - d)) as [[]|[[]|[]]]; lia.
Qed.


(** [pj_strcmp] tells equal strings from different ones. *)
Lemma strcmp_0 a b : pj_strcmp a b = 0 <-> a = b.
Proof.
  unfold pj_strcmp, str_compare.
  destruct (Z.eqb_spec (zlen a) 0) as [Ha|Ha], (Z.eqb_spec (zlen b) 0) as [Hb|Hb];
    rewrite ?zlen_0 in *; [subst; done|split; [done|congruence]..|].
  destruct (Z.ltb_spec (zlen a) (zlen b)), (Z.eqb_spec (zlen a) (zlen b)); try lia.
  - split; [destruct (_ =? 0) eqn:E; [done|lia] |]. intros ->. lia.
  - unfold zlen in *. pose proof (memcmp_eq a b ltac:(lia)) as Hm.
    destruct (Z.eqb_spec (memcmp (length b) a b) 0); [tauto|]. tauto.
  - split; [destruct (_ =? 0) eqn:E; [done|lia] |]. intros ->. lia.
Qed.

Lemma strcmp_eqb a b : (pj_strcmp a b =? 0) = bool_decide (a = b).
Proof. apply eq_bool_prop_intro. rewrite bool_decide_spec, <- strcmp_0. destruct (Z.eqb_spec (pj_strcmp a b) 0); naive_solver. Qed.

(** ** Numbers *)

(** What the conversions compute: the value of a run of digits. *)
Definition digit_of (base c : Z) : option Z :=
  if base <=? 10 then if (48 <=? c) && (c <? 48 + base) then Some (c - 48) else None
  else if (48 <=? c) && (c <=? 57) then Some (c - 48)
  else if (65 <=? c) && (c <=? 70) then Some (c - 55)
  else if (97 <=? c) && (c <=? 102) then Some (c - 87) else None.

Fixpoint digit_run (base : Z) (s : list Z) : list Z :=
  match s with
  | c :: s => match digit_of base c with Some d => d :: digit_run base s | None => [] end
  | [] => []
  end.

Definition horner (base v : Z) (ds : list Z) : Z := fold_left (fun v d => v * base + d) ds v.

Definition is_base (base : Z) : Prop := 1 <= base <= 10 \/ base = 16.

Lemma digit_of_range base c d : is_base base -> digit_of base c = Some d -> 0 <= d < base.
Proof. unfold digit_of. intros Hb H. repeat case_match; simplify_eq; destruct Hb; lia. Qed.

Lemma digit3_of base c : is_base base -> is_u8 c -> digit3 base c = digit_of base c.
Proof.
  unfold is_base, digit3, digit_of, pj_isxdigit, pj_isdigit, pj_hex_digit_to_val. intros Hb Hc.
  destruct (base <=? 10) eqn:H10.
  - assert (((s8 c <? 48) || (u32 (s8 c) >? 47 + base)) = negb ((48 <=? c) && (c <? 48 + base)))
      as -> by word_lia.
    destruct (_ && _) eqn:E; [|done]. cbn [negb]. f_equal. word_lia.
  - destruct ((48 <=? c) && (c <=? 57)) eqn:E1; cbn [orb].
    { replace (c <=? 57) with true by lia. f_equal.
      change 15 with (Z.ones 4). rewrite Z.land_ones by lia. word_lia. }
    destruct ((65 <=? c) && (c <=? 70)) eqn:E2; cbn [orb].
    { replace (c <=? 57) with false by lia. replace (c <=? 70) with true by lia. f_equal.
      change 15 with (Z.ones 4). rewrite Z.land_ones by lia. word_lia. }
    destruct ((97 <=? c) && (c <=? 102)) eqn:E3; [|done].
    replace (c <=? 57) with false by lia. replace (c <=? 70) with false by lia. f_equal.
    change 15 with (Z.ones 4). rewrite Z.land_ones by lia. word_lia.
Qed.

Lemma digit_run_range base s : is_base base -> Forall (fun d => 0 <= d < base) (digit_run base s).
Proof.
  intros Hb. induction s as [|c s IH]; cbn; [constructor|].
  destruct (digit_of base c) eqn:E; [|constructor]. constructor; eauto using digit_of_range.
Qed.

Lemma horner_ge base v ds :
  1 <= base -> 0 <= v -> Forall (fun d => 0 <= d < base) ds -> v <= horner base v ds.
Proof.
  intros Hb. revert v. induction ds as [|d ds IH]; intros v Hv Hds; cbn; [lia|].
  apply Forall_cons in Hds as [Hd Hds]. etransitivity; [|apply IH; [nia|done]]. nia.
Qed.

Lemma strtoul3_loop_value base s v :
  is_base base -> is_bytes s -> 0 <= v <= PJ_MAXULONG ->
  strtoul3_loop base s v =
  let v' := horner base v (digit_run base s) in
  if v' <=? PJ_MAXULONG then (v', PJ_SUCCESS) else (PJ_MAXULONG, PJ_ETOOBIG).
Proof.
  intros Hb Hs. revert v. induction s as [|c s IH]; intros v Hv; cbn [strtoul3_loop digit_run].
  { cbn. by rewrite (proj2 (Z.leb_le _ _)) by lia. }
  apply Forall_cons in Hs as [Hc Hs]. rewrite digit3_of by done.
  destruct (digit_of base c) as [d|] eqn:Ed; cbn [horner fold_left];
    [|by rewrite (proj2 (Z.leb_le _ _)) by lia].
  pose proof (digit_of_range _ _ _ Hb Ed) as Hd.
  assert (1 <= base) as Hb1 by (destruct Hb; lia).
  pose proof (horner_ge base (v * base + d) _ Hb1 ltac:(nia) (digit_run_range base s Hb)) as Hge.
  fold (horner base (v * base + d) (digit_run base s)) in *. cbn zeta.
  assert (PJ_MAXULONG < 2 ^ 64) by done.
  destruct (Z.gtb_spec v (PJ_MAXULONG / base)) as [Hbig|Hok].
  { rewrite (proj2 (Z.leb_gt _ _)); [done|].
    assert (PJ_MAXULONG < v * base) by (Z.to_euclidean_division_equations; nia). lia. }
  assert (v * base <= PJ_MAXULONG) as Hvb by (Z.to_euclidean_division_equations; nia).
  assert (u64 (v * base) = v * base) as -> by (apply Z.mod_small; nia).
  destruct (Z.ltb_spec (PJ_MAXULONG - v * base) d) as [Hbig|Hok'].
  { by rewrite (proj2 (Z.leb_gt _ _)) by lia. }
  assert (u64 (v * base + d) = v * base + d) as -> by (apply Z.mod_small; nia).
  apply IH; [done|nia].
Qed.

Lemma strltrim_bytes s : is_bytes s -> is_bytes (pj_strltrim s).
Proof. induction 1; cbn; [constructor|]. case_match; [done|by constructor]. Qed.

(** [pj_strtoul3] reads the digits after the white space exactly, and reports a
    value past the range of [unsigned long]. *)
Lemma strtoul3_value str base : is_base base -> is_bytes str ->
  pj_strtoul3 str base =
  match digit_run base (pj_strltrim str) with
  | [] => (None, PJ_EINVAL)
  | ds => let v := horner base 0 ds in
          if v <=? PJ_MAXULONG then (Some v, PJ_SUCCESS) else (Some PJ_MAXULONG, PJ_ETOOBIG)
  end.
Proof.
  intros Hb Hs. apply strltrim_bytes in Hs. unfold pj_strtoul3. cbn zeta.
  destruct (pj_strltrim str) as [|c s] eqn:Et; [done|]. pose proof (Forall_inv Hs) as Hc.
  assert (((s8 c <? 48) || (base <=? 10) && (u32 (s8 c) >? 47 + base) ||
           (base =? 16) && negb (pj_isxdigit c)) = bool_decide (digit_of base c = None)) as ->.
  { rewrite <- (digit3_of base c Hb Hc). unfold digit3, pj_isxdigit, pj_isdigit.
    symmetry. destruct Hb as [Hb| ->].
    - replace (base <=? 10) with true by lia. replace (base =? 16) with false by lia.
      cbn [andb orb]. rewrite orb_false_r. case_match; [done|by apply bool_decide_eq_false_2].
    - cbn [Z.leb Z.eqb Z.compare Pos.compare Pos.compare_cont andb orb].
      destruct (_ || _ || _) eqn:Ex.
      + rewrite bool_decide_eq_false_2 by done. cbn. rewrite orb_false_r. word_lia.
      + rewrite bool_decide_eq_true_2 by done. cbn. by rewrite orb_true_r. }
  pose proof (strtoul3_loop_value base (c :: s) 0 Hb Hs ltac:(done)) as Hl.
  cbn [digit_run] in *. destruct (digit_of base c) as [d|] eqn:Ed.
  - rewrite bool_decide_eq_false_2 by done.
    assert (((base <=? 10) || (base =? 16)) = true) as -> by (destruct Hb; lia).
    rewrite Hl. cbn zeta. by case_match.
  - by rewrite bool_decide_eq_true_2.
Qed.

(** [pj_strtol2] saturates: after white space and a sign it reads the
    decimal digits (an input without one is invalid), and returns the signed
    number they spell, or the end of the range of [long] it is past, with the
    error that says so. White space between the sign and the digits is
    skipped. *)
Lemma strtol2_saturates str : is_bytes str ->
  pj_strtol2 str =
  let s := pj_strltrim str in
  let neg := bool_decide (head s = Some 45) in
  let s := if neg || bool_decide (head s = Some 43) then tail s else s in
  match digit_run 10 (pj_strltrim s) with
  | [] => (None, PJ_EINVAL)
  | ds =>
      let x := if neg then - horner 10 0 ds else horner 10 0 ds in
      if x <? - 2 ^ 63 then (Some (- 2 ^ 63), PJ_ETOOSMALL)
      else if x >=? 2 ^ 63 then (Some (2 ^ 63 - 1), PJ_ETOOBIG)
      else (Some x, PJ_SUCCESS)
  end.
Proof.
  intros Hs. apply strltrim_bytes in Hs. unfold pj_strtol2. cbn zeta.
  destruct (pj_strltrim str) as [|c s]; [done|]. cbn [head tail].
  assert ((c =? 45) = bool_decide (Some c = Some 45)) as ->.
  { destruct (Z.eqb_spec c 45); symmetry; [apply bool_decide_eq_true_2|apply bool_decide_eq_false_2]; congruence. }
  assert ((c =? 43) = bool_decide (Some c = Some 43)) as ->.
  { destruct (Z.eqb_spec c 43); symmetry; [apply bool_decide_eq_true_2|apply bool_decide_eq_false_2]; congruence. }
  rewrite orb_comm. set (neg := bool_decide _). set (s1 := if neg || _ then s else _).
  assert (is_bytes s1) as Hs1 by (subst s1; case_match; [by inversion Hs|done]).
  rewrite strtoul3_value by (done || by left; lia).
  pose proof (digit_run_range 10 (pj_strltrim s1) ltac:(by left)) as Hr.
  destruct (digit_run 10 (pj_strltrim s1)) as [|d ds]; [done|]. cbn zeta.
  pose proof (horner_ge 10 0 _ ltac:(lia) ltac:(lia) Hr) as Hge. clear Hr.
  set (v := horner 10 0 (d :: ds)) in *. clearbody v neg. clear -Hge.
  unfold PJ_MAXULONG, PJ_MAXLONG, PJ_MINLONG in *.
  destruct (Z.leb_spec v (2 ^ 64 - 1)); unfold default, from_option, id;
    rewrite ?bool_decide_eq_false_2 by done; rewrite ?bool_decide_eq_true_2 by done; cbn [negb].
  - assert (- 2 ^ 63 <= v < 2 ^ 63 -> s64 v = v) as Hsm by (unfold s64; intros; rewrite Z.mod_small; lia).
    destruct neg; cbn [negb]; rewrite ?andb_true_r, ?andb_false_r.
    + destruct (Z.gtb_spec v (2 ^ 63 - 1 + 1)); [by rewrite (proj2 (Z.ltb_lt _ _)) by lia|].
      rewrite (proj2 (Z.ltb_ge _ _)) by lia. replace (- v >=? 2 ^ 63) with false by lia.
      do 2 f_equal. destruct (decide (v = 2 ^ 63)) as [->|]; [reflexivity|].
      rewrite Hsm by lia. unfold s64. rewrite Z.mod_small; lia.
    + rewrite (proj2 (Z.ltb_ge v _)) by lia.
      destruct (Z.gtb_spec v (2 ^ 63 - 1)); [by replace (v >=? 2 ^ 63) with true by lia|].
      replace (v >=? 2 ^ 63) with false by lia. rewrite Hsm by lia. done.
  - destruct neg.
    + by rewrite (proj2 (Z.ltb_lt _ _)) by lia.
    + rewrite (proj2 (Z.ltb_ge v _)) by lia. by replace (v >=? 2 ^ 63) with true by lia.
Qed.

(** "-9223372036854775809" *)
Lemma strtol2_saturates_witness :
  pj_strtol2 [32; 45; 57; 50; 50; 51; 51; 55; 50; 48; 51; 54; 56; 53; 52; 55; 55; 53; 56; 48; 57]
  = (Some (- 2 ^ 63), PJ_ETOOSMALL).
Proof.
  rewrite strtol2_saturates; [vm_compute; reflexivity|].
  repeat constructor; unfold is_u8; lia.
Defined.

(** ** Text *)

(** Swapping from both ends turns the buffer around. *)
Lemma utoa_swap_lookup fuel buf i p k : (i <= p < length buf)%nat -> (p - i < fuel)%nat ->
  utoa_swap fuel buf i p !! k =
  if decide (i <= k <= p)%nat then buf !! (i + p - k)%nat else buf !! k.
Proof.
  revert buf i p. induction fuel as [|fuel IH]; intros buf i p Hp Hf; [lia|]. cbn [utoa_swap].
  destruct (lookup_lt_is_Some_2 buf i ltac:(lia)) as [a Ha].
  destruct (lookup_lt_is_Some_2 buf p ltac:(lia)) as [b Hb].
  rewrite Ha, Hb. cbn [default from_option id]. unfold default, from_option, id.
  set (buf' := <[i := b]> (<[p := a]> buf)).
  assert (length buf' = length buf) as Hlen by (subst buf'; by rewrite !length_insert).
  assert (forall j, buf' !! j = if decide (j = i) then Some b
            else if decide (j = p) then Some a else buf !! j) as Hl.
  { intros j. subst buf'. destruct (decide (j = i)) as [->|];
      [apply list_lookup_insert_eq; rewrite length_insert; lia|].
    rewrite list_lookup_insert_ne by done. destruct (decide (j = p)) as [->|];
      [apply list_lookup_insert_eq; lia|]. by rewrite list_lookup_insert_ne. }
  destruct (decide (S i < p - 1)%nat).
  - rewrite IH by lia. repeat case_decide; rewrite ?Hl; repeat case_decide; try lia; try congruence.
    + f_equal. lia.
    + rewrite <- Hb. f_equal. lia.
    + rewrite <- Ha. f_equal. lia.
  - rewrite Hl. repeat case_decide; try lia; try congruence.
    + rewrite <- Hb. f_equal. lia.
    + rewrite <- Ha. f_equal. lia.
    + f_equal. lia.
Qed.

Lemma utoa_swap_reverse buf : utoa_swap (length buf) buf 0 (length buf - 1) = reverse buf.
Proof.
  destruct (decide (buf = [])) as [->|Hne]; [done|].
  assert (0 < length buf)%nat by (by destruct buf; [|cbn; lia]).
  apply list_eq. intros k. rewrite utoa_swap_lookup by lia. case_decide.
  - rewrite reverse_lookup by lia. f_equal. lia.
  - rewrite !lookup_ge_None_2; [done|rewrite length_reverse; lia|lia].
Qed.

Lemma horner_app base v l k : horner base v (l ++ k) = horner base (horner base v l) k.
Proof. apply fold_left_app. Qed.

(** The digits, lowest first. *)
Lemma utoa_digits_spec n v : 0 <= v < 10 ^ Z.of_nat n -> (0 < n)%nat ->
  let l := utoa_digits n v in
  Forall (fun c => 48 <= c <= 57) l /\ (1 <= length l <= n)%nat /\
  horner 10 0 ((fun c => c - 48) <$> reverse l) = v /\ (last l = Some 48 -> v = 0).
Proof.
  revert v. induction n as [|n IH]; intros v Hv Hn; [lia|]. cbn [utoa_digits].
  destruct (Z.gtb_spec (v / 10) 0) as [Hbig|Hsmall].
  - assert (0 < n)%nat by (destruct n; [cbn in Hv; Z.to_euclidean_division_equations; lia|lia]).
    destruct (IH (v / 10)) as (Hd & Hlen & Hval & Hlast); [|done|].
    { rewrite Nat2Z.inj_succ, Z.pow_succ_r in Hv by lia.
      split; [lia|apply Z.div_lt_upper_bound; lia]. }
    cbn zeta. split; [constructor; [Z.to_euclidean_division_equations; lia|done]|].
    split; [cbn [length]; lia|]. split.
    + rewrite reverse_cons, fmap_app, horner_app, Hval. cbn. Z.to_euclidean_division_equations; lia.
    + destruct (utoa_digits n (v / 10)); [cbn in Hlen; lia|]. cbn [last] in *.
      intros Hl. specialize (Hlast Hl). lia.
  - assert (v / 10 = 0) as H0 by (Z.to_euclidean_division_equations; lia). cbn zeta.
    split; [constructor; [Z.to_euclidean_division_equations; lia|constructor]|].
    split; [cbn; lia|]. split; [cbn; Z.to_euclidean_division_equations; lia|].
    cbn. intros [= Hl]. Z.to_euclidean_division_equations; lia.
Qed.

(** More fuel than digits changes nothing. *)
Lemma utoa_digits_fuel n m v : (0 < n)%nat -> (0 < m)%nat -> 0 <= v < 10 ^ Z.of_nat n ->
  v < 10 ^ Z.of_nat m -> utoa_digits n v = utoa_digits m v.
Proof.
  revert m v. induction n as [|n IH]; intros m v Hn Hm Hv Hvm; [lia|].
  destruct m as [|m]; [lia|]. cbn [utoa_digits]. f_equal.
  destruct (Z.gtb_spec (v / 10) 0) as [Hbig|]; [|done].
  rewrite Nat2Z.inj_succ, Z.pow_succ_r in Hv, Hvm by lia.
  assert (0 < n)%nat by (destruct n; [cbn in Hv; Z.to_euclidean_division_equations; lia|lia]).
  assert (0 < m)%nat by (destruct m; [cbn in Hvm; Z.to_euclidean_division_equations; lia|lia]).
  apply IH; [done|done|split; [lia|]|]; apply Z.div_lt_upper_bound; lia.
Qed.

(** What [pj_utoa] writes. *)
Lemma pj_utoa_digits n : 0 <= n < 2 ^ 64 ->
  let s := pj_utoa n in
  Forall (fun c => 48 <= c <= 57) s /\ (1 <= length s <= 20)%nat /\
  horner 10 0 ((fun c => c - 48) <$> s) = n /\ (head s = Some 48 -> n = 0) /\
  (forall d, (0 < d <= 20)%nat -> n < 10 ^ Z.of_nat d -> (length s <= d)%nat).
Proof.
  intros Hn. cbn zeta. unfold pj_utoa, pj_utoa_pad. cbn zeta.
  destruct (utoa_digits_spec 20 n) as (Hd & Hlen & Hval & Hlast);
    [split; [lia|]; transitivity (2 ^ 64); [lia|done]|lia|].
  replace (Z.to_nat (0 - zlen (utoa_digits 20 n))) with 0%nat by (unfold zlen; lia).
  cbn [replicate]. rewrite app_nil_r, utoa_swap_reverse.
  split; [by apply Forall_reverse|]. rewrite length_reverse, head_reverse.
  split; [done|]. split; [done|]. split; [done|]. intros d Hd0 Hlt.
  rewrite (utoa_digits_fuel 20 d); [|lia|lia|split; [lia|]; transitivity (2 ^ 64); [lia|done]|done].
  by destruct (utoa_digits_spec d n) as (_ & ? & _); [lia..|lia].
Qed.
Lemma utoa_length n d : (0 < d <= 20)%nat -> 0 <= n < 2 ^ 64 -> n < 10 ^ Z.of_nat d ->
  zlen (pj_utoa n) <= Z.of_nat d.
Proof.
  intros Hd Hn Hlt. destruct (pj_utoa_digits n Hn) as (_ & _ & _ & _ & H).
  specialize (H d Hd Hlt). unfold zlen. lia.
Qed.

(** Reading a string of digits. *)
Lemma digit_run_digits s : Forall (fun c => 48 <= c <= 57) s ->
  digit_run 10 s = (fun c => c - 48) <$> s.
Proof.
  induction 1 as [|c s Hc Hs IH]; [done|]. cbn [digit_run fmap list_fmap]. unfold digit_of.
  cbn [Z.leb Z.compare Pos.compare Pos.compare_cont]. replace ((48 <=? c) && (c <? 48 + 10)) with true by lia.
  by rewrite IH.
Qed.

Lemma strltrim_digits s : Forall (fun c => 48 <= c <= 57) s -> pj_strltrim s = s.
Proof.
  destruct 1 as [|c s Hc Hs]; [done|]. cbn. unfold pj_isspace.
  by replace ((c =? 32) || (9 <=? c) && (c <=? 13)) with false by lia.
Qed.

Lemma digits_bytes s : Forall (fun c => 48 <= c <= 57) s -> is_bytes s.
Proof. intros H. eapply Forall_impl; [exact H|]. unfold is_u8. cbn. lia. Qed.

Lemma u64_horner v ds : u64 (horner 10 v ds) = u64 (horner 10 (u64 v) ds).
Proof.
  revert v. induction ds as [|d ds IH]; intros v; cbn; [unfold u64; by rewrite Zmod_mod|].
  fold (horner 10 (v * 10 + d) ds) (horner 10 (u64 v * 10 + d) ds).
  rewrite IH, (IH (u64 v * 10 + d)). do 2 f_equal. unfold u64.
  by rewrite <- Zplus_mod_idemp_l, <- Zmult_mod_idemp_l, Zplus_mod_idemp_l.
Qed.

Lemma strtoul_loop_digits s v : Forall (fun c => 48 <= c <= 57) s ->
  strtoul_loop s (u64 v) = u64 (horner 10 v ((fun c => c - 48) <$> s)) /\
  strtoul2_loop (digit2 10) 10 s (u64 v) = (u64 (horner 10 v ((fun c => c - 48) <$> s)), []).
Proof.
  intros Hs. revert v. induction Hs as [|c s Hc Hs IH]; intros v; [done|].
  cbn [strtoul_loop strtoul2_loop fmap list_fmap horner fold_left].
  fold (horner 10 (v * 10 + (c - 48)) ((fun c => c - 48) <$> s)).
  assert (u64 (u64 v * 10 + (c - 48)) = u64 (v * 10 + (c - 48))) as Hstep.
  { unfold u64. by rewrite <- Zplus_mod_idemp_l, Zmult_mod_idemp_l, Zplus_mod_idemp_l. }
  assert (pj_isdigit c = true) as -> by (unfold pj_isdigit; lia).
  assert (digit2 10 c = Some (c - 48)) as ->.
  { unfold digit2. cbn [Z.leb Z.compare Pos.compare Pos.compare_cont].
    assert (u32 (s8 c - 48) = c - 48) as -> by word_lia. by replace (c - 48 >=? 10) with false by lia. }
  rewrite Hstep. apply IH.
Qed.

(** A printed number reads back as itself, with every conversion: [pj_utoa]
    writes between 1 and 20 decimal digits without a leading zero, from which
    [pj_strtoul], [pj_strtoul2] and [pj_strtoul3] return the number, and
    [pj_strtol2] its negation when a minus sign is put in front. *)
Lemma utoa_roundtrip n : 0 <= n < 2 ^ 64 ->
  let s := pj_utoa n in
  Forall (fun c => pj_isdigit c = true) s /\ (1 <= length s <= 20)%nat /\
  (head s = Some 48 -> n = 0) /\
  pj_strtoul s = n /\ pj_strtoul2 s 10 = (n, []) /\ pj_strtoul3 s 10 = (Some n, PJ_SUCCESS) /\
  (n <= 2 ^ 63 -> pj_strtol2 (45 :: s) = (Some (- n), PJ_SUCCESS)).
Proof.
  intros Hn. cbn zeta. destruct (pj_utoa_digits n Hn) as (Hd & Hlen & Hval & Hhead & _).
  set (s := pj_utoa n) in *. clearbody s. assert (u64 n = n) as Hu by (apply Z.mod_small; lia).
  destruct (strtoul_loop_digits s 0 Hd) as [H1 H2]. rewrite Hval, Hu in H1, H2.
  assert (pj_strtoul3 s 10 = (Some n, PJ_SUCCESS)) as H3.
  { rewrite strtoul3_value, strltrim_digits, digit_run_digits
      by (done || (left; lia) || by apply digits_bytes).
    assert (length ((fun c => c - 48) <$> s) = length s) as Hfl by apply length_fmap.
    destruct ((fun c => c - 48) <$> s) as [|d ds]; [cbn in Hfl; lia|]. cbn zeta.
    rewrite Hval, (proj2 (Z.leb_le _ _)); [done|]. unfold PJ_MAXULONG. lia. }
  split; [eapply Forall_impl; [exact Hd|]; unfold pj_isdigit; cbn; lia|].
  split; [done|]. split; [done|].
  split; [exact H1|]. split; [exact H2|]. split; [exact H3|].
  intros Hn63. unfold pj_strtol2. cbn [pj_strltrim]. unfold pj_isspace.
  cbn [Z.eqb Z.leb Z.compare Pos.eqb Pos.compare Pos.compare_cont orb andb]. cbn zeta. rewrite H3.
  unfold default, from_option, id. rewrite bool_decide_eq_false_2, bool_decide_eq_true_2 by done.
  cbn [negb]. rewrite andb_false_r, andb_true_r. unfold PJ_MAXLONG.
  destruct (Z.gtb_spec n (2 ^ 63 - 1 + 1)); [lia|]. do 2 f_equal.
  destruct (decide (n = 2 ^ 63)) as [->|]; [reflexivity|].
  unfold s64. rewrite !Z.mod_small by (try rewrite Z.mod_small; lia). lia.
Qed.

Lemma utoa_roundtrip_witness :
  pj_utoa 18446744073709551615 =
    [49; 56; 52; 52; 54; 55; 52; 52; 48; 55; 51; 55; 48; 57; 53; 53; 49; 54; 49; 53] /\
  pj_strtoul (pj_utoa 18446744073709551615) = 18446744073709551615.
Proof.
  split; [vm_compute; reflexivity|].
  destruct (utoa_roundtrip 18446744073709551615) as (_ & _ & _ & H & _); [split; done|exact H].
Defined.

(** ** Tokens *)

Lemma occurrences_pos c set_char : (0 <? occurrences c set_char) = bool_decide (c ∈ set_char).
Proof.
  induction set_char as [|x l IH]; [done|]. cbn [occurrences foldr].
  fold (occurrences c l). assert (0 <= occurrences c l) as Hn.
  { clear IH. induction l as [|y l IHl]; [done|]. cbn. fold (occurrences c l).
    unfold b2z. case_match; lia. }
  destruct (Z.eqb_spec c x) as [->|Hne]; cbn [b2z].
  - rewrite bool_decide_eq_true_2 by (by left). lia.
  - rewrite Z.add_0_l, IH. apply bool_decide_ext. set_solver.
Qed.

Lemma occurrences_nodup c set_char : NoDup set_char ->
  occurrences c set_char = b2z (bool_decide (c ∈ set_char)).
Proof.
  induction 1 as [|x l Hx Hl IH]; [done|]. cbn [occurrences foldr]. fold (occurrences c l).
  rewrite IH. destruct (Z.eqb_spec c x) as [->|Hne].
  - by rewrite (bool_decide_eq_false_2 (x ∈ l)), bool_decide_eq_true_2 by (done || by left).
  - cbn [b2z]. rewrite Z.add_0_l. f_equal. apply bool_decide_ext. set_solver.
Qed.

(** Where the two loops stop. *)
Lemma strspn_stop s i set_char : NoDup set_char ->
  exists l r, s = l ++ r /\ Forall (fun c => c ∈ set_char) l /\
    (forall c, head r = Some c -> c ∉ set_char) /\ strspn_loop s set_char i i = i + zlen l.
Proof.
  intros Hnd. revert i. induction s as [|c s IH]; intros i; cbn [strspn_loop].
  { exists [], []. split_and!; try done. unfold zlen. cbn. lia. }
  rewrite Z.eqb_refl. cbn [negb]. rewrite occurrences_nodup by done.
  destruct (decide (c ∈ set_char)) as [Hc|Hc].
  - rewrite bool_decide_eq_true_2 by done. destruct (IH (i + 1)) as (l & r & -> & Hl & Hr & Heq).
    exists (c :: l), r. split_and!; [done|by constructor|done|]. cbn [b2z]. rewrite Heq.
    unfold zlen. cbn [length]. lia.
  - rewrite bool_decide_eq_false_2 by done. exists [], (c :: s). cbn [b2z].
    split_and!; [done|done|by intros ? [= <-]|]. unfold zlen. cbn [length].
    destruct s as [|c' s]; cbn [strspn_loop]; [lia|].
    by replace (i + 0 =? i + 1) with false by lia; cbn [negb]; lia.
Qed.

Lemma strcspn_stop s i set_char :
  exists l r, s = l ++ r /\ Forall (fun c => c ∉ set_char) l /\
    (forall c, head r = Some c -> c ∈ set_char) /\ strcspn_loop s set_char i = i + zlen l.
Proof.
  revert i. induction s as [|c s IH]; intros i; cbn [strcspn_loop].
  { exists [], []. split_and!; try done. unfold zlen. cbn. lia. }
  rewrite occurrences_pos. destruct (decide (c ∈ set_char)) as [Hc|Hc].
  - rewrite bool_decide_eq_true_2 by done. exists [], (c :: s).
    split_and!; [done|done|by intros ? [= <-]|]. unfold zlen. cbn. lia.
  - rewrite bool_decide_eq_false_2 by done. destruct (IH (i + 1)) as (l & r & -> & Hl & Hr & ->).
    exists (c :: l), r. split_and!; [done|by constructor|done|]. unfold zlen. cbn [length]. lia.
Qed.

Lemma take_zlen_app (l r : list Z) : take (Z.to_nat (zlen l)) (l ++ r) = l.
Proof. unfold zlen. rewrite Nat2Z.id. by rewrite take_app_length. Qed.
Lemma drop_zlen_app (l r : list Z) : drop (Z.to_nat (zlen l)) (l ++ r) = r.
Proof. unfold zlen. rewrite Nat2Z.id. by rewrite drop_app_length. Qed.

(** [pj_strtok] finds the next token: when no delimiter is listed twice it
    skips exactly the delimiters at [start_idx], and hands out the longest run
    of other characters behind them with the index it begins at; the index is
    the length of the string when only delimiters are left. *)
Lemma strtok_spec pre str delim :
  NoDup delim ->
  let '(tok, idx) := pj_strtok (pre ++ str) delim (zlen pre) in
  exists skipped rest,
    Forall (fun c => c ∈ delim) skipped /\ idx = zlen (pre ++ skipped) /\
    (if idx =? zlen (pre ++ str) then str = skipped
     else str = skipped ++ tok ++ rest /\ tok <> [] /\ Forall (fun c => c ∉ delim) tok /\
          (forall c, head rest = Some c -> c ∈ delim)).
Proof.
  intros Hnd. unfold pj_strtok. pose proof (zlen_nonneg pre). pose proof (zlen_nonneg str).
  rewrite zlen_app in *. destruct (Z.eqb_spec (zlen pre + zlen str) 0) as [Hz|Hz]; cbn [orb].
  { destruct str; [|unfold zlen in *; cbn in *; lia]. exists [], [].
    rewrite app_nil_r, Hz. replace (zlen pre) with 0 by lia. by split_and!. }
  destruct (Z.ltb_spec (zlen pre + zlen str) (zlen pre)); [lia|]. cbn zeta.
  rewrite drop_zlen_app. unfold pj_strspn.
  destruct (strspn_stop str 0 delim Hnd) as (l & r & -> & Hl & Hr & ->).
  rewrite Z.add_0_l, zlen_app in *. pose proof (zlen_nonneg r).
  destruct (Z.eqb_spec (zlen pre + zlen l) (zlen pre + (zlen l + zlen r))) as [He|He].
  - destruct r; [|unfold zlen in *; cbn in *; lia]. exists l, []. rewrite zlen_app, Z.eqb_refl.
    split_and!; try done. by rewrite app_nil_r.
  - rewrite drop_zlen_app. unfold pj_strcspn.
    destruct (strcspn_stop r 0 delim) as (tok & rest & -> & Htok & Hrest & ->).
    rewrite Z.add_0_l, take_zlen_app. exists l, rest. rewrite zlen_app.
    rewrite (proj2 (Z.eqb_neq _ _)) by done. split_and!; try done.
    intros ->. destruct rest as [|c rest]; [unfold zlen in *; cbn in *; lia|].
    destruct (Hr c ltac:(done)). by apply Hrest.
Qed.

Lemma strtok_spec_witness :
  pj_strtok ([97; 32] ++ [32; 98; 99; 59; 100]) [32; 59] 2 = ([98; 99], 3) /\
  exists skipped rest,
    Forall (fun c => c ∈ [32; 59]) skipped /\
    [32; 98; 99; 59; 100] = skipped ++ [98; 99] ++ rest.
Proof.
  split; [vm_compute; reflexivity|].
  destruct (strtok_spec [97; 32] [32; 98; 99; 59; 100] [32; 59]) as (sk & rest & H1 & _ & H2 & _).
  { apply NoDup_cons. split; [set_solver|apply NoDup_singleton]. }
  exists sk, rest. split; [exact H1|exact H2].
Defined.

(** A set that lists a character twice makes [pj_strspn] count it twice. *)
Example strspn_duplicate : pj_strspn [97; 98; 99] [97; 97] = 2.
Proof. reflexivity. Qed.
