(* ===== verification/Hash.v ===== *)
(** * Hash table (pjlib/src/pj/hash.c, pjlib/include/pj/hash.h)

    A table of chained entries with string keys, compared as bytes or without
    regard to case.  A key is the memory the caller passes, of which [keylen]
    bytes or those before the first NUL are read.  The entries keep their key by
    value: with no pool the source keeps the caller's pointer, which its
    documentation asks to stay valid.  An iterator points at an entry, named by
    its key.  A NULL value is [None]. *)

From stdpp Require Import gmap list.
From S2P Require Import Prelude PjString.
Set Warnings "-clear-no-such-hyp".

Definition PJ_HASH_MULTIPLIER : Z := 33.
Definition PJ_HASH_KEY_STRING : Z := 4294967295.

(** ** Hash values *)

Fixpoint c_string (key : list Z) : list Z :=
  match key with
  | c :: key => if c =? 0 then [] else c :: c_string key
  | [] => []
  end.

(** The bytes of a key. *)
Definition key_bytes (key : list Z) (keylen : Z) : list Z :=
  if keylen =? PJ_HASH_KEY_STRING then c_string key else take (Z.to_nat keylen) key.

Definition hash_step (lower : bool) (hash c : Z) : Z :=
  u32 (hash * PJ_HASH_MULTIPLIER + (if lower then pj_tolower c else c)).

Definition pj_hash_calc (hash : Z) (key : list Z) (keylen : Z) : Z :=
  fold_left (hash_step false) (key_bytes key keylen) hash.

(** The hash value and the contents of [result]. *)
Definition pj_hash_calc_tolower (hval : Z) (key : list Z) : Z * list Z :=
  (fold_left (hash_step true) key hval, pj_tolower <$> key).

Section Table.
Context {V : Type}.

(** ** Data *)

Record pj_hash_entry := HashEntry {
  key : list Z;
  hash : Z;
  keylen : Z;
  value : V
}.
#[local] Instance eta_pj_hash_entry : Eta pj_hash_entry := fun e =>
  HashEntry (key e) (hash e) (keylen e) (value e).

Record pj_hash_table := HashTable {
  table : list (list pj_hash_entry);
  count : Z;
  rows : Z
}.
#[local] Instance eta_pj_hash_table : Eta pj_hash_table := fun h =>
  HashTable (table h) (count h) (rows h).

Record pj_hash_iterator := HashIterator {
  index : nat;
  entry : list Z
}.

(** ** Operations *)

(** The loop that doubles the size; [None] when the fuel runs out. *)
Fixpoint grow_size (fuel : nat) (table_size size : Z) : option Z :=
  match fuel with
  | O => None
  | S fuel =>
      let table_size := u32 (Z.shiftl table_size 1) in
      if table_size <? size then grow_size fuel table_size size else Some table_size
  end.
Definition pj_hash_create (fuel : nat) (size : Z) : option pj_hash_table :=
  match grow_size fuel 8 size with
  | Some table_size =>
      let rows := u32 (table_size - 1) in
      Some (HashTable (replicate (Z.to_nat (rows + 1)) []) 0 rows)
  | None => None
  end.

Definition entry_matches (lower : bool) (h : Z) (k : list Z) (e : pj_hash_entry) : bool :=
  (hash e =? h) && (keylen e =? zlen k) &&
  (if lower then strncasecmp (length k) (key e) k =? 0 else memcmp (length k) (key e) k =? 0).

(** Position of the entry in a chain; the end of the chain if there is none. *)
Fixpoint scan_chain (p : pj_hash_entry -> bool) (chain : list pj_hash_entry) : nat :=
  match chain with
  | e :: chain => if p e then 0 else S (scan_chain p chain)
  | [] => 0
  end.

Definition entry_at (ht : pj_hash_table) (row pos : nat) : option pj_hash_entry :=
  table ht !! row ≫= fun chain => chain !! pos.

(** The table, the hash value reported back, and the row and position of
    [p_entry].  [alloc] tells whether a pool or an entry buffer is given. *)
Definition find_entry (alloc : bool) (ht : pj_hash_table) (k : list Z) (klen : Z)
    (val : option V) (hval : Z) (lower : bool) : option (pj_hash_table * Z * (nat * nat)) :=
  let k := key_bytes k klen in
  let h := if negb (hval =? 0) then hval else fold_left (hash_step lower) k 0 in
  let row := Z.to_nat (Z.land h (rows ht)) in
  let pos := scan_chain (entry_matches lower h k) (default [] (table ht !! row)) in
  match entry_at ht row pos, val with
  | Some _, _ | None, None => Some (ht, h, (row, pos))
  | None, Some val =>
      if alloc then
        let e := HashEntry k h (zlen k) val in
        Some (ht <| table ::= alter (fun chain => chain ++ [e]) row |>
                 <| count ::= fun c => u32 (c + 1) |>, h, (row, pos))
      else None
  end.

Definition hash_get (ht : pj_hash_table) (k : list Z) (klen hval : Z) (lower : bool) :
    option V * Z :=
  match find_entry false ht k klen None hval lower with
  | Some (ht, h, (row, pos)) => (value <$> entry_at ht row pos, h)
  | None => (None, hval)
  end.
Definition pj_hash_get (ht : pj_hash_table) (k : list Z) (klen hval : Z) : option V * Z :=
  hash_get ht k klen hval false.
Definition pj_hash_get_lower (ht : pj_hash_table) (k : list Z) (klen hval : Z) : option V * Z :=
  hash_get ht k klen hval true.

(** [None] is a new entry without memory to put it in. *)
Definition hash_set (alloc : bool) (ht : pj_hash_table) (k : list Z) (klen hval : Z)
    (val : option V) (lower : bool) : option pj_hash_table :=
  match find_entry alloc ht k klen val hval lower with
  | None => None
  | Some (ht, _, (row, pos)) =>
      match entry_at ht row pos with
      | None => Some ht
      | Some _ =>
          Some (match val with
                | None => ht <| table ::= alter (delete pos) row |>
                             <| count ::= fun c => u32 (c - 1) |>
                | Some v => ht <| table ::= alter (alter (fun e => e <| value := v |>) pos) row |>
                end)
      end
  end.
Definition pj_hash_set (pool : bool) (ht : pj_hash_table) (k : list Z) (klen hval : Z)
    (val : option V) : option pj_hash_table :=
  hash_set pool ht k klen hval val false.
Definition pj_hash_set_lower (pool : bool) (ht : pj_hash_table) (k : list Z) (klen hval : Z)
    (val : option V) : option pj_hash_table :=
  hash_set pool ht k klen hval val true.
Definition pj_hash_set_np (ht : pj_hash_table) (k : list Z) (klen hval : Z) (val : option V) :
    option pj_hash_table :=
  hash_set true ht k klen hval val false.
Definition pj_hash_set_np_lower (ht : pj_hash_table) (k : list Z) (klen hval : Z)
    (val : option V) : option pj_hash_table :=
  hash_set true ht k klen hval val true.

Definition pj_hash_count (ht : pj_hash_table) : Z := count ht.

(** ** Iteration *)

(** The first entry of the rows from [i] on. *)
Fixpoint first_row (rest : list (list pj_hash_entry)) (i : nat) : option pj_hash_iterator :=
  match rest with
  | [] => None
  | [] :: rest => first_row rest (S i)
  | (e :: _) :: _ => Some (HashIterator i (key e))
  end.
Definition pj_hash_first (ht : pj_hash_table) : option pj_hash_iterator := first_row (table ht) 0.

(** The entry an iterator points at. *)
Definition points_at (it : pj_hash_iterator) (e : pj_hash_entry) : bool :=
  bool_decide (key e = entry it).
Definition chain_pos (ht : pj_hash_table) (it : pj_hash_iterator) : nat :=
  scan_chain (points_at it) (default [] (table ht !! index it)).

Definition pj_hash_next (ht : pj_hash_table) (it : pj_hash_iterator) : option pj_hash_iterator :=
  match entry_at ht (index it) (S (chain_pos ht it)) with
  | Some e => Some (HashIterator (index it) (key e))
  | None => first_row (drop (S (index it)) (table ht)) (S (index it))
  end.

Definition pj_hash_this (ht : pj_hash_table) (it : pj_hash_iterator) : option V :=
  value <$> entry_at ht (index it) (chain_pos ht it).

(** ** The map a table represents

    Keys that differ in length or hash value are never compared, and a
    comparison without case ends at a NUL: [norm] is what two keys that the
    table identifies have in common. *)

Section Represents.
Context (lower : bool).

Definition calc (k : list Z) : Z := fold_left (hash_step lower) k 0.

Fixpoint canon (k : list Z) : list Z :=
  match k with
  | [] => []
  | c :: k => if lower then if c =? 0 then [0] else pj_tolower c :: canon k else c :: canon k
  end.

Definition norm (k : list Z) : Z * Z * list Z := (calc k, zlen k, canon k).

Definition entries (ht : pj_hash_table) : list pj_hash_entry := concat (table ht).
Definition norm_key (e : pj_hash_entry) : Z * Z * list Z := norm (key e).
Definition binding (e : pj_hash_entry) : Z * Z * list Z * V := (norm_key e, value e).
Definition represents (ht : pj_hash_table) : gmap (Z * Z * list Z) V :=
  list_to_map (binding <$> entries ht).

Definition entry_ok (rows : Z) (row : nat) (e : pj_hash_entry) : Prop :=
  hash e = calc (key e) /\ keylen e = zlen (key e) /\ Z.to_nat (Z.land (hash e) rows) = row.

Record hash_wf (ht : pj_hash_table) : Prop := HashWf {
  h_rows : 0 <= rows ht;
  h_length : length (table ht) = Z.to_nat (rows ht + 1);
  h_entries : forall row chain e, table ht !! row = Some chain -> e ∈ chain -> entry_ok (rows ht) row e;
  h_nodup : NoDup (norm_key <$> entries ht);
  h_count : count ht = zlen (entries ht)
}.

(** *** Comparing keys *)

Lemma pj_tolower_0 c : pj_tolower c = 0 -> c = 0.
Proof. unfold pj_tolower. case_match; lia. Qed.

Lemma strncasecmp_eq a b : lower = true -> length a = length b ->
  strncasecmp (length b) a b = 0 <-> canon a = canon b.
Proof.
  intros Hlow. revert b. induction a as [|c a IH]; intros [|d b] Hl; try done. injection Hl as Hl.
  unfold strncasecmp in *. cbn [length strncmp_by at0 hd tail canon]. rewrite Hlow.
  destruct (Z.eqb_spec (pj_tolower c) (pj_tolower d)) as [He|Hne].
  - destruct (Z.eqb_spec c 0) as [->|Hc].
    + symmetry in He. change (pj_tolower 0) with 0 in He. apply pj_tolower_0 in He as ->. done.
    + destruct (Z.eqb_spec d 0) as [->|Hd].
      { change (pj_tolower 0) with 0 in He. by apply pj_tolower_0 in He. }
      rewrite IH by done. rewrite He. split; [by intros ->|by intros [= ->]].
  - split; [intros H; destruct (Z.sgn_spec (pj_tolower c - pj_tolower d)) as [[]|[[]|[]]]; lia|].
    intros H. destruct Hne. destruct (Z.eqb_spec c 0) as [->|], (Z.eqb_spec d 0) as [->|];
      change (pj_tolower 0) with 0; congruence.
Qed.

Lemma canon_exact k : lower = false -> canon k = k.
Proof. intros H. induction k as [|c k IH]; cbn; [done|]. by rewrite H, IH. Qed.

Lemma entry_matches_norm rows row e k : entry_ok rows row e ->
  entry_matches lower (calc k) k e = bool_decide (norm_key e = norm k).
Proof.
  intros (Hh & Hl & _). unfold entry_matches, norm_key, norm. rewrite Hh, Hl.
  destruct (Z.eqb_spec (calc (key e)) (calc k)) as [->|Hne]; cbn [andb];
    [|symmetry; apply bool_decide_eq_false_2; congruence].
  destruct (Z.eqb_spec (zlen (key e)) (zlen k)) as [Hz|Hne]; cbn [andb];
    [|symmetry; apply bool_decide_eq_false_2; congruence].
  rewrite Hz. assert (length (key e) = length k) as Hlen by (unfold zlen in Hz; lia).
  assert ((if lower then strncasecmp (length k) (key e) k =? 0
           else memcmp (length k) (key e) k =? 0) = bool_decide (canon (key e) = canon k)) as ->.
  { destruct (Bool.bool_dec lower true) as [Hlow|Hlow].
    - rewrite Hlow at 1. rewrite <- (bool_decide_ext _ _ (strncasecmp_eq _ _ Hlow Hlen)).
      destruct (Z.eqb_spec (strncasecmp (length k) (key e) k) 0); symmetry;
        [by apply bool_decide_eq_true_2|by apply bool_decide_eq_false_2].
    - apply not_true_is_false in Hlow. rewrite !canon_exact by done. rewrite Hlow.
      rewrite <- (bool_decide_ext _ _ (memcmp_eq _ _ Hlen)).
      destruct (Z.eqb_spec (memcmp (length k) (key e) k) 0); symmetry;
        [by apply bool_decide_eq_true_2|by apply bool_decide_eq_false_2]. }
  apply bool_decide_ext. split; [congruence|]. by intros [= ?].
Qed.

(** *** Finding *)

Lemma scan_chain_spec p chain :
  (exists l1 e l2, chain = l1 ++ e :: l2 /\ p e = true /\ scan_chain p chain = length l1 /\
     Forall (fun x => p x = false) l1) \/
  (Forall (fun x => p x = false) chain /\ scan_chain p chain = length chain).
Proof.
  induction chain as [|e chain IH]; [by right|]. cbn. destruct (p e) eqn:Hp.
  - left. by exists [], e, chain.
  - destruct IH as [(l1 & x & l2 & -> & Hx & -> & Hl1)|[Hall ->]].
    + left. exists (e :: l1), x, l2. split_and!; try done. by constructor.
    + right. split; [by constructor|done].
Qed.

Lemma calc_range_from h k : 0 <= h -> 0 <= fold_left (hash_step lower) k h.
Proof.
  revert h. induction k as [|c k IH]; intros h Hh; cbn; [done|]. apply IH.
  unfold hash_step, u32. apply Z.mod_pos_bound. lia.
Qed.

Lemma row_bound ht k : hash_wf ht -> (Z.to_nat (Z.land (calc k) (rows ht)) < length (table ht))%nat.
Proof.
  intros [Hr Hl _ _ _]. rewrite Hl.
  assert (0 <= calc k) by (apply calc_range_from; done).
  assert (0 <= Z.land (calc k) (rows ht) <= rows ht) as H'; [|lia].
  split; [apply Z.land_nonneg; by left|].
  rewrite <- (Z2N.id (calc k)), <- (Z2N.id (rows ht)) by done.
  rewrite <- N2Z.inj_land. apply N2Z.inj_le, N.land_le_r.
Qed.

(** The row of a key in a well-formed table, and whether the key is there. *)
Lemma locate ht k : hash_wf ht ->
  exists t1 chain t2, table ht = t1 ++ chain :: t2 /\
    length t1 = Z.to_nat (Z.land (calc k) (rows ht)) /\
    ((exists l1 e l2, (chain = l1 ++ e :: l2) /\ norm_key e = norm k /\
        scan_chain (entry_matches lower (calc k) k) chain = length l1 /\
        entries ht ≡ₚ e :: (concat t1 ++ (l1 ++ l2) ++ concat t2)) \/
     ((norm k ∉ norm_key <$> entries ht) /\
        scan_chain (entry_matches lower (calc k) k) chain = length chain)).
Proof.
  intros Hwf. destruct (lookup_lt_is_Some_2 _ _ (row_bound ht k Hwf)) as [chain Hc].
  set (row := Z.to_nat _) in *. pose proof (take_drop_middle _ _ _ Hc) as Ht.
  assert (row < length (table ht))%nat as Hrow by (by eapply lookup_lt_Some).
  exists (take row (table ht)), chain, (drop (S row) (table ht)).
  split; [done|]. split; [rewrite length_take; lia|].
  destruct (scan_chain_spec (entry_matches lower (calc k) k) chain)
    as [(l1 & e & l2 & -> & He & Hs & _)|[Hall Hs]].
  - left. exists l1, e, l2. split; [done|].
    rewrite (entry_matches_norm (rows ht) row) in He
      by (eapply (h_entries _ Hwf); [exact Hc|set_solver]).
    apply bool_decide_eq_true in He. split; [done|]. split; [done|].
    unfold entries. rewrite <- Ht at 1. rewrite concat_app. cbn [concat].
    rewrite <- !app_assoc. cbn [app]. rewrite (app_assoc _ l1), <- Permutation_middle.
    by rewrite <- app_assoc.
  - right. split; [|done]. intros Hin. apply list_elem_of_fmap in Hin as (e & Hk & He).
    unfold entries in He. apply list_elem_of_In, in_concat in He as (ch & Hch & He).
    apply list_elem_of_In in Hch, He. apply list_elem_of_lookup in Hch as [row' Hch].
    pose proof (h_entries _ Hwf _ _ _ Hch He) as Hok.
    assert (row' = row) as ->.
    { destruct Hok as (Hh & _ & <-). subst row. rewrite Hh.
      unfold norm_key, norm in Hk. by injection Hk as -> _ _. }
    assert (ch = chain) as -> by congruence. rewrite Forall_forall in Hall.
    specialize (Hall e He). rewrite (entry_matches_norm _ _ _ _ Hok) in Hall.
    by apply bool_decide_eq_false in Hall.
Qed.

(** *** Looking up and setting *)

Definition map_of (l : list pj_hash_entry) : gmap (Z * Z * list Z) V := list_to_map (binding <$> l).

Lemma binding_keys l : (binding <$> l).*1 = norm_key <$> l.
Proof. by rewrite <- list_fmap_compose. Qed.

Lemma map_of_perm l k : NoDup (norm_key <$> l) -> l ≡ₚ k -> map_of l = map_of k.
Proof.
  intros Hnd Hp. apply list_to_map_proper; [by rewrite binding_keys|]. by rewrite Hp.
Qed.
Lemma map_of_cons e l : map_of (e :: l) = <[norm_key e := value e]> (map_of l).
Proof. done. Qed.
Lemma map_of_absent k l : k ∉ norm_key <$> l -> map_of l !! k = None.
Proof. intros H. apply not_elem_of_list_to_map_1. by rewrite binding_keys. Qed.

(** The hash value a caller may pass. *)
Definition hval_ok (hval : Z) (k : list Z) : Prop := hval = 0 \/ hval = calc k.

Lemma hval_calc hval k : hval_ok hval k ->
  (if negb (hval =? 0) then hval else fold_left (hash_step lower) k 0) = calc k.
Proof. intros [->| ->]; [done|]. unfold calc. by case_match. Qed.

Lemma alter_middle {A} (f : A -> A) l1 x l2 : alter f (length l1) (l1 ++ x :: l2) = l1 ++ f x :: l2.
Proof. induction l1 as [|y l1 IH]; [done|]. cbn. f_equal. apply IH. Qed.
Lemma delete_middle_at {A} (l1 : list A) x l2 : delete (length l1) (l1 ++ x :: l2) = l1 ++ l2.
Proof. induction l1 as [|y l1 IH]; [done|]. cbn. f_equal. apply IH. Qed.

Lemma entry_at_row ht t1 chain t2 pos :
  table ht = t1 ++ chain :: t2 -> entry_at ht (length t1) pos = chain !! pos.
Proof. intros H. unfold entry_at. rewrite H, list_lookup_middle by done. done. Qed.

(** [find_entry] on the row of the key. *)
Lemma find_entry_row alloc ht k klen val hval t1 chain t2 :
  let kb := key_bytes k klen in
  let pos := scan_chain (entry_matches lower (calc kb) kb) chain in
  hval_ok hval kb -> table ht = t1 ++ chain :: t2 ->
  length t1 = Z.to_nat (Z.land (calc kb) (rows ht)) ->
  find_entry alloc ht k klen val hval lower =
  match chain !! pos, val with
  | Some _, _ | None, None => Some (ht, calc kb, (length t1, pos))
  | None, Some v =>
      if alloc then
        Some (HashTable (t1 ++ (chain ++ [HashEntry kb (calc kb) (zlen kb) v]) :: t2)
                (u32 (count ht + 1)) (rows ht), calc kb, (length t1, pos))
      else None
  end.
Proof.
  intros kb pos Hh Ht Hrow. unfold find_entry. fold kb. rewrite hval_calc by done. cbn zeta.
  rewrite <- Hrow.
  assert (default [] (table ht !! length t1) = chain) as -> by (by rewrite Ht, list_lookup_middle).
  fold pos. rewrite (entry_at_row _ _ _ _ _ Ht).
  destruct (chain !! pos); [done|]. destruct val; [|done]. destruct alloc; [|done].
  destruct ht as [tb c r]. cbn in *. subst tb. cbn. by rewrite alter_middle.
Qed.

Lemma hash_get_map ht k klen hval : hash_wf ht -> hval_ok hval (key_bytes k klen) ->
  hash_get ht k klen hval lower =
  (represents ht !! norm (key_bytes k klen), calc (key_bytes k klen)).
Proof.
  intros Hwf Hh. unfold hash_get. set (kb := key_bytes k klen) in *.
  destruct (locate ht kb Hwf) as (t1 & chain & t2 & Ht & Hrow & Hcase).
  rewrite (find_entry_row _ _ _ _ _ _ _ _ _ Hh Ht Hrow). fold kb.
  change (represents ht) with (map_of (entries ht)).
  destruct Hcase as [(l1 & e & l2 & -> & He & -> & Hp)|[Hno ->]].
  - rewrite list_lookup_middle, (entry_at_row _ _ _ _ _ Ht), list_lookup_middle by done.
    cbn. f_equal. rewrite (map_of_perm _ _ (h_nodup _ Hwf) Hp), map_of_cons, He.
    by rewrite lookup_insert_eq.
  - rewrite (lookup_ge_None_2 chain), (entry_at_row _ _ _ _ _ Ht), lookup_ge_None_2 by done. cbn.
    by rewrite map_of_absent.
Qed.

(** Changing one row. *)
Lemma wf_row ht t1 chain t2 chain' n :
  hash_wf ht -> table ht = t1 ++ chain :: t2 ->
  (forall e, e ∈ chain' -> entry_ok (rows ht) (length t1) e) ->
  NoDup (norm_key <$> concat (t1 ++ chain' :: t2)) -> n = zlen (concat (t1 ++ chain' :: t2)) ->
  hash_wf (HashTable (t1 ++ chain' :: t2) n (rows ht)).
Proof.
  intros [Hr Hl He Hnd Hc] Ht Hok Hnd' ->. constructor; cbn; try done.
  - rewrite <- Hl, Ht. rewrite !length_app. done.
  - intros row ch e Hrow Hin. destruct (decide (row = length t1)) as [->|Hne].
    + rewrite list_lookup_middle in Hrow by done. injection Hrow as <-. auto.
    + apply (He row ch); [|done]. rewrite Ht. rewrite <- Hrow.
      destruct (decide (row < length t1)%nat); [by rewrite !lookup_app_l|].
      rewrite !lookup_app_r by lia. by destruct (row - length t1)%nat eqn:Hs; [lia|].
Qed.

Lemma concat_row (t1 : list (list pj_hash_entry)) l1 l2 t2 :
  concat (t1 ++ (l1 ++ l2) :: t2) = concat t1 ++ (l1 ++ l2) ++ concat t2.
Proof. by rewrite concat_app. Qed.

Lemma concat_row_middle (t1 : list (list pj_hash_entry)) l1 e l2 t2 :
  concat (t1 ++ (l1 ++ e :: l2) :: t2) ≡ₚ e :: (concat t1 ++ (l1 ++ l2) ++ concat t2).
Proof.
  rewrite concat_app. cbn [concat]. rewrite <- !app_assoc. cbn [app].
  rewrite (app_assoc _ l1), <- Permutation_middle. by rewrite <- app_assoc.
Qed.

(** The three ways [hash_set] changes a table. *)
Lemma set_found ht t1 l1 e l2 t2 v : hash_wf ht -> table ht = t1 ++ (l1 ++ e :: l2) :: t2 ->
  let ht' := HashTable (t1 ++ (l1 ++ HashEntry (key e) (hash e) (keylen e) v :: l2) :: t2)
               (count ht) (rows ht) in
  hash_wf ht' /\ represents ht' = <[norm_key e := v]> (represents ht).
Proof.
  intros Hwf Ht. cbn zeta. set (e' := HashEntry _ _ _ v).
  assert (Hp := concat_row_middle t1 l1 e l2 t2). rewrite <- Ht in Hp.
  assert (Hp' := concat_row_middle t1 l1 e' l2 t2). fold (entries ht) in Hp.
  pose proof (h_nodup _ Hwf) as Hnd. rewrite Hp in Hnd. cbn in Hnd.
  assert (NoDup (norm_key <$> concat (t1 ++ (l1 ++ e' :: l2) :: t2))) as Hnd' by (by rewrite Hp').
  split.
  - eapply wf_row; [done|exact Ht| |done|].
    + intros x Hx. assert (forall y, y ∈ l1 ++ e :: l2 -> entry_ok (rows ht) (length t1) y) as Hok.
      { intros y. apply (h_entries _ Hwf). rewrite Ht. by apply list_lookup_middle. }
      apply elem_of_app in Hx as [Hx|Hx]; [apply Hok; set_solver|].
      apply elem_of_cons in Hx as [->|Hx]; [|apply Hok; set_solver].
      destruct (Hok e) as (? & ? & ?); [set_solver|]. done.
    + rewrite (h_count _ Hwf). unfold zlen. by rewrite Hp, Hp'.
  - change (represents ht) with (map_of (entries ht)).
    rewrite (map_of_perm _ _ (h_nodup _ Hwf) Hp), map_of_cons, insert_insert_eq.
    change (represents _) with (map_of (concat (t1 ++ (l1 ++ e' :: l2) :: t2))).
    by rewrite (map_of_perm _ _ Hnd' Hp').
Qed.

Lemma set_removed ht t1 l1 e l2 t2 : hash_wf ht -> is_u32 (count ht) ->
  table ht = t1 ++ (l1 ++ e :: l2) :: t2 ->
  let ht' := HashTable (t1 ++ (l1 ++ l2) :: t2) (u32 (count ht - 1)) (rows ht) in
  hash_wf ht' /\ represents ht' = delete (norm_key e) (represents ht).
Proof.
  intros Hwf Hc Ht. cbn zeta.
  assert (Hp := concat_row_middle t1 l1 e l2 t2). rewrite <- Ht in Hp. fold (entries ht) in Hp.
  assert (Hp' := concat_row t1 l1 l2 t2).
  pose proof (h_nodup _ Hwf) as Hnd. rewrite Hp in Hnd. cbn in Hnd.
  apply NoDup_cons in Hnd as [Hno Hnd]. split.
  - eapply wf_row; [done|exact Ht| |by rewrite Hp'|].
    + intros x Hx. apply (h_entries _ Hwf _ (l1 ++ e :: l2)); [|set_solver].
      rewrite Ht. by apply list_lookup_middle.
    + rewrite (h_count _ Hwf) in *. unfold zlen in *. rewrite Hp, Hp' in *. cbn [length] in *.
      rewrite u32_small; unfold is_u32 in *; lia.
  - change (represents ht) with (map_of (entries ht)).
    rewrite (map_of_perm _ _ (h_nodup _ Hwf) Hp), map_of_cons.
    change (represents _) with (map_of (concat (t1 ++ (l1 ++ l2) :: t2))). rewrite Hp'.
    rewrite delete_insert_id; [done|]. by apply map_of_absent.
Qed.

Lemma set_added ht t1 chain t2 kb v : hash_wf ht -> is_u32 (count ht + 1) ->
  table ht = t1 ++ chain :: t2 -> length t1 = Z.to_nat (Z.land (calc kb) (rows ht)) ->
  norm kb ∉ norm_key <$> entries ht ->
  let e := HashEntry kb (calc kb) (zlen kb) v in
  let ht' := HashTable (t1 ++ (chain ++ [e]) :: t2) (u32 (count ht + 1)) (rows ht) in
  hash_wf ht' /\ represents ht' = <[norm kb := v]> (represents ht).
Proof.
  intros Hwf Hc Ht Hrow Hno. cbn zeta. set (e := HashEntry _ _ _ v).
  assert (Hp := concat_row_middle t1 chain e [] t2). rewrite app_nil_r in Hp.
  assert (entries ht = concat t1 ++ chain ++ concat t2) as Hen
    by (unfold entries; rewrite Ht; by rewrite concat_app).
  rewrite <- Hen in Hp.
  assert (NoDup (norm_key <$> concat (t1 ++ (chain ++ [e]) :: t2))) as Hnd.
  { rewrite Hp. cbn. apply NoDup_cons. split; [done|apply (h_nodup _ Hwf)]. }
  split.
  - eapply wf_row; [done|exact Ht| |done|].
    + intros x Hx. apply elem_of_app in Hx as [Hx|Hx].
      * apply (h_entries _ Hwf _ chain); [|done]. rewrite Ht. by apply list_lookup_middle.
      * apply list_elem_of_singleton in Hx as ->. by split_and!.
    + rewrite u32_small by done. rewrite (h_count _ Hwf). unfold zlen. rewrite Hp. cbn [length]. lia.
  - change (represents ht) with (map_of (entries ht)).
    change (represents _) with (map_of (concat (t1 ++ (chain ++ [e]) :: t2))).
    by rewrite (map_of_perm _ _ Hnd Hp), map_of_cons.
Qed.

Lemma hash_set_map alloc ht k klen hval val :
  let kb := key_bytes k klen in
  hash_wf ht -> hval_ok hval kb -> is_u32 (count ht + 1) ->
  match hash_set alloc ht k klen hval val lower with
  | Some ht' =>
      hash_wf ht' /\ rows ht' = rows ht /\ count ht' <= count ht + 1 /\
      represents ht' = partial_alter (fun _ => val) (norm kb) (represents ht) /\
      (alloc = true \/ val = None \/ is_Some (represents ht !! norm kb))
  | None => alloc = false /\ val <> None /\ represents ht !! norm kb = None
  end.
Proof.
  intros kb Hwf Hh Hc. unfold hash_set.
  assert (0 <= count ht) as Hc0 by (rewrite (h_count _ Hwf); apply zlen_nonneg).
  destruct (locate ht kb Hwf) as (t1 & chain & t2 & Ht & Hrow & Hcase).
  rewrite (find_entry_row _ _ _ _ _ _ _ _ _ Hh Ht Hrow). fold kb.
  destruct Hcase as [(l1 & e & l2 & -> & He & -> & Hp)|[Hno ->]].
  - rewrite list_lookup_middle, (entry_at_row _ _ _ _ _ Ht), list_lookup_middle by done.
    assert (is_Some (represents ht !! norm kb)) as Hin.
    { change (represents ht) with (map_of (entries ht)).
      rewrite (map_of_perm _ _ (h_nodup _ Hwf) Hp), map_of_cons, He, lookup_insert_eq. by eexists. }
    assert (1 <= count ht) as Hc1.
    { rewrite (h_count _ Hwf). unfold zlen. rewrite (Permutation_length Hp). cbn. lia. }
    destruct ht as [tb c r]. cbn in Ht. subst tb. cbn [table] in *. rewrite <- He in *.
    destruct val as [v|]; cbn; rewrite !alter_middle.
    + destruct (set_found _ _ _ _ _ _ v Hwf eq_refl) as [Hw Hr]. split; [exact Hw|].
      split; [done|]. split; [cbn; lia|]. split; [exact Hr|]. by right; right.
    + rewrite delete_middle_at. assert (is_u32 c) as Hcu by (unfold is_u32 in *; cbn in *; lia).
      destruct (set_removed _ _ _ _ _ _ Hwf Hcu eq_refl) as [Hw Hr]. split; [exact Hw|].
      split; [done|]. split; [|split; [exact Hr|by right; left]].
      cbn in *. rewrite u32_small; unfold is_u32 in *; lia.
  - rewrite (lookup_ge_None_2 chain) by done.
    assert (represents ht !! norm kb = None) as Hnone by (by apply map_of_absent).
    destruct val as [v|].
    + destruct alloc; [|done]. destruct (set_added _ _ _ _ _ v Hwf Hc Ht Hrow Hno) as [Hw Hr].
      unfold entry_at. cbn [table]. rewrite list_lookup_middle by done. cbn [mbind option_bind].
      rewrite lookup_app_r, Nat.sub_diag by done. cbn [lookup list_lookup].
      destruct ht as [tb c r]. cbn in *. rewrite alter_middle.
      assert (alter (fun e => e <| value := v |>) (length chain)
        (chain ++ [HashEntry kb (calc kb) (zlen kb) v]) = chain ++ [HashEntry kb (calc kb) (zlen kb) v])
        as -> by (by rewrite alter_middle).
      split; [exact Hw|]. split; [done|]. split; [|split; [exact Hr|by left]].
      cbn. rewrite u32_small by done. lia.
    + rewrite (entry_at_row _ _ _ _ _ Ht), lookup_ge_None_2 by done.
      split; [done|]. split; [done|]. split; [lia|]. split; [|by right; left].
      symmetry.
      change (delete (norm kb) (represents ht) = represents ht). by apply delete_id.
Qed.

(** ** Runs

    A run of calls on a table that uses one way of comparing keys, and the same
    run on the map. *)

Inductive hash_op :=
  | op_get (k : list Z) (klen hval : Z)
  | op_set (alloc : bool) (k : list Z) (klen hval : Z) (val : option V)
  | op_count.

Inductive hash_out := out_found (v : option V) (h : Z) | out_set | out_count (n : Z).

(** [None] is a call that dereferences a null pointer. *)
Definition hash_exec (ht : pj_hash_table) (op : hash_op) : option (pj_hash_table * hash_out) :=
  match op with
  | op_get k klen hval =>
      let '(v, h) := hash_get ht k klen hval lower in Some (ht, out_found v h)
  | op_set alloc k klen hval val =>
      match hash_set alloc ht k klen hval val lower with
      | Some ht => Some (ht, out_set)
      | None => None
      end
  | op_count => Some (ht, out_count (pj_hash_count ht))
  end.

Definition map_exec (m : gmap (Z * Z * list Z) V) (op : hash_op) :
    option (gmap (Z * Z * list Z) V * hash_out) :=
  match op with
  | op_get k klen _ =>
      let kb := key_bytes k klen in Some (m, out_found (m !! norm kb) (calc kb))
  | op_set alloc k klen _ val =>
      let kb := key_bytes k klen in
      match alloc, val, m !! norm kb with
      | false, Some _, None => None
      | _, _, _ => Some (partial_alter (fun _ => val) (norm kb) m, out_set)
      end
  | op_count => Some (m, out_count (Z.of_nat (size m)))
  end.

Fixpoint exec_all {S : Type} (exec : S -> hash_op -> option (S * hash_out)) (s : S)
    (ops : list hash_op) : option (S * list hash_out) :=
  match ops with
  | [] => Some (s, [])
  | op :: ops =>
      match exec s op with
      | Some (s, o) =>
          match exec_all exec s ops with Some (s, outs) => Some (s, o :: outs) | None => None end
      | None => None
      end
  end.

(** The hash value a caller passes is 0 or that of the key. *)
Definition hash_op_ok (op : hash_op) : Prop :=
  match op with
  | op_get k klen hval | op_set _ k klen hval _ => hval_ok hval (key_bytes k klen)
  | op_count => True
  end.

Lemma represents_size ht : hash_wf ht -> Z.of_nat (size (represents ht)) = count ht.
Proof.
  intros Hwf. rewrite (h_count _ Hwf). unfold zlen. f_equal.
  change (represents ht) with (map_of (entries ht)). pose proof (h_nodup _ Hwf) as Hnd.
  induction (entries ht) as [|e l IH]; [apply map_size_empty|]. cbn in Hnd.
  apply NoDup_cons in Hnd as [Hno Hnd]. rewrite map_of_cons.
  rewrite map_size_insert_None by (by apply map_of_absent). cbn. by rewrite IH.
Qed.

Lemma hash_exec_map ht op : hash_wf ht -> hash_op_ok op -> is_u32 (count ht + 1) ->
  match hash_exec ht op, map_exec (represents ht) op with
  | Some (ht', o), Some (m', o') =>
      hash_wf ht' /\ count ht' <= count ht + 1 /\ represents ht' = m' /\ o = o'
  | None, None => True
  | _, _ => False
  end.
Proof.
  intros Hwf Hok Hc. destruct op as [k klen hval|alloc k klen hval val|]; cbn in Hok.
  - cbn. rewrite hash_get_map by done. split_and!; try done. lia.
  - pose proof (hash_set_map alloc ht k klen hval val Hwf Hok Hc) as H. cbn in *.
    destruct (hash_set alloc ht k klen hval val lower) as [ht'|].
    + destruct H as (Hw & _ & Hle & Hr & Hp).
      destruct Hp as [-> | [-> | [v Hv]]]; rewrite ?Hv; [done|by destruct alloc|].
      by destruct alloc, val.
    + destruct H as (-> & Hv & ->). by destruct val.
  - cbn. rewrite represents_size by done. split_and!; try done. lia.
Qed.

Lemma exec_all_map ops ht : hash_wf ht -> Forall hash_op_ok ops ->
  count ht + zlen ops < 4294967296 ->
  match exec_all hash_exec ht ops, exec_all map_exec (represents ht) ops with
  | Some (ht', outs), Some (m', outs') => hash_wf ht' /\ represents ht' = m' /\ outs = outs'
  | None, None => True
  | _, _ => False
  end.
Proof.
  intros Hwf Hok. revert ht Hwf. induction Hok as [|op ops Ho Hops IH]; intros ht Hwf Hc; [done|].
  assert (0 <= count ht) by (rewrite (h_count _ Hwf); apply zlen_nonneg).
  unfold zlen in *. cbn [length] in Hc. cbn [exec_all].
  pose proof (hash_exec_map ht op Hwf Ho ltac:(unfold is_u32; lia)) as H1.
  destruct (hash_exec ht op) as [[ht1 o]|], (map_exec (represents ht) op) as [[m1 o']|]; try done.
  destruct H1 as (Hw & Hle & <- & <-). specialize (IH ht1 Hw ltac:(lia)).
  destruct (exec_all hash_exec ht1 ops) as [[ht2 outs]|], (exec_all map_exec _ ops) as [[m2 outs']|];
    try done. by destruct IH as (? & ? & ->).
Qed.

(** *** Creation *)

Lemma grow_size_spec fuel t size : 0 < t ->
  (exists k, t = 2 ^ Z.of_nat k /\ (k < 31)%nat /\ (31 - k <= fuel)%nat) -> size <= 2 ^ 31 ->
  exists k, grow_size fuel t size = Some (2 ^ Z.of_nat k) /\ (k <= 31)%nat /\
    2 * t <= 2 ^ Z.of_nat k /\ size <= 2 ^ Z.of_nat k /\ (2 ^ Z.of_nat k = 2 * t \/ 2 ^ Z.of_nat k < 2 * size).
Proof.
  revert t. induction fuel as [|fuel IH]; intros t Ht (k & -> & Hk & Hf) Hmax; [lia|]. cbn [grow_size].
  assert (u32 (Z.shiftl (2 ^ Z.of_nat k) 1) = 2 ^ Z.of_nat (S k)) as ->.
  { rewrite Z.shiftl_mul_pow2, Nat2Z.inj_succ, Z.pow_succ_r by lia. rewrite u32_small; [lia|].
    assert (2 ^ Z.of_nat k <= 2 ^ 30) by (apply Z.pow_le_mono_r; lia). unfold is_u32. lia. }
  assert (2 ^ Z.of_nat (S k) = 2 * 2 ^ Z.of_nat k) as Hd by (rewrite Nat2Z.inj_succ, Z.pow_succ_r; lia).
  destruct (Z.ltb_spec (2 ^ Z.of_nat (S k)) size) as [Hlt|Hge].
  - assert (S k < 31)%nat as Hk'.
    { destruct (decide (S k < 31)%nat); [done|]. assert (k = 30)%nat as -> by lia.
      change (2 ^ Z.of_nat 31) with (2 ^ 31) in Hlt. lia. }
    destruct (IH (2 ^ Z.of_nat (S k))) as (j & Hj & Hj1 & Hj0 & Hj2 & Hj3);
      [lia|exists (S k); lia|done|].
    exists j. split; [exact Hj|]. split; [done|]. split; [lia|]. split; [done|].
    right. destruct Hj3; lia.
  - exists (S k). split; [done|]. split; [lia|]. split; [lia|]. split; [done|]. by left.
Qed.

Lemma grow_size_diverges fuel t size : 2 ^ 31 < size <= 2 ^ 32 ->
  (exists k, t = 2 ^ Z.of_nat k /\ (k < 32)%nat) \/ t = 0 -> grow_size fuel t size = None.
Proof.
  intros Hs. revert t. induction fuel as [|fuel IH]; intros t Ht; [done|]. cbn [grow_size].
  assert ((exists k, u32 (Z.shiftl t 1) = 2 ^ Z.of_nat k /\ (k < 32)%nat) \/ u32 (Z.shiftl t 1) = 0)
    as Hn.
  { rewrite Z.shiftl_mul_pow2 by lia. destruct Ht as [(k & -> & Hk)| ->]; [|by right].
    destruct (decide (k = 31)%nat) as [->|]; [by right|]. left. exists (S k). split; [|lia].
    rewrite Nat2Z.inj_succ, Z.pow_succ_r, u32_small; [lia| |lia].
    assert (2 ^ Z.of_nat k <= 2 ^ 30) by (apply Z.pow_le_mono_r; lia). unfold is_u32. lia. }
  rewrite (proj2 (Z.ltb_lt _ _)); [by apply IH|].
  destruct Hn as [(k & -> & Hk)| ->]; [|lia].
  assert (2 ^ Z.of_nat k <= 2 ^ 31) by (apply Z.pow_le_mono_r; lia). lia.
Qed.

Lemma hash_created_wf rows : 0 <= rows ->
  let ht := HashTable (replicate (Z.to_nat (rows + 1)) []) 0 rows in
  hash_wf ht /\ represents ht = ∅.
Proof.
  intros Hr. cbn zeta. assert (entries (HashTable (replicate (Z.to_nat (rows + 1)) []) 0 rows) = []) as He.
  { unfold entries. cbn. by induction (Z.to_nat (rows + 1)). }
  split; [|unfold represents; by rewrite He].
  constructor; rewrite ?He; cbn; try done.
  - apply length_replicate.
  - intros row chain e Hl Hin. apply lookup_replicate in Hl as [-> _]. by apply elem_of_nil in Hin.
  - constructor.
Qed.

(** *** Iterating *)

(** [it] points at the entry [e] of the table, with [l1] before and [l2] behind
    it in the order of the rows. *)
Definition points (ht : pj_hash_table) (it : pj_hash_iterator) (l1 : list pj_hash_entry)
    (e : pj_hash_entry) (l2 : list pj_hash_entry) : Prop :=
  exists t1 c1 c2 t2,
    table ht = t1 ++ (c1 ++ e :: c2) :: t2 /\ it = HashIterator (length t1) (key e) /\
    l1 = concat t1 ++ c1 /\ l2 = c2 ++ concat t2.

Lemma points_entries ht it l1 e l2 : points ht it l1 e l2 -> entries ht = l1 ++ e :: l2.
Proof.
  intros (t1 & c1 & c2 & t2 & Ht & _ & -> & ->). unfold entries. rewrite Ht, concat_app. cbn.
  by rewrite <- !app_assoc.
Qed.

Lemma first_row_spec rest i :
  match concat rest with
  | [] => first_row rest i = None
  | e :: l => exists t1 c2 t2, rest = t1 ++ (e :: c2) :: t2 /\ concat t1 = [] /\
      l = c2 ++ concat t2 /\ first_row rest i = Some (HashIterator (i + length t1) (key e))
  end.
Proof.
  revert i. induction rest as [|[|e c] rest IH]; intros i; cbn; [done| |].
  - specialize (IH (S i)). destruct (concat rest) as [|e l]; [done|].
    destruct IH as (t1 & c2 & t2 & -> & H1 & -> & ->). exists ([] :: t1), c2, t2.
    split_and!; try done. cbn [length]. do 2 f_equal. lia.
  - exists [], c, rest. split_and!; try done. cbn. do 2 f_equal. lia.
Qed.

Lemma hash_first_spec ht :
  match entries ht with
  | [] => pj_hash_first ht = None
  | e :: l => exists it, pj_hash_first ht = Some it /\ points ht it [] e l
  end.
Proof.
  unfold entries, pj_hash_first. pose proof (first_row_spec (table ht) 0) as H.
  destruct (concat (table ht)) as [|e l]; [done|].
  destruct H as (t1 & c2 & t2 & Ht & H1 & -> & ->). eexists. split; [done|].
  exists t1, [], c2, t2. by rewrite H1.
Qed.

(** The keys of a table are distinct, so a key names an entry of its chain. *)
Lemma scan_pointed ht t1 c1 e c2 t2 : hash_wf ht -> table ht = t1 ++ (c1 ++ e :: c2) :: t2 ->
  chain_pos ht (HashIterator (length t1) (key e)) = length c1.
Proof.
  intros Hwf Ht. unfold chain_pos. cbn [index].
  assert (default [] (table ht !! length t1) = c1 ++ e :: c2) as -> by (by rewrite Ht, list_lookup_middle).
  pose proof (h_nodup _ Hwf) as Hnd. unfold entries in Hnd. rewrite Ht, concat_app in Hnd.
  cbn [concat] in Hnd. rewrite <- app_assoc in Hnd. cbn [app] in Hnd.
  assert (forall x, x ∈ c1 -> key x <> key e) as Hne.
  { intros x Hx Hk. rewrite !fmap_app in Hnd. apply NoDup_app in Hnd as (_ & _ & Hnd).
    apply NoDup_app in Hnd as (_ & Hd & _). apply (Hd (norm_key x)).
    - by apply list_elem_of_fmap_2.
    - unfold norm_key. rewrite Hk. cbn. by left. }
  clear -Hne. induction c1 as [|x c1 IH]; cbn.
  - unfold points_at. cbn. by rewrite bool_decide_eq_true_2.
  - unfold points_at at 1. cbn. rewrite bool_decide_eq_false_2 by (apply Hne; by left). f_equal.
    apply IH. intros y Hy. apply Hne. by right.
Qed.

Lemma hash_this_spec ht it l1 e l2 : hash_wf ht -> points ht it l1 e l2 ->
  pj_hash_this ht it = Some (value e).
Proof.
  intros Hwf (t1 & c1 & c2 & t2 & Ht & -> & _ & _). unfold pj_hash_this.
  rewrite (scan_pointed _ _ _ _ _ _ Hwf Ht), (entry_at_row _ _ _ _ _ Ht). cbn [index].
  by rewrite list_lookup_middle.
Qed.

Lemma drop_middle {A} (l1 : list A) x l2 : drop (S (length l1)) (l1 ++ x :: l2) = l2.
Proof. by induction l1. Qed.

Lemma hash_next_spec ht it l1 e l2 : hash_wf ht -> points ht it l1 e l2 ->
  match l2 with
  | [] => pj_hash_next ht it = None
  | e' :: l2' => exists it', pj_hash_next ht it = Some it' /\ points ht it' (l1 ++ [e]) e' l2'
  end.
Proof.
  intros Hwf (t1 & c1 & c2 & t2 & Ht & -> & -> & ->). unfold pj_hash_next.
  rewrite (scan_pointed _ _ _ _ _ _ Hwf Ht). cbn [index]. rewrite (entry_at_row _ _ _ _ _ Ht).
  assert ((c1 ++ e :: c2) !! S (length c1) = c2 !! 0%nat) as ->.
  { rewrite lookup_app_r by lia. by replace (S (length c1) - length c1)%nat with 1%nat by lia. }
  destruct c2 as [|e' c2]; cbn [lookup list_lookup app].
  - assert (drop (S (length t1)) (table ht) = t2) as ->.
    { rewrite Ht. apply drop_middle. }
    pose proof (first_row_spec t2 (S (length t1))) as H.
    destruct (concat t2) as [|e' l]; [done|].
    destruct H as (t3 & c3 & t4 & -> & H1 & -> & ->). eexists. split; [done|].
    exists (t1 ++ (c1 ++ [e]) :: t3), [], c3, t4. rewrite Ht.
    split; [by rewrite <- app_assoc|].
    split; [f_equal; rewrite length_app; cbn [length]; lia|].
    split; [|done]. rewrite concat_app. cbn. by rewrite H1, !app_nil_r, <- app_assoc.
  - eexists. split; [done|]. exists t1, (c1 ++ [e]), c2, t2. rewrite Ht.
    split; [by rewrite <- app_assoc|]. split_and!; try done. by rewrite app_assoc.
Qed.

(** Removing the entry an iterator points at leaves the next iterator valid. *)
Lemma points_removed t1 c1 e c2 t2 n r it' e' l' :
  points (HashTable (t1 ++ (c1 ++ e :: c2) :: t2) n r) it' (concat t1 ++ c1 ++ [e]) e' l' ->
  forall n', points (HashTable (t1 ++ (c1 ++ c2) :: t2) n' r) it' (concat t1 ++ c1) e' l'.
Proof.
  intros (t3 & c3 & c4 & t4 & Ht & -> & Hl & ->) n'. cbn [table] in Ht.
  apply app_eq_inv in Ht as [([|row k] & Heq & Ht)|([|row k] & Heq & Ht)]; cbn [app] in Ht.
  - rewrite app_nil_r in Heq. subst t3. injection Ht as Hrow ->.
    assert (c3 = c1 ++ [e]) as -> by (by apply app_inv_head in Hl).
    rewrite <- app_assoc in Hrow. apply app_inv_head in Hrow. injection Hrow as <-.
    by exists t1, c1, c4, t2.
  - injection Ht as <- ->. exfalso. apply (f_equal length) in Hl. rewrite Heq in Hl.
    rewrite concat_app in Hl. cbn in Hl. rewrite !length_app in Hl. cbn in Hl. lia.
  - rewrite app_nil_r in Heq. subst t3. injection Ht as Hrow ->.
    assert (c3 = c1 ++ [e]) as -> by (by apply app_inv_head in Hl).
    rewrite <- app_assoc in Hrow. apply app_inv_head in Hrow. injection Hrow as ->.
    by exists t1, c1, c4, t4.
  - injection Ht as <- ->. subst t3. exists (t1 ++ (c1 ++ c2) :: k), c3, c4, t4. cbn [table].
    split; [by rewrite <- app_assoc|].
    split; [f_equal; rewrite !length_app; cbn; lia|]. split; [|done].
    rewrite concat_app in Hl |- *. cbn [concat] in *. rewrite <- !app_assoc in Hl |- *. cbn [app] in *.
    apply app_inv_head in Hl. f_equal. apply app_inv_head in Hl. injection Hl as Hl.
    by rewrite <- Hl, app_nil_r.
Qed.

(** The position at which a key is found, when its entry is known. *)
Lemma scan_entry ht t1 c1 e c2 t2 k : hash_wf ht -> table ht = t1 ++ (c1 ++ e :: c2) :: t2 ->
  norm_key e = norm k ->
  length t1 = Z.to_nat (Z.land (calc k) (rows ht)) /\
  scan_chain (entry_matches lower (calc k) k) (c1 ++ e :: c2) = length c1.
Proof.
  intros Hwf Ht Hk.
  assert (table ht !! length t1 = Some (c1 ++ e :: c2)) as Hrow by (by rewrite Ht, list_lookup_middle).
  assert (forall x, x ∈ c1 ++ e :: c2 -> entry_ok (rows ht) (length t1) x) as Hok
    by (intros x Hx; by eapply (h_entries _ Hwf)).
  split.
  - destruct (Hok e ltac:(set_solver)) as (Hh & _ & <-). rewrite Hh.
    unfold norm_key, norm in Hk. by injection Hk as -> _ _.
  - pose proof (h_nodup _ Hwf) as Hnd. unfold entries in Hnd. rewrite Ht, concat_app in Hnd.
    cbn [concat] in Hnd. rewrite <- app_assoc, !fmap_app in Hnd. cbn [fmap list_fmap app] in Hnd.
    apply NoDup_app in Hnd as (_ & _ & Hnd). apply NoDup_app in Hnd as (_ & Hnd & _).
    clear -Hok Hk Hnd. induction c1 as [|x c1 IH]; cbn.
    + rewrite (entry_matches_norm _ _ _ _ (Hok e ltac:(set_solver))).
      by rewrite bool_decide_eq_true_2.
    + rewrite (entry_matches_norm _ _ _ _ (Hok x ltac:(set_solver))).
      rewrite bool_decide_eq_false_2; [f_equal; apply IH|].
      * intros y Hy. apply Hok. set_solver.
      * intros y Hy. apply Hnd. set_solver.
      * intros Hx. apply (Hnd (norm_key x)); [set_solver|]. rewrite Hx, <- Hk. by left.
Qed.

Lemma hash_remove_pointed alloc ht it l1 e l2 k klen hval :
  let kb := key_bytes k klen in
  hash_wf ht -> points ht it l1 e l2 -> norm_key e = norm kb -> hval_ok hval kb ->
  is_u32 (count ht) ->
  exists ht', hash_set alloc ht k klen hval None lower = Some ht' /\ hash_wf ht' /\
    entries ht' = l1 ++ l2 /\
    forall it' e' l', points ht it' (l1 ++ [e]) e' l' -> points ht' it' l1 e' l'.
Proof.
  intros kb Hwf (t1 & c1 & c2 & t2 & Ht & -> & -> & ->) Hk Hh Hc.
  destruct (scan_entry _ _ _ _ _ _ _ Hwf Ht Hk) as [Hrow Hscan].
  unfold hash_set. rewrite (find_entry_row _ _ _ _ _ _ _ _ _ Hh Ht Hrow). fold kb. rewrite Hscan.
  rewrite list_lookup_middle, (entry_at_row _ _ _ _ _ Ht), list_lookup_middle by done.
  eexists. split; [reflexivity|]. destruct ht as [tb n r]. cbn in Ht. subst tb. cbn [modify table].
  cbn. rewrite alter_middle, delete_middle_at.
  destruct (set_removed _ _ _ _ _ _ Hwf Hc eq_refl) as [Hw _]. split; [exact Hw|]. split.
  - unfold entries. cbn [table]. by rewrite concat_row, <- !app_assoc.
  - intros it' e' l' Hp. rewrite <- app_assoc in Hp. by eapply points_removed.
Qed.

(** The loop over a table that its callers write, with the values it meets. *)
Fixpoint visit (fuel : nat) (ht : pj_hash_table) (it : option pj_hash_iterator) : list (option V) :=
  match fuel, it with
  | S fuel, Some it => pj_hash_this ht it :: visit fuel ht (pj_hash_next ht it)
  | _, _ => []
  end.

Lemma visit_points fuel ht it l1 e l2 : hash_wf ht -> points ht it l1 e l2 ->
  (length l2 < fuel)%nat -> visit fuel ht (Some it) = Some <$> (value <$> e :: l2).
Proof.
  intros Hwf. revert it l1 e l2. induction fuel as [|fuel IH]; intros it l1 e l2 Hp Hf; [lia|].
  cbn [visit]. rewrite (hash_this_spec _ _ _ _ _ Hwf Hp). cbn [fmap list_fmap]. f_equal.
  pose proof (hash_next_spec _ _ _ _ _ Hwf Hp) as Hn. destruct l2 as [|e' l2].
  - rewrite Hn. by destruct fuel.
  - destruct Hn as (it' & -> & Hp'). cbn in Hf. rewrite (IH _ _ _ _ Hp') by lia. done.
Qed.

End Represents.

(** ** What the table guarantees *)

(** C31: The table is a map. Whatever calls are made on a table that
    [pj_hash_create] made, in one way of comparing keys and with a hash value
    that is 0 or the key's, every answer is that of a finite map run alongside:
    the value found, the hash value reported back, the number of entries; the
    only call that fails is a new entry with nowhere to put it, and the table
    stays well-formed. Without regard to case, two keys are one when their
    length, hash value and lower-case text up to a NUL agree. *)
Theorem hash_refines_map lower fuel size ht ops :
  pj_hash_create fuel size = Some ht -> Forall (hash_op_ok lower) ops ->
  zlen ops < 4294967296 ->
  match exec_all (hash_exec lower) ht ops, exec_all (map_exec lower) ∅ ops with
  | Some (ht', outs), Some (m, outs') =>
      outs = outs' /\ hash_wf lower ht' /\ represents lower ht' = m
  | None, None => True
  | _, _ => False
  end.
Proof.
  unfold pj_hash_create. intros Hc Hok Hlen. destruct (grow_size fuel 8 size) as [t|]; [|done].
  injection Hc as <-. destruct (hash_created_wf lower (u32 (t - 1)) ltac:(apply u32_range)) as [Hwf Hr].
  pose proof (exec_all_map lower ops _ Hwf Hok ltac:(exact Hlen)) as H. rewrite Hr in H.
  repeat case_match; naive_solver.
Qed.

(** The size asked for is rounded up to a power of two, 16 at least, and
    every row of a new table is empty; the loop ends for every size up to 2^31,
    and never for a larger one. *)
Lemma hash_create_spec size : is_u32 size ->
  if size <=? 2 ^ 31 then
    exists k, pj_hash_create 28 size =
        Some (HashTable (replicate (2 ^ k) []) 0 (2 ^ Z.of_nat k - 1)) /\
      16 <= 2 ^ Z.of_nat k /\ size <= 2 ^ Z.of_nat k /\
      (2 ^ Z.of_nat k = 16 \/ 2 ^ Z.of_nat k < 2 * size)
  else forall fuel, pj_hash_create fuel size = None.
Proof.
  intros Hs. unfold pj_hash_create. destruct (Z.leb_spec size (2 ^ 31)) as [Hle|Hgt].
  - destruct (grow_size_spec 28 8 size) as (k & -> & Hk & H16 & Hge & Hr); [lia| |done|].
    { exists 3%nat. split; [done|]. lia. }
    exists k. assert (2 ^ Z.of_nat k <= 2 ^ 31) by (apply Z.pow_le_mono_r; lia).
    rewrite u32_small by (unfold is_u32; lia). split; [|split_and!; auto; lia].
    do 2 f_equal. f_equal. rewrite Z.sub_add.
    apply Nat2Z.inj. rewrite Z2Nat.id, Nat2Z.inj_pow by lia. done.
  - intros fuel. rewrite grow_size_diverges; [done|unfold is_u32 in *; lia|].
    left. exists 3%nat. split; [done|lia].
Qed.

(** The loop from [pj_hash_first] by [pj_hash_next] ends, and [pj_hash_this]
    returns in it the value of each binding of the map exactly once. *)
Lemma hash_iterates lower ht fuel : hash_wf lower ht -> (length (entries ht) < fuel)%nat ->
  exists vs : list V, visit fuel ht (pj_hash_first ht) = Some <$> vs /\
    vs ≡ₚ snd <$> map_to_list (represents lower ht).
Proof.
  intros Hwf Hf. exists (value <$> entries ht). split.
  - pose proof (hash_first_spec ht) as H. destruct (entries ht) as [|e l].
    + rewrite H. by destruct fuel.
    + destruct H as (it & -> & Hp). cbn in Hf. eapply visit_points; [exact Hwf|exact Hp|lia].
  - change (represents lower ht) with (map_of lower (entries ht)). unfold map_of.
    rewrite map_to_list_to_map by (rewrite binding_keys; apply (h_nodup _ _ Hwf)).
    by rewrite <- list_fmap_compose.
Qed.

End Table.

(** ** A table *)

Definition demo_ops : list (hash_op (V := Z)) :=
  [op_set true [65; 98] 2 0 (Some 7); op_get [97; 66; 99] 2 0; op_set true [120] 1 0 (Some 8);
   op_get [88; 0; 1] PJ_HASH_KEY_STRING 120; op_set false [97; 98] 2 0 None; op_get [65; 98] 2 0;
   op_count].

Definition demo_table : pj_hash_table := HashTable (V := Z) (replicate 16 []) 0 15.

Lemma hash_refines_map_witness :
  match exec_all (hash_exec true) demo_table demo_ops with
  | Some (ht, outs) =>
      outs = [out_set; out_found (Some 7) 3299; out_set; out_found (Some 8) 120; out_set;
              out_found None 3299; out_count 1] /\ hash_wf true ht
  | None => False
  end.
Proof.
  assert (Forall (hash_op_ok true) demo_ops) as Hok.
  { repeat (apply Forall_cons_2; [try (by left)|]); [right; vm_compute; reflexivity|exact I|constructor]. }
  pose proof (hash_refines_map true 28 16 demo_table demo_ops eq_refl Hok eq_refl) as H.
  assert (snd <$> exec_all (map_exec true) ∅ demo_ops =
    Some [out_set; out_found (Some 7) 3299; out_set; out_found (Some 8) 120; out_set;
          out_found None 3299; out_count 1]) as Hm by (vm_compute; reflexivity).
  destruct (exec_all (map_exec true) ∅ demo_ops) as [[m o]|]; [|discriminate Hm]. injection Hm as ->.
  destruct (exec_all (hash_exec true) demo_table demo_ops) as [[ht o]|]; [|exact H].
  destruct H as (-> & Hw & _). split; [reflexivity|exact Hw].
Defined.

Lemma hash_create_spec_witness :
  exists k, pj_hash_create (V := Z) 28 1024 =
      Some (HashTable (replicate (2 ^ k) []) 0 (2 ^ Z.of_nat k - 1)) /\
    1024 <= 2 ^ Z.of_nat k < 2048.
Proof.
  destruct (hash_create_spec (V := Z) 1024) as (k & Hk & _ & Hlo & Hhi); [unfold is_u32; lia|].
  exists k. split; [exact Hk|]. destruct Hhi; lia.
Defined.

Definition one_entry : pj_hash_table := HashTable (V := Z) [[]; [HashEntry [97] 97 1 5]] 1 1.

Lemma hash_iterates_witness :
  exists vs, visit 2 one_entry (pj_hash_first one_entry) = Some <$> vs /\
    vs ≡ₚ snd <$> map_to_list (represents false one_entry).
Proof.
  apply (hash_iterates false one_entry 2); [|cbn; lia]. constructor; try done.
  - intros [|[|row]] chain e Hrow He; cbn in Hrow; try done; injection Hrow as <-.
    + by apply elem_of_nil in He.
    + apply list_elem_of_singleton in He as ->. by split_and!.
  - apply NoDup_singleton.
Defined.
