(* ===== verification/Base64.v ===== *)
(** * Base64 (pjlib-util/src/pjlib-util/base64.c, pjlib-util/include/pjlib-util/base64.h)

    The encoder and the decoder, with the room they ask of the output buffer.
    The result is the bytes written; the lengths stay below 2^29, where the
    [int] products of the length macros do not overflow. *)

From S2P Require Import Prelude.
Set Warnings "-clear-no-such-hyp".

Definition INV : Z := -1.
Definition PADDING : Z := 61.

Definition base64_char : list Z :=
  [65; 66; 67; 68; 69; 70; 71; 72; 73; 74;
   75; 76; 77; 78; 79; 80; 81; 82; 83; 84;
   85; 86; 87; 88; 89; 90; 97; 98; 99; 100;
   101; 102; 103; 104; 105; 106; 107; 108; 109; 110;
   111; 112; 113; 114; 115; 116; 117; 118; 119; 120;
   121; 122; 48; 49; 50; 51; 52; 53; 54; 55;
   56; 57; 43; 47].

Definition base256_char (c : Z) : Z :=
  if (c >=? 65) && (c <=? 90) then c - 65
  else if (c >=? 97) && (c <=? 122) then c - 97 + 26
  else if (c >=? 48) && (c <=? 57) then c - 48 + 52
  else if c =? 43 then 62
  else if c =? 47 then 63
  else INV.

Definition PJ_BASE256_TO_BASE64_LEN (len : Z) : Z := len * 4 ÷ 3 + 3.
Definition PJ_BASE64_TO_BASE256_LEN (len : Z) : Z := len * 3 ÷ 4.

(** [base64_char\[i\]]. *)
Definition char_at (i : Z) : Z := default 0 (base64_char !! Z.to_nat i).

(** The four characters written. *)
Definition base256to64 (c1 c2 c3 padding : Z) : list Z :=
  [char_at (Z.shiftr c1 2);
   char_at (Z.lor (Z.shiftl (Z.land c1 3) 4) (Z.shiftr (Z.land c2 240) 4))] ++
  if padding =? 0 then
    [char_at (Z.lor (Z.shiftl (Z.land c2 15) 2) (Z.shiftr (Z.land c3 192) 6));
     char_at (Z.land c3 63)]
  else if padding =? 1 then
    [char_at (Z.lor (Z.shiftl (Z.land c2 15) 2) (Z.shiftr (Z.land c3 192) 6)); PADDING]
  else [PADDING; PADDING].

(** The loop of [pj_base64_encode]. *)
Fixpoint encode_loop (input : list Z) : list Z :=
  match input with
  | [] => []
  | [c1] => base256to64 c1 0 0 2
  | [c1; c2] => base256to64 c1 c2 0 1
  | c1 :: c2 :: c3 :: input => base256to64 c1 c2 c3 0 ++ encode_loop input
  end.

(** [None] is an output buffer that is not written. *)
Definition pj_base64_encode (input : list Z) (out_len : Z) : pj_status * option (list Z) :=
  if negb (out_len >=? PJ_BASE256_TO_BASE64_LEN (zlen input)) then (PJ_ETOOSMALL, None)
  else (PJ_SUCCESS, Some (encode_loop input)).

(** *** Decoding *)

(** The [do] loop: the value of the next character, and the rest. *)
Fixpoint next_char (c : Z) (buf : list Z) : Z * list Z :=
  match base256_char c =? INV, buf with
  | true, c :: buf => next_char c buf
  | _, _ => (base256_char c, buf)
  end.

(** The [for] loop that fills [c]. *)
Fixpoint fill (k : nat) (buf : list Z) : list Z * list Z :=
  match k, buf with
  | S k, c :: buf =>
      let '(v, buf) := next_char c buf in
      let '(c, buf) := fill k buf in (v :: c, buf)
  | _, _ => ([], buf)
  end.

Definition byte1 (c0 c1 : Z) : Z := u8 (Z.lor (Z.shiftl c0 2) (Z.shiftr (Z.land c1 48) 4)).
Definition byte2 (c1 c2 : Z) : Z := u8 (Z.lor (Z.shiftl (Z.land c1 15) 4) (Z.shiftr (Z.land c2 60) 2)).
Definition byte3 (c2 c3 : Z) : Z := u8 (Z.lor (Z.shiftl (Z.land c2 3) 6) (Z.land c3 63)).

(** The outer loop; [None] when the fuel runs out. *)
Fixpoint decode_loop (fuel : nat) (buf : list Z) : option (list Z) :=
  match buf with
  | [] => Some []
  | _ =>
      match fuel with
      | O => None
      | S fuel =>
          let '(c, buf) := fill 4 buf in
          match c with
          | [c0; c1; c2; c3] =>
              out ← decode_loop fuel buf;
              Some (byte1 c0 c1 :: byte2 c1 c2 :: byte3 c2 c3 :: out)
          | [c0; c1; c2] => Some [byte1 c0 c1; byte2 c1 c2]
          | [c0; c1] => Some [byte1 c0 c1]
          | _ => Some []
          end
      end
  end.

(** [while (len && buf\[len-1\] == '=') --len]. *)
Fixpoint drop_padding (rev : list Z) : list Z :=
  match rev with
  | c :: rest => if c =? 61 then drop_padding rest else rev
  | [] => []
  end.
Definition strip_padding (buf : list Z) : list Z := reverse (drop_padding (reverse buf)).

Definition pj_base64_decode (fuel : nat) (input : list Z) (out_len : Z) :
    option (pj_status * option (list Z)) :=
  let buf := strip_padding input in
  if negb (out_len >=? PJ_BASE64_TO_BASE256_LEN (zlen buf)) then Some (PJ_ETOOSMALL, None)
  else out ← decode_loop fuel buf; Some (PJ_SUCCESS, Some out).

(** ** The reference

    The bytes of a run of digits in base 64, four digits to three bytes. *)

Fixpoint digits_value (ds : list Z) : Z :=
  match ds with
  | d :: ds => d * 64 ^ zlen ds + digits_value ds
  | [] => 0
  end.

(** The first [n] bytes of a 24 bit number. *)
Definition bytes24 (n : nat) (v : Z) : list Z := take n [v / 65536; v / 256 mod 256; v mod 256].

Fixpoint decode_digits (ds : list Z) : list Z :=
  match ds with
  | d0 :: d1 :: d2 :: d3 :: ds => bytes24 3 (digits_value [d0; d1; d2; d3]) ++ decode_digits ds
  | [d0; d1; d2] => bytes24 2 (digits_value [d0; d1; d2; 0])
  | [d0; d1] => bytes24 1 (digits_value [d0; d1; 0; 0])
  | _ => []
  end.

(** The digits a text has, other characters skipped. *)
Definition digits (buf : list Z) : list Z := filter (fun d => d <> INV) (base256_char <$> buf).

(** *** Bits *)

Definition is_digit (d : Z) : Prop := 0 <= d < 64.

(** A property of bytes or digits checked case by case. *)
Lemma check1 (n : Z) (P : Z -> bool) : forallb P (seqZ 0 n) = true -> forall x, 0 <= x < n -> P x = true.
Proof.
  intros H x Hx. rewrite forallb_forall in H. apply H. apply list_elem_of_In, elem_of_seqZ. lia.
Qed.
Lemma check2 (n m : Z) (P : Z -> Z -> bool) :
  forallb (fun x => forallb (P x) (seqZ 0 m)) (seqZ 0 n) = true ->
  forall x y, 0 <= x < n -> 0 <= y < m -> P x y = true.
Proof. intros H x y Hx Hy. exact (check1 m _ (check1 n _ H x Hx) y Hy). Qed.

Lemma base256_digit c : base256_char c = INV \/ is_digit (base256_char c).
Proof.
  unfold base256_char, is_digit, INV. repeat case_match; try (by left); right;
    repeat match goal with H : _ && _ = true |- _ => apply andb_true_iff in H as [] end; lia.
Qed.

Lemma digits_ok buf : Forall is_digit (digits buf).
Proof.
  unfold digits. apply Forall_forall. intros d Hd. apply list_elem_of_filter in Hd as [Hd Hin].
  apply list_elem_of_fmap in Hin as (c & -> & _). by destruct (base256_digit c).
Qed.

Lemma char_digit d : is_digit d -> base256_char (char_at d) = d.
Proof.
  intros Hd. apply Z.eqb_eq. apply (check1 64 (fun d => base256_char (char_at d) =? d)); [|exact Hd].
  vm_compute. reflexivity.
Qed.

Lemma byte1_spec c0 c1 : is_digit c0 -> is_digit c1 -> byte1 c0 c1 = c0 * 4 + c1 / 16.
Proof.
  intros H0 H1. apply Z.eqb_eq.
  apply (check2 64 64 (fun c0 c1 => byte1 c0 c1 =? c0 * 4 + c1 / 16)); [vm_compute; reflexivity|done..].
Qed.
Lemma byte2_spec c1 c2 : is_digit c1 -> is_digit c2 -> byte2 c1 c2 = c1 mod 16 * 16 + c2 / 4.
Proof.
  intros H0 H1. apply Z.eqb_eq.
  apply (check2 64 64 (fun c1 c2 => byte2 c1 c2 =? c1 mod 16 * 16 + c2 / 4)); [vm_compute; reflexivity|done..].
Qed.
Lemma byte3_spec c2 c3 : is_digit c2 -> is_digit c3 -> byte3 c2 c3 = c2 mod 4 * 64 + c3.
Proof.
  intros H0 H1. apply Z.eqb_eq.
  apply (check2 64 64 (fun c2 c3 => byte3 c2 c3 =? c2 mod 4 * 64 + c3)); [vm_compute; reflexivity|done..].
Qed.

(** *** The decoder *)

(** The last character is a digit, or there is none. *)
Definition clean (buf : list Z) : Prop :=
  match last buf with Some c => base256_char c <> INV | None => True end.

Lemma clean_tail c buf : clean (c :: buf) -> clean buf.
Proof. unfold clean. by destruct buf. Qed.

Lemma digits_cons c buf :
  digits (c :: buf) = if decide (base256_char c = INV) then digits buf else base256_char c :: digits buf.
Proof.
  unfold digits. cbn [fmap list_fmap]. case_decide as H.
  - by rewrite filter_cons_False by (by intros ?).
  - by rewrite filter_cons_True.
Qed.

(** On any text the loop takes at least one character. *)
Lemma next_char_length c buf v rest : next_char c buf = (v, rest) -> (length rest <= length buf)%nat.
Proof.
  revert c. induction buf as [|c' buf IH]; intros c; cbn [next_char].
  - case_match; intros [= <- <-]; done.
  - case_match; [|intros [= <- <-]; done]. intros Hn%IH. cbn. lia.
Qed.

Lemma next_char_clean c buf v rest : clean (c :: buf) -> next_char c buf = (v, rest) ->
  digits (c :: buf) = v :: digits rest /\ clean rest.
Proof.
  revert c. induction buf as [|c' buf IH]; intros c Hc; cbn [next_char].
  - unfold clean in Hc. cbn in Hc. rewrite (proj2 (Z.eqb_neq _ _) Hc). intros [= <- <-].
    by rewrite digits_cons, decide_False.
  - rewrite digits_cons. destruct (Z.eqb_spec (base256_char c) INV) as [He|Hne].
    + intros Hn. rewrite decide_True by done. apply IH; [by apply clean_tail in Hc|done].
    + intros [= <- <-]. rewrite decide_False by done. split; [done|by apply clean_tail in Hc].
Qed.

Lemma fill_length k buf c rest : fill k buf = (c, rest) ->
  (length rest + length c <= length buf)%nat /\ (length c <= k)%nat /\
  ((0 < k)%nat -> buf <> [] -> (0 < length c)%nat).
Proof.
  revert buf c rest. induction k as [|k IH]; intros [|x buf] c rest; cbn [fill];
    try (intros [= <- <-]; cbn; split_and!; intros; (lia || done)).
  destruct (next_char x buf) as [v r] eqn:Hn. destruct (fill k r) as [c' r'] eqn:Hf.
  intros [= <- <-]. apply next_char_length in Hn. apply IH in Hf as (H1 & H2 & _). cbn. split_and!; lia.
Qed.

Lemma fill_clean k buf c rest : clean buf -> fill k buf = (c, rest) ->
  digits buf = c ++ digits rest /\ clean rest /\ (length c = k \/ rest = []).
Proof.
  revert buf c rest. induction k as [|k IH]; intros [|x buf] c rest Hc; cbn [fill];
    try (intros [= <- <-]; by auto).
  destruct (next_char x buf) as [v r] eqn:Hn. destruct (fill k r) as [c' r'] eqn:Hf.
  intros [= <- <-]. destruct (next_char_clean _ _ _ _ Hc Hn) as [Hd Hr].
  destruct (IH _ _ _ Hr Hf) as (Hd' & Hr' & Hl). rewrite Hd, Hd'. cbn. split; [done|].
  split; [done|]. destruct Hl; [left; lia|by right].
Qed.

(** The decoder ends, within the room it asks for, on any text. *)
Lemma decode_loop_bounds fuel buf : (length buf <= fuel)%nat ->
  exists out, decode_loop fuel buf = Some out /\ is_bytes out /\ 4 * zlen out <= 3 * zlen buf.
Proof.
  unfold is_bytes, zlen.
  assert (forall x, is_u8 (u8 x)) as Hu by (intros; word_lia).
  revert buf. induction fuel as [|fuel IH]; intros [|x buf] Hf; cbn [decode_loop]; try (cbn in Hf; lia);
    try (exists []; split; [done|split; [constructor|cbn; lia]]).
  destruct (fill 4 (x :: buf)) as [c rest] eqn:Hfl.
  destruct (fill_length _ _ _ _ Hfl) as (Hl & Hk & Hpos). specialize (Hpos ltac:(lia) ltac:(done)).
  destruct c as [|c0 [|c1 [|c2 [|c3 [|]]]]]; cbn [length] in Hl, Hk, Hpos; try lia.
  - exists []. split; [done|]. split; [constructor|cbn; lia].
  - eexists. split; [done|]. split; [repeat constructor; apply Hu|cbn [length]; lia].
  - eexists. split; [done|]. split; [repeat constructor; apply Hu|cbn [length]; lia].
  - destruct (IH rest) as (out & -> & Hb & Hlo); [cbn in Hf; lia|]. eexists. split; [done|].
    split; [repeat constructor; try apply Hu; done|cbn [length] in *; lia].
Qed.

Lemma group_bytes c0 c1 c2 c3 : is_digit c0 -> is_digit c1 -> is_digit c2 -> is_digit c3 ->
  bytes24 3 (digits_value [c0; c1; c2; c3]) = [byte1 c0 c1; byte2 c1 c2; byte3 c2 c3].
Proof.
  intros H0 H1 H2 H3. rewrite byte1_spec, byte2_spec, byte3_spec by done.
  unfold is_digit, bytes24, digits_value, zlen in *. cbn [length take].
  f_equal; [|f_equal; [|f_equal]]; Z.to_euclidean_division_equations; lia.
Qed.

(** On a clean text it yields the bytes of its digits. *)
Lemma decode_loop_clean fuel buf : (length buf <= fuel)%nat -> clean buf ->
  decode_loop fuel buf = Some (decode_digits (digits buf)).
Proof.
  revert buf. induction fuel as [|fuel IH]; intros [|x buf] Hf Hc; cbn [decode_loop]; try done;
    [cbn in Hf; lia|].
  destruct (fill 4 (x :: buf)) as [c rest] eqn:Hfl.
  destruct (fill_length _ _ _ _ Hfl) as (Hl & Hk & Hpos). specialize (Hpos ltac:(lia) ltac:(done)).
  destruct (fill_clean _ _ _ _ Hc Hfl) as (Hd & Hr & Hend).
  pose proof (digits_ok (x :: buf)) as Hok. rewrite Hd in *. apply Forall_app in Hok as [Hok _].
  destruct c as [|c0 [|c1 [|c2 [|c3 [|]]]]]; cbn [length] in Hl, Hk, Hpos, Hend; try lia.
  1-3: destruct Hend as [Hend| ->]; [done|]; cbn [app digits fmap list_fmap].
  - done.
  - rewrite !Forall_cons in Hok. destruct Hok as (H0 & H1 & _).
    change (bytes24 1 (digits_value [c0; c1; 0; 0])) with (take 1 (bytes24 3 (digits_value [c0; c1; 0; 0]))).
    cbn [decode_digits]. f_equal.
    change (bytes24 1 (digits_value [c0; c1; 0; 0])) with (take 1 (bytes24 3 (digits_value [c0; c1; 0; 0]))).
    by rewrite group_bytes by (done || (unfold is_digit; lia)).
  - rewrite !Forall_cons in Hok. destruct Hok as (H0 & H1 & H2 & _). cbn [decode_digits]. f_equal.
    change (bytes24 2 (digits_value [c0; c1; c2; 0])) with (take 2 (bytes24 3 (digits_value [c0; c1; c2; 0]))).
    by rewrite group_bytes by (done || (unfold is_digit; lia)).
  - rewrite !Forall_cons in Hok. destruct Hok as (H0 & H1 & H2 & H3 & _).
    rewrite IH by (done || (cbn in Hf; lia)). cbn [app decode_digits mbind option_bind].
    by rewrite group_bytes.
Qed.

(** *** The encoder *)

Fixpoint enc_digits (x : list Z) : list Z :=
  match x with
  | c1 :: c2 :: c3 :: x =>
      [c1 / 4; c1 mod 4 * 16 + c2 / 16; c2 mod 16 * 4 + c3 / 64; c3 mod 64] ++ enc_digits x
  | [c1; c2] => [c1 / 4; c1 mod 4 * 16 + c2 / 16; c2 mod 16 * 4]
  | [c1] => [c1 / 4; c1 mod 4 * 16]
  | [] => []
  end.

(** The padding at the end of the text. *)
Fixpoint padding_of (x : list Z) : nat :=
  match x with _ :: _ :: _ :: x => padding_of x | [_; _] => 1 | [_] => 2 | [] => 0 end.

Lemma triple_ind (P : list Z -> Prop) : P [] -> (forall a, P [a]) -> (forall a b, P [a; b]) ->
  (forall a b c x, P x -> P (a :: b :: c :: x)) -> forall x, P x.
Proof.
  intros H0 H1 H2 H3. fix IH 1. intros [|a [|b [|c x]]]; [done|apply H1|apply H2|apply H3, IH].
Qed.

Lemma first_sextets c1 c2 : is_u8 c1 -> is_u8 c2 ->
  Z.shiftr c1 2 = c1 / 4 /\
  Z.lor (Z.shiftl (Z.land c1 3) 4) (Z.shiftr (Z.land c2 240) 4) = c1 mod 4 * 16 + c2 / 16.
Proof.
  intros H1 H2. split; [by rewrite Z.shiftr_div_pow2|]. apply Z.eqb_eq.
  apply (check2 256 256 (fun c1 c2 => Z.lor (Z.shiftl (Z.land c1 3) 4) (Z.shiftr (Z.land c2 240) 4) =?
    c1 mod 4 * 16 + c2 / 16)); [vm_compute; reflexivity|done..].
Qed.
Lemma last_sextets c2 c3 : is_u8 c2 -> is_u8 c3 ->
  Z.lor (Z.shiftl (Z.land c2 15) 2) (Z.shiftr (Z.land c3 192) 6) = c2 mod 16 * 4 + c3 / 64 /\
  Z.land c3 63 = c3 mod 64.
Proof.
  intros H2 H3. split; [|change 63 with (Z.ones 6); by rewrite Z.land_ones]. apply Z.eqb_eq.
  apply (check2 256 256 (fun c2 c3 => Z.lor (Z.shiftl (Z.land c2 15) 2) (Z.shiftr (Z.land c3 192) 6) =?
    c2 mod 16 * 4 + c3 / 64)); [vm_compute; reflexivity|done..].
Qed.

Lemma encode_loop_digits x : is_bytes x ->
  encode_loop x = (char_at <$> enc_digits x) ++ replicate (padding_of x) PADDING /\
  Forall is_digit (enc_digits x).
Proof.
  unfold is_bytes, is_digit.
  induction x as [|a|a b|a b c x IH] using triple_ind; cbn [encode_loop enc_digits padding_of]; intros Hx.
  - by split.
  - apply Forall_cons in Hx as [Ha _]. unfold base256to64.
    destruct (first_sextets a 0 Ha ltac:(unfold is_u8; lia)) as [-> ->]. rewrite Z.add_0_r. split; [done|].
    repeat constructor; unfold is_u8 in *; Z.to_euclidean_division_equations; lia.
  - rewrite !Forall_cons in Hx. destruct Hx as (Ha & Hb & _). unfold base256to64.
    destruct (first_sextets a b Ha Hb) as [-> ->].
    destruct (last_sextets b 0 Hb ltac:(unfold is_u8; lia)) as [-> _]. rewrite Z.add_0_r. split; [done|].
    repeat constructor; unfold is_u8 in *; Z.to_euclidean_division_equations; lia.
  - rewrite !Forall_cons in Hx. destruct Hx as (Ha & Hb & Hc & Hx). destruct (IH Hx) as [-> Hd].
    unfold base256to64. destruct (first_sextets a b Ha Hb) as [-> ->].
    destruct (last_sextets b c Hb Hc) as [-> ->]. split; [done|].
    repeat constructor; try done; unfold is_u8 in *; Z.to_euclidean_division_equations; lia.
Qed.

Lemma decode_enc_digits x : is_bytes x -> decode_digits (enc_digits x) = x.
Proof.
  unfold is_bytes. induction x as [|a|a b|a b c x IH] using triple_ind; cbn [enc_digits decode_digits app];
    intros Hx; rewrite ?Forall_cons in Hx.
  - done.
  - destruct Hx as (Ha & _). unfold bytes24, digits_value, zlen, is_u8 in *. cbn [length take].
    f_equal; Z.to_euclidean_division_equations; lia.
  - destruct Hx as (Ha & Hb & _). unfold bytes24, digits_value, zlen, is_u8 in *. cbn [length take].
    f_equal; [|f_equal]; Z.to_euclidean_division_equations; lia.
  - destruct Hx as (Ha & Hb & Hc & Hx). rewrite IH by done.
    unfold bytes24, digits_value, zlen, is_u8 in *. cbn [length take app].
    f_equal; [|f_equal; [|f_equal]]; Z.to_euclidean_division_equations; lia.
Qed.

(** *** Padding *)

Lemma encode_length x : zlen (encode_loop x) = 4 * ((zlen x + 2) / 3).
Proof.
  unfold zlen. induction x as [|a|a b|a b c x IH] using triple_ind; try reflexivity.
  cbn [encode_loop]. rewrite length_app, Nat2Z.inj_add, IH.
  change (Z.of_nat (length (base256to64 a b c 0))) with 4. cbn [length].
  replace (Z.of_nat (S (S (S (length x)))) + 2) with (Z.of_nat (length x) + 2 + 1 * 3) by lia.
  rewrite Z.div_add by lia. lia.
Qed.

Lemma strip_length text : (length (strip_padding text) <= length text)%nat.
Proof.
  unfold strip_padding. rewrite length_reverse, <- (length_reverse text).
  induction (reverse text) as [|c r IH]; [done|]. cbn [drop_padding]. case_match; cbn; lia.
Qed.

Lemma strip_app s n : (forall c, last s = Some c -> c <> PADDING) ->
  strip_padding (s ++ replicate n PADDING) = s.
Proof.
  intros Hs. unfold strip_padding. rewrite reverse_app, reverse_replicate.
  assert (drop_padding (replicate n PADDING ++ reverse s) = drop_padding (reverse s)) as ->
    by (by induction n).
  destruct (reverse s) as [|c r] eqn:Hr; [by apply (f_equal reverse) in Hr; rewrite reverse_involutive in Hr|].
  assert (last s = Some c) as Hc by (by rewrite <- (reverse_involutive s), last_reverse, Hr).
  cbn [drop_padding]. rewrite (proj2 (Z.eqb_neq _ _)) by (by apply Hs).
  by rewrite <- Hr, reverse_involutive.
Qed.

Lemma chars_digits ds : Forall is_digit ds ->
  digits (char_at <$> ds) = ds /\ clean (char_at <$> ds) /\
  (forall c, last (char_at <$> ds) = Some c -> c <> PADDING).
Proof.
  intros Hds.
  assert (forall c, c ∈ char_at <$> ds -> base256_char c <> INV) as Hin.
  { intros c (d & -> & Hd)%list_elem_of_fmap. rewrite Forall_forall in Hds.
    rewrite char_digit by auto. specialize (Hds d Hd). unfold is_digit, INV in *. lia. }
  assert (forall c, last (char_at <$> ds) = Some c -> base256_char c <> INV) as Hlast
    by (intros c Hc; apply Hin; by apply last_Some_elem_of in Hc).
  split; [|split].
  - clear -Hds. induction Hds as [|d ds Hd _ IH]; [done|]. cbn [fmap list_fmap].
    rewrite digits_cons, char_digit by done. rewrite decide_False by (unfold is_digit, INV in *; lia).
    f_equal. exact IH.
  - unfold clean. destruct (last _) eqn:H; [by apply Hlast|done].
  - intros c Hc ->. by apply (Hlast _ Hc).
Qed.

(** ** What base64 guarantees *)

(** Decoding what the encoder wrote gives the bytes back, for any bytes and
    any buffers with the room the two functions ask for. *)
Lemma base64_roundtrip x out_len out_len' fuel : is_bytes x ->
  PJ_BASE256_TO_BASE64_LEN (zlen x) <= out_len ->
  PJ_BASE64_TO_BASE256_LEN (zlen (strip_padding (encode_loop x))) <= out_len' ->
  (length (encode_loop x) <= fuel)%nat ->
  exists text, pj_base64_encode x out_len = (PJ_SUCCESS, Some text) /\ zlen text <= out_len /\
    pj_base64_decode fuel text out_len' = Some (PJ_SUCCESS, Some x) /\ zlen x <= out_len'.
Proof.
  intros Hx Hout Hout' Hfuel. exists (encode_loop x).
  destruct (encode_loop_digits x Hx) as [Henc Hds].
  destruct (chars_digits _ Hds) as (Hdig & Hclean & Hlast).
  assert (strip_padding (encode_loop x) = char_at <$> enc_digits x) as Hstrip
    by (rewrite Henc; by apply strip_app).
  assert (length (char_at <$> enc_digits x) <= fuel)%nat as Hf
    by (rewrite Henc, length_app in Hfuel; lia).
  pose proof (decode_loop_clean fuel _ Hf Hclean) as Hdec.
  rewrite Hdig, decode_enc_digits in Hdec by done.
  unfold pj_base64_encode, pj_base64_decode. rewrite Hstrip in *.
  rewrite (proj2 (Z.geb_le _ _) Hout), (proj2 (Z.geb_le _ _) Hout'). cbn [negb].
  rewrite Hdec. split; [done|]. split; [|split; [done|]].
  - rewrite encode_length. unfold PJ_BASE256_TO_BASE64_LEN in Hout. pose proof (zlen_nonneg x).
    rewrite Z.quot_div_nonneg in Hout by lia. Z.to_euclidean_division_equations; lia.
  - destruct (decode_loop_bounds fuel _ Hf) as (out & Heq & _ & Hlen).
    assert (out = x) as -> by congruence. unfold PJ_BASE64_TO_BASE256_LEN in Hout'.
    pose proof (zlen_nonneg (char_at <$> enc_digits x)).
    rewrite Z.quot_div_nonneg in Hout' by lia. Z.to_euclidean_division_equations; lia.
Qed.

(** The decoder ends on any text, writes only bytes and no more than its
    buffer holds, and refuses a buffer below the length it asks for; and when
    the text, its final padding set apart, ends in a base64 character, it writes
    the bytes of the digits of the text, every other character skipped. *)
Lemma base64_decode_spec text out_len fuel : (length text <= fuel)%nat ->
  let buf := strip_padding text in
  if out_len <? PJ_BASE64_TO_BASE256_LEN (zlen buf)
  then pj_base64_decode fuel text out_len = Some (PJ_ETOOSMALL, None)
  else exists out, pj_base64_decode fuel text out_len = Some (PJ_SUCCESS, Some out) /\
    is_bytes out /\ zlen out <= out_len /\ (clean buf -> out = decode_digits (digits buf)).
Proof.
  intros Hf buf. assert (length buf <= fuel)%nat as Hf' 
    by (etransitivity; [apply strip_length|exact Hf]).
  unfold pj_base64_decode. fold buf. destruct (Z.ltb_spec out_len (PJ_BASE64_TO_BASE256_LEN (zlen buf))) as [Hlt|Hge].
  - by destruct (Z.geb_spec out_len (PJ_BASE64_TO_BASE256_LEN (zlen buf))); [lia|].
  - rewrite (proj2 (Z.geb_le _ _) Hge). cbn [negb].
    destruct (decode_loop_bounds fuel buf Hf') as (out & Hdec & Hb & Hlen). rewrite Hdec.
    exists out. split; [done|]. split; [done|]. split.
    + unfold PJ_BASE64_TO_BASE256_LEN in Hge. pose proof (zlen_nonneg buf).
      rewrite Z.quot_div_nonneg in Hge by lia. Z.to_euclidean_division_equations; lia.
    + intros Hc. pose proof (decode_loop_clean fuel buf Hf' Hc). congruence.
Qed.

(** Without that: an invalid character at the end counts as a digit. *)
Example base64_trailing_newline :
  pj_base64_decode 5 [81; 85; 73; 61; 10] 10 = Some (PJ_SUCCESS, Some [65; 66; 63]) /\
  decode_digits (digits [81; 85; 73; 61; 10]) = [65; 66].
Proof. vm_compute. auto. Qed.

Lemma base64_roundtrip_witness :
  exists text, pj_base64_encode [104; 105; 33; 255] 8 = (PJ_SUCCESS, Some text) /\
    pj_base64_decode 8 text 4 = Some (PJ_SUCCESS, Some [104; 105; 33; 255]).
Proof.
  destruct (base64_roundtrip [104; 105; 33; 255] 8 4 8) as (text & He & _ & Hd & _).
  - repeat constructor; unfold is_u8; lia.
  - vm_compute. discriminate.
  - vm_compute. discriminate.
  - vm_compute. repeat constructor.
  - exists text. split; [exact He|exact Hd].
Defined.

Lemma base64_decode_spec_witness :
  exists out, pj_base64_decode 6 [81; 10; 85; 73; 61; 61] 3 = Some (PJ_SUCCESS, Some out) /\
    is_bytes out.
Proof.
  pose proof (base64_decode_spec [81; 10; 85; 73; 61; 61] 3 6) as H.
  specialize (H ltac:(vm_compute; repeat constructor)).
  vm_compute in H. destruct H as (out & H & Hb & _). exists out.
  split; [|exact Hb]. injection H as <-. vm_compute. reflexivity.
Defined.
