(* ===== verification/Rtp.v ===== *)
(** * RTP sessions (pjmedia/src/pjmedia/rtp.c)

    The RTP header as it lies in memory, the encoder and decoder of RTP
    packets, and the sequence number controller shared by RTP and RTCP
    (RFC 3550, appendix A.1).  Pointers into a packet are offsets into the
    list of its bytes; [None] is a read outside the packet. *)

From S2P Require Import Prelude.

(** ** Data *)

Definition RTP_VERSION : Z := 2.
Definition RTP_SEQ_MOD : Z := 65536.
Definition MAX_DROPOUT : Z := 3000.
Definition MAX_MISORDER : Z := 100.
Definition MIN_SEQUENTIAL : Z := 2.

(** [struct pjmedia_rtp_hdr]: the integer fields hold what is stored in
    memory, that is [seq], [ts] and [ssrc] are in network byte order. *)
Record pjmedia_rtp_hdr := RtpHdr {
  hdr_v : Z; hdr_p : Z; hdr_x : Z; hdr_cc : Z; hdr_m : Z; hdr_pt : Z;
  hdr_seq : Z; hdr_ts : Z; hdr_ssrc : Z
}.
#[export] Instance eta_rtp_hdr : Eta pjmedia_rtp_hdr := fun r =>
  RtpHdr (hdr_v r) (hdr_p r) (hdr_x r) (hdr_cc r) (hdr_m r) (hdr_pt r)
         (hdr_seq r) (hdr_ts r) (hdr_ssrc r).

(** The bytes of the structure on a little-endian host. *)
Definition rtp_hdr_bytes (h : pjmedia_rtp_hdr) : list Z :=
  [hdr_cc h + 16 * hdr_x h + 32 * hdr_p h + 64 * hdr_v h; hdr_pt h + 128 * hdr_m h]
  ++ st16 (hdr_seq h) ++ st32 (hdr_ts h) ++ st32 (hdr_ssrc h).

(** The structure read back at the start of a packet. *)
Definition rtp_hdr_load (p : list Z) : option pjmedia_rtp_hdr :=
  b0 ← rd8 p 0; b1 ← rd8 p 1;
  seq ← rd16 p 2; ts ← rd32 p 4; ssrc ← rd32 p 8;
  Some (RtpHdr (b0 / 64 mod 4) (b0 / 32 mod 2) (b0 / 16 mod 2) (b0 mod 16)
               (b1 / 128 mod 2) (b1 mod 128) seq ts ssrc).

Record pjmedia_rtp_seq_session := RtpSeq {
  max_seq : Z;      (* pj_uint16_t *)
  cycles : Z;       (* pj_uint32_t, as the following *)
  base_seq : Z;
  bad_seq : Z;
  probation : Z
}.
#[export] Instance eta_rtp_seq : Eta pjmedia_rtp_seq_session := fun r =>
  RtpSeq (max_seq r) (cycles r) (base_seq r) (bad_seq r) (probation r).

Record pjmedia_rtp_session := RtpSession {
  out_hdr : pjmedia_rtp_hdr;
  seq_ctrl : pjmedia_rtp_seq_session;
  out_pt : Z;
  out_extseq : Z;
  has_peer_ssrc : bool;
  peer_ssrc : Z;
  received : Z
}.
#[export] Instance eta_rtp_session : Eta pjmedia_rtp_session := fun r =>
  RtpSession (out_hdr r) (seq_ctrl r) (out_pt r) (out_extseq r)
             (has_peer_ssrc r) (peer_ssrc r) (received r).

(** [struct pjmedia_rtp_status]: the flags of the union and [diff]. *)
Record pjmedia_rtp_status := RtpStatus {
  st_bad : bool; st_badpt : bool; st_badssrc : bool; st_dup : bool;
  st_outorder : bool; st_probation : bool; st_restart : bool;
  st_diff : Z
}.
#[export] Instance eta_rtp_status : Eta pjmedia_rtp_status := fun r =>
  RtpStatus (st_bad r) (st_badpt r) (st_badssrc r) (st_dup r)
            (st_outorder r) (st_probation r) (st_restart r) (st_diff r).

(** [status.value = 0; diff = 0] *)
Definition rtp_status_zero : pjmedia_rtp_status :=
  RtpStatus false false false false false false false 0.

Record pjmedia_rtp_session_setting := RtpSetting {
  set_flags : Z; set_default_pt : Z; set_sender_ssrc : Z;
  set_peer_ssrc : Z; set_seq : Z; set_ts : Z
}.

(** ** Session set-up.  The values [pj_rand] returns are arguments. *)

Definition pjmedia_rtp_session_init (rand_ssrc rand_seq : Z)
    (default_pt sender_ssrc : Z) : pjmedia_rtp_session :=
  let ssrc :=
    if (sender_ssrc =? 0) || (sender_ssrc =? u32 (-1))
    then swap32 (u32 rand_ssrc)
    else swap32 sender_ssrc in
  let extseq := Z.land rand_seq 32767 in
  {| out_hdr :=
       {| hdr_v := RTP_VERSION; hdr_p := 0; hdr_x := 0; hdr_cc := 0; hdr_m := 0;
          hdr_pt := u8 default_pt mod 128;
          hdr_seq := swap16 (u16 extseq);
          hdr_ts := 0; hdr_ssrc := ssrc |};
     seq_ctrl := RtpSeq 0 0 0 0 0;
     out_pt := u16 default_pt;
     out_extseq := extseq;
     has_peer_ssrc := false;
     peer_ssrc := 0;
     received := 0 |}.

Definition pjmedia_rtp_session_init2 (rand_ssrc rand_seq : Z)
    (settings : pjmedia_rtp_session_setting) : pjmedia_rtp_session :=
  let flag i := Z.testbit (set_flags settings) i in
  let pt := if flag 0 then set_default_pt settings else 0 in
  let sender_ssrc := if flag 1 then set_sender_ssrc settings else 0 in
  let ses := pjmedia_rtp_session_init rand_ssrc rand_seq pt sender_ssrc in
  let ses :=
    if flag 2 then
      ses <| out_extseq := set_seq settings |>
          <| out_hdr ::= fun h => h <| hdr_seq := swap16 (u16 (set_seq settings)) |> |>
    else ses in
  let ses :=
    if flag 3 then
      ses <| out_hdr ::= fun h => h <| hdr_ts := swap32 (set_ts settings) |> |>
    else ses in
  if flag 4 then
    ses <| has_peer_ssrc := true |> <| peer_ssrc := set_peer_ssrc settings |>
  else ses.

(** ** Encoding.  The header is produced ([Some]) unless the frame is only a
    clock tick ([payload_len = 0]). *)

Definition pjmedia_rtp_encode_rtp (ses : pjmedia_rtp_session)
    (pt m payload_len ts_len : Z) : pjmedia_rtp_session * option pjmedia_rtp_hdr :=
  let ses := ses <| out_hdr ::= fun h =>
    h <| hdr_ts := swap32 (u32 (swap32 (hdr_ts h) + ts_len)) |> |> in
  if payload_len =? 0 then (ses, None)
  else
    let ses := ses <| out_extseq ::= fun s => u32 (s + 1) |> in
    let ses := ses <| out_hdr ::= fun h =>
      h <| hdr_pt := u8 (if pt =? -1 then out_pt ses else pt) mod 128 |>
        <| hdr_m := u16 m mod 2 |>
        <| hdr_seq := swap16 (u16 (out_extseq ses)) |> |> in
    (ses, Some (out_hdr ses)).

(** ** Decoding *)

Record rtp_decoded := RtpDecoded {
  dec_ext_hdr : option Z;     (* offset of the extension header, NULL if none *)
  dec_ext : option Z;
  dec_ext_len : Z;            (* in 32-bit words *)
  dec_payload : Z;            (* offset of the payload *)
  dec_payloadlen : Z
}.
#[export] Instance eta_rtp_decoded : Eta rtp_decoded := fun r =>
  RtpDecoded (dec_ext_hdr r) (dec_ext r) (dec_ext_len r) (dec_payload r)
             (dec_payloadlen r).

Inductive rtp_result :=
  | RtpError (st : pj_status)
  | RtpOk (d : rtp_decoded).

(** The extension header at [offset]: the extension fields and the offset
    behind it. *)
Definition rtp_decode_ext (pkt : list Z) (x offset : Z) :
    option (option Z * option Z * Z * Z) :=
  if truth x then
    len ← rd16 pkt (offset + 2);
    let ext_len := swap16 len in
    Some (Some offset, Some (offset + 4), ext_len, offset + (ext_len + 1) * 4)
  else Some (None, None, 0, offset).

(** Removal of the payload padding. *)
Definition rtp_strip_padding (pkt : list Z) (p offset payloadlen : Z) : option Z :=
  if truth p && (0 <? payloadlen) then
    pad_len ← rd8 pkt (offset + payloadlen - 1);
    Some (if pad_len <=? payloadlen then payloadlen - pad_len else payloadlen)
  else Some payloadlen.

Definition pjmedia_rtp_decode_rtp2 (pkt : list Z) (pkt_len : Z) : option rtp_result :=
  b0 ← rd8 pkt 0;
  let v := b0 / 64 mod 4 in
  let p := b0 / 32 mod 2 in
  let x := b0 / 16 mod 2 in
  let cc := b0 mod 16 in
  if negb (v =? RTP_VERSION) then Some (RtpError PJMEDIA_RTP_EINVER)
  else
    '(ext_hdr, ext, ext_len, offset) ← rtp_decode_ext pkt x (12 + cc * 4);
    if pkt_len <? offset then Some (RtpError PJMEDIA_RTP_EINLEN)
    else
      payloadlen ← rtp_strip_padding pkt p offset (pkt_len - offset);
      Some (RtpOk (RtpDecoded ext_hdr ext ext_len offset payloadlen)).

(** ** Sequence number control *)

Definition pjmedia_rtp_seq_restart (sess : pjmedia_rtp_seq_session) (seq : Z) :=
  sess <| base_seq := seq |> <| max_seq := seq |>
       <| bad_seq := RTP_SEQ_MOD + 1 |> <| cycles := 0 |>.

Definition pjmedia_rtp_seq_init (sess : pjmedia_rtp_seq_session) (seq : Z) :=
  (pjmedia_rtp_seq_restart sess seq)
    <| max_seq := u16 (seq - 1) |> <| probation := MIN_SEQUENTIAL |>.

Definition pjmedia_rtp_seq_update (sess : pjmedia_rtp_seq_session) (seq : Z) :
    pjmedia_rtp_seq_session * pjmedia_rtp_status :=
  let udelta := u16 (seq - max_seq sess) in
  let st := rtp_status_zero in
  if truth (probation sess) then
    let st := st <| st_probation := true |> in
    if seq =? max_seq sess + 1 then
      let sess := sess <| probation ::= fun p => u32 (p - 1) |> <| max_seq := seq |> in
      let st := st <| st_diff := 1 |> in
      (sess, if probation sess =? 0 then st <| st_probation := false |> else st)
    else
      let st := st <| st_diff := 0 |> <| st_bad := true |> in
      let st := if seq =? max_seq sess then st <| st_dup := true |>
                else st <| st_outorder := true |> in
      (sess <| probation := MIN_SEQUENTIAL - 1 |> <| max_seq := seq |>, st)
  else if udelta =? 0 then (sess, st <| st_dup := true |>)
  else if udelta <? MAX_DROPOUT then
    let sess := if seq <? max_seq sess
                then sess <| cycles ::= fun c => u32 (c + RTP_SEQ_MOD) |> else sess in
    (sess <| max_seq := seq |>, st <| st_diff := udelta |>)
  else if udelta <=? RTP_SEQ_MOD - MAX_MISORDER then
    if seq =? bad_seq sess then
      (pjmedia_rtp_seq_restart sess seq,
       st <| st_restart := true |> <| st_probation := true |> <| st_diff := 1 |>)
    else
      (sess <| bad_seq := Z.land (seq + 1) (RTP_SEQ_MOD - 1) |>,
       st <| st_bad := true |> <| st_outorder := true |>)
  else (sess, st <| st_outorder := true |>).

(** The SSRC check: the session and the initial status. *)
Definition rtp_check_ssrc (ses : pjmedia_rtp_session) (ssrc : Z) :
    pjmedia_rtp_session * pjmedia_rtp_status :=
  let ses := if negb (has_peer_ssrc ses) && (peer_ssrc ses =? 0)
             then ses <| peer_ssrc := ssrc |> else ses in
  if negb (ssrc =? peer_ssrc ses) then
    (if negb (has_peer_ssrc ses) then ses <| peer_ssrc := ssrc |> else ses,
     rtp_status_zero <| st_badssrc := true |>)
  else (ses, rtp_status_zero).

(** [p_seq_st] is an in/out parameter, [None] when NULL. *)
Definition pjmedia_rtp_session_update2 (ses : pjmedia_rtp_session)
    (hdr : pjmedia_rtp_hdr) (p_seq_st : option pjmedia_rtp_status) (check_pt : bool) :
    pjmedia_rtp_session * option pjmedia_rtp_status :=
  let '(ses, seq_st) := rtp_check_ssrc ses (swap32 (hdr_ssrc hdr)) in
  if check_pt && negb (hdr_pt hdr =? out_pt ses) then
    (ses, p ← p_seq_st;
          Some (seq_st <| st_diff := st_diff p |> <| st_bad := true |> <| st_badpt := true |>))
  else
    let seq := swap16 (hdr_seq hdr) in
    let ses := if received ses =? 0
               then ses <| seq_ctrl ::= fun c => pjmedia_rtp_seq_init c seq |> else ses in
    let '(ctrl, seq_st) := pjmedia_rtp_seq_update (seq_ctrl ses) seq in
    let ses := ses <| seq_ctrl := ctrl |> in
    let ses := if st_restart seq_st then ses <| received ::= fun r => u32 (r + 1) |>
               else if negb (st_bad seq_st) then ses <| received ::= fun r => u32 (r + 1) |>
               else ses in
    (ses, p ← p_seq_st; Some seq_st).

Definition pjmedia_rtp_session_update (ses : pjmedia_rtp_session)
    (hdr : pjmedia_rtp_hdr) (p_seq_st : option pjmedia_rtp_status) :=
  pjmedia_rtp_session_update2 ses hdr p_seq_st true.

(** ** Sequence tracking *)

(** The well-formedness of the controller's integers. *)
Record seq_wf (s : pjmedia_rtp_seq_session) : Prop := {
  wf_max_seq : is_u16 (max_seq s);
  wf_cycles : is_u32 (cycles s);
  wf_cycles_mod : cycles s mod 65536 = 0
}.

(** The extended highest sequence number of RFC 3550. *)
Definition ext_seq (s : pjmedia_rtp_seq_session) : Z := cycles s + max_seq s.

(** The controller over a sequence of arrivals given by the sender's unbounded
    packet counter, of which the wire carries 16 bits. *)
Fixpoint seq_run (s : pjmedia_rtp_seq_session) (xs : list Z) :
    pjmedia_rtp_seq_session * list pjmedia_rtp_status :=
  match xs with
  | [] => (s, [])
  | x :: xs =>
      let '(s1, st) := pjmedia_rtp_seq_update s (u16 x) in
      let '(s2, sts) := seq_run s1 xs in (s2, st :: sts)
  end.

(** A network that loses and reorders within bounds: each arrival is at most
    2999 ahead of the highest packet so far, or less than 100 behind it. *)
Fixpoint tolerable (hi : Z) (xs : list Z) : Prop :=
  match xs with
  | [] => True
  | x :: xs => hi - MAX_MISORDER < x < hi + MAX_DROPOUT /\ tolerable (Z.max hi x) xs
  end.

Definition high_water (hi : Z) (xs : list Z) : Z := fold_left Z.max xs hi.

(** What the reported differences add up to. *)
Definition diff_total (sts : list pjmedia_rtp_status) : Z :=
  foldr (fun st n => st_diff st + n) 0 sts.

Lemma seq_update_wf s seq : seq_wf s -> is_u16 seq ->
  seq_wf (pjmedia_rtp_seq_update s seq).1.
Proof.
  intros [Hm Hc Hd] Hs. unfold pjmedia_rtp_seq_update, pjmedia_rtp_seq_restart.
  repeat case_match; constructor; simpl; auto with pj; try (unfold is_u32; lia);
    unfold RTP_SEQ_MOD; word_lia.
Qed.

(** One arrival inside the tolerated window. *)
Lemma seq_update_tolerable s hi x :
  seq_wf s -> probation s = 0 -> max_seq s = u16 hi ->
  hi - MAX_MISORDER < x < hi + MAX_DROPOUT ->
  let '(s', st) := pjmedia_rtp_seq_update s (u16 x) in
  probation s' = 0 /\ max_seq s' = u16 (Z.max hi x) /\
  ext_seq s' mod 2 ^ 32 = (ext_seq s + (Z.max hi x - hi)) mod 2 ^ 32 /\
  st_bad st = false /\ st_restart st = false /\ st_diff st = Z.max hi x - hi.
Proof.
  intros Hwf Hp Hm Hx. unfold pjmedia_rtp_seq_update. rewrite Hp. simpl truth. cbv iota.
  unfold MAX_MISORDER, MAX_DROPOUT, RTP_SEQ_MOD, ext_seq in *.
  assert (Hu : u16 (u16 x - max_seq s) = u16 (x - hi)) by (rewrite Hm; word_lia).
  rewrite Hu.
  destruct (Z.eqb_spec (u16 (x - hi)) 0) as [E0|E0].
  { assert (x = hi) as -> by word_lia. simpl.
    rewrite Z.max_id, Z.sub_diag, Z.add_0_r. by split_and!. }
  destruct (Z.ltb_spec (u16 (x - hi)) 3000) as [E1|E1].
  { assert (hi < x /\ u16 (x - hi) = x - hi) as [Hlt Hd] by word_lia.
    rewrite Z.max_r, Hd by lia. destruct Hwf as [Hm1 Hc Hcm].
    destruct (Z.ltb_spec (u16 x) (max_seq s)); simpl; repeat split; auto;
      rewrite Hm in *; change (2 ^ 32) with 4294967296; clear Hu Hp; word_lia. }
  destruct (Z.leb_spec (u16 (x - hi)) (65536 - 100)) as [E2|E2].
  { exfalso. word_lia. }
  assert (x <= hi) by word_lia. simpl.
  rewrite Z.max_l, Z.sub_diag, Z.add_0_r by lia. by split_and!.
Qed.

Lemma fold_max_le hi xs : hi <= high_water hi xs.
Proof.
  unfold high_water. revert hi. induction xs as [|x xs IH]; intros hi; simpl; [lia|].
  specialize (IH (Z.max hi x)). lia.
Qed.

(** C14: past probation, the controller reconstructs the sender's unbounded
    packet counter from its low 16 bits: over any sequence of arrivals with
    jumps below 3000 and reordering below 100, the extended sequence number
    moves by exactly the advance of the highest packet, no packet is flagged
    bad or taken for a restart, and the reported differences add up to that
    advance. *)
Theorem rtp_seq_tracks_sender s hi xs :
  seq_wf s -> probation s = 0 -> max_seq s = u16 hi -> tolerable hi xs ->
  let '(s', sts) := seq_run s xs in
  max_seq s' = u16 (high_water hi xs) /\
  ext_seq s' mod 2 ^ 32 = (ext_seq s + (high_water hi xs - hi)) mod 2 ^ 32 /\
  Forall (fun st => st_bad st = false /\ st_restart st = false) sts /\
  diff_total sts = high_water hi xs - hi.
Proof.
  revert s hi. induction xs as [|x xs IH]; intros s hi Hwf Hp Hm Ht; simpl.
  { rewrite Z.sub_diag, Z.add_0_r. by split_and!. }
  destruct Ht as [Hx Ht].
  pose proof (seq_update_tolerable s hi x Hwf Hp Hm Hx) as Hstep.
  pose proof (seq_update_wf s (u16 x) Hwf (u16_range x)) as Hwf1.
  destruct (pjmedia_rtp_seq_update s (u16 x)) as [s1 st1]; simpl in Hwf1.
  destruct Hstep as (Hp1 & Hm1 & He1 & Hb1 & Hr1 & Hd1).
  specialize (IH s1 (Z.max hi x) Hwf1 Hp1 Hm1 Ht).
  destruct (seq_run s1 xs) as [s2 sts]. destruct IH as (Hm2 & He2 & Hf & Hsum).
  unfold high_water in *; simpl. split_and!; auto.
  - rewrite He2, <- Zplus_mod_idemp_l, He1, Zplus_mod_idemp_l. f_equal. lia.
  - simpl. rewrite Hsum, Hd1. lia.
Qed.

Lemma rtp_seq_tracks_sender_witness :
  seq_run (RtpSeq 65534 65536 100 65537 0) [196607; 196609; 196608; 199000]
  = (RtpSeq 2392 131072 100 65537 0,
     [rtp_status_zero <| st_diff := 1 |>; rtp_status_zero <| st_diff := 2 |>;
      rtp_status_zero <| st_outorder := true |>; rtp_status_zero <| st_diff := 2391 |>])
  /\ max_seq (RtpSeq 2392 131072 100 65537 0)
     = u16 (high_water 196606 [196607; 196609; 196608; 199000]).
Proof.
  split; [vm_compute; reflexivity|].
  assert (Hw : seq_wf (RtpSeq 65534 65536 100 65537 0))
    by (constructor; simpl; word_lia).
  exact (proj1 (rtp_seq_tracks_sender (RtpSeq 65534 65536 100 65537 0) 196606
     [196607; 196609; 196608; 199000] Hw eq_refl eq_refl
     ltac:(simpl; unfold MAX_MISORDER, MAX_DROPOUT; lia))).
Defined.

(** The branch of a far jump. *)
Lemma seq_update_far s seq :
  probation s = 0 -> MAX_DROPOUT <= u16 (seq - max_seq s) <= RTP_SEQ_MOD - MAX_MISORDER ->
  pjmedia_rtp_seq_update s seq =
  if seq =? bad_seq s then
    (pjmedia_rtp_seq_restart s seq,
     rtp_status_zero <| st_restart := true |> <| st_probation := true |> <| st_diff := 1 |>)
  else
    (s <| bad_seq := u16 (seq + 1) |>,
     rtp_status_zero <| st_bad := true |> <| st_outorder := true |>).
Proof.
  unfold pjmedia_rtp_seq_update, MAX_DROPOUT, MAX_MISORDER, RTP_SEQ_MOD. intros -> Hj.
  change (truth 0) with false. cbv iota.
  replace (Z.land (seq + 1) (65536 - 1)) with (u16 (seq + 1))
    by (change (65536 - 1) with (Z.ones 16); by rewrite Z.land_ones).
  repeat case_match; auto; lia.
Qed.

(** A sender that restarts without notice is followed after two
    consecutive packets: the first packet of a far jump is flagged bad and
    leaves the counters alone, the next one in sequence re-bases the session. *)
Lemma rtp_seq_resync s a :
  is_u16 a -> probation s = 0 -> bad_seq s <> a ->
  MAX_DROPOUT <= u16 (a - max_seq s) < RTP_SEQ_MOD - MAX_MISORDER ->
  let b := u16 (a + 1) in
  let '(s1, st1) := pjmedia_rtp_seq_update s a in
  let '(s2, st2) := pjmedia_rtp_seq_update s1 b in
  st_bad st1 = true /\ max_seq s1 = max_seq s /\ cycles s1 = cycles s /\
  st_restart st2 = true /\ st_bad st2 = false /\
  max_seq s2 = b /\ base_seq s2 = b /\ cycles s2 = 0 /\ bad_seq s2 = RTP_SEQ_MOD + 1.
Proof.
  intros Ha Hp Hb Hj b.
  assert (Hub : MAX_DROPOUT <= u16 (b - max_seq s) <= RTP_SEQ_MOD - MAX_MISORDER).
  { subst b. unfold MAX_DROPOUT, RTP_SEQ_MOD, MAX_MISORDER in *. word_lia. }
  rewrite seq_update_far by (auto || lia).
  destruct (Z.eqb_spec a (bad_seq s)); [congruence|]. fold b.
  rewrite seq_update_far by auto. simpl. rewrite Z.eqb_refl. by split_and!.
Qed.

Lemma rtp_seq_resync_witness :
  st_bad (pjmedia_rtp_seq_update (RtpSeq 10 0 1 65537 0) 40000).2 = true
  /\ (pjmedia_rtp_seq_update (pjmedia_rtp_seq_update (RtpSeq 10 0 1 65537 0) 40000).1 40001).1
     = RtpSeq 40001 0 40001 65537 0.
Proof.
  split; [|vm_compute; reflexivity].
  pose proof (rtp_seq_resync (RtpSeq 10 0 1 65537 0) 40000 ltac:(word_lia) eq_refl
    ltac:(simpl; lia) ltac:(vm_compute; split; congruence)) as H.
  vm_compute in H. exact (proj1 H).
Defined.

(** ** Encoding and decoding *)

(** What [session_init] establishes and [encode_rtp] keeps. *)
Record rtp_hdr_wf (h : pjmedia_rtp_hdr) : Prop := {
  wf_v : hdr_v h = RTP_VERSION; wf_p : hdr_p h = 0; wf_x : hdr_x h = 0;
  wf_cc : hdr_cc h = 0; wf_m : 0 <= hdr_m h < 2; wf_pt : 0 <= hdr_pt h < 128;
  wf_seq : is_u16 (hdr_seq h); wf_ts : is_u32 (hdr_ts h); wf_ssrc : is_u32 (hdr_ssrc h)
}.

Lemma session_init_wf r1 r2 pt ssrc :
  rtp_hdr_wf (out_hdr (pjmedia_rtp_session_init r1 r2 pt ssrc)).
Proof.
  unfold pjmedia_rtp_session_init.
  constructor; simpl; auto with pj; try lia; try apply Z.mod_pos_bound; try lia.
  - unfold is_u32; lia.
  - case_match; auto with pj.
Qed.

Lemma session_init2_wf r1 r2 settings :
  rtp_hdr_wf (out_hdr (pjmedia_rtp_session_init2 r1 r2 settings)).
Proof.
  unfold pjmedia_rtp_session_init2.
  set (ses := pjmedia_rtp_session_init _ _ _ _).
  assert (Hw : rtp_hdr_wf (out_hdr ses)) by apply session_init_wf.
  clearbody ses. destruct Hw. repeat case_match; constructor; simpl; auto with pj.
Qed.

(** Reading the structure back from its bytes. *)
Lemma rtp_hdr_load_bytes h rest : rtp_hdr_wf h ->
  rtp_hdr_load (rtp_hdr_bytes h ++ rest) = Some h.
Proof.
  destruct h as [v p x cc m pt sq ts ssrc]. intros [Hv Hp Hx Hc Hm Hpt Hs Ht Hss]; simpl in *.
  unfold rtp_hdr_load, rtp_hdr_bytes, rd32, rd16, rd8. simpl.
  rewrite !st32_sum, st16_sum by auto. subst v p x cc. unfold RTP_VERSION.
  repeat f_equal; Z.to_euclidean_division_equations; lia.
Qed.

Lemma zlen_hdr_bytes h : zlen (rtp_hdr_bytes h) = 12.
Proof. reflexivity. Qed.

Lemma decode_plain_hdr h payload : rtp_hdr_wf h ->
  pjmedia_rtp_decode_rtp2 (rtp_hdr_bytes h ++ payload) (12 + zlen payload)
  = Some (RtpOk (RtpDecoded None None 0 12 (zlen payload))).
Proof.
  intros [Hv Hp Hx Hc _ _ _ _ _].
  unfold pjmedia_rtp_decode_rtp2, rtp_hdr_bytes, rd8. simpl.
  rewrite Hv, Hp, Hx, Hc. simpl. pose proof (zlen_nonneg payload).
  change (12 + (0 + 16 * 0 + 32 * 0 + 64 * RTP_VERSION) mod 16 * 4) with 12.
  destruct (Z.ltb_spec (12 + zlen payload) 12); [lia|].
  unfold rtp_strip_padding; simpl. do 3 f_equal. lia.
Qed.

Lemma encode_wf ses pt m len ts_len :
  rtp_hdr_wf (out_hdr ses) ->
  rtp_hdr_wf (out_hdr (pjmedia_rtp_encode_rtp ses pt m len ts_len).1).
Proof.
  intros []. unfold pjmedia_rtp_encode_rtp.
  case_match; constructor; simpl; auto with pj; apply Z.mod_pos_bound; lia.
Qed.

(** The fields of the header the encoder returns. *)
Lemma encode_fields ses pt m len ts_len : len <> 0 ->
  exists ses' h,
    pjmedia_rtp_encode_rtp ses pt m len ts_len = (ses', Some h) /\ out_hdr ses' = h /\
    swap16 (hdr_seq h) = u16 (out_extseq ses + 1) /\
    swap32 (hdr_ts h) = u32 (swap32 (hdr_ts (out_hdr ses)) + ts_len) /\
    hdr_ssrc h = hdr_ssrc (out_hdr ses) /\
    hdr_m h = m mod 2 /\
    hdr_pt h = (if pt =? -1 then out_pt ses else pt) mod 128 /\
    out_extseq ses' = u32 (out_extseq ses + 1).
Proof.
  intros Hl. unfold pjmedia_rtp_encode_rtp. destruct (Z.eqb_spec len 0); [done|].
  eexists _, _; split; [reflexivity|]. simpl. autorewrite with words.
  split_and!; auto; word_lia.
Qed.

(** A packet the encoder builds is decoded to the same header with the
    whole payload, its sequence number is the successor of the session's, its
    timestamp is advanced by [ts_len] modulo 2^32, marker and payload type are
    the ones asked for, and the session stays well formed. *)
Lemma rtp_encode_decode ses pt m ts_len payload :
  rtp_hdr_wf (out_hdr ses) -> payload <> [] ->
  exists ses' h,
    pjmedia_rtp_encode_rtp ses pt m (zlen payload) ts_len = (ses', Some h) /\
    let pkt := rtp_hdr_bytes h ++ payload in
    rtp_hdr_load pkt = Some h /\
    pjmedia_rtp_decode_rtp2 pkt (zlen pkt)
      = Some (RtpOk (RtpDecoded None None 0 12 (zlen payload))) /\
    swap16 (hdr_seq h) = u16 (out_extseq ses + 1) /\
    swap32 (hdr_ts h) = u32 (swap32 (hdr_ts (out_hdr ses)) + ts_len) /\
    hdr_ssrc h = hdr_ssrc (out_hdr ses) /\
    hdr_m h = m mod 2 /\
    hdr_pt h = (if pt =? -1 then out_pt ses else pt) mod 128 /\
    out_extseq ses' = u32 (out_extseq ses + 1) /\ rtp_hdr_wf (out_hdr ses').
Proof.
  intros Hw Hp. pose proof (encode_wf ses pt m (zlen payload) ts_len Hw) as Hw'.
  assert (Hl : zlen payload <> 0) by (destruct payload; [done|]; unfold zlen; simpl; lia).
  destruct (encode_fields ses pt m _ ts_len Hl) as (ses' & h & He & Hh & Hf).
  rewrite He in Hw'. simpl in Hw'. rewrite Hh in Hw'.
  exists ses', h. split; [done|]. cbv zeta.
  rewrite rtp_hdr_load_bytes, zlen_app, zlen_hdr_bytes, decode_plain_hdr by auto.
  rewrite Hh. destruct Hf as (?&?&?&?&?&?). by split_and!.
Qed.

Lemma rtp_encode_decode_witness :
  let ses := pjmedia_rtp_session_init 77 40000 8 305419896 in
  exists ses' h,
    pjmedia_rtp_encode_rtp ses (-1) 1 3 160 = (ses', Some h) /\
    rtp_hdr_bytes h = [128; 136; 28; 65; 0; 0; 0; 160; 18; 52; 86; 120] /\
    rtp_hdr_load (rtp_hdr_bytes h ++ [1; 2; 3]) = Some h.
Proof.
  cbv zeta.
  destruct (rtp_encode_decode (pjmedia_rtp_session_init 77 40000 8 305419896) (-1) 1 160
    [1; 2; 3] (session_init_wf _ _ _ _) ltac:(discriminate)) as (ses' & h & He & Hl & _).
  exists ses', h. split; [exact He|]. split; [|exact Hl].
  vm_compute in He. injection He as _ <-. reflexivity.
Defined.

Lemma swap16_rd16_range p i v : rd16 p i = Some v -> is_u16 (swap16 v).
Proof. auto with pj. Qed.

Lemma rtp_decode_ext_spec pkt x offset eh e n o :
  rtp_decode_ext pkt x offset = Some (eh, e, n, o) ->
  0 <= n < 65536 /\
  o = offset + (if x =? 0 then 0 else 4 + 4 * n) /\
  (forall i, e = Some i -> i + 4 * n = o).
Proof.
  unfold rtp_decode_ext, truth. destruct (Z.eqb_spec x 0); simpl.
  - injection 1 as <- <- <- <-. split_and!; [lia|lia|lia|done].
  - intros (l & Hl & He)%bind_Some. injection He as <- <- <- <-.
    pose proof (swap16_rd16_range _ _ _ Hl). unfold is_u16 in *.
    split_and!; [lia..|]. intros i [= <-]. lia.
Qed.

Lemma rtp_strip_padding_spec pkt p offset n n' :
  is_bytes pkt -> 0 <= n -> rtp_strip_padding pkt p offset n = Some n' ->
  0 <= n' <= n /\ (p = 0 -> n' = n).
Proof.
  unfold rtp_strip_padding, truth. intros Hb Hn.
  destruct (Z.eqb_spec p 0); simpl; [intros [= <-]; lia|].
  destruct (Z.ltb_spec 0 n); simpl; [|intros [= <-]; lia].
  intros (pad & Hpad & Hr)%bind_Some. injection Hr as <-.
  pose proof (rd8_range _ _ _ Hb Hpad) as Hr. unfold is_u8 in Hr.
  destruct (Z.leb_spec pad n); lia.
Qed.

(** Whatever the packet, a decoded payload and extension lie inside it:
    the payload starts right after the fixed header, the CSRC list and the
    extension, and ends at or before [pkt_len], exactly there when the padding
    bit is clear. *)
Lemma rtp_decode_in_bounds pkt pkt_len d :
  is_bytes pkt -> pjmedia_rtp_decode_rtp2 pkt pkt_len = Some (RtpOk d) ->
  exists b0, rd8 pkt 0 = Some b0 /\ b0 / 64 mod 4 = RTP_VERSION /\
    dec_payload d = 12 + 4 * (b0 mod 16) +
      (if b0 / 16 mod 2 =? 0 then 0 else 4 + 4 * dec_ext_len d) /\
    0 <= dec_ext_len d < 65536 /\ 12 <= dec_payload d /\
    0 <= dec_payloadlen d /\ dec_payload d + dec_payloadlen d <= pkt_len /\
    (b0 / 32 mod 2 = 0 -> dec_payload d + dec_payloadlen d = pkt_len) /\
    (forall e, dec_ext d = Some e -> e + 4 * dec_ext_len d = dec_payload d).
Proof.
  unfold pjmedia_rtp_decode_rtp2. intros Hb (b0 & E0 & H)%bind_Some. cbv zeta in H.
  exists b0; split; [done|].
  destruct (Z.eqb_spec (b0 / 64 mod 4) RTP_VERSION) as [Ev|]; [|done]; simpl in H.
  apply bind_Some in H as ([[[eh e] n] o] & He & H).
  destruct (Z.ltb_spec pkt_len o); [done|].
  apply bind_Some in H as (pl & Hpl & H). injection H as <-; simpl.
  apply rtp_decode_ext_spec in He as (Hn & Ho & Hi).
  apply rtp_strip_padding_spec in Hpl as [Hr Hz]; [|done|lia].
  assert (0 <= b0 mod 16) by (apply Z.mod_pos_bound; lia).
  split_and!; auto; try lia; destruct (Z.eqb_spec (b0 / 16 mod 2) 0); lia.
Qed.

Lemma rtp_decode_in_bounds_witness :
  let pkt := [177; 8; 0; 1; 0; 0; 0; 9; 0; 0; 0; 7; 0; 0; 0; 1;
              0; 0; 0; 1; 9; 9; 9; 9; 1; 2; 3; 2] in
  pjmedia_rtp_decode_rtp2 pkt 28 = Some (RtpOk (RtpDecoded (Some 16) (Some 20) 1 24 2)) /\
  24 + 2 <= 28.
Proof.
  cbv zeta. split; [vm_compute; reflexivity|].
  destruct (rtp_decode_in_bounds [177; 8; 0; 1; 0; 0; 0; 9; 0; 0; 0; 7; 0; 0; 0; 1;
              0; 0; 0; 1; 9; 9; 9; 9; 1; 2; 3; 2] 28 (RtpDecoded (Some 16) (Some 20) 1 24 2))
    as (b0 & _ & _ & _ & _ & _ & _ & H & _).
  - repeat constructor; word_lia.
  - vm_compute; reflexivity.
  - exact H.
Defined.

(** Memory safety of the decoder, exactly: on a packet whose length is
    passed faithfully, the decoder stays inside the packet if and only if the
    packet is not empty and, when it is version 2 with the extension bit set,
    holds the extension header at the place the CSRC count gives.  The length
    check comes after that read, so a short packet with the bit set is read
    past its end. *)
Lemma rtp_decode_safe_iff pkt :
  is_Some (pjmedia_rtp_decode_rtp2 pkt (zlen pkt)) <->
  exists b0, rd8 pkt 0 = Some b0 /\
    (b0 / 64 mod 4 = RTP_VERSION -> b0 / 16 mod 2 <> 0 ->
     16 + 4 * (b0 mod 16) <= zlen pkt).
Proof.
  unfold pjmedia_rtp_decode_rtp2.
  destruct (rd8 pkt 0) as [b0|] eqn:E0; simpl; [|split; [by intros []|by intros (?&?&_)]].
  assert (Hcc : 0 <= b0 mod 16) by (apply Z.mod_pos_bound; lia).
  destruct (Z.eqb_spec (b0 / 64 mod 4) RTP_VERSION); simpl;
    [|split; [intros _; by exists b0|by eexists]].
  assert (Hpad : forall o pl, 0 <= o -> pl = zlen pkt - o ->
            is_Some (rtp_strip_padding pkt (b0 / 32 mod 2) o pl)).
  { intros o pl Ho ->. unfold rtp_strip_padding.
    case_match eqn:Eb; [|by eexists]. apply andb_prop in Eb as [_ Eb].
    destruct (proj2 (rd8_is_Some pkt (o + (zlen pkt - o) - 1)) ltac:(lia)) as [? ->].
    by eexists. }
  assert (Htail : forall eh e n o, 0 <= o ->
    is_Some (if zlen pkt <? o then Some (RtpError PJMEDIA_RTP_EINLEN)
      else payloadlen ← rtp_strip_padding pkt (b0 / 32 mod 2) o (zlen pkt - o);
           Some (RtpOk (RtpDecoded eh e n o payloadlen)))).
  { intros. case_match; [by eexists|]. destruct (Hpad o _ ltac:(lia) eq_refl) as [? ->].
    by eexists. }
  unfold rtp_decode_ext, truth. destruct (Z.eqb_spec (b0 / 16 mod 2) 0); simpl.
  { split; [|intros _; apply Htail; lia]. intros _. exists b0. by split. }
  unfold rd16. split.
  - destruct (rd8 pkt (12 + b0 mod 16 * 4 + 2)) eqn:E2; [|by intros []]. simpl.
    destruct (rd8 pkt (12 + b0 mod 16 * 4 + 2 + 1)) eqn:E3; [|by intros []].
    intros _. exists b0; split; [done|]. intros _ _.
    pose proof (proj1 (rd8_is_Some pkt (12 + b0 mod 16 * 4 + 2 + 1)) (mk_is_Some _ _ E3)). lia.
  - intros (b & [= <-] & Hl). specialize (Hl ltac:(done) ltac:(done)).
    destruct (proj2 (rd8_is_Some pkt (12 + b0 mod 16 * 4 + 2)) ltac:(lia)) as [y0 ->].
    destruct (proj2 (rd8_is_Some pkt (12 + b0 mod 16 * 4 + 2 + 1)) ltac:(lia)) as [y1 ->].
    simpl. apply Htail. pose proof (swap16_range (y0 + 256 * y1)). unfold is_u16 in *. lia.
Qed.

(** ** Session update *)

Definition rtp_pt_rejected (ses : pjmedia_rtp_session) (hdr : pjmedia_rtp_hdr)
    (check_pt : bool) : bool := check_pt && negb (hdr_pt hdr =? out_pt ses).

(** The SSRC the session expects when the packet arrives. *)
Definition rtp_expected_ssrc (ses : pjmedia_rtp_session) (hdr : pjmedia_rtp_hdr) : Z :=
  if negb (has_peer_ssrc ses) && (peer_ssrc ses =? 0)
  then swap32 (hdr_ssrc hdr) else peer_ssrc ses.

Lemma rtp_check_ssrc_spec ses hdr :
  let ssrc := swap32 (hdr_ssrc hdr) in
  rtp_check_ssrc ses ssrc =
    (ses <| peer_ssrc := if has_peer_ssrc ses then peer_ssrc ses else ssrc |>,
     rtp_status_zero <| st_badssrc := negb (ssrc =? rtp_expected_ssrc ses hdr) |>).
Proof.
  unfold rtp_check_ssrc, rtp_expected_ssrc. destruct ses as [oh sc opt oe hps ps rc]; simpl.
  destruct hps; simpl; [by destruct (Z.eqb_spec (swap32 (hdr_ssrc hdr)) ps)|].
  destruct (Z.eqb_spec ps 0); simpl.
  - rewrite Z.eqb_refl. reflexivity.
  - by destruct (Z.eqb_spec (swap32 (hdr_ssrc hdr)) ps) as [->|].
Qed.

Lemma seq_update_no_badssrc s seq :
  st_badssrc (pjmedia_rtp_seq_update s seq).2 = false /\
  st_badpt (pjmedia_rtp_seq_update s seq).2 = false /\
  (st_restart (pjmedia_rtp_seq_update s seq).2 = true ->
   st_bad (pjmedia_rtp_seq_update s seq).2 = false).
Proof. unfold pjmedia_rtp_seq_update. repeat case_match; simpl; by split_and!. Qed.

(** What a received header does to the session, on every branch.  The
    packet counter counts exactly the packets not reported bad; a payload type
    mismatch leaves the sequence controller alone; the peer's SSRC is adopted
    unless it was set by configuration; and an SSRC mismatch is reported only
    together with a payload type mismatch, because the status of the sequence
    controller overwrites the flag on the normal path. *)
Lemma rtp_session_update_spec ses hdr p check_pt :
  let '(ses', op) := pjmedia_rtp_session_update2 ses hdr (Some p) check_pt in
  exists p', op = Some p' /\
    received ses' = (if st_bad p' then received ses else u32 (received ses + 1)) /\
    peer_ssrc ses' = (if has_peer_ssrc ses then peer_ssrc ses else swap32 (hdr_ssrc hdr)) /\
    has_peer_ssrc ses' = has_peer_ssrc ses /\
    st_badpt p' = rtp_pt_rejected ses hdr check_pt /\
    (st_badpt p' = true -> st_bad p' = true /\ seq_ctrl ses' = seq_ctrl ses) /\
    st_badssrc p' = rtp_pt_rejected ses hdr check_pt &&
                    negb (swap32 (hdr_ssrc hdr) =? rtp_expected_ssrc ses hdr).
Proof.
  unfold pjmedia_rtp_session_update2, rtp_pt_rejected. rewrite rtp_check_ssrc_spec.
  destruct ses as [oh sc opt oe hps ps rc]; simpl.
  destruct (check_pt && negb (hdr_pt hdr =? opt)); simpl.
  { eexists; split; [reflexivity|]. by split_and!. }
  set (ctrl0 := seq_ctrl _).
  pose proof (seq_update_no_badssrc ctrl0 (swap16 (hdr_seq hdr))) as (H1 & H2 & H3).
  destruct (pjmedia_rtp_seq_update ctrl0 (swap16 (hdr_seq hdr))) as [ctrl st]; simpl in *.
  exists st. split; [done|]. rewrite H1, H2.
  destruct (st_restart st); [rewrite (H3 eq_refl)|destruct (st_bad st)];
    destruct (rc =? 0); simpl; by split_and!.
Qed.

(** The first packet of a session is accepted unless its sequence number is
    0: [pjmedia_rtp_seq_init] stores the predecessor modulo 2^16, and the
    probation test compares with its successor in [int]. *)
Lemma rtp_first_packet ses hdr p :
  received ses = 0 -> hdr_pt hdr = out_pt ses ->
  let '(ses', op) := pjmedia_rtp_session_update ses hdr (Some p) in
  exists p', op = Some p' /\ st_probation p' = true /\
    st_bad p' = (swap16 (hdr_seq hdr) =? 0) /\
    received ses' = (if swap16 (hdr_seq hdr) =? 0 then 0 else 1).
Proof.
  intros Hr Hpt. unfold pjmedia_rtp_session_update, pjmedia_rtp_session_update2.
  rewrite rtp_check_ssrc_spec. destruct ses as [oh sc opt oe hps ps rc]; simpl in *. subst rc.
  rewrite Hpt, Z.eqb_refl. simpl. pose proof (swap16_range (hdr_seq hdr)) as Hs.
  set (seq := swap16 (hdr_seq hdr)) in *. unfold pjmedia_rtp_seq_update; simpl.
  destruct (Z.eqb_spec seq (u16 (seq - 1) + 1)), (Z.eqb_spec seq 0);
    try (exfalso; word_lia); simpl; try case_match;
    eexists; (split; [reflexivity|]); by split_and!.
Qed.

Lemma rtp_first_packet_witness :
  exists p', (pjmedia_rtp_session_update (pjmedia_rtp_session_init 1 1 0 7)
     (RtpHdr 2 0 0 0 0 0 0 0 0) (Some rtp_status_zero)).2 = Some p' /\ st_bad p' = true.
Proof.
  pose proof (rtp_first_packet (pjmedia_rtp_session_init 1 1 0 7)
    (RtpHdr 2 0 0 0 0 0 0 0 0) rtp_status_zero eq_refl eq_refl) as H.
  vm_compute in H. destruct H as (p' & Hp & _ & Hb & _).
  exists p'. split; [vm_compute; exact Hp|exact Hb].
Defined.
