(* ===== verification/PjMath.v ===== *)
(** * Integer mathematics and running statistics (pjlib/include/pj/math.h)

    [pj_isqrt] and the statistics state [pj_math_stat] in its fixed point
    configuration ([PJ_HAS_FLOATING_POINT] = 0), with the mean kept as a
    quotient and a residue. *)

From S2P Require Import Prelude.

Definition PJ_ABS (x : Z) : Z := if x >? 0 then x else - x.

(** ** Integer square root *)

(** The first loop: a power of two, one bit for every two bits of [i]. *)
Fixpoint isqrt_guess (fuel : nat) (prev res : Z) : Z :=
  match fuel with
  | O => res
  | S fuel =>
      if truth prev then isqrt_guess fuel (Z.shiftr prev 2) (u32 (Z.shiftl res 1)) else res
  end.

(** The second loop; [None] when the fuel runs out. *)
Fixpoint isqrt_loop (fuel : nat) (i res : Z) : option Z :=
  match fuel with
  | O => None
  | S fuel =>
      let prev := res in
      let res := Z.shiftr (u32 (prev + i / prev)) 1 in
      if Z.shiftr (u32 (prev + res)) 1 =? res then Some res else isqrt_loop fuel i res
  end.

Definition pj_isqrt (i : Z) : option Z :=
  isqrt_loop 40 i (isqrt_guess 16 (Z.shiftr i 2) 1).

(** ** Statistics *)

Record pj_math_stat := Stat {
  stat_n : Z;
  stat_max : Z;
  stat_min : Z;
  stat_last : Z;
  stat_mean : Z;
  stat_mean_res : Z;
  stat_m2 : Z
}.
#[export] Instance eta_pj_math_stat : Eta pj_math_stat := fun r =>
  Stat (stat_n r) (stat_max r) (stat_min r) (stat_last r) (stat_mean r)
       (stat_mean_res r) (stat_m2 r).

Definition pj_math_stat_init : pj_math_stat := Stat 0 0 0 0 0 0 0.

(** The carry of the residue into the mean. *)
Definition stat_carry (st : pj_math_stat) : pj_math_stat :=
  if stat_mean_res st >=? stat_n st then
    st <| stat_mean ::= fun m => m + 1 |> <| stat_mean_res ::= fun r => r - stat_n st |>
  else if stat_mean_res st <=? - stat_n st then
    st <| stat_mean ::= fun m => m - 1 |> <| stat_mean_res ::= fun r => r + stat_n st |>
  else st.

Definition pj_math_stat_update (st : pj_math_stat) (val : Z) : pj_math_stat :=
  let n0 := stat_n st in
  let st := st <| stat_last := val |> <| stat_n := n0 + 1 |> in
  let st :=
    if truth n0 then
      let st := if stat_min st >? val then st <| stat_min := val |> else st in
      if stat_max st <? val then st <| stat_max := val |> else st
    else st <| stat_max := val |> <| stat_min := val |> in
  let delta := val - stat_mean st in
  let st := st <| stat_mean ::= fun m => m + delta ÷ stat_n st |>
               <| stat_mean_res ::= fun r => r + Z.rem delta (stat_n st) |> in
  let st := stat_carry st in
  st <| stat_m2 ::= fun m2 => m2 + delta * (val - stat_mean st) |>.

(** The variance is read as an unsigned number. *)
Definition pj_math_stat_get_stddev (st : pj_math_stat) : option Z :=
  if stat_n st =? 0 then Some 0 else pj_isqrt (u32 (stat_m2 st ÷ stat_n st)).

Definition pj_math_stat_set_stddev (st : pj_math_stat) (dev : Z) : pj_math_stat :=
  let st := if stat_n st =? 0 then st <| stat_n := 1 |> else st in
  st <| stat_m2 := dev * dev * stat_n st |>.

(** ** Lemmas *)

(** One step of the Babylonian method. *)
Definition heron (i p : Z) : Z := (p + i / p) / 2.

Lemma heron_ge i p : 0 <= i -> 0 < p -> Z.sqrt i <= heron i p.
Proof.
  intros Hi Hp. unfold heron. pose proof (Z.sqrt_spec i Hi) as [Hs1 Hs2].
  pose proof (Z.sqrt_nonneg i). set (s := Z.sqrt i) in *.
  pose proof (Z.div_mod i p ltac:(lia)). pose proof (Z.mod_pos_bound i p Hp).
  pose proof (Z.div_pos i p Hi Hp). set (q := i / p) in *. apply Z.div_le_lower_bound; [lia|].
  destruct (Z.le_gt_cases (2 * s) (p + q)); [lia|]. exfalso.
  assert (i < p * (q + 1)) by nia.
  assert (0 <= (p - (q + 1)) * (p - (q + 1))) by apply Z.square_nonneg.
  assert ((p + (q + 1)) * (p + (q + 1)) <= (2 * s) * (2 * s))
    by (apply Z.mul_le_mono_nonneg; lia). nia.
Qed.

Lemma heron_lt i p : 0 <= i -> 0 < p -> Z.sqrt i < p -> heron i p < p.
Proof.
  intros Hi Hp Hs. unfold heron. pose proof (Z.sqrt_spec i Hi) as [Hs1 Hs2].
  apply Z.div_lt_upper_bound; [lia|].
  enough (i / p < p) by lia. apply Z.div_lt_upper_bound; nia.
Qed.

(** What the loop returns is the root, or one more. *)
Lemma heron_exit i p :
  0 <= i -> 0 < p -> (p + heron i p) / 2 = heron i p ->
  Z.sqrt i <= heron i p <= Z.sqrt i + 1.
Proof.
  intros Hi Hp He. split; [by apply heron_ge|].
  destruct (Z.le_gt_cases p (Z.sqrt i + 1)) as [Hle|Hgt].
  - destruct (Z.lt_ge_cases (Z.sqrt i) p) as [Hlt|Hge].
    + pose proof (heron_lt i p Hi Hp Hlt). lia.
    + assert (Hr : p = heron i p \/ p = heron i p + 1) by (Z.to_euclidean_division_equations; lia).
      lia.
  - assert (Hr : p = heron i p \/ p = heron i p + 1) by (Z.to_euclidean_division_equations; lia).
    pose proof (heron_lt i p Hi Hp ltac:(lia)). destruct Hr as [|Hr]; [lia|].
    unfold heron in *. pose proof (Z.sqrt_spec i Hi) as [Hs1 Hs2].
    set (s := Z.sqrt i) in *. assert (p - 2 <= i / p) by (Z.to_euclidean_division_equations; lia).
    pose proof (Z.div_mod i p ltac:(lia)). pose proof (Z.mod_pos_bound i p Hp). nia.
Qed.

(** The error halves at each step from above. *)
Lemma heron_halves i p : 0 <= i -> Z.sqrt i < p -> heron i p - Z.sqrt i <= (p - Z.sqrt i) / 2.
Proof.
  intros Hi Hp. unfold heron. pose proof (Z.sqrt_spec i Hi) as [Hs1 Hs2].
  pose proof (Z.sqrt_nonneg i). set (s := Z.sqrt i) in *.
  enough (i / p <= s) by (Z.to_euclidean_division_equations; lia).
  enough (i / p < s + 1) by lia. apply Z.div_lt_upper_bound; nia.
Qed.

(** From the root itself the step stays, or goes one up. *)
Lemma heron_at_root i : 0 < i -> heron i (Z.sqrt i) <= Z.sqrt i + 1.
Proof.
  intros Hi. unfold heron. pose proof (Z.sqrt_spec i ltac:(lia)) as [Hs1 Hs2].
  assert (0 < Z.sqrt i) by (apply Z.sqrt_pos; lia). set (s := Z.sqrt i) in *.
  enough (i / s < s + 3) by (Z.to_euclidean_division_equations; lia).
  apply Z.div_lt_upper_bound; nia.
Qed.

Lemma isqrt_loop_step fuel i p :
  0 <= i -> 0 < p -> p + i / p < 4294967296 -> p + heron i p < 4294967296 ->
  isqrt_loop (S fuel) i p =
  if (p + heron i p) / 2 =? heron i p then Some (heron i p) else isqrt_loop fuel i (heron i p).
Proof.
  intros Hi Hp H1 H2. assert (0 <= i / p) by (apply Z.div_pos; lia).
  cbn [isqrt_loop]. rewrite !Z.shiftr_div_pow2 by lia. change (2 ^ 1) with 2.
  rewrite (u32_small (p + i / p)) by (unfold is_u32; lia). fold (heron i p).
  assert (0 <= heron i p) by (unfold heron; apply Z.div_pos; lia).
  by rewrite u32_small by (unfold is_u32; lia).
Qed.

Lemma sqrt_u32 i : is_u32 i -> 0 <= Z.sqrt i < 65536.
Proof.
  unfold is_u32. intros. split; [apply Z.sqrt_nonneg|]. apply Z.sqrt_lt_square; lia.
Qed.

Lemma div_le_root i p : is_u32 i -> 0 < Z.sqrt i <= p -> i / p <= Z.sqrt i + 2.
Proof.
  unfold is_u32. intros Hi Hp. pose proof (Z.sqrt_spec i ltac:(lia)) as [Hs1 Hs2].
  set (s := Z.sqrt i) in *. enough (i / p < s + 3) by lia.
  apply Z.div_lt_upper_bound; nia.
Qed.

Section Isqrt.
Variable i : Z.
Hypothesis Hi : is_u32 i.
Hypothesis Hpos : 0 < i.
Let s := Z.sqrt i.
Let near (o : option Z) := exists r, o = Some r /\ s <= r <= s + 1.

Lemma isqrt_loop_above fuel p :
  s <= p < 1048576 ->
  isqrt_loop (S fuel) i p =
  if (p + heron i p) / 2 =? heron i p then Some (heron i p) else isqrt_loop fuel i (heron i p).
Proof.
  intros Hp. pose proof (sqrt_u32 i Hi) as Hs. fold s in Hs.
  assert (0 < s) by (apply Z.sqrt_pos; lia).
  pose proof (div_le_root i p Hi ltac:(fold s; lia)) as Hd. fold s in Hd.
  assert (0 <= i / p) by (apply Z.div_pos; lia).
  apply isqrt_loop_step; try lia. unfold heron. Z.to_euclidean_division_equations; lia.
Qed.

Lemma isqrt_from_next fuel : near (isqrt_loop (S fuel) i (s + 1)).
Proof.
  pose proof (sqrt_u32 i Hi) as Hs. fold s in Hs.
  rewrite isqrt_loop_above by lia.
  pose proof (heron_halves i (s + 1) ltac:(lia) ltac:(fold s; lia)) as Hh.
  pose proof (heron_ge i (s + 1) ltac:(lia) ltac:(lia)) as Hg. fold s in Hh, Hg.
  replace (s + 1 - s) with 1 in Hh by lia. change (1 / 2) with 0 in Hh.
  assert (heron i (s + 1) = s) as -> by lia.
  replace ((s + 1 + s) / 2) with s by (Z.to_euclidean_division_equations; lia).
  rewrite Z.eqb_refl. exists s. split; [done|lia].
Qed.

Lemma isqrt_from_root fuel : near (isqrt_loop (S (S fuel)) i s).
Proof.
  pose proof (sqrt_u32 i Hi) as Hs. fold s in Hs.
  assert (0 < s) by (apply Z.sqrt_pos; lia).
  rewrite isqrt_loop_above by lia.
  pose proof (heron_at_root i Hpos) as Hh.
  pose proof (heron_ge i s ltac:(lia) ltac:(lia)) as Hg. fold s in Hh, Hg.
  destruct (Z.eqb_spec ((s + heron i s) / 2) (heron i s)) as [|Hne].
  { eexists. split; [done|lia]. }
  assert (heron i s = s \/ heron i s = s + 1) as [E| ->] by lia; [|apply isqrt_from_next].
  rewrite E in Hne. replace (s + s) with (s * 2) in Hne by lia. rewrite Z.div_mul in Hne; lia.
Qed.

Lemma isqrt_loop_spec k : forall p fuel,
  s <= p <= s + 2 ^ Z.of_nat k -> p < 1048576 -> (k + 2 <= fuel)%nat ->
  near (isqrt_loop fuel i p).
Proof.
  pose proof (sqrt_u32 i Hi) as Hs. fold s in Hs.
  induction k as [|k IH]; intros p fuel Hp Hlt Hf;
    destruct fuel as [|[|fuel]]; try lia;
    (destruct (decide (p = s)) as [->|]; [apply isqrt_from_root|]).
  - change (2 ^ Z.of_nat 0) with 1 in Hp. replace p with (s + 1) by lia. apply isqrt_from_next.
  - rewrite isqrt_loop_above by lia.
    pose proof (heron_halves i p ltac:(lia) ltac:(fold s; lia)) as Hh.
    pose proof (heron_ge i p ltac:(lia) ltac:(lia)) as Hg. fold s in Hh, Hg.
    rewrite Nat2Z.inj_succ, Z.pow_succ_r in Hp by lia.
    assert ((p - s) / 2 <= 2 ^ Z.of_nat k) by (apply Z.div_le_upper_bound; lia).
    destruct (Z.eqb_spec ((p + heron i p) / 2) (heron i p)) as [E|_].
    + destruct (heron_exit i p ltac:(lia) ltac:(lia) E) as [H1 H2].
      eexists. split; [done|done].
    + apply IH; [lia| |lia]. enough (heron i p < p) by lia.
      apply heron_lt; lia.
Qed.
End Isqrt.

(** The first guess is a power of two not above the root and more than half of it. *)
Lemma isqrt_guess_spec fuel prev res :
  0 <= prev < 4 ^ Z.of_nat fuel -> 0 < res -> res * 2 ^ Z.of_nat fuel <= 65536 ->
  exists k, isqrt_guess fuel prev res = res * 2 ^ k /\ 0 <= k /\
    (prev = 0 /\ k = 0 \/ 4 ^ (k - 1) <= prev < 4 ^ k /\ 0 < k).
Proof.
  revert prev res. induction fuel as [|fuel IH]; intros prev res Hp Hr Hb.
  - exists 0. simpl. change (4 ^ Z.of_nat 0) with 1 in Hp. split_and!; lia.
  - rewrite Nat2Z.inj_succ, Z.pow_succ_r in Hp, Hb by lia.
    assert (0 < 2 ^ Z.of_nat fuel) by (apply Z.pow_pos_nonneg; lia).
    cbn [isqrt_guess]. unfold truth. destruct (Z.eqb_spec prev 0) as [->|Hn]; cbn [negb].
    { exists 0. split_and!; lia. }
    rewrite Z.shiftl_mul_pow2, Z.shiftr_div_pow2 by lia. change (2 ^ 1) with 2. change (2 ^ 2) with 4.
    rewrite u32_small by (unfold is_u32; nia).
    destruct (IH (prev / 4) (res * 2)) as (k & -> & Hk & Hc).
    { split; [apply Z.div_pos; lia|apply Z.div_lt_upper_bound; lia]. } { lia. } { lia. }
    exists (k + 1). rewrite Z.pow_add_r by lia. change (2 ^ 1) with 2. split_and!; [lia|lia|].
    right. split; [|lia]. replace (k + 1 - 1) with k by lia. rewrite Z.pow_add_r by lia.
    change (4 ^ 1) with 4. destruct Hc as [[H0 ->]|[Hc Hk0]].
    + change (4 ^ 0) with 1. Z.to_euclidean_division_equations; lia.
    + replace (4 ^ k) with (4 * 4 ^ (k - 1)) in *
        by (rewrite <- Z.pow_succ_r by lia; f_equal; lia).
      Z.to_euclidean_division_equations; lia.
Qed.

Lemma isqrt_start i : is_u32 i -> 4 <= i ->
  exists g, isqrt_guess 16 (Z.shiftr i 2) 1 = g /\ 0 < g <= Z.sqrt i /\ i < 4 * (g * g).
Proof.
  unfold is_u32. intros Hi H4. rewrite Z.shiftr_div_pow2 by lia. change (2 ^ 2) with 4.
  destruct (isqrt_guess_spec 16 (i / 4) 1) as (k & -> & Hk & Hc).
  { split; [apply Z.div_pos; lia|]. change (4 ^ Z.of_nat 16) with 4294967296.
    apply Z.div_lt_upper_bound; lia. }
  { lia. } { done. }
  assert (0 < 2 ^ k) by (apply Z.pow_pos_nonneg; lia).
  assert (Hsq : 4 ^ k = 2 ^ k * 2 ^ k)
    by (change 4 with (2 * 2) at 1; apply Z.pow_mul_l).
  rewrite Z.mul_1_l. exists (2 ^ k). split; [done|].
  destruct Hc as [[H0 _]|[Hc Hk0]]; [Z.to_euclidean_division_equations; lia|].
  replace (4 ^ k) with (4 * 4 ^ (k - 1)) in *
    by (rewrite <- Z.pow_succ_r by lia; f_equal; lia).
  assert (4 * 4 ^ (k - 1) <= i < 4 * (4 * 4 ^ (k - 1)))
    by (Z.to_euclidean_division_equations; lia).
  split; [split; [lia|]|lia]. apply Z.sqrt_le_square; lia.
Qed.

(** For every 32 bit number both loops of [pj_isqrt] end and the result is
    the integer square root, or one more than it. *)
Lemma pj_isqrt_spec i :
  is_u32 i -> exists r, pj_isqrt i = Some r /\ Z.sqrt i <= r <= Z.sqrt i + 1.
Proof.
  intros Hi. unfold pj_isqrt. destruct (Z.le_gt_cases 4 i) as [H4|H4].
  - destruct (isqrt_start i Hi H4) as (g & -> & Hg & Hi4).
    pose proof (sqrt_u32 i Hi) as Hs.
    assert (i / g < 4 * g) by (apply Z.div_lt_upper_bound; lia).
    assert (0 <= i / g) by (apply Z.div_pos; lia).
    assert (heron i g < 163840) by (unfold heron; Z.to_euclidean_division_equations; lia).
    pose proof (heron_ge i g ltac:(lia) ltac:(lia)).
    change 40%nat with (S 39). rewrite isqrt_loop_step by lia.
    destruct (Z.eqb_spec ((g + heron i g) / 2) (heron i g)) as [E|_].
    + eexists. split; [done|]. apply heron_exit; lia.
    + apply (isqrt_loop_spec i Hi ltac:(lia) 18); [|lia..]. change (2 ^ Z.of_nat 18) with 262144. lia.
  - unfold is_u32 in Hi. assert (i = 0 \/ i = 1 \/ i = 2 \/ i = 3) as [->|[->|[->| ->]]] by lia;
      (eexists; split; [vm_compute; reflexivity|vm_compute; split; discriminate]).
Qed.

(** The upper bound is reached: 7 for 48. *)
Lemma pj_isqrt_spec_witness :
  exists r, pj_isqrt 48 = Some r /\ r = 7 /\ Z.sqrt 48 <= r <= Z.sqrt 48 + 1.
Proof.
  destruct (pj_isqrt_spec 48 ltac:(unfold is_u32; lia)) as (r & E & H).
  exists r. split; [exact E|]. split; [|exact H]. vm_compute in E. congruence.
Defined.

(** ** The running statistics *)

(** What the state says of the samples seen. *)
Record stat_inv (st : pj_math_stat) (vals : list Z) : Prop := {
  si_n : stat_n st = zlen vals;
  si_sum : stat_n st * stat_mean st + stat_mean_res st = foldr Z.add 0 vals;
  si_res : vals <> [] -> Z.abs (stat_mean_res st) < stat_n st;
  si_min : forall v, v ∈ vals -> stat_min st <= v;
  si_max : forall v, v ∈ vals -> v <= stat_max st;
  si_attained : vals <> [] -> stat_min st ∈ vals /\ stat_max st ∈ vals;
  si_zero : vals = [] -> stat_mean st = 0 /\ stat_mean_res st = 0
}.

Lemma carry_spec st :
  0 < stat_n st -> Z.abs (stat_mean_res st) < 2 * stat_n st ->
  let st' := stat_carry st in
  stat_n st' = stat_n st /\ stat_max st' = stat_max st /\ stat_min st' = stat_min st /\
  stat_last st' = stat_last st /\
  stat_n st * stat_mean st' + stat_mean_res st' = stat_n st * stat_mean st + stat_mean_res st /\
  Z.abs (stat_mean_res st') < stat_n st.
Proof.
  intros Hn Hr st'. subst st'. unfold stat_carry.
  destruct (Z.geb_spec (stat_mean_res st) (stat_n st)); [simpl; split_and!; lia|].
  destruct (Z.leb_spec (stat_mean_res st) (- stat_n st)); simpl; split_and!; lia.
Qed.

(** The state with the sample counted and compared, before the mean moves. *)
Definition stat_minmax (st : pj_math_stat) (val : Z) : pj_math_stat :=
  let st1 := st <| stat_last := val |> <| stat_n := stat_n st + 1 |> in
  if truth (stat_n st) then
    st1 <| stat_min := Z.min (stat_min st) val |> <| stat_max := Z.max (stat_max st) val |>
  else st1 <| stat_max := val |> <| stat_min := val |>.

Lemma update_unfold st val :
  pj_math_stat_update st val =
  let st1 := stat_minmax st val in
  let delta := val - stat_mean st in
  let st2 := stat_carry
    (st1 <| stat_mean := stat_mean st + delta ÷ (stat_n st + 1) |>
         <| stat_mean_res := stat_mean_res st + Z.rem delta (stat_n st + 1) |>) in
  st2 <| stat_m2 ::= fun m2 => m2 + delta * (val - stat_mean st2) |>.
Proof.
  unfold pj_math_stat_update, stat_minmax. cbv zeta. destruct (truth (stat_n st)); [|reflexivity].
  simpl. destruct (Z.gtb_spec (stat_min st) val); simpl;
    [rewrite Z.min_r by lia|rewrite Z.min_l by lia];
    (destruct (Z.ltb_spec (stat_max st) val); simpl;
     [rewrite Z.max_r by lia|rewrite Z.max_l by lia]); reflexivity.
Qed.

Lemma update_inv st vals val :
  stat_inv st vals -> stat_inv (pj_math_stat_update st val) (val :: vals).
Proof.
  intros [Hn Hsum Hres Hmin Hmax Hatt Hz]. rewrite update_unfold. cbv zeta.
  set (n := stat_n st) in *. pose proof (zlen_nonneg vals).
  set (d := val - stat_mean st).
  set (st1 := (stat_minmax st val) <| stat_mean := _ |> <| stat_mean_res := _ |>).
  assert (Hn1 : stat_n st1 = n + 1)
    by (unfold st1, stat_minmax; destruct (truth (stat_n st)); reflexivity).
  assert (Hd : d = (n + 1) * (d ÷ (n + 1)) + Z.rem d (n + 1)) by (apply Z.quot_rem; lia).
  pose proof (Z.rem_bound_abs d (n + 1) ltac:(lia)) as Hb.
  assert (Hr1 : Z.abs (stat_mean_res st) < n + 1).
  { destruct vals as [|v vals]; [destruct (Hz eq_refl) as [_ ->]; lia|].
    specialize (Hres ltac:(done)). lia. }
  destruct (carry_spec st1) as (E1 & E2 & E3 & E4 & E5 & E6).
  { lia. } { rewrite Hn1. unfold st1; simpl. lia. }
  set (st2 := stat_carry st1) in *.
  change (stat_inv (st2 <| stat_m2 ::= fun m2 => m2 + d * (val - stat_mean st2) |>) (val :: vals)).
  assert (Hmm : n = 0 /\ vals = [] /\ stat_min st1 = val /\ stat_max st1 = val \/
    0 < n /\ vals <> [] /\ stat_min st1 = Z.min (stat_min st) val /\
    stat_max st1 = Z.max (stat_max st) val).
  { unfold st1, stat_minmax, truth. fold n. destruct (Z.eqb_spec n 0) as [E|E]; [left|right].
    - split_and!; try done. destruct vals; [done|]. unfold zlen in Hn. simpl in Hn. lia.
    - split_and!; try done; [lia|]. intros ->. unfold zlen in Hn. simpl in Hn. lia. }
  constructor; simpl; rewrite ?E1, ?E2, ?E3, ?Hn1.
  - rewrite Hn. unfold zlen. simpl. lia.
  - rewrite Hn1 in E5. rewrite E5. unfold st1; simpl. lia.
  - intros _. lia.
  - intros v Hv. apply elem_of_cons in Hv. destruct Hmm as [(_&->&->&_)|(_&_&->&_)].
    + destruct Hv as [->|Hv]; [lia|by apply elem_of_nil in Hv].
    + destruct Hv as [->|Hv%Hmin]; lia.
  - intros v Hv. apply elem_of_cons in Hv. destruct Hmm as [(_&->&_&->)|(_&_&_&->)].
    + destruct Hv as [->|Hv]; [lia|by apply elem_of_nil in Hv].
    + destruct Hv as [->|Hv%Hmax]; lia.
  - intros _. rewrite !elem_of_cons. destruct Hmm as [(_&_&->&->)|(_&Hne&->&->)]; [tauto|].
    destruct (Hatt Hne). split; [destruct (Z.min_spec (stat_min st) val) as [[_ ->]|[_ ->]]
                                |destruct (Z.max_spec (stat_max st) val) as [[_ ->]|[_ ->]]]; tauto.
  - done.
Qed.

(** The statistics of a sequence of samples, the last one first. *)
Definition stat_of (vals : list Z) : pj_math_stat :=
  foldr (fun v st => pj_math_stat_update st v) pj_math_stat_init vals.

(** After any sequence of samples the state holds their exact sum as
    mean and residue -- the mean is off by less than one, no rounding error
    accumulates -- and their true minimum and maximum. *)
Lemma pj_math_stat_exact vals : stat_inv (stat_of vals) vals.
Proof.
  induction vals as [|v vals IH]; [|by apply update_inv].
  constructor; simpl; try done; intros v Hv; by apply elem_of_nil in Hv.
Qed.
