(* ===== verification/FrameList.v ===== *)
(** * The frame list of the jitter buffer (pjmedia/src/pjmedia/jbuf.c)

    The circular buffer of frames, [jb_framelist_t]; file Jbuf holds the
    adaptive jitter buffer built on it.  The parallel arrays of the frame list
    are one list of slots, indexed by position; [content] of a slot is its
    [frame_size] bytes of the content array.  Frame sequence numbers and the
    level counters are C [int]s that stay far from their limits (the sequence
    number is a timestamp divided by a frame span); conversions between [int] and
    [unsigned] are written out. *)

From S2P Require Import Prelude.
Set Warnings "-clear-no-such-hyp".

Definition INVALID_OFFSET : Z := -9999.
Definition MAX_BURST_MSEC : Z := 1000.
Definition INIT_CYCLE : Z := 10.
Definition MAX_FRAME_INDEX : Z := 4294967295 / 9000.
Definition STA_DISC_SAFE_SHRINKING_DIFF : Z := 1.
Definition JB_MAX_MISORDER : Z := 100.
Definition JB_MAX_DROPOUT : Z := 3000.

(** [pjmedia_jb_frame_type] and the internal discarded mark. *)
Inductive jb_frame_type :=
  | PJMEDIA_JB_MISSING_FRAME
  | PJMEDIA_JB_NORMAL_FRAME
  | PJMEDIA_JB_ZERO_PREFETCH_FRAME
  | PJMEDIA_JB_ZERO_EMPTY_FRAME
  | PJMEDIA_JB_DISCARDED_FRAME.
#[export] Instance jb_frame_type_eq_dec : EqDecision jb_frame_type.
Proof. solve_decision. Defined.

Definition is_discarded (t : jb_frame_type) : bool :=
  bool_decide (t = PJMEDIA_JB_DISCARDED_FRAME).
Definition is_missing (t : jb_frame_type) : bool :=
  bool_decide (t = PJMEDIA_JB_MISSING_FRAME).

Module Framelist.

Record jb_slot := Slot {
  content : list Z;
  frame_type : jb_frame_type;
  content_len : Z;
  bit_info : Z;
  ts : Z
}.
#[export] Instance eta_jb_slot : Eta jb_slot := fun r =>
  Slot (content r) (frame_type r) (content_len r) (bit_info r) (ts r).

Record jb_framelist := FrameList {
  frame_size : Z;
  max_count : Z;
  slots : list jb_slot;
  head : Z;
  size : Z;
  discarded_num : Z;
  origin : Z
}.
#[export] Instance eta_jb_framelist : Eta jb_framelist := fun r =>
  FrameList (frame_size r) (max_count r) (slots r) (head r) (size r)
            (discarded_num r) (origin r).

(** The slot at a position, and its update.  Every position the code forms is
    below [max_count] (see [fl_wf]). *)
Definition no_slot : jb_slot := Slot [] PJMEDIA_JB_MISSING_FRAME 0 0 0.
Definition slot_at (fl : jb_framelist) (pos : Z) : jb_slot :=
  default no_slot (slots fl !! Z.to_nat pos).
Definition set_slot (pos : Z) (f : jb_slot -> jb_slot) (fl : jb_framelist) : jb_framelist :=
  fl <| slots ::= alter f (Z.to_nat pos) |>.

(** What [memset]/[pj_bzero] leave in a slot: the type and length arrays are
    cleared, the others keep their contents. *)
Definition clear_slot (s : jb_slot) : jb_slot :=
  s <| frame_type := PJMEDIA_JB_MISSING_FRAME |> <| content_len := 0 |>.

Definition jb_framelist_reset (fl : jb_framelist) : jb_framelist :=
  fl <| head := 0 |> <| origin := INVALID_OFFSET |> <| size := 0 |>
     <| discarded_num := 0 |> <| slots ::= map clear_slot |>.

(** [mem] is the content of the freshly allocated arrays. *)
Definition jb_framelist_init (fsize mcount : Z) (mem : list jb_slot) : jb_framelist :=
  jb_framelist_reset
    {| frame_size := fsize; max_count := mcount; slots := mem;
       head := 0; size := 0; discarded_num := 0; origin := 0 |}.

Definition jb_framelist_size (fl : jb_framelist) : Z := size fl.
Definition jb_framelist_eff_size (fl : jb_framelist) : Z :=
  u32 (size fl - discarded_num fl).
Definition jb_framelist_origin (fl : jb_framelist) : Z := origin fl.

(** One of the two steps of a removal: the discarded frames of
    [start .. start+n) are uncounted, then the range is cleared. *)
Definition uncount_discarded (fl : jb_framelist) (i : Z) : jb_framelist :=
  if is_discarded (frame_type (slot_at fl i))
  then fl <| discarded_num ::= fun n => u32 (n - 1) |> else fl.
Definition remove_step (start n : Z) (fl : jb_framelist) : jb_framelist :=
  let fl := fold_left uncount_discarded (seqZ start n) fl in
  fold_left (fun fl i => set_slot i clear_slot fl) (seqZ start n) fl.

Definition jb_framelist_remove_head (fl : jb_framelist) (count : Z) : jb_framelist * Z :=
  let count := if count >? size fl then size fl else count in
  if count =? 0 then (fl, count)
  else
    let tmp := u32 (head fl + count) in
    let '(step1, step2) :=
      if tmp >? max_count fl
      then (u32 (max_count fl - head fl), u32 (count - u32 (max_count fl - head fl)))
      else (count, 0) in
    let fl := remove_step (head fl) step1 fl in
    let fl := if truth step2 then remove_step 0 step2 fl else fl in
    (fl <| origin ::= fun o => s32 (o + count) |>
        <| head ::= fun h => u32 (h + count) mod max_count fl |>
        <| size ::= fun n => u32 (n - count) |>, count).

(** The loop of [jb_framelist_get] over discarded frames at the head; the
    flag tells whether one was skipped. *)
Fixpoint skip_discarded (fuel : nat) (fl : jb_framelist) (prev : bool) : jb_framelist * bool :=
  match fuel with
  | O => (fl, prev)
  | S fuel =>
      if is_discarded (frame_type (slot_at fl (head fl)))
      then skip_discarded fuel (jb_framelist_remove_head fl 1).1 true
      else (fl, prev)
  end.

(** What [get] and [peek] hand out; [got_data] is [None] when the caller's
    buffer is not written. *)
Record jb_frame := Frame {
  got_data : option (list Z);
  got_type : jb_frame_type;
  got_size : Z;
  got_bit_info : Z;
  got_ts : Z;
  got_seq : Z
}.

(** [max_size] is the caller's [*size], [None] when [size] is NULL. *)
Definition jb_framelist_get (fl : jb_framelist) (max_size : option Z) :
    jb_framelist * option jb_frame :=
  if truth (size fl) then
    let '(fl, prev_discarded) := skip_discarded (S (Z.to_nat (size fl))) fl false in
    if truth (size fl) then
      let s := slot_at fl (head fl) in
      let frm :=
        if prev_discarded
        then Frame None PJMEDIA_JB_MISSING_FRAME 0 0 (ts s) (origin fl)
        else
          let copy_size := Z.min (default (content_len s) max_size) (content_len s) in
          Frame (Some (take (Z.to_nat copy_size) (content s))) (frame_type s)
                copy_size (bit_info s) (ts s) (origin fl) in
      (set_slot (head fl) (fun s => (clear_slot s) <| bit_info := 0 |> <| ts := 0 |>) fl
         <| origin ::= fun o => s32 (o + 1) |>
         <| head ::= fun h => u32 (h + 1) mod max_count fl |>
         <| size ::= fun n => u32 (n - 1) |>, Some frm)
    else (fl, None)
  else (fl, None).

(** The search of [jb_framelist_peek]: position of the [idx]-th frame that is
    not discarded. *)
Fixpoint peek_pos (fuel : nat) (fl : jb_framelist) (pos idx : Z) : option Z :=
  match fuel with
  | O => None
  | S fuel =>
      let next := u32 (pos + 1) mod max_count fl in
      if is_discarded (frame_type (slot_at fl pos)) then peek_pos fuel fl next idx
      else if idx =? 0 then Some pos
      else peek_pos fuel fl next (idx - 1)
  end.

Definition jb_framelist_peek (fl : jb_framelist) (offset : Z) : option jb_frame :=
  if offset >=? jb_framelist_eff_size fl then None
  else
    pos ← peek_pos (Z.to_nat (size fl)) fl (head fl) offset;
    let s := slot_at fl pos in
    Some (Frame (Some (content s)) (frame_type s) (content_len s) (bit_info s) (ts s)
                (s32 (origin fl + offset))).

(** [jb_framelist_put_at], in its three phases: placing the frame relative to
    the first one (late frame, sequence restart, far jump, empty buffer)... *)
Definition put_locate (fl : jb_framelist) (index : Z) : jb_framelist * pj_status * Z :=
  let distance := index - origin fl in
  let '(fl, st, distance) :=
    if distance <? 0 then
      if origin fl - index <? JB_MAX_MISORDER then (fl, PJ_ETOOSMALL, distance)
      else if u32 (origin fl + size fl) >=? MAX_FRAME_INDEX then
        (fl <| origin := s32 (index - size fl) |>, PJ_SUCCESS, s32 (size fl))
      else ((jb_framelist_reset fl) <| origin := index |>, PJ_SUCCESS, 0)
    else (fl, PJ_SUCCESS, distance) in
  if bool_decide (st = PJ_SUCCESS) then
    if size fl =? 0 then (fl <| origin := index |>, PJ_SUCCESS, 0)
    else (fl, PJ_SUCCESS, distance)
  else (fl, st, distance).

(** ... the capacity check ... *)
Definition put_capacity (fl : jb_framelist) (index distance : Z) :
    jb_framelist * pj_status * Z :=
  if distance >=? s32 (max_count fl) then
    if distance >? JB_MAX_DROPOUT
    then ((jb_framelist_reset fl) <| origin := index |>, PJ_SUCCESS, 0)
    else (fl, PJ_ETOOMANY, distance)
  else (fl, PJ_SUCCESS, distance).

(** ... and the store into the slot. *)
Definition put_store (fl : jb_framelist) (index distance : Z) (frame : list Z)
    (fsize bits stamp : Z) (ftype : jb_frame_type) : jb_framelist * pj_status :=
  let pos := u32 (head fl + distance) mod max_count fl in
  if negb (is_missing (frame_type (slot_at fl pos))) then (fl, PJ_EEXISTS)
  else
    let fl := set_slot pos (fun s =>
      s <| frame_type := ftype |> <| content_len := fsize |>
        <| bit_info := bits |> <| ts := stamp |>) fl in
    let fl := if origin fl + s32 (size fl) <=? index
              then fl <| size := u32 (distance + 1) |> else fl in
    let fl := if bool_decide (ftype = PJMEDIA_JB_NORMAL_FRAME)
              then set_slot pos (fun s =>
                s <| content ::= fun old =>
                  take (Z.to_nat fsize) frame ++ drop (Z.to_nat fsize) old |>) fl
              else fl in
    (fl, PJ_SUCCESS).

Definition jb_framelist_put_at (fl : jb_framelist) (index : Z) (frame : list Z)
    (fsize bits stamp : Z) (ftype : jb_frame_type) : jb_framelist * pj_status :=
  if fsize >? frame_size fl then (fl, PJ_EINVAL)
  else
    let '(fl, st, distance) := put_locate fl index in
    if bool_decide (st = PJ_SUCCESS) then
      let '(fl, st, distance) := put_capacity fl index distance in
      if bool_decide (st = PJ_SUCCESS)
      then put_store fl index distance frame fsize bits stamp ftype
      else (fl, st)
    else (fl, st).

Definition jb_framelist_discard (fl : jb_framelist) (index : Z) : jb_framelist * pj_status :=
  if (origin fl <=? index) && (index <? origin fl + s32 (size fl)) then
    let pos := u32 (head fl + (index - origin fl)) mod max_count fl in
    (set_slot pos (fun s => s <| frame_type := PJMEDIA_JB_DISCARDED_FRAME |>) fl
       <| discarded_num ::= fun n => u32 (n + 1) |>, PJ_SUCCESS)
  else (fl, PJ_EINVAL).

(** ** The window a frame list represents

    [ring_at fl i] is the [i]-th slot behind the head; the window is the first
    [size] of them, and the slots outside it are blank. *)

Definition ring_pos (fl : jb_framelist) (i : Z) : Z := (head fl + i) mod max_count fl.
Definition ring_at (fl : jb_framelist) (i : Z) : jb_slot := slot_at fl (ring_pos fl i).
Definition window (fl : jb_framelist) : list jb_slot := ring_at fl <$> seqZ 0 (size fl).

(** Number of discarded frames. *)
Definition ndisc (l : list jb_slot) : Z :=
  foldr (fun s n => b2z (is_discarded (frame_type s)) + n) 0 l.

(** A slot holding no frame. *)
Definition blank (s : jb_slot) : Prop :=
  frame_type s = PJMEDIA_JB_MISSING_FRAME /\ content_len s = 0.

(** Sequence numbers the code is used with: far from the limits of [int]. *)
Definition seq_ok (i : Z) : Prop := -1073741824 <= i < 1073741824.

Record fl_wf (fl : jb_framelist) : Prop := {
  wf_max : 0 < max_count fl <= 1073741824;
  wf_slots : zlen (slots fl) = max_count fl;
  wf_head : 0 <= head fl < max_count fl;
  wf_size : 0 <= size fl <= max_count fl;
  wf_seq : -1073741824 <= origin fl + size fl <= 1073741824;
  wf_blank : forall i, size fl <= i < max_count fl ->
    blank (ring_at fl i);
  wf_disc : discarded_num fl = ndisc (window fl)
}.

Lemma ndisc_cons s l : ndisc (s :: l) = b2z (is_discarded (frame_type s)) + ndisc l.
Proof. reflexivity. Qed.

Lemma ndisc_app l k : ndisc (l ++ k) = ndisc l + ndisc k.
Proof. induction l as [|s l IH]; simpl; [done|]. rewrite IH. lia. Qed.

Lemma ndisc_range l : 0 <= ndisc l <= zlen l.
Proof.
  unfold zlen. induction l as [|s l IH]; simpl; [lia|].
  destruct (is_discarded (frame_type s)); simpl; lia.
Qed.

Lemma zlen_window fl : 0 <= size fl -> zlen (window fl) = size fl.
Proof. intros. unfold window, zlen. rewrite length_fmap, length_seqZ. lia. Qed.

Lemma window_lookup fl i :
  window fl !! i =
  if decide (Z.of_nat i < size fl) then Some (ring_at fl (Z.of_nat i)) else None.
Proof.
  unfold window. rewrite list_lookup_fmap. case_decide.
  - rewrite lookup_seqZ_lt by done. done.
  - rewrite lookup_seqZ_ge by lia. done.
Qed.

Lemma slot_at_set_slot fl p q f :
  0 <= p < zlen (slots fl) -> 0 <= q ->
  slot_at (set_slot p f fl) q = if decide (p = q) then f (slot_at fl q) else slot_at fl q.
Proof.
  unfold slot_at, set_slot, zlen. intros Hp Hq. simpl. case_decide as E.
  - subst q. rewrite list_lookup_alter, decide_True by done.
    destruct (lookup_lt_is_Some_2 (slots fl) (Z.to_nat p)) as [x ->]; [lia|]. done.
  - rewrite list_lookup_alter_ne by lia. done.
Qed.

Lemma zlen_set_slot p f fl : zlen (slots (set_slot p f fl)) = zlen (slots fl).
Proof. unfold zlen; simpl. by rewrite length_alter. Qed.

Lemma ring_pos_range fl i : 0 < max_count fl -> 0 <= ring_pos fl i < max_count fl.
Proof. intros. apply Z.mod_pos_bound; lia. Qed.

(** The position of a ring index, without the division. *)
Lemma ring_pos_case fl i :
  0 <= head fl < max_count fl -> 0 <= i <= max_count fl ->
  ring_pos fl i = if decide (head fl + i < max_count fl) then head fl + i
                  else head fl + i - max_count fl.
Proof.
  intros. unfold ring_pos. case_decide.
  - apply Z.mod_small; lia.
  - symmetry. apply Z.mod_unique_pos with 1; lia.
Qed.

Lemma ring_pos_inj fl i j :
  0 <= head fl < max_count fl -> 0 <= i < max_count fl -> 0 <= j < max_count fl ->
  ring_pos fl i = ring_pos fl j -> i = j.
Proof. intros. rewrite !ring_pos_case in * by lia. repeat case_decide; lia. Qed.

(** Updating the slot at ring index [j]. *)
Lemma ring_at_set_slot fl i j f :
  0 <= head fl < max_count fl -> zlen (slots fl) = max_count fl ->
  0 <= i < max_count fl -> 0 <= j < max_count fl ->
  ring_at (set_slot (ring_pos fl j) f fl) i =
  if decide (j = i) then f (ring_at fl i) else ring_at fl i.
Proof.
  intros Hh Hl Hi Hj. unfold ring_at.
  change (ring_pos (set_slot (ring_pos fl j) f fl) i) with (ring_pos fl i).
  pose proof (ring_pos_range fl i ltac:(lia)). pose proof (ring_pos_range fl j ltac:(lia)).
  rewrite slot_at_set_slot by lia. repeat case_decide; try congruence.
  exfalso. eauto using ring_pos_inj.
Qed.

(** ** Removal *)

Lemma seqZ_elem m n i : i ∈ seqZ m n <-> m <= i < m + n.
Proof. apply elem_of_seqZ. Qed.

Lemma ndisc_fmap_range fl ps : 0 <= ndisc (slot_at fl <$> ps).
Proof. apply ndisc_range. Qed.

Lemma fold_uncount fl ps :
  is_u32 (discarded_num fl) -> ndisc (slot_at fl <$> ps) <= discarded_num fl ->
  fold_left uncount_discarded ps fl
  = fl <| discarded_num := discarded_num fl - ndisc (slot_at fl <$> ps) |>.
Proof.
  revert fl. induction ps as [|p ps IH]; intros fl Hd Hn.
  { destruct fl; simpl. f_equal; lia. }
  pose proof (ndisc_fmap_range fl ps) as Hge. rewrite fmap_cons, ndisc_cons in *.
  cbn [fold_left]. unfold uncount_discarded at 2.
  destruct (is_discarded (frame_type (slot_at fl p))); cbn [b2z] in *.
  - set (fl1 := fl <| discarded_num ::= _ |>).
    assert (Hs : slot_at fl1 <$> ps = slot_at fl <$> ps) by reflexivity.
    assert (Hd1 : discarded_num fl1 = discarded_num fl - 1)
      by (unfold fl1; simpl; apply u32_small; unfold is_u32 in *; lia).
    rewrite IH by (rewrite ?Hs, ?Hd1; unfold is_u32 in *; lia).
    rewrite Hs, Hd1. destruct fl; simpl in *. f_equal; lia.
  - rewrite IH by (auto; lia). destruct fl; simpl. f_equal; lia.
Qed.

Lemma clear_slot_idemp s : clear_slot (clear_slot s) = clear_slot s.
Proof. reflexivity. Qed.

Lemma fold_clear fl ps :
  Forall (fun p => 0 <= p < zlen (slots fl)) ps ->
  exists sl, fold_left (fun fl i => set_slot i clear_slot fl) ps fl = fl <| slots := sl |> /\
    zlen sl = zlen (slots fl) /\
    forall q, 0 <= q -> slot_at (fl <| slots := sl |>) q =
      if decide (q ∈ ps) then clear_slot (slot_at fl q) else slot_at fl q.
Proof.
  revert fl. induction ps as [|p ps IH]; intros fl Hp; simpl.
  { exists (slots fl). split_and!; [by destruct fl|done|]. intros q Hq.
    by destruct fl. }
  apply Forall_cons in Hp as [Hp Hps].
  destruct (IH (set_slot p clear_slot fl)) as (sl & He & Hl & Hq).
  { by rewrite zlen_set_slot. }
  exists sl. rewrite He, Hl, zlen_set_slot. split_and!; [by destruct fl|done|].
  intros q H0. change (slot_at (fl <| slots := sl |>) q)
    with (slot_at ((set_slot p clear_slot fl) <| slots := sl |>) q).
  rewrite Hq, slot_at_set_slot by lia.
  destruct (decide (q ∈ ps)), (decide (p = q)), (decide (q ∈ p :: ps));
    rewrite ?clear_slot_idemp; try done;
    rewrite elem_of_cons in *; exfalso; intuition.
Qed.

Lemma remove_step_spec start n fl :
  0 <= start -> start + n <= zlen (slots fl) -> is_u32 (discarded_num fl) ->
  ndisc (slot_at fl <$> seqZ start n) <= discarded_num fl ->
  exists sl, remove_step start n fl
      = fl <| slots := sl |>
           <| discarded_num := discarded_num fl - ndisc (slot_at fl <$> seqZ start n) |> /\
    zlen sl = zlen (slots fl) /\
    forall q, 0 <= q -> slot_at (fl <| slots := sl |>) q =
      if decide (start <= q < start + n) then clear_slot (slot_at fl q) else slot_at fl q.
Proof.
  intros Hs Hn Hd Hc. unfold remove_step. rewrite fold_uncount by done.
  set (d := discarded_num fl - _).
  destruct (fold_clear (fl <| discarded_num := d |>) (seqZ start n)) as (sl & He & Hl & Hq).
  { apply Forall_forall. intros p Hp%seqZ_elem. simpl. lia. }
  exists sl. rewrite He. split_and!; [by destruct fl|done|].
  intros q H0. specialize (Hq q H0). unfold slot_at in *; simpl in *. rewrite Hq.
  repeat case_decide; try done; rewrite seqZ_elem in *; lia.
Qed.

(** Slots at consecutive positions are consecutive ring slots. *)
Lemma ring_segment fl i n :
  0 <= head fl < max_count fl -> 0 <= i -> i + n <= max_count fl ->
  (head fl + i + n <= max_count fl \/ max_count fl <= head fl + i) ->
  slot_at fl <$> seqZ (ring_pos fl i) n = ring_at fl <$> seqZ i n.
Proof.
  intros Hh Hi Hn Hc. destruct (decide (0 < n)) as [Hpos|]; [|by rewrite !seqZ_nil by lia].
  rewrite (ring_pos_case fl i) by lia.
  apply list_eq. intros k. rewrite !list_lookup_fmap.
  destruct (decide (Z.of_nat k < n)); [|by rewrite !lookup_seqZ_ge by lia].
  rewrite !lookup_seqZ_lt by lia. simpl. unfold ring_at. f_equal.
  rewrite ring_pos_case by lia. f_equal. repeat case_decide; lia.
Qed.

Lemma window_take fl n : 0 <= n <= size fl ->
  ring_at fl <$> seqZ 0 n = take (Z.to_nat n) (window fl).
Proof.
  intros. unfold window. rewrite <- fmap_take. f_equal.
  replace (size fl) with (n + (size fl - n)) by lia.
  rewrite seqZ_app by lia. rewrite take_app_length'; [done|rewrite length_seqZ; lia].
Qed.

Lemma window_drop fl n : 0 <= n <= size fl ->
  ring_at fl <$> seqZ n (size fl - n) = drop (Z.to_nat n) (window fl).
Proof.
  intros. unfold window. rewrite <- fmap_drop. f_equal.
  replace (size fl) with (n + (size fl - n)) at 2 by lia.
  rewrite seqZ_app by lia. rewrite drop_app_length'; [f_equal; lia|rewrite length_seqZ; lia].
Qed.

Lemma wf_disc_range fl : fl_wf fl -> 0 <= discarded_num fl <= size fl.
Proof.
  intros [? ? ? Hs ? ? ->]. pose proof (ndisc_range (window fl)).
  rewrite zlen_window in * by lia. lia.
Qed.

(** What a list of slots [sl] in place of the frame list's looks like in ring
    coordinates when the first [n] ring slots have been cleared. *)
Definition cleared (fl : jb_framelist) (n : Z) (sl : list jb_slot) : Prop :=
  zlen sl = zlen (slots fl) /\
  forall i, 0 <= i < max_count fl ->
    if decide (i < n) then blank (ring_at (fl <| slots := sl |>) i)
    else ring_at (fl <| slots := sl |>) i = ring_at fl i.

(** The two steps of the removal together. *)
Lemma remove_steps fl n :
  fl_wf fl -> 0 < n <= size fl ->
  let '(step1, step2) :=
    if u32 (head fl + n) >? max_count fl
    then (u32 (max_count fl - head fl), u32 (n - u32 (max_count fl - head fl)))
    else (n, 0) in
  let fl1 := remove_step (head fl) step1 fl in
  let fl2 := if truth step2 then remove_step 0 step2 fl1 else fl1 in
  exists sl, cleared fl n sl /\
    fl2 = fl <| slots := sl |>
             <| discarded_num := discarded_num fl - ndisc (take (Z.to_nat n) (window fl)) |>.
Proof.
  intros Hw Hn. pose proof (wf_disc_range fl Hw) as Hd.
  destruct Hw as [Hm Hl Hh Hs Hq Hb Hdn].
  rewrite (u32_small (head fl + n)), (u32_small (max_count fl - head fl))
    by (unfold is_u32; lia).
  rewrite <- window_take by lia.
  assert (Hsplit : window fl = (ring_at fl <$> seqZ 0 n) ++ drop (Z.to_nat n) (window fl))
    by (rewrite window_take by lia; by rewrite take_drop).
  assert (Hnd : ndisc (ring_at fl <$> seqZ 0 n) <= discarded_num fl)
    by (rewrite Hdn, Hsplit, ndisc_app; pose proof (ndisc_range (drop (Z.to_nat n) (window fl))); lia).
  assert (Hp0 : ring_pos fl 0 = head fl)
    by (rewrite ring_pos_case by lia; rewrite Z.add_0_r; case_decide; lia).
  destruct (Z.gtb_spec (head fl + n) (max_count fl)) as [Hgt|Hle]; simpl.
  - set (s1 := max_count fl - head fl). rewrite (u32_small (n - s1)) by (unfold is_u32; lia).
    assert (Happ : seqZ 0 n = seqZ 0 s1 ++ seqZ s1 (n - s1))
      by (change (seqZ s1) with (seqZ (0 + s1)); rewrite <- seqZ_app by lia; f_equal; lia).
    assert (Hps : ring_pos fl s1 = 0)
      by (rewrite ring_pos_case by lia; case_decide; lia).
    pose proof (ring_segment fl 0 s1) as Hr1. rewrite Hp0 in Hr1.
    pose proof (ring_segment fl s1 (n - s1)) as Hr2. rewrite Hps in Hr2.
    rewrite Happ, fmap_app, ndisc_app in Hnd |- *.
    pose proof (ndisc_range (ring_at fl <$> seqZ s1 (n - s1))) as Hg2.
    destruct (remove_step_spec (head fl) s1 fl) as (sl1 & E1 & Hl1 & Hq1);
      [lia|lia|unfold is_u32; lia|rewrite Hr1 by lia; lia|].
    rewrite Hr1 in E1 by lia. rewrite E1. unfold truth. destruct (Z.eqb_spec (n - s1) 0); [lia|]. cbn [negb].
    set (fl1 := fl <| slots := sl1 |> <| discarded_num := _ |>).
    assert (Hd1 : discarded_num fl1 = discarded_num fl - ndisc (ring_at fl <$> seqZ 0 s1))
      by reflexivity.
    pose proof (ndisc_range (ring_at fl <$> seqZ 0 s1)) as Hg1.
    assert (Hl1' : zlen (slots fl1) = max_count fl) by (unfold fl1; simpl; lia).
    assert (Hseg : slot_at fl1 <$> seqZ 0 (n - s1) = ring_at fl <$> seqZ s1 (n - s1)).
    { rewrite <- Hr2 by lia. apply list_fmap_ext. intros k p Hk.
      apply lookup_seqZ in Hk as [-> Hk].
      change (slot_at fl1 (0 + Z.of_nat k)) with (slot_at (fl <| slots := sl1 |>) (0 + Z.of_nat k)).
      rewrite Hq1 by lia. case_decide; [lia|done]. }
    destruct (remove_step_spec 0 (n - s1) fl1) as (sl2 & E2 & Hl2 & Hq2).
    { lia. } { lia. } { rewrite Hd1. unfold is_u32. lia. } { rewrite Hseg, Hd1. lia. }
    exists sl2. split.
    + split; [lia|]. intros i Hi.
      pose proof (ring_pos_range fl i ltac:(lia)) as Hpr. unfold ring_at.
      change (ring_pos (fl <| slots := sl2 |>) i) with (ring_pos fl i).
      specialize (Hq2 (ring_pos fl i) ltac:(lia)). specialize (Hq1 (ring_pos fl i) ltac:(lia)).
      change (slot_at (fl1 <| slots := sl2 |>) (ring_pos fl i))
        with (slot_at (fl <| slots := sl2 |>) (ring_pos fl i)) in Hq2.
      change (slot_at fl1 (ring_pos fl i))
        with (slot_at (fl <| slots := sl1 |>) (ring_pos fl i)) in Hq2.
      rewrite Hq2, Hq1. rewrite ring_pos_case in * by lia.
      repeat case_decide; try done; lia.
    + rewrite E2, Hseg, Hd1. unfold fl1.
      generalize (ndisc (ring_at fl <$> seqZ 0 s1)), (ndisc (ring_at fl <$> seqZ s1 (n - s1))).
      intros. destruct fl; simpl; f_equal; lia.
  - pose proof (ring_segment fl 0 n) as Hr. rewrite Hp0 in Hr.
    destruct (remove_step_spec (head fl) n fl) as (sl & E & Hsl & Hq0);
      [lia|lia|unfold is_u32; lia|rewrite Hr by lia; lia|].
    exists sl. rewrite E, Hr by lia. split; [|done]. split; [lia|]. intros i Hi.
    unfold ring_at. change (ring_pos (fl <| slots := sl |>) i) with (ring_pos fl i).
    pose proof (ring_pos_range fl i ltac:(lia)).
    rewrite Hq0 by lia. rewrite ring_pos_case by lia. repeat case_decide; try done; lia.
Qed.

(** The frame list after its head moved over [n] cleared slots. *)
Lemma advance_window fl n sl d :
  fl_wf fl -> 0 <= n <= size fl -> cleared fl n sl -> d = ndisc (drop (Z.to_nat n) (window fl)) ->
  let fl' := FrameList (frame_size fl) (max_count fl) sl (ring_pos fl n) (size fl - n) d
                       (origin fl + n) in
  fl_wf fl' /\ window fl' = drop (Z.to_nat n) (window fl).
Proof.
  intros [Hm Hl Hh Hs Hq Hb Hdn] Hn [Hsl Hr] Hd fl'.
  assert (Hring : forall i, 0 <= i < max_count fl ->
    ring_at fl' i = if decide (i + n < max_count fl)
                    then ring_at (fl <| slots := sl |>) (i + n)
                    else ring_at (fl <| slots := sl |>) (i + n - max_count fl)).
  { intros i Hi. unfold ring_at.
    change (ring_pos fl' i) with ((ring_pos fl n + i) mod max_count fl).
    change (slot_at fl') with (slot_at (fl <| slots := sl |>)).
    change (ring_pos (fl <| slots := sl |>)) with (ring_pos fl).
    unfold ring_pos. rewrite Zplus_mod_idemp_l.
    case_decide; f_equal; [f_equal; lia|].
    rewrite <- (Z_mod_plus_full (head fl + (i + n - max_count fl)) 1). f_equal. lia. }
  assert (Hwin : window fl' = drop (Z.to_nat n) (window fl)).
  { rewrite <- window_drop by lia. apply list_eq. intros k.
    unfold window at 1. rewrite !list_lookup_fmap. simpl (size fl').
    destruct (decide (Z.of_nat k < size fl - n)); [|by rewrite !lookup_seqZ_ge by lia].
    rewrite !lookup_seqZ_lt by lia. simpl. f_equal.
    rewrite Hring, decide_True by lia. specialize (Hr (0 + Z.of_nat k + n) ltac:(lia)).
    rewrite decide_False in Hr by lia. rewrite Hr. f_equal; lia. }
  split; [|done]. constructor; try (simpl; lia).
  - simpl. apply ring_pos_range. lia.
  - intros i Hi. simpl in Hi. rewrite Hring by lia. case_decide.
    + specialize (Hr (i + n) ltac:(lia)). rewrite decide_False in Hr by lia.
      rewrite Hr. apply Hb. lia.
    + specialize (Hr (i + n - max_count fl) ltac:(lia)). by rewrite decide_True in Hr by lia.
  - rewrite Hwin. exact Hd.
Qed.

Lemma remove_head_spec fl count :
  fl_wf fl -> 0 <= count ->
  let n := Z.min count (size fl) in
  let '(fl', r) := jb_framelist_remove_head fl count in
  r = n /\ fl_wf fl' /\ window fl' = drop (Z.to_nat n) (window fl) /\
  origin fl' = origin fl + n /\ size fl' = size fl - n /\
  max_count fl' = max_count fl /\ frame_size fl' = frame_size fl.
Proof.
  intros Hw Hc n. unfold jb_framelist_remove_head.
  assert (En : (if count >? size fl then size fl else count) = n)
    by (unfold n; destruct (Z.gtb_spec count (size fl)); lia).
  pose proof (wf_size fl Hw) as Hs. rewrite En.
  destruct (Z.eqb_spec n 0) as [->|Hn0].
  { rewrite Z.add_0_r, Z.sub_0_r, drop_0. by split_and!. }
  pose proof (remove_steps fl n Hw ltac:(lia)) as Hst.
  destruct (if u32 (head fl + n) >? max_count fl then _ else _) as [step1 step2].
  destruct Hst as (sl & Hcl & ->).
  pose proof (wf_max fl Hw). pose proof (wf_head fl Hw). pose proof (wf_seq fl Hw).
  assert (Hdn : discarded_num fl - ndisc (take (Z.to_nat n) (window fl))
                = ndisc (drop (Z.to_nat n) (window fl))).
  { rewrite (wf_disc fl Hw). rewrite <- (take_drop (Z.to_nat n) (window fl)) at 1.
    rewrite ndisc_app. lia. }
  destruct (advance_window fl n sl _ Hw ltac:(lia) Hcl Hdn) as [Hwf Hwin].
  cbn [modify frame_size max_count slots head size discarded_num origin].
  simpl. rewrite (s32_small (origin fl + n)), (u32_small (head fl + n)), (u32_small (size fl - n))
    by (unfold is_s32, is_u32; lia).
  split_and!; auto.
Qed.

(** ** Retrieval *)

Lemma slot_at_head fl : 0 <= head fl < max_count fl -> slot_at fl (head fl) = ring_at fl 0.
Proof.
  intros. unfold ring_at. rewrite ring_pos_case by lia.
  rewrite Z.add_0_r. by rewrite decide_True by lia.
Qed.

(** Length of the leading run of discarded frames. *)
Fixpoint lead_disc (l : list jb_slot) : Z :=
  match l with
  | [] => 0
  | s :: l => if is_discarded (frame_type s) then 1 + lead_disc l else 0
  end.

Lemma lead_disc_range l : 0 <= lead_disc l <= zlen l.
Proof.
  unfold zlen. induction l as [|s l IH]; simpl; [lia|].
  destruct (is_discarded _); lia.
Qed.

Lemma window_head fl : fl_wf fl -> 0 < size fl ->
  exists rest, window fl = slot_at fl (head fl) :: rest.
Proof.
  intros Hw Hs. rewrite slot_at_head by apply Hw. unfold window.
  replace (size fl) with (1 + (size fl - 1)) by lia. rewrite seqZ_app by lia.
  rewrite fmap_app. simpl. eauto.
Qed.

Lemma window_nil fl : fl_wf fl -> size fl = 0 -> window fl = [].
Proof. intros _ E. unfold window. by rewrite E. Qed.

Lemma skip_discarded_spec fuel fl prev :
  fl_wf fl -> (Z.to_nat (size fl) < fuel)%nat ->
  let k := lead_disc (window fl) in
  let '(fl', p) := skip_discarded fuel fl prev in
  fl_wf fl' /\ window fl' = drop (Z.to_nat k) (window fl) /\ origin fl' = origin fl + k /\
  size fl' = size fl - k /\ p = prev || (0 <? k) /\
  max_count fl' = max_count fl /\ frame_size fl' = frame_size fl.
Proof.
  revert fl prev. induction fuel as [|fuel IH]; intros fl prev Hw Hf; simpl; [lia|].
  pose proof (wf_size fl Hw) as Hs. destruct (decide (size fl = 0)) as [E0|E0].
  - rewrite (window_nil fl Hw E0), slot_at_head by apply Hw.
    destruct (wf_blank fl Hw 0) as [Hb _]; [pose proof (wf_max fl Hw); lia|].
    unfold is_discarded. rewrite Hb, bool_decide_eq_false_2 by done.
    simpl. rewrite Z.add_0_r, Z.sub_0_r, orb_false_r. split_and!; try done.
    by apply window_nil.
  - destruct (window_head fl Hw) as [rest Hwin]; [lia|]. rewrite Hwin. simpl.
    destruct (is_discarded (frame_type (slot_at fl (head fl)))) eqn:Ed; simpl.
    + pose proof (remove_head_spec fl 1 Hw ltac:(lia)) as Hr.
      replace (Z.min 1 (size fl)) with 1 in Hr by lia.
      destruct (jb_framelist_remove_head fl 1) as [fl1 r].
      destruct Hr as (_ & Hw1 & Hwin1 & Ho & Hsz & Hm & Hfs). simpl fst.
      specialize (IH fl1 true Hw1 ltac:(lia)). rewrite Hwin in Hwin1. simpl in Hwin1.
      rewrite Hwin1 in IH. destruct (skip_discarded fuel fl1 true) as [fl' p].
      destruct IH as (Hw' & Hwin' & Ho' & Hs' & Hp & Hm' & Hfs').
      pose proof (lead_disc_range rest). rewrite drop_0 in *.
      replace (Z.to_nat (1 + lead_disc rest)) with (S (Z.to_nat (lead_disc rest))) by lia.
      destruct (Z.ltb_spec 0 (1 + lead_disc rest)); [|lia].
      rewrite orb_true_r. simpl. split_and!; try done; try lia; congruence.
    + rewrite Z.add_0_r, Z.sub_0_r, orb_false_r. by split_and!.
Qed.

(** What [get] hands out for a frame: the frame itself, or a missing one when
    discarded frames were skipped just before it. *)
Definition handed_out (s : jb_slot) (skipped : bool) (max_size : option Z) (seq : Z) : jb_frame :=
  if skipped then Frame None PJMEDIA_JB_MISSING_FRAME 0 0 (ts s) seq
  else
    let n := Z.min (default (content_len s) max_size) (content_len s) in
    Frame (Some (take (Z.to_nat n) (content s))) (frame_type s) n (bit_info s) (ts s) seq.

(** Clearing the head slot in [get]. *)
Lemma cleared_head fl f :
  fl_wf fl -> 0 < size fl -> (forall s, blank (f s)) ->
  cleared fl 1 (slots (set_slot (head fl) f fl)).
Proof.
  intros Hw Hs Hf. pose proof (wf_head fl Hw). pose proof (wf_max fl Hw).
  split; [apply zlen_set_slot|]. intros i Hi.
  change (ring_at (fl <| slots := _ |>) i) with (ring_at (set_slot (head fl) f fl) i).
  assert (Hp : ring_pos fl 0 = head fl)
    by (rewrite ring_pos_case by lia; rewrite Z.add_0_r; by rewrite decide_True by lia).
  rewrite <- Hp, ring_at_set_slot; [|apply Hw..|lia|lia].
  repeat case_decide; try done; lia.
Qed.

Lemma lead_disc_drop l s rest :
  drop (Z.to_nat (lead_disc l)) l = s :: rest -> is_discarded (frame_type s) = false.
Proof.
  induction l as [|x l IH]; simpl; [done|].
  destruct (is_discarded (frame_type x)) eqn:E; simpl; [|by injection 1 as -> ->].
  pose proof (lead_disc_range l).
  by replace (Z.to_nat (1 + lead_disc l)) with (S (Z.to_nat (lead_disc l))) by lia.
Qed.

(** What [get] does to the window. *)
Lemma get_spec fl max_size :
  fl_wf fl ->
  let k := lead_disc (window fl) in
  let '(fl', r) := jb_framelist_get fl max_size in
  fl_wf fl' /\ max_count fl' = max_count fl /\ frame_size fl' = frame_size fl /\
  match drop (Z.to_nat k) (window fl) with
  | [] => r = None /\ window fl' = [] /\ origin fl' = origin fl + k
  | s :: rest =>
      r = Some (handed_out s (0 <? k) max_size (origin fl + k)) /\
      window fl' = rest /\ origin fl' = origin fl + k + 1
  end.
Proof.
  intros Hw k. unfold jb_framelist_get, truth. pose proof (wf_size fl Hw) as Hs.
  destruct (Z.eqb_spec (size fl) 0) as [E0|E0]; cbn [negb].
  { subst k. rewrite (window_nil fl Hw E0). simpl. rewrite Z.add_0_r.
    by split_and!. }
  pose proof (skip_discarded_spec (S (Z.to_nat (size fl))) fl false Hw ltac:(lia)) as Hsk.
  destruct (skip_discarded _ fl false) as [fl1 p].
  destruct Hsk as (Hw1 & Hwin1 & Ho1 & Hs1 & -> & Hm1 & Hf1). fold k in Hwin1, Ho1, Hs1 |- *.
  rewrite orb_false_l. rewrite <- Hwin1.
  destruct (Z.eqb_spec (size fl1) 0) as [E1|E1]; cbn [negb].
  { rewrite (window_nil fl1 Hw1 E1). by split_and!. }
  pose proof (wf_size fl1 Hw1). pose proof (wf_head fl1 Hw1). pose proof (wf_max fl1 Hw1).
  pose proof (wf_seq fl1 Hw1).
  destruct (window_head fl1 Hw1) as [rest Hwin]; [lia|]. rewrite Hwin.
  set (f := fun s => (clear_slot s) <| bit_info := 0 |> <| ts := 0 |>).
  assert (Hnd : discarded_num fl1 = ndisc (drop (Z.to_nat 1) (window fl1))).
  { rewrite (wf_disc fl1 Hw1), Hwin, ndisc_cons.
    rewrite Hwin in Hwin1. symmetry in Hwin1. by rewrite (lead_disc_drop _ _ _ Hwin1). }
  destruct (advance_window fl1 1 _ _ Hw1 ltac:(lia)
              (cleared_head fl1 f Hw1 ltac:(lia) ltac:(done)) Hnd) as [Hw' Hwin'].
  rewrite Hwin in Hwin'. unfold ring_pos in *.
  rewrite Ho1. cbn [modify]. fold f. simpl in *. rewrite Ho1 in *.
  rewrite (s32_small (origin fl + k + 1)), (u32_small (head fl1 + 1)), (u32_small (size fl1 - 1))
    by (unfold is_s32, is_u32; lia).
  by split_and!.
Qed.

(** ** Storing *)

(** The slot [put_store] leaves for a normal frame. *)
Definition new_slot (frame : list Z) (fsize bits stamp : Z) (old : jb_slot) : jb_slot :=
  Slot (take (Z.to_nat fsize) frame ++ drop (Z.to_nat fsize) (content old))
       PJMEDIA_JB_NORMAL_FRAME fsize bits stamp.

Lemma ndisc_insert l k x y : l !! k = Some y ->
  is_discarded (frame_type y) = false -> is_discarded (frame_type x) = false ->
  ndisc (<[k := x]> l) = ndisc l.
Proof.
  revert k. induction l as [|s l IH]; intros [|k]; simpl; try done.
  - intros [= ->] -> ->. done.
  - intros Hk Hy Hx. f_equal. by apply IH.
Qed.

Lemma ndisc_blank l : Forall blank l -> ndisc l = 0.
Proof.
  induction 1 as [|s l [Hs _] _ IH]; [done|]. rewrite ndisc_cons, IH.
  unfold is_discarded. by rewrite Hs, bool_decide_eq_false_2.
Qed.

Lemma blank_not_discarded s : blank s -> is_discarded (frame_type s) = false.
Proof. intros [-> _]. done. Qed.

(** The ring after a store at index [j], written with the frame list's own
    fields. *)
Definition stored (fl : jb_framelist) (j : Z) (g : jb_slot -> jb_slot) : jb_framelist :=
  (set_slot (ring_pos fl j) g fl) <| size := Z.max (size fl) (j + 1) |>.

Lemma stored_ring fl j g i :
  fl_wf fl -> 0 <= j < max_count fl -> 0 <= i < max_count fl ->
  ring_at (stored fl j g) i = if decide (j = i) then g (ring_at fl i) else ring_at fl i.
Proof.
  intros Hw Hj Hi. change (ring_at (stored fl j g) i)
    with (ring_at (set_slot (ring_pos fl j) g fl) i).
  apply ring_at_set_slot; auto; apply Hw.
Qed.

(** Storing over a slot of the window. *)
Lemma stored_inside fl j g :
  fl_wf fl -> 0 <= j < size fl ->
  window (stored fl j g) = <[Z.to_nat j := g (ring_at fl j)]> (window fl).
Proof.
  intros Hw Hj. pose proof (wf_size fl Hw). apply list_eq. intros k.
  pose proof (zlen_window fl ltac:(lia)) as Hlen. unfold zlen in Hlen.
  rewrite window_lookup. change (size (stored fl j g)) with (Z.max (size fl) (j + 1)).
  rewrite Z.max_l by lia. destruct (decide (j = Z.of_nat k)) as [->|Hne].
  - rewrite Nat2Z.id, list_lookup_insert_eq, decide_True by lia.
    rewrite stored_ring by (auto; lia). by rewrite decide_True.
  - rewrite list_lookup_insert_ne, window_lookup by lia.
    case_decide; [|done]. rewrite stored_ring by (auto; lia). by rewrite decide_False.
Qed.

(** Storing behind the window. *)
Lemma stored_behind fl j g :
  fl_wf fl -> size fl <= j < max_count fl ->
  exists gap, Forall blank gap /\ zlen gap = j - size fl /\
    window (stored fl j g) = window fl ++ gap ++ [g (ring_at fl j)].
Proof.
  intros Hw Hj. pose proof (wf_size fl Hw) as Hs.
  exists (ring_at fl <$> seqZ (size fl) (j - size fl)). split_and!.
  - apply Forall_fmap, Forall_forall. intros i Hi%seqZ_elem. apply (wf_blank fl Hw). lia.
  - unfold zlen. rewrite length_fmap, length_seqZ. lia.
  - unfold window. change (size (stored fl j g)) with (Z.max (size fl) (j + 1)).
    rewrite Z.max_r by lia.
    replace (j + 1) with (size fl + ((j - size fl) + 1)) by lia.
    rewrite !seqZ_app by lia. rewrite !fmap_app. f_equal; [|f_equal].
    + apply list_fmap_ext. intros k i Hk. apply lookup_seqZ in Hk.
      rewrite stored_ring by (auto; lia). by rewrite decide_False by lia.
    + apply list_fmap_ext. intros k i Hk. apply lookup_seqZ in Hk.
      rewrite stored_ring by (auto; lia). by rewrite decide_False by lia.
    + replace (0 + size fl + (j - size fl)) with j by lia. simpl.
      rewrite stored_ring by (auto; lia). by rewrite decide_True by lia.
Qed.

Lemma stored_wf fl j g :
  fl_wf fl -> 0 <= j < max_count fl -> seq_ok (origin fl + j) ->
  is_discarded (frame_type (ring_at fl j)) = false ->
  is_discarded (frame_type (g (ring_at fl j))) = false ->
  fl_wf (stored fl j g).
Proof.
  intros Hw Hj Hq Hd Hd'. unfold seq_ok in Hq. pose proof (wf_size fl Hw).
  pose proof (wf_seq fl Hw). constructor; try apply Hw; try (simpl; lia).
  - unfold stored. simpl. pose proof (zlen_set_slot (ring_pos fl j) g fl) as Hz.
    simpl in Hz. rewrite Hz. apply Hw.
  - intros i Hi. unfold stored in Hi. simpl in Hi.
    rewrite stored_ring by (auto; lia). rewrite decide_False by lia. apply Hw. lia.
  - change (discarded_num (stored fl j g)) with (discarded_num fl). rewrite (wf_disc fl Hw).
    destruct (decide (j < size fl)).
    + rewrite stored_inside by (auto; lia).
      erewrite ndisc_insert; [done| |exact Hd|exact Hd'].
      rewrite window_lookup, Z2Nat.id by lia. by rewrite decide_True by lia.
    + destruct (stored_behind fl j g Hw ltac:(lia)) as (gap & Hg & _ & ->).
      rewrite !ndisc_app, (ndisc_blank gap) by done. rewrite ndisc_cons, Hd'. simpl. lia.
Qed.

Section Put.
Variables (frame : list Z) (fsize bits stamp : Z).
Let put fl index :=
  jb_framelist_put_at fl index frame fsize bits stamp PJMEDIA_JB_NORMAL_FRAME.
Let new := new_slot frame fsize bits stamp.

Lemma put_store_spec fl j :
  fl_wf fl -> 0 <= j < max_count fl -> seq_ok (origin fl + j) ->
  put_store fl (origin fl + j) j frame fsize bits stamp PJMEDIA_JB_NORMAL_FRAME =
  if is_missing (frame_type (ring_at fl j))
  then (stored fl j new, PJ_SUCCESS) else (fl, PJ_EEXISTS).
Proof.
  intros Hw Hj Hq. unfold seq_ok in Hq. destruct Hw as [Hm Hl Hh Hs Hsq Hb Hd].
  unfold put_store. rewrite (u32_small (head fl + j)) by (unfold is_u32; lia).
  fold (ring_pos fl j). change (slot_at fl (ring_pos fl j)) with (ring_at fl j).
  destruct (is_missing (frame_type (ring_at fl j))); simpl; [|done].
  f_equal. rewrite (s32_small (size fl)), (u32_small (j + 1)) by (unfold is_s32, is_u32; lia).
  unfold stored, set_slot, new, new_slot.
  destruct (Z.leb_spec (origin fl + size fl) (origin fl + j)); simpl;
    [rewrite Z.max_r by lia|rewrite Z.max_l by lia];
    rewrite alter_alter; destruct fl; reflexivity.
Qed.

(** What [put_at] decides from the numbers alone. *)
Inductive put_plan :=
  | PlanReject (st : pj_status)  (* nothing changes *)
  | PlanRelabelFull              (* sequence restart of a full buffer *)
  | PlanStore (d : Z)            (* into the window or behind it *)
  | PlanRelabel                  (* sequence restart: the frame follows the last one *)
  | PlanFlush.                   (* the frame starts the buffer afresh *)

Definition plan_of (cap o n index : Z) : put_plan :=
  if index <? o then
    if o - index <? JB_MAX_MISORDER then PlanReject PJ_ETOOSMALL
    else if u32 (o + n) >=? MAX_FRAME_INDEX then
      if n =? 0 then PlanFlush
      else if n >=? cap then if n >? JB_MAX_DROPOUT then PlanFlush else PlanRelabelFull
      else PlanRelabel
    else PlanFlush
  else if n =? 0 then PlanFlush
  else if index - o >=? cap then
    if index - o >? JB_MAX_DROPOUT then PlanFlush else PlanReject PJ_ETOOMANY
  else PlanStore (index - o).

Definition put_post (fl : jb_framelist) (index : Z) (fl' : jb_framelist) (st : pj_status) :
    Prop :=
  let is_new s := exists old, s = new old in
  match plan_of (max_count fl) (origin fl) (size fl) index with
  | PlanReject e => st = e /\ fl' = fl
  | PlanRelabelFull => st = PJ_ETOOMANY /\ fl' = fl <| origin := index - size fl |>
  | PlanStore d =>
      match window fl !! Z.to_nat d with
      | Some s =>
          if is_missing (frame_type s) then
            st = PJ_SUCCESS /\ origin fl' = origin fl /\
            window fl' = <[Z.to_nat d := new s]> (window fl)
          else st = PJ_EEXISTS /\ fl' = fl
      | None =>
          st = PJ_SUCCESS /\ origin fl' = origin fl /\
          exists gap s, Forall blank gap /\ is_new s /\ zlen gap = d - size fl /\
            window fl' = window fl ++ gap ++ [s]
      end
  | PlanRelabel =>
      st = PJ_SUCCESS /\ origin fl' = index - size fl /\
      exists s, is_new s /\ window fl' = window fl ++ [s]
  | PlanFlush =>
      st = PJ_SUCCESS /\ origin fl' = index /\ exists s, is_new s /\ window fl' = [s]
  end.

Lemma reset_wf fl : fl_wf fl -> fl_wf (jb_framelist_reset fl).
Proof.
  intros [Hm Hl Hh Hs Hq Hb Hd]. constructor; simpl; try lia.
  - unfold zlen in *. rewrite length_map. done.
  - unfold INVALID_OFFSET. lia.
  - intros i _. unfold ring_at, slot_at; simpl.
    rewrite list_lookup_fmap. by destruct (slots fl !! _).
Qed.

(** An empty buffer takes any frame. *)
Lemma relocated_wf fl o : fl_wf fl -> -1073741824 <= o + size fl <= 1073741824 ->
  fl_wf (fl <| origin := o |>).
Proof. intros [] ?. constructor; simpl; auto. Qed.

Lemma put_flush fl index :
  fl_wf fl -> size fl = 0 -> seq_ok index -> origin fl = index ->
  exists fl', put_store fl index 0 frame fsize bits stamp PJMEDIA_JB_NORMAL_FRAME
    = (fl', PJ_SUCCESS) /\ fl_wf fl' /\ max_count fl' = max_count fl /\
    frame_size fl' = frame_size fl /\ origin fl' = index /\
    exists s, (exists old, s = new old) /\ window fl' = [s].
Proof.
  intros Hw H0 Hq <-. pose proof (wf_max fl Hw).
  pose proof (wf_blank fl Hw 0 ltac:(lia)) as Hb.
  pose proof (put_store_spec fl 0 Hw ltac:(lia)) as E. rewrite Z.add_0_r in E.
  rewrite E by done. clear E.
  unfold is_missing. rewrite (proj1 Hb), bool_decide_eq_true_2 by done.
  eexists; split; [reflexivity|]. split_and!; try done.
  - apply stored_wf; auto using blank_not_discarded; [lia|by rewrite Z.add_0_r].
  - destruct (stored_behind fl 0 new Hw ltac:(lia)) as (gap & _ & Hg & ->).
    rewrite window_nil by auto. destruct gap; [|unfold zlen in Hg; simpl in Hg; lia].
    simpl. eauto.
Qed.

Lemma put_locate_spec fl index :
  fl_wf fl -> seq_ok index ->
  put_locate fl index =
  match plan_of (max_count fl) (origin fl) (size fl) index with
  | PlanReject PJ_ETOOSMALL => (fl, PJ_ETOOSMALL, index - origin fl)
  | PlanStore d => (fl, PJ_SUCCESS, d)
  | PlanReject _ => (fl, PJ_SUCCESS, index - origin fl)
  | PlanRelabel | PlanRelabelFull => (fl <| origin := index - size fl |>, PJ_SUCCESS, size fl)
  | PlanFlush =>
      if (index <? origin fl) && negb (u32 (origin fl + size fl) >=? MAX_FRAME_INDEX)
      then ((jb_framelist_reset fl) <| origin := index |>, PJ_SUCCESS, 0)
      else if size fl =? 0 then (fl <| origin := index |>, PJ_SUCCESS, 0)
      else if index <? origin fl
      then (fl <| origin := index - size fl |>, PJ_SUCCESS, size fl)
      else (fl, PJ_SUCCESS, index - origin fl)
  end.
Proof.
  intros Hw Hq. unfold put_locate, plan_of, seq_ok in *.
  pose proof (wf_size fl Hw) as Hs. pose proof (wf_max fl Hw) as Hm.
  rewrite (s32_small (index - size fl)), (s32_small (size fl)) by (unfold is_s32; lia).
  replace (index - origin fl <? 0) with (index <? origin fl) by lia.
  destruct (index <? origin fl); simpl; [|by repeat case_match; simplify_eq].
  destruct (origin fl - index <? JB_MAX_MISORDER); simpl; [done|].
  destruct (u32 (origin fl + size fl) >=? MAX_FRAME_INDEX); simpl.
  - by repeat case_match; simplify_eq.
  - by destruct (size fl =? 0).
Qed.

(** The rest of [put_at] once the frame is placed. *)
Definition put_rest (fl : jb_framelist) (index d : Z) : jb_framelist * pj_status :=
  let '(fl, st, d) := put_capacity fl index d in
  if bool_decide (st = PJ_SUCCESS)
  then put_store fl index d frame fsize bits stamp PJMEDIA_JB_NORMAL_FRAME
  else (fl, st).

Definition flushed (fl : jb_framelist) (index : Z) (fl' : jb_framelist) : Prop :=
  fl_wf fl' /\ max_count fl' = max_count fl /\ frame_size fl' = frame_size fl /\
  origin fl' = index /\ exists s, (exists old, s = new old) /\ window fl' = [s].

Lemma put_rest_flush fl index : fl_wf fl -> seq_ok index -> size fl = 0 ->
  exists fl', put_rest (fl <| origin := index |>) index 0 = (fl', PJ_SUCCESS) /\
    flushed fl index fl'.
Proof.
  intros Hw Hq H0. unfold put_rest, put_capacity, seq_ok in *. pose proof (wf_max fl Hw).
  simpl. rewrite s32_small by (unfold is_s32; lia).
  destruct (Z.geb_spec 0 (max_count fl)); [lia|]. simpl.
  destruct (put_flush (fl <| origin := index |>) index) as (fl' & -> & ?&?&?&?&?);
    [apply relocated_wf; auto; lia|done..|]. exists fl'. by split_and!.
Qed.

Lemma put_rest_spec fl d :
  fl_wf fl -> 0 <= d -> seq_ok (origin fl + d) ->
  if d >=? max_count fl then
    if d >? JB_MAX_DROPOUT then
      exists fl', put_rest fl (origin fl + d) d = (fl', PJ_SUCCESS) /\
        flushed fl (origin fl + d) fl'
    else put_rest fl (origin fl + d) d = (fl, PJ_ETOOMANY)
  else put_rest fl (origin fl + d) d =
    if is_missing (frame_type (ring_at fl d))
    then (stored fl d new, PJ_SUCCESS) else (fl, PJ_EEXISTS).
Proof.
  intros Hw Hd Hq. unfold seq_ok in Hq. pose proof (wf_max fl Hw).
  destruct (Z.geb_spec d (max_count fl)).
  - destruct (Z.gtb_spec d JB_MAX_DROPOUT).
    + destruct (put_rest_flush (jb_framelist_reset fl) (origin fl + d)) as (fl' & He & Hf);
        [by apply reset_wf|done|done|]. exists fl'. split; [|done]. rewrite <- He.
      unfold put_rest, put_capacity. simpl. rewrite s32_small by (unfold is_s32; lia).
      destruct (Z.geb_spec d (max_count fl)), (Z.gtb_spec d JB_MAX_DROPOUT),
        (Z.geb_spec 0 (max_count fl)); try lia. done.
    + unfold put_rest, put_capacity. rewrite s32_small by (unfold is_s32; lia).
      destruct (Z.geb_spec d (max_count fl)), (Z.gtb_spec d JB_MAX_DROPOUT); try lia. done.
  - unfold put_rest, put_capacity. rewrite s32_small by (unfold is_s32; lia).
    destruct (Z.geb_spec d (max_count fl)); [lia|]. simpl.
    apply put_store_spec; auto; lia.
Qed.

Lemma put_unfold fl index : fsize <= frame_size fl ->
  put fl index = let '(fl', st, d) := put_locate fl index in
    if bool_decide (st = PJ_SUCCESS) then put_rest fl' index d else (fl', st).
Proof.
  intros. unfold put, jb_framelist_put_at. destruct (Z.gtb_spec fsize (frame_size fl)); [lia|].
  reflexivity.
Qed.

Lemma plan_flush_past cap o n index :
  plan_of cap o n index = PlanFlush ->
  n <> 0 -> (index < o -> MAX_FRAME_INDEX <= u32 (o + n)) ->
  (if index <? o then n else index - o) >= cap /\
  (if index <? o then n else index - o) > JB_MAX_DROPOUT.
Proof.
  unfold plan_of. intros Hp Hn Ho.
  destruct (Z.ltb_spec index o).
  - specialize (Ho ltac:(lia)). destruct (o - index <? JB_MAX_MISORDER); [done|].
    destruct (Z.geb_spec (u32 (o + n)) MAX_FRAME_INDEX); [|lia].
    destruct (Z.eqb_spec n 0); [lia|]. destruct (Z.geb_spec n cap); [|done].
    destruct (Z.gtb_spec n JB_MAX_DROPOUT); [lia|done].
  - destruct (Z.eqb_spec n 0); [lia|]. destruct (Z.geb_spec (index - o) cap); [|done].
    destruct (Z.gtb_spec (index - o) JB_MAX_DROPOUT); [lia|done].
Qed.

(** A flush, whichever way it comes about. *)
Lemma put_flush_spec fl index :
  fl_wf fl -> seq_ok index -> fsize <= frame_size fl ->
  plan_of (max_count fl) (origin fl) (size fl) index = PlanFlush ->
  exists fl', put fl index = (fl', PJ_SUCCESS) /\ flushed fl index fl'.
Proof.
  intros Hw Hq Hf Hp. rewrite put_unfold, put_locate_spec, Hp by done.
  destruct ((index <? origin fl) && _) eqn:E1.
  { apply (put_rest_flush (jb_framelist_reset fl)); [by apply reset_wf|done|done]. }
  destruct (Z.eqb_spec (size fl) 0); [by apply put_rest_flush|].
  destruct (plan_flush_past _ _ _ _ Hp) as [Hc Hd]; [done|lia|].
  pose proof (wf_size fl Hw). unfold seq_ok in *. pose proof (wf_max fl Hw).
  destruct (Z.ltb_spec index (origin fl)); simpl.
  - pose proof (put_rest_spec (fl <| origin := index - size fl |>) (size fl)) as Hr.
    simpl in Hr. replace (index - size fl + size fl) with index in Hr by lia.
    destruct (Z.geb_spec (size fl) (max_count fl)), (Z.gtb_spec (size fl) JB_MAX_DROPOUT);
      try lia. apply Hr; [apply relocated_wf; auto; lia|lia|done].
  - pose proof (put_rest_spec fl (index - origin fl) Hw) as Hr.
    replace (origin fl + (index - origin fl)) with index in Hr by lia.
    destruct (Z.geb_spec (index - origin fl) (max_count fl)),
      (Z.gtb_spec (index - origin fl) JB_MAX_DROPOUT); try lia. apply Hr; [lia|done].
Qed.

Lemma plan_of_inv cap o n index :
  match plan_of cap o n index with
  | PlanReject e =>
      e = PJ_ETOOSMALL \/
      e = PJ_ETOOMANY /\ o <= index /\ index - o >= cap /\ index - o <= JB_MAX_DROPOUT
  | PlanRelabelFull => n >= cap /\ n <= JB_MAX_DROPOUT
  | PlanStore d => d = index - o /\ 0 <= d < cap
  | PlanRelabel => n < cap
  | PlanFlush => True
  end.
Proof.
  unfold plan_of. destruct (Z.ltb_spec index o).
  - destruct (_ <? _); [by left|]. destruct (_ >=? _); [|done].
    destruct (_ =? _); [done|]. destruct (Z.geb_spec n cap); [|lia].
    destruct (Z.gtb_spec n JB_MAX_DROPOUT); [done|lia].
  - destruct (_ =? _); [done|]. destruct (Z.geb_spec (index - o) cap); [|lia].
    destruct (Z.gtb_spec (index - o) JB_MAX_DROPOUT); [done|right; split_and!; done || lia].
Qed.

(** A store inside the capacity, in terms of the window. *)
Lemma put_rest_store fl d :
  fl_wf fl -> 0 <= d < max_count fl -> seq_ok (origin fl + d) ->
  let '(fl', st) := put_rest fl (origin fl + d) d in
  fl_wf fl' /\ max_count fl' = max_count fl /\ frame_size fl' = frame_size fl /\
  match window fl !! Z.to_nat d with
  | Some s =>
      if is_missing (frame_type s) then
        st = PJ_SUCCESS /\ origin fl' = origin fl /\
        window fl' = <[Z.to_nat d := new s]> (window fl)
      else st = PJ_EEXISTS /\ fl' = fl
  | None =>
      st = PJ_SUCCESS /\ origin fl' = origin fl /\
      exists gap s, Forall blank gap /\ (exists old, s = new old) /\ zlen gap = d - size fl /\
        window fl' = window fl ++ gap ++ [s]
  end.
Proof.
  intros Hw Hd Hq. pose proof (put_rest_spec fl d Hw ltac:(lia) Hq) as Hr.
  destruct (Z.geb_spec d (max_count fl)); [lia|]. rewrite Hr, window_lookup, Z2Nat.id by lia.
  destruct (is_missing (frame_type (ring_at fl d))) eqn:Em.
  - assert (Hnd : is_discarded (frame_type (ring_at fl d)) = false)
      by (unfold is_missing in Em; apply bool_decide_eq_true in Em; by rewrite Em).
    split_and!; [by apply stored_wf|done|done|]. case_decide.
    + rewrite Em. split_and!; [done|done|]. apply stored_inside; auto; lia.
    + split_and!; [done|done|].
      destruct (stored_behind fl d new Hw ltac:(lia)) as (gap & Hg & Hz & ->). eauto 10.
  - split_and!; [done..|]. case_decide; [by rewrite Em|].
    destruct (wf_blank fl Hw d ltac:(lia)) as [E _]. by rewrite E in Em.
Qed.

(** What [put_at] does to the window. *)
Lemma put_at_spec fl index :
  fl_wf fl -> seq_ok index -> fsize <= frame_size fl ->
  let '(fl', st) := put fl index in
  fl_wf fl' /\ max_count fl' = max_count fl /\ frame_size fl' = frame_size fl /\
  put_post fl index fl' st.
Proof.
  intros Hw Hq Hf. pose proof (wf_size fl Hw). pose proof (wf_max fl Hw).
  pose proof (plan_of_inv (max_count fl) (origin fl) (size fl) index) as Hi.
  unfold put_post, seq_ok in *.
  destruct (plan_of _ _ _ index) as [e| |d| |] eqn:Hp;
    [..|by destruct (put_flush_spec fl index Hw Hq Hf Hp) as (fl' & -> & ?&?&?&?&?); split_and!];
    rewrite put_unfold, put_locate_spec, Hp by done.
  - destruct Hi as [->|(-> & Ho & Hc & Hd)]; simpl; [by split_and!|].
    pose proof (put_rest_spec fl (index - origin fl) Hw) as Hr.
    replace (origin fl + (index - origin fl)) with index in Hr by lia.
    destruct (Z.geb_spec (index - origin fl) (max_count fl)),
      (Z.gtb_spec (index - origin fl) JB_MAX_DROPOUT); try lia.
    rewrite Hr by (unfold seq_ok; lia). by split_and!.
  - set (fl1 := fl <| origin := index - size fl |>).
    assert (Hw1 : fl_wf fl1) by (apply relocated_wf; auto; lia). simpl.
    pose proof (put_rest_spec fl1 (size fl) Hw1) as Hr. unfold fl1 in Hr at 1 2 3 4 5; simpl in Hr.
    replace (index - size fl + size fl) with index in Hr by lia.
    destruct (Z.geb_spec (size fl) (max_count fl)), (Z.gtb_spec (size fl) JB_MAX_DROPOUT); try lia.
    rewrite Hr by (unfold seq_ok; lia). by split_and!.
  - destruct Hi as [-> Hd]. simpl.
    pose proof (put_rest_store fl (index - origin fl) Hw Hd) as Hr.
    replace (origin fl + (index - origin fl)) with index in Hr by lia. by apply Hr.
  - set (fl1 := fl <| origin := index - size fl |>).
    assert (Hw1 : fl_wf fl1) by (apply relocated_wf; auto; lia). simpl.
    pose proof (put_rest_store fl1 (size fl) Hw1 ltac:(simpl; lia)) as Hr.
    change (origin fl1) with (index - size fl) in Hr.
    replace (index - size fl + size fl) with index in Hr by lia. specialize (Hr Hq).
    destruct (put_rest fl1 index (size fl)) as [fl' st].
    rewrite window_lookup, Z2Nat.id, decide_False in Hr by (simpl; lia).
    destruct Hr as (?&?&?&?&?& gap & s &?&?& Hz &->). split_and!; try done.
    exists s. split; [done|]. change (size fl1) with (size fl) in Hz.
    destruct gap; [done|]. unfold zlen in Hz; simpl in Hz; lia.
Qed.
End Put.

(** ** Discarding and peeking *)

Definition discard_slot (s : jb_slot) : jb_slot :=
  s <| frame_type := PJMEDIA_JB_DISCARDED_FRAME |>.

Lemma ndisc_discard l k s : l !! k = Some s -> is_discarded (frame_type s) = false ->
  ndisc (alter discard_slot k l) = ndisc l + 1.
Proof.
  revert k. induction l as [|x l IH]; intros [|k]; try done.
  - intros [= ->] Hd. change (alter discard_slot 0%nat (s :: l)) with (discard_slot s :: l).
    rewrite !ndisc_cons, Hd. simpl. lia.
  - intros Hk Hd. change (alter discard_slot (S k) (x :: l)) with (x :: alter discard_slot k l).
    rewrite !ndisc_cons, (IH k Hk Hd). lia.
Qed.

Lemma window_set_slot fl j f :
  fl_wf fl -> 0 <= j < size fl ->
  window (set_slot (ring_pos fl j) f fl) = alter f (Z.to_nat j) (window fl).
Proof.
  intros Hw Hj. pose proof (wf_size fl Hw). apply list_eq. intros k.
  rewrite window_lookup. change (size (set_slot (ring_pos fl j) f fl)) with (size fl).
  destruct (decide (Z.to_nat j = k)) as [<-|Hne].
  - rewrite list_lookup_alter, window_lookup, !Z2Nat.id by lia.
    rewrite !decide_True by (done || lia). simpl.
    rewrite ring_at_set_slot by (try apply Hw; lia). by rewrite decide_True.
  - rewrite list_lookup_alter_ne, window_lookup by done. case_decide; [|done].
    rewrite ring_at_set_slot by (try apply Hw; lia). rewrite decide_False by lia. done.
Qed.

(** Discarding a frame of the window that is not discarded already. *)
Lemma discard_spec fl index :
  fl_wf fl ->
  let d := index - origin fl in
  let '(fl', st) := jb_framelist_discard fl index in
  (0 <= d < size fl ->
    st = PJ_SUCCESS /\ window fl' = alter discard_slot (Z.to_nat d) (window fl) /\
    origin fl' = origin fl /\ size fl' = size fl /\ max_count fl' = max_count fl /\
    frame_size fl' = frame_size fl /\
    (is_discarded (frame_type (ring_at fl d)) = false -> fl_wf fl')) /\
  (~ 0 <= d < size fl -> st = PJ_EINVAL /\ fl' = fl).
Proof.
  intros Hw d. pose proof Hw as [Hm Hl Hh Hs Hsq Hb Hd].
  unfold jb_framelist_discard. rewrite (s32_small (size fl)) by (unfold is_s32; lia).
  destruct (Z.leb_spec (origin fl) index), (Z.ltb_spec index (origin fl + size fl)); simpl;
    (split; [intros Hd1|intros Hd1; try done; lia]); try lia.
  fold d. rewrite (u32_small (head fl + d)) by (unfold is_u32; lia). fold (ring_pos fl d).
  pose proof (window_set_slot fl d discard_slot Hw Hd1) as Hwin.
  split_and!; try done. intros Hnd.
  assert (Hcnt : u32 (discarded_num fl + 1) = ndisc (alter discard_slot (Z.to_nat d) (window fl))).
  { rewrite (ndisc_discard _ _ (ring_at fl d)); [|by rewrite window_lookup, Z2Nat.id, decide_True by lia|done].
    rewrite <- Hd. pose proof (wf_disc_range fl Hw). apply u32_small. unfold is_u32. lia. }
  constructor; try done.
  - by rewrite zlen_set_slot.
  - intros i Hi. simpl in Hi. change (blank (ring_at (set_slot (ring_pos fl d) discard_slot fl) i)).
    rewrite ring_at_set_slot by lia. rewrite decide_False by lia. by apply Hb.
  - simpl. by rewrite Hcnt, <- Hwin.
Qed.

#[local] Arguments ndisc : simpl never.

(** The [n]-th frame of a list that is not discarded: its index. *)
Fixpoint nth_live (l : list jb_slot) (n : Z) : option nat :=
  match l with
  | [] => None
  | s :: l =>
      if is_discarded (frame_type s) then S <$> nth_live l n
      else if n =? 0 then Some O else S <$> nth_live l (n - 1)
  end.

Lemma nth_live_spec l n p : 0 <= n -> nth_live l n = Some p ->
  exists s, l !! p = Some s /\ is_discarded (frame_type s) = false /\
    n = Z.of_nat p - ndisc (take p l).
Proof.
  revert n p. induction l as [|s l IH]; intros n p Hn; simpl; [done|].
  destruct (is_discarded (frame_type s)) eqn:Ed.
  - destruct (nth_live l n) as [q|] eqn:E; simpl; [|done]. intros [= <-].
    destruct (IH n q Hn E) as (x & Hx & Hxd & ->). exists x. split_and!; auto.
    simpl. rewrite ndisc_cons, Ed. simpl. lia.
  - destruct (Z.eqb_spec n 0) as [->|].
    + intros [= <-]. by exists s.
    + destruct (nth_live l (n - 1)) as [q|] eqn:E; simpl; [|done]. intros [= <-].
      destruct (IH (n - 1) q ltac:(lia) E) as (x & Hx & Hxd & Hq). exists x.
      split_and!; auto. simpl. rewrite ndisc_cons, Ed. simpl. lia.
Qed.

Lemma nth_live_total l n : 0 <= n < zlen l - ndisc l -> is_Some (nth_live l n).
Proof.
  unfold zlen. revert n. induction l as [|s l IH]; intros n; [unfold ndisc; simpl; lia|].
  rewrite ndisc_cons. simpl. destruct (is_discarded (frame_type s)); cbn [b2z]; intros Hn.
  - destruct (IH n) as [q ->]; [lia|]. by eexists.
  - destruct (Z.eqb_spec n 0); [by eexists|]. destruct (IH (n - 1)) as [q ->]; [lia|].
    by eexists.
Qed.

(** The search of [peek] walks the window. *)
Lemma peek_pos_spec fl i idx :
  fl_wf fl -> 0 <= i <= size fl ->
  peek_pos (Z.to_nat (size fl - i)) fl (ring_pos fl i) idx
  = (fun p => ring_pos fl (i + Z.of_nat p)) <$> nth_live (drop (Z.to_nat i) (window fl)) idx.
Proof.
  intros Hw Hi. pose proof (wf_size fl Hw) as Hs. pose proof (wf_max fl Hw) as Hm.
  remember (Z.to_nat (size fl - i)) as n eqn:En. revert i idx Hi En.
  induction n as [|n IH]; intros i idx Hi En; simpl.
  - rewrite drop_ge; [done|]. pose proof (zlen_window fl ltac:(lia)). unfold zlen in *. lia.
  - assert (Hd : drop (Z.to_nat i) (window fl) = ring_at fl i :: drop (S (Z.to_nat i)) (window fl)).
    { apply drop_S. by rewrite window_lookup, Z2Nat.id, decide_True by lia. }
    rewrite Hd. cbn [nth_live]. change (slot_at fl (ring_pos fl i)) with (ring_at fl i).
    pose proof (ring_pos_range fl i ltac:(lia)).
    assert (Hnext : u32 (ring_pos fl i + 1) mod max_count fl = ring_pos fl (i + 1)).
    { rewrite u32_small by (unfold is_u32; lia). unfold ring_pos.
      rewrite Zplus_mod_idemp_l. f_equal. lia. }
    assert (Hrec : forall idx', peek_pos n fl (ring_pos fl (i + 1)) idx' =
      (fun p => ring_pos fl (i + Z.of_nat p)) <$> (S <$> nth_live (drop (S (Z.to_nat i)) (window fl)) idx')).
    { intros idx'. rewrite IH by lia.
      replace (Z.to_nat (i + 1)) with (S (Z.to_nat i)) by lia. rewrite <- option_fmap_compose.
      destruct (nth_live _ _); simpl; do 2 f_equal; lia. }
    rewrite Hnext. destruct (is_discarded _); [apply Hrec|].
    destruct (idx =? 0); [|apply Hrec]. simpl. do 2 f_equal. lia.
Qed.

(** ** The frame list refines a window of frames

    The abstract state is the sequence number [o] of the first frame and the
    list [w] of slots from there on. *)

Inductive fl_op :=
  | OpReset
  | OpPut (index : Z) (frame : list Z) (fsize bits stamp : Z)
  | OpGet (max_size : option Z)
  | OpRemove (count : Z)
  | OpDiscard (index : Z).

Inductive fl_out :=
  | OutStatus (st : pj_status)
  | OutFrame (f : option jb_frame)
  | OutCount (n : Z).

Definition fl_exec (fl : jb_framelist) (op : fl_op) : jb_framelist * fl_out :=
  match op with
  | OpReset => (jb_framelist_reset fl, OutStatus PJ_SUCCESS)
  | OpPut index frame fsize bits stamp =>
      let '(fl, st) :=
        jb_framelist_put_at fl index frame fsize bits stamp PJMEDIA_JB_NORMAL_FRAME in
      (fl, OutStatus st)
  | OpGet max_size => let '(fl, f) := jb_framelist_get fl max_size in (fl, OutFrame f)
  | OpRemove count => let '(fl, n) := jb_framelist_remove_head fl count in (fl, OutCount n)
  | OpDiscard index => let '(fl, st) := jb_framelist_discard fl index in (fl, OutStatus st)
  end.

(** The use the jitter buffer makes of the operations. *)
Definition op_ok (fl : jb_framelist) (op : fl_op) : Prop :=
  match op with
  | OpPut index _ fsize _ _ => seq_ok index /\ fsize <= frame_size fl
  | OpRemove count => 0 <= count
  | OpDiscard index =>
      forall s, window fl !! Z.to_nat (index - origin fl) = Some s ->
        is_discarded (frame_type s) = false
  | _ => True
  end.

Definition window_step (cap : Z) (o : Z) (w : list jb_slot) (op : fl_op)
    (out : fl_out) (o' : Z) (w' : list jb_slot) : Prop :=
  match op with
  | OpReset => out = OutStatus PJ_SUCCESS /\ o' = INVALID_OFFSET /\ w' = []
  | OpRemove count =>
      let k := Z.min count (zlen w) in
      out = OutCount k /\ o' = o + k /\ w' = drop (Z.to_nat k) w
  | OpDiscard index =>
      if (o <=? index) && (index <? o + zlen w)
      then out = OutStatus PJ_SUCCESS /\ o' = o /\
           w' = alter discard_slot (Z.to_nat (index - o)) w
      else out = OutStatus PJ_EINVAL /\ o' = o /\ w' = w
  | OpGet max_size =>
      let k := lead_disc w in
      match drop (Z.to_nat k) w with
      | [] => out = OutFrame None /\ o' = o + k /\ w' = []
      | s :: rest =>
          out = OutFrame (Some (handed_out s (0 <? k) max_size (o + k))) /\
          o' = o + k + 1 /\ w' = rest
      end
  | OpPut index frame fsize bits stamp =>
      let is_new s := exists old, s = new_slot frame fsize bits stamp old in
      match plan_of cap o (zlen w) index with
      | PlanReject e => out = OutStatus e /\ o' = o /\ w' = w
      | PlanRelabelFull => out = OutStatus PJ_ETOOMANY /\ o' = index - zlen w /\ w' = w
      | PlanStore d =>
          match w !! Z.to_nat d with
          | Some s =>
              if is_missing (frame_type s)
              then out = OutStatus PJ_SUCCESS /\ o' = o /\
                   exists new, is_new new /\ w' = <[Z.to_nat d := new]> w
              else out = OutStatus PJ_EEXISTS /\ o' = o /\ w' = w
          | None =>
              out = OutStatus PJ_SUCCESS /\ o' = o /\
              exists gap new, Forall blank gap /\ is_new new /\ zlen gap = d - zlen w /\
                w' = w ++ gap ++ [new]
          end
      | PlanRelabel =>
          out = OutStatus PJ_SUCCESS /\ o' = index - zlen w /\
          exists new, is_new new /\ w' = w ++ [new]
      | PlanFlush =>
          out = OutStatus PJ_SUCCESS /\ o' = index /\ exists new, is_new new /\ w' = [new]
      end
  end.

Lemma put_refines fl index frame fsize bits stamp :
  fl_wf fl -> seq_ok index -> fsize <= frame_size fl ->
  let '(fl', st) := jb_framelist_put_at fl index frame fsize bits stamp PJMEDIA_JB_NORMAL_FRAME in
  fl_wf fl' /\
  window_step (max_count fl) (origin fl) (window fl) (OpPut index frame fsize bits stamp)
    (OutStatus st) (origin fl') (window fl').
Proof.
  intros Hw Hq Hf. pose proof (put_at_spec frame fsize bits stamp fl index Hw Hq Hf) as H.
  cbv beta zeta in H.
  destruct (jb_framelist_put_at _ _ _ _ _ _ _) as [fl' st].
  destruct H as (Hw' & _ & _ & Hp). split; [done|].
  pose proof (wf_size fl Hw). unfold put_post in Hp. simpl. rewrite zlen_window by lia.
  destruct (plan_of _ _ _ index).
  - destruct Hp as [-> ->]. done.
  - destruct Hp as [-> ->]. done.
  - case_match; [case_match|]; [..|naive_solver].
    + destruct Hp as (-> & -> & ->). split_and!; eauto.
    + destruct Hp as (-> & ->). done.
  - naive_solver.
  - naive_solver.
Qed.

(** C39: every operation of the circular buffer acts on the window it represents
    as the abstract operation does -- wrap-around of the ring, the two-step
    removal and the reuse of slots are invisible -- and keeps the buffer well
    formed, so that the window never exceeds the capacity and [discarded_num]
    is the number of discarded frames in it. *)
Theorem framelist_refines_window fl op :
  fl_wf fl -> op_ok fl op ->
  let '(fl', out) := fl_exec fl op in
  fl_wf fl' /\ max_count fl' = max_count fl /\
  window_step (max_count fl) (origin fl) (window fl) op out (origin fl') (window fl').
Proof.
  intros Hw Hop. pose proof (wf_size fl Hw). destruct op; simpl in Hop; simpl fl_exec.
  - split_and!; [by apply reset_wf|done|done].
  - destruct Hop as [Hq Hf].
    pose proof (put_refines fl index frame fsize bits stamp Hw Hq Hf) as Hr.
    pose proof (put_at_spec frame fsize bits stamp fl index Hw Hq Hf) as Hs.
    cbv beta zeta in Hs.
    destruct (jb_framelist_put_at _ _ _ _ _ _ _). by destruct Hs as (?&?&?&?), Hr as [??].
  - pose proof (get_spec fl max_size Hw) as Hg.
    destruct (jb_framelist_get fl max_size). simpl. destruct Hg as (?&?&?&Hg).
    split_and!; [done..|]. case_match; naive_solver.
  - pose proof (remove_head_spec fl count Hw Hop) as Hr.
    destruct (jb_framelist_remove_head fl count) as [fl' n]. simpl.
    rewrite zlen_window by lia. naive_solver.
  - pose proof (discard_spec fl index Hw) as Hs.
    cbv zeta in Hs. destruct (jb_framelist_discard fl index) as [fl' st]. destruct Hs as [Hin Hout]. simpl. rewrite zlen_window by lia.
    destruct (decide (0 <= index - origin fl < size fl)) as [Hd|Hd].
    + destruct (Hin Hd) as (-> & -> & -> & _ & Hm & _ & Hw').
      replace ((origin fl <=? index) && _) with true by lia. split_and!; try done.
      apply Hw'. apply Hop. by rewrite window_lookup, Z2Nat.id, decide_True by lia.
    + destruct (Hout Hd) as [-> ->]. replace ((origin fl <=? index) && _) with false by lia.
      by split_and!.
Qed.

(** Memory for a buffer of two frames of four bytes. *)
Definition demo_list : jb_framelist :=
  jb_framelist_init 4 2 (replicate 2 (Slot [9; 9; 9; 9] PJMEDIA_JB_NORMAL_FRAME 4 7 7)).

Lemma init_wf fsize mem :
  0 < zlen mem <= 1073741824 -> fl_wf (jb_framelist_init fsize (zlen mem) mem).
Proof.
  intros Hm. constructor; simpl; try lia.
  - unfold zlen. by rewrite length_map.
  - unfold INVALID_OFFSET. lia.
  - intros i _. unfold ring_at, slot_at; simpl.
    rewrite list_lookup_fmap. by destruct (mem !! _).
  - reflexivity.
Qed.

Lemma demo_list_wf : fl_wf demo_list.
Proof.
  exact (init_wf 4 (replicate 2 (Slot [9; 9; 9; 9] PJMEDIA_JB_NORMAL_FRAME 4 7 7))
           ltac:(vm_compute; split; congruence)).
Qed.

Lemma framelist_refines_window_witness :
  (fl_exec (fl_exec demo_list (OpPut 50 [1; 2] 2 0 160)).1 (OpPut 51 [3; 4; 5] 3 0 320)).2
    = OutStatus PJ_SUCCESS /\
  fl_wf (fl_exec demo_list (OpPut 50 [1; 2] 2 0 160)).1.
Proof.
  split; [vm_compute; reflexivity|].
  pose proof (framelist_refines_window demo_list (OpPut 50 [1; 2] 2 0 160)) as H.
  destruct (fl_exec demo_list (OpPut 50 [1; 2] 2 0 160)) as [fl' out].
  apply H; [apply demo_list_wf|].
  split; [unfold seq_ok; lia|vm_compute; congruence].
Defined.

(** [peek] terminates and finds the [offset]-th frame that is not
    discarded, exactly when there is one.  It reports the sequence number
    [origin + offset], which is short of the frame's own, [origin + p], by the
    number of discarded frames skipped. *)
Lemma jb_framelist_peek_spec fl offset :
  fl_wf fl -> 0 <= offset ->
  match jb_framelist_peek fl offset with
  | None => zlen (window fl) - ndisc (window fl) <= offset
  | Some f =>
      exists p s, window fl !! p = Some s /\ is_discarded (frame_type s) = false /\
        offset = Z.of_nat p - ndisc (take p (window fl)) /\
        f = Frame (Some (content s)) (frame_type s) (content_len s) (bit_info s) (ts s)
                  (got_seq f) /\
        got_seq f = (origin fl + Z.of_nat p) - ndisc (take p (window fl))
  end.
Proof.
  intros Hw Ho. unfold jb_framelist_peek, jb_framelist_eff_size.
  pose proof (wf_size fl Hw) as Hs. pose proof (wf_max fl Hw). pose proof (wf_seq fl Hw).
  pose proof (wf_disc_range fl Hw). pose proof (wf_disc fl Hw) as Hdn.
  pose proof (zlen_window fl ltac:(lia)) as Hz.
  rewrite u32_small by (unfold is_u32; lia).
  destruct (Z.geb_spec offset (size fl - discarded_num fl)); [lia|].
  pose proof (peek_pos_spec fl 0 offset Hw ltac:(lia)) as Hp.
  rewrite Z.sub_0_r in Hp. unfold ring_pos at 1 in Hp.
  rewrite Z.add_0_r, Z.mod_small in Hp by apply Hw. rewrite Hp. simpl. rewrite drop_0.
  destruct (nth_live_total (window fl) offset) as [p Hl]; [lia|]. rewrite Hl. simpl.
  destruct (nth_live_spec _ _ _ Ho Hl) as (s & Hwp & Hd & He).
  exists p, s. rewrite window_lookup in Hwp. case_decide; [|done]. injection Hwp as Hr.
  rewrite Z.add_0_l. fold (ring_at fl (Z.of_nat p)). change (slot_at fl (ring_pos fl (Z.of_nat p)))
    with (ring_at fl (Z.of_nat p)). rewrite Hr, window_lookup, decide_True, Hr by done.
  rewrite s32_small by (unfold is_s32; lia). split_and!; auto; simpl; lia.
Qed.

(** Two frames, 10 and 11, the first one discarded: the frame 11 is announced
    as 10. *)
Lemma jb_framelist_peek_spec_witness :
  exists f, jb_framelist_peek
    (fl_exec (fl_exec (fl_exec demo_list (OpPut 10 [1] 1 0 0)).1 (OpPut 11 [2] 1 0 0)).1
             (OpDiscard 10)).1 0 = Some f /\
    got_data f = Some [2; 9; 9; 9] /\ got_seq f = (10 + 1) - 1.
Proof.
  set (fl := (fl_exec _ (OpDiscard 10)).1).
  assert (Hw : fl_wf fl).
  { constructor; try (vm_compute; repeat split; (discriminate || congruence)).
    intros i Hi. change (size fl) with 2 in Hi. change (max_count fl) with 2 in Hi. lia. }
  pose proof (jb_framelist_peek_spec fl 0 Hw ltac:(lia)) as H.
  assert (Hp : jb_framelist_peek fl 0 = Some (Frame (Some [2; 9; 9; 9])
    PJMEDIA_JB_NORMAL_FRAME 1 0 0 10)) by (vm_compute; reflexivity).
  rewrite Hp in *. eexists. split; [reflexivity|]. split; [reflexivity|].
  destruct H as (p & s & Hl & Hd & He & _ & Hq). rewrite Hq.
  destruct p as [|[|p]].
  - vm_compute in Hl. injection Hl as <-. discriminate Hd.
  - vm_compute. reflexivity.
  - vm_compute in Hl. congruence.
Defined.

End Framelist.
