(* ===== verification/Jbuf.v ===== *)
(** * The adaptive jitter buffer (pjmedia/src/pjmedia/jbuf.c)

    The control half of [pjmedia_jbuf]: prefetching, the burst level and the
    prefetch derived from it, the two discard algorithms, and the calls of the
    API over the frame list of file FrameList.  The level counters are C [int]s
    that count operations and stay far from their limits; conversions between
    [int] and [unsigned] are written out.  Divisions by [ptime] presume a
    non-zero one. *)

From Stdlib Require Import Sorted.
From S2P Require Import Prelude PjMath FrameList.
Set Warnings "-clear-no-such-hyp".

Module Jb.
Import Framelist.

Definition PJMEDIA_JB_DEFAULT_INIT_DELAY : Z := 15.
Definition PJMEDIA_JBUF_DISC_MIN_GAP : Z := 200.
Definition PJMEDIA_JBUF_PRO_DISC_MIN_BURST : Z := 1.
Definition PJMEDIA_JBUF_PRO_DISC_MAX_BURST : Z := 100.
Definition PJMEDIA_JBUF_PRO_DISC_T1 : Z := 2000.
Definition PJMEDIA_JBUF_PRO_DISC_T2 : Z := 10000.
Definition STABLE_HISTORY_LIMIT : Z := 20.

Inductive jb_op := JB_OP_INIT | JB_OP_PUT | JB_OP_GET.
#[export] Instance jb_op_eq_dec : EqDecision jb_op.
Proof. solve_decision. Defined.

Inductive jb_status_t := JB_STATUS_INITIALIZING | JB_STATUS_PROCESSING.
#[export] Instance jb_status_eq_dec : EqDecision jb_status_t.
Proof. solve_decision. Defined.

(** The discard algorithm is a function pointer in the code, null for
    [PJMEDIA_JB_DISCARD_NONE]. *)
Inductive pjmedia_jb_discard_algo :=
  | PJMEDIA_JB_DISCARD_NONE | PJMEDIA_JB_DISCARD_STATIC | PJMEDIA_JB_DISCARD_PROGRESSIVE.
#[export] Instance discard_algo_eq_dec : EqDecision pjmedia_jb_discard_algo.
Proof. solve_decision. Defined.

Record pjmedia_jbuf := Jbuf {
  jb_frame_size : Z;
  jb_frame_ptime : Z;
  jb_max_count : Z;
  jb_init_prefetch : Z;
  jb_min_prefetch : Z;
  jb_max_prefetch : Z;
  jb_max_burst : Z;
  jb_min_shrink_gap : Z;
  jb_discard_algo : pjmedia_jb_discard_algo;
  jb_list : jb_framelist;
  jb_level : Z;
  jb_max_hist_level : Z;
  jb_stable_hist : Z;
  jb_last_op : jb_op;
  jb_eff_level : Z;
  jb_prefetch : Z;
  jb_prefetching : bool;
  jb_status : jb_status_t;
  jb_init_cycle_cnt : Z;
  jb_discard_ref : Z;
  jb_discard_dist : Z;
  jb_delay : pj_math_stat;
  jb_burst : pj_math_stat;
  jb_lost : Z;
  jb_discard : Z;
  jb_empty : Z
}.
#[export] Instance eta_pjmedia_jbuf : Eta pjmedia_jbuf := fun r =>
  Jbuf (jb_frame_size r) (jb_frame_ptime r) (jb_max_count r) (jb_init_prefetch r)
       (jb_min_prefetch r) (jb_max_prefetch r) (jb_max_burst r) (jb_min_shrink_gap r)
       (jb_discard_algo r) (jb_list r) (jb_level r) (jb_max_hist_level r) (jb_stable_hist r)
       (jb_last_op r) (jb_eff_level r) (jb_prefetch r) (jb_prefetching r) (jb_status r)
       (jb_init_cycle_cnt r) (jb_discard_ref r) (jb_discard_dist r) (jb_delay r) (jb_burst r)
       (jb_lost r) (jb_discard r) (jb_empty r).

Definition pjmedia_jbuf_set_discard (jb : pjmedia_jbuf) (algo : pjmedia_jb_discard_algo) :
    pjmedia_jbuf := jb <| jb_discard_algo := algo |>.

Definition pjmedia_jbuf_reset (jb : pjmedia_jbuf) : pjmedia_jbuf :=
  jb <| jb_level := 0 |> <| jb_last_op := JB_OP_INIT |> <| jb_stable_hist := 0 |>
     <| jb_status := JB_STATUS_INITIALIZING |> <| jb_init_cycle_cnt := 0 |>
     <| jb_max_hist_level := 0 |> <| jb_prefetching := truth (jb_prefetch jb) |>
     <| jb_discard_dist := 0 |> <| jb_list ::= jb_framelist_reset |>.

(** The structure is zero-initialised; [mem] is the memory of the frame list. *)
Definition pjmedia_jbuf_create (fsize ptime mcount : Z) (mem : list jb_slot) : pjmedia_jbuf :=
  let jb := Jbuf fsize ptime mcount 0
    0 (u32 (mcount * 4) / 5)
    (s32 (Z.max (MAX_BURST_MSEC / ptime) (u32 (mcount * 3) / 4)))
    (PJMEDIA_JBUF_DISC_MIN_GAP / ptime) PJMEDIA_JB_DISCARD_NONE
    (jb_framelist_init fsize mcount mem) 0 0 0 JB_OP_INIT 0
    (Z.min PJMEDIA_JB_DEFAULT_INIT_DELAY (u32 (mcount * 4) / 5))
    false JB_STATUS_INITIALIZING 0 0 0 pj_math_stat_init pj_math_stat_init 0 0 0 in
  pjmedia_jbuf_reset (pjmedia_jbuf_set_discard jb PJMEDIA_JB_DISCARD_PROGRESSIVE).

(** [jb_max_count] is a [pj_size_t]: its product does not wrap here. *)
Definition pjmedia_jbuf_set_ptime (jb : pjmedia_jbuf) (ptime : Z) : pjmedia_jbuf :=
  jb <| jb_frame_ptime := ptime |>
     <| jb_min_shrink_gap := PJMEDIA_JBUF_DISC_MIN_GAP / ptime |>
     <| jb_max_burst := s32 (Z.max (MAX_BURST_MSEC / ptime) (jb_max_count jb * 3 / 4)) |>.

Definition pjmedia_jbuf_set_fixed (jb : pjmedia_jbuf) (prefetch : Z) : pjmedia_jbuf * pj_status :=
  if prefetch <=? jb_max_count jb then
    (pjmedia_jbuf_set_discard
       (jb <| jb_init_prefetch := s32 prefetch |> <| jb_prefetch := s32 prefetch |>
           <| jb_max_prefetch := s32 prefetch |> <| jb_min_prefetch := s32 prefetch |>)
       PJMEDIA_JB_DISCARD_NONE, PJ_SUCCESS)
  else (jb, PJ_EINVAL).

Definition pjmedia_jbuf_set_adaptive (jb : pjmedia_jbuf) (prefetch min_prefetch max_prefetch : Z) :
    pjmedia_jbuf * pj_status :=
  if (min_prefetch <=? max_prefetch) && (prefetch <=? max_prefetch) &&
     (max_prefetch <=? jb_max_count jb)
  then (jb <| jb_init_prefetch := s32 prefetch |> <| jb_prefetch := s32 prefetch |>
           <| jb_min_prefetch := s32 min_prefetch |> <| jb_max_prefetch := s32 max_prefetch |>,
        PJ_SUCCESS)
  else (jb, PJ_EINVAL).

Definition pjmedia_jbuf_is_full (jb : pjmedia_jbuf) : bool :=
  size (jb_list jb) =? max_count (jb_list jb).

(** The two clamping orders of [jbuf_calculate_jitter]. *)
Definition clamp_min_max (lo hi x : Z) : Z :=
  let x := if x <? lo then lo else x in if x >? hi then hi else x.
Definition clamp_max_min (lo hi x : Z) : Z :=
  let x := if x >? hi then hi else x in if x <? lo then lo else x.

Definition jbuf_calculate_jitter (jb : pjmedia_jbuf) : pjmedia_jbuf :=
  let jb := jb <| jb_burst ::= fun st => pj_math_stat_update st (jb_level jb) |>
               <| jb_max_hist_level ::= fun h => Z.max h (jb_level jb) |> in
  if jb_level jb <? jb_eff_level jb then
    let jb := jb <| jb_stable_hist ::= fun n => n + 1 |> in
    if jb_stable_hist jb >? STABLE_HISTORY_LIMIT then
      let diff := (jb_eff_level jb - jb_max_hist_level jb) ÷ 3 in
      let diff := if diff <? 1 then 1 else diff in
      let jb := jb <| jb_eff_level ::= fun l => l - diff |> in
      let jb := if truth (jb_init_prefetch jb)
                then jb <| jb_prefetch :=
                       clamp_min_max (jb_min_prefetch jb) (jb_max_prefetch jb) (jb_eff_level jb) |>
                else jb in
      jb <| jb_max_hist_level := 0 |> <| jb_stable_hist := 0 |>
    else jb
  else if jb_level jb >? jb_eff_level jb then
    let jb := jb <| jb_eff_level := Z.min (jb_max_hist_level jb) (s32 (jb_max_count jb * 4 / 5)) |> in
    let jb := if truth (jb_init_prefetch jb)
              then jb <| jb_prefetch :=
                     clamp_max_min (jb_min_prefetch jb) (jb_max_prefetch jb) (jb_eff_level jb) |>
              else jb in
    jb <| jb_stable_hist := 0 |>
  else jb <| jb_stable_hist := 0 |>.

Definition jbuf_discard_static (jb : pjmedia_jbuf) : pjmedia_jbuf :=
  let burst_level := Z.max (jb_eff_level jb) (jb_level jb) in
  let diff := s32 (jb_framelist_eff_size (jb_list jb) - burst_level * 2) in
  if diff >=? STA_DISC_SAFE_SHRINKING_DIFF then
    let seq_origin := jb_framelist_origin (jb_list jb) in
    let jb := if seq_origin <? jb_discard_ref jb then jb <| jb_discard_ref := seq_origin |> else jb in
    if seq_origin - jb_discard_ref jb >=? jb_min_shrink_gap jb then
      let '(fl, removed) := jb_framelist_remove_head (jb_list jb) 1 in
      jb <| jb_list := fl |> <| jb_discard_ref := jb_framelist_origin fl |>
         <| jb_discard ::= fun n => u32 (n + removed) |>
    else jb
  else jb.

(** The time over which progressive discard spreads the excess. *)
Definition discard_duration (burst_level : Z) : Z :=
  if burst_level <=? PJMEDIA_JBUF_PRO_DISC_MIN_BURST then PJMEDIA_JBUF_PRO_DISC_T1
  else if burst_level >=? PJMEDIA_JBUF_PRO_DISC_MAX_BURST then PJMEDIA_JBUF_PRO_DISC_T2
  else PJMEDIA_JBUF_PRO_DISC_T1 +
       u32 ((PJMEDIA_JBUF_PRO_DISC_T2 - PJMEDIA_JBUF_PRO_DISC_T1) *
            (burst_level - PJMEDIA_JBUF_PRO_DISC_MIN_BURST)) /
       (PJMEDIA_JBUF_PRO_DISC_MAX_BURST - PJMEDIA_JBUF_PRO_DISC_MIN_BURST).

Definition jbuf_discard_progressive (jb : pjmedia_jbuf) : pjmedia_jbuf :=
  if negb (bool_decide (jb_last_op jb = JB_OP_PUT)) then jb
  else
    let cur_size := jb_framelist_eff_size (jb_list jb) in
    let burst_level := u32 (Z.max (jb_eff_level jb) (jb_level jb)) in
    if cur_size <=? burst_level then jb <| jb_discard_dist := 0 |>
    else
      let overflow := u32 (cur_size - burst_level) in
      let discard_dist := discard_duration burst_level / overflow / jb_frame_ptime jb in
      let last_seq := s32 (jb_framelist_origin (jb_list jb) + jb_framelist_size (jb_list jb) - 1) in
      let jb := if jb_discard_dist jb =? 0 then jb <| jb_discard_ref := last_seq |>
                else if last_seq <? jb_discard_ref jb then jb <| jb_discard_ref := last_seq |>
                else jb in
      let jb := jb <| jb_discard_dist := u32 (Z.max (jb_min_shrink_gap jb) (s32 discard_dist)) |> in
      if last_seq >=? jb_discard_ref jb + s32 (jb_discard_dist jb) then
        let discard_seq := s32 (jb_discard_ref jb + jb_discard_dist jb) in
        let discard_seq := if discard_seq <? jb_framelist_origin (jb_list jb)
                           then jb_framelist_origin (jb_list jb) else discard_seq in
        jb <| jb_list := (jb_framelist_discard (jb_list jb) discard_seq).1 |>
           <| jb_discard_ref := discard_seq |>
      else jb.

Definition run_discard_algo (jb : pjmedia_jbuf) : pjmedia_jbuf :=
  match jb_discard_algo jb with
  | PJMEDIA_JB_DISCARD_NONE => jb
  | PJMEDIA_JB_DISCARD_STATIC => jbuf_discard_static jb
  | PJMEDIA_JB_DISCARD_PROGRESSIVE => jbuf_discard_progressive jb
  end.

(** The block of [jbuf_update] run when the operation changes; the flag is
    false when the function returns there. *)
Definition jbuf_switch_op (jb : pjmedia_jbuf) (oper : jb_op) : pjmedia_jbuf * bool :=
  let jb := jb <| jb_last_op := oper |> in
  let '(jb, go) :=
    if bool_decide (jb_status jb = JB_STATUS_INITIALIZING) then
      let jb := jb <| jb_init_cycle_cnt ::= fun n => n + 1 |> in
      if (jb_init_cycle_cnt jb >=? INIT_CYCLE) && bool_decide (oper = JB_OP_GET) then
        (jb <| jb_status := JB_STATUS_PROCESSING |>
            <| jb_level := Z.min (jb_level jb) (jb_max_burst jb) |>, true)
      else (jb <| jb_level := 0 |>, false)
    else (jb, true) in
  if go then
    let jb := if bool_decide (oper = JB_OP_GET) && (jb_level jb <=? jb_max_burst jb)
              then jbuf_calculate_jitter jb else jb in
    (jb <| jb_level := 0 |>, true)
  else (jb, false).

Definition jbuf_update (jb : pjmedia_jbuf) (oper : jb_op) : pjmedia_jbuf :=
  let '(jb, go) :=
    if bool_decide (jb_last_op jb = oper) then (jb, true) else jbuf_switch_op jb oper in
  if go && bool_decide (jb_status jb = JB_STATUS_PROCESSING) then run_discard_algo jb else jb.

(** The loop of [put_frame3] that makes room while the buffer is full; the
    third component is false when the fuel ran out. *)
Fixpoint make_room (fuel : nat) (jb : pjmedia_jbuf) (st : pj_status)
    (frame : list Z) (fsize bits frame_seq stamp : Z) : pjmedia_jbuf * pj_status * bool :=
  if bool_decide (st = PJ_ETOOMANY) then
    match fuel with
    | O => (jb, st, false)
    | S fuel =>
        let distance := frame_seq - jb_framelist_origin (jb_list jb) - s32 (jb_max_count jb) + 1 in
        let '(fl, removed) := jb_framelist_remove_head (jb_list jb) (u32 distance) in
        let '(fl, st) := jb_framelist_put_at fl frame_seq frame fsize bits stamp
                           PJMEDIA_JB_NORMAL_FRAME in
        make_room fuel (jb <| jb_list := fl |> <| jb_discard ::= fun n => u32 (n + removed) |>)
                  st frame fsize bits frame_seq stamp
    end
  else (jb, st, true).

(** The flag is the value of [*discarded]. *)
Definition pjmedia_jbuf_put_frame3 (jb : pjmedia_jbuf) (frame : list Z)
    (fsize bits frame_seq stamp : Z) : option (pjmedia_jbuf * bool) :=
  let cur_size := s32 (jb_framelist_eff_size (jb_list jb)) in
  let min_frame_size := Z.min fsize (jb_frame_size jb) in
  let '(fl, st) := jb_framelist_put_at (jb_list jb) frame_seq frame (u32 min_frame_size) bits
                     stamp PJMEDIA_JB_NORMAL_FRAME in
  let '(jb, st, done) :=
    make_room 3 (jb <| jb_list := fl |>) st frame (u32 min_frame_size) bits frame_seq stamp in
  if done then
    let new_size := s32 (jb_framelist_eff_size (jb_list jb)) in
    if bool_decide (st = PJ_SUCCESS) then
      let jb := if jb_prefetching jb && (new_size >=? jb_prefetch jb)
                then jb <| jb_prefetching := false |> else jb in
      let jb := jb <| jb_level ::= fun l =>
                  l + (if new_size >? cur_size then new_size - cur_size else 1) |> in
      Some (jbuf_update jb JB_OP_PUT, false)
    else Some (jb <| jb_discard ::= fun n => u32 (n + 1) |>, true)
  else None.

Definition pjmedia_jbuf_put_frame2 (jb : pjmedia_jbuf) (frame : list Z)
    (fsize bits frame_seq : Z) : option (pjmedia_jbuf * bool) :=
  pjmedia_jbuf_put_frame3 jb frame fsize bits frame_seq 0.
Definition pjmedia_jbuf_put_frame (jb : pjmedia_jbuf) (frame : list Z)
    (fsize frame_seq : Z) : option pjmedia_jbuf :=
  fst <$> pjmedia_jbuf_put_frame3 jb frame fsize 0 frame_seq 0.

(** What a GET returns: the frame type and, when a frame came out of the
    list, what the list handed out ([None] leaves the caller's buffer, bit
    info, timestamp and sequence number unset). *)
Definition pjmedia_jbuf_get_frame3 (jb : pjmedia_jbuf) (max_size : option Z) :
    pjmedia_jbuf * (jb_frame_type * option jb_frame) :=
  let '(jb, out) :=
    if jb_prefetching jb then
      (jb <| jb_empty ::= fun n => u32 (n + 1) |>, (PJMEDIA_JB_ZERO_PREFETCH_FRAME, None))
    else
      let '(fl, res) := jb_framelist_get (jb_list jb) max_size in
      let jb := jb <| jb_list := fl |> in
      match res with
      | Some f =>
          let '(jb, ftype) :=
            if bool_decide (got_type f = PJMEDIA_JB_NORMAL_FRAME)
            then (jb, PJMEDIA_JB_NORMAL_FRAME)
            else (jb <| jb_lost ::= fun n => u32 (n + 1) |>, PJMEDIA_JB_MISSING_FRAME) in
          let jb :=
            if bool_decide (jb_last_op jb = JB_OP_PUT) then
              let cur_size := u32 (jb_framelist_eff_size (jb_list jb) + 1) in
              jb <| jb_delay ::= fun st =>
                      pj_math_stat_update st (s32 (cur_size * jb_frame_ptime jb)) |>
            else jb in
          (jb, (ftype, Some f))
      | None =>
          let jb := if truth (jb_prefetch jb) then jb <| jb_prefetching := true |> else jb in
          (jb <| jb_empty ::= fun n => u32 (n + 1) |>, (PJMEDIA_JB_ZERO_EMPTY_FRAME, None))
      end in
  let jb := jb <| jb_level ::= fun l => l + 1 |> in
  (jbuf_update jb JB_OP_GET, out).

Definition pjmedia_jbuf_get_frame2 (jb : pjmedia_jbuf) (max_size : Z) :=
  pjmedia_jbuf_get_frame3 jb (Some max_size).
Definition pjmedia_jbuf_get_frame (jb : pjmedia_jbuf) := pjmedia_jbuf_get_frame3 jb None.

Record pjmedia_jb_state := JbState {
  state_frame_size : Z; state_min_prefetch : Z; state_max_prefetch : Z; state_max_count : Z;
  state_burst : Z; state_prefetch : Z; state_size : Z;
  state_avg_delay : Z; state_min_delay : Z; state_max_delay : Z; state_dev_delay : option Z;
  state_avg_burst : Z; state_empty : Z; state_discard : Z; state_lost : Z
}.

Definition pjmedia_jbuf_get_state (jb : pjmedia_jbuf) : pjmedia_jb_state :=
  JbState (u32 (jb_frame_size jb)) (u32 (jb_min_prefetch jb)) (u32 (jb_max_prefetch jb))
    (u32 (jb_max_count jb)) (u32 (jb_eff_level jb)) (u32 (jb_prefetch jb))
    (jb_framelist_eff_size (jb_list jb))
    (u32 (stat_mean (jb_delay jb))) (u32 (stat_min (jb_delay jb))) (u32 (stat_max (jb_delay jb)))
    (pj_math_stat_get_stddev (jb_delay jb)) (u32 (stat_mean (jb_burst jb)))
    (jb_empty jb) (jb_discard jb) (jb_lost jb).

Definition pjmedia_jbuf_peek_frame (jb : pjmedia_jbuf) (offset : Z) :
    jb_frame_type * option jb_frame :=
  match jb_framelist_peek (jb_list jb) offset with
  | None => (PJMEDIA_JB_ZERO_EMPTY_FRAME, None)
  | Some f => (if bool_decide (got_type f = PJMEDIA_JB_NORMAL_FRAME)
               then PJMEDIA_JB_NORMAL_FRAME else PJMEDIA_JB_MISSING_FRAME, Some f)
  end.

(** The loop of [remove_frame]: as many frames more as discarded ones were
    among those just removed. *)
Fixpoint remove_more (fuel : nat) (fl : jb_framelist) (last_discard_num count : Z) :
    option (jb_framelist * Z) :=
  if discarded_num fl <? last_discard_num then
    match fuel with
    | O => None
    | S fuel =>
        let frame_cnt := u32 (last_discard_num - discarded_num fl) in
        let count := u32 (count - frame_cnt) in
        let last_discard_num := discarded_num fl in
        let '(fl, n) := jb_framelist_remove_head fl frame_cnt in
        remove_more fuel fl last_discard_num (u32 (count + n))
    end
  else Some (fl, count).

Definition pjmedia_jbuf_remove_frame (jb : pjmedia_jbuf) (frame_cnt : Z) :
    option (pjmedia_jbuf * Z) :=
  let last_discard_num := discarded_num (jb_list jb) in
  let '(fl, count) := jb_framelist_remove_head (jb_list jb) frame_cnt in
  '(fl, count) ← remove_more (S (Z.to_nat (size (jb_list jb)))) fl last_discard_num count;
  Some (jb <| jb_list := fl |>, count).

(** ** The invariant *)

(** Every discarded frame of the window [w] starting at [o] carries a sequence
    number of at most [r]. *)
Definition disc_below (o : Z) (w : list jb_slot) (r : Z) : Prop :=
  forall i s, w !! i = Some s -> is_discarded (frame_type s) = true -> o + Z.of_nat i <= r.

Lemma disc_below_mono o o' w r r' : o' <= o -> r <= r' -> disc_below o w r -> disc_below o' w r'.
Proof. intros Ho Hr H i s Hl Hd. specialize (H i s Hl Hd). lia. Qed.

Lemma disc_below_drop n o w r : disc_below o w r -> disc_below (o + Z.of_nat n) (drop n w) r.
Proof.
  intros H i s Hl Hd. rewrite lookup_drop in Hl. specialize (H (n + i)%nat s Hl Hd). lia.
Qed.

Lemma disc_below_live o w r : Forall (fun s => is_discarded (frame_type s) = false) w ->
  disc_below o w r.
Proof. intros H i s Hl Hd. rewrite Forall_lookup in H. by rewrite (H i s Hl) in Hd. Qed.

Lemma disc_below_app o w k r : disc_below o w r ->
  Forall (fun s => is_discarded (frame_type s) = false) k -> disc_below o (w ++ k) r.
Proof.
  intros H Hk i s Hl Hd. apply lookup_app_Some in Hl as [Hl|[Hi Hl]]; [eauto|].
  rewrite Forall_lookup in Hk. by rewrite (Hk _ _ Hl) in Hd.
Qed.

Lemma disc_below_insert o w r k s : disc_below o w r ->
  is_discarded (frame_type s) = false -> disc_below o (<[k := s]> w) r.
Proof.
  intros H Hs i x Hl Hd. apply list_lookup_insert_Some in Hl as [(-> & -> & _)|[_ Hl]]; [|eauto].
  by rewrite Hs in Hd.
Qed.

Lemma disc_below_last fl : 0 <= size fl ->
  disc_below (origin fl) (window fl) (origin fl + size fl - 1).
Proof.
  intros Hs i s Hl _. apply lookup_lt_Some in Hl. pose proof (zlen_window fl Hs).
  unfold zlen in *. lia.
Qed.

(** The frames a buffer discards lie above the last one discarded. *)
Lemma disc_below_above fl r i :
  disc_below (origin fl) (window fl) r -> r < origin fl + i -> 0 <= i < size fl ->
  is_discarded (frame_type (ring_at fl i)) = false.
Proof.
  intros H Hr Hi. destruct (is_discarded (frame_type (ring_at fl i))) eqn:E; [|done].
  specialize (H (Z.to_nat i) (ring_at fl i)). rewrite window_lookup, Z2Nat.id, decide_True in H by lia.
  specialize (H eq_refl E). lia.
Qed.

Lemma ndisc_zero w : ndisc w = 0 ->
  Forall (fun s => is_discarded (frame_type s) = false) w.
Proof.
  induction w as [|s w IH]; [constructor|]. rewrite ndisc_cons. intros Hn.
  pose proof (ndisc_range w). destruct (is_discarded (frame_type s)) eqn:E; simpl in Hn; [lia|].
  constructor; [done|]. apply IH. lia.
Qed.

Lemma disc_below_alter o w r k : disc_below o w r -> r <= o + Z.of_nat k ->
  disc_below o (alter discard_slot k w) (o + Z.of_nat k).
Proof.
  intros H Hr i s Hl Hd. destruct (decide (i = k)) as [->|Hne]; [lia|].
  rewrite list_lookup_alter_ne in Hl by done. specialize (H i s Hl Hd). lia.
Qed.

Record jb_wf (jb : pjmedia_jbuf) : Prop := {
  jw_list : fl_wf (jb_list jb);
  jw_count : max_count (jb_list jb) = jb_max_count jb;
  jw_fsize : frame_size (jb_list jb) = jb_frame_size jb /\ is_u32 (jb_frame_size jb);
  jw_ptime : 1 <= jb_frame_ptime jb <= 200 /\
    jb_min_shrink_gap jb = PJMEDIA_JBUF_DISC_MIN_GAP / jb_frame_ptime jb;
  jw_prefetch : 0 <= jb_min_prefetch jb <= jb_max_prefetch jb /\
    jb_max_prefetch jb <= jb_max_count jb /\ 0 <= jb_prefetch jb <= jb_max_prefetch jb;
  jw_level : 0 <= jb_level jb /\ 0 <= jb_max_hist_level jb;
  jw_burst : 0 <= jb_max_burst jb;
  jw_eff : 0 <= jb_eff_level jb <= jb_max_count jb * 4 / 5;
  jw_dist : 0 <= jb_discard_dist jb <= 10000;
  jw_ref : is_s32 (jb_discard_ref jb);
  jw_disc : jb_discard_dist jb = 0 \/
    disc_below (origin (jb_list jb)) (window (jb_list jb)) (jb_discard_ref jb);
  jw_static : jb_discard_algo jb = PJMEDIA_JB_DISCARD_STATIC -> discarded_num (jb_list jb) = 0
}.

(** What the operations on the frame list preserve. *)
Record fl_kept (fl fl' : jb_framelist) : Prop := {
  fk_wf : fl_wf fl';
  fk_count : max_count fl' = max_count fl;
  fk_fsize : frame_size fl' = frame_size fl;
  fk_below : forall r, disc_below (origin fl) (window fl) r ->
    disc_below (origin fl') (window fl') r;
  fk_none : discarded_num fl = 0 -> discarded_num fl' = 0
}.

Lemma fl_kept_refl fl : fl_wf fl -> fl_kept fl fl.
Proof. by constructor. Qed.
Lemma fl_kept_trans fl1 fl2 fl3 : fl_kept fl1 fl2 -> fl_kept fl2 fl3 -> fl_kept fl1 fl3.
Proof. intros [] []. constructor; auto; congruence. Qed.

(** An empty discard count follows from the window. *)
Lemma kept_intro fl fl' :
  fl_wf fl -> fl_wf fl' -> max_count fl' = max_count fl -> frame_size fl' = frame_size fl ->
  (forall r, disc_below (origin fl) (window fl) r -> disc_below (origin fl') (window fl') r) ->
  ndisc (window fl') <= ndisc (window fl) -> fl_kept fl fl'.
Proof.
  intros Hw Hw' Hm Hf Hb Hd. constructor; auto. rewrite (wf_disc fl Hw), (wf_disc fl' Hw').
  pose proof (ndisc_range (window fl')). lia.
Qed.

Lemma ndisc_drop n w : ndisc (drop n w) <= ndisc w.
Proof.
  rewrite <- (take_drop n w) at 2. rewrite ndisc_app. pose proof (ndisc_range (take n w)). lia.
Qed.

Lemma remove_head_kept fl count : fl_wf fl -> 0 <= count ->
  fl_kept fl (jb_framelist_remove_head fl count).1.
Proof.
  intros Hw Hc. pose proof (remove_head_spec fl count Hw Hc) as H. cbv zeta in H.
  destruct (jb_framelist_remove_head fl count) as [fl' n]. simpl.
  destruct H as (-> & Hw' & Hwin & Ho & _ & Hm & Hf). pose proof (wf_size fl Hw).
  apply kept_intro; auto; rewrite Hwin.
  - intros r Hb. rewrite Ho. rewrite <- (Z2Nat.id (Z.min count (size fl))) at 1 by lia.
    by apply disc_below_drop.
  - apply ndisc_drop.
Qed.

Lemma get_kept fl max_size : fl_wf fl -> fl_kept fl (jb_framelist_get fl max_size).1.
Proof.
  intros Hw. pose proof (get_spec fl max_size Hw) as H. cbv zeta in H.
  destruct (jb_framelist_get fl max_size) as [fl' res]. simpl.
  destruct H as (Hw' & Hm & Hf & H). set (k := lead_disc (window fl)) in *.
  pose proof (lead_disc_range (window fl)) as Hk. fold k in Hk.
  destruct (drop (Z.to_nat k) (window fl)) as [|s rest] eqn:Ed.
  - destruct H as (_ & Hwin & Ho). apply kept_intro; auto; rewrite Hwin.
    + intros r _. by apply disc_below_live.
    + apply ndisc_range.
  - destruct H as (_ & Hwin & Ho).
    assert (Hrest : rest = drop (Z.to_nat (k + 1)) (window fl)).
    { replace (Z.to_nat (k + 1)) with (Z.to_nat k + 1)%nat by lia.
      rewrite <- drop_drop, Ed. done. }
    apply kept_intro; auto; rewrite Hwin, Hrest.
    + intros r Hb. rewrite Ho. replace (origin fl + k + 1) with (origin fl + Z.of_nat (Z.to_nat (k + 1))) by lia.
      by apply disc_below_drop.
    + apply ndisc_drop.
Qed.

Lemma reset_kept fl : fl_wf fl -> fl_kept fl (jb_framelist_reset fl).
Proof.
  intros Hw. pose proof (reset_wf fl Hw). apply kept_intro; auto.
  - intros r _. by apply disc_below_live.
  - rewrite (window_nil (jb_framelist_reset fl)) by done. apply ndisc_range.
Qed.

(** ** Frames keep their places

    Every normal frame of the second list is in the first, with the same number. *)
Definition in_place (fl fl1 : jb_framelist) : Prop :=
  forall i x, window fl1 !! i = Some x -> frame_type x = PJMEDIA_JB_NORMAL_FRAME ->
    exists j, window fl !! j = Some x /\ origin fl + Z.of_nat j = origin fl1 + Z.of_nat i.

Lemma in_place_refl fl : in_place fl fl.
Proof. intros i x Hx _. by exists i. Qed.
Lemma in_place_trans fl1 fl2 fl3 : in_place fl1 fl2 -> in_place fl2 fl3 -> in_place fl1 fl3.
Proof.
  intros H1 H2 i x Hx Ht. destruct (H2 i x Hx Ht) as (j & Hj & Ej).
  destruct (H1 j x Hj Ht) as (k & Hk & Ek). exists k. split; [done|lia].
Qed.
Lemma in_place_drop fl fl1 (n : nat) :
  window fl1 = drop n (window fl) -> origin fl1 = origin fl + Z.of_nat n -> in_place fl fl1.
Proof.
  intros Hw Ho i x Hx _. rewrite Hw, lookup_drop in Hx. exists (n + i)%nat. split; [done|lia].
Qed.

(** ** Putting a frame *)

Section PutFrame.
Variables (frame : list Z) (fsize bits stamp : Z).
Let put fl index :=
  jb_framelist_put_at fl index frame fsize bits stamp PJMEDIA_JB_NORMAL_FRAME.
Let is_new s := exists old, s = new_slot frame fsize bits stamp old.

Lemma new_live s : is_new s -> is_discarded (frame_type s) = false.
Proof. by intros [old ->]. Qed.

Lemma gap_live gap : Forall blank gap ->
  Forall (fun s => is_discarded (frame_type s) = false) gap.
Proof. intros H. eapply Forall_impl; [exact H|exact blank_not_discarded]. Qed.

(** The window [w1] is what is left of [w], once its first [k] frames are
    gone, with the frame [s] in it: over a missing frame, or at the end. *)
Definition frame_in (w w1 : list jb_slot) (s : jb_slot) : Prop :=
  (exists k p old, drop k w !! p = Some old /\ is_missing (frame_type old) = true /\
     w1 = <[p := s]> (drop k w)) \/
  (exists k gap, Forall blank gap /\ w1 = drop k w ++ gap ++ [s]).

(** Every normal frame is the new one, with its number, or was there before. *)
Definition placed (fl : jb_framelist) (index : Z) (fl1 : jb_framelist) : Prop :=
  forall i x, window fl1 !! i = Some x -> frame_type x = PJMEDIA_JB_NORMAL_FRAME ->
    is_new x /\ origin fl1 + Z.of_nat i = index \/
    exists j, window fl !! j = Some x /\ origin fl + Z.of_nat j = origin fl1 + Z.of_nat i.

Lemma placed_after fl fl1 fl2 index : in_place fl fl1 -> placed fl1 index fl2 -> placed fl index fl2.
Proof.
  intros H1 H2 i x Hx Ht. destruct (H2 i x Hx Ht) as [?|(j & Hj & Ej)]; [by left|right].
  destruct (H1 j x Hj Ht) as (k & Hk & Ek). exists k. split; [done|lia].
Qed.

Lemma placed_insert fl fl1 index (d : nat) s : is_new s -> origin fl1 = origin fl ->
  origin fl + Z.of_nat d = index -> window fl1 = <[d := s]> (window fl) -> placed fl index fl1.
Proof.
  intros Hs Ho Hi Hw i x Hx _. rewrite Hw in Hx.
  apply list_lookup_insert_Some in Hx as [(-> & -> & _)|[_ Hx]].
  - left. split; [done|lia].
  - right. exists i. split; [done|lia].
Qed.

Lemma placed_append fl fl1 index (k : nat) gap s : is_new s -> Forall blank gap ->
  origin fl1 = origin fl + Z.of_nat k \/ k = length (window fl) -> (k <= length (window fl))%nat ->
  index - origin fl1 = zlen (window fl) - Z.of_nat k + zlen gap ->
  window fl1 = drop k (window fl) ++ gap ++ [s] -> placed fl index fl1.
Proof.
  intros Hs Hg Ho Hk Hi Hw i x Hx Ht. rewrite Hw in Hx. unfold zlen in Hi.
  apply lookup_app_Some in Hx as [Hx|[Hl Hx]].
  - right. pose proof (lookup_lt_Some _ _ _ Hx) as Hl. rewrite length_drop in Hl.
    rewrite lookup_drop in Hx. exists (k + i)%nat. split; [done|lia].
  - rewrite length_drop in Hl, Hx. apply lookup_app_Some in Hx as [Hx|[Hl2 Hx]].
    + rewrite Forall_lookup in Hg. apply Hg in Hx as [Hx _]. congruence.
    + left. apply list_lookup_singleton_Some in Hx as [Hx ->]. split; [done|lia].
Qed.

(** The frame [index] has been stored. *)
Definition put_done (fl : jb_framelist) (index : Z) (fl1 : jb_framelist) : Prop :=
  fl_kept fl fl1 /\
  (origin fl - index < JB_MAX_MISORDER -> origin fl <= origin fl1 /\ placed fl index fl1) /\
  exists s, is_new s /\ window fl1 !! Z.to_nat (index - origin fl1) = Some s /\
    origin fl1 <= index /\ frame_in (window fl) (window fl1) s.

Lemma frame_in_kept fl fl1 s :
  fl_wf fl -> fl_wf fl1 -> max_count fl1 = max_count fl -> frame_size fl1 = frame_size fl ->
  is_new s -> frame_in (window fl) (window fl1) s ->
  (forall r, disc_below (origin fl) (window fl) r -> disc_below (origin fl1) (window fl1) r) ->
  fl_kept fl fl1.
Proof.
  intros Hw Hw1 Hm Hf Hs Hin Hb. apply kept_intro; auto.
  destruct Hin as [(k & p & old & Hp & Ho & ->)|(k & gap & Hg & ->)].
  - erewrite ndisc_insert; [apply ndisc_drop|exact Hp| |by apply new_live].
    unfold is_missing in Ho. apply bool_decide_eq_true in Ho. by rewrite Ho.
  - rewrite !ndisc_app, (ndisc_blank gap), ndisc_cons, (new_live s) by done.
    pose proof (ndisc_drop k (window fl)). simpl. lia.
Qed.

Lemma append_below o w r gap s k : Forall blank gap -> is_new s ->
  disc_below o w r -> disc_below (o + Z.of_nat k) (drop k w ++ gap ++ [s]) r.
Proof.
  intros Hg Hs Hb. apply disc_below_app; [by apply disc_below_drop|].
  apply Forall_app; split; [by apply gap_live|]. constructor; [by apply new_live|done].
Qed.

(** Storing behind the window. *)
Lemma put_done_append fl fl1 index k gap s :
  fl_wf fl -> fl_wf fl1 -> max_count fl1 = max_count fl -> frame_size fl1 = frame_size fl ->
  (k <= length (window fl))%nat -> is_new s -> Forall blank gap ->
  window fl1 = drop k (window fl) ++ gap ++ [s] ->
  origin fl1 <= origin fl + Z.of_nat k \/ k = length (window fl) ->
  index - origin fl1 = zlen (window fl) - Z.of_nat k + zlen gap ->
  (origin fl - index < JB_MAX_MISORDER -> origin fl <= origin fl1 /\
     (origin fl1 = origin fl + Z.of_nat k \/ k = length (window fl))) ->
  put_done fl index fl1.
Proof.
  intros Hw Hw1 Hm Hf Hk Hs Hg Hwin Ho Hi Hor.
  assert (Hin : frame_in (window fl) (window fl1) s) by (right; eauto).
  assert (Hl : zlen (drop k (window fl)) = zlen (window fl) - Z.of_nat k)
    by (unfold zlen; rewrite length_drop; lia).
  pose proof (zlen_nonneg gap). pose proof (zlen_nonneg (drop k (window fl))).
  split; [|split].
  - apply (frame_in_kept fl fl1 s); auto. intros r Hb. rewrite Hwin.
    destruct Ho as [Ho|Hk0].
    + eapply disc_below_mono; [exact Ho|done|]. by apply append_below.
    + rewrite drop_ge by lia. apply disc_below_app; [by apply disc_below_live|].
      apply Forall_app; split; [by apply gap_live|]. constructor; [by apply new_live|done].
  - intros Hmis. destruct (Hor Hmis) as [H1 H2]. split; [exact H1|]. by eapply placed_append.
  - exists s. split_and!; auto; [|lia]. rewrite Hwin, app_assoc.
    unfold zlen in *. rewrite lookup_app_r by (rewrite length_app; lia).
    rewrite length_app. replace (Z.to_nat (index - origin fl1) - _)%nat with 0%nat by lia. done.
Qed.

(** What a single [put_at] comes to. *)
Lemma put_at_outcome fl index :
  fl_wf fl -> seq_ok index -> fsize <= frame_size fl ->
  let '(fl1, st) := put fl index in
  match st with
  | PJ_SUCCESS => put_done fl index fl1
  | PJ_ETOOMANY =>
      fl_kept fl fl1 /\ window fl1 = window fl /\
      (origin fl - index < JB_MAX_MISORDER -> origin fl1 = origin fl) /\
      max_count fl <= index - origin fl1 <= JB_MAX_DROPOUT
  | PJ_ETOOSMALL =>
      fl1 = fl /\ index < origin fl /\ origin fl - index < JB_MAX_MISORDER
  | PJ_EEXISTS =>
      fl1 = fl /\ exists s, window fl !! Z.to_nat (index - origin fl) = Some s /\
        is_missing (frame_type s) = false
  | _ => False
  end.
Proof.
  intros Hw Hq Hf. pose proof (put_at_spec frame fsize bits stamp fl index Hw Hq Hf) as H.
  cbv beta in H. unfold put. destruct (jb_framelist_put_at _ _ _ _ _ _ _) as [fl1 st].
  destruct H as (Hw1 & Hm & Hfs & H). unfold put_post in H. pose proof (wf_size fl Hw) as Hsz.
  pose proof (zlen_window fl ltac:(lia)) as Hz. unfold seq_ok in Hq.
  destruct (plan_of _ _ _ _) as [e| |d| |] eqn:Hp; unfold plan_of in Hp.
  - destruct H as [-> ->]. repeat case_match; simplify_eq; try lia.
    + split_and!; [done|lia|lia].
    + split_and!; [by apply fl_kept_refl|done|lia|lia|lia].
  - destruct H as [-> ->]. repeat case_match; simplify_eq; try lia. split_and!; try (simpl; lia); [|done].
    apply kept_intro; auto; [|done]. intros r Hb. eapply disc_below_mono; [| |exact Hb]; simpl; lia.
  - assert (d = index - origin fl /\ 0 <= d < max_count fl) as [-> Hd]
      by (repeat case_match; simplify_eq; lia).
    destruct (window fl !! Z.to_nat (index - origin fl)) as [s|] eqn:El.
    + destruct (is_missing (frame_type s)) eqn:Em.
      * destruct H as (-> & Ho & Hwin). pose proof (lookup_lt_Some _ _ _ El) as Hlt.
        split; [|split].
        -- apply (frame_in_kept fl fl1 (new_slot frame fsize bits stamp s)); auto; [by eexists|..].
           { left. exists 0%nat. eauto. }
           intros r Hb. rewrite Ho, Hwin. by apply disc_below_insert.
        -- intros _. split; [lia|]. apply (placed_insert fl fl1 index (Z.to_nat (index - origin fl)) (new_slot frame fsize bits stamp s)); [by eexists|done|lia|done].
        -- exists (new_slot frame fsize bits stamp s). rewrite Hwin, Ho.
           split_and!; [by eexists|by apply list_lookup_insert_eq|lia|left; exists 0%nat; eauto].
      * destruct H as [-> ->]. eauto.
    + destruct H as (-> & Ho & gap & s & Hg & Hs & Hgz & Hwin).
      apply (put_done_append fl fl1 index 0 gap s); auto; try lia.
  - destruct H as (-> & Ho & s & Hs & Hwin).
    assert (index < origin fl /\ origin fl - index >= JB_MAX_MISORDER)
      by (repeat case_match; simplify_eq; lia).
    apply (put_done_append fl fl1 index 0 [] s); auto; try lia.
    all: rewrite ?Hz, ?Ho; unfold zlen; simpl; lia.
  - destruct H as (-> & Ho & s & Hs & Hwin).
    assert (origin fl - index < JB_MAX_MISORDER -> origin fl <= index)
      by (repeat case_match; simplify_eq; lia).
    apply (put_done_append fl fl1 index (length (window fl)) [] s); auto; try lia.
    + by rewrite Hwin, drop_all.
    + rewrite Ho. unfold zlen; simpl. lia.
Qed.

(** Once the oldest frames have made room the frame is stored. *)
Lemma put_after_room fl index :
  fl_wf fl -> seq_ok index -> fsize <= frame_size fl ->
  max_count fl <= index - origin fl <= JB_MAX_DROPOUT ->
  (put (jb_framelist_remove_head fl (index - origin fl - max_count fl + 1)).1 index).2 = PJ_SUCCESS.
Proof.
  intros Hw Hq Hf Hd. pose proof (wf_max fl Hw) as Hmx. pose proof (wf_size fl Hw) as Hsz.
  pose proof (remove_head_spec fl (index - origin fl - max_count fl + 1) Hw ltac:(lia)) as Hr.
  cbv zeta in Hr. destruct (jb_framelist_remove_head fl _) as [fl1 n]. cbn [fst].
  destruct Hr as (-> & Hw1 & _ & Ho & Hs1 & Hm & Hfs).
  pose proof (put_at_spec frame fsize bits stamp fl1 index Hw1 Hq ltac:(lia)) as H.
  cbv beta in H. unfold put. destruct (jb_framelist_put_at _ _ _ _ _ _ _) as [fl2 st]. cbn [snd].
  destruct H as (_ & _ & _ & H). unfold put_post in H.
  destruct (plan_of _ _ _ _) as [e| |d| |] eqn:Hp; unfold plan_of in Hp.
  - repeat case_match; simplify_eq; lia.
  - repeat case_match; simplify_eq; lia.
  - assert (d = index - origin fl1 /\ size fl1 <= d) as [-> Hlt]
      by (repeat case_match; simplify_eq; lia).
    rewrite window_lookup, decide_False in H by lia. tauto.
  - tauto.
  - tauto.
Qed.
End PutFrame.

(** ** The update after an operation *)

(** The frame list a discard algorithm leaves: unchanged, without its first
    frame, or with one more frame of the window discarded. *)
Inductive shrunk (fl : jb_framelist) : jb_framelist -> Prop :=
  | shrunk_none : shrunk fl fl
  | shrunk_head : shrunk fl (jb_framelist_remove_head fl 1).1
  | shrunk_discard q :
      0 <= q - origin fl < size fl ->
      is_discarded (frame_type (ring_at fl (q - origin fl))) = false ->
      shrunk fl (jb_framelist_discard fl q).1.

Lemma shrunk_origin fl fl' : fl_wf fl -> shrunk fl fl' -> origin fl <= origin fl'.
Proof.
  intros Hw H. pose proof (wf_size fl Hw). destruct H as [| |q Hq Hd]; [lia|..].
  - pose proof (remove_head_spec fl 1 Hw ltac:(lia)) as H. cbv zeta in H.
    destruct (jb_framelist_remove_head fl 1). simpl. lia.
  - pose proof (discard_spec fl q Hw) as H. cbv zeta in H.
    destruct (jb_framelist_discard fl q). destruct H as [(_&_&H&_) _]; [done|]. simpl. lia.
Qed.

Ltac jb_wf_solve := constructor; simpl; auto; try lia; try done.

Lemma clamp_min_max_range lo hi x : lo <= hi -> lo <= clamp_min_max lo hi x <= hi.
Proof.
  intros. unfold clamp_min_max. destruct (Z.ltb_spec x lo); [destruct (Z.gtb_spec lo hi)|destruct (Z.gtb_spec x hi)]; lia.
Qed.
Lemma clamp_max_min_range lo hi x : lo <= hi -> lo <= clamp_max_min lo hi x <= hi.
Proof.
  intros. unfold clamp_max_min. destruct (Z.gtb_spec x hi); [destruct (Z.ltb_spec hi lo)|destruct (Z.ltb_spec x lo)]; lia.
Qed.

(** What the control state may become while the frame list stays. *)
Definition same_list (jb jb' : pjmedia_jbuf) : Prop :=
  jb_list jb' = jb_list jb /\ jb_discard jb' = jb_discard jb.

Lemma calculate_jitter_wf jb :
  jb_wf jb -> jb_wf (jbuf_calculate_jitter jb) /\ same_list jb (jbuf_calculate_jitter jb).
Proof.
  intros []. pose proof (wf_max (jb_list jb) jw_list0) as Hmax. rewrite jw_count0 in Hmax.
  pose proof (clamp_min_max_range (jb_min_prefetch jb) (jb_max_prefetch jb)) as Hc1.
  pose proof (clamp_max_min_range (jb_min_prefetch jb) (jb_max_prefetch jb)) as Hc2.
  assert (Hs32 : s32 (jb_max_count jb * 4 / 5) = jb_max_count jb * 4 / 5)
    by (apply s32_small; unfold is_s32; Z.to_euclidean_division_equations; lia).
  assert (0 <= jb_max_count jb * 4 / 5) by (apply Z.div_pos; lia).
  unfold jbuf_calculate_jitter, same_list. simpl. rewrite Hs32.
  destruct (Z.ltb_spec (jb_level jb) (jb_eff_level jb)) as [Hlt|Hge].
  - destruct (_ >? STABLE_HISTORY_LIMIT); [|split; [jb_wf_solve|done]].
    simpl. set (h := Z.max _ _). set (d := (jb_eff_level jb - h) ÷ 3).
    assert (Hd : 1 <= (if d <? 1 then 1 else d) <= jb_eff_level jb).
    { destruct (Z.ltb_spec d 1); [lia|]. unfold d in *.
      Z.to_euclidean_division_equations; lia. }
    set (e := jb_eff_level jb - (if d <? 1 then 1 else d)).
    specialize (Hc1 e). destruct (truth _); (split; [jb_wf_solve|done]).
  - destruct (Z.gtb_spec (jb_level jb) (jb_eff_level jb)); [|split; [jb_wf_solve|done]].
    simpl. set (e := Z.min _ _). specialize (Hc2 e).
    destruct (truth _); (split; [jb_wf_solve|done]).
Qed.

Lemma discard_static_wf jb :
  jb_wf jb -> jb_discard_algo jb = PJMEDIA_JB_DISCARD_STATIC ->
  jb_wf (jbuf_discard_static jb) /\ shrunk (jb_list jb) (jb_list (jbuf_discard_static jb)).
Proof.
  intros Hj Ha. pose proof Hj as []. specialize (jw_static0 Ha).
  pose proof (wf_seq _ jw_list0). pose proof (wf_size _ jw_list0). pose proof (wf_max _ jw_list0).
  assert (Hnone : forall r, disc_below (origin (jb_list jb)) (window (jb_list jb)) r).
  { intros r. apply disc_below_live, ndisc_zero. by rewrite <- (wf_disc _ jw_list0). }
  unfold jbuf_discard_static, jb_framelist_origin. destruct (_ >=? _); [|split; [done|constructor]].
  set (jb1 := if origin (jb_list jb) <? jb_discard_ref jb then _ else jb).
  assert (Hj1 : jb_wf jb1 /\ jb_list jb1 = jb_list jb).
  { unfold jb1. destruct (_ <? _); (split; [|done]); [|done].
    jb_wf_solve. unfold is_s32 in *. lia. }
  destruct Hj1 as [Hj1 El]. rewrite <- El. destruct (_ >=? _); [|split; [done|constructor]].
  pose proof (remove_head_kept (jb_list jb1) 1 (jw_list _ Hj1) ltac:(lia)) as Hk.
  pose proof (shrunk_head (jb_list jb1)) as Hsh.
  destruct (jb_framelist_remove_head (jb_list jb1) 1) as [fl n]. simpl in Hk, Hsh.
  simpl. split; [|exact Hsh]. destruct Hk, Hj1.
  constructor; simpl; auto; try congruence.
  - pose proof (wf_seq _ fk_wf0). pose proof (wf_size _ fk_wf0). pose proof (wf_max _ fk_wf0).
    unfold is_s32. lia.
  - right. apply fk_below0. by rewrite El.
Qed.

Lemma discard_duration_range b : is_u32 b -> 2000 <= discard_duration b <= 10000.
Proof.
  intros Hb. unfold discard_duration, is_u32 in *.
  unfold PJMEDIA_JBUF_PRO_DISC_MIN_BURST, PJMEDIA_JBUF_PRO_DISC_MAX_BURST,
    PJMEDIA_JBUF_PRO_DISC_T1, PJMEDIA_JBUF_PRO_DISC_T2.
  destruct (Z.leb_spec b 1); [lia|]. destruct (Z.geb_spec b 100); [lia|].
  rewrite u32_small by (unfold is_u32; lia). Z.to_euclidean_division_equations; lia.
Qed.

Lemma div_range a b m : 0 <= a <= m -> 1 <= b -> 0 <= a / b <= m.
Proof. intros. split; [apply Z.div_pos; lia|]. apply Z.div_le_upper_bound; nia. Qed.

(** A discard schedule in place: [r] is the last frame discarded, [d] the
    distance to the next. *)
Lemma scheduled_discard jb r d :
  jb_wf jb -> is_s32 r -> 1 <= d <= 10000 ->
  disc_below (origin (jb_list jb)) (window (jb_list jb)) r ->
  r + d <= origin (jb_list jb) + size (jb_list jb) - 1 ->
  jb_discard_algo jb <> PJMEDIA_JB_DISCARD_STATIC ->
  let q := Z.max (origin (jb_list jb)) (r + d) in
  let jb' := jb <| jb_discard_dist := d |> <| jb_list := (jb_framelist_discard (jb_list jb) q).1 |>
                <| jb_discard_ref := q |> in
  jb_wf jb' /\ shrunk (jb_list jb) (jb_list jb').
Proof.
  intros Hj Hr Hd Hb Hl Ha q jb'. pose proof Hj as []. set (fl := jb_list jb) in *.
  pose proof (wf_seq _ jw_list0). pose proof (wf_size _ jw_list0). pose proof (wf_max _ jw_list0).
  destruct (decide (size fl = 0)) as [E0|Hne].
  - assert (Ed : jb_framelist_discard fl q = (fl, PJ_EINVAL)).
    { pose proof (discard_spec fl q jw_list0) as Hs. cbv zeta in Hs.
      destruct (jb_framelist_discard fl q) as [fl' st]. destruct Hs as [_ Hs].
      destruct Hs as [-> ->]; [lia|done]. }
    unfold jb'. rewrite Ed. simpl. split; [|constructor]. unfold is_s32 in *.
    constructor; simpl; auto; unfold is_s32; try lia.
    right. rewrite window_nil by done. by apply disc_below_live.
  - assert (Hq : 0 <= q - origin fl < size fl) by lia.
    assert (Hnd : is_discarded (frame_type (ring_at fl (q - origin fl))) = false)
      by (apply (disc_below_above fl r); auto; lia).
    assert (Hsh : shrunk fl (jb_framelist_discard fl q).1) by (by constructor).
    pose proof (discard_spec fl q jw_list0) as Hs. cbv zeta in Hs.
    destruct (jb_framelist_discard fl q) as [fl' st] eqn:Efl. destruct Hs as [Hs _].
    destruct (Hs Hq) as (_ & Hwin & Ho & _ & Hm & Hf & Hw'). unfold jb'. rewrite ?Efl. simpl.
    split; [|exact Hsh]. unfold is_s32 in *. destruct jw_fsize0.
    constructor; simpl; auto; unfold is_s32; try lia; try congruence;
      [split; [congruence|done]|].
    right. rewrite Hwin, Ho.
    pose proof (disc_below_alter (origin fl) (window fl) r (Z.to_nat (q - origin fl)) Hb ltac:(lia)) as Hal.
    by replace (origin fl + Z.of_nat (Z.to_nat (q - origin fl))) with q in Hal by lia.
Qed.

Lemma discard_progressive_wf jb :
  jb_wf jb -> jb_discard_algo jb <> PJMEDIA_JB_DISCARD_STATIC ->
  jb_wf (jbuf_discard_progressive jb) /\
  shrunk (jb_list jb) (jb_list (jbuf_discard_progressive jb)).
Proof.
  intros Hj Ha. pose proof Hj as []. unfold jbuf_discard_progressive, jb_framelist_origin.
  unfold jb_framelist_size. set (fl := jb_list jb) in *.
  pose proof (wf_seq _ jw_list0). pose proof (wf_size _ jw_list0). pose proof (wf_max _ jw_list0).
  destruct (negb _); [split; [done|constructor]|].
  set (burst := u32 (Z.max _ _)). destruct (Z.leb_spec (jb_framelist_eff_size fl) burst).
  { split; [jb_wf_solve|constructor]. }
  assert (Hu : is_u32 burst) by apply u32_range.
  rewrite (u32_small (jb_framelist_eff_size fl - burst))
    by (pose proof (u32_range (size fl - discarded_num fl)); unfold jb_framelist_eff_size, is_u32 in *; lia).
  pose proof (discard_duration_range burst Hu) as Hdur.
  set (dd := discard_duration burst / _ / _).
  assert (Hdd : 0 <= dd <= 10000) by (repeat (apply div_range; try lia)).
  rewrite (s32_small (origin fl + size fl - 1)) by (unfold is_s32; lia).
  rewrite (s32_small dd) by (unfold is_s32; lia).
  assert (Hgap : 1 <= jb_min_shrink_gap jb <= 200).
  { destruct jw_ptime0 as [? ->]. unfold PJMEDIA_JBUF_DISC_MIN_GAP.
    Z.to_euclidean_division_equations; nia. }
  set (d := Z.max (jb_min_shrink_gap jb) dd).
  set (last := origin fl + size fl - 1).
  set (r := if jb_discard_dist jb =? 0 then last else Z.min last (jb_discard_ref jb)).
  assert (Hr : is_s32 r /\ disc_below (origin fl) (window fl) r).
  { pose proof (disc_below_last fl ltac:(lia)) as Hl. fold last in Hl. unfold r, is_s32 in *.
    destruct (Z.eqb_spec (jb_discard_dist jb) 0); [split; [lia|done]|].
    destruct jw_disc0 as [?|Hb]; [lia|]. split; [lia|].
    destruct (Z.min_spec last (jb_discard_ref jb)) as [[_ ->]|[_ ->]]; done. }
  destruct Hr as [Hr Hrb].
  set (jb1 := if jb_discard_dist jb =? 0 then _ else _).
  assert (Ej1 : jb1 = jb <| jb_discard_ref := r |>).
  { unfold jb1, r. destruct (Z.eqb_spec (jb_discard_dist jb) 0); [done|].
    destruct (Z.ltb_spec last (jb_discard_ref jb)); [by rewrite Z.min_l by lia|].
    rewrite Z.min_r by lia. by destruct jb. }
  rewrite Ej1. simpl. fold d. rewrite (u32_small d) by (unfold is_u32; lia).
  rewrite (s32_small d) by (unfold is_s32; lia).
  destruct (Z.geb_spec last (r + d)) as [Hge|Hlt].
  - rewrite (s32_small (r + d)) by (unfold is_s32 in *; lia).
    destruct (scheduled_discard jb r d Hj Hr ltac:(lia) Hrb ltac:(fold fl; unfold last in Hge; lia) Ha) as [Hdw Hds].
    fold fl in Hdw, Hds.
    change (jb_list jb) with fl.
    replace (if r + d <? origin fl then origin fl else r + d) with (Z.max (origin fl) (r + d))
      by (destruct (Z.ltb_spec (r + d) (origin fl)); lia).
    split; [exact Hdw|exact Hds].
  - split; [|constructor]. constructor; simpl; auto; lia.
Qed.

Lemma switch_op_wf jb op :
  jb_wf jb ->
  jb_wf (jbuf_switch_op jb op).1 /\ same_list jb (jbuf_switch_op jb op).1 /\
  jb_discard_algo (jbuf_switch_op jb op).1 = jb_discard_algo jb.
Proof.
  intros Hj. unfold jbuf_switch_op.
  set (x := if bool_decide (jb_status _ = _) then _ else _).
  assert (Hx : jb_wf x.1 /\ same_list jb x.1 /\ jb_discard_algo x.1 = jb_discard_algo jb).
  { unfold x. destruct Hj. repeat case_match; simpl; (split_and!; [jb_wf_solve|done|done]). }
  destruct x as [jb1 go]. simpl in Hx. destruct Hx as (Hj1 & Hl1 & Ha1).
  destruct go; [|done]. cbv zeta.
  set (jb2 := if bool_decide (op = JB_OP_GET) && _ then _ else _).
  assert (Hj2 : jb_wf jb2 /\ same_list jb1 jb2 /\ jb_discard_algo jb2 = jb_discard_algo jb1).
  { unfold jb2. destruct (_ && _); [|done]. split_and!; [by apply calculate_jitter_wf..|].
    unfold jbuf_calculate_jitter. simpl. by repeat case_match. }
  destruct Hj2 as (Hj2 & [Hl2 Hd2] & Ha2), Hl1 as [Hl1 Hd1]. unfold same_list. simpl.
  split; [|split; [split; congruence|congruence]]. destruct Hj2. jb_wf_solve.
Qed.

Lemma run_discard_algo_wf jb :
  jb_wf jb -> jb_wf (run_discard_algo jb) /\ shrunk (jb_list jb) (jb_list (run_discard_algo jb)).
Proof.
  intros Hj. unfold run_discard_algo. destruct (jb_discard_algo jb) eqn:Ea.
  - split; [done|constructor].
  - by apply discard_static_wf.
  - apply discard_progressive_wf; [done|]. by rewrite Ea.
Qed.

Lemma update_wf jb op :
  jb_wf jb -> jb_wf (jbuf_update jb op) /\ shrunk (jb_list jb) (jb_list (jbuf_update jb op)).
Proof.
  intros Hj. unfold jbuf_update.
  set (x := if bool_decide (jb_last_op jb = op) then _ else _).
  assert (Hx : jb_wf x.1 /\ jb_list x.1 = jb_list jb).
  { unfold x. case_match; [done|]. destruct (switch_op_wf jb op Hj) as (?&[??]&?). done. }
  destruct x as [jb1 go]. destruct Hx as [Hj1 <-]. simpl in *.
  destruct (_ && _); [by apply run_discard_algo_wf|split; [done|constructor]].
Qed.

(** Changing the frame list under the buffer. *)
Lemma set_list_wf jb fl :
  jb_wf jb -> fl_kept (jb_list jb) fl -> jb_wf (jb <| jb_list := fl |>).
Proof.
  intros [] []. destruct jw_fsize0. constructor; simpl; auto; try lia; try congruence.
  - split; [congruence|done].
  - destruct jw_disc0; auto.
Qed.

(** Fields the invariant does not mention, or only bounds from below. *)
Lemma set_counters_wf jb f g l p dl :
  jb_wf jb -> 0 <= l ->
  jb_wf (jb <| jb_discard ::= f |> <| jb_empty ::= g |> <| jb_level := l |>
            <| jb_prefetching := p |> <| jb_delay := dl |>).
Proof. intros [] ?. jb_wf_solve. Qed.

Lemma discard_count_wf jb f : jb_wf jb -> jb_wf (jb <| jb_discard ::= f |>).
Proof. intros []. jb_wf_solve. Qed.

(** What [make_room] does after the first attempt to store the frame. *)
Lemma make_room_spec jb fl1 st frame fsize bits stamp index :
  jb_wf jb -> seq_ok index -> fsize <= jb_frame_size jb ->
  (fl1, st) = jb_framelist_put_at (jb_list jb) index frame fsize bits stamp
                PJMEDIA_JB_NORMAL_FRAME ->
  exists jb2 st2 removed,
    make_room 3 (jb <| jb_list := fl1 |>) st frame fsize bits index stamp = (jb2, st2, true) /\
    jb2 = jb <| jb_list := jb_list jb2 |> <| jb_discard := removed |> /\
    match st2 with
    | PJ_SUCCESS => put_done frame fsize bits stamp (jb_list jb) index (jb_list jb2)
    | PJ_ETOOSMALL =>
        jb2 = jb /\ index < origin (jb_list jb) /\ origin (jb_list jb) - index < JB_MAX_MISORDER
    | PJ_EEXISTS =>
        jb2 = jb /\ exists s, window (jb_list jb) !! Z.to_nat (index - origin (jb_list jb)) = Some s /\
          is_missing (frame_type s) = false
    | _ => False
    end.
Proof.
  intros Hj Hq Hf E. pose proof Hj as []. destruct jw_fsize0 as [Efs _].
  pose proof (put_at_outcome frame fsize bits stamp (jb_list jb) index jw_list0 Hq ltac:(lia)) as Ho.
  cbv beta zeta in Ho. rewrite <- E in Ho.
  destruct st; try done; cbn [make_room];
    repeat (rewrite bool_decide_eq_false_2 by done).
  - exists (jb <| jb_list := fl1 |>), PJ_SUCCESS, (jb_discard jb). split_and!; try done.
  - destruct Ho as [-> Ho]. exists (jb <| jb_list := jb_list jb |>), PJ_EEXISTS, (jb_discard jb).
    split_and!; try done. by destruct jb.
  - destruct Ho as (-> & Ho1 & Ho2).
    exists (jb <| jb_list := jb_list jb |>), PJ_ETOOSMALL, (jb_discard jb).
    split_and!; try done. by destruct jb.
  - rewrite bool_decide_eq_true_2 by done. destruct Ho as (Hk & Hwin & Hor & Hd).
    destruct Hk as [Hw1 Hm1 Hf1 Hb1 Hn1].
    change (jb_list (jb <| jb_list := fl1 |>)) with fl1.
    change (jb_max_count (jb <| jb_list := fl1 |>)) with (jb_max_count jb).
    unfold jb_framelist_origin.
    pose proof (wf_max _ jw_list0) as Hmx. unfold JB_MAX_DROPOUT in *.
    rewrite (s32_small (jb_max_count jb)) by (unfold is_s32; lia).
    rewrite (u32_small (index - origin fl1 - jb_max_count jb + 1)) by (unfold is_u32; lia).
    rewrite <- jw_count0, <- Hm1.
    set (n := index - origin fl1 - max_count fl1 + 1).
    pose proof (put_after_room frame fsize bits stamp fl1 index Hw1 Hq ltac:(lia)
                  ltac:(unfold JB_MAX_DROPOUT; lia)) as Hst. fold n in Hst.
    pose proof (remove_head_kept fl1 n Hw1 ltac:(lia)) as Hk2.
    pose proof (remove_head_spec fl1 n Hw1 ltac:(lia)) as Hr. cbv zeta in Hr.
    destruct (jb_framelist_remove_head fl1 n) as [fl2 k]. cbn [fst] in Hst, Hk2.
    destruct Hk2 as [Hw2 Hm2 Hf2 Hb2 Hn2]. destruct Hr as (_ & _ & Hwin2 & Hor2 & _).
    pose proof (wf_size _ Hw1) as Hsz1.
    pose proof (put_at_outcome frame fsize bits stamp fl2 index Hw2 Hq ltac:(lia)) as Ho2.
    cbv beta zeta in Ho2.
    destruct (jb_framelist_put_at fl2 index _ _ _ _ _) as [fl3 st3]. simpl in Hst. subst st3.
    cbv zeta. rewrite bool_decide_eq_false_2 by done.
    eexists _, PJ_SUCCESS, (u32 (jb_discard jb + k)). split; [reflexivity|]. split; [done|].
    cbn [jb_list modify]. simpl. destruct Ho2 as (Hk3 & Hor3 & s & Hs & Hl & Hle & Hin).
    split; [|split].
    2: { intros Hmis. specialize (Hor Hmis). destruct (Hor3 ltac:(unfold JB_MAX_MISORDER in *; lia)) as [H1 H2].
         split; [lia|]. apply (placed_after frame fsize bits stamp _ fl2); [|exact H2].
         apply (in_place_drop _ _ (Z.to_nat (Z.min n (size fl1)))); [by rewrite Hwin2, Hwin|lia]. }
    + eapply fl_kept_trans; [|exact Hk3]. constructor; auto; congruence.
    + exists s. split_and!; try done. rewrite <- Hwin. rewrite Hwin2 in Hin.
      destruct Hin as [(j & p & old & Hp & Hm & E3)|(j & gap & Hg & E3)].
      * left. rewrite drop_drop in *. eauto 10.
      * right. rewrite drop_drop in *. eauto.
Qed.

(** ** The calls of the API *)

Lemma put_frame3_run jb frame fsize bits index stamp :
  jb_wf jb -> seq_ok index -> 0 <= fsize ->
  exists jb' lost,
    pjmedia_jbuf_put_frame3 jb frame fsize bits index stamp = Some (jb', lost) /\ jb_wf jb' /\
    if lost : bool then
      jb' = jb <| jb_discard ::= fun n => u32 (n + 1) |> /\
      (origin (jb_list jb) - JB_MAX_MISORDER < index < origin (jb_list jb) \/
       exists s, window (jb_list jb) !! Z.to_nat (index - origin (jb_list jb)) = Some s /\
         is_missing (frame_type s) = false)
    else
      exists fl1, put_done frame (Z.min fsize (jb_frame_size jb)) bits stamp (jb_list jb) index fl1 /\
        shrunk fl1 (jb_list jb').
Proof.
  intros Hj Hq Hf. pose proof (jw_fsize jb Hj) as [_ Hu]. unfold pjmedia_jbuf_put_frame3.
  rewrite (u32_small (Z.min fsize (jb_frame_size jb))) by (unfold is_u32 in *; lia).
  destruct (jb_framelist_put_at _ _ _ _ _ _ _) as [fl1 st] eqn:E.
  destruct (make_room_spec jb fl1 st frame (Z.min fsize (jb_frame_size jb)) bits stamp index)
    as (jb2 & st2 & removed & -> & Ej & Hst); [done|done|lia|done|].
  destruct (bool_decide (st2 = PJ_SUCCESS)) eqn:Es.
  - apply bool_decide_eq_true in Es. subst st2.
    set (jb3 := if jb_prefetching jb2 && _ then _ else _).
    set (jb4 := jb3 <| jb_level ::= _ |>).
    assert (Hj4 : jb_wf jb4 /\ jb_list jb4 = jb_list jb2).
    { assert (Hj2 : jb_wf jb2).
      { rewrite Ej. apply discard_count_wf, set_list_wf; [done|]. by destruct Hst. }
      unfold jb4, jb3. split; [|by destruct (_ && _)]. pose proof (jw_level _ Hj2) as [Hl _].
      assert (Hl' : forall d : Z, 0 <= jb_level jb2 + (if d >? 0 then d else 1))
        by (intros d; destruct (Z.gtb_spec d 0); lia).
      destruct Hj2, (_ && _); constructor; simpl; auto;
        destruct (Z.gtb_spec (s32 (jb_framelist_eff_size (jb_list jb2)))
                    (s32 (jb_framelist_eff_size (jb_list jb)))); lia. }
    destruct Hj4 as [Hj4 El]. destruct (update_wf jb4 JB_OP_PUT Hj4) as [Hu1 Hu2].
    eexists _, false. split; [reflexivity|]. split; [done|]. exists (jb_list jb2).
    split; [done|]. by rewrite <- El.
  - apply bool_decide_eq_false in Es.
    eexists _, true. split; [reflexivity|]. destruct st2; try done.
    all: destruct Hst as [-> Hst]; split; [by apply discard_count_wf|]; split; [done|].
    + by right.
    + left. lia.
Qed.

Lemma get_frame3_run jb max_size :
  jb_wf jb ->
  let '(jb', (t, res)) := pjmedia_jbuf_get_frame3 jb max_size in
  jb_wf jb' /\
  exists fl1, shrunk fl1 (jb_list jb') /\
    if jb_prefetching jb then fl1 = jb_list jb /\ t = PJMEDIA_JB_ZERO_PREFETCH_FRAME /\ res = None
    else
      fl1 = (jb_framelist_get (jb_list jb) max_size).1 /\ fl_kept (jb_list jb) fl1 /\
      let k := lead_disc (window (jb_list jb)) in
      match drop (Z.to_nat k) (window (jb_list jb)) with
      | [] =>
          t = PJMEDIA_JB_ZERO_EMPTY_FRAME /\ res = None /\
          window fl1 = [] /\ origin fl1 = origin (jb_list jb) + k
      | s :: rest =>
          res = Some (handed_out s (0 <? k) max_size (origin (jb_list jb) + k)) /\
          t = (if (k =? 0) && bool_decide (frame_type s = PJMEDIA_JB_NORMAL_FRAME)
               then PJMEDIA_JB_NORMAL_FRAME else PJMEDIA_JB_MISSING_FRAME) /\
          window fl1 = rest /\ origin fl1 = origin (jb_list jb) + k + 1
      end.
Proof.
  intros Hj. unfold pjmedia_jbuf_get_frame3. pose proof Hj as []. clear jw_disc0 jw_static0.
  destruct (jb_prefetching jb) eqn:Ep.
  - set (jb1 := (jb <| jb_empty ::= _ |>) <| jb_level ::= _ |>).
    assert (Hj1 : jb_wf jb1) by (unfold jb1; destruct Hj; jb_wf_solve).
    destruct (update_wf jb1 JB_OP_GET Hj1). split; [done|]. exists (jb_list jb). by split_and!.
  - pose proof (get_kept (jb_list jb) max_size jw_list0) as Hk.
    pose proof (get_spec (jb_list jb) max_size jw_list0) as Hg. cbv zeta in Hg.
    destruct (jb_framelist_get (jb_list jb) max_size) as [fl1 res]. cbn [fst] in Hk |- *.
    destruct Hg as (_ & _ & _ & Hg). cbv zeta.
    pose proof (set_list_wf jb fl1 Hj Hk) as Hj1.
    set (k := lead_disc (window (jb_list jb))) in *. pose proof (lead_disc_range (window (jb_list jb))) as Hkr.
    fold k in Hkr. destruct res as [f|].
    + destruct (drop _ _) as [|s rest]; [by destruct Hg|]. destruct Hg as (Hf & Hwin & Ho).
      injection Hf as Hf. set (t := if bool_decide (got_type f = _) then _ else _).
      assert (Ht : jb_wf t.1 /\ jb_list t.1 = fl1 /\
        t.2 = (if (k =? 0) && bool_decide (frame_type s = PJMEDIA_JB_NORMAL_FRAME)
               then PJMEDIA_JB_NORMAL_FRAME else PJMEDIA_JB_MISSING_FRAME)).
      { assert (Hty : got_type f = if 0 <? k then PJMEDIA_JB_MISSING_FRAME else frame_type s)
          by (rewrite Hf; unfold handed_out; by destruct (0 <? k)).
        assert (Hb : bool_decide (got_type f = PJMEDIA_JB_NORMAL_FRAME)
          = (k =? 0) && bool_decide (frame_type s = PJMEDIA_JB_NORMAL_FRAME)).
        { rewrite Hty. destruct (Z.ltb_spec 0 k), (Z.eqb_spec k 0); try lia; done. }
        unfold t. rewrite Hb. destruct (_ && _); (split; [|done]); [done|].
        destruct Hj1. jb_wf_solve. }
      destruct t as [jb2 ft]. destruct Ht as (Hj2 & El2 & Eft). simpl in Hj2, El2, Eft.
      set (jb3 := if bool_decide (jb_last_op jb2 = _) then _ else _).
      assert (Hj3 : jb_wf (jb3 <| jb_level ::= fun l => l + 1 |>) /\ jb_list jb3 = fl1).
      { unfold jb3. destruct (bool_decide (jb_last_op jb2 = JB_OP_PUT)); (split; [|exact El2]); destruct Hj2; jb_wf_solve. }
      destruct Hj3 as [Hj3 El3]. destruct (update_wf _ JB_OP_GET Hj3) as [Hu Hs].
      split; [exact Hu|]. exists fl1. split; [rewrite <- El3; exact Hs|].
      split_and!; try done. by rewrite Hf.
    + destruct (drop _ _) as [|s rest]; [|by destruct Hg]. destruct Hg as (_ & Hwin & Ho).
      set (jb2 := if truth (jb_prefetch _) then _ else _).
      assert (Hj2 : jb_wf ((jb2 <| jb_empty ::= fun n => u32 (n + 1) |>) <| jb_level ::= fun l => l + 1 |>)
                    /\ jb_list jb2 = fl1).
      { unfold jb2. destruct (truth _); (split; [|done]); destruct Hj1; jb_wf_solve. }
      destruct Hj2 as [Hj2 El2]. destruct (update_wf _ JB_OP_GET Hj2) as [Hu Hs].
      split; [exact Hu|]. exists fl1. split; [rewrite <- El2; exact Hs|]. by split_and!.
Qed.

(** ** Removing frames *)

(** Number of frames of a window that are not discarded. *)
Definition live (w : list jb_slot) : Z := zlen w - ndisc w.

Lemma live_split m w : live w = live (take m w) + live (drop m w).
Proof.
  unfold live. rewrite <- (take_drop m w) at 1 2. rewrite zlen_app, ndisc_app. lia.
Qed.
Lemma live_range w : 0 <= live w <= zlen w.
Proof. unfold live. pose proof (ndisc_range w). lia. Qed.

Lemma live_take_add a b w : live (take (a + b) w) = live (take a w) + live (take b (drop a w)).
Proof.
  rewrite (live_split a (take (a + b) w)), take_take, skipn_firstn_comm.
  rewrite Nat.min_l by lia. by replace (a + b - a)%nat with b by lia.
Qed.

Lemma live_take k w : 0 <= k <= zlen w ->
  live (take (Z.to_nat k) w) = k - (ndisc w - ndisc (drop (Z.to_nat k) w)).
Proof.
  intros Hk. unfold live. rewrite zlen_take by done.
  rewrite <- (take_drop (Z.to_nat k) w) at 2. rewrite ndisc_app. lia.
Qed.

(** One removal, in the numbers the loop watches. *)
Lemma remove_round fl n :
  fl_wf fl -> 0 <= n ->
  let k := Z.min n (size fl) in
  let '(fl1, r) := jb_framelist_remove_head fl n in
  r = k /\ fl_kept fl fl1 /\ origin fl1 = origin fl + k /\ size fl1 = size fl - k /\
  window fl1 = drop (Z.to_nat k) (window fl) /\
  0 <= discarded_num fl - discarded_num fl1 <= k /\
  (k - (discarded_num fl - discarded_num fl1)) +
    Z.min (discarded_num fl - discarded_num fl1) (live (window fl1)) = Z.min n (live (window fl)).
Proof.
  intros Hw Hn k. pose proof (remove_head_spec fl n Hw Hn) as Hr. cbv zeta in Hr.
  pose proof (remove_head_kept fl n Hw Hn) as Hk.
  destruct (jb_framelist_remove_head fl n) as [fl1 r]. fold k in Hr.
  destruct Hr as (-> & Hw1 & Hwin & Ho & Hs & _ & _). pose proof (wf_size fl Hw).
  pose proof (zlen_window fl ltac:(lia)) as Hz. pose proof (live_split (Z.to_nat k) (window fl)) as Hl.
  rewrite (wf_disc fl Hw), (wf_disc fl1 Hw1). rewrite Hwin in *.
  pose proof (ndisc_range (take (Z.to_nat k) (window fl))) as Ht.
  assert (Hnd : ndisc (window fl) = ndisc (take (Z.to_nat k) (window fl)) + ndisc (drop (Z.to_nat k) (window fl)))
    by (rewrite <- ndisc_app; by rewrite take_drop).
  unfold live at 2 in Hl. rewrite zlen_take in * by lia.
  pose proof (live_range (drop (Z.to_nat k) (window fl))) as Hlr.
  rewrite zlen_drop in Hlr by lia.
  split_and!; try done; try lia.
Qed.

Lemma remove_more_spec fuel fl last count :
  fl_wf fl -> (Z.to_nat (size fl) < fuel)%nat ->
  0 <= last - discarded_num fl <= count -> count < 2147483648 ->
  let d := last - discarded_num fl in
  exists fl' m,
    remove_more fuel fl last count = Some (fl', count - d + Z.min d (live (window fl))) /\
    fl_kept fl fl' /\ 0 <= m <= size fl /\ window fl' = drop (Z.to_nat m) (window fl) /\
    origin fl' = origin fl + m /\ live (take (Z.to_nat m) (window fl)) = Z.min d (live (window fl)).
Proof.
  revert fl last count. induction fuel as [|fuel IH]; intros fl last count Hw Hf Hl Hc d; [lia|].
  pose proof (wf_size fl Hw) as Hs. pose proof (wf_max fl Hw). pose proof (wf_disc_range fl Hw).
  pose proof (zlen_window fl ltac:(lia)) as Hz.
  pose proof (live_range (window fl)). cbn [remove_more].
  destruct (Z.ltb_spec (discarded_num fl) last).
  - fold d. rewrite (u32_small d), (u32_small (count - d)) by (unfold is_u32; lia).
    pose proof (remove_round fl d Hw ltac:(lia)) as Hr. cbv zeta in Hr.
    destruct (jb_framelist_remove_head fl d) as [fl1 n].
    destruct Hr as (-> & Hk & Ho & Hs1 & Hwin & Hd1 & Htot). set (k := Z.min d (size fl)) in *.
    pose proof (wf_disc_range fl1 (fk_wf _ _ Hk)).
    rewrite (u32_small (count - d + k)) by (unfold is_u32; lia).
    destruct (decide (size fl = 0)) as [E0|Hne].
    + assert (Hdn : discarded_num fl1 = discarded_num fl) by lia.
      assert (Hlz : live (window fl) = 0) by lia.
      assert (Erm : remove_more fuel fl1 (discarded_num fl) (count - d + k) = Some (fl1, count - d + k)).
      { destruct fuel; simpl; rewrite Hdn, Z.ltb_irrefl; done. }
      exists fl1, 0. rewrite Erm, Hlz, drop_0, take_0.
      split_and!; try done; try lia; [do 2 f_equal; lia| |unfold live, zlen; simpl; lia].
      rewrite Hwin. replace (Z.to_nat k) with 0%nat by lia. done.
    + destruct (IH fl1 (discarded_num fl) (count - d + k)) as (fl' & m & E & Hk' & Hm & Hwin' & Ho' & Hlv);
        [apply Hk|lia|lia|lia|].
      exists fl', (k + m). rewrite E. split_and!; try lia.
      * do 2 f_equal. lia.
      * by eapply fl_kept_trans.
      * rewrite Hwin', Hwin, drop_drop. f_equal. lia.
      * replace (Z.to_nat (k + m)) with (Z.to_nat k + Z.to_nat m)%nat by lia.
        rewrite live_take_add, <- Hwin, Hlv, <- Htot, live_take by lia.
        by rewrite <- Hwin, <- (wf_disc fl Hw), <- (wf_disc fl1 (fk_wf _ _ Hk)).
  - assert (d = 0) as -> by lia. exists fl, 0. rewrite drop_0, take_0, Z.min_l by lia.
    split_and!; try done; try lia; try (do 2 f_equal; lia).
Qed.

Lemma remove_frame_run jb cnt :
  jb_wf jb -> is_u32 cnt ->
  let w := window (jb_list jb) in
  exists jb' m,
    pjmedia_jbuf_remove_frame jb cnt = Some (jb', Z.min cnt (live w)) /\
    jb' = jb <| jb_list := jb_list jb' |> /\ fl_kept (jb_list jb) (jb_list jb') /\
    0 <= m <= zlen w /\ window (jb_list jb') = drop (Z.to_nat m) w /\
    origin (jb_list jb') = origin (jb_list jb) + m /\
    live (take (Z.to_nat m) w) = Z.min cnt (live w).
Proof.
  intros Hj Hc w. pose proof (jw_list jb Hj) as Hw. unfold is_u32 in Hc.
  pose proof (wf_size _ Hw). pose proof (wf_max _ Hw). pose proof (wf_disc_range _ Hw).
  pose proof (zlen_window (jb_list jb) ltac:(lia)) as Hz. fold w in Hz.
  unfold pjmedia_jbuf_remove_frame.
  pose proof (remove_round (jb_list jb) cnt Hw ltac:(lia)) as Hr. cbv zeta in Hr.
  destruct (jb_framelist_remove_head (jb_list jb) cnt) as [fl1 n].
  destruct Hr as (-> & Hk & Ho & Hs1 & Hwin & Hd1 & Htot). fold w in Hwin, Htot.
  set (k := Z.min cnt (size (jb_list jb))) in *.
  destruct (remove_more_spec (S (Z.to_nat (size (jb_list jb)))) fl1 (discarded_num (jb_list jb)) k)
    as (fl' & m & E & Hk' & Hm & Hwin' & Ho' & Hlv); [apply Hk|lia|lia|lia|].
  rewrite E. simpl. eexists (jb <| jb_list := fl' |>), (k + m). rewrite Htot.
  split_and!; try done; simpl; try lia.
  - by eapply fl_kept_trans.
  - rewrite Hwin', Hwin, drop_drop. f_equal. lia.
  - replace (Z.to_nat (k + m)) with (Z.to_nat k + Z.to_nat m)%nat by lia.
    rewrite live_take_add, <- Hwin, Hlv, <- Htot, live_take by lia.
    rewrite <- Hwin. unfold w. by rewrite <- (wf_disc _ Hw), <- (wf_disc fl1 (fk_wf _ _ Hk)).
Qed.

(** ** Sequences of calls *)

Inductive jb_call :=
  | CallPut (frame : list Z) (fsize bits index stamp : Z)
  | CallGet (max_size : option Z)
  | CallRemove (cnt : Z)
  | CallReset
  | CallSetPtime (ptime : Z)
  | CallSetFixed (prefetch : Z)
  | CallSetAdaptive (prefetch min_prefetch max_prefetch : Z)
  | CallSetDiscard (algo : pjmedia_jb_discard_algo).

Inductive jb_answer :=
  | AnsPut (lost : bool)
  | AnsGet (t : jb_frame_type) (f : option jb_frame)
  | AnsRemove (n : Z)
  | AnsStatus (st : pj_status).

(** One call; [None] would be a loop that does not end. *)
Definition jb_exec (jb : pjmedia_jbuf) (c : jb_call) : option (pjmedia_jbuf * jb_answer) :=
  match c with
  | CallPut frame fsize bits index stamp =>
      '(jb, lost) ← pjmedia_jbuf_put_frame3 jb frame fsize bits index stamp; Some (jb, AnsPut lost)
  | CallGet max_size =>
      let '(jb, (t, f)) := pjmedia_jbuf_get_frame3 jb max_size in Some (jb, AnsGet t f)
  | CallRemove cnt => '(jb, n) ← pjmedia_jbuf_remove_frame jb cnt; Some (jb, AnsRemove n)
  | CallReset => Some (pjmedia_jbuf_reset jb, AnsStatus PJ_SUCCESS)
  | CallSetPtime ptime => Some (pjmedia_jbuf_set_ptime jb ptime, AnsStatus PJ_SUCCESS)
  | CallSetFixed p => let '(jb, st) := pjmedia_jbuf_set_fixed jb p in Some (jb, AnsStatus st)
  | CallSetAdaptive p lo hi =>
      let '(jb, st) := pjmedia_jbuf_set_adaptive jb p lo hi in Some (jb, AnsStatus st)
  | CallSetDiscard algo => Some (pjmedia_jbuf_set_discard jb algo, AnsStatus PJ_SUCCESS)
  end.

(** The arguments the calls are made with: sequence numbers far from the
    limits of [int], a frame duration of at most [PJMEDIA_JBUF_DISC_MIN_GAP],
    and static discard only chosen while no frame is marked discarded. *)
Definition call_ok (jb : pjmedia_jbuf) (c : jb_call) : Prop :=
  match c with
  | CallPut _ fsize _ index _ => seq_ok index /\ 0 <= fsize
  | CallGet _ | CallReset => True
  | CallRemove cnt => is_u32 cnt
  | CallSetPtime ptime => 1 <= ptime <= 200
  | CallSetFixed p => is_u32 p
  | CallSetAdaptive p lo hi => is_u32 p /\ is_u32 lo /\ is_u32 hi
  | CallSetDiscard algo =>
      algo = PJMEDIA_JB_DISCARD_STATIC -> discarded_num (jb_list jb) = 0
  end.

Lemma set_calls_wf jb c : jb_wf jb -> call_ok jb c ->
  match c with CallPut _ _ _ _ _ | CallGet _ | CallRemove _ => True | _ =>
    exists jb' a, jb_exec jb c = Some (jb', a) /\ jb_wf jb' end.
Proof.
  intros Hj Hc. pose proof (wf_max _ (jw_list _ Hj)) as Hmax. rewrite (jw_count _ Hj) in Hmax.
  destruct c; try done; simpl in *.
  - eexists _, _. split; [done|].
    pose proof (set_list_wf jb _ Hj (reset_kept _ (jw_list _ Hj))) as []. jb_wf_solve.
  - eexists _, _. split; [done|]. destruct Hj. constructor; simpl; auto; try lia.
    rewrite s32_small; [|unfold is_s32, MAX_BURST_MSEC];
      unfold MAX_BURST_MSEC; Z.to_euclidean_division_equations; nia.
  - unfold pjmedia_jbuf_set_fixed, is_u32 in *.
    destruct (Z.leb_spec prefetch (jb_max_count jb)); (eexists _, _; split; [done|]); [|done].
    rewrite s32_small by (unfold is_s32; lia). destruct Hj. jb_wf_solve.
  - unfold pjmedia_jbuf_set_adaptive, is_u32 in *.
    destruct (Z.leb_spec min_prefetch max_prefetch), (Z.leb_spec prefetch max_prefetch),
      (Z.leb_spec max_prefetch (jb_max_count jb)); simpl;
      (eexists _, _; split; [done|]); try done.
    rewrite !s32_small by (unfold is_s32; lia). destruct Hj. jb_wf_solve.
  - eexists _, _. split; [done|]. destruct Hj. jb_wf_solve.
Qed.

Lemma exec_wf jb c : jb_wf jb -> call_ok jb c ->
  exists jb' a, jb_exec jb c = Some (jb', a) /\ jb_wf jb'.
Proof.
  intros Hj Hc. pose proof (set_calls_wf jb c Hj Hc) as Hset. destruct c; try exact Hset; simpl in *.
  - destruct Hc as [Hq Hf].
    destruct (put_frame3_run jb frame fsize bits index stamp Hj Hq Hf) as (jb' & lost & -> & Hj' & _).
    simpl. eauto.
  - pose proof (get_frame3_run jb max_size Hj) as Hg.
    destruct (pjmedia_jbuf_get_frame3 jb max_size) as [jb' [t f]]. destruct Hg as [Hj' _]. eauto.
  - destruct (remove_frame_run jb cnt Hj Hc) as (jb' & m & -> & Ej & Hk & _). simpl.
    eexists _, _. split; [done|]. rewrite Ej. by apply set_list_wf.
Qed.

Lemma create_wf fsize ptime mem :
  is_u32 fsize -> 1 <= ptime <= 200 -> 0 < zlen mem <= 1073741823 ->
  jb_wf (pjmedia_jbuf_create fsize ptime (zlen mem) mem).
Proof.
  intros Hf Hp Hm. unfold pjmedia_jbuf_create, PJMEDIA_JB_DEFAULT_INIT_DELAY.
  rewrite (u32_small (zlen mem * 4)), (u32_small (zlen mem * 3)) by (unfold is_u32; lia).
  pose proof (reset_wf _ (init_wf fsize mem ltac:(lia))) as Hw.
  constructor; simpl; auto; unfold is_s32; try lia.
  - Z.to_euclidean_division_equations; lia.
  - rewrite s32_small; [|unfold is_s32]; unfold MAX_BURST_MSEC;
      Z.to_euclidean_division_equations; nia.
  - Z.to_euclidean_division_equations; lia.
Qed.

(** The states a jitter buffer can be in. *)
Inductive reachable : pjmedia_jbuf -> Prop :=
  | reach_create fsize ptime mem :
      is_u32 fsize -> 1 <= ptime <= 200 -> 0 < zlen mem <= 1073741823 ->
      reachable (pjmedia_jbuf_create fsize ptime (zlen mem) mem)
  | reach_call jb c jb' a :
      reachable jb -> call_ok jb c -> jb_exec jb c = Some (jb', a) -> reachable jb'.

Lemma reachable_wf jb : reachable jb -> jb_wf jb.
Proof.
  induction 1 as [|jb c jb' a _ Hj Hc He]; [by apply create_wf|].
  destruct (exec_wf jb c Hj Hc) as (jb1 & a1 & E & H1). congruence.
Qed.

(** In every state a jitter buffer can reach, every call ends; the buffer
    holds at most [jb_max_count] frames, its effective size is the number of
    its frames that are not discarded -- the unsigned difference of the two
    counters never wraps -- and the prefetch and effective burst levels stay
    within the limits configured. *)
Lemma jbuf_reachable_wf jb :
  reachable jb ->
  (forall c, call_ok jb c -> is_Some (jb_exec jb c)) /\
  0 <= size (jb_list jb) <= jb_max_count jb /\
  jb_framelist_eff_size (jb_list jb) = live (window (jb_list jb)) /\
  0 <= jb_prefetch jb <= jb_max_prefetch jb /\ jb_max_prefetch jb <= jb_max_count jb /\
  0 <= jb_eff_level jb <= jb_max_count jb * 4 / 5.
Proof.
  intros Hr. pose proof (reachable_wf jb Hr) as Hj. pose proof Hj as [].
  pose proof (wf_size _ jw_list0). pose proof (wf_max _ jw_list0).
  pose proof (wf_disc_range _ jw_list0).
  split.
  { intros c Hc. destruct (exec_wf jb c Hj Hc) as (? & ? & -> & _). by eexists. }
  split_and!; try lia. unfold jb_framelist_eff_size, live.
  rewrite u32_small by (unfold is_u32; lia).
  by rewrite zlen_window, (wf_disc _ jw_list0) by lia.
Qed.

Definition demo_mem : list jb_slot :=
  replicate 4 (Slot [0; 0] PJMEDIA_JB_NORMAL_FRAME 2 0 0).
Definition demo_jb : pjmedia_jbuf := pjmedia_jbuf_create 2 20 4 demo_mem.

Lemma demo_reachable : reachable demo_jb.
Proof. apply (reach_create 2 20 demo_mem); unfold is_u32; vm_compute; intuition congruence. Qed.

Lemma jbuf_reachable_wf_witness :
  reachable demo_jb /\ 0 <= jb_prefetch demo_jb <= jb_max_prefetch demo_jb.
Proof.
  assert (Hr : reachable demo_jb).
  { apply (reach_create 2 20 demo_mem); unfold is_u32; vm_compute; intuition congruence. }
  split; [exact Hr|]. apply (jbuf_reachable_wf demo_jb Hr).
Defined.

(** A PUT ends, and either the frame is stored under its sequence number
    -- in place of a missing frame or at the end, after the loss of a prefix
    of the oldest frames when there is no room or the sequence restarts -- or
    it is rejected, because it is late by less than [JB_MAX_MISORDER] or
    because a frame with its number is there already; the buffer then only
    counts one more discarded frame.  A discard algorithm may take one frame
    out afterwards. *)
Lemma put_frame3_spec jb frame fsize bits index stamp :
  reachable jb -> seq_ok index -> 0 <= fsize ->
  exists jb' lost,
    pjmedia_jbuf_put_frame3 jb frame fsize bits index stamp = Some (jb', lost) /\
    if lost : bool then
      jb' = jb <| jb_discard ::= fun n => u32 (n + 1) |> /\
      (origin (jb_list jb) - JB_MAX_MISORDER < index < origin (jb_list jb) \/
       exists s, window (jb_list jb) !! Z.to_nat (index - origin (jb_list jb)) = Some s /\
         is_missing (frame_type s) = false)
    else
      exists fl1, put_done frame (Z.min fsize (jb_frame_size jb)) bits stamp (jb_list jb) index fl1 /\
        shrunk fl1 (jb_list jb').
Proof.
  intros Hr Hq Hf.
  destruct (put_frame3_run jb frame fsize bits index stamp (reachable_wf jb Hr) Hq Hf)
    as (jb' & lost & E & _ & H). eauto.
Qed.

Lemma put_frame3_spec_witness :
  exists jb', pjmedia_jbuf_put_frame3 demo_jb [7; 8; 9] 3 0 100 160 = Some (jb', false) /\
    exists fl1, put_done [7; 8; 9] 2 0 160 (jb_list demo_jb) 100 fl1 /\ shrunk fl1 (jb_list jb').
Proof.
  destruct (put_frame3_spec demo_jb [7; 8; 9] 3 0 100 160 demo_reachable) as (jb' & lost & E & H).
  { unfold seq_ok. lia. } { lia. }
  exists jb'. assert (lost = false) as -> by (vm_compute in E; congruence).
  split; [exact E|exact H].
Defined.

(** A GET hands out nothing while the buffer is prefetching; otherwise it
    hands out the first frame that is not discarded, which leaves the buffer
    with everything before it.  The frame is announced as missing when it is a
    gap or when discarded frames were skipped just before it -- even if the
    frame itself is there -- and the buffer is reported empty only when all
    its frames are discarded. *)
Lemma get_frame3_spec jb max_size :
  reachable jb ->
  let '(jb', (t, res)) := pjmedia_jbuf_get_frame3 jb max_size in
  exists fl1, shrunk fl1 (jb_list jb') /\
    if jb_prefetching jb then fl1 = jb_list jb /\ t = PJMEDIA_JB_ZERO_PREFETCH_FRAME /\ res = None
    else
      let k := lead_disc (window (jb_list jb)) in
      match drop (Z.to_nat k) (window (jb_list jb)) with
      | [] =>
          t = PJMEDIA_JB_ZERO_EMPTY_FRAME /\ res = None /\
          window fl1 = [] /\ origin fl1 = origin (jb_list jb) + k
      | s :: rest =>
          res = Some (handed_out s (0 <? k) max_size (origin (jb_list jb) + k)) /\
          t = (if (k =? 0) && bool_decide (frame_type s = PJMEDIA_JB_NORMAL_FRAME)
               then PJMEDIA_JB_NORMAL_FRAME else PJMEDIA_JB_MISSING_FRAME) /\
          window fl1 = rest /\ origin fl1 = origin (jb_list jb) + k + 1
      end.
Proof.
  intros Hr. pose proof (get_frame3_run jb max_size (reachable_wf jb Hr)) as Hg.
  destruct (pjmedia_jbuf_get_frame3 jb max_size) as [jb' [t res]].
  destruct Hg as (_ & fl1 & Hs & Hg). exists fl1. split; [done|].
  destruct (jb_prefetching jb); [done|]. by destruct Hg as (_ & _ & Hg).
Qed.

(** The frame put is got back, truncated to the frame size of the buffer. *)
Lemma get_frame3_spec_witness :
  exists jb jb', reachable jb /\ jb_prefetching jb = false /\
    pjmedia_jbuf_get_frame3 jb None =
      (jb', (PJMEDIA_JB_NORMAL_FRAME, Some (Frame (Some [7; 8]) PJMEDIA_JB_NORMAL_FRAME 2 0 160 100))) /\
    exists fl1, shrunk fl1 (jb_list jb').
Proof.
  set (o := jb_exec (pjmedia_jbuf_set_fixed demo_jb 1).1 (CallPut [7; 8; 9] 3 0 100 160)).
  assert (Hr0 : reachable (pjmedia_jbuf_set_fixed demo_jb 1).1).
  { apply (reach_call demo_jb (CallSetFixed 1) _ (AnsStatus PJ_SUCCESS) demo_reachable);
      [unfold call_ok, is_u32; lia|reflexivity]. }
  destruct o as [[jb a]|] eqn:E; [|vm_compute in E; congruence].
  assert (Hr : reachable jb).
  { apply (reach_call _ (CallPut [7; 8; 9] 3 0 100 160) _ a Hr0); [|exact E].
    split; [unfold seq_ok; lia|lia]. }
  exists jb, (pjmedia_jbuf_get_frame3 jb None).1.
  pose proof (get_frame3_spec jb None Hr) as H.
  unfold o in E. vm_compute in E. injection E as <- <-.
  split; [exact Hr|]. split; [vm_compute; reflexivity|]. split; [vm_compute; reflexivity|].
  destruct (pjmedia_jbuf_get_frame3 _ None) as [jb' [t res]]. destruct H as (fl1 & Hs & _).
  exists fl1. exact Hs.
Defined.

(** [remove_frame] ends and removes exactly the requested number of frames
    that are not discarded, or all there are; the discarded ones among them go
    too and are not counted. *)
Lemma remove_frame_spec jb cnt :
  reachable jb -> is_u32 cnt ->
  let w := window (jb_list jb) in
  exists jb' m,
    pjmedia_jbuf_remove_frame jb cnt = Some (jb', Z.min cnt (live w)) /\
    0 <= m <= zlen w /\ window (jb_list jb') = drop (Z.to_nat m) w /\
    origin (jb_list jb') = origin (jb_list jb) + m /\
    live (take (Z.to_nat m) w) = Z.min cnt (live w).
Proof.
  intros Hr Hc w. destruct (remove_frame_run jb cnt (reachable_wf jb Hr) Hc)
    as (jb' & m & E & _ & _ & Hm & Hw & Ho & Hl).
  exists jb', m. exact (conj E (conj Hm (conj Hw (conj Ho Hl)))).
Qed.

Lemma remove_frame_spec_witness :
  exists jb', pjmedia_jbuf_remove_frame demo_jb 3 = Some (jb', 0).
Proof.
  destruct (remove_frame_spec demo_jb 3 demo_reachable ltac:(unfold is_u32; lia))
    as (jb' & m & E & _). exists jb'. rewrite E. vm_compute. reflexivity.
Defined.

(** ** Order of delivery *)

(** A call that neither restarts the sequence nor resets the buffer, and whose frame
    is as long as it says. *)
Definition in_sequence (jb : pjmedia_jbuf) (c : jb_call) : Prop :=
  match c with
  | CallPut frame fsize _ index _ =>
      origin (jb_list jb) - index < JB_MAX_MISORDER /\ fsize <= zlen frame
  | CallReset => False
  | _ => True
  end.

(** Runs, with the calls and their answers. *)
Inductive delivers (jb : pjmedia_jbuf) : list (jb_call * jb_answer) -> pjmedia_jbuf -> Prop :=
  | delivers_nil : delivers jb [] jb
  | delivers_call tr jb1 c jb2 a :
      delivers jb tr jb1 -> call_ok jb1 c -> in_sequence jb1 c -> jb_exec jb1 c = Some (jb2, a) ->
      delivers jb (tr ++ [(c, a)]) jb2.

(** The sequence numbers that the answers of a run hand out. *)
Definition answer_seq (a : jb_answer) : list Z :=
  match a with AnsGet _ (Some f) => [got_seq f] | _ => [] end.
Definition out_seqs (tr : list (jb_call * jb_answer)) : list Z := concat (map (fun ca => answer_seq ca.2) tr).

Lemma out_seqs_snoc tr c a : out_seqs (tr ++ [(c, a)]) = out_seqs tr ++ answer_seq a.
Proof. unfold out_seqs. rewrite map_app, concat_app. cbn. by rewrite app_nil_r. Qed.

(** Every normal frame of the window was put, with its number, in an earlier call. *)
Definition sourced (tr : list (jb_call * jb_answer)) (fs : Z) (fl : jb_framelist) : Prop :=
  forall i x, window fl !! i = Some x -> frame_type x = PJMEDIA_JB_NORMAL_FRAME ->
    exists frame fsize bits stamp old,
      (CallPut frame fsize bits (origin fl + Z.of_nat i) stamp, AnsPut false) ∈ tr /\
      fsize <= zlen frame /\ x = new_slot frame (Z.min fsize fs) bits stamp old.

Lemma sourced_later tr tr' fs fl fl1 :
  sourced tr fs fl -> in_place fl fl1 -> sourced (tr ++ tr') fs fl1.
Proof.
  intros H Hp i x Hx Ht. destruct (Hp i x Hx Ht) as (j & Hj & E).
  destruct (H j x Hj Ht) as (frame & fsize & bits & stamp & old & Hin & Hl & Ex).
  exists frame, fsize, bits, stamp, old. rewrite E in Hin. split; [|done]. apply elem_of_app. by left.
Qed.

Lemma shrunk_in_place fl fl' : fl_wf fl -> shrunk fl fl' ->
  in_place fl fl' /\ frame_size fl' = frame_size fl.
Proof.
  intros Hw H. pose proof (wf_size fl Hw). destruct H as [| |q Hq Hd].
  - split; [apply in_place_refl|done].
  - pose proof (remove_head_spec fl 1 Hw ltac:(lia)) as H. cbv zeta in H.
    destruct (jb_framelist_remove_head fl 1) as [fl' n]. destruct H as (_ & _ & Hwin & Ho & _ & _ & Hf).
    split; [|exact Hf]. apply (in_place_drop _ _ (Z.to_nat (Z.min 1 (size fl)))); [exact Hwin|cbn; lia].
  - pose proof (discard_spec fl q Hw) as H. cbv zeta in H.
    destruct (jb_framelist_discard fl q) as [fl' st].
    destruct H as [(_ & Hwin & Ho & _ & _ & Hf & _) _]; [done|]. split; [|exact Hf].
    intros i x Hx Ht. cbn [fst] in *. rewrite Hwin in Hx. exists i. split; [|by rewrite Ho].
    destruct (decide (i = Z.to_nat (q - origin fl))) as [->|Hne];
      [|by rewrite list_lookup_alter_ne in Hx].
    rewrite list_lookup_alter_eq in Hx. destruct (window fl !! _) as [y|]; [|done].
    injection Hx as <-. discriminate Ht.
Qed.

(** What a GET takes out of the list leaves the rest in place. *)
Lemma get_in_place jb max_size : jb_wf jb ->
  in_place (jb_list jb) (jb_list (pjmedia_jbuf_get_frame3 jb max_size).1) /\
  frame_size (jb_list (pjmedia_jbuf_get_frame3 jb max_size).1) = frame_size (jb_list jb).
Proof.
  intros Hj. pose proof (get_frame3_run jb max_size Hj) as Hg.
  destruct (pjmedia_jbuf_get_frame3 jb max_size) as [jb1 [t res]]. cbn [fst].
  destruct Hg as (_ & fl1 & Hs & Hg).
  assert (fl_wf fl1 /\ in_place (jb_list jb) fl1 /\ frame_size fl1 = frame_size (jb_list jb)) as (Hw1 & Hp & Hf).
  { destruct (jb_prefetching jb); [destruct Hg as (-> & _); split_and!; [apply Hj|apply in_place_refl|done]|].
    destruct Hg as (_ & Hk & Hg). split_and!; [apply Hk| |apply Hk]. cbv zeta in Hg.
    pose proof (lead_disc_range (window (jb_list jb))) as Hr. set (k := lead_disc _) in *.
    destruct (drop (Z.to_nat k) (window (jb_list jb))) as [|s rest] eqn:E.
    - destruct Hg as (_ & _ & Hwin & _). intros i x Hx _. by rewrite Hwin in Hx.
    - destruct Hg as (_ & _ & Hwin & Ho). apply (in_place_drop _ _ (Z.to_nat (k + 1))); [|lia].
      rewrite Hwin. replace (Z.to_nat (k + 1)) with (Z.to_nat k + 1)%nat by lia. by rewrite <- drop_drop, E. }
  destruct (shrunk_in_place _ _ Hw1 Hs) as [Hp2 Hf2].
  split; [by eapply in_place_trans|congruence].
Qed.

Lemma handed_seq s skipped max_size seq : got_seq (handed_out s skipped max_size seq) = seq.
Proof. unfold handed_out. by case_match. Qed.

(** One call: the origin does not move back, what is handed out lies before the new
    origin, and the frames of the window are those that were put. *)
Lemma exec_step tr fs jb c jb' a :
  jb_wf jb -> call_ok jb c -> in_sequence jb c -> jb_exec jb c = Some (jb', a) ->
  frame_size (jb_list jb) = fs -> sourced tr fs (jb_list jb) ->
  origin (jb_list jb) <= origin (jb_list jb') /\
  Forall (fun q => origin (jb_list jb) <= q < origin (jb_list jb')) (answer_seq a) /\
  frame_size (jb_list jb') = fs /\ sourced (tr ++ [(c, a)]) fs (jb_list jb').
Proof.
  intros Hj Hc Hi He Hfs Hsrc.
  assert (forall jb1, jb_list jb1 = jb_list jb -> origin (jb_list jb) <= origin (jb_list jb1) /\
    frame_size (jb_list jb1) = fs /\ sourced (tr ++ [(c, a)]) fs (jb_list jb1)) as Hsame.
  { intros jb1 ->. split_and!; [lia|done|]. by eapply sourced_later, in_place_refl. }
  destruct c as [frame fsize bits index stamp|max_size|cnt| | | | |]; simpl in He, Hc, Hi.
  - destruct Hc as [Hq Hf0], Hi as [Hmis Hlen].
    destruct (put_frame3_run jb frame fsize bits index stamp Hj Hq Hf0) as (jb1 & lost & E & _ & H).
    rewrite E in He. simpl in He. simplify_eq.
    destruct lost; [destruct H as [-> _]; destruct (Hsame _ eq_refl) as (? & ? & ?); by split_and!|].
    destruct H as (fl1 & (Hk & Ho & _) & Hs). destruct (Ho Hmis) as [Ho1 Hp].
    destruct (shrunk_in_place _ _ (fk_wf _ _ Hk) Hs) as [Hp2 Hf2].
    apply shrunk_origin in Hs; [|apply Hk]. pose proof (fk_fsize _ _ Hk) as Hf1.
    split_and!; [lia|constructor|congruence|].
    destruct (jw_fsize jb Hj) as [Efs _].
    assert (sourced (tr ++ [(CallPut frame fsize bits index stamp, AnsPut false)]) (frame_size (jb_list jb)) fl1) as H1.
    { intros i x Hx Ht. destruct (Hp i x Hx Ht) as [[[old ->] Ei]|(j & Hj1 & Ej)].
      - exists frame, fsize, bits, stamp, old. rewrite Ei, Efs. split_and!; [|done|done].
        apply elem_of_app. right. by apply list_elem_of_singleton.
      - destruct (Hsrc j x Hj1 Ht) as (fr & fz & bi & sp & old & Hin & Hl & Ex).
        exists fr, fz, bi, sp, old. rewrite Ej in Hin. split; [|done]. apply elem_of_app. by left. }
    rewrite <- (app_nil_r (_ ++ [_])). by eapply sourced_later.
  - pose proof (get_frame3_run jb max_size Hj) as Hg. pose proof (get_in_place jb max_size Hj) as [Hp Hf].
    destruct (pjmedia_jbuf_get_frame3 jb max_size) as [jb1 [t res]]. cbn [fst] in Hp, Hf. simplify_eq.
    assert (sourced (tr ++ [(CallGet max_size, AnsGet t res)]) (frame_size (jb_list jb)) (jb_list jb')) as Hn
      by by eapply sourced_later.
    destruct Hg as (_ & fl1 & Hs & Hg). destruct (jb_prefetching jb).
    + destruct Hg as (-> & _ & ->). apply shrunk_origin in Hs; [|apply Hj].
      split_and!; [lia|constructor|done|done].
    + destruct Hg as (_ & Hk & Hg). apply shrunk_origin in Hs; [|apply Hk]. cbv zeta in Hg.
      pose proof (lead_disc_range (window (jb_list jb))). destruct (drop _ _) as [|s rest].
      * destruct Hg as (_ & -> & _ & Ho). split_and!; [lia|constructor|done|done].
      * destruct Hg as (-> & _ & _ & Ho). split_and!; [lia| |done|done].
        constructor; [|constructor]. rewrite handed_seq. lia.
  - destruct (remove_frame_run jb cnt Hj Hc) as (jb1 & m & E & _ & Hk & Hm & Hwin & Ho & _).
    rewrite E in He. simpl in He. simplify_eq. split_and!; [lia|constructor|by rewrite (fk_fsize _ _ Hk)|].
    eapply sourced_later; [exact Hsrc|]. apply (in_place_drop _ _ (Z.to_nat m)); [done|lia].
  - done.
  - simplify_eq. destruct (Hsame (pjmedia_jbuf_set_ptime jb ptime) eq_refl) as (? & ? & ?). by split_and!.
  - unfold pjmedia_jbuf_set_fixed in He. destruct (_ <=? _); simplify_eq;
      [destruct (Hsame (pjmedia_jbuf_set_discard (jb <| jb_init_prefetch := s32 prefetch |> <| jb_prefetch := s32 prefetch |>
         <| jb_max_prefetch := s32 prefetch |> <| jb_min_prefetch := s32 prefetch |>) PJMEDIA_JB_DISCARD_NONE) eq_refl)
         as (? & ? & ?)|destruct (Hsame jb' eq_refl) as (? & ? & ?)]; by split_and!.
  - unfold pjmedia_jbuf_set_adaptive in He. destruct (_ && _); simplify_eq;
      [destruct (Hsame (jb <| jb_init_prefetch := s32 prefetch |> <| jb_prefetch := s32 prefetch |>
         <| jb_min_prefetch := s32 min_prefetch |> <| jb_max_prefetch := s32 max_prefetch |>) eq_refl)
         as (? & ? & ?)|destruct (Hsame jb' eq_refl) as (? & ? & ?)]; by split_and!.
  - simplify_eq. destruct (Hsame (pjmedia_jbuf_set_discard jb algo) eq_refl) as (? & ? & ?). by split_and!.
Qed.

Lemma all_discarded l : drop (Z.to_nat (lead_disc l)) l = [] -> ndisc l = zlen l.
Proof.
  induction l as [|s l IH]; [done|]. rewrite ndisc_cons. cbn [lead_disc].
  pose proof (lead_disc_range l). destruct (is_discarded (frame_type s)); [|done].
  replace (Z.to_nat (1 + lead_disc l)) with (S (Z.to_nat (lead_disc l))) by lia. cbn [drop].
  intros Hd. rewrite IH by done. unfold zlen. cbn [length b2z]. lia.
Qed.

Lemma sorted_snoc l q : StronglySorted Z.lt l -> Forall (fun p => p < q) l -> StronglySorted Z.lt (l ++ [q]).
Proof.
  induction 1 as [|p l Hs IH Hp]; intros Hq; cbn; [repeat constructor|].
  apply Forall_cons in Hq as [Hpq Hq]. constructor; [by apply IH|].
  apply Forall_app. split; [exact Hp|by constructor].
Qed.

Lemma delivers_inv jb tr jb1 : jb_wf jb -> size (jb_list jb) = 0 -> delivers jb tr jb1 ->
  jb_wf jb1 /\ frame_size (jb_list jb1) = frame_size (jb_list jb) /\
  StronglySorted Z.lt (out_seqs tr) /\ Forall (fun q => q < origin (jb_list jb1)) (out_seqs tr) /\
  sourced tr (frame_size (jb_list jb)) (jb_list jb1).
Proof.
  intros Hj Hz Hd. induction Hd as [|tr jb1 c jb2 a _ (Hj1 & Hf & Hso & Hb & Hsrc) Hc Hi He].
  - split_and!; [done|done|constructor|constructor|]. intros i x Hx _.
    apply lookup_lt_Some in Hx. pose proof (zlen_window (jb_list jb) ltac:(lia)). unfold zlen in *. lia.
  - destruct (exec_wf jb1 c Hj1 Hc) as (jb2' & a' & E & Hj2). assert (jb2' = jb2) as -> by congruence.
    destruct (exec_step tr _ jb1 c jb2 a Hj1 Hc Hi He Hf Hsrc) as (Ho & Ha & Hf2 & Hs2).
    rewrite out_seqs_snoc. split_and!; [done|done| | |done].
    + destruct a as [| t [f|] | |]; cbn [answer_seq] in *; rewrite ?app_nil_r; try done.
      apply Forall_cons in Ha as [Ha _]. apply sorted_snoc; [done|].
      eapply Forall_impl; [exact Hb|]. cbn. intros. lia.
    + apply Forall_app. split; (eapply Forall_impl; [eassumption|]; cbn; intros; lia).
Qed.

(** C15: in a run of calls on an empty buffer in which no PUT restarts the sequence and
    nothing resets the buffer, the frames handed out have strictly increasing
    sequence numbers -- reordered arrivals are sorted, and no frame is handed out
    twice -- and a frame handed out as normal is one that an earlier PUT of that
    number stored: its bytes, cut to the frame size of the buffer and to the size
    the caller has room for, its bit information and its timestamp.  A GET hands
    out nothing only while the buffer prefetches or has no frame left that is not
    discarded. *)
Theorem jbuf_delivers_in_order jb tr jb1 max_size jb2 t out :
  jb_wf jb -> size (jb_list jb) = 0 -> delivers jb tr jb1 ->
  jb_exec jb1 (CallGet max_size) = Some (jb2, AnsGet t out) ->
  StronglySorted Z.lt (out_seqs tr) /\
  match out with
  | None => jb_prefetching jb1 = true \/ jb_framelist_eff_size (jb_list jb1) = 0
  | Some f =>
      Forall (fun q => q < got_seq f) (out_seqs tr) /\
      (t = PJMEDIA_JB_NORMAL_FRAME ->
       exists frame fsize bits stamp,
         (CallPut frame fsize bits (got_seq f) stamp, AnsPut false) ∈ tr /\
         let stored := Z.min fsize (jb_frame_size jb) in
         let n := Z.min (default stored max_size) stored in
         got_data f = Some (take (Z.to_nat n) frame) /\ got_size f = n /\
         got_bit_info f = bits /\ got_ts f = stamp)
  end.
Proof.
  intros Hj Hz Hd He. destruct (delivers_inv jb tr jb1 Hj Hz Hd) as (Hj1 & Hf & Hso & Hb & Hsrc).
  split; [exact Hso|]. pose proof (jw_fsize jb Hj) as [Efs Hu]. simpl in He.
  pose proof (get_frame3_run jb1 max_size Hj1) as Hg.
  destruct (pjmedia_jbuf_get_frame3 jb1 max_size) as [jb2' [t' res]]. simplify_eq.
  destruct Hg as (_ & fl1 & _ & Hg). destruct (jb_prefetching jb1); [destruct Hg as (_ & _ & ->); by left|].
  destruct Hg as (_ & _ & Hg). cbv zeta in Hg. pose proof (lead_disc_range (window (jb_list jb1))) as Hr.
  set (k := lead_disc (window (jb_list jb1))) in *.
  destruct (drop (Z.to_nat k) (window (jb_list jb1))) as [|s rest] eqn:Ed.
  - destruct Hg as (_ & -> & _ & _). right. unfold jb_framelist_eff_size.
    pose proof (jw_list _ Hj1) as Hw. pose proof (wf_size _ Hw). rewrite (wf_disc _ Hw).
    pose proof (zlen_window (jb_list jb1) ltac:(lia)) as Hzw. rewrite <- Hzw.
    assert (ndisc (window (jb_list jb1)) = zlen (window (jb_list jb1))) as ->; [|by rewrite Z.sub_diag].
    apply all_discarded. exact Ed.
  - destruct Hg as (-> & -> & _ & _).
    assert (window (jb_list jb1) !! Z.to_nat k = Some s) as Hs.
    { rewrite <- (Nat.add_0_r (Z.to_nat k)), <- lookup_drop, Ed. done. }
    split.
    { eapply Forall_impl; [exact Hb|]. intros q Hq. rewrite handed_seq. cbn in Hq. lia. }
    destruct (Z.eqb_spec k 0) as [Ek|]; cbn [andb]; [|done].
    destruct (bool_decide (frame_type s = PJMEDIA_JB_NORMAL_FRAME)) eqn:Et; [|done]. intros _.
    apply bool_decide_eq_true in Et.
    destruct (Hsrc _ _ Hs Et) as (frame & fsize & bits & stamp & old & Hin & Hl & Es).
    exists frame, fsize, bits, stamp. unfold handed_out. rewrite Ek in *. cbn [Z.ltb Z.compare got_seq got_data got_size got_bit_info got_ts].
    split; [exact Hin|]. rewrite Es, Efs. cbn [content_len content bit_info ts new_slot].
    split_and!; [|done|done|done]. f_equal. set (m := Z.min fsize (jb_frame_size jb)).
    rewrite take_app_le by (unfold zlen in Hl; rewrite length_take; lia).
    rewrite take_take. f_equal. lia.
Qed.

(** Frames 50, 52 and 51 arrive; a GET hands out frame 50, and after it a GET with room
    for one byte hands out frame 51, cut. *)
Lemma jbuf_delivers_in_order_witness :
  let jb := (pjmedia_jbuf_set_fixed demo_jb 0).1 in
  exists tr jb1 jb2 f,
    delivers jb tr jb1 /\ out_seqs tr = [50] /\
    jb_exec jb1 (CallGet (Some 1)) = Some (jb2, AnsGet PJMEDIA_JB_NORMAL_FRAME (Some f)) /\
    got_seq f = 51 /\ got_data f = Some [5] /\
    Forall (fun q => q < got_seq f) (out_seqs tr) /\
    exists frame fsize bits stamp,
      (CallPut frame fsize bits (got_seq f) stamp, AnsPut false) ∈ tr /\
      let stored := Z.min fsize 2 in let n := Z.min (default stored (Some 1)) stored in
      got_data f = Some (take (Z.to_nat n) frame) /\ got_size f = n /\
      got_bit_info f = bits /\ got_ts f = stamp.
Proof.
  intros jb.
  assert (jb_wf jb) as Hj.
  { apply reachable_wf, (reach_call demo_jb (CallSetFixed 0) _ (AnsStatus PJ_SUCCESS) demo_reachable);
      [unfold call_ok, is_u32; lia|reflexivity]. }
  assert (forall q, -1000 <= q <= 1000 -> seq_ok q) as Hq by (unfold seq_ok; lia).
  pose proof (delivers_nil jb) as D0.
  edestruct (jb_exec jb (CallPut [1; 2] 2 0 50 0)) as [[jb1 a1]|] eqn:E1; [|vm_compute in E1; discriminate].
  assert (delivers jb ([] ++ [(CallPut [1; 2] 2 0 50 0, a1)]) jb1) as D1
    by (apply (delivers_call jb _ _ _ _ _ D0); [split; [apply Hq|]; lia|vm_compute; split; congruence|exact E1]).
  unfold jb in E1. vm_compute in E1. injection E1 as <- <-.
  evar (jb2 : pjmedia_jbuf). evar (a2 : jb_answer).
  epose proof (delivers_call jb _ _ (CallPut [3; 4] 2 0 52 320) jb2 a2 D1
    ltac:(split; [apply Hq|]; lia) ltac:(vm_compute; split; congruence) ltac:(vm_compute; reflexivity)) as D2.
  evar (jb3 : pjmedia_jbuf). evar (a3 : jb_answer).
  epose proof (delivers_call jb _ _ (CallPut [5; 6] 2 7 51 160) jb3 a3 D2
    ltac:(split; [apply Hq|]; lia) ltac:(vm_compute; split; congruence) ltac:(vm_compute; reflexivity)) as D3.
  evar (jb4 : pjmedia_jbuf). evar (a4 : jb_answer).
  epose proof (delivers_call jb _ _ (CallGet None) jb4 a4 D3 I I ltac:(vm_compute; reflexivity)) as D4.
  evar (jb5 : pjmedia_jbuf). evar (f : jb_frame).
  assert (jb_exec jb4 (CallGet (Some 1)) = Some (jb5, AnsGet PJMEDIA_JB_NORMAL_FRAME (Some f))) as E5
    by (vm_compute; reflexivity).
  destruct (jbuf_delivers_in_order jb _ jb4 (Some 1) jb5 PJMEDIA_JB_NORMAL_FRAME (Some f) Hj eq_refl D4 E5)
    as (_ & Hb & Hput).
  do 4 eexists. split; [exact D4|]. split; [vm_compute; reflexivity|]. split; [exact E5|].
  split; [reflexivity|]. split; [reflexivity|]. split; [exact Hb|]. exact (Hput eq_refl).
Defined.

(** Outside the invariant: with frames longer than [PJMEDIA_JBUF_DISC_MIN_GAP]
    the discard distance comes out as 0, and a late arrival has the last frame
    discarded a second time; [discarded_num] then counts 2 for one frame. *)
Fixpoint exec_all (jb : pjmedia_jbuf) (cs : list jb_call) : option pjmedia_jbuf :=
  match cs with
  | [] => Some jb
  | c :: cs => '(jb, _) ← jb_exec jb c; exec_all jb cs
  end.
Definition long_frames : pjmedia_jbuf :=
  (pjmedia_jbuf_create 2 4000 8 (replicate 8 no_slot))
    <| jb_status := JB_STATUS_PROCESSING |> <| jb_prefetching := false |>.
Definition late_put (q : Z) : jb_call := CallPut [] 0 0 q 0.

Lemma long_frames_double_discard :
  exists jb,
    exec_all long_frames (late_put 10 :: late_put 11 :: late_put 12 :: late_put 13 :: CallGet None
                          :: late_put 14 :: late_put 15 :: late_put 17 :: late_put 16 :: []) = Some jb /\
    discarded_num (jb_list jb) = 2 /\ ndisc (window (jb_list jb)) = 1.
Proof. eexists. split; [vm_compute; reflexivity|]. split; reflexivity. Qed.

End Jb.
