(* ===== verification/TimeVal.v ===== *)
(** * Time values (pjlib/include/pj/types.h, pjlib/src/pj/types.c)

    [pj_time_val], its comparison macros and its normalization.  The fields are
    C [long]s, far from their limits. *)

From S2P Require Import Prelude.

Record pj_time_val := TV { sec : Z; msec : Z }.
#[export] Instance eta_pj_time_val : Eta pj_time_val := fun r => TV (sec r) (msec r).
#[export] Instance pj_time_val_eq_dec : EqDecision pj_time_val.
Proof. solve_decision. Defined.

Definition PJ_TIME_VAL_MSEC (t : pj_time_val) : Z := sec t * 1000 + msec t.
Definition PJ_TIME_VAL_EQ (t1 t2 : pj_time_val) : bool :=
  (sec t1 =? sec t2) && (msec t1 =? msec t2).
Definition PJ_TIME_VAL_GT (t1 t2 : pj_time_val) : bool :=
  (sec t1 >? sec t2) || ((sec t1 =? sec t2) && (msec t1 >? msec t2)).
Definition PJ_TIME_VAL_GTE (t1 t2 : pj_time_val) : bool :=
  PJ_TIME_VAL_GT t1 t2 || PJ_TIME_VAL_EQ t1 t2.
Definition PJ_TIME_VAL_LT (t1 t2 : pj_time_val) : bool := negb (PJ_TIME_VAL_GTE t1 t2).
Definition PJ_TIME_VAL_LTE (t1 t2 : pj_time_val) : bool := negb (PJ_TIME_VAL_GT t1 t2).

(** The loop for large negative milliseconds. *)
Fixpoint norm_down (fuel : nat) (t : pj_time_val) : pj_time_val :=
  match fuel with
  | O => t
  | S fuel =>
      if msec t <=? -1000
      then norm_down fuel (t <| sec ::= fun s => s - 1 |> <| msec ::= fun m => m + 1000 |>)
      else t
  end.

Definition pj_time_val_normalize (t : pj_time_val) : pj_time_val :=
  let t :=
    if msec t >=? 1000 then TV (sec t + msec t ÷ 1000) (Z.rem (msec t) 1000)
    else if msec t <=? -1000 then norm_down (Z.to_nat (- msec t / 1000)) t
    else t in
  if (sec t >=? 1) && (msec t <? 0) then TV (sec t - 1) (msec t + 1000)
  else if (sec t <? 0) && (msec t >? 0) then TV (sec t + 1) (msec t - 1000)
  else t.

Definition PJ_TIME_VAL_ADD (t1 t2 : pj_time_val) : pj_time_val :=
  pj_time_val_normalize (TV (sec t1 + sec t2) (msec t1 + msec t2)).
Definition PJ_TIME_VAL_SUB (t1 t2 : pj_time_val) : pj_time_val :=
  pj_time_val_normalize (TV (sec t1 - sec t2) (msec t1 - msec t2)).

(** ** The order

    The comparison is lexicographic; [tv_le] is the total preorder the timer
    heap is arranged by. *)

Definition tv_le (a b : pj_time_val) : Prop := PJ_TIME_VAL_LTE a b = true.
#[export] Instance tv_le_dec a b : Decision (tv_le a b).
Proof. unfold tv_le. apply _. Defined.

Ltac tv_unfold :=
  unfold tv_le, PJ_TIME_VAL_LT, PJ_TIME_VAL_LTE, PJ_TIME_VAL_GTE, PJ_TIME_VAL_GT,
    PJ_TIME_VAL_EQ in *.

Lemma tv_le_refl a : tv_le a a.
Proof. tv_unfold. lia. Qed.
Lemma tv_le_trans a b c : tv_le a b -> tv_le b c -> tv_le a c.
Proof. tv_unfold. lia. Qed.
Lemma tv_le_total a b : tv_le a b \/ tv_le b a.
Proof. tv_unfold. lia. Qed.
Lemma tv_lt_spec a b : PJ_TIME_VAL_LT a b = negb (PJ_TIME_VAL_LTE b a).
Proof. tv_unfold. lia. Qed.
Lemma tv_gte_spec a b : PJ_TIME_VAL_GTE a b = PJ_TIME_VAL_LTE b a.
Proof. tv_unfold. lia. Qed.
Lemma tv_lt_le a b : PJ_TIME_VAL_LT a b = true -> tv_le a b.
Proof. tv_unfold. lia. Qed.
Lemma tv_nlt_le a b : PJ_TIME_VAL_LT a b = false -> tv_le b a.
Proof. tv_unfold. lia. Qed.

#[export] Hint Resolve tv_le_refl tv_lt_le tv_nlt_le : pj.
#[export] Instance tv_le_preorder : PreOrder tv_le.
Proof. split; [exact tv_le_refl|exact tv_le_trans]. Qed.

(** ** Normalization *)

(** A normalized value: less than a second of milliseconds, of the sign of the
    seconds. *)
Definition normalized (t : pj_time_val) : Prop :=
  -1000 < msec t < 1000 /\ (0 < sec t -> 0 <= msec t) /\ (sec t < 0 -> msec t <= 0).

Lemma norm_down_spec fuel t :
  msec t < 0 -> - msec t / 1000 <= Z.of_nat fuel ->
  PJ_TIME_VAL_MSEC (norm_down fuel t) = PJ_TIME_VAL_MSEC t /\ -1000 < msec (norm_down fuel t) <= 0.
Proof.
  revert t. induction fuel as [|fuel IH]; intros t Hm Hf; simpl.
  - split; [done|]. Z.to_euclidean_division_equations; lia.
  - destruct (Z.leb_spec (msec t) (-1000)); [|split; [done|lia]].
    destruct (decide (msec t = -1000)) as [E|].
    + replace (norm_down fuel _) with (TV (sec t - 1) (msec t + 1000))
        by (destruct fuel; simpl; rewrite ?E; done).
      unfold PJ_TIME_VAL_MSEC; simpl. lia.
    + destruct (IH (TV (sec t - 1) (msec t + 1000))) as [E1 E2]; simpl; [lia| |].
      * Z.to_euclidean_division_equations; lia.
      * simpl in E1, E2. split; [|done]. simpl. rewrite E1. unfold PJ_TIME_VAL_MSEC; simpl. lia.
Qed.

Lemma normalize_total t : PJ_TIME_VAL_MSEC (pj_time_val_normalize t) = PJ_TIME_VAL_MSEC t /\
  normalized (pj_time_val_normalize t).
Proof.
  unfold pj_time_val_normalize. set (t1 := if msec t >=? 1000 then _ else _).
  assert (H : PJ_TIME_VAL_MSEC t1 = PJ_TIME_VAL_MSEC t /\ -1000 < msec t1 < 1000).
  { unfold t1. destruct (Z.geb_spec (msec t) 1000).
    - unfold PJ_TIME_VAL_MSEC; simpl. Z.to_euclidean_division_equations; lia.
    - destruct (Z.leb_spec (msec t) (-1000)); [|split; [done|lia]].
      destruct (norm_down_spec (Z.to_nat (- msec t / 1000)) t); [lia| |split; [done|lia]].
      rewrite Z2Nat.id; [lia|]. apply Z.div_pos; lia. }
  destruct H as [<- Hm]. clearbody t1. unfold PJ_TIME_VAL_MSEC, normalized.
  destruct (Z.geb_spec (sec t1) 1), (Z.ltb_spec (msec t1) 0), (Z.ltb_spec (sec t1) 0),
    (Z.gtb_spec (msec t1) 0); simpl; lia.
Qed.

(** Normalization keeps the total time and yields the one representation
    with less than a second of milliseconds of the sign of the seconds, on
    which the lexicographic comparison is the comparison of total times. *)
Lemma time_val_normalize_spec t u :
  PJ_TIME_VAL_MSEC (pj_time_val_normalize t) = PJ_TIME_VAL_MSEC t /\
  normalized (pj_time_val_normalize t) /\
  PJ_TIME_VAL_LTE (pj_time_val_normalize t) (pj_time_val_normalize u) =
    (PJ_TIME_VAL_MSEC t <=? PJ_TIME_VAL_MSEC u).
Proof.
  destruct (normalize_total t) as [<- Ht], (normalize_total u) as [<- Hu].
  split_and!; [done|apply Ht..|]. unfold normalized, PJ_TIME_VAL_MSEC in *. tv_unfold. lia.
Qed.
