(* ===== verification/Timer.v ===== *)
(** * Timer heap (pjlib/src/pj/timer.c, pjlib/include/pj/timer.h)

    The default configuration: a binary heap of copies of the entries
    ([PJ_TIMER_USE_COPY] = 1, [PJ_TIMER_USE_LINKED_LIST] = 0, no timer debug).
    A [pj_timer_entry_dup *] is the index of the copy in [timer_dups]; entries,
    callbacks, user data and group locks are identified by numbers, 0 being the
    null pointer.  The world holds the heap, the application's entries and the
    reference counts of the group locks; the callbacks and the clock are
    parameters.  The lock of the heap and the allocator, which aborts rather
    than fail, are not modelled; assertions are those of a release build. *)

From Stdlib Require Import Sorted.
From stdpp Require Import gmap.
From S2P Require Import Prelude TimeVal.
Set Warnings "-clear-no-such-hyp".

Definition HEAP_PARENT (x : Z) : Z := if x =? 0 then 0 else (x - 1) / 2.
Definition HEAP_LEFT (x : Z) : Z := x + x + 1.
Definition DEFAULT_MAX_TIMED_OUT_PER_POLL : Z := 64.

Definition F_DONT_CALL : Z := 1.
Definition F_DONT_ASSERT : Z := 2.
Definition F_SET_ID : Z := 4.

Record pj_timer_entry := Entry {
  user_data : Z;
  id : Z;
  cb : Z;
  timer_id : Z
}.
#[export] Instance eta_pj_timer_entry : Eta pj_timer_entry := fun r =>
  Entry (user_data r) (id r) (cb r) (timer_id r).

Record pj_timer_entry_dup := Dup {
  dup : pj_timer_entry;
  entry : Z;
  timer_value : pj_time_val;
  grp_lock : Z
}.
#[export] Instance eta_pj_timer_entry_dup : Eta pj_timer_entry_dup := fun r =>
  Dup (dup r) (entry r) (timer_value r) (grp_lock r).

Record pj_timer_heap := TimerHeap {
  max_size : Z;
  cur_size : Z;
  max_entries_per_poll : Z;
  heap : list Z;
  timer_ids : list Z;
  timer_dups : list pj_timer_entry_dup;
  timer_ids_freelist : Z
}.
#[export] Instance eta_pj_timer_heap : Eta pj_timer_heap := fun r =>
  TimerHeap (max_size r) (cur_size r) (max_entries_per_poll r) (heap r) (timer_ids r)
            (timer_dups r) (timer_ids_freelist r).

Record world := World {
  ht : pj_timer_heap;
  entries : gmap Z pj_timer_entry;
  lock_refs : gmap Z Z
}.
#[export] Instance eta_world : Eta world := fun r => World (ht r) (entries r) (lock_refs r).

(** Array access; the positions the code forms are inside the arrays (see
    [heap_wf]). *)
Definition at_ {A} (d : A) (l : list A) (i : Z) : A := default d (l !! Z.to_nat i).
Definition upd {A} (l : list A) (i : Z) (v : A) : list A := <[Z.to_nat i := v]> l.

Definition no_entry : pj_timer_entry := Entry 0 0 0 0.
Definition no_dup : pj_timer_entry_dup := Dup no_entry 0 (TV 0 0) 0.

Definition heap_at (h : pj_timer_heap) (slot : Z) : Z := at_ 0 (heap h) slot.
Definition dup_at (h : pj_timer_heap) (k : Z) : pj_timer_entry_dup := at_ no_dup (timer_dups h) k.
Definition value_at (h : pj_timer_heap) (k : Z) : pj_time_val := timer_value (dup_at h k).
Definition dup_id (h : pj_timer_heap) (k : Z) : Z := timer_id (dup (dup_at h k)).
Definition set_dup (k : Z) (d : pj_timer_entry_dup) (h : pj_timer_heap) : pj_timer_heap :=
  h <| timer_dups ::= fun l => upd l k d |>.

(** ** The heap *)

Definition copy_node (h : pj_timer_heap) (slot moved_node : Z) : pj_timer_heap :=
  h <| heap ::= fun l => upd l slot moved_node |>
    <| timer_ids ::= fun l => upd l (dup_id h moved_node) slot |>.

Definition pop_freelist (h : pj_timer_heap) : pj_timer_heap * Z :=
  let new_id := timer_ids_freelist h in
  (h <| timer_ids_freelist := - at_ 0 (timer_ids h) new_id |>, new_id).

Definition push_freelist (h : pj_timer_heap) (old_id : Z) : pj_timer_heap :=
  h <| timer_ids ::= fun l => upd l old_id (- timer_ids_freelist h) |>
    <| timer_ids_freelist := old_id |>.

Fixpoint reheap_down_loop (fuel : nat) (h : pj_timer_heap) (moved_node slot child : Z) :
    pj_timer_heap :=
  match fuel with
  | O => h
  | S fuel =>
      if child <? cur_size h then
        let child :=
          if (child + 1 <? cur_size h) &&
             PJ_TIME_VAL_LT (value_at h (heap_at h (child + 1))) (value_at h (heap_at h child))
          then child + 1 else child in
        if PJ_TIME_VAL_LT (value_at h (heap_at h child)) (value_at h moved_node)
        then reheap_down_loop fuel (copy_node h slot (heap_at h child)) moved_node child
                              (HEAP_LEFT child)
        else copy_node h slot moved_node
      else copy_node h slot moved_node
  end.

(** The fuel is the number of slots below: each round moves down. *)
Definition reheap_down (h : pj_timer_heap) (moved_node slot child : Z) : pj_timer_heap :=
  reheap_down_loop (S (Z.to_nat (cur_size h))) h moved_node slot child.

Fixpoint reheap_up_loop (fuel : nat) (h : pj_timer_heap) (moved_node slot parent : Z) :
    pj_timer_heap :=
  match fuel with
  | O => h
  | S fuel =>
      if slot >? 0 then
        if PJ_TIME_VAL_LT (value_at h moved_node) (value_at h (heap_at h parent))
        then reheap_up_loop fuel (copy_node h slot (heap_at h parent)) moved_node parent
                            (HEAP_PARENT parent)
        else copy_node h slot moved_node
      else copy_node h slot moved_node
  end.

Definition reheap_up (h : pj_timer_heap) (moved_node slot parent : Z) : pj_timer_heap :=
  reheap_up_loop (S (Z.to_nat slot)) h moved_node slot parent.

(** [remove_node], the heap's part... *)
Definition remove_slot (h : pj_timer_heap) (slot : Z) : pj_timer_heap :=
  let removed_node := heap_at h slot in
  let h := push_freelist h (dup_id h removed_node) in
  let h := h <| cur_size ::= fun n => n - 1 |> in
  let h := set_dup removed_node
             ((dup_at h removed_node) <| dup ::= fun e => e <| timer_id := -1 |> |>) h in
  if slot <? cur_size h then
    let moved_node := heap_at h (cur_size h) in
    let h := copy_node h slot moved_node in
    let parent := HEAP_PARENT slot in
    if PJ_TIME_VAL_GTE (value_at h moved_node) (value_at h (heap_at h parent))
    then reheap_down h moved_node slot (HEAP_LEFT slot)
    else reheap_up h moved_node slot parent
  else h.

(** ... and the entry's: its [_timer_id] is reset.  The node returned is the
    index of the removed copy. *)
Definition remove_node (w : world) (slot : Z) : world * Z :=
  let removed_node := heap_at (ht w) slot in
  (w <| ht ::= fun h => remove_slot h slot |>
     <| entries ::= alter (fun e => e <| timer_id := -1 |>) (entry (dup_at (ht w) removed_node)) |>,
   removed_node).

(** [dup_mem] is the content of the new part of [timer_dups]. *)
Definition grow_heap (h : pj_timer_heap) (dup_mem : list pj_timer_entry_dup) : pj_timer_heap :=
  let new_size := max_size h * 2 in
  h <| heap ::= fun l => take (Z.to_nat (cur_size h)) l ++
                         replicate (Z.to_nat (new_size - cur_size h)) 0 |>
    <| timer_dups ::= fun l => l ++ take (Z.to_nat (new_size - max_size h)) dup_mem |>
    <| timer_ids ::= fun l => l ++ map (fun i => - (i + 1)) (seqZ (max_size h) (new_size - max_size h)) |>
    <| max_size := new_size |>.

Section Timer.
(** Memory the pool hands out when the heap of size [n] grows. *)
Variable pool_mem : Z -> list pj_timer_entry_dup.

Definition insert_node (w : world) (new_node : Z) (future_time : pj_time_val) : world :=
  let h := ht w in
  let h := if cur_size h + 2 >=? max_size h then grow_heap h (pool_mem (max_size h)) else h in
  let e := default no_entry (entries w !! new_node) in
  let k := timer_id e in
  let h := set_dup k (Dup e new_node future_time 0) h in
  let h := reheap_up h k (cur_size h) (HEAP_PARENT (cur_size h)) in
  w <| ht := h <| cur_size ::= fun n => n + 1 |> |>.

(** [None] is the status -1 of a heap without room. *)
Definition schedule_entry (w : world) (e : Z) (future_time : pj_time_val) : option world :=
  if cur_size (ht w) <? max_size (ht w) then
    let '(h, new_id) := pop_freelist (ht w) in
    let w := w <| ht := h |>
               <| entries ::= alter (fun x => x <| timer_id := new_id |>) e |> in
    Some (insert_node w e future_time)
  else None.

Definition entry_at (w : world) (e : Z) : pj_timer_entry := default no_entry (entries w !! e).

Definition pj_timer_entry_init (w : world) (e idv ud cbv : Z) : world :=
  w <| entries ::= <[e := Entry ud idv cbv (-1)]> |>.

Definition pj_timer_entry_running (e : pj_timer_entry) : bool := timer_id e >=? 1.

(** The reference counts of the group locks.  What the code does when a count
    reaches 0, destroying the lock, is not modelled: the owner of an entry
    holds a reference of its own. *)
Definition pj_grp_lock_add_ref (w : world) (g : Z) : world :=
  w <| lock_refs ::= <[g := default 0 (lock_refs w !! g) + 1]> |>.
Definition pj_grp_lock_dec_ref (w : world) (g : Z) : world :=
  w <| lock_refs ::= <[g := default 0 (lock_refs w !! g) - 1]> |>.

(** [now] is the tick count read by the call. *)
Definition schedule_w_grp_lock (w : world) (now : pj_time_val) (e : Z) (delay : pj_time_val)
    (set_id : bool) (id_val g : Z) : world * pj_status :=
  if cb (entry_at w e) =? 0 then (w, PJ_EINVAL)
  else
    let expires := PJ_TIME_VAL_ADD now delay in
    if pj_timer_entry_running (entry_at w e) then (w, PJ_EINVALIDOP)
    else
      match schedule_entry w e expires with
      | Some w =>
          let k := timer_id (entry_at w e) in
          let w :=
            if set_id then
              w <| entries ::= alter (fun x => x <| id := id_val |>) e |>
                <| ht ::= fun h => set_dup k ((dup_at h k) <| dup ::= fun x => x <| id := id_val |> |>) h |>
            else w in
          let w := w <| ht ::= fun h => set_dup k ((dup_at h k) <| grp_lock := g |>) h |> in
          let w := if truth g then pj_grp_lock_add_ref w g else w in
          (w, PJ_SUCCESS)
      | None => (w, PJ_MINUS_ONE)
      end.

Definition pj_timer_heap_schedule (w : world) (now : pj_time_val) (e : Z) (delay : pj_time_val) :=
  schedule_w_grp_lock w now e delay false 1 0.
Definition pj_timer_heap_schedule_w_grp_lock (w : world) (now : pj_time_val) (e : Z)
    (delay : pj_time_val) (id_val g : Z) :=
  schedule_w_grp_lock w now e delay true id_val g.

(** What the reads outside the arrays yield that [cancel_timer] makes for an
    entry that is not running: [timer_dups[-1]], and the arrays at [max_size]. *)
Variable stray_dup : pj_timer_entry_dup.
Variable stray_id : Z.
(** The callback of the heap, run by [cancel] without [F_DONT_CALL]. *)
Variable close_hook : world -> Z -> world.

Definition reset_id (w : world) (e : Z) : world :=
  w <| entries ::= alter (fun x => x <| timer_id := -1 |>) e |>.

Definition cancel (w : world) (e flags : Z) : world * Z :=
  let k := timer_id (entry_at w e) in
  if (k <? 0) || (k >? max_size (ht w)) then (reset_id w e, 0)
  else
    let timer_node_slot := at_ stray_id (timer_ids (ht w)) k in
    if timer_node_slot <? 0 then (reset_id w e, 0)
    else if negb (e =? entry (dup_at (ht w) (heap_at (ht w) timer_node_slot))) then (reset_id w e, 0)
    else
      let w := (remove_node w timer_node_slot).1 in
      let w := if truth (Z.land flags F_DONT_CALL) then w else close_hook w e in
      (w, 1).

Definition cancel_timer (w : world) (e flags id_val : Z) : world * Z :=
  let k := timer_id (entry_at w e) in
  let g := grp_lock (if k <? 0 then stray_dup else at_ stray_dup (timer_dups (ht w)) k) in
  let '(w, count) := cancel w e (Z.lor flags F_DONT_CALL) in
  let w :=
    if count >? 0 then
      let w := if truth (Z.land flags F_SET_ID)
               then w <| entries ::= alter (fun x => x <| id := id_val |>) e |> else w in
      if truth g then pj_grp_lock_dec_ref w g else w
    else w in
  (w, count).

Definition pj_timer_heap_cancel (w : world) (e : Z) : world * Z := cancel_timer w e 0 0.
Definition pj_timer_heap_cancel_if_active (w : world) (e id_val : Z) : world * Z :=
  cancel_timer w e (Z.lor F_SET_ID F_DONT_ASSERT) id_val.

(** The application's callbacks: [call c w e] runs callback [c] on entry [e]. *)
Variable call : Z -> world -> Z -> world.

(** One round of [poll]: the first entry is removed and its callback run.
    The flag is the validity check of the entry against its copy. *)
Definition poll_round (w : world) : world :=
  let '(w, node) := remove_node w 0 in
  let d := dup_at (ht w) node in
  let e := entry d in
  let g := grp_lock d in
  let w := w <| ht ::= set_dup node (d <| grp_lock := 0 |>) |> in
  let x := entry_at w e in
  let valid := (cb (dup d) =? cb x) && (user_data (dup d) =? user_data x) in
  let w := if valid && truth (cb x) then call (cb x) w e else w in
  if valid && truth g then pj_grp_lock_dec_ref w g else w.

(** The loop of [poll]; the world and the number of entries fired. *)
Fixpoint poll_loop (fuel : nat) (w : world) (now min_time_node : pj_time_val) (count : Z) :
    world * Z :=
  match fuel with
  | O => (w, count)
  | S fuel =>
      if truth (cur_size (ht w)) && PJ_TIME_VAL_LTE min_time_node now &&
         (count <? max_entries_per_poll (ht w))
      then
        let w := poll_round w in
        let min_time_node :=
          if truth (cur_size (ht w)) then value_at (ht w) (heap_at (ht w) 0) else min_time_node in
        poll_loop fuel w now min_time_node (count + 1)
      else (w, count)
  end.

Definition TV_FOREVER : pj_time_val := TV PJ_MAXINT32 PJ_MAXINT32.

(** The delay to the next entry. *)
Definition poll_delay (h : pj_timer_heap) (now : pj_time_val) : pj_time_val :=
  if truth (cur_size h) then
    let d := PJ_TIME_VAL_SUB (value_at h (heap_at h 0)) now in
    if (sec d <? 0) || (msec d <? 0) then TV 0 0 else d
  else TV_FOREVER.

(** The call with a non-null [next_delay].  Every round counts one entry, so
    the loop ends within [max_entries_per_poll] rounds. *)
Definition pj_timer_heap_poll (w : world) (now : pj_time_val) : world * Z * pj_time_val :=
  if negb (truth (cur_size (ht w))) then (w, 0, TV_FOREVER)
  else
    let min_time_node := value_at (ht w) (heap_at (ht w) 0) in
    let '(w, count) :=
      poll_loop (S (Z.to_nat (max_entries_per_poll (ht w)))) w now min_time_node 0 in
    (w, count, poll_delay (ht w) now).

Definition pj_timer_heap_count (h : pj_timer_heap) : Z := cur_size h.

Definition pj_timer_heap_earliest_time (h : pj_timer_heap) : option pj_time_val :=
  if cur_size h =? 0 then None else Some (value_at h (heap_at h 0)).

Definition pj_timer_heap_set_max_timed_out_per_poll (h : pj_timer_heap) (count : Z) :
    pj_timer_heap * Z :=
  (h <| max_entries_per_poll := count |>, max_entries_per_poll h).

(** [mem] is the fresh memory of [timer_dups]. *)
Definition pj_timer_heap_create (size : Z) (mem : list pj_timer_entry_dup) : pj_timer_heap :=
  let size := size + 2 in
  TimerHeap size 0 DEFAULT_MAX_TIMED_OUT_PER_POLL (replicate (Z.to_nat size) 0)
    (map (fun i => - (i + 1)) (seqZ 0 size)) (take (Z.to_nat size) mem) 1.
End Timer.

(** ** Arrays *)

Lemma at_upd {A} (d : A) l i j v : 0 <= i < zlen l -> 0 <= j ->
  at_ d (upd l i v) j = if decide (i = j) then v else at_ d l j.
Proof.
  unfold at_, upd, zlen. intros Hi Hj. case_decide as E.
  - subst. rewrite list_lookup_insert_eq by lia. done.
  - rewrite list_lookup_insert_ne by lia. done.
Qed.
Lemma zlen_upd {A} (l : list A) i v : zlen (upd l i v) = zlen l.
Proof. unfold zlen, upd. by rewrite length_insert. Qed.
Lemma at_app_l {A} (d : A) l k i : 0 <= i < zlen l -> at_ d (l ++ k) i = at_ d l i.
Proof. unfold at_, zlen. intros. rewrite lookup_app_l by lia. done. Qed.
Lemma at_app_r {A} (d : A) l k i : zlen l <= i -> at_ d (l ++ k) i = at_ d k (i - zlen l).
Proof.
  unfold at_, zlen. intros. rewrite lookup_app_r by lia. do 2 f_equal. lia.
Qed.
Lemma at_take {A} (d : A) l n i : 0 <= i < n -> at_ d (take (Z.to_nat n) l) i = at_ d l i.
Proof. unfold at_. intros. rewrite lookup_take_lt by lia. done. Qed.
Lemma at_map_seqZ (d : Z) (f : Z -> Z) m n i : 0 <= i < n -> at_ d (map f (seqZ m n)) i = f (m + i).
Proof.
  unfold at_. intros. rewrite list_lookup_fmap, lookup_seqZ_lt by lia. simpl. f_equal. lia.
Qed.
Lemma zlen_map {A B} (f : A -> B) l : zlen (map f l) = zlen l.
Proof. unfold zlen. by rewrite length_map. Qed.
Lemma zlen_seqZ m n : 0 <= n -> zlen (seqZ m n) = n.
Proof. unfold zlen. intros. rewrite length_seqZ. lia. Qed.
Lemma parent_range i : 0 < i -> 0 <= HEAP_PARENT i < i.
Proof.
  intros. unfold HEAP_PARENT. destruct (Z.eqb_spec i 0); [lia|].
  Z.to_euclidean_division_equations; lia.
Qed.
(** The children of a slot. *)
Lemma parent_child i p : 0 < i -> 0 <= p ->
  HEAP_PARENT i = p <-> i = HEAP_LEFT p \/ i = HEAP_LEFT p + 1.
Proof.
  intros. unfold HEAP_PARENT, HEAP_LEFT. destruct (Z.eqb_spec i 0); [lia|].
  Z.to_euclidean_division_equations; lia.
Qed.

(** ** Sifting

    While a node [m] sifts through the heap there is a hole at [slot]: the heap
    is read with [m] in it. *)
Section Sift.
Variables (m n : Z).

Definition virt (h : pj_timer_heap) (slot i : Z) : Z :=
  if decide (i = slot) then m else heap_at h i.

(** A heap of [n] nodes with the hole at [slot]; the nodes are their own
    [_timer_id]s and are found by [timer_ids], the node [m] apart. *)
Record holed (h : pj_timer_heap) (slot : Z) : Prop := {
  ho_len : zlen (heap h) = max_size h /\ zlen (timer_ids h) = max_size h;
  ho_slot : 0 <= slot < n /\ n <= max_size h;
  ho_ids : forall i, 0 <= i < n -> i <> slot ->
    heap_at h i <> m /\ at_ 0 (timer_ids h) (heap_at h i) = i;
  ho_nodes : forall i, 0 <= i < n ->
    0 <= virt h slot i < max_size h /\ dup_id h (virt h slot i) = virt h slot i
}.

(** What a sift does: the same nodes, at most in other places. *)
Record same_nodes (h h' : pj_timer_heap) (slot slot' : Z) : Prop := {
  sn_rest : max_size h' = max_size h /\ cur_size h' = cur_size h /\
    max_entries_per_poll h' = max_entries_per_poll h /\ timer_dups h' = timer_dups h /\
    timer_ids_freelist h' = timer_ids_freelist h;
  sn_nodes : forall k, (exists i, 0 <= i < n /\ virt h' slot' i = k) <->
                       (exists i, 0 <= i < n /\ virt h slot i = k);
  sn_ids : forall k, 0 <= k -> ~ (exists i, 0 <= i < n /\ virt h slot i = k) ->
    at_ 0 (timer_ids h') k = at_ 0 (timer_ids h) k
}.

Lemma same_nodes_refl h slot : same_nodes h h slot slot.
Proof. constructor; naive_solver. Qed.
Lemma same_nodes_trans h1 h2 h3 s1 s2 s3 :
  same_nodes h1 h2 s1 s2 -> same_nodes h2 h3 s2 s3 -> same_nodes h1 h3 s1 s3.
Proof.
  intros [A1 B1 C1] [A2 B2 C2]. constructor; [intuition congruence|naive_solver|].
  intros k Hk Hn. rewrite C2; [by apply C1|done|]. by rewrite B1.
Qed.

(** Moving the node at [slot'] into the hole moves the hole there. *)
Lemma move_hole h slot slot' :
  holed h slot -> 0 <= slot' < n -> slot' <> slot ->
  let h' := copy_node h slot (heap_at h slot') in
  holed h' slot' /\ same_nodes h h' slot slot' /\
  (forall i, 0 <= i < n -> i <> slot' ->
     heap_at h' i = if decide (i = slot) then heap_at h slot' else heap_at h i).
Proof.
  intros [[Hl1 Hl2] [Hs Hn] Hids Hnodes] Hs' Hne h'.
  destruct (Hids slot' Hs' Hne) as [Hm Hid].
  assert (Hv : virt h slot slot' = heap_at h slot') by (unfold virt; by rewrite decide_False).
  destruct (Hnodes slot' Hs') as [Hr Hd]. rewrite Hv in Hr, Hd.
  assert (Hh : forall i, 0 <= i < n ->
    heap_at h' i = if decide (i = slot) then heap_at h slot' else heap_at h i).
  { intros i Hi. unfold h', copy_node. unfold heap_at at 1. simpl. rewrite at_upd by lia.
    fold (heap_at h i). repeat case_decide; congruence. }
  assert (Hi' : forall k, 0 <= k -> at_ 0 (timer_ids h') k =
    if decide (k = heap_at h slot') then slot else at_ 0 (timer_ids h) k).
  { intros k Hk. unfold h', copy_node; simpl. rewrite Hd, at_upd by lia.
    repeat case_decide; congruence. }
  assert (Hvirt : forall i, 0 <= i < n -> virt h' slot' i =
    if decide (i = slot') then m else if decide (i = slot) then heap_at h slot' else heap_at h i).
  { intros i Hi. unfold virt. case_decide; [done|]. by apply Hh. }
  split; [|split].
  - constructor.
    + unfold h', copy_node; simpl. by rewrite !zlen_upd.
    + done.
    + intros i Hi Hi2. rewrite Hh by done. case_decide as E.
      * subst i. rewrite Hi', decide_True by (done || lia). done.
      * destruct (Hids i Hi E) as [H1 H2]. split; [done|].
        destruct (Hnodes i Hi) as [H3 _]. unfold virt in H3. rewrite decide_False in H3 by done.
        rewrite Hi', decide_False; [done| |lia]. intros Heq. rewrite <- Heq in Hid. congruence.
    + intros i Hi. rewrite Hvirt by done. destruct (Hnodes slot Hs) as [Hr0 Hd0].
      unfold virt in Hr0, Hd0. rewrite decide_True in Hr0, Hd0 by done.
      change (dup_id h') with (dup_id h). case_decide; [done|]. case_decide; [done|].
      destruct (Hnodes i Hi) as [H1 H2]. unfold virt in H1, H2. by rewrite decide_False in H1, H2.
  - constructor; [done| |].
    + intros k. split; intros (i & Hi & Hk).
      * rewrite Hvirt in Hk by done. unfold virt. case_decide as E1.
        { exists slot. by rewrite decide_True. }
        case_decide as E2; [exists slot'; by rewrite decide_False|].
        exists i. by rewrite decide_False.
      * unfold virt in Hk. case_decide as E1.
        { exists slot'. rewrite Hvirt, decide_True by done. done. }
        destruct (decide (i = slot')) as [->|E2].
        { exists slot. rewrite Hvirt, decide_False, decide_True by done. done. }
        exists i. rewrite Hvirt, !decide_False by done. done.
    + intros k Hk Hno. rewrite Hi' by done. rewrite decide_False; [done|].
      intros ->. apply Hno. exists slot'. done.
  - intros i Hi Hi2. by apply Hh.
Qed.

(** Filling the hole ends the sift. *)
Lemma fill_hole h slot :
  holed h slot ->
  let h' := copy_node h slot m in
  (forall i, 0 <= i < n -> heap_at h' i = virt h slot i) /\
  (forall i, 0 <= i < n -> at_ 0 (timer_ids h') (heap_at h' i) = i) /\
  zlen (heap h') = max_size h' /\ zlen (timer_ids h') = max_size h' /\
  (max_size h' = max_size h /\ cur_size h' = cur_size h /\
    max_entries_per_poll h' = max_entries_per_poll h /\ timer_dups h' = timer_dups h /\
    timer_ids_freelist h' = timer_ids_freelist h) /\
  (forall k, 0 <= k -> k <> m -> at_ 0 (timer_ids h') k = at_ 0 (timer_ids h) k).
Proof.
  intros [[Hl1 Hl2] [Hs Hn] Hids Hnodes] h'.
  destruct (Hnodes slot Hs) as [Hr Hd]. unfold virt in Hr, Hd. rewrite decide_True in Hr, Hd by done.
  assert (Hh : forall i, 0 <= i < n -> heap_at h' i = virt h slot i).
  { intros i Hi. unfold h', heap_at, copy_node, virt; simpl. rewrite at_upd by lia.
    fold (heap_at h i). repeat case_decide; congruence. }
  assert (Hi' : forall k, 0 <= k -> at_ 0 (timer_ids h') k =
    if decide (k = m) then slot else at_ 0 (timer_ids h) k).
  { intros k Hk. unfold h', copy_node; simpl. rewrite Hd, at_upd by lia.
    repeat case_decide; congruence. }
  split_and!; try done.
  - intros i Hi. rewrite Hh by done. destruct (Hnodes i Hi) as [H1 _]. rewrite Hi' by lia.
    unfold virt in *. case_decide as E; [by rewrite decide_True|].
    destruct (Hids i Hi E) as [H2 H3]. by rewrite decide_False.
  - unfold h', copy_node; simpl. by rewrite zlen_upd.
  - unfold h', copy_node; simpl. by rewrite zlen_upd.
  - intros k Hk Hne. rewrite Hi', decide_False by done. done.
Qed.

(** The outcome of a sift: a heap of the same nodes, in order. *)
Record sifted (h : pj_timer_heap) (slot : Z) (h' : pj_timer_heap) : Prop := {
  sd_rest : max_size h' = max_size h /\ cur_size h' = cur_size h /\
    max_entries_per_poll h' = max_entries_per_poll h /\ timer_dups h' = timer_dups h /\
    timer_ids_freelist h' = timer_ids_freelist h;
  sd_len : zlen (heap h') = max_size h' /\ zlen (timer_ids h') = max_size h';
  sd_nodes : forall k, (exists i, 0 <= i < n /\ heap_at h' i = k) <->
                       (exists i, 0 <= i < n /\ virt h slot i = k);
  sd_ids : forall i, 0 <= i < n -> at_ 0 (timer_ids h') (heap_at h' i) = i;
  sd_other : forall k, 0 <= k -> ~ (exists i, 0 <= i < n /\ virt h slot i = k) ->
    at_ 0 (timer_ids h') k = at_ 0 (timer_ids h) k;
  sd_order : forall i, 0 < i < n ->
    tv_le (value_at h' (heap_at h' (HEAP_PARENT i))) (value_at h' (heap_at h' i))
}.

Lemma sifted_move h h1 slot slot1 h' :
  same_nodes h h1 slot slot1 -> sifted h1 slot1 h' -> sifted h slot h'.
Proof.
  intros [A1 B1 C1] [A2 L2 B2 C2 D2 E2]. constructor; auto.
  - intuition congruence.
  - intros k. by rewrite B2, B1.
  - intros k Hk Hn. rewrite D2; [by apply C1|done|]. by rewrite B1.
Qed.

(** Filling the hole when the order then holds everywhere. *)
Lemma sifted_fill h slot :
  holed h slot ->
  (forall i, 0 < i < n ->
     tv_le (value_at h (virt h slot (HEAP_PARENT i))) (value_at h (virt h slot i))) ->
  sifted h slot (copy_node h slot m).
Proof.
  intros Hh Ho. destruct (fill_hole h slot Hh) as (Hat & Hid & Hl1 & Hl2 & Hr & Hother).
  constructor; try done.
  - intros k. split; intros (i & Hi & Hk); exists i; [rewrite <- Hat by done|rewrite Hat by done]; done.
  - intros k Hk Hno. apply Hother; [done|]. intros ->. apply Hno. exists slot.
    split; [apply Hh|]. unfold virt. by rewrite decide_True.
  - intros i Hi. pose proof (parent_range i ltac:(lia)). rewrite !Hat by lia. by apply Ho.
Qed.

(** The order around the hole, for a node moving up and one moving down. *)
Record order_hole (h : pj_timer_heap) (slot : Z) : Prop := {
  oh_edges : forall i, 0 < i < n -> i <> slot -> HEAP_PARENT i <> slot ->
    tv_le (value_at h (heap_at h (HEAP_PARENT i))) (value_at h (heap_at h i));
  oh_skip : forall i, 0 < i < n -> HEAP_PARENT i = slot -> 0 < slot ->
    tv_le (value_at h (heap_at h (HEAP_PARENT slot))) (value_at h (heap_at h i))
}.
Definition below_ok (h : pj_timer_heap) (slot : Z) : Prop :=
  forall i, 0 < i < n -> HEAP_PARENT i = slot -> tv_le (value_at h m) (value_at h (heap_at h i)).
Definition above_ok (h : pj_timer_heap) (slot : Z) : Prop :=
  0 < slot -> tv_le (value_at h (heap_at h (HEAP_PARENT slot))) (value_at h m).

Lemma order_filled h slot :
  0 <= slot < n -> order_hole h slot -> below_ok h slot -> above_ok h slot ->
  forall i, 0 < i < n ->
    tv_le (value_at h (virt h slot (HEAP_PARENT i))) (value_at h (virt h slot i)).
Proof.
  intros Hs [He _] Hb Ha i Hi. unfold virt. pose proof (parent_range i ltac:(lia)).
  case_decide as E1; case_decide as E2; auto; [lia|]. subst i. apply Ha. lia.
Qed.

Lemma reheap_up_loop_spec fuel h slot :
  holed h slot -> order_hole h slot -> below_ok h slot -> (Z.to_nat slot < fuel)%nat ->
  sifted h slot (reheap_up_loop fuel h m slot (HEAP_PARENT slot)).
Proof.
  revert h slot. induction fuel as [|fuel IH]; intros h slot Hh Ho Hb Hf; [lia|].
  cbn [reheap_up_loop]. pose proof (ho_slot _ _ Hh) as [Hs Hn].
  destruct (Z.gtb_spec slot 0) as [Hpos|Hz].
  2: { apply sifted_fill; [done|]. apply order_filled; auto. intros ?. lia. }
  set (p := HEAP_PARENT slot). pose proof (parent_range slot ltac:(lia)) as Hp. fold p in Hp.
  destruct (PJ_TIME_VAL_LT _ _) eqn:Elt.
  2: { apply sifted_fill; [done|]. apply order_filled; auto. intros _. by apply tv_nlt_le. }
  apply tv_lt_le in Elt. destruct (move_hole h slot p Hh ltac:(lia) ltac:(lia)) as (Hh1 & Hsn & Hat).
  set (h1 := copy_node h slot (heap_at h p)) in *.
  eapply sifted_move; [exact Hsn|]. destruct Ho as [He Hsk].
  change (value_at h) with (value_at h1) in *.
  apply IH; [done| | |lia].
  - constructor.
    + intros i Hi Hi1 Hi2. pose proof (parent_range i ltac:(lia)).
      rewrite !Hat by lia. repeat case_decide; subst; try done; auto.
    + intros i Hi Hi1 Hi2. pose proof (parent_range p ltac:(lia)).
      pose proof (parent_range i ltac:(lia)). rewrite !Hat by lia.
      rewrite (decide_False (P := HEAP_PARENT p = slot)) by lia.
      assert (Hpp : tv_le (value_at h1 (heap_at h (HEAP_PARENT p))) (value_at h1 (heap_at h p)))
        by (apply He; lia).
      case_decide; [done|]. etrans; [exact Hpp|]. rewrite <- Hi1 at 1. apply He; lia.
  - intros i Hi Hi1. pose proof (parent_range i ltac:(lia)). rewrite Hat by lia.
    case_decide; [done|]. etrans; [exact Elt|]. rewrite <- Hi1. apply He; lia.
Qed.

Lemma reheap_down_loop_spec fuel h slot :
  cur_size h = n -> holed h slot -> order_hole h slot -> above_ok h slot ->
  (Z.to_nat (n - slot) <= fuel)%nat ->
  sifted h slot (reheap_down_loop fuel h m slot (HEAP_LEFT slot)).
Proof.
  revert h slot. induction fuel as [|fuel IH]; intros h slot Hcur Hh Ho Ha Hf;
    pose proof (ho_slot _ _ Hh) as [Hs Hn]; [lia|].
  cbn [reheap_down_loop]. rewrite Hcur. set (l := HEAP_LEFT slot) in *.
  assert (Hl : l = slot + slot + 1) by reflexivity.
  assert (Hkids : forall i, 0 < i -> HEAP_PARENT i = slot <-> i = l \/ i = l + 1)
    by (intros; apply parent_child; lia).
  destruct (Z.ltb_spec l n) as [Hlt|Hge].
  2: { apply sifted_fill; [done|]. apply order_filled; auto.
       intros i Hi Hp. apply Hkids in Hp; lia. }
  set (c := if (l + 1 <? n) && _ then l + 1 else l).
  assert (Hc : (c = l \/ c = l + 1) /\ c < n /\
    forall i, 0 < i < n -> HEAP_PARENT i = slot ->
      tv_le (value_at h (heap_at h c)) (value_at h (heap_at h i))).
  { unfold c. destruct (Z.ltb_spec (l + 1) n); simpl.
    - destruct (PJ_TIME_VAL_LT _ _) eqn:E; (split_and!; [lia|lia|]);
        intros i Hi [->| ->]%Hkids; auto with pj; lia.
    - split_and!; [lia|lia|]. intros i Hi [->| ->]%Hkids; auto with pj; lia. }
  clearbody c. destruct Hc as (Hc & Hcn & Hmin).
  assert (Hpc : HEAP_PARENT c = slot) by (apply Hkids; lia).
  destruct (PJ_TIME_VAL_LT _ _) eqn:Elt.
  2: { apply sifted_fill; [done|]. apply order_filled; auto.
       intros i Hi Hp. etrans; [by apply tv_nlt_le|]. by apply Hmin. }
  apply tv_lt_le in Elt. destruct (move_hole h slot c Hh ltac:(lia) ltac:(lia)) as (Hh1 & Hsn & Hat).
  set (h1 := copy_node h slot (heap_at h c)) in *.
  eapply sifted_move; [exact Hsn|]. destruct Ho as [He Hsk].
  change (value_at h) with (value_at h1) in *.
  apply IH; [done|done| | |lia].
  - constructor.
    + intros i Hi Hi1 Hi2. pose proof (parent_range i ltac:(lia)).
      rewrite !Hat by lia. case_decide as E1; case_decide as E2; subst; auto; try lia.
      apply Hsk; lia || done.
    + intros i Hi Hi1 _. pose proof (parent_range i ltac:(lia)).
      rewrite Hpc, !Hat by lia. rewrite decide_True, decide_False by lia.
      rewrite <- Hi1 at 1. apply He; lia.
  - intros _. rewrite Hpc, Hat, decide_True by lia. exact Elt.
Qed.
End Sift.

(** ** Well-formed heaps *)

Definition in_heap (h : pj_timer_heap) (k : Z) : Prop :=
  exists i, 0 <= i < cur_size h /\ heap_at h i = k.

(** The freelist: the negated links from [f] through [fr] to [stop]. *)
Fixpoint chain (ids : list Z) (f : Z) (fr : list Z) (stop : Z) : Prop :=
  match fr with
  | [] => f = stop
  | k :: fr => f = k /\ chain ids (- at_ 0 ids k) fr stop
  end.

(** The arrays agree.  [fr] are the free timer ids, [res] the one just taken
    for an entry not inserted yet.  The last free id links to [max_size], which
    becomes valid when the heap grows. *)
Record heap_ok (h : pj_timer_heap) (fr : list Z) (res : option Z) : Prop := {
  hk_len : zlen (heap h) = max_size h /\ zlen (timer_ids h) = max_size h /\
    zlen (timer_dups h) = max_size h;
  hk_size : 0 <= cur_size h /\ 2 <= max_size h;
  hk_slot : forall i, 0 <= i < cur_size h ->
    1 <= heap_at h i < max_size h /\ dup_id h (heap_at h i) = heap_at h i /\
    at_ 0 (timer_ids h) (heap_at h i) = i;
  hk_order : forall i, 0 < i < cur_size h ->
    tv_le (value_at h (heap_at h (HEAP_PARENT i))) (value_at h (heap_at h i));
  hk_zero : at_ 0 (timer_ids h) 0 = -1;
  hk_chain : chain (timer_ids h) (timer_ids_freelist h) fr (max_size h);
  hk_nodup : NoDup fr;
  hk_free : forall k, k ∈ fr <-> 1 <= k < max_size h /\ ~ in_heap h k /\ res <> Some k;
  hk_res : forall k, res = Some k -> 1 <= k < max_size h /\ ~ in_heap h k;
  hk_count : zlen fr + cur_size h + 1 + (if res is Some _ then 1 else 0) = max_size h
}.

Definition heap_wf (h : pj_timer_heap) : Prop :=
  cur_size h + 2 <= max_size h /\ exists fr, heap_ok h fr None.

Lemma chain_ext ids ids' f fr stop :
  chain ids f fr stop -> (forall k, k ∈ fr -> at_ 0 ids' k = at_ 0 ids k) ->
  chain ids' f fr stop.
Proof.
  revert f. induction fr as [|k fr IH]; intros f; simpl; [done|].
  intros [-> Hc] He. split; [done|]. rewrite He by constructor. apply IH; [done|].
  intros j Hj. apply He. by constructor.
Qed.

Lemma chain_app ids f fr mid fr2 stop :
  chain ids f fr mid -> chain ids mid fr2 stop -> chain ids f (fr ++ fr2) stop.
Proof.
  revert f. induction fr as [|k fr IH]; intros f; simpl; [by intros ->|].
  intros [-> Hc] H2. split; [done|]. by apply IH.
Qed.

Lemma chain_count ids m n :
  (forall i, m <= i < m + Z.of_nat n -> at_ 0 ids i = - (i + 1)) ->
  chain ids m (seqZ m (Z.of_nat n)) (m + Z.of_nat n).
Proof.
  revert m. induction n as [|n IH]; intros m Hi; [simpl; lia|].
  rewrite seqZ_cons by lia. simpl. split; [done|]. rewrite Hi by lia.
  replace (- - (m + 1)) with (m + 1) by lia.
  replace (Z.pred (Z.of_nat (S n))) with (Z.of_nat n) by lia.
  replace (m + Z.of_nat (S n)) with (m + 1 + Z.of_nat n) by lia.
  apply IH. intros i Hii. apply Hi. lia.
Qed.

(** Taking an id from the freelist. *)
Lemma pop_ok h fr : heap_ok h fr None -> cur_size h + 2 <= max_size h ->
  let '(h', k) := pop_freelist h in
  1 <= k < max_size h /\ ~ in_heap h k /\ h' = h <| timer_ids_freelist := timer_ids_freelist h' |> /\
  exists fr', heap_ok h' fr' (Some k).
Proof.
  intros [] Hs. destruct fr as [|k fr]; [unfold zlen in hk_count0; simpl in hk_count0; lia|].
  simpl in hk_chain0. destruct hk_chain0 as [Ef Hc]. unfold pop_freelist. rewrite Ef.
  apply NoDup_cons in hk_nodup0 as [Hk Hnd].
  destruct (proj1 (hk_free0 k)) as (H1 & H2 & _); [by constructor|].
  split_and!; [lia|lia|done|by rewrite <- Ef|]. exists fr. constructor; simpl; auto.
  - intros j. specialize (hk_free0 j). rewrite elem_of_cons in hk_free0.
    change (in_heap (h <| timer_ids_freelist := _ |>) j) with (in_heap h j).
    split.
    + intros Hj. destruct (proj1 hk_free0 (or_intror Hj)) as (?&?&_).
      split_and!; try lia; [done|]. intros [= ->]. done.
    + intros (?&?&Hne). destruct (proj2 hk_free0) as [->|]; [done|congruence|done].
  - intros j [= <-]. change (in_heap (h <| timer_ids_freelist := _ |>) k) with (in_heap h k).
    split; [lia|done].
  - unfold zlen in *. simpl in hk_count0. lia.
Qed.

Lemma grow_ok h fr res mem : heap_ok h fr res -> max_size h <= zlen mem ->
  cur_size h <= max_size h ->
  exists fr', heap_ok (grow_heap h mem) fr' res.
Proof.
  intros [[Hl1 [Hl2 Hl3]] Hsz Hslot Hord Hz Hch Hnd Hfree Hres Hcnt] Hmem Hcm.
  set (h' := grow_heap h mem).
  assert (Hat : forall i, 0 <= i < cur_size h -> heap_at h' i = heap_at h i).
  { intros i Hi. unfold h', grow_heap, heap_at. simpl.
    rewrite at_app_l; [by apply at_take|]. unfold zlen in *. rewrite length_take. lia. }
  assert (Hids : forall k, 0 <= k < max_size h -> at_ 0 (timer_ids h') k = at_ 0 (timer_ids h) k).
  { intros k Hk. unfold h', grow_heap. simpl. by rewrite at_app_l by lia. }
  assert (Hdup : forall k, 0 <= k < max_size h -> dup_at h' k = dup_at h k).
  { intros k Hk. unfold h', grow_heap, dup_at. simpl. by rewrite at_app_l by lia. }
  assert (Hin : forall k, in_heap h' k <-> in_heap h k).
  { intros k. unfold in_heap. change (cur_size h') with (cur_size h).
    split; intros (i & Hi & Hk); exists i; [rewrite <- Hat by done|rewrite Hat by done]; done. }
  assert (Hin_max : forall k, in_heap h k -> 1 <= k < max_size h).
  { intros k (i & Hi & <-). by apply Hslot. }
  change (max_size h') with (max_size h * 2) in *.
  exists (fr ++ seqZ (max_size h) (max_size h)). constructor.
  - unfold h', grow_heap; simpl. rewrite !zlen_app, zlen_map, zlen_seqZ, zlen_replicate by lia.
    unfold zlen in *. rewrite !length_take. lia.
  - simpl. lia.
  - intros i Hi. change (cur_size h') with (cur_size h) in Hi. rewrite Hat by done.
    destruct (Hslot i Hi) as (H1 & H2 & H3). unfold dup_id. rewrite Hdup, Hids by lia.
    split_and!; [lia|simpl; lia|done|done].
  - intros i Hi. change (cur_size h') with (cur_size h) in Hi.
    pose proof (parent_range i ltac:(lia)). unfold value_at.
    rewrite !Hat by lia. destruct (Hslot i ltac:(lia)) as (H1 & _).
    destruct (Hslot (HEAP_PARENT i) ltac:(lia)) as (H2 & _).
    rewrite !Hdup by lia. by apply Hord.
  - rewrite Hids by lia. done.
  - change (max_size h') with (max_size h * 2).
    apply chain_app with (max_size h).
    + eapply chain_ext; [exact Hch|]. intros k Hk. apply Hfree in Hk. apply Hids. lia.
    + replace (max_size h * 2) with (max_size h + Z.of_nat (Z.to_nat (max_size h))) by lia.
      rewrite <- (Z2Nat.id (max_size h)) at 3 by lia. apply chain_count.
      intros i Hi. unfold h', grow_heap. simpl. rewrite at_app_r by lia.
      rewrite at_map_seqZ by lia. lia.
  - apply NoDup_app. split_and!; [done| |apply NoDup_seqZ].
    intros k Hk Hk2%elem_of_seqZ. apply Hfree in Hk. lia.
  - intros k. rewrite elem_of_app, Hfree, elem_of_seqZ, Hin. change (max_size h') with (max_size h * 2).
    split.
    + intros [(?&?&?)|Hk]; [split_and!; done || lia|]. split_and!; [lia|lia| |].
      * intros Hh. apply Hin_max in Hh. lia.
      * intros E. apply Hres in E. lia.
    + intros (?&?&?). destruct (decide (k < max_size h)); [left|right; lia]. split_and!; done || lia.
  - intros k Hk. destruct (Hres k Hk) as [H1 H2]. rewrite Hin.
    change (max_size h') with (max_size h * 2). split; [lia|done].
  - rewrite zlen_app, zlen_seqZ by lia. simpl. lia.
Qed.

Lemma dup_at_set_dup h k j d : 0 <= k < zlen (timer_dups h) -> 0 <= j ->
  dup_at (set_dup k d h) j = if decide (k = j) then d else dup_at h j.
Proof. intros. unfold dup_at, set_dup. simpl. by apply at_upd. Qed.

Lemma reserved_not_at h fr k : heap_ok h fr (Some k) ->
  forall i, 0 <= i < cur_size h -> heap_at h i <> k.
Proof.
  intros Hok i Hi E. destruct (hk_res _ _ _ Hok k eq_refl) as [_ Hn]. apply Hn. by exists i.
Qed.

(** A sift in a heap whose other arrays are in order. *)
Lemma sifted_ok m n h slot h' fr :
  holed m n h slot -> sifted m n h slot h' ->
  zlen (timer_dups h) = max_size h -> 2 <= max_size h ->
  (forall i, 0 <= i < n -> 1 <= virt m h slot i) ->
  at_ 0 (timer_ids h) 0 = -1 ->
  chain (timer_ids h) (timer_ids_freelist h) fr (max_size h) -> NoDup fr ->
  (forall k, k ∈ fr <-> 1 <= k < max_size h /\ ~ (exists i, 0 <= i < n /\ virt m h slot i = k)) ->
  zlen fr + n + 1 = max_size h ->
  heap_ok (h' <| cur_size := n |>) fr None /\
  (forall j, in_heap (h' <| cur_size := n |>) j <-> exists i, 0 <= i < n /\ virt m h slot i = j).
Proof.
  intros [_ Hs _ Hn] [(Hr1 & _ & _ & Hr4 & Hr5) [Hl1 Hl2] Hnodes Hids Hoth Hord]
    Hl3 Hm Hpos Hz Hch Hnd Hfree Hcnt.
  split; [|exact Hnodes].
  assert (Hat : forall i, 0 <= i < n -> 1 <= heap_at h' i < max_size h /\
    dup_id h (heap_at h' i) = heap_at h' i).
  { intros i Hi. destruct (proj1 (Hnodes (heap_at h' i))) as (j & Hj & <-); [by exists i|].
    destruct (Hn j Hj) as [H1 H2]. specialize (Hpos j Hj). split; [lia|done]. }
  constructor; simpl.
  - rewrite Hl1, Hl2, Hr4. lia.
  - rewrite Hr1. lia.
  - intros i Hi. destruct (Hat i Hi) as [H1 H2]. change (heap_at (h' <| cur_size := n |>)) with (heap_at h').
    rewrite Hr1. split_and!; [lia|lia| |by apply Hids].
    unfold dup_id, dup_at; simpl. by rewrite Hr4.
  - exact Hord.
  - rewrite Hoth; [done|done|]. intros (i & Hi & E). specialize (Hpos i Hi). lia.
  - rewrite Hr1, Hr5. eapply chain_ext; [exact Hch|]. intros k Hk. apply Hfree in Hk as [? Hk].
    apply Hoth; [lia|done].
  - done.
  - intros k. rewrite Hfree, Hr1. unfold in_heap; simpl. rewrite <- Hnodes. naive_solver.
  - done.
  - rewrite Hr1. lia.
Qed.

(** Inserting the node [k] just taken from the freelist. *)
Lemma insert_ok h fr k d :
  heap_ok h fr (Some k) -> timer_id (dup d) = k ->
  let h1 := set_dup k d h in
  let h' := reheap_up h1 k (cur_size h) (HEAP_PARENT (cur_size h)) in
  let h2 := h' <| cur_size := cur_size h + 1 |> in
  heap_ok h2 fr None /\ cur_size h' = cur_size h /\ max_size h2 = max_size h /\
  max_entries_per_poll h2 = max_entries_per_poll h /\ timer_dups h2 = timer_dups h1 /\
  forall j, in_heap h2 j <-> in_heap h j \/ j = k.
Proof.
  intros Hok Hd h1 h' h2. pose proof (reserved_not_at h fr k Hok) as Hne.
  destruct Hok as [[Hl1 [Hl2 Hl3]] Hsz Hslot Hord Hz Hch Hnd Hfree Hres Hcnt].
  destruct (Hres k eq_refl) as [Hk Hkn]. set (n := cur_size h) in *.
  pose proof (zlen_nonneg fr).
  assert (Hdup : forall j, 0 <= j -> dup_at h1 j = if decide (k = j) then d else dup_at h j)
    by (intros; apply dup_at_set_dup; lia).
  assert (Hv : forall i, 0 <= i < n + 1 -> virt k h1 n i = if decide (i = n) then k else heap_at h i)
    by done.
  assert (Hh : holed k (n + 1) h1 n).
  { constructor; [done|simpl; lia| |].
    - intros i Hi Hin. split; [apply Hne; lia|]. apply Hslot. lia.
    - intros i Hi. rewrite Hv by done. unfold dup_id. case_decide.
      + rewrite Hdup, decide_True by (lia || done). split; [simpl; lia|done].
      + destruct (Hslot i ltac:(lia)) as (H1 & H2 & _). pose proof (Hne i ltac:(lia)).
        rewrite Hdup, decide_False by (lia || done). split; [simpl; lia|done]. }
  assert (Hs : sifted k (n + 1) h1 n h').
  { apply reheap_up_loop_spec; [done| | |lia].
    - constructor; [|intros i Hi Hi1; pose proof (parent_range i ltac:(lia)); lia].
      intros i Hi Hi1 Hi2. pose proof (parent_range i ltac:(lia)).
      change (heap_at h1) with (heap_at h). unfold value_at.
      destruct (Hslot i ltac:(lia)) as (H1 & _). pose proof (Hne i ltac:(lia)).
      destruct (Hslot (HEAP_PARENT i) ltac:(lia)) as (Hp & _). pose proof (Hne (HEAP_PARENT i) ltac:(lia)).
      rewrite !Hdup, !decide_False by (lia || done). apply Hord. lia.
    - intros i Hi Hi1. pose proof (parent_range i ltac:(lia)). lia. }
  assert (Hnodes : forall j, (exists i, 0 <= i < n + 1 /\ virt k h1 n i = j) <-> in_heap h j \/ j = k).
  { intros j. split.
    - intros (i & Hi & Hj). rewrite Hv in Hj by done. case_decide; [by right|left].
      exists i. split; [lia|done].
    - intros [(i & Hi & Hj)| ->]; [exists i|exists n]; (split; [lia|]); rewrite Hv by lia.
      + by rewrite decide_False by lia.
      + by rewrite decide_True. }
  destruct (sifted_ok k (n + 1) h1 n h' fr Hh Hs) as [Hok Hin]; try done.
  - simpl. by rewrite zlen_upd.
  - simpl. lia.
  - intros i Hi. rewrite Hv by done. case_decide; [lia|]. apply Hslot. lia.
  - intros j. rewrite Hnodes, Hfree. simpl. split; [intros (?&?&Hj)|intros (?&Hj)];
      split_and!; try lia; intuition congruence.
  - simpl. lia.
  - destruct (sd_rest _ _ _ _ _ Hs) as (Hr1 & Hr2 & Hr3 & Hr4 & Hr5).
    split_and!; try done. intros j. unfold h2. by rewrite Hin, Hnodes.
Qed.

(** The state of [remove_slot] before the last node fills the gap. *)
Definition freed (h : pj_timer_heap) (slot : Z) : pj_timer_heap :=
  let k := heap_at h slot in
  set_dup k ((dup_at h k) <| dup ::= fun e => e <| timer_id := -1 |> |>)
    ((push_freelist h (dup_id h k)) <| cur_size ::= fun n => n - 1 |>).

Lemma cur_below_max h fr : heap_ok h fr None -> cur_size h + 1 <= max_size h.
Proof. intros []. pose proof (zlen_nonneg fr). simpl in hk_count0. lia. Qed.

Section Remove.
Variables (h : pj_timer_heap) (fr : list Z) (slot : Z).
Hypothesis Hok : heap_ok h fr None.
Hypothesis Hslot0 : 0 <= slot < cur_size h.
Let k := heap_at h slot.
Let n := cur_size h - 1.
Let h1 := freed h slot.

Lemma freed_dup j : 0 <= j ->
  dup_at h1 j = if decide (j = k) then (dup_at h k) <| dup ::= fun e => e <| timer_id := -1 |> |>
                else dup_at h j.
Proof.
  intros Hj. destruct (hk_slot _ _ _ Hok slot Hslot0) as (Hk & _). fold k in Hk.
  destruct (hk_len _ _ _ Hok) as (_ & _ & Hl).
  unfold h1, freed. fold k. rewrite dup_at_set_dup by (simpl; lia). repeat case_decide; done || congruence.
Qed.

Lemma freed_value j : 0 <= j -> value_at h1 j = value_at h j.
Proof. intros Hj. unfold value_at. rewrite freed_dup by done. case_decide; by subst. Qed.

Lemma freed_ids j : 0 <= j ->
  at_ 0 (timer_ids h1) j = if decide (j = k) then - timer_ids_freelist h else at_ 0 (timer_ids h) j.
Proof.
  intros Hj. destruct (hk_slot _ _ _ Hok slot Hslot0) as (Hk & Hkd & _). fold k in Hk, Hkd.
  destruct (hk_len _ _ _ Hok) as (_ & Hl & _).
  unfold h1, freed. fold k. rewrite Hkd. simpl. rewrite at_upd by lia. repeat case_decide; congruence.
Qed.

Lemma slots_distinct i j : 0 <= i < cur_size h -> 0 <= j < cur_size h ->
  heap_at h i = heap_at h j -> i = j.
Proof.
  intros Hi Hj E. destruct (hk_slot _ _ _ Hok i Hi) as (_ & _ & Ei).
  destruct (hk_slot _ _ _ Hok j Hj) as (_ & _ & Ej). congruence.
Qed.

Lemma freed_chain :
  chain (timer_ids h1) (timer_ids_freelist h1) (k :: fr) (max_size h1) /\ NoDup (k :: fr) /\
  timer_ids_freelist h1 = k.
Proof.
  destruct (hk_slot _ _ _ Hok slot Hslot0) as (Hk & Hkd & _). fold k in Hk, Hkd.
  assert (Hkf : k ∉ fr).
  { intros Hf. apply (hk_free _ _ _ Hok) in Hf as (_ & Hn & _). apply Hn. by exists slot. }
  assert (Ef : timer_ids_freelist h1 = k) by exact Hkd.
  split_and!; [|constructor; [done|apply Hok]|done]. rewrite Ef. split; [done|].
  rewrite freed_ids, decide_True by (lia || done). rewrite Z.opp_involutive.
  eapply chain_ext; [apply Hok|]. intros j Hj.
  pose proof (proj1 (hk_free _ _ _ Hok j) Hj) as (Hr & _).
  rewrite freed_ids, decide_False; [done| |lia]. intros ->. done.
Qed.

Lemma freed_free (Q : Z -> Prop) :
  (forall j, Q j <-> in_heap h j /\ j <> k) ->
  forall j, j ∈ k :: fr <-> 1 <= j < max_size h /\ ~ Q j.
Proof.
  intros HQ j. destruct (hk_slot _ _ _ Hok slot Hslot0) as (Hk & _). fold k in Hk.
  rewrite elem_of_cons, (hk_free _ _ _ Hok), HQ. split.
  - intros [->|(?&?&_)]; (split; [lia|tauto]).
  - intros [Hr Hn]. destruct (decide (j = k)); [by left|right]. split_and!; [lia|lia| |done].
    intros Hj. by apply Hn.
Qed.

(** The last node is removed. *)
Lemma remove_last_ok : slot = n ->
  heap_ok h1 (k :: fr) None /\ (forall j, in_heap h1 j <-> in_heap h j /\ j <> k).
Proof.
  intros E. assert (Hin : forall j, in_heap h1 j <-> in_heap h j /\ j <> k).
  { intros j. unfold in_heap. change (cur_size h1) with n. change (heap_at h1) with (heap_at h). split.
    - intros (i & Hi & <-). split; [exists i; split; [lia|done]|]. intros Ek. apply slots_distinct in Ek; lia.
    - intros [(i & Hi & <-) Hne]. exists i. split; [|done].
      destruct (decide (i = slot)) as [->|]; [done|lia]. }
  split; [|exact Hin]. destruct freed_chain as (Hc & Hnd & _).
  pose proof (freed_free _ Hin) as Hfree.
  destruct Hok as [[Hl1 [Hl2 Hl3]] Hsz Hslot Hord Hz Hch Hnd0 Hfree0 Hres Hcnt].
  destruct (Hslot slot Hslot0) as (Hk & Hkd & Hki). fold k in Hk, Hkd, Hki.
  constructor; try done.
  - unfold h1, freed; simpl. rewrite !zlen_upd. done.
  - change (cur_size h1) with n. change (max_size h1) with (max_size h). lia.
  - change (cur_size h1) with n. change (max_size h1) with (max_size h).
    change (heap_at h1) with (heap_at h). intros i Hi. destruct (Hslot i ltac:(lia)) as (H1 & H2 & H3).
    assert (heap_at h i <> k) by (intros Ek; apply slots_distinct in Ek; lia).
    unfold dup_id. rewrite freed_dup, freed_ids, !decide_False by (lia || done). done.
  - change (cur_size h1) with n. change (heap_at h1) with (heap_at h). intros i Hi.
    pose proof (parent_range i ltac:(lia)). destruct (Hslot i ltac:(lia)) as (H1 & _).
    destruct (Hslot (HEAP_PARENT i) ltac:(lia)) as (H2 & _).
    rewrite !freed_value by lia. apply Hord. lia.
  - rewrite freed_ids, decide_False by lia. done.
  - intros j. rewrite Hfree. change (max_size h1) with (max_size h). naive_solver.
  - change (cur_size h1) with n. change (max_size h1) with (max_size h).
    unfold zlen in *. simpl. lia.
Qed.

(** Another node is removed: the last one [m] sifts from its slot. *)
Let m := heap_at h n.
Let h2 := copy_node h1 slot m.
Let virt_h2 i := if decide (i = slot) then m else heap_at h i.

Lemma moved_virt i : slot < n -> 0 <= i < n -> virt m h2 slot i = virt_h2 i.
Proof.
  intros Hlt Hi. unfold virt, virt_h2, h2, copy_node. case_decide; [done|].
  unfold heap_at at 1. simpl. destruct (hk_len _ _ _ Hok) as (Hl & _).
  pose proof (cur_below_max _ _ Hok).
  rewrite at_upd by lia. by rewrite decide_False by lia.
Qed.

Lemma moved_value j : value_at h2 j = value_at h1 j.
Proof. reflexivity. Qed.

Lemma moved_m : slot < n -> m <> k /\ 1 <= m < max_size h /\ dup_id h1 m = m.
Proof.
  intros Hlt. destruct (hk_slot _ _ _ Hok n ltac:(lia)) as (Hm & Hmd & _). fold m in Hm, Hmd.
  assert (m <> k) by (intros Ek; apply slots_distinct in Ek; lia).
  split_and!; [done|lia|lia|]. unfold dup_id. rewrite freed_dup, decide_False by (lia || done). done.
Qed.

Lemma moved_node i : slot < n -> 0 <= i < n -> i <> slot ->
  heap_at h i <> m /\ heap_at h i <> k /\ 1 <= heap_at h i < max_size h /\
  dup_id h1 (heap_at h i) = heap_at h i /\ at_ 0 (timer_ids h2) (heap_at h i) = i.
Proof.
  intros Hlt Hi Hne. destruct (hk_slot _ _ _ Hok i ltac:(lia)) as (H1 & H2 & H3).
  destruct (moved_m Hlt) as (Hmk & Hmr & Hmd).
  assert (heap_at h i <> k) by (intros Ek; apply slots_distinct in Ek; lia).
  assert (heap_at h i <> m) by (intros Ek; apply slots_distinct in Ek; lia).
  split_and!; try done; try lia.
  - unfold dup_id. rewrite freed_dup, decide_False by (lia || done). done.
  - change (timer_ids h2) with (upd (timer_ids h1) (dup_id h1 m) slot). rewrite Hmd.
    assert (zlen (timer_ids h1) = max_size h)
      by (unfold h1, freed; simpl; rewrite zlen_upd; apply Hok).
    rewrite at_upd, decide_False, freed_ids, decide_False by (lia || congruence). done.
Qed.

Lemma moved_holed : slot < n -> holed m n h2 slot.
Proof.
  intros Hlt. destruct (hk_len _ _ _ Hok) as (Hl1 & Hl2 & _). pose proof (cur_below_max _ _ Hok).
  destruct (moved_m Hlt) as (Hmk & Hmr & Hmd).
  constructor.
  - unfold h2, h1, freed; simpl. rewrite !zlen_upd. done.
  - change (max_size h2) with (max_size h). lia.
  - intros i Hi Hne. destruct (moved_node i Hlt Hi Hne) as (H1 & H2 & H3 & H4 & H5).
    pose proof (moved_virt i Hlt Hi) as Hv. unfold virt, virt_h2 in Hv.
    rewrite !decide_False in Hv by done. rewrite Hv. done.
  - intros i Hi. rewrite moved_virt by done. unfold virt_h2. change (max_size h2) with (max_size h).
    change (dup_id h2) with (dup_id h1). case_decide; [split; [lia|done]|].
    destruct (moved_node i Hlt Hi) as (_ & _ & H3 & H4 & _); [done|]. split; [lia|done].
Qed.

Lemma moved_at_slot : heap_at h2 slot = m.
Proof.
  unfold h2, copy_node. unfold heap_at at 1. simpl. destruct (hk_len _ _ _ Hok) as (Hl & _).
  pose proof (cur_below_max _ _ Hok). by rewrite at_upd, decide_True by lia.
Qed.

Lemma remove_slot_unfold :
  remove_slot h slot =
  if slot <? n then
    if PJ_TIME_VAL_GTE (value_at h2 m) (value_at h2 (heap_at h2 (HEAP_PARENT slot)))
    then reheap_down h2 m slot (HEAP_LEFT slot) else reheap_up h2 m slot (HEAP_PARENT slot)
  else h1.
Proof. reflexivity. Qed.

Lemma moved_sifted : slot < n -> sifted m n h2 slot (remove_slot h slot).
Proof.
  intros Hlt. pose proof (moved_holed Hlt) as Hh.
  assert (Er : remove_slot h slot =
    if PJ_TIME_VAL_GTE (value_at h2 m) (value_at h2 (heap_at h2 (HEAP_PARENT slot)))
    then reheap_down h2 m slot (HEAP_LEFT slot) else reheap_up h2 m slot (HEAP_PARENT slot)).
  { rewrite remove_slot_unfold. destruct (Z.ltb_spec slot n); [done|lia]. }
  assert (Hedge : forall i, 0 < i < cur_size h ->
    tv_le (value_at h2 (heap_at h (HEAP_PARENT i))) (value_at h2 (heap_at h i))).
  { intros i Hi. pose proof (parent_range i ltac:(lia)). rewrite !moved_value.
    destruct (hk_slot _ _ _ Hok i ltac:(lia)) as (H1 & _).
    destruct (hk_slot _ _ _ Hok (HEAP_PARENT i) ltac:(lia)) as (H2 & _).
    rewrite !freed_value by lia. by apply (hk_order _ _ _ Hok). }
  assert (Hat : forall i, 0 <= i < n -> i <> slot -> heap_at h2 i = heap_at h i).
  { intros i Hi Hne. pose proof (moved_virt i Hlt Hi) as Hv. unfold virt, virt_h2 in Hv.
    by rewrite !decide_False in Hv. }
  assert (Hoh : order_hole n h2 slot).
  { constructor.
    - intros i Hi Hi1 Hi2. pose proof (parent_range i ltac:(lia)). rewrite !Hat by lia. apply Hedge. lia.
    - intros i Hi Hi1 Hp. pose proof (parent_range i ltac:(lia)).
      pose proof (parent_range slot ltac:(lia)). rewrite !Hat by lia.
      etrans; [apply Hedge; lia|]. rewrite <- Hi1 at 1. apply Hedge. lia. }
  rewrite Er, tv_gte_spec. destruct (PJ_TIME_VAL_LTE _ _) eqn:Ele.
  - apply reheap_down_loop_spec; [done|done|done|intros _; exact Ele|].
    change (cur_size h2) with n. lia.
  - apply reheap_up_loop_spec; [done|done| |lia]. intros i Hi Hi1.
    pose proof (parent_range i ltac:(lia)). rewrite Hat by lia.
    assert (Hs : 0 < slot).
    { destruct (decide (slot = 0)) as [E|]; [|lia]. exfalso.
      assert (Ep : HEAP_PARENT slot = slot) by (rewrite E; done).
      rewrite Ep, moved_at_slot in Ele. pose proof (tv_le_refl (value_at h2 m)) as Hrefl.
      unfold tv_le in Hrefl. congruence. }
    pose proof (parent_range slot Hs). rewrite Hat in Ele by lia.
    assert (Hmp : tv_le (value_at h2 m) (value_at h2 (heap_at h (HEAP_PARENT slot))))
      by (destruct (tv_le_total (value_at h2 m) (value_at h2 (heap_at h (HEAP_PARENT slot)))) as [|Hx];
          [done|unfold tv_le in Hx; congruence]).
    etrans; [exact Hmp|]. etrans; [apply Hedge; lia|]. rewrite <- Hi1 at 1. apply Hedge. lia.
Qed.

Lemma remove_inner_ok : slot < n ->
  heap_ok (remove_slot h slot) (k :: fr) None /\
  cur_size (remove_slot h slot) = n /\ timer_dups (remove_slot h slot) = timer_dups h1 /\
  max_size (remove_slot h slot) = max_size h /\
  max_entries_per_poll (remove_slot h slot) = max_entries_per_poll h /\
  (forall j, in_heap (remove_slot h slot) j <-> in_heap h j /\ j <> k).
Proof.
  intros Hlt. pose proof (moved_sifted Hlt) as Hs. set (h' := remove_slot h slot) in *.
  destruct (sd_rest _ _ _ _ _ Hs) as (Hr1 & Hr2 & Hr3 & Hr4 & Hr5).
  destruct (moved_m Hlt) as (Hmk & Hmr & Hmd).
  assert (Hnodes : forall j, (exists i, 0 <= i < n /\ virt m h2 slot i = j) <-> in_heap h j /\ j <> k).
  { intros j. split.
    - intros (i & Hi & Hj). rewrite moved_virt in Hj by done. unfold virt_h2 in Hj. case_decide.
      + subst j. split; [by exists n; split; [lia|]|done].
      + destruct (moved_node i Hlt Hi) as (_ & H2 & _); [done|]. subst j.
        split; [exists i; split; [lia|done]|done].
    - intros [(i & Hi & Hj) Hne]. destruct (decide (i = slot)) as [->|]; [done|].
      destruct (decide (i = n)) as [->|].
      + exists slot. split; [lia|]. rewrite moved_virt by lia. unfold virt_h2. by rewrite decide_True.
      + exists i. split; [lia|]. rewrite moved_virt by lia. unfold virt_h2. by rewrite decide_False. }
  destruct freed_chain as (Hc & Hnd & _). pose proof (freed_free _ Hnodes) as Hfree.
  assert (Hcur : cur_size h' = n) by (rewrite Hr2; done).
  assert (Eh : h' <| cur_size := n |> = h') by (rewrite <- Hcur; by destruct h').
  destruct (sifted_ok m n h2 slot h' (k :: fr) (moved_holed Hlt) Hs) as [Hok' Hin]; try done.
  - unfold h2, h1, freed; simpl. rewrite zlen_upd. apply Hok.
  - apply Hok.
  - intros i Hi. rewrite moved_virt by done. unfold virt_h2. case_decide; [lia|].
    destruct (moved_node i Hlt Hi) as (_ & _ & H3 & _); [done|lia].
  - change (timer_ids h2) with (upd (timer_ids h1) (dup_id h1 m) slot). rewrite Hmd.
    assert (zlen (timer_ids h1) = max_size h)
      by (unfold h1, freed; simpl; rewrite zlen_upd; apply Hok).
    destruct (hk_slot _ _ _ Hok slot Hslot0) as (Hk & _). fold k in Hk.
    rewrite at_upd, decide_False, freed_ids, decide_False by lia. apply Hok.
  - change (timer_ids h2) with (upd (timer_ids h1) (dup_id h1 m) slot). rewrite Hmd.
    eapply chain_ext; [exact Hc|]. intros j Hj. apply Hfree in Hj as [Hj Hn].
    assert (zlen (timer_ids h1) = max_size h)
      by (unfold h1, freed; simpl; rewrite zlen_upd; apply Hok).
    rewrite at_upd, decide_False; [done| |lia|lia]. intros <-. apply Hn. apply Hnodes.
    split; [by exists n; split; [lia|]|done].
  - change (max_size h2) with (max_size h). pose proof (hk_count _ _ _ Hok) as Hcnt.
    unfold zlen in *. simpl in *. lia.
  - rewrite Eh in *. split_and!; try done. intros j. by rewrite Hin, Hnodes.
Qed.

Lemma remove_ok :
  let h' := remove_slot h slot in
  heap_ok h' (k :: fr) None /\ cur_size h' = cur_size h - 1 /\ max_size h' = max_size h /\
  max_entries_per_poll h' = max_entries_per_poll h /\
  (forall j, 0 <= j -> dup_at h' j =
     if decide (j = k) then (dup_at h k) <| dup ::= fun e => e <| timer_id := -1 |> |>
     else dup_at h j) /\
  forall j, in_heap h' j <-> in_heap h j /\ j <> k.
Proof.
  destruct (decide (slot = n)) as [E|Hne].
  - destruct (remove_last_ok E) as [Hok' Hin].
    assert (Er : remove_slot h slot = h1).
    { rewrite remove_slot_unfold. destruct (Z.ltb_spec slot n); [lia|done]. }
    cbv zeta. rewrite Er. split_and!; try done. exact freed_dup.
  - destruct (remove_inner_ok ltac:(lia)) as (Hok' & Hc & Hd & Hm & Hp & Hin).
    split_and!; try done. intros j Hj. unfold dup_at at 1. rewrite Hd. by apply freed_dup.
Qed.
End Remove.

(** The first node is due first. *)
Lemma root_min h fr res : heap_ok h fr res ->
  forall k, in_heap h k -> tv_le (value_at h (heap_at h 0)) (value_at h k).
Proof.
  intros Hok k (i & Hi & <-). remember (Z.to_nat i) as n eqn:En. revert i Hi En.
  induction n as [n IH] using lt_wf_ind. intros i Hi En.
  destruct (decide (i = 0)) as [->|Hne]; [done|].
  pose proof (parent_range i ltac:(lia)) as Hp.
  etrans; [|apply (hk_order _ _ _ Hok); lia].
  apply (IH (Z.to_nat (HEAP_PARENT i))); lia.
Qed.

Lemma in_heap_inj h fr res k1 k2 : heap_ok h fr res -> in_heap h k1 -> in_heap h k2 ->
  at_ 0 (timer_ids h) k1 = at_ 0 (timer_ids h) k2 -> k1 = k2.
Proof.
  intros Hok (i & Hi & <-) (j & Hj & <-) E.
  destruct (hk_slot _ _ _ Hok i Hi) as (_ & _ & Ei).
  destruct (hk_slot _ _ _ Hok j Hj) as (_ & _ & Ej). congruence.
Qed.

(** ** The world *)

(** Each node is the copy of an entry that knows its place, and each running
    entry has a node. *)
Record world_wf (w : world) : Prop := {
  ww_heap : heap_wf (ht w);
  ww_node : forall k, in_heap (ht w) k ->
    exists x, entries w !! entry (dup_at (ht w) k) = Some x /\ timer_id x = k /\
      user_data x = user_data (dup (dup_at (ht w) k)) /\ cb x = cb (dup (dup_at (ht w) k)) /\
      cb x <> 0;
  ww_entry : forall e x, entries w !! e = Some x ->
    timer_id x < 1 \/
    (in_heap (ht w) (timer_id x) /\ entry (dup_at (ht w) (timer_id x)) = e)
}.

(** What the heap represents: entry [e] is due at [t] and holds lock [g]. *)
Definition pending (w : world) (e : Z) (t : pj_time_val) (g : Z) : Prop :=
  exists k, in_heap (ht w) k /\ entry (dup_at (ht w) k) = e /\ value_at (ht w) k = t /\
    grp_lock (dup_at (ht w) k) = g.

Definition locked (w : world) (g : Z) : Z := default 0 (lock_refs w !! g).

Lemma pending_running w e t g : world_wf w -> pending w e t g ->
  exists x, entries w !! e = Some x /\ in_heap (ht w) (timer_id x) /\ cb x <> 0 /\
    value_at (ht w) (timer_id x) = t /\ grp_lock (dup_at (ht w) (timer_id x)) = g.
Proof.
  intros Hw (k & Hk & <- & <- & <-). destruct (ww_node w Hw k Hk) as (x & Hx & <- & _ & _ & Hc).
  exists x. by split_and!.
Qed.

(** An entry is pending at most once. *)
Lemma pending_unique w e t g t' g' : world_wf w ->
  pending w e t g -> pending w e t' g' -> t = t' /\ g = g'.
Proof.
  intros Hw H1 H2. destruct (pending_running _ _ _ _ Hw H1) as (x & Hx & _ & _ & <- & <-).
  destruct (pending_running _ _ _ _ Hw H2) as (x' & Hx' & _ & _ & <- & <-).
  by replace x' with x by congruence.
Qed.

Lemma heap_at_in h i : 0 <= i < cur_size h -> in_heap h (heap_at h i).
Proof. intros. by exists i. Qed.

Lemma in_heap_pos h k : heap_wf h -> in_heap h k -> 1 <= k < max_size h.
Proof. intros (_ & fr & Hok) (i & Hi & <-). apply (hk_slot _ _ _ Hok i Hi). Qed.

(** [remove_node] takes exactly one entry out. *)
Lemma remove_node_spec w slot :
  world_wf w -> 0 <= slot < cur_size (ht w) ->
  let k := heap_at (ht w) slot in
  let d := dup_at (ht w) k in
  let '(w', k') := remove_node w slot in
  k' = k /\ world_wf w' /\
  (forall e t g, pending w' e t g <-> pending w e t g /\ e <> entry d) /\
  cur_size (ht w') = cur_size (ht w) - 1 /\ max_size (ht w') = max_size (ht w) /\
  max_entries_per_poll (ht w') = max_entries_per_poll (ht w) /\
  lock_refs w' = lock_refs w /\
  entries w' = alter (fun x => x <| timer_id := -1 |>) (entry d) (entries w) /\
  dup_at (ht w') k = d <| dup ::= fun x => x <| timer_id := -1 |> |>.
Proof.
  intros Hw Hs k d. pose proof Hw as [(Hsz & fr & Hok) Hnode Hent].
  destruct (remove_ok (ht w) fr slot Hok Hs) as (Hok' & Hc & Hm & Hp & Hdup & Hin).
  fold k d in Hok', Hdup, Hin. unfold remove_node. cbv zeta. fold k d.
  set (w' := w <| ht ::= _ |> <| entries ::= _ |>).
  change (ht w') with (remove_slot (ht w) slot). set (h' := remove_slot (ht w) slot) in *.
  assert (Hk : in_heap (ht w) k) by (by apply heap_at_in).
  assert (Hpos : forall j, in_heap (ht w) j -> 1 <= j)
    by (intros j Hj; apply (in_heap_pos (ht w)); [split; eauto|done]).
  pose proof (Hpos k Hk) as Hk1.
  destruct (Hnode k Hk) as (x & Hx & Hxt & Hxu & Hxc & Hx0). fold d in Hx, Hxu, Hxc.
  assert (Hother : forall j, in_heap (ht w) j -> j <> k ->
    dup_at h' j = dup_at (ht w) j /\ entry (dup_at (ht w) j) <> entry d).
  { intros j Hj Hne. split.
    - rewrite Hdup by (pose proof (Hpos j Hj); lia). by rewrite decide_False.
    - intros E. destruct (Hnode j Hj) as (y & Hy & Hyt & _). rewrite E in Hy. congruence. }
  split_and!; try done.
  - constructor.
    + split; [|by exists (k :: fr)]. change (ht w') with h'. lia.
    + change (ht w') with h'. intros j [Hj Hne]%Hin. destruct (Hother j Hj Hne) as [-> Hne2].
      destruct (Hnode j Hj) as (y & Hy & Hr). exists y. split; [|done].
      unfold w'; simpl. by rewrite lookup_alter_ne.
    + intros e y Hy. unfold w' in Hy; simpl in Hy. change (ht w') with h'.
      destruct (decide (e = entry d)) as [->|Hne].
      * rewrite lookup_alter_eq, Hx in Hy. injection Hy as <-. left. simpl. lia.
      * rewrite lookup_alter_ne in Hy by done. destruct (Hent e y Hy) as [?|[Hj He]]; [by left|right].
        assert (timer_id y <> k) by (intros E; rewrite E in He; fold d in He; congruence).
        split; [by apply Hin|]. destruct (Hother (timer_id y)) as [-> _]; done.
  - intros e t g. unfold pending, value_at. change (ht w') with h'. split.
    + intros (j & [Hj Hne]%Hin & He & Ht & Hg). destruct (Hother j Hj Hne) as [Ed Hne2].
      rewrite Ed in *. split; [by exists j|]. by rewrite <- He.
    + intros [(j & Hj & He & Ht & Hg) Hne].
      assert (j <> k) by (intros ->; fold d in He; congruence).
      exists j. destruct (Hother j Hj) as [-> _]; [done|]. split; [by apply Hin|done].
  - rewrite Hdup, decide_True by (lia || done). done.
Qed.

Section Calls.
Variable pool_mem : Z -> list pj_timer_entry_dup.
Hypothesis pool_mem_enough : forall n, 0 <= n -> n <= zlen (pool_mem n).

(** Room is made before the node is stored. *)
Lemma make_room_ok h fr res : heap_ok h fr res -> cur_size h < max_size h ->
  let h' := if cur_size h + 2 >=? max_size h then grow_heap h (pool_mem (max_size h)) else h in
  exists fr', heap_ok h' fr' res /\ cur_size h' = cur_size h /\ cur_size h + 2 < max_size h' /\
    max_entries_per_poll h' = max_entries_per_poll h /\
    (forall j, in_heap h j -> in_heap h' j /\ dup_at h' j = dup_at h j) /\
    (forall j, in_heap h' j -> in_heap h j).
Proof.
  intros Hok Hc. pose proof (hk_size _ _ _ Hok).
  destruct (Z.geb_spec (cur_size h + 2) (max_size h)); cbv zeta; [|exists fr; split_and!; auto].
    destruct (grow_ok h fr res (pool_mem (max_size h)) Hok) as (fr' & Hok').
    { apply pool_mem_enough. lia. } { lia. }
    exists fr'. split_and!; try done; [simpl; lia| |].
    + assert (Hat : forall i, 0 <= i < cur_size h ->
        heap_at (grow_heap h (pool_mem (max_size h))) i = heap_at h i).
      { intros i Hi. unfold grow_heap, heap_at. simpl. destruct (hk_len _ _ _ Hok) as (Hl & _).
        rewrite at_app_l; [by apply at_take|]. unfold zlen in *. rewrite length_take. lia. }
      intros j (i & Hi & <-). split; [exists i; split; [done|by apply Hat]|].
      destruct (hk_slot _ _ _ Hok i Hi) as (Hr & _). destruct (hk_len _ _ _ Hok) as (_ & _ & Hl).
      unfold grow_heap, dup_at; simpl. by rewrite at_app_l by lia.
    + intros j (i & Hi & <-). exists i. split; [done|]. change (cur_size (grow_heap _ _)) with (cur_size h) in Hi.
      unfold grow_heap, heap_at. simpl. destruct (hk_len _ _ _ Hok) as (Hl & _).
      rewrite at_app_l; [symmetry; by apply at_take|]. unfold zlen in *. rewrite length_take. lia.
Qed.

(** Inserting entry [e], which holds the id [k] just taken. *)
Lemma insert_node_spec w e t fr k x :
  heap_ok (ht w) fr (Some k) -> cur_size (ht w) + 2 <= max_size (ht w) ->
  entries w !! e = Some x -> timer_id x = k ->
  let w' := insert_node pool_mem w e t in
  heap_wf (ht w') /\ entries w' = entries w /\ lock_refs w' = lock_refs w /\
  max_entries_per_poll (ht w') = max_entries_per_poll (ht w) /\
  0 <= k < zlen (timer_dups (ht w')) /\
  dup_at (ht w') k = Dup x e t 0 /\
  (forall j, in_heap (ht w') j <-> in_heap (ht w) j \/ j = k) /\
  (forall j, in_heap (ht w) j -> j <> k /\ dup_at (ht w') j = dup_at (ht w) j).
Proof.
  intros Hok Hsz Hx Hk w'. unfold w', insert_node. rewrite Hx. change (default no_entry (Some x)) with x.
  destruct (make_room_ok (ht w) fr (Some k) Hok ltac:(lia))
    as (fr1 & Hok1 & Hc1 & Hroom & Hp1 & Hin1 & Hin1').
  set (h1 := if _ >=? _ then _ else _) in *. cbv zeta. rewrite Hk.
  set (d := Dup x e t 0).
  destruct (insert_ok h1 fr1 k d Hok1 Hk) as (Hok2 & Hc2 & Hm2 & Hp2 & Hd2 & Hin2).
  set (h' := reheap_up _ _ _ _) in *.
  assert (E : h' <| cur_size ::= fun n => n + 1 |> = h' <| cur_size := cur_size h1 + 1 |>).
  { unfold modify; simpl. by rewrite Hc2. }
  change (cur_size (set_dup k d h1)) with (cur_size h1). fold h'.
  destruct (hk_res _ _ _ Hok1 k eq_refl) as [Hkr Hkn].
  destruct (hk_len _ _ _ Hok1) as (_ & _ & Hl1).
  set (h2 := h' <| cur_size := cur_size h1 + 1 |>) in *.
  assert (Hdup : forall j, 0 <= j -> dup_at h2 j = if decide (k = j) then d else dup_at h1 j).
  { intros j Hj. unfold dup_at at 1. rewrite Hd2. apply dup_at_set_dup; lia. }
  simpl. change (h' <| cur_size ::= _ |>) with (h' <| cur_size ::= fun n => n + 1 |>). rewrite E. fold h2.
  split_and!; try done.
  - split; [|by exists fr1]. rewrite Hm2. change (cur_size h2) with (cur_size h1 + 1). lia.
  - rewrite <- Hp1. exact Hp2.
  - lia.
  - change (timer_dups h') with (timer_dups h2). rewrite Hd2. simpl. rewrite zlen_upd. lia.
  - rewrite Hdup, decide_True by (lia || done). done.
  - intros j. rewrite Hin2. split; (intros [Hj| ->]; [left|by right]); [by apply Hin1'|by apply Hin1].
  - intros j Hj. destruct (Hin1 j Hj) as [Hj1 <-].
    assert (j <> k) by (intros ->; done). split; [done|].
    destruct Hj1 as (i & Hi & <-). destruct (hk_slot _ _ _ Hok1 i Hi) as (Hr & _).
    rewrite Hdup, decide_False by (lia || congruence). done.
Qed.

Lemma schedule_entry_spec w e t x :
  world_wf w -> entries w !! e = Some x -> timer_id x < 1 ->
  exists w' k,
    schedule_entry pool_mem w e t = Some w' /\
    let x' := x <| timer_id := k |> in
    heap_wf (ht w') /\ entries w' = <[e := x']> (entries w) /\ lock_refs w' = lock_refs w /\
    max_entries_per_poll (ht w') = max_entries_per_poll (ht w) /\
    1 <= k < zlen (timer_dups (ht w')) /\ dup_at (ht w') k = Dup x' e t 0 /\
    (forall j, in_heap (ht w') j <-> in_heap (ht w) j \/ j = k) /\
    (forall j, in_heap (ht w) j -> j <> k /\ dup_at (ht w') j = dup_at (ht w) j).
Proof.
  intros [(Hsz & fr & Hok) Hnode Hent] Hx Hid. unfold schedule_entry.
  destruct (Z.ltb_spec (cur_size (ht w)) (max_size (ht w))); [|lia].
  pose proof (pop_ok (ht w) fr Hok Hsz) as Hpop.
  destruct (pop_freelist (ht w)) as [h k] eqn:Ep.
  destruct Hpop as (Hk & Hkn & Eh & fr' & Hok').
  set (w1 := w <| ht := h |> <| entries ::= _ |>).
  assert (Hx1 : entries w1 !! e = Some (x <| timer_id := k |>))
    by (unfold w1; simpl; by rewrite lookup_alter_eq, Hx).
  assert (Hc : cur_size h = cur_size (ht w) /\ max_size h = max_size (ht w) /\
    max_entries_per_poll h = max_entries_per_poll (ht w)) by (rewrite Eh; done).
  destruct (insert_node_spec w1 e t fr' k (x <| timer_id := k |>) Hok') as
    (H1 & H2 & H3 & H4 & H5 & H6 & H7 & H8); [simpl; lia|done|done|].
  eexists _, k. split; [reflexivity|]. cbv zeta.
  assert (Hin : forall j, in_heap (ht w1) j <-> in_heap (ht w) j)
    by (intros j; change (ht w1) with h; rewrite Eh; done).
  assert (Hdup : forall j, dup_at (ht w1) j = dup_at (ht w) j)
    by (intros j; change (ht w1) with h; rewrite Eh; done).
  split_and!; try done; try lia.
  - rewrite H2. unfold w1; simpl. apply map_eq. intros j.
    destruct (decide (j = e)) as [->|].
    + by rewrite lookup_alter_eq, lookup_insert_eq, Hx.
    + by rewrite lookup_alter_ne, lookup_insert_ne.
  - change (ht w1) with h in H4. rewrite H4. apply Hc.
  - intros j. by rewrite H7, Hin.
  - intros j Hj. rewrite <- Hdup. apply H8. by apply Hin.
Qed.

(** Rewriting a copy without touching its id and its time. *)
Lemma set_dup_wf h k d :
  heap_wf h -> 0 <= k < zlen (timer_dups h) ->
  timer_id (dup d) = dup_id h k -> timer_value d = value_at h k ->
  heap_wf (set_dup k d h).
Proof.
  intros (Hs & fr & [[Hl1 [Hl2 Hl3]] Hsz Hslot Hord Hz Hch Hnd Hfree Hres Hcnt]) Hk Hd Hv.
  split; [done|]. exists fr.
  assert (Hdup : forall j, 0 <= j -> dup_at (set_dup k d h) j = if decide (k = j) then d else dup_at h j)
    by (intros; by apply dup_at_set_dup).
  constructor; try done.
  - simpl. by rewrite zlen_upd.
  - intros i Hi. destruct (Hslot i Hi) as (H1 & H2 & H3). split_and!; try done; try apply H1.
    change (heap_at (set_dup k d h)) with (heap_at h).
    unfold dup_id. rewrite Hdup by lia. case_decide as E; [|done]. by rewrite Hd, E.
  - intros i Hi. change (heap_at (set_dup k d h)) with (heap_at h).
    change (cur_size (set_dup k d h)) with (cur_size h) in Hi.
    pose proof (parent_range i ltac:(lia)). destruct (Hslot i ltac:(lia)) as (H1 & _).
    destruct (Hslot (HEAP_PARENT i) ltac:(lia)) as (H2 & _).
    assert (Hval : forall j, 0 <= j -> value_at (set_dup k d h) j = value_at h j).
    { intros j Hj. unfold value_at at 1. rewrite Hdup by done. case_decide as E; [by subst|done]. }
    rewrite !Hval by lia. apply Hord. lia.
Qed.

Lemma locked_insert w l g v : locked (w <| lock_refs ::= <[g := v]> |>) l =
  if decide (g = l) then v else locked w l.
Proof.
  unfold locked; simpl. case_decide; [subst; by rewrite lookup_insert_eq|by rewrite lookup_insert_ne].
Qed.

(** The copy and the entry as [schedule] leaves them. *)
Definition scheduled (x : pj_timer_entry) (k : Z) (set_id : bool) (id_val : Z) : pj_timer_entry :=
  let x := x <| timer_id := k |> in if set_id then x <| id := id_val |> else x.

Lemma schedule_run w now e delay set_id id_val g x :
  world_wf w -> entries w !! e = Some x -> cb x <> 0 -> timer_id x < 1 ->
  let t := PJ_TIME_VAL_ADD now delay in
  exists w' k,
    schedule_w_grp_lock pool_mem w now e delay set_id id_val g = (w', PJ_SUCCESS) /\
    world_wf w' /\ entries w' = <[e := scheduled x k set_id id_val]> (entries w) /\
    (forall e' t' g', pending w' e' t' g' <-> pending w e' t' g' \/ (e' = e /\ t' = t /\ g' = g)) /\
    max_entries_per_poll (ht w') = max_entries_per_poll (ht w) /\
    forall l, locked w' l = locked w l + b2z (bool_decide (l = g) && truth g).
Proof.
  intros Hw Hx Hcb Hid t. unfold schedule_w_grp_lock, entry_at.
  rewrite Hx. change (default no_entry (Some x)) with x.
  destruct (Z.eqb_spec (cb x) 0); [done|]. unfold pj_timer_entry_running.
  destruct (Z.geb_spec (timer_id x) 1); [lia|].
  fold t. destruct (schedule_entry_spec w e t x Hw Hx Hid)
    as (w1 & k & -> & Hh1 & He1 & Hl1 & Hp1 & Hk & Hd1 & Hin1 & Hdup1).
  assert (Ek : timer_id (default no_entry (entries w1 !! e)) = k)
    by (rewrite He1, lookup_insert_eq; done).
  rewrite Ek. set (xs := scheduled x k set_id id_val).
  set (w2 := if set_id then _ else w1). set (w3 := w2 <| ht ::= _ |>).
  assert (Hw3 : ht w3 = set_dup k (Dup xs e t g) (ht w1) \/
    exists d, ht w3 = set_dup k (Dup xs e t g) (set_dup k d (ht w1)) /\
      timer_id (dup d) = dup_id (ht w1) k /\ timer_value d = value_at (ht w1) k).
  { unfold w3, w2, xs, scheduled. destruct set_id; [right|left]; simpl.
    - eexists. rewrite !dup_at_set_dup, Hd1, decide_True by (done || lia). split; [reflexivity|].
      unfold dup_id, value_at. by rewrite Hd1.
    - by rewrite Hd1. }
  assert (He3 : entries w3 = <[e := xs]> (entries w)).
  { unfold w3, w2, xs, scheduled. destruct set_id; simpl; rewrite He1; [|done].
    apply map_eq. intros j. destruct (decide (j = e)) as [->|].
    - by rewrite lookup_alter_eq, !lookup_insert_eq.
    - by rewrite lookup_alter_ne, !lookup_insert_ne. }
  assert (Hr3 : lock_refs w3 = lock_refs w) by (unfold w3, w2; destruct set_id; simpl; done).
  assert (Hdk : timer_id xs = k /\ cb xs = cb x /\ user_data xs = user_data x)
    by (unfold xs, scheduled; by destruct set_id).
  destruct Hdk as (Hkid & Hcbx & Hud).
  assert (Hh3 : heap_wf (ht w3) /\
    (forall j, in_heap (ht w3) j <-> in_heap (ht w) j \/ j = k) /\
    dup_at (ht w3) k = Dup xs e t g /\
    (forall j, in_heap (ht w) j -> j <> k /\ dup_at (ht w3) j = dup_at (ht w) j) /\
    max_entries_per_poll (ht w3) = max_entries_per_poll (ht w)).
  { assert (Hpos : forall j, in_heap (ht w) j -> 0 <= j)
      by (intros j Hj; apply (in_heap_pos _ _ (ww_heap w Hw)) in Hj; lia).
    destruct Hw3 as [->|(d & -> & Hd2 & Hd3)].
    - split; [|split; [|split; [|split]]]; try done.
      + apply set_dup_wf; [done|lia|unfold dup_id; rewrite Hd1; done|unfold value_at; rewrite Hd1; done].
      + rewrite dup_at_set_dup, decide_True by (done || lia). done.
      + intros j Hj. destruct (Hdup1 j Hj) as [Hne Hdj]. split; [done|].
        rewrite dup_at_set_dup, decide_False; [done|congruence|lia|by apply Hpos].
    - assert (Hz : zlen (timer_dups (set_dup k d (ht w1))) = zlen (timer_dups (ht w1)))
        by (simpl; apply zlen_upd).
      split; [|split; [|split; [|split]]]; try done.
      + apply set_dup_wf; [apply set_dup_wf; done || lia|lia| |];
          unfold dup_id, value_at; rewrite dup_at_set_dup, decide_True by (done || lia).
        * rewrite Hd2. unfold dup_id. by rewrite Hd1.
        * rewrite Hd3. unfold value_at. by rewrite Hd1.
      + rewrite dup_at_set_dup, decide_True by (done || lia). done.
      + intros j Hj. destruct (Hdup1 j Hj) as [Hne Hdj]. split; [done|].
        rewrite !dup_at_set_dup, !decide_False; try congruence; try lia; by apply Hpos. }
  destruct Hh3 as (Hwf3 & Hin3 & Hdk3 & Hdup3 & Hp3).
  set (w4 := if truth g then _ else w3).
  assert (H4 : ht w4 = ht w3 /\ entries w4 = entries w3) by (unfold w4; by destruct (truth g)).
  destruct H4 as [Eh4 Ee4]. exists w4, k. split; [done|].
  split; [|split_and!].
  - constructor.
    + by rewrite Eh4.
    + rewrite Eh4, Ee4, He3. intros j [Hj| ->]%Hin3.
      * destruct (Hdup3 j Hj) as [Hne ->]. destruct (ww_node w Hw j Hj) as (y & Hy & Hyt & Hr).
        exists y. split; [|done]. rewrite lookup_insert_ne; [done|].
        intros E. rewrite <- E in Hy. assert (y = x) as -> by congruence.
        pose proof (in_heap_pos _ _ (ww_heap w Hw) Hj). lia.
      * rewrite Hdk3. exists xs. simpl. rewrite lookup_insert_eq. split_and!; done || congruence.
    + rewrite Eh4, Ee4, He3. intros e' y Hy. destruct (decide (e' = e)) as [->|Hne].
      * rewrite lookup_insert_eq in Hy. injection Hy as <-. right. rewrite Hkid, Hdk3.
        split; [apply Hin3; by right|done].
      * rewrite lookup_insert_ne in Hy by done. destruct (ww_entry w Hw e' y Hy) as [?|[H1 H2]]; [by left|right].
        split; [apply Hin3; by left|]. by destruct (Hdup3 _ H1) as [_ ->].
  - by rewrite Ee4.
  - intros e' t' g'. unfold pending, value_at. rewrite Eh4. split.
    + intros (j & [Hj| ->]%Hin3 & H1 & H2 & H3).
      * destruct (Hdup3 j Hj) as [_ Ed]. rewrite Ed in *. left. by exists j.
      * rewrite Hdk3 in *. simpl in *. by right.
    + intros [(j & Hj & H1 & H2 & H3)|(-> & -> & ->)].
      * exists j. destruct (Hdup3 j Hj) as [_ ->]. split; [apply Hin3; by left|done].
      * exists k. rewrite Hdk3. split; [apply Hin3; by right|done].
  - by rewrite Eh4.
  - intros l. unfold w4. destruct (truth g) eqn:Eg.
    + unfold pj_grp_lock_add_ref. rewrite locked_insert. unfold locked. rewrite Hr3.
      destruct (decide (g = l)) as [->|]; [rewrite bool_decide_eq_true_2 by done|
        rewrite bool_decide_eq_false_2 by congruence]; simpl; lia.
    + rewrite andb_false_r. simpl. unfold locked. rewrite Hr3. lia.
Qed.
End Calls.

Section Cancel.
Variables (stray_dup : pj_timer_entry_dup) (stray_id : Z) (close_hook : world -> Z -> world).

Lemma reset_id_wf w e x : world_wf w -> entries w !! e = Some x -> timer_id x < 1 ->
  world_wf (reset_id w e) /\ forall e' t g, pending (reset_id w e) e' t g <-> pending w e' t g.
Proof.
  intros [Hh Hn He] Hx Hid. split; [|done]. constructor; [done| |].
  - intros k Hk. destruct (Hn k Hk) as (y & Hy & Hyt & Hr). exists y. split; [|done].
    unfold reset_id; simpl. rewrite lookup_alter_ne; [done|].
    intros E. change (ht (reset_id w e)) with (ht w) in *. rewrite <- E in Hy.
    assert (y = x) as -> by congruence. pose proof (in_heap_pos _ _ Hh Hk). lia.
  - intros e' y Hy. unfold reset_id in Hy; simpl in Hy. destruct (decide (e' = e)) as [->|].
    + rewrite lookup_alter_eq, Hx in Hy. injection Hy as <-. left. simpl. lia.
    + rewrite lookup_alter_ne in Hy by done. exact (He e' y Hy).
Qed.

(** The entry is not running: nothing but its id changes, whatever is read
    outside the arrays. *)
Lemma cancel_idle w e flags id_val x :
  world_wf w -> entries w !! e = Some x -> timer_id x < 1 ->
  cancel_timer stray_dup stray_id close_hook w e flags id_val = (reset_id w e, 0).
Proof.
  intros Hw Hx Hid. unfold cancel_timer, cancel, entry_at. rewrite Hx.
  change (default no_entry (Some x)) with x. pose proof (ww_heap w Hw) as (Hs & fr & Hok).
  destruct (Z.ltb_spec (timer_id x) 0); simpl; [done|].
  destruct (Z.gtb_spec (timer_id x) (max_size (ht w))); simpl; [done|].
  assert (timer_id x = 0) as -> by lia.
  assert (E : at_ stray_id (timer_ids (ht w)) 0 = -1).
  { pose proof (hk_zero _ _ _ Hok) as Hz. pose proof (hk_len _ _ _ Hok) as (_ & Hl & _).
    pose proof (hk_size _ _ _ Hok). unfold at_, zlen in *.
    destruct (timer_ids (ht w)); [simpl in Hl; lia|done]. }
  by rewrite E.
Qed.

(** The entry is running: its node is removed and its lock released. *)
Lemma cancel_running w e flags id_val x :
  world_wf w -> entries w !! e = Some x -> 1 <= timer_id x ->
  let w1 := (remove_node w (at_ 0 (timer_ids (ht w)) (timer_id x))).1 in
  let g := grp_lock (dup_at (ht w) (timer_id x)) in
  let w2 := if truth (Z.land flags F_SET_ID)
            then w1 <| entries ::= alter (fun x => x <| id := id_val |>) e |> else w1 in
  cancel_timer stray_dup stray_id close_hook w e flags id_val =
    (if truth g then pj_grp_lock_dec_ref w2 g else w2, 1) /\
  0 <= at_ 0 (timer_ids (ht w)) (timer_id x) < cur_size (ht w) /\
  heap_at (ht w) (at_ 0 (timer_ids (ht w)) (timer_id x)) = timer_id x /\
  entry (dup_at (ht w) (timer_id x)) = e.
Proof.
  intros Hw Hx Hid w1 g w2. pose proof (ww_heap w Hw) as (Hs & fr & Hok).
  destruct (ww_entry w Hw e x Hx) as [?|[Hin He]]; [lia|].
  destruct Hin as (i & Hi & Hat). destruct (hk_slot _ _ _ Hok i Hi) as (Hr & _ & Hidx).
  rewrite Hat in Hr, Hidx. pose proof (hk_len _ _ _ Hok) as (_ & Hl2 & Hl3).
  assert (Eid : at_ stray_id (timer_ids (ht w)) (timer_id x) = i).
  { rewrite <- Hidx. unfold at_, zlen in *.
    destruct (lookup_lt_is_Some_2 (timer_ids (ht w)) (Z.to_nat (timer_id x))) as [v ->]; [lia|done]. }
  assert (Ed : at_ stray_dup (timer_dups (ht w)) (timer_id x) = dup_at (ht w) (timer_id x)).
  { unfold dup_at, at_, zlen in *.
    destruct (lookup_lt_is_Some_2 (timer_dups (ht w)) (Z.to_nat (timer_id x))) as [v ->]; [lia|done]. }
  split; [|by rewrite Hidx]. unfold cancel_timer, cancel, entry_at. rewrite Hx.
  change (default no_entry (Some x)) with x.
  destruct (Z.ltb_spec (timer_id x) 0); [lia|].
  destruct (Z.gtb_spec (timer_id x) (max_size (ht w))); [lia|]. cbn [orb].
  rewrite Eid, Ed. destruct (Z.ltb_spec i 0); [lia|]. rewrite Hat, He, Z.eqb_refl. cbn [negb].
  replace (truth (Z.land (Z.lor flags F_DONT_CALL) F_DONT_CALL)) with true.
  - unfold w2, w1, g. rewrite Hidx. done.
  - unfold truth. symmetry. apply negb_true_iff, Z.eqb_neq. intros E.
    apply (f_equal (fun v => Z.testbit v 0)) in E.
    rewrite Z.land_spec, Z.lor_spec, Z.bits_0 in E. change (Z.testbit F_DONT_CALL 0) with true in E.
    by rewrite orb_true_r in E.
Qed.

(** Changing the [id] of an entry that is not running. *)
Lemma set_id_wf w e v x : world_wf w -> entries w !! e = Some x -> timer_id x < 1 ->
  let w' := w <| entries ::= alter (fun x => x <| id := v |>) e |> in
  world_wf w'.
Proof.
  intros [Hh Hn He] Hx Hid w'. constructor; [done| |].
  - intros k Hk. destruct (Hn k Hk) as (y & Hy & Hyt & Hr). exists y. split; [|done].
    unfold w'; simpl. rewrite lookup_alter_ne; [done|].
    intros E. change (ht w') with (ht w) in *. rewrite <- E in Hy.
    assert (y = x) as -> by congruence. pose proof (in_heap_pos _ _ Hh Hk). lia.
  - intros e' y Hy. unfold w' in Hy; simpl in Hy. destruct (decide (e' = e)) as [->|].
    + rewrite lookup_alter_eq, Hx in Hy. injection Hy as <-. left. simpl. lia.
    + rewrite lookup_alter_ne in Hy by done. exact (He e' y Hy).
Qed.

Lemma refs_wf w f : world_wf w -> world_wf (w <| lock_refs ::= f |>).
Proof. by intros []; constructor. Qed.

Lemma cancel_run w e flags id_val x :
  world_wf w -> entries w !! e = Some x ->
  let '(w', count) := cancel_timer stray_dup stray_id close_hook w e flags id_val in
  world_wf w' /\
  max_entries_per_poll (ht w') = max_entries_per_poll (ht w) /\
  (forall e' t g, pending w' e' t g <-> pending w e' t g /\ e' <> e) /\
  if timer_id x >=? 1 then
    count = 1 /\ exists t g, pending w e t g /\
      forall l, locked w' l = locked w l - b2z (bool_decide (l = g) && truth g)
  else count = 0 /\ lock_refs w' = lock_refs w.
Proof.
  intros Hw Hx. destruct (Z.geb_spec (timer_id x) 1) as [Hge|Hlt].
  - destruct (cancel_running w e flags id_val x Hw Hx ltac:(lia)) as (-> & Hi & Hat & He).
    set (i := at_ 0 (timer_ids (ht w)) (timer_id x)) in *.
    pose proof (remove_node_spec w i Hw Hi) as Hr. cbv zeta in Hr. rewrite Hat, He in Hr.
    destruct (remove_node w i) as [w1 k]. cbn [fst].
    destruct Hr as (_ & Hw1 & Hp1 & _ & _ & Hm1 & Hl1 & Hent & _).
    set (g := grp_lock _). set (w2 := if truth (Z.land _ _) then _ else w1).
    assert (H2 : world_wf w2 /\ ht w2 = ht w1 /\ lock_refs w2 = lock_refs w1).
    { unfold w2. destruct (truth _); [|done]. split_and!; [|done|done].
      apply (set_id_wf w1 e id_val (x <| timer_id := -1 |>)); [done| |simpl; lia].
      by rewrite Hent, lookup_alter_eq, Hx. }
    destruct H2 as (Hw2 & Eh2 & El2).
    assert (Hpg : pending w e (value_at (ht w) (timer_id x)) g)
      by (exists (timer_id x); split_and!; try done; rewrite <- Hat; by apply heap_at_in).
    assert (Hfin : forall w', world_wf w' -> ht w' = ht w1 ->
      (forall l, locked w' l = locked w l - b2z (bool_decide (l = g) && truth g)) ->
      world_wf w' /\ max_entries_per_poll (ht w') = max_entries_per_poll (ht w) /\
      (forall e' t g, pending w' e' t g <-> pending w e' t g /\ e' <> e) /\
      1 = 1 /\ exists t g, pending w e t g /\
        forall l, locked w' l = locked w l - b2z (bool_decide (l = g) && truth g)).
    { intros w' Hw' Eh Hlk. split_and!; [done|congruence| |done|eauto].
      intros e' t g'. unfold pending. rewrite Eh. apply Hp1. }
    destruct (truth g) eqn:Eg; apply Hfin.
    + by apply refs_wf.
    + exact Eh2.
    + intros l. unfold pj_grp_lock_dec_ref. rewrite locked_insert. unfold locked.
      rewrite El2, Hl1. destruct (decide (g = l)) as [<-|].
      * rewrite bool_decide_eq_true_2 by done. simpl. lia.
      * rewrite bool_decide_eq_false_2 by congruence. simpl. lia.
    + done.
    + exact Eh2.
    + intros l. rewrite andb_false_r. unfold locked. rewrite El2, Hl1. simpl. lia.
  - rewrite (cancel_idle w e flags id_val x Hw Hx Hlt).
    destruct (reset_id_wf w e x Hw Hx Hlt) as [Hw' Hp]. split_and!; try done.
    intros e' t g. rewrite Hp. split; [|by intros [? _]]. intros H. split; [done|].
    intros ->. destruct (pending_running _ _ _ _ Hw H) as (y & Hy & Hin & _).
    assert (y = x) as -> by congruence. pose proof (in_heap_pos _ _ (ww_heap w Hw) Hin). lia.
Qed.
End Cancel.

(** ** Polling *)

Lemma root_in h : 0 < cur_size h -> in_heap h (heap_at h 0).
Proof. intros. apply heap_at_in. lia. Qed.

Lemma no_pending w : world_wf w -> cur_size (ht w) = 0 -> forall e t g, ~ pending w e t g.
Proof. intros Hw E e t g (k & (i & Hi & _) & _). lia. Qed.

Lemma cur_nonneg w : world_wf w -> 0 <= cur_size (ht w).
Proof. intros Hw. destruct (ww_heap w Hw) as (_ & fr & Hok). apply (hk_size _ _ _ Hok). Qed.

(** The world after the first entry has left the heap, before its callback. *)
Definition unlinked (w : world) : world :=
  let '(w, node) := remove_node w 0 in
  w <| ht ::= set_dup node ((dup_at (ht w) node) <| grp_lock := 0 |>) |>.

(** Rewriting a copy that is not in the heap. *)
Lemma set_free_dup_wf w k d :
  world_wf w -> ~ in_heap (ht w) k -> 0 <= k < max_size (ht w) ->
  timer_id (dup d) = dup_id (ht w) k -> timer_value d = value_at (ht w) k ->
  let w' := w <| ht ::= set_dup k d |> in
  world_wf w' /\ forall e t g, pending w' e t g <-> pending w e t g.
Proof.
  intros Hw Hk Hkr Hd Hv w'. pose proof Hw as [Hh Hn He].
  assert (Hz : zlen (timer_dups (ht w)) = max_size (ht w))
    by (destruct Hh as (_ & fr & Hok); apply (hk_len _ _ _ Hok)).
  assert (Hdup : forall j, in_heap (ht w) j -> dup_at (set_dup k d (ht w)) j = dup_at (ht w) j).
  { intros j Hj. pose proof (in_heap_pos _ _ Hh Hj).
    rewrite dup_at_set_dup, decide_False; [done| |lia|lia]. by intros ->. }
  split.
  - constructor.
    + apply set_dup_wf; auto; lia.
    + change (ht w') with (set_dup k d (ht w)). intros j Hj. rewrite Hdup by exact Hj. by apply Hn.
    + intros e x Hx. change (ht w') with (set_dup k d (ht w)).
      destruct (He e x Hx) as [?|[Hj Ee]]; [by left|right]. rewrite Hdup by exact Hj. done.
  - intros e t g. unfold pending, value_at. change (ht w') with (set_dup k d (ht w)).
    split; intros (j & Hj & H); exists j; split; try exact Hj;
      [rewrite Hdup in H by exact Hj|rewrite Hdup by exact Hj]; exact H.
Qed.

Lemma poll_round_run w :
  world_wf w -> 0 < cur_size (ht w) ->
  exists e t g x,
    pending w e t g /\ entries w !! e = Some x /\
    t = value_at (ht w) (heap_at (ht w) 0) /\
    (forall e' t' g', pending w e' t' g' -> tv_le t t') /\
    world_wf (unlinked w) /\ lock_refs (unlinked w) = lock_refs w /\
    max_entries_per_poll (ht (unlinked w)) = max_entries_per_poll (ht w) /\
    (forall e' t' g', pending (unlinked w) e' t' g' <-> pending w e' t' g' /\ e' <> e) /\
    forall call, poll_round call w =
      let w1 := call (cb x) (unlinked w) e in
      if truth g then pj_grp_lock_dec_ref w1 g else w1.
Proof.
  intros Hw Hc. set (k := heap_at (ht w) 0). pose proof (root_in (ht w) Hc) as Hk. fold k in Hk.
  destruct (ww_node w Hw k Hk) as (x & Hx & Hxt & Hxu & Hxc & Hx0).
  set (d := dup_at (ht w) k) in *.
  pose proof (remove_node_spec w 0 Hw ltac:(lia)) as Hr. cbv zeta in Hr. fold k d in Hr.
  pose proof (in_heap_pos _ _ (ww_heap w Hw) Hk) as Hkr.
  destruct (ww_heap w Hw) as (Hs & fr & Hok).
  unfold unlinked, poll_round. destruct (remove_node w 0) as [w1 k1].
  destruct Hr as (-> & Hw1 & Hp1 & Hc1 & Hms & Hm1 & Hl1 & He1 & Hd1). rewrite Hd1.
  set (d1 := d <| dup ::= fun x => x <| timer_id := -1 |> |>).
  assert (Hx1 : entries w1 !! entry d = Some (x <| timer_id := -1 |>))
    by (by rewrite He1, lookup_alter_eq, Hx).
  assert (Hni : ~ in_heap (ht w1) k).
  { intros Hi. destruct (ww_node w1 Hw1 k Hi) as (y & Hy & Hyt & _). rewrite Hd1 in Hy. simpl in Hy.
    rewrite Hx1 in Hy. injection Hy as <-. simpl in Hyt. lia. }
  destruct (set_free_dup_wf w1 k (d1 <| grp_lock := 0 |>) Hw1 Hni) as [Hw2 Hp2];
    [lia|unfold dup_id; by rewrite Hd1|unfold value_at; by rewrite Hd1|].
  exists (entry d), (value_at (ht w) k), (grp_lock d), x. split_and!; try done.
  - by exists k.
  - intros e' t' g' (j & Hj & _ & <- & _). by apply (root_min _ _ _ Hok).
  - intros e' t' g'. by rewrite Hp2, Hp1.
  - intros call. unfold entry_at. simpl. rewrite Hx1. simpl.
    rewrite Hxc, Hxu, !Z.eqb_refl. simpl. rewrite <- Hxc.
    replace (truth (cb x)) with true
      by (unfold truth; destruct (Z.eqb_spec (cb x) 0); done). done.
Qed.

Section Poll.
Variable call : Z -> world -> Z -> world.

(** What the loop knows of the first entry. *)
Definition min_known (w : world) (m : pj_time_val) : Prop :=
  0 < cur_size (ht w) -> m = value_at (ht w) (heap_at (ht w) 0).

Lemma next_min_known w (m : pj_time_val) :
  world_wf w ->
  min_known w (if truth (cur_size (ht w)) then value_at (ht w) (heap_at (ht w) 0) else m).
Proof.
  intros Hw Hc. unfold truth. destruct (Z.eqb_spec (cur_size (ht w)) 0); [lia|done].
Qed.

(** When the loop stops nothing due is left, or the batch is full. *)
Lemma loop_exit w now m count :
  world_wf w -> min_known w m ->
  truth (cur_size (ht w)) && PJ_TIME_VAL_LTE m now && (count <? max_entries_per_poll (ht w)) = false ->
  max_entries_per_poll (ht w) <= count \/
  forall e t g, pending w e t g -> PJ_TIME_VAL_GT t now = true.
Proof.
  intros Hw Hm E. destruct (Z.ltb_spec count (max_entries_per_poll (ht w))); [right|by left].
  rewrite andb_true_r in E. intros e t g Hp. pose proof Hp as (k & Hk & _ & Ht & _).
  assert (Hc : 0 < cur_size (ht w)) by (destruct Hk as (i & Hi & _); lia).
  unfold truth in E. destruct (Z.eqb_spec (cur_size (ht w)) 0); [lia|]. simpl in E.
  rewrite (Hm Hc) in E. destruct (ww_heap w Hw) as (_ & fr & Hok).
  pose proof (root_min _ _ _ Hok k Hk) as Hmin. rewrite Ht in Hmin. tv_unfold. lia.
Qed.

Hypothesis call_ok : forall c w e, world_wf w ->
  world_wf (call c w e) /\ max_entries_per_poll (ht (call c w e)) = max_entries_per_poll (ht w).

Lemma poll_loop_run fuel w now m count :
  world_wf w -> min_known w m -> 0 <= count -> max_entries_per_poll (ht w) - count < Z.of_nat fuel ->
  let '(w', n) := poll_loop call fuel w now m count in
  world_wf w' /\ max_entries_per_poll (ht w') = max_entries_per_poll (ht w) /\
  count <= n <= Z.max count (max_entries_per_poll (ht w)) /\
  (max_entries_per_poll (ht w) <= n \/
   forall e t g, pending w' e t g -> PJ_TIME_VAL_GT t now = true).
Proof.
  revert w m count. induction fuel as [|fuel IH]; intros w m count Hw Hm Hn Hf.
  { simpl. split_and!; auto; try lia. }
  cbn [poll_loop]. destruct (truth (cur_size (ht w)) && _ && _) eqn:E.
  - apply andb_true_iff in E as [E Hlt]. apply Z.ltb_lt in Hlt. apply andb_true_iff in E as [Hc _].
    pose proof (cur_nonneg w Hw). unfold truth in Hc.
    destruct (Z.eqb_spec (cur_size (ht w)) 0) as [|Hne]; [done|].
    destruct (poll_round_run w Hw ltac:(lia)) as (e & t & g & x & _ & _ & _ & _ & Hw1 & _ & Hm1 & _ & Ec).
    assert (Hr : world_wf (poll_round call w) /\
      max_entries_per_poll (ht (poll_round call w)) = max_entries_per_poll (ht w)).
    { rewrite Ec. cbv zeta. destruct (call_ok (cb x) _ e Hw1) as [Hw2 Hm2].
      destruct (truth g); (split; [|by rewrite <- Hm1]); [by apply refs_wf|done]. }
    destruct Hr as [Hwr Hmr].
    specialize (IH (poll_round call w) _ (count + 1) Hwr (next_min_known _ m Hwr) ltac:(lia) ltac:(lia)).
    destruct (poll_loop call fuel _ _ _ _) as [w' n]. rewrite Hmr in IH. destruct IH as (?&?&?&?).
    split_and!; auto; lia.
  - destruct (loop_exit w now m count Hw Hm E); split_and!; auto; lia.
Qed.
End Poll.

(** ** The promises of the timer heap *)

(** With callbacks that keep the heap well-formed -- they may schedule and
    cancel entries themselves -- [poll] ends, fires at most
    [max_entries_per_poll] entries, stops earlier only when nothing is due any
    more, and answers the time to the first entry left, 0 if it is overdue. *)
Lemma timer_poll_spec call w now :
  (forall c w e, world_wf w -> world_wf (call c w e) /\
     max_entries_per_poll (ht (call c w e)) = max_entries_per_poll (ht w)) ->
  world_wf w -> 0 <= max_entries_per_poll (ht w) ->
  let '(w', count, next_delay) := pj_timer_heap_poll call w now in
  world_wf w' /\ 0 <= count <= max_entries_per_poll (ht w) /\
  (count = max_entries_per_poll (ht w) \/
   forall e t g, pending w' e t g -> PJ_TIME_VAL_GT t now = true) /\
  (if cur_size (ht w') =? 0 then next_delay = TV PJ_MAXINT32 PJ_MAXINT32
   else exists e t g, pending w' e t g /\
     (forall e' t' g', pending w' e' t' g' -> tv_le t t') /\
     PJ_TIME_VAL_MSEC next_delay = Z.max 0 (PJ_TIME_VAL_MSEC t - PJ_TIME_VAL_MSEC now)).
Proof.
  intros Hcall Hw Hmax. unfold pj_timer_heap_poll, truth.
  destruct (Z.eqb_spec (cur_size (ht w)) 0) as [E|Hne]; cbn [negb].
  { rewrite E. split_and!; try done. right. intros e t g Hp. by apply no_pending in Hp. }
  pose proof (poll_loop_run call Hcall (S (Z.to_nat (max_entries_per_poll (ht w)))) w now
    (value_at (ht w) (heap_at (ht w) 0)) 0 Hw ltac:(done) ltac:(lia) ltac:(lia)) as Hl.
  destruct (poll_loop _ _ _ _ _ _) as [w' n]. destruct Hl as (Hw' & Hm & Hn & Hdue).
  split_and!; try done; try lia.
  { destruct Hdue; [left; lia|by right]. }
  unfold poll_delay, truth. destruct (Z.eqb_spec (cur_size (ht w')) 0) as [|Hc]; simpl; [done|].
  pose proof (cur_nonneg w' Hw'). destruct (poll_round_run w' Hw' ltac:(lia))
    as (e & t & g & x & Hp & _ & -> & Hmin & _). exists e, (value_at (ht w') (heap_at (ht w') 0)), g.
  split_and!; [done|done|]. set (t := value_at _ _).
  destruct (normalize_total (TV (sec t - sec now) (msec t - msec now))) as [Ht Hnorm].
  fold (PJ_TIME_VAL_SUB t now) in Ht, Hnorm. unfold normalized, PJ_TIME_VAL_MSEC in *. simpl in Ht.
  destruct (Z.ltb_spec (sec (PJ_TIME_VAL_SUB t now)) 0), (Z.ltb_spec (msec (PJ_TIME_VAL_SUB t now)) 0);
    simpl; lia.
Qed.

(** An application of three entries with callback 1. *)
Definition demo_pool (n : Z) : list pj_timer_entry_dup := replicate (Z.to_nat n) no_dup.
Definition demo_world : world :=
  World (pj_timer_heap_create 0 (demo_pool 2))
    {[ 1 := Entry 11 0 1 (-1); 2 := Entry 12 0 1 (-1); 3 := Entry 13 0 1 0 ]} ∅.
Definition passive : Z -> world -> Z -> world := fun _ w _ => w.

Lemma demo_pool_enough n : 0 <= n -> n <= zlen (demo_pool n).
Proof. intros. unfold demo_pool. rewrite zlen_replicate; lia. Qed.

Lemma create_ok size mem : 0 <= size -> size + 2 <= zlen mem ->
  heap_wf (pj_timer_heap_create size mem).
Proof.
  intros Hs Hm. split; [simpl; lia|]. exists (seqZ 1 (size + 1)).
  assert (Hin : forall k, ~ in_heap (pj_timer_heap_create size mem) k)
    by (intros k (i & Hi & _); simpl in Hi; lia).
  constructor; simpl; try lia.
  - rewrite zlen_replicate, zlen_map, zlen_seqZ by lia. unfold zlen in *. rewrite length_take. lia.
  - rewrite at_map_seqZ by lia. done.
  - pose proof (chain_count (map (fun i => - (i + 1)) (seqZ 0 (size + 2))) 1 (Z.to_nat (size + 1))) as Hc.
    rewrite Z2Nat.id in Hc by lia. replace (1 + (size + 1)) with (size + 2) in Hc by lia.
    apply Hc. intros i Hi. rewrite at_map_seqZ by lia. lia.
  - apply NoDup_seqZ.
  - intros k. rewrite elem_of_seqZ. split; [|lia]. intros. split_and!; [lia|lia|apply Hin|done].
  - done.
  - rewrite zlen_seqZ by lia. lia.
Qed.

(** A new heap over entries that are not running. *)
Lemma timer_create_wf size mem es refs : 0 <= size -> size + 2 <= zlen mem ->
  map_Forall (fun _ x => timer_id x < 1) es ->
  world_wf (World (pj_timer_heap_create size mem) es refs).
Proof.
  intros Hs Hm He. constructor; simpl.
  - by apply create_ok.
  - intros k (i & Hi & _). simpl in Hi. lia.
  - intros e x Hx. left. exact (He e x Hx).
Qed.

Lemma demo_wf : world_wf demo_world.
Proof.
  apply timer_create_wf; [lia|vm_compute; congruence|].
  rewrite !map_Forall_insert by (vm_compute; done). rewrite map_Forall_singleton. simpl. lia.
Qed.

Lemma timer_poll_spec_witness :
  world_wf demo_world /\
  world_wf (pj_timer_heap_poll passive demo_world (TV 5 0)).1.1.
Proof.
  split; [exact demo_wf|].
  pose proof (timer_poll_spec passive demo_world (TV 5 0)) as H.
  destruct (pj_timer_heap_poll passive demo_world (TV 5 0)) as [[w' n] d].
  apply H; [by intros|exact demo_wf|vm_compute; congruence].
Defined.

(** The entries fired, oldest first, with their times and locks. *)
Definition in_order (fired : list (Z * pj_time_val * Z)) : Prop :=
  StronglySorted (fun a b => tv_le a.1.2 b.1.2) fired.

Definition released (fired : list (Z * pj_time_val * Z)) (l : Z) : Z :=
  foldr (fun f n => b2z (bool_decide (l = f.2) && truth f.2) + n) 0 fired.

(** [w1] is [w] with entry [e] idle and out of the heap, and nothing else changed. *)
Record taken_out (w : world) (e : Z) (w1 : world) : Prop := {
  to_wf : world_wf w1;
  to_pending : forall e' t' g', pending w1 e' t' g' <-> pending w e' t' g' /\ e' <> e;
  to_entries : entries w1 = alter (fun x => x <| timer_id := -1 |>) e (entries w);
  to_locks : lock_refs w1 = lock_refs w;
  to_batch : max_entries_per_poll (ht w1) = max_entries_per_poll (ht w)
}.

Definition release (g : Z) (w : world) : world := if truth g then pj_grp_lock_dec_ref w g else w.

Section Fires.
Variable call : Z -> world -> Z -> world.
Variable now : pj_time_val.

(** What a poll does: again and again an entry that is due, and that no other entry
    comes before, is taken out, its callback is run on what the earlier callbacks
    have left, and its lock is released. *)
Inductive fires : world -> list (Z * pj_time_val * Z) -> world -> Prop :=
  | fires_none w : fires w [] w
  | fires_one w e t g x w1 fired w' :
      pending w e t g -> (forall e' t' g', pending w e' t' g' -> tv_le t t') ->
      PJ_TIME_VAL_LTE t now = true -> entries w !! e = Some x -> taken_out w e w1 ->
      fires (release g (call (cb x) w1 e)) fired w' ->
      fires w ((e, t, g) :: fired) w'.

Lemma unlinked_taken_out w : world_wf w -> 0 < cur_size (ht w) ->
  entries (unlinked w) = alter (fun x => x <| timer_id := -1 |>) (entry (dup_at (ht w) (heap_at (ht w) 0))) (entries w).
Proof.
  intros Hw Hc. pose proof (remove_node_spec w 0 Hw ltac:(lia)) as Hr. cbv zeta in Hr. unfold unlinked.
  destruct (remove_node w 0) as [w1 k1]. destruct Hr as (-> & _ & _ & _ & _ & _ & _ & He & _). exact He.
Qed.

Lemma poll_round_taken w : world_wf w -> 0 < cur_size (ht w) ->
  exists e g x w1,
    pending w e (value_at (ht w) (heap_at (ht w) 0)) g /\ entries w !! e = Some x /\
    (forall e' t' g', pending w e' t' g' -> tv_le (value_at (ht w) (heap_at (ht w) 0)) t') /\
    taken_out w e w1 /\ poll_round call w = release g (call (cb x) w1 e).
Proof.
  intros Hw Hc. destruct (poll_round_run w Hw Hc)
    as (e & t & g & x & Hp & Hx & -> & Hmin & Hw1 & Hl1 & Hm1 & Hp1 & Er).
  exists e, g, x, (unlinked w). split_and!; try done. constructor; try done.
  rewrite (unlinked_taken_out w Hw Hc). f_equal.
  set (k := heap_at (ht w) 0) in *. pose proof (root_in (ht w) Hc) as Hk. fold k in Hk.
  destruct (decide (entry (dup_at (ht w) k) = e)) as [E|Hne]; [exact E|exfalso].
  assert (pending (unlinked w) (entry (dup_at (ht w) k)) (value_at (ht w) k) (grp_lock (dup_at (ht w) k))) as Hq
    by (apply Hp1; split; [by exists k|done]).
  destruct (pending_running _ _ _ _ Hw1 Hq) as (y & Hy & Hyk & _).
  rewrite (unlinked_taken_out w Hw Hc) in Hy. fold k in Hy. rewrite lookup_alter_eq in Hy.
  destruct (entries w !! entry (dup_at (ht w) k)) as [z|]; [|done]. injection Hy as <-. simpl in Hyk.
  pose proof (in_heap_pos _ _ (ww_heap _ Hw1) Hyk). lia.
Qed.

Hypothesis call_ok : forall c w e, world_wf w ->
  world_wf (call c w e) /\ max_entries_per_poll (ht (call c w e)) = max_entries_per_poll (ht w).

Lemma release_ok w e x g w1 : taken_out w e w1 ->
  world_wf (release g (call (cb x) w1 e)) /\
  max_entries_per_poll (ht (release g (call (cb x) w1 e))) = max_entries_per_poll (ht w).
Proof.
  intros H. destruct (call_ok (cb x) w1 e (to_wf _ _ _ H)) as [Hw Hm].
  rewrite (to_batch _ _ _ H) in Hm. unfold release. destruct (truth g); [|done].
  split; [by apply refs_wf|done].
Qed.

Lemma poll_loop_fires fuel : forall w m count, world_wf w -> min_known w m -> 0 <= count ->
  let '(w', n) := poll_loop call fuel w now m count in
  exists fired, fires w fired w' /\ zlen fired = n - count.
Proof.
  induction fuel as [|fuel IH]; intros w m count Hw Hm Hn.
  { exists []. split; [constructor|]. unfold zlen. cbn. lia. }
  cbn [poll_loop]. destruct (truth (cur_size (ht w)) && _ && _) eqn:E;
    [|exists []; split; [constructor|unfold zlen; cbn; lia]].
  apply andb_true_iff in E as [E _]. apply andb_true_iff in E as [Hc Hdue].
  pose proof (cur_nonneg w Hw). unfold truth in Hc. destruct (Z.eqb_spec (cur_size (ht w)) 0) as [|Hne]; [done|].
  destruct (poll_round_taken w Hw ltac:(lia)) as (e & g & x & w1 & Hp & Hx & Hmin & Hto & Er).
  rewrite (Hm ltac:(lia)) in Hdue. rewrite Er. destruct (release_ok w e x g w1 Hto) as [Hw1 _].
  specialize (IH _ _ (count + 1) Hw1 (next_min_known _ m Hw1) ltac:(lia)).
  destruct (poll_loop call fuel _ _ _ _) as [w' n]. destruct IH as (fired & Hf & Hz).
  eexists. split; [by eapply fires_one|]. unfold zlen in *. cbn. lia.
Qed.

(** Callbacks that leave the pending entries and the locks alone. *)
Definition quiet : Prop := forall c w e,
  (forall e' t g, pending (call c w e) e' t g <-> pending w e' t g) /\
  (forall l, locked (call c w e) l = locked w l).

Lemma release_pending g w e t g' : pending (release g w) e t g' <-> pending w e t g'.
Proof. unfold release. by destruct (truth g). Qed.

Lemma release_locked g w l : locked (release g w) l = locked w l - b2z (bool_decide (l = g) && truth g).
Proof.
  unfold release. destruct (truth g) eqn:Eg; [|rewrite andb_false_r; cbn; lia].
  unfold pj_grp_lock_dec_ref. rewrite locked_insert. destruct (decide (g = l)) as [<-|].
  - by rewrite bool_decide_eq_true_2.
  - rewrite bool_decide_eq_false_2 by congruence. cbn. lia.
Qed.

Lemma fires_quiet w fired w' : quiet -> world_wf w -> fires w fired w' ->
  (forall e t g, pending w e t g <-> pending w' e t g \/ (e, t, g) ∈ fired) /\
  (forall f, f ∈ fired -> pending w f.1.1 f.1.2 f.2 /\ ~ exists t g, pending w' f.1.1 t g) /\
  (forall f e t g, f ∈ fired -> pending w' e t g -> tv_le f.1.2 t) /\
  in_order fired /\ NoDup (fired.*1.*1) /\ forall l, locked w' l = locked w l - released fired l.
Proof.
  intros Hq Hw Hf. induction Hf as [w|w e t g x w1 fired w' Hp Hmin Hdue Hx Hto _ IH].
  { split_and!; try (intros ?; by rewrite elem_of_nil); [| |constructor|constructor|intros; cbn; lia].
    - intros. rewrite elem_of_nil. tauto.
    - intros f e t g Hf. by apply elem_of_nil in Hf. }
  destruct (release_ok w e x g w1 Hto) as [Hw1 _]. destruct (IH Hw1) as (IHp & IHf & IHl & IHo & IHn & IHk).
  destruct (Hq (cb x) w1 e) as [Hqp Hql].
  assert (forall e' t' g', pending (release g (call (cb x) w1 e)) e' t' g' <-> pending w e' t' g' /\ e' <> e) as Hr
    by (intros; rewrite release_pending, Hqp; apply (to_pending _ _ _ Hto)).
  assert (forall f, f ∈ fired -> pending w f.1.1 f.1.2 f.2 /\ f.1.1 <> e) as Hin
    by (intros f Hf; apply Hr, (IHf f Hf)).
  assert (forall e' t' g', pending w' e' t' g' -> pending w e' t' g' /\ e' <> e) as Hleft
    by (intros; apply Hr, IHp; by left).
  split_and!.
  - intros e' t' g'. rewrite elem_of_cons. specialize (IHp e' t' g'). rewrite Hr in IHp. split.
    + intros H. destruct (decide (e' = e)) as [->|]; [|tauto].
      destruct (pending_unique w e t' g' t g Hw H Hp) as [-> ->]. tauto.
    + intros [H|[[= -> -> ->]|H]]; [tauto|done|tauto].
  - intros f [->|H]%elem_of_cons; cbn [fst snd].
    + split; [done|]. intros (t' & g' & H). by apply Hleft in H as [_ ?].
    + split; [apply (Hin f H)|apply (IHf f H)].
  - intros f e' t' g' [->|H]%elem_of_cons Hp'; cbn [fst snd].
    + apply Hleft in Hp' as [Hp' _]. by eapply Hmin.
    + by eapply IHl.
  - constructor; [done|]. apply Forall_forall. intros f H. cbn. eapply Hmin, (Hin f H).
  - cbn. constructor; [|done]. intros ([e' t'] & -> & H)%list_elem_of_fmap.
    apply list_elem_of_fmap in H as (f & Ef & H). apply (Hin f H). by rewrite <- Ef.
  - intros l. rewrite IHk, release_locked, Hql. unfold locked at 1. rewrite (to_locks _ _ _ Hto).
    change (default 0 (lock_refs w !! l)) with (locked w l). 
    change (released ((e, t, g) :: fired) l) with (b2z (bool_decide (l = g) && truth g) + released fired l). lia.
Qed.
End Fires.

(** C40: [poll] fires the due entries in the order of their times: it ends; each time
    it takes out an entry that is due and before which no other comes, runs its
    callback -- any that keeps the heap well-formed, so it may schedule and cancel
    entries -- and releases its lock; and it stops only when nothing due is left
    or the batch is full.  With callbacks that leave the pending entries alone,
    the entries fired are exactly those that are gone, each once, in order, and
    none is later than one that is left. *)
Theorem timer_fires_in_order call w now :
  (forall c w e, world_wf w -> world_wf (call c w e) /\
     max_entries_per_poll (ht (call c w e)) = max_entries_per_poll (ht w)) ->
  world_wf w -> 0 <= max_entries_per_poll (ht w) ->
  let '(w', count, _) := pj_timer_heap_poll call w now in
  exists fired,
    fires call now w fired w' /\ zlen fired = count /\ count <= max_entries_per_poll (ht w) /\
    (count = max_entries_per_poll (ht w) \/
     forall e t g, pending w' e t g -> PJ_TIME_VAL_GT t now = true) /\
    (quiet call ->
       (forall e t g, pending w e t g <-> pending w' e t g \/ (e, t, g) ∈ fired) /\
       (forall f e t g, f ∈ fired -> pending w' e t g -> e <> f.1.1 /\ tv_le f.1.2 t) /\
       in_order fired /\ NoDup (fired.*1.*1) /\
       forall l, locked w' l = locked w l - released fired l).
Proof.
  intros Hcall Hw Hmax. pose proof (timer_poll_spec call w now Hcall Hw Hmax) as Hrun.
  assert (let '(w', count, _) := pj_timer_heap_poll call w now in
    exists fired, fires call now w fired w' /\ zlen fired = count) as Hf.
  { unfold pj_timer_heap_poll, truth. destruct (Z.eqb_spec (cur_size (ht w)) 0) as [E|Hne]; cbn [negb].
    { exists []. split; [constructor|done]. }
    pose proof (poll_loop_fires call now Hcall (S (Z.to_nat (max_entries_per_poll (ht w)))) w
      (value_at (ht w) (heap_at (ht w) 0)) 0 Hw ltac:(done) ltac:(lia)) as Hl.
    destruct (poll_loop _ _ _ _ _ _) as [w' n]. destruct Hl as (fired & H1 & H2). exists fired. split; [done|lia]. }
  destruct (pj_timer_heap_poll call w now) as [[w' count] d]. destruct Hf as (fired & Hf & Hz).
  destruct Hrun as (_ & Hc & Hend & _). exists fired. split_and!; [done..|lia|done|].
  intros Hq. destruct (fires_quiet call now Hcall w fired w' Hq Hw Hf) as (H1 & H2 & H3 & H4 & H5 & H6).
  split_and!; try done. intros f e t g Hfi Hp. split; [|by eapply H3].
  intros ->. destruct (H2 f Hfi) as [_ Hn]. apply Hn. eauto.
Qed.

Definition demo_run : world :=
  (pj_timer_heap_schedule demo_pool
     (pj_timer_heap_schedule_w_grp_lock demo_pool demo_world (TV 1 0) 1 (TV 3 0) 7 9).1
     (TV 1 0) 2 (TV 0 1500)).1.

Lemma demo_run_wf : world_wf demo_run.
Proof.
  unfold demo_run, pj_timer_heap_schedule, pj_timer_heap_schedule_w_grp_lock.
  destruct (schedule_run demo_pool demo_pool_enough demo_world (TV 1 0) 1 (TV 3 0) true 7 9 (Entry 11 0 1 (-1))
    demo_wf eq_refl ltac:(done) ltac:(simpl; lia)) as (w1 & k1 & -> & Hw1 & He1 & _).
  cbn [fst]. assert (Hx : entries w1 !! 2 = Some (Entry 12 0 1 (-1))) by (by rewrite He1).
  destruct (schedule_run demo_pool demo_pool_enough w1 (TV 1 0) 2 (TV 0 1500) false 1 0 (Entry 12 0 1 (-1))
    Hw1 Hx ltac:(done) ltac:(simpl; lia)) as (w2 & k2 & -> & Hw2 & _). exact Hw2.
Qed.

(** A callback that counts its runs. *)
Definition counting : Z -> world -> Z -> world := fun c w e => pj_grp_lock_add_ref w (1000 + e).

(** Entry 2, due at 2.5, fires; entry 1, due at 4, stays. *)
Lemma timer_fires_in_order_witness :
  world_wf demo_run /\
  (exists fired, zlen fired = 1 /\
     fires counting (TV 3 0) demo_run fired (pj_timer_heap_poll counting demo_run (TV 3 0)).1.1) /\
  locked (pj_timer_heap_poll counting demo_run (TV 3 0)).1.1 1002 = 1 /\
  locked (pj_timer_heap_poll counting demo_run (TV 3 0)).1.1 1001 = 0.
Proof.
  split; [exact demo_run_wf|]. split; [|split; vm_compute; reflexivity].
  pose proof (timer_fires_in_order counting demo_run (TV 3 0)
    ltac:(intros c w e Hw; split; [by apply refs_wf|done]) demo_run_wf ltac:(vm_compute; discriminate)) as H.
  assert (E : (pj_timer_heap_poll counting demo_run (TV 3 0)).1.2 = 1) by (vm_compute; reflexivity).
  destruct (pj_timer_heap_poll counting demo_run (TV 3 0)) as [[w' n] d]. simpl in E. subst n.
  destruct H as (fired & Hf & Hz & _). exists fired. split; [exact Hz|exact Hf].
Defined.

(** Scheduling an entry that is not running adds it at [now + delay],
    takes the group lock and gives it a timer id of its own, growing the heap
    when it is full; an entry without callback or running already is refused
    without effect. *)
Lemma timer_schedule_spec pool_mem w now e delay set_id id_val g x :
  (forall n, 0 <= n -> n <= zlen (pool_mem n)) ->
  world_wf w -> entries w !! e = Some x ->
  let '(w', st) := schedule_w_grp_lock pool_mem w now e delay set_id id_val g in
  world_wf w' /\
  if cb x =? 0 then st = PJ_EINVAL /\ w' = w
  else if timer_id x >=? 1 then st = PJ_EINVALIDOP /\ w' = w
  else
    st = PJ_SUCCESS /\
    (forall e' t' g', pending w' e' t' g' <->
       pending w e' t' g' \/ (e' = e /\ t' = PJ_TIME_VAL_ADD now delay /\ g' = g)) /\
    (forall e' t' g', pending w e' t' g' -> e' <> e) /\
    (forall l, locked w' l = locked w l + b2z (bool_decide (l = g) && truth g)) /\
    exists k, 1 <= k /\
      entries w' = <[e := Entry (user_data x) (if set_id then id_val else id x) (cb x) k]> (entries w).
Proof.
  intros Hpool Hw Hx. destruct (Z.eqb_spec (cb x) 0) as [E|Hcb].
  { unfold schedule_w_grp_lock, entry_at. rewrite Hx. simpl. by rewrite E. }
  destruct (Z.geb_spec (timer_id x) 1) as [Hr|Hid].
  { unfold schedule_w_grp_lock, entry_at, pj_timer_entry_running. rewrite Hx. simpl.
    destruct (Z.eqb_spec (cb x) 0), (Z.geb_spec (timer_id x) 1); try done; lia. }
  destruct (schedule_run pool_mem Hpool w now e delay set_id id_val g x Hw Hx Hcb Hid)
    as (w' & k & -> & Hw' & He & Hp & _ & Hl).
  split_and!; try done.
  - intros e' t' g' Hq ->. destruct (pending_running _ _ _ _ Hw Hq) as (y & Hy & Hin & _).
    assert (y = x) as -> by congruence. pose proof (in_heap_pos _ _ (ww_heap w Hw) Hin). lia.
  - exists k. split; [|rewrite He; unfold scheduled; by destruct set_id].
    assert (Hq : pending w' e (PJ_TIME_VAL_ADD now delay) g) by (apply Hp; by right).
    destruct (pending_running _ _ _ _ Hw' Hq) as (y & Hy & Hin & _).
    rewrite He, lookup_insert_eq in Hy. injection Hy as <-.
    pose proof (in_heap_pos _ _ (ww_heap w' Hw') Hin) as Hk.
    unfold scheduled in Hk. destruct set_id; simpl in Hk; lia.
Qed.

Lemma timer_schedule_spec_witness :
  world_wf (pj_timer_heap_schedule demo_pool demo_world (TV 1 0) 3 (TV 0 20)).1 /\
  (pj_timer_heap_schedule demo_pool demo_world (TV 1 0) 3 (TV 0 20)).2 = PJ_SUCCESS.
Proof.
  pose proof (timer_schedule_spec demo_pool demo_world (TV 1 0) 3 (TV 0 20) false 1 0 (Entry 13 0 1 0)
    demo_pool_enough demo_wf eq_refl) as H.
  unfold pj_timer_heap_schedule.
  destruct (schedule_w_grp_lock demo_pool demo_world (TV 1 0) 3 (TV 0 20) false 1 0) as [w' st].
  simpl in H. destruct H as (Hw & Hst & _). split; [exact Hw|exact Hst].
Defined.

(** Cancelling a running entry takes out this entry and no other and
    releases its group lock; cancelling one that is not running has no effect
    on the heap, whatever the stray reads around the arrays yield. *)
Lemma timer_cancel_spec stray_dup stray_id close_hook w e flags id_val x :
  world_wf w -> entries w !! e = Some x ->
  let '(w', count) := cancel_timer stray_dup stray_id close_hook w e flags id_val in
  world_wf w' /\
  (forall e' t g, pending w' e' t g <-> pending w e' t g /\ e' <> e) /\
  if timer_id x >=? 1 then
    count = 1 /\ exists t g, pending w e t g /\
      forall l, locked w' l = locked w l - b2z (bool_decide (l = g) && truth g)
  else count = 0 /\ lock_refs w' = lock_refs w.
Proof.
  intros Hw Hx. pose proof (cancel_run stray_dup stray_id close_hook w e flags id_val x Hw Hx) as H.
  destruct (cancel_timer _ _ _ w e flags id_val) as [w' n]. by destruct H as (? & _ & ?).
Qed.

Lemma timer_cancel_spec_witness :
  (pj_timer_heap_cancel no_dup 0 (fun w _ => w) demo_run 1).2 = 1 /\
  world_wf (pj_timer_heap_cancel no_dup 0 (fun w _ => w) demo_run 1).1.
Proof.
  split; [vm_compute; reflexivity|].
  destruct (entries demo_run !! 1) as [x|] eqn:E; [|vm_compute in E; congruence].
  pose proof (timer_cancel_spec no_dup 0 (fun w _ => w) demo_run 1 0 0 x demo_run_wf E) as H.
  unfold pj_timer_heap_cancel.
  destruct (cancel_timer no_dup 0 (fun w _ => w) demo_run 1 0 0) as [w' n]. apply H.
Defined.

(** [pj_timer_heap_earliest_time] is the time of the earliest pending entry. *)
Lemma timer_earliest_spec w :
  world_wf w ->
  match pj_timer_heap_earliest_time (ht w) with
  | None => forall e t g, ~ pending w e t g
  | Some t => (exists e g, pending w e t g) /\ forall e' t' g', pending w e' t' g' -> tv_le t t'
  end.
Proof.
  intros Hw. unfold pj_timer_heap_earliest_time.
  destruct (Z.eqb_spec (cur_size (ht w)) 0) as [E|Hne]; [by apply no_pending|].
  pose proof (cur_nonneg w Hw).
  destruct (poll_round_run w Hw ltac:(lia)) as (e & t & g & x & Hp & _ & -> & Hmin & _).
  split; [by exists e, g|done].
Qed.

Lemma timer_earliest_spec_witness :
  pj_timer_heap_earliest_time (ht demo_run) = Some (TV 2 500) /\
  exists e g, pending demo_run e (TV 2 500) g.
Proof.
  assert (E : pj_timer_heap_earliest_time (ht demo_run) = Some (TV 2 500)) by (vm_compute; reflexivity).
  split; [exact E|]. pose proof (timer_earliest_spec demo_run demo_run_wf) as H. rewrite E in H. apply H.
Defined.

(** ** Reentrant use

    What callbacks and the application may do, to any depth: a callback run by
    [poll] is itself a sequence of calls. *)
Inductive uses (pool_mem : Z -> list pj_timer_entry_dup) : world -> world -> Prop :=
  | uses_nothing w : uses pool_mem w w
  | uses_init w e i u c : (forall x, entries w !! e = Some x -> timer_id x < 1) ->
      uses pool_mem w (pj_timer_entry_init w e i u c)
  | uses_schedule w now e delay set_id id_val g : is_Some (entries w !! e) ->
      uses pool_mem w (schedule_w_grp_lock pool_mem w now e delay set_id id_val g).1
  | uses_cancel w sd si hook e flags v : is_Some (entries w !! e) ->
      uses pool_mem w (cancel_timer sd si hook w e flags v).1
  | uses_poll w now call : (forall c w e, uses pool_mem w (call c w e)) ->
      uses pool_mem w (pj_timer_heap_poll call w now).1.1
  | uses_then w1 w2 w3 : uses pool_mem w1 w2 -> uses pool_mem w2 w3 -> uses pool_mem w1 w3.

Lemma entry_init_wf w e i u c : world_wf w -> (forall x, entries w !! e = Some x -> timer_id x < 1) ->
  world_wf (pj_timer_entry_init w e i u c).
Proof.
  intros [Hh Hn He] Hid. constructor; [done| |].
  - intros k Hk. destruct (Hn k Hk) as (y & Hy & Hyt & Hr). exists y. split; [|done].
    unfold pj_timer_entry_init; simpl. rewrite lookup_insert_ne; [done|].
    intros E. rewrite <- E in Hy. apply Hid in Hy. pose proof (in_heap_pos _ _ Hh Hk). lia.
  - intros e' y Hy. unfold pj_timer_entry_init in Hy; simpl in Hy.
    destruct (decide (e' = e)) as [->|].
    + rewrite lookup_insert_eq in Hy. injection Hy as <-. left. simpl. lia.
    + rewrite lookup_insert_ne in Hy by done. exact (He e' y Hy).
Qed.

Lemma poll_run call w now :
  (forall c w e, world_wf w -> world_wf (call c w e) /\
     max_entries_per_poll (ht (call c w e)) = max_entries_per_poll (ht w)) ->
  world_wf w -> 
  world_wf (pj_timer_heap_poll call w now).1.1 /\
  max_entries_per_poll (ht (pj_timer_heap_poll call w now).1.1) = max_entries_per_poll (ht w).
Proof.
  intros Hcall Hw. unfold pj_timer_heap_poll, truth.
  destruct (Z.eqb_spec (cur_size (ht w)) 0) as [E|Hne]; cbn [negb]; [done|].
  pose proof (poll_loop_run call Hcall (S (Z.to_nat (max_entries_per_poll (ht w)))) w now
    (value_at (ht w) (heap_at (ht w) 0)) 0 Hw ltac:(done) ltac:(lia) ltac:(lia)) as Hl.
  destruct (poll_loop _ _ _ _ _ _) as [w' n]. simpl. tauto.
Qed.

(** C16: a timer heap stays well-formed -- arrays, ids and freelist consistent,
    earliest entry first, each node the copy of a running entry and each
    running entry in one node -- under any sequence of calls, callbacks that
    re-enter the heap included. *)
Theorem timer_reachable_wf pool_mem size mem es refs w :
  (forall n, 0 <= n -> n <= zlen (pool_mem n)) ->
  0 <= size -> size + 2 <= zlen mem -> map_Forall (fun _ x => timer_id x < 1) es ->
  uses pool_mem (World (pj_timer_heap_create size mem) es refs) w ->
  world_wf w /\ max_entries_per_poll (ht w) = DEFAULT_MAX_TIMED_OUT_PER_POLL.
Proof.
  intros Hpool Hs Hm He Hu.
  set (w0 := World _ _ _) in Hu. assert (Hw0 : world_wf w0) by (by apply timer_create_wf).
  assert (H0 : max_entries_per_poll (ht w0) = DEFAULT_MAX_TIMED_OUT_PER_POLL) by done.
  rewrite <- H0. clear Hs Hm He H0. clearbody w0.
  induction Hu as [w|w e i u c Hid|w now e delay set_id id_val g [x Hx]|w sd si hook e flags v [x Hx]
                  |w now call _ IH|w1 w2 w3 _ IH1 _ IH2]; try done.
  - split; [by apply entry_init_wf|done].
  - destruct (Z.eqb_spec (cb x) 0) as [E|Hcb].
    { unfold schedule_w_grp_lock, entry_at. rewrite Hx. simpl. by rewrite E. }
    destruct (Z.geb_spec (timer_id x) 1) as [Hr|Hid].
    { unfold schedule_w_grp_lock, entry_at, pj_timer_entry_running. rewrite Hx. simpl.
      destruct (Z.eqb_spec (cb x) 0), (Z.geb_spec (timer_id x) 1); try done; lia. }
    destruct (schedule_run pool_mem Hpool w now e delay set_id id_val g x Hw0 Hx Hcb Hid)
      as (w' & k & -> & Hw' & _ & _ & Hmx & _). done.
  - pose proof (cancel_run sd si hook w e flags v x Hw0 Hx) as H.
    destruct (cancel_timer sd si hook w e flags v) as [w' n]. by destruct H as (?&?&_).
  - apply poll_run; [|done]. intros c w1 e Hw1. by apply IH.
  - destruct (IH1 Hw0) as [Hw2 <-]. by apply IH2.
Qed.

Lemma timer_reachable_wf_witness :
  uses demo_pool demo_world demo_run /\ world_wf demo_run.
Proof.
  assert (Hu : uses demo_pool demo_world demo_run).
  { apply uses_then with (pj_timer_heap_schedule_w_grp_lock demo_pool demo_world (TV 1 0) 1 (TV 3 0) 7 9).1.
    - apply uses_schedule. vm_compute. by eexists.
    - apply uses_schedule. vm_compute. by eexists. }
  split; [exact Hu|].
  refine (proj1 (timer_reachable_wf demo_pool 0 (demo_pool 2) _ ∅ demo_run demo_pool_enough _ _ _ Hu)).
  - lia.
  - vm_compute; congruence.
  - rewrite !map_Forall_insert by (vm_compute; done). rewrite map_Forall_singleton. simpl. lia.
Defined.
