(* ===== verification/TimerService.v ===== *)
(** * What the timer heap promises to its clients

    The interface through which the STUN transactions use the timer heap: the
    calls [pj_timer_heap_schedule_w_grp_lock], [pj_timer_heap_cancel_if_active]
    and the removal of a due entry by [pj_timer_heap_poll], the client's view of
    an entry (its [id] field and when it is due), and the laws of the calls.
    The heap of Timer.v is an instance. *)

From stdpp Require Import gmap.
From S2P Require Import Prelude TimeVal Timer.
Set Warnings "-clear-no-such-hyp".

Class TimerService (W : Type) := {
  (** The [id] of an entry, and when a running entry is due. *)
  ts_id : W -> Z -> Z;
  ts_due : W -> Z -> option pj_time_val;
  (** The entry the next round of a poll takes out. *)
  ts_next : W -> option Z;
  ts_pop : W -> W;
  (** [schedule w now e delay id grp_lock], [cancel w e id]. *)
  ts_schedule : W -> pj_time_val -> Z -> pj_time_val -> Z -> Z -> W * pj_status;
  ts_cancel : W -> Z -> Z -> W;
  (** The assignment [entry.id = v]. *)
  ts_set_id : W -> Z -> Z -> W;
  (** A zeroed entry with a callback and user data. *)
  ts_init : W -> Z -> Z -> Z -> W;
  (** The heap is consistent; the entry has been set up. *)
  ts_wf : W -> Prop;
  ts_known : W -> Z -> Prop
}.

Section Promise.
Context {W : Type} `{TimerService W}.

(** A call that leaves every other entry alone and entry [e] due at [d] with
    the given [id]. *)
Record sets_entry (w w' : W) (e : Z) (d : option pj_time_val) (v : Z) : Prop := {
  se_wf : ts_wf w';
  se_known : forall e', ts_known w e' -> ts_known w' e';
  se_due : ts_due w' e = d;
  se_id : ts_id w' e = v;
  se_other : forall e', e' <> e -> ts_due w' e' = ts_due w e' /\ ts_id w' e' = ts_id w e'
}.
End Promise.

Class TimerPromise (W : Type) {S : TimerService W} : Prop := {
  ts_schedule_idle w now e delay v g : ts_wf w -> ts_known w e -> ts_due w e = None ->
    exists w', ts_schedule w now e delay v g = (w', PJ_SUCCESS) /\
      sets_entry w w' e (Some (PJ_TIME_VAL_ADD now delay)) v;
  ts_schedule_running w now e delay v g t : ts_wf w -> ts_known w e -> ts_due w e = Some t ->
    ts_schedule w now e delay v g = (w, PJ_EINVALIDOP);
  ts_cancel_law w e v : ts_wf w -> ts_known w e ->
    sets_entry w (ts_cancel w e v) e None
      (match ts_due w e with Some _ => v | None => ts_id w e end);
  ts_set_id_law w e v : ts_wf w -> ts_known w e ->
    sets_entry w (ts_set_id w e v) e (ts_due w e) v;
  ts_pop_law w e : ts_wf w -> ts_next w = Some e -> ts_known w e /\
    sets_entry w (ts_pop w) e None (ts_id w e) /\
    exists t, ts_due w e = Some t /\ forall e' t', ts_due w e' = Some t' -> tv_le t t';
  ts_init_law w e c u : ts_wf w -> ts_due w e = None -> c <> 0 ->
    ts_known (ts_init w e c u) e /\ sets_entry w (ts_init w e c u) e None 0;
  ts_next_none w : ts_wf w -> ts_next w = None -> forall e, ts_due w e = None
}.

(** ** The timer heap keeps the promise *)

Definition entry_due (w : world) (e : Z) : option pj_time_val :=
  match entries w !! e with
  | Some x => if pj_timer_entry_running x then Some (value_at (ht w) (timer_id x)) else None
  | None => None
  end.

Definition due_first (w : world) : option Z :=
  if cur_size (ht w) =? 0 then None else Some (entry (dup_at (ht w) (heap_at (ht w) 0))).

Definition has_callback (w : world) (e : Z) : Prop :=
  exists x, entries w !! e = Some x /\ cb x <> 0.

Section Heap.
Variable pool_mem : Z -> list pj_timer_entry_dup.
Variables (stray_dup : pj_timer_entry_dup) (stray_id : Z) (close_hook : world -> Z -> world).

#[local] Instance heap_service : TimerService world := {|
  ts_id w e := id (entry_at w e);
  ts_due := entry_due;
  ts_next := due_first;
  ts_pop := unlinked;
  ts_schedule := pj_timer_heap_schedule_w_grp_lock pool_mem;
  ts_cancel w e v := (pj_timer_heap_cancel_if_active stray_dup stray_id close_hook w e v).1;
  ts_set_id w e v := w <| entries ::= alter (fun x => x <| id := v |>) e |>;
  ts_init w e c u := w <| entries ::= <[e := Entry u 0 c 0]> |>;
  ts_wf := world_wf;
  ts_known := has_callback
|}.

Lemma entry_due_pending w e t : world_wf w -> entry_due w e = Some t <-> exists g, pending w e t g.
Proof.
  intros Hw. unfold entry_due, pj_timer_entry_running. split.
  - destruct (entries w !! e) as [x|] eqn:Hx; [|done].
    destruct (Z.geb_spec (timer_id x) 1); [|done]. intros [= <-].
    destruct (ww_entry w Hw e x Hx) as [?|[Hin He]]; [lia|].
    exists (grp_lock (dup_at (ht w) (timer_id x))), (timer_id x). done.
  - intros (g & Hp). destruct (pending_running _ _ _ _ Hw Hp) as (x & -> & Hin & _ & <- & _).
    pose proof (in_heap_pos _ _ (ww_heap w Hw) Hin).
    destruct (Z.geb_spec (timer_id x) 1); [done|lia].
Qed.

(** A call is described by the pending entries it adds or takes out. *)
Lemma due_same w w' e : world_wf w -> world_wf w' ->
  (forall t g, pending w' e t g <-> pending w e t g) -> entry_due w' e = entry_due w e.
Proof.
  intros Hw Hw' Hp. apply option_eq. intros t. rewrite !entry_due_pending by done.
  split; intros [g Hg]; exists g; by apply Hp.
Qed.
Lemma due_none w e : world_wf w -> (forall t g, ~ pending w e t g) -> entry_due w e = None.
Proof.
  intros Hw Hn. destruct (entry_due w e) as [t|] eqn:E; [|done].
  apply entry_due_pending in E as [g Hg]; [|done]. by apply Hn in Hg.
Qed.

Lemma known_alter w w' e f : entries w' = alter f e (entries w) ->
  (forall x, cb (f x) = cb x) -> forall e', has_callback w e' -> has_callback w' e'.
Proof.
  intros He Hf e' (x & Hx & Hc). unfold has_callback. rewrite He. destruct (decide (e = e')) as [->|].
  - exists (f x). by rewrite lookup_alter_eq, Hx, Hf.
  - exists x. by rewrite lookup_alter_ne.
Qed.

Lemma schedule_promise w now e delay v g : (forall n, 0 <= n -> n <= zlen (pool_mem n)) ->
  world_wf w -> has_callback w e -> entry_due w e = None ->
  exists w', pj_timer_heap_schedule_w_grp_lock pool_mem w now e delay v g = (w', PJ_SUCCESS) /\
    sets_entry w w' e (Some (PJ_TIME_VAL_ADD now delay)) v.
Proof.
  intros Hpool Hw (x & Hx & Hc) Hd.
  assert (timer_id x < 1) as Hid.
  { unfold entry_due, pj_timer_entry_running in Hd. rewrite Hx in Hd.
    destruct (Z.geb_spec (timer_id x) 1); [done|lia]. }
  destruct (schedule_run pool_mem Hpool w now e delay true v g x Hw Hx Hc Hid)
    as (w' & k & Heq & Hw' & He & Hp & _). exists w'. split; [exact Heq|].
  assert (forall e', e' <> e -> entries w' !! e' = entries w !! e') as Hoth
    by (intros e' Hne; rewrite He; by rewrite lookup_insert_ne).
  constructor; try done.
  - intros e' (y & Hy & Hcy). cbn. unfold has_callback. destruct (decide (e' = e)) as [->|Hne].
    + exists (scheduled x k true v). by rewrite He, lookup_insert_eq.
    + exists y. by rewrite Hoth.
  - apply entry_due_pending; [done|]. exists g. apply Hp. by right.
  - cbn. unfold entry_at. by rewrite He, lookup_insert_eq.
  - intros e' Hne. split; [|cbn; unfold entry_at; by rewrite Hoth].
    apply due_same; [done..|]. intros t' g'. rewrite Hp. naive_solver.
Qed.

Lemma cancel_entries w e v x : world_wf w -> entries w !! e = Some x ->
  let w' := (pj_timer_heap_cancel_if_active stray_dup stray_id close_hook w e v).1 in
  entries w' = alter (fun x => x <| timer_id := -1 |>
    <| id ::= fun i => match entry_due w e with Some _ => v | None => i end |>) e (entries w).
Proof.
  intros Hw Hx w'. unfold w', pj_timer_heap_cancel_if_active, entry_due, pj_timer_entry_running.
  rewrite Hx. set (flags := Z.lor F_SET_ID F_DONT_ASSERT).
  destruct (Z.geb_spec (timer_id x) 1) as [Hr|Hr].
  - destruct (cancel_running stray_dup stray_id close_hook w e flags v x Hw Hx ltac:(lia))
      as (-> & Hi & Hat & He).
    pose proof (remove_node_spec w _ Hw Hi) as Hrm. cbv zeta in Hrm. rewrite Hat, He in Hrm.
    destruct (remove_node w (at_ 0 (timer_ids (ht w)) (timer_id x))) as [w1 k].
    destruct Hrm as (_ & _ & _ & _ & _ & _ & _ & Hent & _).
    change (truth (Z.land flags F_SET_ID)) with true. cbn [fst].
    assert (Hl : forall w g, entries (if truth g then pj_grp_lock_dec_ref w g else w) = entries w)
      by (intros ? g; by destruct (truth g)).
    rewrite Hl. cbv [modify]. cbn [entries]. rewrite Hent. apply map_eq. intros e'.
    destruct (decide (e = e')) as [->|]; [|by rewrite !lookup_alter_ne].
    by rewrite !lookup_alter_eq, Hx.
  - rewrite (cancel_idle stray_dup stray_id close_hook w e flags v x Hw Hx ltac:(lia)).
    unfold reset_id. cbv [modify]. cbn [fst entries]. apply map_eq. intros e'. destruct (decide (e = e')) as [->|]; [|by rewrite !lookup_alter_ne].
    rewrite !lookup_alter_eq, Hx. by destruct x.
Qed.

Lemma cancel_promise w e v : world_wf w -> has_callback w e ->
  sets_entry w (pj_timer_heap_cancel_if_active stray_dup stray_id close_hook w e v).1 e None
    (match entry_due w e with Some _ => v | None => id (entry_at w e) end).
Proof.
  intros Hw (x & Hx & Hc). pose proof (cancel_entries w e v x Hw Hx) as Hent. cbv zeta in Hent.
  pose proof (cancel_run stray_dup stray_id close_hook w e (Z.lor F_SET_ID F_DONT_ASSERT) v x Hw Hx) as Hrun.
  fold (pj_timer_heap_cancel_if_active stray_dup stray_id close_hook w e v) in Hrun.
  destruct (pj_timer_heap_cancel_if_active _ _ _ w e v) as [w' n]. destruct Hrun as (Hw' & _ & Hp & _).
  cbn [fst] in *. constructor; try done.
  - intros e'. apply (known_alter w w' e _ Hent). done.
  - apply due_none; [done|]. intros t g. rewrite Hp. tauto.
  - cbn. unfold entry_at. rewrite Hent, lookup_alter_eq, Hx. cbn. by destruct (entry_due w e).
  - intros e' Hne. split; [|cbn; unfold entry_at; rewrite Hent; by rewrite lookup_alter_ne].
    apply due_same; [done..|]. intros t g. rewrite Hp. tauto.
Qed.

Lemma set_id_promise w e v : world_wf w -> has_callback w e ->
  sets_entry w (w <| entries ::= alter (fun x => x <| id := v |>) e |>) e (entry_due w e) v.
Proof.
  intros Hw (x & Hx & Hc). set (w' := modify _ _ _).
  assert (Hent : entries w' = alter (fun x => x <| id := v |>) e (entries w)) by done.
  assert (world_wf w') as Hw'.
  { pose proof Hw as [Hh Hn He]. constructor; [done| |].
    - intros k Hk. destruct (Hn k Hk) as (y & Hy & Hr). rewrite Hent. change (ht w') with (ht w).
      destruct (decide (e = entry (dup_at (ht w) k))) as [->|].
      + rewrite lookup_alter_eq, Hy. by eexists.
      + rewrite lookup_alter_ne by done. by exists y.
    - intros e' y. rewrite Hent. destruct (decide (e = e')) as [->|].
      + rewrite lookup_alter_eq, Hx. intros [= <-]. exact (He e' x Hx).
      + rewrite lookup_alter_ne by done. apply He. }
  assert (forall e', entry_due w' e' = entry_due w e') as Hd by (intros; by apply due_same).
  constructor; try done.
  - intros e'. by apply (known_alter w w' e _ Hent).
  - cbn. unfold entry_at. by rewrite Hent, lookup_alter_eq, Hx.
  - intros e' Hne. split; [apply Hd|]. cbn. unfold entry_at. rewrite Hent. by rewrite lookup_alter_ne.
Qed.

Lemma unlinked_entries w : entries (unlinked w) =
  alter (fun x => x <| timer_id := -1 |>) (entry (dup_at (ht w) (heap_at (ht w) 0))) (entries w).
Proof. done. Qed.

Lemma pop_promise w e : world_wf w -> due_first w = Some e -> has_callback w e /\
  sets_entry w (unlinked w) e None (id (entry_at w e)) /\
  exists t, entry_due w e = Some t /\ forall e' t', entry_due w e' = Some t' -> tv_le t t'.
Proof.
  intros Hw. unfold due_first. destruct (Z.eqb_spec (cur_size (ht w)) 0) as [|Hne]; [done|].
  intros [= He]. pose proof (cur_nonneg w Hw).
  pose proof (heap_at_in (ht w) 0 ltac:(lia)) as Hroot. set (k := heap_at (ht w) 0) in *.
  destruct (ww_node w Hw k Hroot) as (x & Hx & Hxt & _ & _ & Hc). rewrite He in Hx.
  destruct (poll_round_run w Hw ltac:(lia)) as (e' & t & g & y & Hp & Hy & Ht & Hmin & Hw' & _ & _ & Hp' & _).
  assert (e' = e) as ->.
  { destruct (decide (e' = e)) as [|Hn]; [done|]. exfalso.
    assert (pending (unlinked w) e (value_at (ht w) k) (grp_lock (dup_at (ht w) k))) as Hpe
      by (apply Hp'; split; [by exists k|done]).
    destruct (pending_running _ _ _ _ Hw' Hpe) as (z & Hz & Hin & _).
    rewrite unlinked_entries in Hz. fold k in Hz. rewrite He, lookup_alter_eq, Hx in Hz. injection Hz as <-.
    pose proof (in_heap_pos _ _ (ww_heap _ Hw') Hin) as Hpos. cbv [modify] in Hpos. cbn [timer_id] in Hpos. lia. }
  pose proof (unlinked_entries w) as Hent. fold k in Hent. rewrite He in Hent.
  split; [by exists x|]. split.
  - constructor; try done.
    + intros e'. by apply (known_alter w _ e _ Hent).
    + apply due_none; [done|]. intros t' g'. rewrite Hp'. tauto.
    + cbn -[unlinked]. unfold entry_at. by rewrite Hent, lookup_alter_eq, Hx.
    + intros e' Hn. split; [|cbn -[unlinked]; unfold entry_at; rewrite Hent; by rewrite lookup_alter_ne].
      apply due_same; [done..|]. intros t' g'. rewrite Hp'. tauto.
  - exists t. split; [apply entry_due_pending; [done|by exists g]|].
    intros e' t' [g' Hg']%entry_due_pending; [|done]. by apply (Hmin e' t' g').
Qed.

Lemma init_promise w e c u : world_wf w -> entry_due w e = None -> c <> 0 ->
  has_callback (w <| entries ::= <[e := Entry u 0 c 0]> |>) e /\
  sets_entry w (w <| entries ::= <[e := Entry u 0 c 0]> |>) e None 0.
Proof.
  intros Hw Hd Hc. set (w' := modify _ _ _).
  assert (Hent : entries w' = <[e := Entry u 0 c 0]> (entries w)) by done.
  assert (Hid : forall x, entries w !! e = Some x -> timer_id x < 1).
  { intros x Hx. unfold entry_due, pj_timer_entry_running in Hd. rewrite Hx in Hd.
    destruct (Z.geb_spec (timer_id x) 1); [done|lia]. }
  assert (Hk : has_callback w' e) by (exists (Entry u 0 c 0); by rewrite Hent, lookup_insert_eq).
  assert (Hw' : world_wf w').
  { pose proof Hw as [Hh Hn He]. constructor; [done| |].
    - intros k Hin. destruct (Hn k Hin) as (y & Hy & Hr). exists y. rewrite Hent. change (ht w') with (ht w).
      rewrite lookup_insert_ne; [done|]. intros E. rewrite <- E in Hy. apply Hid in Hy.
      pose proof (in_heap_pos _ _ Hh Hin). destruct Hr as [Hr _]. lia.
    - intros e' y. rewrite Hent. destruct (decide (e = e')) as [->|].
      + rewrite lookup_insert_eq. intros [= <-]. left. cbn. lia.
      + rewrite lookup_insert_ne by done. apply He. }
  split; [exact Hk|]. constructor; try done.
  - intros e' (y & Hy & Hcy). destruct (decide (e' = e)) as [->|Hne]; [done|].
    exists y. by rewrite Hent, lookup_insert_ne.
  - cbn. unfold entry_due. by rewrite Hent, lookup_insert_eq.
  - cbn. unfold entry_at. by rewrite Hent, lookup_insert_eq.
  - intros e' Hne. split; [by apply due_same|]. cbn. unfold entry_at. by rewrite Hent, lookup_insert_ne.
Qed.

#[local] Instance heap_promise (Hpool : forall n, 0 <= n -> n <= zlen (pool_mem n)) : TimerPromise world.
Proof.
  constructor; cbn -[unlinked].
  - intros. by apply schedule_promise.
  - intros w now e delay v g t Hw (x & Hx & Hc) Hd.
    unfold pj_timer_heap_schedule_w_grp_lock, schedule_w_grp_lock, entry_at.
    unfold entry_due in Hd. rewrite Hx in *. cbn in *.
    rewrite (proj2 (Z.eqb_neq _ _) Hc). by destruct (pj_timer_entry_running x).
  - apply cancel_promise.
  - apply set_id_promise.
  - apply pop_promise.
  - apply init_promise.
  - intros w Hw Hn e. apply due_none; [done|]. apply no_pending; [done|].
    unfold due_first in Hn. by destruct (Z.eqb_spec (cur_size (ht w)) 0).
Qed.
End Heap.
