(* ===== verification/Transaction.v ===== *)
(** * SIP transaction state machine (pjsip/src/pjsip/sip_transaction.c,
      pjsip/include/pjsip/sip_transaction.h)

    The record [pjsip_transaction] and every function of the state machine:
    [tsx_set_state], the timers, sending and its two callbacks, retransmission,
    the transport listener and the ten state handlers behind the two dispatch
    tables.  Messages keep what the machine reads of them (type, method, status
    code, CSeq method); messages, transports and the transaction user are
    objects named by a number.  What other modules decide is a parameter: the
    result of a send, the callbacks the resolver makes before it returns, the
    ACK built for a final response.  The record also holds the effects outside
    the transaction: the references it has on its group lock, and a trace of
    notifications, sends and references taken and dropped.  A transaction user
    that calls back into the transaction from inside a notification is not
    modelled; its calls are steps of their own.  Assertions are those of a
    release build; locks and log output are left out. *)

From stdpp Require Import gmap.
From S2P Require Import Prelude TimeVal.

(** ** Constants *)

Definition PJ_SUCCESS : Z := 0.
Definition PJ_EUNKNOWN : Z := 70001.
Definition PJ_EPENDING : Z := 70002.
Definition PJ_EINVAL : Z := 70004.
Definition PJ_EBUG : Z := 70008.
Definition PJ_EINVALIDOP : Z := 70013.
Definition PJ_EEXISTS : Z := 70015.
Definition PJ_ERESOLVE : Z := 70018.
Definition PJ_EIGNORED : Z := 70020.
Definition PJLIB_UTIL_EDNS_NXDOMAIN : Z := 320053.
Definition PJSIP_ENOTREQUESTMSG : Z := 171021.
Definition PJSIP_ENOTRESPONSEMSG : Z := 171022.
Definition PJSIP_EINVALIDMETHOD : Z := 171055.

Definition PJSIP_SC_TSX_TIMEOUT : Z := 408.
Definition PJSIP_SC_TSX_TRANSPORT_ERROR : Z := 503.
Definition PJSIP_SC_BAD_GATEWAY : Z := 502.
Definition PJSIP_TSX_1XX_RETRANS_DELAY : Z := 60.

Definition TSX_HAS_PENDING_TRANSPORT : Z := 1.
Definition TSX_HAS_PENDING_RESCHED : Z := 2.
Definition TSX_HAS_PENDING_SEND : Z := 4.
Definition TSX_HAS_PENDING_DESTROY : Z := 8.
Definition TSX_HAS_RESOLVED_SERVER : Z := 16.

Definition TIMER_INACTIVE : Z := 0.
Definition RETRANSMIT_TIMER : Z := 1.
Definition TIMEOUT_TIMER : Z := 2.
Definition TRANSPORT_ERR_TIMER : Z := 3.

Definition NO_NOTIFY : Z := 1.
Definition NO_SCHEDULE_HANDLER : Z := 2.

(** ** Data *)

Inductive pjsip_tsx_state_e :=
  | PJSIP_TSX_STATE_NULL
  | PJSIP_TSX_STATE_CALLING
  | PJSIP_TSX_STATE_TRYING
  | PJSIP_TSX_STATE_PROCEEDING
  | PJSIP_TSX_STATE_COMPLETED
  | PJSIP_TSX_STATE_CONFIRMED
  | PJSIP_TSX_STATE_TERMINATED
  | PJSIP_TSX_STATE_DESTROYED.

(** The value of the enumerator, which the code compares with [<]. *)
Definition state_num (s : pjsip_tsx_state_e) : Z :=
  match s with
  | PJSIP_TSX_STATE_NULL => 0
  | PJSIP_TSX_STATE_CALLING => 1
  | PJSIP_TSX_STATE_TRYING => 2
  | PJSIP_TSX_STATE_PROCEEDING => 3
  | PJSIP_TSX_STATE_COMPLETED => 4
  | PJSIP_TSX_STATE_CONFIRMED => 5
  | PJSIP_TSX_STATE_TERMINATED => 6
  | PJSIP_TSX_STATE_DESTROYED => 7
  end.
Notation "s '<s' s'" := (state_num s <? state_num s') (at level 70) : pj_scope.

Inductive pjsip_role_e := PJSIP_ROLE_UAC | PJSIP_ROLE_UAS.

Inductive pjsip_method_e :=
  | PJSIP_INVITE_METHOD | PJSIP_CANCEL_METHOD | PJSIP_ACK_METHOD | PJSIP_BYE_METHOD
  | PJSIP_REGISTER_METHOD | PJSIP_OPTIONS_METHOD | PJSIP_OTHER_METHOD.

#[export] Instance pjsip_tsx_state_e_eq_dec : EqDecision pjsip_tsx_state_e.
Proof. solve_decision. Defined.
#[export] Instance pjsip_role_e_eq_dec : EqDecision pjsip_role_e.
Proof. solve_decision. Defined.
#[export] Instance pjsip_method_e_eq_dec : EqDecision pjsip_method_e.
Proof. solve_decision. Defined.

(** A request with its method, a response with its status code. *)
Inductive pjsip_msg :=
  | PJSIP_REQUEST_MSG (method : pjsip_method_e)
  | PJSIP_RESPONSE_MSG (code : Z).

(** An outgoing message: its address, its message and its CSeq method. *)
Record pjsip_tx_data := TxData {
  tdata_id : Z;
  msg : pjsip_msg;
  cseq_method : pjsip_method_e
}.

Record pjsip_transport := Transport {
  tp_id : Z;
  tp_reliable : bool;
  is_shutdown : bool
}.

(** A timer entry: its user id, and the delay it was scheduled with while it is
    in the timer heap. *)
Record pj_timer_entry := TimerEntry {
  id : Z;
  running : option pj_time_val
}.
#[export] Instance eta_pj_timer_entry : Eta pj_timer_entry := fun r =>
  TimerEntry (id r) (running r).

Inductive tsx_timer := retransmit_entry | timeout_entry.
#[export] Instance tsx_timer_eq_dec : EqDecision tsx_timer.
Proof. solve_decision. Defined.

(** What a handler and a notification receive. *)
Inductive pjsip_event :=
  | PJSIP_EVENT_UNKNOWN
  | PJSIP_EVENT_TIMER (entry : tsx_timer)
  | PJSIP_EVENT_TX_MSG (tdata : pjsip_tx_data)
  | PJSIP_EVENT_RX_MSG (rdata : pjsip_msg)
  | PJSIP_EVENT_TRANSPORT_ERROR
  | PJSIP_EVENT_USER.

(** The entries of the dispatch tables. *)
Inductive tsx_handler :=
  | h_on_state_null | h_on_state_calling | h_on_state_trying | h_on_state_proceeding_uac
  | h_on_state_proceeding_uas | h_on_state_completed_uac | h_on_state_completed_uas
  | h_on_state_confirmed | h_on_state_terminated | h_on_state_destroyed.

(** The transaction user: which of its two callbacks it has. *)
Record pjsip_module := TsxUser { has_on_rx_response : bool; has_on_tsx_state : bool }.

(** The trace of what the transaction does to the outside, latest first. *)
Inductive action :=
  | on_rx_response (code : Z)
  | on_tsx_state (src : pjsip_event) (prev now : pjsip_tsx_state_e)
  | sent_via (tp : Z) (tdata : Z)
  | sent_stateless (tdata : Z)
  | tx_add_ref (tdata : Z)
  | tx_dec_ref (tdata : Z)
  | tp_add_ref (tp : Z)
  | tp_dec_ref (tp : Z)
  | tp_listen (tp : Z)
  | tp_unlisten (tp : Z)
  | unregistered.

Record pjsip_transaction := Tsx {
  tsx_user : option pjsip_module;
  terminating : bool;
  role : pjsip_role_e;
  method : pjsip_method_e;
  status_code : Z;
  state : pjsip_tsx_state_e;
  handle_200resp : Z;
  state_handler : option tsx_handler;
  transport : option pjsip_transport;
  is_reliable : bool;
  res_addr_transport : option pjsip_transport;
  transport_flag : Z;
  transport_err : Z;
  pending_tx : option pjsip_tx_data;
  tp_st_key : bool;
  last_tx : option pjsip_tx_data;
  retransmit_count : Z;
  retransmit_timer : pj_timer_entry;
  timeout_timer : pj_timer_entry;
  (* outside the transaction *)
  grp_lock_refs : Z;              (* its references on its group lock *)
  mod_data : gset Z;              (* the messages whose mod_data is the transaction *)
  mod_tsx_layer_id : Z;           (* mod_tsx_layer.mod.id *)
  trace : list action
}.
#[export] Instance eta_pjsip_transaction : Eta pjsip_transaction := fun r =>
  Tsx (tsx_user r) (terminating r) (role r) (method r) (status_code r) (state r)
      (handle_200resp r) (state_handler r) (transport r) (is_reliable r)
      (res_addr_transport r) (transport_flag r) (transport_err r) (pending_tx r)
      (tp_st_key r) (last_tx r) (retransmit_count r) (retransmit_timer r)
      (timeout_timer r) (grp_lock_refs r) (mod_data r) (mod_tsx_layer_id r) (trace r).

(** The result of one attempt to send through the resolver: the bytes sent or
    the negated error, the transport used, and whether another server is left. *)
Record send_outcome := SendOutcome {
  sent : Z;
  cur_transport : option pjsip_transport;
  cont : bool
}.

(** The timer settings, in milliseconds ([pjsip_cfg()->tsx]). *)
Record tsx_cfg := TsxCfg { t1 : Z; t2 : Z; t4 : Z; td : Z }.

(** ** The neighbours

    What the state machine asks of the modules it calls. A resolver may make its
    callbacks before it returns: it answers with their list. *)
Class TsxEnv := {
  cfg : tsx_cfg;
  pjsip_transport_send : pjsip_transaction -> pjsip_transport -> pjsip_tx_data -> Z;
  pjsip_endpt_send_request_stateless :
    pjsip_transaction -> pjsip_tx_data -> list send_outcome * Z;
  pjsip_endpt_send_response : pjsip_transaction -> pjsip_tx_data -> list send_outcome * Z;
  pjsip_endpt_create_ack : option pjsip_tx_data -> pjsip_msg -> pjsip_tx_data + Z;
  is_pending : pjsip_transaction -> pjsip_tx_data -> bool
}.

Section Machine.
Context {E : TsxEnv}.

(** ** Timers *)

Definition msec_val (ms : Z) : pj_time_val := TV (ms ÷ 1000) (Z.rem ms 1000).
Definition t1_timer_val : pj_time_val := msec_val (t1 cfg).
Definition t2_timer_val : pj_time_val := msec_val (t2 cfg).
Definition t4_timer_val : pj_time_val := msec_val (t4 cfg).
Definition td_timer_val : pj_time_val := msec_val (td cfg).
Definition timeout_timer_val : pj_time_val := td_timer_val.
Definition zero_val : pj_time_val := TV 0 0.

Definition get_timer (w : tsx_timer) (t : pjsip_transaction) : pj_timer_entry :=
  match w with retransmit_entry => retransmit_timer t | timeout_entry => timeout_timer t end.
Definition set_timer (w : tsx_timer) (e : pj_timer_entry) (t : pjsip_transaction) :
    pjsip_transaction :=
  match w with
  | retransmit_entry => t <| retransmit_timer := e |>
  | timeout_entry => t <| timeout_timer := e |>
  end.

Definition pj_timer_entry_running (e : pj_timer_entry) : bool := bool_decide (is_Some (running e)).

Definition pj_grp_lock_add_ref (t : pjsip_transaction) : pjsip_transaction :=
  t <| grp_lock_refs ::= Z.add 1 |>.
Definition pj_grp_lock_dec_ref (t : pjsip_transaction) : pjsip_transaction :=
  t <| grp_lock_refs ::= fun n => n - 1 |>.

(** The heap refuses an entry that is running, and holds a reference on the
    group lock for each one it has. *)
Definition tsx_schedule_timer (w : tsx_timer) (delay : pj_time_val) (active_id : Z)
    (t : pjsip_transaction) : pjsip_transaction :=
  if pj_timer_entry_running (get_timer w t) then t
  else pj_grp_lock_add_ref (set_timer w (TimerEntry active_id (Some delay)) t).

Definition tsx_cancel_timer (w : tsx_timer) (t : pjsip_transaction) : pjsip_transaction :=
  if pj_timer_entry_running (get_timer w t)
  then pj_grp_lock_dec_ref (set_timer w (TimerEntry TIMER_INACTIVE None) t)
  else t.

(** ** Flags, references and transports *)

Definition has_flag (t : pjsip_transaction) (f : Z) : bool := truth (Z.land (transport_flag t) f).
Definition set_flag (f : Z) (t : pjsip_transaction) : pjsip_transaction :=
  t <| transport_flag ::= fun x => Z.lor x f |>.
Definition clear_flag (f : Z) (t : pjsip_transaction) : pjsip_transaction :=
  t <| transport_flag ::= fun x => Z.land x (Z.lnot f) |>.

Definition emit (a : action) (t : pjsip_transaction) : pjsip_transaction :=
  t <| trace ::= cons a |>.

Definition same_tdata (a : option pjsip_tx_data) (d : pjsip_tx_data) : bool :=
  match a with Some x => tdata_id x =? tdata_id d | None => false end.
Definition same_transport (a b : option pjsip_transport) : bool :=
  match a, b with
  | Some x, Some y => tp_id x =? tp_id y
  | None, None => true
  | _, _ => false
  end.

(** [pjsip_tx_data_dec_ref(tsx->last_tx); tsx->last_tx = NULL]. *)
Definition drop_last_tx (t : pjsip_transaction) : pjsip_transaction :=
  match last_tx t with
  | Some d => (emit (tx_dec_ref (tdata_id d)) t) <| last_tx := None |>
  | None => t
  end.

(** [if (tsx->last_tx != tdata) { tsx->last_tx = tdata; add_ref }]. *)
Definition keep_last_tx (d : pjsip_tx_data) (t : pjsip_transaction) : pjsip_transaction :=
  if same_tdata (last_tx t) d then t
  else emit (tx_add_ref (tdata_id d)) (t <| last_tx := Some d |>).

(** [if (tsx->last_tx && tsx->last_tx != tdata)] drop it. *)
Definition discard_other_last_tx (d : pjsip_tx_data) (t : pjsip_transaction) : pjsip_transaction :=
  if same_tdata (last_tx t) d then t else drop_last_tx t.

Definition tsx_tp_state_callback (status : Z) (t : pjsip_transaction) : pjsip_transaction :=
  let t := t <| transport_err := status |> in
  if state t <s PJSIP_TSX_STATE_COMPLETED
  then tsx_schedule_timer timeout_entry zero_val TRANSPORT_ERR_TIMER
         (tsx_cancel_timer timeout_entry t)
  else t.

Definition tsx_update_transport (tp : option pjsip_transport) (t : pjsip_transaction) :
    pjsip_transaction :=
  let t :=
    match transport t with
    | Some old =>
        let t := if tp_st_key t then emit (tp_unlisten (tp_id old)) t else t in
        (emit (tp_dec_ref (tp_id old)) t) <| transport := None |>
    | None => t
    end in
  match tp with
  | Some tp =>
      let t := emit (tp_add_ref (tp_id tp)) (t <| transport := Some tp |>) in
      let t := (emit (tp_listen (tp_id tp)) t) <| tp_st_key := true |> in
      if is_shutdown tp then tsx_tp_state_callback PJSIP_SC_TSX_TRANSPORT_ERROR t else t
  | None => t
  end.

(** [tdata->mod_data[...] = tsx; tsx->pending_tx = tdata], and its undoing. *)
Definition attach (tdata : pjsip_tx_data) (t : pjsip_transaction) : pjsip_transaction :=
  t <| mod_data ::= fun m => {[tdata_id tdata]} ∪ m |> <| pending_tx := Some tdata |>.
Definition detach (tdata : pjsip_tx_data) (t : pjsip_transaction) : pjsip_transaction :=
  t <| mod_data ::= fun m => m ∖ {[tdata_id tdata]} |> <| pending_tx := None |>.

(** ** State changes *)

Definition tsx_state_handler_uac (s : pjsip_tsx_state_e) : option tsx_handler :=
  match s with
  | PJSIP_TSX_STATE_NULL => Some h_on_state_null
  | PJSIP_TSX_STATE_CALLING => Some h_on_state_calling
  | PJSIP_TSX_STATE_TRYING => None
  | PJSIP_TSX_STATE_PROCEEDING => Some h_on_state_proceeding_uac
  | PJSIP_TSX_STATE_COMPLETED => Some h_on_state_completed_uac
  | PJSIP_TSX_STATE_CONFIRMED => Some h_on_state_confirmed
  | PJSIP_TSX_STATE_TERMINATED => Some h_on_state_terminated
  | PJSIP_TSX_STATE_DESTROYED => Some h_on_state_destroyed
  end.

Definition tsx_state_handler_uas (s : pjsip_tsx_state_e) : option tsx_handler :=
  match s with
  | PJSIP_TSX_STATE_NULL => Some h_on_state_null
  | PJSIP_TSX_STATE_CALLING => None
  | PJSIP_TSX_STATE_TRYING => Some h_on_state_trying
  | PJSIP_TSX_STATE_PROCEEDING => Some h_on_state_proceeding_uas
  | PJSIP_TSX_STATE_COMPLETED => Some h_on_state_completed_uas
  | PJSIP_TSX_STATE_CONFIRMED => Some h_on_state_confirmed
  | PJSIP_TSX_STATE_TERMINATED => Some h_on_state_terminated
  | PJSIP_TSX_STATE_DESTROYED => Some h_on_state_destroyed
  end.

Definition mod_tsx_layer_unregister_tsx (t : pjsip_transaction) : pjsip_transaction :=
  if mod_tsx_layer_id t =? -1 then t else emit unregistered t.

Definition tsx_shutdown (t : pjsip_transaction) : pjsip_transaction :=
  let t := tsx_update_transport None t in
  let t := drop_last_tx t in
  let t := tsx_cancel_timer timeout_entry t in
  let t := tsx_cancel_timer retransmit_entry t in
  let t := clear_flag (Z.lor TSX_HAS_PENDING_RESCHED TSX_HAS_PENDING_SEND) t in
  let t :=
    if has_flag t TSX_HAS_PENDING_TRANSPORT
    then (set_flag TSX_HAS_PENDING_DESTROY t) <| tsx_user := None |> else t in
  if negb (terminating t) then pj_grp_lock_dec_ref (t <| terminating := true |>) else t.

(** The two notifications. *)
Definition notify_rx (src : pjsip_event) (flag : Z) (t : pjsip_transaction) : pjsip_transaction :=
  match src, tsx_user t with
  | PJSIP_EVENT_RX_MSG (PJSIP_RESPONSE_MSG code), Some u =>
      if (Z.land flag NO_NOTIFY =? 0) && has_on_rx_response u
      then emit (on_rx_response code) t else t
  | _, _ => t
  end.

Definition notify_state (src : pjsip_event) (prev_state : pjsip_tsx_state_e)
    (t : pjsip_transaction) : pjsip_transaction :=
  match tsx_user t with
  | Some u => if has_on_tsx_state u then emit (on_tsx_state src prev_state (state t)) t else t
  | None => t
  end.

Definition tsx_set_state (s : pjsip_tsx_state_e) (src : pjsip_event) (flag : Z)
    (t : pjsip_transaction) : pjsip_transaction :=
  let prev_state := state t in
  let t := t <| state := s |> in
  let t := t <| state_handler :=
    match role t with
    | PJSIP_ROLE_UAC => tsx_state_handler_uac s
    | PJSIP_ROLE_UAS => tsx_state_handler_uas s
    end |> in
  let t := notify_rx src flag t in
  let t := if Z.land flag NO_NOTIFY =? 0 then notify_state src prev_state t else t in
  match s with
  | PJSIP_TSX_STATE_TERMINATED =>
      let t :=
        if has_flag t TSX_HAS_PENDING_TRANSPORT then
          let t := match pending_tx t with Some d => detach d t | None => t end in
          clear_flag TSX_HAS_PENDING_TRANSPORT t
        else t in
      let t := tsx_cancel_timer timeout_entry t in
      if Z.land flag NO_SCHEDULE_HANDLER =? 0
      then tsx_schedule_timer timeout_entry zero_val TIMEOUT_TIMER t else t
  | PJSIP_TSX_STATE_DESTROYED => tsx_shutdown (mod_tsx_layer_unregister_tsx t)
  | _ => t
  end.

Definition tsx_set_status_code (code : Z) (t : pjsip_transaction) : pjsip_transaction :=
  t <| status_code := code |>.

(** ** Retransmission timer *)

Definition tsx_resched_retransmission (t : pjsip_transaction) : pjsip_transaction :=
  let msec_time :=
    if bool_decide (role t = PJSIP_ROLE_UAC) && (status_code t >=? 100) then t2 cfg
    else u32 (Z.shiftl 1 (retransmit_count t) * t1 cfg) in
  let msec_time :=
    match role t with
    | PJSIP_ROLE_UAC =>
        if (msec_time >? t2 cfg) && negb (bool_decide (method t = PJSIP_INVITE_METHOD))
        then t2 cfg else msec_time
    | PJSIP_ROLE_UAS =>
        if status_code t <? 200 then PJSIP_TSX_1XX_RETRANS_DELAY * 1000
        else if msec_time >? t2 cfg then t2 cfg else msec_time
    end in
  if negb (msec_time =? 0)
  then tsx_schedule_timer retransmit_entry (msec_val msec_time) RETRANSMIT_TIMER t
  else t.

(** ** Sending

    [tsx_send_msg] and [send_msg_callback] call each other when the resolver
    makes its callback before it returns; the callback marks the server as
    resolved first, and then the inner call does not reach the resolver.
    [depth] is the number of nested resolver calls. *)

(** The callback when the message was sent. *)
Definition callback_sent (send : pjsip_tx_data -> pjsip_transaction -> pjsip_transaction * Z)
    (o : send_outcome) (t : pjsip_transaction) : pjsip_transaction :=
  let t :=
    match cur_transport o with
    | Some tp =>
        if same_transport (transport t) (cur_transport o) then t
        else (tsx_update_transport (cur_transport o) t) <| is_reliable := tp_reliable tp |>
    | None => t
    end in
  let t := set_flag TSX_HAS_RESOLVED_SERVER (clear_flag TSX_HAS_PENDING_TRANSPORT t) in
  if has_flag t TSX_HAS_PENDING_DESTROY then
    tsx_set_state PJSIP_TSX_STATE_DESTROYED PJSIP_EVENT_UNKNOWN 0 t
  else
  let t :=
    if has_flag t TSX_HAS_PENDING_SEND then
      let t := clear_flag TSX_HAS_PENDING_SEND t in
      match last_tx t with
      | Some d => (send d t).1
      | None => t
      end
    else t in
  if has_flag t TSX_HAS_PENDING_RESCHED && negb (has_flag t TSX_HAS_PENDING_TRANSPORT) then
    let t := clear_flag TSX_HAS_PENDING_RESCHED t in
    if negb (is_reliable t) then tsx_resched_retransmission t else t
  else t.

(** The callback when it was not: the last server failed, or one is left. *)
Definition callback_failed (tdata : pjsip_tx_data) (o : send_outcome) (t : pjsip_transaction) :
    pjsip_transaction :=
  let t := if same_transport (cur_transport o) (transport t)
           then tsx_update_transport None t else t in
  if negb (cont o) || has_flag t TSX_HAS_PENDING_DESTROY then
    let t := t <| transport_err := - sent o |> in
    let t := set_flag TSX_HAS_RESOLVED_SERVER (clear_flag TSX_HAS_PENDING_TRANSPORT t) in
    let sc := if (- sent o =? PJ_ERESOLVE) || (- sent o =? PJLIB_UTIL_EDNS_NXDOMAIN)
              then PJSIP_SC_BAD_GATEWAY else PJSIP_SC_TSX_TRANSPORT_ERROR in
    let t := tsx_set_status_code sc t in
    if negb (bool_decide (state t = PJSIP_TSX_STATE_TERMINATED)) &&
       negb (bool_decide (state t = PJSIP_TSX_STATE_DESTROYED))
    then tsx_set_state PJSIP_TSX_STATE_TERMINATED PJSIP_EVENT_TRANSPORT_ERROR 0 t
    else if has_flag t TSX_HAS_PENDING_DESTROY
    then tsx_set_state PJSIP_TSX_STATE_DESTROYED PJSIP_EVENT_TRANSPORT_ERROR 0 t
    else t
  else
    let t := t <| retransmit_count := 0 |> in
    let t :=
      if negb (id (timeout_timer t) =? 0)
      then tsx_schedule_timer timeout_entry timeout_timer_val TIMEOUT_TIMER
             (tsx_cancel_timer timeout_entry t)
      else t in
    pj_grp_lock_add_ref (attach tdata t).

Definition send_msg_callback (send : pjsip_tx_data -> pjsip_transaction -> pjsip_transaction * Z)
    (tdata : pjsip_tx_data) (t : pjsip_transaction) (o : send_outcome) : pjsip_transaction :=
  if (mod_tsx_layer_id t <? 0) || negb (bool_decide (tdata_id tdata ∈ mod_data t)) then
    if mod_tsx_layer_id t >=? 0 then pj_grp_lock_dec_ref t else t
  else
    let t := detach tdata (pj_grp_lock_dec_ref t) in
    if sent o >? 0 then callback_sent send o t else callback_failed tdata o t.

Definition is_request (d : pjsip_tx_data) : bool :=
  match msg d with PJSIP_REQUEST_MSG _ => true | _ => false end.

(** The part of [tsx_send_msg] that uses the transport the transaction has:
    the state, the status, and whether the function returns there. *)
Definition send_on_transport (tdata : pjsip_tx_data) (t : pjsip_transaction) :
    pjsip_transaction * Z * bool :=
  match transport t with
  | None => (t, PJ_SUCCESS, false)
  | Some tp =>
      let t := pj_grp_lock_add_ref t in
      let t := set_flag TSX_HAS_PENDING_TRANSPORT t in
      let status := pjsip_transport_send t tp tdata in
      let t := emit (sent_via (tp_id tp) (tdata_id tdata)) t in
      let '(t, status) :=
        if status =? PJ_EPENDING then (t, PJ_SUCCESS)
        else (pj_grp_lock_dec_ref (clear_flag TSX_HAS_PENDING_TRANSPORT t), status) in
      if negb (status =? PJ_SUCCESS) then
        let t := tsx_update_transport None t in
        (t <| res_addr_transport := None |>, status, false)
      else (t, PJ_SUCCESS, true)
  end.

(** The end of [tsx_send_msg], with the callbacks [cbs] the resolver made before
    it returned [status]. *)
Definition send_resolving (cb : pjsip_transaction -> send_outcome -> pjsip_transaction)
    (tdata : pjsip_tx_data) (t : pjsip_transaction) : pjsip_transaction * Z :=
  let t := emit (tx_add_ref (tdata_id tdata)) t in
  let t := pj_grp_lock_add_ref (attach tdata t) in
  let t := set_flag TSX_HAS_PENDING_TRANSPORT t in
  let '(cbs, status) :=
    if is_request tdata then pjsip_endpt_send_request_stateless t tdata
    else pjsip_endpt_send_response t tdata in
  let t := fold_left cb cbs (emit (sent_stateless (tdata_id tdata)) t) in
  let status := if status =? PJ_EPENDING then PJ_SUCCESS else status in
  let t :=
    if negb (status =? PJ_SUCCESS) then
      let t := if is_request tdata then pj_grp_lock_dec_ref t else t in
      detach tdata (emit (tx_dec_ref (tdata_id tdata)) t)
    else t in
  let status :=
    if (status =? PJ_SUCCESS) && bool_decide (state t = PJSIP_TSX_STATE_TERMINATED)
    then transport_err t else status in
  (t, status).

Fixpoint tsx_send_msg_depth (depth : nat) (tdata : pjsip_tx_data) (t : pjsip_transaction) :
    pjsip_transaction * Z :=
  if has_flag t TSX_HAS_PENDING_TRANSPORT then (set_flag TSX_HAS_PENDING_SEND t, PJ_SUCCESS)
  else if is_pending t tdata then (t, PJ_SUCCESS)
  else
    match send_on_transport tdata t with
    | (t, status, true) => (t, status)
    | (t, status, false) =>
        if has_flag t TSX_HAS_RESOLVED_SERVER then
          let status := if status =? PJ_SUCCESS then PJ_EUNKNOWN else status in
          let t := tsx_set_status_code PJSIP_SC_TSX_TRANSPORT_ERROR t in
          (tsx_set_state PJSIP_TSX_STATE_TERMINATED PJSIP_EVENT_TRANSPORT_ERROR 0 t, status)
        else
          match depth with
          | O => (t, PJ_EBUG)
          | S depth =>
              send_resolving (send_msg_callback (tsx_send_msg_depth depth) tdata) tdata t
          end
    end.

Definition tsx_send_msg : pjsip_tx_data -> pjsip_transaction -> pjsip_transaction * Z :=
  tsx_send_msg_depth 1.

(** The callback of a send that was pending. *)
Definition transport_callback (t : pjsip_transaction) (sent : Z) : pjsip_transaction :=
  let t := clear_flag TSX_HAS_PENDING_TRANSPORT t in
  let t :=
    if sent <? 0 then
      let t := t <| transport_err := - sent |> in
      if state t <s PJSIP_TSX_STATE_COMPLETED
      then tsx_schedule_timer timeout_entry zero_val TRANSPORT_ERR_TIMER
             (tsx_cancel_timer timeout_entry t)
      else t
    else t in
  pj_grp_lock_dec_ref t.

Definition tsx_retransmit (resched : bool) (t : pjsip_transaction) : pjsip_transaction * Z :=
  if resched && pj_timer_entry_running (retransmit_timer t) then (t, PJ_SUCCESS)
  else
    match last_tx t with
    | None => (t, PJ_EBUG)
    | Some d =>
        let t := t <| retransmit_count ::= Z.add 1 |> in
        let t :=
          if resched then
            if has_flag t TSX_HAS_PENDING_TRANSPORT then set_flag TSX_HAS_PENDING_RESCHED t
            else tsx_resched_retransmission t
          else t in
        tsx_send_msg d t
    end.

(** ** The state handlers *)

Definition is_invite (t : pjsip_transaction) : bool :=
  bool_decide (method t = PJSIP_INVITE_METHOD).

Definition PJSIP_IS_STATUS_IN_CLASS (status_code code_class : Z) : bool :=
  status_code ÷ 100 =? code_class ÷ 100.

(** [cancel] then [schedule] under the timer lock. *)
Definition restart_timeout (delay : pj_time_val) (t : pjsip_transaction) : pjsip_transaction :=
  tsx_schedule_timer timeout_entry delay TIMEOUT_TIMER (tsx_cancel_timer timeout_entry t).

(** Start the retransmission timer, or leave that to the end of a pending send. *)
Definition start_retransmit (delay : pj_time_val) (t : pjsip_transaction) : pjsip_transaction :=
  let t := t <| retransmit_count := 0 |> in
  if has_flag t TSX_HAS_PENDING_TRANSPORT then set_flag TSX_HAS_PENDING_RESCHED t
  else tsx_schedule_timer retransmit_entry delay RETRANSMIT_TIMER t.

Definition tsx_on_state_null (event : pjsip_event) (t : pjsip_transaction) :
    pjsip_transaction * Z :=
  match role t with
  | PJSIP_ROLE_UAS => (tsx_set_state PJSIP_TSX_STATE_TRYING event 0 t, PJ_SUCCESS)
  | PJSIP_ROLE_UAC =>
      match event with
      | PJSIP_EVENT_TX_MSG tdata =>
          let t := discard_other_last_tx tdata t in
          let t := keep_last_tx tdata t in
          let '(t, status) := tsx_send_msg tdata t in
          if negb (status =? PJ_SUCCESS) then (t, status) else
          let t := restart_timeout timeout_timer_val t in
          let t := if negb (is_reliable t) then start_retransmit t1_timer_val t else t in
          (tsx_set_state PJSIP_TSX_STATE_CALLING event 0 t, PJ_SUCCESS)
      | _ => (t, PJ_EBUG)
      end
  end.

Definition is_timeout_event (event : pjsip_event) : bool :=
  match event with PJSIP_EVENT_TIMER timeout_entry => true | _ => false end.

(** Timers D and K, in the order the code chooses between them. *)
Definition completed_uac_delay (t : pjsip_transaction) : pj_time_val :=
  if negb (is_reliable t) then if is_invite t then td_timer_val else t4_timer_val
  else zero_val.

(** The final response is answered: Completed, with the ACK kept for an INVITE. *)
Definition complete_uac (event : pjsip_event) (ack : option pjsip_tx_data)
    (t : pjsip_transaction) : pjsip_transaction :=
  let t := tsx_set_state PJSIP_TSX_STATE_COMPLETED event 0 t in
  let t :=
    match ack with
    | Some ack =>
        if same_tdata (last_tx t) ack then t else (drop_last_tx t) <| last_tx := Some ack |>
    | None => t
    end in
  restart_timeout (completed_uac_delay t) t.

(** The end of [tsx_on_state_proceeding_uac], once [status_code] is set. *)
Definition proceeding_uac_status (event : pjsip_event) (t : pjsip_transaction) :
    pjsip_transaction * Z :=
  if PJSIP_IS_STATUS_IN_CLASS (status_code t) 100 then
    (tsx_set_state PJSIP_TSX_STATE_PROCEEDING event 0 t, PJ_SUCCESS)
  else if PJSIP_IS_STATUS_IN_CLASS (status_code t) 200 then
    let t := tsx_cancel_timer timeout_entry t in
    if is_invite t then (tsx_set_state PJSIP_TSX_STATE_TERMINATED event 0 t, PJ_SUCCESS)
    else
      let t := tsx_schedule_timer timeout_entry (completed_uac_delay t) TIMEOUT_TIMER t in
      let t := tsx_cancel_timer retransmit_entry t in
      (tsx_set_state PJSIP_TSX_STATE_COMPLETED event 0 t, PJ_SUCCESS)
  else if is_timeout_event event then
    (tsx_set_state PJSIP_TSX_STATE_TERMINATED event 0 t, PJ_SUCCESS)
  else if (status_code t >=? 300) && (status_code t <=? 699) then
    let t := tsx_cancel_timer retransmit_entry t in
    let t := tsx_cancel_timer timeout_entry t in
    if is_invite t then
      match event with
      | PJSIP_EVENT_RX_MSG rdata =>
          match pjsip_endpt_create_ack (last_tx t) rdata with
          | inr status => (t, status)
          | inl ack =>
              let '(t, status) := tsx_send_msg ack t in
              if negb (status =? PJ_SUCCESS) then (t, status) else (complete_uac event (Some ack) t, PJ_SUCCESS)
          end
      | _ => (t, PJ_EBUG)
      end
    else (complete_uac event None t, PJ_SUCCESS)
  else (t, PJ_EBUG).

Definition tsx_on_state_proceeding_uac (event : pjsip_event) (t : pjsip_transaction) :
    pjsip_transaction * Z :=
  match event with
  | PJSIP_EVENT_RX_MSG (PJSIP_RESPONSE_MSG code) =>
      proceeding_uac_status event (tsx_set_status_code code t)
  | PJSIP_EVENT_RX_MSG (PJSIP_REQUEST_MSG _) => (t, PJSIP_ENOTRESPONSEMSG)
  | PJSIP_EVENT_TIMER retransmit_entry => tsx_retransmit true t
  | PJSIP_EVENT_TIMER timeout_entry =>
      proceeding_uac_status event (tsx_set_status_code PJSIP_SC_TSX_TIMEOUT t)
  | _ => (t, PJ_EINVALIDOP)
  end.

Definition tsx_on_state_calling (event : pjsip_event) (t : pjsip_transaction) :
    pjsip_transaction * Z :=
  match event with
  | PJSIP_EVENT_TIMER retransmit_entry =>
      let '(t, status) := tsx_retransmit true t in
      if negb (status =? PJ_SUCCESS) then (t, status) else (t, PJ_SUCCESS)
  | PJSIP_EVENT_TIMER timeout_entry =>
      let t := tsx_cancel_timer retransmit_entry t in
      let t := clear_flag TSX_HAS_PENDING_RESCHED t in
      let t := tsx_set_status_code PJSIP_SC_TSX_TIMEOUT t in
      (tsx_set_state PJSIP_TSX_STATE_TERMINATED event 0 t, PJ_SUCCESS)
  | PJSIP_EVENT_RX_MSG (PJSIP_REQUEST_MSG _) => (t, PJSIP_ENOTRESPONSEMSG)
  | PJSIP_EVENT_RX_MSG (PJSIP_RESPONSE_MSG code) =>
      let t := tsx_cancel_timer retransmit_entry t in
      let t :=
        if code >=? 200 then
          if negb (id (timeout_timer t) =? 0) then tsx_cancel_timer timeout_entry t else t
        else if is_invite t then tsx_cancel_timer timeout_entry t
        else if negb (is_reliable t)
        then tsx_schedule_timer retransmit_entry t2_timer_val RETRANSMIT_TIMER t
        else t in
      let t := clear_flag TSX_HAS_PENDING_RESCHED t in
      ((tsx_on_state_proceeding_uac event t).1, PJ_SUCCESS)
  | _ => (t, PJ_EBUG)
  end.

(** What [tsx_on_state_proceeding_uas] does after the response was sent. *)
Definition proceeding_uas_sent (tdata : pjsip_tx_data) (t : pjsip_transaction) :
    pjsip_transaction :=
  let event := PJSIP_EVENT_TX_MSG tdata in
  if PJSIP_IS_STATUS_IN_CLASS (status_code t) 100 then
    let t := keep_last_tx tdata t in
    let t := tsx_set_state PJSIP_TSX_STATE_PROCEEDING event 0 t in
    if (PJSIP_TSX_1XX_RETRANS_DELAY >? 0) && is_invite t && (status_code t >? 100)
    then start_retransmit (TV PJSIP_TSX_1XX_RETRANS_DELAY 0) (tsx_cancel_timer retransmit_entry t)
    else t
  else if PJSIP_IS_STATUS_IN_CLASS (status_code t) 200 then
    let t := tsx_cancel_timer retransmit_entry t in
    if is_invite t && (handle_200resp t =? 0)
    then tsx_set_state PJSIP_TSX_STATE_TERMINATED event 0 t
    else
      let t := if is_invite t then start_retransmit t1_timer_val t else t in
      let t := keep_last_tx tdata t in
      let timeout :=
        if is_invite t then timeout_timer_val
        else if negb (is_reliable t) then timeout_timer_val
        else zero_val in
      let t := restart_timeout timeout t in
      tsx_set_state PJSIP_TSX_STATE_COMPLETED event 0 t
  else if status_code t >=? 300 then
    let t := tsx_cancel_timer retransmit_entry t in
    let t := keep_last_tx tdata t in
    let t := tsx_cancel_timer timeout_entry t in
    let t :=
      if is_invite t then tsx_schedule_timer timeout_entry timeout_timer_val TIMEOUT_TIMER t
      else if negb (is_reliable t)
      then tsx_schedule_timer timeout_entry timeout_timer_val TIMEOUT_TIMER t
      else tsx_schedule_timer timeout_entry zero_val TIMEOUT_TIMER t in
    let t :=
      if negb (is_reliable t) && bool_decide (cseq_method tdata = PJSIP_INVITE_METHOD)
      then start_retransmit t1_timer_val t else t in
    tsx_set_state PJSIP_TSX_STATE_COMPLETED event 0 t
  else t.

Definition tsx_on_state_proceeding_uas (event : pjsip_event) (t : pjsip_transaction) :
    pjsip_transaction * Z :=
  match event with
  | PJSIP_EVENT_RX_MSG _ =>
      match last_tx t with
      | None => (t, PJ_EBUG)
      | Some d =>
          if has_flag t TSX_HAS_PENDING_TRANSPORT
          then (set_flag TSX_HAS_PENDING_SEND t, PJ_SUCCESS)
          else tsx_send_msg d t
      end
  | PJSIP_EVENT_TX_MSG tdata =>
      match msg tdata with
      | PJSIP_REQUEST_MSG _ => (t, PJSIP_ENOTRESPONSEMSG)
      | PJSIP_RESPONSE_MSG code =>
          let t := tsx_set_status_code code t in
          let t := discard_other_last_tx tdata t in
          let '(t, status) := tsx_send_msg tdata t in
          if negb (status =? PJ_SUCCESS) then (t, status)
          else (proceeding_uas_sent tdata t, PJ_SUCCESS)
      end
  | PJSIP_EVENT_TIMER retransmit_entry => tsx_retransmit true t
  | PJSIP_EVENT_TIMER timeout_entry =>
      let t := tsx_set_status_code PJSIP_SC_TSX_TIMEOUT t in
      (tsx_set_state PJSIP_TSX_STATE_TERMINATED event 0 t, PJ_EBUG)
  | _ => (t, PJ_EBUG)
  end.

Definition tsx_on_state_trying (event : pjsip_event) (t : pjsip_transaction) :
    pjsip_transaction * Z :=
  match event with
  | PJSIP_EVENT_TX_MSG _ =>
      let '(t, status) := tsx_on_state_proceeding_uas event t in
      let t :=
        if (status =? PJ_SUCCESS) && bool_decide (state t = PJSIP_TSX_STATE_TRYING)
        then tsx_set_state PJSIP_TSX_STATE_PROCEEDING event 0 t else t in
      (t, status)
  | _ => (t, PJ_SUCCESS)
  end.

Definition tsx_on_state_completed_uas (event : pjsip_event) (t : pjsip_transaction) :
    pjsip_transaction * Z :=
  match event with
  | PJSIP_EVENT_RX_MSG (PJSIP_RESPONSE_MSG _) => (t, PJSIP_ENOTREQUESTMSG)
  | PJSIP_EVENT_RX_MSG (PJSIP_REQUEST_MSG m) =>
      if negb (bool_decide (m = PJSIP_ACK_METHOD)) then tsx_retransmit false t
      else if negb (is_invite t) then (t, PJSIP_EINVALIDMETHOD)
      else
        let t := tsx_cancel_timer retransmit_entry t in
        let t := clear_flag TSX_HAS_PENDING_RESCHED t in
        let t := restart_timeout (if is_reliable t then zero_val else t4_timer_val) t in
        (tsx_set_state PJSIP_TSX_STATE_CONFIRMED event 0 t, PJ_SUCCESS)
  | PJSIP_EVENT_TIMER retransmit_entry => tsx_retransmit true t
  | PJSIP_EVENT_TIMER timeout_entry =>
      let t := if is_invite t then tsx_set_status_code PJSIP_SC_TSX_TIMEOUT t else t in
      (tsx_set_state PJSIP_TSX_STATE_TERMINATED event 0 t, PJ_SUCCESS)
  | PJSIP_EVENT_TX_MSG tdata =>
      (t, if same_tdata (last_tx t) tdata then PJ_SUCCESS else PJ_EINVALIDOP)
  | _ => (t, PJ_EINVALIDOP)
  end.

Definition tsx_on_state_completed_uac (event : pjsip_event) (t : pjsip_transaction) :
    pjsip_transaction * Z :=
  match event with
  | PJSIP_EVENT_TIMER retransmit_entry => (t, PJ_SUCCESS)
  | PJSIP_EVENT_TIMER timeout_entry =>
      (tsx_set_state PJSIP_TSX_STATE_TERMINATED event 0 t, PJ_SUCCESS)
  | PJSIP_EVENT_RX_MSG rdata =>
      match is_invite t, rdata with
      | true, PJSIP_RESPONSE_MSG code =>
          if code >=? 200 then tsx_retransmit false t else (t, PJ_SUCCESS)
      | _, _ => (t, PJ_SUCCESS)
      end
  | _ => (t, PJ_EINVALIDOP)
  end.

Definition tsx_on_state_confirmed (event : pjsip_event) (t : pjsip_transaction) :
    pjsip_transaction * Z :=
  match event with
  | PJSIP_EVENT_RX_MSG (PJSIP_RESPONSE_MSG _) => (t, PJSIP_ENOTREQUESTMSG)
  | PJSIP_EVENT_RX_MSG (PJSIP_REQUEST_MSG _) => (t, PJ_SUCCESS)
  | PJSIP_EVENT_TIMER retransmit_entry => (t, PJ_SUCCESS)
  | PJSIP_EVENT_TIMER timeout_entry =>
      (tsx_set_state PJSIP_TSX_STATE_TERMINATED event 0 t, PJ_SUCCESS)
  | _ => (t, PJ_EBUG)
  end.

Definition tsx_on_state_terminated (event : pjsip_event) (t : pjsip_transaction) :
    pjsip_transaction * Z :=
  match event with
  | PJSIP_EVENT_TIMER _ => (tsx_set_state PJSIP_TSX_STATE_DESTROYED event 0 t, PJ_SUCCESS)
  | _ => (t, PJ_EIGNORED)
  end.

Definition tsx_on_state_destroyed (event : pjsip_event) (t : pjsip_transaction) :
    pjsip_transaction * Z :=
  (t, PJ_EIGNORED).

(** The call through [tsx->state_handler]; [None] is a call of a null pointer. *)
Definition call_handler (event : pjsip_event) (t : pjsip_transaction) :
    option (pjsip_transaction * Z) :=
  match state_handler t with
  | None => None
  | Some h =>
      Some (match h with
            | h_on_state_null => tsx_on_state_null
            | h_on_state_calling => tsx_on_state_calling
            | h_on_state_trying => tsx_on_state_trying
            | h_on_state_proceeding_uac => tsx_on_state_proceeding_uac
            | h_on_state_proceeding_uas => tsx_on_state_proceeding_uas
            | h_on_state_completed_uac => tsx_on_state_completed_uac
            | h_on_state_completed_uas => tsx_on_state_completed_uas
            | h_on_state_confirmed => tsx_on_state_confirmed
            | h_on_state_terminated => tsx_on_state_terminated
            | h_on_state_destroyed => tsx_on_state_destroyed
            end event t)
  end.

(** ** Entry points *)

Definition tsx_timer_callback (w : tsx_timer) (t : pjsip_transaction) :
    option pjsip_transaction :=
  if negb (state t <s PJSIP_TSX_STATE_DESTROYED) then Some t
  else if id (get_timer w t) =? TRANSPORT_ERR_TIMER then
    let t := set_timer w ((get_timer w t) <| id := 0 |>) t in
    if state t <s PJSIP_TSX_STATE_TERMINATED then
      let prev_state := state t in
      let t := tsx_update_transport None t in
      let t := if status_code t <? 200
               then tsx_set_status_code PJSIP_SC_TSX_TRANSPORT_ERROR t else t in
      let t := tsx_set_state PJSIP_TSX_STATE_TERMINATED PJSIP_EVENT_TRANSPORT_ERROR
                 (Z.lor NO_NOTIFY NO_SCHEDULE_HANDLER) t in
      let t := notify_state PJSIP_EVENT_TRANSPORT_ERROR prev_state t in
      Some (tsx_schedule_timer timeout_entry zero_val TIMEOUT_TIMER t)
    else Some t
  else
    let t := set_timer w ((get_timer w t) <| id := 0 |>) t in
    match call_handler (PJSIP_EVENT_TIMER w) t with
    | Some (t, _) => Some t
    | None => None
    end.

(** The timer heap takes a due entry out, calls its callback and then drops the
    reference it had on the group lock. *)
Definition timer_fires (w : tsx_timer) (t : pjsip_transaction) : option pjsip_transaction :=
  let t := set_timer w ((get_timer w t) <| running := None |>) t in
  match tsx_timer_callback w t with
  | Some t => Some (pj_grp_lock_dec_ref t)
  | None => None
  end.

Definition pjsip_tsx_terminate (code : Z) (t : pjsip_transaction) : pjsip_transaction * Z :=
  if negb (code >=? 200) then (t, PJ_EINVAL)
  else
    let t :=
      if state t <s PJSIP_TSX_STATE_TERMINATED
      then tsx_set_state PJSIP_TSX_STATE_TERMINATED PJSIP_EVENT_USER 0 (tsx_set_status_code code t)
      else t in
    (t, PJ_SUCCESS).

Definition pjsip_tsx_stop_retransmit (t : pjsip_transaction) : pjsip_transaction * Z :=
  if negb (bool_decide (role t = PJSIP_ROLE_UAC) && is_invite t) then (t, PJ_EINVALIDOP)
  else (tsx_cancel_timer retransmit_entry t, PJ_SUCCESS).

Definition pjsip_tsx_set_timeout (millisec : Z) (t : pjsip_transaction) : pjsip_transaction * Z :=
  if negb (bool_decide (role t = PJSIP_ROLE_UAC) && is_invite t) then (t, PJ_EINVALIDOP)
  else if (status_code t >=? 200) && negb (id (timeout_timer t) =? 0) then (t, PJ_EEXISTS)
  else (restart_timeout (pj_time_val_normalize (TV 0 millisec)) t, PJ_SUCCESS).

Definition pjsip_tsx_send_msg (tdata : option pjsip_tx_data) (t : pjsip_transaction) :
    option (pjsip_transaction * Z) :=
  match (match tdata with Some _ => tdata | None => last_tx t end) with
  | None => Some (t, PJ_EINVALIDOP)
  | Some d =>
      match call_handler (PJSIP_EVENT_TX_MSG d) t with
      | Some (t, status) =>
          Some (if status =? PJ_SUCCESS then emit (tx_dec_ref (tdata_id d)) t else t, status)
      | None => None
      end
  end.

Definition pjsip_tsx_recv_msg (rdata : pjsip_msg) (t : pjsip_transaction) :
    option pjsip_transaction :=
  match call_handler (PJSIP_EVENT_RX_MSG rdata) t with
  | Some (t, _) => Some t
  | None => None
  end.

(** [None] is a null [last_tx] the function dereferences. *)
Definition pjsip_tsx_retransmit_no_state (tdata : option pjsip_tx_data) (t : pjsip_transaction) :
    option (pjsip_transaction * Z) :=
  let t :=
    match tdata, last_tx t with
    | None, Some d => emit (tx_add_ref (tdata_id d)) t
    | _, _ => t
    end in
  match (match tdata with Some _ => tdata | None => last_tx t end) with
  | None => None
  | Some d =>
      let '(t, status) := tsx_send_msg d t in
      Some (if status =? PJ_SUCCESS then emit (tx_dec_ref (tdata_id d)) t else t, status)
  end.

(** *** Creation

    The part of [pjsip_tsx_create_uac2] and [pjsip_tsx_create_uas2] that sets
    the state machine up, once the message is validated and the transaction
    registered. *)

Definition tsx_create (tsx_user : option pjsip_module) (r : pjsip_role_e) (m : pjsip_method_e)
    (mod_id : Z) : pjsip_transaction :=
  Tsx tsx_user false r m 0 PJSIP_TSX_STATE_NULL 1 (Some h_on_state_null) None false None 0 0 None
      false None 0 (TimerEntry TIMER_INACTIVE None) (TimerEntry TIMER_INACTIVE None) 1 ∅ mod_id [].

(** [dst_reliable] is the flag [pjsip_get_request_dest] finds. *)
Definition pjsip_tsx_create_uac2 (tsx_user : option pjsip_module) (tdata : pjsip_tx_data)
    (dst_reliable : bool) (mod_id : Z) : pjsip_transaction + Z :=
  match msg tdata with
  | PJSIP_RESPONSE_MSG _ => inr PJSIP_ENOTREQUESTMSG
  | PJSIP_REQUEST_MSG m =>
      if bool_decide (m = PJSIP_ACK_METHOD) then inr PJ_EINVALIDOP
      else
        let t := tsx_create tsx_user PJSIP_ROLE_UAC m mod_id in
        let t := emit (tx_add_ref (tdata_id tdata)) (t <| last_tx := Some tdata |>) in
        inl (t <| is_reliable := dst_reliable |>)
  end.

(** [res_transport] and [res_reliable] are the response address
    [pjsip_get_response_addr] finds. *)
Definition pjsip_tsx_create_uas2 (tsx_user : option pjsip_module) (rdata : pjsip_msg)
    (res_transport : option pjsip_transport) (res_reliable : bool) (mod_id : Z) :
    pjsip_transaction + Z :=
  match rdata with
  | PJSIP_RESPONSE_MSG _ => inr PJSIP_ENOTREQUESTMSG
  | PJSIP_REQUEST_MSG m =>
      if bool_decide (m = PJSIP_ACK_METHOD) then inr PJ_EINVALIDOP
      else
        let t := (tsx_create tsx_user PJSIP_ROLE_UAS m mod_id) <| res_addr_transport := res_transport |> in
        inl (match res_transport with
             | Some tp => (tsx_update_transport (Some tp) t) <| is_reliable := tp_reliable tp |>
             | None => t <| is_reliable := res_reliable |>
             end)
  end.

(** ** Steps

    What can happen to a transaction: the transaction user's calls, the
    messages the layer hands it, its timers, the callbacks of the sends that
    are pending, and a disconnected transport. *)

Inductive tsx_event :=
  | ev_send (tdata : pjsip_tx_data)
  | ev_recv (rdata : pjsip_msg)
  | ev_timer (w : tsx_timer)
  | ev_terminate (code : Z)
  | ev_stop_retransmit
  | ev_set_timeout (millisec : Z)
  | ev_retransmit_no_state (tdata : option pjsip_tx_data)
  | ev_resolved (tdata : pjsip_tx_data) (o : send_outcome)
  | ev_transport_sent (sent : Z)
  | ev_disconnected (status : Z).

Definition tsx_step (ev : tsx_event) (t : pjsip_transaction) : option pjsip_transaction :=
  match ev with
  | ev_send d => match pjsip_tsx_send_msg (Some d) t with Some (t, _) => Some t | None => None end
  | ev_recv m => pjsip_tsx_recv_msg m t
  | ev_timer w => timer_fires w t
  | ev_terminate code => Some (pjsip_tsx_terminate code t).1
  | ev_stop_retransmit => Some (pjsip_tsx_stop_retransmit t).1
  | ev_set_timeout ms => Some (pjsip_tsx_set_timeout ms t).1
  | ev_retransmit_no_state d =>
      match pjsip_tsx_retransmit_no_state d t with Some (t, _) => Some t | None => None end
  | ev_resolved d o => Some (send_msg_callback tsx_send_msg d t o)
  | ev_transport_sent sent => Some (transport_callback t sent)
  | ev_disconnected status => Some (tsx_tp_state_callback status t)
  end.

End Machine.
