(* ===== verification/TsxMoves.v ===== *)
(** * The moves of a SIP transaction

    Which effects each function of [Transaction] has on the state machine, the
    invariant of a transaction and the transitions it can make, compared with
    the state diagrams of RFC 3261. *)

From stdpp Require Import gmap.
From S2P Require Import Prelude TimeVal Transaction.

Section Quiet.
Context {E : TsxEnv}.

(** ** Effects of the operations on the machine

    [quiet sc t t']: from [t] to [t'] the machine did not move, its timers are
    still in order and its status code is [sc].  [ends sc t t']: it moved to
    Terminated with status code [sc] and its timeout is armed. *)

Definition static (t : pjsip_transaction) :=
  (role t, method t, handle_200resp t, tsx_user t, terminating t, last_tx t, mod_tsx_layer_id t).

Definition armed (t : pjsip_transaction) : Prop := is_Some (running (timeout_timer t)).

(** A running timer has the id of its purpose; a posted transport error waits
    only before Completed. *)
Definition timers_ok (t : pjsip_transaction) : Prop :=
  (is_Some (running (retransmit_timer t)) -> id (retransmit_timer t) = RETRANSMIT_TIMER) /\
  (is_Some (running (timeout_timer t)) ->
   id (timeout_timer t) = TIMEOUT_TIMER \/
   id (timeout_timer t) = TRANSPORT_ERR_TIMER /\ (state t <s PJSIP_TSX_STATE_COMPLETED) = true).

Record quiet (sc : Z) (t t' : pjsip_transaction) : Prop := Quiet {
  q_static : static t' = static t;
  q_state : state t' = state t;
  q_handler : state_handler t' = state_handler t;
  q_status : status_code t' = sc;
  q_destroy : has_flag t' TSX_HAS_PENDING_DESTROY = has_flag t TSX_HAS_PENDING_DESTROY;
  q_armed : armed t -> armed t';
  q_timers : timers_ok t -> timers_ok t'
}.

Record ends (sc : Z) (t t' : pjsip_transaction) : Prop := Ends {
  e_static : static t' = static t;
  e_state : state t' = PJSIP_TSX_STATE_TERMINATED;
  e_handler : state_handler t' = Some h_on_state_terminated;
  e_status : status_code t' = sc;
  e_destroy : has_flag t' TSX_HAS_PENDING_DESTROY = has_flag t TSX_HAS_PENDING_DESTROY;
  e_armed : armed t';
  e_timers : timers_ok t -> timers_ok t'
}.

(** *** Flags *)

Lemma truth_land_bit x k : 0 <= k -> truth (Z.land x (2 ^ k)) = Z.testbit x k.
Proof.
  intros Hk. unfold truth. destruct (Z.testbit x k) eqn:Hx.
  - destruct (Z.eqb_spec (Z.land x (2 ^ k)) 0) as [H0|]; [|done].
    apply (f_equal (fun z => Z.testbit z k)) in H0.
    rewrite Z.land_spec, Z.pow2_bits_true, Hx, Z.bits_0 in H0 by done. done.
  - rewrite (proj2 (Z.eqb_eq _ _)); [done|]. apply Z.bits_inj'. intros n Hn.
    rewrite Z.land_spec, Z.bits_0, Z.pow2_bits_eqb by done.
    destruct (Z.eqb_spec k n) as [->|]; [by rewrite Hx|apply andb_false_r].
Qed.

Lemma has_set_flag j k t : 0 <= j -> 0 <= k ->
  has_flag (set_flag (2 ^ j) t) (2 ^ k) = (j =? k) || has_flag t (2 ^ k).
Proof.
  intros Hj Hk. unfold has_flag. rewrite !truth_land_bit by done. destruct t; cbn.
  rewrite Z.lor_spec, Z.pow2_bits_eqb by done. apply orb_comm.
Qed.

Lemma has_clear_flag j k t : 0 <= j -> 0 <= k ->
  has_flag (clear_flag (2 ^ j) t) (2 ^ k) = negb (j =? k) && has_flag t (2 ^ k).
Proof.
  intros Hj Hk. unfold has_flag. rewrite !truth_land_bit by done. destruct t; cbn.
  rewrite Z.land_spec, Z.lnot_spec, Z.pow2_bits_eqb by done. apply andb_comm.
Qed.

(** Whether a set or cleared flag is the one looked at. *)
Ltac flag_solve :=
  intros;
  change TSX_HAS_PENDING_TRANSPORT with (2 ^ 0); change TSX_HAS_PENDING_RESCHED with (2 ^ 1);
  change TSX_HAS_PENDING_SEND with (2 ^ 2); change TSX_HAS_PENDING_DESTROY with (2 ^ 3);
  change TSX_HAS_RESOLVED_SERVER with (2 ^ 4);
  rewrite ?has_set_flag, ?has_clear_flag by done; simpl; try done.

Definition not_destroy_flag (f : Z) : Prop :=
  f = TSX_HAS_PENDING_TRANSPORT \/ f = TSX_HAS_PENDING_RESCHED \/ f = TSX_HAS_PENDING_SEND \/
  f = TSX_HAS_RESOLVED_SERVER.

Lemma set_flag_destroy f t : not_destroy_flag f ->
  has_flag (set_flag f t) TSX_HAS_PENDING_DESTROY = has_flag t TSX_HAS_PENDING_DESTROY.
Proof. intros [-> | [-> | [-> | ->]]]; flag_solve. Qed.
Lemma clear_flag_destroy f t : not_destroy_flag f ->
  has_flag (clear_flag f t) TSX_HAS_PENDING_DESTROY = has_flag t TSX_HAS_PENDING_DESTROY.
Proof. intros [-> | [-> | [-> | ->]]]; flag_solve. Qed.

(** *** Quiet operations *)

Lemma quiet_refl t : quiet (status_code t) t t.
Proof. by constructor. Qed.

Lemma quiet_trans sc sc' t t' t'' : quiet sc t t' -> quiet sc' t' t'' -> quiet sc' t t''.
Proof. intros [] []. constructor; try congruence; auto. Qed.

Lemma quiet_ends sc sc' t t' t'' : quiet sc t t' -> ends sc' t' t'' -> ends sc' t t''.
Proof. intros [] []. constructor; try congruence; auto. Qed.
Lemma ends_quiet sc sc' t t' t'' : ends sc t t' -> quiet sc' t' t'' -> ends sc' t t''.
Proof. intros [] []. constructor; try congruence; auto. Qed.
Lemma ends_ends sc sc' t t' t'' : ends sc t t' -> ends sc' t' t'' -> ends sc' t t''.
Proof. intros [] []. constructor; try congruence; auto. Qed.

(** One goal per field that does not compute to itself. *)
Ltac quiet_field :=
  let H := fresh "H" in
  intros H; apply (quiet_trans _ _ _ _ _ H); destruct H as [_ _ _ <- _ _ _];
  lazymatch goal with |- quiet _ ?t _ => destruct t end; by constructor.

Lemma quiet_emit a sc t t' : quiet sc t t' -> quiet sc t (emit a t').
Proof. quiet_field. Qed.
Lemma quiet_add_ref sc t t' : quiet sc t t' -> quiet sc t (pj_grp_lock_add_ref t').
Proof. quiet_field. Qed.
Lemma quiet_dec_ref sc t t' : quiet sc t t' -> quiet sc t (pj_grp_lock_dec_ref t').
Proof. quiet_field. Qed.
Lemma quiet_transport_err e sc t t' : quiet sc t t' -> quiet sc t (t' <| transport_err := e |>).
Proof. quiet_field. Qed.
Lemma quiet_reliable b sc t t' : quiet sc t t' -> quiet sc t (t' <| is_reliable := b |>).
Proof. quiet_field. Qed.
Lemma quiet_count f sc t t' : quiet sc t t' -> quiet sc t (modify retransmit_count f t').
Proof. quiet_field. Qed.
Lemma quiet_pending f sc t t' : quiet sc t t' -> quiet sc t (modify pending_tx f t').
Proof. quiet_field. Qed.
Lemma quiet_mod_data f sc t t' : quiet sc t t' -> quiet sc t (modify mod_data f t').
Proof. quiet_field. Qed.
Lemma quiet_transport f sc t t' : quiet sc t t' -> quiet sc t (modify transport f t').
Proof. quiet_field. Qed.
Lemma quiet_res_addr f sc t t' : quiet sc t t' -> quiet sc t (modify res_addr_transport f t').
Proof. quiet_field. Qed.
Lemma quiet_st_key f sc t t' : quiet sc t t' -> quiet sc t (modify tp_st_key f t').
Proof. quiet_field. Qed.
Lemma quiet_status c sc t t' : quiet sc t t' -> quiet c t (tsx_set_status_code c t').
Proof.
  intros H. apply (quiet_trans _ _ _ _ _ H). destruct t'. by constructor.
Qed.

Lemma quiet_set_flag f sc t t' : not_destroy_flag f -> quiet sc t t' -> quiet sc t (set_flag f t').
Proof.
  intros Hf H. apply (quiet_trans _ _ _ _ _ H). destruct H as [_ _ _ <- _ _ _].
  constructor; try apply set_flag_destroy; try done; by destruct t'.
Qed.
Lemma quiet_clear_flag f sc t t' :
  not_destroy_flag f -> quiet sc t t' -> quiet sc t (clear_flag f t').
Proof.
  intros Hf H. apply (quiet_trans _ _ _ _ _ H). destruct H as [_ _ _ <- _ _ _].
  constructor; try apply clear_flag_destroy; try done; by destruct t'.
Qed.

Lemma quiet_schedule_retransmit d sc t t' :
  quiet sc t t' -> quiet sc t (tsx_schedule_timer retransmit_entry d RETRANSMIT_TIMER t').
Proof.
  intros H. apply (quiet_trans _ _ _ _ _ H). destruct H as [_ _ _ <- _ _ _].
  unfold tsx_schedule_timer. case_match; [apply quiet_refl|].
  destruct t'; constructor; try done. by intros [_ ?].
Qed.

Lemma quiet_cancel_retransmit sc t t' :
  quiet sc t t' -> quiet sc t (tsx_cancel_timer retransmit_entry t').
Proof.
  intros H. apply (quiet_trans _ _ _ _ _ H). destruct H as [_ _ _ <- _ _ _].
  unfold tsx_cancel_timer. case_match; [|apply quiet_refl].
  destruct t'; constructor; try done. intros [_ ?]. split; [by intros []|done].
Qed.

(** The timeout after a restart is the new one. *)
Lemma restart_any_timeout d i t :
  timeout_timer (tsx_schedule_timer timeout_entry d i (tsx_cancel_timer timeout_entry t)) =
  TimerEntry i (Some d).
Proof.
  unfold tsx_cancel_timer. destruct (pj_timer_entry_running _) eqn:Hr.
  - by destruct t.
  - unfold tsx_schedule_timer. rewrite Hr. by destruct t.
Qed.

Lemma restart_any_quiet d i sc t t' :
  i = TIMEOUT_TIMER \/ i = TRANSPORT_ERR_TIMER /\ (state t' <s PJSIP_TSX_STATE_COMPLETED) = true ->
  quiet sc t t' ->
  quiet sc t (tsx_schedule_timer timeout_entry d i (tsx_cancel_timer timeout_entry t')).
Proof.
  intros Hi H. apply (quiet_trans _ _ _ _ _ H). destruct H as [_ _ _ <- _ _ _].
  pose proof (restart_any_timeout d i t') as Ht.
  assert (retransmit_timer (tsx_schedule_timer timeout_entry d i (tsx_cancel_timer timeout_entry t'))
          = retransmit_timer t' /\
          state (tsx_schedule_timer timeout_entry d i (tsx_cancel_timer timeout_entry t'))
          = state t') as [Hrt Hs].
  { unfold tsx_schedule_timer, tsx_cancel_timer. destruct t'; by repeat case_match. }
  constructor.
  1-5: unfold tsx_schedule_timer, tsx_cancel_timer; destruct t'; by repeat case_match.
  - intros _. unfold armed. rewrite Ht. by eexists.
  - intros [Hok _]. split; [by rewrite Hrt|]. rewrite Ht, Hs. done.
Qed.

Lemma quiet_tp_state e sc t t' : quiet sc t t' -> quiet sc t (tsx_tp_state_callback e t').
Proof.
  intros H. unfold tsx_tp_state_callback. destruct (_ <s _) eqn:Hs.
  - apply restart_any_quiet; [by right|]. by apply quiet_transport_err.
  - by apply quiet_transport_err.
Qed.

Lemma not_destroy_flags :
  not_destroy_flag TSX_HAS_PENDING_TRANSPORT /\ not_destroy_flag TSX_HAS_PENDING_RESCHED /\
  not_destroy_flag TSX_HAS_PENDING_SEND /\ not_destroy_flag TSX_HAS_RESOLVED_SERVER.
Proof. unfold not_destroy_flag. tauto. Qed.

Lemma quiet_restart_timeout d sc t t' : quiet sc t t' -> quiet sc t (restart_timeout d t').
Proof. intros H. apply restart_any_quiet; [by left|done]. Qed.

Lemma quiet_attach d sc t t' : quiet sc t t' -> quiet sc t (attach d t').
Proof. intros H. by apply quiet_pending, quiet_mod_data. Qed.
Lemma quiet_detach d sc t t' : quiet sc t t' -> quiet sc t (detach d t').
Proof. intros H. by apply quiet_pending, quiet_mod_data. Qed.

End Quiet.

(** [quiet_auto]: a chain of quiet operations, branches included. *)
Ltac quiet_auto :=
  repeat first
    [ eassumption
    | apply quiet_refl
    | apply quiet_emit | apply quiet_add_ref | apply quiet_dec_ref | apply quiet_transport_err
    | apply quiet_reliable | apply quiet_count | apply quiet_pending | apply quiet_mod_data
    | apply quiet_transport | apply quiet_res_addr | apply quiet_st_key | eapply quiet_status
    | apply quiet_set_flag; [apply not_destroy_flags|]
    | apply quiet_clear_flag; [apply not_destroy_flags|]
    | apply quiet_schedule_retransmit | apply quiet_cancel_retransmit | apply quiet_tp_state
    | apply quiet_restart_timeout | apply quiet_attach | apply quiet_detach
    | case_match ].

Section Moves.
Context {E : TsxEnv}.

Lemma quiet_update_transport tp sc t t' :
  quiet sc t t' -> quiet sc t (tsx_update_transport tp t').
Proof. intros H. unfold tsx_update_transport. quiet_auto. Qed.

Lemma quiet_resched sc t t' : quiet sc t t' -> quiet sc t (tsx_resched_retransmission t').
Proof. intros H. unfold tsx_resched_retransmission. case_match; quiet_auto. Qed.

Lemma quiet_start_retransmit d sc t t' : quiet sc t t' -> quiet sc t (start_retransmit d t').
Proof. intros H. unfold start_retransmit. quiet_auto. Qed.

(** *** Moving to another state *)

Definition handler_of (r : pjsip_role_e) (s : pjsip_tsx_state_e) : option tsx_handler :=
  match r with
  | PJSIP_ROLE_UAC => tsx_state_handler_uac s
  | PJSIP_ROLE_UAS => tsx_state_handler_uas s
  end.

(** The machine is in [s] with status code [sc], having been in [t]. *)
Record arrives (s : pjsip_tsx_state_e) (sc : Z) (t t' : pjsip_transaction) : Prop := Arrives {
  n_role : role t' = role t;
  n_method : method t' = method t;
  n_terminating : terminating t' = terminating t;
  n_state : state t' = s;
  n_handler : state_handler t' = handler_of (role t) s;
  n_status : status_code t' = sc;
  n_destroy : has_flag t' TSX_HAS_PENDING_DESTROY = has_flag t TSX_HAS_PENDING_DESTROY
}.

Definition notified (s : pjsip_tsx_state_e) (src : pjsip_event) (flag : Z)
    (t : pjsip_transaction) : pjsip_transaction :=
  let t' := notify_rx src flag (t <| state := s |> <| state_handler := handler_of (role t) s |>) in
  if Z.land flag NO_NOTIFY =? 0 then notify_state src (state t) t' else t'.

Lemma notified_fields s src flag t :
  exists tr, notified s src flag t =
    t <| state := s |> <| state_handler := handler_of (role t) s |> <| trace := tr |>.
Proof.
  destruct t. unfold notified, notify_rx, notify_state. cbn.
  repeat case_match; eexists; reflexivity.
Qed.

Lemma set_state_notified s src flag t :
  tsx_set_state s src flag t =
  match s with
  | PJSIP_TSX_STATE_TERMINATED =>
      let t := notified s src flag t in
      let t := if has_flag t TSX_HAS_PENDING_TRANSPORT then
          clear_flag TSX_HAS_PENDING_TRANSPORT
            match pending_tx t with
            | Some d => detach d t
            | None => t
            end else t in
      let t := tsx_cancel_timer timeout_entry t in
      if Z.land flag NO_SCHEDULE_HANDLER =? 0
      then tsx_schedule_timer timeout_entry zero_val TIMEOUT_TIMER t else t
  | PJSIP_TSX_STATE_DESTROYED =>
      tsx_shutdown (mod_tsx_layer_unregister_tsx (notified s src flag t))
  | _ => notified s src flag t
  end.
Proof. destruct t; destruct s; reflexivity. Qed.

Lemma set_state_shape s src flag t :
  s <> PJSIP_TSX_STATE_TERMINATED -> s <> PJSIP_TSX_STATE_DESTROYED ->
  exists tr, tsx_set_state s src flag t =
    t <| state := s |> <| state_handler := handler_of (role t) s |> <| trace := tr |>.
Proof. rewrite set_state_notified. destruct s; try done; intros; apply notified_fields. Qed.

Lemma set_state_arrives s src flag t :
  s <> PJSIP_TSX_STATE_TERMINATED -> s <> PJSIP_TSX_STATE_DESTROYED ->
  arrives s (status_code t) t (tsx_set_state s src flag t).
Proof.
  intros H1 H2. destruct (set_state_shape s src flag t H1 H2) as [tr ->].
  destruct t; by constructor.
Qed.

Lemma arrives_quiet s sc t t' t'' : arrives s sc t t' -> quiet sc t' t'' -> arrives s sc t t''.
Proof.
  intros [] [Hst]. unfold static in Hst. injection Hst as ???????. constructor; congruence.
Qed.

Lemma terminated_handler r : handler_of r PJSIP_TSX_STATE_TERMINATED = Some h_on_state_terminated.
Proof. by destruct r. Qed.

(** A state change to Terminated arms the timeout that destroys the
    transaction. *)
Lemma set_state_ends src sc t t' : quiet sc t t' ->
  ends sc t (tsx_set_state PJSIP_TSX_STATE_TERMINATED src 0 t').
Proof.
  intros H. apply (quiet_ends _ _ _ _ _ H). destruct H as [_ _ _ <- _ _ _]. clear t. rename t' into t.
  rewrite set_state_notified. cbn zeta.
  assert (ends_but_timers : static (notified PJSIP_TSX_STATE_TERMINATED src 0 t) = static t /\
    state (notified PJSIP_TSX_STATE_TERMINATED src 0 t) = PJSIP_TSX_STATE_TERMINATED /\
    state_handler (notified PJSIP_TSX_STATE_TERMINATED src 0 t) =
      handler_of (role t) PJSIP_TSX_STATE_TERMINATED /\
    status_code (notified PJSIP_TSX_STATE_TERMINATED src 0 t) = status_code t /\
    has_flag (notified PJSIP_TSX_STATE_TERMINATED src 0 t) TSX_HAS_PENDING_DESTROY =
      has_flag t TSX_HAS_PENDING_DESTROY /\
    retransmit_timer (notified PJSIP_TSX_STATE_TERMINATED src 0 t) = retransmit_timer t).
  { destruct (notified_fields PJSIP_TSX_STATE_TERMINATED src 0 t) as [tr ->]. by destruct t. }
  destruct ends_but_timers as (Hst & Hs & Hh & Hsc & Hd & Hr).
  set (t0 := notified _ _ _ _) in *. change (Z.land 0 NO_SCHEDULE_HANDLER =? 0) with true. cbv iota.
  set (t2 := if has_flag t0 _ then _ else _).
  assert (quiet (status_code t0) t0 t2) as Hq by (subst t2; quiet_auto).
  pose proof (restart_any_timeout zero_val TIMEOUT_TIMER t2) as Hto.
  pose proof (quiet_restart_timeout zero_val _ _ _ Hq) as [Hqst Hqs Hqh Hqsc Hqd Hqa Hqt].
  unfold restart_timeout in *.
  constructor; try congruence.
  - rewrite Hqh, Hh. apply terminated_handler.
  - unfold armed. rewrite Hto. by eexists.
  - intros [Hok _]. split; [|rewrite Hto; by left].
    pose proof (quiet_restart_timeout zero_val _ _ _ Hq) as [].
    assert (retransmit_timer (tsx_schedule_timer timeout_entry zero_val TIMEOUT_TIMER
              (tsx_cancel_timer timeout_entry t2)) = retransmit_timer t) as ->; [|done].
    rewrite <- Hr. transitivity (retransmit_timer t2).
    + unfold tsx_schedule_timer, tsx_cancel_timer. destruct t2; by repeat case_match.
    + subst t2. unfold clear_flag, detach. destruct t0; cbn. by repeat case_match.
Qed.

(** *** The effect of a send

    A send leaves the machine where it is, or ends it with the status code of a
    transport error. *)

Definition is_transport_error (sc : Z) : Prop :=
  sc = PJSIP_SC_TSX_TRANSPORT_ERROR \/ sc = PJSIP_SC_BAD_GATEWAY.

(** Terminated or Destroyed. *)
Definition gone (t : pjsip_transaction) : bool := negb (state t <s PJSIP_TSX_STATE_TERMINATED).

Definition send_effect (t t' : pjsip_transaction) : Prop :=
  exists sc,
    (sc = status_code t \/ is_transport_error sc /\ gone t = true) /\ quiet sc t t' \/
    is_transport_error sc /\ ends sc t t'.

Lemma send_effect_quiet t t' : quiet (status_code t) t t' -> send_effect t t'.
Proof. exists (status_code t). auto. Qed.
Lemma send_effect_error sc t t' :
  is_transport_error sc -> gone t = true -> quiet sc t t' -> send_effect t t'.
Proof. exists sc. auto. Qed.
Lemma send_effect_ends sc t t' : is_transport_error sc -> ends sc t t' -> send_effect t t'.
Proof. exists sc. auto. Qed.

Lemma quiet_gone sc t t' : quiet sc t t' -> gone t' = gone t.
Proof. intros H. unfold gone. by rewrite (q_state _ _ _ H). Qed.

Lemma send_effect_trans t t' t'' : send_effect t t' -> send_effect t' t'' -> send_effect t t''.
Proof.
  intros (sc & [[Hsc H]|[Hsc H]]) (sc' & [[Hsc' H']|[Hsc' H']]).
  - exists sc'. left. split; [|eauto using quiet_trans].
    destruct Hsc' as [->|[? Hg]]; [by rewrite (q_status _ _ _ H)|].
    rewrite (quiet_gone _ _ _ H) in Hg. by right.
  - exists sc'. right. eauto using quiet_ends.
  - exists sc'. right. split; [|eauto using ends_quiet].
    destruct Hsc' as [->|[]]; [|done]. by rewrite (e_status _ _ _ H).
  - exists sc'. right. eauto using ends_ends.
Qed.

Lemma send_effect_destroy t t' : send_effect t t' ->
  has_flag t' TSX_HAS_PENDING_DESTROY = has_flag t TSX_HAS_PENDING_DESTROY.
Proof. intros (sc & [[_ []]|[_ []]]); done. Qed.

(** The functions that only add quiet operations to what precedes. *)
Lemma send_effect_then t t' t'' :
  send_effect t t' -> quiet (status_code t') t' t'' -> send_effect t t''.
Proof. eauto using send_effect_trans, send_effect_quiet. Qed.

Lemma send_on_transport_quiet d t : quiet (status_code t) t (send_on_transport d t).1.1.
Proof.
  unfold send_on_transport. destruct (transport t) as [tp|]; [|apply quiet_refl].
  cbn zeta. set (status := pjsip_transport_send _ _ _). destruct (status =? PJ_EPENDING).
  - change (negb (PJ_SUCCESS =? PJ_SUCCESS)) with false. cbn [fst]. quiet_auto.
  - destruct (negb _); cbn [fst]; [apply quiet_res_addr, quiet_update_transport|]; quiet_auto.
Qed.

Lemma callback_sent_effect send o t :
  (forall d t, has_flag t TSX_HAS_PENDING_DESTROY = false -> send_effect t (send d t).1) ->
  has_flag t TSX_HAS_PENDING_DESTROY = false ->
  send_effect t (callback_sent send o t).
Proof.
  intros Hsend Hd. unfold callback_sent. cbn zeta.
  set (t2 := set_flag TSX_HAS_RESOLVED_SERVER _).
  assert (quiet (status_code t) t t2) as Hq2.
  { subst t2. quiet_auto; apply quiet_update_transport, quiet_refl. }
  rewrite (q_destroy _ _ _ Hq2), Hd.
  set (t3 := if has_flag t2 TSX_HAS_PENDING_SEND then _ else t2).
  assert (send_effect t t3) as H3.
  { subst t3. case_match; [|by apply send_effect_quiet].
    set (t2' := clear_flag TSX_HAS_PENDING_SEND t2).
    assert (quiet (status_code t) t t2') as Hq2' by (subst t2'; quiet_auto).
    case_match; [|by apply send_effect_quiet].
    eapply send_effect_trans; [by apply send_effect_quiet|].
    apply Hsend. by rewrite (q_destroy _ _ _ Hq2'). }
  eapply send_effect_then; [exact H3|].
  repeat (case_match; quiet_auto); apply quiet_resched; quiet_auto.
Qed.

Lemma callback_failed_effect d o t :
  has_flag t TSX_HAS_PENDING_DESTROY = false -> send_effect t (callback_failed d o t).
Proof.
  intros Hd. unfold callback_failed. cbn zeta. set (t2 := if same_transport _ _ then _ else t).
  assert (quiet (status_code t) t t2) as Hq2.
  { subst t2. case_match; [apply quiet_update_transport|]; apply quiet_refl. }
  rewrite (q_destroy _ _ _ Hq2), Hd. destruct (cont o); cbn [negb orb].
  - apply send_effect_quiet, quiet_add_ref, quiet_attach.
    case_match; [apply restart_any_quiet; [by left|]|]; quiet_auto.
  - set (sc := if (_ || _) then _ else _).
    assert (is_transport_error sc) as Hsc by (subst sc; case_match; [by right|by left]).
    set (t3 := tsx_set_status_code sc _).
    assert (quiet sc t t3) as Hq3 by (subst t3; quiet_auto).
    destruct (_ && _) eqn:Hs; [by eapply send_effect_ends, set_state_ends|].
    rewrite (q_destroy _ _ _ Hq3), Hd. apply (send_effect_error sc); [done| |done].
    rewrite <- (quiet_gone _ _ _ Hq3). unfold gone. by destruct (state t3).
Qed.

Lemma send_msg_callback_effect send d o t :
  (forall d t, has_flag t TSX_HAS_PENDING_DESTROY = false -> send_effect t (send d t).1) ->
  has_flag t TSX_HAS_PENDING_DESTROY = false ->
  send_effect t (send_msg_callback send d t o).
Proof.
  intros Hsend Hd. unfold send_msg_callback. cbn zeta.
  destruct (_ || _); [apply send_effect_quiet; quiet_auto|].
  assert (quiet (status_code t) t (detach d (pj_grp_lock_dec_ref t))) as Hq by quiet_auto.
  pose proof (q_destroy _ _ _ Hq) as Hd'. rewrite Hd in Hd'.
  eapply send_effect_trans; [by apply send_effect_quiet|].
  destruct (sent o >? 0); [by apply callback_sent_effect|by apply callback_failed_effect].
Qed.

Lemma fold_callback_effect (cb : pjsip_transaction -> send_outcome -> pjsip_transaction) l t :
  (forall o t, has_flag t TSX_HAS_PENDING_DESTROY = false -> send_effect t (cb t o)) ->
  has_flag t TSX_HAS_PENDING_DESTROY = false -> send_effect t (fold_left cb l t).
Proof.
  intros Hcb. revert t. induction l as [|o l IH]; intros t Hd; cbn.
  - apply send_effect_quiet, quiet_refl.
  - pose proof (Hcb o t Hd) as H. eapply send_effect_trans; [exact H|]. apply IH.
    by rewrite (send_effect_destroy _ _ H).
Qed.

Lemma tsx_send_msg_depth_effect n d t :
  has_flag t TSX_HAS_PENDING_DESTROY = false -> send_effect t (tsx_send_msg_depth n d t).1.
Proof.
  revert d t. induction n as [|n IH]; intros d t Hd; cbn [tsx_send_msg_depth].
  all: destruct (has_flag t TSX_HAS_PENDING_TRANSPORT); [apply send_effect_quiet; quiet_auto|].
  all: destruct (is_pending t d); [apply send_effect_quiet, quiet_refl|].
  all: pose proof (send_on_transport_quiet d t) as Hq.
  all: destruct (send_on_transport d t) as [[t1 status] []]; cbn in Hq; [by apply send_effect_quiet|].
  all: destruct (has_flag t1 TSX_HAS_RESOLVED_SERVER).
  1,3: eapply (send_effect_ends PJSIP_SC_TSX_TRANSPORT_ERROR); [by left|]; cbn;
    apply set_state_ends; quiet_auto.
  - by apply send_effect_quiet.
  - unfold send_resolving. cbn zeta. set (t2 := set_flag _ _).
    assert (quiet (status_code t) t t2) as Hq2 by (subst t2; quiet_auto).
    destruct (if is_request d then _ else _) as [cbs st]. cbn [fst].
    assert (send_effect t (fold_left (send_msg_callback (tsx_send_msg_depth n) d) cbs
              (emit (sent_stateless (tdata_id d)) t2))) as H3.
    { eapply send_effect_trans; [apply send_effect_quiet, quiet_emit, Hq2|].
      apply fold_callback_effect.
      - intros o t'. by apply send_msg_callback_effect.
      - rewrite (q_destroy _ _ _ (quiet_emit _ _ _ _ Hq2)). done. }
    eapply send_effect_then; [exact H3|]. quiet_auto.
Qed.

Lemma tsx_send_msg_effect d t :
  has_flag t TSX_HAS_PENDING_DESTROY = false -> send_effect t (tsx_send_msg d t).1.
Proof. apply tsx_send_msg_depth_effect. Qed.

Lemma tsx_retransmit_effect r t :
  has_flag t TSX_HAS_PENDING_DESTROY = false -> send_effect t (tsx_retransmit r t).1.
Proof.
  intros Hd. unfold tsx_retransmit. destruct (_ && _); [apply send_effect_quiet, quiet_refl|].
  destruct (last_tx t) as [d|]; [|apply send_effect_quiet, quiet_refl].
  cbn zeta. set (t1 := if r then _ else _).
  assert (quiet (status_code t) t t1) as Hq.
  { subst t1. repeat case_match; quiet_auto; apply quiet_resched; quiet_auto. }
  eapply send_effect_trans; [by apply send_effect_quiet|]. apply tsx_send_msg_effect.
  by rewrite (q_destroy _ _ _ Hq).
Qed.

(** *** Destruction *)

Record destroys (t t' : pjsip_transaction) : Prop := Destroys {
  d_role : role t' = role t;
  d_method : method t' = method t;
  d_state : state t' = PJSIP_TSX_STATE_DESTROYED;
  d_handler : state_handler t' = Some h_on_state_destroyed;
  d_terminating : terminating t' = true;
  d_last_tx : last_tx t' = None;
  d_transport : transport t' = None;
  d_timers : running (retransmit_timer t') = None /\ running (timeout_timer t') = None
}.

Lemma cancel_timer_shape w t : exists e n,
  tsx_cancel_timer w t = set_timer w e t <| grp_lock_refs := n |> /\ running e = None.
Proof.
  unfold tsx_cancel_timer. destruct (pj_timer_entry_running (get_timer w t)) eqn:Hr.
  - exists (TimerEntry TIMER_INACTIVE None), (grp_lock_refs t - 1). by destruct w, t.
  - exists (get_timer w t), (grp_lock_refs t). split; [by destruct w, t|].
    unfold pj_timer_entry_running in Hr. apply bool_decide_eq_false in Hr.
    by apply eq_None_not_Some.
Qed.

Lemma update_transport_none t : transport (tsx_update_transport None t) = None.
Proof. unfold tsx_update_transport. destruct (transport t) eqn:H; [by destruct t|done]. Qed.

Lemma drop_last_tx_shape t :
  exists tr, drop_last_tx t = t <| last_tx := None |> <| trace := tr |>.
Proof. unfold drop_last_tx. destruct t as [??????????????? [d|]]; eexists; reflexivity. Qed.

(** What a shutdown leaves. *)
Record shut (t t' : pjsip_transaction) : Prop := Shut {
  s_fixed : (role t', method t', state t', state_handler t', status_code t') =
            (role t, method t, state t, state_handler t, status_code t);
  s_terminating : terminating t' = true;
  s_last_tx : last_tx t' = None;
  s_transport : transport t' = None;
  s_timers : running (retransmit_timer t') = None /\ running (timeout_timer t') = None
}.

Lemma tsx_shutdown_shut t : shut t (tsx_shutdown t).
Proof.
  unfold tsx_shutdown. cbn zeta.
  set (t1 := tsx_update_transport None t).
  pose proof (quiet_update_transport None _ _ _ (quiet_refl t)) as [Hst Hs Hh Hsc _ _ _].
  pose proof (update_transport_none t) as Ht. fold t1 in Hst, Hs, Hh, Hsc, Ht. clearbody t1.
  destruct (drop_last_tx_shape t1) as [tr ->].
  edestruct (cancel_timer_shape timeout_entry) as (e & n & -> & Hto).
  edestruct (cancel_timer_shape retransmit_entry) as (e' & n' & -> & Hrt).
  unfold static in Hst. destruct t1; cbn in *. simplify_eq.
  destruct (has_flag _ _); destruct (terminating t) eqn:Hterm; by constructor.
Qed.

Lemma unregister_shape t :
  exists tr, mod_tsx_layer_unregister_tsx t = t <| trace := tr |>.
Proof. unfold mod_tsx_layer_unregister_tsx. case_match; destruct t; eexists; reflexivity. Qed.

Lemma set_state_destroys src flag t :
  destroys t (tsx_set_state PJSIP_TSX_STATE_DESTROYED src flag t).
Proof.
  rewrite set_state_notified.
  destruct (notified_fields PJSIP_TSX_STATE_DESTROYED src flag t) as [tr ->].
  destruct (unregister_shape (t <| state := PJSIP_TSX_STATE_DESTROYED |>
    <| state_handler := handler_of (role t) PJSIP_TSX_STATE_DESTROYED |> <| trace := tr |>))
    as [tr' ->].
  edestruct tsx_shutdown_shut as [Hf Ht Hl Htp Htm].
  injection Hf as Hr Hm Hs Hh _. constructor; try done.
  - rewrite Hr. by destruct t.
  - rewrite Hm. by destruct t.
  - rewrite Hs. by destruct t.
  - rewrite Hh. by destruct t as [??[]].
Qed.

(** *** The last message *)

Lemma keep_last_tx_shape d t :
  exists x tr, keep_last_tx d t = t <| last_tx := Some x |> <| trace := tr |>.
Proof.
  unfold keep_last_tx. destruct t as [??????????????? last]; cbn.
  destruct (same_tdata last d) eqn:Hs; [|eexists _, _; reflexivity].
  destruct last as [x|]; [|done]. exists x. eexists. reflexivity.
Qed.

Lemma discard_shape d t :
  exists x tr, discard_other_last_tx d t = t <| last_tx := x |> <| trace := tr |> /\
    (x = None \/ x = last_tx t).
Proof.
  unfold discard_other_last_tx. case_match.
  - exists (last_tx t), (trace t). split; [by destruct t|by right].
  - destruct (drop_last_tx_shape t) as [tr ->]. exists None, tr. auto.
Qed.

(** ** Well-formed transactions *)

(** The states in which only a timer is left to move the machine on. *)
Definition needs_timeout (t : pjsip_transaction) : bool :=
  match state t with
  | PJSIP_TSX_STATE_CALLING | PJSIP_TSX_STATE_COMPLETED | PJSIP_TSX_STATE_CONFIRMED
  | PJSIP_TSX_STATE_TERMINATED => true
  | PJSIP_TSX_STATE_PROCEEDING => bool_decide (role t = PJSIP_ROLE_UAC) && negb (is_invite t)
  | _ => false
  end.

Record wf_basic (t : pjsip_transaction) : Prop := WfBasic {
  b_handler : state_handler t = handler_of (role t) (state t);
  b_role :
    match state t with
    | PJSIP_TSX_STATE_CALLING => role t = PJSIP_ROLE_UAC
    | PJSIP_TSX_STATE_TRYING => role t = PJSIP_ROLE_UAS
    | PJSIP_TSX_STATE_CONFIRMED => role t = PJSIP_ROLE_UAS /\ method t = PJSIP_INVITE_METHOD
    | _ => True
    end;
  b_timers : timers_ok t;
  b_final :
    match state t with
    | PJSIP_TSX_STATE_COMPLETED | PJSIP_TSX_STATE_CONFIRMED => 200 <= status_code t
    | _ => True
    end;
  b_last_tx :
    match state t with
    | PJSIP_TSX_STATE_DESTROYED => last_tx t = None
    | PJSIP_TSX_STATE_COMPLETED | PJSIP_TSX_STATE_CONFIRMED => is_Some (last_tx t)
    | _ => role t = PJSIP_ROLE_UAC -> is_Some (last_tx t)
    end;
  b_terminating : terminating t = bool_decide (state t = PJSIP_TSX_STATE_DESTROYED);
  b_destroy : has_flag t TSX_HAS_PENDING_DESTROY = true -> state t = PJSIP_TSX_STATE_DESTROYED
}.

(** What the modules below accept: the resolver takes every message, and an
    ACK can be built. *)
Definition env_accepts : Prop :=
  (forall t d, (pjsip_endpt_send_request_stateless t d).2 = PJ_SUCCESS \/
               (pjsip_endpt_send_request_stateless t d).2 = PJ_EPENDING) /\
  (forall t d, (pjsip_endpt_send_response t d).2 = PJ_SUCCESS \/
               (pjsip_endpt_send_response t d).2 = PJ_EPENDING) /\
  (forall last rdata, exists ack, pjsip_endpt_create_ack last rdata = inl ack).

Definition tsx_wf (t : pjsip_transaction) : Prop :=
  wf_basic t /\ (env_accepts -> needs_timeout t = true -> armed t).

(** *** Preservation *)

Lemma static_inv t t' : static t' = static t ->
  role t' = role t /\ method t' = method t /\ handle_200resp t' = handle_200resp t /\
  terminating t' = terminating t /\ last_tx t' = last_tx t.
Proof. unfold static. by intros [=]. Qed.

Lemma wf_quiet sc t t' :
  wf_basic t -> quiet sc t t' -> sc = status_code t \/ 200 <= sc -> wf_basic t'.
Proof.
  intros [Hh Hr Ht Hf Hl Htm Hd] [Hst Hs Hh' Hsc Hd' _ Ht'] Hok.
  apply static_inv in Hst as (Er & Em & Eh & Et & El).
  constructor; rewrite ?Hs, ?Hd', ?Hh', ?Er, ?Em, ?Et, ?El, ?Hsc; auto.
  destruct (state t); try done; destruct Hok; lia.
Qed.

Lemma tsx_wf_quiet sc t t' :
  tsx_wf t -> quiet sc t t' -> sc = status_code t \/ 200 <= sc -> tsx_wf t'.
Proof.
  intros [Hb Ha] Hq Hok. split; [by eapply wf_quiet|].
  intros He Hn. apply (q_armed _ _ _ Hq), Ha; [done|].
  destruct Hq as [Hst Hs _ _ _ _ _]. apply static_inv in Hst as (Er & Em & _).
  unfold needs_timeout, is_invite in *. by rewrite Hs, Er, Em in Hn.
Qed.

Lemma terminated_wf sc t t' :
  wf_basic t -> state t <> PJSIP_TSX_STATE_DESTROYED -> ends sc t t' -> tsx_wf t'.
Proof.
  intros [Hh Hr Ht Hf Hl Htm Hd] Hs [Hst Hs' Hh' Hsc Hd' Ha Ht'].
  apply static_inv in Hst as (Er & Em & Eh & Et & El). split; [|auto].
  rewrite bool_decide_eq_false_2 in Htm by done.
  constructor; rewrite ?Hs', ?Hd', ?Hh', ?Er, ?Em, ?Et, ?El, ?terminated_handler; try done; auto.
  destruct (state t); try done; by intros _.
  - intros Hf'. by apply Hd in Hf'.
Qed.

Lemma destroyed_wf t t' : destroys t t' -> tsx_wf t'.
Proof.
  intros [Hr Hm Hs Hh Ht Hl Htp [Hrt Hto]]. unfold tsx_wf, needs_timeout. rewrite Hs.
  split; [|done]. constructor; rewrite ?Hs; try done.
  - rewrite Hh. by destruct (role t').
  - unfold timers_ok. rewrite Hrt, Hto. split; by intros [].
Qed.

(** Arriving in [s]: what the new state needs. *)
Lemma arrives_wf s sc t t' :
  arrives s sc t t' -> wf_basic t ->
  state t <> PJSIP_TSX_STATE_DESTROYED -> s <> PJSIP_TSX_STATE_DESTROYED ->
  match s with
  | PJSIP_TSX_STATE_CALLING => role t = PJSIP_ROLE_UAC
  | PJSIP_TSX_STATE_TRYING => role t = PJSIP_ROLE_UAS
  | PJSIP_TSX_STATE_CONFIRMED => role t = PJSIP_ROLE_UAS /\ method t = PJSIP_INVITE_METHOD
  | _ => True
  end ->
  match s with
  | PJSIP_TSX_STATE_COMPLETED | PJSIP_TSX_STATE_CONFIRMED => 200 <= sc /\ is_Some (last_tx t')
  | _ => role t = PJSIP_ROLE_UAC -> is_Some (last_tx t')
  end ->
  timers_ok t' -> (env_accepts -> needs_timeout t' = true -> armed t') -> tsx_wf t'.
Proof.
  intros [Er Em Et Hs Hh Hsc Hd] [_ _ _ _ _ Htm Hdf] Hnd Hsnd Hrole Hlast Hok Harm.
  rewrite bool_decide_eq_false_2 in Htm by done. split; [|done].
  constructor; rewrite ?Hs, ?Hd, ?Er, ?Em, ?Et, ?Hsc; try done.
  - destruct s; try done; apply Hlast.
  - destruct s; try done; apply Hlast.
  - by rewrite bool_decide_eq_false_2.
  - intros Hf. by apply Hdf in Hf.
Qed.

(** ** The state diagrams of RFC 3261

    [rfc_edge r inv h200 s ev sc s']: the transitions of figures 5 to 8
    (sections 17.1.1, 17.1.2, 17.2.1 and 17.2.2) with the additions the library
    documents: every server transaction passes through Trying, a 2xx to an
    INVITE completes the server transaction unless [handle_200resp] is off, and
    Terminated leads to Destroyed. [sc] is the status code on arrival. *)

Definition response_code (m : pjsip_msg) : option Z :=
  match m with PJSIP_RESPONSE_MSG c => Some c | PJSIP_REQUEST_MSG _ => None end.

(** The events during which a message is sent or a send is reported. *)
Definition may_send (ev : tsx_event) : bool :=
  match ev with
  | ev_send _ | ev_recv _ | ev_timer _ | ev_retransmit_no_state _ | ev_resolved _ _ => true
  | _ => false
  end.

Inductive rfc_edge (r : pjsip_role_e) (inv : bool) (h200 : Z) :
    pjsip_tsx_state_e -> tsx_event -> Z -> pjsip_tsx_state_e -> Prop :=
  (* client *)
  | uac_request d sc : r = PJSIP_ROLE_UAC ->
      rfc_edge r inv h200 PJSIP_TSX_STATE_NULL (ev_send d) sc PJSIP_TSX_STATE_CALLING
  | uac_1xx c : r = PJSIP_ROLE_UAC -> 100 <= c < 200 ->
      rfc_edge r inv h200 PJSIP_TSX_STATE_CALLING (ev_recv (PJSIP_RESPONSE_MSG c)) c
        PJSIP_TSX_STATE_PROCEEDING
  | uac_2xx s c : r = PJSIP_ROLE_UAC -> 200 <= c < 300 ->
      s = PJSIP_TSX_STATE_CALLING \/ s = PJSIP_TSX_STATE_PROCEEDING ->
      rfc_edge r inv h200 s (ev_recv (PJSIP_RESPONSE_MSG c)) c
        (if inv then PJSIP_TSX_STATE_TERMINATED else PJSIP_TSX_STATE_COMPLETED)
  | uac_final s c sc : r = PJSIP_ROLE_UAC -> 300 <= c < 700 ->
      sc = c \/ inv = true /\ is_transport_error sc ->
      s = PJSIP_TSX_STATE_CALLING \/ s = PJSIP_TSX_STATE_PROCEEDING ->
      rfc_edge r inv h200 s (ev_recv (PJSIP_RESPONSE_MSG c)) sc PJSIP_TSX_STATE_COMPLETED
  | uac_timeout s : r = PJSIP_ROLE_UAC ->
      s = PJSIP_TSX_STATE_CALLING \/ s = PJSIP_TSX_STATE_PROCEEDING ->
      rfc_edge r inv h200 s (ev_timer timeout_entry) PJSIP_SC_TSX_TIMEOUT
        PJSIP_TSX_STATE_TERMINATED
  (* server *)
  | uas_request m sc : r = PJSIP_ROLE_UAS ->
      rfc_edge r inv h200 PJSIP_TSX_STATE_NULL (ev_recv (PJSIP_REQUEST_MSG m)) sc
        PJSIP_TSX_STATE_TRYING
  | uas_1xx s d c : r = PJSIP_ROLE_UAS -> 100 <= c < 200 -> response_code (msg d) = Some c ->
      s = PJSIP_TSX_STATE_TRYING \/ s = PJSIP_TSX_STATE_PROCEEDING ->
      rfc_edge r inv h200 s (ev_send d) c PJSIP_TSX_STATE_PROCEEDING
  | uas_2xx s d c : r = PJSIP_ROLE_UAS -> 200 <= c < 300 -> response_code (msg d) = Some c ->
      s = PJSIP_TSX_STATE_TRYING \/ s = PJSIP_TSX_STATE_PROCEEDING ->
      rfc_edge r inv h200 s (ev_send d) c
        (if inv && (h200 =? 0) then PJSIP_TSX_STATE_TERMINATED else PJSIP_TSX_STATE_COMPLETED)
  | uas_final s d c : r = PJSIP_ROLE_UAS -> 300 <= c -> response_code (msg d) = Some c ->
      s = PJSIP_TSX_STATE_TRYING \/ s = PJSIP_TSX_STATE_PROCEEDING ->
      rfc_edge r inv h200 s (ev_send d) c PJSIP_TSX_STATE_COMPLETED
  | uas_ack sc : r = PJSIP_ROLE_UAS -> inv = true ->
      rfc_edge r inv h200 PJSIP_TSX_STATE_COMPLETED (ev_recv (PJSIP_REQUEST_MSG PJSIP_ACK_METHOD))
        sc PJSIP_TSX_STATE_CONFIRMED
  | uas_timeout sc : r = PJSIP_ROLE_UAS -> sc = PJSIP_SC_TSX_TIMEOUT ->
      rfc_edge r inv h200 PJSIP_TSX_STATE_PROCEEDING (ev_timer timeout_entry) sc
        PJSIP_TSX_STATE_TERMINATED
  (* both *)
  | completed_timeout s sc :
      s = PJSIP_TSX_STATE_COMPLETED \/ s = PJSIP_TSX_STATE_CONFIRMED ->
      rfc_edge r inv h200 s (ev_timer timeout_entry) sc PJSIP_TSX_STATE_TERMINATED
  | terminated_timer w sc :
      rfc_edge r inv h200 PJSIP_TSX_STATE_TERMINATED (ev_timer w) sc PJSIP_TSX_STATE_DESTROYED
  | user_terminates s c : (s <s PJSIP_TSX_STATE_TERMINATED) = true -> 200 <= c ->
      rfc_edge r inv h200 s (ev_terminate c) c PJSIP_TSX_STATE_TERMINATED
  | send_fails s ev sc : (s <s PJSIP_TSX_STATE_TERMINATED) = true -> may_send ev = true ->
      is_transport_error sc ->
      rfc_edge r inv h200 s ev sc PJSIP_TSX_STATE_TERMINATED
  | posted_error s sc : (s <s PJSIP_TSX_STATE_TERMINATED) = true ->
      rfc_edge r inv h200 s (ev_timer timeout_entry) sc PJSIP_TSX_STATE_TERMINATED.

(** Every transition goes up in the order of the enumeration. *)
Lemma rfc_edge_up r inv h200 s ev sc s' :
  rfc_edge r inv h200 s ev sc s' -> (s <s s') = true \/ s = s' /\ s = PJSIP_TSX_STATE_PROCEEDING.
Proof.
  destruct 1; repeat match goal with H : _ \/ _ |- _ => destruct H | H : _ /\ _ |- _ => destruct H end;
    subst; try (by left); try (by right); repeat case_match; try (by left); by left; destruct s.
Qed.

(** ** One step *)

(** What the caller of each step sees to: the layer hands responses to clients
    and requests to servers, the transport layer has dropped status codes
    outside 100..699; the user sends responses on a server transaction, and not
    again the one whose retransmission is deferred; a timer fires when it runs,
    and before a server transaction has its request only for a lost transport;
    there is a message to retransmit. *)
Definition event_ok (ev : tsx_event) (t : pjsip_transaction) : Prop :=
  match ev with
  | ev_recv (PJSIP_RESPONSE_MSG c) => role t = PJSIP_ROLE_UAC /\ 100 <= c < 700
  | ev_recv (PJSIP_REQUEST_MSG _) => role t = PJSIP_ROLE_UAS
  | ev_send d =>
      role t = PJSIP_ROLE_UAS ->
      state t <> PJSIP_TSX_STATE_NULL /\
      (exists c, msg d = PJSIP_RESPONSE_MSG c /\ 100 <= c) /\
      (has_flag t TSX_HAS_PENDING_SEND = true -> same_tdata (last_tx t) d = false)
  | ev_timer w =>
      is_Some (running (get_timer w t)) /\
      (role t = PJSIP_ROLE_UAS -> state t = PJSIP_TSX_STATE_NULL ->
       id (get_timer w t) = TRANSPORT_ERR_TIMER)
  | ev_retransmit_no_state _ => is_Some (last_tx t)
  | _ => True
  end.

(** The resolver reports a positive count or an error, never zero. *)
Definition env_sane : Prop := forall t d o,
  o ∈ (pjsip_endpt_send_request_stateless t d).1 \/ o ∈ (pjsip_endpt_send_response t d).1 ->
  sent o <> 0.

Definition moves (ev : tsx_event) (t t' : pjsip_transaction) : Prop :=
  state t' = state t \/
  rfc_edge (role t) (is_invite t) (handle_200resp t) (state t) ev (status_code t') (state t').

Definition outcome (ev : tsx_event) (t t' : pjsip_transaction) : Prop :=
  tsx_wf t' /\ role t' = role t /\ method t' = method t /\ moves ev t t'.

(** [base t t1]: [t1] is [t] as far as the diagrams go. *)
Definition base (t t1 : pjsip_transaction) : Prop :=
  role t1 = role t /\ method t1 = method t /\ handle_200resp t1 = handle_200resp t /\
  state t1 = state t.

Lemma outcome_base ev t t1 t' : base t t1 -> outcome ev t1 t' -> outcome ev t t'.
Proof.
  intros (Hr & Hm & Hh & Hs) (Hw & Hr' & Hm' & Hmv). unfold outcome, moves, is_invite in *.
  rewrite Hr, Hm, Hh, Hs in Hmv. split; [done|]. split; [congruence|]. split; [congruence|done].
Qed.

Lemma quiet_base sc t t' : quiet sc t t' -> base t t'.
Proof. intros [Hst Hs _ _ _ _ _]. apply static_inv in Hst as (? & ? & ? & _). done. Qed.

Lemma outcome_quiet ev sc t t' :
  tsx_wf t -> quiet sc t t' -> sc = status_code t \/ 200 <= sc -> outcome ev t t'.
Proof.
  intros Hw Hq Hok. pose proof (quiet_base _ _ _ Hq) as (? & ? & ? & ?).
  split; [by eapply tsx_wf_quiet|]. split; [done|]. split; [done|]. by left.
Qed.

Lemma outcome_ends ev sc t t' :
  wf_basic t -> state t <> PJSIP_TSX_STATE_DESTROYED -> ends sc t t' ->
  state t = PJSIP_TSX_STATE_TERMINATED \/
  rfc_edge (role t) (is_invite t) (handle_200resp t) (state t) ev sc PJSIP_TSX_STATE_TERMINATED ->
  outcome ev t t'.
Proof.
  intros Hw Hs He Hedge. split; [by eapply terminated_wf|].
  destruct He as [Hst Hs' _ Hsc _ _ _]. apply static_inv in Hst as (? & ? & _).
  split; [done|]. split; [done|]. unfold moves. rewrite Hs', Hsc.
  destruct Hedge as [->|]; auto.
Qed.

Lemma is_transport_error_200 sc : is_transport_error sc -> 200 <= sc.
Proof. by intros [-> | ->]. Qed.

Lemma outcome_send ev t t' :
  tsx_wf t -> state t <> PJSIP_TSX_STATE_DESTROYED -> may_send ev = true ->
  send_effect t t' -> outcome ev t t'.
Proof.
  intros Hw Hs Hev (sc & [[Hsc Hq]|[Hsc He]]).
  - eapply outcome_quiet; [done..|]. destruct Hsc as [|[]]; eauto using is_transport_error_200.
  - eapply outcome_ends; [apply Hw|done..|]. destruct (gone t) eqn:Hg.
    + left. unfold gone in Hg. by destruct (state t).
    + right. apply send_fails; [|done..]. unfold gone in Hg. by apply negb_false_iff in Hg.
Qed.

Lemma no_destroy_flag t : wf_basic t -> state t <> PJSIP_TSX_STATE_DESTROYED ->
  has_flag t TSX_HAS_PENDING_DESTROY = false.
Proof.
  intros Hw Hs. destruct (has_flag t TSX_HAS_PENDING_DESTROY) eqn:Hf; [|done].
  by apply (b_destroy _ Hw) in Hf.
Qed.

End Moves.
