(* ===== verification/TsxSteps.v ===== *)
(** * The steps of a SIP transaction

    Every entry point of [Transaction] keeps a transaction well-formed and
    moves it along the state diagrams of RFC 3261; the theorems about
    transactions that follow from it. *)

From stdpp Require Import gmap.
From S2P Require Import Prelude TimeVal Transaction TsxMoves.
Set Warnings "-clear-no-such-hyp".

Section Steps.
Context {E : TsxEnv}.

(** ** Preparations *)

(** Cancelling the timeout keeps everything but the armed timeout. *)
Lemma cancel_timeout_shape t : exists e n,
  tsx_cancel_timer timeout_entry t = t <| timeout_timer := e |> <| grp_lock_refs := n |> /\
  running e = None.
Proof. apply (cancel_timer_shape timeout_entry). Qed.

Lemma wf_cancel_timeout t : wf_basic t -> wf_basic (tsx_cancel_timer timeout_entry t).
Proof.
  intros [Hh Hr [Ht1 Ht2] Hf Hl Htm Hd]. destruct (cancel_timeout_shape t) as (e & n & -> & He).
  destruct t; constructor; try done. split; [done|]. cbn. rewrite He. by intros [].
Qed.

Lemma cancel_timeout_base t : base t (tsx_cancel_timer timeout_entry t).
Proof. destruct (cancel_timeout_shape t) as (e & n & -> & He). by destruct t. Qed.

Lemma cancel_timeout_fields t :
  status_code (tsx_cancel_timer timeout_entry t) = status_code t /\
  last_tx (tsx_cancel_timer timeout_entry t) = last_tx t /\
  is_reliable (tsx_cancel_timer timeout_entry t) = is_reliable t /\
  transport_flag (tsx_cancel_timer timeout_entry t) = transport_flag t.
Proof. destruct (cancel_timeout_shape t) as (e & n & -> & He). by destruct t. Qed.

Lemma base_refl t : base t t.
Proof. done. Qed.
Lemma base_trans t t1 t2 : base t t1 -> base t1 t2 -> base t t2.
Proof. intros (?&?&?&?) (?&?&?&?). repeat split; congruence. Qed.

(** A step with its state, ready for the handler: the timer that fired no
    longer runs. *)
Definition ready (ev : tsx_event) (t : pjsip_transaction) : Prop :=
  wf_basic t /\
  (env_accepts -> needs_timeout t = true -> ev <> ev_timer timeout_entry -> armed t).

Lemma ready_wf ev t : ready ev t -> ev <> ev_timer timeout_entry -> tsx_wf t.
Proof. intros [Hb Ha] Hev. split; auto. Qed.
Lemma wf_ready ev t : tsx_wf t -> ready ev t.
Proof. intros [Hb Ha]. split; auto. Qed.

Definition delivers (ev : tsx_event) (event : pjsip_event) : Prop :=
  match ev with
  | ev_send d => event = PJSIP_EVENT_TX_MSG d
  | ev_recv m => event = PJSIP_EVENT_RX_MSG m
  | ev_timer w => event = PJSIP_EVENT_TIMER w
  | _ => False
  end.

(** What a handler may rely on; a timer that has fired no longer runs. *)
Definition handler_ok (ev : tsx_event) (t : pjsip_transaction) : Prop :=
  match ev with ev_timer _ => True | _ => event_ok ev t end.

Lemma delivers_may_send ev event : delivers ev event -> may_send ev = true.
Proof. by destruct ev. Qed.

(** The timeout fires and the machine terminates. *)
Lemma timeout_terminates ev src sc t t1 :
  wf_basic t -> state t <> PJSIP_TSX_STATE_DESTROYED -> quiet sc t t1 ->
  rfc_edge (role t) (is_invite t) (handle_200resp t) (state t) ev sc PJSIP_TSX_STATE_TERMINATED ->
  outcome ev t (tsx_set_state PJSIP_TSX_STATE_TERMINATED src 0 t1).
Proof. intros Hw Hs Hq He. eapply outcome_ends; [done|done|by apply set_state_ends|by right]. Qed.

(** Arriving in a state after the operations from [t] to [t2]. *)
Lemma outcome_arrives ev s src sc t t2 t' :
  wf_basic t2 -> state t2 <> PJSIP_TSX_STATE_DESTROYED ->
  role t2 = role t -> method t2 = method t ->
  quiet sc (tsx_set_state s src 0 t2) t' -> sc = status_code t2 ->
  s <> PJSIP_TSX_STATE_TERMINATED -> s <> PJSIP_TSX_STATE_DESTROYED ->
  match s with
  | PJSIP_TSX_STATE_CALLING => role t = PJSIP_ROLE_UAC
  | PJSIP_TSX_STATE_TRYING => role t = PJSIP_ROLE_UAS
  | PJSIP_TSX_STATE_CONFIRMED => role t = PJSIP_ROLE_UAS /\ method t = PJSIP_INVITE_METHOD
  | _ => True
  end ->
  match s with
  | PJSIP_TSX_STATE_COMPLETED | PJSIP_TSX_STATE_CONFIRMED =>
      200 <= sc /\ is_Some (last_tx t2) /\
      (is_Some (running (timeout_timer t2)) -> id (timeout_timer t2) = TIMEOUT_TIMER)
  | _ => True
  end ->
  (env_accepts -> needs_timeout t' = true -> armed t') ->
  s = state t \/ rfc_edge (role t) (is_invite t) (handle_200resp t) (state t) ev sc s ->
  outcome ev t t'.
Proof.
  intros Hw Hnd Hr Hm Hq -> Hs1 Hs2 Hrole Hfin Harm Hedge.
  pose proof (set_state_arrives s src 0 t2 Hs1 Hs2) as Har.
  assert (timers_ok (tsx_set_state s src 0 t2) /\ last_tx (tsx_set_state s src 0 t2) = last_tx t2)
    as [Htm Hlt].
  { destruct (set_state_shape s src 0 t2 Hs1 Hs2) as [tr ->].
    destruct (b_timers _ Hw) as [Ht1 Ht2]. unfold timers_ok. destruct t2; cbn in *.
    split; [|done]. split; [done|]. intros Hrun. destruct (Ht2 Hrun) as [|[? _]]; [by left|].
    destruct s; try done; auto; destruct Hfin as (_ & _ & Hid); auto. }
  pose proof (arrives_quiet _ _ _ _ _ Har Hq) as Har'.
  assert (last_tx t' = last_tx t2) as Hlt'.
  { destruct Hq as [Hst _ _ _ _ _ _]. apply static_inv in Hst as (_&_&_&_&->). done. }
  split.
  - eapply arrives_wf; [exact Har'|done|done|done| | | |done].
    + rewrite Hr, Hm. done.
    + rewrite Hlt'. assert (role t2 = PJSIP_ROLE_UAC -> is_Some (last_tx t2)).
      { intros Hu. pose proof (b_last_tx _ Hw) as Hl. destruct (state t2); try done; auto. }
      destruct s; try done; by destruct Hfin as (? & ? & _).
    + apply (q_timers _ _ _ Hq Htm).
  - rewrite (n_role _ _ _ _ Har'), (n_method _ _ _ _ Har'). split; [done|]. split; [done|].
    unfold moves. rewrite (n_state _ _ _ _ Har'), (n_status _ _ _ _ Har').
    destruct Hedge as [->|]; auto.
Qed.

(** ** The handlers *)

Lemma send_effect_wf t t' :
  tsx_wf t -> state t <> PJSIP_TSX_STATE_DESTROYED -> send_effect t t' ->
  tsx_wf t' /\ state t' <> PJSIP_TSX_STATE_DESTROYED /\
  role t' = role t /\ method t' = method t /\ last_tx t' = last_tx t /\
  (armed t -> armed t').
Proof.
  intros Hw Hs (sc & [[Hsc Hq]|[Hsc He]]).
  - split; [eapply tsx_wf_quiet; try done; destruct Hsc as [|[]]; eauto using is_transport_error_200|].
    destruct Hq as [Hst Hs' _ _ _ Ha _]. apply static_inv in Hst as (?&?&?&?&?).
    by rewrite Hs'.
  - split; [by eapply terminated_wf; [apply Hw|..]|].
    destruct He as [Hst Hs' _ _ _ Ha _]. apply static_inv in Hst as (?&?&?&?&?).
    by rewrite Hs'.
Qed.

(** A change of the last message, where none is required. *)
Lemma wf_last_tx x tr t :
  wf_basic t -> state t <> PJSIP_TSX_STATE_DESTROYED ->
  is_Some x \/ role t = PJSIP_ROLE_UAS /\
    state t <> PJSIP_TSX_STATE_COMPLETED /\ state t <> PJSIP_TSX_STATE_CONFIRMED ->
  wf_basic (t <| last_tx := x |> <| trace := tr |>).
Proof.
  intros [Hh Hr Ht Hf Hl Htm Hd] Hs Hx. destruct t as [? ? ? ? ? st]; constructor; try done. cbn in *.
  destruct Hx as [|(-> & ? & ?)]; destruct st; naive_solver.
Qed.

Lemma keep_discard_shape d t :
  exists x tr, keep_last_tx d (discard_other_last_tx d t) =
    t <| last_tx := Some x |> <| trace := tr |>.
Proof.
  destruct (discard_shape d t) as (x & tr & -> & _).
  destruct (keep_last_tx_shape d (t <| last_tx := x |> <| trace := tr |>)) as (y & tr' & ->).
  exists y, tr'. by destruct t.
Qed.

Lemma arrives_needs s src t : s <> PJSIP_TSX_STATE_TERMINATED -> s <> PJSIP_TSX_STATE_DESTROYED ->
  (armed t -> armed (tsx_set_state s src 0 t)) /\
  state (tsx_set_state s src 0 t) = s /\ status_code (tsx_set_state s src 0 t) = status_code t.
Proof.
  intros H1 H2. destruct (set_state_shape s src 0 t H1 H2) as [tr ->]. by destruct t.
Qed.

(** Timer B or F is running, and timer A or E if the transport is unreliable. *)
Lemma calling_timers t2 :
  let t3 := restart_timeout timeout_timer_val t2 in
  let t4 := if negb (is_reliable t3) then start_retransmit t1_timer_val t3 else t3 in
  quiet (status_code t2) t2 t4 /\ armed t4.
Proof.
  cbn zeta. pose proof (restart_any_timeout timeout_timer_val TIMEOUT_TIMER t2) as Hto.
  assert (armed (restart_timeout timeout_timer_val t2))
    by (unfold armed, restart_timeout; rewrite Hto; by eexists).
  split; case_match; try (apply quiet_start_retransmit); quiet_auto.
  eapply q_armed; [apply quiet_start_retransmit, quiet_refl|done].
Qed.

Lemma tsx_on_state_null_uac_ok d t :
  tsx_wf t -> state t = PJSIP_TSX_STATE_NULL -> role t = PJSIP_ROLE_UAC ->
  outcome (ev_send d) t (tsx_on_state_null (PJSIP_EVENT_TX_MSG d) t).1.
Proof.
  intros Hw Hs Hr. unfold tsx_on_state_null. rewrite Hr. cbn zeta.
  destruct (keep_discard_shape d t) as (x & tr & ->).
  set (t1 := t <| last_tx := Some x |> <| trace := tr |>).
  assert (base t t1 /\ state t1 <> PJSIP_TSX_STATE_DESTROYED) as [Hb Hs1].
  { destruct t; cbn in *. by subst. }
  assert (tsx_wf t1) as Hw1.
  { split; [apply wf_last_tx; [apply Hw|by rewrite Hs|by left]|].
    unfold needs_timeout. destruct Hb as (_ & _ & _ & ->). by rewrite Hs. }
  pose proof (tsx_send_msg_effect d t1 (no_destroy_flag _ (proj1 Hw1) Hs1)) as He.
  destruct (tsx_send_msg d t1) as [t2 status]. cbn in He.
  eapply outcome_base; [exact Hb|].
  destruct (negb _); [by apply outcome_send|].
  destruct (send_effect_wf _ _ Hw1 Hs1 He) as (Hw2 & Hs2 & Hr2 & Hm2 & _ & _).
  destruct (calling_timers t2) as [Hq3 Ha3]. cbn zeta in Hq3, Ha3.
  set (t3 := if negb _ then _ else _) in *.
  assert (tsx_wf t3) as Hw3 by (eapply tsx_wf_quiet; eauto).
  pose proof (quiet_base _ _ _ Hq3) as (Hr3 & Hm3 & _ & Hs3).
  edestruct (arrives_needs PJSIP_TSX_STATE_CALLING (PJSIP_EVENT_TX_MSG d) t3) as (Ha & Hst & Hsc);
    [done..|].
  destruct Hb as (Hr1 & Hm1 & _ & Hs1').
  eapply (outcome_arrives _ PJSIP_TSX_STATE_CALLING _ _ t1 t3);
    [apply Hw3|congruence..|apply quiet_refl|done|done|done|congruence|done|by auto|].
  right. rewrite Hs1', Hs. constructor. congruence.
Qed.

Lemma tsx_on_state_null_uas_ok m t :
  tsx_wf t -> state t = PJSIP_TSX_STATE_NULL -> role t = PJSIP_ROLE_UAS ->
  outcome (ev_recv (PJSIP_REQUEST_MSG m)) t
    (tsx_on_state_null (PJSIP_EVENT_RX_MSG (PJSIP_REQUEST_MSG m)) t).1.
Proof.
  intros Hw Hs Hr. unfold tsx_on_state_null. rewrite Hr. cbn [fst].
  edestruct (arrives_needs PJSIP_TSX_STATE_TRYING (PJSIP_EVENT_RX_MSG (PJSIP_REQUEST_MSG m)) t)
    as (_ & Hst & Hsc); [done..|].
  eapply (outcome_arrives _ PJSIP_TSX_STATE_TRYING _ _ t t);
    [apply Hw|congruence..|apply quiet_refl|done|done|done|done|done| |].
  - intros _. unfold needs_timeout. by rewrite Hst.
  - right. rewrite Hs. by constructor.
Qed.

Lemma tsx_on_state_null_ok ev event t :
  tsx_wf t -> delivers ev event -> handler_ok ev t -> state t = PJSIP_TSX_STATE_NULL ->
  (forall w, ev <> ev_timer w) ->
  outcome ev t (tsx_on_state_null event t).1.
Proof.
  intros Hw Hdl Hev Hs Htm.
  destruct ev as [d|m|w| | | | | | |]; try done; cbn in Hdl; subst event; [| |by destruct (Htm w)].
  - destruct (role t) eqn:Hr; [by apply tsx_on_state_null_uac_ok|by destruct (Hev Hr)].
  - destruct (role t) eqn:Hr.
    + unfold tsx_on_state_null. rewrite Hr. eapply outcome_quiet; [done|apply quiet_refl|by left].
    + destruct m as [m|c]; [by apply tsx_on_state_null_uas_ok|]. destruct Hev. congruence.
Qed.

(** *** Client transactions *)

Lemma status_in_class c k : 0 <= c -> 0 <= k ->
  PJSIP_IS_STATUS_IN_CLASS c (100 * k) = (100 * k <=? c) && (c <? 100 * k + 100).
Proof.
  intros Hc Hk. unfold PJSIP_IS_STATUS_IN_CLASS. apply eq_true_iff_eq.
  rewrite andb_true_iff, Z.eqb_eq, Z.leb_le, Z.ltb_lt. Z.to_euclidean_division_equations. lia.
Qed.

Definition early (t : pjsip_transaction) : Prop :=
  role t = PJSIP_ROLE_UAC /\
  (state t = PJSIP_TSX_STATE_CALLING \/ state t = PJSIP_TSX_STATE_PROCEEDING).

Lemma early_not_gone t : early t -> state t <> PJSIP_TSX_STATE_DESTROYED.
Proof. intros (_ & [-> | ->]); done. Qed.

Lemma early_base t t1 : base t t1 -> early t1 <-> early t.
Proof. intros (Hr & _ & _ & Hs). unfold early. by rewrite Hr, Hs. Qed.

Lemma uac_last_tx t : wf_basic t -> role t = PJSIP_ROLE_UAC ->
  state t <> PJSIP_TSX_STATE_DESTROYED -> is_Some (last_tx t).
Proof. intros Hw Hr Hs. pose proof (b_last_tx _ Hw) as Hl. destruct (state t); try done; auto. Qed.

(** A restarted timeout in the invariant. *)
Lemma restart_wf d t : wf_basic t ->
  wf_basic (restart_timeout d t) /\ armed (restart_timeout d t) /\
  timeout_timer (restart_timeout d t) = TimerEntry TIMEOUT_TIMER (Some d).
Proof.
  intros Hw. pose proof (restart_any_timeout d TIMEOUT_TIMER t) as Ht. fold (restart_timeout d t) in Ht.
  split; [eapply wf_quiet; [exact Hw|apply quiet_restart_timeout, quiet_refl|by left]|].
  split; [unfold armed; rewrite Ht; by eexists|done].
Qed.

Lemma state_change_ok ev s src t t1 :
  base t t1 -> wf_basic t1 -> state t <> PJSIP_TSX_STATE_DESTROYED ->
  s = PJSIP_TSX_STATE_PROCEEDING \/
  s = PJSIP_TSX_STATE_COMPLETED /\ 200 <= status_code t1 /\ is_Some (last_tx t1) /\
    (is_Some (running (timeout_timer t1)) -> id (timeout_timer t1) = TIMEOUT_TIMER) ->
  (env_accepts -> s = PJSIP_TSX_STATE_COMPLETED \/
     role t = PJSIP_ROLE_UAC /\ is_invite t = false -> armed t1) ->
  s = state t \/
  rfc_edge (role t) (is_invite t) (handle_200resp t) (state t) ev (status_code t1) s ->
  outcome ev t (tsx_set_state s src 0 t1).
Proof.
  intros (Hr & Hm & Hh & Hs) Hw Hnd Hfin Harm Hedge.
  assert (s <> PJSIP_TSX_STATE_TERMINATED /\ s <> PJSIP_TSX_STATE_DESTROYED) as [H1 H2]
    by (destruct Hfin as [->|[-> _]]; done).
  destruct (arrives_needs s src t1 H1 H2) as (Ha & Hst & Hsc).
  eapply (outcome_arrives _ s _ _ t t1); [done|congruence..|apply quiet_refl|done|done|done| | | |].
  - destruct Hfin as [->|[-> _]]; done.
  - destruct Hfin as [->|[-> ?]]; [done|]. rewrite Hsc. done.
  - intros Henv Hn. apply Ha, (Harm Henv). unfold needs_timeout in Hn. rewrite Hst in Hn.
    destruct Hfin as [->|[-> _]]; [right|by left]. apply andb_true_iff in Hn as [Hn1 Hn2].
    destruct (set_state_arrives PJSIP_TSX_STATE_PROCEEDING src 0 t1) as [Er Em _ _ _ _ _]; [done..|].
    unfold is_invite in *. rewrite Em, Hm in Hn2. rewrite Er, Hr in Hn1.
    apply bool_decide_eq_true in Hn1. by apply negb_true_iff in Hn2.
  - rewrite Hsc. done.
Qed.

(** 2xx. *)
Lemma uac_2xx_ok c t t1 :
  base t t1 -> wf_basic t1 -> early t -> status_code t1 = c -> 200 <= c < 300 ->
  let event := PJSIP_EVENT_RX_MSG (PJSIP_RESPONSE_MSG c) in
  let t2 := tsx_cancel_timer timeout_entry t1 in
  let t3 := tsx_cancel_timer retransmit_entry
              (tsx_schedule_timer timeout_entry (completed_uac_delay t2) TIMEOUT_TIMER t2) in
  outcome (ev_recv (PJSIP_RESPONSE_MSG c)) t
    (if is_invite t2 then tsx_set_state PJSIP_TSX_STATE_TERMINATED event 0 t2
     else tsx_set_state PJSIP_TSX_STATE_COMPLETED event 0 t3).
Proof.
  intros Hb Hw He Hc Hrange event t2 t3.
  pose proof (base_trans _ _ _ Hb (cancel_timeout_base t1)) as Hb2. fold t2 in Hb2.
  destruct (cancel_timeout_fields t1) as (Hsc2 & Hl2 & _). fold t2 in Hsc2, Hl2.
  assert (rfc_edge (role t) (is_invite t) (handle_200resp t) (state t)
    (ev_recv (PJSIP_RESPONSE_MSG c)) c (if is_invite t then PJSIP_TSX_STATE_TERMINATED
       else PJSIP_TSX_STATE_COMPLETED)) as Hedge by (by constructor; destruct He).
  assert (is_invite t2 = is_invite t) as -> by (unfold is_invite; by destruct Hb2 as (_ & -> & _)).
  destruct (is_invite t) eqn:Hi.
  - eapply outcome_base; [exact Hb2|].
    eapply outcome_ends; [by apply wf_cancel_timeout|apply early_not_gone; by eapply early_base|
      by apply set_state_ends, quiet_refl|].
    right. destruct Hb2 as (-> & Hm & -> & ->). unfold is_invite in *. by rewrite Hm, Hi, Hsc2, Hc.
  - destruct (restart_wf (completed_uac_delay t2) t1 Hw) as (Hw3 & Ha3 & Ht3).
    change (restart_timeout (completed_uac_delay t2) t1) with
      (tsx_schedule_timer timeout_entry (completed_uac_delay t2) TIMEOUT_TIMER t2) in *.
    assert (quiet (status_code t1) t1 t3) as Hq
      by (apply quiet_cancel_retransmit, (quiet_restart_timeout _ _ t1), quiet_refl).
    assert (timeout_timer t3 = TimerEntry TIMEOUT_TIMER (Some (completed_uac_delay t2))) as Hto.
    { rewrite <- Ht3. subst t3. destruct (cancel_timer_shape retransmit_entry
        (tsx_schedule_timer timeout_entry (completed_uac_delay t2) TIMEOUT_TIMER t2))
        as (e & n & -> & _). by destruct (tsx_schedule_timer _ _ _ _). }
    pose proof (q_status _ _ _ Hq) as Hsc3. pose proof (quiet_base _ _ _ Hq) as Hb3.
    apply state_change_ok; [exact (base_trans _ _ _ Hb Hb3)| |by apply early_not_gone| | |].
    + eapply wf_quiet; [exact Hw|exact Hq|by left].
    + right. split; [done|]. split; [lia|]. split; [|by rewrite Hto].
      destruct Hq as [Hst _ _ _ _ _ _]. apply static_inv in Hst as (_&_&_&_&->).
      destruct Hb as (Hr & _ & _ & Hs). apply uac_last_tx; [done|rewrite Hr; apply He|].
      rewrite Hs. by apply early_not_gone.
    + intros _ _. unfold armed. rewrite Hto. by eexists.
    + right. by rewrite Hi, Hsc3, Hc.
Qed.

(** 3xx to 6xx. *)
Lemma restart_timers_ok d t :
  (is_Some (running (retransmit_timer t)) -> id (retransmit_timer t) = RETRANSMIT_TIMER) ->
  timers_ok (restart_timeout d t).
Proof.
  intros Hrt. pose proof (restart_any_timeout d TIMEOUT_TIMER t) as Ht. unfold restart_timeout.
  assert (retransmit_timer (tsx_schedule_timer timeout_entry d TIMEOUT_TIMER
            (tsx_cancel_timer timeout_entry t)) = retransmit_timer t) as Hr.
  { unfold tsx_schedule_timer, tsx_cancel_timer. destruct t; by repeat case_match. }
  split; [by rewrite Hr|rewrite Ht; by left].
Qed.

Lemma complete_uac_shape event ack t : exists x tr,
  complete_uac event ack t =
    restart_timeout (completed_uac_delay t) (t <| state := PJSIP_TSX_STATE_COMPLETED |>
      <| state_handler := handler_of (role t) PJSIP_TSX_STATE_COMPLETED |>
      <| last_tx := x |> <| trace := tr |>) /\
  (x = last_tx t \/ is_Some x).
Proof.
  unfold complete_uac. destruct (set_state_shape PJSIP_TSX_STATE_COMPLETED event 0 t) as [tr ->];
    [done..|].
  destruct ack as [a|].
  - cbn zeta. set (t3 := t <| state := PJSIP_TSX_STATE_COMPLETED |> <| state_handler := _ |> <| trace := tr |>).
    destruct (same_tdata (last_tx t3) a).
    + exists (last_tx t), tr. split; [by destruct t|by left].
    + destruct (drop_last_tx_shape t3) as [tr' ->]. exists (Some a), tr'.
      split; [by destruct t|right; by eexists].
  - exists (last_tx t), tr. split; [by destruct t|by left].
Qed.

Lemma complete_uac_ok ev event ack t t2 :
  wf_basic t2 -> state t2 <> PJSIP_TSX_STATE_DESTROYED ->
  role t2 = role t -> method t2 = method t -> role t = PJSIP_ROLE_UAC ->
  200 <= status_code t2 ->
  rfc_edge (role t) (is_invite t) (handle_200resp t) (state t) ev (status_code t2)
    PJSIP_TSX_STATE_COMPLETED ->
  outcome ev t (complete_uac event ack t2).
Proof.
  intros Hw Hnd Hr Hm Hu Hsc Hedge.
  pose proof (uac_last_tx t2 Hw) as Hl. rewrite Hr in Hl. specialize (Hl Hu Hnd).
  destruct (complete_uac_shape event ack t2) as (x & tr & -> & Hx).
  set (t3 := t2 <| state := PJSIP_TSX_STATE_COMPLETED |> <| state_handler := _ |>
    <| last_tx := x |> <| trace := tr |>).
  assert (arrives PJSIP_TSX_STATE_COMPLETED (status_code t2) t2 t3) as Har.
  { subst t3. destruct t2. by constructor. }
  pose proof (quiet_restart_timeout (completed_uac_delay t2) _ _ _ (quiet_refl t3)) as Hq.
  pose proof (arrives_quiet _ _ _ _ _ Har Hq) as Har'. set (t' := restart_timeout _ t3) in *.
  assert (last_tx t' = x) as Hlx.
  { destruct Hq as [Hst _ _ _ _ _ _]. apply static_inv in Hst as (_&_&_&_&->).
    subst t3. by destruct t2. }
  split; [|split; [by rewrite (n_role _ _ _ _ Har')|split; [by rewrite (n_method _ _ _ _ Har')|]]].
  - eapply arrives_wf; [exact Har'|done|done|done|done| | |].
    + rewrite Hlx. split; [done|]. by destruct Hx as [->|].
    + apply restart_timers_ok. subst t3. pose proof (b_timers _ Hw) as [Ht _]. by destruct t2.
    + intros _ _. unfold armed. subst t'. unfold restart_timeout.
      rewrite restart_any_timeout. by eexists.
  - right. by rewrite (n_state _ _ _ _ Har'), (n_status _ _ _ _ Har').
Qed.

(** Under [env_accepts] a send that reports an error has ended the machine. *)
Lemma send_error_ended d t : env_accepts -> (tsx_send_msg d t).2 <> PJ_SUCCESS ->
  state (tsx_send_msg d t).1 = PJSIP_TSX_STATE_TERMINATED.
Proof.
  intros (Hreq & Hres & _). unfold tsx_send_msg. cbn [tsx_send_msg_depth].
  destruct (has_flag t TSX_HAS_PENDING_TRANSPORT); [done|]. destruct (is_pending t d); [done|].
  destruct (send_on_transport d t) as [[t1 status] []] eqn:Hsend.
  { unfold send_on_transport in Hsend. destruct (transport t); [|done]. cbn zeta in Hsend.
    destruct (_ =? PJ_EPENDING); destruct (negb _) in Hsend; by simplify_eq. }
  destruct (has_flag t1 TSX_HAS_RESOLVED_SERVER).
  { intros _. cbn [fst]. eapply e_state, set_state_ends, quiet_refl. }
  unfold send_resolving. cbn zeta. set (t2 := set_flag _ _).
  set (res := if is_request d then _ else _).
  assert (res.2 = PJ_SUCCESS \/ res.2 = PJ_EPENDING) as Hok by (subst res; by case_match).
  destruct res as [cbs st]. cbn [snd fst] in *.
  assert ((if st =? PJ_EPENDING then PJ_SUCCESS else st) = PJ_SUCCESS) as -> by (by destruct Hok as [-> | ->]).
  change (PJ_SUCCESS =? PJ_SUCCESS) with true. cbn [negb andb].
  case_bool_decide; [|done]. done.
Qed.

Lemma ack_sent_ok c event ack t t2 t3 status :
  base t t2 -> wf_basic t2 -> early t -> is_invite t = true -> status_code t2 = c ->
  300 <= c < 700 -> send_effect t2 t3 ->
  (env_accepts -> status <> PJ_SUCCESS -> state t3 = PJSIP_TSX_STATE_TERMINATED) ->
  outcome (ev_recv (PJSIP_RESPONSE_MSG c)) t
    (if negb (status =? PJ_SUCCESS) then (t3, status)
     else (complete_uac event (Some ack) t3, PJ_SUCCESS)).1.
Proof.
  intros Hb Hw He Hi Hc Hrange Hse Herr.
  pose proof (proj2 (early_base _ _ Hb) He) as He2. pose proof (early_not_gone _ He2) as Hnd.
  pose proof Hb as (Hr & Hm & Hh & Hs).
  destruct Hse as (sc & [[Hsc Hq]|[Hsc Hen]]).
  - assert (sc = c) as ->.
    { destruct Hsc as [->|[_ Hg]]; [done|]. unfold gone in Hg. by destruct He2 as [_ [Hs2|Hs2]]; rewrite Hs2 in Hg. }
    assert (wf_basic t3) as Hw3 by (eapply wf_quiet; eauto).
    pose proof (base_trans _ _ _ Hb (quiet_base _ _ _ Hq)) as Hb3.
    destruct (Z.eqb_spec status PJ_SUCCESS) as [_|Hne]; cbn [negb fst].
    + destruct Hb3 as (Hr3 & Hm3 & _ & Hs3).
      apply complete_uac_ok; [done| |done|done|apply He|rewrite (q_status _ _ _ Hq); lia|].
      * rewrite Hs3. by apply early_not_gone.
      * rewrite Hi, (q_status _ _ _ Hq). apply uac_final; [apply He|done|by left|apply He].
    + eapply outcome_base; [exact Hb3|]. eapply outcome_quiet; [|apply quiet_refl|by left].
      split; [done|]. intros Henv. rewrite (q_state _ _ _ Hq) in Herr.
      specialize (Herr Henv Hne). by destruct He2 as [_ [Hs2|Hs2]]; rewrite Hs2 in Herr.
  - destruct (Z.eqb_spec status PJ_SUCCESS) as [_|_]; cbn [negb fst].
    + destruct (terminated_wf _ _ _ Hw Hnd Hen) as [Hw3 _].
      destruct Hen as [Hst Hs3 _ Hsc3 _ _ _]. apply static_inv in Hst as (Hr3 & Hm3 & _).
      apply complete_uac_ok; [done|by rewrite Hs3|congruence|congruence|apply He| |].
      * rewrite Hsc3. by apply is_transport_error_200.
      * rewrite Hi, Hsc3. apply uac_final; [apply He|done|by right|apply He].
    + eapply outcome_base; [exact Hb|]. eapply outcome_ends; [done|done|exact Hen|].
      right. apply send_fails; [|done|done]. by destruct He2 as [_ [-> | ->]].
Qed.

Lemma uac_final_ok c t t1 :
  base t t1 -> wf_basic t1 -> early t -> status_code t1 = c -> 300 <= c < 700 ->
  let event := PJSIP_EVENT_RX_MSG (PJSIP_RESPONSE_MSG c) in
  outcome (ev_recv (PJSIP_RESPONSE_MSG c)) t (proceeding_uac_status event t1).1.
Proof.
  intros Hb Hw He Hc Hrange event. unfold proceeding_uac_status.
  change 100 with (100 * 1). change 200 with (100 * 2).
  rewrite Hc, !status_in_class by lia.
  assert ((100 * 1 <=? c) && (c <? 100 * 1 + 100) = false) as -> by lia.
  assert ((100 * 2 <=? c) && (c <? 100 * 2 + 100) = false) as -> by lia.
  cbn [is_timeout_event event].
  assert ((c >=? 300) && (c <=? 699) = true) as -> by lia. cbn zeta.
  set (t2 := tsx_cancel_timer timeout_entry (tsx_cancel_timer retransmit_entry t1)).
  pose proof (quiet_cancel_retransmit _ _ _ (quiet_refl t1)) as Hq.
  pose proof (base_trans _ _ _ Hb (base_trans _ _ _ (quiet_base _ _ _ Hq)
    (cancel_timeout_base (tsx_cancel_timer retransmit_entry t1)))) as Hb2.
  fold t2 in Hb2. pose proof Hb2 as (Hr2 & Hm2 & Hh2 & Hs2).
  assert (wf_basic t2) as Hw2 by (eapply wf_cancel_timeout, wf_quiet; eauto).
  assert (status_code t2 = c) as Hc2.
  { destruct (cancel_timeout_fields (tsx_cancel_timer retransmit_entry t1)) as (Hsc & _).
    fold t2 in Hsc. rewrite Hsc, (q_status _ _ _ Hq). done. }
  assert (early t2) as He2 by (by eapply early_base).
  assert (is_invite t2 = is_invite t) as -> by (unfold is_invite; by rewrite Hm2).
  destruct (is_invite t) eqn:Hi; cbn [fst].
  2: { apply complete_uac_ok; try done; [by apply early_not_gone|apply He|lia|].
       rewrite Hi, Hc2. destruct He. by apply uac_final; auto. }
  destruct (pjsip_endpt_create_ack (last_tx t2) (PJSIP_RESPONSE_MSG c)) as [ack|st] eqn:Hack.
  - pose proof (tsx_send_msg_effect ack t2 (no_destroy_flag _ Hw2 (early_not_gone _ He2))) as Hse.
    pose proof (fun H => send_error_ended ack t2 H) as Herr.
    destruct (tsx_send_msg ack t2) as [t3 status]. cbn [fst snd] in *.
    by apply ack_sent_ok with (t2 := t2).
  - cbn [fst]. eapply outcome_base; [exact Hb2|].
    eapply outcome_quiet; [|apply quiet_refl|by left]. split; [done|].
    intros (_ & _ & Hcr). destruct (Hcr (last_tx t2) (PJSIP_RESPONSE_MSG c)) as [a Ha]. congruence.
Qed.

Lemma proceeding_uac_status_ok c t t1 :
  base t t1 -> wf_basic t1 -> early t -> status_code t1 = c -> 100 <= c < 700 ->
  (env_accepts -> c < 200 ->
     state t = PJSIP_TSX_STATE_CALLING \/ needs_timeout t = true -> is_invite t = false -> armed t1) ->
  outcome (ev_recv (PJSIP_RESPONSE_MSG c)) t
    (proceeding_uac_status (PJSIP_EVENT_RX_MSG (PJSIP_RESPONSE_MSG c)) t1).1.
Proof.
  intros Hb Hw He Hc Hrange Harm.
  destruct (Z_lt_le_dec c 300) as [Hlt|]; [|apply uac_final_ok; by try lia].
  unfold proceeding_uac_status. change 100 with (100 * 1). change 200 with (100 * 2).
  rewrite Hc, !status_in_class by lia.
  destruct (Z_lt_le_dec c 200).
  - assert ((100 * 1 <=? c) && (c <? 100 * 1 + 100) = true) as -> by lia. cbn [fst].
    apply state_change_ok; [done|done|by apply early_not_gone|by left| |].
    + intros Henv [?|[_ Hi]]; [done|]. apply Harm; [done..| |done]. destruct He as [Hr [Hs|Hs]]; [by left|].
      right. unfold needs_timeout. by rewrite Hs, Hr, Hi.
    + rewrite Hc. destruct He as [Hr [Hs|Hs]]; rewrite Hs; [right; apply uac_1xx; [done|lia]|by left].
  - assert ((100 * 1 <=? c) && (c <? 100 * 1 + 100) = false) as -> by lia.
    assert ((100 * 2 <=? c) && (c <? 100 * 2 + 100) = true) as -> by lia. cbn zeta.
    pose proof (uac_2xx_ok c t t1 Hb Hw He Hc ltac:(lia)) as H. cbn zeta in H.
    by destruct (is_invite (tsx_cancel_timer timeout_entry t1)).
Qed.

Lemma timeout_not_status t : PJSIP_IS_STATUS_IN_CLASS (status_code (tsx_set_status_code PJSIP_SC_TSX_TIMEOUT t)) 100 = false /\
  PJSIP_IS_STATUS_IN_CLASS (status_code (tsx_set_status_code PJSIP_SC_TSX_TIMEOUT t)) 200 = false.
Proof. by destruct t. Qed.

Lemma quiet_set_status c t : quiet c t (tsx_set_status_code c t).
Proof. eapply quiet_status, quiet_refl. Qed.

Lemma wf_status c t : wf_basic t ->
  state t <> PJSIP_TSX_STATE_COMPLETED -> state t <> PJSIP_TSX_STATE_CONFIRMED ->
  wf_basic (tsx_set_status_code c t).
Proof.
  intros [Hh Hr Ht Hf Hl Htm Hd] H1 H2. destruct t; constructor; try done. cbn in *.
  by destruct state.
Qed.

Lemma retransmit_ok ev r t :
  tsx_wf t -> state t <> PJSIP_TSX_STATE_DESTROYED -> may_send ev = true ->
  outcome ev t (tsx_retransmit r t).1.
Proof.
  intros Hw Hs Hev. apply outcome_send; try done.
  apply tsx_retransmit_effect. by eapply no_destroy_flag; [apply Hw|].
Qed.

Lemma outcome_same ev t : tsx_wf t -> outcome ev t t.
Proof. intros Hw. eapply outcome_quiet; [done|apply quiet_refl|by left]. Qed.

Lemma tsx_on_state_proceeding_uac_ok ev event t :
  ready ev t -> delivers ev event -> handler_ok ev t -> role t = PJSIP_ROLE_UAC ->
  state t = PJSIP_TSX_STATE_PROCEEDING ->
  outcome ev t (tsx_on_state_proceeding_uac event t).1.
Proof.
  intros Hrd Hdl Hev Hr Hs. assert (early t) as He by (split; auto).
  destruct ev as [d|m|w| | | | | | |]; try done; cbn in Hdl; subst event; cbn [tsx_on_state_proceeding_uac].
  - by eapply outcome_same, ready_wf.
  - destruct m as [m|c]; [by eapply outcome_same, ready_wf|]. destruct Hev as [_ Hc].
    pose proof (quiet_set_status c t) as Hq. destruct Hrd as [Hb Ha].
    apply proceeding_uac_status_ok; [by eapply quiet_base| |done|by destruct t|done|].
    + apply wf_status; [done|congruence..].
    + intros Henv _ [Hx|Hx] _; [congruence|]. apply (q_armed _ _ _ Hq). by apply Ha.
  - destruct w; [apply retransmit_ok; [by eapply ready_wf|congruence|done]|].
    unfold proceeding_uac_status. destruct (timeout_not_status t) as [-> ->].
    cbn [is_timeout_event fst]. eapply timeout_terminates; [apply Hrd|congruence|apply quiet_set_status|].
    apply uac_timeout; [done|by right].
Qed.

(** What [tsx_on_state_calling] does to the timers before a response is looked at. *)
Definition calling_response (code : Z) (t : pjsip_transaction) : pjsip_transaction :=
  let t := tsx_cancel_timer retransmit_entry t in
  let t :=
    if code >=? 200 then
      if negb (id (timeout_timer t) =? 0) then tsx_cancel_timer timeout_entry t else t
    else if is_invite t then tsx_cancel_timer timeout_entry t
    else if negb (is_reliable t)
    then tsx_schedule_timer retransmit_entry t2_timer_val RETRANSMIT_TIMER t
    else t in
  clear_flag TSX_HAS_PENDING_RESCHED t.

Lemma quiet_wf_armed t t' : wf_basic t -> quiet (status_code t) t t' ->
  wf_basic t' /\ base t t' /\ (armed t -> armed t').
Proof.
  intros Hw Hq. split; [by eapply wf_quiet; [..|by left]|].
  split; [by eapply quiet_base|apply Hq].
Qed.

Lemma calling_response_ok code t : wf_basic t ->
  wf_basic (calling_response code t) /\ base t (calling_response code t) /\
  (code < 200 -> is_invite t = false -> armed t -> armed (calling_response code t)).
Proof.
  intros Hw. unfold calling_response. cbn zeta.
  pose proof (quiet_wf_armed _ _ Hw (quiet_cancel_retransmit _ _ _ (quiet_refl t)))
    as (Hw1 & Hb1 & Ha1).
  set (t1 := tsx_cancel_timer retransmit_entry t) in *.
  set (t2 := if code >=? 200 then _ else _).
  assert (wf_basic t2 /\ base t1 t2 /\ (code < 200 -> is_invite t = false -> armed t1 -> armed t2))
    as (Hw2 & Hb2 & Ha2).
  { subst t2. destruct (Z.geb_spec code 200).
    - case_match; (split; [|split; [|lia]]); auto using wf_cancel_timeout, cancel_timeout_base, base_refl.
    - assert (is_invite t1 = is_invite t) as -> by (unfold is_invite; by destruct Hb1 as (_&->&_)).
      destruct (is_invite t).
      { split; [by apply wf_cancel_timeout|]. split; [apply cancel_timeout_base|done]. }
      edestruct (quiet_wf_armed t1 (if negb (is_reliable t1) then
        tsx_schedule_timer retransmit_entry t2_timer_val RETRANSMIT_TIMER t1 else t1)) as (?&?&?);
        [done|quiet_auto|by split; [|split]]. }
  assert (quiet (status_code t2) t2 (clear_flag TSX_HAS_PENDING_RESCHED t2)) as Hq by quiet_auto.
  destruct (quiet_wf_armed _ _ Hw2 Hq) as (Hw3 & Hb3 & Ha3).
  split; [done|]. split; [eauto using base_trans|]. auto.
Qed.

Lemma tsx_on_state_calling_ok ev event t :
  ready ev t -> delivers ev event -> handler_ok ev t -> role t = PJSIP_ROLE_UAC ->
  state t = PJSIP_TSX_STATE_CALLING ->
  outcome ev t (tsx_on_state_calling event t).1.
Proof.
  intros Hrd Hdl Hev Hr Hs. assert (early t) as He by (split; auto).
  destruct ev as [d|m|w| | | | | | |]; try done; cbn in Hdl; subst event;
    cbn [tsx_on_state_calling].
  - by eapply outcome_same, ready_wf.
  - destruct m as [m|c]; [by eapply outcome_same, ready_wf|]. destruct Hev as [_ Hc].
    destruct Hrd as [Hb Ha]. destruct (calling_response_ok c t Hb) as (Hw1 & Hb1 & Ha1).
    cbn [fst tsx_on_state_proceeding_uac]. fold (calling_response c t).
    set (t1 := calling_response c t) in *. destruct Hb1 as (Hr1 & Hm1 & Hh1 & Hs1).
    apply proceeding_uac_status_ok; [|by apply wf_status; [|congruence..]|done|by destruct t1|done|].
    + destruct t1. cbn in *. done.
    + intros Henv Hlt _ Hi. assert (armed t) as Hat.
      { apply Ha; [done| |done]. unfold needs_timeout. by rewrite Hs. }
      specialize (Ha1 Hlt Hi Hat). by destruct t1.
  - destruct w.
    + pose proof (retransmit_ok (ev_timer retransmit_entry) true t) as Hok.
      destruct (tsx_retransmit true t) as [t1 status]. cbn [fst] in *.
      assert (outcome (ev_timer retransmit_entry) t t1) as Ho
        by (apply Hok; [by eapply ready_wf|congruence|done]).
      by destruct (negb _).
    + cbn [fst]. eapply timeout_terminates; [apply Hrd|congruence| |].
      * eapply quiet_status, quiet_clear_flag; [apply not_destroy_flags|].
        apply quiet_cancel_retransmit, quiet_refl.
      * rewrite Hs. apply uac_timeout; [done|by left].
Qed.

(** *** A successful send

    When no deferred message waits, a send that reports success has left the
    machine where it was: the callbacks the resolver made before it returned
    only brought the transport. *)

Definition no_deferred (t : pjsip_transaction) : Prop :=
  has_flag t TSX_HAS_PENDING_SEND = false \/ last_tx t = None.

(** The parts of the state the argument follows. *)
Definition followed (t : pjsip_transaction) :=
  (has_flag t TSX_HAS_PENDING_SEND, last_tx t, mod_data t).

Lemma followed_inv t t' : followed t' = followed t ->
  has_flag t' TSX_HAS_PENDING_SEND = has_flag t TSX_HAS_PENDING_SEND /\
  last_tx t' = last_tx t /\ mod_data t' = mod_data t.
Proof. unfold followed. by intros [=]. Qed.

Lemma restart_any_followed d i t :
  followed (tsx_schedule_timer timeout_entry d i (tsx_cancel_timer timeout_entry t)) = followed t.
Proof. unfold tsx_schedule_timer, tsx_cancel_timer. destruct t; by repeat case_match. Qed.

Lemma tp_state_followed e t : followed (tsx_tp_state_callback e t) = followed t.
Proof.
  unfold tsx_tp_state_callback. destruct (_ <s _); [rewrite restart_any_followed|]; by destruct t.
Qed.

Lemma update_transport_followed tp t : followed (tsx_update_transport tp t) = followed t.
Proof.
  unfold tsx_update_transport. cbn zeta.
  set (t1 := match transport t with Some _ => _ | None => t end).
  assert (followed t1 = followed t) as <-.
  { subst t1. destruct (transport t) as [o|]; [|done]. destruct (tp_st_key t); by destruct t. }
  destruct tp as [tp|]; [|done].
  destruct (is_shutdown tp); [rewrite tp_state_followed|]; by destruct t1.
Qed.

Lemma resched_followed t : followed (tsx_resched_retransmission t) = followed t.
Proof.
  unfold tsx_resched_retransmission. cbn zeta. destruct (negb _); [|done].
  unfold tsx_schedule_timer. case_match; by destruct t.
Qed.

Lemma flags_followed j t : j = 0 \/ j = 1 \/ j = 4 ->
  followed (set_flag (2 ^ j) t) = followed t /\ followed (clear_flag (2 ^ j) t) = followed t.
Proof.
  intros Hj. unfold followed. change TSX_HAS_PENDING_SEND with (2 ^ 2).
  rewrite has_set_flag, has_clear_flag by lia.
  destruct t, Hj as [-> | [-> | ->]]; done.
Qed.

Lemma transport_flag_followed t :
  followed (set_flag TSX_HAS_PENDING_TRANSPORT t) = followed t /\
  followed (clear_flag TSX_HAS_PENDING_TRANSPORT t) = followed t.
Proof. apply (flags_followed 0). by left. Qed.

Lemma callback_sent_quiet send o t :
  has_flag t TSX_HAS_PENDING_DESTROY = false -> no_deferred t ->
  quiet (status_code t) t (callback_sent send o t) /\
  mod_data (callback_sent send o t) = mod_data t.
Proof.
  intros Hd Hn. unfold callback_sent. cbn zeta.
  set (t1 := match cur_transport o with Some _ => _ | None => t end).
  assert (quiet (status_code t) t t1 /\ followed t1 = followed t) as [Hq1 Hf1].
  { subst t1. destruct (cur_transport o) as [tp|]; [|by split; [apply quiet_refl|]].
    destruct (same_transport _ _); [by split; [apply quiet_refl|]|].
    split; [apply quiet_reliable, quiet_update_transport, quiet_refl|].
    rewrite <- (update_transport_followed (Some tp) t). by destruct (tsx_update_transport _ _). }
  set (t2 := set_flag TSX_HAS_RESOLVED_SERVER _).
  assert (quiet (status_code t) t t2) as Hq2 by (subst t2; quiet_auto).
  assert (followed t2 = followed t) as Hf2.
  { rewrite <- Hf1, <- (proj2 (transport_flag_followed t1)). apply (flags_followed 4). auto. }
  rewrite (q_destroy _ _ _ Hq2), Hd. apply followed_inv in Hf2 as (Hps & Hl & Hmd).
  rewrite Hps. set (t3 := if has_flag t TSX_HAS_PENDING_SEND then _ else t2).
  assert (quiet (status_code t) t t3 /\ mod_data t3 = mod_data t) as [Hq3 Hmd3].
  { subst t3. destruct Hn as [-> | Hn]; [by split|]. destruct (has_flag t TSX_HAS_PENDING_SEND); [|by split].
    assert (last_tx (clear_flag TSX_HAS_PENDING_SEND t2) = None) as ->
      by (transitivity (last_tx t2); [done|congruence]).
    split; [quiet_auto|]. by transitivity (mod_data t2). }
  destruct (_ && _); [|by split]. destruct (negb _).
  - split; [apply quiet_resched; quiet_auto|].
    pose proof (resched_followed (clear_flag TSX_HAS_PENDING_RESCHED t3)) as Hr.
    apply followed_inv in Hr as (_ & _ & ->). by transitivity (mod_data t3).
  - split; [quiet_auto|]. by transitivity (mod_data t3).
Qed.

Lemma set_state_terminated_fields src t :
  transport_err (tsx_set_state PJSIP_TSX_STATE_TERMINATED src 0 t) = transport_err t /\
  mod_data (tsx_set_state PJSIP_TSX_STATE_TERMINATED src 0 t) ⊆ mod_data t.
Proof.
  rewrite set_state_notified. destruct (notified_fields PJSIP_TSX_STATE_TERMINATED src 0 t) as [tr ->].
  change (Z.land 0 NO_SCHEDULE_HANDLER =? 0) with true. cbv iota zeta.
  set (t1 := if has_flag _ _ then _ else _).
  assert (transport_err t1 = transport_err t /\ mod_data t1 ⊆ mod_data t) as [<- ?].
  { subst t1. destruct t as [? ? ? ? ? ? ? ? ? ? ? ? ? [p|]]; cbn.
    all: destruct (has_flag _ _); cbn; split; try done; set_solver. }
  split; [|transitivity (mod_data t1); [|done]];
    unfold tsx_schedule_timer, tsx_cancel_timer; destruct t1; by repeat case_match.
Qed.

(** What holds after some of the resolver's callbacks: the machine is where it
    was, and either still waits for the result or will ignore any other; or the
    last server failed. *)
Definition resolving (d : pjsip_tx_data) (t0 t : pjsip_transaction) : Prop :=
  quiet (status_code t0) t0 t /\ (no_deferred t \/ tdata_id d ∉ mod_data t) \/
  state t = PJSIP_TSX_STATE_TERMINATED /\ transport_err t <> 0 /\ tdata_id d ∉ mod_data t.

Lemma dec_ref_fields t :
  followed (pj_grp_lock_dec_ref t) = followed t /\
  state (pj_grp_lock_dec_ref t) = state t /\
  transport_err (pj_grp_lock_dec_ref t) = transport_err t.
Proof. by destruct t. Qed.

Lemma callback_failed_resolving d o t0 t :
  quiet (status_code t0) t0 t -> has_flag t TSX_HAS_PENDING_DESTROY = false -> gone t = false ->
  no_deferred t -> sent o < 0 -> tdata_id d ∉ mod_data t ->
  resolving d t0 (callback_failed d o t).
Proof.
  intros Hq0 Hd Hg Hn Ho Hmd. unfold callback_failed. cbn zeta.
  set (t2 := if same_transport _ _ then _ else t).
  assert (quiet (status_code t) t t2 /\ followed t2 = followed t) as [Hq2 Hf2].
  { subst t2. case_match; [|by split; [apply quiet_refl|]].
    split; [apply quiet_update_transport, quiet_refl|apply update_transport_followed]. }
  pose proof (followed_inv _ _ Hf2) as (Hps2 & Hl2 & Hmd2).
  rewrite (q_destroy _ _ _ Hq2), Hd. destruct (cont o); cbn [negb orb].
  - left. rewrite (q_status _ _ _ Hq0) in Hq2.
    set (t3 := t2 <| retransmit_count := 0 |>).
    set (t4 := if negb _ then _ else t3).
    assert (quiet (status_code t0) t0 t4) as Hq4.
    { eapply quiet_trans; [exact Hq0|]. subst t4 t3.
      case_match; [apply restart_any_quiet; [by left|]|]; quiet_auto. }
    split; [by apply quiet_add_ref, quiet_attach|]. left.
    assert (followed t4 = followed t2) as Hf4.
    { subst t4. case_match; [rewrite restart_any_followed|]; done. }
    destruct (followed_inv _ _ Hf4) as (Hps4 & Hl4 & _).
    destruct Hn as [Hps|Hl]; [left|right].
    + transitivity (has_flag t4 TSX_HAS_PENDING_SEND); [done|congruence].
    + transitivity (last_tx t4); [done|congruence].
  - right. set (sc := if (_ || _) then _ else _). set (t3 := tsx_set_status_code sc _).
    assert (quiet sc t2 t3) as Hq3 by (subst t3; quiet_auto).
    assert (state t3 = state t) as Hs3 by (by rewrite (q_state _ _ _ Hq3), (q_state _ _ _ Hq2)).
    assert (negb (bool_decide (state t3 = PJSIP_TSX_STATE_TERMINATED)) &&
            negb (bool_decide (state t3 = PJSIP_TSX_STATE_DESTROYED)) = true) as ->.
    { rewrite Hs3. unfold gone in Hg. by destruct (state t). }
    destruct (set_state_terminated_fields PJSIP_EVENT_TRANSPORT_ERROR t3) as [Hte Hsub].
    split; [eapply e_state, set_state_ends, quiet_refl|]. rewrite Hte.
    split; [change (- sent o <> 0); lia|].
    assert (mod_data t3 = mod_data t) as Hmd3 by (by transitivity (mod_data t2)).
    rewrite Hmd3 in Hsub. set_solver.
Qed.

Lemma send_msg_callback_resolving send d o t0 t :
  resolving d t0 t -> has_flag t0 TSX_HAS_PENDING_DESTROY = false -> gone t0 = false ->
  sent o <> 0 -> resolving d t0 (send_msg_callback send d t o).
Proof.
  intros Hres Hd Hg Ho. unfold send_msg_callback. cbn zeta.
  destruct (dec_ref_fields t) as (Hf & Hst & Hte). destruct (followed_inv _ _ Hf) as (Hps & Hl & Hmd).
  destruct ((mod_tsx_layer_id t <? 0) || _) eqn:Hign.
  - case_match; [|done]. unfold resolving, no_deferred. rewrite Hps, Hl, Hmd, Hst, Hte.
    destruct Hres as [[Hq Hn]|Hx]; [|by right]. left. split; [by apply quiet_dec_ref|done].
  - apply orb_false_iff in Hign as [_ Hin]. apply negb_false_iff, bool_decide_eq_true in Hin.
    destruct Hres as [[Hq [Hn|?]]|(_ & _ & ?)]; [|done..].
    set (t1 := detach d (pj_grp_lock_dec_ref t)).
    assert (quiet (status_code t0) t0 t1) as Hq1 by (subst t1; quiet_auto).
    assert (tdata_id d ∉ mod_data t1) as Hmd1.
    { assert (mod_data t1 = mod_data t ∖ {[tdata_id d]}) as -> by done. set_solver. }
    pose proof (q_destroy _ _ _ Hq1) as Hd1. rewrite Hd in Hd1.
    destruct (sent o >? 0) eqn:Hs.
    + destruct (callback_sent_quiet send o t1 Hd1 Hn) as [Hqs Hmds].
      left. rewrite (q_status _ _ _ Hq1) in Hqs. split; [by eapply quiet_trans|].
      right. by rewrite Hmds.
    + apply callback_failed_resolving; try done; [by rewrite (quiet_gone _ _ _ Hq1)|lia].
Qed.

Lemma fold_callback_resolving send d cbs t0 t :
  resolving d t0 t -> has_flag t0 TSX_HAS_PENDING_DESTROY = false -> gone t0 = false ->
  (forall o, o ∈ cbs -> sent o <> 0) ->
  resolving d t0 (fold_left (send_msg_callback send d) cbs t).
Proof.
  intros Hres Hd Hg. revert t Hres. induction cbs as [|o cbs IH]; intros t Hres Hcbs; [done|].
  cbn. apply IH; [|intros o' Ho'; apply Hcbs; set_solver].
  apply send_msg_callback_resolving; try done. apply Hcbs. set_solver.
Qed.

Lemma send_on_transport_followed d t : followed (send_on_transport d t).1.1 = followed t.
Proof.
  unfold send_on_transport. destruct (transport t) as [tp|]; [|done]. cbn zeta.
  set (t1 := emit _ _).
  assert (followed t1 = followed t) as H1
    by (exact (proj1 (transport_flag_followed (pj_grp_lock_add_ref t)))).
  assert (followed (pj_grp_lock_dec_ref (clear_flag TSX_HAS_PENDING_TRANSPORT t1)) = followed t) as H2
    by (rewrite <- H1; exact (proj2 (transport_flag_followed t1))).
  destruct (_ =? PJ_EPENDING); [exact H1|].
  destruct (negb _); [|exact H2]. rewrite <- H2. cbn [fst].
  exact (update_transport_followed None (pj_grp_lock_dec_ref (clear_flag TSX_HAS_PENDING_TRANSPORT t1))).
Qed.

Lemma send_success d t :
  env_sane -> has_flag t TSX_HAS_PENDING_DESTROY = false -> gone t = false -> no_deferred t ->
  (tsx_send_msg d t).2 = PJ_SUCCESS ->
  quiet (status_code t) t (tsx_send_msg d t).1.
Proof.
  intros Hsane Hd Hg Hn. unfold tsx_send_msg. cbn [tsx_send_msg_depth].
  destruct (has_flag t TSX_HAS_PENDING_TRANSPORT); [intros _; quiet_auto|].
  destruct (is_pending t d); [intros _; apply quiet_refl|].
  pose proof (send_on_transport_quiet d t) as Hq. pose proof (send_on_transport_followed d t) as Hf.
  destruct (send_on_transport d t) as [[t1 status] []]; cbn [fst] in *; [done|].
  destruct (has_flag t1 TSX_HAS_RESOLVED_SERVER).
  { cbn [snd]. by destruct (Z.eqb_spec status PJ_SUCCESS). }
  unfold send_resolving. cbn zeta. set (t2 := set_flag _ _).
  assert (quiet (status_code t) t t2) as Hq2 by (subst t2; quiet_auto).
  destruct (followed_inv _ _ Hf) as (Hps & Hl & _).
  assert (no_deferred t2) as Hn2.
  { destruct (followed_inv _ _ (proj1 (transport_flag_followed (pj_grp_lock_add_ref
      (attach d (emit (tx_add_ref (tdata_id d)) t1)))))) as (Hps2 & Hl2 & _).
    destruct Hn as [Hn|Hn]; [left|right]; [rewrite <- Hn, <- Hps|rewrite <- Hn, <- Hl]; assumption. }
  set (res := if is_request d then _ else _).
  assert (forall o, o ∈ res.1 -> sent o <> 0) as Hcbs.
  { intros o Ho. apply (Hsane t2 d). subst res. destruct (is_request d); auto. }
  destruct res as [cbs st]. cbn [fst snd] in *.
  set (t3 := fold_left _ cbs _).
  assert (resolving d t t3) as Hres.
  { apply fold_callback_resolving; try done. left. split; [by apply quiet_emit|by left]. }
  set (t4 := if negb _ then _ else t3).
  destruct Hres as [[Hq3 _]|(Hs3 & Hte & _)].
  - intros _. subst t4. quiet_auto.
  - assert (state t4 = state t3 /\ transport_err t4 = transport_err t3) as [Hs4 Hte4].
    { subst t4. destruct (negb _); [|done]. destruct (is_request d); by destruct t3. }
    rewrite Hs4, Hs3, bool_decide_eq_true_2 by done. rewrite andb_true_r, Hte4.
    by destruct (Z.eqb_spec (if st =? PJ_EPENDING then PJ_SUCCESS else st) PJ_SUCCESS).
Qed.

(** *** Server transactions *)

Definition serving (t : pjsip_transaction) : Prop :=
  role t = PJSIP_ROLE_UAS /\
  (state t = PJSIP_TSX_STATE_TRYING \/ state t = PJSIP_TSX_STATE_PROCEEDING).

Lemma serving_base t t1 : base t t1 -> serving t1 <-> serving t.
Proof. intros (Hr & _ & _ & Hs). unfold serving. by rewrite Hr, Hs. Qed.

Lemma serving_facts t : serving t ->
  state t <> PJSIP_TSX_STATE_DESTROYED /\ state t <> PJSIP_TSX_STATE_COMPLETED /\
  state t <> PJSIP_TSX_STATE_CONFIRMED /\ gone t = false /\ needs_timeout t = false.
Proof.
  intros [Hr [Hs|Hs]]; unfold gone, needs_timeout; rewrite Hs; repeat split; try done.
  by rewrite Hr.
Qed.

Lemma serving_wf t : serving t -> wf_basic t -> tsx_wf t.
Proof. intros Hsv Hw. split; [done|]. by destruct (serving_facts t Hsv) as (_&_&_&_&->). Qed.

Lemma keep_last_tx_wf d t : serving t -> wf_basic t ->
  wf_basic (keep_last_tx d t) /\ base t (keep_last_tx d t) /\ is_Some (last_tx (keep_last_tx d t)) /\
  status_code (keep_last_tx d t) = status_code t /\
  timeout_timer (keep_last_tx d t) = timeout_timer t.
Proof.
  intros Hsv Hw. destruct (serving_facts t Hsv) as (Hnd & _).
  destruct (keep_last_tx_shape d t) as (x & tr & ->).
  split; [apply wf_last_tx; [done|done|left; by eexists]|]. by destruct t.
Qed.

Lemma start_retransmit_timeout d t : timeout_timer (start_retransmit d t) = timeout_timer t.
Proof.
  unfold start_retransmit, tsx_schedule_timer. cbn zeta. destruct (has_flag _ _); [by destruct t|].
  case_match; by destruct t.
Qed.

(** Completed by a final response [c], from [t3] with the message kept and the
    timeout restarted. *)
Lemma uas_completes d c t t3 :
  base t t3 -> serving t -> wf_basic t3 -> status_code t3 = c -> 200 <= c ->
  is_Some (last_tx t3) -> (exists v, timeout_timer t3 = TimerEntry TIMEOUT_TIMER (Some v)) ->
  rfc_edge (role t) (is_invite t) (handle_200resp t) (state t) (ev_send d) c
    PJSIP_TSX_STATE_COMPLETED ->
  outcome (ev_send d) t (tsx_set_state PJSIP_TSX_STATE_COMPLETED (PJSIP_EVENT_TX_MSG d) 0 t3).
Proof.
  intros Hb Hsv Hw Hc Hrange Hl [v Hv] Hedge. destruct (serving_facts t Hsv) as (Hnd & _).
  apply state_change_ok; try done.
  - right. split; [done|]. split; [lia|]. split; [done|]. by rewrite Hv.
  - intros _ _. unfold armed. rewrite Hv. by eexists.
  - right. by rewrite Hc.
Qed.

Lemma uas_1xx_ok d c t t2 :
  base t t2 -> serving t -> wf_basic t2 -> status_code t2 = c -> 100 <= c < 200 ->
  response_code (msg d) = Some c ->
  outcome (ev_send d) t (proceeding_uas_sent d t2).
Proof.
  intros Hb Hsv Hw Hc Hrange Hd. unfold proceeding_uas_sent. cbn zeta.
  change 100 with (100 * 1) at 1. rewrite Hc, status_in_class by lia.
  assert ((100 * 1 <=? c) && (c <? 100 * 1 + 100) = true) as -> by lia.
  destruct (keep_last_tx_wf d t2 (proj2 (serving_base _ _ Hb) Hsv) Hw) as (Hw3 & Hb3 & _ & Hc3 & _).
  set (t3 := keep_last_tx d t2) in *. set (t4 := tsx_set_state _ _ _ t3).
  edestruct (arrives_needs PJSIP_TSX_STATE_PROCEEDING (PJSIP_EVENT_TX_MSG d) t3) as (_ & Hs4 & Hc4);
    [done..|]. fold t4 in Hs4, Hc4.
  set (t' := if _ && _ && _ then _ else t4).
  assert (quiet (status_code t4) t4 t') as Hq.
  { subst t'. case_match; [apply quiet_start_retransmit|]; quiet_auto. }
  destruct (serving_facts t Hsv) as (Hnd & _). pose proof (base_trans _ _ _ Hb Hb3) as (Hr & Hm & Hh & Hs).
  eapply (outcome_arrives _ PJSIP_TSX_STATE_PROCEEDING _ _ t t3);
    [done|congruence|done|done|exact Hq|done|done|done|done|done| |].
  - intros _ Hn. exfalso. unfold needs_timeout in Hn. rewrite (q_state _ _ _ Hq), Hs4 in Hn.
    pose proof (quiet_base _ _ _ Hq) as (Hr' & _).
    edestruct (set_state_arrives PJSIP_TSX_STATE_PROCEEDING (PJSIP_EVENT_TX_MSG d) 0 t3)
      as [Hr4 _ _ _ _ _ _]; [done..|]. fold t4 in Hr4.
    rewrite Hr', Hr4, Hr, (proj1 Hsv) in Hn. done.
  - right. rewrite Hc4, Hc3, Hc. apply uas_1xx; [apply Hsv|done|done|apply Hsv].
Qed.

Lemma uas_2xx_ok d c t t2 :
  base t t2 -> serving t -> wf_basic t2 -> status_code t2 = c -> 200 <= c < 300 ->
  response_code (msg d) = Some c ->
  outcome (ev_send d) t (proceeding_uas_sent d t2).
Proof.
  intros Hb Hsv Hw Hc Hrange Hd. unfold proceeding_uas_sent. cbn zeta.
  change 100 with (100 * 1) at 1. change 200 with (100 * 2) at 1. rewrite Hc, !status_in_class by lia.
  assert ((100 * 1 <=? c) && (c <? 100 * 1 + 100) = false) as -> by lia.
  assert ((100 * 2 <=? c) && (c <? 100 * 2 + 100) = true) as -> by lia.
  assert (rfc_edge (role t) (is_invite t) (handle_200resp t) (state t) (ev_send d) c
    (if is_invite t && (handle_200resp t =? 0) then PJSIP_TSX_STATE_TERMINATED
     else PJSIP_TSX_STATE_COMPLETED)) as Hedge by (apply uas_2xx; try done; apply Hsv).
  pose proof (quiet_cancel_retransmit _ _ _ (quiet_refl t2)) as Hq.
  set (t3 := tsx_cancel_timer retransmit_entry t2) in *.
  pose proof (base_trans _ _ _ Hb (quiet_base _ _ _ Hq)) as Hb3. pose proof Hb3 as (Hr & Hm & Hh & Hs).
  assert (is_invite t3 = is_invite t) as Hi by (unfold is_invite; by rewrite Hm). rewrite Hi, Hh.
  destruct (serving_facts t Hsv) as (Hnd & _).
  assert (wf_basic t3) as Hw3 by (eapply wf_quiet; eauto).
  destruct (is_invite t && (handle_200resp t =? 0)).
  - eapply outcome_base; [exact Hb3|]. rewrite <- Hi in Hedge.
    eapply timeout_terminates; [done|congruence|apply quiet_refl|].
    rewrite Hr, Hh, Hs, (q_status _ _ _ Hq), Hc. done.
  - set (t4 := if is_invite t then _ else t3).
    assert (quiet (status_code t3) t3 t4) as Hq4
      by (subst t4; case_match; [apply quiet_start_retransmit|]; apply quiet_refl).
    pose proof (base_trans _ _ _ Hb3 (quiet_base _ _ _ Hq4)) as Hb4.
    destruct (keep_last_tx_wf d t4) as (Hw5 & Hb5 & Hl5 & Hc5 & _);
      [by eapply serving_base|eapply wf_quiet; eauto|].
    set (t5 := keep_last_tx d t4) in *. set (v := if is_invite t5 then _ else _).
    destruct (restart_wf v t5 Hw5) as (Hw6 & _ & Hv6).
    pose proof (quiet_restart_timeout v _ _ _ (quiet_refl t5)) as Hq6.
    apply uas_completes with (c := c); try done.
    + exact (base_trans _ _ _ Hb4 (base_trans _ _ _ Hb5 (quiet_base _ _ _ Hq6))).
    + rewrite (q_status _ _ _ Hq6), Hc5, (q_status _ _ _ Hq4), (q_status _ _ _ Hq). done.
    + lia.
    + destruct Hq6 as [Hst _ _ _ _ _ _]. by apply static_inv in Hst as (_&_&_&_&->).
    + by exists v.
Qed.

Lemma uas_final_ok d c t t2 :
  base t t2 -> serving t -> wf_basic t2 -> status_code t2 = c -> 300 <= c ->
  response_code (msg d) = Some c ->
  outcome (ev_send d) t (proceeding_uas_sent d t2).
Proof.
  intros Hb Hsv Hw Hc Hrange Hd. unfold proceeding_uas_sent. cbn zeta.
  change 100 with (100 * 1) at 1. change 200 with (100 * 2) at 1. rewrite Hc, !status_in_class by lia.
  assert ((100 * 1 <=? c) && (c <? 100 * 1 + 100) = false) as -> by lia.
  assert ((100 * 2 <=? c) && (c <? 100 * 2 + 100) = false) as -> by lia.
  assert ((c >=? 300) = true) as -> by lia.
  pose proof (quiet_cancel_retransmit _ _ _ (quiet_refl t2)) as Hq.
  set (t3 := tsx_cancel_timer retransmit_entry t2) in *.
  pose proof (base_trans _ _ _ Hb (quiet_base _ _ _ Hq)) as Hb3.
  destruct (keep_last_tx_wf d t3) as (Hw5 & Hb5 & Hl5 & Hc5 & _);
    [by eapply serving_base|eapply wf_quiet; eauto|].
  set (t5 := keep_last_tx d t3) in *. set (t6 := if is_invite (tsx_cancel_timer _ t5) then _ else _).
  assert (exists v, t6 = restart_timeout v t5) as [v Hv6].
  { subst t6. repeat case_match; eexists; reflexivity. }
  rewrite Hv6. clear Hv6 t6. destruct (restart_wf v t5 Hw5) as (Hw6 & _ & Hv6).
  pose proof (quiet_restart_timeout v _ _ _ (quiet_refl t5)) as Hq6.
  set (t6 := restart_timeout v t5) in *. set (t7 := if _ && _ then _ else t6).
  assert (quiet (status_code t5) t5 t7 /\ timeout_timer t7 = TimerEntry TIMEOUT_TIMER (Some v))
    as [Hq7 Hv7].
  { subst t7. case_match; [|done]. rewrite start_retransmit_timeout.
    split; [by apply quiet_start_retransmit|done]. }
  apply uas_completes with (c := c); try done.
  - exact (base_trans _ _ _ Hb3 (base_trans _ _ _ Hb5 (quiet_base _ _ _ Hq7))).
  - by eapply wf_quiet; [exact Hw5|exact Hq7|left].
  - by rewrite (q_status _ _ _ Hq7), Hc5, (q_status _ _ _ Hq).
  - lia.
  - destruct Hq7 as [Hst _ _ _ _ _ _]. by apply static_inv in Hst as (_&_&_&_&->).
  - by exists v.
  - apply uas_final; try done; apply Hsv.
Qed.

Lemma proceeding_uas_sent_state d t :
  100 <= status_code t -> state (proceeding_uas_sent d t) <> PJSIP_TSX_STATE_TRYING.
Proof.
  intros Hc. unfold proceeding_uas_sent. cbn zeta.
  assert (forall t', state (tsx_set_state PJSIP_TSX_STATE_COMPLETED (PJSIP_EVENT_TX_MSG d) 0 t')
    <> PJSIP_TSX_STATE_TRYING) as Hcompleted.
  { intros t'. destruct (arrives_needs PJSIP_TSX_STATE_COMPLETED (PJSIP_EVENT_TX_MSG d) t')
      as (_ & -> & _); done. }
  destruct (PJSIP_IS_STATUS_IN_CLASS (status_code t) 100) eqn:H1.
  - set (t4 := tsx_set_state _ _ _ _).
    edestruct (arrives_needs PJSIP_TSX_STATE_PROCEEDING (PJSIP_EVENT_TX_MSG d) (keep_last_tx d t))
      as (_ & Hs & _); [done..|]. fold t4 in Hs.
    case_match; [|by rewrite Hs].
    erewrite q_state by (apply quiet_start_retransmit, quiet_cancel_retransmit, quiet_refl).
    by rewrite Hs.
  - destruct (PJSIP_IS_STATUS_IN_CLASS (status_code t) 200) eqn:H2.
    + destruct (_ && _); [|done]. erewrite e_state by apply set_state_ends, quiet_refl. done.
    + change 100 with (100 * 1) in H1. change 200 with (100 * 2) in H2.
      rewrite status_in_class in H1, H2 by lia.
      assert ((status_code t >=? 300) = true) as -> by lia. done.
Qed.

Lemma respond_ok d c t :
  env_sane -> tsx_wf t -> serving t -> msg d = PJSIP_RESPONSE_MSG c -> 100 <= c ->
  (has_flag t TSX_HAS_PENDING_SEND = true -> same_tdata (last_tx t) d = false) ->
  outcome (ev_send d) t (tsx_on_state_proceeding_uas (PJSIP_EVENT_TX_MSG d) t).1 /\
  ((tsx_on_state_proceeding_uas (PJSIP_EVENT_TX_MSG d) t).2 = PJ_SUCCESS ->
   state (tsx_on_state_proceeding_uas (PJSIP_EVENT_TX_MSG d) t).1 <> PJSIP_TSX_STATE_TRYING).
Proof.
  intros Hsane [Hw _] Hsv Hd Hc Hdef. destruct (serving_facts t Hsv) as (Hnd & Hnc & Hncf & Hg & _).
  cbn [tsx_on_state_proceeding_uas]. rewrite Hd. cbn zeta.
  destruct (discard_shape d (tsx_set_status_code c t)) as (x & tr & Heq & Hx). rewrite Heq.
  set (t1 := (tsx_set_status_code c t) <| last_tx := x |> <| trace := tr |>) in *.
  assert (base t t1 /\ status_code t1 = c /\
          has_flag t1 TSX_HAS_PENDING_DESTROY = has_flag t TSX_HAS_PENDING_DESTROY /\
          has_flag t1 TSX_HAS_PENDING_SEND = has_flag t TSX_HAS_PENDING_SEND)
    as (Hb & Hc1 & Hd1 & Hps1) by (by destruct t).
  assert (wf_basic t1) as Hw1.
  { apply wf_last_tx; [by apply wf_status|by destruct t|right]. destruct t. by destruct Hsv. }
  assert (no_deferred t1) as Hn1.
  { unfold no_deferred. rewrite Hps1. destruct (has_flag t TSX_HAS_PENDING_SEND); [right|by left].
    assert (last_tx t1 = last_tx (discard_other_last_tx d (tsx_set_status_code c t))) as -> by (by rewrite Heq).
    unfold discard_other_last_tx. assert (last_tx (tsx_set_status_code c t) = last_tx t) as -> by done.
    rewrite (Hdef eq_refl). destruct (drop_last_tx_shape (tsx_set_status_code c t)) as [tr' ->].
    by destruct t. }
  assert (serving t1) as Hsv1 by (by eapply serving_base).
  destruct (serving_facts t1 Hsv1) as (Hnd1 & _ & _ & Hg1 & _).
  assert (has_flag t1 TSX_HAS_PENDING_DESTROY = false) as Hd1f by (by apply no_destroy_flag).
  pose proof (tsx_send_msg_effect d t1 Hd1f) as He.
  pose proof (send_success d t1 Hsane Hd1f Hg1 Hn1) as Hok.
  destruct (tsx_send_msg d t1) as [t2 status]. cbn [fst snd] in *.
  destruct (Z.eqb_spec status PJ_SUCCESS) as [Hs|Hs]; cbn [negb fst snd].
  - specialize (Hok Hs). pose proof (base_trans _ _ _ Hb (quiet_base _ _ _ Hok)) as Hb2.
    assert (wf_basic t2) as Hw2 by (eapply wf_quiet; eauto).
    assert (status_code t2 = c) as Hc2 by (by rewrite (q_status _ _ _ Hok)).
    assert (response_code (msg d) = Some c) as Hrc by (by rewrite Hd).
    split; [|intros _; apply proceeding_uas_sent_state; lia].
    destruct (Z_lt_le_dec c 200); [by apply uas_1xx_ok with (c := c)|].
    destruct (Z_lt_le_dec c 300); [by apply uas_2xx_ok with (c := c)|by apply uas_final_ok with (c := c)].
  - split; [|done]. eapply outcome_base; [exact Hb|]. apply outcome_send; try done.
    by apply serving_wf.
Qed.

Lemma tsx_on_state_proceeding_uas_ok ev event t :
  env_sane -> ready ev t -> delivers ev event -> handler_ok ev t -> role t = PJSIP_ROLE_UAS ->
  state t = PJSIP_TSX_STATE_PROCEEDING ->
  outcome ev t (tsx_on_state_proceeding_uas event t).1.
Proof.
  intros Hsane Hrd Hdl Hev Hr Hs. assert (serving t) as Hsv by (split; auto).
  pose proof (serving_wf t Hsv (proj1 Hrd)) as Hw. destruct (serving_facts t Hsv) as (Hnd & _).
  destruct ev as [d|m|w| | | | | | |]; try done; cbn in Hdl; subst event.
  - destruct (Hev Hr) as (_ & (c & Hd & Hc) & Hdef). by apply (respond_ok d c).
  - cbn [tsx_on_state_proceeding_uas]. destruct (last_tx t) as [d|]; [|by apply outcome_same].
    destruct (has_flag t _); [by eapply outcome_quiet; [done|quiet_auto|left]|].
    apply outcome_send; try done. apply tsx_send_msg_effect. by eapply no_destroy_flag; [apply Hw|].
  - destruct w; [by apply retransmit_ok|]. cbn [tsx_on_state_proceeding_uas fst].
    eapply timeout_terminates; [apply Hw|done|apply quiet_set_status|]. rewrite Hs.
    by apply uas_timeout.
Qed.

(** In Trying the state has always moved when a response was sent. *)
Lemma tsx_on_state_trying_ok ev event t :
  env_sane -> ready ev t -> delivers ev event -> handler_ok ev t -> role t = PJSIP_ROLE_UAS ->
  state t = PJSIP_TSX_STATE_TRYING ->
  outcome ev t (tsx_on_state_trying event t).1.
Proof.
  intros Hsane Hrd Hdl Hev Hr Hs. assert (serving t) as Hsv by (split; auto).
  pose proof (serving_wf t Hsv (proj1 Hrd)) as Hw. destruct (serving_facts t Hsv) as (Hnd & _).
  destruct ev as [d|m|w| | | | | | |]; try done; cbn in Hdl; subst event; cbn [tsx_on_state_trying];
    [|by apply outcome_same..].
  destruct (Hev Hr) as (_ & (c & Hd & Hc) & Hdef).
  destruct (respond_ok d c t Hsane Hw Hsv Hd Hc Hdef) as [Ho Hst'].
  destruct (tsx_on_state_proceeding_uas (PJSIP_EVENT_TX_MSG d) t) as [t1 status] eqn:Heq.
  cbn [fst] in *. destruct (_ && _) eqn:Hstill; [|done].
  apply andb_true_iff in Hstill as [Hok Hst]. apply bool_decide_eq_true in Hst.
  apply Z.eqb_eq in Hok. by destruct (Hst' Hok).
Qed.

(** *** The states of both roles *)

Lemma outcome_then_quiet ev t t' t'' :
  outcome ev t t' -> quiet (status_code t') t' t'' -> outcome ev t t''.
Proof.
  intros (Hw & Hr & Hm & Hmv) Hq. pose proof (quiet_base _ _ _ Hq) as (Hr' & Hm' & _ & Hs').
  split; [eapply tsx_wf_quiet; eauto|]. split; [congruence|]. split; [congruence|].
  unfold moves in *. by rewrite Hs', (q_status _ _ _ Hq).
Qed.

Lemma completed_facts t : wf_basic t -> state t = PJSIP_TSX_STATE_COMPLETED ->
  200 <= status_code t /\ is_Some (last_tx t) /\ state t <> PJSIP_TSX_STATE_DESTROYED.
Proof.
  intros Hw Hs. pose proof (b_final _ Hw) as Hf. pose proof (b_last_tx _ Hw) as Hl.
  by rewrite Hs in *.
Qed.

(** The ACK of an INVITE server transaction. *)
Lemma uas_acked_ok t :
  tsx_wf t -> role t = PJSIP_ROLE_UAS -> state t = PJSIP_TSX_STATE_COMPLETED ->
  is_invite t = true ->
  let t2 := clear_flag TSX_HAS_PENDING_RESCHED (tsx_cancel_timer retransmit_entry t) in
  outcome (ev_recv (PJSIP_REQUEST_MSG PJSIP_ACK_METHOD)) t
    (tsx_set_state PJSIP_TSX_STATE_CONFIRMED (PJSIP_EVENT_RX_MSG (PJSIP_REQUEST_MSG PJSIP_ACK_METHOD))
       0 (restart_timeout (if is_reliable t2 then zero_val else t4_timer_val) t2)).
Proof.
  intros [Hw _] Hr Hs Hi t2. destruct (completed_facts t Hw Hs) as (Hsc & Hl & Hnd).
  assert (quiet (status_code t) t t2) as Hq2 by (subst t2; quiet_auto).
  set (v := if is_reliable t2 then _ else _).
  pose proof (quiet_restart_timeout v _ _ _ Hq2) as Hq3.
  destruct (restart_wf v t2) as (Hw3 & Ha3 & Hv3); [eapply wf_quiet; eauto|].
  set (t3 := restart_timeout v t2) in *. set (event := PJSIP_EVENT_RX_MSG _).
  edestruct (arrives_needs PJSIP_TSX_STATE_CONFIRMED event t3) as (Ha4 & _ & Hsc4); [done..|].
  pose proof (quiet_base _ _ _ Hq3) as (Hr3 & Hm3 & _ & Hs3).
  eapply (outcome_arrives _ PJSIP_TSX_STATE_CONFIRMED _ _ t t3);
    [done|congruence|done|done|apply quiet_refl|done|done|done| | |by auto|].
  - split; [done|]. unfold is_invite in Hi. by apply bool_decide_eq_true in Hi.
  - rewrite Hsc4, (q_status _ _ _ Hq3). split; [done|]. split; [|by rewrite Hv3].
    destruct Hq3 as [Hst _ _ _ _ _ _]. by apply static_inv in Hst as (_&_&_&_&->).
  - right. rewrite Hs. by apply uas_ack.
Qed.

Lemma tsx_on_state_completed_uas_ok ev event t :
  ready ev t -> delivers ev event -> role t = PJSIP_ROLE_UAS ->
  state t = PJSIP_TSX_STATE_COMPLETED ->
  outcome ev t (tsx_on_state_completed_uas event t).1.
Proof.
  intros Hrd Hdl Hr Hs. destruct (completed_facts t (proj1 Hrd) Hs) as (Hsc & Hl & Hnd).
  destruct ev as [d|m|w| | | | | | |]; try done; cbn in Hdl; subst event;
    cbn [tsx_on_state_completed_uas].
  - by eapply outcome_same, ready_wf.
  - assert (tsx_wf t) as Hw by (by eapply ready_wf).
    destruct m as [m|c]; [|by apply outcome_same]. case_bool_decide; cbn [negb].
    + subst m. destruct (is_invite t) eqn:Hi; [by apply uas_acked_ok|by apply outcome_same].
    + by apply retransmit_ok.
  - destruct w; [apply retransmit_ok; [by eapply ready_wf|done|done]|]. cbn [fst].
    destruct (is_invite t) eqn:Hi.
    + eapply timeout_terminates; [apply Hrd|done|apply quiet_set_status|]. rewrite Hs.
      apply completed_timeout. by left.
    + eapply timeout_terminates; [apply Hrd|done|apply quiet_refl|]. rewrite Hs.
      apply completed_timeout. by left.
Qed.

Lemma tsx_on_state_completed_uac_ok ev event t :
  ready ev t -> delivers ev event -> state t = PJSIP_TSX_STATE_COMPLETED ->
  outcome ev t (tsx_on_state_completed_uac event t).1.
Proof.
  intros Hrd Hdl Hs. destruct (completed_facts t (proj1 Hrd) Hs) as (Hsc & Hl & Hnd).
  destruct ev as [d|m|w| | | | | | |]; try done; cbn in Hdl; subst event;
    cbn [tsx_on_state_completed_uac].
  - by eapply outcome_same, ready_wf.
  - assert (tsx_wf t) as Hw by (by eapply ready_wf).
    destruct (is_invite t), m as [m|c]; try by apply outcome_same.
    destruct (c >=? 200); [by apply retransmit_ok|by apply outcome_same].
  - destruct w; [by eapply outcome_same, ready_wf|]. cbn [fst].
    eapply timeout_terminates; [apply Hrd|done|apply quiet_refl|]. rewrite Hs.
    apply completed_timeout. by left.
Qed.

Lemma tsx_on_state_confirmed_ok ev event t :
  ready ev t -> delivers ev event -> state t = PJSIP_TSX_STATE_CONFIRMED ->
  outcome ev t (tsx_on_state_confirmed event t).1.
Proof.
  intros Hrd Hdl Hs.
  destruct ev as [d|m|w| | | | | | |]; try done; cbn in Hdl; subst event;
    cbn [tsx_on_state_confirmed].
  - by eapply outcome_same, ready_wf.
  - destruct m; by eapply outcome_same, ready_wf.
  - destruct w; [by eapply outcome_same, ready_wf|]. cbn [fst].
    eapply timeout_terminates; [apply Hrd|by rewrite Hs|apply quiet_refl|]. rewrite Hs.
    apply completed_timeout. by right.
Qed.

Lemma tsx_on_state_terminated_ok ev event t :
  ready ev t -> delivers ev event -> state t = PJSIP_TSX_STATE_TERMINATED ->
  outcome ev t (tsx_on_state_terminated event t).1.
Proof.
  intros Hrd Hdl Hs.
  destruct ev as [d|m|w| | | | | | |]; try done; cbn in Hdl; subst event;
    cbn [tsx_on_state_terminated]; [by eapply outcome_same, ready_wf..|].
  cbn [fst]. pose proof (set_state_destroys (PJSIP_EVENT_TIMER w) 0 t) as Hd.
  split; [by eapply destroyed_wf|]. destruct Hd as [Hr Hm Hs' _ _ _ _ _].
  split; [done|]. split; [done|]. right. rewrite Hs, Hs'. apply terminated_timer.
Qed.

(** ** The dispatch *)

Lemma null_event_ok ev event t :
  ready ev t -> delivers ev event -> handler_ok ev t -> state t = PJSIP_TSX_STATE_NULL ->
  (forall w, ev = ev_timer w -> state t = PJSIP_TSX_STATE_NULL -> role t = PJSIP_ROLE_UAC) ->
  outcome ev t (tsx_on_state_null event t).1.
Proof.
  intros [Hw _] Hdl Hev Hs Hnull.
  assert (tsx_wf t) as Hwf by (split; [done|]; unfold needs_timeout; by rewrite Hs).
  destruct ev as [d|m|w| | | | | | |] eqn:Hevq; try done; try (by apply tsx_on_state_null_ok).
  cbn in Hdl. subst event. unfold tsx_on_state_null. rewrite (Hnull w eq_refl Hs).
  by apply outcome_same.
Qed.

Lemma destroyed_event_ok ev event t :
  ready ev t -> state t = PJSIP_TSX_STATE_DESTROYED ->
  outcome ev t (tsx_on_state_destroyed event t).1.
Proof.
  intros [Hw _] Hs. cbn [tsx_on_state_destroyed fst]. apply outcome_same. split; [done|].
  unfold needs_timeout. by rewrite Hs.
Qed.

(** The handler is never null, whichever of the events arrives. *)
Lemma call_handler_ok ev event t :
  env_sane -> ready ev t -> delivers ev event -> handler_ok ev t ->
  (forall w, ev = ev_timer w -> state t = PJSIP_TSX_STATE_NULL -> role t = PJSIP_ROLE_UAC) ->
  exists t' status, call_handler event t = Some (t', status) /\ outcome ev t t'.
Proof.
  intros Hsane Hrd Hdl Hev Hnull. pose proof (proj1 Hrd) as Hw.
  unfold call_handler. rewrite (b_handler _ Hw). pose proof (b_role _ Hw) as Hrole.
  unfold handler_of.
  assert (forall r : pjsip_transaction * Z, outcome ev t r.1 ->
    exists t' status, Some r = Some (t', status) /\ outcome ev t t') as Hdone
    by (intros [t' st] Ho; by exists t', st).
  destruct (role t) eqn:Hr, (state t) eqn:Hs; cbn [tsx_state_handler_uac tsx_state_handler_uas];
    try (by destruct Hrole); try done; apply Hdone.
  - apply null_event_ok; try done; intros w Hew _; rewrite Hr; exact (Hnull w Hew eq_refl).
  - by apply tsx_on_state_calling_ok.
  - by apply tsx_on_state_proceeding_uac_ok.
  - by apply tsx_on_state_completed_uac_ok.
  - by apply tsx_on_state_terminated_ok.
  - by apply destroyed_event_ok.
  - apply null_event_ok; try done; intros w Hew _; rewrite Hr; exact (Hnull w Hew eq_refl).
  - by apply tsx_on_state_trying_ok.
  - by apply tsx_on_state_proceeding_uas_ok.
  - by apply tsx_on_state_completed_uas_ok.
  - by apply tsx_on_state_confirmed_ok.
  - by apply tsx_on_state_terminated_ok.
  - by apply destroyed_event_ok.
Qed.

(** ** The entry points *)

Lemma notify_state_shape src prev t : exists tr, notify_state src prev t = t <| trace := tr |>.
Proof.
  unfold notify_state. destruct t as [[u|]]; cbn [tsx_user]; [destruct (has_on_tsx_state u)|].
  all: eexists; reflexivity.
Qed.

(** A lost transport that was posted to the timeout timer. *)
Lemma posted_error_ends flag prev sc t t2 :
  quiet sc t t2 -> (Z.land flag NO_SCHEDULE_HANDLER =? 0) = false ->
  ends sc t (tsx_schedule_timer timeout_entry zero_val TIMEOUT_TIMER
    (notify_state PJSIP_EVENT_TRANSPORT_ERROR prev
      (tsx_set_state PJSIP_TSX_STATE_TERMINATED PJSIP_EVENT_TRANSPORT_ERROR flag t2))).
Proof.
  intros Hq0 Hf. apply (quiet_ends _ _ _ _ _ Hq0). destruct Hq0 as [_ _ _ <- _ _ _]. clear t.
  rename t2 into t. rewrite set_state_notified, Hf. cbv zeta iota.
  destruct (notified_fields PJSIP_TSX_STATE_TERMINATED PJSIP_EVENT_TRANSPORT_ERROR flag t) as [tr ->].
  set (t0 := t <| state := _ |> <| state_handler := _ |> <| trace := tr |>).
  set (t1 := if has_flag t0 _ then _ else t0).
  assert (quiet (status_code t0) t0 t1) as Hq by (subst t1; quiet_auto).
  destruct (cancel_timeout_shape t1) as (e & n & -> & He).
  set (t3 := t1 <| timeout_timer := e |> <| grp_lock_refs := n |>).
  destruct (notify_state_shape PJSIP_EVENT_TRANSPORT_ERROR prev t3) as [tr' ->].
  assert (retransmit_timer t1 = retransmit_timer t) as Hrt.
  { subst t1. destruct (has_flag t0 _); [destruct (pending_tx t0)|]; reflexivity. }
  destruct Hq as [Hst Hs Hh Hsc Hd _ _].
  unfold tsx_schedule_timer. assert (pj_timer_entry_running
    (get_timer timeout_entry (t3 <| trace := tr' |>)) = false) as ->.
  { unfold pj_timer_entry_running. apply bool_decide_eq_false. intros [x Hx].
    change (running e = Some x) in Hx. congruence. }
  constructor.
  - exact Hst.
  - exact Hs.
  - etransitivity; [exact Hh|]. apply terminated_handler.
  - exact Hsc.
  - exact Hd.
  - by eexists.
  - intros [Hok _]. split; [|by left]. rewrite <- Hrt in Hok. exact Hok.
Qed.

(** The timer [w] does not run, the other is as it was. *)
Lemma stopped_timers w e t : running e = None -> timers_ok t -> timers_ok (set_timer w e t).
Proof.
  intros He [Ht1 Ht2]. destruct w; split; try assumption.
  all: intros [x Hx]; change (running e = Some x) in Hx; congruence.
Qed.

Lemma set_timer_wf w e t : running e = None -> wf_basic t ->
  wf_basic (set_timer w e t) /\ base t (set_timer w e t).
Proof.
  intros He [Hh Hr Ht Hf Hl Htm Hd]. pose proof (stopped_timers w e t He Ht).
  split; [|by destruct w, t]. destruct w; constructor; assumption.
Qed.

Lemma fired_wf w t : tsx_wf t ->
  ready (ev_timer w) (set_timer w ((get_timer w t) <| running := None |>) t) /\
  base t (set_timer w ((get_timer w t) <| running := None |>) t).
Proof.
  intros [Hw Ha].
  destruct (set_timer_wf w ((get_timer w t) <| running := None |>) t) as [Hw' Hb]; [done..|].
  split; [|exact Hb]. split; [exact Hw'|]. destruct w; [|done].
  intros Henv Hn _. exact (Ha Henv Hn).
Qed.

Lemma reset_timer_id_wf w t : running (get_timer w t) = None -> ready (ev_timer w) t ->
  ready (ev_timer w) (set_timer w ((get_timer w t) <| id := 0 |>) t) /\
  quiet (status_code t) t (set_timer w ((get_timer w t) <| id := 0 |>) t).
Proof.
  intros Hrun [Hw Ha]. set (e := (get_timer w t) <| id := 0 |>).
  assert (running e = None) as He by exact Hrun.
  destruct (set_timer_wf w e t He Hw) as [Hw' _].
  split; [split; [exact Hw'|]|].
  - destruct w; [|done]. intros Henv Hn _. by apply (Ha Henv Hn).
  - destruct w; constructor; try done; intros Hok.
    + by apply (stopped_timers retransmit_entry e).
    + by apply (stopped_timers timeout_entry e).
Qed.

(** The callback of a timer that has just left the heap. *)
Lemma timer_callback_ok w t :
  env_sane -> ready (ev_timer w) t -> running (get_timer w t) = None ->
  (id (get_timer w t) = TRANSPORT_ERR_TIMER ->
   w = timeout_entry /\ (state t <s PJSIP_TSX_STATE_TERMINATED) = true) ->
  (id (get_timer w t) <> TRANSPORT_ERR_TIMER ->
   state t = PJSIP_TSX_STATE_NULL -> role t = PJSIP_ROLE_UAC) ->
  exists t', tsx_timer_callback w t = Some t' /\ outcome (ev_timer w) t t'.
Proof.
  intros Hsane Hrd Hrun Herr Hnull. unfold tsx_timer_callback. cbn zeta.
  destruct (state t <s PJSIP_TSX_STATE_DESTROYED) eqn:Hnd; cbn [negb].
  2: { exists t. split; [done|]. apply outcome_same. split; [apply Hrd|].
       unfold needs_timeout. by destruct (state t). }
  destruct (reset_timer_id_wf w t Hrun Hrd) as [Hrd2 Hq2]. set (t2 := set_timer w _ t) in *.
  pose proof (quiet_base _ _ _ Hq2) as Hb2. pose proof Hb2 as (Hr2 & Hm2 & Hh2 & Hs2).
  destruct (Z.eqb_spec (id (get_timer w t)) TRANSPORT_ERR_TIMER) as [Hid|Hid].
  - destruct (Herr Hid) as [-> Hst]. rewrite Hs2, Hst. eexists. split; [reflexivity|].
    eapply outcome_base; [exact Hb2|].
    set (t3 := if _ <? 200 then _ else _).
    assert (exists sc, quiet sc t2 t3) as [sc Hq3].
    { pose proof (quiet_update_transport None _ _ _ (quiet_refl t2)) as Hq3. subst t3.
      case_match; eexists; [eapply quiet_status|]; exact Hq3. }
    eapply outcome_ends; [apply Hrd2|rewrite Hs2; by destruct (state t)| |].
    + apply posted_error_ends; [exact Hq3|done].
    + right. apply posted_error. by rewrite Hs2.
  - edestruct (call_handler_ok (ev_timer w) (PJSIP_EVENT_TIMER w) t2 Hsane Hrd2) as (t' & st & -> & Ho).
    + done.
    + done.
    + intros _ _ Hs. rewrite Hs2 in Hs. rewrite Hr2. by apply Hnull.
    + exists t'. split; [done|]. by eapply outcome_base.
Qed.

Lemma timer_fires_ok w t :
  env_sane -> tsx_wf t -> event_ok (ev_timer w) t ->
  exists t', timer_fires w t = Some t' /\ outcome (ev_timer w) t t'.
Proof.
  intros Hsane Hw [Hrun Hnull]. destruct (fired_wf w t Hw) as [Hrd Hb].
  unfold timer_fires. cbn zeta. set (t1 := set_timer w _ t) in *.
  assert (running (get_timer w t1) = None /\ id (get_timer w t1) = id (get_timer w t)) as [Hrun1 Hid1]
    by (by destruct w, t).
  pose proof Hb as (Hr & Hm & Hh & Hs).
  destruct (timer_callback_ok w t1 Hsane Hrd Hrun1) as (t' & -> & Ho).
  - rewrite Hid1, Hs. intros Hid. destruct (b_timers _ (proj1 Hw)) as [Ht1 Ht2].
    destruct w; cbn in *; [by rewrite (Ht1 Hrun) in Hid|]. split; [done|].
    destruct (Ht2 Hrun) as [Hx|[_ Hx]]; [by rewrite Hx in Hid|]. by destruct (state t).
  - rewrite Hid1, Hs, Hr. intros Hid Hs0. destruct (role t) eqn:Hrole; [done|].
    by destruct (Hid (Hnull eq_refl Hs0)).
  - exists (pj_grp_lock_dec_ref t'). split; [done|]. eapply outcome_base; [exact Hb|].
    eapply outcome_then_quiet; [exact Ho|]. quiet_auto.
Qed.

Lemma send_msg_ok d t :
  env_sane -> tsx_wf t -> event_ok (ev_send d) t ->
  exists t', tsx_step (ev_send d) t = Some t' /\ outcome (ev_send d) t t'.
Proof.
  intros Hsane Hw Hev. cbn [tsx_step pjsip_tsx_send_msg].
  edestruct (call_handler_ok (ev_send d) (PJSIP_EVENT_TX_MSG d) t Hsane (wf_ready _ _ Hw))
    as (t' & status & -> & Ho); [done|done|done|].
  eexists. split; [reflexivity|]. destruct (status =? PJ_SUCCESS); [|done].
  eapply outcome_then_quiet; [exact Ho|]. quiet_auto.
Qed.

Lemma terminate_ok code t : tsx_wf t ->
  outcome (ev_terminate code) t (pjsip_tsx_terminate code t).1.
Proof.
  intros Hw. unfold pjsip_tsx_terminate. destruct (Z.geb_spec code 200); cbn [negb fst];
    [|by apply outcome_same].
  destruct (state t <s PJSIP_TSX_STATE_TERMINATED) eqn:Hs; [|by apply outcome_same].
  eapply outcome_ends; [apply Hw|by destruct (state t)|apply set_state_ends, quiet_set_status|].
  right. apply user_terminates; [done|lia].
Qed.

Lemma set_timeout_ok ms t : tsx_wf t -> outcome (ev_set_timeout ms) t (pjsip_tsx_set_timeout ms t).1.
Proof.
  intros Hw. unfold pjsip_tsx_set_timeout. destruct (negb _); [by apply outcome_same|].
  destruct (_ && _); [by apply outcome_same|]. cbn [fst].
  eapply outcome_quiet; [done|apply quiet_restart_timeout, quiet_refl|by left].
Qed.

Lemma retransmit_no_state_ok o t : tsx_wf t -> is_Some (last_tx t) ->
  exists t' status, pjsip_tsx_retransmit_no_state o t = Some (t', status) /\
    outcome (ev_retransmit_no_state o) t t'.
Proof.
  intros Hw [d0 Hd]. unfold pjsip_tsx_retransmit_no_state. rewrite Hd.
  assert (state t <> PJSIP_TSX_STATE_DESTROYED) as Hnd.
  { intros Hs. pose proof (b_last_tx _ (proj1 Hw)) as Hl. rewrite Hs in Hl. congruence. }
  set (t1 := match o with Some _ => t | None => _ end). cbn zeta.
  assert (quiet (status_code t) t t1) as Hq by (subst t1; destruct o; quiet_auto).
  assert (exists d, (match o with Some _ => o | None => last_tx t1 end) = Some d) as [d ->]
    by (destruct o; [by eexists|exists d0; exact Hd]).
  assert (has_flag t1 TSX_HAS_PENDING_DESTROY = false) as Hf.
  { rewrite (q_destroy _ _ _ Hq). by apply no_destroy_flag; [apply Hw|]. }
  pose proof (tsx_send_msg_effect d t1 Hf) as He.
  destruct (tsx_send_msg d t1) as [t2 status]. cbn [fst] in *.
  eexists _, status. split; [reflexivity|].
  assert (outcome (ev_retransmit_no_state o) t t2) as Ho.
  { apply outcome_send; try done. eapply send_effect_trans; [by apply send_effect_quiet|done]. }
  destruct (status =? PJ_SUCCESS); [|done]. eapply outcome_then_quiet; [exact Ho|]. quiet_auto.
Qed.

(** A late callback of the resolver, on a destroyed transaction. *)
Lemma callback_destroyed send d o t :
  state t = PJSIP_TSX_STATE_DESTROYED -> last_tx t = None ->
  (exists sc, quiet sc t (send_msg_callback send d t o)) \/
  exists t1 sc src, quiet sc t t1 /\
    send_msg_callback send d t o = tsx_set_state PJSIP_TSX_STATE_DESTROYED src 0 t1.
Proof.
  intros Hs Hl. unfold send_msg_callback. cbn zeta.
  destruct (_ || _); [left; eexists; quiet_auto|].
  set (t1 := detach d (pj_grp_lock_dec_ref t)).
  assert (quiet (status_code t) t t1) as Hq1 by (subst t1; quiet_auto).
  destruct (sent o >? 0).
  - destruct (has_flag t1 TSX_HAS_PENDING_DESTROY) eqn:Hd.
    + right. unfold callback_sent. cbn zeta. set (t2 := set_flag TSX_HAS_RESOLVED_SERVER _).
      assert (quiet (status_code t1) t1 t2) as Hq2.
      { subst t2. quiet_auto; apply quiet_update_transport, quiet_refl. }
      rewrite (q_destroy _ _ _ Hq2), Hd. exists t2, (status_code t1), PJSIP_EVENT_UNKNOWN.
      split; [by eapply quiet_trans|done].
    + left. eexists. eapply quiet_trans; [exact Hq1|]. by apply callback_sent_quiet; [|right].
  - unfold callback_failed. cbn zeta. set (t2 := if same_transport _ _ then _ else t1).
    assert (quiet (status_code t) t t2) as Hq2.
    { subst t2. case_match; [apply quiet_update_transport|]; done. }
    destruct (_ || _).
    + set (sc := if (_ || _) then _ else _). set (t3 := tsx_set_status_code sc _).
      assert (quiet sc t t3) as Hq3 by (subst t3; quiet_auto).
      rewrite (q_state _ _ _ Hq3), Hs.
      change (negb (bool_decide (PJSIP_TSX_STATE_DESTROYED = PJSIP_TSX_STATE_TERMINATED)) &&
              negb (bool_decide (PJSIP_TSX_STATE_DESTROYED = PJSIP_TSX_STATE_DESTROYED))) with false.
      cbv iota.
      destruct (has_flag t3 _); [right|left; by exists sc].
      exists t3, sc, PJSIP_EVENT_TRANSPORT_ERROR. by split.
    + left. eexists. apply quiet_add_ref, quiet_attach.
      case_match; [apply restart_any_quiet; [by left|]|]; quiet_auto.
Qed.

Lemma resolved_ok d o t : tsx_wf t ->
  outcome (ev_resolved d o) t (send_msg_callback tsx_send_msg d t o).
Proof.
  intros Hw. destruct (decide (state t = PJSIP_TSX_STATE_DESTROYED)) as [Hs|Hnd].
  - assert (last_tx t = None) as Hl.
    { pose proof (b_last_tx _ (proj1 Hw)) as Hl. by rewrite Hs in Hl. }
    destruct (callback_destroyed tsx_send_msg d o t Hs Hl)
      as [[sc Hq]|(t1 & sc & src & Hq & ->)].
    + pose proof (quiet_base _ _ _ Hq) as (? & ? & ? & Hs').
      split; [|split; [done|split; [done|by left]]].
      split; [|unfold needs_timeout; by rewrite Hs', Hs].
      destruct Hw as [[Hh Hr Ht Hf Hlt Htm Hd] _]. destruct Hq as [Hst _ Hh' Hsc Hd' _ Ht'].
      apply static_inv in Hst as (Er & Em & Eh & Et & El).
      constructor; rewrite ?Hs', ?Hs, ?Hh', ?Er, ?Em, ?Et, ?El; rewrite ?Hs in *; try done; auto.
    + pose proof (set_state_destroys src 0 t1) as Hd.
      pose proof (quiet_base _ _ _ Hq) as (Hr & Hm & _ & _).
      split; [by eapply destroyed_wf|]. destruct Hd as [Hr' Hm' Hs' _ _ _ _ _].
      split; [congruence|]. split; [congruence|]. left. congruence.
  - apply outcome_send; try done. apply send_msg_callback_effect.
    + intros d' t'. apply tsx_send_msg_effect.
    + by apply no_destroy_flag; [apply Hw|].
Qed.

Lemma tsx_step_ok ev t : env_sane -> tsx_wf t -> event_ok ev t ->
  exists t', tsx_step ev t = Some t' /\ outcome ev t t'.
Proof.
  intros Hsane Hw Hev. destruct ev as [d|m|w|code| |ms|tdata|d o|n|st]; cbn [tsx_step].
  - by apply send_msg_ok.
  - unfold pjsip_tsx_recv_msg.
    edestruct (call_handler_ok (ev_recv m) (PJSIP_EVENT_RX_MSG m) t Hsane (wf_ready _ _ Hw))
      as (t' & status & -> & Ho); [done..|]. by exists t'.
  - by apply timer_fires_ok.
  - eexists. split; [reflexivity|]. by apply terminate_ok.
  - eexists. split; [reflexivity|]. unfold pjsip_tsx_stop_retransmit.
    destruct (negb _); [by apply outcome_same|].
    eapply outcome_quiet; [done|apply quiet_cancel_retransmit, quiet_refl|by left].
  - eexists. split; [reflexivity|]. by apply set_timeout_ok.
  - destruct (retransmit_no_state_ok tdata t Hw Hev) as (t' & status & -> & Ho). by exists t'.
  - eexists. split; [reflexivity|]. by apply resolved_ok.
  - eexists. split; [reflexivity|]. unfold transport_callback. cbn zeta.
    eapply (outcome_quiet _ (status_code t)); [done| |by left].
    apply quiet_dec_ref. destruct (n <? 0); [|quiet_auto].
    destruct (_ <s _) eqn:Hs; [apply restart_any_quiet; [by right|]|]; quiet_auto.
  - eexists. split; [reflexivity|].
    eapply outcome_quiet; [done|apply quiet_tp_state, quiet_refl|by left].
Qed.

End Steps.
