(* ===== verification/TsxTrace.v ===== *)
(** * When a SIP transaction leaves the transaction table

    A transaction takes itself out of the table of the transaction layer, which
    its trace records as [unregistered], when it becomes Destroyed and at no
    other moment, as long as no shutdown is pending on it. *)

From stdpp Require Import gmap.
From S2P Require Import Prelude TimeVal Transaction TsxMoves.

Definition is_unregistered (a : action) : bool :=
  match a with unregistered => true | _ => false end.
Definition unregs (t : pjsip_transaction) : nat := length (List.filter is_unregistered (trace t)).

Section Calm.
Context {E : TsxEnv}.

(** From [t] to [t'], without a pending shutdown: not taken out of the table, not
    destroyed, and no shutdown pending yet. *)
Definition calm (t t' : pjsip_transaction) : Prop :=
  has_flag t TSX_HAS_PENDING_DESTROY = false ->
  unregs t' = unregs t /\ mod_tsx_layer_id t' = mod_tsx_layer_id t /\
  has_flag t' TSX_HAS_PENDING_DESTROY = false /\
  (state t' = PJSIP_TSX_STATE_DESTROYED -> state t = PJSIP_TSX_STATE_DESTROYED).

Lemma calm_refl t : calm t t.
Proof. done. Qed.
Lemma calm_trans t t' t'' : calm t t' -> calm t' t'' -> calm t t''.
Proof.
  intros H H' Hd. destruct (H Hd) as (H1 & H2 & H3 & H4). destruct (H' H3) as (?&?&?&?).
  split_and!; [congruence..|auto].
Qed.
Lemma calm_same t t' t'' :
  (unregs t'', mod_tsx_layer_id t'', transport_flag t'', state t'') =
  (unregs t', mod_tsx_layer_id t', transport_flag t', state t') -> calm t t' -> calm t t''.
Proof.
  intros [= H1 H2 H3 H4] H Hd. destruct (H Hd) as (?&?&Hf&?). unfold has_flag in *.
  rewrite H1, H2, H3, H4. done.
Qed.

Lemma calm_emit a t t' : is_unregistered a = false -> calm t t' -> calm t (emit a t').
Proof.
  intros Ha. apply calm_same. unfold unregs, emit. destruct t'; cbn. by rewrite Ha.
Qed.
Lemma calm_set_flag f t t' : not_destroy_flag f -> calm t t' -> calm t (set_flag f t').
Proof.
  intros Hf H Hd. destruct (H Hd) as (?&?&Hf'&?). rewrite set_flag_destroy by done. done.
Qed.
Lemma calm_clear_flag f t t' : not_destroy_flag f -> calm t t' -> calm t (clear_flag f t').
Proof.
  intros Hf H Hd. destruct (H Hd) as (?&?&Hf'&?). rewrite clear_flag_destroy by done. done.
Qed.
Lemma calm_state s t t' : s <> PJSIP_TSX_STATE_DESTROYED -> calm t t' -> calm t (t' <| state := s |>).
Proof. intros Hs H Hd. destruct (H Hd) as (?&?&?&?). split_and!; done. Qed.

(** The condition of a branch on the pending shutdown. *)
Lemma calm_if {A} (g : A -> pjsip_transaction) t t' x y :
  calm t t' -> calm t (g y) ->
  calm t (g (if has_flag t' TSX_HAS_PENDING_DESTROY then x else y)).
Proof. intros H Hy Hd. destruct (H Hd) as (_ & _ & -> & _). by apply Hy. Qed.

End Calm.

(** [calm_auto]: a chain of calm operations, branches included. *)
Ltac calm_auto :=
  repeat first
    [ eassumption
    | apply calm_refl
    | apply calm_emit; [reflexivity|]
    | apply calm_set_flag; [apply not_destroy_flags|]
    | apply calm_clear_flag; [apply not_destroy_flags|]
    | apply calm_state; [first [discriminate|assumption]|]
    | match goal with |- calm ?t (modify ?f ?g ?t') => apply (calm_same t t' _ eq_refl) end
    | case_match ].

Section Operations.
Context {E : TsxEnv}.

Lemma calm_set_timer w e t t' : calm t t' -> calm t (set_timer w e t').
Proof. intros H. unfold set_timer. calm_auto. Qed.
Lemma calm_schedule w d i t t' : calm t t' -> calm t (tsx_schedule_timer w d i t').
Proof.
  intros H. unfold tsx_schedule_timer, pj_grp_lock_add_ref. case_match; [done|].
  calm_auto. by apply calm_set_timer.
Qed.
Lemma calm_cancel w t t' : calm t t' -> calm t (tsx_cancel_timer w t').
Proof.
  intros H. unfold tsx_cancel_timer, pj_grp_lock_dec_ref. case_match; [|done].
  calm_auto. by apply calm_set_timer.
Qed.
Lemma calm_tp_state e t t' : calm t t' -> calm t (tsx_tp_state_callback e t').
Proof.
  intros H. unfold tsx_tp_state_callback. cbv zeta. case_match; [apply calm_schedule, calm_cancel|]; calm_auto.
Qed.
Lemma calm_update_transport tp t t' : calm t t' -> calm t (tsx_update_transport tp t').
Proof.
  intros H. unfold tsx_update_transport. cbv zeta.
  destruct tp; [case_match; [apply calm_tp_state|]|]; calm_auto.
Qed.
Lemma calm_drop_last_tx t t' : calm t t' -> calm t (drop_last_tx t').
Proof. intros H. unfold drop_last_tx. calm_auto. Qed.
Lemma calm_keep_last_tx d t t' : calm t t' -> calm t (keep_last_tx d t').
Proof. intros H. unfold keep_last_tx. calm_auto. Qed.
Lemma calm_discard d t t' : calm t t' -> calm t (discard_other_last_tx d t').
Proof. intros H. unfold discard_other_last_tx. case_match; [done|by apply calm_drop_last_tx]. Qed.
Lemma calm_attach d t t' : calm t t' -> calm t (attach d t').
Proof. intros H. unfold attach. calm_auto. Qed.
Lemma calm_detach d t t' : calm t t' -> calm t (detach d t').
Proof. intros H. unfold detach. calm_auto. Qed.
Lemma calm_notify_rx src flag t t' : calm t t' -> calm t (notify_rx src flag t').
Proof. intros H. unfold notify_rx. calm_auto. Qed.
Lemma calm_notify_state src prev t t' : calm t t' -> calm t (notify_state src prev t').
Proof. intros H. unfold notify_state. calm_auto. Qed.

(** Every change of state but the last. *)
Lemma calm_set_state s src flag t t' : s <> PJSIP_TSX_STATE_DESTROYED ->
  calm t t' -> calm t (tsx_set_state s src flag t').
Proof.
  intros Hs H. unfold tsx_set_state. cbv zeta.
  set (t1 := notify_rx src flag _). assert (calm t t1) as H1.
  { subst t1. apply calm_notify_rx. calm_auto. }
  clearbody t1. set (t2 := if Z.land flag NO_NOTIFY =? 0 then _ else t1). assert (calm t t2) as H2.
  { subst t2. case_match; [by apply calm_notify_state|done]. }
  clearbody t2. destruct s; try done. set (t3 := if has_flag _ _ then _ else t2).
  assert (calm t t3) as H3.
  { subst t3. case_match; [|done]. apply calm_clear_flag; [apply not_destroy_flags|].
    case_match; [by apply calm_detach|done]. }
  case_match; [apply calm_schedule|]; by apply calm_cancel.
Qed.
Lemma calm_restart d t t' : calm t t' -> calm t (restart_timeout d t').
Proof. intros H. by apply calm_schedule, calm_cancel. Qed.
Lemma calm_resched t t' : calm t t' -> calm t (tsx_resched_retransmission t').
Proof. intros H. unfold tsx_resched_retransmission. cbv zeta. case_match; [by apply calm_schedule|done]. Qed.
Lemma calm_start_retransmit d t t' : calm t t' -> calm t (start_retransmit d t').
Proof.
  intros H. unfold start_retransmit. cbv zeta. case_match; [|apply calm_schedule; calm_auto].
  calm_auto.
Qed.
Lemma calm_status c t t' : calm t t' -> calm t (tsx_set_status_code c t').
Proof. intros H. unfold tsx_set_status_code. calm_auto. Qed.
Lemma calm_add_ref t t' : calm t t' -> calm t (pj_grp_lock_add_ref t').
Proof. intros H. unfold pj_grp_lock_add_ref. calm_auto. Qed.
Lemma calm_dec_ref t t' : calm t t' -> calm t (pj_grp_lock_dec_ref t').
Proof. intros H. unfold pj_grp_lock_dec_ref. calm_auto. Qed.

End Operations.

(** [calm_ops]: the same with the operations above. *)
Ltac calm_op :=
  lazymatch goal with
  | |- calm ?t ?t => apply calm_refl
  | |- calm _ (tsx_schedule_timer _ _ _ _) => apply calm_schedule
  | |- calm _ (tsx_cancel_timer _ _) => apply calm_cancel
  | |- calm _ (tsx_tp_state_callback _ _) => apply calm_tp_state
  | |- calm _ (tsx_update_transport _ _) => apply calm_update_transport
  | |- calm _ (drop_last_tx _) => apply calm_drop_last_tx
  | |- calm _ (keep_last_tx _ _) => apply calm_keep_last_tx
  | |- calm _ (discard_other_last_tx _ _) => apply calm_discard
  | |- calm _ (attach _ _) => apply calm_attach
  | |- calm _ (detach _ _) => apply calm_detach
  | |- calm _ (tsx_set_state _ _ _ _) => apply calm_set_state; [discriminate|]
  | |- calm _ (restart_timeout _ _) => apply calm_restart
  | |- calm _ (tsx_resched_retransmission _) => apply calm_resched
  | |- calm _ (start_retransmit _ _) => apply calm_start_retransmit
  | |- calm _ (tsx_set_status_code _ _) => apply calm_status
  | |- calm _ (pj_grp_lock_add_ref _) => apply calm_add_ref
  | |- calm _ (pj_grp_lock_dec_ref _) => apply calm_dec_ref
  | |- calm _ (set_timer _ _ _) => apply calm_set_timer
  | |- calm _ (notify_state _ _ _) => apply calm_notify_state
  | |- calm _ (emit _ _) => apply calm_emit; [reflexivity|]
  | |- calm _ (set_flag _ _) => apply calm_set_flag; [apply not_destroy_flags|]
  | |- calm _ (clear_flag _ _) => apply calm_clear_flag; [apply not_destroy_flags|]
  | |- calm ?t (modify ?f ?g ?t') => apply (calm_same t t' _ eq_refl)
  | |- calm _ (if _ then _ else _) => case_match
  | |- calm _ (match _ with _ => _ end) => case_match
  end.
Ltac calm_ops := repeat first [ eassumption | calm_op ].

(** ** Sending *)

Section Sending.
Context {E : TsxEnv}.

Lemma send_on_transport_calm d t : calm t (send_on_transport d t).1.1.
Proof.
  unfold send_on_transport. destruct (transport t) as [tp|]; [|apply calm_refl]. cbv zeta.
  set (t1 := emit _ _). assert (calm t t1) as Hc1 by (subst t1; calm_ops).
  clearbody t1. repeat (case_match; simplify_eq); cbn [fst]; calm_ops.
Qed.

(** What the callbacks need of the send they are called with. *)
Definition calm_send (send : pjsip_tx_data -> pjsip_transaction -> pjsip_transaction * Z) : Prop :=
  forall d t, calm t (send d t).1.

Lemma callback_sent_calm send o t : calm_send send -> calm t (callback_sent send o t).
Proof.
  intros Hs. unfold callback_sent. cbv zeta.
  set (t1 := set_flag TSX_HAS_RESOLVED_SERVER _).
  assert (calm t t1) as Hc1 by (subst t1; calm_ops). clearbody t1.
  apply (calm_if (fun x => x)); [done|].
  set (t2 := if has_flag t1 _ then _ else t1). assert (calm t t2) as Hc2.
  { subst t2. case_match; [|done]. case_match; [|calm_ops].
    eapply calm_trans; [|apply Hs]. calm_ops. }
  clearbody t2. calm_ops.
Qed.

Lemma callback_failed_calm d o t : calm t (callback_failed d o t).
Proof.
  unfold callback_failed. cbv zeta. set (t1 := if same_transport _ _ then _ else t).
  assert (calm t t1) as Hc1 by (subst t1; calm_ops). clearbody t1.
  case_match; [|calm_ops]. set (t2 := tsx_set_status_code _ _).
  assert (calm t t2) as Hc2 by (subst t2; calm_ops). clearbody t2.
  case_match; [calm_ops|]. by apply (calm_if (fun x => x)).
Qed.

Lemma send_msg_callback_calm send d t o : calm_send send -> calm t (send_msg_callback send d t o).
Proof.
  intros Hs. unfold send_msg_callback. cbv zeta. case_match; [calm_ops|].
  case_match; (eapply calm_trans; [|first [by apply callback_sent_calm|apply callback_failed_calm]]);
    calm_ops.
Qed.

Lemma fold_calm {A} (f : pjsip_transaction -> A -> pjsip_transaction) l t t' :
  (forall t x, calm t (f t x)) -> calm t t' -> calm t (fold_left f l t').
Proof.
  intros Hf. revert t'. induction l as [|x l IH]; intros t' H; [done|]. cbn. apply IH.
  eapply calm_trans; [exact H|apply Hf].
Qed.

Lemma tsx_send_msg_depth_calm n : calm_send (tsx_send_msg_depth n).
Proof.
  induction n as [|n IH]; intros d t; cbn [tsx_send_msg_depth];
    (case_match; [cbn [fst]; calm_ops|]); (case_match; [apply calm_refl|]);
    pose proof (send_on_transport_calm d t) as Hc;
    destruct (send_on_transport d t) as [[t1 st] []]; cbn [fst] in *; try done;
    (case_match; [cbn [fst]; calm_ops|]); [done|].
  unfold send_resolving. cbv zeta. set (t2 := set_flag _ _).
  assert (calm t t2) as Hc2 by (subst t2; calm_ops). clearbody t2.
  destruct (if is_request d then _ else _) as [cbs status]. cbn [fst].
  set (t3 := fold_left _ _ _). assert (calm t t3) as H3.
  { subst t3. apply fold_calm; [|calm_ops]. intros t' o. by apply send_msg_callback_calm. }
  clearbody t3. calm_ops.
Qed.

Lemma tsx_send_msg_calm d t : calm t (tsx_send_msg d t).1.
Proof. apply tsx_send_msg_depth_calm. Qed.

Lemma tsx_retransmit_calm r t : calm t (tsx_retransmit r t).1.
Proof.
  unfold tsx_retransmit. case_match; [apply calm_refl|]. case_match; [|apply calm_refl]. cbv zeta.
  eapply calm_trans; [|apply tsx_send_msg_calm]. calm_ops.
Qed.

End Sending.

(** ** The handlers *)

(** [calm_send d t]: go on with the result of a send from [t]. *)
Ltac calm_sent H :=
  lazymatch goal with
  | |- context [tsx_send_msg ?d ?t] =>
      pose proof (tsx_send_msg_calm d t) as H; destruct (tsx_send_msg d t) as [? ?]
  | |- context [tsx_retransmit ?r ?t] =>
      pose proof (tsx_retransmit_calm r t) as H; destruct (tsx_retransmit r t) as [? ?]
  end; cbn [fst snd] in *.

Section Handlers.
Context {E : TsxEnv}.

Lemma tsx_on_state_null_calm ev t : calm t (tsx_on_state_null ev t).1.
Proof.
  unfold tsx_on_state_null. destruct (role t); [|cbn [fst]; calm_ops].
  destruct ev; try apply calm_refl. cbv zeta.
  set (t1 := keep_last_tx _ _). assert (calm t t1) as Hc1 by (subst t1; calm_ops). clearbody t1.
  calm_sent H. assert (calm t p) as Hc2 by (by eapply calm_trans).
  case_match; cbn [fst]; calm_ops.
Qed.

Lemma complete_uac_calm ev ack t t' : calm t t' -> calm t (complete_uac ev ack t').
Proof. intros H. unfold complete_uac. cbv zeta. calm_ops. Qed.

Lemma proceeding_uac_status_calm ev t : calm t (proceeding_uac_status ev t).1.
Proof.
  unfold proceeding_uac_status. cbv zeta.
  case_match; [cbn [fst]; calm_ops|]. case_match; [case_match; cbn [fst]; calm_ops|].
  case_match; [cbn [fst]; calm_ops|]. case_match; [|apply calm_refl].
  set (t1 := tsx_cancel_timer timeout_entry _).
  assert (calm t t1) as Hc1 by (subst t1; calm_ops). clearbody t1.
  case_match; [|cbn [fst]; by apply complete_uac_calm].
  destruct ev; try (cbn [fst]; exact Hc1). destruct (pjsip_endpt_create_ack _ _); [|exact Hc1].
  calm_sent Hs. assert (calm t p0) as Hc2 by (by eapply calm_trans).
  case_match; cbn [fst]; [done|by apply complete_uac_calm].
Qed.

Lemma tsx_on_state_proceeding_uac_calm ev t : calm t (tsx_on_state_proceeding_uac ev t).1.
Proof.
  unfold tsx_on_state_proceeding_uac. destruct ev as [|[]| |[]| |]; try apply calm_refl.
  - apply tsx_retransmit_calm.
  - eapply calm_trans; [|apply proceeding_uac_status_calm]. calm_ops.
  - eapply calm_trans; [|apply proceeding_uac_status_calm]. calm_ops.
Qed.

Lemma tsx_on_state_calling_calm ev t : calm t (tsx_on_state_calling ev t).1.
Proof.
  unfold tsx_on_state_calling. destruct ev as [|[]| |[]| |]; try apply calm_refl; cbv zeta.
  - calm_sent H. by case_match.
  - cbn [fst]. calm_ops.
  - cbn [fst]. eapply calm_trans; [|apply tsx_on_state_proceeding_uac_calm]. calm_ops.
Qed.

Lemma proceeding_uas_sent_calm d t t' : calm t t' -> calm t (proceeding_uas_sent d t').
Proof.
  intros H. unfold proceeding_uas_sent. cbv zeta. case_match; [calm_ops|].
  case_match; [calm_ops|]. case_match; [|done]. calm_ops.
Qed.

Lemma tsx_on_state_proceeding_uas_calm ev t : calm t (tsx_on_state_proceeding_uas ev t).1.
Proof.
  unfold tsx_on_state_proceeding_uas. destruct ev as [|[]| | | |]; try apply calm_refl; cbv zeta.
  - apply tsx_retransmit_calm.
  - cbn [fst]. calm_ops.
  - case_match; [apply calm_refl|]. set (t1 := discard_other_last_tx _ _).
    assert (calm t t1) as Hc1 by (subst t1; calm_ops). clearbody t1. calm_sent Hs.
    assert (calm t p) as Hc2 by (by eapply calm_trans).
    case_match; cbn [fst]; [done|by apply proceeding_uas_sent_calm].
  - case_match; [|apply calm_refl]. case_match; [cbn [fst]; calm_ops|apply tsx_send_msg_calm].
Qed.

Lemma tsx_on_state_trying_calm ev t : calm t (tsx_on_state_trying ev t).1.
Proof.
  unfold tsx_on_state_trying. destruct ev; try apply calm_refl. cbv zeta.
  pose proof (tsx_on_state_proceeding_uas_calm (PJSIP_EVENT_TX_MSG tdata) t) as H.
  destruct (tsx_on_state_proceeding_uas _ _) as [t1 st]. cbn [fst] in *. calm_ops.
Qed.

Lemma tsx_on_state_completed_uas_calm ev t : calm t (tsx_on_state_completed_uas ev t).1.
Proof.
  unfold tsx_on_state_completed_uas. destruct ev as [|[]| |[]| |]; try apply calm_refl; cbv zeta.
  - apply tsx_retransmit_calm.
  - cbn [fst]. calm_ops.
  - case_match; [apply tsx_retransmit_calm|]. case_match; [apply calm_refl|]. cbn [fst]. calm_ops.
Qed.

Lemma tsx_on_state_completed_uac_calm ev t : calm t (tsx_on_state_completed_uac ev t).1.
Proof.
  unfold tsx_on_state_completed_uac. destruct ev as [|[]| | | |]; try apply calm_refl.
  - cbn [fst]. calm_ops.
  - case_match; [|apply calm_refl]. case_match; [apply calm_refl|].
    case_match; [apply tsx_retransmit_calm|apply calm_refl].
Qed.

Lemma tsx_on_state_confirmed_calm ev t : calm t (tsx_on_state_confirmed ev t).1.
Proof.
  unfold tsx_on_state_confirmed. destruct ev as [|[]| |[]| |]; try apply calm_refl.
  cbn [fst]. calm_ops.
Qed.

(** ** Becoming Destroyed *)

(** Taken out of the table once. *)
Definition leaves (t t' : pjsip_transaction) : Prop :=
  state t' = PJSIP_TSX_STATE_DESTROYED /\ mod_tsx_layer_id t' = mod_tsx_layer_id t /\
  (mod_tsx_layer_id t <> -1 -> unregs t' = S (unregs t)).

Lemma shutdown_unregs t : has_flag t TSX_HAS_PENDING_DESTROY = false ->
  unregs (tsx_shutdown t) = unregs t /\ mod_tsx_layer_id (tsx_shutdown t) = mod_tsx_layer_id t /\
  state (tsx_shutdown t) = state t.
Proof.
  intros Hf. pose proof (f_equal (fun x => x.1.1.2) (s_fixed _ _ (tsx_shutdown_shut t))) as Hs. cbn [fst snd] in Hs.
  split_and!; [| |done]; clear Hs; unfold tsx_shutdown; cbv zeta;
    set (t1 := tsx_cancel_timer retransmit_entry _);
    (assert (calm t t1) as Hc by (subst t1; calm_ops)); destruct (Hc Hf) as (Hu & Hi & _ & _);
    clearbody t1; by repeat case_match.
Qed.

Lemma set_state_leaves src flag t : has_flag t TSX_HAS_PENDING_DESTROY = false ->
  leaves t (tsx_set_state PJSIP_TSX_STATE_DESTROYED src flag t).
Proof.
  intros Hf. rewrite set_state_notified. set (t1 := notified _ _ _ t).
  assert (unregs t1 = unregs t /\ mod_tsx_layer_id t1 = mod_tsx_layer_id t /\
    transport_flag t1 = transport_flag t /\ state t1 = PJSIP_TSX_STATE_DESTROYED)
    as (Hu & Hi & Hd & Hs).
  { subst t1. unfold notified, notify_rx, notify_state, unregs, emit. cbv zeta. destruct t.
    repeat case_match; done. }
  clearbody t1. set (t2 := mod_tsx_layer_unregister_tsx t1).
  assert (has_flag t2 TSX_HAS_PENDING_DESTROY = false) as Hf2.
  { unfold has_flag in *. rewrite <- Hf, <- Hd. subst t2. unfold mod_tsx_layer_unregister_tsx.
    by case_match. }
  destruct (shutdown_unregs t2 Hf2) as (Hu2 & Hi2 & Hs2). unfold leaves.
  rewrite Hs2, Hi2, Hu2. subst t2. unfold mod_tsx_layer_unregister_tsx.
  case_match eqn:Hid; (split; [done|]); (split; [done|]); intros Hne.
  - apply Z.eqb_eq in Hid. congruence.
  - by rewrite <- Hu.
Qed.

Lemma leaves_calm t t' t'' : calm t t' -> has_flag t TSX_HAS_PENDING_DESTROY = false ->
  leaves t' t'' -> leaves t t''.
Proof.
  intros Hc Hf (Hs & Hi & Hu). destruct (Hc Hf) as (Hu' & Hi' & _).
  split; [done|]. rewrite Hi, <- Hu', Hi'. split; [done|]. intros Hne. apply Hu. by rewrite Hi'.
Qed.

(** [passes t t']: a step took [t] to [t'], out of the table only on the way from
    Terminated to Destroyed. *)
Definition passes (t t' : pjsip_transaction) : Prop :=
  calm t t' \/ leaves t t' /\ state_handler t = Some h_on_state_terminated.

Lemma call_handler_passes ev t t' st : has_flag t TSX_HAS_PENDING_DESTROY = false ->
  call_handler ev t = Some (t', st) -> passes t t'.
Proof.
  intros Hf. unfold call_handler. destruct (state_handler t) as [h|] eqn:Hh; [|done].
  intros [= Heq]. unfold passes. rewrite Hh.
  assert (t' = (match h with
                | h_on_state_null => tsx_on_state_null
                | h_on_state_calling => tsx_on_state_calling
                | h_on_state_trying => tsx_on_state_trying
                | h_on_state_proceeding_uac => tsx_on_state_proceeding_uac
                | h_on_state_proceeding_uas => tsx_on_state_proceeding_uas
                | h_on_state_completed_uac => tsx_on_state_completed_uac
                | h_on_state_completed_uas => tsx_on_state_completed_uas
                | h_on_state_confirmed => tsx_on_state_confirmed
                | h_on_state_terminated => tsx_on_state_terminated
                | h_on_state_destroyed => tsx_on_state_destroyed
                end ev t).1) as -> by (by rewrite Heq).
  clear Heq. destruct h.
  - left. apply tsx_on_state_null_calm.
  - left. apply tsx_on_state_calling_calm.
  - left. apply tsx_on_state_trying_calm.
  - left. apply tsx_on_state_proceeding_uac_calm.
  - left. apply tsx_on_state_proceeding_uas_calm.
  - left. apply tsx_on_state_completed_uac_calm.
  - left. apply tsx_on_state_completed_uas_calm.
  - left. apply tsx_on_state_confirmed_calm.
  - unfold tsx_on_state_terminated. destruct ev; try (left; apply calm_refl).
    right. split; [|done]. by apply set_state_leaves.
  - left. apply calm_refl.
Qed.

Lemma passes_calm t t1 t' : calm t t1 -> has_flag t TSX_HAS_PENDING_DESTROY = false ->
  state_handler t1 = state_handler t -> passes t1 t' -> passes t t'.
Proof.
  intros Hc Hf Hh [Hp|[Hl Ht]]; [left; by eapply calm_trans|right].
  split; [by eapply leaves_calm|congruence].
Qed.
Lemma passes_then t t1 t' : passes t t1 -> (forall t0, calm t0 t1 -> calm t0 t') ->
  (unregs t', mod_tsx_layer_id t', state t') = (unregs t1, mod_tsx_layer_id t1, state t1) -> passes t t'.
Proof.
  intros [Hc|[(Hs & Hi & Hu) Hh]] Hk [= Eu Ei Es]; [left; auto|right].
  unfold leaves. rewrite Eu, Ei, Es. done.
Qed.

Lemma timer_fires_passes w t t' : has_flag t TSX_HAS_PENDING_DESTROY = false ->
  timer_fires w t = Some t' -> passes t t'.
Proof.
  intros Hf. unfold timer_fires. set (t1 := set_timer w _ t).
  assert (calm t t1 /\ state_handler t1 = state_handler t) as [Hc Hh] by (subst t1; split; [calm_ops|by destruct w]).
  clearbody t1. destruct (Hc Hf) as (_ & _ & Hf1 & _).
  destruct (tsx_timer_callback w t1) as [t2|] eqn:Hcb; [|done]. intros [= <-].
  eapply passes_calm; [done..|]. clear t Hf Hc Hh. apply (passes_then _ t2); [|intros; calm_ops|done].
  revert Hcb. unfold tsx_timer_callback. case_match; [intros [= <-]; left; apply calm_refl|].
  case_match; cbv zeta; set (t3 := set_timer w _ t1).
  - assert (calm t1 t3) as Hc by (subst t3; calm_ops). clearbody t3.
    case_match; intros Heq; apply (inj Some) in Heq; subst t2; left; calm_ops.
  - assert (calm t1 t3 /\ state_handler t3 = state_handler t1) as [Hc Hh]
      by (subst t3; split; [calm_ops|by destruct w]).
    clearbody t3. destruct (call_handler _ t3) as [[t4 st]|] eqn:Hca; [|done]. intros [= <-].
    eapply passes_calm; [done..|]. destruct (Hc Hf1) as (_ & _ & Hf3 & _).
    by eapply call_handler_passes.
Qed.

(** A step of a transaction without a pending shutdown. *)
Lemma tsx_step_passes ev t t' : has_flag t TSX_HAS_PENDING_DESTROY = false ->
  tsx_step ev t = Some t' -> passes t t'.
Proof.
  intros Hf. destruct ev as [d|m|w|code| |ms|d|d o|n|st]; cbn [tsx_step].
  - unfold pjsip_tsx_send_msg. cbv iota.
    destruct (call_handler _ t) as [[t1 st]|] eqn:Hc; [|done]. intros [= <-].
    apply (passes_then _ t1); [by eapply call_handler_passes| |]; case_match; try done; intros; calm_ops.
  - unfold pjsip_tsx_recv_msg. destruct (call_handler _ t) as [[t1 st]|] eqn:Hc; [|done].
    intros [= <-]. by eapply call_handler_passes.
  - by apply timer_fires_passes.
  - intros [= <-]. left. unfold pjsip_tsx_terminate. case_match; cbn [fst]; calm_ops.
  - intros [= <-]. left. unfold pjsip_tsx_stop_retransmit. case_match; cbn [fst]; calm_ops.
  - intros [= <-]. left. unfold pjsip_tsx_set_timeout. repeat case_match; cbn [fst]; calm_ops.
  - unfold pjsip_tsx_retransmit_no_state. cbv zeta. set (t0 := match d with Some _ => t | None => _ end).
    assert (calm t t0) as Hc0 by (subst t0; calm_ops). clearbody t0.
    destruct (match d with Some _ => d | None => last_tx t0 end) as [x|]; [|done].
    calm_sent Hs. intros [= <-]. left. assert (calm t p) by (by eapply calm_trans). calm_ops.
  - intros [= <-]. left. apply send_msg_callback_calm. intros ??. apply tsx_send_msg_calm.
  - intros [= <-]. left. unfold transport_callback. cbv zeta. calm_ops.
  - intros [= <-]. left. calm_ops.
Qed.

End Handlers.
