(* ===== verification/TsxProps.v ===== *)
(** * What a SIP transaction guarantees

    The theorems about the machine of [Transaction]: its invariant, its
    refinement of the RFC 3261 diagrams, its destruction, its retransmissions
    and the exact effect of the main events. *)

From stdpp Require Import gmap.
From S2P Require Import Prelude TimeVal Transaction TsxMoves TsxSteps.
Set Warnings "-clear-no-such-hyp".

(** ** Runs *)

Inductive tsx_created : pjsip_transaction -> Prop :=
  | created_uac user d reliable mod_id t :
      pjsip_tsx_create_uac2 user d reliable mod_id = inl t -> tsx_created t
  | created_uas user m tp reliable mod_id t :
      pjsip_tsx_create_uas2 user m tp reliable mod_id = inl t -> tsx_created t.

Section Runs.
Context {E : TsxEnv}.

Inductive tsx_reachable : pjsip_transaction -> Prop :=
  | reach_created t : tsx_created t -> tsx_reachable t
  | reach_step ev t t' :
      tsx_reachable t -> event_ok ev t -> tsx_step ev t = Some t' -> tsx_reachable t'.

End Runs.

Section Guarantees.
Context {E : TsxEnv}.

Lemma created_wf t : tsx_created t -> tsx_wf t.
Proof.
  destruct 1 as [user d rel mid t H|user m tp rel mid t H].
  - unfold pjsip_tsx_create_uac2 in H. destruct (msg d) as [m|]; [|done].
    case_bool_decide; [done|]. injection H as <-. split; [|done].
    constructor; try done; [|by eexists]. split; by intros [].
  - unfold pjsip_tsx_create_uas2 in H. destruct m as [m|]; [|done].
    case_bool_decide; [done|]. cbv zeta in H.
    match type of H with inl ?x = inl t => assert (x = t) as <- by congruence end. clear H.
    set (t0 := (tsx_create user PJSIP_ROLE_UAS m mid) <| res_addr_transport := tp |>).
    assert (tsx_wf t0) as Hw.
    { split; [|done]. constructor; try done. split; by intros []. }
    destruct tp as [tp|].
    + eapply tsx_wf_quiet; [exact Hw|apply quiet_reliable, quiet_update_transport, quiet_refl|by left].
    + eapply tsx_wf_quiet; [exact Hw|apply quiet_reliable, quiet_refl|by left].
Qed.

Lemma tsx_run_wf t : env_sane -> tsx_reachable t -> tsx_wf t.
Proof.
  intros Hsane. induction 1 as [t Hc|ev t t' _ IH Hev Hstep]; [by apply created_wf|].
  destruct (tsx_step_ok ev t Hsane IH Hev) as (t1 & Hstep' & Hw & _). congruence.
Qed.

(** C29: In every transaction a run of allowed events reaches, the handler
    installed is the one of its role and state, a client is never in Trying or
    Confirmed nor a server in Calling, running timers carry the id of their
    purpose, a final state has a final status code and a message to retransmit;
    and no allowed event finds a null handler. *)
Theorem tsx_reachable_wf t :
  env_sane -> tsx_reachable t ->
  wf_basic t /\ forall ev, event_ok ev t -> is_Some (tsx_step ev t).
Proof.
  intros Hsane Hr. pose proof (tsx_run_wf t Hsane Hr) as Hw. split; [apply Hw|].
  intros ev Hev. destruct (tsx_step_ok ev t Hsane Hw Hev) as (t' & -> & _). by eexists.
Qed.

(** C1: The machine refines RFC 3261: in a reachable transaction every event
    leaves the state alone or takes it along one transition of the RFC's
    diagrams, with the status code that transition gives; the role and the
    method never change and the state never goes back. *)
Theorem tsx_refines_rfc3261 ev t t' :
  env_sane -> tsx_reachable t -> event_ok ev t -> tsx_step ev t = Some t' ->
  (state t' = state t \/
   rfc_edge (role t) (is_invite t) (handle_200resp t) (state t) ev (status_code t') (state t')) /\
  role t' = role t /\ method t' = method t /\ state_num (state t) <= state_num (state t').
Proof.
  intros Hsane Hr Hev Hstep.
  destruct (tsx_step_ok ev t Hsane (tsx_run_wf t Hsane Hr) Hev) as (t1 & Hstep' & _ & Hrole & Hm & Hmv).
  rewrite Hstep in Hstep'. injection Hstep' as <-.
  split; [exact Hmv|]. split; [done|]. split; [done|]. destruct Hmv as [->|Hedge]; [lia|].
  destruct (rfc_edge_up _ _ _ _ _ _ _ Hedge) as [H|[-> _]]; [|lia].
  apply Z.ltb_lt in H. lia.
Qed.

(** ** Timeouts *)

Lemma timeout_handlers_end t :
  let event := PJSIP_EVENT_TIMER timeout_entry in
  state (tsx_on_state_calling event t).1 = PJSIP_TSX_STATE_TERMINATED /\
  state (tsx_on_state_proceeding_uac event t).1 = PJSIP_TSX_STATE_TERMINATED /\
  state (tsx_on_state_completed_uac event t).1 = PJSIP_TSX_STATE_TERMINATED /\
  state (tsx_on_state_completed_uas event t).1 = PJSIP_TSX_STATE_TERMINATED /\
  state (tsx_on_state_confirmed event t).1 = PJSIP_TSX_STATE_TERMINATED.
Proof.
  cbn zeta. repeat split; eapply e_state, set_state_ends, quiet_refl.
Qed.

Lemma fire_ends t t' :
  tsx_wf t -> armed t -> needs_timeout t = true -> state t <> PJSIP_TSX_STATE_TERMINATED ->
  timer_fires timeout_entry t = Some t' -> state t' = PJSIP_TSX_STATE_TERMINATED.
Proof.
  intros [Hw _] Hrun Hn Hnt. unfold timer_fires, tsx_timer_callback. cbn zeta.
  set (t1 := set_timer timeout_entry _ t).
  assert (state t1 = state t /\ state_handler t1 = state_handler t /\ role t1 = role t /\
          id (get_timer timeout_entry t1) = id (timeout_timer t)) as (Hs1 & Hh1 & Hr1 & Hid1) by done.
  rewrite Hs1, Hid1. assert ((state t <s PJSIP_TSX_STATE_DESTROYED) = true) as ->.
  { unfold needs_timeout in Hn. by destruct (state t). }
  cbn [negb]. set (t2 := set_timer timeout_entry _ t1).
  assert (state t2 = state t /\ state_handler t2 = state_handler t /\ method t2 = method t)
    as (Hs2 & Hh2 & Hm2) by done.
  destruct (id (timeout_timer t) =? TRANSPORT_ERR_TIMER).
  - rewrite Hs2. assert ((state t <s PJSIP_TSX_STATE_TERMINATED) = true) as ->.
    { unfold needs_timeout in Hn. by destruct (state t). }
    intros <-%(inj Some). set (t3 := if _ <? 200 then _ else _).
    rewrite (q_state _ _ _ (quiet_dec_ref _ _ _ (quiet_refl _))).
    by apply (e_state (status_code t3) t3), posted_error_ends; [apply quiet_refl|].
  - unfold call_handler. rewrite Hh2, (b_handler _ Hw).
    pose proof (b_role _ Hw) as Hrole. unfold needs_timeout in Hn.
    pose proof (timeout_handlers_end t2) as (Hc & Hp & Hcc & Hcs & Hcf).
    destruct (state t) eqn:Hs, (role t) eqn:Hr; try done; try (by destruct Hrole);
      cbn [handler_of tsx_state_handler_uac tsx_state_handler_uas].
    + clear - Hc. destruct (tsx_on_state_calling _ t2). intros <-%(inj Some). exact Hc.
    + clear - Hp. destruct (tsx_on_state_proceeding_uac _ t2). intros <-%(inj Some). exact Hp.
    + clear - Hcc. destruct (tsx_on_state_completed_uac _ t2). intros <-%(inj Some). exact Hcc.
    + clear - Hcs. destruct (tsx_on_state_completed_uas _ t2). intros <-%(inj Some). exact Hcs.
    + clear - Hcf. destruct (tsx_on_state_confirmed _ t2). intros <-%(inj Some). exact Hcf.
Qed.

(** What is left of a destroyed transaction: nothing held, nothing running. *)
Definition released (t : pjsip_transaction) : Prop :=
  state t = PJSIP_TSX_STATE_DESTROYED /\ terminating t = true /\
  last_tx t = None /\ transport t = None /\
  running (retransmit_timer t) = None /\ running (timeout_timer t) = None.

Lemma destroys_released t t' : destroys t t' -> released (pj_grp_lock_dec_ref t').
Proof. intros [_ _ Hs _ Ht Hl Htp [Hr Ho]]. by destruct t'. Qed.

Lemma fire_destroys t :
  tsx_wf t -> armed t -> state t = PJSIP_TSX_STATE_TERMINATED ->
  exists t', timer_fires timeout_entry t = Some t' /\ released t'.
Proof.
  intros [Hw _] Ha Hs. unfold timer_fires, tsx_timer_callback. cbn zeta.
  set (t1 := set_timer timeout_entry _ t). assert (state t1 = state t) as -> by done. rewrite Hs.
  change (negb (PJSIP_TSX_STATE_TERMINATED <s PJSIP_TSX_STATE_DESTROYED)) with false. cbv iota.
  destruct (b_timers _ Hw) as [_ Hid]. rewrite Hs in Hid.
  assert (id (get_timer timeout_entry t1) = TIMEOUT_TIMER) as ->.
  { change (id (timeout_timer t) = TIMEOUT_TIMER). by destruct (Hid Ha) as [|[_ ?]]. }
  change (TIMEOUT_TIMER =? TRANSPORT_ERR_TIMER) with false. cbv iota.
  set (t2 := set_timer timeout_entry _ t1). unfold call_handler.
  assert (state_handler t2 = Some h_on_state_terminated) as ->.
  { change (state_handler t = Some h_on_state_terminated). rewrite (b_handler _ Hw), Hs.
    apply terminated_handler. }
  eexists. split; [reflexivity|]. eapply destroys_released, set_state_destroys.
Qed.

Lemma needs_not_null t : needs_timeout t = true -> armed t -> event_ok (ev_timer timeout_entry) t.
Proof.
  intros Hn Ha. split; [done|]. intros _ Hs. unfold needs_timeout in Hn. by rewrite Hs in Hn.
Qed.

(** A transaction in which only time can make progress is never stuck: from
    Calling, from a client's Proceeding of a request other than INVITE, from
    Completed, Confirmed and Terminated, the timeout timer is armed, firing it
    leads to Terminated, and firing it again destroys the transaction, which
    then holds no message and no transport and has no timer running. *)
Lemma tsx_timeout_destroys t :
  env_sane -> env_accepts -> tsx_reachable t -> needs_timeout t = true ->
  exists t1 t2,
    (t1 = t \/ tsx_step (ev_timer timeout_entry) t = Some t1) /\
    state t1 = PJSIP_TSX_STATE_TERMINATED /\
    tsx_step (ev_timer timeout_entry) t1 = Some t2 /\ released t2.
Proof.
  intros Hsane Henv Hr Hn. pose proof (tsx_run_wf t Hsane Hr) as Hw.
  pose proof (proj2 Hw Henv Hn) as Ha.
  assert (exists t1, (t1 = t \/ tsx_step (ev_timer timeout_entry) t = Some t1) /\
    state t1 = PJSIP_TSX_STATE_TERMINATED /\ tsx_wf t1) as (t1 & Hfrom & Hs1 & Hw1).
  { destruct (decide (state t = PJSIP_TSX_STATE_TERMINATED)) as [Hs|Hs]; [exists t; auto|].
    destruct (tsx_step_ok (ev_timer timeout_entry) t Hsane Hw (needs_not_null t Hn Ha))
      as (t1 & Hstep & Hw1 & _).
    exists t1. split; [by right|]. split; [by apply (fire_ends t)|done]. }
  assert (needs_timeout t1 = true) as Hn1 by (unfold needs_timeout; by rewrite Hs1).
  destruct (fire_destroys t1 Hw1 (proj2 Hw1 Henv Hn1) Hs1) as (t2 & Hf & Hrel).
  by exists t1, t2.
Qed.

(** ** Sending *)

(** The message goes out on the transport the transaction has, at once. *)
Lemma send_now d tp t :
  transport t = Some tp -> has_flag t TSX_HAS_PENDING_TRANSPORT = false -> is_pending t d = false ->
  (forall t', pjsip_transport_send t' tp d = PJ_SUCCESS) ->
  tsx_send_msg d t =
    (t <| transport_flag := Z.land (Z.lor (transport_flag t) TSX_HAS_PENDING_TRANSPORT)
                                   (Z.lnot TSX_HAS_PENDING_TRANSPORT) |>
       <| trace ::= cons (sent_via (tp_id tp) (tdata_id d)) |>, PJ_SUCCESS).
Proof.
  intros Htp Hf Hp Hok. unfold tsx_send_msg. cbn [tsx_send_msg_depth]. rewrite Hf, Hp.
  unfold send_on_transport. rewrite Htp. cbn zeta. rewrite Hok.
  change (PJ_SUCCESS =? PJ_EPENDING) with false. change (negb (PJ_SUCCESS =? PJ_SUCCESS)) with false.
  cbv iota. f_equal. unfold pj_grp_lock_dec_ref, pj_grp_lock_add_ref, clear_flag, set_flag, emit.
  destruct t. cbn. f_equal. lia.
Qed.

Lemma clear_set_flag x : 
  Z.land (Z.lor x TSX_HAS_PENDING_TRANSPORT) (Z.lnot TSX_HAS_PENDING_TRANSPORT) =
  Z.land x (Z.lnot TSX_HAS_PENDING_TRANSPORT).
Proof. rewrite Z.land_lor_distr_l, Z.land_lnot_diag. apply Z.lor_0_r. Qed.

(** The transport takes a message at once. *)
Definition sends_now (t : pjsip_transaction) (tp : pjsip_transport) (d : pjsip_tx_data) : Prop :=
  transport t = Some tp /\ has_flag t TSX_HAS_PENDING_TRANSPORT = false /\
  (forall t', is_pending t' d = false /\ pjsip_transport_send t' tp d = PJ_SUCCESS).

(** *** The final response to an INVITE client *)

(** What the handler leaves, with the ACK [ack] sent on [tp]. *)
Record failed (c : Z) (tp : pjsip_transport) (ack : pjsip_tx_data) (t t' : pjsip_transaction) :
    Prop := Failed {
  f_state : state t' = PJSIP_TSX_STATE_COMPLETED /\ status_code t' = c;
  f_last_tx : exists a, last_tx t' = Some a /\ tdata_id a = tdata_id ack;
  f_timeout : timeout_timer t' =
    TimerEntry TIMEOUT_TIMER (Some (if is_reliable t then zero_val else td_timer_val));
  f_retransmit : running (retransmit_timer t') = None;
  f_trace : tsx_user t = Some (TsxUser true true) ->
    exists dropped, (dropped = [] \/ exists o, dropped = [tx_dec_ref o]) /\
      trace t' = dropped ++
        [on_tsx_state (PJSIP_EVENT_RX_MSG (PJSIP_RESPONSE_MSG c)) (state t) PJSIP_TSX_STATE_COMPLETED;
         on_rx_response c; sent_via (tp_id tp) (tdata_id ack)] ++ trace t
}.

Lemma restart_timeout_shape v t :
  exists n, restart_timeout v t =
    t <| timeout_timer := TimerEntry TIMEOUT_TIMER (Some v) |> <| grp_lock_refs := n |>.
Proof.
  unfold restart_timeout. destruct (cancel_timeout_shape t) as (e & n & -> & He).
  unfold tsx_schedule_timer.
  assert (pj_timer_entry_running (get_timer timeout_entry
    (t <| timeout_timer := e |> <| grp_lock_refs := n |>)) = false) as ->.
  { unfold pj_timer_entry_running. apply bool_decide_eq_false. intros [x Hx].
    change (running e = Some x) in Hx. congruence. }
  exists (1 + n). reflexivity.
Qed.

Lemma complete_uac_failed c tp ack t :
  status_code t = c -> is_invite t = true -> is_Some (last_tx t) ->
  running (retransmit_timer t) = None ->
  failed c tp ack t (complete_uac (PJSIP_EVENT_RX_MSG (PJSIP_RESPONSE_MSG c)) (Some ack)
    (t <| trace ::= cons (sent_via (tp_id tp) (tdata_id ack)) |>)).
Proof.
  intros Hc Hi [d Hd] Hr. unfold complete_uac. cbn zeta.
  set (t0 := t <| trace ::= cons (sent_via (tp_id tp) (tdata_id ack)) |>).
  set (event := PJSIP_EVENT_RX_MSG (PJSIP_RESPONSE_MSG c)).
  set (t1 := tsx_set_state _ _ _ t0).
  assert (exists tr, t1 = t <| state := PJSIP_TSX_STATE_COMPLETED |>
      <| state_handler := handler_of (role t) PJSIP_TSX_STATE_COMPLETED |> <| trace := tr |> /\
    (tsx_user t = Some (TsxUser true true) -> tr =
      [on_tsx_state event (state t) PJSIP_TSX_STATE_COMPLETED; on_rx_response c;
       sent_via (tp_id tp) (tdata_id ack)] ++ trace t)) as (tr & -> & Htr).
  { subst t1 t0. rewrite set_state_notified.
    destruct t as [[[[] []]|]]; eexists; (split; [reflexivity|]); by intros [=]. }
  set (t2 := if same_tdata _ _ then _ else _).
  assert (exists a tr' dropped, t2 = t <| state := PJSIP_TSX_STATE_COMPLETED |>
      <| state_handler := handler_of (role t) PJSIP_TSX_STATE_COMPLETED |>
      <| last_tx := Some a |> <| trace := tr' |> /\ tdata_id a = tdata_id ack /\
      tr' = dropped ++ tr /\ (dropped = [] \/ exists o, dropped = [tx_dec_ref o]))
    as (a & tr' & dropped & -> & Ha & -> & Hdr).
  { subst t2. unfold drop_last_tx. change (last_tx (t <| state := _ |> <| state_handler := _ |> <| trace := tr |>)) with (last_tx t).
    rewrite Hd. cbn [same_tdata]. destruct (Z.eqb_spec (tdata_id d) (tdata_id ack)) as [He|_].
    - exists d, tr, []. split; [by destruct t; cbn in *; subst|]. auto.
    - exists ack, (tx_dec_ref (tdata_id d) :: tr), [tx_dec_ref (tdata_id d)].
      split; [by destruct t|]. split; [done|]. split; [done|]. right. by eexists. }
  edestruct restart_timeout_shape as [n ->]. constructor; try done.
  - by exists a.
  - unfold completed_uac_delay. change (is_invite (t <| state := _ |> <| state_handler := _ |>
      <| last_tx := _ |> <| trace := _ |>)) with (is_invite t). rewrite Hi.
    change (is_reliable (t <| state := _ |> <| state_handler := _ |>
      <| last_tx := _ |> <| trace := _ |>)) with (is_reliable t). by destruct (is_reliable t).
  - intros Hu. exists dropped. split; [done|].
    transitivity (dropped ++ tr); [done|]. by rewrite (Htr Hu).
Qed.

Lemma final_response_status c tp ack t :
  300 <= c < 700 -> status_code t = c -> is_invite t = true -> is_Some (last_tx t) ->
  sends_now t tp ack ->
  pjsip_endpt_create_ack (last_tx t) (PJSIP_RESPONSE_MSG c) = inl ack ->
  failed c tp ack t (proceeding_uac_status (PJSIP_EVENT_RX_MSG (PJSIP_RESPONSE_MSG c)) t).1 /\
  (proceeding_uac_status (PJSIP_EVENT_RX_MSG (PJSIP_RESPONSE_MSG c)) t).2 = PJ_SUCCESS.
Proof.
  intros Hrange Hc Hi Hl (Htp & Hf & Hp) Hack. unfold proceeding_uac_status.
  change 100 with (100 * 1). change 200 with (100 * 2).
  rewrite Hc, !status_in_class by lia.
  assert ((100 * 1 <=? c) && (c <? 100 * 1 + 100) = false) as -> by lia.
  assert ((100 * 2 <=? c) && (c <? 100 * 2 + 100) = false) as -> by lia.
  cbn [is_timeout_event]. assert ((c >=? 300) && (c <=? 699) = true) as -> by lia. cbn zeta.
  destruct (cancel_timer_shape retransmit_entry t) as (e & n & -> & He).
  destruct (cancel_timeout_shape (set_timer retransmit_entry e t <| grp_lock_refs := n |>))
    as (e' & n' & -> & He').
  set (t2 := _ <| timeout_timer := e' |> <| grp_lock_refs := n' |>).
  change (is_invite t2) with (is_invite t). rewrite Hi.
  change (last_tx t2) with (last_tx t). rewrite Hack.
  rewrite (send_now ack tp t2); [|exact Htp|exact Hf|apply Hp|apply Hp].
  change (negb (PJ_SUCCESS =? PJ_SUCCESS)) with false. cbn [fst snd]. split; [|done].
  set (t3 := t2 <| transport_flag := _ |>).
  destruct (complete_uac_failed c tp ack t3) as [Hs Hla Hto Hrt Htr]; try done.
Qed.

(** [calling_response] before a final response: only the timers change, and a
    deferred retransmission is forgotten. *)
Lemma calling_response_shape c t : 200 <= c ->
  exists e e' n f, calling_response c t =
    t <| retransmit_timer := e |> <| timeout_timer := e' |> <| grp_lock_refs := n |>
      <| transport_flag := f |> /\
    has_flag (t <| transport_flag := f |>) TSX_HAS_PENDING_TRANSPORT =
    has_flag t TSX_HAS_PENDING_TRANSPORT.
Proof.
  intros Hc. unfold calling_response. cbn zeta. assert ((c >=? 200) = true) as -> by lia.
  destruct (cancel_timer_shape retransmit_entry t) as (e & n & -> & He).
  set (t1 := set_timer retransmit_entry e t <| grp_lock_refs := n |>).
  assert (exists e' n', (if negb (id (timeout_timer t1) =? 0) then tsx_cancel_timer timeout_entry t1
    else t1) = t1 <| timeout_timer := e' |> <| grp_lock_refs := n' |>) as (e' & n' & ->).
  { destruct (negb _); [|exists (timeout_timer t), n; by destruct t].
    destruct (cancel_timeout_shape t1) as (e' & n' & -> & _). by exists e', n'. }
  exists e, e', n', (Z.land (transport_flag t) (Z.lnot TSX_HAS_PENDING_RESCHED)).
  split; [by destruct t|]. exact (has_clear_flag 1 0 t ltac:(done) ltac:(done)).
Qed.

(** An INVITE client transaction in Calling or Proceeding that receives a
    300-699 response, when the ACK can be built and the transport takes it:
    the ACK is sent on the transaction's transport and kept in place of the
    INVITE, retransmission stops, timer D is armed (zero seconds on a reliable
    transport), the state is Completed with the response's code, and the user
    is told of the response first and then of the change of state. *)
Lemma tsx_invite_failure_spec t c tp ack :
  env_sane -> tsx_reachable t -> role t = PJSIP_ROLE_UAC -> is_invite t = true ->
  state t = PJSIP_TSX_STATE_CALLING \/ state t = PJSIP_TSX_STATE_PROCEEDING ->
  300 <= c < 700 -> sends_now t tp ack ->
  pjsip_endpt_create_ack (last_tx t) (PJSIP_RESPONSE_MSG c) = inl ack ->
  exists t', tsx_step (ev_recv (PJSIP_RESPONSE_MSG c)) t = Some t' /\ failed c tp ack t t'.
Proof.
  intros Hsane Hreach Hr Hi Hs Hc Hnow Hack. pose proof (tsx_run_wf t Hsane Hreach) as [Hw _].
  assert (is_Some (last_tx t)) as Hl
    by (apply uac_last_tx; [done|done|destruct Hs as [-> | ->]; done]).
  cbn [tsx_step]. unfold pjsip_tsx_recv_msg, call_handler. rewrite (b_handler _ Hw), Hr.
  destruct Hs as [Hs|Hs]; rewrite Hs; cbn [handler_of tsx_state_handler_uac].
  - cbn [tsx_on_state_calling]. fold (calling_response c t).
    destruct (calling_response_shape c t ltac:(lia)) as (e & e' & n & f & -> & Hf).
    eexists. split; [reflexivity|]. cbn [tsx_on_state_proceeding_uac].
    set (t1 := tsx_set_status_code c _).
    destruct Hnow as (Htp & Hpt & Hp). rewrite <- Hf in Hpt.
    by destruct (final_response_status c tp ack t1) as [[] _].
  - cbn [tsx_on_state_proceeding_uac]. set (t1 := tsx_set_status_code c t).
    destruct (final_response_status c tp ack t1) as [[] _]; try done.
    destruct (proceeding_uac_status _ t1) as [t' st]. by exists t'.
Qed.

(** *** The final response of a server *)

Lemma start_retransmit_now v t :
  has_flag t TSX_HAS_PENDING_TRANSPORT = false -> running (retransmit_timer t) = None ->
  start_retransmit v t =
    t <| retransmit_count := 0 |> <| retransmit_timer := TimerEntry RETRANSMIT_TIMER (Some v) |>
      <| grp_lock_refs := 1 + grp_lock_refs t |>.
Proof.
  intros Hf Hr. unfold start_retransmit. cbn zeta.
  assert (has_flag (t <| retransmit_count := 0 |>) TSX_HAS_PENDING_TRANSPORT = false) as -> by done.
  unfold tsx_schedule_timer. assert (pj_timer_entry_running
    (get_timer retransmit_entry (t <| retransmit_count := 0 |>)) = false) as ->.
  { unfold pj_timer_entry_running. apply bool_decide_eq_false. intros [x Hx].
    change (running (retransmit_timer t) = Some x) in Hx. congruence. }
  by destruct t.
Qed.

(** The two timers of a server after its final response [c]: G and H for an
    INVITE, J for another request. *)
Definition uas_final_timers (c : Z) (inv reliable cseq_inv : bool) :
    option pj_time_val * option pj_time_val :=
  (if c <? 300 then if inv then Some t1_timer_val else None
   else if negb reliable && cseq_inv then Some t1_timer_val else None,
   Some (if inv || negb reliable then timeout_timer_val else zero_val)).

Record answered (c : Z) (tp : pjsip_transport) (d : pjsip_tx_data) (t t' : pjsip_transaction) :
    Prop := Answered {
  a_state : state t' = PJSIP_TSX_STATE_COMPLETED /\ status_code t' = c;
  a_last_tx : exists x, last_tx t' = Some x /\ tdata_id x = tdata_id d;
  a_timers : (running (retransmit_timer t'), running (timeout_timer t')) =
    uas_final_timers c (is_invite t) (is_reliable t)
      (bool_decide (cseq_method d = PJSIP_INVITE_METHOD));
  a_notified : forall u, tsx_user t = Some u -> has_on_tsx_state u = true ->
    exists tr, trace t' =
      on_tsx_state (PJSIP_EVENT_TX_MSG d) (state t) PJSIP_TSX_STATE_COMPLETED :: tr /\
      sent_via (tp_id tp) (tdata_id d) ∈ tr
}.

Lemma completed_answered c tp d t t3 :
  status_code t3 = c -> (exists x, last_tx t3 = Some x /\ tdata_id x = tdata_id d) ->
  (running (retransmit_timer t3), running (timeout_timer t3)) =
    uas_final_timers c (is_invite t) (is_reliable t)
      (bool_decide (cseq_method d = PJSIP_INVITE_METHOD)) ->
  state t3 = state t -> tsx_user t3 = tsx_user t ->
  sent_via (tp_id tp) (tdata_id d) ∈ trace t3 ->
  answered c tp d t (tsx_set_state PJSIP_TSX_STATE_COMPLETED (PJSIP_EVENT_TX_MSG d) 0 t3).
Proof.
  intros Hc Hl Htm Hs Hu Htr. rewrite set_state_notified.
  destruct (notified_fields PJSIP_TSX_STATE_COMPLETED (PJSIP_EVENT_TX_MSG d) 0 t3) as [tr Heq].
  constructor; [rewrite Heq; done|rewrite Heq; done|rewrite Heq; done|].
  intros u Hu' Ht. rewrite <- Hu in Hu'. rewrite <- Hs. exists (trace t3). split; [|done].
  unfold notified, notify_rx. change (Z.land 0 NO_NOTIFY =? 0) with true. cbv iota.
  unfold notify_state. change (tsx_user (t3 <| state := _ |> <| state_handler := _ |>)) with (tsx_user t3).
  by rewrite Hu', Ht.
Qed.

(** [keep_last_tx] keeps a message with the address of [d]. *)
Lemma keep_last_tx_id d t :
  exists x tr, keep_last_tx d t = t <| last_tx := Some x |> <| trace := tr |> /\
    tdata_id x = tdata_id d /\ (tr = trace t \/ tr = tx_add_ref (tdata_id d) :: trace t).
Proof.
  unfold keep_last_tx. destruct (same_tdata (last_tx t) d) eqn:Hs.
  - destruct (last_tx t) as [x|] eqn:Hl; [|done]. cbn in Hs. apply Z.eqb_eq in Hs.
    exists x, (trace t). split; [|by auto]. destruct t. cbn in Hl. by subst.
  - exists d, (tx_add_ref (tdata_id d) :: trace t). split; [by destruct t|auto].
Qed.

(** Starting the retransmission timer or not, from a stopped one. *)
Lemma maybe_retransmit_shape (b : bool) v t :
  has_flag t TSX_HAS_PENDING_TRANSPORT = false -> running (retransmit_timer t) = None ->
  exists k e n, (if b then start_retransmit v t else t) =
    t <| retransmit_count := k |> <| retransmit_timer := e |> <| grp_lock_refs := n |> /\
    running e = if b then Some v else None.
Proof.
  intros Hf Hr. destruct b; [rewrite start_retransmit_now by done; by eexists _, _, _|].
  exists (retransmit_count t), (retransmit_timer t), (grp_lock_refs t). split; [by destruct t|done].
Qed.

Lemma sent_2xx_answered c tp d t :
  200 <= c < 300 -> status_code t = c -> (is_invite t = true -> handle_200resp t <> 0) ->
  has_flag t TSX_HAS_PENDING_TRANSPORT = false -> sent_via (tp_id tp) (tdata_id d) ∈ trace t ->
  answered c tp d t (proceeding_uas_sent d t).
Proof.
  intros Hrange Hc Hh Hf Htr. unfold proceeding_uas_sent. cbn zeta.
  change 100 with (100 * 1) at 1. change 200 with (100 * 2) at 1. rewrite Hc, !status_in_class by lia.
  assert ((100 * 1 <=? c) && (c <? 100 * 1 + 100) = false) as -> by lia.
  assert ((100 * 2 <=? c) && (c <? 100 * 2 + 100) = true) as -> by lia.
  destruct (cancel_timer_shape retransmit_entry t) as (e & n & -> & He).
  set (t1 := set_timer retransmit_entry e t <| grp_lock_refs := n |>).
  change (is_invite t1) with (is_invite t). change (handle_200resp t1) with (handle_200resp t).
  assert (is_invite t && (handle_200resp t =? 0) = false) as ->.
  { destruct (is_invite t) eqn:Hi; [|done]. apply Z.eqb_neq. by apply Hh. }
  destruct (maybe_retransmit_shape (is_invite t) t1_timer_val t1 Hf He) as (k & e2 & m & -> & He2).
  set (t2 := t1 <| retransmit_count := k |> <| retransmit_timer := e2 |> <| grp_lock_refs := m |>).
  destruct (keep_last_tx_id d t2) as (x & tr & -> & Hx & Htr2).
  edestruct restart_timeout_shape as [n3 ->]. apply completed_answered; try done.
  - by exists x.
  - etransitivity; [exact (f_equal2 pair He2 eq_refl)|]. unfold uas_final_timers.
    assert ((c <? 300) = true) as -> by lia. f_equal. 
    change (is_reliable (t2 <| last_tx := Some x |> <| trace := tr |>)) with (is_reliable t).
    change (is_invite (t2 <| last_tx := Some x |> <| trace := tr |>)) with (is_invite t).
    by destruct (is_invite t), (is_reliable t).
  - destruct Htr2 as [-> | ->]; [exact Htr|by right].
Qed.

(** The timeout of a 3xx-6xx response, as the code restarts it. *)
Lemma final_timeout_restart t :
  let t' := tsx_cancel_timer timeout_entry t in
  (if is_invite t' then tsx_schedule_timer timeout_entry timeout_timer_val TIMEOUT_TIMER t'
   else if negb (is_reliable t')
   then tsx_schedule_timer timeout_entry timeout_timer_val TIMEOUT_TIMER t'
   else tsx_schedule_timer timeout_entry zero_val TIMEOUT_TIMER t') =
  restart_timeout (if is_invite t || negb (is_reliable t) then timeout_timer_val else zero_val) t.
Proof.
  cbn zeta. unfold restart_timeout. destruct (cancel_timeout_shape t) as (e & n & -> & _).
  change (is_invite (t <| timeout_timer := e |> <| grp_lock_refs := n |>)) with (is_invite t).
  change (is_reliable (t <| timeout_timer := e |> <| grp_lock_refs := n |>)) with (is_reliable t).
  by destruct (is_invite t), (is_reliable t).
Qed.

Lemma sent_final_answered c tp d t :
  300 <= c -> status_code t = c ->
  has_flag t TSX_HAS_PENDING_TRANSPORT = false -> sent_via (tp_id tp) (tdata_id d) ∈ trace t ->
  answered c tp d t (proceeding_uas_sent d t).
Proof.
  intros Hrange Hc Hf Htr. unfold proceeding_uas_sent. cbn zeta.
  change 100 with (100 * 1) at 1. change 200 with (100 * 2) at 1. rewrite Hc, !status_in_class by lia.
  assert ((100 * 1 <=? c) && (c <? 100 * 1 + 100) = false) as -> by lia.
  assert ((100 * 2 <=? c) && (c <? 100 * 2 + 100) = false) as -> by lia.
  assert ((c >=? 300) = true) as -> by lia.
  destruct (cancel_timer_shape retransmit_entry t) as (e & n & -> & He).
  set (t1 := set_timer retransmit_entry e t <| grp_lock_refs := n |>).
  destruct (keep_last_tx_id d t1) as (x & tr & -> & Hx & Htr2).
  set (t2 := t1 <| last_tx := Some x |> <| trace := tr |>). rewrite (final_timeout_restart t2).
  edestruct restart_timeout_shape as [n3 ->].
  set (t3 := t2 <| timeout_timer := _ |> <| grp_lock_refs := n3 |>).
  change (is_reliable t3) with (is_reliable t).
  destruct (maybe_retransmit_shape (negb (is_reliable t) &&
    bool_decide (cseq_method d = PJSIP_INVITE_METHOD)) t1_timer_val t3 Hf He) as (k & e4 & m & -> & He4).
  apply completed_answered; try done.
  - by exists x.
  - etransitivity; [exact (f_equal2 pair He4 eq_refl)|]. unfold uas_final_timers.
    by assert ((c <? 300) = false) as -> by lia.
  - destruct Htr2 as [-> | ->]; [exact Htr|by right].
Qed.

Lemma answered_base c tp d t t0 t' :
  answered c tp d t0 t' -> is_invite t0 = is_invite t -> is_reliable t0 = is_reliable t ->
  tsx_user t0 = tsx_user t -> state t0 = state t -> answered c tp d t t'.
Proof. intros [H1 H2 H3 H4] Hi Hr Hu Hs. constructor; rewrite <- ?Hi, <- ?Hr, <- ?Hu, <- ?Hs; done. Qed.

Lemma respond_final c tp d t :
  200 <= c -> msg d = PJSIP_RESPONSE_MSG c -> sends_now t tp d ->
  (c < 300 -> is_invite t = true -> handle_200resp t <> 0) ->
  exists t', tsx_on_state_proceeding_uas (PJSIP_EVENT_TX_MSG d) t = (t', PJ_SUCCESS) /\
    answered c tp d t t'.
Proof.
  intros Hc Hd (Htp & Hf & Hp) Hh. cbn [tsx_on_state_proceeding_uas]. rewrite Hd. cbn zeta.
  destruct (discard_shape d (tsx_set_status_code c t)) as (x & tr & -> & _).
  set (t1 := (tsx_set_status_code c t) <| last_tx := x |> <| trace := tr |>).
  rewrite (send_now d tp t1 Htp Hf); [|apply Hp..].
  change (negb (PJ_SUCCESS =? PJ_SUCCESS)) with false. cbv iota.
  set (t2 := t1 <| transport_flag := _ |> <| trace ::= _ |>). eexists. split; [reflexivity|].
  assert (has_flag t2 TSX_HAS_PENDING_TRANSPORT = false) as Hf2.
  { unfold has_flag. change (transport_flag t2) with
      (Z.land (Z.lor (transport_flag t) TSX_HAS_PENDING_TRANSPORT) (Z.lnot TSX_HAS_PENDING_TRANSPORT)).
    exact (has_clear_flag 0 0 (set_flag (2 ^ 0) t) ltac:(done) ltac:(done)). }
  apply (answered_base c tp d t t2); try done. destruct (Z_lt_le_dec c 300).
  - apply sent_2xx_answered; try done; [by auto|by left].
  - apply sent_final_answered; try done. by left.
Qed.

(** A server transaction whose user sends a final response, when its
    transport takes the message: the response goes out and is kept for
    retransmission, the state is Completed with its code, and the timers are
    those of RFC 3261: G (first interval T1) for a 2xx to an INVITE and for a
    300-699 to one on an unreliable transport, H or J for the end, J being zero
    on a reliable transport; the user is told of the change of state after the
    response was handed to the transport. A 2xx to an INVITE is left out when
    [handle_200resp] is off. *)
Lemma tsx_final_answer_spec t c d tp :
  env_sane -> tsx_reachable t -> role t = PJSIP_ROLE_UAS ->
  state t = PJSIP_TSX_STATE_TRYING \/ state t = PJSIP_TSX_STATE_PROCEEDING ->
  200 <= c -> msg d = PJSIP_RESPONSE_MSG c -> sends_now t tp d ->
  (c < 300 -> is_invite t = true -> handle_200resp t <> 0) ->
  exists t', pjsip_tsx_send_msg (Some d) t = Some (emit (tx_dec_ref (tdata_id d)) t', PJ_SUCCESS) /\
    answered c tp d t t'.
Proof.
  intros Hsane Hreach Hr Hs Hc Hd Hnow Hh. pose proof (tsx_run_wf t Hsane Hreach) as [Hw _].
  destruct (respond_final c tp d t Hc Hd Hnow Hh) as (t' & Heq & Ha). exists t'. split; [|done].
  unfold pjsip_tsx_send_msg, call_handler. rewrite (b_handler _ Hw), Hr.
  destruct Hs as [Hs|Hs]; rewrite Hs; cbn [handler_of tsx_state_handler_uas]; [|by rewrite Heq].
  cbn [tsx_on_state_trying]. rewrite Heq. destruct Ha as [[Hst _] _ _ _]. by rewrite Hst.
Qed.

(** ** Retransmission *)

(** The interval before the next retransmission: T1 doubled each time, T2 at
    most for a request other than INVITE and for a response, T2 once a client
    has a provisional response, a minute for a provisional response. *)
Definition retransmit_interval (t : pjsip_transaction) : Z :=
  let doubled := t1 cfg * 2 ^ retransmit_count t in
  match role t with
  | PJSIP_ROLE_UAC =>
      if status_code t >=? 100 then t2 cfg
      else if is_invite t then doubled else Z.min doubled (t2 cfg)
  | PJSIP_ROLE_UAS => if status_code t <? 200 then 60000 else Z.min doubled (t2 cfg)
  end.

Lemma resched_spec t :
  0 <= retransmit_count t -> 0 < t1 cfg -> t1 cfg * 2 ^ retransmit_count t < 2 ^ 32 -> 0 < t2 cfg ->
  running (retransmit_timer t) = None ->
  tsx_resched_retransmission t =
    t <| retransmit_timer := TimerEntry RETRANSMIT_TIMER (Some (msec_val (retransmit_interval t))) |>
      <| grp_lock_refs := 1 + grp_lock_refs t |>.
Proof.
  intros Hn H1 Hlt H2 Hr. change (2 ^ 32) with 4294967296 in Hlt. unfold tsx_resched_retransmission. cbn zeta.
  rewrite Z.shiftl_1_l, (Z.mul_comm (2 ^ _)).
  assert (0 < 2 ^ retransmit_count t) by (apply Z.pow_pos_nonneg; lia).
  rewrite (u32_small (t1 cfg * _)) by (split; [apply Z.mul_nonneg_nonneg; lia|exact Hlt]).
  set (ms := match role t with PJSIP_ROLE_UAC => _ | PJSIP_ROLE_UAS => _ end).
  assert (ms = retransmit_interval t) as ->.
  { subst ms. unfold retransmit_interval, is_invite. cbn zeta.
    change (PJSIP_TSX_1XX_RETRANS_DELAY * 1000) with 60000.
    destruct (role t); case_bool_decide; try done;
      destruct (status_code t >=? 100), (status_code t <? 200); cbn [andb negb];
      repeat case_bool_decide; repeat case_match; try done; lia. }
  assert (0 < retransmit_interval t) as Hpos.
  { assert (0 < t1 cfg * 2 ^ retransmit_count t) by (apply Z.mul_pos_pos; lia).
    unfold retransmit_interval. cbn zeta. repeat case_match; lia. }
  assert ((retransmit_interval t =? 0) = false) as -> by lia. cbn [negb].
  unfold tsx_schedule_timer. assert (pj_timer_entry_running (get_timer retransmit_entry t) = false) as ->.
  { unfold pj_timer_entry_running. apply bool_decide_eq_false. intros [x Hx].
    change (running (retransmit_timer t) = Some x) in Hx. congruence. }
  by destruct t.
Qed.

Lemma msec_val_msec ms : PJ_TIME_VAL_MSEC (msec_val ms) = ms.
Proof. unfold PJ_TIME_VAL_MSEC, msec_val. cbn. Z.to_euclidean_division_equations. lia. Qed.

(** A retransmission whose transport takes the message sends the last
    message again, counts it, and arms the retransmission timer with the next
    interval of RFC 3261 (doubling from T1, capped at T2 where the RFC caps it;
    no overflow below 2^32 milliseconds); the machine does not move. *)
Lemma tsx_retransmit_spec t d tp :
  last_tx t = Some d -> sends_now t tp d -> running (retransmit_timer t) = None ->
  0 <= retransmit_count t -> 0 < t1 cfg -> t1 cfg * 2 ^ (retransmit_count t + 1) < 2 ^ 32 ->
  0 < t2 cfg ->
  let t' := (tsx_retransmit true t).1 in
  (tsx_retransmit true t).2 = PJ_SUCCESS /\
  trace t' = sent_via (tp_id tp) (tdata_id d) :: trace t /\
  retransmit_count t' = retransmit_count t + 1 /\
  (exists v, retransmit_timer t' = TimerEntry RETRANSMIT_TIMER (Some v) /\
     PJ_TIME_VAL_MSEC v = retransmit_interval (t <| retransmit_count ::= Z.add 1 |>)) /\
  state t' = state t /\ status_code t' = status_code t /\ timeout_timer t' = timeout_timer t.
Proof.
  intros Hl (Htp & Hf & Hp) Hr Hn H1 Hlt H2. cbn zeta. unfold tsx_retransmit. rewrite Hl.
  assert (pj_timer_entry_running (retransmit_timer t) = false) as ->.
  { unfold pj_timer_entry_running. apply bool_decide_eq_false. rewrite Hr. by intros []. }
  cbn [andb]. cbn zeta. set (ta := t <| retransmit_count ::= Z.add 1 |>).
  change (has_flag ta TSX_HAS_PENDING_TRANSPORT) with (has_flag t TSX_HAS_PENDING_TRANSPORT). rewrite Hf.
  assert (retransmit_count ta = retransmit_count t + 1) as Hc by (change (1 + retransmit_count t = retransmit_count t + 1); lia).
  rewrite (resched_spec ta); rewrite ?Hc; try done; [|lia].
  set (tb := ta <| retransmit_timer := _ |> <| grp_lock_refs := _ |>).
  rewrite (send_now d tp tb Htp Hf); [|apply Hp..]. split; [done|]. split; [done|].
  split; [exact Hc|]. split; [|done].
  exists (msec_val (retransmit_interval ta)). split; [done|]. apply msec_val_msec.
Qed.

(** ** The depth of a send *)

Lemma update_transport_flag tp t : transport_flag (tsx_update_transport tp t) = transport_flag t.
Proof.
  unfold tsx_update_transport. cbn zeta.
  set (ta := match transport t with Some _ => _ | None => t end).
  assert (transport_flag ta = transport_flag t) as <-.
  { subst ta. destruct (transport t); [|done]. by destruct (tp_st_key t). }
  destruct tp as [tp|]; [|done]. destruct (is_shutdown tp); [|done].
  unfold tsx_tp_state_callback. destruct (_ <s _); [|done].
  unfold tsx_schedule_timer, tsx_cancel_timer. by repeat case_match.
Qed.

Lemma send_on_transport_resolved d t :
  has_flag (send_on_transport d t).1.1 TSX_HAS_RESOLVED_SERVER = has_flag t TSX_HAS_RESOLVED_SERVER.
Proof.
  unfold send_on_transport. destruct (transport t) as [tp|]; [|done]. cbn zeta.
  set (ta := emit _ _). assert (has_flag ta TSX_HAS_RESOLVED_SERVER = has_flag t TSX_HAS_RESOLVED_SERVER) as Ha
    by exact (has_set_flag 0 4 (pj_grp_lock_add_ref t) ltac:(done) ltac:(done)).
  assert (has_flag (clear_flag TSX_HAS_PENDING_TRANSPORT ta) TSX_HAS_RESOLVED_SERVER =
          has_flag t TSX_HAS_RESOLVED_SERVER) as Hb
    by (rewrite <- Ha; exact (has_clear_flag 0 4 ta ltac:(done) ltac:(done))).
  set (st := pjsip_transport_send _ _ _). destruct (st =? PJ_EPENDING).
  { change (negb (PJ_SUCCESS =? PJ_SUCCESS)) with false. cbn [fst]. exact Ha. }
  destruct (negb (st =? PJ_SUCCESS)); cbn [fst]; [|exact Hb].
  rewrite <- Hb. set (tb := pj_grp_lock_dec_ref _).
  pose proof (update_transport_flag None tb) as Hfl. unfold has_flag.
  change (transport_flag ((tsx_update_transport None tb) <| res_addr_transport := None |>))
    with (transport_flag (tsx_update_transport None tb)). by rewrite Hfl.
Qed.

(** With the server resolved a send never reaches the resolver. *)
Lemma depth_resolved n m d t : has_flag t TSX_HAS_RESOLVED_SERVER = true ->
  tsx_send_msg_depth n d t = tsx_send_msg_depth m d t.
Proof.
  intros Hres. pose proof (send_on_transport_resolved d t) as Hs. rewrite Hres in Hs.
  destruct n, m; cbn [tsx_send_msg_depth].
  all: destruct (has_flag t TSX_HAS_PENDING_TRANSPORT); [reflexivity|].
  all: destruct (is_pending t d); [reflexivity|].
  all: destruct (send_on_transport d t) as [[ta st] []]; [reflexivity|].
  all: cbn [fst] in Hs; rewrite Hs; reflexivity.
Qed.

Lemma callback_depth n m d o t :
  send_msg_callback (tsx_send_msg_depth n) d t o = send_msg_callback (tsx_send_msg_depth m) d t o.
Proof.
  unfold send_msg_callback. cbn zeta. destruct (_ || _); [reflexivity|].
  destruct (sent o >? 0); [|reflexivity]. unfold callback_sent. cbn zeta.
  set (ta := set_flag TSX_HAS_RESOLVED_SERVER _).
  destruct (has_flag ta TSX_HAS_PENDING_DESTROY); [reflexivity|].
  destruct (has_flag ta TSX_HAS_PENDING_SEND); [|reflexivity].
  set (tb := clear_flag TSX_HAS_PENDING_SEND ta). destruct (last_tx tb) as [x|]; [|reflexivity].
  rewrite (depth_resolved n m x tb); [reflexivity|].
  transitivity (has_flag ta TSX_HAS_RESOLVED_SERVER);
    [exact (has_clear_flag 2 4 ta ltac:(done) ltac:(done))|].
  subst ta. set (tc := clear_flag _ _).
  exact (has_set_flag 4 4 tc ltac:(done) ltac:(done)).
Qed.

(** A send ends: the resolver is entered at most once, however its
    callbacks call back into the send, so one level of nesting is enough and
    any deeper bound gives the same result. *)
Lemma tsx_send_msg_terminates n d t :
  (1 <= n)%nat -> tsx_send_msg_depth n d t = tsx_send_msg d t.
Proof.
  intros Hn. destruct n as [|n]; [lia|]. unfold tsx_send_msg. cbn [tsx_send_msg_depth].
  destruct (has_flag t TSX_HAS_PENDING_TRANSPORT); [reflexivity|].
  destruct (is_pending t d); [reflexivity|].
  destruct (send_on_transport d t) as [[ta st] []]; [reflexivity|].
  destruct (has_flag ta TSX_HAS_RESOLVED_SERVER); [reflexivity|].
  unfold send_resolving. cbn zeta. set (tb := set_flag _ _).
  destruct (if is_request d then _ else _) as [cbs status].
  assert (forall l x, fold_left (send_msg_callback (tsx_send_msg_depth n) d) l x =
    fold_left (send_msg_callback (tsx_send_msg_depth 0) d) l x) as ->; [|reflexivity].
  induction l as [|o l IH]; intros x; [reflexivity|]. cbn. by rewrite IH, (callback_depth n 0).
Qed.

(** A send the resolver refuses at once reports its error, leaves the
    machine where it was and gives the message back (its reference and its
    owner), with the transaction still marked as waiting for a transport. The
    reference on the group lock taken for the send is dropped for a request and
    kept for a response, so that a server transaction whose response was
    refused is never freed. *)
Lemma tsx_send_refused_spec d t err :
  transport t = None -> has_flag t TSX_HAS_PENDING_TRANSPORT = false ->
  has_flag t TSX_HAS_RESOLVED_SERVER = false -> is_pending t d = false ->
  err <> PJ_SUCCESS -> err <> PJ_EPENDING ->
  (forall t', (if is_request d then pjsip_endpt_send_request_stateless t' d
               else pjsip_endpt_send_response t' d) = ([], err)) ->
  let t' := (tsx_send_msg d t).1 in
  (tsx_send_msg d t).2 = err /\ state t' = state t /\ last_tx t' = last_tx t /\
  pending_tx t' = None /\ (tdata_id d ∉ mod_data t') /\
  trace t' = [tx_dec_ref (tdata_id d); sent_stateless (tdata_id d); tx_add_ref (tdata_id d)] ++ trace t /\
  has_flag t' TSX_HAS_PENDING_TRANSPORT = true /\
  grp_lock_refs t' = if is_request d then grp_lock_refs t else grp_lock_refs t + 1.
Proof.
  intros Htp Hf Hres Hp Hne1 Hne2 Hrf. cbn zeta. unfold tsx_send_msg. cbn [tsx_send_msg_depth].
  rewrite Hf, Hp. unfold send_on_transport. rewrite Htp. cbn iota. rewrite Hres.
  unfold send_resolving. cbn zeta. rewrite Hrf. cbn [fold_left].
  assert ((err =? PJ_EPENDING) = false) as -> by lia. assert ((err =? PJ_SUCCESS) = false) as -> by lia.
  cbn [negb andb fst snd].
  split; [done|]. destruct (is_request d).
  all: split; [done|]; split; [done|]; split; [done|]; split; [set_solver|]; split; [done|].
  all: split; [exact (has_set_flag 0 0 t ltac:(done) ltac:(done))|].
  all: unfold pj_grp_lock_dec_ref, pj_grp_lock_add_ref, detach, attach, emit, set_flag; destruct t; cbn -[Z.add Z.sub]; lia.
Qed.

(** A send that was left pending reports its end: the transaction no longer
    waits for the transport, and its reference on the group lock is dropped. If
    it failed before Completed, the error is posted to the timeout timer, which
    then fires at once; from Completed on the timeout is left alone. What the
    transaction had put off until then, a retransmission to schedule or a
    message to send, stays put off: neither flag is looked at. *)
Lemma tsx_transport_callback_spec sent t :
  let t' := transport_callback t sent in
  has_flag t' TSX_HAS_PENDING_TRANSPORT = false /\
  (sent < 0 -> state_num (state t) < state_num PJSIP_TSX_STATE_COMPLETED ->
     timeout_timer t' = TimerEntry TRANSPORT_ERR_TIMER (Some zero_val)) /\
  (0 <= sent \/ state_num PJSIP_TSX_STATE_COMPLETED <= state_num (state t) ->
     timeout_timer t' = timeout_timer t /\ grp_lock_refs t' = grp_lock_refs t - 1) /\
  transport_err t' = (if sent <? 0 then - sent else transport_err t) /\
  state t' = state t /\ retransmit_timer t' = retransmit_timer t /\ trace t' = trace t /\
  has_flag t' TSX_HAS_PENDING_RESCHED = has_flag t TSX_HAS_PENDING_RESCHED /\
  has_flag t' TSX_HAS_PENDING_SEND = has_flag t TSX_HAS_PENDING_SEND.
Proof.
  cbn zeta. unfold transport_callback. cbn zeta. set (ta := clear_flag _ t).
  assert (has_flag ta TSX_HAS_PENDING_TRANSPORT = false /\
    has_flag ta TSX_HAS_PENDING_RESCHED = has_flag t TSX_HAS_PENDING_RESCHED /\
    has_flag ta TSX_HAS_PENDING_SEND = has_flag t TSX_HAS_PENDING_SEND) as (H0 & H1 & H2).
  { split; [exact (has_clear_flag 0 0 t ltac:(done) ltac:(done))|].
    split; [exact (has_clear_flag 0 1 t ltac:(done) ltac:(done))|
            exact (has_clear_flag 0 2 t ltac:(done) ltac:(done))]. }
  destruct (Z.ltb_spec sent 0) as [Hneg|Hpos].
  - set (tb := ta <| transport_err := - sent |>).
    change (state tb) with (state t).
    destruct (Z.ltb_spec (state_num (state t)) (state_num PJSIP_TSX_STATE_COMPLETED)) as [Hs|Hs].
    + pose proof (restart_any_timeout zero_val TRANSPORT_ERR_TIMER tb) as Hto.
      set (tc := tsx_schedule_timer _ _ _ _) in *.
      assert (transport_flag tc = transport_flag ta /\ state tc = state t /\
        retransmit_timer tc = retransmit_timer t /\ trace tc = trace t /\ transport_err tc = - sent)
        as (Hfl & Hst & Hrt & Htr & Hte).
      { subst tc. unfold tsx_schedule_timer, tsx_cancel_timer. by repeat case_match. }
      assert (forall f, has_flag (pj_grp_lock_dec_ref tc) f = has_flag ta f) as Hfa
        by (intros f; unfold has_flag; by rewrite <- Hfl).
      rewrite !Hfa. split; [done|]. split; [intros _ _; exact Hto|].
      split; [intros [?|?]; lia|]. done.
    + split; [exact H0|]. split; [lia|]. done.
  - split; [exact H0|]. split; [lia|]. done.
Qed.

End Guarantees.

(** ** A concrete endpoint

    UDP, a resolver that sends at once, default timers; a client INVITE and a
    server INVITE transaction. *)

Definition udp : pjsip_transport := Transport 7 false false.
Definition invite_req : pjsip_tx_data :=
  TxData 1 (PJSIP_REQUEST_MSG PJSIP_INVITE_METHOD) PJSIP_INVITE_METHOD.
Definition ack_req : pjsip_tx_data :=
  TxData 2 (PJSIP_REQUEST_MSG PJSIP_ACK_METHOD) PJSIP_ACK_METHOD.
Definition busy_resp : pjsip_tx_data := TxData 3 (PJSIP_RESPONSE_MSG 486) PJSIP_INVITE_METHOD.
Definition user : pjsip_module := TsxUser true true.

Definition env_udp : TsxEnv := {|
  cfg := TsxCfg 500 4000 5000 32000;
  pjsip_transport_send _ _ _ := PJ_SUCCESS;
  pjsip_endpt_send_request_stateless _ _ := ([SendOutcome 100 (Some udp) true], PJ_SUCCESS);
  pjsip_endpt_send_response _ _ := ([SendOutcome 100 (Some udp) true], PJ_SUCCESS);
  pjsip_endpt_create_ack _ _ := inl ack_req;
  is_pending _ _ := false
|}.

(** A resolver that refuses every message. *)
Definition env_down : TsxEnv := {|
  cfg := TsxCfg 500 4000 5000 32000;
  pjsip_transport_send _ _ _ := PJ_EINVAL;
  pjsip_endpt_send_request_stateless _ _ := ([], PJ_ERESOLVE);
  pjsip_endpt_send_response _ _ := ([], PJ_ERESOLVE);
  pjsip_endpt_create_ack _ _ := inl ack_req;
  is_pending _ _ := false
|}.

Definition uac_created : pjsip_transaction :=
  match pjsip_tsx_create_uac2 (Some user) invite_req false 0 with
  | inl t => t
  | inr _ => tsx_create None PJSIP_ROLE_UAC PJSIP_INVITE_METHOD 0
  end.
Definition uas_created : pjsip_transaction :=
  match pjsip_tsx_create_uas2 (Some user) (PJSIP_REQUEST_MSG PJSIP_INVITE_METHOD) (Some udp) false 0 with
  | inl t => t
  | inr _ => tsx_create None PJSIP_ROLE_UAS PJSIP_INVITE_METHOD 0
  end.

Definition after (E : TsxEnv) (evs : list tsx_event) (t : pjsip_transaction) : pjsip_transaction :=
  fold_left (fun t ev => default t (tsx_step ev t)) evs t.

Definition uac_calling : pjsip_transaction := after env_udp [ev_send invite_req] uac_created.
Definition uas_trying : pjsip_transaction :=
  after env_udp [ev_recv (PJSIP_REQUEST_MSG PJSIP_INVITE_METHOD)] uas_created.

Definition is_sending (a : action) : bool :=
  match a with sent_via _ _ | sent_stateless _ => true | _ => false end.

(** The dialogue of a refused call: INVITE, one retransmission, 486, ACK. *)
Example refused_call :
  let t := after env_udp [ev_send invite_req; ev_timer retransmit_entry;
    ev_recv (PJSIP_RESPONSE_MSG 180); ev_recv (PJSIP_RESPONSE_MSG 486);
    ev_recv (PJSIP_RESPONSE_MSG 486)] uac_created in
  state t = PJSIP_TSX_STATE_COMPLETED /\
  timeout_timer t = TimerEntry TIMEOUT_TIMER (Some (TV 32 0)) /\
  List.filter is_sending (trace t) =
    [sent_via 7 2; sent_via 7 2; sent_via 7 1; sent_stateless 1].
Proof. vm_compute. repeat split. Qed.

Lemma env_udp_sane : @env_sane env_udp.
Proof. intros t d o [H|H]; cbn in H; apply list_elem_of_singleton in H; by subst. Qed.
Lemma env_udp_accepts : @env_accepts env_udp.
Proof. split; [|split]; cbn; [by left..|intros; by eexists]. Qed.

Lemma uac_calling_reachable : @tsx_reachable env_udp uac_calling.
Proof.
  apply (@reach_step env_udp (ev_send invite_req) uac_created).
  - apply reach_created, (created_uac (Some user) invite_req false 0). reflexivity.
  - intros H. vm_compute in H. discriminate H.
  - vm_compute. reflexivity.
Qed.

Lemma uas_trying_reachable : @tsx_reachable env_udp uas_trying.
Proof.
  apply (@reach_step env_udp (ev_recv (PJSIP_REQUEST_MSG PJSIP_INVITE_METHOD)) uas_created).
  - apply reach_created, (created_uas (Some user) (PJSIP_REQUEST_MSG PJSIP_INVITE_METHOD) (Some udp) false 0).
    vm_compute. reflexivity.
  - vm_compute. reflexivity.
  - vm_compute. reflexivity.
Qed.

Lemma tsx_reachable_wf_witness :
  wf_basic uac_calling /\
  forall ev, event_ok ev uac_calling -> is_Some (@tsx_step env_udp ev uac_calling).
Proof. exact (@tsx_reachable_wf env_udp uac_calling env_udp_sane uac_calling_reachable). Defined.

Lemma tsx_refines_rfc3261_witness :
  let t' := after env_udp [ev_recv (PJSIP_RESPONSE_MSG 180)] uac_calling in
  state t' = PJSIP_TSX_STATE_PROCEEDING /\
  rfc_edge PJSIP_ROLE_UAC true 1 PJSIP_TSX_STATE_CALLING (ev_recv (PJSIP_RESPONSE_MSG 180)) 180
    PJSIP_TSX_STATE_PROCEEDING.
Proof.
  split; [vm_compute; reflexivity|].
  destruct (@tsx_refines_rfc3261 env_udp (ev_recv (PJSIP_RESPONSE_MSG 180)) uac_calling
    (after env_udp [ev_recv (PJSIP_RESPONSE_MSG 180)] uac_calling) env_udp_sane uac_calling_reachable)
    as [[H|H] _].
  - vm_compute. split; [reflexivity|split; [discriminate|reflexivity]].
  - vm_compute. reflexivity.
  - vm_compute in H. discriminate H.
  - vm_compute in H |- *. exact H.
Defined.

Lemma tsx_timeout_destroys_witness :
  exists t1 t2,
    (t1 = uac_calling \/ @tsx_step env_udp (ev_timer timeout_entry) uac_calling = Some t1) /\
    state t1 = PJSIP_TSX_STATE_TERMINATED /\
    @tsx_step env_udp (ev_timer timeout_entry) t1 = Some t2 /\ released t2.
Proof.
  exact (@tsx_timeout_destroys env_udp uac_calling env_udp_sane env_udp_accepts
    uac_calling_reachable ltac:(vm_compute; reflexivity)).
Defined.

Lemma tsx_invite_failure_spec_witness :
  exists t', @tsx_step env_udp (ev_recv (PJSIP_RESPONSE_MSG 486)) uac_calling = Some t' /\
    @failed env_udp 486 udp ack_req uac_calling t'.
Proof.
  apply (@tsx_invite_failure_spec env_udp uac_calling 486 udp ack_req env_udp_sane
    uac_calling_reachable); [vm_compute; reflexivity|vm_compute; reflexivity|left; vm_compute; reflexivity|lia| |vm_compute; reflexivity].
  split; [vm_compute; reflexivity|]. split; [vm_compute; reflexivity|]. intros t'. split; reflexivity.
Defined.

Lemma tsx_final_answer_spec_witness :
  exists t', @pjsip_tsx_send_msg env_udp (Some busy_resp) uas_trying =
      Some (emit (tx_dec_ref 3) t', PJ_SUCCESS) /\
    @answered env_udp 486 udp busy_resp uas_trying t'.
Proof.
  apply (@tsx_final_answer_spec env_udp uas_trying 486 busy_resp udp env_udp_sane
    uas_trying_reachable); [vm_compute; reflexivity|left; vm_compute; reflexivity|lia|vm_compute; reflexivity| |lia].
  split; [vm_compute; reflexivity|]. split; [vm_compute; reflexivity|]. intros t'. split; reflexivity.
Defined.

Lemma tsx_retransmit_spec_witness :
  let t := uac_calling <| retransmit_timer := TimerEntry 0 None |> in
  retransmit_count (@tsx_retransmit env_udp true t).1 = 1 /\
  PJ_TIME_VAL_MSEC (default (TV 0 0) (running (retransmit_timer (@tsx_retransmit env_udp true t).1))) = 1000.
Proof.
  intros t. destruct (@tsx_retransmit_spec env_udp t invite_req udp) as (_ & _ & Hc & (v & Hv & Hms) & _).
  - vm_compute. reflexivity.
  - split; [vm_compute; reflexivity|]. split; [vm_compute; reflexivity|]. intros t'. split; reflexivity.
  - vm_compute. reflexivity.
  - vm_compute. discriminate.
  - vm_compute. reflexivity.
  - vm_compute. reflexivity.
  - vm_compute. reflexivity.
  - rewrite Hv. split; [exact Hc|exact Hms].
Defined.

Lemma tsx_send_msg_terminates_witness :
  @tsx_send_msg_depth env_udp 5 invite_req uac_created = @tsx_send_msg env_udp invite_req uac_created.
Proof. apply (@tsx_send_msg_terminates env_udp 5). lia. Defined.

Lemma tsx_send_refused_spec_witness :
  grp_lock_refs (@tsx_send_msg env_down busy_resp (tsx_create None PJSIP_ROLE_UAS PJSIP_INVITE_METHOD 0)).1 = 2 /\
  grp_lock_refs (@tsx_send_msg env_down invite_req (tsx_create None PJSIP_ROLE_UAC PJSIP_INVITE_METHOD 0)).1 = 1.
Proof.
  split.
  - destruct (@tsx_send_refused_spec env_down busy_resp
      (tsx_create None PJSIP_ROLE_UAS PJSIP_INVITE_METHOD 0) PJ_ERESOLVE) as (_&_&_&_&_&_&_&H);
      [reflexivity..|discriminate|discriminate|reflexivity|exact H].
  - destruct (@tsx_send_refused_spec env_down invite_req
      (tsx_create None PJSIP_ROLE_UAC PJSIP_INVITE_METHOD 0) PJ_ERESOLVE) as (_&_&_&_&_&_&_&H);
      [reflexivity..|discriminate|discriminate|reflexivity|exact H].
Defined.
