(* ===== verification/TsxKey.v ===== *)
(** * Keys of SIP transactions (pjsip/src/pjsip/sip_transaction.c)

    The key under which a transaction is registered and searched: the branch of
    the top Via for messages of RFC 3261, several headers of the message for
    those of RFC 2543.  A received message is reduced to the headers a key
    reads; an absent header is [None].  Pool memory is unlimited: a key is the
    bytes written to its buffer, whose size is computed beside it.  The matching
    rules of RFC 3261 are stated apart from the keys and compared with them. *)

From stdpp Require Import gmap list.
From S2P Require Import Prelude PjString Hash Transaction.
Set Warnings "-clear-no-such-hyp".

Definition PJSIP_EMISSINGHDR : Z := 171050.

Definition SEPARATOR : Z := 36.

(** "z9hG4bK" *)
Definition PJSIP_RFC3261_BRANCH_ID : list Z := [122; 57; 104; 71; 52; 98; 75].
Definition PJSIP_RFC3261_BRANCH_LEN : Z := 7.

Record pjsip_method := Method { method_id : pjsip_method_e; method_name : list Z }.

Record pjsip_via_hdr := Via { branch_param : list Z; via_host : list Z; via_port : Z }.
Record pjsip_cseq_hdr := CSeq { cseq_num : Z; cseq_hdr_method : pjsip_method }.

Record pjsip_rx_data := RxData {
  rx_msg : pjsip_msg;
  rx_via : option pjsip_via_hdr;
  rx_cseq : option pjsip_cseq_hdr;
  rx_from_tag : option (list Z);
  rx_cid : list Z
}.

Definition role_char (role : pjsip_role_e) : Z :=
  match role with PJSIP_ROLE_UAC => 99 | PJSIP_ROLE_UAS => 115 end.

(** The method, except when it is INVITE or ACK. *)
Definition method_part (m : pjsip_method) : list Z :=
  if bool_decide (method_id m <> PJSIP_INVITE_METHOD) &&
     bool_decide (method_id m <> PJSIP_ACK_METHOD)
  then method_name m ++ [SEPARATOR] else [].

Definition create_tsx_key_3261 (role : pjsip_role_e) (m : pjsip_method) (branch : list Z) : list Z :=
  [role_char role; SEPARATOR] ++ method_part m ++ branch.

(** The size of the buffer allocated for it. *)
Definition key_3261_size (m : pjsip_method) (branch : list Z) : Z :=
  zlen branch + zlen (method_name m) + 4.

(** [pj_utoa] takes an [unsigned long]. *)
Definition key_2543 (role : pjsip_role_e) (m : pjsip_method) (cseq : Z) (from_tag cid host : list Z)
    (port : Z) : list Z :=
  [role_char role; SEPARATOR] ++ method_part m ++
  pj_utoa (u64 cseq) ++ [SEPARATOR] ++ from_tag ++ [SEPARATOR] ++ cid ++ [SEPARATOR] ++
  host ++ [58] ++ pj_utoa (u64 port) ++ [SEPARATOR] ++ [0].

Definition key_2543_size (m : pjsip_method) (from_tag cid host : list Z) : Z :=
  zlen (method_name m) + 11 + zlen from_tag + zlen cid + zlen host + 11 + 16.

Definition create_tsx_key_2543 (role : pjsip_role_e) (m : pjsip_method) (rdata : pjsip_rx_data) :
    list Z + Z :=
  match rx_via rdata, rx_cseq rdata, rx_from_tag rdata with
  | Some via, Some cseq, Some tag =>
      inl (key_2543 role m (cseq_num cseq) tag (rx_cid rdata) (via_host via) (via_port via))
  | _, _, _ => inr PJSIP_EMISSINGHDR
  end.

Definition is_rfc3261 (branch : list Z) : bool :=
  pj_strnicmp branch PJSIP_RFC3261_BRANCH_ID PJSIP_RFC3261_BRANCH_LEN =? 0.

(** [None] is a null [via] the function dereferences. *)
Definition pjsip_tsx_create_key (role : pjsip_role_e) (m : pjsip_method) (rdata : pjsip_rx_data) :
    option (list Z + Z) :=
  match rx_via rdata with
  | None => None
  | Some via =>
      Some (if is_rfc3261 (branch_param via)
            then inl (create_tsx_key_3261 role m (branch_param via))
            else create_tsx_key_2543 role m rdata)
  end.

Definition pjsip_method_cmp (m1 m2 : pjsip_method) : Z :=
  let n m := match method_id m with
             | PJSIP_INVITE_METHOD => 0 | PJSIP_CANCEL_METHOD => 1 | PJSIP_ACK_METHOD => 2
             | PJSIP_BYE_METHOD => 3 | PJSIP_REGISTER_METHOD => 4 | PJSIP_OPTIONS_METHOD => 5
             | PJSIP_OTHER_METHOD => 6 end in
  if n m1 =? n m2 then
    if negb (n m1 =? 6) then 0 else pj_strcmp (method_name m1) (method_name m2)
  else if n m1 <? n m2 then -1 else 1.

(** ** The size of a key *)

Lemma method_part_length m : zlen (method_part m) <= zlen (method_name m) + 1.
Proof.
  unfold method_part. case_match; [rewrite zlen_app; by cbn|].
  pose proof (zlen_nonneg (method_name m)). unfold zlen at 1. cbn. lia.
Qed.

(** No key overflows its buffer, with any CSeq number and every port the
    parser accepts; the allowance covers the 20 digits a negative CSeq number
    takes when it is printed as an [unsigned long]. *)
Lemma tsx_key_in_bounds role m branch cseq tag cid host port :
  is_s32 cseq -> is_u16 port ->
  zlen (create_tsx_key_3261 role m branch) <= key_3261_size m branch /\
  zlen (key_2543 role m cseq tag cid host port) <= key_2543_size m tag cid host.
Proof.
  intros Hc Hp. pose proof (method_part_length m).
  unfold create_tsx_key_3261, key_3261_size, key_2543, key_2543_size.
  repeat first [rewrite zlen_app | rewrite zlen_cons].
  change (zlen ([] : list Z)) with 0.

  assert (zlen (pj_utoa (u64 cseq)) <= 20).
  { apply (utoa_length _ 20); [lia|apply Z.mod_pos_bound; lia|].
    transitivity (2 ^ 64); [apply Z.mod_pos_bound; lia|done]. }
  assert (zlen (pj_utoa (u64 port)) <= 5).
  { unfold is_u16 in Hp. apply (utoa_length _ 5); [lia|apply Z.mod_pos_bound; lia|].
    unfold u64. rewrite Z.mod_small; lia. }
  lia.
Qed.

Lemma tsx_key_in_bounds_witness :
  zlen (key_2543 PJSIP_ROLE_UAS (Method PJSIP_OTHER_METHOD [88]) (-1) [] [] [] 65535) = 35 /\
  zlen (key_2543 PJSIP_ROLE_UAS (Method PJSIP_OTHER_METHOD [88]) (-1) [] [] [] 65535) <=
    key_2543_size (Method PJSIP_OTHER_METHOD [88]) [] [] [].
Proof.
  split; [vm_compute; reflexivity|].
  apply (tsx_key_in_bounds PJSIP_ROLE_UAS _ []); [unfold is_s32; lia|unfold is_u16; lia].
Defined.

(** A port above 10^9, which the parser refuses, would overflow with it. *)
Example tsx_key_port_overflow :
  key_2543_size (Method PJSIP_OTHER_METHOD [88]) [] [] [] <
  zlen (key_2543 PJSIP_ROLE_UAS (Method PJSIP_OTHER_METHOD [88]) (-1) [] [] [] (-1)).
Proof. vm_compute. reflexivity. Qed.

(** ** What a key identifies *)

Definition lower (s : list Z) : list Z := pj_tolower <$> s.

(** The hash table compares keys by their lower case. *)
Definition text (s : list Z) : Prop := Forall (fun c => c <> 0) s.

Lemma canon_text s : text s -> canon true s = lower s.
Proof.
  induction 1 as [|c s Hc Hs IH]; [done|]. cbn. by rewrite (proj2 (Z.eqb_neq _ _)) by done; f_equal.
Qed.
Lemma canon_text_nul s : text s -> canon true (s ++ [0]) = lower (s ++ [0]).
Proof.
  induction 1 as [|c s Hc Hs IH]; [done|]. cbn. by rewrite (proj2 (Z.eqb_neq _ _)) by done; f_equal.
Qed.

Lemma calc_lower s s' : lower s = lower s' -> calc true s = calc true s'.
Proof.
  unfold calc, lower. generalize 0. revert s'.
  induction s as [|c s IH]; intros [|c' s'] h Heq; try done. cbn in *. injection Heq as Hc Hs.
  unfold hash_step at 2 4. rewrite Hc. by apply IH.
Qed.

Lemma norm_lower k k' : canon true k = lower k -> canon true k' = lower k' ->
  norm true k = norm true k' <-> lower k = lower k'.
Proof.
  intros H H'. unfold norm. rewrite H, H'. split; [by intros [= _ _ ?]|].
  intros Heq. rewrite (calc_lower _ _ Heq), Heq. do 2 f_equal.
  apply (f_equal length) in Heq. unfold lower in Heq. rewrite !length_fmap in Heq. unfold zlen. lia.
Qed.

(** The tokens of a key: letters in a method, no separator in a tag or in a
    Call-ID, no NUL anywhere. *)
Definition is_letter (c : Z) : Prop := 65 <= c <= 90 \/ 97 <= c <= 122.

Record message_ok (m : pjsip_method) (rdata : pjsip_rx_data) (via : pjsip_via_hdr)
    (cseq : pjsip_cseq_hdr) (tag : list Z) : Prop := MessageOk {
  ok_via : rx_via rdata = Some via;
  ok_cseq : rx_cseq rdata = Some cseq;
  ok_tag : rx_from_tag rdata = Some tag;
  ok_method : Forall is_letter (method_name m);
  ok_text : text (branch_param via) /\ text tag /\ text (rx_cid rdata) /\ text (via_host via);
  ok_tokens : (SEPARATOR ∉ tag) /\ (SEPARATOR ∉ rx_cid rdata);
  ok_numbers : 0 <= cseq_num cseq < 2147483648 /\ 0 <= via_port via < 65536;
  ok_branch : is_u32 (zlen (branch_param via))
}.

(** What a key holds of a message. *)
Inductive tsx_identity :=
  | by_branch (role : pjsip_role_e) (m : option (list Z)) (branch : list Z)
  | by_headers (role : pjsip_role_e) (m : option (list Z)) (cseq : Z) (tag cid host : list Z)
      (port : Z).

(** INVITE and ACK are one method; the others go by their name. *)
Definition method_class (m : pjsip_method) : option (list Z) :=
  if bool_decide (method_id m <> PJSIP_INVITE_METHOD) &&
     bool_decide (method_id m <> PJSIP_ACK_METHOD)
  then Some (lower (method_name m)) else None.

Definition identity (role : pjsip_role_e) (m : pjsip_method) (rdata : pjsip_rx_data)
    (via : pjsip_via_hdr) (cseq : pjsip_cseq_hdr) (tag : list Z) : tsx_identity :=
  if is_rfc3261 (branch_param via)
  then by_branch role (method_class m) (lower (branch_param via))
  else by_headers role (method_class m) (cseq_num cseq) (lower tag) (lower (rx_cid rdata))
         (lower (via_host via)) (via_port via).

(** *** Splitting at a separator *)

Lemma split_at_sep (x : Z) a b a' b' : x ∉ a -> x ∉ a' ->
  a ++ x :: b = a' ++ x :: b' -> a = a' /\ b = b'.
Proof.
  revert a'. induction a as [|c a IH]; intros [|c' a'] Ha Ha' Heq; cbn in Heq.
  - by injection Heq.
  - injection Heq as -> _. destruct Ha'. by left.
  - injection Heq as -> _. destruct Ha. by left.
  - injection Heq as -> Heq. destruct (IH a') as [-> ->]; set_solver.
Qed.

Lemma split_at_last (x : Z) a b a' b' : x ∉ b -> x ∉ b' ->
  a ++ x :: b = a' ++ x :: b' -> a = a' /\ b = b'.
Proof.
  intros Hb Hb' Heq. apply (f_equal reverse) in Heq. rewrite !reverse_app, !reverse_cons in Heq.
  rewrite <- !app_assoc in Heq. cbn [app] in Heq. apply split_at_sep in Heq as [H1 H2].
  - apply (inj reverse) in H1, H2. done.
  - by rewrite elem_of_reverse.
  - by rewrite elem_of_reverse.
Qed.

Lemma lower_app a b : lower (a ++ b) = lower a ++ lower b.
Proof. apply fmap_app. Qed.

(** Neither digits nor separators have a case. *)
Lemma pj_tolower_same c : c < 65 \/ 90 < c -> pj_tolower c = c.
Proof. unfold pj_tolower. intros. by replace ((65 <=? c) && (c <=? 90)) with false by lia. Qed.
Lemma lower_digits s : Forall (fun c => 48 <= c <= 57) s -> lower s = s.
Proof.
  induction 1 as [|c s Hc Hs IH]; [done|]. cbn. rewrite pj_tolower_same by lia. by f_equal.
Qed.
Lemma lower_no_sep x s : x < 65 -> x ∉ s -> x ∉ lower s.
Proof.
  intros Hx Hs Hin. apply list_elem_of_fmap in Hin as (c & Hc & Hin). apply Hs.
  unfold pj_tolower in Hc. destruct (_ && _) eqn:E in Hc; [lia|by subst].
Qed.

(** *** Reading a key back *)

(** What follows the method begins with letters and then something else than a
    letter or a separator. *)
Definition body_ok (b : list Z) : Prop :=
  exists ls c r, b = ls ++ c :: r /\ Forall is_letter ls /\ ~ is_letter c /\ c <> SEPARATOR.

Lemma first_other ls c r ls' c' r' :
  Forall is_letter ls -> Forall is_letter ls' -> ~ is_letter c -> ~ is_letter c' ->
  ls ++ c :: r = ls' ++ c' :: r' -> ls = ls' /\ c = c' /\ r = r'.
Proof.
  intros Hls. revert ls'. induction Hls as [|x ls Hx Hls IH]; intros [|x' ls'] Hls' Hc Hc' Heq;
    cbn in Heq.
  - by injection Heq as -> ->.
  - injection Heq as -> _. by apply Forall_inv in Hls'.
  - by injection Heq as -> _.
  - injection Heq as -> Heq. apply Forall_cons in Hls' as [_ Hls'].
    by destruct (IH ls' Hls' Hc Hc' Heq) as (-> & -> & ->).
Qed.

Lemma lower_letters s : Forall is_letter s -> Forall is_letter (lower s).
Proof.
  intros H. apply Forall_fmap. eapply Forall_impl; [exact H|]. intros c Hc. cbn.
  unfold is_letter, pj_tolower in *. case_match; lia.
Qed.

Lemma separator_no_letter : ~ is_letter SEPARATOR.
Proof. unfold is_letter, SEPARATOR. lia. Qed.

Lemma lower_method_part m : Forall is_letter (method_name m) ->
  lower (method_part m) =
    match method_class m with Some n => n ++ [SEPARATOR] | None => [] end /\
  match method_class m with Some n => Forall is_letter n | None => True end.
Proof.
  intros H. unfold method_part, method_class. case_match; [|done].
  rewrite lower_app. split; [done|by apply lower_letters].
Qed.

Lemma class_split m m' b b' :
  Forall is_letter (method_name m) -> Forall is_letter (method_name m') -> body_ok b -> body_ok b' ->
  lower (method_part m) ++ b = lower (method_part m') ++ b' ->
  method_class m = method_class m' /\ b = b'.
Proof.
  intros Hm Hm' (ls & c & r & -> & Hls & Hc & Hsep) (ls' & c' & r' & -> & Hls' & Hc' & Hsep') Heq.
  destruct (lower_method_part m Hm) as [E Hl], (lower_method_part m' Hm') as [E' Hl'].
  rewrite E, E' in Heq. pose proof separator_no_letter as Hs.
  destruct (method_class m) as [n|], (method_class m') as [n'|]; cbn [app] in Heq.
  - rewrite <- !app_assoc in Heq. cbn [app] in Heq.
    by apply first_other in Heq as (-> & _ & ->).
  - rewrite <- app_assoc in Heq. cbn [app] in Heq.
    apply first_other in Heq as (_ & Heq & _); [|done..]. by symmetry in Heq.
  - rewrite <- app_assoc in Heq. cbn [app] in Heq. by apply first_other in Heq as (_ & Heq & _).
  - done.
Qed.

Lemma strncmp_by_lower n a b : strncmp_by pj_tolower n a b = 0 -> length a = n -> length b = n ->
  text a -> lower a = lower b.
Proof.
  revert a b. induction n as [|n IH]; intros [|c a] [|d b] H Ha Hb Ht; try done.
  injection Ha as Ha. injection Hb as Hb. apply Forall_cons in Ht as [Hc Ht].
  cbn [strncmp_by at0 hd tail] in H. destruct (Z.eqb_spec (pj_tolower c) (pj_tolower d)) as [He|Hne].
  - rewrite (proj2 (Z.eqb_neq _ _)) in H by done. cbn. rewrite He. f_equal. by apply IH.
  - destruct (Z.sgn_spec (pj_tolower c - pj_tolower d)) as [[]|[[]|[]]]; lia.
Qed.

(** A branch of RFC 3261 begins with the magic cookie, in any case. *)
Lemma is_rfc3261_prefix b : text b -> is_rfc3261 b = true ->
  exists r, lower b = lower PJSIP_RFC3261_BRANCH_ID ++ r.
Proof.
  intros Hb H. unfold is_rfc3261 in H. apply Z.eqb_eq in H.
  unfold pj_strnicmp in H. assert (cut_at PJSIP_RFC3261_BRANCH_LEN PJSIP_RFC3261_BRANCH_ID =
    PJSIP_RFC3261_BRANCH_ID) as Hid by reflexivity. rewrite Hid in H.
  set (s := cut_at PJSIP_RFC3261_BRANCH_LEN b) in H.
  assert (exists k, b = s ++ k) as [k Hk].
  { subst s. unfold cut_at. case_match; [|exists []; by rewrite app_nil_r].
    exists (drop (Z.to_nat PJSIP_RFC3261_BRANCH_LEN) b). by rewrite take_drop. }
  clearbody s. subst b. apply Forall_app in Hb as [Hs _]. exists (lower k). rewrite lower_app. f_equal.
  unfold pj_stricmp, str_compare in H. change (zlen PJSIP_RFC3261_BRANCH_ID) with 7 in H.
  change (length PJSIP_RFC3261_BRANCH_ID) with 7%nat in H. cbn [Z.eqb] in H.
  destruct (zlen s =? 0); [done|].
  destruct (strncasecmp _ s _ =? 0) eqn:Hcmp; [|by rewrite H in Hcmp].
  destruct (Z.ltb_spec (zlen s) 7); [done|]. destruct (Z.eqb_spec (zlen s) 7) as [Hl|]; [|done].
  apply Z.eqb_eq in Hcmp. apply (strncmp_by_lower 7); try done. unfold zlen in Hl. lia.
Qed.

Lemma branch_body b : text b -> is_rfc3261 b = true -> body_ok (lower b) /\ head (lower b) = Some 122.
Proof.
  intros Hb H. destruct (is_rfc3261_prefix b Hb H) as [r Hr]. rewrite Hr. split; [|done].
  exists [122], 57, (lower (drop 2 PJSIP_RFC3261_BRANCH_ID) ++ r). split; [done|].
  split; [by constructor; [right; lia|constructor]|]. split; [unfold is_letter; lia|done].
Qed.

(** The part of a key of RFC 2543 behind the method. *)
Definition body_2543 (cseq : Z) (tag cid host : list Z) (port : Z) : list Z :=
  pj_utoa (u64 cseq) ++ SEPARATOR :: lower tag ++ SEPARATOR :: lower cid ++ SEPARATOR ::
  lower host ++ 58 :: pj_utoa (u64 port) ++ [SEPARATOR; 0].

Lemma utoa_no x n : x < 48 \/ 57 < x -> 0 <= n < 2 ^ 64 -> x ∉ pj_utoa n.
Proof.
  intros Hx Hn Hin. destruct (pj_utoa_digits n Hn) as (Hd & _).
  rewrite Forall_forall in Hd. specialize (Hd x Hin). lia.
Qed.

Lemma utoa_inj n n' : 0 <= n < 2 ^ 64 -> 0 <= n' < 2 ^ 64 -> pj_utoa n = pj_utoa n' -> n = n'.
Proof.
  intros Hn Hn' Heq. destruct (pj_utoa_digits n Hn) as (_ & _ & H & _).
  destruct (pj_utoa_digits n' Hn') as (_ & _ & H' & _). rewrite Heq in H. congruence.
Qed.

Lemma body_2543_ok cseq tag cid host port : 0 <= cseq < 2 ^ 64 ->
  body_ok (body_2543 cseq tag cid host port) /\
  exists d, head (body_2543 cseq tag cid host port) = Some d /\ 48 <= d <= 57.
Proof.
  intros Hc. unfold body_2543. destruct (pj_utoa_digits (u64 cseq)) as (Hd & Hl & _);
    [apply Z.mod_pos_bound; lia|].
  destruct (pj_utoa (u64 cseq)) as [|d s]; [cbn in Hl; lia|]. apply Forall_cons in Hd as [Hd _].
  split; [|by exists d]. exists [], d. eexists. split; [reflexivity|]. split; [constructor|].
  unfold is_letter, SEPARATOR. lia.
Qed.

Lemma body_2543_inj cseq tag cid host port cseq' tag' cid' host' port' :
  0 <= cseq < 2 ^ 64 -> 0 <= cseq' < 2 ^ 64 -> 0 <= port < 2 ^ 64 -> 0 <= port' < 2 ^ 64 ->
  SEPARATOR ∉ tag -> SEPARATOR ∉ tag' -> SEPARATOR ∉ cid -> SEPARATOR ∉ cid' ->
  body_2543 cseq tag cid host port = body_2543 cseq' tag' cid' host' port' ->
  cseq = cseq' /\ lower tag = lower tag' /\ lower cid = lower cid' /\ lower host = lower host' /\
  port = port'.
Proof.
  intros Hc Hc' Hp Hp' Ht Ht' Hi Hi'. unfold body_2543, u64.
  rewrite (Z.mod_small cseq), (Z.mod_small cseq'), (Z.mod_small port), (Z.mod_small port') by done.
  assert (forall s, SEPARATOR ∉ s -> SEPARATOR ∉ lower s) as Hlow by (intros; by apply lower_no_sep).
  intros Heq. apply split_at_sep in Heq as [E1 Heq]; [|apply utoa_no; [left|]; done..].
  apply split_at_sep in Heq as [E2 Heq]; [|by apply Hlow..].
  apply split_at_sep in Heq as [E3 Heq]; [|by apply Hlow..].
  apply split_at_last in Heq as [E4 Heq].
  2,3: intros Hin; apply elem_of_app in Hin as [Hin|Hin]; [by eapply utoa_no in Hin; [|right|]|set_solver].
  apply app_inv_tail in Heq. split_and!; try done; by apply utoa_inj.
Qed.

(** Every key is a role, a method and one of the two bodies. *)
Definition key_body (rdata : pjsip_rx_data) (via : pjsip_via_hdr) (cseq : pjsip_cseq_hdr)
    (tag : list Z) : list Z :=
  if is_rfc3261 (branch_param via) then lower (branch_param via)
  else body_2543 (cseq_num cseq) tag (rx_cid rdata) (via_host via) (via_port via).

Lemma role_char_lower r : pj_tolower (role_char r) = role_char r.
Proof. by destruct r. Qed.

Lemma letters_text s : Forall is_letter s -> text s.
Proof. intros H. eapply Forall_impl; [exact H|]. unfold is_letter. cbn. lia. Qed.
Lemma digits_text s : Forall (fun c => 48 <= c <= 57) s -> text s.
Proof. intros H. eapply Forall_impl; [exact H|]. cbn. lia. Qed.

Lemma method_part_text m : Forall is_letter (method_name m) -> text (method_part m).
Proof.
  intros H. unfold method_part. case_match; [|constructor].
  apply Forall_app. split; [by apply letters_text|by repeat constructor].
Qed.

Lemma utoa_facts n : text (pj_utoa (u64 n)) /\ lower (pj_utoa (u64 n)) = pj_utoa (u64 n).
Proof.
  destruct (pj_utoa_digits (u64 n)) as (H & _); [apply Z.mod_pos_bound; lia|].
  split; [by apply digits_text|by apply lower_digits].
Qed.

Lemma key_shape role m rdata via cseq tag : message_ok m rdata via cseq tag ->
  exists k, pjsip_tsx_create_key role m rdata = Some (inl k) /\ canon true k = lower k /\
    lower k = role_char role :: SEPARATOR :: lower (method_part m) ++ key_body rdata via cseq tag /\
    body_ok (key_body rdata via cseq tag).
Proof.
  intros [Hv Hc Ht Hm (Hb & Htag & Hcid & Hhost) _ [Hn Hp] _].
  unfold pjsip_tsx_create_key, key_body. rewrite Hv. pose proof (method_part_text m Hm) as Hmp.
  assert (text [role_char role; SEPARATOR]) as Hr by (destruct role; by repeat constructor).
  destruct (is_rfc3261 (branch_param via)) eqn:Hrfc; eexists; (split; [|split; [|split]]).
  - reflexivity.
  - apply canon_text. unfold create_tsx_key_3261, text. rewrite !Forall_app. done.
  - unfold create_tsx_key_3261. rewrite !lower_app. cbn. by rewrite role_char_lower.
  - by apply branch_body.
  - unfold create_tsx_key_2543. rewrite Hv, Hc, Ht. reflexivity.
  - unfold key_2543. rewrite !app_assoc. apply canon_text_nul. unfold text. rewrite !Forall_app.
    pose proof (utoa_facts (cseq_num cseq)) as [? _]. pose proof (utoa_facts (via_port via)) as [? _].
    repeat split; try done; by repeat constructor.
  - unfold key_2543, body_2543. rewrite !lower_app. cbn [lower fmap list_fmap app].
    destruct (utoa_facts (cseq_num cseq)) as [_ ->], (utoa_facts (via_port via)) as [_ ->].
    by rewrite role_char_lower.
  - apply body_2543_ok. lia.
Qed.

(** Two keys are one in the table exactly when the messages match. *)
Lemma key_identity role m rdata via cseq tag role' m' rdata' via' cseq' tag' k k' :
  message_ok m rdata via cseq tag -> message_ok m' rdata' via' cseq' tag' ->
  pjsip_tsx_create_key role m rdata = Some (inl k) ->
  pjsip_tsx_create_key role' m' rdata' = Some (inl k') ->
  norm true k = norm true k' <->
  identity role m rdata via cseq tag = identity role' m' rdata' via' cseq' tag'.
Proof.
  intros Hok Hok'. destruct (key_shape role _ _ _ _ _ Hok) as (k0 & Hk0 & Hck & Hlk & Hb).
  destruct (key_shape role' _ _ _ _ _ Hok') as (k0' & Hk0' & Hck' & Hlk' & Hb').
  intros Hk Hk'. assert (k0 = k) as -> by congruence. assert (k0' = k') as -> by congruence.
  rewrite norm_lower, Hlk, Hlk' by done.
  destruct Hok as [_ _ _ Hm (Htb & _) [Hst Hsc] [Hn Hp] _].
  destruct Hok' as [_ _ _ Hm' (Htb' & _) [Hst' Hsc'] [Hn' Hp'] _].
  pose proof (lower_method_part m Hm) as [Hmp _]. pose proof (lower_method_part m' Hm') as [Hmp' _].
  assert (role_char role :: SEPARATOR :: lower (method_part m) ++ key_body rdata via cseq tag =
    role_char role' :: SEPARATOR :: lower (method_part m') ++ key_body rdata' via' cseq' tag' <->
    role = role' /\ method_class m = method_class m' /\
    key_body rdata via cseq tag = key_body rdata' via' cseq' tag') as ->.
  { split.
    - intros [= Hr Heq]. split; [by destruct role, role'|]. by apply class_split.
    - intros (-> & Hcl & ->). by rewrite Hmp, Hmp', Hcl. }
  unfold identity, key_body in *.
  destruct (is_rfc3261 (branch_param via)) eqn:E, (is_rfc3261 (branch_param via')) eqn:E'.
  - split; [by intros (-> & -> & ->)|by intros [= -> -> ->]].
  - split; [|done]. intros (_ & _ & Heq). exfalso.
    destruct (branch_body _ Htb E) as [_ Hh]. rewrite Heq in Hh.
    destruct (body_2543_ok (cseq_num cseq') tag' (rx_cid rdata') (via_host via') (via_port via'))
      as (_ & d & Hd & ?); [lia|]. rewrite Hd in Hh. injection Hh as ->. lia.
  - split; [|done]. intros (_ & _ & Heq). exfalso.
    destruct (branch_body _ Htb' E') as [_ Hh]. rewrite <- Heq in Hh.
    destruct (body_2543_ok (cseq_num cseq) tag (rx_cid rdata) (via_host via) (via_port via))
      as (_ & d & Hd & ?); [lia|]. rewrite Hd in Hh. injection Hh as ->. lia.
  - split.
    + intros (-> & -> & Heq). apply body_2543_inj in Heq as (-> & -> & -> & -> & ->); done || lia.
    + intros [= -> -> Hcq Htg Hci Hho Hpo]. split_and!; try done. unfold body_2543.
      by rewrite Hcq, Htg, Hci, Hho, Hpo.
Qed.

(** ** The matching rules of RFC 3261 *)

(** What the rules compare; a key has neither the Request-URI nor the To tag. *)
Record rfc_message := RfcMessage {
  g_method : pjsip_method; g_via : pjsip_via_hdr; g_cseq : Z; g_from_tag : list Z;
  g_call_id : list Z; g_uri : list Z; g_to_tag : list Z
}.

Definition rfc_of (m : pjsip_method) (rdata : pjsip_rx_data) (via : pjsip_via_hdr)
    (cseq : pjsip_cseq_hdr) (tag uri to_tag : list Z) : rfc_message :=
  RfcMessage m via (cseq_num cseq) tag (rx_cid rdata) uri to_tag.

(** Branches, tags and hosts are compared without regard to case, methods and
    Call-IDs byte by byte (7.3.1, 20.8). *)
Definition same (a b : list Z) : Prop := lower a = lower b.

Definition has_cookie (via : pjsip_via_hdr) : Prop :=
  exists r, same (branch_param via) (PJSIP_RFC3261_BRANCH_ID ++ r).

Definition same_branch (x y : rfc_message) : Prop :=
  same (branch_param (g_via x)) (branch_param (g_via y)).

Definition same_sent_by (x y : rfc_message) : Prop :=
  same (via_host (g_via x)) (via_host (g_via y)) /\ via_port (g_via x) = via_port (g_via y).

Definition invite_or_ack (m : pjsip_method) : Prop :=
  method_id m = PJSIP_INVITE_METHOD \/ method_id m = PJSIP_ACK_METHOD.

Definition same_method (m m' : pjsip_method) : Prop :=
  (invite_or_ack m /\ method_id m = method_id m') \/
  (~ invite_or_ack m /\ ~ invite_or_ack m' /\ method_name m = method_name m').

(** 17.1.3: a response belongs to the client transaction with its branch and
    with the method of its CSeq. *)
Definition rfc_client_match (x y : rfc_message) : Prop :=
  has_cookie (g_via x) /\ same_branch x y /\ same_method (g_method x) (g_method y).

(** 17.2.3: a request belongs to the server transaction with its branch, its
    sent-by and its method, an ACK to that of its INVITE; without the magic
    cookie the other headers have to match too. *)
Definition rfc_server_match (x y : rfc_message) : Prop :=
  same_branch x y /\ same_sent_by x y /\
  (same_method (g_method x) (g_method y) \/ invite_or_ack (g_method x) /\ invite_or_ack (g_method y)) /\
  (has_cookie (g_via x) \/
   g_cseq x = g_cseq y /\ same (g_from_tag x) (g_from_tag y) /\ g_call_id x = g_call_id y /\
   g_uri x = g_uri y /\ g_to_tag x = g_to_tag y).

Definition rfc3261_match (role : pjsip_role_e) : rfc_message -> rfc_message -> Prop :=
  match role with
  | PJSIP_ROLE_UAC => rfc_client_match
  | PJSIP_ROLE_UAS => rfc_server_match
  end.

(** What the rules compare and a key leaves out: the case of a method and of a
    Call-ID, the sent-by of a server transaction with the magic cookie and the
    branch, the Request-URI and the To tag of one without; that a client has the
    magic cookie and gets no answer to an ACK. *)
Definition same_case (a b : list Z) : Prop := same a b -> a = b.

Definition agree_beyond_key (role : pjsip_role_e) (x y : rfc_message) : Prop :=
  same_case (method_name (g_method x)) (method_name (g_method y)) /\
  match role with
  | PJSIP_ROLE_UAC =>
      has_cookie (g_via x) /\
      method_id (g_method x) <> PJSIP_ACK_METHOD /\ method_id (g_method y) <> PJSIP_ACK_METHOD
  | PJSIP_ROLE_UAS =>
      if is_rfc3261 (branch_param (g_via x)) then same_sent_by x y
      else same_branch x y /\ same_case (g_call_id x) (g_call_id y) /\
           g_uri x = g_uri y /\ g_to_tag x = g_to_tag y
  end.

Lemma strncmp_by_same n a b : lower a = lower b -> strncmp_by pj_tolower n a b = 0.
Proof.
  revert a b. induction n as [|n IH]; intros [|c a] [|d b] H; try done.
  - injection H as Hc Hs. cbn [strncmp_by at0 hd tail]. rewrite Hc, Z.eqb_refl.
    case_match; [done|]. by apply IH.
Qed.

Lemma has_cookie_spec via : text (branch_param via) -> is_u32 (zlen (branch_param via)) ->
  has_cookie via <-> is_rfc3261 (branch_param via) = true.
Proof.
  unfold has_cookie, same. set (b := branch_param via). clearbody b. intros Hb Hlen. split.
  - intros [r Hr]. rewrite lower_app in Hr.
    assert (lower (take 7 b) = lower PJSIP_RFC3261_BRANCH_ID) as Ht.
    { unfold lower. rewrite fmap_take. fold (lower b). rewrite Hr. reflexivity. }
    assert (length (take 7 b) = 7%nat) as Hl.
    { apply (f_equal length) in Ht. unfold lower in Ht. by rewrite !length_fmap in Ht. }
    assert (cut_at PJSIP_RFC3261_BRANCH_LEN b = take 7 b) as Hc.
    { unfold cut_at, PJSIP_RFC3261_BRANCH_LEN. rewrite u32_small by done. case_match; [done|].
      unfold zlen in *. by rewrite take_ge by lia. }
    unfold is_rfc3261, pj_strnicmp. rewrite Hc.
    change (cut_at PJSIP_RFC3261_BRANCH_LEN PJSIP_RFC3261_BRANCH_ID) with PJSIP_RFC3261_BRANCH_ID.
    unfold pj_stricmp, str_compare. change (zlen PJSIP_RFC3261_BRANCH_ID) with 7.
    unfold zlen. rewrite Hl. cbn [Z.eqb Z.of_nat Pos.of_succ_nat Pos.succ Pos.eqb].
    unfold strncasecmp. by rewrite strncmp_by_same.
  - intros H. destruct (is_rfc3261_prefix b Hb H) as [r Hr].
    exists (drop 7 b). rewrite lower_app. rewrite Hr at 1. f_equal.
    unfold lower. rewrite fmap_drop. fold (lower b). by rewrite Hr.
Qed.

(** The parts of a key come from what the rules compare. *)
Section MatchingRules.
Context (role : pjsip_role_e) (m : pjsip_method) (rdata : pjsip_rx_data) (via : pjsip_via_hdr)
  (cseq : pjsip_cseq_hdr) (tag uri to_tag : list Z).
Context (m' : pjsip_method) (rdata' : pjsip_rx_data) (via' : pjsip_via_hdr)
  (cseq' : pjsip_cseq_hdr) (tag' uri' to_tag' : list Z).
Hypothesis (Hok : message_ok m rdata via cseq tag) (Hok' : message_ok m' rdata' via' cseq' tag').

Let x := rfc_of m rdata via cseq tag uri to_tag.
Let y := rfc_of m' rdata' via' cseq' tag' uri' to_tag'.

Lemma cookie_x : has_cookie via <-> is_rfc3261 (branch_param via) = true.
Proof. apply has_cookie_spec; apply Hok. Qed.

Lemma same_cookie : same_branch x y -> is_rfc3261 (branch_param via') = is_rfc3261 (branch_param via).
Proof.
  intros Hb. apply Bool.eq_iff_eq_true. rewrite <- cookie_x.
  rewrite <- (has_cookie_spec via') by apply Hok'.
  unfold has_cookie, same, same_branch, same in *. cbn in Hb. by rewrite Hb.
Qed.

Lemma method_class_spec : method_class m = method_class m' <->
  (invite_or_ack m /\ invite_or_ack m') \/
  (~ invite_or_ack m /\ ~ invite_or_ack m' /\ same (method_name m) (method_name m')).
Proof.
  unfold method_class, invite_or_ack, same.
  destruct (method_id m) eqn:E, (method_id m') eqn:E'; cbn;
    (split; [intros H; try discriminate H; try injection H as H|intros [[[|] [|]]|(? & ? & H)]]);
    try done; try (left; split; by auto); try (right; split_and!; naive_solver);
    naive_solver congruence.
Qed.

Lemma match_identity : rfc3261_match role x y ->
  identity role m rdata via cseq tag = identity role m' rdata' via' cseq' tag'.
Proof.
  intros H. assert (same_branch x y) as Hb by (destruct role; apply H).
  assert (method_class m = method_class m') as Hm.
  { apply method_class_spec. destruct role.
    - destruct H as (_ & _ & [[Ha He]|(? & ? & He)]); cbn in *.
      + left. unfold invite_or_ack in *. by rewrite <- He.
      + right. unfold same. by rewrite He.
    - destruct H as (_ & _ & [[[Ha He]|(? & ? & He)]|?] & _); cbn in *.
      + left. unfold invite_or_ack in *. by rewrite <- He.
      + right. unfold same. by rewrite He.
      + by left. }
  unfold identity. rewrite (same_cookie Hb), Hm.
  destruct (is_rfc3261 (branch_param via)) eqn:E.
  - unfold same_branch, same in Hb. cbn in Hb. by rewrite Hb.
  - destruct role; [by destruct H as (Hc%cookie_x & _); rewrite Hc in E|].
    destruct H as (_ & [Hh Hp] & _ & [Hc%cookie_x|(Hc & Ht & Hi & _)]); [by rewrite Hc in E|].
    unfold same in *. cbn in *. f_equal; try done. by f_equal.
Qed.

Lemma identity_match : identity role m rdata via cseq tag = identity role m' rdata' via' cseq' tag' ->
  agree_beyond_key role x y -> rfc3261_match role x y.
Proof.
  intros Hid [Hcase H].
  assert (method_class m = method_class m' /\
    is_rfc3261 (branch_param via) = is_rfc3261 (branch_param via')) as [Hm Hr].
  { unfold identity in Hid. destruct (is_rfc3261 (branch_param via)), (is_rfc3261 (branch_param via'));
      [by injection Hid|discriminate|discriminate|by injection Hid]. }
  apply method_class_spec in Hm.
  assert (same_branch x y) as Hb.
  { unfold identity in Hid. rewrite <- Hr in Hid. destruct (is_rfc3261 (branch_param via)) eqn:E.
    - by injection Hid.
    - destruct role; [by destruct H as (Hc%cookie_x & _); rewrite Hc in E|].
      change (branch_param (g_via x)) with (branch_param via) in H. rewrite E in H. apply H. }
  assert ((invite_or_ack m /\ invite_or_ack m') \/ (~ invite_or_ack m /\ ~ invite_or_ack m' /\
    method_name m = method_name m')) as Hm'.
  { destruct Hm as [?|(? & ? & Hn)]; [by left|right]. split_and!; try done. by apply Hcase. }
  unfold rfc3261_match. destruct role.
  - destruct H as (Hc & Ha & Ha'). split; [done|]. split; [done|].
    destruct Hm' as [[Hi Hi']|?]; [left|by right]. split; [done|].
    unfold invite_or_ack in *. cbn in *. destruct Hi, Hi'; congruence.
  - assert (same_method m m' \/ invite_or_ack m /\ invite_or_ack m') as Hmm.
    { destruct Hm' as [?|?]; [by right|left; by right]. }
    split; [done|]. unfold identity in Hid. rewrite <- Hr in Hid. cbn [g_via x rfc_of] in H.
    change (branch_param (g_via x)) with (branch_param via) in H.
    destruct (is_rfc3261 (branch_param via)) eqn:E.
    + split; [exact H|]. split; [exact Hmm|]. left. by apply cookie_x.
    + destruct H as (_ & Hcid & Hu & Ht). injection Hid as _ Hcq Htg Hci Hho Hpo.
      split; [by split|]. split; [exact Hmm|]. right. split_and!; try done. by apply Hcid.
Qed.

End MatchingRules.

(** C33: A key identifies its transaction. Every message with the headers it
    needs has a key. Two keys are one in the table exactly when the messages
    agree, without regard to case, in the role, the method with INVITE and ACK
    counted as one, and the branch if it has the magic cookie; without it the CSeq
    number, the From tag, the Call-ID and the top Via's sent-by; never one with
    and one without. So messages that the rules of RFC 3261 (17.1.3 for a client,
    17.2.3 for a server) match share a key, and messages that share a key are
    matched by the rules if they agree in what the key leaves out: the sent-by of
    a server transaction with the magic cookie; the Request-URI, the To tag and
    the branch of one without; the case of methods and Call-IDs; that the branch of
    a client has the cookie and its method is not ACK. *)
Theorem tsx_key_identifies role m rdata via cseq tag role' m' rdata' via' cseq' tag' :
  message_ok m rdata via cseq tag -> message_ok m' rdata' via' cseq' tag' ->
  exists k k', pjsip_tsx_create_key role m rdata = Some (inl k) /\
    pjsip_tsx_create_key role' m' rdata' = Some (inl k') /\
    (norm true k = norm true k' <->
     identity role m rdata via cseq tag = identity role' m' rdata' via' cseq' tag') /\
    forall uri to_tag uri' to_tag',
      let x := rfc_of m rdata via cseq tag uri to_tag in
      let y := rfc_of m' rdata' via' cseq' tag' uri' to_tag' in
      (role = role' -> rfc3261_match role x y -> norm true k = norm true k') /\
      (norm true k = norm true k' -> agree_beyond_key role x y ->
       role = role' /\ rfc3261_match role x y).
Proof.
  intros Hok Hok'. destruct (key_shape role _ _ _ _ _ Hok) as (k & Hk & _).
  destruct (key_shape role' _ _ _ _ _ Hok') as (k' & Hk' & _). exists k, k'.
  pose proof (key_identity role _ _ _ _ _ role' _ _ _ _ _ k k' Hok Hok' Hk Hk') as Hid.
  split; [done|]. split; [done|]. split; [done|]. intros uri to_tag uri' to_tag' x y. rewrite Hid. split.
  - intros <-. by apply match_identity.
  - intros Heq Hrest. assert (role = role') as <- by (unfold identity in Heq; repeat case_match; congruence).
    split; [done|]. by apply (identity_match role m rdata via cseq tag _ _ m' rdata' via' cseq' tag').
Qed.

(** A client INVITE, and the answer with the branch in capitals. *)
Definition demo_via : pjsip_via_hdr := Via (PJSIP_RFC3261_BRANCH_ID ++ [65; 49]) [104] 5060.
Definition demo_via_up : pjsip_via_hdr := Via [90; 57; 72; 71; 52; 66; 75; 97; 49] [72] 5060.
Definition invite : pjsip_method := Method PJSIP_INVITE_METHOD [73; 78; 86; 73; 84; 69].
Definition demo_answer (via : pjsip_via_hdr) : pjsip_rx_data :=
  RxData (PJSIP_RESPONSE_MSG 180) (Some via) (Some (CSeq 1 invite)) (Some [116]) [105; 100].

Lemma demo_answer_ok via : via = demo_via \/ via = demo_via_up ->
  message_ok invite (demo_answer via) via (CSeq 1 invite) [116].
Proof.
  intros [->| ->]; (constructor; try reflexivity; cbn).
  1,6: repeat constructor; unfold is_letter; lia.
  1,5: split_and!; repeat constructor; discriminate.
  1,4: split; intros H; repeat (apply elem_of_cons in H as [H|H]; [discriminate|]);
    by apply elem_of_nil in H.
  all: unfold is_u32, zlen; cbn; lia.
Qed.

Lemma tsx_key_identifies_witness :
  exists k k', pjsip_tsx_create_key PJSIP_ROLE_UAC invite (demo_answer demo_via) = Some (inl k) /\
    pjsip_tsx_create_key PJSIP_ROLE_UAC invite (demo_answer demo_via_up) = Some (inl k') /\
    norm true k = norm true k'.
Proof.
  destruct (tsx_key_identifies PJSIP_ROLE_UAC invite (demo_answer demo_via) demo_via (CSeq 1 invite)
    [116] PJSIP_ROLE_UAC invite (demo_answer demo_via_up) demo_via_up (CSeq 1 invite) [116])
    as (k & k' & Hk & Hk' & _ & H).
  - apply demo_answer_ok. by left.
  - apply demo_answer_ok. by right.
  - exists k, k'. split; [exact Hk|]. split; [exact Hk'|].
    apply (H [] [] [] []); [reflexivity|]. split; [exists [65; 49]; reflexivity|].
    split; [reflexivity|]. left. split; [by left|reflexivity].
Defined.
