(* ===== verification/TsxLayer.v ===== *)
(** * SIP transaction layer (pjsip/src/pjsip/sip_transaction.c, mod_tsx_layer)

    The module that owns the transactions: a hash table from keys to
    transactions, their creation, the dispatch of received messages, and the end
    of the module.  Transactions live at addresses, and the table holds
    addresses.  Each transaction is a machine of [Transaction]; that machine
    records in its trace when it unregisters, and the layer carries the removals
    a step records over to the table. *)

From stdpp Require Import gmap list.
From S2P Require Import Prelude PjString Hash TimeVal Transaction.
From S2P Require Import TsxMoves TsxSteps TsxProps TsxTrace TsxKey.
Set Warnings "-clear-no-such-hyp".

Definition PJ_EBUSY : Z := 70011.
Definition PJSIP_EINVALIDHDR : Z := 171051.
Definition PJSIP_SC_SERVICE_UNAVAILABLE : Z := 503.

(** ** Data *)

(** A transaction with the fields the layer keeps in it. *)
Record tsx_object := TsxObject {
  machine : pjsip_transaction;
  transaction_key : list Z;
  hashed_key : Z
}.
#[export] Instance eta_tsx_object : Eta tsx_object := fun o =>
  TsxObject (machine o) (transaction_key o) (hashed_key o).

Record mod_tsx_layer := TsxLayer {
  mod_id : Z;
  htable : pj_hash_table (V := Z);
  tsxs : gmap Z tsx_object
}.
#[export] Instance eta_mod_tsx_layer : Eta mod_tsx_layer := fun l =>
  TsxLayer (mod_id l) (htable l) (tsxs l).

(** The table of [pjsip_tsx_layer_init_module]; [id] is the module id the
    endpoint gives. *)
Definition pjsip_tsx_layer_init_module (max_count id : Z) : option mod_tsx_layer :=
  ht ← pj_hash_create 28 max_count; Some (TsxLayer id ht ∅).

Section Layer.
Context {E : TsxEnv}.

(** ** The table *)

(** [(unsigned)key->slen]. *)
Definition slen (key : list Z) : Z := u32 (zlen key).

(** [hashed_key], for the key of a new transaction. *)
Definition hash_key (key : list Z) : Z := (pj_hash_calc_tolower 0 key).1.

(** [None] is a failure the table cannot report. *)
Definition mod_tsx_layer_register_tsx (a : Z) (o : tsx_object) (l : mod_tsx_layer) :
    option (mod_tsx_layer * Z) :=
  let k := transaction_key o in
  match (pj_hash_get_lower (htable l) k (slen k) 0).1 with
  | Some _ => Some (l, PJ_EEXISTS)
  | None =>
      ht ← pj_hash_set_lower true (htable l) k (slen k) (hashed_key o) (Some a);
      Some (l <| htable := ht |> <| tsxs ::= insert a o |>, PJ_SUCCESS)
  end.

(** What [mod_tsx_layer_unregister_tsx] does to the table. *)
Definition unregister_key (o : tsx_object) (ht : pj_hash_table (V := Z)) :
    option (pj_hash_table (V := Z)) :=
  pj_hash_set_lower false ht (transaction_key o) (slen (transaction_key o)) (hashed_key o) None.

Fixpoint unregister_times (n : nat) (o : tsx_object) (ht : pj_hash_table (V := Z)) :
    option (pj_hash_table (V := Z)) :=
  match n with
  | O => Some ht
  | S n => ht ← unregister_key o ht; unregister_times n o ht
  end.

(** A function of the state machine run on the transaction at [a]. [None] is a
    dangling pointer or a failure of the function. *)
Definition on_tsx (a : Z) (f : pjsip_transaction -> option pjsip_transaction) (l : mod_tsx_layer) :
    option mod_tsx_layer :=
  o ← tsxs l !! a;
  t ← f (machine o);
  ht ← unregister_times (unregs t - unregs (machine o)) o (htable l);
  Some (l <| htable := ht |> <| tsxs ::= insert a (o <| machine := t |>) |>).

Definition pjsip_tsx_layer_get_tsx_count (l : mod_tsx_layer) : Z := pj_hash_count (htable l).

(** The address found, with a reference added when the caller asks for it. *)
Definition find_tsx (key : list Z) (add_ref : bool) (l : mod_tsx_layer) :
    option (option Z * mod_tsx_layer) :=
  match (pj_hash_get_lower (htable l) key (slen key) 0).1 with
  | None => Some (None, l)
  | Some a =>
      l ← on_tsx a (fun t => Some (pj_grp_lock_add_ref t)) l;
      l ← (if add_ref then Some l else on_tsx a (fun t => Some (pj_grp_lock_dec_ref t)) l);
      Some (Some a, l)
  end.
Definition pjsip_tsx_layer_find_tsx (key : list Z) := find_tsx key false.
Definition pjsip_tsx_layer_find_tsx2 (key : list Z) (add_ref : bool) := find_tsx key add_ref.

(** ** Creation

    The result is the layer, the status, and the transaction that was shut down
    when its creation failed.  [a] is the address of the new transaction. *)

(** The end of both functions: register, or shut down. *)
Definition enter_table (a : Z) (o : tsx_object) (l : mod_tsx_layer) :
    option (mod_tsx_layer * Z * option pjsip_transaction) :=
  '(l, status) ← mod_tsx_layer_register_tsx a o l;
  Some (l, status, if status =? PJ_SUCCESS then None else Some (tsx_shutdown (machine o))).

(** [branch] is the branch of the Via header the message has or is given;
    [unique] is the string [pj_generate_unique_string] makes, and [dest] what
    [pjsip_get_request_dest] finds: whether the destination is reliable. *)
Definition tsx_layer_create_uac (a : Z) (user : option pjsip_module) (tdata : pjsip_tx_data)
    (has_cseq : bool) (m : pjsip_method) (branch unique : list Z) (dest : bool + Z) (l : mod_tsx_layer) :
    option (mod_tsx_layer * Z * option pjsip_transaction) :=
  let reliable := match dest with inl b => b | inr _ => false end in
  match pjsip_tsx_create_uac2 user tdata reliable (mod_id l) with
  | inr status => Some (l, status, None)
  | inl t =>
      if negb has_cseq then Some (l, PJSIP_EMISSINGHDR, None)
      else
        let branch := if zlen branch =? 0 then PJSIP_RFC3261_BRANCH_ID ++ [80; 106] ++ unique
                      else branch in
        let key := create_tsx_key_3261 PJSIP_ROLE_UAC m branch in
        match dest with
        | inr status => Some (l, status, Some (tsx_shutdown t))
        | inl _ => enter_table a (TsxObject t key (hash_key key)) l
        end
  end.

(** [m] is the method of the request line; [addr] is what
    [pjsip_get_response_addr] finds. *)
Definition tsx_layer_create_uas (a : Z) (user : option pjsip_module) (m : pjsip_method)
    (rdata : pjsip_rx_data) (addr : option pjsip_transport * bool + Z) (l : mod_tsx_layer) :
    option (mod_tsx_layer * Z * option pjsip_transaction) :=
  let '(res_transport, res_reliable) := match addr with inl p => p | inr _ => (None, false) end in
  match pjsip_tsx_create_uas2 user (rx_msg rdata) res_transport res_reliable (mod_id l) with
  | inr status => Some (l, status, None)
  | inl t =>
      match rx_cseq rdata, rx_via rdata with
      | Some cseq, Some via =>
          if negb (pjsip_method_cmp m (cseq_hdr_method cseq) =? 0)
          then Some (l, PJSIP_EINVALIDHDR, None)
          else
            let t0 := tsx_create user PJSIP_ROLE_UAS (method_id m) (mod_id l) in
            key ← pjsip_tsx_create_key PJSIP_ROLE_UAS m rdata;
            match key, addr with
            | inr status, _ => Some (l, status, Some (tsx_shutdown t0))
            | inl _, inr status => Some (l, status, Some (tsx_shutdown t0))
            | inl key, inl _ => enter_table a (TsxObject t key (hash_key key)) l
            end
      | _, _ => Some (l, PJSIP_EMISSINGHDR, None)
      end
  end.

(** ** Received messages *)

(** Both callbacks: whether the module took the message. [None] is a missing
    CSeq or Via header, or a key that could not be made, which the code uses all
    the same. *)
Definition mod_tsx_layer_on_rx (r : pjsip_role_e) (rdata : pjsip_rx_data) (l : mod_tsx_layer) :
    option (mod_tsx_layer * bool) :=
  cseq ← rx_cseq rdata;
  key ← pjsip_tsx_create_key r (cseq_hdr_method cseq) rdata;
  match key with
  | inr _ => None
  | inl key =>
      match (pj_hash_get_lower (htable l) key (slen key) 0).1 with
      | None => Some (l, false)
      | Some a =>
          o ← tsxs l !! a;
          if bool_decide (state (machine o) = PJSIP_TSX_STATE_TERMINATED) then Some (l, false)
          else
            l ← on_tsx a (fun t => Some (pj_grp_lock_add_ref t)) l;
            l ← on_tsx a (pjsip_tsx_recv_msg (rx_msg rdata)) l;
            l ← on_tsx a (fun t => Some (pj_grp_lock_dec_ref t)) l;
            Some (l, true)
      end
  end.
Definition mod_tsx_layer_on_rx_request := mod_tsx_layer_on_rx PJSIP_ROLE_UAS.
Definition mod_tsx_layer_on_rx_response := mod_tsx_layer_on_rx PJSIP_ROLE_UAC.

(** ** The end of the module *)

(** What the loop of [mod_tsx_layer_stop] does to one transaction. *)
Definition stop_tsx (t : pjsip_transaction) : pjsip_transaction :=
  tsx_shutdown (mod_tsx_layer_unregister_tsx (pjsip_tsx_terminate PJSIP_SC_SERVICE_UNAVAILABLE t).1).

Fixpoint stop_loop (fuel : nat) (it : option pj_hash_iterator) (l : mod_tsx_layer) :
    option mod_tsx_layer :=
  match it with
  | None => Some l
  | Some it =>
      match fuel with
      | O => None
      | S fuel =>
          a ← pj_hash_this (htable l) it;
          let next := pj_hash_next (htable l) it in
          l ← on_tsx a (fun t => Some (stop_tsx t)) l;
          stop_loop fuel next l
      end
  end.
Definition mod_tsx_layer_stop (fuel : nat) (l : mod_tsx_layer) : option mod_tsx_layer :=
  stop_loop fuel (pj_hash_first (htable l)) l.

(** Whether the module is destroyed at once. *)
Definition mod_tsx_layer_unload (l : mod_tsx_layer) : Z :=
  if negb (pj_hash_count (htable l) =? 0) then PJ_EBUSY else PJ_SUCCESS.

(** ** Steps *)

Inductive layer_event :=
  | le_create_uac (a : Z) (user : option pjsip_module) (tdata : pjsip_tx_data) (has_cseq : bool)
      (m : pjsip_method) (branch unique : list Z) (dest : bool + Z)
  | le_create_uas (a : Z) (user : option pjsip_module) (m : pjsip_method) (rdata : pjsip_rx_data)
      (addr : option pjsip_transport * bool + Z)
  | le_rx_request (rdata : pjsip_rx_data)
  | le_rx_response (rdata : pjsip_rx_data)
  | le_tsx (a : Z) (ev : tsx_event).

Definition layer_step (ev : layer_event) (l : mod_tsx_layer) : option mod_tsx_layer :=
  match ev with
  | le_create_uac a user tdata has_cseq m branch unique dest =>
      r ← tsx_layer_create_uac a user tdata has_cseq m branch unique dest l; Some r.1.1
  | le_create_uas a user m rdata addr =>
      r ← tsx_layer_create_uas a user m rdata addr l; Some r.1.1
  | le_rx_request rdata => r ← mod_tsx_layer_on_rx_request rdata l; Some r.1
  | le_rx_response rdata => r ← mod_tsx_layer_on_rx_response rdata l; Some r.1
  | le_tsx a ev => on_tsx a (tsx_step ev) l
  end.

End Layer.

(** ** The invariant *)

Definition live (o : tsx_object) : Prop := state (machine o) <> PJSIP_TSX_STATE_DESTROYED.

Record object_ok `{E : TsxEnv} (id : Z) (o : tsx_object) : Prop := ObjectOk {
  o_wf : tsx_wf (machine o);
  o_id : mod_tsx_layer_id (machine o) = id;
  o_unregs : unregs (machine o) = if decide (live o) then 0%nat else 1%nat;
  o_role : head (transaction_key o) = Some (role_char (role (machine o)));
  o_len : zlen (transaction_key o) < PJ_HASH_KEY_STRING;
  o_hash : hashed_key o = hash_key (transaction_key o)
}.

(** The table holds the live transactions, each under its key. *)
Record layer_wf `{E : TsxEnv} (l : mod_tsx_layer) : Prop := LayerWf {
  l_id : mod_id l <> -1;
  l_table : hash_wf true (htable l);
  l_room : is_u32 (count (htable l) + 1);
  l_objects : map_Forall (fun _ o => object_ok (mod_id l) o) (tsxs l);
  l_maps : forall k a, represents true (htable l) !! k = Some a <->
    exists o, tsxs l !! a = Some o /\ live o /\ norm true (transaction_key o) = k
}.

Section Invariant.
Context {E : TsxEnv}.

Lemma key_bytes_slen k : zlen k < PJ_HASH_KEY_STRING -> key_bytes k (slen k) = k.
Proof.
  intros Hk. pose proof (zlen_nonneg k). unfold slen, key_bytes, PJ_HASH_KEY_STRING in *.
  rewrite u32_small by (unfold is_u32; lia).
  destruct (Z.eqb_spec (zlen k) 4294967295); [lia|].
  unfold zlen. rewrite Nat2Z.id. apply take_ge. done.
Qed.

Lemma hash_key_calc k : hash_key k = calc true k.
Proof. done. Qed.

(** Looking a key up. *)
Lemma lookup_key l k : layer_wf l -> zlen k < PJ_HASH_KEY_STRING ->
  match (pj_hash_get_lower (htable l) k (slen k) 0).1 with
  | Some a => exists o, tsxs l !! a = Some o /\ live o /\ norm true (transaction_key o) = norm true k
  | None => forall a o, tsxs l !! a = Some o -> live o -> norm true (transaction_key o) <> norm true k
  end.
Proof.
  intros Hl Hk. unfold pj_hash_get_lower.
  rewrite (hash_get_map true) by first [apply Hl|by left]. rewrite key_bytes_slen by done. cbn [fst].
  destruct (represents true (htable l) !! norm true k) as [a|] eqn:Ha.
  - by apply (l_maps _ Hl).
  - intros a o Ho Hlive Hn. assert (represents true (htable l) !! norm true k = Some a); [|congruence].
    apply (l_maps _ Hl). eauto.
Qed.

(** Two live transactions have different keys. *)
Lemma keys_distinct l a b o o' : layer_wf l -> tsxs l !! a = Some o -> tsxs l !! b = Some o' ->
  live o -> live o' -> norm true (transaction_key o) = norm true (transaction_key o') -> a = b.
Proof.
  intros Hl Ha Hb Hlo Hlo' Hn.
  assert (represents true (htable l) !! norm true (transaction_key o) = Some a) as H1
    by (apply (l_maps _ Hl); eauto).
  assert (represents true (htable l) !! norm true (transaction_key o) = Some b) as H2
    by (apply (l_maps _ Hl); eauto).
  congruence.
Qed.

(** The change a step makes to one transaction. *)
Definition steps_to (t t' : pjsip_transaction) : Prop :=
  tsx_wf t' /\ role t' = role t /\ mod_tsx_layer_id t' = mod_tsx_layer_id t /\
  (unregs t' = unregs t /\
     (state t' = PJSIP_TSX_STATE_DESTROYED <-> state t = PJSIP_TSX_STATE_DESTROYED) \/
   unregs t' = S (unregs t) /\ state t' = PJSIP_TSX_STATE_DESTROYED /\
     state t <> PJSIP_TSX_STATE_DESTROYED).

Lemma steps_to_ok id o t' : object_ok id o -> steps_to (machine o) t' ->
  object_ok id (o <| machine := t' |>).
Proof.
  intros [Hw Hi Hu Hr Hlen Hh] (Hw' & Hr' & Hi' & Hcase).
  constructor; try done; change (machine (o <| machine := t' |>)) with t'.
  - by rewrite Hi'.
  - unfold live in *. change (machine (o <| machine := t' |>)) with t'.
    destruct Hcase as [[-> Hs]|(-> & Hs & Hs')]; rewrite Hu; repeat case_decide; naive_solver.
  - by rewrite Hr'.
Qed.

(** Removing a live key from the table. *)
Lemma unregister_live l o a : layer_wf l -> tsxs l !! a = Some o -> live o ->
  exists ht, unregister_key o (htable l) = Some ht /\ hash_wf true ht /\
    is_u32 (count ht + 1) /\
    represents true ht = delete (norm true (transaction_key o)) (represents true (htable l)).
Proof.
  intros Hl Ho Hlive. pose proof (l_objects _ Hl _ _ Ho) as Hok.
  unfold unregister_key, pj_hash_set_lower.
  pose proof (hash_set_map true false (htable l) (transaction_key o) (slen (transaction_key o))
    (hashed_key o) None) as H. cbv zeta in H.
  rewrite key_bytes_slen in H by apply Hok. specialize (H (l_table _ Hl)).
  rewrite (o_hash _ _ Hok) in H |- *. specialize (H (or_intror eq_refl) (l_room _ Hl)).
  destruct (hash_set _ _ _ _ _ _ _) as [ht|]; [|naive_solver].
  destruct H as (Hw & _ & Hc & Hr & _). exists ht. split; [done|]. split; [done|].
  split; [|done]. pose proof (l_room _ Hl) as Hroom. clear Hc.
  change (represents true ht = delete (norm true (transaction_key o)) (represents true (htable l)))
    in Hr.
  pose proof (represents_size _ _ Hw) as Hs. rewrite Hr in Hs.
  pose proof (represents_size _ _ (l_table _ Hl)) as Hs0.
  assert (size (delete (norm true (transaction_key o)) (represents true (htable l))) <=
          size (represents true (htable l)))%nat by (apply map_subseteq_size, delete_subseteq).
  unfold is_u32 in *. lia.
Qed.

(** [on_tsx] with the number of removals known. *)
Lemma on_tsx_run a f l o t' n : tsxs l !! a = Some o -> f (machine o) = Some t' ->
  (unregs t' - unregs (machine o))%nat = n ->
  on_tsx a f l = match unregister_times n o (htable l) with
                 | Some ht => Some (TsxLayer (mod_id l) ht (<[a := o <| machine := t' |>]> (tsxs l)))
                 | None => None
                 end.
Proof. intros Ho Hf <-. unfold on_tsx. rewrite Ho. cbn [mbind option_bind]. by rewrite Hf. Qed.

Lemma on_tsx_ok l a o f t' : layer_wf l -> tsxs l !! a = Some o -> f (machine o) = Some t' ->
  steps_to (machine o) t' ->
  exists l', on_tsx a f l = Some l' /\ layer_wf l' /\ mod_id l' = mod_id l /\
    tsxs l' = <[a := o <| machine := t' |>]> (tsxs l).
Proof.
  intros Hl Ho Hf Hst. pose proof (l_objects _ Hl _ _ Ho) as Hok.
  pose proof (steps_to_ok _ _ _ Hok Hst) as Hok'.
  destruct Hst as (_ & _ & _ & [[Hu Hs]|(Hu & Hs & Hs')]).
  - rewrite (on_tsx_run _ _ _ _ _ 0 Ho Hf) by lia. cbn [unregister_times].
    eexists. split; [reflexivity|]. split; [|done].
    destruct Hl as [Hid Ht Hroom Hobj Hm]. constructor; cbn [tsxs mod_id htable]; try done.
    + by apply map_Forall_insert_2.
    + intros k b. rewrite Hm. destruct (decide (a = b)) as [<-|Hne];
        [rewrite Ho, lookup_insert_eq|by rewrite lookup_insert_ne].
      unfold live. split; intros (x & [= <-] & Hlx & Hk); eexists; (split; [done|]); cbn in *; naive_solver.
  - assert (Hlive : live o) by done.
    destruct (unregister_live _ _ _ Hl Ho Hlive) as (ht & Hr & Hw & Hc & Hrep).
    rewrite (on_tsx_run _ _ _ _ _ 1 Ho Hf) by lia. cbn [unregister_times].
    rewrite Hr. cbn [mbind option_bind].
    eexists. split; [reflexivity|]. split; [|done].
    pose proof (keys_distinct l) as Hd.
    constructor; cbn [tsxs mod_id htable]; [apply Hl|done|done|apply map_Forall_insert_2; [done|apply Hl]|].
    intros k b. rewrite Hrep, lookup_delete_Some, (l_maps _ Hl).
    split.
    + intros (Hne & x & Hx & Hlx & Hk). assert (a <> b) by (intros <-; congruence).
      exists x. by rewrite lookup_insert_ne.
    + intros (x & Hx & Hlx & Hk). destruct (decide (a = b)) as [<-|Hne].
      * rewrite lookup_insert_eq in Hx. injection Hx as <-. by unfold live in Hlx.
      * rewrite lookup_insert_ne in Hx by done. split; [|eauto]. intros Heq. apply Hne.
        eapply Hd; [done..|]. congruence.
Qed.

Lemma quiet_steps_to t t' : tsx_wf t -> quiet (status_code t) t t' -> calm t t' ->
  has_flag t TSX_HAS_PENDING_DESTROY = false -> steps_to t t'.
Proof.
  intros Hw Hq Hc Hf. destruct (Hc Hf) as (Hu & Hi & _ & _).
  split; [by eapply (tsx_wf_quiet (status_code t)); [done..|left]|].
  split; [by destruct (quiet_base _ _ _ Hq)|]. split; [done|]. left. split; [done|].
  by rewrite (q_state _ _ _ Hq).
Qed.

(** The references of the layer do not matter to the machine, whatever is pending on it. *)
Lemma refs_steps_to t n : tsx_wf t -> steps_to t (t <| grp_lock_refs := n |>).
Proof.
  intros Hw. split; [|split; [done|split; [done|by left]]].
  eapply (tsx_wf_quiet (status_code t)); [exact Hw| |by left]. by constructor.
Qed.

Lemma event_steps_to ev t t' : env_sane -> tsx_wf t -> event_ok ev t ->
  has_flag t TSX_HAS_PENDING_DESTROY = false -> mod_tsx_layer_id t <> -1 ->
  tsx_step ev t = Some t' -> steps_to t t'.
Proof.
  intros Hsane Hw Hev Hf Hid Hstep.
  destruct (tsx_step_ok ev t Hsane Hw Hev) as (t1 & Hstep' & Hw' & Hr & _ & Hmv).
  assert (t1 = t') as -> by congruence. split; [done|]. split; [done|].
  destruct (tsx_step_passes _ _ _ Hf Hstep) as [Hc|[(Hs & Hi & Hu) Hh]].
  - destruct (Hc Hf) as (Hu & Hi & _ & Hd). split; [done|]. left. split; [done|].
    split; [done|]. intros Hs. destruct Hmv as [->|Hedge]; [done|].
    apply rfc_edge_up in Hedge. rewrite Hs in Hedge.
    destruct Hedge as [Hlt|[_ ?]]; [by destruct (state t')|done].
  - split; [done|]. right. split; [auto|]. split; [done|].
    intros Hs'. rewrite (b_handler _ (proj1 Hw)), Hs' in Hh. by destruct (role t).
Qed.

(** Registering a new transaction. *)
Lemma register_ok l a o : layer_wf l -> tsxs l !! a = None -> object_ok (mod_id l) o -> live o ->
  is_u32 (count (htable l) + 2) ->
  (exists b x, tsxs l !! b = Some x /\ live x /\
     norm true (transaction_key x) = norm true (transaction_key o) /\
     mod_tsx_layer_register_tsx a o l = Some (l, PJ_EEXISTS)) \/
  (forall b x, tsxs l !! b = Some x -> live x ->
     norm true (transaction_key x) <> norm true (transaction_key o)) /\
  exists ht, mod_tsx_layer_register_tsx a o l =
      Some (TsxLayer (mod_id l) ht (<[a := o]> (tsxs l)), PJ_SUCCESS) /\
    layer_wf (TsxLayer (mod_id l) ht (<[a := o]> (tsxs l))).
Proof.
  intros Hl Ha Hok Hlive Hroom. unfold mod_tsx_layer_register_tsx. cbv zeta.
  pose proof (lookup_key l (transaction_key o) Hl (o_len _ _ Hok)) as Hget.
  destruct (pj_hash_get_lower _ _ _ _).1 as [b|].
  { destruct Hget as (x & Hx & Hlx & Hk). left. eauto 6. }
  right. split; [exact Hget|].
  pose proof (hash_set_map true true (htable l) (transaction_key o) (slen (transaction_key o))
    (hashed_key o) (Some a)) as H. cbv zeta in H.
  rewrite key_bytes_slen in H by apply Hok. specialize (H (l_table _ Hl)).
  unfold pj_hash_set_lower. rewrite (o_hash _ _ Hok) in H |- *.
  specialize (H (or_intror eq_refl) (l_room _ Hl)).
  destruct (hash_set _ _ _ _ _ _ _) as [ht|]; [|naive_solver].
  destruct H as (Hw & _ & Hc & Hr & _). exists ht. cbn [mbind option_bind]. split; [done|].
  constructor; cbn [mod_id htable tsxs].
  - apply Hl.
  - done.
  - pose proof (h_count _ _ Hw). pose proof (zlen_nonneg (entries ht)). unfold is_u32 in *. lia.
  - apply map_Forall_insert_2; [done|apply Hl].
  - change (represents true ht =
      <[norm true (transaction_key o) := a]> (represents true (htable l))) in Hr.
    intros k b. rewrite Hr, lookup_insert_Some, (l_maps _ Hl). split.
    + intros [[<- <-]|(Hne & x & Hx & Hlx & Hk)].
      * exists o. by rewrite lookup_insert_eq.
      * exists x. rewrite lookup_insert_ne by (intros ->; congruence). done.
    + intros (x & Hx & Hlx & Hk). apply lookup_insert_Some in Hx as [[<- <-]|[Hne Hx]]; [by left|].
      right. split; [|eauto]. intros <-. by eapply Hget.
Qed.

(** ** Dispatch *)

Lemma key_head r m rdata k : pjsip_tsx_create_key r m rdata = Some (inl k) ->
  head k = Some (role_char r).
Proof.
  unfold pjsip_tsx_create_key, create_tsx_key_2543. destruct (rx_via rdata) as [via|]; [|done].
  destruct (is_rfc3261 _); [by intros [= <-]|].
  destruct (rx_cseq rdata), (rx_from_tag rdata); try done. by intros [= <-].
Qed.

Lemma head_role k k' r r' : norm true k = norm true k' ->
  head k = Some (role_char r) -> head k' = Some (role_char r') -> r = r'.
Proof.
  intros Hn Hr Hr'. destruct k as [|c k], k' as [|c' k']; try done.
  injection Hr as ->. injection Hr' as ->. unfold norm in Hn.
  injection Hn as _ _ Hc. destruct r, r'; try done; cbn in Hc; discriminate.
Qed.

(** The message has a key [k] that fits the table. *)
Definition carries (r : pjsip_role_e) (rdata : pjsip_rx_data) (k : list Z) : Prop :=
  exists cseq, rx_cseq rdata = Some cseq /\
    pjsip_tsx_create_key r (cseq_hdr_method cseq) rdata = Some (inl k) /\
    zlen k < PJ_HASH_KEY_STRING.

(** Requests go to servers, responses with a proper status code to clients. *)
Definition message_for (r : pjsip_role_e) (m : pjsip_msg) : Prop :=
  match r, m with
  | PJSIP_ROLE_UAS, PJSIP_REQUEST_MSG _ => True
  | PJSIP_ROLE_UAC, PJSIP_RESPONSE_MSG c => 100 <= c < 700
  | _, _ => False
  end.

(** The live transaction with the key of a message, and what it does with it. *)
Definition delivers_to (r : pjsip_role_e) (rdata : pjsip_rx_data) (k : list Z) (l : mod_tsx_layer)
    (a : Z) (o : tsx_object) : Prop :=
  tsxs l !! a = Some o /\ live o /\ norm true (transaction_key o) = norm true k /\
  role (machine o) = r /\
  (state (machine o) = PJSIP_TSX_STATE_TERMINATED /\
     mod_tsx_layer_on_rx r rdata l = Some (l, false) \/
   state (machine o) <> PJSIP_TSX_STATE_TERMINATED /\
     exists t l', pjsip_tsx_recv_msg (rx_msg rdata) (pj_grp_lock_add_ref (machine o)) = Some t /\
       mod_tsx_layer_on_rx r rdata l = Some (l', true) /\ layer_wf l' /\ mod_id l' = mod_id l /\
       tsxs l' = <[a := o <| machine := pj_grp_lock_dec_ref t |>]> (tsxs l)).

Lemma recv_counted m r o : env_sane -> tsx_wf (machine o) -> live o ->
  mod_tsx_layer_id (machine o) <> -1 -> role (machine o) = r -> message_for r m ->
  exists t, pjsip_tsx_recv_msg m (pj_grp_lock_add_ref (machine o)) = Some t /\
    steps_to (pj_grp_lock_add_ref (machine o)) t.
Proof.
  intros Hsane Hw Hlive Hid Hr Hm. set (t1 := pj_grp_lock_add_ref (machine o)).
  assert (tsx_wf t1) as Hw1 by apply (refs_steps_to _ (1 + grp_lock_refs (machine o)) Hw).
  assert (event_ok (ev_recv m) t1) as Hev.
  { assert (role t1 = r) as Hr1 by done. unfold event_ok. rewrite Hr1. by destruct r, m. }
  destruct (tsx_step_ok (ev_recv m) t1 Hsane Hw1 Hev) as (t & Hstep & _). exists t.
  split; [done|]. eapply (event_steps_to (ev_recv m)); try done.
  by apply (no_destroy_flag t1 (proj1 Hw1)).
Qed.

Lemma on_rx_ok r rdata k l : env_sane -> layer_wf l -> carries r rdata k ->
  message_for r (rx_msg rdata) ->
  (exists a o, delivers_to r rdata k l a o) \/
  (forall a o, tsxs l !! a = Some o -> live o -> norm true (transaction_key o) <> norm true k) /\
  mod_tsx_layer_on_rx r rdata l = Some (l, false).
Proof.
  intros Hsane Hl (cseq & Hcs & Hk & Hlen) Hm. unfold delivers_to, mod_tsx_layer_on_rx.
  rewrite Hcs. cbn [mbind option_bind]. rewrite Hk. cbn [mbind option_bind].
  pose proof (lookup_key l k Hl Hlen) as Hget.
  destruct (pj_hash_get_lower _ _ _ _).1 as [a|]; [left|right; by split].
  destruct Hget as (o & Ho & Hlive & Hn). exists a, o.
  split; [done|]. split; [done|]. split; [done|].
  pose proof (l_objects _ Hl _ _ Ho) as Hok. cbv beta in Hok.
  assert (role (machine o) = r) as Hr.
  { eapply head_role; [exact Hn|apply Hok|by eapply key_head]. }
  split; [done|]. rewrite Ho. cbn [mbind option_bind].
  destruct (decide (state (machine o) = PJSIP_TSX_STATE_TERMINATED)) as [Hs|Hs];
    [left; by rewrite bool_decide_eq_true_2|right]. split; [done|].
  rewrite bool_decide_eq_false_2 by done.
  destruct (recv_counted (rx_msg rdata) r o) as (t & Ht & Hst); try done; [apply Hok| |].
  { rewrite (o_id _ _ Hok). apply Hl. }
  exists t.
  destruct (on_tsx_ok l a o (fun t => Some (pj_grp_lock_add_ref t)) (pj_grp_lock_add_ref (machine o)))
    as (l1 & -> & Hl1 & Hid1 & Hx1); [done..|apply refs_steps_to, Hok|]. cbn [mbind option_bind].
  destruct (on_tsx_ok l1 a (o <| machine := pj_grp_lock_add_ref (machine o) |>)
    (pjsip_tsx_recv_msg (rx_msg rdata)) t)
    as (l2 & -> & Hl2 & Hid2 & Hx2); [done|by rewrite Hx1, lookup_insert_eq|done..|].
  cbn [mbind option_bind]. rewrite Hx1, insert_insert_eq in Hx2.
  destruct (on_tsx_ok l2 a (o <| machine := t |>) (fun t => Some (pj_grp_lock_dec_ref t))
    (pj_grp_lock_dec_ref t)) as (l3 & -> & Hl3 & Hid3 & Hx3);
    [done|by rewrite Hx2, lookup_insert_eq|done|apply refs_steps_to, Hst|].
  rewrite Hx2, insert_insert_eq in Hx3. exists l3. split_and!; try done. congruence.
Qed.

(** ** Creation *)

Definition fresh (id : Z) (r : pjsip_role_e) (t : pjsip_transaction) : Prop :=
  tsx_wf t /\ state t = PJSIP_TSX_STATE_NULL /\ unregs t = 0%nat /\ mod_tsx_layer_id t = id /\
  role t = r.

Lemma create_uac_fresh user d rel id t : pjsip_tsx_create_uac2 user d rel id = inl t ->
  fresh id PJSIP_ROLE_UAC t.
Proof.
  intros H. split; [apply created_wf; by econstructor|]. unfold pjsip_tsx_create_uac2 in H.
  destruct (msg d); [|done]. case_bool_decide; [done|]. by injection H as <-.
Qed.

Lemma create_uas_fresh user m tp rel id t : pjsip_tsx_create_uas2 user m tp rel id = inl t ->
  fresh id PJSIP_ROLE_UAS t.
Proof.
  intros H. split; [apply created_wf; by econstructor|]. unfold pjsip_tsx_create_uas2 in H.
  destruct m as [m|]; [|done]. case_bool_decide; [done|]. cbv zeta in H. apply (inj inl) in H as <-.
  set (t0 := (tsx_create user PJSIP_ROLE_UAS m id) <| res_addr_transport := tp |>).
  destruct tp as [tp|]; [|done].
  assert (calm t0 (tsx_update_transport (Some tp) t0)) as Hc by calm_ops.
  destruct (Hc eq_refl) as (Hu & Hi & _ & _).
  pose proof (quiet_update_transport (Some tp) _ _ _ (quiet_refl t0)) as Hq.
  destruct (quiet_base _ _ _ Hq) as (Hr & _ & _ & Hs).
  split; [exact Hs|]. split; [exact Hu|]. split; [exact Hi|exact Hr].
Qed.

Lemma fresh_object id r t k : fresh id r t -> head k = Some (role_char r) ->
  zlen k < PJ_HASH_KEY_STRING -> object_ok id (TsxObject t k (hash_key k)) /\
  live (TsxObject t k (hash_key k)).
Proof.
  intros (Hw & Hs & Hu & Hi & Hr) Hk Hlen.
  assert (live (TsxObject t k (hash_key k))) as Hlive by (unfold live; cbn; by rewrite Hs).
  split; [|done]. constructor; cbn [machine transaction_key hashed_key]; try done.
  - by rewrite decide_True.
  - by rewrite Hr.
Qed.

(** What entering a new transaction under the key [k] comes to. *)
Definition entered (a : Z) (o : tsx_object) (l : mod_tsx_layer)
    (r : option (mod_tsx_layer * Z * option pjsip_transaction)) : Prop :=
  (exists b x, tsxs l !! b = Some x /\ live x /\
     norm true (transaction_key x) = norm true (transaction_key o) /\
     r = Some (l, PJ_EEXISTS, Some (tsx_shutdown (machine o)))) \/
  (forall b x, tsxs l !! b = Some x -> live x ->
     norm true (transaction_key x) <> norm true (transaction_key o)) /\
  exists l', r = Some (l', PJ_SUCCESS, None) /\ layer_wf l' /\ mod_id l' = mod_id l /\
    tsxs l' = <[a := o]> (tsxs l).

Lemma enter_table_ok l a o : layer_wf l -> tsxs l !! a = None -> object_ok (mod_id l) o -> live o ->
  is_u32 (count (htable l) + 2) -> entered a o l (enter_table a o l).
Proof.
  intros Hl Ha Hok Hlive Hroom. unfold enter_table, entered.
  destruct (register_ok l a o Hl Ha Hok Hlive Hroom)
    as [(b & x & Hx & Hlx & Hk & ->)|(Hno & ht & -> & Hw)]; cbn [mbind option_bind].
  - left. by exists b, x.
  - right. split; [done|]. eexists. done.
Qed.

(** The room a creation needs: an address, a place in the count, a key that fits. *)
Definition creation_ok (a : Z) (l : mod_tsx_layer) : Prop :=
  tsxs l !! a = None /\ is_u32 (count (htable l) + 2).

Definition uac_branch (branch unique : list Z) : list Z :=
  if zlen branch =? 0 then PJSIP_RFC3261_BRANCH_ID ++ [80; 106] ++ unique else branch.

Lemma create_uac_ok a user d m branch unique b t l : layer_wf l -> creation_ok a l ->
  let k := create_tsx_key_3261 PJSIP_ROLE_UAC m (uac_branch branch unique) in
  zlen k < PJ_HASH_KEY_STRING -> pjsip_tsx_create_uac2 user d b (mod_id l) = inl t ->
  entered a (TsxObject t k (hash_key k)) l
    (tsx_layer_create_uac a user d true m branch unique (inl b) l).
Proof.
  intros Hl [Ha Hroom] k Hlen Ht. unfold tsx_layer_create_uac. cbv zeta. rewrite Ht. cbn [negb].
  fold (uac_branch branch unique). fold k.
  destruct (fresh_object (mod_id l) PJSIP_ROLE_UAC t k) as [Hok Hlive];
    [by eapply create_uac_fresh|done|done|]. by apply enter_table_ok.
Qed.

Lemma create_uas_ok a user m rdata cseq via p k t l : layer_wf l -> creation_ok a l ->
  rx_cseq rdata = Some cseq -> rx_via rdata = Some via ->
  pjsip_method_cmp m (cseq_hdr_method cseq) = 0 ->
  pjsip_tsx_create_key PJSIP_ROLE_UAS m rdata = Some (inl k) -> zlen k < PJ_HASH_KEY_STRING ->
  pjsip_tsx_create_uas2 user (rx_msg rdata) p.1 p.2 (mod_id l) = inl t ->
  entered a (TsxObject t k (hash_key k)) l (tsx_layer_create_uas a user m rdata (inl p) l).
Proof.
  intros Hl [Ha Hroom] Hcs Hv Hm Hk Hlen Ht. destruct p as [tp rel]. cbn [fst snd] in Ht.
  unfold tsx_layer_create_uas. rewrite Ht, Hcs, Hv, Hm. cbn [negb Z.eqb]. rewrite Hk.
  cbn [mbind option_bind].
  destruct (fresh_object (mod_id l) PJSIP_ROLE_UAS t k) as [Hok Hlive];
    [by eapply create_uas_fresh|by eapply key_head|done|]. by apply enter_table_ok.
Qed.

Lemma entered_wf a o l r : layer_wf l -> entered a o l r ->
  exists l' st x, r = Some (l', st, x) /\ layer_wf l' /\ mod_id l' = mod_id l.
Proof.
  intros Hl [(b & x & _ & _ & _ & ->)|(_ & l' & -> & Hw & Hid & _)]; eauto 6.
Qed.

(** ** Runs *)

(** What the callers see to: a new transaction has an address of its own and
    room in the table, a received message has the headers of its key, the events
    of a transaction are those of [event_ok], and none comes to a transaction
    whose shutdown is pending. *)
Definition layer_event_ok (ev : layer_event) (l : mod_tsx_layer) : Prop :=
  match ev with
  | le_create_uac a _ _ _ m branch unique _ =>
      creation_ok a l /\
      zlen (create_tsx_key_3261 PJSIP_ROLE_UAC m (uac_branch branch unique)) < PJ_HASH_KEY_STRING
  | le_create_uas a _ m rdata _ =>
      creation_ok a l /\
      forall k, pjsip_tsx_create_key PJSIP_ROLE_UAS m rdata = Some (inl k) ->
        zlen k < PJ_HASH_KEY_STRING
  | le_rx_request rdata =>
      message_for PJSIP_ROLE_UAS (rx_msg rdata) /\ exists k, carries PJSIP_ROLE_UAS rdata k
  | le_rx_response rdata =>
      message_for PJSIP_ROLE_UAC (rx_msg rdata) /\ exists k, carries PJSIP_ROLE_UAC rdata k
  | le_tsx a ev =>
      exists o, tsxs l !! a = Some o /\ event_ok ev (machine o) /\
        has_flag (machine o) TSX_HAS_PENDING_DESTROY = false
  end.

Lemma on_rx_wf r rdata k l : env_sane -> layer_wf l -> carries r rdata k ->
  message_for r (rx_msg rdata) ->
  exists l' took, mod_tsx_layer_on_rx r rdata l = Some (l', took) /\ layer_wf l' /\
    mod_id l' = mod_id l.
Proof.
  intros Hsane Hl Hk Hm.
  destruct (on_rx_ok r rdata k l Hsane Hl Hk Hm)
    as [(a & o & _ & _ & _ & _ & [[_ ->]|(_ & t & l' & _ & -> & Hw & Hid & _)])|[_ ->]]; eauto.
Qed.

Lemma create_uac_wf a user d has m branch unique dest l : layer_wf l ->
  layer_event_ok (le_create_uac a user d has m branch unique dest) l ->
  exists l' st x, tsx_layer_create_uac a user d has m branch unique dest l = Some (l', st, x) /\
    layer_wf l' /\ mod_id l' = mod_id l.
Proof.
  intros Hl [Hc Hlen]. destruct (pjsip_tsx_create_uac2 user d
    (match dest with inl b => b | inr _ => false end) (mod_id l)) as [t|st] eqn:Ht.
  - destruct has; [|unfold tsx_layer_create_uac; rewrite Ht; cbn; eauto 6].
    destruct dest as [b|st]; [|unfold tsx_layer_create_uac; rewrite Ht; cbn; eauto 6].
    eapply entered_wf; [done|]. by apply create_uac_ok.
  - unfold tsx_layer_create_uac. rewrite Ht. eauto 6.
Qed.

Lemma create_uas_wf a user m rdata addr l : layer_wf l ->
  layer_event_ok (le_create_uas a user m rdata addr) l ->
  exists l' st x, tsx_layer_create_uas a user m rdata addr l = Some (l', st, x) /\
    layer_wf l' /\ mod_id l' = mod_id l.
Proof.
  intros Hl [Hc Hlen].
  destruct (match addr with inl p => p | inr _ => (None, false) end) as [tp rel] eqn:Hp.
  destruct (pjsip_tsx_create_uas2 user (rx_msg rdata) tp rel (mod_id l)) as [t|st] eqn:Ht.
  2: { unfold tsx_layer_create_uas. rewrite Hp, Ht. eauto 6. }
  destruct (rx_cseq rdata) as [cseq|] eqn:Hcs.
  2: { unfold tsx_layer_create_uas. rewrite Hp, Ht, Hcs. eauto 6. }
  destruct (rx_via rdata) as [via|] eqn:Hv.
  2: { unfold tsx_layer_create_uas. rewrite Hp, Ht, Hcs, Hv. eauto 6. }
  destruct (Z.eqb_spec (pjsip_method_cmp m (cseq_hdr_method cseq)) 0) as [Hm|Hm].
  2: { unfold tsx_layer_create_uas. rewrite Hp, Ht, Hcs, Hv, (proj2 (Z.eqb_neq _ _) Hm). eauto 6. }
  assert (exists x, pjsip_tsx_create_key PJSIP_ROLE_UAS m rdata = Some x) as [[k|st] Hk].
  { unfold pjsip_tsx_create_key. rewrite Hv. eauto. }
  2: { unfold tsx_layer_create_uas. rewrite Hp, Ht, Hcs, Hv, Hm, Hk. cbn. eauto 6. }
  destruct addr as [p|st].
  - subst p. eapply entered_wf; [done|]. by eapply create_uas_ok; eauto.
  - injection Hp as <- <-. unfold tsx_layer_create_uas. rewrite Ht, Hcs, Hv, Hm, Hk. cbn. eauto 6.
Qed.

Lemma layer_step_ok ev l : env_sane -> layer_wf l -> layer_event_ok ev l ->
  exists l', layer_step ev l = Some l' /\ layer_wf l' /\ mod_id l' = mod_id l.
Proof.
  intros Hsane Hl Hev. destruct ev as [a u d h m b q dest|a u m rdata addr|rdata|rdata|a ev];
    cbn [layer_step].
  - destruct (create_uac_wf _ _ _ _ _ _ _ _ _ Hl Hev) as (l' & st & x & -> & Hw & Hid). by exists l'.
  - destruct (create_uas_wf _ _ _ _ _ _ Hl Hev) as (l' & st & x & -> & Hw & Hid). by exists l'.
  - destruct Hev as [Hm [k Hk]].
    destruct (on_rx_wf _ _ _ _ Hsane Hl Hk Hm) as (l' & took & H & Hw & Hid).
    unfold mod_tsx_layer_on_rx_request. rewrite H. by exists l'.
  - destruct Hev as [Hm [k Hk]].
    destruct (on_rx_wf _ _ _ _ Hsane Hl Hk Hm) as (l' & took & H & Hw & Hid).
    unfold mod_tsx_layer_on_rx_response. rewrite H. by exists l'.
  - destruct Hev as (o & Ho & Hev & Hf). pose proof (l_objects _ Hl _ _ Ho) as Hok. cbv beta in Hok.
    destruct (tsx_step_ok ev (machine o) Hsane (o_wf _ _ Hok) Hev) as (t & Hstep & _).
    destruct (on_tsx_ok l a o (tsx_step ev) t) as (l' & H & Hw & Hid & _); [done..| |eauto].
    eapply event_steps_to; try done; [apply Hok|]. rewrite (o_id _ _ Hok). apply Hl.
Qed.

Inductive layer_reachable : mod_tsx_layer -> Prop :=
  | layer_init max_count id l :
      0 <= max_count <= 2 ^ 31 -> id <> -1 ->
      pjsip_tsx_layer_init_module max_count id = Some l -> layer_reachable l
  | layer_next ev l l' :
      layer_reachable l -> layer_event_ok ev l -> layer_step ev l = Some l' -> layer_reachable l'.

Lemma layer_run_wf l : env_sane -> layer_reachable l -> layer_wf l.
Proof.
  intros Hsane. induction 1 as [max_count id l Hmax Hid Hinit|ev l l' _ IH Hev Hstep].
  - unfold pjsip_tsx_layer_init_module in Hinit.
    destruct (pj_hash_create 28 max_count) as [ht|] eqn:Hc; [|done]. injection Hinit as <-.
    unfold pj_hash_create in Hc. destruct (grow_size 28 8 max_count) as [n|]; [|done].
    apply (inj Some) in Hc. destruct (hash_created_wf (V := Z) true (u32 (n - 1))) as [Hw Hr];
      [apply u32_range|]. rewrite Hc in Hw, Hr.
    constructor; cbn [mod_id htable tsxs]; try done.
    + by rewrite <- Hc.
    + intros k a. rewrite Hr. split; [done|]. by intros (o & ? & _).
  - destruct (layer_step_ok ev l Hsane IH Hev) as (l1 & Hstep' & Hw & _). congruence.
Qed.

(** ** Stopping *)

(** Terminated, with everything it held released. *)
Definition stopped (t t' : pjsip_transaction) : Prop :=
  state t' = PJSIP_TSX_STATE_TERMINATED /\
  status_code t' = (if state t <s PJSIP_TSX_STATE_TERMINATED then PJSIP_SC_SERVICE_UNAVAILABLE
                    else status_code t) /\
  terminating t' = true /\ last_tx t' = None /\ transport t' = None /\
  running (retransmit_timer t') = None /\ running (timeout_timer t') = None.

Lemma terminate_shape t : state t <> PJSIP_TSX_STATE_DESTROYED ->
  let t1 := (pjsip_tsx_terminate PJSIP_SC_SERVICE_UNAVAILABLE t).1 in
  calm t t1 /\ state t1 = PJSIP_TSX_STATE_TERMINATED /\
  status_code t1 = (if state t <s PJSIP_TSX_STATE_TERMINATED then PJSIP_SC_SERVICE_UNAVAILABLE
                    else status_code t).
Proof.
  intros Hnd. unfold pjsip_tsx_terminate. cbn [fst negb Z.geb Z.compare PJSIP_SC_SERVICE_UNAVAILABLE].
  change (negb (PJSIP_SC_SERVICE_UNAVAILABLE >=? 200)) with false. cbv iota zeta. cbn [fst].
  destruct (state t <s PJSIP_TSX_STATE_TERMINATED) eqn:Hs.
  - split; [calm_ops|].
    destruct (set_state_ends PJSIP_EVENT_USER _ _ _
      (quiet_status PJSIP_SC_SERVICE_UNAVAILABLE _ _ _ (quiet_refl t))) as [_ H1 _ H2 _ _ _]. done.
  - split; [apply calm_refl|]. split; [|done]. by destruct (state t).
Qed.

Lemma stop_tsx_ok t : state t <> PJSIP_TSX_STATE_DESTROYED -> mod_tsx_layer_id t <> -1 ->
  has_flag t TSX_HAS_PENDING_DESTROY = false ->
  stopped t (stop_tsx t) /\ unregs (stop_tsx t) = S (unregs t).
Proof.
  intros Hnd Hid Hf. destruct (terminate_shape t Hnd) as (Hc & Hs & Hsc). cbv zeta in *.
  unfold stop_tsx. set (t1 := (pjsip_tsx_terminate _ t).1) in *. clearbody t1.
  destruct (Hc Hf) as (Hu & Hi & Hf1 & _). set (t2 := mod_tsx_layer_unregister_tsx t1).
  assert (unregs t2 = S (unregs t1) /\ has_flag t2 TSX_HAS_PENDING_DESTROY = false /\
    state t2 = state t1 /\ status_code t2 = status_code t1) as (Hu2 & Hf2 & Hs2 & Hsc2).
  { subst t2. unfold mod_tsx_layer_unregister_tsx.
    by rewrite (proj2 (Z.eqb_neq _ _)) by congruence. }
  clearbody t2. destruct (shutdown_unregs t2 Hf2) as (Hu3 & _ & _).
  destruct (tsx_shutdown_shut t2) as [Hfix Hterm Hl Htp [Hrt Hto]].
  pose proof (f_equal snd Hfix) as Hsc3. pose proof (f_equal (fun x => x.1.1.2) Hfix) as Hs3.
  cbn [fst snd] in *. unfold stopped. split; [|congruence].
  split_and!; try done; congruence.
Qed.

(** Some of the live transactions are still in the table. *)
Record stopping (l : mod_tsx_layer) : Prop := Stopping {
  p_id : mod_id l <> -1;
  p_table : hash_wf true (htable l);
  p_room : is_u32 (count (htable l));
  p_addrs : NoDup (value <$> entries (htable l));
  p_entries : forall e, e ∈ entries (htable l) ->
    exists o, tsxs l !! value e = Some o /\ object_ok (mod_id l) o /\ live o /\
      norm true (transaction_key o) = norm_key true e
}.

Lemma stop_one l it e rest : stopping l -> points (htable l) it [] e rest ->
  exists l' o, tsxs l !! value e = Some o /\
    on_tsx (value e) (fun t => Some (stop_tsx t)) l = Some l' /\
    stopping l' /\ mod_id l' = mod_id l /\ stopped (machine o) (stop_tsx (machine o)) /\
    tsxs l' = <[value e := o <| machine := stop_tsx (machine o) |>]> (tsxs l) /\
    entries (htable l') = rest /\
    forall it' e' rest', points (htable l) it' [e] e' rest' -> points (htable l') it' [] e' rest'.
Proof.
  intros [Hid Hw Hroom Haddrs Hent] Hp. pose proof (points_entries _ _ _ _ _ Hp) as He.
  cbn [app] in He. destruct (Hent e) as (o & Ho & Hok & Hlive & Hn); [rewrite He; by left|].
  destruct (stop_tsx_ok (machine o)) as [Hst Hu]; [done|by rewrite (o_id _ _ Hok)| |].
  { apply no_destroy_flag; [apply Hok|done]. }
  destruct (hash_remove_pointed true false (htable l) it [] e rest (transaction_key o)
    (slen (transaction_key o)) (hashed_key o)) as (ht & Hset & Hw' & He' & Hnext).
  { done. } { done. } { by rewrite key_bytes_slen by apply Hok. }
  { right. rewrite key_bytes_slen by apply Hok. apply Hok. } { done. }
  exists (TsxLayer (mod_id l) ht
    (<[value e := o <| machine := stop_tsx (machine o) |>]> (tsxs l))), o.
  rewrite (on_tsx_run _ _ _ o (stop_tsx (machine o)) 1 Ho eq_refl) by lia.
  clear Hu. generalize dependent (stop_tsx (machine o)). intros t' Hst.
  cbn [unregister_times]. unfold unregister_key, pj_hash_set_lower. rewrite Hset.
  cbn [mbind option_bind htable mod_id tsxs]. split; [done|]. split; [reflexivity|].
  split; [|split; [reflexivity|split; [exact Hst|split; [reflexivity|split; [exact He'|exact Hnext]]]]].
  rewrite He in Haddrs, Hent. cbn [fmap list_fmap] in Haddrs.
  apply NoDup_cons in Haddrs as [Hnot Haddrs].
  constructor; cbn [mod_id htable tsxs]; try done.
  - rewrite (h_count _ _ Hw'), He'. rewrite (h_count _ _ Hw), He in Hroom.
    unfold zlen, is_u32 in Hroom |- *. cbn [length app] in Hroom |- *. lia.
  - by rewrite He'.
  - rewrite He'. cbn [app]. intros e' Hin. destruct (Hent e') as (o' & Ho' & H); [by right|].
    exists o'. rewrite lookup_insert_ne; [done|]. intros Heq. apply Hnot. rewrite Heq.
    by apply list_elem_of_fmap_2.
Qed.

Lemma stop_loop_ok fuel l it rest : stopping l -> entries (htable l) = rest ->
  (match rest with [] => it = None | e :: r => exists i, it = Some i /\ points (htable l) i [] e r end) ->
  (length rest <= fuel)%nat ->
  exists l', stop_loop fuel it l = Some l' /\ entries (htable l') = [] /\ hash_wf true (htable l') /\
    forall a o, tsxs l !! a = Some o ->
      exists o', tsxs l' !! a = Some o' /\ transaction_key o' = transaction_key o /\
        if decide (a ∈ value <$> rest) then stopped (machine o) (machine o') else o' = o.
Proof.
  revert l it rest. induction fuel as [|fuel IH]; intros l it rest Hl He Hit Hf.
  - destruct rest; [|cbn in Hf; lia]. subst it. exists l. split; [done|]. split; [done|].
    split; [apply Hl|]. intros a o Ho. by exists o.
  - destruct rest as [|e rest].
    + subst it. exists l. split; [done|]. split; [done|]. split; [apply Hl|].
      intros a o Ho. by exists o.
    + destruct Hit as (i & -> & Hp). cbn [stop_loop].
      rewrite (hash_this_spec true _ _ _ _ _ (p_table _ Hl) Hp). cbn [mbind option_bind].
      destruct (stop_one _ _ _ _ Hl Hp) as (l1 & o1 & Ho1 & Hon & Hl1 & _ & Hst & Hx & He1 & Hnext).
      rewrite Hon. cbn [mbind option_bind].
      pose proof (hash_next_spec true _ _ _ _ _ (p_table _ Hl) Hp) as Hn. cbn [app] in Hn.
      pose proof (p_addrs _ Hl) as Hnd. rewrite He in Hnd. cbn [fmap list_fmap] in Hnd.
      apply NoDup_cons in Hnd as [Hnot _].
      destruct (IH l1 (pj_hash_next (htable l) i) rest Hl1 He1) as (l' & Hstop & Hemp & Hw & Hall).
      { destruct rest as [|e' rest]; [done|]. destruct Hn as (i' & -> & Hp'). eauto. }
      { cbn in Hf. lia. }
      exists l'. split; [done|]. split; [done|]. split; [done|]. intros a o Ho.
      destruct (decide (a = value e)) as [->|Hne].
      * assert (o = o1) as -> by congruence.
        destruct (Hall (value e) (o1 <| machine := stop_tsx (machine o1) |>)) as (o' & Ho' & Hk & Hd);
          [by rewrite Hx, lookup_insert_eq|].
        exists o'. split; [done|]. split; [done|]. rewrite decide_False in Hd by done. subst o'.
        by rewrite decide_True by (by left).
      * destruct (Hall a o) as (o' & Ho' & Hk & Hd); [by rewrite Hx, lookup_insert_ne|].
        exists o'. split; [done|]. split; [done|]. cbn [fmap list_fmap].
        destruct (decide (a ∈ value <$> rest)) as [Hin|Hni].
        -- by rewrite decide_True by (by right).
        -- rewrite decide_False; [done|]. by intros [->|?]%elem_of_cons.
Qed.

(** The entries of a table and the transactions they point at. *)
Lemma entry_represents l e : layer_wf l -> e ∈ entries (htable l) ->
  represents true (htable l) !! norm_key true e = Some (value e).
Proof.
  intros Hl He. apply elem_of_list_to_map_1.
  - rewrite binding_keys. apply (l_table _ Hl).
  - apply list_elem_of_fmap. by exists e.
Qed.

Lemma wf_stopping l : layer_wf l -> stopping l.
Proof.
  intros Hl.
  assert (forall e, e ∈ entries (htable l) -> exists o, tsxs l !! value e = Some o /\
    object_ok (mod_id l) o /\ live o /\ norm true (transaction_key o) = norm_key true e) as Hent.
  { intros e He. pose proof (entry_represents _ _ Hl He) as Hr.
    apply (l_maps _ Hl) in Hr as (o & Ho & Hlive & Hk). exists o. split; [done|].
    split; [by apply (l_objects _ Hl) in Ho|done]. }
  constructor; [apply Hl|apply Hl| | |exact Hent].
  - pose proof (l_room _ Hl). rewrite (h_count _ _ (l_table _ Hl)) in *.
    pose proof (zlen_nonneg (entries (htable l))). unfold is_u32 in *. lia.
  - set (key_at := fun a => match tsxs l !! a with
                            | Some o => norm true (transaction_key o) | None => (0, 0, []) end).
    apply (NoDup_fmap_1 key_at). rewrite <- list_fmap_compose.
    replace (key_at ∘ value <$> entries (htable l)) with (norm_key true <$> entries (htable l));
      [apply (l_table _ Hl)|]. apply list_fmap_ext. intros i e He.
    apply list_elem_of_lookup_2 in He. destruct (Hent e He) as (o & Ho & _ & _ & Hk).
    unfold key_at, compose. by rewrite Ho.
Qed.

Lemma table_addresses l a : layer_wf l ->
  a ∈ value <$> entries (htable l) <-> exists o, tsxs l !! a = Some o /\ live o.
Proof.
  intros Hl. rewrite list_elem_of_fmap. split.
  - intros (e & -> & He). destruct (p_entries _ (wf_stopping _ Hl) _ He) as (o & Ho & _ & Hlive & _).
    eauto.
  - intros (o & Ho & Hlive).
    assert (represents true (htable l) !! norm true (transaction_key o) = Some a) as Hr
      by (apply (l_maps _ Hl); eauto).
    unfold represents in Hr. apply elem_of_list_to_map_2 in Hr.
    apply list_elem_of_fmap in Hr as (e & Heq & He). exists e. split; [|done].
    by apply (f_equal snd) in Heq.
Qed.

#[export] Instance live_dec o : Decision (live o).
Proof. unfold live. apply _. Defined.

Definition live_tsxs (l : mod_tsx_layer) : gmap Z tsx_object := filter (fun p => live p.2) (tsxs l).

Lemma count_live l : layer_wf l -> pjsip_tsx_layer_get_tsx_count l = Z.of_nat (size (live_tsxs l)).
Proof.
  intros Hl. unfold pjsip_tsx_layer_get_tsx_count, pj_hash_count.
  rewrite (h_count _ _ (l_table _ Hl)). unfold zlen. f_equal.
  rewrite <- (size_dom (D := gset Z)), <- (length_fmap value).
  rewrite <- (size_list_to_set (C := gset Z)) by apply (p_addrs _ (wf_stopping _ Hl)).
  f_equal. apply set_eq. intros a. rewrite elem_of_list_to_set, table_addresses by done.
  unfold live_tsxs. rewrite elem_of_dom. split.
  - intros (o & Ho & Hlive). exists o. by apply map_lookup_filter_Some.
  - intros [o Ho]. apply map_lookup_filter_Some in Ho as [Ho Hlive]. eauto.
Qed.

Lemma find_live l a o : layer_wf l -> tsxs l !! a = Some o -> live o ->
  (pj_hash_get_lower (htable l) (transaction_key o) (slen (transaction_key o)) 0).1 = Some a.
Proof.
  intros Hl Ho Hlive. pose proof (l_objects _ Hl _ _ Ho) as Hok. cbv beta in Hok.
  pose proof (lookup_key l (transaction_key o) Hl (o_len _ _ Hok)) as H.
  destruct (pj_hash_get_lower _ _ _ _).1 as [b|].
  - destruct H as (x & Hx & Hlx & Hk). f_equal. by eapply keys_distinct.
  - by destruct (H a o).
Qed.

End Invariant.

(** ** What the layer guarantees *)

Section Guarantees.
Context {E : TsxEnv}.

(** C4: In every layer a run reaches, the table holds exactly the live
    transactions, each found under its key, no two under one key, and the count is
    their number; every object has the invariant of its state machine, the hash
    value of its key, and was taken out of the table once if it is destroyed and
    never before; and every allowed event has its effect without a dangling
    pointer or a null handler. *)
Theorem layer_reachable_wf l : env_sane -> layer_reachable l ->
  (forall a o, tsxs l !! a = Some o -> object_ok (mod_id l) o /\
     (live o -> (pj_hash_get_lower (htable l) (transaction_key o)
                   (slen (transaction_key o)) 0).1 = Some a)) /\
  (forall k a, represents true (htable l) !! k = Some a -> exists o,
     tsxs l !! a = Some o /\ live o /\ norm true (transaction_key o) = k) /\
  pjsip_tsx_layer_get_tsx_count l = Z.of_nat (size (live_tsxs l)) /\
  forall ev, layer_event_ok ev l -> is_Some (layer_step ev l).
Proof.
  intros Hsane Hr. pose proof (layer_run_wf l Hsane Hr) as Hl. split; [|split; [|split]].
  - intros a o Ho. split; [by apply (l_objects _ Hl) in Ho|]. by apply find_live.
  - intros k a. apply (l_maps _ Hl).
  - by apply count_live.
  - intros ev Hev. destruct (layer_step_ok ev l Hsane Hl Hev) as (l' & -> & _). by eexists.
Qed.

(** What a key holds decides. *)
Lemma dispatch_by_key r rdata l a o cseq via tag r0 m0 rdata0 via0 cseq0 tag0 :
  env_sane -> layer_reachable l ->
  message_ok (cseq_hdr_method cseq) rdata via cseq tag -> message_for r (rx_msg rdata) ->
  (exists k, carries r rdata k) ->
  tsxs l !! a = Some o -> live o -> message_ok m0 rdata0 via0 cseq0 tag0 ->
  pjsip_tsx_create_key r0 m0 rdata0 = Some (inl (transaction_key o)) ->
  exists l' took, mod_tsx_layer_on_rx r rdata l = Some (l', took) /\
    (identity r (cseq_hdr_method cseq) rdata via cseq tag = identity r0 m0 rdata0 via0 cseq0 tag0 ->
     if decide (state (machine o) = PJSIP_TSX_STATE_TERMINATED) then took = false /\ l' = l
     else took = true /\ exists t,
       pjsip_tsx_recv_msg (rx_msg rdata) (pj_grp_lock_add_ref (machine o)) = Some t /\
       tsxs l' = <[a := o <| machine := pj_grp_lock_dec_ref t |>]> (tsxs l)) /\
    (identity r (cseq_hdr_method cseq) rdata via cseq tag <> identity r0 m0 rdata0 via0 cseq0 tag0 ->
     tsxs l' !! a = Some o).
Proof.
  intros Hsane Hr Hok Hm [k Hk] Ho Hlive Hok0 Hk0. pose proof (layer_run_wf l Hsane Hr) as Hl.
  assert (norm true k = norm true (transaction_key o) <->
    identity r (cseq_hdr_method cseq) rdata via cseq tag = identity r0 m0 rdata0 via0 cseq0 tag0)
    as Hid.
  { destruct Hk as (cs & Hcs & Hkey & _). rewrite (ok_cseq _ _ _ _ _ Hok) in Hcs.
    injection Hcs as <-. by apply key_identity. }
  destruct (on_rx_ok r rdata k l Hsane Hl Hk Hm)
    as [(b & x & Hx & Hlx & Hn & _ & Hcase)|[Hno ->]].
  - destruct (decide (a = b)) as [<-|Hne].
    + assert (x = o) as -> by congruence. destruct Hcase as [[Hs ->]|(Hs & t & l' & Ht & -> & _ & _ & Hx')].
      * exists l, false. split; [done|]. by rewrite decide_True.
      * exists l', true. split; [done|]. rewrite decide_False by done. split; [by eauto|].
        intros Hneq. exfalso. by apply Hneq, Hid.
    + assert (norm true k <> norm true (transaction_key o)) as Hneq.
      { intros Heq. apply Hne. eapply keys_distinct; [done|exact Ho|exact Hx|done|done|congruence]. }
      destruct Hcase as [[_ ->]|(_ & t & l' & _ & -> & _ & _ & Hx')].
      * exists l, false. split; [done|]. split; [by intros ?%Hid|done].
      * exists l', true. split; [done|]. split; [by intros ?%Hid|]. intros _.
        by rewrite Hx', lookup_insert_ne.
  - exists l, false. split; [done|]. split; [|done]. intros ?%Hid.
    exfalso. by eapply Hno; [exact Ho|..].
Qed.

(** C9: A received message goes to the transaction it belongs to. Let [o] at [a]
    be a live transaction whose key is that of [rdata0], the message it was made
    from. A message [rdata] that the rules of RFC 3261 (17.1.3, 17.2.3) match to
    [rdata0] is given to [o], and no other object changes; when [o] is in
    Terminated the message is passed over. A message that the rules do not match
    leaves [o] alone if it agrees with [rdata0] in what a key leaves out (the
    sent-by with the magic cookie, the Request-URI, the To tag and the branch without,
    the case of methods and Call-IDs; for a client, that branches have the cookie
    and methods are not ACK), where the layer does not tell them apart. Exactly: [o]
    gets [rdata] when the two agree in what a key holds, and only then. *)
Theorem layer_dispatch r rdata l a o cseq via tag r0 m0 rdata0 via0 cseq0 tag0 :
  env_sane -> layer_reachable l ->
  message_ok (cseq_hdr_method cseq) rdata via cseq tag -> message_for r (rx_msg rdata) ->
  (exists k, carries r rdata k) ->
  tsxs l !! a = Some o -> live o -> message_ok m0 rdata0 via0 cseq0 tag0 ->
  pjsip_tsx_create_key r0 m0 rdata0 = Some (inl (transaction_key o)) ->
  exists l' took, mod_tsx_layer_on_rx r rdata l = Some (l', took) /\
    let given :=
      if decide (state (machine o) = PJSIP_TSX_STATE_TERMINATED) then took = false /\ l' = l
      else took = true /\ exists t,
        pjsip_tsx_recv_msg (rx_msg rdata) (pj_grp_lock_add_ref (machine o)) = Some t /\
        tsxs l' = <[a := o <| machine := pj_grp_lock_dec_ref t |>]> (tsxs l) in
    (forall uri to_tag uri0 to_tag0,
       let x := rfc_of (cseq_hdr_method cseq) rdata via cseq tag uri to_tag in
       let x0 := rfc_of m0 rdata0 via0 cseq0 tag0 uri0 to_tag0 in
       (r = r0 -> rfc3261_match r x x0 -> given) /\
       (agree_beyond_key r x x0 -> ~ (r = r0 /\ rfc3261_match r x x0) -> tsxs l' !! a = Some o)) /\
    (identity r (cseq_hdr_method cseq) rdata via cseq tag = identity r0 m0 rdata0 via0 cseq0 tag0 ->
     given) /\
    (identity r (cseq_hdr_method cseq) rdata via cseq tag <> identity r0 m0 rdata0 via0 cseq0 tag0 ->
     tsxs l' !! a = Some o).
Proof.
  intros Hsane Hr Hok Hm Hk Ho Hlive Hok0 Hk0.
  destruct (dispatch_by_key r rdata l a o cseq via tag r0 m0 rdata0 via0 cseq0 tag0)
    as (l' & took & Hrx & Hin & Hout); try done.
  exists l', took. split; [done|]. intros given. split; [|done]. intros uri to_tag uri0 to_tag0 x x0.
  split.
  - intros <- Hmatch. apply Hin. by eapply match_identity.
  - intros Hrest Hno. apply Hout. intros Heq. apply Hno.
    assert (r = r0) as <- by (unfold identity in Heq; repeat case_match; congruence).
    split; [done|]. by eapply identity_match.
Qed.

(** Stopping the module ends, on a table of any size, with an empty table:
    every live transaction is Terminated, with 503 unless it already was, its
    timers stopped and its message and transport released, no other is touched;
    and the module can then be unloaded. *)
Lemma layer_stop_spec l fuel : env_sane -> layer_reachable l ->
  pjsip_tsx_layer_get_tsx_count l <= Z.of_nat fuel ->
  exists l', mod_tsx_layer_stop fuel l = Some l' /\
    pjsip_tsx_layer_get_tsx_count l' = 0 /\ mod_tsx_layer_unload l' = PJ_SUCCESS /\
    forall a o, tsxs l !! a = Some o ->
      exists o', tsxs l' !! a = Some o' /\ transaction_key o' = transaction_key o /\
        if decide (live o) then stopped (machine o) (machine o') else o' = o.
Proof.
  intros Hsane Hr Hfuel. pose proof (layer_run_wf l Hsane Hr) as Hl.
  unfold pjsip_tsx_layer_get_tsx_count, pj_hash_count in Hfuel.
  rewrite (h_count _ _ (l_table _ Hl)) in Hfuel.
  destruct (stop_loop_ok fuel l (pj_hash_first (htable l)) (entries (htable l)))
    as (l' & Hstop & Hemp & Hw & Hall).
  { by apply wf_stopping. } { done. } { apply hash_first_spec. } { unfold zlen in Hfuel. lia. }
  exists l'. split; [exact Hstop|].
  assert (count (htable l') = 0) as Hc by (by rewrite (h_count _ _ Hw), Hemp).
  unfold pjsip_tsx_layer_get_tsx_count, mod_tsx_layer_unload, pj_hash_count. rewrite Hc.
  split; [done|]. split; [done|]. intros a o Ho.
  destruct (Hall a o Ho) as (o' & Ho' & Hk & Hd). exists o'. split; [done|]. split; [done|].
  destruct (decide (live o)) as [Hlive|Hdead].
  - rewrite decide_True in Hd; [done|]. apply table_addresses; eauto.
  - rewrite decide_False in Hd; [done|]. rewrite table_addresses by done.
    intros (x & Hx & Hlx). assert (x = o) as -> by congruence. done.
Qed.

(** Creating a server transaction for a request whose key is taken fails with
    PJ_EEXISTS: the layer is left as it was and the new transaction is shut down;
    otherwise it enters the table, where its key finds it, and counts. *)
Lemma layer_create_uas_spec l a user m rdata cseq via p k t :
  env_sane -> layer_reachable l -> creation_ok a l ->
  rx_cseq rdata = Some cseq -> rx_via rdata = Some via ->
  pjsip_method_cmp m (cseq_hdr_method cseq) = 0 ->
  pjsip_tsx_create_key PJSIP_ROLE_UAS m rdata = Some (inl k) -> zlen k < PJ_HASH_KEY_STRING ->
  pjsip_tsx_create_uas2 user (rx_msg rdata) p.1 p.2 (mod_id l) = inl t ->
  match represents true (htable l) !! norm true k with
  | Some _ =>
      tsx_layer_create_uas a user m rdata (inl p) l = Some (l, PJ_EEXISTS, Some (tsx_shutdown t))
  | None =>
      exists l', tsx_layer_create_uas a user m rdata (inl p) l = Some (l', PJ_SUCCESS, None) /\
        tsxs l' = <[a := TsxObject t k (hash_key k)]> (tsxs l) /\
        (pj_hash_get_lower (htable l') k (slen k) 0).1 = Some a /\
        pjsip_tsx_layer_get_tsx_count l' = pjsip_tsx_layer_get_tsx_count l + 1
  end.
Proof.
  intros Hsane Hr Hc Hcs Hv Hm Hk Hlen Ht. pose proof (layer_run_wf l Hsane Hr) as Hl.
  destruct (create_uas_ok a user m rdata cseq via p k t l Hl Hc Hcs Hv Hm Hk Hlen Ht)
    as [(b & x & Hx & Hlx & Hkx & ->)|(Hno & l' & -> & Hl' & Hid & Hx)];
    cbn [transaction_key machine] in *.
  - by rewrite (proj2 (l_maps _ Hl (norm true k) b)) by eauto.
  - destruct (represents true (htable l) !! norm true k) as [b|] eqn:Hb.
    { apply (l_maps _ Hl) in Hb as (x & Hxb & Hlx & Hkx). by destruct (Hno b x). }
    set (o := TsxObject t k (hash_key k)) in *.
    assert (live o) as Hlive.
    { destruct (create_uas_fresh _ _ _ _ _ _ Ht) as (_ & Hs & _). unfold live. cbn. by rewrite Hs. }
    assert (tsxs l' !! a = Some o) as Ho by (by rewrite Hx, lookup_insert_eq).
    exists l'. split; [done|]. split; [done|]. split; [exact (find_live l' a o Hl' Ho Hlive)|].
    rewrite !count_live by done. unfold live_tsxs. rewrite Hx, map_filter_insert_True by done.
    rewrite map_size_insert_None; [lia|]. apply map_lookup_filter_None. left. apply Hc.
Qed.

End Guarantees.

(** ** A layer with one server transaction *)

Definition demo_request (via : pjsip_via_hdr) : pjsip_rx_data :=
  RxData (PJSIP_REQUEST_MSG PJSIP_INVITE_METHOD) (Some via) (Some (CSeq 1 invite)) (Some [116])
    [105; 100].
Definition demo_addr : option pjsip_transport * bool := (Some udp, false).
Definition empty_layer : mod_tsx_layer := TsxLayer 3 (HashTable (V := Z) (replicate 16 []) 0 15) ∅.
Definition demo_create : layer_event :=
  le_create_uas 1000 (Some user) invite (demo_request demo_via) (inl demo_addr).
Definition demo_layer : mod_tsx_layer :=
  default empty_layer (@layer_step env_udp demo_create empty_layer).
Definition demo_object : tsx_object :=
  default (TsxObject uas_created [] 0) (tsxs demo_layer !! 1000).

Lemma demo_request_ok via : via = demo_via \/ via = demo_via_up ->
  message_ok invite (demo_request via) via (CSeq 1 invite) [116].
Proof. intros H. destruct (demo_answer_ok via H). by constructor. Qed.

Lemma demo_carries via : via = demo_via \/ via = demo_via_up ->
  exists k, carries PJSIP_ROLE_UAS (demo_request via) k.
Proof.
  intros [-> | ->]; eexists; eexists; (split; [reflexivity|split; [reflexivity|reflexivity]]).
Qed.

Lemma demo_layer_reachable : @layer_reachable env_udp demo_layer.
Proof.
  apply (layer_next demo_create empty_layer).
  - apply (layer_init 16 3); [lia|lia|reflexivity].
  - split; [split; [reflexivity|]|].
    + change (count (htable empty_layer)) with 0. unfold is_u32. lia.
    + intros k Hk. assert (k = create_tsx_key_3261 PJSIP_ROLE_UAS invite (branch_param demo_via)) as ->
        by (injection Hk as <-; reflexivity). reflexivity.
  - vm_compute. reflexivity.
Qed.

Lemma demo_object_at : tsxs demo_layer !! 1000 = Some demo_object /\ live demo_object /\
  state (machine demo_object) <> PJSIP_TSX_STATE_TERMINATED /\
  pjsip_tsx_create_key PJSIP_ROLE_UAS invite (demo_request demo_via) =
    Some (inl (transaction_key demo_object)).
Proof.
  assert (state (machine demo_object) = PJSIP_TSX_STATE_NULL) as Hs by (vm_compute; reflexivity).
  split; [vm_compute; reflexivity|]. unfold live. rewrite Hs. split; [done|]. split; [done|].
  vm_compute. reflexivity.
Qed.

Lemma layer_reachable_wf_witness :
  pjsip_tsx_layer_get_tsx_count demo_layer = 1 /\
  pjsip_tsx_layer_get_tsx_count demo_layer = Z.of_nat (size (live_tsxs demo_layer)) /\
  is_Some (@layer_step env_udp (le_rx_request (demo_request demo_via_up)) demo_layer).
Proof.
  destruct (@layer_reachable_wf env_udp demo_layer env_udp_sane demo_layer_reachable)
    as (_ & _ & Hc & Hev).
  split; [vm_compute; reflexivity|]. split; [exact Hc|]. apply Hev.
  split; [exact I|]. apply demo_carries. by right.
Defined.

Lemma layer_dispatch_witness :
  exists l' t, @mod_tsx_layer_on_rx env_udp PJSIP_ROLE_UAS (demo_request demo_via_up) demo_layer =
      Some (l', true) /\
    tsxs l' = <[1000 := demo_object <| machine := pj_grp_lock_dec_ref t |>]> (tsxs demo_layer).
Proof.
  destruct demo_object_at as (Ho & Hlive & Hs & Hk).
  destruct (@layer_dispatch env_udp PJSIP_ROLE_UAS (demo_request demo_via_up) demo_layer 1000
    demo_object (CSeq 1 invite) demo_via_up [116] PJSIP_ROLE_UAS invite (demo_request demo_via)
    demo_via (CSeq 1 invite) [116]) as (l' & took & Hrx & Hsame & _).
  - exact env_udp_sane.
  - exact demo_layer_reachable.
  - apply demo_request_ok. by right.
  - exact I.
  - apply demo_carries. by right.
  - exact Ho.
  - exact Hlive.
  - apply demo_request_ok. by left.
  - exact Hk.
  - destruct (Hsame [] [] [] []) as [Hgiven _].
    assert (rfc3261_match PJSIP_ROLE_UAS
      (rfc_of invite (demo_request demo_via_up) demo_via_up (CSeq 1 invite) [116] [] [])
      (rfc_of invite (demo_request demo_via) demo_via (CSeq 1 invite) [116] [] [])) as Hmatch.
    { split; [reflexivity|]. split; [split; reflexivity|]. split; [right; split; left; reflexivity|].
      left. exists [65; 49]. reflexivity. }
    specialize (Hgiven eq_refl Hmatch). rewrite decide_False in Hgiven by exact Hs.
    destruct Hgiven as (-> & t & _ & Hx). exists l', t. split; [exact Hrx|exact Hx].
Defined.

Lemma layer_stop_spec_witness :
  exists l', mod_tsx_layer_stop 1 demo_layer = Some l' /\
    pjsip_tsx_layer_get_tsx_count l' = 0 /\ mod_tsx_layer_unload l' = PJ_SUCCESS.
Proof.
  destruct (@layer_stop_spec env_udp demo_layer 1 env_udp_sane demo_layer_reachable)
    as (l' & H1 & H2 & H3 & _); [vm_compute; discriminate|].
  exists l'. split; [exact H1|]. split; [exact H2|exact H3].
Defined.

(** The retransmitted request finds its key taken. *)
Lemma layer_create_uas_spec_witness :
  exists t, tsx_layer_create_uas 2000 (Some user) invite (demo_request demo_via_up)
    (inl demo_addr) demo_layer = Some (demo_layer, PJ_EEXISTS, Some (tsx_shutdown t)).
Proof.
  set (t := match pjsip_tsx_create_uas2 (Some user) (PJSIP_REQUEST_MSG PJSIP_INVITE_METHOD)
                    (Some udp) false 3 with inl t => t | inr _ => uas_created end).
  exists t.
  pose proof (@layer_create_uas_spec env_udp demo_layer 2000 (Some user) invite
    (demo_request demo_via_up) (CSeq 1 invite) demo_via_up demo_addr
    (create_tsx_key_3261 PJSIP_ROLE_UAS invite (branch_param demo_via_up)) t
    env_udp_sane demo_layer_reachable) as H.
  assert (creation_ok 2000 demo_layer) as Hc.
  { split; [vm_compute; reflexivity|].
    assert (count (htable demo_layer) = 1) as -> by (vm_compute; reflexivity). unfold is_u32. lia. }
  specialize (H Hc eq_refl eq_refl eq_refl eq_refl eq_refl eq_refl).
  assert (represents true (htable demo_layer) !!
    norm true (create_tsx_key_3261 PJSIP_ROLE_UAS invite (branch_param demo_via_up)) = Some 1000)
    as Hrep by (vm_compute; reflexivity).
  rewrite Hrep in H. exact H.
Defined.
