(* ===== verification/StunMsg.v ===== *)
(** * STUN messages (pjnath/src/pjnath/stun_msg.c, pjnath/include/pjnath/stun_msg.h)

    The attributes of a message, the tables of their descriptors, their encoders
    and decoders, and the messages made of them.  An attribute is a value; the
    pointers of the source to one attribute from two places of a message are not
    modelled.  A buffer to write is the list of its bytes, and an encoder is given
    the place in it; [None] is a write outside it, or the use of an attribute
    as one of another kind.  A packet to read is the list of the bytes of memory
    from its start on. *)

From Stdlib Require Import Strings.String.
From S2P Require Import Prelude Mem PjString Crc32 Sha1.
Open Scope string_scope.
Open Scope list_scope.
Open Scope Z_scope.

(** ** Data *)

Definition PJ_STUN_MAGIC : Z := 0x2112A442.
Definition PJ_STUN_MAX_ATTR : Z := 16.
Definition STUN_XOR_FINGERPRINT : Z := 0x5354554e.

Definition PJ_STATUS_FROM_STUN_CODE (code : Z) : pj_status := PJNATH_STATUS code.
Definition PJNATH_EINSTUNMSGLEN : pj_status := PJNATH_STATUS 2.
Definition PJNATH_EINSTUNMSGTYPE : pj_status := PJNATH_STATUS 3.
Definition PJNATH_ESTUNTOOMANYATTR : pj_status := PJNATH_STATUS 21.
Definition PJNATH_ESTUNINATTRLEN : pj_status := PJNATH_STATUS 22.
Definition PJNATH_ESTUNDUPATTR : pj_status := PJNATH_STATUS 23.
Definition PJNATH_ESTUNFINGERPRINT : pj_status := PJNATH_STATUS 30.
Definition PJNATH_ESTUNMSGINTPOS : pj_status := PJNATH_STATUS 31.
Definition PJNATH_ESTUNFINGERPOS : pj_status := PJNATH_STATUS 33.
Definition PJNATH_EINVAF : pj_status := PJNATH_STATUS 42.

Definition PJ_STUN_IS_REQUEST (msg_type : Z) : bool := Z.land msg_type 0x0110 =? 0x0000.
Definition PJ_STUN_IS_SUCCESS_RESPONSE (msg_type : Z) : bool := Z.land msg_type 0x0110 =? 0x0100.
Definition PJ_STUN_IS_ERROR_RESPONSE (msg_type : Z) : bool := Z.land msg_type 0x0110 =? 0x0110.
Definition PJ_STUN_IS_RESPONSE (msg_type : Z) : bool := Z.land msg_type 0x0100 =? 0x0100.
Definition PJ_STUN_IS_INDICATION (msg_type : Z) : bool := Z.land msg_type 0x0110 =? 0x0010.
Definition PJ_STUN_GET_METHOD (msg_type : Z) : Z := Z.land msg_type 0xFEEF.
Definition PJ_STUN_SUCCESS_RESPONSE_BIT : Z := 0x0100.
Definition PJ_STUN_ERROR_RESPONSE_BIT : Z := 0x0110.

Definition PJ_STUN_ATTR_USERNAME : Z := 0x0006.
Definition PJ_STUN_ATTR_MESSAGE_INTEGRITY : Z := 0x0008.
Definition PJ_STUN_ATTR_ERROR_CODE : Z := 0x0009.
Definition PJ_STUN_ATTR_UNKNOWN_ATTRIBUTES : Z := 0x000A.
Definition PJ_STUN_ATTR_REALM : Z := 0x0014.
Definition PJ_STUN_ATTR_NONCE : Z := 0x0015.
Definition PJ_STUN_ATTR_END_MANDATORY_ATTR : Z := 0x0031.
Definition PJ_STUN_ATTR_START_EXTENDED_ATTR : Z := 0x8021.
Definition PJ_STUN_ATTR_SOFTWARE : Z := 0x8022.
Definition PJ_STUN_ATTR_FINGERPRINT : Z := 0x8028.
Definition PJ_STUN_ATTR_END_EXTENDED_ATTR : Z := 0x802b.

Definition PJ_STUN_SC_BAD_REQUEST : Z := 400.
Definition PJ_STUN_SC_UNAUTHORIZED : Z := 401.
Definition PJ_STUN_SC_UNKNOWN_ATTRIBUTE : Z := 420.
Definition PJ_STUN_SC_STALE_NONCE : Z := 438.
Definition PJ_STUN_SC_SERVER_ERROR : Z := 500.

Definition PJ_STUN_IS_DATAGRAM : Z := 1.
Definition PJ_STUN_CHECK_PACKET : Z := 2.
Definition PJ_STUN_NO_FINGERPRINT_CHECK : Z := 8.

Record pj_stun_msg_hdr := MsgHdr { h_type : Z; h_length : Z; h_magic : Z; h_tsx_id : list Z }.
#[export] Instance eta_stun_msg_hdr : Eta pj_stun_msg_hdr := fun r =>
  MsgHdr (h_type r) (h_length r) (h_magic r) (h_tsx_id r).

Record pj_stun_attr_hdr := AttrHdr { a_type : Z; a_length : Z }.

(** Ports and IPv4 addresses as their fields hold them, in network order. *)
Inductive stun_sockaddr :=
  | SockIn (sin_port s_addr : Z)
  | SockIn6 (sin6_port : Z) (s6_addr : list Z)
  | SockOther (sa_family : Z).

(** The structures of attributes, each with its header first.  The length of a
    string, of binary data and of a list of types is that of the list. *)
Inductive pj_stun_attr :=
  | SockaddrAttr (hdr : pj_stun_attr_hdr) (xor_ed : bool) (sockaddr : stun_sockaddr)
  | EmptyAttr (hdr : pj_stun_attr_hdr)
  | StringAttr (hdr : pj_stun_attr_hdr) (value : list Z)
  | UintAttr (hdr : pj_stun_attr_hdr) (value : Z)
  | Uint64Attr (hdr : pj_stun_attr_hdr) (hi lo : Z)
  | BinaryAttr (hdr : pj_stun_attr_hdr) (magic : Z) (data : list Z)
  | MsgintAttr (hdr : pj_stun_attr_hdr) (hmac : list Z)
  | ErrcodeAttr (hdr : pj_stun_attr_hdr) (err_code : Z) (reason : list Z)
  | UnknownAttr (hdr : pj_stun_attr_hdr) (attrs : list Z).

Definition attr_hdr (a : pj_stun_attr) : pj_stun_attr_hdr :=
  match a with
  | SockaddrAttr h _ _ | EmptyAttr h | StringAttr h _ | UintAttr h _ | Uint64Attr h _ _
  | BinaryAttr h _ _ | MsgintAttr h _ | ErrcodeAttr h _ _ | UnknownAttr h _ => h
  end.
Definition attr_type (a : pj_stun_attr) : Z := a_type (attr_hdr a).
Definition attr_length (a : pj_stun_attr) : Z := a_length (attr_hdr a).

(** [attr_count] is the length of the list. *)
Record pj_stun_msg := StunMsg { msg_hdr : pj_stun_msg_hdr; attrs : list pj_stun_attr }.
#[export] Instance eta_stun_msg : Eta pj_stun_msg := fun r => StunMsg (msg_hdr r) (attrs r).
Definition msg_type (msg : pj_stun_msg) : Z := h_type (msg_hdr msg).

(** ** The tables *)

(** The functions of a descriptor, by the kind of attribute they are for. *)
Inductive attr_kind :=
  | K_sockaddr | K_xored_sockaddr | K_string | K_uint | K_uint64 | K_empty
  | K_msgint | K_errcode | K_unknown | K_binary.

#[export] Instance attr_kind_eq_dec : EqDecision attr_kind.
Proof. solve_decision. Defined.

(** [None] is a row of null pointers. *)
Definition attr_desc : Type := option (string * attr_kind).

Definition mandatory_attr_desc : list attr_desc :=
  [ None;
    Some ("MAPPED-ADDRESS", K_sockaddr); Some ("RESPONSE-ADDRESS", K_sockaddr);
    Some ("CHANGE-REQUEST", K_uint); Some ("SOURCE-ADDRESS", K_sockaddr);
    Some ("CHANGED-ADDRESS", K_sockaddr); Some ("USERNAME", K_string);
    Some ("PASSWORD", K_string); Some ("MESSAGE-INTEGRITY", K_msgint);
    Some ("ERROR-CODE", K_errcode); Some ("UNKNOWN-ATTRIBUTES", K_unknown);
    Some ("REFLECTED-FROM", K_sockaddr); Some ("CHANNEL-NUMBER", K_uint);
    Some ("LIFETIME", K_uint); None (* 0x000E *);
    Some ("MAGIC-COOKIE", K_uint); Some ("BANDWIDTH", K_uint); None (* 0x0011 *);
    Some ("XOR-PEER-ADDRESS", K_xored_sockaddr); Some ("DATA", K_binary);
    Some ("REALM", K_string); Some ("NONCE", K_string);
    Some ("XOR-RELAYED-ADDRESS", K_xored_sockaddr);
    Some ("REQUESTED-ADDRESS-FAMILY", K_uint); Some ("EVEN-PORT", K_uint);
    Some ("REQUESTED-TRANSPORT", K_uint); Some ("DONT-FRAGMENT", K_empty);
    None; None; None; None; None (* 0x001B to 0x001F *);
    Some ("XOR-MAPPED-ADDRESS", K_xored_sockaddr); Some ("TIMER-VAL", K_uint);
    Some ("RESERVATION-TOKEN", K_uint64); Some ("XOR-REFLECTED-FROM", K_xored_sockaddr);
    Some ("PRIORITY", K_uint); Some ("USE-CANDIDATE", K_empty);
    None; None; None; None (* 0x0026 to 0x0029 *);
    Some ("CONNECTION-ID", K_uint);
    None; None; None; None; None (* 0x002b to 0x002f *);
    Some ("ICMP", K_uint);
    None (* the sentinel *) ].

Definition extended_attr_desc : list attr_desc :=
  [ None;
    Some ("SOFTWARE", K_string); Some ("ALTERNATE-SERVER", K_sockaddr);
    Some ("REFRESH-INTERVAL", K_uint); None; None; None (* 0x8025 to 0x8027 *);
    Some ("FINGERPRINT", K_uint); Some ("ICE-CONTROLLED", K_uint64);
    Some ("ICE-CONTROLLING", K_uint64) ].

Definition find_attr_desc (attr_type : Z) : attr_desc :=
  if attr_type <? PJ_STUN_ATTR_END_MANDATORY_ATTR
  then nth (Z.to_nat attr_type) mandatory_attr_desc None
  else if (attr_type >=? PJ_STUN_ATTR_START_EXTENDED_ATTR) &&
          (attr_type <? PJ_STUN_ATTR_END_EXTENDED_ATTR)
  then nth (Z.to_nat (attr_type - PJ_STUN_ATTR_START_EXTENDED_ATTR)) extended_attr_desc None
  else None.

Definition pj_stun_get_attr_name (attr_type : Z) : list Z :=
  match find_attr_desc attr_type with
  | Some (name, _) => pj_str name
  | None => pj_str "???"
  end.

Definition stun_method_names : list string :=
  [ "Unknown"; "Binding"; "SharedSecret"; "Allocate"; "Refresh"; "???"; "Send"; "Data";
    "CreatePermission"; "ChannelBind"; "Connect"; "ConnectionBind"; "ConnectionAttempt" ].

Definition pj_stun_get_method_name (msg_type : Z) : string :=
  let method := PJ_STUN_GET_METHOD msg_type in
  if method >=? zlen stun_method_names then "???"
  else nth (Z.to_nat method) stun_method_names "???".

Definition pj_stun_get_class_name (msg_type : Z) : string :=
  if PJ_STUN_IS_REQUEST msg_type then "request"
  else if PJ_STUN_IS_SUCCESS_RESPONSE msg_type then "success response"
  else if PJ_STUN_IS_ERROR_RESPONSE msg_type then "error response"
  else if PJ_STUN_IS_INDICATION msg_type then "indication"
  else "???".

Definition stun_err_msg_map : list (Z * string) :=
  [ (300, "Try Alternate"); (400, "Bad Request"); (401, "Unauthorized"); (403, "Forbidden");
    (420, "Unknown Attribute"); (437, "Allocation Mismatch"); (438, "Stale Nonce");
    (439, "Active Destination Already Set"); (441, "Wrong Credentials");
    (442, "Unsupported Transport Protocol"); (445, "Operation for TCP Only");
    (446, "Connection Failure"); (447, "Connection Timeout");
    (486, "Allocation Quota Reached"); (487, "Role Conflict"); (500, "Server Error");
    (508, "Insufficient Capacity"); (600, "Global Failure") ].

(** The binary search: the index it ends at; the table is read at [mid]. *)
Fixpoint err_search (fuel : nat) (err_code first n : Z) : outcome Z :=
  match fuel with
  | O => NoFuel
  | S fuel =>
      if n >? 0 then
        let half := n / 2 in
        let mid := first + half in
        e ← mem (stun_err_msg_map !! Z.to_nat mid);
        if fst e <? err_code then err_search fuel err_code (mid + 1) (n - (half + 1))
        else if fst e >? err_code then err_search fuel err_code first half
        else Done mid
      else Done first
  end.

(** The empty string stands for [pj_str(NULL)]. *)
Definition pj_stun_get_err_reason (err_code : Z) : outcome (list Z) :=
  first ← err_search 19 err_code 0 (zlen stun_err_msg_map);
  e ← mem (stun_err_msg_map !! Z.to_nat first);
  if fst e =? err_code then Done (pj_str (snd e)) else Done [].

(** ** Numbers on the wire *)

Definition ATTR_HDR_LEN : Z := 4.

Definition GETVAL16H (buf : list Z) (pos : Z) : outcome Z :=
  b0 ← mem (rd8 buf pos); b1 ← mem (rd8 buf (pos + 1));
  Done (u16 (Z.lor (Z.shiftl b0 8) (Z.shiftl b1 0))).

Definition PUTVAL16H (hval : Z) : list Z :=
  [u8 (Z.shiftr (Z.land hval 0xFF00) 8); u8 (Z.shiftr (Z.land hval 0x00FF) 0)].

Definition GETVAL32H (buf : list Z) (pos : Z) : outcome Z :=
  b0 ← mem (rd8 buf pos); b1 ← mem (rd8 buf (pos + 1));
  b2 ← mem (rd8 buf (pos + 2)); b3 ← mem (rd8 buf (pos + 3));
  Done (u32 (Z.lor (Z.lor (Z.lor (Z.shiftl b0 24) (Z.shiftl b1 16)) (Z.shiftl b2 8))
                   (Z.shiftl b3 0))).

Definition PUTVAL32H (hval : Z) : list Z :=
  [u8 (Z.shiftr (Z.land hval 0xFF000000) 24); u8 (Z.shiftr (Z.land hval 0x00FF0000) 16);
   u8 (Z.shiftr (Z.land hval 0x0000FF00) 8); u8 (Z.shiftr (Z.land hval 0x000000FF) 0)].

Definition GETVAL64H (buf : list Z) (pos : Z) : outcome (Z * Z) :=
  hi ← GETVAL32H buf pos; lo ← GETVAL32H buf (pos + 4); Done (hi, lo).

Definition PUTVAL64H (hi lo : Z) : list Z := PUTVAL32H hi ++ PUTVAL32H lo.

Definition GETATTRHDR (buf : list Z) (pos : Z) : outcome pj_stun_attr_hdr :=
  type ← GETVAL16H buf pos; length ← GETVAL16H buf (pos + 2); Done (AttrHdr type length).

(** The old padding character, and the static variable. *)
Definition pj_stun_set_padding_char (padding_char chr : Z) : Z * Z := (padding_char, chr).

(** [INIT_ATTR] *)
Definition INIT_ATTR (t l : Z) : pj_stun_attr_hdr := AttrHdr (u16 t) (u16 l).

(** [(n + 3) & (~3)] on unsigned numbers. *)
Definition align4 (n : Z) : Z := Z.land (u32 (n + 3)) 0xFFFFFFFC.

(** [pj_memcpy] of [n] bytes; a negative [n] is a huge one. *)
Definition copy_from (buf : list Z) (pos n : Z) : outcome (list Z) :=
  if (0 <=? n) && (0 <=? pos) && (pos + n <=? zlen buf)
  then Done (take (Z.to_nat n) (drop (Z.to_nat pos) buf)) else Overread.

(** The bytes of [a], changed by those of [b]. *)
Definition xor_bytes_with (a b : list Z) : list Z := zip_with Z.lxor a b.

(** [pj_htonl(PJ_STUN_MAGIC)] and [pj_htons(PJ_STUN_MAGIC >> 16)] *)
Definition magic_n : Z := swap32 PJ_STUN_MAGIC.
Definition magic_port_n : Z := swap16 (Z.shiftr PJ_STUN_MAGIC 16).

(** An IPv6 address under the cookie and the transaction id. *)
Definition xor_ipv6 (src tsx_id : list Z) : list Z := xor_bytes_with src (st32 magic_n ++ tsx_id).

(** ** Making attributes

    The status, and the attribute when there is one. *)

Definition pj_stun_msg_add_attr (msg : pj_stun_msg) (attr : pj_stun_attr) : pj_status * pj_stun_msg :=
  if zlen (attrs msg) <? PJ_STUN_MAX_ATTR
  then (PJ_SUCCESS, msg <| attrs ::= fun l => l ++ [attr] |>) else (PJ_ETOOMANY, msg).

(** [addr] is the address; null when it is absent. *)
Definition sockaddr_len (addr : stun_sockaddr) : Z :=
  match addr with SockIn _ _ => 4 | SockIn6 _ _ => 16 | SockOther _ => 0 end.

Definition pj_stun_sockaddr_attr_init (attr_type : Z) (xor_ed : bool) (addr : stun_sockaddr) :
    pj_status + pj_stun_attr :=
  match addr with
  | SockOther _ => inl PJ_EINVAL
  | _ => inr (SockaddrAttr (INIT_ATTR attr_type (sockaddr_len addr + 4)) xor_ed addr)
  end.
Definition pj_stun_sockaddr_attr_create := pj_stun_sockaddr_attr_init.

(** Adding the attribute that a [create] function has made. *)
Definition add_created (msg : pj_stun_msg) (attr : pj_status + pj_stun_attr) :
    pj_status * pj_stun_msg :=
  match attr with
  | inl status => (status, msg)
  | inr attr => pj_stun_msg_add_attr msg attr
  end.

Definition pj_stun_msg_add_sockaddr_attr (msg : pj_stun_msg) (attr_type : Z) (xor_ed : bool)
    (addr : stun_sockaddr) : pj_status * pj_stun_msg :=
  add_created msg (pj_stun_sockaddr_attr_create attr_type xor_ed addr).

Definition pj_stun_string_attr_init (attr_type : Z) (value : list Z) : pj_status + pj_stun_attr :=
  inr (StringAttr (INIT_ATTR attr_type (zlen value)) value).
Definition pj_stun_string_attr_create := pj_stun_string_attr_init.
Definition pj_stun_msg_add_string_attr (msg : pj_stun_msg) (attr_type : Z) (value : list Z) :
    pj_status * pj_stun_msg :=
  add_created msg (pj_stun_string_attr_create attr_type value).

Definition pj_stun_empty_attr_create (attr_type : Z) : pj_status + pj_stun_attr :=
  inr (EmptyAttr (INIT_ATTR attr_type 0)).
Definition pj_stun_msg_add_empty_attr (msg : pj_stun_msg) (attr_type : Z) : pj_status * pj_stun_msg :=
  add_created msg (pj_stun_empty_attr_create attr_type).

Definition pj_stun_uint_attr_create (attr_type value : Z) : pj_status + pj_stun_attr :=
  inr (UintAttr (INIT_ATTR attr_type 4) value).
Definition pj_stun_msg_add_uint_attr (msg : pj_stun_msg) (attr_type value : Z) :
    pj_status * pj_stun_msg :=
  add_created msg (pj_stun_uint_attr_create attr_type value).

(** [value] is null, or the two halves of the number. *)
Definition pj_stun_uint64_attr_create (attr_type : Z) (value : option (Z * Z)) :
    pj_status + pj_stun_attr :=
  let '(hi, lo) := default (0, 0) value in inr (Uint64Attr (INIT_ATTR attr_type 8) hi lo).
Definition pj_stun_msg_add_uint64_attr (msg : pj_stun_msg) (attr_type : Z)
    (value : option (Z * Z)) : pj_status * pj_stun_msg :=
  add_created msg (pj_stun_uint64_attr_create attr_type value).

Definition pj_stun_msgint_attr_create : pj_status + pj_stun_attr :=
  inr (MsgintAttr (INIT_ATTR PJ_STUN_ATTR_MESSAGE_INTEGRITY 20) (replicate 20 0)).
Definition pj_stun_msg_add_msgint_attr (msg : pj_stun_msg) : pj_status * pj_stun_msg :=
  add_created msg pj_stun_msgint_attr_create.

(** [snprintf] of a number by ["%d"]. *)
Definition print_d (n : Z) : list Z := if n <? 0 then 45 :: pj_utoa (- n) else pj_utoa n.

Definition pj_stun_errcode_attr_create (err_code : Z) (err_reason : option (list Z)) :
    outcome (pj_status + pj_stun_attr) :=
  if err_code =? 0 then Done (inl PJ_EINVAL)
  else
    reason ← match err_reason with
             | Some reason => Done reason
             | None =>
                 str ← pj_stun_get_err_reason err_code;
                 Done (if zlen str =? 0 then pj_str "Unknown error " ++ print_d err_code else str)
             end;
    Done (inr (ErrcodeAttr (INIT_ATTR PJ_STUN_ATTR_ERROR_CODE (4 + zlen reason)) err_code reason)).

Definition pj_stun_msg_add_errcode_attr (msg : pj_stun_msg) (err_code : Z)
    (err_reason : option (list Z)) : outcome (pj_status * pj_stun_msg) :=
  attr ← pj_stun_errcode_attr_create err_code err_reason;
  Done (add_created msg attr).

Definition pj_stun_unknown_attr_create (attr_array : list Z) : pj_status + pj_stun_attr :=
  let attr_cnt := zlen attr_array in
  if negb (attr_cnt <? PJ_STUN_MAX_ATTR) then inl PJ_EINVAL
  else inr (UnknownAttr (INIT_ATTR PJ_STUN_ATTR_UNKNOWN_ATTRIBUTES (attr_cnt * 2)) attr_array).
Definition pj_stun_msg_add_unknown_attr (msg : pj_stun_msg) (attr_type : list Z) :
    pj_status * pj_stun_msg :=
  add_created msg (pj_stun_unknown_attr_create attr_type).

(** [data] is null, or points to [length] bytes. *)
Definition pj_stun_binary_attr_init (attr_type : Z) (data : option (list Z)) (length : Z) :
    pj_status + pj_stun_attr :=
  if attr_type =? 0 then inl PJ_EINVAL
  else
    inr (BinaryAttr (INIT_ATTR attr_type length) PJ_STUN_MAGIC
           (match data with Some data => if truth length then data else [] | None => [] end)).
Definition pj_stun_binary_attr_create := pj_stun_binary_attr_init.
Definition pj_stun_msg_add_binary_attr (msg : pj_stun_msg) (attr_type : Z)
    (data : option (list Z)) (length : Z) : pj_status * pj_stun_msg :=
  add_created msg (pj_stun_binary_attr_create attr_type data length).

(** ** Encoding attributes

    Each encoder is given the buffer, the place of the attribute in it, the room
    that is said to be left and the header of the message; it returns the status,
    the buffer and [*printed]. *)

Definition encoded : Type := pj_status * list Z * Z.

Definition encode_sockaddr_attr (hdr : pj_stun_attr_hdr) (xor_ed : bool) (sockaddr : stun_sockaddr)
    (buf : list Z) (off len : Z) (msghdr : pj_stun_msg_hdr) : option encoded :=
  buf ← wr buf off (PUTVAL16H (a_type hdr));
  match sockaddr with
  | SockIn sin_port s_addr =>
      if len <? 12 then Some (PJ_ETOOSMALL, buf, 0)
      else
        let port := if xor_ed then Z.lxor sin_port magic_port_n else sin_port in
        let addr := if xor_ed then Z.lxor s_addr magic_n else s_addr in
        buf ← wr buf (off + 2) (PUTVAL16H 8 ++ [0; 1] ++ st16 port ++ st32 addr);
        Some (PJ_SUCCESS, buf, 12)
  | SockIn6 sin6_port s6_addr =>
      if len <? 24 then Some (PJ_ETOOSMALL, buf, 0)
      else
        let port := if xor_ed then Z.lxor sin6_port magic_port_n else sin6_port in
        let addr := if xor_ed then xor_ipv6 s6_addr (h_tsx_id msghdr) else s6_addr in
        buf ← wr buf (off + 2) (PUTVAL16H 20 ++ [0; 2] ++ st16 port ++ addr);
        Some (PJ_SUCCESS, buf, 24)
  | SockOther _ => Some (PJNATH_EINVAF, buf, 0)
  end.

(** [pad] is the padding character. *)
Definition encode_string_attr (pad : Z) (hdr : pj_stun_attr_hdr) (value : list Z)
    (buf : list Z) (off len : Z) (msghdr : pj_stun_msg_hdr) : option encoded :=
  let slen := zlen value in
  let printed := align4 (slen + ATTR_HDR_LEN) in
  if len <? printed then Some (PJ_ETOOSMALL, buf, 0)
  else
    let length :=
      if negb (h_magic msghdr =? PJ_STUN_MAGIC) || (a_type hdr =? PJ_STUN_ATTR_SOFTWARE)
      then u16 (align4 slen) else u16 slen in
    buf ← wr buf off (PUTVAL16H (a_type hdr) ++ PUTVAL16H length);
    buf ← wr buf (off + ATTR_HDR_LEN) value;
    buf ← (if truth (Z.land slen 3)
           then wr buf (off + ATTR_HDR_LEN + slen)
                  (replicate (Z.to_nat (4 - Z.land slen 3)) (u8 pad))
           else Some buf);
    Some (PJ_SUCCESS, buf, printed).

Definition encode_empty_attr (hdr : pj_stun_attr_hdr) (buf : list Z) (off len : Z) : option encoded :=
  if len <? ATTR_HDR_LEN then Some (PJ_ETOOSMALL, buf, 0)
  else
    buf ← wr buf off (PUTVAL16H (a_type hdr) ++ PUTVAL16H 0);
    Some (PJ_SUCCESS, buf, ATTR_HDR_LEN).

Definition encode_uint_attr (hdr : pj_stun_attr_hdr) (value : Z) (buf : list Z) (off len : Z) :
    option encoded :=
  if len <? 8 then Some (PJ_ETOOSMALL, buf, 0)
  else
    buf ← wr buf off (PUTVAL16H (a_type hdr) ++ PUTVAL16H 4 ++ PUTVAL32H value);
    Some (PJ_SUCCESS, buf, 8).

Definition encode_uint64_attr (hdr : pj_stun_attr_hdr) (hi lo : Z) (buf : list Z) (off len : Z) :
    option encoded :=
  if len <? 12 then Some (PJ_ETOOSMALL, buf, 0)
  else
    buf ← wr buf off (PUTVAL16H (a_type hdr) ++ PUTVAL16H 8 ++ PUTVAL64H hi lo);
    Some (PJ_SUCCESS, buf, 12).

Definition encode_msgint_attr (hdr : pj_stun_attr_hdr) (hmac : list Z) (buf : list Z) (off len : Z) :
    option encoded :=
  if len <? 24 then Some (PJ_ETOOSMALL, buf, 0)
  else
    buf ← wr buf off (PUTVAL16H (a_type hdr) ++ PUTVAL16H (a_length hdr) ++ hmac);
    Some (PJ_SUCCESS, buf, 24).

Definition encode_errcode_attr (hdr : pj_stun_attr_hdr) (err_code : Z) (reason : list Z)
    (buf : list Z) (off len : Z) : option encoded :=
  let slen := zlen reason in
  if len <? ATTR_HDR_LEN + 4 + slen then Some (PJ_ETOOSMALL, buf, 0)
  else
    buf ← wr buf off (PUTVAL16H (a_type hdr) ++ PUTVAL16H (u16 (4 + slen)) ++ PUTVAL16H 0
                      ++ [u8 (Z.quot err_code 100); u8 (Z.rem err_code 100)] ++ reason);
    Some (PJ_SUCCESS, buf, align4 (ATTR_HDR_LEN + 4 + slen)).

Definition encode_unknown_attr (hdr : pj_stun_attr_hdr) (types : list Z) (buf : list Z) (off len : Z) :
    option encoded :=
  let size := Z.shiftl (zlen types) 1 in
  if len <? ATTR_HDR_LEN + size then Some (PJ_ETOOSMALL, buf, 0)
  else
    buf ← wr buf off (PUTVAL16H (a_type hdr) ++ PUTVAL16H (u16 size)
                      ++ concat (map (fun t => st16 (swap16 t)) types));
    Some (PJ_SUCCESS, buf, align4 (ATTR_HDR_LEN + size)).

Definition encode_binary_attr (hdr : pj_stun_attr_hdr) (data : list Z) (buf : list Z) (off len : Z) :
    option encoded :=
  let printed := align4 (zlen data + ATTR_HDR_LEN) in
  if len <? printed then Some (PJ_ETOOSMALL, buf, 0)
  else
    buf ← wr buf off (PUTVAL16H (a_type hdr) ++ PUTVAL16H (u16 (zlen data)) ++ data);
    Some (PJ_SUCCESS, buf, printed).

(** [adesc->encode_attr(attr)]: the encoder of the kind, on an attribute of the
    structure it casts to. *)
Definition encode_attr (pad : Z) (kind : attr_kind) (a : pj_stun_attr) (buf : list Z) (off len : Z)
    (msghdr : pj_stun_msg_hdr) : option encoded :=
  match kind, a with
  | (K_sockaddr | K_xored_sockaddr), SockaddrAttr hdr xor_ed addr =>
      encode_sockaddr_attr hdr xor_ed addr buf off len msghdr
  | K_string, StringAttr hdr value => encode_string_attr pad hdr value buf off len msghdr
  | K_uint, UintAttr hdr value => encode_uint_attr hdr value buf off len
  | K_uint64, Uint64Attr hdr hi lo => encode_uint64_attr hdr hi lo buf off len
  | K_empty, EmptyAttr hdr => encode_empty_attr hdr buf off len
  | K_msgint, MsgintAttr hdr hmac => encode_msgint_attr hdr hmac buf off len
  | K_errcode, ErrcodeAttr hdr code reason => encode_errcode_attr hdr code reason buf off len
  | K_unknown, UnknownAttr hdr types => encode_unknown_attr hdr types buf off len
  | K_binary, BinaryAttr hdr _ data => encode_binary_attr hdr data buf off len
  | _, _ => None
  end.

(** ** Decoding attributes

    Each decoder is given the memory of the packet and the place of the attribute
    in it; it returns an error or the attribute. *)

Definition attr_decoded : Type := pj_status + pj_stun_attr.

Definition decode_sockaddr_attr (pdu : list Z) (pos : Z) : outcome attr_decoded :=
  hdr ← GETATTRHDR pdu pos;
  if negb (a_length hdr =? 8) && negb (a_length hdr =? 20) then Done (inl PJNATH_ESTUNINATTRLEN)
  else
    val ← mem (rd8 pdu (pos + ATTR_HDR_LEN + 1));
    if val =? 1 then
      if negb (a_length hdr =? 8) then Done (inl PJNATH_ESTUNINATTRLEN)
      else
        port ← GETVAL16H pdu (pos + ATTR_HDR_LEN + 2);
        addr ← mem (rd32 pdu (pos + ATTR_HDR_LEN + 4));
        Done (inr (SockaddrAttr hdr false (SockIn (swap16 port) addr)))
    else if val =? 2 then
      if negb (a_length hdr =? 20) then Done (inl PJNATH_ESTUNINATTRLEN)
      else
        port ← GETVAL16H pdu (pos + ATTR_HDR_LEN + 2);
        addr ← copy_from pdu (pos + ATTR_HDR_LEN + 4) 16;
        Done (inr (SockaddrAttr hdr false (SockIn6 (swap16 port) addr)))
    else Done (inl PJNATH_EINVAF).

(** The address with the cookie and the transaction id taken off. *)
Definition unxor_sockaddr (addr : stun_sockaddr) (tsx_id : list Z) : pj_status + stun_sockaddr :=
  match addr with
  | SockIn port a => inr (SockIn (Z.lxor port magic_port_n) (Z.lxor a magic_n))
  | SockIn6 port a => inr (SockIn6 (Z.lxor port magic_port_n) (xor_ipv6 a tsx_id))
  | SockOther _ => inl PJNATH_EINVAF
  end.

Definition decode_xored_sockaddr_attr (pdu : list Z) (pos : Z) (msghdr : pj_stun_msg_hdr) :
    outcome attr_decoded :=
  r ← decode_sockaddr_attr pdu pos;
  match r with
  | inr (SockaddrAttr hdr _ addr) =>
      match unxor_sockaddr addr (h_tsx_id msghdr) with
      | inr addr => Done (inr (SockaddrAttr hdr true addr))
      | inl status => Done (inl status)
      end
  | r => Done r
  end.

Definition decode_string_attr (pdu : list Z) (pos : Z) : outcome attr_decoded :=
  hdr ← GETATTRHDR pdu pos;
  value ← copy_from pdu (pos + ATTR_HDR_LEN) (a_length hdr);
  Done (inr (StringAttr hdr value)).

Definition decode_empty_attr (pdu : list Z) (pos : Z) : outcome attr_decoded :=
  hdr ← GETATTRHDR pdu pos;
  if negb (a_length hdr =? 0) then Done (inl PJNATH_ESTUNINATTRLEN)
  else Done (inr (EmptyAttr hdr)).

(** The value is read before the length is checked. *)
Definition decode_uint_attr (pdu : list Z) (pos : Z) : outcome attr_decoded :=
  hdr ← GETATTRHDR pdu pos;
  value ← GETVAL32H pdu (pos + 4);
  if negb (a_length hdr =? 4) then Done (inl PJNATH_ESTUNINATTRLEN)
  else Done (inr (UintAttr hdr value)).

Definition decode_uint64_attr (pdu : list Z) (pos : Z) : outcome attr_decoded :=
  hdr ← GETATTRHDR pdu pos;
  if negb (a_length hdr =? 8) then Done (inl PJNATH_ESTUNINATTRLEN)
  else
    value ← GETVAL64H pdu (pos + 4);
    Done (inr (Uint64Attr hdr (fst value) (snd value))).

Definition decode_msgint_attr (pdu : list Z) (pos : Z) : outcome attr_decoded :=
  hdr ← GETATTRHDR pdu pos;
  if negb (a_length hdr =? 20) then Done (inl PJNATH_ESTUNINATTRLEN)
  else
    hmac ← copy_from pdu (pos + 4) 20;
    Done (inr (MsgintAttr hdr hmac)).

(** The length of the reason is the length of the attribute less four, which may
    be negative. *)
Definition decode_errcode_attr (pdu : list Z) (pos : Z) : outcome attr_decoded :=
  hdr ← GETATTRHDR pdu pos;
  class ← mem (rd8 pdu (pos + 6));
  number ← mem (rd8 pdu (pos + 7));
  reason ← copy_from pdu (pos + ATTR_HDR_LEN + 4) (a_length hdr - 4);
  Done (inr (ErrcodeAttr hdr (class * 100 + number) reason)).

Fixpoint read_types (cnt : nat) (pdu : list Z) (pos : Z) : outcome (list Z) :=
  match cnt with
  | O => Done []
  | S cnt =>
      b0 ← mem (rd8 pdu pos); b1 ← mem (rd8 pdu (pos + 1));
      rest ← read_types cnt pdu (pos + 2);
      Done (swap16 (b0 + 256 * b1) :: rest)
  end.

Definition decode_unknown_attr (pdu : list Z) (pos : Z) : outcome attr_decoded :=
  hdr ← GETATTRHDR pdu pos;
  let attr_count := Z.shiftr (a_length hdr) 1 in
  if attr_count >? PJ_STUN_MAX_ATTR then Done (inl PJ_ETOOMANY)
  else
    types ← read_types (Z.to_nat attr_count) pdu (pos + ATTR_HDR_LEN);
    Done (inr (UnknownAttr hdr types)).

(** The field [magic] of the structure, which is allocated with zeroes, is not set. *)
Definition decode_binary_attr (pdu : list Z) (pos : Z) : outcome attr_decoded :=
  hdr ← GETATTRHDR pdu pos;
  data ← copy_from pdu (pos + ATTR_HDR_LEN) (a_length hdr);
  Done (inr (BinaryAttr hdr 0 data)).

(** [adesc->decode_attr] *)
Definition decode_attr (kind : attr_kind) (pdu : list Z) (pos : Z) (msghdr : pj_stun_msg_hdr) :
    outcome attr_decoded :=
  match kind with
  | K_sockaddr => decode_sockaddr_attr pdu pos
  | K_xored_sockaddr => decode_xored_sockaddr_attr pdu pos msghdr
  | K_string => decode_string_attr pdu pos
  | K_uint => decode_uint_attr pdu pos
  | K_uint64 => decode_uint64_attr pdu pos
  | K_empty => decode_empty_attr pdu pos
  | K_msgint => decode_msgint_attr pdu pos
  | K_errcode => decode_errcode_attr pdu pos
  | K_unknown => decode_unknown_attr pdu pos
  | K_binary => decode_binary_attr pdu pos
  end.

(** ** Messages *)

(** The transaction id made when none is given: [counter] is the static counter,
    [pid], [rand1] and [rand2] what the system gives.  The id and the counter. *)
Definition new_tsx_id (counter pid rand1 rand2 : Z) : list Z * Z :=
  let counter := if truth counter then counter else rand1 in
  (st32 pid ++ st32 rand2 ++ st32 counter, u32 (counter + 1)).

Definition pj_stun_msg_init (msg_type magic : Z) (tsx_id : list Z) : pj_status + pj_stun_msg :=
  if msg_type =? 0 then inl PJ_EINVAL
  else inr (StunMsg (MsgHdr (u16 msg_type) 0 magic tsx_id) []).
Definition pj_stun_msg_create := pj_stun_msg_init.

(** [None]: the attribute is used as one of a kind it is not of; [Some None] is
    the null pointer. *)
Definition clone_attr (kind : attr_kind) (a : pj_stun_attr) : option pj_stun_attr :=
  match kind, a with
  | (K_sockaddr | K_xored_sockaddr), SockaddrAttr _ _ _ | K_string, StringAttr _ _
  | K_uint, UintAttr _ _ | K_uint64, Uint64Attr _ _ _ | K_empty, EmptyAttr _
  | K_msgint, MsgintAttr _ _ | K_errcode, ErrcodeAttr _ _ _ | K_unknown, UnknownAttr _ _
  | K_binary, BinaryAttr _ _ _ => Some a
  | _, _ => None
  end.

Definition pj_stun_attr_clone (a : pj_stun_attr) : option (option pj_stun_attr) :=
  match find_attr_desc (attr_type a) with
  | Some (_, kind) => Some <$> clone_attr kind a
  | None =>
      match a with
      | BinaryAttr _ magic _ =>
          if magic =? PJ_STUN_MAGIC then Some (Some a) else Some None
      | _ => None
      end
  end.

Fixpoint clone_attrs (l : list pj_stun_attr) : option (list pj_stun_attr) :=
  match l with
  | [] => Some []
  | a :: l =>
      a ← pj_stun_attr_clone a; l ← clone_attrs l;
      Some (match a with Some a => a :: l | None => l end)
  end.

Definition pj_stun_msg_clone (src : pj_stun_msg) : option pj_stun_msg :=
  l ← clone_attrs (attrs src); Some (src <| attrs := l |>).

Definition pj_stun_msg_find_attr (msg : pj_stun_msg) (ty : Z) (index : nat) : option pj_stun_attr :=
  snd <$> list_find (fun a => attr_type a = ty) (drop index (attrs msg)).

(** [addr] is the address of the packet. *)
Definition pj_stun_msg_check (addr : Z) (pdu : list Z) (pdu_len options : Z) : outcome pj_status :=
  if pdu_len <? 20 then Done PJNATH_EINSTUNMSGLEN
  else
    b ← mem (rd8 pdu 0);
    if negb (b =? 0) && negb (b =? 1) then Done PJNATH_EINSTUNMSGTYPE
    else
      msg_len ← GETVAL16H pdu 2;
      if (msg_len + 20 >? pdu_len) ||
         truth (Z.land options PJ_STUN_IS_DATAGRAM) && negb (msg_len + 20 =? pdu_len)
      then Done PJNATH_EINSTUNMSGLEN
      else if truth (Z.land msg_len 3) then Done PJNATH_EINSTUNMSGLEN
      else
        magic ← GETVAL32H pdu 4;
        if negb (magic =? PJ_STUN_MAGIC) ||
           truth (Z.land options PJ_STUN_NO_FINGERPRINT_CHECK) then Done PJ_SUCCESS
        else
          let at_ := msg_len + 20 - 8 in
          type ← GETVAL16H pdu at_;
          if negb (type =? PJ_STUN_ATTR_FINGERPRINT) then Done PJ_SUCCESS
          else
            attr_len ← GETVAL16H pdu (at_ + 2);
            fingerprint ← GETVAL32H pdu (at_ + 4);
            if negb (attr_len =? 4) then Done PJNATH_ESTUNINATTRLEN
            else
              checked ← copy_from pdu 0 at_;
              if negb (Z.lxor (pj_crc32_calc addr checked) STUN_XOR_FINGERPRINT =? fingerprint)
              then Done PJNATH_ESTUNFINGERPRINT
              else Done PJ_SUCCESS.

(** The status, and [*p_response] when it is set. *)
Definition pj_stun_msg_create_response (req_msg : pj_stun_msg) (err_code : Z)
    (err_msg : option (list Z)) : outcome (pj_status + pj_stun_msg) :=
  let type := msg_type req_msg in
  if negb (PJ_STUN_IS_REQUEST type) then Done (inl PJNATH_EINSTUNMSGTYPE)
  else
    let type := Z.lor type (if truth err_code then PJ_STUN_ERROR_RESPONSE_BIT
                            else PJ_STUN_SUCCESS_RESPONSE_BIT) in
    match pj_stun_msg_create type (h_magic (msg_hdr req_msg)) (h_tsx_id (msg_hdr req_msg)) with
    | inl status => Done (inl status)
    | inr response =>
        if truth err_code then
          r ← pj_stun_msg_add_errcode_attr response err_code err_msg;
          Done (if decide (fst r = PJ_SUCCESS) then inr (snd r) else inl (fst r))
        else Done (inr response)
    end.

(** *** Parsing

    [strerror] is [pj_strerror]: the text of a status, which depends on the
    libraries that the program has registered. *)

(** The status, [*p_msg], [*p_parsed_len] and [*p_response]. *)
Record decoded := Decoded {
  d_status : pj_status; d_msg : option pj_stun_msg; d_parsed_len : Z;
  d_response : option pj_stun_msg }.

Section Decode.
Context (strerror : pj_status -> list Z).

(** The text of a failure to parse an attribute, at most 79 bytes. *)
Definition parse_error (status : pj_status) (attr_type : Z) : list Z :=
  let e := take 79 (strerror status) ++ pj_str " in " ++ pj_stun_get_attr_name attr_type in
  take 79 e.

(** The parser after the attributes of [msg]: what the next attribute starts at
    and how many bytes the length field leaves from there on. *)
Record parser := Parser {
  p_pos : Z; p_left : Z; p_msg : pj_stun_msg; has_msg_int : bool; has_fingerprint : bool }.

(** A failure: the response to it, when one is wanted. *)
Definition fails (want : bool) (msg : pj_stun_msg) (status : pj_status) (err_code : Z)
    (err_msg : option (list Z)) : outcome (decoded + parser) :=
  if want then
    r ← pj_stun_msg_create_response msg err_code err_msg;
    Done (inl (Decoded status None 0
                 (match r with inr response => Some response | inl _ => None end)))
  else Done (inl (Decoded status None 0 None)).

(** The response to an attribute that must be understood and is not. *)
Definition fails_unknown (want : bool) (msg : pj_stun_msg) (attr_type : Z) : outcome (decoded + parser) :=
  let status := PJ_STATUS_FROM_STUN_CODE PJ_STUN_SC_UNKNOWN_ATTRIBUTE in
  if want then
    r ← pj_stun_msg_create_response msg PJ_STUN_SC_UNKNOWN_ATTRIBUTE None;
    Done (inl (Decoded status None 0
            (match r with
             | inr response => Some (snd (pj_stun_msg_add_unknown_attr response [attr_type]))
             | inl _ => None
             end)))
  else Done (inl (Decoded status None 0 None)).

(** What the loop does about the order of attributes: an error, or the two flags. *)
Definition check_order (attr_type : Z) (has_mi has_fp : bool) : pj_status + (bool * bool) :=
  if (attr_type =? PJ_STUN_ATTR_MESSAGE_INTEGRITY) && negb has_fp then
    if has_mi then inl PJNATH_ESTUNDUPATTR else inr (true, has_fp)
  else if attr_type =? PJ_STUN_ATTR_FINGERPRINT then
    if has_fp then inl PJNATH_ESTUNDUPATTR else inr (has_mi, true)
  else if has_fp then inl PJNATH_ESTUNFINGERPOS
  else inr (has_mi, has_fp).

(** [Next attribute] *)
Definition next_attr (p : parser) (attr_val_len : Z) (msg : pj_stun_msg) (has_mi has_fp : bool) :
    parser :=
  if attr_val_len + 4 >=? p_left p then Parser (p_pos p + p_left p) 0 msg has_mi has_fp
  else Parser (p_pos p + (attr_val_len + 4)) (p_left p - (attr_val_len + 4)) msg has_mi has_fp.

(** One attribute: a failure, or the parser after it. *)
Definition parse_attr (want : bool) (pdu : list Z) (p : parser) : outcome (decoded + parser) :=
  let msg := p_msg p in
  type ← GETVAL16H pdu (p_pos p);
  len ← GETVAL16H pdu (p_pos p + 2);
  let attr_val_len := align4 len in
  if p_left p <? attr_val_len then
    fails want msg PJNATH_ESTUNINATTRLEN PJ_STUN_SC_BAD_REQUEST
      (Some (pj_str "Attribute " ++ pj_stun_get_attr_name type ++ pj_str " has invalid length"))
  else
    match find_attr_desc type with
    | None =>
        if type <=? 0x7FFF then fails_unknown want msg type
        else if zlen (attrs msg) >=? PJ_STUN_MAX_ATTR then
          fails want msg PJNATH_ESTUNTOOMANYATTR PJ_STUN_SC_SERVER_ERROR None
        else
          data ← copy_from pdu (p_pos p + 4) len;
          match pj_stun_binary_attr_create type (Some data) len with
          | inl status => fails want msg status PJ_STUN_SC_SERVER_ERROR None
          | inr a =>
              Done (inr (next_attr p attr_val_len (msg <| attrs ::= fun l => l ++ [a] |>)
                           (has_msg_int p) (has_fingerprint p)))
          end
    | Some (_, kind) =>
        r ← decode_attr kind pdu (p_pos p) (msg_hdr msg);
        match r with
        | inl status =>
            fails want msg status PJ_STUN_SC_BAD_REQUEST (Some (parse_error status type))
        | inr a =>
            match check_order type (has_msg_int p) (has_fingerprint p) with
            | inl status => fails want msg status PJ_STUN_SC_BAD_REQUEST None
            | inr (has_mi, has_fp) =>
                if zlen (attrs msg) >=? PJ_STUN_MAX_ATTR then
                  fails want msg PJNATH_ESTUNTOOMANYATTR PJ_STUN_SC_SERVER_ERROR None
                else
                  Done (inr (next_attr p attr_val_len (msg <| attrs ::= fun l => l ++ [a] |>)
                               has_mi has_fp))
            end
        end
    end.

Fixpoint parse_attrs (fuel : nat) (want : bool) (pdu : list Z) (p : parser) :
    outcome (decoded + parser) :=
  match fuel with
  | O => NoFuel
  | S fuel =>
      if p_left p >=? 4 then
        r ← parse_attr want pdu p;
        match r with
        | inl d => Done (inl d)
        | inr p => parse_attrs fuel want pdu p
        end
      else Done (inr p)
  end.

Definition read_header (pdu : list Z) : outcome pj_stun_msg_hdr :=
  type ← GETVAL16H pdu 0; length ← GETVAL16H pdu 2; magic ← GETVAL32H pdu 4;
  tsx_id ← copy_from pdu 8 12;
  Done (MsgHdr type length magic tsx_id).

(** [want_response]: [p_response] is not null. *)
Definition pj_stun_msg_decode (addr : Z) (pdu : list Z) (pdu_len options : Z)
    (want_response : bool) : outcome decoded :=
  if pdu_len =? 0 then Done (Decoded PJ_EINVAL None 0 None)
  else
    status ← (if truth (Z.land options PJ_STUN_CHECK_PACKET)
              then pj_stun_msg_check addr pdu pdu_len options else Done PJ_SUCCESS);
    if decide (status <> PJ_SUCCESS) then Done (Decoded status None 0 None)
    else
      hdr ← read_header pdu;
      let want := want_response && PJ_STUN_IS_REQUEST (h_type hdr) in
      r ← parse_attrs (S (Z.to_nat (h_length hdr))) want pdu
            (Parser 20 (h_length hdr) (StunMsg hdr []) false false);
      match r with
      | inl d => Done d
      | inr p =>
          if p_left p >? 0 then Done (Decoded PJNATH_EINSTUNMSGLEN None 0 None)
          else Done (Decoded PJ_SUCCESS (Some (p_msg p)) (p_pos p) None)
      end.
End Decode.

(** *** Printing *)

(** The buffer, [buf - start] and [buf_size]. *)
Record printer := Printer { e_buf : list Z; e_off : Z; e_size : Z }.

(** [buf += printed; buf_size -= printed] *)
Definition advance (e : printer) (buf : list Z) (printed : Z) : printer :=
  Printer buf (e_off e + printed) (u64 (e_size e - printed)).

(** One attribute of the message. *)
Definition encode_one (pad : Z) (hdr : pj_stun_msg_hdr) (a : pj_stun_attr) (e : printer) :
    option encoded :=
  match find_attr_desc (attr_type a) with
  | Some (_, kind) => encode_attr pad kind a (e_buf e) (e_off e) (u32 (e_size e)) hdr
  | None =>
      match a with
      | BinaryAttr ah magic data =>
          if magic =? PJ_STUN_MAGIC
          then encode_binary_attr ah data (e_buf e) (e_off e) (u32 (e_size e))
          else Some (PJ_EBUG, e_buf e, 0)
      | _ => None
      end
  end.

Definition is_last (a : pj_stun_attr) : bool :=
  (attr_type a =? PJ_STUN_ATTR_MESSAGE_INTEGRITY) || (attr_type a =? PJ_STUN_ATTR_FINGERPRINT).

(** The attributes up to the first MESSAGE-INTEGRITY or FINGERPRINT; what is left
    starts with that. *)
Fixpoint encode_attrs (pad : Z) (hdr : pj_stun_msg_hdr) (l : list pj_stun_attr) (e : printer) :
    option (pj_status * printer * list pj_stun_attr) :=
  match l with
  | [] => Some (PJ_SUCCESS, e, [])
  | a :: rest =>
      if is_last a then Some (PJ_SUCCESS, e, l)
      else
        r ← encode_one pad hdr a e;
        let '(status, buf, printed) := r in
        if decide (status <> PJ_SUCCESS) then Some (status, Printer buf (e_off e) (e_size e), l)
        else encode_attrs pad hdr rest (advance e buf printed)
  end.

(** The scan of the rest: [i] is the index of the first of [l], [mi] and [fp] the
    indices of the attributes found. *)
Fixpoint scan_attrs (i : nat) (l : list pj_stun_attr) (mi fp : option nat) :
    pj_status * option nat * option nat :=
  match l with
  | [] => (PJ_SUCCESS, mi, fp)
  | a :: l =>
      if bool_decide (is_Some fp) then (PJNATH_ESTUNFINGERPOS, mi, fp)
      else if attr_type a =? PJ_STUN_ATTR_MESSAGE_INTEGRITY then
        if bool_decide (is_Some mi) then (PJNATH_ESTUNMSGINTPOS, mi, fp)
        else scan_attrs (S i) l (Some i) fp
      else if attr_type a =? PJ_STUN_ATTR_FINGERPRINT then scan_attrs (S i) l mi (Some i)
      else scan_attrs (S i) l mi fp
  end.

(** The indices of MESSAGE-INTEGRITY and FINGERPRINT: [done] attributes are
    printed, [rest] are left. *)
Definition find_last (done : nat) (rest : list pj_stun_attr) : pj_status * option nat * option nat :=
  match rest with
  | [] => (PJ_SUCCESS, None, None)
  | a :: rest =>
      if attr_type a =? PJ_STUN_ATTR_MESSAGE_INTEGRITY then scan_attrs (S done) rest (Some done) None
      else scan_attrs (S done) rest None (Some done)
  end.

(** [stack] is what the memory of the hash contexts holds, [start] the message
    printed so far. *)
Definition set_hmac (stack key start : list Z) (a : pj_stun_attr) : option pj_stun_attr :=
  match a with
  | MsgintAttr hdr _ => Some (MsgintAttr hdr (pj_hmac_sha1 stack start key))
  | _ => None
  end.
Definition set_value (value : Z) (a : pj_stun_attr) : option pj_stun_attr :=
  match a with UintAttr hdr _ => Some (UintAttr hdr value) | _ => None end.

(** An attribute computed from the message before it: [compute] is given the
    attribute and the message so far, and [print] prints it. *)
Definition encode_last (msg : pj_stun_msg) (i : nat) (e : printer)
    (compute : list Z -> pj_stun_attr -> option pj_stun_attr)
    (print : pj_stun_attr -> printer -> option encoded) :
    option (pj_status * pj_stun_msg * printer) :=
  a ← attrs msg !! i;
  a ← compute (take (Z.to_nat (e_off e)) (e_buf e)) a;
  let msg := msg <| attrs ::= fun l => <[i := a]> l |> in
  r ← print a e;
  let '(status, buf, printed) := r in
  if decide (status <> PJ_SUCCESS) then Some (status, msg, Printer buf (e_off e) (e_size e))
  else Some (PJ_SUCCESS, msg, advance e buf printed).

Definition print_msgint (msghdr : pj_stun_msg_hdr) (a : pj_stun_attr) (e : printer) : option encoded :=
  encode_attr 0 K_msgint a (e_buf e) (e_off e) (u32 (e_size e)) msghdr.
Definition print_fingerprint (msghdr : pj_stun_msg_hdr) (a : pj_stun_attr) (e : printer) : option encoded :=
  encode_attr 0 K_uint a (e_buf e) (e_off e) (u32 (e_size e)) msghdr.

(** The status, the message, the buffer and [*p_msg_len]. *)
Definition printed_msg : Type := pj_status * pj_stun_msg * list Z * option Z.
Definition stopped (status : pj_status) (msg : pj_stun_msg) (e : printer) : option printed_msg :=
  Some (status, msg, e_buf e, None).

(** MESSAGE-INTEGRITY.  [i] is the index at which the scan has ended; the last
    component is the index of FINGERPRINT. *)
Definition encode_msgint (stack : list Z) (key : option (list Z)) (msg : pj_stun_msg)
    (mi fp : option nat) (i : Z) (e : printer) :
    option (pj_status * pj_stun_msg * printer * option nat) :=
  match mi with
  | None => Some (PJ_SUCCESS, msg, e, fp)
  | Some mi =>
      let count := zlen (attrs msg) in
      match key with
      | None => Some (PJ_EINVALIDOP, msg, e, fp)
      | Some key =>
          fp ← (if (count >? 1) && (i <? u32 (count - 2)) then Some None
                else if i =? u32 (count - 2) then
                  a ← attrs msg !! S (Z.to_nat i);
                  Some (if attr_type a =? PJ_STUN_ATTR_FINGERPRINT
                        then Some (Some (S (Z.to_nat i))) else None)
                else Some (Some fp));
          match fp with
          | None => Some (PJNATH_ESTUNMSGINTPOS, msg, e, None)
          | Some fp =>
              r ← encode_last msg mi e (set_hmac stack key) (print_msgint (msg_hdr msg));
              Some (r, fp)
          end
      end
  end.

(** FINGERPRINT, with its eight bytes added to the length field first. *)
Definition encode_fingerprint (addr : Z) (msg : pj_stun_msg) (fp : option nat) (e : printer) :
    option (pj_status * pj_stun_msg * printer) :=
  match fp with
  | None => Some (PJ_SUCCESS, msg, e)
  | Some fp =>
      match GETVAL16H (e_buf e) 2 with
      | Done len =>
          buf ← wr (e_buf e) 2 (PUTVAL16H (u16 (len + 8)));
          encode_last msg fp (Printer buf (e_off e) (e_size e))
            (fun start => set_value (Z.lxor (pj_crc32_calc addr start) STUN_XOR_FINGERPRINT))
            (print_fingerprint (msg_hdr msg))
      | _ => None
      end
  end.

(** [addr] is the address of [buf], [pad] the padding character, [stack] what the
    memory of the hash contexts holds. *)
Definition pj_stun_msg_encode (addr pad : Z) (stack : list Z) (msg : pj_stun_msg) (buf : list Z)
    (buf_size options : Z) (key : option (list Z)) : option printed_msg :=
  if buf_size =? 0 then Some (PJ_EINVAL, msg, buf, None)
  else if negb (options =? 0) then Some (PJ_EINVAL, msg, buf, None)
  else if buf_size <? 20 then Some (PJ_ETOOSMALL, msg, buf, None)
  else
    let hdr := msg_hdr msg in
    buf ← wr buf 0 (PUTVAL16H (h_type hdr) ++ PUTVAL16H 0 ++ PUTVAL32H (h_magic hdr) ++ h_tsx_id hdr);
    r ← encode_attrs pad hdr (attrs msg) (Printer buf 20 (buf_size - 20));
    let '(status, e, rest) := r in
    if decide (status <> PJ_SUCCESS) then stopped status msg e
    else
      let count := zlen (attrs msg) in
      let '(status, mi, fp) := find_last (length (attrs msg) - length rest) rest in
      if decide (status <> PJ_SUCCESS) then stopped status msg e
      else
        let i := match rest with [] => count + 1 | _ => count end in
        let body_len := u16 (e_off e - 20 + (if bool_decide (is_Some mi) then 24 else 0)) in
        buf ← wr (e_buf e) 2 (PUTVAL16H body_len);
        r ← encode_msgint stack key msg mi fp i (Printer buf (e_off e) (e_size e));
        let '(status, msg, e, fp) := r in
        if decide (status <> PJ_SUCCESS) then stopped status msg e
        else
          r ← encode_fingerprint addr msg fp e;
          let '(status, msg, e) := r in
          if decide (status <> PJ_SUCCESS) then stopped status msg e
          else
            Some (PJ_SUCCESS, msg <| msg_hdr ::= fun h => h <| h_length := u16 (e_off e - 20) |> |>,
                  e_buf e, Some (e_off e)).

(** A request as it is sent and received. *)
Example stun_example :
  let tsx_id := [1; 2; 3; 4; 5; 6; 7; 8; 9; 10; 11; 12] in
  let msg := StunMsg (MsgHdr 1 0 PJ_STUN_MAGIC tsx_id)
    [StringAttr (AttrHdr 6 5) [97; 58; 98; 99; 100]; UintAttr (AttrHdr 36 4) 7;
     MsgintAttr (AttrHdr 8 20) []; UintAttr (AttrHdr 0x8028 4) 0] in
  match pj_stun_msg_encode 0 0 (replicate 64 0) msg (replicate 100 0) 100 0 (Some [107; 101; 121]) with
  | Some (PJ_SUCCESS, msg', buf, Some n) =>
      pj_stun_msg_decode (fun _ => []) 0 (take (Z.to_nat n) buf) n 3 true =
        Done (Decoded PJ_SUCCESS (Some msg') n None)
  | _ => False
  end.
Proof. vm_compute. reflexivity. Qed.
