(* ===== verification/StunWire.v ===== *)
(** * What STUN messages are on the wire

    The encoders and the decoders against one description of the wire format:
    the bytes of an attribute, of a list of attributes and of a message. *)

From stdpp Require Import list.
From S2P Require Import Prelude Mem PjString Crc32 Sha1 StunMsg.

(** ** Numbers *)

Lemma align4_eq n : 0 <= n < 4294967293 -> align4 n = (n + 3) / 4 * 4.
Proof.
  intros Hn. unfold align4. rewrite u32_small by (unfold is_u32; lia).
  change 0xFFFFFFFC with (Z.shiftl (Z.ones 30) 2). rewrite land_field by lia.
  change (2 ^ 2) with 4. change (2 ^ 30) with 1073741824. Z.to_euclidean_division_equations; lia.
Qed.

Lemma PUTVAL16H_eq v : is_u16 v -> PUTVAL16H v = [v / 256; v mod 256].
Proof.
  intros Hv. unfold PUTVAL16H, is_u16 in *.
  change 0xFF00 with (Z.shiftl (Z.ones 8) 8). change 0x00FF with (Z.shiftl (Z.ones 8) 0).
  rewrite !land_field, !Z.shiftr_div_pow2 by lia.
  change (2 ^ 8) with 256. change (2 ^ 0) with 1. f_equal; [word_lia|]. f_equal. word_lia.
Qed.

Lemma PUTVAL32H_eq v : is_u32 v ->
  PUTVAL32H v = [v / 16777216; v / 65536 mod 256; v / 256 mod 256; v mod 256].
Proof.
  intros Hv. unfold PUTVAL32H, is_u32 in *.
  change 0xFF000000 with (Z.shiftl (Z.ones 8) 24). change 0x00FF0000 with (Z.shiftl (Z.ones 8) 16).
  change 0x0000FF00 with (Z.shiftl (Z.ones 8) 8). change 0x000000FF with (Z.shiftl (Z.ones 8) 0).
  rewrite !land_field, !Z.shiftr_div_pow2 by lia.
  change (2 ^ 24) with 16777216. change (2 ^ 16) with 65536. change (2 ^ 8) with 256. change (2 ^ 0) with 1.
  f_equal; [word_lia|]. f_equal; [word_lia|]. f_equal; [word_lia|]. f_equal. word_lia.
Qed.

Lemma get16_bytes b0 b1 : is_u8 b0 -> is_u8 b1 ->
  u16 (Z.lor (Z.shiftl b0 8) (Z.shiftl b1 0)) = 256 * b0 + b1.
Proof.
  intros H0 H1. unfold is_u8 in *. rewrite Z.shiftl_0_r, lor_fields by (change (2 ^ 8) with 256; lia).
  change (2 ^ 8) with 256. word_lia.
Qed.

Lemma get32_bytes b0 b1 b2 b3 : is_u8 b0 -> is_u8 b1 -> is_u8 b2 -> is_u8 b3 ->
  u32 (Z.lor (Z.lor (Z.lor (Z.shiftl b0 24) (Z.shiftl b1 16)) (Z.shiftl b2 8)) (Z.shiftl b3 0)) =
  16777216 * b0 + 65536 * b1 + 256 * b2 + b3.
Proof.
  intros H0 H1 H2 H3. unfold is_u8 in *. rewrite Z.shiftl_0_r.
  rewrite <- !Z.lor_assoc.
  rewrite (lor_fields b2 b3 8) by (change (2 ^ 8) with 256; lia).
  rewrite (lor_fields b1 _ 16) by (change (2 ^ 16) with 65536; change (2 ^ 8) with 256; lia).
  rewrite (lor_fields b0 _ 24) by (change (2 ^ 24) with 16777216; change (2 ^ 16) with 65536;
    change (2 ^ 8) with 256; lia).
  change (2 ^ 24) with 16777216; change (2 ^ 16) with 65536; change (2 ^ 8) with 256. word_lia.
Qed.

Lemma put16_bytes v : is_bytes (PUTVAL16H v).
Proof. repeat constructor; apply u8_range. Qed.
Lemma put32_bytes v : is_bytes (PUTVAL32H v).
Proof. repeat constructor; apply u8_range. Qed.

(** ** Reading behind a prefix *)

Lemma rd8_skip pre l i : 0 <= i -> rd8 (pre ++ l) (zlen pre + i) = rd8 l i.
Proof.
  intros Hi. unfold rd8. pose proof (zlen_nonneg pre).
  destruct (Z.ltb_spec (zlen pre + i) 0), (Z.ltb_spec i 0); try lia.
  unfold zlen in *. rewrite lookup_app_r by lia. f_equal. lia.
Qed.

Lemma rd32_skip pre l i : 0 <= i -> rd32 (pre ++ l) (zlen pre + i) = rd32 l i.
Proof. intros Hi. unfold rd32. rewrite <- !Z.add_assoc, !rd8_skip by lia. done. Qed.

Lemma get16_skip pre l i : 0 <= i -> GETVAL16H (pre ++ l) (zlen pre + i) = GETVAL16H l i.
Proof. intros Hi. unfold GETVAL16H. rewrite <- !Z.add_assoc, !rd8_skip by lia. done. Qed.

Lemma get32_skip pre l i : 0 <= i -> GETVAL32H (pre ++ l) (zlen pre + i) = GETVAL32H l i.
Proof. intros Hi. unfold GETVAL32H. rewrite <- !Z.add_assoc, !rd8_skip by lia. done. Qed.

Lemma copy_skip pre l i n : 0 <= i -> copy_from (pre ++ l) (zlen pre + i) n = copy_from l i n.
Proof.
  intros Hi. unfold copy_from. rewrite zlen_app. pose proof (zlen_nonneg pre).
  replace (0 <=? zlen pre + i) with true by lia. replace (0 <=? i) with true by lia.
  replace (zlen pre + i + n <=? zlen pre + zlen l) with (i + n <=? zlen l) by lia.
  destruct (_ && _); [|done]. do 2 f_equal. unfold zlen in *.
  rewrite drop_app_ge by lia. f_equal. lia.
Qed.

Lemma types_skip cnt pre l i : 0 <= i ->
  read_types cnt (pre ++ l) (zlen pre + i) = read_types cnt l i.
Proof.
  revert i. induction cnt as [|cnt IH]; intros i Hi; [done|]. cbn [read_types].
  rewrite <- !Z.add_assoc, !rd8_skip, IH by lia. done.
Qed.

Lemma hdr_skip pre l i : 0 <= i -> GETATTRHDR (pre ++ l) (zlen pre + i) = GETATTRHDR l i.
Proof. intros Hi. unfold GETATTRHDR. rewrite <- Z.add_assoc, !get16_skip by lia. done. Qed.

Create Rewrite HintDb skip.
#[local] Hint Rewrite rd8_skip rd32_skip get16_skip get32_skip copy_skip types_skip hdr_skip
  using lia : skip.

Lemma sockaddr_skip pre l i : 0 <= i ->
  decode_sockaddr_attr (pre ++ l) (zlen pre + i) = decode_sockaddr_attr l i.
Proof.
  intros Hi. unfold decode_sockaddr_attr, ATTR_HDR_LEN. rewrite <- !Z.add_assoc.
  by autorewrite with skip.
Qed.

Lemma bind_ext {A B} (m : outcome A) (f g : A -> outcome B) :
  (forall a, f a = g a) -> (m ≫= f) = (m ≫= g).
Proof. destruct m; cbn; auto. Qed.

Ltac skip_binds := repeat (rewrite <- ?Z.add_assoc; autorewrite with skip; try done;
  first [apply bind_ext; intros ? | case_match]).

(** An attribute is decoded alike wherever it is. *)
Lemma decode_attr_skip kind pre l i hdr : 0 <= i ->
  decode_attr kind (pre ++ l) (zlen pre + i) hdr = decode_attr kind l i hdr.
Proof.
  intros Hi. destruct kind; cbn [decode_attr]; unfold decode_xored_sockaddr_attr;
    rewrite ?sockaddr_skip by done; try done;
    unfold decode_string_attr, decode_uint_attr, decode_uint64_attr, decode_empty_attr,
      decode_msgint_attr, decode_errcode_attr, decode_unknown_attr, decode_binary_attr,
      GETVAL64H, ATTR_HDR_LEN; skip_binds.
Qed.

(** ** The wire format *)

(** Strings whose length field counts the padding. *)
Definition pads_string (msghdr : pj_stun_msg_hdr) (type : Z) : bool :=
  negb (h_magic msghdr =? PJ_STUN_MAGIC) || (type =? PJ_STUN_ATTR_SOFTWARE).

Definition padding (n : Z) : Z := align4 n - n.

(** An attribute as it is received. *)
Definition received (pad : Z) (msghdr : pj_stun_msg_hdr) (a : pj_stun_attr) : pj_stun_attr :=
  match a with
  | SockaddrAttr h x (SockIn _ _ as addr) => SockaddrAttr (AttrHdr (a_type h) 8) x addr
  | SockaddrAttr h x addr => SockaddrAttr (AttrHdr (a_type h) 20) x addr
  | EmptyAttr h => EmptyAttr (AttrHdr (a_type h) 0)
  | StringAttr h v =>
      let v := if pads_string msghdr (a_type h)
               then v ++ replicate (Z.to_nat (padding (zlen v))) (u8 pad) else v in
      StringAttr (AttrHdr (a_type h) (zlen v)) v
  | UintAttr h v => UintAttr (AttrHdr (a_type h) 4) v
  | Uint64Attr h hi lo => Uint64Attr (AttrHdr (a_type h) 8) hi lo
  | BinaryAttr h m d =>
      BinaryAttr (AttrHdr (a_type h) (zlen d))
        (if bool_decide (is_Some (find_attr_desc (a_type h))) then 0 else m) d
  | MsgintAttr h m => MsgintAttr (AttrHdr (a_type h) 20) m
  | ErrcodeAttr h c r => ErrcodeAttr (AttrHdr (a_type h) (4 + zlen r)) c r
  | UnknownAttr h l => UnknownAttr (AttrHdr (a_type h) (2 * zlen l)) l
  end.

(** The bytes of the value. *)
Definition attr_value (pad : Z) (msghdr : pj_stun_msg_hdr) (a : pj_stun_attr) : list Z :=
  match a with
  | SockaddrAttr _ x (SockIn port addr) =>
      [0; 1] ++ st16 (if x then Z.lxor port magic_port_n else port)
        ++ st32 (if x then Z.lxor addr magic_n else addr)
  | SockaddrAttr _ x (SockIn6 port addr) =>
      [0; 2] ++ st16 (if x then Z.lxor port magic_port_n else port)
        ++ (if x then xor_ipv6 addr (h_tsx_id msghdr) else addr)
  | SockaddrAttr _ _ (SockOther _) | EmptyAttr _ => []
  | StringAttr h v =>
      if pads_string msghdr (a_type h)
      then v ++ replicate (Z.to_nat (padding (zlen v))) (u8 pad) else v
  | UintAttr _ v => PUTVAL32H v
  | Uint64Attr _ hi lo => PUTVAL64H hi lo
  | BinaryAttr _ _ d => d
  | MsgintAttr _ m => m
  | ErrcodeAttr _ c r => PUTVAL16H 0 ++ [u8 (Z.quot c 100); u8 (Z.rem c 100)] ++ r
  | UnknownAttr _ l => concat (map (fun t => st16 (swap16 t)) l)
  end.

(** The attribute, with [tl] in the place of its padding. *)
Definition wire (pad : Z) (msghdr : pj_stun_msg_hdr) (a : pj_stun_attr) (tl : list Z) : list Z :=
  PUTVAL16H (attr_type a) ++ PUTVAL16H (zlen (attr_value pad msghdr a)) ++ attr_value pad msghdr a ++ tl.

Definition wire_size (pad : Z) (msghdr : pj_stun_msg_hdr) (a : pj_stun_attr) : Z :=
  4 + align4 (zlen (attr_value pad msghdr a)).

Definition addr_ok (addr : stun_sockaddr) : Prop :=
  match addr with
  | SockIn port a => is_u16 port /\ is_u32 a
  | SockIn6 port a => is_u16 port /\ is_bytes a /\ zlen a = 16
  | SockOther _ => False
  end.

(** What the encoder of a kind expects of an attribute. *)
Definition kind_ok (kind : attr_kind) (a : pj_stun_attr) : Prop :=
  match kind, a with
  | K_sockaddr, SockaddrAttr _ x addr => x = false /\ addr_ok addr
  | K_xored_sockaddr, SockaddrAttr _ x addr => x = true /\ addr_ok addr
  | K_string, StringAttr _ v => is_bytes v /\ zlen v <= 65532
  | K_uint, UintAttr _ v => is_u32 v
  | K_uint64, Uint64Attr _ hi lo => is_u32 hi /\ is_u32 lo
  | K_empty, EmptyAttr _ => True
  | K_msgint, MsgintAttr h m => a_length h = 20 /\ is_bytes m /\ zlen m = 20
  | K_errcode, ErrcodeAttr _ c r => 0 <= c < 25600 /\ is_bytes r /\ zlen r <= 65528
  | K_unknown, UnknownAttr _ l => zlen l <= PJ_STUN_MAX_ATTR /\ Forall is_u16 l
  | K_binary, BinaryAttr _ _ d => is_bytes d /\ zlen d <= 65532
  | _, _ => False
  end.

(** An attribute that can be sent: of the structure its type is for, or binary,
    of a type that need not be understood. *)
Definition attr_ok (a : pj_stun_attr) : Prop :=
  is_u16 (attr_type a) /\
  match find_attr_desc (attr_type a) with
  | Some (_, kind) => kind_ok kind a
  | None =>
      0x7FFF < attr_type a /\
      match a with BinaryAttr _ m d => m = PJ_STUN_MAGIC /\ is_bytes d /\ zlen d <= 65532 | _ => False end
  end.

(** The lengths of fixed parts. *)
Ltac fixed_lengths :=
  rewrite ?zlen_app in *;
  repeat first
    [ progress change (zlen (st16 _)) with 2 in * | progress change (zlen (st32 _)) with 4 in *
    | progress change (zlen (PUTVAL16H _)) with 2 in * | progress change (zlen (PUTVAL32H _)) with 4 in *
    | progress change (zlen (PUTVAL64H _ _)) with 8 in * | progress change (zlen [_; _]) with 2 in *
    | progress change (zlen (@nil Z)) with 0 in * ].

Lemma padding_range n : 0 <= n < 4294967293 -> 0 <= padding n < 4.
Proof. intros Hn. unfold padding. rewrite align4_eq by done. Z.to_euclidean_division_equations; lia. Qed.

Lemma align4_add n : 0 <= n < 4294967289 -> align4 (n + 4) = 4 + align4 n.
Proof. intros Hn. rewrite !align4_eq by lia. Z.to_euclidean_division_equations; lia. Qed.

Lemma align4_padded n : 0 <= n < 4294967289 -> align4 (n + padding n) = align4 n.
Proof.
  intros Hn. pose proof (padding_range n ltac:(lia)). unfold padding in *.
  rewrite !align4_eq in * by lia. Z.to_euclidean_division_equations; lia.
Qed.

Lemma land_3 n : 0 <= n < 4294967289 ->
  Z.land n 3 = n mod 4 /\ (truth (Z.land n 3) = false -> padding n = 0) /\
  (truth (Z.land n 3) = true -> padding n = 4 - Z.land n 3).
Proof.
  intros Hn. change 3 with (Z.ones 2). rewrite Z.land_ones by lia. change (2 ^ 2) with 4.
  unfold padding, truth. rewrite align4_eq by lia.
  split; [done|]. destruct (Z.eqb_spec (n mod 4) 0); split; intros; try done;
    Z.to_euclidean_division_equations; lia.
Qed.

Lemma types_bytes_len l : zlen (concat (map (fun t => st16 (swap16 t)) l)) = 2 * zlen l.
Proof. induction l as [|t l IH]; [done|]. cbn [map concat]. rewrite zlen_app, IH, zlen_cons. change (zlen (st16 _)) with 2. lia. Qed.

Lemma xor_ipv6_len a k : zlen a = 16 -> zlen k = 12 -> zlen (xor_ipv6 a k) = 16.
Proof.
  intros Ha Hk. unfold zlen, xor_ipv6, xor_bytes_with in *. rewrite length_zip_with, length_app.
  change (length (st32 magic_n)) with 4%nat. lia.
Qed.

(** ** Writing *)

Lemma wr_end start rest bs : zlen bs <= zlen rest ->
  wr (start ++ rest) (zlen start) bs = Some (start ++ bs ++ drop (length bs) rest).
Proof.
  intros Hb. pose proof (zlen_nonneg start). rewrite wr_some by (rewrite ?zlen_app; lia).
  unfold zlen. rewrite Nat2Z.id, take_app_length.
  replace (Z.to_nat (Z.of_nat (length start) + Z.of_nat (length bs))) with (length start + length bs)%nat by lia.
  by rewrite <- drop_drop, drop_app_length.
Qed.

Lemma wr_after start a rest bs : zlen bs <= zlen rest ->
  wr (start ++ a ++ rest) (zlen start + zlen a) bs = Some (start ++ a ++ bs ++ drop (length bs) rest).
Proof. intros Hb. rewrite app_assoc, <- zlen_app, wr_end by done. by rewrite <- app_assoc. Qed.

(** Memory that ends in the bytes not yet written. *)
Definition printed_as (r : option encoded) (start bs rest : list Z) : Prop :=
  exists tl rest', r = Some (PJ_SUCCESS, (start ++ bs ++ tl) ++ rest', zlen bs + zlen tl) /\
    zlen tl = padding (zlen bs) /\ is_bytes tl /\ is_bytes rest' /\
    zlen rest' = zlen rest - align4 (zlen bs).

(** After a write of [bs], what was there stays as padding. *)
Lemma printed_pads start bs rest : is_bytes rest -> align4 (zlen bs) <= zlen rest ->
  zlen bs < 4294967289 ->
  printed_as (Some (PJ_SUCCESS, start ++ bs ++ drop (length bs) rest, align4 (zlen bs))) start bs rest.
Proof.
  intros Hr Hl Hn. pose proof (zlen_nonneg bs) as H0. pose proof (padding_range (zlen bs) ltac:(lia)) as Hp.
  unfold padding in Hp.
  exists (take (Z.to_nat (padding (zlen bs))) (drop (length bs) rest)),
    (drop (Z.to_nat (align4 (zlen bs))) rest).
  assert (length bs = Z.to_nat (zlen bs)) as El by (unfold zlen; lia).
  split_and!.
  - rewrite zlen_take by (rewrite El, zlen_drop by lia; unfold padding; lia).
    do 3 f_equal; [|unfold padding; lia]. rewrite <- !app_assoc. do 2 f_equal.
    replace (Z.to_nat (align4 (zlen bs))) with (length bs + Z.to_nat (padding (zlen bs)))%nat
      by (unfold padding, zlen in *; lia).
    by rewrite <- drop_drop, take_drop.
  - apply zlen_take. rewrite El, zlen_drop by lia. unfold padding. lia.
  - by apply Forall_take, Forall_drop.
  - by apply Forall_drop.
  - apply zlen_drop. lia.
Qed.

Lemma printed_one start bs rest : is_bytes rest -> align4 (zlen bs) <= zlen rest ->
  zlen bs < 4294967289 ->
  printed_as (buf ← wr (start ++ rest) (zlen start) bs; Some (PJ_SUCCESS, buf, align4 (zlen bs))) start bs rest.
Proof.
  intros Hr Hl Hn. pose proof (padding_range (zlen bs) ltac:(pose proof (zlen_nonneg bs); lia)) as Hp.
  unfold padding in Hp. rewrite wr_end by lia. by apply printed_pads.
Qed.

(** ** Encoding an attribute *)

Definition head (pad : Z) (msghdr : pj_stun_msg_hdr) (a : pj_stun_attr) : list Z :=
  PUTVAL16H (attr_type a) ++ PUTVAL16H (zlen (attr_value pad msghdr a)) ++ attr_value pad msghdr a.

Lemma head_len pad msghdr a : zlen (head pad msghdr a) = zlen (attr_value pad msghdr a) + 4.
Proof. unfold head. rewrite !zlen_app. change (zlen (PUTVAL16H _)) with 2. lia. Qed.

Lemma wire_head pad msghdr a tl : wire pad msghdr a tl = head pad msghdr a ++ tl.
Proof. unfold wire, head. by rewrite <- !app_assoc. Qed.


(** The value is short in any attribute that is sent. *)
Lemma value_short pad msghdr kind a : kind_ok kind a -> zlen (h_tsx_id msghdr) = 12 ->
  0 <= zlen (attr_value pad msghdr a) <= 65535.
Proof.
  intros Ha Hid. split; [apply zlen_nonneg|].
  destruct kind, a as [h x [p d|p d|f]|h|h v|h v|h hi lo|h m d|h m|h c r|h l]; cbn in Ha; try done; cbn [attr_value].
  all: rewrite ?types_bytes_len; fixed_lengths; try lia.
  all: try lazymatch type of Ha with
    | _ = _ /\ _ /\ _ /\ _ =>
        destruct Ha as (-> & _ & _ & Hl); cbn [attr_value]; rewrite ?xor_ipv6_len by done; lia
    end.
  - destruct Ha as [Hb Hl]. pose proof (zlen_nonneg v). case_match; [|lia].
    pose proof (padding_range (zlen v) ltac:(lia)) as Hp. rewrite zlen_app, zlen_replicate by lia.
    unfold padding in *. rewrite align4_eq in * by lia. Z.to_euclidean_division_equations; lia.
  - unfold PJ_STUN_MAX_ATTR in Ha. lia.
Qed.

(** Two writes, the second behind the first, are one. *)
Lemma wr_two {X} start rest a b (k : list Z -> option X) : zlen a + zlen b <= zlen rest ->
  (buf ← wr (start ++ rest) (zlen start) a; buf ← wr buf (zlen start + zlen a) b; k buf) =
  (buf ← wr (start ++ rest) (zlen start) (a ++ b); k buf).
Proof.
  intros Hl. pose proof (zlen_nonneg a). pose proof (zlen_nonneg b).
  rewrite !wr_end by (rewrite ?zlen_app; lia). cbn [mbind option_bind].
  rewrite wr_after.
  - cbn [mbind option_bind]. f_equal. rewrite <- !app_assoc, drop_drop, length_app. done.
  - unfold zlen in *. rewrite length_drop. lia.
Qed.

Lemma ltb_room a b : b <= a -> (a <? b) = false.
Proof. lia. Qed.

(** The encoders that write the head and nothing else. *)
Lemma encode_attr_head pad kind msghdr a start rest : kind_ok kind a -> kind <> K_string ->
  zlen (h_tsx_id msghdr) = 12 -> wire_size pad msghdr a <= zlen rest ->
  encode_attr pad kind a (start ++ rest) (zlen start) (zlen rest) msghdr =
  (buf ← wr (start ++ rest) (zlen start) (head pad msghdr a);
   Some (PJ_SUCCESS, buf, wire_size pad msghdr a)).
Proof.
  intros Ha Hk Hid Hs. pose proof (value_short pad msghdr kind a Ha Hid) as Hv.
  pose proof (align4_add (zlen (attr_value pad msghdr a)) ltac:(lia)) as Hal.
  pose proof (padding_range (zlen (attr_value pad msghdr a)) ltac:(lia)) as Hp. unfold padding in Hp.
  unfold wire_size in *.
  destruct kind, a as [h x [p d|p d|f]|h|h v|h v|h hi lo|h m d|h m|h c r|h l]; cbn in Ha; try tauto.
  all: unfold head; cbn [encode_attr attr_type attr_hdr attr_value] in *.
  - destruct Ha as (-> & _). unfold encode_sockaddr_attr. fixed_lengths.
    change (align4 (2 + (2 + 4))) with 8 in *. rewrite ltb_room by lia.
    rewrite (wr_two start rest (PUTVAL16H _)) by (fixed_lengths; lia). done.
  - destruct Ha as (-> & _ & _ & Hl). unfold encode_sockaddr_attr. fixed_lengths. rewrite Hl in *.
    change (align4 (2 + (2 + 16))) with 20 in *. rewrite ltb_room by lia.
    rewrite (wr_two start rest (PUTVAL16H _)) by (fixed_lengths; lia). done.
  - destruct Ha as (-> & _). unfold encode_sockaddr_attr. fixed_lengths.
    change (align4 (2 + (2 + 4))) with 8 in *. rewrite ltb_room by lia.
    rewrite (wr_two start rest (PUTVAL16H _)) by (fixed_lengths; lia). done.
  - destruct Ha as (-> & _ & _ & Hl). unfold encode_sockaddr_attr.
    pose proof (xor_ipv6_len d (h_tsx_id msghdr) Hl Hid) as Hl'. fixed_lengths. rewrite Hl' in *.
    change (align4 (2 + (2 + 16))) with 20 in *. rewrite ltb_room by lia.
    rewrite (wr_two start rest (PUTVAL16H _)) by (fixed_lengths; lia). done.
  - unfold encode_uint_attr. fixed_lengths. change (align4 4) with 4 in *. by rewrite ltb_room by lia.
  - unfold encode_uint64_attr. fixed_lengths. change (align4 8) with 8 in *. by rewrite ltb_room by lia.
  - unfold encode_empty_attr, ATTR_HDR_LEN. fixed_lengths. change (align4 0) with 0 in *.
    by rewrite ltb_room by lia.
  - destruct Ha as (Hl & _ & Hm). unfold encode_msgint_attr. rewrite Hl, Hm in *. change (align4 20) with 20 in *.
    by rewrite ltb_room by lia.
  - destruct Ha as (Hc & _ & Hl). unfold encode_errcode_attr, ATTR_HDR_LEN. fixed_lengths.
    replace (2 + (2 + zlen r)) with (4 + zlen r) in * by lia. rewrite ltb_room by lia.
    rewrite u16_small by (unfold is_u16; lia). replace (4 + 4 + zlen r) with (4 + zlen r + 4) by lia.
    by rewrite Hal.
  - destruct Ha as (Hl & _). unfold encode_unknown_attr, ATTR_HDR_LEN. rewrite types_bytes_len in *.
    rewrite Z.shiftl_mul_pow2 by lia. change (2 ^ 1) with 2. rewrite (Z.mul_comm (zlen l)). rewrite ltb_room by lia.
    rewrite u16_small by (unfold is_u16; lia). by rewrite (Z.add_comm 4), Hal.
  - unfold encode_binary_attr, ATTR_HDR_LEN. rewrite Hal. rewrite ltb_room by lia.
    by rewrite u16_small by (unfold is_u16; lia).
Qed.

(** A string is written in three parts. *)
Lemma encode_string_head pad msghdr h v start rest : zlen v <= 65532 ->
  4 + align4 (zlen v) <= zlen rest ->
  encode_string_attr pad h v (start ++ rest) (zlen start) (zlen rest) msghdr =
  (buf ← wr (start ++ rest) (zlen start) (PUTVAL16H (a_type h)
     ++ PUTVAL16H (if pads_string msghdr (a_type h) then align4 (zlen v) else zlen v)
     ++ v ++ replicate (Z.to_nat (padding (zlen v))) (u8 pad));
   Some (PJ_SUCCESS, buf, 4 + align4 (zlen v))).
Proof.
  intros Hv Hs. pose proof (zlen_nonneg v). pose proof (padding_range (zlen v) ltac:(lia)) as Hp.
  destruct (land_3 (zlen v) ltac:(lia)) as (Hm & Hp0 & Hp1).
  pose proof (align4_eq (zlen v) ltac:(lia)) as Hal.
  unfold encode_string_attr, ATTR_HDR_LEN. fold (pads_string msghdr (a_type h)).
  rewrite align4_add, ltb_room by lia.
  assert ((if pads_string msghdr (a_type h) then u16 (align4 (zlen v)) else u16 (zlen v)) =
          (if pads_string msghdr (a_type h) then align4 (zlen v) else zlen v)) as ->
    by (case_match; apply u16_small; unfold is_u16; Z.to_euclidean_division_equations; lia).
  set (L := if pads_string msghdr (a_type h) then align4 (zlen v) else zlen v).
  set (W := PUTVAL16H (a_type h) ++ PUTVAL16H L).
  change 4 with (zlen W) at 1 2.
  rewrite (wr_two start rest W v) by (change (zlen W) with 4; unfold padding in Hp; lia).
  rewrite <- Z.add_assoc, <- (zlen_app W v).
  destruct (truth (Z.land (zlen v) 3)) eqn:Et.
  - rewrite (Hp1 eq_refl).
    rewrite (wr_two start rest (W ++ v)).
    + unfold W. by rewrite <- !app_assoc.
    + rewrite zlen_app. change (zlen W) with 4. rewrite zlen_replicate by lia.
      rewrite (Hp1 eq_refl) in Hp. specialize (Hp1 eq_refl). unfold padding in Hp1. lia.
  - rewrite (Hp0 eq_refl). cbn [Z.to_nat replicate]. rewrite app_nil_r. unfold W. rewrite <- !app_assoc.
    by destruct (wr _ _ _).
Qed.

(** The encoder of a kind prints the head of the attribute. *)
Lemma encode_attr_spec pad kind msghdr a start rest : kind_ok kind a ->
  zlen (h_tsx_id msghdr) = 12 -> is_bytes rest -> wire_size pad msghdr a <= zlen rest ->
  printed_as (encode_attr pad kind a (start ++ rest) (zlen start) (zlen rest) msghdr)
    start (head pad msghdr a) rest.
Proof.
  intros Ha Hid Hr Hs. pose proof (value_short pad msghdr kind a Ha Hid) as Hv.
  assert (align4 (zlen (head pad msghdr a)) = wire_size pad msghdr a) as Hal
    by (rewrite head_len, align4_add by lia; done).
  destruct (decide (kind = K_string)) as [->|Hk].
  - destruct a as [| |h v| | | | | |]; try done. destruct Ha as [Hb Hl]. cbn [encode_attr].
    pose proof (zlen_nonneg v). pose proof (padding_range (zlen v) ltac:(lia)) as Hp.
    unfold wire_size in Hs. cbn [attr_value] in Hs.
    assert (align4 (zlen (if pads_string msghdr (a_type h)
        then v ++ replicate (Z.to_nat (padding (zlen v))) (u8 pad) else v)) = align4 (zlen v)) as E.
    { case_match; [|done]. rewrite zlen_app, zlen_replicate, align4_padded by lia. done. }
    rewrite E in Hs. rewrite encode_string_head by lia.
    pose proof (head_len pad msghdr (StringAttr h v)) as Hhl. cbn [attr_value] in Hhl.
    pose proof (printed_one start (head pad msghdr (StringAttr h v)) rest Hr ltac:(rewrite Hal; unfold wire_size;
      cbn [attr_value]; rewrite E; lia) ltac:(cbn [attr_value] in Hv; lia)) as H1. rewrite Hal in H1. unfold wire_size in H1. cbn [attr_value] in H1.
    rewrite E in H1. unfold head in H1 |- *. cbn [attr_value] in H1 |- *.
    change (attr_type (StringAttr h v)) with (a_type h) in *.
    assert (zlen (replicate (Z.to_nat (padding (zlen v))) (u8 pad)) = padding (zlen v)) as Er
      by (apply zlen_replicate; lia).
    assert (zlen v + padding (zlen v) = align4 (zlen v)) as Epad by (unfold padding; lia).
    destruct (pads_string msghdr (a_type h)).
    + rewrite zlen_app, Er, Epad in H1 |- *. exact H1.
    + set (W := PUTVAL16H (a_type h) ++ PUTVAL16H (zlen v) ++ v) in *.
      replace (PUTVAL16H (a_type h) ++ _) with (W ++ replicate (Z.to_nat (padding (zlen v))) (u8 pad))
        by (unfold W; by rewrite <- !app_assoc).
      assert (zlen W = zlen v + 4) as HW by (unfold W; fixed_lengths; lia).
      rewrite wr_end by (rewrite zlen_app, Er; lia). cbn [mbind option_bind].
      set (tl := replicate _ _) in *.
      exists tl, (drop (length (W ++ tl)) rest). split; [rewrite Er, HW, (app_assoc start (W ++ tl)); do 2 f_equal; lia|].
      split_and!; [|apply Forall_replicate, u8_range|by apply Forall_drop|].
      * rewrite Er. change (zlen W) with (zlen v + 4) || rewrite HW. unfold padding. rewrite align4_add by lia. lia.
      * rewrite length_app. unfold zlen in *. rewrite length_drop.
        assert (align4 (Z.of_nat (length W)) = 4 + align4 (Z.of_nat (length v))) by (rewrite HW, align4_add; lia). lia.
  - rewrite encode_attr_head by done. rewrite <- Hal. apply printed_one; [done|lia|rewrite head_len; lia].
Qed.

(** ** Decoding an attribute *)

Lemma get16_cons b0 b1 rest : is_u8 b0 -> is_u8 b1 ->
  GETVAL16H (b0 :: b1 :: rest) 0 = Done (256 * b0 + b1).
Proof. intros H0 H1. rewrite <- get16_bytes by done. reflexivity. Qed.

Lemma get32_cons b0 b1 b2 b3 rest : is_u8 b0 -> is_u8 b1 -> is_u8 b2 -> is_u8 b3 ->
  GETVAL32H (b0 :: b1 :: b2 :: b3 :: rest) 0 = Done (16777216 * b0 + 65536 * b1 + 256 * b2 + b3).
Proof. intros H0 H1 H2 H3. rewrite <- get32_bytes by done. reflexivity. Qed.

Lemma get16_put v rest : is_u16 v -> GETVAL16H (PUTVAL16H v ++ rest) 0 = Done v.
Proof.
  intros Hv. rewrite PUTVAL16H_eq by done. cbn [app]. rewrite get16_cons by word_lia.
  f_equal. word_lia.
Qed.

Lemma get32_put v rest : is_u32 v -> GETVAL32H (PUTVAL32H v ++ rest) 0 = Done v.
Proof.
  intros Hv. rewrite PUTVAL32H_eq by done. cbn [app]. rewrite get32_cons by word_lia.
  f_equal. word_lia.
Qed.

Lemma get16_st16 v rest : is_u16 v -> GETVAL16H (st16 v ++ rest) 0 = Done (swap16 v).
Proof.
  intros Hv. unfold st16. cbn [app]. rewrite get16_cons by word_lia. unfold swap16. f_equal. lia.
Qed.

Lemma rd32_st32 v rest : is_u32 v -> rd32 (st32 v ++ rest) 0 = Some v.
Proof. intros Hv. transitivity (Some (v mod 256 + 256 * (v / 256 mod 256) + 65536 * (v / 65536 mod 256) +
  16777216 * (v / 16777216 mod 256))); [reflexivity|by rewrite st32_sum]. Qed.

Lemma copy_front a rest n : n = zlen a -> copy_from (a ++ rest) 0 n = Done a.
Proof.
  intros ->. unfold copy_from. rewrite zlen_app. pose proof (zlen_nonneg a). pose proof (zlen_nonneg rest).
  replace ((0 <=? zlen a) && (0 <=? 0) && (0 + zlen a <=? zlen a + zlen rest)) with true by lia.
  change (drop (Z.to_nat 0) ?l) with l. unfold zlen. by rewrite Nat2Z.id, take_app_length.
Qed.

Lemma hdr_front t n rest : is_u16 t -> is_u16 n ->
  GETATTRHDR (PUTVAL16H t ++ PUTVAL16H n ++ rest) 0 = Done (AttrHdr t n).
Proof.
  intros Ht Hn. unfold GETATTRHDR. rewrite get16_put by done. cbn [mbind outcome_bind].
  change (0 + 2) with (zlen (PUTVAL16H t) + 0). rewrite get16_skip, get16_put by (done || lia). done.
Qed.

Lemma types_front l rest : Forall is_u16 l ->
  read_types (length l) (concat (map (fun t => st16 (swap16 t)) l) ++ rest) 0 = Done l.
Proof.
  induction 1 as [|t l Ht _ IH]; [done|]. cbn [length map concat read_types]. rewrite <- app_assoc.
  change (0 + 2) with (zlen (st16 (swap16 t)) + 0). rewrite types_skip, IH by lia.
  transitivity (Done (swap16 (swap16 t mod 256 + 256 * (swap16 t / 256 mod 256)) :: l)); [reflexivity|].
  rewrite st16_sum by apply swap16_range. rewrite swap16_swap16. by rewrite u16_small.
Qed.

Lemma xor_twice a k : length a = length k -> zip_with Z.lxor (zip_with Z.lxor a k) k = a.
Proof.
  revert k. induction a as [|x a IH]; intros [|y k] H; try done. cbn. rewrite lxor_cancel. f_equal.
  apply IH. by injection H.
Qed.

Lemma xor_ipv6_twice a k : zlen a = 16 -> zlen k = 12 -> xor_ipv6 (xor_ipv6 a k) k = a.
Proof.
  intros Ha Hk. unfold xor_ipv6, xor_bytes_with. apply xor_twice. unfold zlen in *.
  rewrite length_app. change (length (st32 magic_n)) with 4%nat. lia.
Qed.

Lemma lxor_u16 x : is_u16 x -> is_u16 (Z.lxor x magic_port_n).
Proof. intros Hx. apply (lxor_range _ _ 16); [lia|exact Hx|]. by vm_compute. Qed.
Lemma lxor_u32 x : is_u32 x -> is_u32 (Z.lxor x magic_n).
Proof. intros Hx. apply (lxor_range _ _ 32); [lia|exact Hx|]. by vm_compute. Qed.

(** The address in the value of an attribute. *)
Lemma decode_addr pad msghdr h x addr rest : is_u16 (a_type h) -> addr_ok addr ->
  zlen (h_tsx_id msghdr) = 12 ->
  decode_sockaddr_attr (head pad msghdr (SockaddrAttr h x addr) ++ rest) 0 =
  Done (inr (SockaddrAttr (AttrHdr (a_type h) (sockaddr_len addr + 4)) false
    (if x then match addr with
               | SockIn p a => SockIn (Z.lxor p magic_port_n) (Z.lxor a magic_n)
               | SockIn6 p a => SockIn6 (Z.lxor p magic_port_n) (xor_ipv6 a (h_tsx_id msghdr))
               | SockOther f => SockOther f
               end else addr))).
Proof.
  intros Ht Ha Hid. unfold head, decode_sockaddr_attr, ATTR_HDR_LEN. change (attr_type _) with (a_type h).
  rewrite <- !app_assoc.
  destruct addr as [p a|p a|]; [| |done]; cbn [attr_value sockaddr_len].
  - destruct Ha as [Hp Ha]. set (p' := if x then _ else p). set (a' := if x then _ else a).
    assert (is_u16 p' /\ is_u32 a') as [Hp' Ha'] by (unfold p', a'; destruct x; auto using lxor_u16, lxor_u32).
    rewrite hdr_front by (done || by vm_compute). rewrite (app_assoc (PUTVAL16H (a_type h))).
    set (H := PUTVAL16H (a_type h) ++ PUTVAL16H _). cbn [mbind outcome_bind].
    change (0 + 4 + 2) with (zlen H + 2). change (0 + 4 + 4) with (zlen H + 4). change (0 + 4 + 1) with (zlen H + 1).
    rewrite rd8_skip, get16_skip, rd32_skip by lia.
    pose proof (get16_st16 p' (st32 a' ++ rest) Hp') as E1. pose proof (rd32_st32 a' rest Ha') as E2.
    set (V := [0; 1] ++ st16 p' ++ st32 a').
    change (GETVAL16H (V ++ rest) 2 = Done (swap16 p')) in E1.
    change (rd32 (V ++ rest) 4 = Some a') in E2. rewrite E1, E2.
    change (rd8 (V ++ rest) 1) with (Some 1). change (zlen V) with 8. cbn -[swap16 Z.lxor].
    rewrite swap16_swap16, u16_small by done. unfold p', a'. by destruct x.
  - destruct Ha as (Hp & Hb & Hl). set (p' := if x then _ else p). set (a' := if x then _ else a).
    assert (is_u16 p') as Hp' by (unfold p'; destruct x; auto using lxor_u16).
    assert (zlen a' = 16) as Ha' by (unfold a'; destruct x; [by apply xor_ipv6_len|done]).
    rewrite !zlen_app, Ha'. change (zlen [0; 2] + (zlen (st16 p') + 16)) with 20.
    rewrite hdr_front by (done || by vm_compute). rewrite (app_assoc (PUTVAL16H (a_type h))).
    set (H := PUTVAL16H (a_type h) ++ PUTVAL16H _). cbn [mbind outcome_bind].
    change (0 + 4 + 2) with (zlen H + 2). change (0 + 4 + 4) with (zlen H + 4). change (0 + 4 + 1) with (zlen H + 1).
    rewrite rd8_skip, get16_skip, copy_skip by lia.
    pose proof (get16_st16 p' (a' ++ rest) Hp') as E1.
    pose proof (copy_skip ([0; 2] ++ st16 p') (a' ++ rest) 0 16 ltac:(lia)) as E2.
    rewrite (copy_front a' rest) in E2 by done.
    set (V := [0; 2] ++ st16 p' ++ a').
    change (GETVAL16H (V ++ rest) 2 = Done (swap16 p')) in E1.
    change (copy_from (V ++ rest) 4 16 = Done a') in E2. rewrite E1, E2.
    change (rd8 (V ++ rest) 1) with (Some 2). cbn -[swap16 Z.lxor].
    rewrite swap16_swap16, u16_small by done. unfold p', a'. by destruct x.
Qed.

(** The header of an attribute, and its value behind it. *)
Lemma decode_hdr_then {A} t n rest (f : pj_stun_attr_hdr -> outcome A) : is_u16 t -> is_u16 n ->
  (GETATTRHDR (PUTVAL16H t ++ PUTVAL16H n ++ rest) 0 ≫= f) = f (AttrHdr t n).
Proof. intros Ht Hn. by rewrite hdr_front. Qed.

Lemma value_at t n v rest m : m = zlen v ->
  copy_from (PUTVAL16H t ++ PUTVAL16H n ++ v ++ rest) 4 m = Done v.
Proof.
  intros ->. rewrite (app_assoc (PUTVAL16H t)).
  pose proof (copy_skip (PUTVAL16H t ++ PUTVAL16H n) (v ++ rest) 0 (zlen v) ltac:(lia)) as E.
  change (zlen (PUTVAL16H t ++ PUTVAL16H n) + 0) with 4 in E. by rewrite E, copy_front.
Qed.

Lemma value32_at t n v rest : is_u32 v ->
  GETVAL32H (PUTVAL16H t ++ PUTVAL16H n ++ PUTVAL32H v ++ rest) 4 = Done v.
Proof.
  intros Hv. rewrite (app_assoc (PUTVAL16H t)).
  pose proof (get32_skip (PUTVAL16H t ++ PUTVAL16H n) (PUTVAL32H v ++ rest) 0 ltac:(lia)) as E.
  change (zlen (PUTVAL16H t ++ PUTVAL16H n) + 0) with 4 in E. by rewrite E, get32_put.
Qed.

(** An attribute that was encoded is decoded as [received] says, whatever follows it. *)
Lemma decode_attr_head pad kind msghdr a rest : kind_ok kind a -> is_u16 (attr_type a) ->
  zlen (h_tsx_id msghdr) = 12 -> is_Some (find_attr_desc (attr_type a)) ->
  decode_attr kind (head pad msghdr a ++ rest) 0 msghdr = Done (inr (received pad msghdr a)).
Proof.
  intros Ha Ht Hid Hd. pose proof (value_short pad msghdr kind a Ha Hid) as Hv.
  assert (is_u16 (zlen (attr_value pad msghdr a))) as Hn by (unfold is_u16; lia).
  destruct (decide (kind = K_sockaddr \/ kind = K_xored_sockaddr)) as [Hk|Hk].
  - destruct a as [h x addr| | | | | | | |]; try (by destruct Hk as [->| ->]).
    destruct Hk as [->| ->]; destruct Ha as [-> Ha]; cbn [decode_attr]; unfold decode_xored_sockaddr_attr;
      rewrite (decode_addr pad msghdr h _ addr rest) by done.
    + by destruct addr.
    + cbn [mbind outcome_bind]. destruct addr as [p a|p a|]; [| |done]; cbn [unxor_sockaddr received sockaddr_len].
      * by rewrite !lxor_cancel.
      * destruct Ha as (_ & _ & Hl). by rewrite lxor_cancel, xor_ipv6_twice.
  - unfold head in *. rewrite <- !app_assoc.
    destruct kind, a as [h x [p d|p d|f]|h|h v|h v|h hi lo|h m d|h m|h c r|h l]; cbn in Ha;
      try tauto; cbn [decode_attr attr_value] in *; change (attr_type _) with (a_type h) in *.
    + unfold decode_string_attr, ATTR_HDR_LEN. rewrite decode_hdr_then by done. change (0 + 4) with 4.
      rewrite value_at by done. cbn [received]. by destruct (pads_string _ _).
    + unfold decode_uint_attr. rewrite decode_hdr_then by done. change (0 + 4) with 4.
      by rewrite value32_at.
    + unfold decode_uint64_attr. rewrite decode_hdr_then by done. unfold PUTVAL64H, GETVAL64H.
      change (0 + 4) with 4. rewrite <- app_assoc, value32_at by tauto.
      pose proof (get32_skip (PUTVAL16H (a_type h) ++ PUTVAL16H (zlen (PUTVAL32H hi ++ PUTVAL32H lo)) ++ PUTVAL32H hi)
        (PUTVAL32H lo ++ rest) 0 ltac:(lia)) as E.
      rewrite get32_put, <- !app_assoc in E by tauto.
      change (GETVAL32H (PUTVAL16H (a_type h) ++ PUTVAL16H (zlen (PUTVAL32H hi ++ PUTVAL32H lo)) ++
        PUTVAL32H hi ++ PUTVAL32H lo ++ rest) (4 + 4) = Done lo) in E.
      cbn [mbind outcome_bind]. by rewrite E.
    + unfold decode_empty_attr. by rewrite decode_hdr_then.
    + unfold decode_msgint_attr. rewrite decode_hdr_then by done. destruct Ha as (Hl & _ & Hm). rewrite Hm.
      change (0 + 4) with 4. by rewrite value_at.
    + destruct Ha as (Hc & _ & Hl). unfold decode_errcode_attr, ATTR_HDR_LEN. rewrite decode_hdr_then by done.
      set (b0 := u8 (Z.quot c 100)). set (b1 := u8 (Z.rem c 100)).
      set (l := PUTVAL16H (a_type h) ++ _).
      pose proof (copy_skip (PUTVAL16H (a_type h) ++ PUTVAL16H (zlen (PUTVAL16H 0 ++ [b0; b1] ++ r)) ++ PUTVAL16H 0 ++ [b0; b1])
        (r ++ rest) 0 (zlen r) ltac:(lia)) as E.
      rewrite copy_front, <- !app_assoc in E by done. change (copy_from l (0 + 4 + 4) (zlen r) = Done r) in E.
      change (rd8 l (0 + 6)) with (Some b0). change (rd8 l (0 + 7)) with (Some b1). cbn [mem mbind outcome_bind a_length].
      fixed_lengths. replace (2 + (2 + zlen r) - 4) with (zlen r) by lia. rewrite E. cbn [mbind outcome_bind received].
      do 3 f_equal; [f_equal; lia|]. unfold b0, b1. rewrite Z.quot_div_nonneg, Z.rem_mod_nonneg by lia. word_lia.
    + destruct Ha as [Hl Hu]. unfold decode_unknown_attr, ATTR_HDR_LEN. rewrite decode_hdr_then by done.
      cbn [a_length]. rewrite types_bytes_len, Z.shiftr_div_pow2 by lia. change (2 ^ 1) with 2.
      replace (2 * zlen l / 2) with (zlen l) by (Z.to_euclidean_division_equations; lia).
      replace (zlen l >? PJ_STUN_MAX_ATTR) with false by lia. replace (Z.to_nat (zlen l)) with (length l) by (unfold zlen; lia).
      rewrite (app_assoc (PUTVAL16H (a_type h))).
      pose proof (types_skip (length l) (PUTVAL16H (a_type h) ++ PUTVAL16H (2 * zlen l))
        (concat (map (fun t => st16 (swap16 t)) l) ++ rest) 0 ltac:(lia)) as E.
      change (zlen (PUTVAL16H (a_type h) ++ PUTVAL16H (2 * zlen l)) + 0) with (0 + 4) in E.
      by rewrite E, types_front.
    + unfold decode_binary_attr, ATTR_HDR_LEN. rewrite decode_hdr_then by done. change (0 + 4) with 4.
      rewrite value_at by done. cbn [received]. by rewrite bool_decide_true.
Qed.
