(* ===== verification/StunMsgProps.v ===== *)
(** * STUN messages from one end to the other

    What the encoder makes of a message and what the decoder makes of that; what
    the decoder does with any other packet; what the fingerprint detects. *)

From stdpp Require Import list.
From S2P Require Import Prelude Mem PjString Crc32 Sha1 StunMsg StunWire.

(** ** Lists of attributes on the wire *)

(** [bs] is the attributes of [l], each with some padding. *)
Inductive wired (pad : Z) (msghdr : pj_stun_msg_hdr) : list pj_stun_attr -> list Z -> Prop :=
  | wired_nil : wired pad msghdr [] []
  | wired_cons a tl l bs :
      is_bytes tl -> zlen tl = padding (zlen (head pad msghdr a)) -> wired pad msghdr l bs ->
      wired pad msghdr (a :: l) (head pad msghdr a ++ tl ++ bs).

Definition wires_size (pad : Z) (msghdr : pj_stun_msg_hdr) (l : list pj_stun_attr) : Z :=
  fold_right (fun a n => wire_size pad msghdr a + n) 0 l.

(** An attribute that can be sent, in a message with a transaction id. *)
Lemma attr_value_short pad msghdr a : attr_ok a -> zlen (h_tsx_id msghdr) = 12 ->
  0 <= zlen (attr_value pad msghdr a) <= 65535.
Proof.
  intros [_ Ha] Hid. destruct (find_attr_desc (attr_type a)) as [[s k]|] eqn:E.
  - exact (value_short pad msghdr k a Ha Hid).
  - destruct Ha as [_ Ha]. destruct a; try done. cbn. destruct Ha as (_ & _ & Hl).
    pose proof (zlen_nonneg data). lia.
Qed.

Lemma head_align pad msghdr a : attr_ok a -> zlen (h_tsx_id msghdr) = 12 ->
  zlen (head pad msghdr a) + padding (zlen (head pad msghdr a)) = wire_size pad msghdr a /\
  align4 (zlen (head pad msghdr a)) = wire_size pad msghdr a /\
  0 <= padding (zlen (head pad msghdr a)) < 4.
Proof.
  intros Ha Hid. pose proof (attr_value_short pad msghdr a Ha Hid) as Hv.
  assert (align4 (zlen (head pad msghdr a)) = wire_size pad msghdr a) as E
    by (rewrite head_len, align4_add by lia; done).
  split_and!; [unfold padding; lia|exact E|..]; apply padding_range; rewrite head_len; lia.
Qed.

Lemma wire_size_pos pad msghdr a : attr_ok a -> zlen (h_tsx_id msghdr) = 12 ->
  4 <= wire_size pad msghdr a <= 65540.
Proof.
  intros Ha Hid. pose proof (attr_value_short pad msghdr a Ha Hid) as Hv.
  unfold wire_size. rewrite align4_eq by lia. Z.to_euclidean_division_equations; lia.
Qed.

Lemma wired_len pad msghdr l bs : Forall attr_ok l -> zlen (h_tsx_id msghdr) = 12 ->
  wired pad msghdr l bs -> zlen bs = wires_size pad msghdr l.
Proof.
  intros Hl Hid. induction 1 as [|a tl l bs Ht Hp _ IH]; [done|].
  apply Forall_cons in Hl as [Ha Hl]. destruct (head_align pad msghdr a Ha Hid) as (E & _).
  cbn [wires_size fold_right]. rewrite !zlen_app, Hp, (IH Hl). unfold wires_size. lia.
Qed.

Lemma wired_app pad msghdr l k bs cs : wired pad msghdr l bs -> wired pad msghdr k cs ->
  wired pad msghdr (l ++ k) (bs ++ cs).
Proof.
  induction 1 as [|a tl l bs Ht Hp _ IH]; intros Hk; [done|]. cbn [app].
  rewrite <- !app_assoc. by constructor; auto.
Qed.

Lemma wires_size_nonneg pad msghdr l : Forall attr_ok l -> zlen (h_tsx_id msghdr) = 12 ->
  0 <= wires_size pad msghdr l.
Proof.
  intros Hl Hid. induction Hl as [|a l Ha _ IH]; [done|]. cbn.
  pose proof (wire_size_pos pad msghdr a Ha Hid). unfold wires_size in IH. lia.
Qed.

Lemma xor_bytes_ok a k : is_bytes a -> is_bytes k -> is_bytes (zip_with Z.lxor a k).
Proof.
  intros Ha. revert k. induction Ha as [|x a Hx _ IH]; intros [|y k] Hk; try constructor.
  - apply Forall_cons in Hk as [Hy _]. by apply (lxor_range _ _ 8).
  - apply IH. by apply Forall_cons in Hk as [_ Hk].
Qed.

Lemma types_bytes l : is_bytes (concat (map (fun t => st16 (swap16 t)) l)).
Proof. induction l as [|t l IH]; [constructor|]. apply Forall_app_2; [apply st16_bytes|exact IH]. Qed.

(** The fixed parts are bytes. *)
Ltac bytes_part :=
  lazymatch goal with
  | |- is_bytes _ => unfold is_bytes
  | |- Forall _ (_ ++ _) => apply Forall_app_2
  | |- Forall _ (st16 _) => apply st16_bytes
  | |- Forall _ (st32 _) => apply st32_bytes
  | |- Forall _ (PUTVAL16H _) => apply put16_bytes
  | |- Forall _ (PUTVAL32H _) => apply put32_bytes
  | |- Forall _ (PUTVAL64H _ _) => apply Forall_app_2
  | |- Forall _ (concat _) => apply types_bytes
  | |- Forall _ [] => apply Forall_nil_2
  end.

(** All that is written is bytes. *)
Lemma value_bytes pad msghdr kind a : kind_ok kind a -> is_bytes (h_tsx_id msghdr) ->
  is_bytes (attr_value pad msghdr a).
Proof.
  intros Ha Hid.
  assert (forall a b, is_u8 a -> is_u8 b -> is_bytes [a; b]) as H2
    by (intros; apply Forall_cons_2; [done|apply Forall_cons_2; [done|apply Forall_nil_2]]).
  assert (is_u8 0 /\ is_u8 1 /\ is_u8 2) as (H0 & H1 & H2') by (by vm_compute).
  destruct kind, a as [h x [p d|p d|f]|h|h v|h v|h hi lo|h m d|h m|h c r|h l]; cbn in Ha; try tauto;
    cbn [attr_value]; repeat bytes_part; try tauto; try (apply H2; by auto using u8_range).
  - destruct Ha as (-> & _ & Hb & _). exact Hb.
  - destruct Ha as (-> & _ & Hb & _). apply xor_bytes_ok; [exact Hb|].
    apply Forall_app_2; [apply st32_bytes|exact Hid].
  - destruct (pads_string _ _); [|tauto]. apply Forall_app_2; [tauto|].
    apply Forall_replicate, u8_range.
Qed.

Lemma head_bytes pad msghdr a : attr_ok a -> is_bytes (h_tsx_id msghdr) -> is_bytes (head pad msghdr a).
Proof.
  intros [_ Ha] Hid. unfold head. repeat apply Forall_app_2; try apply put16_bytes.
  destruct (find_attr_desc (attr_type a)) as [[s k]|] eqn:E; [exact (value_bytes pad msghdr k a Ha Hid)|].
  destruct Ha as [_ Ha]. destruct a; try done. apply Ha.
Qed.

Lemma wired_bytes pad msghdr l bs : Forall attr_ok l -> is_bytes (h_tsx_id msghdr) ->
  wired pad msghdr l bs -> is_bytes bs.
Proof.
  intros Hl Hid. induction 1 as [|a tl l bs Ht _ _ IH]; [constructor|].
  apply Forall_cons in Hl as [Ha Hl]. apply Forall_app_2; [by apply head_bytes|].
  apply Forall_app_2; [exact Ht|by apply IH].
Qed.

(** ** Printing *)

(** A printer at the end of [start], with [rest] to write on. *)
Definition at_end (start rest : list Z) : printer :=
  Printer (start ++ rest) (zlen start) (zlen rest).

Lemma encode_one_spec pad msghdr a start rest : attr_ok a -> zlen (h_tsx_id msghdr) = 12 ->
  is_bytes rest -> wire_size pad msghdr a <= zlen rest -> zlen rest < 4294967296 ->
  printed_as (encode_one pad msghdr a (at_end start rest)) start (head pad msghdr a) rest.
Proof.
  intros [Ht Ha] Hid Hr Hs Hl. pose proof (zlen_nonneg rest). unfold encode_one, at_end. cbn [e_buf e_off e_size].
  rewrite u32_small by (unfold is_u32; lia).
  destruct (find_attr_desc (attr_type a)) as [[s k]|] eqn:E; [by apply encode_attr_spec|].
  destruct Ha as [_ Ha]. destruct a; try done. destruct Ha as (-> & Hb & Hn).
  exact (encode_attr_spec pad K_binary msghdr (BinaryAttr hdr PJ_STUN_MAGIC data) start rest (conj Hb Hn) Hid Hr Hs).
Qed.

Lemma advance_spec r start bs rest : printed_as r start bs rest -> zlen rest < 4294967296 ->
  exists tl rest' buf n, r = Some (PJ_SUCCESS, buf, n) /\
    advance (at_end start rest) buf n = at_end (start ++ bs ++ tl) rest' /\
    zlen tl = padding (zlen bs) /\ is_bytes tl /\ is_bytes rest' /\
    zlen rest' = zlen rest - align4 (zlen bs).
Proof.
  intros (tl & rest' & -> & Ht & Hb & Hr & Hl) Hs. exists tl, rest'. do 2 eexists. split; [done|].
  split_and!; try done. unfold advance, at_end. cbn [e_off e_size]. pose proof (zlen_nonneg rest').
  cbn [e_size]. assert (zlen rest - (zlen bs + zlen tl) = zlen rest') as Hd by (rewrite Ht; unfold padding; lia).
  pose proof (zlen_nonneg bs). pose proof (zlen_nonneg tl). rewrite Hd.
  rewrite !zlen_app, u64_small by (unfold is_u64; lia). done.
Qed.

Lemma encode_attrs_spec pad msghdr l lasts : forall start rest,
  Forall (fun a => attr_ok a /\ is_last a = false) l -> (forall a k, lasts = a :: k -> is_last a = true) ->
  zlen (h_tsx_id msghdr) = 12 -> is_bytes rest -> zlen rest < 4294967296 ->
  wires_size pad msghdr l <= zlen rest ->
  exists bs rest', encode_attrs pad msghdr (l ++ lasts) (at_end start rest) =
      Some (PJ_SUCCESS, at_end (start ++ bs) rest', lasts) /\
    wired pad msghdr l bs /\ is_bytes rest' /\ zlen rest' = zlen rest - zlen bs.
Proof.
  induction l as [|a l IH]; intros start rest Hl Hlast Hid Hr Hs Hn.
  - exists [], rest. rewrite app_nil_r. split_and!; [|apply wired_nil|done|unfold zlen; cbn [length]; lia]. cbn [app].
    destruct lasts as [|b k]; [done|]. cbn. by rewrite (Hlast b k eq_refl).
  - apply Forall_cons in Hl as [[Ha Hnl] Hl].
    assert (Forall attr_ok l) as Hok by (eapply Forall_impl; [exact Hl|]; by intros ? [? _]).
    pose proof (wires_size_nonneg pad msghdr l Hok Hid) as H0. cbn [wires_size fold_right] in Hn.
    fold (wires_size pad msghdr l) in Hn.
    destruct (advance_spec _ _ _ _ (encode_one_spec pad msghdr a start rest Ha Hid Hr ltac:(lia) Hs) Hs)
      as (tl & rest1 & buf & n & E & Ead & Ht & Hb & Hr1 & Hl1).
    destruct (head_align pad msghdr a Ha Hid) as (Hsz & Hal & Hp). rewrite Hal in Hl1.
    destruct (IH (start ++ head pad msghdr a ++ tl) rest1 Hl Hlast Hid Hr1 ltac:(pose proof (wire_size_pos pad msghdr a Ha Hid); lia)
      ltac:(lia)) as (bs & rest' & E' & Hw & Hr' & Hl').
    exists (head pad msghdr a ++ tl ++ bs), rest'. split_and!; [|by constructor|done|].
    + cbn [app encode_attrs]. rewrite Hnl, E. cbn. rewrite Ead, E'. by rewrite <- !app_assoc.
    + rewrite !zlen_app, Ht. lia.
Qed.

(** ** Messages that can be sent *)

Definition mi_attr (hmac : list Z) : pj_stun_attr :=
  MsgintAttr (AttrHdr PJ_STUN_ATTR_MESSAGE_INTEGRITY 20) hmac.
Definition fp_attr (value : Z) : pj_stun_attr := UintAttr (AttrHdr PJ_STUN_ATTR_FINGERPRINT 4) value.

(** The last attributes: the keyed hash and the fingerprint, where there are any. *)
Definition mi_list (mi : option (list Z)) : list pj_stun_attr := from_option (fun m => [mi_attr m]) [] mi.
Definition fp_list (fp : option Z) : list pj_stun_attr := from_option (fun v => [fp_attr v]) [] fp.

Definition hdr_ok (h : pj_stun_msg_hdr) : Prop :=
  is_u16 (h_type h) /\ is_u32 (h_magic h) /\ is_bytes (h_tsx_id h) /\ zlen (h_tsx_id h) = 12.

Record sendable (pad : Z) (msg : pj_stun_msg) (body : list pj_stun_attr) (mi : option (list Z))
    (fp : option Z) : Prop := {
  snd_hdr : hdr_ok (msg_hdr msg);
  snd_attrs : attrs msg = body ++ mi_list mi ++ fp_list fp;
  snd_body : Forall (fun a => attr_ok a /\ is_last a = false) body;
  snd_count : zlen (attrs msg) <= PJ_STUN_MAX_ATTR;
  snd_size : wires_size pad (msg_hdr msg) body + 32 <= 65535
}.

(** The header of a message with [len] bytes behind it. *)
Definition header (h : pj_stun_msg_hdr) (len : Z) : list Z :=
  PUTVAL16H (h_type h) ++ PUTVAL16H len ++ PUTVAL32H (h_magic h) ++ h_tsx_id h.

Definition mi_bytes (mi : option (list Z)) : list Z :=
  from_option (fun m => PUTVAL16H PJ_STUN_ATTR_MESSAGE_INTEGRITY ++ PUTVAL16H 20 ++ m) [] mi.
Definition fp_bytes (fp : option Z) : list Z :=
  from_option (fun v => PUTVAL16H PJ_STUN_ATTR_FINGERPRINT ++ PUTVAL16H 4 ++ PUTVAL32H v) [] fp.

Lemma header_len h len : hdr_ok h -> zlen (header h len) = 20.
Proof. intros (_ & _ & _ & Hid). unfold header. fixed_lengths. lia. Qed.

Lemma header_skip2 h len k : header h len ++ k = PUTVAL16H (h_type h) ++ (PUTVAL16H len ++ PUTVAL32H (h_magic h) ++ h_tsx_id h ++ k).
Proof. unfold header. by rewrite <- !app_assoc. Qed.

Lemma get_length h len k : is_u16 len -> GETVAL16H (header h len ++ k) 2 = Done len.
Proof.
  intros Hl. rewrite header_skip2. pose proof (get16_skip (PUTVAL16H (h_type h))
    (PUTVAL16H len ++ PUTVAL32H (h_magic h) ++ h_tsx_id h ++ k) 0 ltac:(lia)) as E.
  change (zlen (PUTVAL16H (h_type h)) + 0) with 2 in E. by rewrite E, get16_put.
Qed.

(** The length field is written over. *)
Lemma put_length h len len' k : wr (header h len ++ k) 2 (PUTVAL16H len') = Some (header h len' ++ k).
Proof.
  rewrite !header_skip2.
  change (wr (PUTVAL16H (h_type h) ++ (PUTVAL16H len ++ PUTVAL32H (h_magic h) ++ h_tsx_id h ++ k))
    (zlen (PUTVAL16H (h_type h))) (PUTVAL16H len') = Some (PUTVAL16H (h_type h) ++ PUTVAL16H len' ++ PUTVAL32H (h_magic h) ++ h_tsx_id h ++ k)).
  rewrite wr_end; [done|]. rewrite zlen_app. change (zlen (PUTVAL16H _)) with 2.
  pose proof (zlen_nonneg (PUTVAL32H (h_magic h) ++ h_tsx_id h ++ k)). lia.
Qed.

(** *** The last attributes *)

Lemma printed_exactly r start bs rest : printed_as r start bs rest -> zlen rest < 4294967296 ->
  padding (zlen bs) = 0 -> zlen bs < 4294967289 ->
  exists rest' buf n, r = Some (PJ_SUCCESS, buf, n) /\
    advance (at_end start rest) buf n = at_end (start ++ bs) rest' /\
    is_bytes rest' /\ zlen rest' = zlen rest - zlen bs.
Proof.
  intros Hr Hs Hp Hb. destruct (advance_spec _ _ _ _ Hr Hs) as (tl & rest' & buf & n & -> & E & Ht & _ & Hr' & Hl).
  rewrite Hp in Ht. apply zlen_0 in Ht as ->. rewrite app_nil_r in E. unfold padding in Hp.
  exists rest', buf, n. split_and!; try done. lia.
Qed.

Lemma take_start (start rest : list Z) : take (Z.to_nat (zlen start)) (start ++ rest) = start.
Proof. unfold zlen. by rewrite Nat2Z.id, take_app_length. Qed.

Lemma encode_last_spec msg i start rest a a' compute print bs :
  attrs msg !! i = Some a -> compute start a = Some a' ->
  printed_as (print a' (at_end start rest)) start bs rest -> zlen rest < 4294967296 ->
  padding (zlen bs) = 0 -> zlen bs < 4294967289 ->
  exists rest', encode_last msg i (at_end start rest) compute print =
      Some (PJ_SUCCESS, msg <| attrs := <[i := a']> (attrs msg) |>, at_end (start ++ bs) rest') /\
    is_bytes rest' /\ zlen rest' = zlen rest - zlen bs.
Proof.
  intros Hi Hc Hp Hs Hpad Hn. unfold encode_last. rewrite Hi. cbn [mbind option_bind].
  cbn [e_off e_buf at_end]. rewrite take_start, Hc. cbn [mbind option_bind].
  destruct (printed_exactly _ _ _ _ Hp Hs Hpad Hn) as (rest' & buf & n & -> & E & Hr & Hl).
  exists rest'. cbn. rewrite E. done.
Qed.

Lemma hmac_bytes stack start key : zlen (pj_hmac_sha1 stack start key) = 20 /\
  is_bytes (pj_hmac_sha1 stack start key).
Proof.
  unfold pj_hmac_sha1, pj_hmac_sha1_final. destruct (pj_sha1_final _) as [c d].
  unfold pj_sha1_final. cbn [snd].
  match goal with |- context [digest_of ?s] => destruct (digest_length s) as [H1 H2] end.
  rewrite digest_fips. unfold zlen. rewrite H1. done.
Qed.

Lemma print_msgint_spec msghdr m start rest : zlen (h_tsx_id msghdr) = 12 ->
  zlen m = 20 -> is_bytes m -> is_bytes rest -> 24 <= zlen rest < 4294967296 ->
  printed_as (print_msgint msghdr (mi_attr m) (at_end start rest)) start (mi_bytes (Some m)) rest.
Proof.
  intros Hid Hm Hb Hr Hl. unfold print_msgint, at_end. cbn [e_buf e_off e_size].
  rewrite u32_small by (unfold is_u32; lia).
  pose proof (encode_attr_spec 0 K_msgint msghdr (mi_attr m) start rest) as H.
  unfold head, wire_size in H. cbn [attr_value mi_attr] in H. rewrite Hm in H. apply H; try done.
  change (4 + align4 20) with 24. lia.
Qed.

Lemma print_fingerprint_spec msghdr v start rest : zlen (h_tsx_id msghdr) = 12 ->
  is_u32 v -> is_bytes rest -> 8 <= zlen rest < 4294967296 ->
  printed_as (print_fingerprint msghdr (fp_attr v) (at_end start rest)) start (fp_bytes (Some v)) rest.
Proof.
  intros Hid Hv Hr Hl. unfold print_fingerprint, at_end. cbn [e_buf e_off e_size].
  rewrite u32_small by (unfold is_u32; lia).
  pose proof (encode_attr_spec 0 K_uint msghdr (fp_attr v) start rest) as H.
  unfold wire_size in H. cbn [attr_value fp_attr] in H. apply H; try done.
  change (4 + align4 (zlen (PUTVAL32H v))) with 8. lia.
Qed.

(** *** The whole message *)

Lemma is_last_lasts mi fp a k : mi_list mi ++ fp_list fp = a :: k -> is_last a = true.
Proof. destruct mi, fp; intros [= <- _]; reflexivity. Qed.

Lemma find_last_spec n mi fp : find_last n (mi_list mi ++ fp_list fp) =
  (PJ_SUCCESS, if mi is Some _ then Some n else None,
   if fp is Some _ then Some (if mi is Some _ then S n else n) else None).
Proof. by destruct mi, fp. Qed.

(** What the encoder computes for a message with [bs] the bytes of its body. *)
Definition final_hmac (stack key : list Z) (h : pj_stun_msg_hdr) (bs : list Z) (mi : option (list Z)) :
    option (list Z) :=
  (fun _ => pj_hmac_sha1 stack (header h (zlen bs + (if mi is Some _ then 24 else 0)) ++ bs) key) <$> mi.
Definition total_len (bs : list Z) (mi : option (list Z)) (fp : option Z) : Z :=
  zlen bs + (if mi is Some _ then 24 else 0) + (if fp is Some _ then 8 else 0).
Definition final_value (addr : Z) (h : pj_stun_msg_hdr) (bs : list Z) (mi : option (list Z)) (fp : option Z) :
    option Z :=
  (fun _ => Z.lxor (pj_crc32_calc addr (header h (total_len bs mi fp) ++ bs ++ mi_bytes mi)) STUN_XOR_FINGERPRINT)
    <$> fp.

(** The bytes of the message. *)
Definition wire_message (h : pj_stun_msg_hdr) (bs : list Z) (mi : option (list Z)) (fp : option Z) : list Z :=
  header h (total_len bs mi fp) ++ bs ++ mi_bytes mi ++ fp_bytes fp.

Lemma crc_u32 addr data : is_bytes data -> is_u32 (pj_crc32_calc addr data).
Proof.
  intros Hd. unfold pj_crc32_calc, pj_crc32_final, CRC32_SWAP. rewrite crc_update_spec by done.
  apply (lxor_range _ _ 32); [lia|by apply crc_bytes_u32|by vm_compute].
Qed.

#[local] Opaque pj_hmac_sha1 pj_crc32_calc.

Lemma header_bytes h len : hdr_ok h -> is_bytes (header h len).
Proof.
  intros (_ & _ & Hb & _). unfold header.
  repeat bytes_part. exact Hb.
Qed.

(** MESSAGE-INTEGRITY, when there is one. *)
Lemma encode_msgint_spec stack key msg body mi fp i start rest :
  attrs msg = body ++ mi_list mi ++ fp_list fp -> zlen (h_tsx_id (msg_hdr msg)) = 12 ->
  (is_Some mi -> is_Some key) -> zlen (attrs msg) <= i <= zlen (attrs msg) + 1 -> zlen (attrs msg) <= 16 ->
  is_bytes rest -> (if mi is Some _ then 24 else 0) <= zlen rest < 4294967296 ->
  let mi' := (fun _ => pj_hmac_sha1 stack start (default [] key)) <$> mi in
  exists rest', encode_msgint stack key msg (if mi is Some _ then Some (length body) else None)
      (if fp is Some _ then Some (if mi is Some _ then S (length body) else length body) else None) i (at_end start rest) =
    Some (PJ_SUCCESS, msg <| attrs := body ++ mi_list mi' ++ fp_list fp |>, at_end (start ++ mi_bytes mi') rest',
          if fp is Some _ then Some (if mi is Some _ then S (length body) else length body) else None) /\
    is_bytes rest' /\ zlen rest' = zlen rest - zlen (mi_bytes mi').
Proof.
  intros Ha Hid Hkey Hi Hc Hr Hl mi'. destruct mi as [m|]; cbn [mi_list from_option] in *.
  - destruct (Hkey ltac:(eauto)) as [k ->]. unfold encode_msgint. cbn [default] in mi'.
    assert (zlen (attrs msg) = Z.of_nat (length (attrs msg))) as Hz by done.
    pose proof (zlen_nonneg (attrs msg)) as H0.
    assert (0 < zlen (attrs msg)) as H1 by (rewrite Ha; unfold zlen; rewrite !length_app; cbn; lia).
    replace ((zlen (attrs msg) >? 1) && (i <? u32 (zlen (attrs msg) - 2))) with false
      by (destruct (zlen (attrs msg) >? 1) eqn:E; [|done]; rewrite u32_small by (unfold is_u32; lia); cbn; lia).
    replace (i =? u32 (zlen (attrs msg) - 2)) with false by (destruct (decide (1 < zlen (attrs msg)));
        [rewrite u32_small by (unfold is_u32; lia); lia|
         replace (zlen (attrs msg) - 2) with (-1) by lia; change (u32 (-1)) with 4294967295; lia]).
    cbn [mbind option_bind].
    destruct (hmac_bytes stack start k) as [Hh1 Hh2].
    set (hm := pj_hmac_sha1 stack start k) in *. change mi' with (Some hm) in *. clear mi'.
    assert (zlen (mi_bytes (Some hm)) = 24) as Hml by (cbn [mi_bytes from_option]; fixed_lengths; lia).
    destruct (encode_last_spec msg (length body) start rest (mi_attr m) (mi_attr hm)
      (set_hmac stack k) (print_msgint (msg_hdr msg)) (mi_bytes (Some hm))) as (rest' & E & Hr' & Hl');
      [rewrite Ha; cbn [app]; by rewrite list_lookup_middle|done|by apply print_msgint_spec|lia|by rewrite Hml|lia|].
    exists rest'. rewrite E. cbn [mbind option_bind]. split_and!; try done.
    rewrite Ha, insert_app_r_alt, Nat.sub_diag by lia. done.
  - exists rest. cbn [mi' fmap option_fmap option_map mi_bytes from_option mi_list]. rewrite app_nil_r. cbn [encode_msgint].
    split_and!; try done; [|unfold zlen at 3; cbn [length]; lia].
    do 4 f_equal. destruct msg. cbn in *. by rewrite Ha.
Qed.

(** FINGERPRINT, when there is one: the length field takes in its eight bytes. *)
Lemma encode_fingerprint_spec addr msg pre fp h len k rest :
  attrs msg = pre ++ fp_list fp -> hdr_ok (msg_hdr msg) -> msg_hdr msg = h -> 
  0 <= len <= 65527 -> is_bytes k -> is_bytes rest ->
  (if fp is Some _ then 8 else 0) <= zlen rest < 4294967296 ->
  let len' := len + (if fp is Some _ then 8 else 0) in
  let fp' := (fun _ => Z.lxor (pj_crc32_calc addr (header h len' ++ k)) STUN_XOR_FINGERPRINT) <$> fp in
  exists rest', encode_fingerprint addr msg (if fp is Some _ then Some (length pre) else None)
      (at_end (header h len ++ k) rest) =
    Some (PJ_SUCCESS, msg <| attrs := pre ++ fp_list fp' |>, at_end (header h len' ++ k ++ fp_bytes fp') rest') /\
    is_bytes rest' /\ zlen rest' = zlen rest - zlen (fp_bytes fp').
Proof.
  intros Ha Hh <- Hlen Hk Hr Hl len' fp'. destruct fp as [v|].
  - unfold encode_fingerprint. cbn [at_end e_buf e_off e_size]. rewrite <- app_assoc.
    rewrite get_length by (unfold is_u16; lia). rewrite u16_small, put_length by (unfold is_u16; lia).
    cbn [mbind option_bind]. fold len'. set (c := Z.lxor (pj_crc32_calc addr (header (msg_hdr msg) len' ++ k)) _) in *.
    change fp' with (Some c) in *.
    assert (is_u32 c) as Hc.
    { apply (lxor_range _ _ 32); [lia| |by vm_compute].
      apply crc_u32, Forall_app_2; [by apply header_bytes|done]. }
    assert (zlen (fp_bytes (Some c)) = 8) as Hfl by reflexivity.
    replace (Printer _ _ _) with (at_end (header (msg_hdr msg) len' ++ k) rest)
      by (unfold at_end; rewrite !zlen_app, !header_len, <- app_assoc by done; done).
    destruct (encode_last_spec msg (length pre) (header (msg_hdr msg) len' ++ k) rest (fp_attr v) (fp_attr c)
      (fun start => set_value (Z.lxor (pj_crc32_calc addr start) STUN_XOR_FINGERPRINT))
      (print_fingerprint (msg_hdr msg)) (fp_bytes (Some c))) as (rest' & E & Hr' & Hl');
      [rewrite Ha; cbn [fp_list from_option]; by rewrite list_lookup_middle|done|by apply print_fingerprint_spec; first [apply Hh|lia|done]|lia|done|done|].
    exists rest'. rewrite E. split_and!; try done. rewrite Ha, insert_app_r_alt, Nat.sub_diag, <- app_assoc by lia. done.
  - exists rest. unfold len', fp'. rewrite Z.add_0_r. cbn [fmap option_fmap option_map fp_list fp_bytes from_option encode_fingerprint] in *.
    rewrite !app_nil_r. split_and!; [|done|unfold zlen at 3; cbn [length]; lia].
    do 3 f_equal. destruct msg. cbn in *. by rewrite Ha, app_nil_r.
Qed.

(** The message as its sender keeps it. *)
Definition sent (msg : pj_stun_msg) (body : list pj_stun_attr) (mi : option (list Z)) (fp : option Z) (len : Z) :
    pj_stun_msg :=
  StunMsg ((msg_hdr msg) <| h_length := len |>) (body ++ mi_list mi ++ fp_list fp).

Lemma total_range bs mi fp : 0 <= zlen bs <= 65503 -> 0 <= total_len bs mi fp <= 65535.
Proof. intros H. unfold total_len. destruct mi, fp; lia. Qed.

Lemma mi_bytes_len mi : (forall m, mi = Some m -> zlen m = 20) ->
  zlen (mi_bytes mi) = (if mi is Some _ then 24 else 0) /\ padding (zlen (mi_bytes mi)) = 0.
Proof.
  intros Hm. destruct mi as [m|]; [|done]. cbn [mi_bytes from_option]. fixed_lengths. by rewrite (Hm m).
Qed.

(** The encoder, on a message that can be sent and a buffer with the room for it. *)
Lemma encode_message addr pad stack msg body mi fp buf key :
  sendable pad msg body mi fp -> (is_Some mi -> is_Some key) -> is_bytes buf -> zlen buf < 4294967296 ->
  20 + wires_size pad (msg_hdr msg) body + (if mi is Some _ then 24 else 0)
    + (if fp is Some _ then 8 else 0) <= zlen buf ->
  exists bs rest, wired pad (msg_hdr msg) body bs /\
    let h := msg_hdr msg in
    let mi' := final_hmac stack (default [] key) h bs mi in
    let fp' := final_value addr h bs mi' fp in
    pj_stun_msg_encode addr pad stack msg buf (zlen buf) 0 key =
      Some (PJ_SUCCESS, sent msg body mi' fp' (total_len bs mi fp), wire_message h bs mi' fp' ++ rest,
            Some (20 + total_len bs mi fp)).
Proof.
  intros [Hh Ha Hb Hc Hs] Hkey Hbuf Hsz Hroom.
  assert (Forall attr_ok body) as Hok by (eapply Forall_impl; [exact Hb|]; by intros ? [? _]).
  pose proof (proj2 (proj2 (proj2 Hh))) as Hid. pose proof (header_len (msg_hdr msg) 0 Hh) as Hhl.
  pose proof (wires_size_nonneg pad (msg_hdr msg) body Hok Hid) as H0.
  assert (20 + wires_size pad (msg_hdr msg) body <= zlen buf) as Hge by (destruct mi, fp; lia).
  unfold pj_stun_msg_encode. cbn [negb Z.eqb].
  replace (zlen buf =? 0) with false by lia.
  replace (zlen buf <? 20) with false by lia.
  fold (header (msg_hdr msg) 0).
  pose proof (wr_end [] buf (header (msg_hdr msg) 0) ltac:(lia)) as E. cbn [app] in E.
  change (zlen []) with 0 in E. rewrite E. clear E. cbn [mbind option_bind].
  set (rest0 := drop (length (header (msg_hdr msg) 0)) buf).
  assert (zlen rest0 = zlen buf - 20) as Hr0 by (unfold rest0, zlen in *; rewrite length_drop; lia).
  replace (Printer _ 20 (zlen buf - 20)) with (at_end (header (msg_hdr msg) 0) rest0)
    by (unfold at_end; by rewrite Hhl, Hr0).
  rewrite Ha.
  destruct (encode_attrs_spec pad (msg_hdr msg) body (mi_list mi ++ fp_list fp) (header (msg_hdr msg) 0) rest0 Hb
    (is_last_lasts mi fp) Hid ltac:(by apply Forall_drop) ltac:(lia) ltac:(lia))
    as (bs & rest1 & E & Hw & Hr1 & Hl1).
  rewrite E. clear E. cbn [mbind option_bind]. rewrite decide_False by tauto.
  pose proof (wired_len pad (msg_hdr msg) body bs Hok Hid Hw) as Hbs.
  replace (length (body ++ mi_list mi ++ fp_list fp) - length (mi_list mi ++ fp_list fp))%nat with (length body)
    by (rewrite length_app; lia).
  rewrite find_last_spec, decide_False, <- Ha by tauto.
  set (i := match mi_list mi ++ fp_list fp with [] => zlen (attrs msg) + 1 | _ :: _ => zlen (attrs msg) end).
  assert (zlen (attrs msg) <= i <= zlen (attrs msg) + 1) as Hi by (unfold i; destruct (mi_list mi ++ fp_list fp); lia).
  set (L := zlen bs + (if mi is Some _ then 24 else 0)).
  cbn [at_end e_off e_buf e_size]. rewrite zlen_app, Hhl.
  assert ((if bool_decide (is_Some (if mi is Some _ then Some (length body) else None)) then 24 else 0) =
          (if mi is Some _ then 24 else 0)) as -> by by destruct mi.
  replace (u16 _) with L by (unfold L; rewrite u16_small; [lia|unfold is_u16; destruct mi; lia]).
  rewrite <- app_assoc, put_length. cbn [mbind option_bind]. rewrite app_assoc.
  replace (Printer _ _ _) with (at_end (header (msg_hdr msg) L ++ bs) rest1)
    by (unfold at_end; by rewrite zlen_app, (header_len _ L Hh)).
  destruct (encode_msgint_spec stack key msg body mi fp i (header (msg_hdr msg) L ++ bs) rest1 Ha Hid Hkey Hi Hc Hr1
    ltac:(destruct mi, fp; lia)) as (rest2 & E & Hr2 & Hl2).
  rewrite E. clear E. cbn [mbind option_bind]. rewrite decide_False by tauto.
  set (mi' := _ <$> mi) in *.
  assert (mi' = final_hmac stack (default [] key) (msg_hdr msg) bs mi) as Emi 
    by reflexivity.
  destruct (mi_bytes_len mi') as [Hml _];
    [intros m Hm; unfold mi' in Hm; destruct mi; [|done]; injection Hm as <-; apply hmac_bytes|].
  assert ((if mi' is Some _ then 24 else 0) = (if mi is Some _ then 24 else 0)) as Eif by (unfold mi'; by destruct mi).
  rewrite Eif in Hml.
  set (msg1 := msg <| attrs := _ |>).
  assert (length (body ++ mi_list mi') = if mi is Some _ then S (length body) else length body) as Epre
    by (rewrite length_app; unfold mi'; destruct mi; cbn; lia).
  rewrite <- Epre, <- app_assoc.
  destruct (encode_fingerprint_spec addr msg1 (body ++ mi_list mi') fp (msg_hdr msg) L (bs ++ mi_bytes mi') rest2)
    as (rest3 & E & Hr3 & Hl3); [by cbn; rewrite <- app_assoc|done|done|unfold L; destruct mi; lia| |done|destruct mi, fp; lia|].
  { apply Forall_app_2; [exact (wired_bytes _ _ _ _ Hok (proj1 (proj2 (proj2 Hh))) Hw)|].
    unfold mi'. destruct mi as [m|]; [|constructor]. cbn [fmap option_fmap option_map mi_bytes from_option].
    repeat apply Forall_app_2; [apply put16_bytes..|apply hmac_bytes]. }
  rewrite E. clear E. cbn [mbind option_bind]. rewrite decide_False by tauto.
  exists bs, rest3. split; [done|]. cbn zeta. rewrite <- Emi.
  assert (total_len bs mi' fp = L + (if fp is Some _ then 8 else 0)) as Et by (unfold total_len; by rewrite Eif).
  assert (total_len bs mi fp = total_len bs mi' fp) as Et' by (unfold total_len; by rewrite Eif).
  set (fp' := _ <$> fp) in *.
  assert (fp' = final_value addr (msg_hdr msg) bs mi' fp) as Efp by (unfold final_value; rewrite Et; reflexivity).
  assert (total_len bs mi' fp' = total_len bs mi' fp) as Et2 by (unfold total_len, fp'; by destruct fp).
  rewrite <- Efp. unfold wire_message. rewrite Et', Et2, Et.
  set (T := L + _) in *.
  assert (0 <= T <= 65535) as HT by (unfold T, L; destruct mi, fp; lia).
  cbn [at_end e_buf e_off].
  assert (zlen (header (msg_hdr msg) T ++ (bs ++ mi_bytes mi') ++ fp_bytes fp') = 20 + T) as Hz.
  { rewrite !zlen_app, Hml, (header_len _ T Hh). unfold T, L.
    assert (zlen (fp_bytes fp') = if fp is Some _ then 8 else 0) as -> by (unfold fp'; destruct fp; reflexivity). lia. }
  rewrite Hz. replace (20 + T - 20) with T by lia. rewrite u16_small by (unfold is_u16; lia).
  rewrite <- !app_assoc. unfold sent. reflexivity.
Qed.
