(* ===== verification/StunDecode.v ===== *)
(** * STUN messages received

    The decoder on the messages of the encoder, and on any other packet. *)

From Stdlib Require Import Strings.String.
From stdpp Require Import list.
From S2P Require Import Prelude Mem PjString Crc32 Sha1 StunMsg StunWire StunMsgProps.

#[local] Opaque pj_hmac_sha1 pj_crc32_calc.

(** ** A message that was sent *)

(** The flags of the loop after an attribute, when it is accepted there. *)
Definition flags_after (a : pj_stun_attr) (mi fp : bool) : option (bool * bool) :=
  match find_attr_desc (attr_type a) with
  | None => Some (mi, fp)
  | Some _ => match check_order (attr_type a) mi fp with inr f => Some f | inl _ => None end
  end.

Fixpoint flags_of (l : list pj_stun_attr) (mi fp : bool) : option (bool * bool) :=
  match l with
  | [] => Some (mi, fp)
  | a :: l => f ← flags_after a mi fp; flags_of l f.1 f.2
  end.

Lemma head_types pad h a rest : attr_ok a -> zlen (h_tsx_id h) = 12 ->
  GETVAL16H (head pad h a ++ rest) 0 = Done (attr_type a) /\
  GETVAL16H (head pad h a ++ rest) 2 = Done (zlen (attr_value pad h a)).
Proof.
  intros Ha Hid. pose proof (attr_value_short pad h a Ha Hid) as Hv. unfold head. rewrite <- !app_assoc.
  rewrite get16_put by apply Ha. split; [done|].
  pose proof (get16_skip (PUTVAL16H (attr_type a)) (PUTVAL16H (zlen (attr_value pad h a)) ++
    attr_value pad h a ++ rest) 0 ltac:(lia)) as E. rewrite get16_put in E by (unfold is_u16; lia). exact E.
Qed.

(** One attribute, wherever it is in the packet. *)
Lemma parse_attr_wired strerror want pad h a tl post pre left_ msg mi fp mi' fp' :
  attr_ok a -> zlen (h_tsx_id h) = 12 -> h_tsx_id (msg_hdr msg) = h_tsx_id h -> h_magic (msg_hdr msg) = h_magic h ->
  zlen (attrs msg) < PJ_STUN_MAX_ATTR -> wire_size pad h a <= left_ ->
  flags_after a mi fp = Some (mi', fp') ->
  parse_attr strerror want (pre ++ head pad h a ++ tl ++ post) (Parser (zlen pre) left_ msg mi fp) =
  Done (inr (Parser (zlen pre + wire_size pad h a) (left_ - wire_size pad h a)
    (msg <| attrs ::= fun l => l ++ [received pad h a] |>) mi' fp')).
Proof.
  intros Ha Hid Hmid Hmag Hc Hleft Hf. destruct (head_types pad h a (tl ++ post) Ha Hid) as [E0 E2].
  unfold parse_attr. cbn [p_msg p_pos p_left has_msg_int has_fingerprint].
  rewrite <- (Z.add_0_r (zlen pre)), <- !Z.add_assoc. change (0 + 2) with 2. change (0 + 4) with 4.
  rewrite !get16_skip, E0, E2 by lia. cbn [mbind outcome_bind].
  assert ((left_ <? align4 (zlen (attr_value pad h a))) = false) as -> by (unfold wire_size in Hleft; lia).
  assert ((zlen (attrs msg) >=? PJ_STUN_MAX_ATTR) = false) as Hm by lia.
  assert (forall b m f, next_attr (Parser (zlen pre + 0) left_ msg mi fp) (align4 (zlen (attr_value pad h a))) b m f =
    Parser (zlen pre + (0 + wire_size pad h a)) (left_ - wire_size pad h a) b m f) as Hn.
  { intros b m f. unfold next_attr, wire_size in *. cbn [p_pos p_left]. case_match; f_equal; lia. }
  destruct Ha as [Ht Ha]. unfold flags_after in Hf.
  destruct (find_attr_desc (attr_type a)) as [[s kind]|] eqn:Ed.
  - rewrite decode_attr_skip by lia.
    assert (forall k, decode_attr kind k 0 (msg_hdr msg) = decode_attr kind k 0 h) as ->.
    { intros k. destruct kind; cbn [decode_attr]; try done. unfold decode_xored_sockaddr_attr. by rewrite Hmid. }
    rewrite (decode_attr_head pad kind h a (tl ++ post) Ha Ht Hid) by (rewrite Ed; by eexists).
    cbn [mbind outcome_bind]. destruct (check_order _ _ _) as [|[mi2 fp2]]; [done|]. injection Hf as -> ->.
    by rewrite Hm, Hn.
  - injection Hf as -> ->. destruct Ha as [Hopt Ha]. destruct a as [| | | | |ah m d| | |]; try done.
    destruct Ha as (-> & Hb & Hl). cbn [attr_value] in *. change (attr_type _) with (a_type ah) in *.
    replace (a_type ah <=? 0x7FFF) with false by lia. rewrite Hm, copy_skip by lia.
    unfold head. cbn [attr_value]. rewrite <- !app_assoc. rewrite value_at by done.
    cbn [mbind outcome_bind]. unfold pj_stun_binary_attr_create, pj_stun_binary_attr_init.
    replace (a_type ah =? 0) with false by lia. rewrite Hn. cbn [received attr_type attr_hdr].
    change (attr_type (BinaryAttr ah PJ_STUN_MAGIC d)) with (a_type ah). rewrite Ed.
    pose proof (zlen_nonneg d). unfold INIT_ATTR. rewrite !u16_small by (done || (unfold is_u16; lia)).
    do 4 f_equal. rewrite bool_decide_false by (by intros [? ?]).
    destruct (truth (zlen d)) eqn:Et; [done|]. unfold truth in Et.
    destruct (zlen d =? 0) eqn:E; [|done]. apply Z.eqb_eq, zlen_0 in E as ->. done.
Qed.

(** All of them: the loop is then behind them. *)
Lemma parse_attrs_wired strerror want pad h l bs : wired pad h l bs -> zlen (h_tsx_id h) = 12 ->
  forall fuel pre post k msg mi fp mi' fp',
  Forall attr_ok l -> h_tsx_id (msg_hdr msg) = h_tsx_id h -> h_magic (msg_hdr msg) = h_magic h ->
  zlen (attrs msg) + zlen l <= PJ_STUN_MAX_ATTR -> flags_of l mi fp = Some (mi', fp') -> 0 <= k ->
  parse_attrs strerror (length l + fuel) want (pre ++ bs ++ post) (Parser (zlen pre) (zlen bs + k) msg mi fp) =
  parse_attrs strerror fuel want ((pre ++ bs) ++ post)
    (Parser (zlen (pre ++ bs)) k (msg <| attrs ::= fun k => k ++ map (received pad h) l |>) mi' fp').
Proof.
  intros Hw Hid. induction Hw as [|a tl l bs Ht Hp Hw IH];
    intros fuel pre post k msg mi fp mi' fp' Hok Hmid Hmag Hc Hf Hk.
  - cbn in Hf. injection Hf as -> ->. cbn [length Nat.add app map]. rewrite app_nil_r.
    change (zlen [] + k) with k. f_equal. f_equal. destruct msg. cbn. by rewrite app_nil_r.
  - apply Forall_cons in Hok as [Ha Hok]. cbn [flags_of] in Hf.
    destruct (flags_after a mi fp) as [[mi1 fp1]|] eqn:Ef; [|done]. cbn [mbind option_bind fst snd] in Hf.
    destruct (head_align pad h a Ha Hid) as (Hsz & _). pose proof (wire_size_pos pad h a Ha Hid).
    pose proof (zlen_nonneg bs) as H0. rewrite zlen_cons in Hc. pose proof (zlen_nonneg l).
    assert (zlen (head pad h a ++ tl ++ bs) + k = wire_size pad h a + (zlen bs + k)) as Hz by (rewrite !zlen_app; lia).
    rewrite Hz. cbn [length Nat.add parse_attrs p_left]. replace (_ >=? 4) with true by lia.
    rewrite <- (app_assoc (head pad h a)), <- (app_assoc tl).
    rewrite (parse_attr_wired strerror want pad h a tl (bs ++ post) pre _ msg mi fp mi1 fp1) by (done || lia).
    cbn [mbind outcome_bind].
    replace (wire_size pad h a + (zlen bs + k) - wire_size pad h a) with (zlen bs + k) by lia.
    assert (zlen pre + wire_size pad h a = zlen (pre ++ head pad h a ++ tl)) as Hpre by (rewrite !zlen_app; lia).
    rewrite Hpre. replace (pre ++ head pad h a ++ tl ++ bs ++ post) with ((pre ++ head pad h a ++ tl) ++ bs ++ post)
      by (by rewrite <- !app_assoc).
    rewrite (IH fuel _ post k _ mi1 fp1 mi' fp'); [|done..| |done|done].
    + rewrite <- !app_assoc. f_equal. f_equal. destruct msg. cbn. by rewrite <- app_assoc.
    + unfold zlen in *. destruct msg. cbn. rewrite length_app. cbn in *. lia.
Qed.

Lemma flags_body l : Forall (fun a => attr_ok a /\ is_last a = false) l -> flags_of l false false = Some (false, false).
Proof.
  induction 1 as [|a l [_ Ha] _ IH]; [done|]. cbn [flags_of].
  enough (flags_after a false false = Some (false, false)) as -> by exact IH.
  unfold flags_after, check_order. unfold is_last in Ha. apply orb_false_iff in Ha as [-> ->].
  by destruct (find_attr_desc _).
Qed.

Lemma flags_app l k mi fp f : flags_of l mi fp = Some f -> flags_of (l ++ k) mi fp = flags_of k f.1 f.2.
Proof.
  revert mi fp. induction l as [|a l IH]; intros mi fp; cbn [app flags_of]; [by intros [= <-]|].
  destruct (flags_after a mi fp) as [[mi1 fp1]|]; [|done]. cbn. apply IH.
Qed.

Lemma flags_lasts body mi fp : Forall (fun a => attr_ok a /\ is_last a = false) body ->
  flags_of (body ++ mi_list mi ++ fp_list fp) false false =
  Some (bool_decide (is_Some mi), bool_decide (is_Some fp)).
Proof. intros Hb. rewrite (flags_app _ _ _ _ _ (flags_body _ Hb)). by destruct mi, fp. Qed.

(** The last attributes, as any others. *)
Lemma lasts_wired pad h mi fp : (forall m, mi = Some m -> zlen m = 20) ->
  wired pad h (mi_list mi ++ fp_list fp) (mi_bytes mi ++ fp_bytes fp).
Proof.
  intros Hm. apply wired_app.
  - destruct mi as [m|]; [|constructor]. specialize (Hm m eq_refl).
    pose proof (wired_cons pad h (mi_attr m) [] [] []) as H. unfold head in H. cbn [attr_value mi_attr] in H.
    rewrite Hm in H. cbn [app] in H. rewrite app_nil_r in H. apply H; [constructor| |constructor].
    fixed_lengths. rewrite Hm. by vm_compute.
  - destruct fp as [v|]; [|constructor].
    pose proof (wired_cons pad h (fp_attr v) [] [] []) as H. unfold head in H. cbn [app] in H.
    rewrite app_nil_r in H. apply H; [constructor|done|constructor].
Qed.

Lemma lasts_ok mi fp : (forall m, mi = Some m -> zlen m = 20 /\ is_bytes m) ->
  (forall v, fp = Some v -> is_u32 v) -> Forall attr_ok (mi_list mi ++ fp_list fp).
Proof.
  intros Hm Hv. apply Forall_app_2.
  - destruct mi as [m|]; [|constructor]. destruct (Hm m eq_refl). apply Forall_cons_2; [|constructor].
    split; [by vm_compute|]. done.
  - destruct fp as [v|]; [|constructor]. apply Forall_cons_2; [|constructor].
    split; [by vm_compute|]. exact (Hv v eq_refl).
Qed.

Lemma read_header_spec h len rest : hdr_ok h -> is_u16 len ->
  read_header (header h len ++ rest) = Done (h <| h_length := len |>).
Proof.
  intros (Ht & Hm & _ & Hid) Hl. unfold read_header, header. rewrite <- !app_assoc.
  rewrite get16_put by done. cbn [mbind outcome_bind].
  pose proof (get16_skip (PUTVAL16H (h_type h)) (PUTVAL16H len ++ PUTVAL32H (h_magic h) ++ h_tsx_id h ++ rest) 0
    ltac:(lia)) as E. rewrite get16_put in E by done.
  change (zlen (PUTVAL16H (h_type h)) + 0) with 2 in E. rewrite E. cbn [mbind outcome_bind].
  rewrite !(app_assoc (PUTVAL16H (h_type h))).
  set (P := PUTVAL16H (h_type h) ++ PUTVAL16H len).
  pose proof (get32_skip P (PUTVAL32H (h_magic h) ++ h_tsx_id h ++ rest) 0 ltac:(lia)) as E4.
  rewrite get32_put in E4 by done. change (zlen P + 0) with 4 in E4. rewrite E4. cbn [mbind outcome_bind].
  rewrite (app_assoc P).
  pose proof (copy_skip (P ++ PUTVAL32H (h_magic h)) (h_tsx_id h ++ rest) 0 12 ltac:(lia)) as E8.
  rewrite copy_front in E8 by done. change (zlen (P ++ PUTVAL32H (h_magic h)) + 0) with 8 in E8. rewrite E8. done.
Qed.

Lemma header_type_byte h len rest : hdr_ok h -> 0 <= h_type h < 512 ->
  exists b, rd8 (header h len ++ rest) 0 = Some b /\ (negb (b =? 0) && negb (b =? 1)) = false.
Proof.
  intros (Ht & _) Hb. exists (h_type h / 256). split; [|Z.to_euclidean_division_equations; lia].
  unfold header. rewrite PUTVAL16H_eq by done. reflexivity.
Qed.

Lemma get_magic h len rest : hdr_ok h -> GETVAL32H (header h len ++ rest) 4 = Done (h_magic h).
Proof.
  intros (_ & Hm & _). unfold header. rewrite <- !app_assoc, (app_assoc (PUTVAL16H (h_type h))).
  pose proof (get32_skip (PUTVAL16H (h_type h) ++ PUTVAL16H len) (PUTVAL32H (h_magic h) ++ h_tsx_id h ++ rest) 0
    ltac:(lia)) as E. rewrite get32_put in E by done. exact E.
Qed.

(** The checksum depends on the bytes only. *)
Lemma crc_anywhere addr addr' data : is_bytes data -> pj_crc32_calc addr data = pj_crc32_calc addr' data.
Proof. intros Hd. with_strategy transparent [pj_crc32_calc] unfold pj_crc32_calc. unfold pj_crc32_final, CRC32_SWAP. by rewrite !crc_update_spec. Qed.

Lemma before_fp_bytes h n bs mi : hdr_ok h -> is_bytes bs -> (forall m, mi = Some m -> zlen m = 20 /\ is_bytes m) ->
  is_bytes (header h n ++ bs ++ mi_bytes mi).
Proof.
  intros Hh Hb Hm. apply Forall_app_2; [by apply header_bytes|]. apply Forall_app_2; [done|].
  destruct mi as [m|]; [|constructor]. cbn [mi_bytes from_option].
  repeat apply Forall_app_2; [apply put16_bytes..|by apply Hm].
Qed.

Lemma final_value_ok addr h bs mi fp v : hdr_ok h -> is_bytes bs ->
  (forall m, mi = Some m -> zlen m = 20 /\ is_bytes m) -> final_value addr h bs mi fp = Some v -> is_u32 v.
Proof.
  intros Hh Hb Hm Hv. unfold final_value in Hv. destruct fp; [|done]. injection Hv as <-.
  apply (lxor_range _ _ 32); [lia|by apply crc_u32, before_fp_bytes|by vm_compute].
Qed.

(** No fingerprint is looked for, or there is one. *)
Definition checkable (options : Z) (h : pj_stun_msg_hdr) (fp : option Z) : Prop :=
  is_Some fp \/ truth (Z.land options PJ_STUN_NO_FINGERPRINT_CHECK) = true \/ h_magic h <> PJ_STUN_MAGIC.

Lemma check_message addr addr' h bs mi fp more pdu_len options :
  hdr_ok h -> 0 <= h_type h < 512 -> (forall m, mi = Some m -> zlen m = 20 /\ is_bytes m) ->
  is_bytes bs -> 0 <= zlen bs <= 65503 -> Z.land (total_len bs mi fp) 3 = 0 -> checkable options h fp ->
  (20 + total_len bs mi fp <= pdu_len /\
   (truth (Z.land options PJ_STUN_IS_DATAGRAM) = true -> pdu_len = 20 + total_len bs mi fp)) ->
  pj_stun_msg_check addr' (wire_message h bs mi (final_value addr h bs mi fp) ++ more) pdu_len options = Done PJ_SUCCESS.
Proof.
  intros Hh Hty Hm Hb Hn Hal Hfp [Hge Hdg].
  assert (total_len bs mi (final_value addr h bs mi fp) = total_len bs mi fp) as Htl
    by (unfold total_len, final_value; by destruct fp).
  unfold wire_message. rewrite Htl. set (T := total_len bs mi fp) in *.
  assert (0 <= T <= 65535) as HT by (by apply total_range).
  set (k := bs ++ mi_bytes mi ++ fp_bytes _). rewrite <- app_assoc.
  unfold pj_stun_msg_check. replace (pdu_len <? 20) with false by lia.
  destruct (header_type_byte h T (k ++ more) Hh Hty) as (b & -> & Eb). cbn [mem mbind outcome_bind]. rewrite Eb.
  rewrite get_length by (unfold is_u16; lia). cbn [mbind outcome_bind].
  assert ((T + 20 >? pdu_len) || truth (Z.land options PJ_STUN_IS_DATAGRAM) && negb (T + 20 =? pdu_len) = false) as ->.
  { apply orb_false_iff. split; [lia|]. apply andb_false_iff. destruct (truth _); [right; specialize (Hdg eq_refl); lia|by left]. }
  rewrite Hal. change (truth 0) with false. cbn [negb].
  rewrite get_magic by done. cbn [mbind outcome_bind].
  destruct (negb (h_magic h =? PJ_STUN_MAGIC) || truth (Z.land options PJ_STUN_NO_FINGERPRINT_CHECK)) eqn:Ec; [done|].
  apply orb_false_iff in Ec as [Em%negb_false_iff%Z.eqb_eq Eo].
  destruct Hfp as [[v ->]|[?|?]]; [|congruence|done].
  cbn [final_value fmap option_fmap option_map fp_bytes from_option] in k.
  set (pre := header h T ++ bs ++ mi_bytes mi).
  fold T in k. fold pre in k. set (c := Z.lxor (pj_crc32_calc addr pre) STUN_XOR_FINGERPRINT) in k.
  assert (header h T ++ k ++ more = pre ++ PUTVAL16H PJ_STUN_ATTR_FINGERPRINT ++ PUTVAL16H 4 ++ PUTVAL32H c ++ more) as ->
    by (unfold pre, k; by rewrite <- !app_assoc).
  assert (T + 20 - 8 = zlen pre + 0) as ->.
  { unfold pre. rewrite !zlen_app, header_len by done. destruct (mi_bytes_len mi) as [-> _]; [intros m E; apply (Hm m E)|].
    unfold T, total_len. lia. }
  rewrite <- !Z.add_assoc, !get16_skip, get32_skip, get16_put by (lia || by vm_compute).
  cbn [mbind outcome_bind]. rewrite Z.eqb_refl. cbn [negb].
  assert (is_bytes pre) as Hpre by (by apply before_fp_bytes).
  assert (is_u32 c) as Hc by (apply (lxor_range _ _ 32); [lia|by apply crc_u32|by vm_compute]).
  pose proof (get16_skip (PUTVAL16H PJ_STUN_ATTR_FINGERPRINT) (PUTVAL16H 4 ++ PUTVAL32H c ++ more) 0 ltac:(lia)) as E2.
  rewrite get16_put in E2 by (by vm_compute). change (zlen (PUTVAL16H _) + 0) with (0 + 2) in E2. rewrite E2.
  pose proof (value32_at PJ_STUN_ATTR_FINGERPRINT 4 c more Hc) as E4. change (0 + 4) with 4. rewrite E4.
  cbn [mbind outcome_bind]. change (negb (4 =? 4)) with false. cbv iota. rewrite Z.add_0_r, copy_front by done. cbn [mbind outcome_bind].
  rewrite (crc_anywhere addr' addr pre Hpre). fold c. by rewrite Z.eqb_refl.
Qed.

Lemma wires_size_mod pad h l : Forall attr_ok l -> zlen (h_tsx_id h) = 12 -> wires_size pad h l mod 4 = 0.
Proof.
  intros Hl Hid. induction Hl as [|a l Ha _ IH]; [done|]. unfold wires_size in *. cbn [fold_right].
  pose proof (attr_value_short pad h a Ha Hid). unfold wire_size at 1. rewrite align4_eq by lia.
  Z.to_euclidean_division_equations; lia.
Qed.

Lemma final_hmac_ok stack key h bs mi m : final_hmac stack key h bs mi = Some m -> zlen m = 20 /\ is_bytes m.
Proof. destruct mi; [|done]. intros [= <-]. apply hmac_bytes. Qed.

Lemma fp_bytes_len addr h bs mi fp :
  zlen (fp_bytes (final_value addr h bs mi fp)) = if fp is Some _ then 8 else 0.
Proof. by destruct fp. Qed.

Lemma wired_count pad h l bs : Forall attr_ok l -> zlen (h_tsx_id h) = 12 -> wired pad h l bs -> zlen l <= zlen bs.
Proof.
  intros Hok Hid Hw. rewrite (wired_len pad h l bs Hok Hid Hw). clear Hw.
  induction Hok as [|a l Ha _ IH]; [done|].
  rewrite zlen_cons. unfold wires_size in *. cbn [fold_right]. pose proof (wire_size_pos pad h a Ha Hid). lia.
Qed.

(** The decoder on a message with the bytes [bs] of its body. *)
Lemma decode_message strerror addr addr' pad h body bs mi fp more pdu_len options want :
  hdr_ok h -> 0 <= h_type h < 512 -> Forall (fun a => attr_ok a /\ is_last a = false) body ->
  zlen body + zlen (mi_list mi ++ fp_list fp) <= PJ_STUN_MAX_ATTR ->
  (forall m, mi = Some m -> zlen m = 20 /\ is_bytes m) ->
  wired pad h body bs -> zlen bs <= 65503 -> checkable options h fp ->
  (20 + total_len bs mi fp <= pdu_len /\
   (truth (Z.land options PJ_STUN_IS_DATAGRAM) = true -> pdu_len = 20 + total_len bs mi fp)) ->
  let fp' := final_value addr h bs mi fp in
  pj_stun_msg_decode strerror addr' (wire_message h bs mi fp' ++ more) pdu_len options want =
  Done (Decoded PJ_SUCCESS (Some (StunMsg (h <| h_length := total_len bs mi fp |>)
    (map (received pad h) (body ++ mi_list mi ++ fp_list fp')))) (20 + total_len bs mi fp) None).
Proof.
  intros Hh Hty Hb Hc Hm Hw Hn Hfp Hlen fp'.
  assert (Forall attr_ok body) as Hok by (eapply Forall_impl; [exact Hb|]; by intros ? [? _]).
  pose proof (proj2 (proj2 (proj2 Hh))) as Hid. pose proof (zlen_nonneg bs).
  pose proof (wired_bytes pad h body bs Hok (proj1 (proj2 (proj2 Hh))) Hw) as Hbb.
  pose proof (wires_size_mod pad h body Hok Hid) as Hmod. rewrite <- (wired_len pad h body bs Hok Hid Hw) in Hmod.
  destruct (mi_bytes_len mi) as [Hml _]; [intros m E; apply (Hm m E)|].
  assert (total_len bs mi fp' = total_len bs mi fp) as Htl by (unfold total_len, fp', final_value; by destruct fp).
  pose proof (total_range bs mi fp ltac:(lia)) as HT.
  assert (Z.land (total_len bs mi fp) 3 = 0) as Hal.
  { change 3 with (Z.ones 2). rewrite Z.land_ones by lia. change (2 ^ 2) with 4. unfold total_len.
    destruct mi, fp; Z.to_euclidean_division_equations; lia. }
  assert (zlen (mi_list mi ++ fp_list fp') = zlen (mi_list mi ++ fp_list fp)) as Hc'
    by (unfold fp', final_value; by destruct fp, mi).
  unfold pj_stun_msg_decode. replace (pdu_len =? 0) with false by lia.
  assert ((if truth (Z.land options PJ_STUN_CHECK_PACKET)
           then pj_stun_msg_check addr' (wire_message h bs mi fp' ++ more) pdu_len options else Done PJ_SUCCESS) =
          Done PJ_SUCCESS) as ->
    by (destruct (truth (Z.land options PJ_STUN_CHECK_PACKET)); [by apply check_message|done]).
  cbn [mbind outcome_bind]. rewrite decide_False by tauto.
  unfold wire_message. rewrite Htl, <- app_assoc, read_header_spec by (done || unfold is_u16; lia).
  cbn [mbind outcome_bind]. set (T := total_len bs mi fp) in *.
  set (h' := h <| h_length := T |>). change (h_length h') with T.
  set (cs := bs ++ mi_bytes mi ++ fp_bytes fp').
  assert (zlen cs = T) as Hcs.
  { unfold cs, fp', T, total_len. rewrite !zlen_app, Hml, fp_bytes_len. lia. }
  assert (wired pad h (body ++ mi_list mi ++ fp_list fp') cs) as Hwc
    by (apply wired_app; [done|]; apply lasts_wired; intros m E; apply (Hm m E)).
  pose proof (wired_count pad h body bs Hok Hid Hw) as Hbl.
  assert (exists fuel, S (Z.to_nat T) = (length (body ++ mi_list mi ++ fp_list fp') + S fuel)%nat) as [fuel ->].
  { exists (Z.to_nat T - length (body ++ mi_list mi ++ fp_list fp'))%nat.
    assert (zlen (body ++ mi_list mi ++ fp_list fp') <= T); [|unfold zlen in *; lia].
    rewrite zlen_app, Hc', zlen_app. unfold T, total_len. unfold zlen in *. destruct mi, fp; cbn in *; lia. }
  replace (Parser 20 T _ false false) with (Parser (zlen (header h T)) (zlen cs + 0) (StunMsg h' []) false false)
    by (rewrite header_len, Hcs, Z.add_0_r by done; done).
  rewrite (parse_attrs_wired strerror _ pad h _ cs Hwc Hid (S fuel) (header h T) more 0 (StunMsg h' [])
    false false (bool_decide (is_Some mi)) (bool_decide (is_Some fp'))); [|..].
  - cbn [parse_attrs p_left Z.geb Z.compare]. cbn [mbind outcome_bind p_left p_msg p_pos Z.gtb Z.compare].
    rewrite zlen_app, Hcs, header_len by done. reflexivity.
  - apply Forall_app_2; [done|]. apply lasts_ok; [done|]. intros v Hv.
    exact (final_value_ok addr h bs mi fp v Hh Hbb Hm Hv).
  - done.
  - done.
  - cbn [attrs]. change (zlen (@nil pj_stun_attr)) with 0. rewrite zlen_app, Hc'. lia.
  - by apply flags_lasts.
  - done.
Qed.

(** ** Any packet *)

(** How a computation ends: with a result that has [P], or by reading outside the
    memory, when [Q] holds; but it ends. *)
Definition ends_in {A} (m : outcome A) (P : A -> Prop) (Q : Prop) : Prop :=
  match m with Done a => P a | Overread => Q | NoFuel => False end.

Lemma ends_bind {A B} (m : outcome A) (f : A -> outcome B) P P' Q :
  ends_in m P Q -> (forall a, P a -> ends_in (f a) P' Q) -> ends_in (m ≫= f) P' Q.
Proof. destruct m; cbn; auto. Qed.

Lemma ends_done {A} (m : outcome A) P : ends_in m P False -> exists a, m = Done a /\ P a.
Proof. destruct m; [by eexists|done..]. Qed.

Lemma ends_mono {A} (m : outcome A) (P P' : A -> Prop) (Q Q' : Prop) :
  ends_in m P Q -> (forall a, P a -> P' a) -> (Q -> Q') -> ends_in m P' Q'.
Proof. destruct m; cbn; auto. Qed.

Lemma ends_rd8 k i Q : is_bytes k -> 0 <= i < zlen k -> ends_in (mem (rd8 k i)) is_u8 Q.
Proof. intros Hk Hi. destruct (yields_rd8 k i Hk Hi) as (b & -> & Hb & _). done. Qed.

Lemma ends_get16 k i Q : is_bytes k -> 0 <= i -> i + 1 < zlen k ->
  ends_in (GETVAL16H k i) (fun v => is_u16 v /\ GETVAL16H k i = Done v) Q.
Proof.
  intros Hk Hi Hl. destruct (yields_rd8 k i Hk ltac:(lia)) as (b0 & E0 & _).
  destruct (yields_rd8 k (i + 1) Hk ltac:(lia)) as (b1 & E1 & _).
  unfold GETVAL16H. rewrite E0, E1. split; [apply u16_range|done].
Qed.

Lemma ends_get32 k i Q : is_bytes k -> 0 <= i -> i + 3 < zlen k -> ends_in (GETVAL32H k i) is_u32 Q.
Proof.
  intros Hk Hi Hl. destruct (yields_rd8 k i Hk ltac:(lia)) as (b0 & E0 & _).
  destruct (yields_rd8 k (i + 1) Hk ltac:(lia)) as (b1 & E1 & _).
  destruct (yields_rd8 k (i + 2) Hk ltac:(lia)) as (b2 & E2 & _).
  destruct (yields_rd8 k (i + 3) Hk ltac:(lia)) as (b3 & E3 & _).
  unfold GETVAL32H. rewrite E0, E1, E2, E3. apply u32_range.
Qed.

Lemma ends_copy k i n Q : is_bytes k -> 0 <= i -> i + n <= zlen k -> (n < 0 -> Q) ->
  ends_in (copy_from k i n) (fun l => is_bytes l /\ zlen l = n) Q.
Proof.
  intros Hk Hi Hl Hq. unfold copy_from. destruct (Z.leb_spec 0 n); [|by apply Hq].
  cbn [andb]. replace ((0 <=? i) && (i + n <=? zlen k)) with true by lia. cbn [ends_in]. split.
  - by apply Forall_take, Forall_drop.
  - apply zlen_take. rewrite zlen_drop by (pose proof (zlen_nonneg k); lia). lia.
Qed.

Lemma ends_types cnt : forall k i Q, is_bytes k -> 0 <= i -> i + 2 * Z.of_nat cnt <= zlen k ->
  ends_in (read_types cnt k i) (fun l => Forall is_u16 l /\ length l = cnt) Q.
Proof.
  induction cnt as [|cnt IH]; intros k i Q Hk Hi Hl; [by split|]. cbn [read_types].
  eapply ends_bind; [apply ends_rd8; [done|lia]|]. intros b0 _.
  eapply ends_bind; [apply ends_rd8; [done|lia]|]. intros b1 _.
  eapply ends_bind; [apply IH; [done|lia..]|]. intros l [Hu Hn].
  split; [apply Forall_cons_2; [apply swap16_range|done]|cbn; by rewrite Hn].
Qed.

(** An attribute of a packet: of the structure its type is for, with the length it
    has in the packet.  An error code is a byte of hundreds and another byte. *)
Definition attr_got (a : pj_stun_attr) : Prop :=
  match a with
  | ErrcodeAttr h c r => a_type h = PJ_STUN_ATTR_ERROR_CODE /\ 0 <= c <= 25755 /\ is_bytes r /\
      a_length h = 4 + zlen r
  | SockaddrAttr h _ addr => attr_ok a /\ a_length h = sockaddr_len addr + 4
  | EmptyAttr h => attr_ok a /\ a_length h = 0
  | UintAttr h _ => attr_ok a /\ a_length h = 4
  | Uint64Attr h _ _ => attr_ok a /\ a_length h = 8
  | MsgintAttr _ _ => attr_ok a
  | UnknownAttr h l => attr_ok a /\ a_length h / 2 = zlen l
  | StringAttr h v => attr_ok a /\ a_length h = zlen v
  | BinaryAttr h _ d => attr_ok a /\ a_length h = zlen d
  end.

Lemma errcode_type t s : find_attr_desc t = Some (s, K_errcode) -> t = PJ_STUN_ATTR_ERROR_CODE.
Proof.
  unfold find_attr_desc. intros E. destruct (t <? PJ_STUN_ATTR_END_MANDATORY_ATTR) eqn:E1.
  - assert (Z.to_nat t = 9%nat) as En; [|unfold PJ_STUN_ATTR_ERROR_CODE; lia].
    destruct (Z.to_nat t) as [|n]; [done|]. do 50 (destruct n as [|n]; [first [done|discriminate]|]). done.
  - destruct (_ && _); [|done]. destruct (Z.to_nat _) as [|n]; [done|].
    do 10 (destruct n as [|n]; [discriminate|]). done.
Qed.

Lemma sockaddr_any pdu pos type len Q : is_bytes pdu -> 0 <= pos ->
  GETVAL16H pdu pos = Done type -> GETVAL16H pdu (pos + 2) = Done len -> is_u16 type -> 0 <= len <= 65532 ->
  pos + 4 + len <= zlen pdu ->
  ends_in (decode_sockaddr_attr pdu pos)
    (fun r => match r with
              | inl status => status <> PJ_SUCCESS
              | inr a => exists addr, a = SockaddrAttr (AttrHdr type len) false addr /\ addr_ok addr /\ len = sockaddr_len addr + 4
              end) Q.
Proof.
  intros Hk Hp Et El Hty Hlen Hin. unfold decode_sockaddr_attr, ATTR_HDR_LEN, GETATTRHDR. rewrite Et, El.
  cbn [mbind outcome_bind a_length].
  destruct (negb (len =? 8) && negb (len =? 20)) eqn:E8; [done|]. apply andb_false_iff in E8.
  assert (8 <= len) as Hl8 by (destruct E8 as [E8|E8]; lia).
  eapply ends_bind; [apply ends_rd8; [done|lia]|]. intros b _. cbn beta.
  destruct (b =? 1); [|destruct (b =? 2); [|done]].
  - destruct (len =? 8) eqn:E20; [|done]. cbn [negb].
    eapply ends_bind; [apply ends_get16; [done|lia..]|]. intros p [Hpu _].
    destruct (yields_rd32 pdu (pos + 4 + 4) Hk ltac:(lia) ltac:(lia)) as (w & -> & Hw & _).
    eexists. split; [done|]. split; [split; [apply swap16_range|done]|cbn; lia].
  - destruct (len =? 20) eqn:E20; [|done]. cbn [negb].
    eapply ends_bind; [apply ends_get16; [done|lia..]|]. intros p [Hpu _].
    eapply ends_bind; [apply ends_copy; [done|lia..]|]. intros l [Hlb Hl].
    eexists. split; [done|]. split; [split; [apply swap16_range|done]|cbn; lia].
Qed.

(** Decoding an attribute whose bytes, and at least eight, are in memory. *)
Lemma decode_attr_any s kind pdu pos hdr type len : is_bytes pdu -> 0 <= pos ->
  GETVAL16H pdu pos = Done type -> GETVAL16H pdu (pos + 2) = Done len -> is_u16 type -> 0 <= len <= 65532 ->
  pos + 8 <= zlen pdu -> pos + 4 + len <= zlen pdu -> zlen (h_tsx_id hdr) = 12 -> is_bytes (h_tsx_id hdr) ->
  find_attr_desc type = Some (s, kind) ->
  ends_in (decode_attr kind pdu pos hdr)
    (fun r => match r with
              | inl status => status <> PJ_SUCCESS
              | inr a => attr_got a /\ attr_type a = type
              end) (type = PJ_STUN_ATTR_ERROR_CODE /\ len < 4).
Proof.
  intros Hk Hp Et El Hty Hlen H8 Hin Hid Hidb Hd.
  assert (GETATTRHDR pdu pos = Done (AttrHdr type len)) as Eh by (unfold GETATTRHDR; by rewrite Et, El).
  assert (forall a, kind_ok kind a -> attr_type a = type -> attr_ok a) as Hok.
  { intros a Ha Hat. unfold attr_ok. rewrite Hat, Hd. done. }
  pose proof (fun Q => sockaddr_any pdu pos type len Q Hk Hp Et El Hty Hlen Hin) as Hsock.
  destruct kind; cbn [decode_attr].
  - eapply ends_mono; [exact (Hsock False)| |done]. intros [st|a]; [done|]. intros (addr & -> & Ha & Hal).
    split; [|done]. split; [|exact Hal]. by apply Hok.
  - unfold decode_xored_sockaddr_attr. eapply ends_bind; [apply Hsock|]. intros [st|a]; [done|].
    intros (addr & -> & Ha & Hal). destruct addr as [p a|p a|f]; [| |done]; (split; [|done]);
      (split; [|exact Hal]); (apply Hok; [|done]); (split; [done|]).
    + destruct Ha. split; [by apply lxor_u16|by apply lxor_u32].
    + destruct Ha as (Hpu & Hab & Hl). split; [by apply lxor_u16|]. split; [|by apply xor_ipv6_len].
      apply xor_bytes_ok; [done|]. apply Forall_app_2; [apply st32_bytes|done].
  - unfold decode_string_attr, ATTR_HDR_LEN. rewrite Eh. cbn [mbind outcome_bind a_length].
    eapply ends_bind; [apply ends_copy; [done|lia..]|]. intros l [Hlb Hl]. split; [|done].
    split; [|done]. apply Hok; [|done]. split; [done|lia].
  - unfold decode_uint_attr. rewrite Eh. cbn [mbind outcome_bind a_length].
    eapply ends_bind; [apply ends_get32; [done|lia..]|]. intros v Hv. destruct (Z.eqb_spec len 4); [|done].
    split; [|done]. split; [by apply Hok|done].
  - unfold decode_uint64_attr. rewrite Eh. cbn [mbind outcome_bind a_length].
    destruct (len =? 8) eqn:E8; [|done]. cbn [negb]. unfold GETVAL64H.
    eapply (ends_bind _ _ (fun p => is_u32 p.1 /\ is_u32 p.2)).
    + eapply ends_bind; [apply ends_get32; [done|lia..]|]. intros hi Hhi.
      eapply ends_bind; [apply ends_get32; [done|lia..]|]. intros lo Hlo. done.
    + intros v Hv. split; [|done]. split; [by apply Hok|cbn; lia].
  - unfold decode_empty_attr. rewrite Eh. cbn [mbind outcome_bind a_length].
    destruct (Z.eqb_spec len 0); [|done]. split; [|done]. split; [by apply Hok|done].
  - unfold decode_msgint_attr. rewrite Eh. cbn [mbind outcome_bind a_length].
    destruct (len =? 20) eqn:E20; [|done]. cbn [negb].
    eapply ends_bind; [apply ends_copy; [done|lia..]|]. intros l [Hlb Hl].
    split; [|done]. apply Hok; [|done]. split_and!; [cbn; lia|done|done].
  - unfold decode_errcode_attr, ATTR_HDR_LEN. rewrite Eh. cbn [mbind outcome_bind a_length].
    pose proof (errcode_type _ _ Hd) as ->.
    eapply ends_bind; [apply ends_rd8; [done|lia]|]. intros b0 H0.
    eapply ends_bind; [apply ends_rd8; [done|lia]|]. intros b1 H1.
    eapply ends_bind; [apply ends_copy; [done|lia..]|]. intros l [Hlb Hl].
    split; [|done]. unfold is_u8 in *. split_and!; cbn; try done; lia.
  - unfold decode_unknown_attr, ATTR_HDR_LEN. rewrite Eh. cbn [mbind outcome_bind a_length].
    rewrite Z.shiftr_div_pow2 by lia. change (2 ^ 1) with 2. destruct (len / 2 >? PJ_STUN_MAX_ATTR) eqn:E16; [done|].
    eapply ends_bind; [apply ends_types; [done|lia|Z.to_euclidean_division_equations; lia]|].
    intros l [Hu Hl]. assert (zlen l = len / 2) as Hz by (unfold zlen; Z.to_euclidean_division_equations; lia).
    split; [|done]. split; [|done]. apply Hok; [|done]. split; [lia|done].
  - unfold decode_binary_attr, ATTR_HDR_LEN. rewrite Eh. cbn [mbind outcome_bind a_length].
    eapply ends_bind; [apply ends_copy; [done|lia..]|]. intros l [Hlb Hl]. split; [|done].
    split; [|done]. apply Hok; [|done]. split; [done|lia].
Qed.

(** The response to a packet that is not accepted. *)
Definition error_response (hdr : pj_stun_msg_hdr) (code : Z) (text : list Z) (rest : list pj_stun_attr) : pj_stun_msg :=
  StunMsg (MsgHdr (u16 (Z.lor (h_type hdr) PJ_STUN_ERROR_RESPONSE_BIT)) 0 (h_magic hdr) (h_tsx_id hdr))
    (ErrcodeAttr (INIT_ATTR PJ_STUN_ATTR_ERROR_CODE (4 + zlen text)) code text :: rest).

Definition refusal (want : bool) (hdr : pj_stun_msg_hdr) (d : decoded) : Prop :=
  d_status d <> PJ_SUCCESS /\ d_msg d = None /\ d_parsed_len d = 0 /\
  if want
  then exists code text rest, d_response d = Some (error_response hdr code text rest) /\
         (code = PJ_STUN_SC_BAD_REQUEST \/ code = PJ_STUN_SC_UNKNOWN_ATTRIBUTE \/ code = PJ_STUN_SC_SERVER_ERROR)
  else d_response d = None.

Lemma create_response_std msg code text std : PJ_STUN_IS_REQUEST (msg_type msg) = true ->
  pj_stun_get_err_reason code = Done std -> (zlen std =? 0) = false -> truth code = true ->
  pj_stun_msg_create_response msg code text = Done (inr (error_response (msg_hdr msg) code (default std text) [])).
Proof.
  intros Hr Es El Et. assert (Z.lor (msg_type msg) PJ_STUN_ERROR_RESPONSE_BIT <> 0) as Hnz.
  { intros E. apply Z.lor_eq_0_iff in E as [_ E]. discriminate. }
  unfold pj_stun_msg_create_response. rewrite Hr. cbn [negb]. rewrite Et.
  unfold pj_stun_msg_create, pj_stun_msg_init.
  replace (Z.lor (msg_type msg) PJ_STUN_ERROR_RESPONSE_BIT =? 0) with false by lia.
  unfold pj_stun_msg_add_errcode_attr, pj_stun_errcode_attr_create. unfold truth in Et. apply negb_true_iff in Et. rewrite Et.
  destruct text as [t|]; cbn [mbind outcome_bind default]; [done|].
  rewrite Es. cbn [mbind outcome_bind]. by rewrite El.
Qed.

Lemma create_response_spec msg code text : PJ_STUN_IS_REQUEST (msg_type msg) = true ->
  code = PJ_STUN_SC_BAD_REQUEST \/ code = PJ_STUN_SC_UNKNOWN_ATTRIBUTE \/ code = PJ_STUN_SC_SERVER_ERROR ->
  exists reason, pj_stun_msg_create_response msg code text = Done (inr (error_response (msg_hdr msg) code reason [])) /\
    (forall t, text = Some t -> reason = t) /\
    (text = None -> pj_stun_get_err_reason code = Done reason).
Proof.
  intros Hr Hc.
  assert (exists std, pj_stun_get_err_reason code = Done std /\ (zlen std =? 0) = false /\ truth code = true)
    as (std & Es & El & Et) by (destruct Hc as [->|[->| ->]]; eexists; repeat split).
  exists (default std text). split; [by apply create_response_std|]. by destruct text; split; [intros ? [= <-]|..].
Qed.

Lemma fails_spec want msg status code text : (want = true -> PJ_STUN_IS_REQUEST (msg_type msg) = true) ->
  code = PJ_STUN_SC_BAD_REQUEST \/ code = PJ_STUN_SC_UNKNOWN_ATTRIBUTE \/ code = PJ_STUN_SC_SERVER_ERROR ->
  status <> PJ_SUCCESS -> exists d, fails want msg status code text = Done (inl d) /\ refusal want (msg_hdr msg) d.
Proof.
  intros Hw Hc Hs. unfold fails. destruct want.
  - destruct (create_response_spec msg code text (Hw eq_refl) Hc) as (reason & -> & _). eexists. split; [done|].
    split_and!; try done. exists code, reason, []. done.
  - eexists. split; [done|]. done.
Qed.

Lemma fails_unknown_spec want msg type : (want = true -> PJ_STUN_IS_REQUEST (msg_type msg) = true) ->
  exists d, fails_unknown want msg type = Done (inl d) /\ refusal want (msg_hdr msg) d /\
    d_status d = PJ_STATUS_FROM_STUN_CODE PJ_STUN_SC_UNKNOWN_ATTRIBUTE /\
    (want = true -> d_response d = Some (error_response (msg_hdr msg) PJ_STUN_SC_UNKNOWN_ATTRIBUTE
      (pj_str "Unknown Attribute"%string) [UnknownAttr (AttrHdr PJ_STUN_ATTR_UNKNOWN_ATTRIBUTES 2) [type]])).
Proof.
  intros Hw. unfold fails_unknown. destruct want.
  - destruct (create_response_spec msg PJ_STUN_SC_UNKNOWN_ATTRIBUTE None (Hw eq_refl) ltac:(tauto))
      as (reason & -> & _ & Er). specialize (Er eq_refl). vm_compute in Er. injection Er as <-.
    eexists. split; [done|]. split; [|done]. split_and!; try done. do 3 eexists. split; [reflexivity|tauto].
  - eexists. split; [done|]. done.
Qed.

(** The loop between two attributes. *)
Record parser_ok (pdu : list Z) (hdr : pj_stun_msg_hdr) (p : parser) : Prop := {
  pok_hdr : msg_hdr (p_msg p) = hdr;
  pok_pos : 20 <= p_pos p;
  pok_left : 0 <= p_left p;
  pok_end : p_pos p + p_left p = 20 + h_length hdr;
  pok_count : zlen (attrs (p_msg p)) <= PJ_STUN_MAX_ATTR;
  pok_attrs : Forall attr_got (attrs (p_msg p))
}.

(** An ERROR-CODE attribute too short for its code. *)
Definition short_errcode (pdu : list Z) (hdr : pj_stun_msg_hdr) : Prop :=
  exists pos len, 20 <= pos /\ pos + 4 <= 20 + h_length hdr /\
    GETVAL16H pdu pos = Done PJ_STUN_ATTR_ERROR_CODE /\ GETVAL16H pdu (pos + 2) = Done len /\ len < 4.

Lemma check_order_err type mi fp status : check_order type mi fp = inl status -> status <> PJ_SUCCESS.
Proof. unfold check_order. repeat case_match; intros [= <-]; discriminate. Qed.

Lemma next_attr_ok pdu hdr p n a mi fp : parser_ok pdu hdr p -> 0 <= n <= p_left p -> 4 <= p_left p ->
  zlen (attrs (p_msg p)) < PJ_STUN_MAX_ATTR -> attr_got a ->
  let p' := next_attr p n ((p_msg p) <| attrs ::= fun l => l ++ [a] |>) mi fp in
  parser_ok pdu hdr p' /\ p_left p' < p_left p.
Proof.
  intros [Hh Hp Hl He Hc Ha] Hn H4 Hlt Hg. unfold next_attr.
  assert (zlen (attrs ((p_msg p) <| attrs ::= fun l => l ++ [a] |>)) <= PJ_STUN_MAX_ATTR) as Hc'.
  { change (zlen (attrs (p_msg p) ++ [a]) <= PJ_STUN_MAX_ATTR). rewrite zlen_app. change (zlen [a]) with 1. lia. }
  assert (Forall attr_got (attrs ((p_msg p) <| attrs ::= fun l => l ++ [a] |>))) as Ha'
    by (change (Forall attr_got (attrs (p_msg p) ++ [a])); apply Forall_app_2; [done|by apply Forall_cons_2]).
  destruct (n + 4 >=? p_left p) eqn:E; split; cbn [p_left]; try lia; split; cbn [p_msg p_left p_pos]; try done; lia.
Qed.

Lemma parse_attr_any strerror want pdu hdr p : is_bytes pdu -> parser_ok pdu hdr p -> 4 <= p_left p ->
  24 + h_length hdr <= zlen pdu -> h_length hdr <= 65535 -> zlen (h_tsx_id hdr) = 12 -> is_bytes (h_tsx_id hdr) ->
  (want = true -> PJ_STUN_IS_REQUEST (h_type hdr) = true) ->
  ends_in (parse_attr strerror want pdu p)
    (fun r => match r with
              | inl d => refusal want hdr d
              | inr p' => parser_ok pdu hdr p' /\ p_left p' < p_left p
              end) (short_errcode pdu hdr).
Proof.
  intros Hk Hok H4 Hin Hlen Hid Hidb Hw. pose proof Hok as [Hh Hp Hl He Hc Ha]. unfold parse_attr.
  assert (want = true -> PJ_STUN_IS_REQUEST (msg_type (p_msg p)) = true) as Hw' by (unfold msg_type; by rewrite Hh).
  assert (forall status code text, code = PJ_STUN_SC_BAD_REQUEST \/ code = PJ_STUN_SC_UNKNOWN_ATTRIBUTE \/
      code = PJ_STUN_SC_SERVER_ERROR -> status <> PJ_SUCCESS ->
    ends_in (fails want (p_msg p) status code text) (fun r => match r with
      | inl d => refusal want hdr d | inr p' => parser_ok pdu hdr p' /\ p_left p' < p_left p end) (short_errcode pdu hdr)) as Hf.
  { intros status code text Hcd Hs. destruct (fails_spec want (p_msg p) status code text Hw' Hcd Hs) as (d & -> & Hd).
    by rewrite Hh in Hd. }
  eapply ends_bind; [apply ends_get16; [done|lia..]|]. intros type [Hty Et].
  eapply ends_bind; [apply ends_get16; [done|lia..]|]. intros len [Hln El].
  assert (len <= align4 len) as Hal.
  { unfold is_u16 in *. pose proof (padding_range len ltac:(lia)). unfold padding in *. lia. }
  destruct (p_left p <? align4 len) eqn:Elen; [apply Hf; [tauto|discriminate]|].
  assert (0 <= len <= 65532) as Hl65.
  { unfold is_u16 in *. rewrite align4_eq in Elen by lia. Z.to_euclidean_division_equations; lia. }
  destruct (find_attr_desc type) as [[s kind]|] eqn:Ed.
  - rewrite Hh. eapply ends_bind.
    + eapply ends_mono; [apply (decode_attr_any s kind pdu (p_pos p) hdr type len); try done; lia| |].
      * intros r Hr. exact Hr.
      * intros [-> Hsh]. exists (p_pos p), len. split_and!; try done; lia.
    + intros [status|a] Hr; [apply Hf; [tauto|done]|]. destruct Hr as [Hg Hat].
      destruct (check_order _ _ _) as [status|[mi fp]] eqn:Eo; [apply Hf; [tauto|by eapply check_order_err]|].
      destruct (zlen (attrs (p_msg p)) >=? PJ_STUN_MAX_ATTR) eqn:Em; [apply Hf; [tauto|discriminate]|].
      apply next_attr_ok; try done; lia.
  - destruct (type <=? 0x7FFF) eqn:Em.
    { destruct (fails_unknown_spec want (p_msg p) type Hw') as (d & -> & Hd & _). by rewrite Hh in Hd. }
    destruct (zlen (attrs (p_msg p)) >=? PJ_STUN_MAX_ATTR) eqn:Ec; [apply Hf; [tauto|discriminate]|].
    eapply ends_bind; [apply ends_copy; [done|lia..]|]. intros l [Hb Hll].
    unfold pj_stun_binary_attr_create, pj_stun_binary_attr_init. replace (type =? 0) with false by lia.
    assert ((if truth len then l else []) = l) as ->
      by (unfold truth; destruct (Z.eqb_spec len 0) as [->|]; [apply zlen_0 in Hll as ->|]; done).
    apply next_attr_ok; try done; try lia. unfold attr_got, INIT_ATTR, attr_ok. cbn [attr_type attr_hdr a_type a_length].
    change (attr_type (BinaryAttr ?h _ _)) with (a_type h). cbn [a_type]. rewrite !u16_small by done. rewrite Ed.
    split_and!; try done; lia.
Qed.

Lemma parse_attrs_any strerror want pdu hdr : is_bytes pdu ->
  24 + h_length hdr <= zlen pdu -> h_length hdr <= 65535 -> zlen (h_tsx_id hdr) = 12 -> is_bytes (h_tsx_id hdr) ->
  (want = true -> PJ_STUN_IS_REQUEST (h_type hdr) = true) ->
  forall fuel p, parser_ok pdu hdr p -> p_left p < Z.of_nat fuel ->
  ends_in (parse_attrs strerror fuel want pdu p)
    (fun r => match r with
              | inl d => refusal want hdr d
              | inr p' => parser_ok pdu hdr p' /\ p_left p' < 4
              end) (short_errcode pdu hdr).
Proof.
  intros Hk Hin Hlen Hid Hidb Hw. induction fuel as [|fuel IH]; intros p Hok Hfu.
  - destruct Hok. lia.
  - cbn [parse_attrs]. destruct (p_left p >=? 4) eqn:E4; [|split; [done|lia]].
    eapply ends_bind; [apply parse_attr_any; try done; lia|]. intros [d|p'] Hr; [done|].
    destruct Hr as [Hok' Hlt]. apply IH; [done|lia].
Qed.

Lemma check_ends addr pdu pdu_len options : is_bytes pdu -> 20 <= zlen pdu -> pdu_len <= zlen pdu ->
  ends_in (pj_stun_msg_check addr pdu pdu_len options) (fun _ => True) False.
Proof.
  intros Hk H20 Hl. unfold pj_stun_msg_check. destruct (pdu_len <? 20) eqn:E; [done|].
  eapply ends_bind; [apply ends_rd8; [done|lia]|]. intros b _. case_match; [done|].
  eapply ends_bind; [apply ends_get16; [done|lia..]|]. intros n [Hn _]. unfold is_u16 in Hn.
  destruct (_ || _) eqn:Eb; [done|]. apply orb_false_iff in Eb as [Eb _]. case_match; [done|].
  eapply ends_bind; [apply ends_get32; [done|lia..]|]. intros m _. case_match; [done|].
  eapply ends_bind; [apply ends_get16; [done|lia..]|]. intros t _. case_match; [done|].
  eapply ends_bind; [apply ends_get16; [done|lia..]|]. intros al _.
  eapply ends_bind; [apply ends_get32; [done|lia..]|]. intros f _. case_match; [done|].
  eapply ends_bind; [apply ends_copy; [done|lia..]|]. intros l _. by case_match.
Qed.

(** A packet with the length field [len]: it is taken apart into a message, or
    refused, with a response to a request when one is wanted. *)
Definition decoded_ok (want : bool) (hdr : pj_stun_msg_hdr) (d : decoded) : Prop :=
  match d_msg d with
  | Some msg =>
      d_status d = PJ_SUCCESS /\ d_response d = None /\ d_parsed_len d = 20 + h_length hdr /\
      msg_hdr msg = hdr /\ zlen (attrs msg) <= PJ_STUN_MAX_ATTR /\ Forall attr_got (attrs msg)
  | None =>
      d_status d <> PJ_SUCCESS /\ d_parsed_len d = 0 /\
      match d_response d with
      | Some r => want = true /\ PJ_STUN_IS_REQUEST (h_type hdr) = true /\
          exists code text rest, r = error_response hdr code text rest /\
            (code = PJ_STUN_SC_BAD_REQUEST \/ code = PJ_STUN_SC_UNKNOWN_ATTRIBUTE \/ code = PJ_STUN_SC_SERVER_ERROR)
      | None => True
      end
  end.

Lemma decode_any strerror addr pdu pdu_len options want hdr : is_bytes pdu ->
  read_header pdu = Done hdr -> 24 + h_length hdr <= zlen pdu -> pdu_len <= zlen pdu ->
  ends_in (pj_stun_msg_decode strerror addr pdu pdu_len options want) (decoded_ok want hdr) (short_errcode pdu hdr).
Proof.
  intros Hk Eh Hin Hl.
  assert (is_u16 (h_length hdr) /\ zlen (h_tsx_id hdr) = 12 /\ is_bytes (h_tsx_id hdr)) as (Hln & Hid & Hidb).
  { unfold read_header in Eh. apply bind_done in Eh as (t & _ & Eh). apply bind_done in Eh as (n & En & Eh).
    apply bind_done in Eh as (m & _ & Eh). apply bind_done in Eh as (l & El & Eh). injection Eh as <-. cbn.
    unfold GETVAL16H in En. apply bind_done in En as (b0 & _ & En). apply bind_done in En as (b1 & _ & En).
    injection En as <-. split; [apply u16_range|]. unfold copy_from in El. destruct (_ && _) eqn:E; [|done].
    injection El as <-. split; [|by apply Forall_take, Forall_drop]. apply andb_true_iff in E as [_ E].
    change 12%nat with (Z.to_nat 12). apply zlen_take. rewrite zlen_drop by lia. lia. }
  unfold is_u16 in Hln. unfold pj_stun_msg_decode. destruct (pdu_len =? 0); [done|].
  eapply (ends_bind _ _ (fun _ => True)).
  { destruct (truth _); [|done]. eapply ends_mono; [apply check_ends; [done|lia..]|done|done]. }
  intros status _. case_decide as Hs; [done|]. rewrite Eh. cbn [mbind outcome_bind].
  eapply ends_bind.
  { apply parse_attrs_any; try done; try lia.
    - intros E%andb_true_iff. tauto.
    - split; cbn; try done; lia.
    - cbn. lia. }
  intros [d|p] Hr.
  - destruct Hr as (Hst & Hm & Hp & Hr). unfold ends_in, decoded_ok. rewrite Hm. split_and!; [done..|].
    destruct (want && PJ_STUN_IS_REQUEST (h_type hdr)) eqn:Ew.
    + apply andb_true_iff in Ew as [-> Ew]. destruct Hr as (code & text & rest & -> & Hc). split_and!; [done..|].
      by exists code, text, rest.
    + by rewrite Hr.
  - destruct Hr as [[Hh Hp Hl0 He Hc Ha] H4]. destruct (p_left p >? 0) eqn:E0; [done|].
    unfold ends_in, decoded_ok. cbn. split_and!; try done. lia.
Qed.

(** The eight bytes of a FINGERPRINT attribute, whatever its value. *)
Definition is_fingerprint (f : list Z) : Prop :=
  is_bytes f /\ zlen f = 8 /\ GETVAL16H f 0 = Done PJ_STUN_ATTR_FINGERPRINT.

Ltac refused := left; eexists; split; [|reflexivity]; discriminate.

(** The packet [k] with [f] for its last eight bytes, once it is taken for a message
    with a fingerprint. *)
Lemma check_fingerprint addr k f n options : is_bytes k -> is_bytes f -> zlen f = 8 -> n = zlen k + 8 ->
  truth (Z.land options PJ_STUN_IS_DATAGRAM) = true ->
  truth (Z.land options PJ_STUN_NO_FINGERPRINT_CHECK) = false ->
  GETVAL16H f 0 = Done PJ_STUN_ATTR_FINGERPRINT -> GETVAL32H (k ++ f) 4 = Done PJ_STUN_MAGIC ->
  exists v, GETVAL32H f 4 = Done v /\
    ((exists status, status <> PJ_SUCCESS /\ pj_stun_msg_check addr (k ++ f) n options = Done status) \/
     pj_stun_msg_check addr (k ++ f) n options =
       Done (if negb (Z.lxor (pj_crc32_calc addr k) STUN_XOR_FINGERPRINT =? v) then PJNATH_ESTUNFINGERPRINT
             else PJ_SUCCESS)).
Proof.
  intros Hk Hf H8 -> Hdg Hno Et Em. pose proof (zlen_nonneg k).
  assert (is_bytes (k ++ f)) as Hkf by (by apply Forall_app_2).
  assert (zlen (k ++ f) = zlen k + 8) as Hl by (rewrite zlen_app; lia).
  destruct (ends_done _ _ (ends_get32 f 4 False Hf ltac:(lia) ltac:(lia))) as (v & Ev & _).
  exists v. split; [done|]. unfold pj_stun_msg_check. destruct (zlen k + 8 <? 20) eqn:E20; [refused|].
  destruct (yields_rd8 (k ++ f) 0 Hkf ltac:(lia)) as (b & -> & _). cbn [mem mbind outcome_bind].
  destruct (negb (b =? 0) && negb (b =? 1)); [refused|].
  destruct (ends_done _ _ (ends_get16 (k ++ f) 2 False Hkf ltac:(lia) ltac:(lia))) as (len & -> & _). cbn [mbind outcome_bind]. rewrite Hdg, Em.
  destruct (_ || _) eqn:Eb; [refused|]. apply orb_false_iff in Eb as [_ Eb]. cbn [andb] in Eb.
  apply negb_false_iff, Z.eqb_eq in Eb. destruct (truth (Z.land len 3)); [refused|].
  cbn [mbind outcome_bind]. rewrite Hno, Z.eqb_refl. cbn [negb orb].
  replace (len + 20 - 8) with (zlen k + 0) by lia. rewrite <- !Z.add_assoc, !get16_skip, get32_skip, Et by lia.
  cbn [mbind outcome_bind]. rewrite Z.eqb_refl. cbn [negb]. change (0 + 2) with 2. change (0 + 4) with 4. rewrite Ev.
  destruct (ends_done _ _ (ends_get16 f 2 False Hf ltac:(lia) ltac:(lia))) as (al & -> & _). cbn [mbind outcome_bind].
  destruct (negb (al =? 4)); [refused|]. right. rewrite Z.add_0_r, copy_front by done. cbn [mbind outcome_bind].
  by case_match.
Qed.

(** ** Properties *)

(** C7: A message that can be sent is encoded, and the bytes made are decoded, anywhere
    in memory and with anything behind them, into the message that the encoder
    returns, attribute by attribute as [received] says: the same values, but that
    a SOFTWARE attribute, and any string of a message without the magic cookie,
    keeps the padding of the wire, and that the length fields are those of the wire
    and a known binary attribute has no magic. The
    options must not look for a fingerprint in a message that has the magic cookie
    and none ([checkable]); for a datagram the packet must end with the message. *)
Theorem stun_encode_decode strerror addr addr' pad stack msg body mi fp buf key options want :
  sendable pad msg body mi fp -> 0 <= h_type (msg_hdr msg) < 512 -> (is_Some mi -> is_Some key) ->
  checkable options (msg_hdr msg) fp -> is_bytes buf -> zlen buf < 4294967296 ->
  20 + wires_size pad (msg_hdr msg) body + (if mi is Some _ then 24 else 0)
    + (if fp is Some _ then 8 else 0) <= zlen buf ->
  exists msg' buf' n,
    pj_stun_msg_encode addr pad stack msg buf (zlen buf) 0 key = Some (PJ_SUCCESS, msg', buf', Some n) /\
    msg_hdr msg' = (msg_hdr msg) <| h_length := n - 20 |> /\ take (length body) (attrs msg') = body /\
    map attr_type (attrs msg') = map attr_type (attrs msg) /\
    forall more pdu_len,
      n <= pdu_len -> (truth (Z.land options PJ_STUN_IS_DATAGRAM) = true -> pdu_len = n) ->
      pj_stun_msg_decode strerror addr' (take (Z.to_nat n) buf' ++ more) pdu_len options want =
      Done (Decoded PJ_SUCCESS
        (Some (msg' <| attrs ::= map (received pad (msg_hdr msg)) |>)) n None).
Proof.
  intros Hsnd Hty Hkey Hfp Hbuf Hsz Hroom.
  destruct (encode_message addr pad stack msg body mi fp buf key Hsnd Hkey Hbuf Hsz Hroom)
    as (bs & rest & Hw & E). destruct Hsnd as [Hh Ha Hb Hc Hs].
  assert (Forall attr_ok body) as Hok by (eapply Forall_impl; [exact Hb|]; by intros ? [? _]).
  pose proof (wired_len pad _ body bs Hok (proj2 (proj2 (proj2 Hh))) Hw) as Hbs.
  set (mi' := final_hmac stack (default [] key) (msg_hdr msg) bs mi) in *.
  assert (total_len bs mi' fp = total_len bs mi fp) as Htl by (unfold total_len, mi'; by destruct mi).
  cbn zeta in E. rewrite <- Htl in E. set (fp' := final_value addr (msg_hdr msg) bs mi' fp) in *.
  set (n := 20 + total_len bs mi' fp) in *. exists (sent msg body mi' fp' (total_len bs mi' fp)).
  eexists. exists n. split; [exact E|]. split_and!.
  - replace (n - 20) with (total_len bs mi' fp) by (unfold n; lia). done.
  - cbn. by rewrite take_app_length.
  - cbn. rewrite Ha. unfold fp', mi'. rewrite !map_app. by destruct mi, fp.
  - intros more pdu_len Hp Hdg.
    assert (zlen (wire_message (msg_hdr msg) bs mi' fp') = n) as Hz.
    { unfold wire_message. rewrite !zlen_app, header_len by done.
      destruct (mi_bytes_len mi') as [-> _]; [intros m Em; by apply (final_hmac_ok _ _ _ _ _ _ Em)|].
      unfold n, total_len, fp'. rewrite fp_bytes_len. destruct fp; lia. }
    rewrite <- Hz at 1. rewrite take_start.
    apply (decode_message strerror addr addr' pad (msg_hdr msg) body bs mi' fp more pdu_len options want Hh Hty Hb);
      [|intros m Em; by apply (final_hmac_ok _ _ _ _ _ _ Em)|done|lia|done|done].
    rewrite Ha in Hc. unfold mi', zlen in *. rewrite !length_app in *. destruct mi, fp; cbn in *; lia.
Qed.

Lemma stun_encode_decode_witness :
  let msg := StunMsg (MsgHdr 1 0 PJ_STUN_MAGIC (replicate 12 7))
    [StringAttr (AttrHdr 6 5) [97; 58; 98; 99; 100]; SockaddrAttr (AttrHdr 0x20 0) true (SockIn 80 1);
     mi_attr []; fp_attr 0] in
  let buf := replicate 100 0 in
  exists msg' buf' n,
    pj_stun_msg_encode 0 0 [] msg buf 100 0 (Some [107; 101; 121]) = Some (PJ_SUCCESS, msg', buf', Some n) /\
    pj_stun_msg_decode (fun _ => []) 2 (take (Z.to_nat n) buf' ++ []) n 3 true =
      Done (Decoded PJ_SUCCESS (Some (msg' <| attrs ::= map (received 0 (msg_hdr msg)) |>)) n None).
Proof.
  set (h := MsgHdr 1 0 PJ_STUN_MAGIC (replicate 12 7)).
  set (body := [StringAttr (AttrHdr 6 5) [97; 58; 98; 99; 100]; SockaddrAttr (AttrHdr 0x20 0) true (SockIn 80 1)]).
  assert (is_bytes [97; 58; 98; 99; 100]) as Hs
    by (repeat first [apply Forall_cons_2; [by vm_compute|]|apply Forall_nil_2]).
  destruct (stun_encode_decode (fun _ => []) 0 2 0 [] (StunMsg h (body ++ mi_list (Some []) ++ fp_list (Some 0)))
    body (Some []) (Some 0) (replicate 100 0) (Some [107; 101; 121]) 3 true) as (msg' & buf' & n & E & _ & _ & _ & Ed).
  - split.
    + split_and!; [by vm_compute..|apply Forall_replicate; by vm_compute|done].
    + done.
    + apply Forall_cons_2; [|apply Forall_cons_2; [|apply Forall_nil_2]].
      * split; [|done]. split; [by vm_compute|]. split; [exact Hs|by vm_compute].
      * split; [|done]. split; [by vm_compute|]. split; [done|]. split; by vm_compute.
    + by vm_compute.
    + by vm_compute.
  - by vm_compute.
  - by eexists.
  - left. by eexists.
  - apply Forall_replicate. by vm_compute.
  - by vm_compute.
  - by vm_compute.
  - exists msg', buf', n. split; [exact E|]. apply Ed; [lia|done].
Defined.

(** What a packet that passes the check has. *)
Lemma check_length addr pdu pdu_len options : is_bytes pdu -> 20 <= zlen pdu ->
  pj_stun_msg_check addr pdu pdu_len options = Done PJ_SUCCESS ->
  exists hdr, read_header pdu = Done hdr /\ 20 + h_length hdr <= pdu_len.
Proof.
  intros Hk H20 Hc. unfold pj_stun_msg_check in Hc. destruct (pdu_len <? 20); [done|].
  apply bind_done in Hc as (b & _ & Hc). case_match; [done|].
  apply bind_done in Hc as (n & En & Hc). destruct (_ || _) eqn:Eb; [done|].
  apply orb_false_iff in Eb as [Eb _]. unfold read_header. rewrite En.
  assert (forall i, 0 <= i -> i + 1 < zlen pdu -> exists t, GETVAL16H pdu i = Done t) as H16.
  { intros i Hi Hz. destruct (ends_done _ _ (ends_get16 pdu i False Hk Hi Hz)) as (t & -> & _). by exists t. }
  destruct (H16 0) as [t ->]; [lia..|].
  destruct (ends_done _ _ (ends_get32 pdu 4 False Hk ltac:(lia) ltac:(lia))) as (m & -> & _).
  destruct (ends_done _ _ (ends_copy pdu 8 12 False Hk ltac:(lia) ltac:(lia) ltac:(lia))) as (l & -> & _).
  eexists. split; [reflexivity|]. cbn. lia.
Qed.

(** C22: When the decoder is asked to check the packet ([PJ_STUN_CHECK_PACKET]), it
    ends on any bytes, and reads at most four bytes behind the packet, unless the
    packet has an ERROR-CODE attribute too short for its code: only then is it
    left without bounds. *)
Theorem stun_decode_in_bounds strerror addr pdu pdu_len options want : is_bytes pdu ->
  truth (Z.land options PJ_STUN_CHECK_PACKET) = true -> 0 <= pdu_len -> pdu_len + 4 <= zlen pdu ->
  let r := pj_stun_msg_decode strerror addr pdu pdu_len options want in
  r <> NoFuel /\
  (r = Overread -> exists hdr, read_header pdu = Done hdr /\ 20 + h_length hdr <= pdu_len /\
     short_errcode pdu hdr).
Proof.
  intros Hk Hopt Hl0 Hl r.
  assert (exists st, pj_stun_msg_check addr pdu pdu_len options = Done st /\ (st = PJ_SUCCESS -> 20 <= pdu_len))
    as (st & Hc & H20).
  { destruct (Z.ltb_spec pdu_len 20) as [Hs|Hs].
    - unfold pj_stun_msg_check. rewrite (proj2 (Z.ltb_lt _ _) Hs). by eexists.
    - destruct (ends_done _ _ (check_ends addr pdu pdu_len options Hk ltac:(lia) ltac:(lia))) as (st & -> & _).
      by exists st. }
  destruct (decide (st = PJ_SUCCESS)) as [->|Hst].
  - specialize (H20 eq_refl). destruct (check_length addr pdu pdu_len options Hk ltac:(lia) Hc) as (hdr & Eh & Hb).
    pose proof (decode_any strerror addr pdu pdu_len options want hdr Hk Eh ltac:(lia) ltac:(lia)) as H.
    fold r in H. destruct r; split; try done. intros _. by exists hdr.
  - assert (exists d, r = Done d) as [d ->]; [|done]. subst r. unfold pj_stun_msg_decode.
    destruct (pdu_len =? 0); [by eexists|]. rewrite Hopt, Hc. cbn [mbind outcome_bind].
    rewrite decide_True by done. by eexists.
Qed.

Lemma stun_decode_in_bounds_witness :
  let pdu := header (MsgHdr 1 0 PJ_STUN_MAGIC (replicate 12 7)) 4 ++ [0; 36; 0; 0] ++ [1; 2; 3; 4] in
  pj_stun_msg_decode (fun _ => []) 0 pdu 24 3 true <> NoFuel /\
  pj_stun_msg_decode (fun _ => []) 0 (take 24 pdu) 24 3 true = Overread.
Proof.
  intros pdu. split; [|vm_compute; reflexivity].
  assert (is_bytes pdu) as Hb by (repeat first [apply Forall_cons_2; [by vm_compute|]|apply Forall_nil_2]).
  refine (proj1 (stun_decode_in_bounds (fun _ => []) 0 pdu 24 3 true Hb _ _ _)).
  - by vm_compute.
  - by vm_compute.
  - by vm_compute.
Defined.

(** Without the check the length of the packet is not looked at. *)
Example unchecked_overread :
  let pdu := header (MsgHdr 1 0 PJ_STUN_MAGIC (replicate 12 7)) 8 ++ [0; 36; 0; 0] in
  pj_stun_msg_decode (fun _ => []) 0 pdu 24 0 true = Overread /\
  pj_stun_msg_decode (fun _ => []) 0 pdu 24 PJ_STUN_CHECK_PACKET true =
    Done (Decoded PJNATH_EINSTUNMSGLEN None 0 None).
Proof. split; vm_compute; reflexivity. Qed.

(** C21: What the decoder makes of any packet.  Accepted: a message with the header of
    the packet, the bytes used those that its length field says, at most sixteen
    attributes, each of the structure that its type is for, its values in range
    and its length the one in the packet.  Refused: no message, a status that
    says why, and if anything to answer with, an error response to the request
    in the packet. *)
Theorem stun_decode_types strerror addr pdu pdu_len options want hdr d : is_bytes pdu ->
  read_header pdu = Done hdr -> 24 + h_length hdr <= zlen pdu -> pdu_len <= zlen pdu ->
  pj_stun_msg_decode strerror addr pdu pdu_len options want = Done d ->
  match d_msg d with
  | Some msg =>
      d_status d = PJ_SUCCESS /\ d_response d = None /\ d_parsed_len d = 20 + h_length hdr /\
      msg_hdr msg = hdr /\ zlen (attrs msg) <= PJ_STUN_MAX_ATTR /\ Forall attr_got (attrs msg)
  | None =>
      d_status d <> PJ_SUCCESS /\ d_parsed_len d = 0 /\
      match d_response d with
      | Some r => want = true /\ PJ_STUN_IS_REQUEST (h_type hdr) = true /\
          exists code text rest, r = error_response hdr code text rest /\
            (code = PJ_STUN_SC_BAD_REQUEST \/ code = PJ_STUN_SC_UNKNOWN_ATTRIBUTE \/ code = PJ_STUN_SC_SERVER_ERROR)
      | None => True
      end
  end.
Proof.
  intros Hk Eh Hin Hl E. pose proof (decode_any strerror addr pdu pdu_len options want hdr Hk Eh Hin Hl) as H.
  rewrite E in H. exact H.
Qed.

Lemma stun_decode_types_witness :
  let pdu := header (MsgHdr 1 0 PJ_STUN_MAGIC (replicate 12 7)) 8 ++ [0; 36; 0; 4; 0; 0; 0; 5] ++ [1; 2; 3; 4] in
  let attr := UintAttr (AttrHdr 36 4) 5 in
  pj_stun_msg_decode (fun _ => []) 0 pdu 28 3 true =
    Done (Decoded PJ_SUCCESS (Some (StunMsg (MsgHdr 1 8 PJ_STUN_MAGIC (replicate 12 7)) [attr])) 28 None) /\
  attr_got attr.
Proof.
  set (hdr := MsgHdr 1 8 PJ_STUN_MAGIC (replicate 12 7)). intros pdu attr.
  assert (is_bytes pdu) as Hb by (repeat first [apply Forall_cons_2; [by vm_compute|]|apply Forall_nil_2]).
  assert (pj_stun_msg_decode (fun _ => []) 0 pdu 28 3 true =
    Done (Decoded PJ_SUCCESS (Some (StunMsg hdr [attr])) 28 None)) as E by (vm_compute; reflexivity).
  split; [exact E|].
  assert (read_header pdu = Done hdr) as Eh by reflexivity.
  assert (24 + h_length hdr <= zlen pdu /\ 28 <= zlen pdu) as [H1 H2] by (clear E; split; vm_compute; discriminate).
  destruct (stun_decode_types (fun _ => []) 0 pdu 28 3 true hdr _ Hb Eh H1 H2 E) as (_ & _ & _ & _ & _ & Ha).
  exact (Forall_inv Ha).
Defined.

(** C24: An attribute of a type that must be understood and that no descriptor is for,
    behind any attributes that are accepted: the packet is refused with 420, and a
    request is answered with an error response that names the type. *)
Theorem stun_unknown_attribute strerror addr pad h l bs t n rest len pdu_len options want f :
  hdr_ok h -> is_u16 len -> Forall attr_ok l -> wired pad h l bs -> zlen l <= PJ_STUN_MAX_ATTR ->
  flags_of l false false = Some f -> 0 <= t <= 0x7FFF -> find_attr_desc t = None -> is_u16 n ->
  4 <= len - zlen bs -> align4 n <= len - zlen bs -> pdu_len <> 0 ->
  let pdu := header h len ++ bs ++ PUTVAL16H t ++ PUTVAL16H n ++ rest in
  (truth (Z.land options PJ_STUN_CHECK_PACKET) = true ->
   pj_stun_msg_check addr pdu pdu_len options = Done PJ_SUCCESS) ->
  pj_stun_msg_decode strerror addr pdu pdu_len options want =
  Done (Decoded (PJ_STATUS_FROM_STUN_CODE PJ_STUN_SC_UNKNOWN_ATTRIBUTE) None 0
    (if want && PJ_STUN_IS_REQUEST (h_type h)
     then Some (error_response h PJ_STUN_SC_UNKNOWN_ATTRIBUTE (pj_str "Unknown Attribute"%string)
            [UnknownAttr (AttrHdr PJ_STUN_ATTR_UNKNOWN_ATTRIBUTES 2) [t]])
     else None)).
Proof.
  intros Hh Hlen Hok Hw Hc Hf Ht Hd Hn H4 Hal Hp pdu Hck. destruct f as [mi fp].
  pose proof (proj2 (proj2 (proj2 Hh))) as Hid. pose proof (zlen_nonneg bs) as H0. unfold is_u16 in *.
  unfold pj_stun_msg_decode. replace (pdu_len =? 0) with false by lia.
  assert ((if truth (Z.land options PJ_STUN_CHECK_PACKET)
           then pj_stun_msg_check addr pdu pdu_len options else Done PJ_SUCCESS) = Done PJ_SUCCESS) as ->
    by (destruct (truth (Z.land options PJ_STUN_CHECK_PACKET)); [by apply Hck|done]).
  cbn [mbind outcome_bind]. rewrite decide_False by tauto. unfold pdu.
  rewrite read_header_spec by done. cbn [mbind outcome_bind].
  set (h' := h <| h_length := len |>). change (h_length h') with len. change (h_type h') with (h_type h).
  pose proof (wired_count pad h l bs Hok Hid Hw) as Hbl.
  assert (exists fuel, S (Z.to_nat len) = (length l + S fuel)%nat) as [fuel ->]
    by (exists (Z.to_nat len - length l)%nat; unfold zlen in *; lia).
  replace (Parser 20 len _ false false)
    with (Parser (zlen (header h len)) (zlen bs + (len - zlen bs)) (StunMsg h' []) false false)
    by (rewrite header_len by done; f_equal; lia).
  rewrite (parse_attrs_wired strerror _ pad h l bs Hw Hid (S fuel) (header h len) (PUTVAL16H t ++ PUTVAL16H n ++ rest)
    (len - zlen bs) (StunMsg h' []) false false mi fp) by (done || lia).
  set (msg := (StunMsg h' []) <| attrs ::= _ |>). cbn [parse_attrs p_left]. replace (_ >=? 4) with true by lia.
  unfold parse_attr. cbn [p_msg p_pos p_left].
  pose proof (get16_skip (header h len ++ bs) (PUTVAL16H t ++ PUTVAL16H n ++ rest) 0 ltac:(lia)) as E0.
  rewrite get16_put, Z.add_0_r in E0 by (unfold is_u16; lia). rewrite E0. cbn [mbind outcome_bind].
  rewrite get16_skip by lia.
  pose proof (get16_skip (PUTVAL16H t) (PUTVAL16H n ++ rest) 0 ltac:(lia)) as E2.
  rewrite get16_put in E2 by done. change (zlen (PUTVAL16H t) + 0) with 2 in E2. rewrite E2. cbn [mbind outcome_bind].
  replace (len - zlen bs <? align4 n) with false by lia. rewrite Hd. replace (t <=? 0x7FFF) with true by lia.
  destruct (fails_unknown_spec (want && PJ_STUN_IS_REQUEST (h_type h)) msg t) as (d & -> & Hr & Hs & Hresp).
  { intros E%andb_true_iff. apply E. }
  cbn [mbind outcome_bind]. destruct d as [ds dm dl dr]. cbn in Hs, Hresp, Hr. destruct Hr as (_ & Hm & Hl & Hr).
  cbn in Hm, Hl. subst. f_equal. f_equal. destruct (want && _); [by apply Hresp|exact Hr].
Qed.

Lemma stun_unknown_attribute_witness :
  let h := MsgHdr 1 0 PJ_STUN_MAGIC (replicate 12 7) in
  let l := [UintAttr (AttrHdr 36 4) 7] in
  let bs := [0; 36; 0; 4; 0; 0; 0; 7] in
  wired 0 h l bs /\ find_attr_desc 0x7000 = None /\
  pj_stun_msg_decode (fun _ => []) 0 (header h 12 ++ bs ++ PUTVAL16H 0x7000 ++ PUTVAL16H 0 ++ []) 32 1 true =
  Done (Decoded (PJ_STATUS_FROM_STUN_CODE 420) None 0
    (Some (error_response h 420 (pj_str "Unknown Attribute"%string)
       [UnknownAttr (AttrHdr PJ_STUN_ATTR_UNKNOWN_ATTRIBUTES 2) [0x7000]]))).
Proof.
  set (h := MsgHdr 1 0 PJ_STUN_MAGIC (replicate 12 7)). set (l := [UintAttr (AttrHdr 36 4) 7]).
  set (bs := [0; 36; 0; 4; 0; 0; 0; 7]). cbv zeta.
  assert (wired 0 h l bs) as Hw by (apply (wired_cons 0 h (UintAttr (AttrHdr 36 4) 7) [] [] []); constructor).
  split; [exact Hw|]. split; [reflexivity|].
  eapply eq_trans; [apply (stun_unknown_attribute (fun _ => []) 0 0 h l bs 0x7000 0 [] 12 32 1 true (false, false))|reflexivity].
  - split_and!; [by vm_compute..|apply Forall_replicate; by vm_compute|done].
  - by vm_compute.
  - apply Forall_cons_2; [|constructor]. split; by vm_compute.
  - exact Hw.
  - by vm_compute.
  - reflexivity.
  - by vm_compute.
  - reflexivity.
  - by vm_compute.
  - by vm_compute.
  - by vm_compute.
  - done.
  - by vm_compute.
Defined.

(** C23: A packet with a fingerprint that is taken for a message, received again with a
    change within four consecutive bytes before the fingerprint, is refused,
    unless the change takes away the magic cookie: without that no fingerprint
    is looked for. *)
Theorem stun_fingerprint_detects addr addr' pre a b post f n options :
  is_bytes pre -> is_bytes a -> is_bytes b -> is_bytes post -> is_fingerprint f ->
  length a = length b -> (length a <= 4)%nat -> a <> b ->
  n = zlen (pre ++ a ++ post) + 8 ->
  truth (Z.land options PJ_STUN_IS_DATAGRAM) = true ->
  truth (Z.land options PJ_STUN_NO_FINGERPRINT_CHECK) = false ->
  GETVAL32H ((pre ++ a ++ post) ++ f) 4 = Done PJ_STUN_MAGIC ->
  GETVAL32H ((pre ++ b ++ post) ++ f) 4 = Done PJ_STUN_MAGIC ->
  pj_stun_msg_check addr ((pre ++ a ++ post) ++ f) n options = Done PJ_SUCCESS ->
  exists status, pj_stun_msg_check addr' ((pre ++ b ++ post) ++ f) n options = Done status /\ status <> PJ_SUCCESS.
Proof.
  intros Hpre Ha Hb Hpost (Hf & H8 & Et) Hl H4 Hab Hn Hdg Hno Ema Emb Ec.
  assert (forall x, is_bytes x -> is_bytes (pre ++ x ++ post)) as Hx by (intros x Hx; repeat apply Forall_app_2; done).
  destruct (check_fingerprint addr (pre ++ a ++ post) f n options) as (v & Ev & Ha'); try by auto.
  destruct (check_fingerprint addr' (pre ++ b ++ post) f n options) as (v' & Ev' & Hb'); try by auto.
  { rewrite Hn, !zlen_app. unfold zlen. lia. }
  rewrite Ev in Ev'. injection Ev' as <-.
  destruct Ha' as [(st & Hst & E)|E]; [congruence|]. rewrite Ec in E.
  destruct (_ =? v) eqn:Eva; [|discriminate]. apply Z.eqb_eq in Eva.
  destruct Hb' as [(st & Hst & E')|E']; [by exists st|]. rewrite E'. clear E'.
  destruct (Z.eqb_spec (Z.lxor (pj_crc32_calc addr' (pre ++ b ++ post)) STUN_XOR_FINGERPRINT) v) as [Evb|_].
  2: { exists PJNATH_ESTUNFINGERPRINT. done. }
  exfalso.
  apply (crc32_detects_burst addr addr' pre a b post); [done..|].
  rewrite <- Eva in Evb. apply (f_equal (fun x => Z.lxor x STUN_XOR_FINGERPRINT)) in Evb.
  by rewrite !lxor_cancel in Evb.
Qed.

Lemma stun_fingerprint_detects_witness :
  let pdu b := ([0; 1; 0; 8; 0x21; 0x12; 0xA4; 0x42] ++ [b] ++ replicate 11 7) ++ [0x80; 0x28; 0; 4; 64; 78; 133; 45] in
  pj_stun_msg_check 0 (pdu 7) 28 1 = Done PJ_SUCCESS /\
  exists status, pj_stun_msg_check 3 (pdu 9) 28 1 = Done status /\ status <> PJ_SUCCESS.
Proof.
  assert (is_bytes [0; 1; 0; 8; 0x21; 0x12; 0xA4; 0x42] /\ is_bytes (replicate 11 7) /\
    is_bytes [0x80; 0x28; 0; 4; 64; 78; 133; 45] /\ is_bytes [7] /\ is_bytes [9]) as (B1 & B2 & B3 & B4 & B5).
  { split_and!; try apply Forall_replicate; repeat first [apply Forall_cons_2; [by vm_compute|]|apply Forall_nil_2].
    by vm_compute. }
  assert (pj_stun_msg_check 0 (([0; 1; 0; 8; 0x21; 0x12; 0xA4; 0x42] ++ [7] ++ replicate 11 7) ++
    [0x80; 0x28; 0; 4; 64; 78; 133; 45]) 28 1 = Done PJ_SUCCESS) as E by (vm_compute; reflexivity).
  split; [exact E|].
  apply (stun_fingerprint_detects 0 3 [0; 1; 0; 8; 0x21; 0x12; 0xA4; 0x42] [7] [9] (replicate 11 7)
    [0x80; 0x28; 0; 4; 64; 78; 133; 45] 28 1).
  - exact B1.
  - exact B4.
  - exact B5.
  - exact B2.
  - split; [exact B3|split; reflexivity].
  - reflexivity.
  - clear; cbn; lia.
  - clear; discriminate.
  - reflexivity.
  - reflexivity.
  - reflexivity.
  - reflexivity.
  - reflexivity.
  - exact E.
Defined.
