(* ===== verification/StunAuth.v ===== *)
(** * STUN authentication (pjnath/src/pjnath/stun_auth.c, stun_auth.h)

    The keys made of credentials, the checks of requests and responses against
    them, and the challenges to requests that fail.  The callbacks of a dynamic
    credential are functions of their arguments. *)

From Stdlib Require Import Strings.String.
From stdpp Require Import list.
From S2P Require Import Prelude Mem PjString Crc32 Sha1 Md5 StunMsg StunWire StunMsgProps StunDecode.
Set Warnings "-clear-no-such-hyp".

(** ** Credentials *)

Inductive pj_stun_passwd_type := PJ_STUN_PASSWD_PLAIN | PJ_STUN_PASSWD_HASHED.

Record static_cred := StaticCred {
  sc_realm : list Z; sc_username : list Z; sc_data_type : pj_stun_passwd_type; sc_data : list Z;
  sc_nonce : list Z }.

(** [get_auth] gives a status, the realm and the nonce; [get_password] a status, the
    type of the password and the password.  A string that may be null is an
    option. *)
Record dyn_cred := DynCred {
  get_auth : pj_status * list Z * list Z;
  get_password : pj_stun_msg -> option (list Z) -> list Z -> pj_status * pj_stun_passwd_type * list Z;
  verify_nonce : option (pj_stun_msg -> option (list Z) -> list Z -> list Z -> bool) }.

Inductive pj_stun_auth_cred :=
  | PJ_STUN_AUTH_CRED_STATIC (cred : static_cred)
  | PJ_STUN_AUTH_CRED_DYNAMIC (cred : dyn_cred).

Record pj_stun_req_cred_info := CredInfo {
  ci_realm : list Z; ci_username : list Z; ci_nonce : list Z; ci_auth_key : list Z }.
#[export] Instance eta_cred_info : Eta pj_stun_req_cred_info := fun r =>
  CredInfo (ci_realm r) (ci_username r) (ci_nonce r) (ci_auth_key r).

Definition pj_stun_auth_cred_dup (src : pj_stun_auth_cred) : pj_stun_auth_cred :=
  match src with
  | PJ_STUN_AUTH_CRED_STATIC c =>
      PJ_STUN_AUTH_CRED_STATIC (StaticCred (sc_realm c) (sc_username c) (sc_data_type c) (sc_data c) (sc_nonce c))
  | PJ_STUN_AUTH_CRED_DYNAMIC c => PJ_STUN_AUTH_CRED_DYNAMIC c
  end.

Definition pj_stun_req_cred_info_dup (src : pj_stun_req_cred_info) : pj_stun_req_cred_info :=
  CredInfo (ci_realm src) (ci_username src) (ci_nonce src) (ci_auth_key src).

(** ** Keys *)

(** [REMOVE_QUOTE]: one quotation mark before and one behind. *)
Definition remove_quote (s : list Z) : list Z :=
  let s := match s with c :: t => if c =? 34 then t else s | [] => s end in
  match last s with
  | Some c => if c =? 34 then take (length s - 1) s else s
  | None => s
  end.

(** [stack] is what the memory of the context holds. *)
Definition calc_md5_key (stack realm username passwd : list Z) : list Z :=
  let ctx := pj_md5_init stack in
  let ctx := pj_md5_update ctx (remove_quote username) in
  let ctx := pj_md5_update ctx [58] in
  let ctx := pj_md5_update ctx (remove_quote realm) in
  let ctx := pj_md5_update ctx [58] in
  let ctx := pj_md5_update ctx passwd in
  (pj_md5_final ctx).2.

Definition pj_stun_create_key (stack : list Z) (realm : option (list Z)) (username : list Z)
    (data_type : pj_stun_passwd_type) (data : list Z) : list Z :=
  match realm with
  | Some realm =>
      if truth (zlen realm) then
        match data_type with
        | PJ_STUN_PASSWD_PLAIN => calc_md5_key stack realm username data
        | PJ_STUN_PASSWD_HASHED => data
        end
      else data
  | None => data
  end.

(** ** The hash of a message *)

(** The fields of an attribute of the type that it is found by; of another
    structure they are read as empty. *)
Definition str_value (a : pj_stun_attr) : list Z := match a with StringAttr _ v => v | _ => [] end.
Definition msgint_hmac (a : pj_stun_attr) : list Z := match a with MsgintAttr _ h => h | _ => [] end.
Definition errcode_of (a : pj_stun_attr) : Z := match a with ErrcodeAttr _ c _ => c | _ => 0 end.

(** MESSAGE-INTEGRITY, its place behind the header, and whether an attribute
    follows it. *)
Fixpoint scan_msgint (l : list pj_stun_attr) (amsgi : option pj_stun_attr) (pos : Z) :
    option pj_stun_attr * Z * bool :=
  match l with
  | [] => (amsgi, pos, false)
  | a :: l =>
      if attr_type a =? PJ_STUN_ATTR_MESSAGE_INTEGRITY then scan_msgint l (Some a) pos
      else match amsgi with
           | Some _ => (amsgi, pos, true)
           | None => scan_msgint l None (u32 (pos + (align4 (attr_length a) + 4)))
           end
  end.

Definition PUT_VAL16 (buf : list Z) (hval : Z) : list Z := take 2 buf ++ PUTVAL16H hval ++ drop 4 buf.

(** The header, with the length that it had when the hash was made, and the
    attributes before MESSAGE-INTEGRITY. *)
Definition message_digest (stack key pkt : list Z) (amsgi_pos : Z) (has_attr_beyond_mi : bool) :
    outcome (list Z) :=
  let ctx := pj_hmac_sha1_init stack key in
  hdr ← copy_from pkt 0 20;
  let ctx := pj_hmac_sha1_update ctx
    (if has_attr_beyond_mi then PUT_VAL16 hdr (u16 (amsgi_pos + 24)) else hdr) in
  body ← copy_from pkt 20 amsgi_pos;
  let ctx := pj_hmac_sha1_update ctx body in
  Done (pj_hmac_sha1_final ctx).

(** ** Requests *)

(** The status, and [*p_response]. *)
Definition create_challenge (msg : pj_stun_msg) (err_code : Z) (errstr : option (list Z))
    (realm nonce : list Z) : outcome (pj_status + pj_stun_msg) :=
  r ← pj_stun_msg_create_response msg err_code errstr;
  match r with
  | inl rc => Done (inl rc)
  | inr response =>
      let '(rc, response, nonce) :=
        if negb (err_code =? 400) && truth (zlen realm) then
          let '(rc, response) := pj_stun_msg_add_string_attr response PJ_STUN_ATTR_REALM realm in
          (rc, response, if zlen nonce =? 0 then pj_str "pjstun"%string else nonce)
        else (PJ_SUCCESS, response, nonce) in
      if decide (rc <> PJ_SUCCESS) then Done (inl rc)
      else if negb (err_code =? 400) && truth (zlen nonce) then
        let '(rc, response) := pj_stun_msg_add_string_attr response PJ_STUN_ATTR_NONCE nonce in
        Done (if decide (rc <> PJ_SUCCESS) then inl rc else inr response)
      else Done (inr response)
  end.

(** The status, [*p_info] and [*p_response]. *)
Definition authenticated : Type := pj_status * pj_stun_req_cred_info * option pj_stun_msg.

(** [on_auth_failed] *)
Definition on_auth_failed (want : bool) (msg : pj_stun_msg) (info : pj_stun_req_cred_info) (err_code : Z)
    (err_text : option (list Z)) : outcome authenticated :=
  let status := PJ_STATUS_FROM_STUN_CODE err_code in
  if want then
    r ← create_challenge msg err_code err_text (ci_realm info) (ci_nonce info);
    Done (status, info, match r with inr response => Some response | inl _ => None end)
  else Done (status, info, None).

Definition text (s : string) : option (list Z) := Some (pj_str s).

(** The name of the user: the error code, or the name and the key. *)
Definition check_user (stack : list Z) (msg : pj_stun_msg) (cred : pj_stun_auth_cred)
    (info : pj_stun_req_cred_info) (arealm : option (list Z)) (auser : list Z) :
    Z + (list Z * list Z) :=
  match cred with
  | PJ_STUN_AUTH_CRED_STATIC c =>
      if pj_strcmp auser (sc_username c) =? 0 then
        inr (sc_username c,
             pj_stun_create_key stack (Some (ci_realm info)) auser (sc_data_type c) (sc_data c))
      else inl PJ_STUN_SC_UNAUTHORIZED
  | PJ_STUN_AUTH_CRED_DYNAMIC c =>
      let '(rc, data_type, password) := get_password c msg arealm auser in
      if decide (rc = PJ_SUCCESS)
      then inr (auser, pj_stun_create_key stack arealm auser data_type password)
      else inl PJ_STUN_SC_UNAUTHORIZED
  end.

(** The requirements of long and short term credentials: an error, or nothing. *)
Definition check_terms (info : pj_stun_req_cred_info) (arealm anonce : option (list Z)) :
    option (Z * option (list Z)) :=
  match arealm with
  | None =>
      if truth (zlen (ci_realm info)) then Some (PJ_STUN_SC_BAD_REQUEST, text "Missing REALM")
      else if truth (zlen (ci_nonce info)) then Some (PJ_STUN_SC_UNAUTHORIZED, text "NONCE required")
      else None
  | Some realm =>
      if truth (zlen (ci_realm info)) then
        if bool_decide (anonce = None) && truth (zlen (ci_nonce info))
        then Some (PJ_STUN_SC_BAD_REQUEST, text "Missing NONCE")
        else if truth (pj_stricmp realm (ci_realm info))
        then Some (PJ_STUN_SC_UNAUTHORIZED, text "Invalid REALM")
        else None
      else None
  end.

Definition check_nonce (msg : pj_stun_msg) (cred : pj_stun_auth_cred) (info : pj_stun_req_cred_info)
    (arealm : option (list Z)) (auser : list Z) (anonce : option (list Z)) : bool :=
  match anonce with
  | None => true
  | Some nonce =>
      match cred with
      | PJ_STUN_AUTH_CRED_DYNAMIC c =>
          match verify_nonce c with Some verify => verify msg arealm auser nonce | None => true end
      | PJ_STUN_AUTH_CRED_STATIC _ =>
          if truth (zlen (ci_nonce info)) then pj_strcmp nonce (ci_nonce info) =? 0 else true
      end
  end.

(** The realm and the nonce of a credential, or an error. *)
Definition cred_auth (cred : pj_stun_auth_cred) : pj_status * list Z * list Z :=
  match cred with
  | PJ_STUN_AUTH_CRED_STATIC c => (PJ_SUCCESS, sc_realm c, sc_nonce c)
  | PJ_STUN_AUTH_CRED_DYNAMIC c => get_auth c
  end.

(** [hstack] and [stack] are what the memory of the two hash contexts holds;
    [want_response]: [p_response] is not null. *)
Definition pj_stun_authenticate_request (stack hstack pkt : list Z) (pkt_len : Z) (msg : pj_stun_msg)
    (cred : pj_stun_auth_cred) (want_response : bool) : outcome authenticated :=
  if pkt_len =? 0 then Done (PJ_EINVAL, CredInfo [] [] [] [], None)
  else
    let want := want_response && PJ_STUN_IS_REQUEST (msg_type msg) in
    let '(status, realm, nonce) := cred_auth cred in
    let info := CredInfo realm [] nonce [] in
    if decide (status <> PJ_SUCCESS) then Done (status, info, None)
    else
      let '(amsgi, amsgi_pos, has_attr_beyond_mi) := scan_msgint (attrs msg) None 0 in
      match amsgi with
      | None =>
          on_auth_failed want msg info
            (if truth (zlen realm) then PJ_STUN_SC_UNAUTHORIZED else PJ_STUN_SC_BAD_REQUEST) None
      | Some amsgi =>
          match pj_stun_msg_find_attr msg PJ_STUN_ATTR_USERNAME 0 with
          | None => on_auth_failed want msg info PJ_STUN_SC_BAD_REQUEST (text "Missing USERNAME")
          | Some auser =>
              let auser := str_value auser in
              let arealm := str_value <$> pj_stun_msg_find_attr msg PJ_STUN_ATTR_REALM 0 in
              if truth (zlen realm) && bool_decide (arealm = None)
              then on_auth_failed want msg info PJ_STUN_SC_BAD_REQUEST (text "Missing REALM")
              else
                match check_user stack msg cred info arealm auser with
                | inl err_code => on_auth_failed want msg info err_code None
                | inr (username, key) =>
                    let info := info <| ci_username := username |> <| ci_auth_key := key |> in
                    let anonce := str_value <$> pj_stun_msg_find_attr msg PJ_STUN_ATTR_NONCE 0 in
                    match check_terms info arealm anonce with
                    | Some (err_code, err_text) => on_auth_failed want msg info err_code err_text
                    | None =>
                        if negb (check_nonce msg cred info arealm auser anonce)
                        then on_auth_failed want msg info PJ_STUN_SC_STALE_NONCE None
                        else
                          digest ← message_digest hstack key pkt amsgi_pos has_attr_beyond_mi;
                          if truth (memcmp 20 (msgint_hmac amsgi) digest)
                          then on_auth_failed want msg info PJ_STUN_SC_UNAUTHORIZED
                                 (text "MESSAGE-INTEGRITY mismatch")
                          else Done (PJ_SUCCESS, info, None)
                    end
                end
          end
      end.

(** ** Responses *)

Definition pj_stun_auth_valid_for_msg (msg : pj_stun_msg) : bool :=
  if negb (PJ_STUN_IS_ERROR_RESPONSE (msg_type msg)) && negb (PJ_STUN_IS_INDICATION (msg_type msg))
  then true
  else if PJ_STUN_IS_INDICATION (msg_type msg) then false
  else
    match pj_stun_msg_find_attr msg PJ_STUN_ATTR_ERROR_CODE 0 with
    | None => true
    | Some err_attr =>
        let code := errcode_of err_attr in
        negb ((code =? PJ_STUN_SC_BAD_REQUEST) || (code =? PJ_STUN_SC_UNAUTHORIZED) ||
              (code =? PJ_STUN_SC_STALE_NONCE) || (code =? PJ_STUN_SC_UNKNOWN_ATTRIBUTE))
    end.

Definition pj_stun_authenticate_response (hstack pkt : list Z) (pkt_len : Z) (msg : pj_stun_msg)
    (key : list Z) : outcome pj_status :=
  if pkt_len =? 0 then Done PJ_EINVAL
  else
    match pj_stun_msg_find_attr msg PJ_STUN_ATTR_MESSAGE_INTEGRITY 0 with
    | None => Done (PJ_STATUS_FROM_STUN_CODE PJ_STUN_SC_UNAUTHORIZED)
    | Some _ =>
        if h_length (msg_hdr msg) <? 24 then Done PJNATH_EINSTUNMSGLEN
        else
          let '(amsgi, amsgi_pos, has_attr_beyond_mi) := scan_msgint (attrs msg) None 0 in
          match amsgi with
          | None => Done (PJ_STATUS_FROM_STUN_CODE PJ_STUN_SC_BAD_REQUEST)
          | Some amsgi =>
              digest ← message_digest hstack key pkt amsgi_pos has_attr_beyond_mi;
              Done (if truth (memcmp 20 (msgint_hmac amsgi) digest)
                    then PJ_STATUS_FROM_STUN_CODE PJ_STUN_SC_UNAUTHORIZED else PJ_SUCCESS)
          end
    end.

#[local] Opaque pj_hmac_sha1 pj_crc32_calc MD5Transform.

(** ** Keys are bytes *)

Lemma md5_digest_bytes v : is_bytes (md5_digest v) /\ zlen (md5_digest v) = 16.
Proof.
  destruct v as [[[a b] c] d]. split; [|done]. unfold md5_digest.
  repeat apply Forall_app_2; apply st32_bytes.
Qed.

Lemma md5_final_bytes c : is_bytes (pj_md5_final c).2 /\ zlen (pj_md5_final c).2 = 16.
Proof.
  assert (exists v, (pj_md5_final c).2 = md5_digest v) as [v ->]; [|apply md5_digest_bytes].
  unfold pj_md5_final. destruct (if (_ <? 8)%nat then _ else _). by eexists.
Qed.

#[local] Opaque pj_md5_init pj_md5_update pj_md5_final.

Lemma create_key_bytes stack realm username ty data : is_bytes data -> zlen data < 536870912 ->
  is_bytes (pj_stun_create_key stack realm username ty data) /\
  zlen (pj_stun_create_key stack realm username ty data) < 536870912.
Proof.
  intros Hb Hl. unfold pj_stun_create_key. destruct realm as [r|]; [|done].
  destruct (truth _); [|done]. destruct ty; [|done]. unfold calc_md5_key.
  set (c := pj_md5_update _ data). destruct (md5_final_bytes c) as [H1 H2].
  split; [exact H1|]. rewrite H2. lia.
Qed.

(** The key of a long term credential is the one of RFC 5389. *)
Lemma long_term_key stack realm username passwd : length stack = 64%nat -> realm <> [] ->
  zlen username < 4294967296 -> zlen realm < 4294967296 -> zlen passwd < 4294967296 ->
  pj_stun_create_key stack (Some realm) username PJ_STUN_PASSWD_PLAIN passwd =
  Rfc1321.md5 (remove_quote username ++ [58] ++ remove_quote realm ++ [58] ++ passwd).
Proof.
  intros Hst Hr Hu Hrl Hp. unfold pj_stun_create_key.
  assert (truth (zlen realm) = true) as -> by (unfold truth; destruct (Z.eqb_spec (zlen realm) 0) as [E|]; [by apply zlen_0 in E|done]).
  assert (forall s, zlen (remove_quote s) <= zlen s) as Hq.
  { intros s. unfold remove_quote. assert (forall t, zlen (match last t with Some c => if c =? 34 then take (length t - 1) t else t | None => t end) <= zlen t) as H.
    { intros t. destruct (last t) as [c|]; [|done]. destruct (c =? 34); [|done]. unfold zlen. rewrite length_take. lia. }
    destruct s as [|c t]; [apply H|]. etrans; [apply H|]. destruct (c =? 34); [rewrite zlen_cons; lia|done]. }
  pose proof (Hq username). pose proof (Hq realm).
  unfold calc_md5_key.
  pose proof (md5_chunks_absorbed [remove_quote username; [58]; remove_quote realm; [58]; passwd] _ []
    (md5_absorbed_init stack Hst)) as Ha. cbn [fold_left concat app] in Ha. rewrite app_nil_r in Ha.
  apply md5_final_spec, Ha. repeat first [apply Forall_cons_2; [first [lia|done]|]|apply Forall_nil_2].
Qed.

(** ** What the hash covers *)

(** The header and the bytes behind it up to MESSAGE-INTEGRITY. *)
Definition covered (pkt : list Z) (amsgi_pos : Z) (has_attr_beyond_mi : bool) : list Z :=
  (if has_attr_beyond_mi then PUT_VAL16 (take 20 pkt) (u16 (amsgi_pos + 24)) else take 20 pkt)
    ++ take (Z.to_nat amsgi_pos) (drop 20 pkt).

Lemma put_val16_bytes hdr v : is_bytes hdr -> is_bytes (PUT_VAL16 hdr v).
Proof. intros Hb. unfold PUT_VAL16. repeat apply Forall_app_2; [by apply Forall_take|apply put16_bytes|by apply Forall_drop]. Qed.

Lemma message_digest_spec stack key pkt pos beyond : length stack = 64%nat -> is_bytes key ->
  zlen key < 536870912 -> is_bytes pkt -> 0 <= pos < 536870912 -> 20 + pos <= zlen pkt ->
  message_digest stack key pkt pos beyond = Done (hmac_spec Fips.sha1 key (covered pkt pos beyond)).
Proof.
  intros Hst Hk Hkl Hp Hpos Hl. unfold message_digest, copy_from.
  replace ((0 <=? 20) && (0 <=? 0) && (0 + 20 <=? zlen pkt)) with true by lia.
  replace ((0 <=? pos) && (0 <=? 20) && (20 + pos <=? zlen pkt)) with true by lia.
  cbn [mbind outcome_bind]. change (drop (Z.to_nat 0) pkt) with pkt. change (Z.to_nat 20) with 20%nat. f_equal.
  set (hdr := if beyond then _ else _). set (body := take (Z.to_nat pos) (drop 20 pkt)).
  assert (is_bytes hdr) as Hh by (unfold hdr; destruct beyond; [apply put_val16_bytes|]; by apply Forall_take).
  pose proof (hmac_chunks stack key [hdr; body] Hst Hk Hkl) as E. cbn [fold_left concat] in E. rewrite app_nil_r in E.
  apply E. apply Forall_cons_2; [split; [done|]|apply Forall_cons_2; [split|apply Forall_nil_2]].
  - unfold hdr, PUT_VAL16, zlen. destruct beyond; rewrite ?length_app, ?length_drop, ?length_take;
      change (length (PUTVAL16H _)) with 2%nat; lia.
  - by apply Forall_take, Forall_drop.
  - unfold body, zlen. rewrite length_take. lia.
Qed.

(** ** Where MESSAGE-INTEGRITY is *)

Definition is_mi (a : pj_stun_attr) : Prop := attr_type a = PJ_STUN_ATTR_MESSAGE_INTEGRITY.

(** The size of attributes, as the scan counts it. *)
Definition attrs_size (pos : Z) (l : list pj_stun_attr) : Z :=
  fold_left (fun pos a => u32 (pos + (align4 (attr_length a) + 4))) l pos.

(** The attributes [before] the first MESSAGE-INTEGRITY, the last [mi] of those that
    follow without a gap, and what comes [after].  The decoder accepts but one. *)
Record integrity_at (l before : list pj_stun_attr) (mi : pj_stun_attr) (after : list pj_stun_attr) : Prop := {
  ia_split : exists run, l = before ++ run ++ mi :: after /\ Forall is_mi run;
  ia_mi : is_mi mi;
  ia_before : Forall (fun a => ~ is_mi a) before;
  ia_after : match after with a :: _ => ~ is_mi a | [] => True end
}.

Lemma scan_run run after : forall mi pos, Forall is_mi run ->
  match after with a :: _ => ~ is_mi a | [] => True end ->
  scan_msgint (run ++ after) (Some mi) pos = (Some (List.last run mi), pos, negb (bool_decide (after = []))).
Proof.
  induction run as [|a run IH]; intros mi pos Hr Ha; cbn [app].
  - destruct after as [|b after]; [done|]. cbn [scan_msgint]. by rewrite (proj2 (Z.eqb_neq _ _) Ha).
  - apply Forall_cons in Hr as [H Hr]. cbn [scan_msgint]. unfold is_mi in H. rewrite H, Z.eqb_refl, IH by done.
    do 2 f_equal. f_equal. clear. destruct run as [|b run]; [done|]. revert b. induction run as [|c run IH]; intros b; [done|]. exact (IH c).
Qed.

Lemma scan_before before rest : forall pos, Forall (fun a => ~ is_mi a) before ->
  scan_msgint (before ++ rest) None pos = scan_msgint rest None (attrs_size pos before).
Proof.
  induction before as [|a before IH]; intros pos Hb; [done|]. apply Forall_cons in Hb as [H Hb].
  cbn [app scan_msgint attrs_size fold_left]. rewrite (proj2 (Z.eqb_neq _ _) H). by apply IH.
Qed.

Lemma scan_integrity l before mi after : integrity_at l before mi after ->
  scan_msgint l None 0 = (Some mi, attrs_size 0 before, negb (bool_decide (after = []))).
Proof.
  intros [(run & -> & Hr) Hm Hb Ha]. rewrite scan_before by done.
  replace (run ++ mi :: after) with ((run ++ [mi]) ++ after) by (by rewrite <- app_assoc).
  destruct run as [|a run]; cbn [app scan_msgint].
  - unfold is_mi in Hm. rewrite Hm, Z.eqb_refl. by rewrite (scan_run [] after).
  - apply Forall_cons in Hr as [H Hr]. unfold is_mi in H. rewrite H, Z.eqb_refl, scan_run by (try apply Forall_app_2; auto).
    do 2 f_equal. f_equal. clear. induction run as [|b run IH]; [done|]. cbn [app List.last]. rewrite IH. by destruct run.
Qed.

Lemma integrity_dec l : Forall (fun a => ~ is_mi a) l \/ exists before mi after, integrity_at l before mi after.
Proof.
  induction l as [|x l IH]; [by left|]. destruct (decide (is_mi x)) as [Hx|Hx]; [right|].
  - destruct l as [|y l]; [by exists [], x, []; split; [exists []|..]|].
    destruct (decide (is_mi y)) as [Hy|Hy]; [|by exists [], x, (y :: l); split; [exists []|..]].
    destruct IH as [IH|(before & mi & after & [(run & E & Hr) Hm Hb Ha])]; [by apply Forall_cons in IH as [? _]|].
    destruct before as [|z before]; [|injection E as -> _; by apply Forall_cons in Hb as [? _]].
    exists [], mi, after. split; [|done..]. exists (x :: run). split; [by rewrite E|by constructor].
  - destruct IH as [IH|(before & mi & after & [(run & -> & Hr) Hm Hb Ha])]; [left; by constructor|right].
    exists (x :: before), mi, after. split; [by exists run|done|by constructor|done].
Qed.

Lemma scan_none l : Forall (fun a => ~ is_mi a) l -> exists pos, scan_msgint l None 0 = (None, pos, false).
Proof. intros Hl. rewrite <- (app_nil_r l), scan_before by done. by eexists. Qed.

Lemma scan_found l mi pos beyond : scan_msgint l None 0 = (Some mi, pos, beyond) ->
  exists before after, integrity_at l before mi after /\ pos = attrs_size 0 before /\
    beyond = negb (bool_decide (after = [])).
Proof.
  intros E. destruct (integrity_dec l) as [Hn|(before & mi' & after & Hi)].
  - destruct (scan_none l Hn) as [? E']. rewrite E in E'. done.
  - rewrite (scan_integrity _ _ _ _ Hi) in E. injection E as -> <- <-. by exists before, after.
Qed.

(** ** Which requests are accepted *)

Definition attr_text (msg : pj_stun_msg) (type : Z) : option (list Z) :=
  str_value <$> pj_stun_msg_find_attr msg type 0.

(** A request that shows the name of a credential, and its realm, in any case, and its
    nonce, where it has them. *)
Record credentials_shown (c : static_cred) (msg : pj_stun_msg) : Prop := {
  cs_user : attr_text msg PJ_STUN_ATTR_USERNAME = Some (sc_username c);
  cs_realm : sc_realm c <> [] -> exists realm, attr_text msg PJ_STUN_ATTR_REALM = Some realm /\
    pj_stricmp realm (sc_realm c) = 0;
  cs_nonce : sc_nonce c <> [] -> attr_text msg PJ_STUN_ATTR_NONCE = Some (sc_nonce c)
}.

(** A credential whose nonce, if it has one, comes with a realm. *)
Definition nonce_has_realm (c : static_cred) : Prop := sc_realm c = [] -> sc_nonce c = [].

(** What the code asks of a request.  It differs from [credentials_shown] for a
    credential with a nonce and no realm only. *)
Record terms_met (c : static_cred) (msg : pj_stun_msg) : Prop := {
  tm_user : attr_text msg PJ_STUN_ATTR_USERNAME = Some (sc_username c);
  tm_long : sc_realm c <> [] -> exists realm, attr_text msg PJ_STUN_ATTR_REALM = Some realm /\
    pj_stricmp realm (sc_realm c) = 0 /\
    (sc_nonce c <> [] -> attr_text msg PJ_STUN_ATTR_NONCE = Some (sc_nonce c));
  tm_short : sc_realm c = [] -> attr_text msg PJ_STUN_ATTR_REALM = None -> sc_nonce c = [];
  tm_nonce : forall nonce, attr_text msg PJ_STUN_ATTR_NONCE = Some nonce -> sc_nonce c <> [] -> nonce = sc_nonce c
}.

Lemma shown_terms c msg : nonce_has_realm c -> credentials_shown c msg <-> terms_met c msg.
Proof.
  intros Hn. split.
  - intros [Hu Hr Hno]. split; [done| |by intros ? _; apply Hn|].
    + intros H. destruct (Hr H) as (realm & ? & ?). by exists realm.
    + intros nonce E H. specialize (Hno H). congruence.
  - intros [Hu Hl _ _]. split; [done| |].
    + intros H. destruct (Hl H) as (realm & ? & ? & _). by exists realm.
    + intros H. assert (sc_realm c <> []) as H' by (intros E; by apply H, Hn).
      destruct (Hl H') as (realm & _ & _ & Hno). by apply Hno.
Qed.

(** The hash in the message is the one of what it covers, under the key. *)
Definition integrity_holds (key pkt : list Z) (msg : pj_stun_msg) : Prop :=
  exists before mi after, integrity_at (attrs msg) before mi after /\
    0 <= attrs_size 0 before /\ 20 + attrs_size 0 before <= zlen pkt /\
    msgint_hmac mi = hmac_spec Fips.sha1 key
      (covered pkt (attrs_size 0 before) (negb (bool_decide (after = [])))).

Definition cred_key (stack : list Z) (c : static_cred) : list Z :=
  pj_stun_create_key stack (Some (sc_realm c)) (sc_username c) (sc_data_type c) (sc_data c).

Lemma truth_zlen {A} (l : list A) : truth (zlen l) = match l with [] => false | _ => true end.
Proof. by destruct l. Qed.

Lemma check_terms_spec info arealm anonce : check_terms info arealm anonce = None <->
  (ci_realm info <> [] -> exists realm, arealm = Some realm /\ pj_stricmp realm (ci_realm info) = 0 /\
    (ci_nonce info <> [] -> anonce <> None)) /\
  (ci_realm info = [] -> arealm = None -> ci_nonce info = []).
Proof.
  unfold check_terms. rewrite !truth_zlen. unfold truth.
  destruct arealm as [realm|].
  - destruct (ci_realm info) as [|r rs]; [naive_solver|].
    destruct anonce as [nonce|], (ci_nonce info) as [|n ns]; cbn [bool_decide andb];
      try (case_bool_decide; [done|]); cbn [andb];
      (destruct (Z.eqb_spec (pj_stricmp realm (r :: rs)) 0); cbn [negb]; naive_solver).
  - destruct (ci_realm info) as [|r rs], (ci_nonce info) as [|n ns]; naive_solver.
Qed.

Lemma check_nonce_spec msg c info arealm auser anonce :
  check_nonce msg (PJ_STUN_AUTH_CRED_STATIC c) info arealm auser anonce = true <->
  forall nonce, anonce = Some nonce -> ci_nonce info <> [] -> nonce = ci_nonce info.
Proof.
  unfold check_nonce. destruct anonce as [nonce|]; [|done]. rewrite truth_zlen, strcmp_eqb.
  destruct (ci_nonce info); [naive_solver|]. rewrite bool_decide_eq_true. naive_solver.
Qed.

Lemma sha1_length m : zlen (Fips.sha1 m) = 20.
Proof. unfold Fips.sha1, zlen. by rewrite (proj1 (digest_length _)). Qed.

Lemma hmac_spec_length key m : zlen (hmac_spec Fips.sha1 key m) = 20.
Proof. apply sha1_length. Qed.

Lemma mi_got_length a : attr_got a -> is_mi a -> length (msgint_hmac a) = 20%nat.
Proof.
  intros Ha Hm. assert (attr_ok a \/ a_type (attr_hdr a) = PJ_STUN_ATTR_ERROR_CODE) as [[_ Hk]|E].
  - destruct a; cbn in Ha |- *; tauto.
  - unfold is_mi in Hm. rewrite Hm in Hk. cbn in Hk. destruct a; try done. destruct Hk as (_ & _ & Hl).
    unfold zlen in Hl. cbn. lia.
  - unfold is_mi, attr_type in Hm. rewrite Hm in E. done.
Qed.

Lemma digest_compare a d : length a = 20%nat -> zlen d = 20 -> truth (memcmp 20 a d) = negb (bool_decide (a = d)).
Proof.
  intros Ha Hd. assert (length d = 20%nat) as Hl by (unfold zlen in Hd; lia).
  pose proof (memcmp_eq a d ltac:(lia)) as H. rewrite Hl in H. unfold truth.
  destruct (Z.eqb_spec (memcmp 20 a d) 0); case_bool_decide; tauto.
Qed.

Lemma covered_digest stack key pkt pos beyond : length stack = 64%nat -> is_bytes key ->
  zlen key < 536870912 -> is_bytes pkt -> zlen pkt < 536870912 ->
  message_digest stack key pkt pos beyond =
  if (0 <=? pos) && (20 + pos <=? zlen pkt) then Done (hmac_spec Fips.sha1 key (covered pkt pos beyond)) else Overread.
Proof.
  intros Hst Hk Hkl Hp Hl. destruct ((0 <=? pos) && (20 + pos <=? zlen pkt)) eqn:E.
  - apply message_digest_spec; try done; lia.
  - unfold message_digest. set (ctx := pj_hmac_sha1_init stack key). clearbody ctx.
    assert (copy_from pkt 20 pos = Overread) as ->.
    { unfold copy_from. change (0 <=? 20) with true. rewrite andb_true_r. by rewrite E. }
    by destruct (copy_from pkt 0 20) eqn:E0; [..|unfold copy_from in E0; case_match].
Qed.

Lemma failed_status want msg info code err_text status info' response :
  on_auth_failed want msg info code err_text = Done (status, info', response) ->
  status = PJ_STATUS_FROM_STUN_CODE code.
Proof. unfold on_auth_failed. destruct want; [destruct (create_challenge _ _ _ _ _); [|done..]|]; by intros [= <- _ _]. Qed.

(** A request that shows its credential is decided by the hash alone. *)
Lemma shown_decided stack hstack pkt pkt_len msg c want : pkt_len <> 0 -> terms_met c msg ->
  pj_stun_authenticate_request stack hstack pkt pkt_len msg (PJ_STUN_AUTH_CRED_STATIC c) want =
  let info := CredInfo (sc_realm c) (sc_username c) (sc_nonce c) (cred_key stack c) in
  let want := want && PJ_STUN_IS_REQUEST (msg_type msg) in
  match scan_msgint (attrs msg) None 0 with
  | (None, _, _) => on_auth_failed want msg (CredInfo (sc_realm c) [] (sc_nonce c) [])
      (if truth (zlen (sc_realm c)) then PJ_STUN_SC_UNAUTHORIZED else PJ_STUN_SC_BAD_REQUEST) None
  | (Some mi, pos, beyond) =>
      digest ← message_digest hstack (cred_key stack c) pkt pos beyond;
      if truth (memcmp 20 (msgint_hmac mi) digest)
      then on_auth_failed want msg info PJ_STUN_SC_UNAUTHORIZED (text "MESSAGE-INTEGRITY mismatch")
      else Done (PJ_SUCCESS, info, None)
  end.
Proof.
  intros Hp [Hu Hlong Hshort Hn]. unfold pj_stun_authenticate_request, attr_text in *.
  replace (pkt_len =? 0) with false by lia. cbn [cred_auth]. rewrite decide_False by tauto.
  destruct (scan_msgint (attrs msg) None 0) as [[[mi|] pos] beyond]; [|done].
  destruct (pj_stun_msg_find_attr msg PJ_STUN_ATTR_USERNAME 0) as [u|]; [|done]. cbn in Hu. injection Hu as Hu.
  rewrite Hu. set (arealm := _ <$> pj_stun_msg_find_attr msg PJ_STUN_ATTR_REALM 0) in *.
  set (anonce := _ <$> pj_stun_msg_find_attr msg PJ_STUN_ATTR_NONCE 0) in *.
  assert (truth (zlen (sc_realm c)) && bool_decide (arealm = None) = false) as ->.
  { rewrite truth_zlen. destruct (sc_realm c) as [|r rs]; [done|].
    destruct (Hlong ltac:(done)) as (realm & -> & _). done. }
  unfold check_user. rewrite strcmp_eqb, bool_decide_true by done. fold (cred_key stack c).
  change (ci_realm (CredInfo _ _ _ _)) with (sc_realm c). fold (cred_key stack c).
  lazymatch goal with |- context [check_terms ?i _ _] => set (info := i) end.
  assert (check_terms info arealm anonce = None) as ->.
  { apply check_terms_spec. cbn. split; [|done]. intros H. destruct (Hlong H) as (realm & E & Er & Hno).
    exists realm. split_and!; [done..|]. intros H'. by rewrite (Hno H'). }
  rewrite (proj2 (check_nonce_spec msg c info arealm _ anonce)) by exact Hn. done.
Qed.

(** An accepted request shows its credential. *)
Lemma accepted_shown stack hstack pkt pkt_len msg c want info response :
  pj_stun_authenticate_request stack hstack pkt pkt_len msg (PJ_STUN_AUTH_CRED_STATIC c) want =
    Done (PJ_SUCCESS, info, response) -> pkt_len <> 0 /\ terms_met c msg.
Proof.
  unfold pj_stun_authenticate_request. intros E. destruct (Z.eqb_spec pkt_len 0) as [|Hp]; [done|]. split; [done|].
  cbn [cred_auth] in E. rewrite decide_False in E by tauto.
  destruct (scan_msgint (attrs msg) None 0) as [[[mi|] pos] beyond]; [|by apply failed_status in E].
  destruct (pj_stun_msg_find_attr msg PJ_STUN_ATTR_USERNAME 0) as [u|] eqn:Eu; [|by apply failed_status in E].
  set (arealm := _ <$> pj_stun_msg_find_attr msg PJ_STUN_ATTR_REALM 0) in *.
  set (anonce := _ <$> pj_stun_msg_find_attr msg PJ_STUN_ATTR_NONCE 0) in *.
  destruct (truth (zlen (sc_realm c)) && _); [by apply failed_status in E|].
  unfold check_user in E. rewrite strcmp_eqb in E. case_bool_decide as Hu; [|by apply failed_status in E].
  lazymatch type of E with context [check_terms ?i _ _] => set (i' := i) in E end.
  destruct (check_terms i' arealm anonce) as [[code err_text]|] eqn:Et; [apply failed_status in E|].
  { unfold check_terms in Et. repeat case_match; by simplify_eq. }
  apply check_terms_spec in Et as [Hlong Hshort]. cbn in Hlong, Hshort.
  destruct (check_nonce _ _ _ _ _ _) eqn:En; [|by apply failed_status in E].
  pose proof (proj1 (check_nonce_spec msg c i' arealm (str_value u) anonce) En) as Hn. cbn in Hn.
  split; unfold attr_text; fold arealm anonce; [by rewrite Eu; cbn; rewrite Hu| |exact Hshort|exact Hn].
  intros Hr. destruct (Hlong Hr) as (realm & Hsome & Hcmp & Hno). exists realm. split_and!; [done..|].
  intros Hne. destruct anonce as [n|]; [|by specialize (Hno Hne)]. by rewrite (Hn n eq_refl Hne).
Qed.

(** ** Messages on the wire *)

Lemma received_type pad h a : attr_type (received pad h a) = attr_type a.
Proof. by destruct a as [? ? []| | | | | | | |]. Qed.

(** The length field of an attribute that is received is the length of its value. *)
Lemma received_length pad h a : attr_ok a -> zlen (h_tsx_id h) = 12 ->
  attr_length (received pad h a) = zlen (attr_value pad h a).
Proof.
  intros [_ Ha] Hid. unfold attr_length.
  assert (exists kind, kind_ok kind a) as [kind Hk].
  { destruct (find_attr_desc (attr_type a)) as [[s k]|]; [by exists k|]. destruct Ha as [_ Ha]. exists K_binary.
    destruct a; try done. cbn. tauto. }
  destruct kind, a as [ah x [p d|p d|f]|ah|ah v|ah v|ah hi lo|ah m d|ah m|ah c r|ah l]; cbn in Hk; try tauto; try done;
    cbn [received attr_hdr a_length attr_value]; rewrite ?types_bytes_len; fixed_lengths; try done; try lia.
  - destruct Hk as (-> & _ & _ & Hl). lia.
  - destruct Hk as (-> & _ & _ & Hl). rewrite xor_ipv6_len by done. lia.
Qed.

Lemma attrs_size_received pad h l : Forall attr_ok l -> zlen (h_tsx_id h) = 12 ->
  forall pos, 0 <= pos -> pos + wires_size pad h l <= 65535 ->
  attrs_size pos (map (received pad h) l) = pos + wires_size pad h l.
Proof.
  intros Hl Hid. induction Hl as [|a l Ha Hl IH]; intros pos H0 Hs; [unfold wires_size; cbn; lia|].
  pose proof (wire_size_pos pad h a Ha Hid). pose proof (wires_size_nonneg pad h l Hl Hid).
  unfold wires_size in Hs |- *. cbn [fold_right] in *. fold (wires_size pad h l) in *.
  cbn [map attrs_size fold_left]. rewrite received_length by done. unfold wire_size in *.
  rewrite u32_small by (unfold is_u32; lia). fold (attrs_size (pos + (align4 (zlen (attr_value pad h a)) + 4)) (map (received pad h) l)).
  rewrite IH by lia. lia.
Qed.

(** The bytes that the hash of a message is made of. *)
Lemma covered_wire h bs m fp more : hdr_ok h -> 0 <= zlen bs <= 65503 ->
  covered (wire_message h bs (Some m) fp ++ more) (zlen bs) (bool_decide (is_Some fp)) = header h (zlen bs + 24) ++ bs.
Proof.
  intros Hh Hb. pose proof (fun n => header_len h n Hh) as Hhl. unfold covered, wire_message.
  assert (forall n, length (header h n) = 20%nat) as Hn by (intros n; specialize (Hhl n); unfold zlen in Hhl; lia).
  set (k := mi_bytes (Some m) ++ fp_bytes fp). rewrite <- !app_assoc, <- (Hn (total_len bs (Some m) fp)).
  rewrite take_app_length, drop_app_length. replace (Z.to_nat (zlen bs)) with (length bs) by (unfold zlen; lia). rewrite take_app_length. f_equal.
  destruct fp as [v|]; [rewrite bool_decide_true by eauto|unfold total_len; by rewrite Z.add_0_r]. unfold PUT_VAL16, header.
  rewrite !u16_small by (unfold is_u16; lia).
  replace (drop 4 _) with (PUTVAL32H (h_magic h) ++ h_tsx_id h) by done. done.
Qed.

Lemma find_lasts t body mi fp : t <> PJ_STUN_ATTR_MESSAGE_INTEGRITY -> t <> PJ_STUN_ATTR_FINGERPRINT ->
  snd <$> list_find (fun a => attr_type a = t) (body ++ mi_list mi ++ fp_list fp) =
  snd <$> list_find (fun a => attr_type a = t) body.
Proof.
  intros Hm Hf. induction body as [|a body IH].
  - destruct mi, fp; cbn; repeat (rewrite decide_False by (cbn; congruence)); done.
  - cbn [app list_find]. destruct (decide _); [done|]. revert IH.
    generalize (list_find (fun a => attr_type a = t) (body ++ mi_list mi ++ fp_list fp)), (list_find (fun a => attr_type a = t) body).
    intros [[]|] [[]|]; cbn; congruence.
Qed.

Lemma find_received pad h t l :
  snd <$> list_find (fun a => attr_type a = t) (map (received pad h) l) =
  received pad h <$> (snd <$> list_find (fun a => attr_type a = t) l).
Proof.
  induction l as [|a l IH]; [done|]. cbn [map list_find]. rewrite received_type.
  destruct (decide (attr_type a = t)); [done|]. revert IH.
  generalize (list_find (fun a => attr_type a = t) (map (received pad h) l)), (list_find (fun a => attr_type a = t) l).
  intros [[]|] [[]|]; cbn; congruence.
Qed.

(** The texts of a message are received as they were sent. *)
Lemma text_received pad msg len body mi fp mi' fp' t : attrs msg = body ++ mi_list mi ++ fp_list fp ->
  h_magic (msg_hdr msg) = PJ_STUN_MAGIC -> t <> PJ_STUN_ATTR_SOFTWARE -> t <> PJ_STUN_ATTR_MESSAGE_INTEGRITY ->
  t <> PJ_STUN_ATTR_FINGERPRINT ->
  attr_text (StunMsg ((msg_hdr msg) <| h_length := len |>)
    (map (received pad (msg_hdr msg)) (body ++ mi_list mi' ++ fp_list fp'))) t = attr_text msg t.
Proof.
  intros Ha Hm Hs Hmi Hfp. unfold attr_text, pj_stun_msg_find_attr. cbn [attrs drop]. rewrite Ha.
  rewrite !drop_0, find_received, !find_lasts by done. destruct (list_find _ body) as [[i a]|] eqn:E; [|done].
  apply list_find_Some in E as (_ & E & _). cbn. f_equal. destruct a as [? ? []| | | | | | | |]; try done. cbn in E |- *.
  unfold pads_string. rewrite Hm. replace (a_type hdr =? PJ_STUN_ATTR_SOFTWARE) with false by (unfold attr_type in E; cbn in E; lia). done.
Qed.

Lemma shown_received pad c msg len body mi fp mi' fp' : attrs msg = body ++ mi_list mi ++ fp_list fp ->
  h_magic (msg_hdr msg) = PJ_STUN_MAGIC ->
  terms_met c (StunMsg ((msg_hdr msg) <| h_length := len |>)
    (map (received pad (msg_hdr msg)) (body ++ mi_list mi' ++ fp_list fp'))) <-> terms_met c msg.
Proof.
  intros Ha Hm. set (msg2 := StunMsg _ _).
  assert (attr_text msg2 PJ_STUN_ATTR_USERNAME = attr_text msg PJ_STUN_ATTR_USERNAME) as Eu
    by by eapply text_received.
  assert (attr_text msg2 PJ_STUN_ATTR_REALM = attr_text msg PJ_STUN_ATTR_REALM) as Er by by eapply text_received.
  assert (attr_text msg2 PJ_STUN_ATTR_NONCE = attr_text msg PJ_STUN_ATTR_NONCE) as En by by eapply text_received.
  clearbody msg2. split; intros [Hu Hl Hs Hn]; split; rewrite ?Eu, ?Er, ?En in *; done.
Qed.

(** Where the hash is in what is received. *)
Lemma received_integrity pad h body m fp : Forall (fun a => attr_ok a /\ is_last a = false) body ->
  integrity_at (map (received pad h) (body ++ mi_list (Some m) ++ fp_list fp))
    (map (received pad h) body) (mi_attr m) (map (received pad h) (fp_list fp)).
Proof.
  intros Hb. split.
  - exists []. rewrite !map_app. done.
  - done.
  - apply Forall_map. eapply Forall_impl; [exact Hb|]. intros a [_ Hl]. unfold is_mi. cbn. rewrite received_type.
    unfold is_last in Hl. lia.
  - destruct fp; [|done]. unfold is_mi. by vm_compute.
Qed.

(** *** What is received of a message *)

Section received_message.
Context (pad : Z) (msg : pj_stun_msg) (body : list pj_stun_attr) (bs m : list Z) (fp fp' : option Z)
  (d more hstack : list Z) (pdu_len len : Z).
Let h := msg_hdr msg.
Let pkt := wire_message h bs (Some d) fp' ++ more.
Let msg2 := StunMsg (h <| h_length := len |>) (map (received pad h) (body ++ mi_list (Some d) ++ fp_list fp')).
Let covers := header h (zlen bs + 24) ++ bs.
Context (Hh : hdr_ok h) (Ha : attrs msg = body ++ mi_list (Some m) ++ fp_list fp)
  (Hb : Forall (fun a => attr_ok a /\ is_last a = false) body) (Hw : wired pad h body bs)
  (Hs : zlen bs <= 65503) (Hmag : h_magic h = PJ_STUN_MAGIC) (Hd : zlen d = 20)
  (Hbytes : is_bytes pkt) (Hpl : zlen pkt < 536870912) (Hst : length hstack = 64%nat)
  (Hp : pdu_len <> 0) (Hlen : 24 <= len).

Lemma received_size : attrs_size 0 (map (received pad h) body) = zlen bs.
Proof.
  assert (Forall attr_ok body) as Hok by (eapply Forall_impl; [exact Hb|]; by intros ? [? _]).
  pose proof (proj2 (proj2 (proj2 Hh))) as Hid. rewrite (wired_len pad h body bs Hok Hid Hw) in *.
  rewrite attrs_size_received by (done || lia). done.
Qed.

Lemma received_scan : scan_msgint (attrs msg2) None 0 = (Some (mi_attr d), zlen bs, bool_decide (is_Some fp')).
Proof.
  unfold msg2. cbn [attrs]. rewrite (scan_integrity _ _ _ _ (received_integrity pad h body d fp' Hb)).
  rewrite received_size. by destruct fp'.
Qed.

Lemma received_digest k : is_bytes k -> zlen k < 536870912 ->
  message_digest hstack k pkt (zlen bs) (bool_decide (is_Some fp')) = Done (hmac_spec Fips.sha1 k covers).
Proof.
  intros Hk Hkl. rewrite covered_digest by done. pose proof (zlen_nonneg bs). pose proof (zlen_nonneg more).
  assert (20 + zlen bs <= zlen pkt) as Hl.
  { unfold pkt, wire_message. rewrite !zlen_app, header_len by done. pose proof (zlen_nonneg (fp_bytes fp')).
    pose proof (zlen_nonneg (mi_bytes (Some d))). lia. }
  rewrite (proj2 (Z.leb_le _ _) (zlen_nonneg bs)), (proj2 (Z.leb_le _ _) Hl). cbn [andb].
  unfold pkt. by rewrite covered_wire.
Qed.

Lemma response_checked k : is_bytes k -> zlen k < 536870912 ->
  pj_stun_authenticate_response hstack pkt pdu_len msg2 k = Done PJ_SUCCESS <-> hmac_spec Fips.sha1 k covers = d.
Proof.
  intros Hk Hkl. unfold pj_stun_authenticate_response. replace (pdu_len =? 0) with false by lia.
  assert (is_Some (pj_stun_msg_find_attr msg2 PJ_STUN_ATTR_MESSAGE_INTEGRITY 0)) as [a ->].
  { unfold pj_stun_msg_find_attr. rewrite drop_0. apply fmap_is_Some, (list_find_elem_of _ _ (mi_attr d)); [|done].
    unfold msg2. cbn [attrs]. rewrite !map_app. apply elem_of_app. right. apply elem_of_app. left. by apply list_elem_of_here. }
  change (h_length (msg_hdr msg2)) with len. replace (len <? 24) with false by lia.
  rewrite received_scan, received_digest by done. cbn [mbind outcome_bind msgint_hmac mi_attr].
  rewrite digest_compare by (unfold zlen in Hd; lia || apply hmac_spec_length).
  case_bool_decide as He; cbn [negb]; split; intros E; first [done|by symmetry|by destruct He].
Qed.

Lemma request_checked c kstack want : is_bytes (sc_data c) -> zlen (sc_data c) < 536870912 ->
  let authenticate :=
    pj_stun_authenticate_request kstack hstack pkt pdu_len msg2 (PJ_STUN_AUTH_CRED_STATIC c) want in
  let info := CredInfo (sc_realm c) (sc_username c) (sc_nonce c) (cred_key kstack c) in
  (forall i response, authenticate = Done (PJ_SUCCESS, i, response) ->
     terms_met c msg /\ hmac_spec Fips.sha1 (cred_key kstack c) covers = d) /\
  (terms_met c msg -> hmac_spec Fips.sha1 (cred_key kstack c) covers = d ->
   authenticate = Done (PJ_SUCCESS, info, None)).
Proof.
  intros Hcb Hcl authenticate info.
  destruct (create_key_bytes kstack (Some (sc_realm c)) (sc_username c) (sc_data_type c) (sc_data c) Hcb Hcl) as [Hk Hkl].
  assert (terms_met c msg2 <-> terms_met c msg) as Hshown by by apply (shown_received pad c msg len body (Some m) fp).
  assert (terms_met c msg2 -> authenticate =
    if bool_decide (d = hmac_spec Fips.sha1 (cred_key kstack c) covers) then Done (PJ_SUCCESS, info, None)
    else on_auth_failed (want && PJ_STUN_IS_REQUEST (msg_type msg2)) msg2 info PJ_STUN_SC_UNAUTHORIZED
      (text "MESSAGE-INTEGRITY mismatch")) as Hdec.
  { intros Hc. unfold authenticate. rewrite shown_decided by done. cbn zeta. rewrite received_scan.
    rewrite received_digest by done. cbn [mbind outcome_bind msgint_hmac mi_attr].
    rewrite digest_compare by ((unfold zlen in Hd; lia) || apply hmac_spec_length).
    by destruct (bool_decide _). }
  split.
  - intros i response E. destruct (accepted_shown _ _ _ _ _ _ _ _ _ E) as [_ Hc].
    split; [by apply Hshown|]. rewrite Hdec in E by done. case_bool_decide as He; [done|by apply failed_status in E].
  - intros Hc He. rewrite Hdec by (by apply Hshown). by rewrite bool_decide_true.
Qed.
End received_message.

(** ** Requests that are refused *)

(** What a response says of the credential that is asked for. *)
Definition challenge (code : Z) (realm nonce : list Z) : list pj_stun_attr :=
  if code =? PJ_STUN_SC_BAD_REQUEST then []
  else match realm, nonce with
       | [], [] => []
       | [], _ => [StringAttr (INIT_ATTR PJ_STUN_ATTR_NONCE (zlen nonce)) nonce]
       | _, _ =>
           let nonce := match nonce with [] => pj_str "pjstun"%string | _ => nonce end in
           [StringAttr (INIT_ATTR PJ_STUN_ATTR_REALM (zlen realm)) realm;
            StringAttr (INIT_ATTR PJ_STUN_ATTR_NONCE (zlen nonce)) nonce]
       end.

Definition auth_code (code : Z) : Prop :=
  code = PJ_STUN_SC_BAD_REQUEST \/ code = PJ_STUN_SC_UNAUTHORIZED \/ code = PJ_STUN_SC_STALE_NONCE.

Lemma create_challenge_spec msg code err_text realm nonce : PJ_STUN_IS_REQUEST (msg_type msg) = true ->
  auth_code code -> exists reason,
  create_challenge msg code err_text realm nonce =
  Done (inr (error_response (msg_hdr msg) code reason (challenge code realm nonce))).
Proof.
  intros Hr Hc.
  assert (exists std, pj_stun_get_err_reason code = Done std /\ (zlen std =? 0) = false /\ truth code = true)
    as (std & Es & El & Et) by (destruct Hc as [->|[->| ->]]; eexists; repeat split).
  exists (default std err_text). unfold create_challenge. rewrite (create_response_std msg code err_text std) by done.
  cbn [mbind outcome_bind]. unfold challenge. rewrite !truth_zlen.
  destruct Hc as [->|[->| ->]]; [done|..]; destruct realm, nonce; reflexivity.
Qed.

Lemma failed_spec want msg info code err_text : (want = true -> PJ_STUN_IS_REQUEST (msg_type msg) = true) ->
  auth_code code -> exists reason,
  on_auth_failed want msg info code err_text =
  Done (PJ_STATUS_FROM_STUN_CODE code, info,
    if want then Some (error_response (msg_hdr msg) code reason (challenge code (ci_realm info) (ci_nonce info))) else None).
Proof.
  intros Hr Hc. unfold on_auth_failed. destruct want; [|by exists []].
  destruct (create_challenge_spec msg code err_text (ci_realm info) (ci_nonce info) (Hr eq_refl) Hc) as [reason ->].
  by exists reason.
Qed.

Lemma check_terms_code info arealm anonce code err_text :
  check_terms info arealm anonce = Some (code, err_text) -> auth_code code.
Proof. unfold check_terms, auth_code. intros E. repeat case_match; simplify_eq; tauto. Qed.

(** Whatever is wrong with it, the request fails for one reason. *)
Lemma request_outcome stack hstack pkt pkt_len msg c want r : pkt_len <> 0 ->
  pj_stun_authenticate_request stack hstack pkt pkt_len msg (PJ_STUN_AUTH_CRED_STATIC c) want = Done r ->
  r.1.1 = PJ_SUCCESS \/
  exists code err_text info, auth_code code /\ ci_realm info = sc_realm c /\ ci_nonce info = sc_nonce c /\
    on_auth_failed (want && PJ_STUN_IS_REQUEST (msg_type msg)) msg info code err_text = Done r.
Proof.
  intros Hp E. unfold pj_stun_authenticate_request in E. replace (pkt_len =? 0) with false in E by lia.
  cbn [cred_auth] in E. rewrite decide_False in E by tauto.
  assert (forall code err_text info,
    on_auth_failed (want && PJ_STUN_IS_REQUEST (msg_type msg)) msg info code err_text = Done r ->
    auth_code code -> ci_realm info = sc_realm c -> ci_nonce info = sc_nonce c -> exists code err_text info, auth_code code /\ ci_realm info = sc_realm c /\ ci_nonce info = sc_nonce c /\
    on_auth_failed (want && PJ_STUN_IS_REQUEST (msg_type msg)) msg info code err_text = Done r) as Hf by eauto 10.
  assert (auth_code PJ_STUN_SC_BAD_REQUEST /\ auth_code PJ_STUN_SC_UNAUTHORIZED /\ auth_code PJ_STUN_SC_STALE_NONCE)
    as (H400 & H401 & H438) by (unfold auth_code; tauto).
  destruct (scan_msgint (attrs msg) None 0) as [[[mi|] pos] beyond];
    [|right; apply (Hf _ _ _ E); [by destruct (truth _)|done..]].
  destruct (pj_stun_msg_find_attr msg PJ_STUN_ATTR_USERNAME 0) as [u|]; [|right; by apply (Hf _ _ _ E)].
  destruct (truth (zlen (sc_realm c)) && _); [right; by apply (Hf _ _ _ E)|].
  unfold check_user in E. destruct (pj_strcmp _ _ =? 0); [|right; by apply (Hf _ _ _ E)].
  destruct (check_terms _ _ _) as [[code err_text]|] eqn:Et;
    [right; apply (Hf _ _ _ E); [exact (check_terms_code _ _ _ _ _ Et)|done..]|].
  destruct (negb _); [right; by apply (Hf _ _ _ E)|].
  destruct (message_digest _ _ _ _ _) as [digest| |]; [|done..]. cbn [mbind outcome_bind] in E.
  destruct (truth _); [right; by apply (Hf _ _ _ E)|]. left. by injection E as <-.
Qed.

(** ** Two consequences *)

(** A short term credential with a nonce: no request without a realm is accepted,
    whatever nonce it shows. *)
Lemma short_term_nonce_refused stack hstack pkt pkt_len msg c want info response :
  sc_realm c = [] -> sc_nonce c <> [] -> attr_text msg PJ_STUN_ATTR_REALM = None ->
  pj_stun_authenticate_request stack hstack pkt pkt_len msg (PJ_STUN_AUTH_CRED_STATIC c) want <>
    Done (PJ_SUCCESS, info, response).
Proof. intros Hr Hn Ha E. destruct (accepted_shown _ _ _ _ _ _ _ _ _ E) as (_ & [_ _ Hs _]). by apply Hn, Hs. Qed.

(** The hash covers the header alone, and the name behind it is not: the request is
    decoded and accepted all the same. *)
Example name_behind_integrity :
  let mac := [248; 17; 96; 169; 127; 21; 200; 13; 117; 50; 8; 91; 89; 127; 50; 114; 62; 234; 87; 253] in
  let h := MsgHdr 1 32 PJ_STUN_MAGIC (replicate 12 7) in
  let pkt := header h 32 ++ [0; 8; 0; 20] ++ mac ++ [0; 6; 0; 2; 97; 98; 0; 0] in
  let msg := StunMsg h [MsgintAttr (AttrHdr 8 20) mac; StringAttr (AttrHdr 6 2) [97; 98]] in
  pj_stun_msg_decode (fun _ => []) 0 pkt 52 3 true = Done (Decoded PJ_SUCCESS (Some msg) 52 None) /\
  pj_stun_authenticate_request (replicate 64 9) (replicate 64 9) pkt 52 msg
    (PJ_STUN_AUTH_CRED_STATIC (StaticCred [] [97; 98] PJ_STUN_PASSWD_PLAIN [112; 119] [])) true =
    Done (PJ_SUCCESS, CredInfo [] [97; 98] [] [112; 119], None).
Proof. split; vm_compute; reflexivity. Qed.

(** ** Properties *)

(** A request is accepted when it meets the terms and its hash is right. *)
Lemma request_by_terms stack hstack pkt pkt_len msg c want :
  length hstack = 64%nat -> is_bytes pkt -> zlen pkt < 536870912 -> pkt_len <> 0 ->
  is_bytes (sc_data c) -> zlen (sc_data c) < 536870912 -> Forall attr_got (attrs msg) ->
  let authenticate :=
    pj_stun_authenticate_request stack hstack pkt pkt_len msg (PJ_STUN_AUTH_CRED_STATIC c) want in
  let accepted := CredInfo (sc_realm c) (sc_username c) (sc_nonce c) (cred_key stack c) in
  (forall info response, authenticate = Done (PJ_SUCCESS, info, response) ->
     terms_met c msg /\ integrity_holds (cred_key stack c) pkt msg) /\
  (terms_met c msg -> integrity_holds (cred_key stack c) pkt msg ->
   authenticate = Done (PJ_SUCCESS, accepted, None)).
Proof.
  intros Hst Hpk Hpl Hp Hd Hdl Hgot authenticate accepted.
  destruct (create_key_bytes stack (Some (sc_realm c)) (sc_username c) (sc_data_type c) (sc_data c) Hd Hdl)
    as [Hk Hkl]. fold (cred_key stack c) in Hk, Hkl.
  assert (forall a, integrity_at (attrs msg) a.1.1 a.1.2 a.2 -> length (msgint_hmac a.1.2) = 20%nat) as Hlen.
  { intros a [(run & E & _) Hm _ _]. apply mi_got_length; [|done]. rewrite E in Hgot.
    apply Forall_app in Hgot as [_ [_ Hg]%Forall_app]. by apply Forall_cons in Hg as [? _]. }
  split.
  - intros info response E. destruct (accepted_shown _ _ _ _ _ _ _ _ _ E) as [_ Hc]. split; [done|].
    unfold authenticate in E. rewrite shown_decided in E by done. cbn zeta in E.
    destruct (scan_msgint (attrs msg) None 0) as [[[mi|] pos] beyond] eqn:Es; [|by apply failed_status in E].
    destruct (scan_found _ _ _ _ Es) as (before & after & Hi & -> & ->). exists before, mi, after.
    rewrite covered_digest in E by done. destruct ((0 <=? _) && _) eqn:Eb; [|done]. cbn [mbind outcome_bind] in E.
    rewrite digest_compare in E by (apply (Hlen (before, mi, after) Hi) || apply hmac_spec_length).
    case_bool_decide as Hh; [|by apply failed_status in E]. split_and!; [exact Hi|lia|lia|exact Hh].
  - intros Hc (before & mi & after & Hi & H0 & Hb & Hh). unfold authenticate.
    rewrite shown_decided by done. cbn zeta. rewrite (scan_integrity _ _ _ _ Hi), covered_digest by done.
    rewrite (proj2 (Z.leb_le _ _) H0), (proj2 (Z.leb_le _ _) Hb). cbn [andb mbind outcome_bind].
    rewrite digest_compare by (apply (Hlen (before, mi, after) Hi) || apply hmac_spec_length).
    by rewrite bool_decide_true.
Qed.

(** A short term credential with a nonce: a request that shows any realm, and no nonce,
    is accepted. *)
Lemma short_term_nonce_bypassed stack hstack pkt pkt_len msg c want realm :
  length hstack = 64%nat -> is_bytes pkt -> zlen pkt < 536870912 -> pkt_len <> 0 ->
  is_bytes (sc_data c) -> zlen (sc_data c) < 536870912 -> Forall attr_got (attrs msg) ->
  sc_realm c = [] -> attr_text msg PJ_STUN_ATTR_USERNAME = Some (sc_username c) ->
  attr_text msg PJ_STUN_ATTR_REALM = Some realm -> attr_text msg PJ_STUN_ATTR_NONCE = None ->
  integrity_holds (cred_key stack c) pkt msg ->
  pj_stun_authenticate_request stack hstack pkt pkt_len msg (PJ_STUN_AUTH_CRED_STATIC c) want =
    Done (PJ_SUCCESS, CredInfo (sc_realm c) (sc_username c) (sc_nonce c) (cred_key stack c), None).
Proof.
  intros ? ? ? ? ? ? ? Hr Hu Ha Hn Hi. apply request_by_terms; try done. split; [done|..].
  - intros Hne. by destruct Hne.
  - intros _ E. congruence.
  - intros nonce E. congruence.
Qed.

(** C8: Under a static credential whose nonce, if it has one, comes with a realm, a
    request is accepted exactly when it shows the name of the credential, its
    realm, in any case, and its nonce, where it has them, and the hash in it is the
    HMAC-SHA1, under the key of the credential, of the header and the attributes
    before MESSAGE-INTEGRITY; the caller then gets the credential back, and no
    response.  (For a nonce without a realm, see [short_term_nonce_refused] and
    [short_term_nonce_bypassed].) *)
Theorem stun_request_authentic stack hstack pkt pkt_len msg c want :
  length hstack = 64%nat -> is_bytes pkt -> zlen pkt < 536870912 -> pkt_len <> 0 ->
  is_bytes (sc_data c) -> zlen (sc_data c) < 536870912 -> nonce_has_realm c ->
  Forall attr_got (attrs msg) ->
  let authenticate :=
    pj_stun_authenticate_request stack hstack pkt pkt_len msg (PJ_STUN_AUTH_CRED_STATIC c) want in
  let accepted := CredInfo (sc_realm c) (sc_username c) (sc_nonce c) (cred_key stack c) in
  (forall info response, authenticate = Done (PJ_SUCCESS, info, response) ->
     credentials_shown c msg /\ integrity_holds (cred_key stack c) pkt msg) /\
  (credentials_shown c msg -> integrity_holds (cred_key stack c) pkt msg ->
   authenticate = Done (PJ_SUCCESS, accepted, None)).
Proof.
  intros Hst Hpk Hpl Hp Hd Hdl Hn Hgot.
  destruct (request_by_terms stack hstack pkt pkt_len msg c want) as [Hacc Hok]; [done..|]. split.
  - intros info response E. destruct (Hacc _ _ E). by rewrite shown_terms.
  - intros Hc. apply Hok. by apply shown_terms.
Qed.

Lemma stun_request_authentic_witness :
  let mac := [142; 6; 110; 79; 190; 215; 21; 34; 135; 239; 109; 81; 130; 2; 39; 86; 27; 81; 48; 180] in
  let h := MsgHdr 1 32 PJ_STUN_MAGIC (replicate 12 7) in
  let pkt := header h 32 ++ [0; 6; 0; 2; 97; 98; 0; 0] ++ [0; 8; 0; 20] ++ mac in
  let msg := StunMsg h [StringAttr (AttrHdr 6 2) [97; 98]; MsgintAttr (AttrHdr 8 20) mac] in
  let c := StaticCred [] [97; 98] PJ_STUN_PASSWD_PLAIN [112; 119] [] in
  let stack := replicate 64 9 in
  pj_stun_msg_decode (fun _ => []) 0 pkt 52 3 true = Done (Decoded PJ_SUCCESS (Some msg) 52 None) /\
  pj_stun_authenticate_request stack stack pkt 52 msg (PJ_STUN_AUTH_CRED_STATIC c) true =
    Done (PJ_SUCCESS, CredInfo [] [97; 98] [] [112; 119], None).
Proof.
  intros mac h pkt msg c stack. split; [vm_compute; reflexivity|].
  assert (is_bytes pkt /\ is_bytes mac /\ is_bytes [97; 98] /\ is_bytes [112; 119]) as (Hp & Hm & Hu & Hk)
    by (split_and!; repeat first [apply Forall_cons_2; [by vm_compute|]|apply Forall_nil_2]).
  refine (proj2 (stun_request_authentic stack stack pkt 52 msg c true _ Hp _ _ Hk _ _ _) _ _).
  - reflexivity.
  - reflexivity.
  - discriminate.
  - reflexivity.
  - intros _. reflexivity.
  - apply Forall_cons_2; [split; [|reflexivity]; split; [by vm_compute|by split]|].
    apply Forall_cons_2; [split; [by vm_compute|by split_and!]|apply Forall_nil_2].
  - split; [reflexivity|intros E; by destruct E..].
  - exists [StringAttr (AttrHdr 6 2) [97; 98]], (MsgintAttr (AttrHdr 8 20) mac), [].
    split_and!; [split; [by exists []|reflexivity| |exact Logic.I]| | |].
    + apply Forall_cons_2; [discriminate|apply Forall_nil_2].
    + vm_compute. discriminate.
    + vm_compute. discriminate.
    + vm_compute. reflexivity.
Defined.

(** C26: A request that is not accepted under a static credential: the status is 400, 401
    or 438. A response is made when the caller wants one and the message is a
    request: an error response of that code, which [challenge]s: with 401 or 438 it
    names the realm and the nonce of a credential with a realm ("pjstun" for one
    without a nonce), the nonce alone of one with a nonce and no realm, and
    nothing of one with neither; with 400 it names nothing. Without
    MESSAGE-INTEGRITY the code is 401 when the credential has a realm, and 400 when
    not. *)
Theorem stun_request_challenged stack hstack pkt pkt_len msg c want status info response : pkt_len <> 0 ->
  pj_stun_authenticate_request stack hstack pkt pkt_len msg (PJ_STUN_AUTH_CRED_STATIC c) want =
    Done (status, info, response) -> status <> PJ_SUCCESS ->
  exists code, auth_code code /\ status = PJ_STATUS_FROM_STUN_CODE code /\
    (Forall (fun a => ~ is_mi a) (attrs msg) ->
     code = match sc_realm c with [] => PJ_STUN_SC_BAD_REQUEST | _ => PJ_STUN_SC_UNAUTHORIZED end) /\
    if want && PJ_STUN_IS_REQUEST (msg_type msg)
    then exists reason, response =
      Some (error_response (msg_hdr msg) code reason (challenge code (sc_realm c) (sc_nonce c)))
    else response = None.
Proof.
  intros Hp E Hs. destruct (request_outcome _ _ _ _ _ _ _ _ Hp E) as [|(code & err_text & i & Hc & Hr & Hn & Ef)]; [done|].
  exists code. split; [done|]. split; [by apply failed_status in Ef|]. split.
  - intros Hno. destruct (scan_none _ Hno) as [pos Es]. unfold pj_stun_authenticate_request in E.
    replace (pkt_len =? 0) with false in E by lia. cbn [cred_auth] in E.
    rewrite decide_False, Es, truth_zlen in E by tauto. apply failed_status in E, Ef. subst status.
    injection Ef as <-. by destruct (sc_realm c).
  - assert (want && PJ_STUN_IS_REQUEST (msg_type msg) = true -> PJ_STUN_IS_REQUEST (msg_type msg) = true) as Hw
      by (by intros [_ ?]%andb_true_iff).
    destruct (failed_spec _ msg i code err_text Hw Hc) as [reason Er].
    rewrite Ef, Hr, Hn in Er. injection Er as -> <- ->. destruct (_ && _); [by exists reason|done].
Qed.

Lemma stun_request_challenged_witness :
  let h := MsgHdr 1 0 PJ_STUN_MAGIC (replicate 12 7) in
  let c := StaticCred [114] [97; 98] PJ_STUN_PASSWD_PLAIN [112; 119] [] in
  let response := StunMsg (MsgHdr 0x111 0 PJ_STUN_MAGIC (replicate 12 7))
    [ErrcodeAttr (AttrHdr 9 16) 401 (pj_str "Unauthorized"); StringAttr (AttrHdr 20 1) [114];
     StringAttr (AttrHdr 21 6) (pj_str "pjstun")] in
  let r := pj_stun_authenticate_request [] [] (header h 0) 20 (StunMsg h []) (PJ_STUN_AUTH_CRED_STATIC c) true in
  r = Done (PJ_STATUS_FROM_STUN_CODE 401, CredInfo [114] [] [] [], Some response) /\
  exists code, auth_code code /\ PJ_STATUS_FROM_STUN_CODE 401 = PJ_STATUS_FROM_STUN_CODE code /\ code = 401.
Proof.
  intros h c response r.
  assert (r = Done (PJ_STATUS_FROM_STUN_CODE 401, CredInfo [114] [] [] [], Some response)) as E by (vm_compute; reflexivity).
  split; [exact E|].
  assert (20 <> 0) as Hp by discriminate.
  assert (PJ_STATUS_FROM_STUN_CODE 401 <> PJ_SUCCESS) as Hs by discriminate.
  destruct (stun_request_challenged [] [] (header h 0) 20 (StunMsg h []) c true _ _ _ Hp E Hs) as (code & Hc & Ec & Hno & _).
  exists code. split; [exact Hc|]. split; [exact Ec|]. apply Hno. apply Forall_nil_2.
Defined.

(** C25: A message that is sent with MESSAGE-INTEGRITY under a key is encoded, and what is
    received of it, anywhere, with a fingerprint behind the hash or without, passes
    the check of responses under exactly those keys with which its header and its
    body have the same HMAC-SHA1 as with the key of the sender. A static credential
    whose nonce, if it has one, comes with a realm, accepts it exactly when the
    message that was sent shows the name, realm and nonce of the credential, and
    the key of the credential is such a key.  (The options look for a fingerprint
    only in a message that has one, see [checkable].) *)
Theorem stun_sent_authenticated strerror addr addr' pad stack hstack msg body m fp buf key options want :
  sendable pad msg body (Some m) fp -> 0 <= h_type (msg_hdr msg) < 512 -> h_magic (msg_hdr msg) = PJ_STUN_MAGIC ->
  checkable options (msg_hdr msg) fp -> is_bytes buf -> zlen buf < 4294967296 ->
  20 + wires_size pad (msg_hdr msg) body + 24 + (if fp is Some _ then 8 else 0) <= zlen buf ->
  length stack = 64%nat -> length hstack = 64%nat -> is_bytes key -> zlen key < 536870912 ->
  exists msg' buf' n,
    pj_stun_msg_encode addr pad stack msg buf (zlen buf) 0 (Some key) = Some (PJ_SUCCESS, msg', buf', Some n) /\
    forall more pdu_len, is_bytes more -> zlen more < 536800000 ->
      n <= pdu_len -> (truth (Z.land options PJ_STUN_IS_DATAGRAM) = true -> pdu_len = n) ->
      let pkt := take (Z.to_nat n) buf' ++ more in
      let hash k := hmac_spec Fips.sha1 k
        (covered pkt (wires_size pad (msg_hdr msg) body) (bool_decide (is_Some fp))) in
      exists msg2,
        pj_stun_msg_decode strerror addr' pkt pdu_len options want = Done (Decoded PJ_SUCCESS (Some msg2) n None) /\
        (forall k, is_bytes k -> zlen k < 536870912 ->
           pj_stun_authenticate_response hstack pkt pdu_len msg2 k = Done PJ_SUCCESS <-> hash k = hash key) /\
        (forall c kstack want_response, is_bytes (sc_data c) -> zlen (sc_data c) < 536870912 -> nonce_has_realm c ->
           let authenticate := pj_stun_authenticate_request kstack hstack pkt pdu_len msg2
             (PJ_STUN_AUTH_CRED_STATIC c) want_response in
           (forall info response, authenticate = Done (PJ_SUCCESS, info, response) ->
              credentials_shown c msg /\ hash (cred_key kstack c) = hash key) /\
           (credentials_shown c msg -> hash (cred_key kstack c) = hash key ->
            authenticate =
              Done (PJ_SUCCESS, CredInfo (sc_realm c) (sc_username c) (sc_nonce c) (cred_key kstack c), None))).
Proof.
  intros Hsnd Hty Hmag Hfp Hbuf Hsz Hroom Hst Hhst Hk Hkl.
  destruct (encode_message addr pad stack msg body (Some m) fp buf (Some key) Hsnd ltac:(eauto) Hbuf Hsz Hroom)
    as (bs & rest & Hw & E). destruct Hsnd as [Hh Ha Hb Hc Hs].
  assert (Forall attr_ok body) as Hok by (eapply Forall_impl; [exact Hb|]; by intros ? [? _]).
  pose proof (proj2 (proj2 (proj2 Hh))) as Hid. pose proof (wired_len pad _ body bs Hok Hid Hw) as Hbs.
  pose proof (zlen_nonneg bs) as Hb0. rewrite <- Hbs in *.
  set (h := msg_hdr msg) in *. pose proof (wired_bytes pad h body bs Hok (proj1 (proj2 (proj2 Hh))) Hw) as Hbb.
  pose proof (hmac_bytes stack (header h (zlen bs + 24) ++ bs) key) as Hd.
  assert (pj_hmac_sha1 stack (header h (zlen bs + 24) ++ bs) key = hmac_spec Fips.sha1 key (header h (zlen bs + 24) ++ bs)) as Ed.
  { apply hmac_is_rfc2104; [exact Hst|apply Forall_app_2; [by apply header_bytes|done]|done| |done].
    rewrite zlen_app, header_len by done. lia. }
  cbn zeta in E. change (final_hmac stack (default [] (Some key)) h bs (Some m))
    with (Some (pj_hmac_sha1 stack (header h (zlen bs + 24) ++ bs) key)) in E.
  set (d := pj_hmac_sha1 stack (header h (zlen bs + 24) ++ bs) key) in *. clearbody d. destruct Hd as [Hdl Hdb].
  assert (forall d', Some d = Some d' -> zlen d' = 20 /\ is_bytes d') as Hmi by (by intros ? [= <-]).
  set (fp' := final_value addr h bs (Some d) fp) in *.
  assert (total_len bs (Some m) fp = total_len bs (Some d) fp) as Etl by done. rewrite Etl in E. clear Etl.
  pose proof (total_range bs (Some d) fp ltac:(lia)) as HT.
  assert (is_bytes (wire_message h bs (Some d) fp')) as Hwb.
  { unfold wire_message. rewrite !app_assoc. apply Forall_app_2; [rewrite <- app_assoc; by apply before_fp_bytes|].
    destruct fp' as [v|]; [|constructor]. cbn [fp_bytes from_option]. repeat bytes_part. }
  assert (zlen (wire_message h bs (Some d) fp') = 20 + total_len bs (Some d) fp) as Hz.
  { unfold wire_message. rewrite !zlen_app, header_len by done.
    destruct (mi_bytes_len (Some d)) as [-> _]; [by intros d' [= <-]|].
    unfold total_len, fp'. rewrite fp_bytes_len. destruct fp; lia. }
  do 3 eexists. split; [exact E|]. intros more pdu_len Hmb Hml Hp Hdg.
  intros pkt. assert (pkt = wire_message h bs (Some d) fp' ++ more) as Epkt
    by (unfold pkt; rewrite <- Hz; by rewrite take_start).
  clearbody pkt. subst pkt.
  assert (bool_decide (is_Some fp) = bool_decide (is_Some fp')) as -> by (unfold fp'; by destruct fp).
  rewrite covered_wire by (done || lia).
  intros hash.
  assert (is_bytes (wire_message h bs (Some d) fp' ++ more)) as Hpb by (by apply Forall_app_2).
  assert (zlen (wire_message h bs (Some d) fp' ++ more) < 536870912) as Hps by (rewrite zlen_app; lia).
  assert (24 <= total_len bs (Some d) fp) as H24 by (unfold total_len; destruct fp; lia).
  assert (hash key = d) as -> by (unfold hash; by rewrite Ed).
  eexists. split; [apply decode_message; try done; [|lia]|split].
  - rewrite Ha in Hc. rewrite zlen_app in Hc. destruct fp; exact Hc.
  - intros k Hkb Hkl'. apply (response_checked pad msg body bs fp' d); first [done|lia].
  - intros c kstack want' Hcb Hcl Hn.
    destruct (request_checked pad msg body bs m fp fp' d more hstack pdu_len (total_len bs (Some d) fp)
      ltac:(done) ltac:(done) ltac:(done) ltac:(done) ltac:(lia) ltac:(done) ltac:(lia) ltac:(done)
      ltac:(done) ltac:(done) ltac:(lia) c kstack want' Hcb Hcl) as [Hacc Hacc']. split.
    + intros info response Ei. destruct (Hacc _ _ Ei). by rewrite shown_terms.
    + intros Hsh. apply Hacc'. by apply shown_terms.
Qed.

Lemma stun_sent_authenticated_witness :
  let msg := StunMsg (MsgHdr 1 0 PJ_STUN_MAGIC (replicate 12 7))
    ([StringAttr (AttrHdr 6 2) [97; 98]] ++ mi_list (Some []) ++ fp_list (Some 0)) in
  let c := StaticCred [] [97; 98] PJ_STUN_PASSWD_PLAIN [112; 119] [] in
  let stack := replicate 64 9 in
  exists msg' buf' n msg2,
    pj_stun_msg_encode 0 0 stack msg (replicate 100 0) 100 0 (Some [112; 119]) = Some (PJ_SUCCESS, msg', buf', Some n) /\
    pj_stun_msg_decode (fun _ => []) 2 (take (Z.to_nat n) buf' ++ []) n 3 true =
      Done (Decoded PJ_SUCCESS (Some msg2) n None) /\
    pj_stun_authenticate_response stack (take (Z.to_nat n) buf' ++ []) n msg2 [112; 119] = Done PJ_SUCCESS /\
    pj_stun_authenticate_request stack stack (take (Z.to_nat n) buf' ++ []) n msg2 (PJ_STUN_AUTH_CRED_STATIC c) true =
      Done (PJ_SUCCESS, CredInfo [] [97; 98] [] [112; 119], None).
Proof.
  intros msg c stack.
  assert (is_bytes [97; 98] /\ is_bytes [112; 119]) as [Hu Hk]
    by (split; repeat first [apply Forall_cons_2; [by vm_compute|]|apply Forall_nil_2]).
  destruct (stun_sent_authenticated (fun _ => []) 0 2 0 stack stack msg [StringAttr (AttrHdr 6 2) [97; 98]] []
    (Some 0) (replicate 100 0) [112; 119] 3 true) as (msg' & buf' & n & E & H).
  - split.
    + split_and!; [by vm_compute..|apply Forall_replicate; by vm_compute|reflexivity].
    + reflexivity.
    + apply Forall_cons_2; [|apply Forall_nil_2]. split; [|reflexivity]. split; [by vm_compute|]. by split.
    + by vm_compute.
    + by vm_compute.
  - by vm_compute.
  - reflexivity.
  - left. by eexists.
  - apply Forall_replicate. by vm_compute.
  - by vm_compute.
  - by vm_compute.
  - reflexivity.
  - reflexivity.
  - exact Hk.
  - reflexivity.
  - destruct (H [] n (Forall_nil_2 _) ltac:(done) ltac:(lia) ltac:(done)) as (msg2 & Ed & Hr & Hq).
    exists msg', buf', n, msg2. split; [exact E|]. split; [exact Ed|]. split.
    + apply Hr; [exact Hk|reflexivity|reflexivity].
    + refine (proj2 (Hq c stack true Hk _ _) _ _); [reflexivity|intros _; reflexivity| |reflexivity].
      split; [reflexivity|intros E'; by destruct E'..].
Defined.
