(* ===== verification/StunTsx.v ===== *)
(** * STUN client transactions (pjnath/src/pjnath/stun_transaction.c)

    One transaction over the timer service: its record, every call of its
    interface and the two timer callbacks.  The callbacks of its user are a
    class; they run with the state of the transaction at that point and may
    change it by the calls the interface allows them.  The group lock, which
    the callers of a transaction share, and the log are not modelled. *)

From stdpp Require Import relations.
From S2P Require Import Prelude TimeVal TimerService StunMsg.
Set Warnings "-clear-no-such-hyp".

Definition PJ_STUN_RTO_VALUE : Z := 100.
Definition PJ_STUN_TIMEOUT_VALUE : Z := 16 * PJ_STUN_RTO_VALUE.
Definition PJ_STUN_MAX_TRANSMIT_COUNT : Z := 7.

Definition PJNATH_ESTUNTIMEDOUT : pj_status := PJNATH_STATUS 4.
Definition PJNATH_ESTUNDESTROYED : pj_status := PJNATH_STATUS 60.

Definition TIMER_INACTIVE : Z := 0.
Definition TIMER_ACTIVE : Z := 1.

(** [((pj_stun_errcode_attr* ) attr)->err_code].  Attributes of that type are of that
    structure in messages that are decoded ([StunDecode.stun_decode_types]); 0
    stands for what is at its place in another structure. *)
Definition err_code (a : pj_stun_attr) : Z :=
  match a with ErrcodeAttr _ code _ => code | _ => 0 end.

(** *** The transaction *)

Record pj_stun_client_tsx := StunTsx {
  cb_on_complete : bool; (* the pointer is not null *)
  cb_on_destroy : bool;
  user_data : Z;
  grp_lock : Z;
  complete : bool;
  require_retransmit : bool;
  rto_msec : Z;
  retransmit_timer : Z; (* the entries, by address *)
  transmit_count : Z;
  retransmit_time : pj_time_val;
  destroy_timer : Z;
  last_pkt : Z;
  last_pkt_size : Z
}.
#[export] Instance eta_stun_tsx : Eta pj_stun_client_tsx := fun r =>
  StunTsx (cb_on_complete r) (cb_on_destroy r) (user_data r) (grp_lock r) (complete r)
    (require_retransmit r) (rto_msec r) (retransmit_timer r) (transmit_count r)
    (retransmit_time r) (destroy_timer r) (last_pkt r) (last_pkt_size r).

(** The callbacks the transaction has called, with the time of the call. *)
Inductive stun_call :=
  | Sends (pkt size : Z)
  | Completes (status : pj_status) (response : option pj_stun_msg)
  | Destroys.

Record stun_state {W : Type} := StunState {
  tsx : pj_stun_client_tsx;
  timers : W;
  clock : pj_time_val;
  calls : list (pj_time_val * stun_call)
}.
Arguments stun_state : clear implicits.
Arguments StunState {W}.
#[export] Instance eta_stun_state W : Eta (stun_state W) := fun r =>
  StunState (tsx r) (timers r) (clock r) (calls r).

(** The callbacks of the user. *)
Class StunUser (W : Type) := {
  on_send_msg : stun_state W -> stun_state W * pj_status;
  on_complete : pj_status -> option pj_stun_msg -> stun_state W -> stun_state W;
  on_destroy : stun_state W -> stun_state W
}.

Section Stun.
Context {W : Type} `{TimerService W}.

Definition calls_out (c : stun_call) (s : stun_state W) : stun_state W :=
  s <| calls ::= fun l => l ++ [(clock s, c)] |>.

Definition timer_id (e : Z) (s : stun_state W) : Z := ts_id (timers s) e.
Definition set_timer_id (e v : Z) (s : stun_state W) : stun_state W :=
  s <| timers ::= fun w => ts_set_id w e v |>.

(** [pj_timer_heap_cancel_if_active(heap, e, TIMER_INACTIVE)]. *)
Definition cancel_if_active (e : Z) (s : stun_state W) : stun_state W :=
  s <| timers ::= fun w => ts_cancel w e TIMER_INACTIVE |>.

(** [pj_timer_heap_schedule_w_grp_lock(heap, e, delay, TIMER_ACTIVE, grp_lock)]. *)
Definition schedule (e : Z) (delay : pj_time_val) (s : stun_state W) : stun_state W * pj_status :=
  let '(w, status) := ts_schedule (timers s) (clock s) e delay TIMER_ACTIVE (grp_lock (tsx s)) in
  (s <| timers := w |>, status).

(** The callbacks in the entries. *)
Definition retransmit_timer_cb : Z := 1.
Definition destroy_timer_cb : Z := 2.

(** [address], [rt] and [dt] are the addresses of the object and its entries;
    [cb] says which of the callbacks are there. *)
Definition pj_stun_client_tsx_create (rto grp : Z) (send complete destroy : bool)
    (address rt dt : Z) (now : pj_time_val) (w : W) : option (stun_state W) * pj_status :=
  if negb send then (None, PJ_EINVAL)
  else
    let tsx := StunTsx complete destroy 0 grp false false rto rt 0 (TV 0 0) dt 0 0 in
    let w := ts_init w rt retransmit_timer_cb address in
    let w := ts_init w dt destroy_timer_cb address in
    (Some (StunState tsx w now []), PJ_SUCCESS).

Definition pj_stun_client_tsx_schedule_destroy (delay : pj_time_val) (s : stun_state W) :
    stun_state W * pj_status :=
  if negb (cb_on_destroy (tsx s)) then (s, PJ_EINVAL)
  else
    let s := cancel_if_active (destroy_timer (tsx s)) s in
    let s := cancel_if_active (retransmit_timer (tsx s)) s in
    let '(s, status) := schedule (destroy_timer (tsx s)) delay s in
    if decide (status <> PJ_SUCCESS) then (s, status)
    else (s <| tsx ::= fun t => t <| cb_on_complete := false |> |>, PJ_SUCCESS).

Definition pj_stun_client_tsx_destroy (s : stun_state W) : stun_state W * pj_status := (s, PJ_SUCCESS).

Definition pj_stun_client_tsx_stop (s : stun_state W) : stun_state W * pj_status :=
  let s := cancel_if_active (retransmit_timer (tsx s)) s in
  let s := cancel_if_active (destroy_timer (tsx s)) s in
  (s, PJ_SUCCESS).

Definition pj_stun_client_tsx_is_complete (s : stun_state W) : bool := complete (tsx s).

Definition pj_stun_client_tsx_set_data (data : Z) (s : stun_state W) : stun_state W * pj_status :=
  (s <| tsx ::= fun t => t <| user_data := data |> |>, PJ_SUCCESS).
Definition pj_stun_client_tsx_get_data (s : stun_state W) : Z := user_data (tsx s).

(** *** Sending *)

Context `{StunUser W}.

(** The delay [tsx_transmit_msg] computes. *)
Definition transmit_delay (t : pj_stun_client_tsx) : pj_time_val :=
  if transmit_count t =? 0 then TV 0 (rto_msec t)
  else if transmit_count t <? PJ_STUN_MAX_TRANSMIT_COUNT - 1 then
    let msec := u32 (PJ_TIME_VAL_MSEC (retransmit_time t)) in
    let msec := u32 (Z.shiftl msec 1) in
    TV (msec / 1000) (msec mod 1000)
  else TV (PJ_STUN_TIMEOUT_VALUE / 1000) (PJ_STUN_TIMEOUT_VALUE mod 1000).

(** The timer is scheduled before the message is sent. *)
Definition arm_retransmit (s : stun_state W) : stun_state W * pj_status :=
  let s := s <| tsx ::= fun t => t <| retransmit_time := transmit_delay t |> |> in
  let '(s, status) := schedule (retransmit_timer (tsx s)) (retransmit_time (tsx s)) s in
  if decide (status <> PJ_SUCCESS)
  then (set_timer_id (retransmit_timer (tsx s)) TIMER_INACTIVE s, status)
  else (s, status).

(** The rest of [tsx_transmit_msg]. *)
Definition call_send (mod_count : bool) (s : stun_state W) : stun_state W * pj_status :=
  let s := if mod_count then s <| tsx ::= fun t => t <| transmit_count ::= fun n => u32 (n + 1) |> |>
           else s in
  let '(s, status) := on_send_msg (calls_out (Sends (last_pkt (tsx s)) (last_pkt_size (tsx s))) s) in
  let status := if bool_decide (status = PJ_EPENDING) || bool_decide (status = PJ_EBUSY)
                then PJ_SUCCESS else status in
  let s :=
    if decide (status = PJNATH_ESTUNDESTROYED) then s
    else if decide (status <> PJ_SUCCESS) then
      if mod_count || bool_decide (status = PJ_EINVALIDOP)
      then cancel_if_active (retransmit_timer (tsx s)) s else s
    else s in
  (s, status).

Definition tsx_transmit_msg (mod_count : bool) (s : stun_state W) : stun_state W * pj_status :=
  if negb ((timer_id (retransmit_timer (tsx s)) s =? TIMER_INACTIVE) ||
           negb (require_retransmit (tsx s)) || negb mod_count)
  then (s, PJ_EBUSY)
  else if require_retransmit (tsx s) && mod_count then
    let '(s, status) := arm_retransmit s in
    if decide (status <> PJ_SUCCESS) then (s, status) else call_send mod_count s
  else call_send mod_count s.

(** For a reliable transport the timeout is scheduled in the retransmit timer. *)
Definition arm_timeout (s : stun_state W) : stun_state W * pj_status :=
  let timeout := u32 (rto_msec (tsx s) * 16) in
  let s := s <| tsx ::= fun t => t <| transmit_count := PJ_STUN_MAX_TRANSMIT_COUNT |>
                                   <| retransmit_time := TV (timeout / 1000) (timeout mod 1000) |> |> in
  let '(s, status) := schedule (retransmit_timer (tsx s)) (retransmit_time (tsx s)) s in
  if decide (status <> PJ_SUCCESS)
  then (set_timer_id (retransmit_timer (tsx s)) TIMER_INACTIVE s, status)
  else (s, status).

Definition pj_stun_client_tsx_send_msg (retransmit : bool) (pkt pkt_len : Z) (s : stun_state W) :
    stun_state W * pj_status :=
  if negb (truth pkt && truth pkt_len) then (s, PJ_EINVAL)
  else if negb (timer_id (retransmit_timer (tsx s)) s =? 0) then (s, PJ_EBUSY)
  else
    let s := s <| tsx ::= fun t => t <| last_pkt := pkt |> <| last_pkt_size := pkt_len |>
                                     <| require_retransmit := retransmit |> |> in
    let '(s, status) := if retransmit then (s, PJ_SUCCESS) else arm_timeout s in
    if decide (status <> PJ_SUCCESS) then (s, status)
    else
      let '(s, status) := tsx_transmit_msg true s in
      if decide (status <> PJ_SUCCESS)
      then (cancel_if_active (retransmit_timer (tsx s)) s, status)
      else (s, PJ_SUCCESS).

(** [if (!tsx->complete) { ... }]. *)
Definition call_complete (status : pj_status) (response : option pj_stun_msg) (s : stun_state W) :
    stun_state W :=
  if complete (tsx s) then s
  else
    let s := s <| tsx ::= fun t => t <| complete := true |> |> in
    if cb_on_complete (tsx s) then on_complete status response (calls_out (Completes status response) s)
    else s.

Definition retransmit_timer_callback (s : stun_state W) : stun_state W :=
  if transmit_count (tsx s) >=? PJ_STUN_MAX_TRANSMIT_COUNT then
    call_complete PJNATH_ESTUNTIMEDOUT None (set_timer_id (retransmit_timer (tsx s)) 0 s)
  else
    let s := set_timer_id (retransmit_timer (tsx s)) 0 s in
    let '(s, status) := tsx_transmit_msg true s in
    if decide (status <> PJ_SUCCESS) then
      call_complete status None (set_timer_id (retransmit_timer (tsx s)) 0 s)
    else s.

Definition pj_stun_client_tsx_retransmit (mod_count : bool) (s : stun_state W) :
    stun_state W * pj_status :=
  if negb (timer_id (destroy_timer (tsx s)) s =? 0) then (s, PJ_SUCCESS)
  else
    let s := if mod_count then cancel_if_active (retransmit_timer (tsx s)) s else s in
    tsx_transmit_msg mod_count s.

Definition destroy_timer_callback (s : stun_state W) : stun_state W :=
  let s := set_timer_id (destroy_timer (tsx s)) 0 s in
  on_destroy (calls_out Destroys s).

Definition pj_stun_client_tsx_on_rx_msg (msg : pj_stun_msg) (s : stun_state W) :
    stun_state W * pj_status :=
  if negb (PJ_STUN_IS_SUCCESS_RESPONSE (msg_type msg)) && negb (PJ_STUN_IS_ERROR_RESPONSE (msg_type msg))
  then (s, PJNATH_EINSTUNMSGTYPE)
  else
    let s := cancel_if_active (retransmit_timer (tsx s)) s in
    let err_attr := pj_stun_msg_find_attr msg PJ_STUN_ATTR_ERROR_CODE 0 in
    let provisional := match err_attr with Some a => err_code a <=? 200 | None => false end in
    if provisional then (s, PJ_SUCCESS)
    else
      let status := match err_attr with
                    | None => PJ_SUCCESS
                    | Some a => PJ_STATUS_FROM_STUN_CODE (err_code a)
                    end in
      (call_complete status (Some msg) s, PJ_SUCCESS).

(** One round of the poll of the heap: the first entry due is taken out and
    its callback runs; other entries are those of other objects. *)
Definition stun_poll (s : stun_state W) : stun_state W :=
  match ts_next (timers s) with
  | Some e =>
      match ts_due (timers s) e with
      | Some t =>
          if PJ_TIME_VAL_LTE t (clock s) then
            let s := s <| timers ::= ts_pop |> in
            if e =? retransmit_timer (tsx s) then retransmit_timer_callback s
            else if e =? destroy_timer (tsx s) then destroy_timer_callback s
            else s
          else s
      | None => s
      end
  | None => s
  end.
End Stun.

(** ** The entries of a transaction *)

Section Facts.
Context {W : Type} `{TimerPromise W}.

Definition id_for (due : option pj_time_val) : Z :=
  match due with Some _ => TIMER_ACTIVE | None => TIMER_INACTIVE end.

(** The [id] of each entry says whether it is running. *)
Record entries_ok (rt dt : Z) (w : W) : Prop := {
  eo_wf : ts_wf w;
  eo_known : ts_known w rt /\ ts_known w dt;
  eo_distinct : rt <> dt;
  eo_rt : ts_id w rt = id_for (ts_due w rt);
  eo_dt : ts_id w dt = id_for (ts_due w dt)
}.

Lemma sets_rt rt dt w w' d : entries_ok rt dt w -> sets_entry w w' rt d (id_for d) ->
  entries_ok rt dt w'.
Proof.
  intros [Hw [Hr Hd] Hne _ Hi] [Hw' Hk Hdue Hid Hoth].
  destruct (Hoth dt (not_eq_sym Hne)) as [Hdd Hdi]. constructor; auto; congruence.
Qed.
Lemma sets_dt rt dt w w' d : entries_ok rt dt w -> sets_entry w w' dt d (id_for d) ->
  entries_ok rt dt w'.
Proof.
  intros [Hw [Hr Hd] Hne Hi _] [Hw' Hk Hdue Hid Hoth].
  destruct (Hoth rt Hne) as [Hdd Hdi]. constructor; auto; congruence.
Qed.

Lemma cancel_rt rt dt w : entries_ok rt dt w ->
  sets_entry w (ts_cancel w rt TIMER_INACTIVE) rt None (id_for None).
Proof.
  intros [Hw [Hr Hd] _ Hi _]. pose proof (ts_cancel_law w rt TIMER_INACTIVE Hw Hr) as Hs.
  rewrite Hi in Hs. by destruct (ts_due w rt).
Qed.
Lemma cancel_dt rt dt w : entries_ok rt dt w ->
  sets_entry w (ts_cancel w dt TIMER_INACTIVE) dt None (id_for None).
Proof.
  intros [Hw [Hr Hd] _ _ Hi]. pose proof (ts_cancel_law w dt TIMER_INACTIVE Hw Hd) as Hs.
  rewrite Hi in Hs. by destruct (ts_due w dt).
Qed.

(** A change of the heap that leaves the two entries alone. *)
Record keeps_entries (rt dt : Z) (w w' : W) : Prop := {
  ke_ok : entries_ok rt dt w';
  ke_due : ts_due w' rt = ts_due w rt /\ ts_due w' dt = ts_due w dt
}.

(** ** What the callbacks may do

    They may stop the transaction, schedule its destruction, set its data, use
    other entries of the heap, and let time pass. *)
Inductive user_may : stun_state W -> stun_state W -> Prop :=
  | may_nothing s : user_may s s
  | may_stop s : user_may s (pj_stun_client_tsx_stop s).1
  | may_schedule_destroy delay s : user_may s (pj_stun_client_tsx_schedule_destroy delay s).1
  | may_set_data data s : user_may s (pj_stun_client_tsx_set_data data s).1
  | may_use_heap s w : keeps_entries (retransmit_timer (tsx s)) (destroy_timer (tsx s)) (timers s) w ->
      user_may s (s <| timers := w |>)
  | may_wait s now : user_may s (s <| clock := now |>)
  | may_then s1 s2 s3 : user_may s1 s2 -> user_may s2 s3 -> user_may s1 s3.

Definition entries_of (s : stun_state W) : Prop :=
  entries_ok (retransmit_timer (tsx s)) (destroy_timer (tsx s)) (timers s).
Definition rt_due (s : stun_state W) : option pj_time_val := ts_due (timers s) (retransmit_timer (tsx s)).
Definition dt_due (s : stun_state W) : option pj_time_val := ts_due (timers s) (destroy_timer (tsx s)).

(** What none of these calls changes. *)
Record untouched (s s' : stun_state W) : Prop := {
  un_rt : retransmit_timer (tsx s') = retransmit_timer (tsx s);
  un_dt : destroy_timer (tsx s') = destroy_timer (tsx s);
  un_complete : complete (tsx s') = complete (tsx s);
  un_count : transmit_count (tsx s') = transmit_count (tsx s);
  un_calls : calls s' = calls s;
  un_gone : cb_on_complete (tsx s) = false -> cb_on_complete (tsx s') = false
}.
#[export] Instance untouched_preorder : PreOrder untouched.
Proof.
  split; [by constructor|]. intros s1 s2 s3 [] []. constructor; try congruence. auto.
Qed.

Lemma stop_ok s : entries_of s -> let s' := (pj_stun_client_tsx_stop s).1 in
  entries_of s' /\ untouched s s' /\ rt_due s' = None /\ dt_due s' = None.
Proof.
  unfold entries_of, rt_due, dt_due. intros Hs. pose proof (cancel_rt _ _ _ Hs) as H1.
  pose proof (sets_rt _ _ _ _ _ Hs H1) as Hs1. pose proof (cancel_dt _ _ _ Hs1) as H2.
  split; [exact (sets_dt _ _ _ _ _ Hs1 H2)|]. split; [by constructor|].
  split; [|exact (se_due _ _ _ _ _ H2)].
  rewrite <- (se_due _ _ _ _ _ H1). exact (proj1 (se_other _ _ _ _ _ H2 _ (eo_distinct _ _ _ Hs))).
Qed.

(** Scheduling an idle entry. *)
Lemma schedule_rt s delay : entries_of s -> rt_due s = None ->
  exists w, schedule (retransmit_timer (tsx s)) delay s = (s <| timers := w |>, PJ_SUCCESS) /\
    sets_entry (timers s) w (retransmit_timer (tsx s)) (Some (PJ_TIME_VAL_ADD (clock s) delay)) TIMER_ACTIVE.
Proof.
  unfold entries_of, rt_due, schedule. intros [Hw [Hr _] _ _ _] Hd.
  destruct (ts_schedule_idle (timers s) (clock s) _ delay TIMER_ACTIVE (grp_lock (tsx s)) Hw Hr Hd)
    as (w & -> & Hs). by exists w.
Qed.
Lemma schedule_dt s delay : entries_of s -> dt_due s = None ->
  exists w, schedule (destroy_timer (tsx s)) delay s = (s <| timers := w |>, PJ_SUCCESS) /\
    sets_entry (timers s) w (destroy_timer (tsx s)) (Some (PJ_TIME_VAL_ADD (clock s) delay)) TIMER_ACTIVE.
Proof.
  unfold entries_of, dt_due, schedule. intros [Hw [_ Hr] _ _ _] Hd.
  destruct (ts_schedule_idle (timers s) (clock s) _ delay TIMER_ACTIVE (grp_lock (tsx s)) Hw Hr Hd)
    as (w & -> & Hs). by exists w.
Qed.

Lemma schedule_destroy_ok delay s : entries_of s ->
  let '(s', status) := pj_stun_client_tsx_schedule_destroy delay s in
  entries_of s' /\ untouched s s' /\
  if cb_on_destroy (tsx s)
  then status = PJ_SUCCESS /\ rt_due s' = None /\
       dt_due s' = Some (PJ_TIME_VAL_ADD (clock s) delay) /\ cb_on_complete (tsx s') = false
  else status = PJ_EINVAL /\ s' = s.
Proof.
  unfold pj_stun_client_tsx_schedule_destroy. intros Hs.
  destruct (cb_on_destroy (tsx s)) eqn:Hc; cbn [negb]; [|by split_and!].
  pose proof (cancel_dt _ _ _ Hs) as H1. pose proof (sets_dt _ _ _ _ _ Hs H1) as Hs1.
  pose proof (cancel_rt _ _ _ Hs1) as H2. pose proof (sets_rt _ _ _ _ _ Hs1 H2) as Hs2.
  set (s2 := cancel_if_active _ (cancel_if_active _ s)).
  assert (dt_due s2 = None) as Hd2.
  { unfold dt_due. rewrite <- (se_due _ _ _ _ _ H1).
    exact (proj1 (se_other _ _ _ _ _ H2 _ (not_eq_sym (eo_distinct _ _ _ Hs)))). }
  change (destroy_timer (tsx _)) with (destroy_timer (tsx s2)).
  destruct (schedule_dt s2 delay Hs2 Hd2) as (w & -> & H3). rewrite decide_False by naive_solver.
  split; [exact (sets_dt _ _ _ _ _ Hs2 H3)|]. split; [by constructor|]. split; [done|].
  split; [|split; [exact (se_due _ _ _ _ _ H3)|done]].
  unfold rt_due. rewrite <- (se_due _ _ _ _ _ H2).
  exact (proj1 (se_other _ _ _ _ _ H3 _ (eo_distinct _ _ _ Hs))).
Qed.

Lemma user_may_ok s s' : user_may s s' -> entries_of s -> entries_of s' /\ untouched s s'.
Proof.
  intros Hu. induction Hu as [s|s|delay s|data s|s w Hk|s now|s1 s2 s3 _ IH1 _ IH2]; intros Hs.
  - done.
  - destruct (stop_ok s Hs) as (? & ? & _). done.
  - pose proof (schedule_destroy_ok delay s Hs) as H1.
    destruct (pj_stun_client_tsx_schedule_destroy delay s) as [s' st]. cbn. tauto.
  - split; [exact Hs|by constructor].
  - split; [exact (ke_ok _ _ _ _ Hk)|by constructor].
  - split; [exact Hs|by constructor].
  - destruct (IH1 Hs) as [Hs2 H12]. destruct (IH2 Hs2) as [Hs3 H23]. split; [done|by etransitivity].
Qed.

(** A new transaction. *)
Lemma stun_create_ok rto grp has_complete has_destroy address rt dt now w s0 :
  ts_wf w -> rt <> dt -> ts_due w rt = None -> ts_due w dt = None ->
  pj_stun_client_tsx_create rto grp true has_complete has_destroy address rt dt now w = (Some s0, PJ_SUCCESS) ->
  entries_of s0 /\ complete (tsx s0) = false /\ cb_on_complete (tsx s0) = has_complete /\
  rto_msec (tsx s0) = rto /\ transmit_count (tsx s0) = 0 /\ calls s0 = [] /\
  ((forall e, ts_due w e = None) -> forall e, ts_due (timers s0) e = None).
Proof.
  intros Hw Hne Hr Hd Hcr.
  destruct (ts_init_law w rt retransmit_timer_cb address Hw Hr ltac:(done)) as [Hk1 H1].
  destruct (se_other _ _ _ _ _ H1 dt (not_eq_sym Hne)) as [Ed _].
  destruct (ts_init_law _ dt destroy_timer_cb address (se_wf _ _ _ _ _ H1)
    (eq_trans Ed Hd) ltac:(done)) as [Hk2 H2].
  destruct (se_other _ _ _ _ _ H2 rt Hne) as [Ed2 Ei2].
  injection Hcr as <-. split; [|split_and!; try done].
  - constructor; cbn; [exact (se_wf _ _ _ _ _ H2)| |done| |].
    + split; [|done]. by apply (se_known _ _ _ _ _ H2).
    + rewrite Ed2, Ei2, (se_due _ _ _ _ _ H1). exact (se_id _ _ _ _ _ H1).
    + rewrite (se_due _ _ _ _ _ H2). exact (se_id _ _ _ _ _ H2).
  - intros Hi e. cbn. destruct (decide (e = dt)) as [->|Hn]; [exact (se_due _ _ _ _ _ H2)|].
    rewrite (proj1 (se_other _ _ _ _ _ H2 e Hn)).
    destruct (decide (e = rt)) as [->|Hn2]; [exact (se_due _ _ _ _ _ H1)|].
    rewrite (proj1 (se_other _ _ _ _ _ H1 e Hn2)). apply Hi.
Qed.

(** The interface of the user, stated to the transaction. *)
Class UserPromise {U : StunUser W} : Prop := {
  send_may s : user_may s (on_send_msg s).1;
  send_gone s : entries_of s -> (on_send_msg s).2 = PJNATH_ESTUNDESTROYED ->
    rt_due (on_send_msg s).1 = None;
  complete_may status response s : user_may s (on_complete status response s);
  destroy_may s : user_may s (on_destroy s)
}.

(** ** The outcome *)

(** The results the user has been given. *)
Definition outcomes (s : stun_state W) : list (pj_status * option pj_stun_msg) :=
  omap (fun c => match c.2 with Completes status r => Some (status, r) | _ => None end) (calls s).

Lemma outcomes_out c s : outcomes (calls_out c s) =
  outcomes s ++ match c with Completes status r => [(status, r)] | _ => [] end.
Proof. unfold outcomes, calls_out. cbv [modify]. cbn [calls]. rewrite omap_app. by destruct c. Qed.

(** Success is never reported without a response, and the status of a
    response is that of its error code. *)
Definition answers (status : pj_status) (r : option pj_stun_msg) : Prop :=
  match r with
  | None => status <> PJ_SUCCESS
  | Some msg =>
      match pj_stun_msg_find_attr msg PJ_STUN_ATTR_ERROR_CODE 0 with
      | None => status = PJ_SUCCESS
      | Some a => 200 < err_code a /\ status = PJ_STATUS_FROM_STUN_CODE (err_code a)
      end
  end.

(** At most one outcome, and none before the transaction is complete. *)
Record stun_wf (s : stun_state W) : Prop := {
  sw_entries : entries_of s;
  sw_outcomes : outcomes s = [] \/
    complete (tsx s) = true /\ exists status r, outcomes s = [(status, r)] /\ answers status r
}.

Record advances (s s' : stun_state W) : Prop := {
  ad_entries : entries_of s';
  ad_rt : retransmit_timer (tsx s') = retransmit_timer (tsx s);
  ad_dt : destroy_timer (tsx s') = destroy_timer (tsx s);
  ad_complete : complete (tsx s') = complete (tsx s);
  ad_outcomes : outcomes s' = outcomes s
}.

Lemma advances_trans s1 s2 s3 : advances s1 s2 -> advances s2 s3 -> advances s1 s3.
Proof. intros [] []. constructor; congruence. Qed.
Lemma advances_wf s s' : stun_wf s -> advances s s' -> stun_wf s'.
Proof. intros [He Ho] [? ? ? Hc Hout]. constructor; [done|]. by rewrite Hc, Hout. Qed.
Lemma may_advances s s' : user_may s s' -> entries_of s -> advances s s'.
Proof.
  intros Hm Hs. destruct (user_may_ok s s' Hm Hs) as [Hs' []]. constructor; try done.
  unfold outcomes. congruence.
Qed.

(** A change of the object, the clock or the heap. *)
Lemma heap_advances s w d : entries_of s ->
  sets_entry (timers s) w (retransmit_timer (tsx s)) d (id_for d) -> advances s (s <| timers := w |>).
Proof. intros Hs Hw. constructor; try done. exact (sets_rt _ _ _ _ _ Hs Hw). Qed.
Lemma cancel_advances s : entries_of s ->
  advances s (cancel_if_active (retransmit_timer (tsx s)) s) /\
  rt_due (cancel_if_active (retransmit_timer (tsx s)) s) = None.
Proof.
  intros Hs. pose proof (cancel_rt _ _ _ Hs) as Hc.
  split; [exact (heap_advances s _ None Hs Hc)|exact (se_due _ _ _ _ _ Hc)].
Qed.

Section User.
Context `{!StunUser W} `{!UserPromise}.

Lemma call_send_ok mod_count s : entries_of s ->
  let '(s', status) := call_send mod_count s in
  advances s s' /\ (mod_count = true -> status <> PJ_SUCCESS -> rt_due s' = None).
Proof.
  unfold call_send. intros Hs. set (s1 := if mod_count then _ else s).
  set (s2 := calls_out _ s1).
  assert (advances s s2) as H2.
  { unfold s2, s1. constructor; try (by destruct mod_count).
    rewrite outcomes_out, app_nil_r. by destruct mod_count. }
  pose proof (may_advances _ _ (send_may s2) (ad_entries _ _ H2)) as H3.
  pose proof (send_gone s2 (ad_entries _ _ H2)) as Hgone.
  destruct (on_send_msg s2) as [s3 st]. cbn [fst snd] in *.
  pose proof (advances_trans _ _ _ H2 H3) as Had.
  destruct (cancel_advances s3 (ad_entries _ _ H3)) as [Hc Hcd].
  pose proof (advances_trans _ _ _ Had Hc) as Hadc.
  destruct (bool_decide_reflect (st = PJ_EPENDING)), (bool_decide_reflect (st = PJ_EBUSY)); cbn [orb];
    try (rewrite decide_False, decide_False by naive_solver; by split).
  destruct (decide (st = PJNATH_ESTUNDESTROYED)); [split; [done|]; by intros _ _; apply Hgone|].
  destruct (decide (st <> PJ_SUCCESS)) as [Hne|]; [|by split].
  destruct mod_count; cbn [orb]; [by split|]. destruct (bool_decide _); by split.
Qed.

Lemma idle_rt s : entries_of s ->
  (timer_id (retransmit_timer (tsx s)) s =? TIMER_INACTIVE) = match rt_due s with None => true | _ => false end.
Proof. unfold timer_id, rt_due. intros [_ _ _ -> _]. by destruct (ts_due _ _). Qed.

Lemma arm_ok s : entries_of s -> rt_due s = None ->
  exists w, let t := (tsx s) <| retransmit_time := transmit_delay (tsx s) |> in
    arm_retransmit s = (s <| tsx := t |> <| timers := w |>, PJ_SUCCESS) /\
    sets_entry (timers s) w (retransmit_timer (tsx s))
      (Some (PJ_TIME_VAL_ADD (clock s) (transmit_delay (tsx s)))) TIMER_ACTIVE.
Proof.
  intros Hs Hd. unfold arm_retransmit. set (s1 := s <| tsx ::= _ |>).
  change (retransmit_time (tsx s1)) with (transmit_delay (tsx s)).
  destruct (schedule_rt s1 (transmit_delay (tsx s)) Hs Hd) as (w & -> & Hw). exists w.
  rewrite decide_False by naive_solver. by split.
Qed.

Lemma transmit_ok mod_count s : entries_of s ->
  let '(s', status) := tsx_transmit_msg mod_count s in
  advances s s' /\
  (mod_count = true -> rt_due s = None \/ require_retransmit (tsx s) = false ->
   status <> PJ_SUCCESS -> rt_due s' = None).
Proof.
  intros Hs. unfold tsx_transmit_msg. rewrite idle_rt by done.
  assert (forall s, entries_of s -> let '(s', status) := call_send mod_count s in
    advances s s' /\ (mod_count = true -> status <> PJ_SUCCESS -> rt_due s' = None)) as Hsend
    by (intros; by apply call_send_ok).
  destruct (require_retransmit (tsx s)) eqn:Hreq; cbn [negb orb andb].
  2:{ rewrite orb_true_r. cbn. specialize (Hsend s Hs). destruct (call_send _ s). tauto. }
  destruct mod_count; cbn [negb orb andb].
  2:{ rewrite orb_true_r. cbn. specialize (Hsend s Hs). destruct (call_send _ s). tauto. }
  destruct (rt_due s) eqn:Hd; cbn [negb orb].
  - split; [by constructor|]. by intros _ [?|?].
  - destruct (arm_ok s Hs Hd) as (w & -> & Hw). rewrite decide_False by naive_solver.
    set (s1 := s <| tsx := _ |> <| timers := w |>).
    assert (advances s s1) as H1 by (constructor; try done; exact (sets_rt _ _ _ _ _ Hs Hw)).
    specialize (Hsend s1 (ad_entries _ _ H1)). destruct (call_send true s1).
    destruct Hsend as [H2 H3]. split; [by eapply advances_trans|tauto].
Qed.

Lemma call_complete_ok status r s : stun_wf s -> answers status r ->
  stun_wf (call_complete status r s) /\ complete (tsx (call_complete status r s)) = true.
Proof.
  intros [Hs Ho] Ha. unfold call_complete. destruct (complete (tsx s)) eqn:Hc.
  { split; [|done]. constructor; [done|]. by rewrite Hc. }
  destruct Ho as [Ho|[? _]]; [|congruence].
  set (s1 := s <| tsx ::= _ |>). destruct (cb_on_complete (tsx s1)).
  2:{ split; [|done]. constructor; [exact Hs|]. left. exact Ho. }
  set (s2 := calls_out _ s1). assert (stun_wf s2) as Hwf.
  { constructor; [exact Hs|]. right. split; [done|]. exists status, r. split; [|done].
    unfold s2. rewrite outcomes_out. change (outcomes s1) with (outcomes s). by rewrite Ho. }
  pose proof (may_advances _ _ (complete_may status r s2) (sw_entries _ Hwf)) as Had.
  split; [by eapply advances_wf|]. by rewrite (ad_complete _ _ Had).
Qed.

(** Clearing the [id] of an idle entry. *)
Lemma clear_rt rt dt w : entries_ok rt dt w -> ts_due w rt = None ->
  sets_entry w (ts_set_id w rt 0) rt None (id_for None).
Proof. intros [Hw [Hr _] _ _ _] Hd. rewrite <- Hd at 1. by apply ts_set_id_law. Qed.

Lemma clear_advances s : entries_of s -> rt_due s = None ->
  advances s (set_timer_id (retransmit_timer (tsx s)) 0 s).
Proof. intros Hs Hd. exact (heap_advances s _ None Hs (clear_rt _ _ _ Hs Hd)). Qed.

Lemma callback_ok s : let s1 := set_timer_id (retransmit_timer (tsx s)) 0 s in
  stun_wf s1 -> rt_due s1 = None -> stun_wf (retransmit_timer_callback s).
Proof.
  intros s1 Hwf Hd. unfold retransmit_timer_callback. fold s1. destruct (_ >=? _).
  { by apply call_complete_ok. }
  pose proof (transmit_ok true s1 (sw_entries _ Hwf)) as Ht.
  destruct (tsx_transmit_msg true s1) as [s2 st]. destruct Ht as [Had Hidle].
  pose proof (advances_wf _ _ Hwf Had) as Hwf2.
  destruct (decide (st <> PJ_SUCCESS)) as [Hne|]; [|done].
  apply call_complete_ok; [|done].
  eapply advances_wf; [exact Hwf2|]. apply clear_advances; [by apply sw_entries|]. by apply Hidle; [|left|].
Qed.

Lemma popped_rt rt dt w : entries_ok rt dt w -> ts_next w = Some rt ->
  entries_ok rt dt (ts_set_id (ts_pop w) rt 0) /\ ts_due (ts_set_id (ts_pop w) rt 0) rt = None.
Proof.
  intros [Hw [Hr Hdk] Hne Hi Hj] Hn. destruct (ts_pop_law w rt Hw Hn) as (_ & Hp & _).
  pose proof (ts_set_id_law _ rt 0 (se_wf _ _ _ _ _ Hp) (se_known _ _ _ _ _ Hp _ Hr)) as Hs.
  destruct (se_other _ _ _ _ _ Hp dt (not_eq_sym Hne)) as [Ed Ei].
  destruct (se_other _ _ _ _ _ Hs dt (not_eq_sym Hne)) as [Ed' Ei'].
  assert (ts_due (ts_set_id (ts_pop w) rt 0) rt = None) as Hd
    by (rewrite (se_due _ _ _ _ _ Hs); exact (se_due _ _ _ _ _ Hp)).
  split; [|done]. constructor; [exact (se_wf _ _ _ _ _ Hs)| |done| |congruence].
  - split; apply (se_known _ _ _ _ _ Hs), (se_known _ _ _ _ _ Hp); done.
  - rewrite Hd. exact (se_id _ _ _ _ _ Hs).
Qed.

Lemma entries_swap rt dt w : entries_ok rt dt w -> entries_ok dt rt w.
Proof. intros [? [] ? ? ?]. by constructor. Qed.

Lemma stun_poll_ok s : stun_wf s -> stun_wf (stun_poll s).
Proof.
  intros Hwf. pose proof Hwf as [Hs Ho]. unfold stun_poll.
  destruct (ts_next (timers s)) as [e|] eqn:Hn; [|done].
  destruct (ts_due (timers s) e) as [t|]; [|done]. destruct (PJ_TIME_VAL_LTE t (clock s)); [|done].
  set (s1 := s <| timers ::= ts_pop |>). change (tsx s1) with (tsx s).
  destruct (Z.eqb_spec e (retransmit_timer (tsx s))) as [->|Hr].
  { destruct (popped_rt _ _ _ Hs Hn) as [Hok Hd]. apply callback_ok; [|exact Hd].
    constructor; [exact Hok|exact Ho]. }
  destruct (Z.eqb_spec e (destroy_timer (tsx s))) as [->|Hdt].
  - destruct (popped_rt _ _ _ (entries_swap _ _ _ Hs) Hn) as [Hok _].
    unfold destroy_timer_callback. set (s2 := set_timer_id _ 0 s1).
    assert (stun_wf (calls_out Destroys s2)) as Hwf2.
    { constructor; [exact (entries_swap _ _ _ Hok)|]. rewrite outcomes_out, app_nil_r. exact Ho. }
    eapply advances_wf; [exact Hwf2|]. apply may_advances; [apply destroy_may|by apply sw_entries].
  - pose proof Hs as [Hw [Hk1 Hk2] Hne Hi Hj]. destruct (ts_pop_law _ e Hw Hn) as (_ & Hp & _).
    destruct (se_other _ _ _ _ _ Hp _ (not_eq_sym Hr)) as [Ed Ei].
    destruct (se_other _ _ _ _ _ Hp _ (not_eq_sym Hdt)) as [Ed' Ei'].
    pose proof (se_known _ _ _ _ _ Hp) as Hk. pose proof (se_wf _ _ _ _ _ Hp).
    constructor; [|exact Ho]. change (timers s1) with (ts_pop (timers s)).
    unfold entries_of. change (timers s1) with (ts_pop (timers s)). change (tsx s1) with (tsx s).
    constructor; auto; congruence.
Qed.

(** *** The calls *)

Lemma stun_send_msg_ok retransmit pkt len s : entries_of s ->
  advances s (pj_stun_client_tsx_send_msg retransmit pkt len s).1.
Proof.
  intros Hs. unfold pj_stun_client_tsx_send_msg.
  destruct (negb (truth pkt && truth len)); [by constructor|].
  change 0 with TIMER_INACTIVE. rewrite idle_rt by done.
  destruct (rt_due s) as [t|] eqn:Hd; cbn [negb]; [by constructor|].
  set (s1 := s <| tsx ::= _ |>). assert (advances s s1) as H1 by (by constructor).
  assert (exists s2, (if retransmit then (s1, PJ_SUCCESS) else arm_timeout s1) = (s2, PJ_SUCCESS) /\
    advances s1 s2) as (s2 & -> & H2).
  { destruct retransmit; [exists s1; split; [done|]; by constructor|].
    unfold arm_timeout. set (s2 := s1 <| tsx ::= _ |>).
    destruct (schedule_rt s2 (retransmit_time (tsx s2)) Hs Hd) as (w & -> & Hw).
    rewrite decide_False by naive_solver. eexists. split; [done|].
    apply (advances_trans s1 s2); [by constructor|exact (heap_advances s2 w (Some _) Hs Hw)]. }
  rewrite decide_False by naive_solver.
  pose proof (transmit_ok true s2 (ad_entries _ _ H2)) as Ht.
  destruct (tsx_transmit_msg true s2) as [s3 st]. destruct Ht as [H3 _].
  pose proof (advances_trans _ _ _ H1 (advances_trans _ _ _ H2 H3)) as Had.
  destruct (decide _); cbn [fst]; [|done].
  eapply advances_trans; [exact Had|]. apply cancel_advances. by apply ad_entries in H3.
Qed.

Lemma stun_retransmit_ok mod_count s : entries_of s ->
  advances s (pj_stun_client_tsx_retransmit mod_count s).1.
Proof.
  intros Hs. unfold pj_stun_client_tsx_retransmit. destruct (negb _); [by constructor|].
  set (s1 := if mod_count then _ else s).
  assert (advances s s1) as H1
    by (unfold s1; destruct mod_count; [apply cancel_advances; exact Hs|by constructor]).
  pose proof (transmit_ok mod_count s1 (ad_entries _ _ H1)) as Ht.
  destruct (tsx_transmit_msg mod_count s1) as [s2 st]. eapply advances_trans; [exact H1|]. apply Ht.
Qed.

Lemma on_rx_msg_ok msg s : stun_wf s -> stun_wf (pj_stun_client_tsx_on_rx_msg msg s).1.
Proof.
  intros Hwf. unfold pj_stun_client_tsx_on_rx_msg. destruct (negb _ && negb _); [done|].
  destruct (cancel_advances s (sw_entries _ Hwf)) as [Hc _]. set (s1 := cancel_if_active _ s) in *.
  pose proof (advances_wf _ _ Hwf Hc) as Hwf1.
  destruct (pj_stun_msg_find_attr msg PJ_STUN_ATTR_ERROR_CODE 0) as [a|] eqn:Hf.
  - destruct (Z.leb_spec (err_code a) 200); [done|]. apply call_complete_ok; [done|].
    cbn. rewrite Hf. split; [lia|done].
  - apply call_complete_ok; [done|]. cbn. by rewrite Hf.
Qed.

(** A step of the world of a transaction. *)
Inductive stun_step : stun_state W -> stun_state W -> Prop :=
  | step_user s s' : user_may s s' -> stun_step s s'
  | step_send_msg retransmit pkt len s : stun_step s (pj_stun_client_tsx_send_msg retransmit pkt len s).1
  | step_retransmit mod_count s : stun_step s (pj_stun_client_tsx_retransmit mod_count s).1
  | step_rx_msg msg s : stun_step s (pj_stun_client_tsx_on_rx_msg msg s).1
  | step_poll s : stun_step s (stun_poll s).

Lemma step_wf s s' : stun_step s s' -> stun_wf s -> stun_wf s'.
Proof.
  intros Hst Hwf. pose proof (sw_entries _ Hwf) as Hs.
  destruct Hst as [s s' Hm| | | |].
  - eapply advances_wf; [exact Hwf|]. by apply may_advances.
  - eapply advances_wf; [exact Hwf|]. by apply stun_send_msg_ok.
  - eapply advances_wf; [exact Hwf|]. by apply stun_retransmit_ok.
  - by apply on_rx_msg_ok.
  - by apply stun_poll_ok.
Qed.

(** Nothing the user may do starts the retransmission timer. *)
Lemma user_may_idle s s' : user_may s s' -> entries_of s -> rt_due s = None -> rt_due s' = None.
Proof.
  intros Hu. induction Hu as [s|s|delay s|data s|s w Hk|s now|s1 s2 s3 H12 IH1 _ IH2]; intros Hs Hd; try done.
  - by destruct (stop_ok s Hs) as (_ & _ & ? & _).
  - pose proof (schedule_destroy_ok delay s Hs) as H1.
    destruct (pj_stun_client_tsx_schedule_destroy delay s) as [s' st]. destruct H1 as (_ & _ & H1). cbn.
    destruct (cb_on_destroy (tsx s)); [tauto|]. by destruct H1 as [_ ->].
  - exact (eq_trans (proj1 (ke_due _ _ _ _ Hk)) Hd).
  - apply IH2; [exact (proj1 (user_may_ok _ _ H12 Hs))|by apply IH1].
Qed.

(** The new outcomes of a completion. *)
Lemma call_complete_outcomes status r s : entries_of s -> rt_due s = None ->
  let s' := call_complete status r s in
  outcomes s' = outcomes s ++
    (if complete (tsx s) then [] else if cb_on_complete (tsx s) then [(status, r)] else []) /\
  complete (tsx s') = true /\ rt_due s' = None.
Proof.
  intros Hs Hd. unfold call_complete. destruct (complete (tsx s)) eqn:Hc; cbv zeta.
  { rewrite app_nil_r. by split_and!. }
  set (s1 := s <| tsx ::= _ |>). change (cb_on_complete (tsx s1)) with (cb_on_complete (tsx s)).
  destruct (cb_on_complete (tsx s)); [|rewrite app_nil_r; by split_and!].
  set (s2 := calls_out _ s1). pose proof (complete_may status r s2) as Hm.
  pose proof (may_advances _ _ Hm Hs) as Had. rewrite (ad_outcomes _ _ Had), (ad_complete _ _ Had).
  split_and!; [|done|by eapply user_may_idle; [exact Hm|..]]. unfold s2. by rewrite outcomes_out.
Qed.

(** Every transmission is one call of the user. *)
Lemma call_send_calls mod_count s : entries_of s ->
  let s' := (call_send mod_count s).1 in
  calls s' = calls s ++ [(clock s, Sends (last_pkt (tsx s)) (last_pkt_size (tsx s)))] /\
  (rt_due s = None -> rt_due s' = None).
Proof.
  unfold call_send. intros Hs. set (s1 := if mod_count then _ else s). set (s2 := calls_out _ s1).
  assert (entries_of s2) as Hs2 by (unfold s2, s1; by destruct mod_count).
  assert (calls s2 = calls s ++ [(clock s, Sends (last_pkt (tsx s)) (last_pkt_size (tsx s)))]) as <-
    by (unfold s2, s1; by destruct mod_count).
  assert (rt_due s2 = rt_due s) as <- by (unfold s2, s1; by destruct mod_count).
  pose proof (send_may s2) as Hm. destruct (user_may_ok _ _ Hm Hs2) as [Hs3 Hun].
  pose proof (user_may_idle _ _ Hm Hs2) as Hidle. pose proof (un_calls _ _ Hun) as Hcalls.
  destruct (on_send_msg s2) as [s3 st]. cbn [fst] in *. cbv zeta. set (st' := if _ || _ then _ else st).
  assert (forall s4, s4 = s3 \/ s4 = cancel_if_active (retransmit_timer (tsx s3)) s3 ->
    calls s4 = calls s2 /\ (rt_due s2 = None -> rt_due s4 = None)) as Hfin.
  { intros s4 [-> | ->]; [done|]. split; [exact Hcalls|]. intros _. by apply cancel_advances. }
  apply Hfin. cbn [fst]. destruct (decide (st' = _)); [by left|].
  destruct (decide (st' <> _)); [|by left]. destruct (mod_count || _); auto.
Qed.

Definition is_response (msg : pj_stun_msg) : bool :=
  PJ_STUN_IS_SUCCESS_RESPONSE (msg_type msg) || PJ_STUN_IS_ERROR_RESPONSE (msg_type msg).

(** The outcome a response stands for; [None] for a provisional one. *)
Definition response_status (msg : pj_stun_msg) : option pj_status :=
  match pj_stun_msg_find_attr msg PJ_STUN_ATTR_ERROR_CODE 0 with
  | None => Some PJ_SUCCESS
  | Some a => if err_code a <=? 200 then None else Some (PJ_STATUS_FROM_STUN_CODE (err_code a))
  end.
End User.
End Facts.

(** ** What a transaction guarantees *)

(** C10: however its user, its timers and the network interleave -- calls in
    any order, callbacks that stop the transaction or schedule its destruction,
    sends that fail -- a transaction reports at most one outcome, none before it
    is complete, success only with a response and a failure code only from an
    error code above 200; and the ids of its timers always say which is running. *)
Theorem stun_one_outcome {W} `{TimerPromise W} `{!StunUser W} `{!UserPromise}
    rto grp has_complete has_destroy address rt dt now w s0 s :
  ts_wf w -> rt <> dt -> ts_due w rt = None -> ts_due w dt = None ->
  pj_stun_client_tsx_create rto grp true has_complete has_destroy address rt dt now w = (Some s0, PJ_SUCCESS) ->
  rtc stun_step s0 s ->
  entries_of s /\ (length (outcomes s) <= 1)%nat /\
  (complete (tsx s) = false -> outcomes s = []) /\
  (forall status r, (status, r) ∈ outcomes s -> answers status r).
Proof.
  intros Hw Hne Hr Hd Hcr Hreach.
  destruct (stun_create_ok _ _ _ _ _ _ _ _ _ _ Hw Hne Hr Hd Hcr) as (He & _ & _ & _ & _ & Hcalls & _).
  assert (stun_wf s0) as Hwf0 by (constructor; [exact He|left; unfold outcomes; by rewrite Hcalls]).
  assert (stun_wf s) as [Hs Ho].
  { clear Hcr He Hcalls. induction Hreach as [|s0 s1 s2 Hst _ IH]; [done|]. by apply IH, (step_wf s0). }
  destruct Ho as [Ho|(Hc & st & r & Ho & Ha)]; rewrite Ho; cbn.
  - split_and!; [done|lia|done|by intros ? ? ?%elem_of_nil].
  - split_and!; [done|lia|congruence|]. intros st' r' [= -> ->]%list_elem_of_singleton. done.
Qed.

(** What an arriving message does, on every branch.  One that is not a
    response is refused without effect; any response ends the retransmission;
    a provisional one, up to code 200, does nothing else; any other completes
    the transaction, and its status is reported unless an outcome was reported
    before or the user has asked for destruction. *)
Lemma stun_rx_spec {W} `{TimerPromise W} `{!StunUser W} `{!UserPromise} msg (s : stun_state W) :
  entries_of s ->
  let '(s', status) := pj_stun_client_tsx_on_rx_msg msg s in
  if negb (is_response msg) then status = PJNATH_EINSTUNMSGTYPE /\ s' = s
  else
    status = PJ_SUCCESS /\ entries_of s' /\ rt_due s' = None /\
    match response_status msg with
    | None => outcomes s' = outcomes s /\ complete (tsx s') = complete (tsx s)
    | Some st =>
        complete (tsx s') = true /\
        outcomes s' = outcomes s ++
          (if complete (tsx s) then [] else if cb_on_complete (tsx s) then [(st, Some msg)] else [])
    end.
Proof.
  intros Hs. unfold pj_stun_client_tsx_on_rx_msg, is_response, response_status. rewrite negb_orb.
  destruct (negb _ && negb _); [done|].
  destruct (cancel_advances s Hs) as [Hc Hd]. set (s1 := cancel_if_active _ s) in *.
  pose proof (ad_entries _ _ Hc) as Hs1.
  assert (forall st, entries_of (call_complete st (Some msg) s1)) as Hent.
  { intros st. unfold call_complete. destruct (complete (tsx s1)); [done|].
    set (s2 := s1 <| tsx ::= _ |>). destruct (cb_on_complete _); [|done].
    exact (ad_entries _ _ (may_advances _ _ (complete_may st (Some msg) (calls_out _ s2)) Hs1)). }
  destruct (pj_stun_msg_find_attr msg PJ_STUN_ATTR_ERROR_CODE 0) as [a|]; [destruct (err_code a <=? 200)|];
    (split; [done|]); [by split_and!|..].
  - destruct (call_complete_outcomes (PJ_STATUS_FROM_STUN_CODE (err_code a)) (Some msg) s1 Hs1 Hd) as (? & ? & ?).
    by split_and!.
  - destruct (call_complete_outcomes PJ_SUCCESS (Some msg) s1 Hs1 Hd) as (? & ? & ?). by split_and!.
Qed.

(** ** Time

    A transaction whose user sends what it is asked to, with any result, and
    does nothing else, alone on its heap: the clock moves to the time the next
    entry is due, and the heap is polled. *)
Section Run.
Context {W : Type} `{TimerPromise W} `{!StunUser W}.
Variable send_result : stun_state W -> pj_status.
Hypothesis user_sends : forall s, on_send_msg s = (s, send_result s).
Hypothesis user_listens : forall status r s, on_complete status r s = s.
Hypothesis user_stays : forall s, send_result s <> PJNATH_ESTUNDESTROYED.

Fixpoint run (fuel : nat) (s : stun_state W) : stun_state W :=
  match fuel with
  | O => s
  | S fuel =>
      match ts_next (timers s) with
      | Some e =>
          match ts_due (timers s) e with
          | Some t => run fuel (stun_poll (s <| clock := t |>))
          | None => s
          end
      | None => s
      end
  end.

(** No entry but [rt] is running. *)
Definition alone (s : stun_state W) : Prop :=
  forall e, e <> retransmit_timer (tsx s) -> ts_due (timers s) e = None.

(** The results of a send that let the transaction go on. *)
Definition accepted (status : pj_status) : bool :=
  bool_decide (status = PJ_SUCCESS) || bool_decide (status = PJ_EPENDING) || bool_decide (status = PJ_EBUSY).

(** Waiting for a response, the retransmission timer due at [t]. *)
Record waiting (s : stun_state W) (t : pj_time_val) : Prop := {
  wa_entries : entries_of s;
  wa_alone : alone s;
  wa_due : rt_due s = Some t;
  wa_open : complete (tsx s) = false /\ cb_on_complete (tsx s) = true;
  wa_count : is_u32 (transmit_count (tsx s));
  wa_unreliable : require_retransmit (tsx s) = true \/ PJ_STUN_MAX_TRANSMIT_COUNT <= transmit_count (tsx s)
}.

(** Done with outcome [status], nothing running. *)
Record ended (s : stun_state W) (status : pj_status) : Prop := {
  en_complete : complete (tsx s) = true;
  en_idle : forall e, ts_due (timers s) e = None;
  en_status : status = PJNATH_ESTUNTIMEDOUT \/ exists s', status = send_result s' /\ accepted status = false
}.

(** The state in which the message is sent next. *)
Definition resending (s : stun_state W) (t : pj_time_val) (w : W) : stun_state W :=
  let tx := (tsx s) <| retransmit_time := transmit_delay (tsx s) |>
                    <| transmit_count ::= fun n => u32 (n + 1) |> in
  StunState tx w t (calls s ++ [(t, Sends (last_pkt (tsx s)) (last_pkt_size (tsx s)))]).

Lemma next_alone s t : entries_of s -> alone s -> rt_due s = Some t ->
  ts_next (timers s) = Some (retransmit_timer (tsx s)).
Proof.
  intros [Hw _ _ _ _] Ha Hd. destruct (ts_next (timers s)) as [e|] eqn:Hn.
  - destruct (ts_pop_law _ e Hw Hn) as (_ & _ & t' & Ht & _).
    destruct (decide (e = retransmit_timer (tsx s))) as [->|Hne]; [done|].
    rewrite (Ha e Hne) in Ht. done.
  - unfold rt_due in Hd. rewrite (ts_next_none _ Hw Hn) in Hd. done.
Qed.

(** A fired timer runs its callback, the entry idle again. *)
Lemma run_fires fuel s t : waiting s t ->
  exists w, let s1 := s <| clock := t |> <| timers := w |> in
    run (S fuel) s = run fuel (retransmit_timer_callback (s <| clock := t |> <| timers ::= ts_pop |>)) /\
    set_timer_id (retransmit_timer (tsx s)) 0 (s <| clock := t |> <| timers ::= ts_pop |>) = s1 /\
    entries_of s1 /\ forall e, ts_due w e = None.
Proof.
  intros [Hs Ha Hd _ _ _]. pose proof (next_alone s t Hs Ha Hd) as Hn.
  destruct (popped_rt _ _ _ Hs Hn) as [Hok Hi]. pose proof Hs as [Hw [Hr _] _ _ _].
  destruct (ts_pop_law _ _ Hw Hn) as (_ & Hp & _).
  pose proof (ts_set_id_law _ _ 0 (se_wf _ _ _ _ _ Hp) (se_known _ _ _ _ _ Hp _ Hr)) as Hsi.
  exists (ts_set_id (ts_pop (timers s)) (retransmit_timer (tsx s)) 0). cbv zeta.
  split; [|split; [done|split; [exact Hok|]]].
  - cbn [run]. rewrite Hn. unfold rt_due in Hd. rewrite Hd. unfold stun_poll.
    set (s1 := s <| clock := t |>). change (timers s1) with (timers s). rewrite Hn, Hd.
    change (clock s1) with t.
    replace (PJ_TIME_VAL_LTE t t) with true by (symmetry; apply (tv_le_refl t)).
    change (tsx (s1 <| timers ::= ts_pop |>)) with (tsx s). by rewrite Z.eqb_refl.
  - intros e. destruct (decide (e = retransmit_timer (tsx s))) as [->|Hne]; [exact Hi|].
    rewrite (proj1 (se_other _ _ _ _ _ Hsi _ Hne)), (proj1 (se_other _ _ _ _ _ Hp _ Hne)).
    by apply Ha.
Qed.

Lemma run_idle fuel s : ts_wf (timers s) -> (forall e, ts_due (timers s) e = None) -> run fuel s = s.
Proof.
  intros Hw Hi. destruct fuel as [|fuel]; [done|]. cbn [run].
  destruct (ts_next (timers s)) as [e|]; [|done]. by rewrite Hi.
Qed.

(** Completing an idle transaction. *)
Lemma completed fuel status s : entries_of s -> (forall e, ts_due (timers s) e = None) ->
  complete (tsx s) = false -> cb_on_complete (tsx s) = true ->
  status = PJNATH_ESTUNTIMEDOUT \/ (exists s', status = send_result s' /\ accepted status = false) ->
  let s' := run fuel (call_complete status None s) in
  ended s' status /\ calls s' = calls s ++ [(clock s, Completes status None)].
Proof.
  intros Hs Hi Hc Hcb Hst. unfold call_complete. rewrite Hc.
  change (cb_on_complete (tsx (s <| tsx ::= _ |>))) with (cb_on_complete (tsx s)).
  rewrite Hcb, user_listens. cbv zeta. rewrite run_idle by (exact (eo_wf _ _ _ Hs) || exact Hi).
  split; [by constructor|done].
Qed.

Lemma run_last fuel s t : waiting s t -> PJ_STUN_MAX_TRANSMIT_COUNT <= transmit_count (tsx s) ->
  let s' := run (S fuel) s in
  ended s' PJNATH_ESTUNTIMEDOUT /\ calls s' = calls s ++ [(t, Completes PJNATH_ESTUNTIMEDOUT None)].
Proof.
  intros Hwa Hc. destruct (run_fires fuel s t Hwa) as (w & Hrun & Hset & Hs1 & Hi). cbv zeta. rewrite Hrun.
  unfold retransmit_timer_callback.
  change (tsx (s <| clock := t |> <| timers ::= ts_pop |>)) with (tsx s).
  destruct (Z.geb_spec (transmit_count (tsx s)) PJ_STUN_MAX_TRANSMIT_COUNT); [|lia]. rewrite Hset.
  destruct (wa_open _ _ Hwa) as [Hop Hcb].
  exact (completed fuel PJNATH_ESTUNTIMEDOUT _ Hs1 Hi Hop Hcb (or_introl eq_refl)).
Qed.

Lemma arm_alone s1 : entries_of s1 -> (forall e, ts_due (timers s1) e = None) ->
  require_retransmit (tsx s1) = true -> is_u32 (transmit_count (tsx s1)) ->
  transmit_count (tsx s1) < PJ_STUN_MAX_TRANSMIT_COUNT ->
  complete (tsx s1) = false -> cb_on_complete (tsx s1) = true ->
  exists w, let s2 := resending s1 (clock s1) w in
    tsx_transmit_msg true s1 =
      (if accepted (send_result s2) then (s2, PJ_SUCCESS)
       else (cancel_if_active (retransmit_timer (tsx s1)) s2, send_result s2)) /\
    waiting s2 (PJ_TIME_VAL_ADD (clock s1) (transmit_delay (tsx s1))).
Proof.
  intros Hs Hi Hreq Hu Hlt Hc Hcb. assert (rt_due s1 = None) as Hd by apply Hi.
  destruct (arm_ok s1 Hs Hd) as (w & Harm & Hw). exists w. cbv zeta. split.
  - unfold tsx_transmit_msg. rewrite idle_rt, Hd, Hreq, Harm by done. cbn [negb orb andb].
    rewrite decide_False by naive_solver. unfold call_send. rewrite user_sends.
    set (s2 := calls_out _ _). change (resending s1 (clock s1) w) with s2.
    pose proof (user_stays s2) as Hstay. unfold accepted.
    destruct (bool_decide_reflect (send_result s2 = PJ_SUCCESS)) as [->|Hne]; [done|].
    destruct (bool_decide_reflect (send_result s2 = PJ_EPENDING)) as [->|];
      [by rewrite decide_False, decide_False by naive_solver|].
    destruct (bool_decide_reflect (send_result s2 = PJ_EBUSY)) as [->|];
      [by rewrite decide_False, decide_False by naive_solver|].
    cbn [orb]. by rewrite decide_False, decide_True.
  - constructor; cbn; try done.
    + exact (sets_rt _ _ _ _ _ Hs Hw).
    + intros e Hne. exact (eq_trans (proj1 (se_other _ _ _ _ _ Hw e Hne)) (Hi e)).
    + exact (se_due _ _ _ _ _ Hw).
    + apply u32_range.
    + by left.
Qed.

Lemma run_more fuel s t : waiting s t -> transmit_count (tsx s) < PJ_STUN_MAX_TRANSMIT_COUNT ->
  exists w, let s1 := resending s t w in
    if accepted (send_result s1) then
      run (S fuel) s = run fuel s1 /\ waiting s1 (PJ_TIME_VAL_ADD t (transmit_delay (tsx s)))
    else
      ended (run (S fuel) s) (send_result s1) /\
      calls (run (S fuel) s) = calls s1 ++ [(t, Completes (send_result s1) None)].
Proof.
  intros Hwa Hlt. destruct (run_fires fuel s t Hwa) as (w & Hrun & Hset & Hs1 & Hi).
  set (s1 := s <| clock := t |> <| timers := w |>) in *.
  destruct Hwa as [_ _ _ [Hc Hcb] Hu [Hreq|?]]; [|lia].
  destruct (arm_alone s1 Hs1 Hi Hreq Hu Hlt Hc Hcb) as (w2 & Htx & Hwa2). exists w2. cbv zeta.
  change (resending s1 (clock s1) w2) with (resending s t w2) in *. rewrite Hrun.
  unfold retransmit_timer_callback.
  change (tsx (s <| clock := t |> <| timers ::= ts_pop |>)) with (tsx s).
  destruct (Z.geb_spec (transmit_count (tsx s)) PJ_STUN_MAX_TRANSMIT_COUNT); [lia|]. rewrite Hset, Htx.
  destruct (accepted (send_result (resending s t w2))) eqn:Hacc.
  { rewrite decide_False by naive_solver. done. }
  assert (send_result (resending s t w2) <> PJ_SUCCESS) as Hne
    by (intros Heq; unfold accepted in Hacc; by rewrite Heq in Hacc).
  rewrite decide_True by done. set (s2 := resending s t w2) in *.
  destruct (cancel_advances s2 (wa_entries _ _ Hwa2)) as [Had Hd].
  pose proof (clear_advances _ (ad_entries _ _ Had) Hd) as Hclr. set (s3 := cancel_if_active _ s2) in *.
  refine (completed fuel (send_result s2) _ (ad_entries _ _ Hclr) _ Hc Hcb _).
  - pose proof (cancel_rt _ _ _ (wa_entries _ _ Hwa2)) as Hcr.
    pose proof (clear_rt _ _ _ (ad_entries _ _ Had) Hd) as Hcl.
    intros e. destruct (decide (e = retransmit_timer (tsx s2))) as [->|Hn].
    + exact (se_due _ _ _ _ _ Hcl).
    + etransitivity; [exact (proj1 (se_other _ _ _ _ _ Hcl e Hn))|].
      etransitivity; [exact (proj1 (se_other _ _ _ _ _ Hcr e Hn))|]. by apply (wa_alone _ _ Hwa2).
  - right. by exists s2.
Qed.

(** The request goes out and the transaction waits. *)
Lemma send_msg_waits pkt len s : pkt <> 0 -> len <> 0 -> entries_of s ->
  (forall e, ts_due (timers s) e = None) -> complete (tsx s) = false -> cb_on_complete (tsx s) = true ->
  0 <= transmit_count (tsx s) < PJ_STUN_MAX_TRANSMIT_COUNT ->
  exists w, let s1 := s <| tsx ::= fun t => t <| last_pkt := pkt |> <| last_pkt_size := len |>
                                             <| require_retransmit := true |> |> in
    let s2 := resending s1 (clock s) w in
    accepted (send_result s2) = true ->
    pj_stun_client_tsx_send_msg true pkt len s = (s2, PJ_SUCCESS) /\
    waiting s2 (PJ_TIME_VAL_ADD (clock s) (transmit_delay (tsx s))).
Proof.
  intros Hpkt Hlen Hs Hi Hc Hcb Hn. unfold pj_stun_client_tsx_send_msg. unfold truth.
  rewrite (proj2 (Z.eqb_neq _ _) Hpkt), (proj2 (Z.eqb_neq _ _) Hlen). cbn [negb andb].
  change 0 with TIMER_INACTIVE at 1. rewrite idle_rt by done.
  assert (rt_due s = None) as -> by apply Hi. cbn [negb]. rewrite decide_False by naive_solver.
  set (s1 := s <| tsx ::= _ |>). change (transmit_count (tsx s)) with (transmit_count (tsx s1)) in Hn.
  change PJ_STUN_MAX_TRANSMIT_COUNT with 7 in Hn.
  destruct (arm_alone s1 Hs Hi eq_refl) as (w & Htx & Hwa); [unfold is_u32; lia|apply Hn|done..|].
  exists w. cbv zeta. intros Hacc. change (clock s1) with (clock s) in *. rewrite Hacc in Htx.
  rewrite Htx, decide_False by naive_solver. by split.
Qed.
End Run.

(** ** Liveness and timing *)

Definition is_sends (c : pj_time_val * stun_call) : bool :=
  match c.2 with Sends _ _ => true | _ => false end.

(** The calls, their times in milliseconds. *)
Definition times {W} (s : stun_state W) : list (Z * stun_call) :=
  (fun c => (PJ_TIME_VAL_MSEC c.1, c.2)) <$> calls s.

(** When the timer fires after [n] transmissions, in milliseconds from the
    first one. *)
Definition fires_at (rto : Z) (n : nat) : Z :=
  if (n <? 7)%nat then (2 ^ Z.of_nat n - 1) * rto else 63 * rto + PJ_STUN_TIMEOUT_VALUE.

Section Timing.
Context {W : Type} `{TimerPromise W} `{!StunUser W} (send_result : stun_state W -> pj_status).
Hypothesis user_sends : forall s, on_send_msg s = (s, send_result s).
Hypothesis user_listens : forall status r s, on_complete status r s = s.
Hypothesis user_accepts : forall s, accepted (send_result s) = true.

Lemma user_never_gone s : send_result s <> PJNATH_ESTUNDESTROYED.
Proof. intros Heq. pose proof (user_accepts s) as Ha. rewrite Heq in Ha. done. Qed.

Variables (base : list (Z * stun_call)) (t0 rto pkt len : Z).
Hypothesis rto_ok : 0 < rto /\ 32 * rto < 4294967296.

(** [n] transmissions made, the timer due. *)
Record sent (n : nat) (s : stun_state W) (t : pj_time_val) : Prop := {
  st_waiting : waiting s t;
  st_count : transmit_count (tsx s) = Z.of_nat n;
  st_pkt : last_pkt (tsx s) = pkt /\ last_pkt_size (tsx s) = len;
  st_due : PJ_TIME_VAL_MSEC t = t0 + fires_at rto n;
  st_delay : (n < 7)%nat -> PJ_TIME_VAL_MSEC (retransmit_time (tsx s)) = rto * 2 ^ (Z.of_nat n - 1);
  st_times : times s = base ++ ((fun k => (t0 + fires_at rto k, Sends pkt len)) <$> seq 0 n)
}.

Lemma msec_add a b : PJ_TIME_VAL_MSEC (PJ_TIME_VAL_ADD a b) = PJ_TIME_VAL_MSEC a + PJ_TIME_VAL_MSEC b.
Proof.
  unfold PJ_TIME_VAL_ADD. rewrite (proj1 (normalize_total _)). unfold PJ_TIME_VAL_MSEC. cbn. lia.
Qed.

Lemma split_msec m : PJ_TIME_VAL_MSEC (TV (m / 1000) (m mod 1000)) = m.
Proof. unfold PJ_TIME_VAL_MSEC. cbn. Z.to_euclidean_division_equations; lia. Qed.

(** The next delay is twice the last one, and the timeout after the seventh. *)
Lemma delay_step n s t : sent n s t -> (1 <= n < 7)%nat ->
  PJ_TIME_VAL_MSEC (transmit_delay (tsx s)) = if (n <? 6)%nat then rto * 2 ^ Z.of_nat n else PJ_STUN_TIMEOUT_VALUE.
Proof.
  intros [_ Hc _ _ Hdl _] Hn. unfold transmit_delay. rewrite Hc. specialize (Hdl ltac:(lia)).
  destruct (Z.eqb_spec (Z.of_nat n) 0); [lia|]. change (PJ_STUN_MAX_TRANSMIT_COUNT - 1) with 6.
  destruct (Z.ltb_spec (Z.of_nat n) 6), (Nat.ltb_spec n 6); try lia; [|done].
  rewrite split_msec, Hdl, Z.shiftl_mul_pow2 by lia.
  assert (2 ^ Z.of_nat n = 2 * 2 ^ (Z.of_nat n - 1)) as Hp
    by (rewrite <- Z.pow_succ_r by lia; f_equal; lia).
  assert (0 < 2 ^ (Z.of_nat n - 1) <= 16) as [Hp0 Hp1].
  { split; [apply Z.pow_pos_nonneg; lia|]. change 16 with (2 ^ 4). apply Z.pow_le_mono_r; lia. }
  rewrite Hp. assert (rto * 2 ^ (Z.of_nat n - 1) <= rto * 16) by (apply Z.mul_le_mono_nonneg_l; lia).
  rewrite (u32_small (rto * _)) by (unfold is_u32; lia).
  rewrite u32_small by (unfold is_u32; lia). lia.
Qed.

Lemma fires_step n : (1 <= n < 7)%nat ->
  fires_at rto n + (if (n <? 6)%nat then rto * 2 ^ Z.of_nat n else PJ_STUN_TIMEOUT_VALUE) = fires_at rto (S n).
Proof.
  intros Hn. unfold fires_at. destruct (Nat.ltb_spec n 6), (Nat.ltb_spec n 7), (Nat.ltb_spec (S n) 7); try lia.
  - rewrite Nat2Z.inj_succ, Z.pow_succ_r by lia. lia.
  - replace n with 6%nat by lia. change (2 ^ Z.of_nat 6) with 64. lia.
Qed.

Lemma times_resending (s : stun_state W) t w : times (resending s t w) =
  times s ++ [(PJ_TIME_VAL_MSEC t, Sends (last_pkt (tsx s)) (last_pkt_size (tsx s)))].
Proof. unfold times, resending. cbn [calls]. by rewrite fmap_app. Qed.

Lemma sent_step fuel n s t : sent n s t -> (1 <= n < 7)%nat ->
  exists s' t', run (S fuel) s = run fuel s' /\ sent (S n) s' t'.
Proof.
  intros Hsent Hn. pose proof (delay_step n s t Hsent Hn) as Hdelay.
  destruct Hsent as [Hwa Hc [Hp Hl] Hdue _ Ht].
  destruct (run_more send_result user_sends user_listens user_never_gone fuel s t Hwa) as (w & Hmore).
  { rewrite Hc. change PJ_STUN_MAX_TRANSMIT_COUNT with 7. lia. }
  cbv zeta in Hmore. rewrite user_accepts in Hmore. destruct Hmore as [Hrun Hwa'].
  exists (resending s t w), (PJ_TIME_VAL_ADD t (transmit_delay (tsx s))). split; [exact Hrun|].
  constructor; [exact Hwa'| |by split| | |].
  - change (u32 (transmit_count (tsx s) + 1) = Z.of_nat (S n)).
    rewrite Hc, u32_small by (unfold is_u32; lia). lia.
  - rewrite msec_add, Hdelay, Hdue, <- fires_step by done. lia.
  - intros Hlt. change (retransmit_time _) with (transmit_delay (tsx s)). rewrite Hdelay. destruct (Nat.ltb_spec n 6); [|lia]. do 2 f_equal. lia.
  - rewrite times_resending, Ht, Hp, Hl, Hdue, seq_S, fmap_app, app_assoc. done.
Qed.

Lemma sent_all fuel n s t : sent n s t -> (1 <= n <= 7)%nat ->
  let s' := run (S (7 - n) + fuel) s in
  times s' = base ++ ((fun k => (t0 + fires_at rto k, Sends pkt len)) <$> seq 0 7) ++
    [(t0 + fires_at rto 7, Completes PJNATH_ESTUNTIMEDOUT None)] /\
  ended send_result s' PJNATH_ESTUNTIMEDOUT.
Proof.
  remember (7 - n)%nat as k eqn:Hk. revert n s t Hk. induction k as [|k IH]; intros n s t Hk Hsent Hn.
  - assert (n = 7%nat) as -> by lia. destruct Hsent as [Hwa Hc _ Hdue _ Ht].
    destruct (run_last send_result user_listens fuel s t Hwa) as [He Hcalls].
    { rewrite Hc. reflexivity. }
    split; [|exact He]. unfold times in *. change (S 0 + fuel)%nat with (S fuel). rewrite Hcalls, fmap_app, Ht.
    cbn [fmap list_fmap fst snd]. by rewrite Hdue, <- app_assoc.
  - destruct (sent_step (S k + fuel) n s t Hsent ltac:(lia)) as (s' & t' & Hrun & Hsent').
    change (S (S k) + fuel)%nat with (S (S k + fuel)). cbv zeta. rewrite Hrun.
    exact (IH (S n) s' t' ltac:(lia) Hsent' ltac:(lia)).
Qed.
End Timing.

(** C37: a request that is never answered is sent seven times, at 0, 1, 3, 7, 15,
    31 and 63 times the round-trip time, and 1600 milliseconds after the last
    transmission the transaction reports the timeout, once, and nothing is left
    running; with every send accepted, for any round-trip time below 2^27. *)
Theorem stun_times_out {W} `{TimerPromise W} `{!StunUser W} (send_result : stun_state W -> pj_status)
    rto pkt len s fuel :
  (forall s, on_send_msg s = (s, send_result s)) ->
  (forall status r s, on_complete status r s = s) ->
  (forall s, accepted (send_result s) = true) ->
  0 < rto -> rto < 134217728 -> pkt <> 0 -> len <> 0 ->
  entries_of s -> (forall e, ts_due (timers s) e = None) ->
  complete (tsx s) = false -> cb_on_complete (tsx s) = true ->
  rto_msec (tsx s) = rto -> transmit_count (tsx s) = 0 -> (7 <= fuel)%nat ->
  let '(s1, status) := pj_stun_client_tsx_send_msg true pkt len s in
  let s2 := run fuel s1 in
  let t0 := PJ_TIME_VAL_MSEC (clock s) in
  status = PJ_SUCCESS /\
  times s2 = times s ++ ((fun k => (t0 + k * rto, Sends pkt len)) <$> [0; 1; 3; 7; 15; 31; 63]) ++
    [(t0 + 63 * rto + 1600, Completes PJNATH_ESTUNTIMEDOUT None)] /\
  complete (tsx s2) = true /\ forall e, ts_due (timers s2) e = None.
Proof.
  intros Hsend Hlisten Hacc Hr1 Hr2 Hpkt Hlen Hs Hi Hc Hcb Hrto Hn Hf.
  destruct (send_msg_waits send_result Hsend (user_never_gone send_result Hacc) pkt len s Hpkt Hlen Hs Hi Hc Hcb)
    as (w & Hw); [by rewrite Hn|].
  destruct (Hw (Hacc _)) as [-> Hwa]. clear Hw. set (s1 := s <| tsx ::= _ |>) in *.
  set (s2 := resending s1 (clock s) w) in *.
  assert (Hsent : sent (times s) (PJ_TIME_VAL_MSEC (clock s)) rto pkt len 1 s2
    (PJ_TIME_VAL_ADD (clock s) (transmit_delay (tsx s)))).
  { assert (transmit_delay (tsx s) = TV 0 rto) as Hdelay by (unfold transmit_delay; by rewrite Hn, Hrto).
    constructor; [exact Hwa| |done| | |].
    - change (u32 (transmit_count (tsx s) + 1) = 1). by rewrite Hn.
    - rewrite msec_add, Hdelay. unfold fires_at, PJ_TIME_VAL_MSEC. cbn. lia.
    - intros _. change (retransmit_time (tsx s2)) with (transmit_delay (tsx s)). rewrite Hdelay.
      unfold PJ_TIME_VAL_MSEC. cbn. lia.
    - unfold s2. rewrite times_resending. change (times s1) with (times s). do 2 f_equal.
      cbn [fmap list_fmap seq]. change (fires_at rto 0) with 0. by rewrite Z.add_0_r. }
  destruct (sent_all send_result Hsend Hlisten Hacc _ _ rto pkt len ltac:(lia) (fuel - 7) 1 s2 _ Hsent ltac:(lia))
    as [Ht He].
  replace (S (7 - 1) + (fuel - 7))%nat with fuel in * by lia.
  split; [done|]. split; [|split; [exact (en_complete _ _ _ He)|exact (en_idle _ _ _ He)]].
  rewrite <- (Z.add_assoc _ (63 * rto)). exact Ht.
Qed.

(** C38: from any moment a transaction waits for a response, whatever results
    its sends have, the poll of its heap brings it to an end: after at most the
    transmissions it has left it reports its one outcome, the timeout or the
    failure of a send, and nothing is left running. *)
Theorem stun_ends {W} `{TimerPromise W} `{!StunUser W} (send_result : stun_state W -> pj_status) s t fuel :
  (forall s, on_send_msg s = (s, send_result s)) ->
  (forall status r s, on_complete status r s = s) ->
  (forall s, send_result s <> PJNATH_ESTUNDESTROYED) ->
  waiting s t -> PJ_STUN_MAX_TRANSMIT_COUNT - transmit_count (tsx s) < Z.of_nat fuel -> (0 < fuel)%nat ->
  exists status t' sends, ended send_result (run fuel s) status /\
    calls (run fuel s) = calls s ++ sends ++ [(t', Completes status None)] /\
    forallb is_sends sends = true /\
    zlen sends <= Z.max 0 (PJ_STUN_MAX_TRANSMIT_COUNT - transmit_count (tsx s)).
Proof.
  intros Hsend Hlisten Hstay. revert s t. induction fuel as [|fuel IH]; intros s t Hwa Hfuel Hpos; [lia|].
  destruct (decide (transmit_count (tsx s) < PJ_STUN_MAX_TRANSMIT_COUNT)) as [Hlt|Hge].
  - destruct (run_more send_result Hsend Hlisten Hstay fuel s t Hwa Hlt) as (w & Hmore). cbv zeta in Hmore.
    set (s1 := resending s t w) in *.
    set (snd1 := (t, Sends (last_pkt (tsx s)) (last_pkt_size (tsx s)))).
    assert (calls s1 = calls s ++ [snd1]) as Hc1 by done.
    destruct (accepted (send_result s1)).
    + destruct Hmore as [Hrun Hwa1].
      assert (transmit_count (tsx s1) = transmit_count (tsx s) + 1) as Hcnt.
      { change (transmit_count (tsx s1)) with (u32 (transmit_count (tsx s) + 1)).
        destruct (wa_count _ _ Hwa). change PJ_STUN_MAX_TRANSMIT_COUNT with 7 in *. apply u32_small. unfold is_u32. lia. }
      destruct (IH s1 _ Hwa1) as (st & t' & sends & He & Hc & Hall & Hlen); [lia|lia|].
      exists st, t', (snd1 :: sends). rewrite Hrun. split; [exact He|].
      split; [by rewrite Hc, Hc1, <- app_assoc|]. split; [exact Hall|].
      unfold zlen in *. cbn [length]. lia.
    + destruct Hmore as [He Hc]. exists (send_result s1), t, [snd1]. split; [exact He|].
      split; [by rewrite Hc, Hc1, <- app_assoc|]. split; [done|]. unfold zlen. cbn. lia.
  - destruct (run_last send_result Hlisten fuel s t Hwa ltac:(lia)) as [He Hc].
    exists PJNATH_ESTUNTIMEDOUT, t, []. split; [exact He|]. split; [exact Hc|]. split; [done|].
    unfold zlen. cbn. lia.
Qed.

(** A retransmission asked for by the user: none once destruction is
    scheduled; otherwise the request is sent once more, no outcome is reported,
    and when the transmission counts and fails the retransmission stops.  On a
    reliable transport it takes the timeout of the transaction away with it, so
    that nothing is left that could end an unanswered request. *)
Lemma stun_retransmit_spec {W} `{TimerPromise W} `{!StunUser W} `{!UserPromise} mod_count (s : stun_state W) :
  entries_of s ->
  let '(s', status) := pj_stun_client_tsx_retransmit mod_count s in
  match dt_due s with
  | Some _ => s' = s /\ status = PJ_SUCCESS
  | None =>
      entries_of s' /\ outcomes s' = outcomes s /\
      calls s' = calls s ++ [(clock s, Sends (last_pkt (tsx s)) (last_pkt_size (tsx s)))] /\
      (mod_count = true -> status <> PJ_SUCCESS \/ require_retransmit (tsx s) = false -> rt_due s' = None)
  end.
Proof.
  intros Hs. pose proof (stun_retransmit_ok mod_count s Hs) as Had. revert Had.
  unfold pj_stun_client_tsx_retransmit.
  assert (timer_id (destroy_timer (tsx s)) s = id_for (dt_due s)) as -> by exact (eo_dt _ _ _ Hs).
  destruct (dt_due s) as [p|]; [change (negb (id_for (Some p) =? 0)) with true; by intros _|].
  change (negb (id_for None =? 0)) with false.
  set (s1 := if mod_count then _ else s).
  assert (entries_of s1 /\ calls s1 = calls s /\ clock s1 = clock s /\ tsx s1 = tsx s /\
    (mod_count = true -> rt_due s1 = None)) as (Hs1 & Ec & Ek & Et & Hd).
  { unfold s1. destruct mod_count; [|done]. destruct (cancel_advances s Hs) as [Ha Hd].
    split; [exact (ad_entries _ _ Ha)|]. by split_and!. }
  pose proof (transmit_ok mod_count s1 Hs1) as Ht. cbv iota.
  destruct (tsx_transmit_msg mod_count s1) as [s' st] eqn:Htx. cbn [fst]. intros Had.
  destruct Ht as [_ Hfail]. split; [exact (ad_entries _ _ Had)|]. split; [exact (ad_outcomes _ _ Had)|].
  rewrite <- Ec, <- Ek, <- Et. revert Htx. unfold tsx_transmit_msg. rewrite idle_rt by done.
  pose proof (call_send_calls mod_count s1 Hs1) as [Hcs Hci].
  destruct (require_retransmit (tsx s1)) eqn:Hreq; cbn [negb orb andb].
  2:{ rewrite orb_true_r. cbn [negb orb]. intros Htx. rewrite Htx in Hcs, Hci. split; [exact Hcs|].
      intros Hm _. by apply Hci, Hd. }
  destruct mod_count; cbn [negb orb andb].
  2:{ rewrite orb_true_r. cbn [negb]. intros Htx. rewrite Htx in Hcs. split; [exact Hcs|]. done. }
  rewrite Hd by done. cbn [negb orb]. destruct (arm_ok s1 Hs1 (Hd eq_refl)) as (w & -> & Hw).
  rewrite decide_False by naive_solver. set (s2 := s1 <| tsx := _ |> <| timers := w |>).
  intros Htx. assert (entries_of s2) as Hs2 by exact (sets_rt _ _ _ _ _ Hs1 Hw).
  pose proof (call_send_calls true s2 Hs2) as [Hcs2 _]. rewrite Htx in Hcs2. split; [exact Hcs2|].
  intros _ [Hne|?]; [|done]. apply Hfail; [done|left; by apply Hd|done].
Qed.

(** ** On the timer heap *)

Section Demo.
#[local] Instance demo_service : TimerService Timer.world :=
  heap_service Timer.demo_pool Timer.no_dup 0 (fun w _ => w).
#[local] Instance demo_promise : TimerPromise Timer.world :=
  heap_promise Timer.demo_pool Timer.no_dup 0 (fun w _ => w) Timer.demo_pool_enough.

(** A user that asks for the destruction when the transaction is complete, and
    one that only listens. *)
Definition careful_user : StunUser Timer.world := {|
  on_send_msg s := (s, PJ_EPENDING);
  on_complete _ _ s := (pj_stun_client_tsx_schedule_destroy (TV 0 300) s).1;
  on_destroy s := (pj_stun_client_tsx_stop s).1
|}.
Definition passive_user : StunUser Timer.world := {|
  on_send_msg s := (s, PJ_SUCCESS);
  on_complete _ _ s := s;
  on_destroy s := s
|}.

Lemma careful_promise : @UserPromise _ _ careful_user.
Proof.
  constructor; cbn; intros; [apply may_nothing|done|apply may_schedule_destroy|apply may_stop].
Qed.

Definition demo_create : option (stun_state Timer.world) * pj_status :=
  pj_stun_client_tsx_create 100 5 true true true 77 10 11 (TV 1 0) Timer.demo_world.
Definition demo_new : stun_state Timer.world :=
  default (StunState (StunTsx false false 0 0 false false 0 0 0 (TV 0 0) 0 0 0) Timer.demo_world (TV 0 0) [])
    demo_create.1.

Lemma demo_heap_wf : ts_wf Timer.demo_world.
Proof. exact Timer.demo_wf. Qed.

Lemma demo_idle e : ts_due Timer.demo_world e = None.
Proof. apply ts_next_none; [exact demo_heap_wf|reflexivity]. Qed.

Lemma demo_new_ok : entries_of demo_new /\ forall e, ts_due (timers demo_new) e = None.
Proof.
  assert (demo_create = (Some demo_new, PJ_SUCCESS)) as Hcr by reflexivity.
  destruct (stun_create_ok 100 5 true true 77 10 11 (TV 1 0) Timer.demo_world demo_new demo_heap_wf ltac:(done)
    (demo_idle 10) (demo_idle 11) Hcr) as (He & _ & _ & _ & _ & _ & Hi).
  split; [exact He|exact (Hi demo_idle)].
Qed.

(** A request, its answer, and its answer again. *)
Definition demo_hdr (type : Z) : pj_stun_msg_hdr := MsgHdr type 0 PJ_STUN_MAGIC (replicate 12 7).
Definition demo_answer : pj_stun_msg :=
  StunMsg (demo_hdr 257) [SockaddrAttr (AttrHdr 32 8) true (SockIn 40000 16777343)].
Definition demo_refusal : pj_stun_msg :=
  StunMsg (demo_hdr 273) [ErrcodeAttr (AttrHdr 9 4) 401 []].
Definition demo_waiting {U : StunUser Timer.world} (retransmit : bool) : stun_state Timer.world :=
  (pj_stun_client_tsx_send_msg retransmit 9 20 demo_new).1.

Lemma demo_waiting_ok {U : StunUser Timer.world} retransmit : UserPromise -> entries_of (demo_waiting retransmit).
Proof. intros HU. exact (ad_entries _ _ (stun_send_msg_ok _ _ _ _ (proj1 demo_new_ok))). Qed.

Section Careful.
#[local] Existing Instance careful_user.
#[local] Existing Instance careful_promise.

Lemma stun_one_outcome_witness :
  exists s, rtc (stun_step) demo_new s /\
    outcomes s = [(PJ_SUCCESS, Some demo_answer)] /\ (length (outcomes s) <= 1)%nat.
Proof.
  set (s1 := demo_waiting true).
  set (s2 := (pj_stun_client_tsx_on_rx_msg demo_answer s1).1).
  set (s3 := (pj_stun_client_tsx_on_rx_msg demo_answer s2).1).
  assert (rtc (stun_step) demo_new s3) as Hreach.
  { eapply rtc_l; [apply step_send_msg|]. eapply rtc_l; [apply step_rx_msg|].
    eapply rtc_l; [apply step_rx_msg|]. apply rtc_refl. }
  exists s3. split; [exact Hreach|]. split; [vm_compute; reflexivity|].
  assert (demo_create = (Some demo_new, PJ_SUCCESS)) as Hcr by reflexivity.
  apply (stun_one_outcome 100 5 true true 77 10 11 (TV 1 0)
    Timer.demo_world demo_new s3 demo_heap_wf ltac:(done) (demo_idle 10) (demo_idle 11) Hcr Hreach).
Defined.

Lemma stun_rx_spec_witness :
  rt_due (pj_stun_client_tsx_on_rx_msg demo_refusal
    (demo_waiting true)).1 = None /\
  outcomes (pj_stun_client_tsx_on_rx_msg demo_refusal
    (demo_waiting true)).1 = [(PJ_STATUS_FROM_STUN_CODE 401, Some demo_refusal)].
Proof.
  pose proof (stun_rx_spec demo_refusal
    (demo_waiting true) (demo_waiting_ok true _)) as Hrx.
  split; [|vm_compute; reflexivity].
  destruct (pj_stun_client_tsx_on_rx_msg _ _) as [s' st]. exact (proj1 (proj2 (proj2 Hrx))).
Defined.

Lemma stun_retransmit_spec_witness :
  rt_due (demo_waiting false) = Some (TV 2 600) /\
  rt_due (pj_stun_client_tsx_retransmit true (demo_waiting false)).1 = None.
Proof.
  split; [vm_compute; reflexivity|].
  pose proof (stun_retransmit_spec true (demo_waiting false) (demo_waiting_ok false _)) as Hre.
  assert (dt_due (demo_waiting false) = None) as Hd by (vm_compute; reflexivity). rewrite Hd in Hre.
  assert (require_retransmit (tsx (demo_waiting false)) = false) as Hreq by reflexivity.
  destruct (pj_stun_client_tsx_retransmit true (demo_waiting false)) as [s' st].
  destruct Hre as (_ & _ & _ & Hre). exact (Hre eq_refl (or_intror Hreq)).
Defined.
End Careful.

Section Passive.
#[local] Existing Instance passive_user.

Lemma stun_times_out_witness :
  times (run 7 (demo_waiting true)) =
    [(1000, Sends 9 20); (1100, Sends 9 20); (1300, Sends 9 20); (1700, Sends 9 20); (2500, Sends 9 20);
     (4100, Sends 9 20); (7300, Sends 9 20); (8900, Completes PJNATH_ESTUNTIMEDOUT None)] /\
  complete (tsx (run 7 (demo_waiting true))) = true.
Proof.
  pose proof (stun_times_out (fun _ => PJ_SUCCESS) 100 9 20 demo_new 7) as Hout.
  specialize (Hout ltac:(done) ltac:(done) ltac:(done) ltac:(lia) ltac:(lia) ltac:(done) ltac:(done)
    (proj1 demo_new_ok) (proj2 demo_new_ok) eq_refl eq_refl eq_refl eq_refl ltac:(lia)).
  unfold demo_waiting. destruct (pj_stun_client_tsx_send_msg true 9 20 demo_new) as [s1 st].
  destruct Hout as (_ & Ht & Hc & _). split; [exact Ht|exact Hc].
Defined.

End Passive.

(** A user whose second retransmission fails. *)
Definition flaky_send (s : stun_state Timer.world) : pj_status :=
  if transmit_count (tsx s) <? 3 then PJ_EPENDING else PJ_ENOMEM.
Definition flaky_user : StunUser Timer.world := {|
  on_send_msg s := (s, flaky_send s);
  on_complete _ _ s := s;
  on_destroy s := s
|}.

Section Flaky.
#[local] Existing Instance flaky_user.

Lemma stun_ends_witness :
  exists status t' sends, ended flaky_send (run 8 (demo_waiting true)) status /\
    calls (run 8 (demo_waiting true)) = calls (demo_waiting true) ++ sends ++ [(t', Completes status None)] /\
    snd <$> calls (run 8 (demo_waiting true)) =
      [Sends 9 20; Sends 9 20; Sends 9 20; Completes PJ_ENOMEM None].
Proof.
  assert (forall s, flaky_send s <> PJNATH_ESTUNDESTROYED) as Hstay
    by (intros s; unfold flaky_send; by destruct (_ <? _)).
  assert (forall s : stun_state Timer.world, on_send_msg s = (s, flaky_send s)) as Hsend by done.
  assert (forall status r (s : stun_state Timer.world), on_complete status r s = s) as Hlisten by done.
  destruct (send_msg_waits flaky_send Hsend Hstay 9 20 demo_new ltac:(done) ltac:(done)
    (proj1 demo_new_ok) (proj2 demo_new_ok) eq_refl eq_refl ltac:(done)) as (w & Hw).
  destruct (Hw eq_refl) as [Heq Hwa]. set (s2 := resending _ _ _) in *.
  assert (demo_waiting true = s2) as Hs2 by (unfold demo_waiting; by rewrite Heq).
  destruct (stun_ends flaky_send s2 _ 8 Hsend Hlisten Hstay Hwa ltac:(done) ltac:(lia))
    as (st & t' & sends & He & Hc & _). rewrite <- Hs2 in *.
  exists st, t', sends. split; [exact He|]. split; [exact Hc|]. vm_compute. reflexivity.
Defined.
End Flaky.
End Demo.
