(* ===== verification/Scanner.v ===== *)
(** * The text scanner (pjlib-util/src/pjlib-util/scanner.c)

    A scanner stands at a position of a buffer that ends with a NUL: here, the
    list of the bytes it has left.  A syntax error calls back and the callback
    throws, which is [None].  The option of the scanner is whether it skips white
    space after a token ([PJ_SCAN_AUTOSKIP_WS]); lines and columns, which only
    messages use, and the SIP header options are left out. *)

From stdpp Require Import list.
From S2P Require Import Prelude PjString.

(** A specification of input characters is a predicate on bytes. *)
Definition pj_cis_t := Z -> bool.

Definition cis_digit : pj_cis_t := pj_isdigit.
Definition cis_alpha (c : Z) : bool := (65 <=? c) && (c <=? 90) || (97 <=? c) && (c <=? 122).
Definition cis_str (str : list Z) (c : Z) : bool := bool_decide (c ∈ str).

Definition PJ_SCAN_IS_SPACE (c : Z) : bool := (c =? 32) || (c =? 9).
Definition PJ_SCAN_IS_PROBABLY_SPACE (c : Z) : bool := s8 c <=? 32.

Fixpoint pj_scan_skip_whitespace (s : list Z) : list Z :=
  match s with
  | c :: s' => if PJ_SCAN_IS_SPACE c then pj_scan_skip_whitespace s' else s
  | [] => []
  end.

(** What the functions end with. *)
Definition scan_skip (skip_ws : bool) (s : list Z) : list Z :=
  if PJ_SCAN_IS_PROBABLY_SPACE (at0 s) && skip_ws then pj_scan_skip_whitespace s else s.

Definition pj_scan_init (skip_ws : bool) (buf : list Z) : list Z :=
  if skip_ws then pj_scan_skip_whitespace buf else buf.

(** The longest prefix of characters that satisfy [spec], and the rest. *)
Fixpoint scan_while (spec : pj_cis_t) (s : list Z) : list Z * list Z :=
  match s with
  | c :: s' =>
      if spec c then let '(out, rest) := scan_while spec s' in (c :: out, rest) else ([], s)
  | [] => ([], [])
  end.

Definition pj_scan_get (skip_ws : bool) (spec : pj_cis_t) (s : list Z) : option (list Z * list Z) :=
  if negb (spec (at0 s)) then None
  else let '(out, rest) := scan_while spec s in Some (out, scan_skip skip_ws rest).

Definition pj_scan_get_char (skip_ws : bool) (s : list Z) : option (Z * list Z) :=
  let chr := at0 s in
  if chr =? 0 then None else Some (chr, scan_skip skip_ws (tail s)).

(** Reading up to a character, or one of a set, or the end of the buffer; at the end
    it is an error. *)
Definition pj_scan_get_until_ch (skip_ws : bool) (until_char : Z) (s : list Z) :
    option (list Z * list Z) :=
  match s with
  | [] => None
  | _ => let '(out, rest) := scan_while (fun c => negb (c =? until_char)) s in
         Some (out, scan_skip skip_ws rest)
  end.
Definition pj_scan_get_until_chr (skip_ws : bool) (until_spec : list Z) (s : list Z) :
    option (list Z * list Z) :=
  match s with
  | [] => None
  | _ => let '(out, rest) := scan_while (fun c => negb (cis_str until_spec c)) s in
         Some (out, scan_skip skip_ws rest)
  end.

(** Past the next newline; to the end of the buffer when there is none before the
    next NUL. *)
Fixpoint scan_line (s : list Z) : option (list Z) :=
  match s with
  | [] => None
  | c :: s => if c =? 10 then Some s else if c =? 0 then None else scan_line s
  end.
Definition pj_scan_skip_line (s : list Z) : list Z := default [] (scan_line s).

Definition pj_scan_advance_n (n : nat) (skip_ws : bool) (s : list Z) : option (list Z) :=
  if decide (length s < n)%nat then None else Some (scan_skip skip_ws (drop n s)).

Definition pj_scan_is_eof (s : list Z) : bool := bool_decide (s = []).

Definition PJ_SCAN_IS_NEWLINE (c : Z) : bool := (c =? 13) || (c =? 10).
Definition pj_scan_get_newline (s : list Z) : option (list Z) :=
  if negb (PJ_SCAN_IS_NEWLINE (at0 s)) then None
  else
    let s := if at0 s =? 13 then tail s else s in
    Some (if at0 s =? 10 then tail s else s).

(** ** Lemmas *)


Lemma scan_while_app spec out rest :
  Forall (fun c => spec c = true) out -> (forall c, head rest = Some c -> spec c = false) ->
  scan_while spec (out ++ rest) = (out, rest).
Proof.
  intros Hout Hrest. induction Hout as [|c out Hc _ IH]; cbn.
  - destruct rest as [|c rest]; [done|]. cbn. by rewrite (Hrest c).
  - by rewrite Hc, IH.
Qed.

(** A token followed by something else is read exactly. *)
Lemma scan_get_app skip_ws spec out rest :
  out <> [] -> Forall (fun c => spec c = true) out ->
  (forall c, head rest = Some c -> spec c = false) ->
  pj_scan_get skip_ws spec (out ++ rest) = Some (out, scan_skip skip_ws rest).
Proof.
  intros Hne Hout Hrest. unfold pj_scan_get.
  assert (spec (at0 (out ++ rest)) = true) as ->.
  { by destruct Hout. }
  cbn [negb]. by rewrite scan_while_app.
Qed.

Lemma scan_skip_id skip_ws s : PJ_SCAN_IS_SPACE (at0 s) = false -> scan_skip skip_ws s = s.
Proof.
  intros H. unfold scan_skip. case_match; [|done]. destruct s as [|c s]; [done|]. cbn [at0 hd pj_scan_skip_whitespace] in *. by rewrite H.
Qed.

Lemma scan_skip_space s : PJ_SCAN_IS_SPACE (at0 s) = false -> scan_skip true (32 :: s) = s.
Proof. intros H. destruct s as [|c s]; [done|].
  change (scan_skip true (32 :: c :: s)) with (pj_scan_skip_whitespace (c :: s)).
  cbn [pj_scan_skip_whitespace]. cbn [at0 hd] in H. by rewrite H. Qed.
