(* ===== verification/Sdp.v ===== *)
(** * Session descriptions (pjmedia/include/pjmedia/sdp.h, pjmedia/src/pjmedia/sdp.c)

    A description is the record of its lines.  The C structures hold pointers to
    strings, attributes and media in a memory pool and arrays with a count; here
    a string is the list of its bytes, an array the list of its elements, an
    optional line an option, and a clone is the value itself.  An attribute found
    in an array is named by its index.  The character read from an empty format
    ([*fmt.ptr]) is a NUL. *)

From stdpp Require Import list.
From Stdlib Require Import Strings.String.
From S2P Require Import Prelude PjString Scanner.
Open Scope string_scope.
Open Scope list_scope.
Open Scope Z_scope.

(** ** Data *)

Definition PJMEDIA_MAX_SDP_FMT : Z := 32.
Definition PJMEDIA_MAX_SDP_BANDW : Z := 4.
Definition PJMEDIA_MAX_SDP_ATTR : Z := PJMEDIA_MAX_SDP_FMT * 2 + 4.
Definition PJMEDIA_MAX_SDP_MEDIA : Z := 16.

Record pjmedia_sdp_attr := SdpAttr { attr_name : list Z; attr_value : list Z }.

Record pjmedia_sdp_rtpmap := SdpRtpmap {
  pt : list Z; enc_name : list Z; clock_rate : Z; param : list Z }.
#[export] Instance eta_rtpmap : Eta pjmedia_sdp_rtpmap :=
  fun r => SdpRtpmap (pt r) (enc_name r) (clock_rate r) (param r).

Record pjmedia_sdp_fmtp := SdpFmtp { fmtp_fmt : list Z; fmt_param : list Z }.

Record pjmedia_sdp_conn := SdpConn {
  conn_net_type : list Z; conn_addr_type : list Z; conn_addr : list Z }.

Record pjmedia_sdp_bandw := SdpBandw { modifier : list Z; bandw_value : Z }.

(** The [m=] line ([desc]) and the lines after it. *)
Record pjmedia_sdp_media := SdpMedia {
  media_type : list Z; port : Z; port_count : Z; transport : list Z; fmt : list (list Z);
  media_conn : option pjmedia_sdp_conn;
  media_bandw : list pjmedia_sdp_bandw;
  media_attr : list pjmedia_sdp_attr }.
#[export] Instance eta_media : Eta pjmedia_sdp_media := fun m =>
  SdpMedia (media_type m) (port m) (port_count m) (transport m) (fmt m)
    (media_conn m) (media_bandw m) (media_attr m).

Record sdp_origin := SdpOrigin {
  user : list Z; origin_id : Z; version : Z;
  origin_net_type : list Z; origin_addr_type : list Z; origin_addr : list Z }.
#[export] Instance eta_origin : Eta sdp_origin := fun o =>
  SdpOrigin (user o) (origin_id o) (version o) (origin_net_type o) (origin_addr_type o)
    (origin_addr o).

Record pjmedia_sdp_session := SdpSession {
  origin : sdp_origin; sess_name : list Z; sess_conn : option pjmedia_sdp_conn;
  sess_bandw : list pjmedia_sdp_bandw; time_start : Z; time_stop : Z;
  sess_attr : list pjmedia_sdp_attr; media : list pjmedia_sdp_media }.
#[export] Instance eta_session : Eta pjmedia_sdp_session := fun s =>
  SdpSession (origin s) (sess_name s) (sess_conn s) (sess_bandw s) (time_start s) (time_stop s)
    (sess_attr s) (media s).

#[export] Instance sdp_attr_eq_dec : EqDecision pjmedia_sdp_attr.
Proof. solve_decision. Defined.
#[export] Instance sdp_conn_eq_dec : EqDecision pjmedia_sdp_conn.
Proof. solve_decision. Defined.
#[export] Instance sdp_bandw_eq_dec : EqDecision pjmedia_sdp_bandw.
Proof. solve_decision. Defined.
#[export] Instance sdp_media_eq_dec : EqDecision pjmedia_sdp_media.
Proof. solve_decision. Defined.

(** ** Status codes (pjmedia/include/pjmedia/errno.h) *)

Definition PJMEDIA_SDP_EINORIGIN := PJMEDIA_STATUS 22.
Definition PJMEDIA_SDP_EINNAME := PJMEDIA_STATUS 24.
Definition PJMEDIA_SDP_EINCONN := PJMEDIA_STATUS 25.
Definition PJMEDIA_SDP_EMISSINGCONN := PJMEDIA_STATUS 26.
Definition PJMEDIA_SDP_EINATTR := PJMEDIA_STATUS 27.
Definition PJMEDIA_SDP_EINRTPMAP := PJMEDIA_STATUS 28.
Definition PJMEDIA_SDP_ERTPMAPTOOLONG := PJMEDIA_STATUS 29.
Definition PJMEDIA_SDP_EMISSINGRTPMAP := PJMEDIA_STATUS 30.
Definition PJMEDIA_SDP_EINMEDIA := PJMEDIA_STATUS 31.
Definition PJMEDIA_SDP_ENOFMT := PJMEDIA_STATUS 32.
Definition PJMEDIA_SDP_EINPT := PJMEDIA_STATUS 33.
Definition PJMEDIA_SDP_EINFMTP := PJMEDIA_STATUS 34.
Definition PJMEDIA_SDP_EMEDIANOTEQUAL := PJMEDIA_STATUS 60.
Definition PJMEDIA_SDP_EPORTNOTEQUAL := PJMEDIA_STATUS 61.
Definition PJMEDIA_SDP_ETPORTNOTEQUAL := PJMEDIA_STATUS 62.
Definition PJMEDIA_SDP_EFORMATNOTEQUAL := PJMEDIA_STATUS 63.
Definition PJMEDIA_SDP_ECONNNOTEQUAL := PJMEDIA_STATUS 64.
Definition PJMEDIA_SDP_EDIRNOTEQUAL := PJMEDIA_STATUS 66.
Definition PJMEDIA_SDP_EFMTPNOTEQUAL := PJMEDIA_STATUS 67.
Definition PJMEDIA_SDP_ERTPMAPNOTEQUAL := PJMEDIA_STATUS 68.
Definition PJMEDIA_SDP_EORIGINNOTEQUAL := PJMEDIA_STATUS 70.
Definition PJMEDIA_SDP_ENAMENOTEQUAL := PJMEDIA_STATUS 71.
Definition PJMEDIA_SDP_ETIMENOTEQUAL := PJMEDIA_STATUS 72.

(** ** Attributes *)

Fixpoint attr_find_loop (name : list Z) (c_fmt : option Z) (i : nat)
    (attr_array : list pjmedia_sdp_attr) : option (nat * pjmedia_sdp_attr) :=
  match attr_array with
  | [] => None
  | a :: attr_array =>
      if pj_strcmp (attr_name a) name =? 0 then
        match c_fmt with
        | Some c_pt =>
            let pt := u32 (fst (pj_strtoul2 (attr_value a) 10)) in
            if pt =? c_pt then Some (i, a) else attr_find_loop name c_fmt (S i) attr_array
        | None => Some (i, a)
        end
      else attr_find_loop name c_fmt (S i) attr_array
  end.
Definition pjmedia_sdp_attr_find (attr_array : list pjmedia_sdp_attr) (name : list Z)
    (c_fmt : option (list Z)) : option (nat * pjmedia_sdp_attr) :=
  if zlen attr_array >? PJMEDIA_MAX_SDP_ATTR then None
  else attr_find_loop name ((fun f => u32 (pj_strtoul f)) <$> c_fmt) 0 attr_array.
Definition pjmedia_sdp_attr_find2 (attr_array : list pjmedia_sdp_attr) (c_name : string)
    (c_fmt : option (list Z)) : option (nat * pjmedia_sdp_attr) :=
  pjmedia_sdp_attr_find attr_array (pj_str c_name) c_fmt.

Definition pjmedia_sdp_attr_create (name : string) (value : option (list Z)) : pjmedia_sdp_attr :=
  SdpAttr (pj_str name) (default [] value).

Definition pjmedia_sdp_attr_add (attr_array : list pjmedia_sdp_attr) (attr : pjmedia_sdp_attr) :
    list pjmedia_sdp_attr * pj_status :=
  if zlen attr_array <? PJMEDIA_MAX_SDP_ATTR then (attr_array ++ [attr], PJ_SUCCESS)
  else (attr_array, PJ_ETOOMANY).

Fixpoint attr_remove_all_loop (name : list Z) (attr_array : list pjmedia_sdp_attr) :
    list pjmedia_sdp_attr * Z :=
  match attr_array with
  | [] => ([], 0)
  | a :: attr_array =>
      let '(l, removed) := attr_remove_all_loop name attr_array in
      if pj_strcmp (attr_name a) name =? 0 then (l, removed + 1) else (a :: l, removed)
  end.
(** The status of the refusal is returned as a number of attributes. *)
Definition PJ_ETOOMANY_code : Z := 70010.
Definition pjmedia_sdp_attr_remove_all (attr_array : list pjmedia_sdp_attr) (name : string) :
    list pjmedia_sdp_attr * Z :=
  if zlen attr_array >? PJMEDIA_MAX_SDP_ATTR then (attr_array, PJ_ETOOMANY_code)
  else attr_remove_all_loop (pj_str name) attr_array.

(** The attribute is the one at index [i]. *)
Definition pjmedia_sdp_attr_remove (attr_array : list pjmedia_sdp_attr) (i : nat) :
    list pjmedia_sdp_attr * pj_status :=
  if zlen attr_array >? PJMEDIA_MAX_SDP_ATTR then (attr_array, PJ_ETOOMANY)
  else (delete i attr_array,
        if zlen attr_array <=? Z.of_nat i then PJ_ENOTFOUND else PJ_SUCCESS).

(** ** The [rtpmap] and [fmtp] attributes *)

Definition TOKEN : list Z := pj_str "!#$%&'*+-.^_`{|}~".
Definition cs_token (c : Z) : bool := cis_alpha c || pj_isdigit c || cis_str TOKEN c.
Definition cs_digit : Z -> bool := cis_digit.

(** The body of the [PJ_TRY], from the position [s] on: the fields that are
    assigned before a syntax error stay assigned. *)
Definition rtpmap_parse (s : list Z) : pj_status * pjmedia_sdp_rtpmap :=
  let r := SdpRtpmap [] [] 0 [] in
  match pj_scan_get true cs_token s with
  | None => (PJMEDIA_SDP_EINRTPMAP, r)
  | Some (tok, s) =>
      let r := r <| pt := tok |> in
      match pj_scan_get true cs_token s with
      | None => (PJMEDIA_SDP_EINRTPMAP, r)
      | Some (tok, s) =>
          let r := r <| enc_name := tok |> in
          match pj_scan_get_char true s with
          | Some (47, s) =>
              match pj_scan_get true cs_digit s with
              | None => (PJMEDIA_SDP_EINRTPMAP, r)
              | Some (token, s) =>
                  let r := r <| clock_rate := u32 (pj_strtoul token) |> in
                  if at0 s =? 47 then
                    match pj_scan_get_char true s with
                    | None => (PJMEDIA_SDP_EINRTPMAP, r)
                    | Some (_, s) => (PJ_SUCCESS, r <| param := s |>)
                    end
                  else (PJ_SUCCESS, r)
              end
          | _ => (PJMEDIA_SDP_EINRTPMAP, r)
          end
      end
  end.

(** [None] is a [*rtpmap] that is not written. *)
Definition pjmedia_sdp_attr_get_rtpmap (attr : pjmedia_sdp_attr) :
    pj_status * option pjmedia_sdp_rtpmap :=
  if negb (pj_strcmp2 (attr_name attr) "rtpmap" =? 0) then (PJ_EINVALIDOP, None)
  else if zlen (attr_value attr) =? 0 then (PJMEDIA_SDP_EINATTR, None)
  else let '(status, r) := rtpmap_parse (pj_scan_init true (attr_value attr)) in (status, Some r).

Definition pjmedia_sdp_attr_to_rtpmap (attr : pjmedia_sdp_attr) :
    pj_status * option pjmedia_sdp_rtpmap :=
  pjmedia_sdp_attr_get_rtpmap attr.

(** What ["%.*s"] prints of a string. *)
Fixpoint c_print (s : list Z) : list Z :=
  match s with
  | c :: s => if c =? 0 then [] else c :: c_print s
  | [] => []
  end.

Definition rtpmap_text (r : pjmedia_sdp_rtpmap) : list Z :=
  c_print (pt r) ++ [32] ++ c_print (enc_name r) ++ [47] ++ pj_utoa (clock_rate r) ++
  (if zlen (param r) =? 0 then [] else [47]) ++ c_print (param r).
Definition pjmedia_sdp_rtpmap_to_attr (r : pjmedia_sdp_rtpmap) :
    pj_status * option pjmedia_sdp_attr :=
  if (zlen (enc_name r) =? 0) || (clock_rate r =? 0) then (PJMEDIA_SDP_EINRTPMAP, None)
  else
    let len := zlen (rtpmap_text r) in
    if (len <? 1) || (len >=? 128) then (PJMEDIA_SDP_ERTPMAPTOOLONG, None)
    else (PJ_SUCCESS, Some (SdpAttr (pj_str "rtpmap") (rtpmap_text r))).

(** The format is written when its digits are found. *)
Definition pjmedia_sdp_attr_get_fmtp (attr : pjmedia_sdp_attr) :
    pj_status * (option (list Z) * option (list Z)) :=
  if negb (pj_strcmp2 (attr_name attr) "fmtp" =? 0) then (PJ_EINVALIDOP, (None, None))
  else if zlen (attr_value attr) =? 0 then (PJMEDIA_SDP_EINATTR, (None, None))
  else
    let '(token, p) := scan_while pj_isdigit (attr_value attr) in
    if zlen token =? 0 then (PJMEDIA_SDP_EINFMTP, (None, None))
    else if negb (at0 p =? 32) then (PJMEDIA_SDP_EINFMTP, (Some token, None))
    else (PJ_SUCCESS, (Some token, Some (tail p))).

(** ** Media and sessions *)

Definition pjmedia_sdp_media_find_attr (m : pjmedia_sdp_media) (name : list Z)
    (fmt : option (list Z)) : option (nat * pjmedia_sdp_attr) :=
  pjmedia_sdp_attr_find (media_attr m) name fmt.
Definition pjmedia_sdp_media_find_attr2 (m : pjmedia_sdp_media) (name : string)
    (fmt : option (list Z)) : option (nat * pjmedia_sdp_attr) :=
  pjmedia_sdp_attr_find2 (media_attr m) name fmt.

(** The callers of these ignore the status. *)
Definition pjmedia_sdp_media_add_attr (m : pjmedia_sdp_media) (attr : pjmedia_sdp_attr) :
    pjmedia_sdp_media :=
  m <| media_attr := fst (pjmedia_sdp_attr_add (media_attr m) attr) |>.
Definition pjmedia_sdp_media_remove_all_attr (m : pjmedia_sdp_media) (name : string) :
    pjmedia_sdp_media :=
  m <| media_attr := fst (pjmedia_sdp_attr_remove_all (media_attr m) name) |>.
Definition pjmedia_sdp_media_remove_attr (m : pjmedia_sdp_media) (i : nat) : pjmedia_sdp_media :=
  m <| media_attr := fst (pjmedia_sdp_attr_remove (media_attr m) i) |>.

Definition pjmedia_sdp_media_deactivate (m : pjmedia_sdp_media) : pjmedia_sdp_media :=
  m <| port := 0 |> <| media_attr := [] |>.
Definition pjmedia_sdp_media_clone_deactivate (rhs : pjmedia_sdp_media) : pjmedia_sdp_media :=
  pjmedia_sdp_media_deactivate rhs.

(** The session direction, when it is not the default one, goes to the media that
    have no direction of their own. *)
Definition is_attr (name : string) (a : pjmedia_sdp_attr) : bool :=
  pj_strcmp (attr_name a) (pj_str name) =? 0.
Fixpoint find_dir_attr (i : nat) (attr_array : list pjmedia_sdp_attr) :
    option (nat * pjmedia_sdp_attr) :=
  match attr_array with
  | [] => None
  | a :: attr_array =>
      if is_attr "sendonly" a || is_attr "recvonly" a || is_attr "inactive" a then Some (i, a)
      else find_dir_attr (S i) attr_array
  end.
Definition has_direction (m : pjmedia_sdp_media) : bool :=
  existsb (fun a => is_attr "sendrecv" a || is_attr "sendonly" a ||
                    is_attr "recvonly" a || is_attr "inactive" a) (media_attr m).
Definition apply_media_direction (sdp : pjmedia_sdp_session) : pjmedia_sdp_session :=
  match find_dir_attr 0 (sess_attr sdp) with
  | None => sdp
  | Some (i, dir_attr) =>
      sdp <| sess_attr := fst (pjmedia_sdp_attr_remove (sess_attr sdp) i) |>
          <| media ::= fmap (fun m => if has_direction m then m
                                      else pjmedia_sdp_media_add_attr m dir_attr) |>
  end.

(** ** Validation *)

Definition CHECK (exp : bool) (ret : pj_status) : option pj_status :=
  if negb exp then Some ret else None.

(** The first check that fails gives the status. *)
Fixpoint first_of (checks : list (option pj_status)) : option pj_status :=
  match checks with
  | [] => None
  | Some st :: _ => Some st
  | None :: checks => first_of checks
  end.

Definition validate_sdp_conn (c : pjmedia_sdp_conn) : option pj_status :=
  first_of [
    CHECK (pj_strcmp2 (conn_net_type c) "IN" =? 0) PJMEDIA_SDP_EINCONN;
    CHECK ((pj_strcmp2 (conn_addr_type c) "IP4" =? 0) || (pj_strcmp2 (conn_addr_type c) "IP6" =? 0))
      PJMEDIA_SDP_EINCONN;
    CHECK (negb (zlen (conn_addr c) =? 0)) PJMEDIA_SDP_EINCONN].

Definition validate_fmt (m : pjmedia_sdp_media) (f : list Z) : option pj_status :=
  if negb (pj_isdigit (at0 f)) then None
  else
    match pj_strtoul3 f 10 with
    | (Some pt, PJ_SUCCESS) =>
        if negb (pt <=? 127) then Some PJMEDIA_SDP_EINPT
        else if negb (port m =? 0) && (pt >=? 96) then
          CHECK (bool_decide (is_Some (pjmedia_sdp_media_find_attr m (pj_str "rtpmap") (Some f))))
            PJMEDIA_SDP_EMISSINGRTPMAP
        else None
    | _ => Some PJMEDIA_SDP_EINPT
    end.

Definition validate_media (sdp : pjmedia_sdp_session) (strict : bool) (m : pjmedia_sdp_media) :
    option pj_status :=
  first_of ([
    CHECK (negb (zlen (media_type m) =? 0)) PJMEDIA_SDP_EINMEDIA;
    CHECK (negb (zlen (transport m) =? 0)) PJMEDIA_SDP_EINMEDIA;
    CHECK (negb (zlen (fmt m) =? 0) || (port m =? 0)) PJMEDIA_SDP_ENOFMT;
    match media_conn m with
    | Some c => validate_sdp_conn c
    | None =>
        CHECK (bool_decide (is_Some (sess_conn sdp)) || negb (strict || negb (port m =? 0)))
          PJMEDIA_SDP_EMISSINGCONN
    end] ++ (validate_fmt m <$> fmt m)).

Definition pjmedia_sdp_validate2 (sdp : pjmedia_sdp_session) (strict : bool) : pj_status :=
  let o := origin sdp in
  default PJ_SUCCESS (first_of ([
    CHECK (negb (zlen (user o) =? 0)) PJMEDIA_SDP_EINORIGIN;
    CHECK (pj_strcmp2 (origin_net_type o) "IN" =? 0) PJMEDIA_SDP_EINORIGIN;
    CHECK ((pj_strcmp2 (origin_addr_type o) "IP4" =? 0) ||
           (pj_strcmp2 (origin_addr_type o) "IP6" =? 0)) PJMEDIA_SDP_EINORIGIN;
    CHECK (negb (zlen (origin_addr o) =? 0)) PJMEDIA_SDP_EINORIGIN;
    CHECK (negb (zlen (sess_name sdp) =? 0)) PJMEDIA_SDP_EINNAME;
    match sess_conn sdp with Some c => validate_sdp_conn c | None => None end] ++
    (validate_media sdp strict <$> media sdp))).
Definition pjmedia_sdp_validate (sdp : pjmedia_sdp_session) : pj_status :=
  pjmedia_sdp_validate2 sdp true.

(** ** Transports (pjmedia/include/pjmedia/types.h) *)

Definition PJMEDIA_TP_PROTO_UNKNOWN : Z := Z.shiftl 1 0.
Definition PJMEDIA_TP_PROTO_UDP : Z := Z.shiftl 1 1.
Definition PJMEDIA_TP_PROTO_RTP : Z := Z.shiftl 1 2.
Definition PJMEDIA_TP_PROTO_DTLS : Z := Z.shiftl 1 3.
Definition PJMEDIA_TP_PROFILE_RTCP_FB : Z := Z.shiftl 1 13.
Definition PJMEDIA_TP_PROFILE_SRTP : Z := Z.shiftl 1 14.
Definition PJMEDIA_TP_PROFILE_AVP : Z := Z.shiftl 1 15.
Definition PJMEDIA_TP_PROTO_RTP_AVP : Z := Z.lor PJMEDIA_TP_PROTO_RTP PJMEDIA_TP_PROFILE_AVP.
Definition PJMEDIA_TP_PROTO_RTP_SAVP : Z :=
  Z.lor PJMEDIA_TP_PROTO_RTP_AVP PJMEDIA_TP_PROFILE_SRTP.
Definition PJMEDIA_TP_PROTO_DTLS_SRTP : Z := Z.lor PJMEDIA_TP_PROTO_DTLS PJMEDIA_TP_PROTO_RTP_SAVP.
Definition PJMEDIA_TP_PROTO_RTP_AVPF : Z :=
  Z.lor PJMEDIA_TP_PROTO_RTP_AVP PJMEDIA_TP_PROFILE_RTCP_FB.
Definition PJMEDIA_TP_PROTO_RTP_SAVPF : Z :=
  Z.lor PJMEDIA_TP_PROTO_RTP_SAVP PJMEDIA_TP_PROFILE_RTCP_FB.
Definition PJMEDIA_TP_PROTO_DTLS_SRTPF : Z :=
  Z.lor PJMEDIA_TP_PROTO_DTLS_SRTP PJMEDIA_TP_PROFILE_RTCP_FB.
Definition PJMEDIA_TP_PROTO_HAS_FLAG (tp_proto flags : Z) : bool := Z.land tp_proto flags =? flags.

(** [rest] is [None] when its length is computed as -1, for a transport without
    a '/': it then differs from every text, and its length from 0. *)
Definition pjmedia_sdp_transport_get_proto (tp : list Z) : Z :=
  let '(token, idx) := pj_strtok2 tp "/" 0 in
  let rest :=
    if idx =? zlen tp then Some []
    else if zlen tp - zlen token - 1 <? 0 then None
    else Some (drop (length token + 1) tp) in
  let rest_is (s : string) := match rest with Some r => pj_stricmp2 r s =? 0 | None => false end in
  if pj_stricmp2 token "RTP" =? 0 then
    if rest_is "AVP" then PJMEDIA_TP_PROTO_RTP_AVP
    else if rest_is "SAVP" then PJMEDIA_TP_PROTO_RTP_SAVP
    else if rest_is "AVPF" then PJMEDIA_TP_PROTO_RTP_AVPF
    else if rest_is "SAVPF" then PJMEDIA_TP_PROTO_RTP_SAVPF
    else PJMEDIA_TP_PROTO_UNKNOWN
  else if pj_stricmp2 token "UDP" =? 0 then
    if match rest with Some r => zlen r =? 0 | None => false end then PJMEDIA_TP_PROTO_UDP
    else if rest_is "TLS/RTP/SAVP" then PJMEDIA_TP_PROTO_DTLS_SRTP
    else if rest_is "TLS/RTP/SAVPF" then PJMEDIA_TP_PROTO_DTLS_SRTPF
    else PJMEDIA_TP_PROTO_UNKNOWN
  else PJMEDIA_TP_PROTO_UNKNOWN.

Definition pjmedia_sdp_transport_cmp (t1 t2 : list Z) : pj_status :=
  if pj_stricmp t1 t2 =? 0 then PJ_SUCCESS
  else
    let t1_proto := pjmedia_sdp_transport_get_proto t1 in
    let t2_proto := pjmedia_sdp_transport_get_proto t2 in
    if PJMEDIA_TP_PROTO_HAS_FLAG t1_proto PJMEDIA_TP_PROTO_RTP_AVP &&
       PJMEDIA_TP_PROTO_HAS_FLAG t2_proto PJMEDIA_TP_PROTO_RTP_AVP
    then PJ_SUCCESS
    else PJMEDIA_SDP_ETPORTNOTEQUAL.

(** ** The [rtpmap] attribute, written and read *)

Definition is_token (s : list Z) : Prop := s <> [] /\ Forall (fun c => cs_token c = true) s.

Lemma cs_token_code c : cs_token c = true -> c <> 0 /\ c <> 47 /\ PJ_SCAN_IS_SPACE c = false.
Proof.
  unfold cs_token, cis_alpha, pj_isdigit, cis_str, PJ_SCAN_IS_SPACE. intros Hc.
  rewrite !orb_true_iff, !andb_true_iff, bool_decide_eq_true in Hc.
  destruct Hc as [[Hc|Hc]|Hc]; [lia..|].
  assert (Forall (fun c => c <> 0 /\ c <> 47 /\ (c =? 32) || (c =? 9) = false) TOKEN) as Ht
    by (vm_compute; repeat constructor; discriminate).
  rewrite Forall_forall in Ht. by apply Ht.
Qed.

Lemma c_print_id s : Forall (fun c => c <> 0) s -> c_print s = s.
Proof. induction 1 as [|c s Hc _ IH]; cbn; [done|]. by rewrite (proj2 (Z.eqb_neq _ _)), IH. Qed.

Lemma token_print s : is_token s -> c_print s = s.
Proof.
  intros [_ Hs]. apply c_print_id. eapply Forall_impl; [exact Hs|]. intros c Hc.
  by destruct (cs_token_code c Hc).
Qed.

Lemma token_no_space s rest : is_token s -> PJ_SCAN_IS_SPACE (at0 (s ++ rest)) = false.
Proof.
  intros [Hne Hs]. destruct Hs as [|c s Hc]; [done|]. by destruct (cs_token_code c Hc) as (_ & _ & ?).
Qed.

Lemma scan_get_token s rest : is_token s ->
  (forall c, head rest = Some c -> cs_token c = false) ->
  pj_scan_get true cs_token (s ++ rest) = Some (s, scan_skip true rest).
Proof. intros [? ?] ?. by apply scan_get_app. Qed.

(** The attribute written for a payload type, encoding name, clock rate and
    parameters reads back as these, when the first two are tokens of RFC 4566 and
    the parameters have no NUL and no white space in front; and it fits the 128
    bytes it is written to. *)
Lemma rtpmap_roundtrip r a :
  is_token (pt r) -> is_token (enc_name r) -> is_u32 (clock_rate r) ->
  Forall (fun c => c <> 0) (param r) -> PJ_SCAN_IS_SPACE (at0 (param r)) = false ->
  pjmedia_sdp_rtpmap_to_attr r = (PJ_SUCCESS, Some a) ->
  attr_name a = pj_str "rtpmap" /\ zlen (attr_value a) < 128 /\
  pjmedia_sdp_attr_get_rtpmap a = (PJ_SUCCESS, Some r).
Proof.
  intros Hpt Henc Hcr Hparam Hsp. unfold pjmedia_sdp_rtpmap_to_attr. cbn zeta.
  destruct (_ || _); [done|]. destruct (_ || _) eqn:Hlen; [done|]. intros [= <-]. cbn [attr_name attr_value].
  apply orb_false_iff in Hlen as [Hlen1 Hlen2]. split; [done|]. split; [lia|].
  unfold pjmedia_sdp_attr_get_rtpmap. cbn [attr_name attr_value].
  change (negb (pj_strcmp2 (pj_str "rtpmap") "rtpmap" =? 0)) with false. cbn iota.
  rewrite (proj2 (Z.eqb_neq _ 0)) by lia.
  unfold rtpmap_text. rewrite !token_print, (c_print_id (param r)) by done.
  unfold pj_scan_init. 
  set (tail_ := (if zlen (param r) =? 0 then [] else [47]) ++ param r).
  assert (pj_scan_skip_whitespace (pt r ++ [32] ++ enc_name r ++ [47] ++ pj_utoa (clock_rate r) ++ tail_)
    = pt r ++ 32 :: enc_name r ++ 47 :: pj_utoa (clock_rate r) ++ tail_) as ->.
  { pose proof (token_no_space _ (32 :: enc_name r ++ 47 :: pj_utoa (clock_rate r) ++ tail_) Hpt) as Hn.
    cbn [app]. destruct (pt r ++ _) as [|c s]; [done|]. cbn [pj_scan_skip_whitespace]. cbn in Hn. by rewrite Hn. }
  unfold rtpmap_parse. cbn zeta.
  rewrite (scan_get_token (pt r)), scan_skip_space; [|by apply token_no_space|done|by intros c [= <-]].
  rewrite (scan_get_token (enc_name r)), scan_skip_id; [|done|done|by intros c [= <-]].
  pose proof (pj_utoa_digits (clock_rate r) ltac:(unfold is_u32 in Hcr; lia)) as (Hd & Hl & Hval & _).
  set (digits := pj_utoa (clock_rate r)) in *. clearbody digits.
  assert (PJ_SCAN_IS_SPACE (at0 (digits ++ tail_)) = false) as Hds.
  { destruct Hd as [|c s Hc]; [cbn in Hl; lia|]. cbn. unfold PJ_SCAN_IS_SPACE. lia. }
  unfold pj_scan_get_char at 1. cbn [at0 hd tail Z.eqb]. rewrite scan_skip_id by done.
  rewrite scan_get_app; [|by intros ->; cbn in Hl; lia| |].
  2: { eapply Forall_impl; [exact Hd|]. intros c Hc. unfold cs_digit, cis_digit, pj_isdigit. cbn in Hc. lia. }
  2: { subst tail_. intros c Hc. destruct (Z.eqb_spec (zlen (param r)) 0) as [H0|]; [|by injection Hc as <-].
       apply zlen_0 in H0. by rewrite H0 in Hc. }
  assert (u32 (pj_strtoul digits) = clock_rate r) as Hrate.
  { unfold pj_strtoul. destruct (strtoul_loop_digits digits 0 Hd) as [Hs _]. change (u64 0) with 0 in Hs.
    rewrite Hs, Hval. unfold u64. rewrite Z.mod_small by (unfold is_u32 in Hcr; lia). by apply u32_small. }
  subst tail_. destruct r as [p e cr par]. cbn [pt enc_name clock_rate param] in *.
  destruct (Z.eqb_spec (zlen par) 0) as [H0|Hne].
  - apply zlen_0 in H0. subst par. cbn. by rewrite Hrate.
  - cbn [app]. rewrite scan_skip_id by done. cbn [at0 hd Z.eqb Pos.eqb].
    unfold pj_scan_get_char. cbn [at0 hd tail Z.eqb]. rewrite scan_skip_id by done. cbn. by rewrite Hrate.
Qed.

Lemma rtpmap_roundtrip_witness :
  let r := SdpRtpmap (pj_str "98") (pj_str "L16") 16000 (pj_str "2") in
  pjmedia_sdp_rtpmap_to_attr r =
    (PJ_SUCCESS, Some (SdpAttr (pj_str "rtpmap") (pj_str "98 L16/16000/2"))) /\
  pjmedia_sdp_attr_get_rtpmap (SdpAttr (pj_str "rtpmap") (pj_str "98 L16/16000/2")) =
    (PJ_SUCCESS, Some r).
Proof.
  intros r. split; [vm_compute; reflexivity|].
  refine (proj2 (proj2 (rtpmap_roundtrip r _ _ _ _ _ _ _))).
  - split; [discriminate|]. repeat constructor.
  - split; [discriminate|]. repeat constructor.
  - unfold is_u32; cbn; lia.
  - repeat constructor; discriminate.
  - reflexivity.
  - vm_compute; reflexivity.
Defined.
