(* ===== verification/SdpText.v ===== *)
(** * Session descriptions as text (pjmedia/src/pjmedia/sdp.c)

    The printer and the parser of SDP.  A printing function gets the room that is
    left in the buffer and returns whether it succeeds and the bytes it writes,
    those it has written when it fails included.  A parsing function reads from a
    scanner; an error it throws is the status that is reported. *)

From stdpp Require Import list.
From Stdlib Require Import Strings.String.
From S2P Require Import Prelude PjString Scanner Sdp.
Set Warnings "-clear-no-such-hyp".
Open Scope string_scope.
Open Scope list_scope.
Open Scope Z_scope.

Definition PJMEDIA_SDP_EINSDP := PJMEDIA_STATUS 20.
Definition PJMEDIA_SDP_EINVER := PJMEDIA_STATUS 21.
Definition PJMEDIA_SDP_EINTIME := PJMEDIA_STATUS 23.
Definition PJMEDIA_SDP_EINBANDW := PJMEDIA_STATUS 37.

(** ** Printing *)

Definition CRLF : list Z := [13; 10].
Definition printed : Type := bool * list Z.

(** [snprintf]: the text with its NUL, cut to the room; a negative room is turned
    into an unsigned one, which cuts nothing. *)
Definition pj_ansi_snprintf (s : list Z) (len : Z) : list Z :=
  if len <? 0 then s ++ [0]
  else if zlen s <? len then s ++ [0]
  else if len =? 0 then [] else take (Z.to_nat (len - 1)) s ++ [0].

Definition conn_text (c : pjmedia_sdp_conn) : list Z :=
  pj_str "c=" ++ c_print (conn_net_type c) ++ [32] ++ c_print (conn_addr_type c) ++ [32] ++
  c_print (conn_addr c) ++ CRLF.
(** [len] is an [int], to which the callers cut the room. *)
Definition print_connection_info (c : pjmedia_sdp_conn) (room : Z) : printed :=
  let len := s32 room in
  let n := zlen (conn_text c) in
  if (n <? 1) || (n >=? len) then (false, pj_ansi_snprintf (conn_text c) len) else (true, conn_text c).

Definition bandw_text (b : pjmedia_sdp_bandw) : list Z :=
  pj_str "b=" ++ modifier b ++ [58] ++ pj_utoa (bandw_value b) ++ CRLF.
Definition print_bandw (b : pjmedia_sdp_bandw) (len : Z) : printed :=
  if s32 len <? zlen (modifier b) + 10 + 5 then (false, []) else (true, bandw_text b).

Definition attr_text (a : pjmedia_sdp_attr) : list Z :=
  pj_str "a=" ++ attr_name a ++ (if zlen (attr_value a) =? 0 then [] else [58] ++ attr_value a) ++ CRLF.
Definition print_attr (a : pjmedia_sdp_attr) (len : Z) : printed :=
  if s32 len <? zlen (attr_name a) + zlen (attr_value a) + 10 then (false, []) else (true, attr_text a).

(** One printing function after another, in the room that each leaves. *)
Definition print_then (f g : Z -> printed) (len : Z) : printed :=
  let '(ok, out) := f len in
  if ok then let '(ok, out') := g (len - zlen out) in (ok, out ++ out') else (false, out).
Notation "f >>> g" := (print_then f g) (at level 60, right associativity) : pj_scope.

Fixpoint print_all {A} (f : A -> Z -> printed) (l : list A) (len : Z) : printed :=
  match l with
  | [] => (true, [])
  | x :: l => (f x >>> print_all f l) len
  end.
Definition print_opt {A} (f : A -> Z -> printed) (x : option A) (len : Z) : printed :=
  match x with Some x => f x len | None => (true, []) end.

Definition media_line (m : pjmedia_sdp_media) : list Z :=
  pj_str "m=" ++ media_type m ++ [32] ++ pj_utoa (port m) ++
  (if port_count m >? 1 then [47] ++ pj_utoa (port_count m) else []) ++ [32] ++ transport m ++
  foldr (fun f l => [32] ++ f ++ l) CRLF (fmt m).
Definition print_media_line (m : pjmedia_sdp_media) (len : Z) : printed :=
  if len <? zlen (media_type m) + zlen (transport m) + 12 + 24 then (false, [])
  else (true, media_line m).
(** [len] is an [int], to which [print_session] cuts the room. *)
Definition print_media_desc (m : pjmedia_sdp_media) (room : Z) : printed :=
  (print_media_line m >>> print_opt print_connection_info (media_conn m) >>>
   print_all print_bandw (media_bandw m) >>> print_all print_attr (media_attr m)) (s32 room).

Definition origin_text (o : sdp_origin) : list Z :=
  pj_str "v=0" ++ CRLF ++ pj_str "o=" ++ user o ++ [32] ++ pj_utoa (origin_id o) ++ [32] ++
  pj_utoa (version o) ++ [32] ++ origin_net_type o ++ [32] ++ origin_addr_type o ++ [32] ++
  origin_addr o ++ CRLF.
Definition print_origin (o : sdp_origin) (len : Z) : printed :=
  if len <? 5 + 2 + zlen (user o) + 18 + zlen (origin_net_type o) + zlen (origin_addr o) + 2
  then (false, []) else (true, origin_text o).
Definition print_name (name : list Z) (len : Z) : printed :=
  if len <? 8 + zlen name then (false, []) else (true, pj_str "s=" ++ name ++ CRLF).
Definition print_time (start stop : Z) (len : Z) : printed :=
  if len <? 24 then (false, [])
  else (true, pj_str "t=" ++ pj_utoa start ++ [32] ++ pj_utoa stop ++ CRLF).

Definition print_session (ses : pjmedia_sdp_session) : Z -> printed :=
  print_origin (origin ses) >>> print_name (sess_name ses) >>>
  print_opt print_connection_info (sess_conn ses) >>> print_all print_bandw (sess_bandw ses) >>>
  print_time (time_start ses) (time_stop ses) >>>
  print_all print_attr (sess_attr ses) >>> print_all print_media_desc (media ses).

(** The number of bytes, or -1, and the bytes written. *)
Definition pjmedia_sdp_print (desc : pjmedia_sdp_session) (size : Z) : Z * list Z :=
  let '(ok, out) := print_session desc size in (if ok then zlen out else -1, out).

(** ** Parsing *)

(** The state of [pjmedia_sdp_parse]: the session, and the media line being read;
    [ps_kept] is false for one past the array, which is read and forgotten. *)
Record parse_state := ParseState {
  ps_session : pjmedia_sdp_session; ps_media : option pjmedia_sdp_media; ps_kept : bool }.
#[export] Instance eta_parse : Eta parse_state :=
  fun p => ParseState (ps_session p) (ps_media p) (ps_kept p).

(** What the parser of a line returns: the value and the rest of the text; [None]
    is a syntax error, which throws, and each has one status for it. *)
Definition parsed (A : Type) : Type := option (A * list Z).

Definition get_until_space : list Z -> option (list Z * list Z) := pj_scan_get_until_ch false 32.
Definition get_until_chr (spec : list Z) : list Z -> option (list Z * list Z) :=
  pj_scan_get_until_chr false spec.
Definition get_char : list Z -> option (Z * list Z) := pj_scan_get_char false.
Definition get_token : list Z -> option (list Z * list Z) := pj_scan_get false cs_token.
Definition skip_two : list Z -> option (list Z) := pj_scan_advance_n 2 false.
Definition BLANK_EOL : list Z := [32; 9; 13; 10].
Definition EOL : list Z := [13; 10].

(** [*(scanner->curptr+1) != '='] *)
Definition equal_sign (s : list Z) : option unit := if at0 (tail s) =? 61 then Some () else None.

Definition parse_version (s : list Z) : parsed () :=
  _ ← equal_sign s;
  if negb (at0 (tail (tail s)) =? 48) then None
  else Some ((), pj_scan_skip_line s).

Definition parse_origin (s : list Z) : parsed sdp_origin :=
  _ ← equal_sign s; s ← skip_two s;
  '(user, s) ← get_until_space s; '(_, s) ← get_char s;
  '(id, s) ← get_until_space s; '(_, s) ← get_char s;
  '(ver, s) ← get_until_space s; '(_, s) ← get_char s;
  '(net_type, s) ← get_until_space s; '(_, s) ← get_char s;
  '(addr_type, s) ← get_until_space s; '(_, s) ← get_char s;
  '(addr, s) ← get_until_chr BLANK_EOL s;
  Some (SdpOrigin user (u32 (pj_strtoul id)) (u32 (pj_strtoul ver)) net_type addr_type addr,
       pj_scan_skip_line s).

Definition parse_time (s : list Z) : parsed (Z * Z) :=
  _ ← equal_sign s; s ← skip_two s;
  '(start, s) ← get_until_space s; '(_, s) ← get_char s;
  '(stop, s) ← get_until_chr BLANK_EOL s;
  Some ((u32 (pj_strtoul start), u32 (pj_strtoul stop)), pj_scan_skip_line s).

Definition parse_generic_line (s : list Z) : parsed (list Z) :=
  _ ← equal_sign s; s ← skip_two s;
  '(str, s) ← get_until_chr EOL s; s ← pj_scan_get_newline s;
  Some (str, s).

Definition parse_connection_info (s : list Z) : parsed pjmedia_sdp_conn :=
  s ← skip_two s;
  '(net_type, s) ← get_until_space s; '(_, s) ← get_char s;
  '(addr_type, s) ← get_until_space s; '(_, s) ← get_char s;
  '(addr, s) ← get_until_chr (47 :: BLANK_EOL) s;
  Some (SdpConn net_type addr_type addr, pj_scan_skip_line s).

Definition parse_bandwidth_info (s : list Z) : parsed pjmedia_sdp_bandw :=
  s ← skip_two s;
  '(modifier, s) ← pj_scan_get_until_ch false 58 s; '(_, s) ← get_char s;
  '(str, s) ← get_until_chr BLANK_EOL s;
  Some (SdpBandw modifier (u32 (pj_strtoul str)), pj_scan_skip_line s).

(** One turn of the loop over the format list: the format that is read, or [None]
    at the end of the list. *)
Definition parse_fmt (s : list Z) : parsed (option (list Z)) :=
  if negb (at0 s =? 32) then Some (None, s)
  else
    '(_, s) ← get_char s;
    if (at0 s =? 13) || (at0 s =? 10) then Some (None, s)
    else '(f, s) ← get_token s; Some (Some f, s).

(** The loop; formats past the array are read and ignored.  Too little fuel is the
    outer [None], a syntax error the inner one. *)
Fixpoint parse_fmts (fuel : nat) (fmts : list (list Z)) (s : list Z) :
    option (parsed (list (list Z))) :=
  match fuel with
  | O => None
  | S fuel =>
      match parse_fmt s with
      | None => Some None
      | Some (None, s) => Some (Some (fmts, s))
      | Some (Some f, s) =>
          parse_fmts fuel (if zlen fmts <? PJMEDIA_MAX_SDP_FMT then fmts ++ [f] else fmts) s
      end
  end.

(** The media line up to its formats. *)
Definition parse_media_head (s : list Z) : parsed (list Z * Z * Z * list Z) :=
  _ ← equal_sign s; s ← skip_two s;
  '(type, s) ← get_until_space s; '(_, s) ← get_char s;
  '(str, s) ← get_token s;
  let port := u16 (pj_strtoul str) in
  '(port_count, s) ←
    (if at0 s =? 47 then
       '(_, s) ← get_char s; '(str, s) ← get_token s; Some (u32 (pj_strtoul str), s)
     else Some (0, s));
  '(c, s) ← get_char s;
  if negb (c =? 32) then None
  else
    '(transport, s) ← get_until_chr BLANK_EOL s;
    Some ((type, port, port_count, transport), s).

(** The whole line; the outer [None] is too little fuel, as for its formats. *)
Definition parse_media (s : list Z) : option (parsed pjmedia_sdp_media) :=
  match parse_media_head s with
  | None => Some None
  | Some ((type, port, port_count, transport), s) =>
      fmts ← parse_fmts (S (length s)) [] s;
      Some ('(fmts, s) ← fmts;
            Some (SdpMedia type port port_count transport fmts None [] [], pj_scan_skip_line s))
  end.

Definition parse_attr (s : list Z) : parsed pjmedia_sdp_attr :=
  let eol (s : list Z) := (at0 s =? 13) || (at0 s =? 10) in
  _ ← equal_sign s; s ← skip_two s;
  '(name, s) ← get_token s;
  if (at0 s =? 0) || eol s then Some (SdpAttr name [], pj_scan_skip_line s)
  else
    '(_, s) ← (if at0 s =? 58 then get_char s else Some (0, s));
    if eol s then Some (SdpAttr name [], pj_scan_skip_line s)
    else
      '(value, s) ← get_until_chr EOL s;
      Some (SdpAttr name value, pj_scan_skip_line s).

(** The media line being read joins the session. *)
Definition end_media (p : parse_state) : pjmedia_sdp_session :=
  match ps_media p with
  | Some m => if ps_kept p then (ps_session p) <| media ::= fun l => l ++ [m] |> else ps_session p
  | None => ps_session p
  end.

Definition at_media (f : pjmedia_sdp_media -> pjmedia_sdp_media)
    (g : pjmedia_sdp_session -> pjmedia_sdp_session) (p : parse_state) : parse_state :=
  match ps_media p with
  | Some m => p <| ps_media := Some (f m) |>
  | None => p <| ps_session ::= g |>
  end.

Definition add_bandw (b : pjmedia_sdp_bandw) (l : list pjmedia_sdp_bandw) : list pjmedia_sdp_bandw :=
  if zlen l <? PJMEDIA_MAX_SDP_BANDW then l ++ [b] else l.
Definition add_attr (a : pjmedia_sdp_attr) (l : list pjmedia_sdp_attr) : list pjmedia_sdp_attr :=
  if zlen l <? PJMEDIA_MAX_SDP_ATTR then fst (pjmedia_sdp_attr_add l a) else l.
Definition start_media (m : pjmedia_sdp_media) (p : parse_state) : parse_state :=
  let sess := end_media p in
  ParseState sess (Some m) (zlen (media sess) <? PJMEDIA_MAX_SDP_MEDIA).

(** A throwing line parser, with the status it leaves in [last_error]. *)
Definition parse_with {A} (last_error : pj_status) (x : parsed A) (f : A -> parse_state) :
    (parse_state * list Z) + pj_status :=
  match x with Some (a, s) => inl (f a, s) | None => inr last_error end.

(** One turn of the loop; empty lines are allowed at the end only.  [None] is too
    little fuel for the formats of a media line. *)
Definition parse_line (p : parse_state) (s : list Z) :
    option ((parse_state * list Z) + pj_status) :=
  let c := at0 s in
  if c =? 97 then
    Some (parse_with PJMEDIA_SDP_EINATTR (parse_attr s) (fun a =>
      at_media (fun m => m <| media_attr ::= add_attr a |>)
               (fun ses => ses <| sess_attr ::= add_attr a |>) p))
  else if c =? 111 then
    Some (parse_with PJMEDIA_SDP_EINORIGIN (parse_origin s) (fun o =>
      p <| ps_session ::= fun ses => ses <| origin := o |> |>))
  else if c =? 115 then
    Some (parse_with PJMEDIA_SDP_EINSDP (parse_generic_line s) (fun name =>
      p <| ps_session ::= fun ses => ses <| sess_name := name |> |>))
  else if c =? 99 then
    Some (parse_with PJMEDIA_SDP_EINCONN (parse_connection_info s) (fun conn =>
      at_media (fun m => m <| media_conn := Some conn |>)
               (fun ses => ses <| sess_conn := Some conn |>) p))
  else if c =? 116 then
    Some (parse_with PJMEDIA_SDP_EINTIME (parse_time s) (fun '(start, stop) =>
      p <| ps_session ::= fun ses => ses <| time_start := start |> <| time_stop := stop |> |>))
  else if c =? 109 then
    m ← parse_media s;
    Some (parse_with PJMEDIA_SDP_EINMEDIA m (fun m => start_media m p))
  else if c =? 118 then
    Some (parse_with PJMEDIA_SDP_EINVER (parse_version s) (fun _ => p))
  else if (c =? 13) || (c =? 10) then
    if forallb (fun c => (c =? 13) || (c =? 10)) s then Some (inl (p, [])) else Some (inr PJMEDIA_SDP_EINSDP)
  else if c =? 98 then
    Some (parse_with PJMEDIA_SDP_EINBANDW (parse_bandwidth_info s) (fun b =>
      at_media (fun m => m <| media_bandw ::= add_bandw b |>)
               (fun ses => ses <| sess_bandw ::= add_bandw b |>) p))
  else if (97 <=? c) && (c <=? 122) then
    Some (parse_with PJMEDIA_SDP_EINSDP (parse_generic_line s) (fun _ => p))
  else Some (inr PJMEDIA_SDP_EINSDP).

Fixpoint parse_lines (fuel : nat) (p : parse_state) (s : list Z) : option (parse_state + pj_status) :=
  match fuel with
  | O => None
  | S fuel =>
      if pj_scan_is_eof s then Some (inl p)
      else match parse_line p s with
           | Some (inl (p, s)) => parse_lines fuel p s
           | Some (inr status) => Some (inr status)
           | None => None
           end
  end.

(** [PJ_POOL_ZALLOC_T] *)
Definition empty_session : pjmedia_sdp_session :=
  SdpSession (SdpOrigin [] 0 0 [] [] []) [] None [] 0 0 [] [].

(** Leading newlines are ignored. *)
Fixpoint skip_newlines (s : list Z) : list Z :=
  match s with
  | c :: s' => if (c =? 13) || (c =? 10) then skip_newlines s' else s
  | [] => []
  end.

(** The status, and the session unless an error was thrown; [None] is too little
    fuel. *)
Definition pjmedia_sdp_parse (buf : list Z) : option (pj_status * option pjmedia_sdp_session) :=
  let s := skip_newlines buf in
  r ← parse_lines (S (length s)) (ParseState empty_session None false) s;
  Some match r with
       | inl p => (PJ_SUCCESS, Some (apply_media_direction (end_media p)))
       | inr status => (status, None)
       end.

(** ** Every text is parsed or refused

    A turn of a loop takes at least one byte. *)

Lemma scan_while_length spec s out rest :
  scan_while spec s = (out, rest) -> (length s = length out + length rest)%nat.
Proof.
  revert out rest. induction s as [|c s IH]; intros out rest; cbn; [by intros [= <- <-]|].
  destruct (spec c); [|by intros [= <- <-]].
  destruct (scan_while spec s) as [o r]. intros [= <- <-]. cbn. by rewrite (IH o r).
Qed.

Lemma scan_skip_off s : scan_skip false s = s.
Proof. unfold scan_skip. by rewrite andb_false_r. Qed.

Lemma get_until_length (f : list Z -> option (list Z * list Z)) s out rest :
  (exists c, f = pj_scan_get_until_ch false c) \/ (exists l, f = pj_scan_get_until_chr false l) ->
  f s = Some (out, rest) -> (length rest <= length s)%nat.
Proof.
  intros [[x ->]|[x ->]]; unfold pj_scan_get_until_ch, pj_scan_get_until_chr;
    (destruct s as [|c s]; [done|]); destruct (scan_while _ _) as [o r] eqn:E; rewrite scan_skip_off;
    intros [= <- <-]; apply scan_while_length in E; lia.
Qed.

Lemma until_space_length s out rest :
  get_until_space s = Some (out, rest) -> (length rest <= length s)%nat.
Proof. apply get_until_length. left. by exists 32. Qed.
Lemma until_ch_length c s out rest :
  pj_scan_get_until_ch false c s = Some (out, rest) -> (length rest <= length s)%nat.
Proof. apply get_until_length. left. by exists c. Qed.
Lemma until_chr_length l s out rest :
  get_until_chr l s = Some (out, rest) -> (length rest <= length s)%nat.
Proof. apply get_until_length. right. by exists l. Qed.
Lemma get_char_length s c rest : get_char s = Some (c, rest) -> (length rest < length s)%nat.
Proof.
  unfold get_char, pj_scan_get_char. destruct (_ =? _) eqn:E; [done|]. rewrite scan_skip_off.
  destruct s as [|x s]; [done|]. intros [= <- <-]. cbn. lia.
Qed.
Lemma get_token_length s t rest : get_token s = Some (t, rest) -> (length rest < length s)%nat.
Proof.
  unfold get_token, pj_scan_get. destruct (negb _) eqn:E; [done|].
  destruct (scan_while _ _) as [o r] eqn:Hw. rewrite scan_skip_off. intros [= <- <-].
  destruct s as [|c s]; [done|]. cbn [scan_while] in Hw. cbn [at0 hd] in E.
  apply negb_false_iff in E. rewrite E in Hw. destruct (scan_while _ s) as [o' r'] eqn:Hw'.
  injection Hw as <- <-. apply scan_while_length in Hw'. cbn. lia.
Qed.
Lemma skip_two_length s rest : skip_two s = Some rest -> (length rest + 2 = length s)%nat.
Proof.
  unfold skip_two, pj_scan_advance_n. case_decide; [done|]. rewrite scan_skip_off. intros [= <-].
  rewrite length_drop. lia.
Qed.
Lemma skip_line_length s : (length (pj_scan_skip_line s) <= length s - 1)%nat.
Proof.
  unfold pj_scan_skip_line. induction s as [|c s IH]; cbn [scan_line]; [cbn; lia|].
  destruct (c =? 10); [cbn; lia|]. destruct (c =? 0); cbn [default length] in *; [cbn; lia|].
  destruct (scan_line s); cbn in *; lia.
Qed.
Lemma newline_length s rest : pj_scan_get_newline s = Some rest -> (length rest <= length s)%nat.
Proof.
  unfold pj_scan_get_newline. destruct (negb _); [done|]. cbn zeta. intros [= <-].
  destruct s as [|c s]; cbn; [done|]. repeat case_match; cbn; try lia. destruct s; cbn; lia.
Qed.

(** Takes a parse apart and compares the lengths of what is left. *)
Ltac parse_length :=
  repeat match goal with
  | H : _ ≫= _ = Some _ |- _ => apply bind_Some in H as (? & ? & H)
  | H : context [let '(_, _) := ?x in _] |- _ => is_var x; destruct x
  | H : (if ?b then _ else _) = Some _ |- _ => destruct b eqn:?
  | H : Some _ = Some _ |- _ => injection H as ? ?
  | H : None = Some _ |- _ => discriminate H
  end; simplify_eq;
  repeat match goal with
  | H : get_until_space _ = Some _ |- _ => apply until_space_length in H
  | H : pj_scan_get_until_ch false _ _ = Some _ |- _ => apply until_ch_length in H
  | H : get_until_chr _ _ = Some _ |- _ => apply until_chr_length in H
  | H : get_char _ = Some _ |- _ => apply get_char_length in H
  | H : get_token _ = Some _ |- _ => apply get_token_length in H
  | H : skip_two _ = Some _ |- _ => apply skip_two_length in H
  | H : pj_scan_get_newline _ = Some _ |- _ => apply newline_length in H
  end;
  repeat match goal with
  | |- context [pj_scan_skip_line ?s] => pose proof (skip_line_length s); generalize dependent (pj_scan_skip_line s); intros
  end; try lia.

Lemma parse_fmt_length s f rest : parse_fmt s = Some (f, rest) ->
  (length rest <= length s)%nat /\ (is_Some f -> (length rest < length s)%nat).
Proof.
  unfold parse_fmt. destruct (negb _); [intros [= <- <-]; by split; [|intros []]|]. intros H.
  parse_length; (split; [lia|intros [? [=]]; try lia]).
Qed.

(** More fuel than the text is enough for the formats, and does not matter further. *)
Lemma parse_fmts_fuel fuel fmts s : (length s < fuel)%nat ->
  exists r, forall fuel', (length s < fuel')%nat -> parse_fmts fuel' fmts s = Some r.
Proof.
  revert fmts s. induction fuel as [|fuel IH]; intros fmts s Hf; [lia|].
  destruct (parse_fmt s) as [[[f|] s']|] eqn:E.
  - destruct (parse_fmt_length _ _ _ E) as [_ Hl]. specialize (Hl ltac:(eauto)).
    destruct (IH (if zlen fmts <? PJMEDIA_MAX_SDP_FMT then fmts ++ [f] else fmts) s') as (r & Hr); [lia|].
    exists r. intros [|fuel'] ?; [lia|]. cbn [parse_fmts]. rewrite E. apply Hr. lia.
  - exists (Some (fmts, s')). intros [|fuel'] ?; [lia|]. cbn [parse_fmts]. by rewrite E.
  - exists None. intros [|fuel'] ?; [lia|]. cbn [parse_fmts]. by rewrite E.
Qed.
Lemma parse_fmts_length fuel fmts s l rest :
  parse_fmts fuel fmts s = Some (Some (l, rest)) -> (length rest <= length s)%nat.
Proof.
  revert fmts s. induction fuel as [|fuel IH]; intros fmts s; cbn [parse_fmts]; [done|].
  destruct (parse_fmt s) as [[[f|] s']|] eqn:E; [|by intros [= <- <-]; apply parse_fmt_length in E as [? _]|done].
  apply parse_fmt_length in E as [Hl _]. intros Hr. apply IH in Hr. lia.
Qed.

Lemma parse_with_length {A} status (x : parsed A) f p s (n : nat) :
  parse_with status x f = inl (p, s) ->
  (forall a rest, x = Some (a, rest) -> (length rest < n)%nat) -> (length s < n)%nat.
Proof. destruct x as [[a rest]|]; [|done]. intros [= <- <-] H. by eapply H. Qed.

Lemma parse_media_head_length s h rest : parse_media_head s = Some (h, rest) -> (length rest < length s)%nat.
Proof. unfold parse_media_head. cbn zeta. intros H. parse_length. Qed.

Lemma parse_media_total s : is_Some (parse_media s).
Proof.
  unfold parse_media. destruct (parse_media_head s) as [[[[[type port] count] transport] s']|]; [|done].
  destruct (parse_fmts_fuel (S (length s')) [] s' ltac:(lia)) as (r & Hr). rewrite Hr by lia. done.
Qed.

Lemma parse_media_inv s m rest : parse_media s = Some (Some (m, rest)) ->
  exists type port count transport fmts s1 s2,
    parse_media_head s = Some ((type, port, count, transport), s1) /\
    parse_fmts (S (length s1)) [] s1 = Some (Some (fmts, s2)) /\
    m = SdpMedia type port count transport fmts None [] [] /\ rest = pj_scan_skip_line s2.
Proof.
  unfold parse_media. destruct (parse_media_head s) as [[[[[type port] count] transport] s1]|]; [|done].
  destruct (parse_fmts _ _ _) as [[[fmts s2]|]|] eqn:E; [|done|done].
  intros [= <- <-]. do 7 eexists. by split_and!.
Qed.

Lemma parse_media_length s m rest : parse_media s = Some (Some (m, rest)) -> (length rest < length s)%nat.
Proof.
  intros (? & ? & ? & ? & fmts & s1 & s2 & Hh & Hf & _ & ->)%parse_media_inv.
  apply parse_media_head_length in Hh. apply parse_fmts_length in Hf. pose proof (skip_line_length s2). lia.
Qed.

Lemma parse_line_total p s : is_Some (parse_line p s).
Proof.
  unfold parse_line. cbn zeta. destruct (parse_media_total s) as [m Hm]. rewrite Hm.
  by repeat case_match.
Qed.

Lemma parse_line_length p s p' s' :
  s <> [] -> parse_line p s = Some (inl (p', s')) -> (length s' < length s)%nat.
Proof.
  intros Hs. assert (0 < length s)%nat by (destruct s; [done|cbn; lia]).
  unfold parse_line. cbn zeta. destruct (parse_media_total s) as [m Hm]. rewrite Hm. cbn [mbind option_bind].
  repeat (case_match; [intros H'; try apply (inj Some) in H';
    try (eapply parse_with_length; [exact H'|]; intros a rest Hp;
    try (rewrite Hp in Hm; by apply parse_media_length in Hm);
    unfold parse_attr, parse_origin, parse_generic_line, parse_connection_info,
      parse_time, parse_version, parse_bandwidth_info in Hp; cbn zeta in Hp; parse_length)|]);
  try discriminate.
  destruct (forallb _ _); [by simplify_eq|discriminate].
Qed.

Lemma parse_lines_fuel fuel p s :
  (length s < fuel)%nat -> exists r, parse_lines fuel p s = Some r /\
    forall fuel', (length s < fuel')%nat -> parse_lines fuel' p s = Some r.
Proof.
  revert p s. induction fuel as [|fuel IH]; intros p s Hf; [lia|]. cbn [parse_lines].
  destruct (pj_scan_is_eof s) eqn:He.
  { eexists. split; [done|]. intros [|fuel'] ?; [lia|]. cbn [parse_lines]. by rewrite He. }
  apply bool_decide_eq_false in He. destruct (parse_line_total p s) as [[[p' s']|st] Hp]; rewrite Hp.
  - pose proof (parse_line_length _ _ _ _ He Hp). destruct (IH p' s') as (r & -> & Hr); [lia|].
    exists r. split; [done|]. intros [|fuel'] ?; [lia|]. cbn [parse_lines].
    rewrite (bool_decide_eq_false_2 _ He : pj_scan_is_eof s = false), Hp. apply Hr. lia.
  - eexists. split; [done|]. intros [|fuel'] ?; [lia|]. cbn [parse_lines].
    by rewrite (bool_decide_eq_false_2 _ He : pj_scan_is_eof s = false), Hp.
Qed.

(** An invariant of the lines, and what holds of the status of a refused one. *)
Lemma parse_lines_ind (P : parse_state -> Prop) (Q : pj_status -> Prop) :
  (forall p s p' s', P p -> parse_line p s = Some (inl (p', s')) -> P p') ->
  (forall p s status, parse_line p s = Some (inr status) -> Q status) ->
  forall fuel p s r, P p -> parse_lines fuel p s = Some r ->
    match r with inl p' => P p' | inr status => Q status end.
Proof.
  intros HP HQ. induction fuel as [|fuel IH]; intros p s r Hp; cbn [parse_lines]; [done|].
  destruct (pj_scan_is_eof s); [by intros [= <-]|].
  destruct (parse_line p s) as [[[p' s']|status]|] eqn:Hl; [|intros [= <-]; eauto|done].
  eapply IH, HP; eauto.
Qed.

(** The codes that a syntax error leaves. *)
Definition parse_errors : list pj_status :=
  [PJMEDIA_SDP_EINSDP; PJMEDIA_SDP_EINVER; PJMEDIA_SDP_EINORIGIN; PJMEDIA_SDP_EINTIME;
   PJMEDIA_SDP_EINCONN; PJMEDIA_SDP_EINBANDW; PJMEDIA_SDP_EINATTR; PJMEDIA_SDP_EINMEDIA].

Lemma parse_with_status {A} status (x : parsed A) f st : parse_with status x f = inr st -> st = status.
Proof. destruct x as [[a s]|]; by intros [= <-]. Qed.

Lemma parse_line_status p s status : parse_line p s = Some (inr status) -> status ∈ parse_errors.
Proof.
  unfold parse_line, parse_errors. cbn zeta. destruct (parse_media_total s) as [m Hm]. rewrite Hm.
  cbn [mbind option_bind]. intros H.
  repeat (case_match; [try (apply (inj Some), parse_with_status in H as ->; set_solver)|]);
    simplify_eq; set_solver.
Qed.

(** C28: whatever the bytes of the buffer, the parser comes to its end: the loop over
    the lines and the loop over the formats of a media line both end, as each turn
    takes at least one byte.  It reports a success exactly when it has a
    session to give, and otherwise one of the codes of the lines of a description. *)
Theorem sdp_parse_total buf :
  exists status ses, pjmedia_sdp_parse buf = Some (status, ses) /\
    (status = PJ_SUCCESS <-> is_Some ses) /\ (ses = None -> status ∈ parse_errors).
Proof.
  unfold pjmedia_sdp_parse. cbn zeta.
  destruct (parse_lines_fuel (S (length (skip_newlines buf))) (ParseState empty_session None false)
    (skip_newlines buf)) as (r & Hr & _); [lia|].
  pose proof (parse_lines_ind (fun _ => True) (fun st => st ∈ parse_errors)
    ltac:(done) parse_line_status _ _ _ _ I Hr) as Hst.
  rewrite Hr. cbn [mbind option_bind]. destruct r as [p|status].
  - eexists _, _. split; [done|]. by split; [split|].
  - eexists _, _. split; [done|]. split; [|done]. split; [|by intros []].
    intros ->. exfalso. revert Hst. unfold parse_errors. rewrite !elem_of_cons, elem_of_nil. naive_solver.
Qed.

(** A format list cut off by the end of the text, and one that a bad byte ends. *)
Lemma sdp_parse_total_witness :
  (exists status ses, pjmedia_sdp_parse (pj_str "m=audio 4000 RTP/AVP 0 8 ") = Some (status, ses) /\
    (status = PJ_SUCCESS <-> is_Some ses) /\ (ses = None -> status ∈ parse_errors)) /\
  pjmedia_sdp_parse (pj_str "m=audio 4000 RTP/AVP 0 8 ") = Some (PJMEDIA_SDP_EINMEDIA, None) /\
  (pjmedia_sdp_parse (pj_str "m=audio 4000 RTP/AVP 0 8 " ++ CRLF) ≫= snd) <> None.
Proof.
  split; [exact (sdp_parse_total (pj_str "m=audio 4000 RTP/AVP 0 8 "))|].
  split; vm_compute; [reflexivity|discriminate].
Defined.

(** ** What is parsed fits the arrays and the fields *)

Definition bandw_fits (l : list pjmedia_sdp_bandw) : Prop :=
  zlen l <= PJMEDIA_MAX_SDP_BANDW /\ Forall (fun b => is_u32 (bandw_value b)) l.
Definition media_fits (m : pjmedia_sdp_media) : Prop :=
  is_u16 (port m) /\ is_u32 (port_count m) /\ zlen (fmt m) <= PJMEDIA_MAX_SDP_FMT /\
  bandw_fits (media_bandw m) /\ zlen (media_attr m) <= PJMEDIA_MAX_SDP_ATTR.
Definition session_fits (s : pjmedia_sdp_session) : Prop :=
  is_u32 (origin_id (origin s)) /\ is_u32 (version (origin s)) /\
  is_u32 (time_start s) /\ is_u32 (time_stop s) /\ bandw_fits (sess_bandw s) /\
  zlen (sess_attr s) <= PJMEDIA_MAX_SDP_ATTR /\
  zlen (media s) <= PJMEDIA_MAX_SDP_MEDIA /\ Forall media_fits (media s).
Definition state_fits (p : parse_state) : Prop :=
  session_fits (ps_session p) /\
  match ps_media p with
  | Some m => media_fits m /\ (ps_kept p = true -> zlen (media (ps_session p)) < PJMEDIA_MAX_SDP_MEDIA)
  | None => True
  end.

Lemma attr_add_fits l a :
  zlen l <= PJMEDIA_MAX_SDP_ATTR -> zlen (fst (pjmedia_sdp_attr_add l a)) <= PJMEDIA_MAX_SDP_ATTR.
Proof.
  intros Hl. unfold pjmedia_sdp_attr_add. destruct (Z.ltb_spec (zlen l) PJMEDIA_MAX_SDP_ATTR); cbn [fst]; [|done].
  rewrite zlen_app. change (zlen [a]) with 1. lia.
Qed.
Lemma add_attr_fits a l : zlen l <= PJMEDIA_MAX_SDP_ATTR -> zlen (add_attr a l) <= PJMEDIA_MAX_SDP_ATTR.
Proof. intros Hl. unfold add_attr. case_match; [by apply attr_add_fits|done]. Qed.
Lemma add_bandw_fits b l : is_u32 (bandw_value b) -> bandw_fits l -> bandw_fits (add_bandw b l).
Proof.
  intros Hb [Hl Hf]. unfold add_bandw.
  destruct (Z.ltb_spec (zlen l) PJMEDIA_MAX_SDP_BANDW); [|done].
  split; [rewrite zlen_app; change (zlen [b]) with 1; lia|]. apply Forall_app. auto.
Qed.
Lemma end_media_fits p : state_fits p -> session_fits (end_media p).
Proof.
  intros [Hs Hm]. unfold end_media. destruct (ps_media p) as [m|]; [|done].
  destruct (ps_kept p); [|done]. destruct Hm as [Hm Hk]. specialize (Hk eq_refl).
  destruct Hs as (? & ? & ? & ? & ? & ? & ? & Hall). do 6 (split; [done|]). split.
  - change (zlen (media (ps_session p) ++ [m]) <= PJMEDIA_MAX_SDP_MEDIA).
    rewrite zlen_app. change (zlen [m]) with 1. lia.
  - apply Forall_app. auto.
Qed.

Lemma parse_fmts_fits fuel fmts s l rest :
  zlen fmts <= PJMEDIA_MAX_SDP_FMT -> parse_fmts fuel fmts s = Some (Some (l, rest)) ->
  zlen l <= PJMEDIA_MAX_SDP_FMT.
Proof.
  revert fmts s. induction fuel as [|fuel IH]; intros fmts s Hl; cbn [parse_fmts]; [done|].
  destruct (parse_fmt s) as [[[t|] s2]|] eqn:E; [|by intros [= <- <-]|done].
  intros H. apply IH in H; [done|]. destruct (Z.ltb_spec (zlen fmts) PJMEDIA_MAX_SDP_FMT); [|done].
  rewrite zlen_app. change (zlen [t]) with 1. lia.
Qed.

Lemma parse_media_head_fits s type port count transport rest :
  parse_media_head s = Some ((type, port, count, transport), rest) -> is_u16 port /\ is_u32 count.
Proof.
  unfold parse_media_head. cbn zeta. intros H.
  repeat match goal with
  | H : _ ≫= _ = Some _ |- _ => apply bind_Some in H as (? & ? & H)
  | H : context [let '(_, _) := ?x in _] |- _ => is_var x; destruct x
  | H : (if ?b then None else _) = Some _ |- _ => destruct b; [discriminate|]
  end.
  simplify_eq. split; [apply u16_range|].
  match goal with H : (if ?b then _ else _) = Some _ |- _ => destruct b end;
    parse_length; [apply u32_range|done].
Qed.

Lemma parse_media_fits s m rest : parse_media s = Some (Some (m, rest)) -> media_fits m.
Proof.
  intros (? & ? & ? & ? & fmts & s1 & s2 & Hh & Hf & -> & _)%parse_media_inv.
  apply parse_media_head_fits in Hh as [Hp Hc]. unfold media_fits.
  cbn [port port_count fmt media_bandw media_attr].
  split; [exact Hp|]. split; [exact Hc|]. split; [|done]. eapply parse_fmts_fits; [|exact Hf]. done.
Qed.

Lemma parse_with_inl {A} status (x : parsed A) f p s :
  parse_with status x f = inl (p, s) -> exists a rest, x = Some (a, rest) /\ p = f a.
Proof. destruct x as [[a rest]|]; [|done]. intros [= <- <-]. eauto. Qed.

Lemma at_media_fits f g p :
  (forall m, media_fits m -> media_fits (f m)) ->
  (forall s, session_fits s -> session_fits (g s) /\ media (g s) = media s) ->
  state_fits p -> state_fits (at_media f g p).
Proof.
  intros Hf Hg. destruct p as [ses [m|] k]; intros [Hs Hm].
  - split; [done|]. split; [apply Hf, Hm|apply Hm].
  - split; [by apply Hg|done].
Qed.
Lemma at_session_fits g p :
  (forall s, session_fits s -> session_fits (g s) /\ media (g s) = media s) ->
  state_fits p -> state_fits (p <| ps_session ::= g |>).
Proof.
  intros Hg. destruct p as [ses [m|] k]; intros [Hs Hm]; destruct (Hg _ Hs) as [H1 H2];
    (split; [done|]); cbn in *; [by rewrite H2|done].
Qed.

(** A record of ranges, the fields that did not change done. *)
Ltac fits := unfold session_fits, media_fits; split_and!; try done.

Lemma session_fits_lines s b a n : is_u32 (bandw_value b) -> session_fits s ->
  (session_fits (s <| sess_bandw ::= add_bandw b |>) /\
   session_fits (s <| sess_attr ::= add_attr a |>) /\
   session_fits (s <| sess_name := n |>)).
Proof.
  intros Hb (? & ? & ? & ? & ? & ? & ? & ?). fits.
  - by apply add_bandw_fits.
  - by apply add_attr_fits.
Qed.
Lemma media_fits_lines m b a c : is_u32 (bandw_value b) -> media_fits m ->
  (media_fits (m <| media_bandw ::= add_bandw b |>) /\
   media_fits (m <| media_attr ::= add_attr a |>) /\ media_fits (m <| media_conn := c |>)).
Proof.
  intros Hb (? & ? & ? & ? & ?). fits.
  - by apply add_bandw_fits.
  - by apply add_attr_fits.
Qed.

Lemma parse_numbers s :
  (forall o rest, parse_origin s = Some (o, rest) -> is_u32 (origin_id o) /\ is_u32 (version o)) /\
  (forall t u rest, parse_time s = Some ((t, u), rest) -> is_u32 t /\ is_u32 u) /\
  (forall b rest, parse_bandwidth_info s = Some (b, rest) -> is_u32 (bandw_value b)).
Proof.
  unfold parse_origin, parse_time, parse_bandwidth_info.
  split_and!; intros; parse_length; cbn; auto using u32_range.
Qed.

Lemma parse_line_fits p s p' s' : state_fits p -> parse_line p s = Some (inl (p', s')) -> state_fits p'.
Proof.
  intros Hp. unfold parse_line. cbn zeta. intros H.
  destruct (parse_numbers s) as (Ho & Ht & Hb).
  assert (is_u32 (bandw_value (SdpBandw [] 0))) as Hz by done.
  destruct (parse_media_total s) as [m Hm]. rewrite Hm in H. cbn [mbind option_bind] in H.
  repeat (case_match; [first [apply (inj Some), parse_with_inl in H as (x & rest & Hx & ->)|idtac]|]).
  - apply at_media_fits; [|intros ? ?; split; [|done]|done]; intros;
      [by apply (media_fits_lines _ _ _ None Hz)|by apply (session_fits_lines _ _ _ [] Hz)].
  - apply Ho in Hx as [? ?]. apply at_session_fits; [|done].
    intros ? (? & ? & ? & ? & ? & ? & ? & ?). by fits.
  - apply at_session_fits; [|done]. intros ses Hses. split; [|done].
    by apply (session_fits_lines _ _ (SdpAttr [] []) _ Hz).
  - apply at_media_fits; [|intros ses Hses; split; [|done]|done]; intros.
    + by apply (media_fits_lines _ _ (SdpAttr [] []) _ Hz).
    + destruct Hses as (? & ? & ? & ? & ? & ? & ? & ?). by fits.
  - destruct x as [t u]. apply Ht in Hx as [? ?]. apply at_session_fits; [|done].
    intros ? (? & ? & ? & ? & ? & ? & ? & ?). by fits.
  - rewrite Hx in Hm. apply parse_media_fits in Hm. split; [by apply end_media_fits|]. cbn.
    split; [done|]. intros Hk. by apply Z.ltb_lt.
  - done.
  - by simplify_eq.
  - discriminate.
  - apply Hb in Hx. apply at_media_fits; [|intros ? ?; split; [|done]|done]; intros.
    + by apply (media_fits_lines _ _ (SdpAttr [] []) None).
    + by apply (session_fits_lines _ _ (SdpAttr [] []) []).
  - done.
  - discriminate.
Qed.

Lemma apply_media_direction_fits s : session_fits s -> session_fits (apply_media_direction s).
Proof.
  intros (? & ? & ? & ? & ? & ? & ? & Hall). unfold apply_media_direction.
  destruct (find_dir_attr 0 (sess_attr s)) as [[i a]|]; [|by fits].
  fits.
  - cbn. unfold pjmedia_sdp_attr_remove. case_match; cbn [fst]; [done|].
    etrans; [|done]. apply inj_le, sublist_length, sublist_delete.
  - etrans; [|done]. apply Z.eq_le_incl. unfold zlen. f_equal. apply (length_fmap _ (media s)).
  - apply Forall_fmap. eapply Forall_impl; [exact Hall|]. intros m (? & ? & ? & ? & ?). cbn.
    case_match; [by fits|]. fits. by apply attr_add_fits.
Qed.

(** C27: every field and array of a session that the parser gives is in the range
    of its C type: at most 16 media, 32 formats and 68 attributes on each, 4
    bandwidth lines, 16-bit ports and 32-bit numbers, whatever the text holds. *)
Theorem sdp_parse_fits buf status ses :
  pjmedia_sdp_parse buf = Some (status, Some ses) -> session_fits ses.
Proof.
  unfold pjmedia_sdp_parse. cbn zeta. intros H. apply bind_Some in H as (r & Hr & H).
  assert (state_fits (ParseState empty_session None false)) as H0 by (split; [by fits|done]).
  pose proof (parse_lines_ind state_fits (fun _ => True) parse_line_fits ltac:(done) _ _ _ _ H0 Hr) as Hp.
  destruct r as [p|]; simplify_eq. by apply apply_media_direction_fits, end_media_fits.
Qed.

Lemma sdp_parse_fits_witness :
  exists ses, pjmedia_sdp_parse (pj_str "m=audio 4000/2 RTP/AVP 0 8" ++ CRLF) = Some (PJ_SUCCESS, Some ses) /\
    session_fits ses.
Proof.
  eexists. split; [vm_compute; reflexivity|].
  refine (sdp_parse_fits (pj_str "m=audio 4000/2 RTP/AVP 0 8" ++ CRLF) PJ_SUCCESS _ _).
  vm_compute; reflexivity.
Defined.
