(* ===== verification/SdpTextProps.v ===== *)
(** * The text of a session description: bounds and round trip

    What [pjmedia_sdp_print] writes is the concatenation of the lines; what
    [pjmedia_sdp_parse] reads of it is the session; and how far it writes. *)

From stdpp Require Import list.
From Stdlib Require Import Strings.String.
From S2P Require Import Prelude PjString Scanner Sdp SdpText.
Set Warnings "-clear-no-such-hyp".
Open Scope string_scope.
Open Scope list_scope.
Open Scope Z_scope.

(** ** The text of a session *)

Definition opt_text {A} (f : A -> list Z) (x : option A) : list Z :=
  match x with Some x => f x | None => [] end.
Definition media_text (m : pjmedia_sdp_media) : list Z :=
  media_line m ++ opt_text conn_text (media_conn m) ++
  concat (bandw_text <$> media_bandw m) ++ concat (attr_text <$> media_attr m).
Definition name_text (name : list Z) : list Z := pj_str "s=" ++ name ++ CRLF.
Definition time_text (start stop : Z) : list Z :=
  pj_str "t=" ++ pj_utoa start ++ [32] ++ pj_utoa stop ++ CRLF.
Definition session_text (ses : pjmedia_sdp_session) : list Z :=
  origin_text (origin ses) ++ name_text (sess_name ses) ++ opt_text conn_text (sess_conn ses) ++
  concat (bandw_text <$> sess_bandw ses) ++ time_text (time_start ses) (time_stop ses) ++
  concat (attr_text <$> sess_attr ses) ++ concat (media_text <$> media ses).

(** A printing function that succeeds has written one text, whatever the room. *)
Definition prints (f : Z -> printed) (text : list Z) : Prop :=
  forall len out, f len = (true, out) -> out = text.

Lemma prints_then f g t u : prints f t -> prints g u -> prints (f >>> g)%pj (t ++ u).
Proof.
  intros Hf Hg len out. unfold print_then. destruct (f len) as [[|] o] eqn:E1; [|done].
  destruct (g (len - zlen o)) as [ok o'] eqn:E2. intros [= -> <-].
  by rewrite (Hf _ _ E1), (Hg _ _ E2).
Qed.
Lemma prints_all {A} (f : A -> Z -> printed) t l :
  (forall x, prints (f x) (t x)) -> prints (print_all f l) (concat (t <$> l)).
Proof.
  intros Hf. induction l as [|x l IH]; cbn [print_all fmap list_fmap concat].
  - by intros len out [= <-].
  - by apply prints_then.
Qed.
Lemma prints_opt {A} (f : A -> Z -> printed) t x :
  (forall x, prints (f x) (t x)) -> prints (print_opt f x) (opt_text t x).
Proof. intros Hf. destruct x; [apply Hf|]. by intros len out [= <-]. Qed.

(** A printing function that tests the room and writes a text. *)
Lemma prints_line (b : Z -> bool) text :
  prints (fun len => if b len then (false, []) else (true, text)) text.
Proof. intros len out. destruct (b len); by intros [= <-]. Qed.
Lemma prints_conn c : prints (print_connection_info c) (conn_text c).
Proof. intros len out. unfold print_connection_info. cbn zeta. case_match; by intros [= <-]. Qed.
Lemma prints_cut f text (g : Z -> Z) : prints f text -> prints (fun len => f (g len)) text.
Proof. intros Hf len. apply Hf. Qed.

Lemma prints_media m : prints (print_media_desc m) (media_text m).
Proof.
  apply (prints_cut _ _ s32).
  apply prints_then; [apply prints_line|].
  apply prints_then; [by apply prints_opt, prints_conn|].
  apply prints_then; apply prints_all; intros x; apply prints_line.
Qed.
Lemma prints_session ses : prints (print_session ses) (session_text ses).
Proof.
  do 2 (apply prints_then; [apply prints_line|]).
  apply prints_then; [by apply prints_opt, prints_conn|].
  apply prints_then; [apply prints_all; intros x; apply prints_line|].
  apply prints_then; [apply prints_line|].
  apply prints_then; apply prints_all; [intros x; apply prints_line|apply prints_media].
Qed.

(** ** Reading back a line *)

(** A field of a line: no white space, no end of line and no NUL. *)
Definition word (s : list Z) : Prop := Forall (fun c => c ∉ [0; 9; 10; 13; 32]) s.
Definition no_eol (s : list Z) : Prop := Forall (fun c => c ∉ [10; 13]) s.

Lemma until_ch_app c w rest :
  Forall (fun x => x <> c) w -> pj_scan_get_until_ch false c (w ++ c :: rest) = Some (w, c :: rest).
Proof.
  intros Hw. unfold pj_scan_get_until_ch. destruct (w ++ c :: rest) as [|x s] eqn:E; [by destruct w|].
  rewrite <- E, scan_while_app, scan_skip_off; [done| |].
  - eapply Forall_impl; [exact Hw|]. intros x' Hx. cbn. by apply negb_true_iff, Z.eqb_neq.
  - intros x' [= <-]. cbn. by rewrite Z.eqb_refl.
Qed.
Lemma until_chr_app spec w x rest :
  Forall (fun x => x ∉ spec) w -> x ∈ spec ->
  get_until_chr spec (w ++ x :: rest) = Some (w, x :: rest).
Proof.
  intros Hw Hx. unfold get_until_chr, pj_scan_get_until_chr.
  destruct (w ++ x :: rest) as [|y s] eqn:E; [by destruct w|].
  rewrite <- E, scan_while_app, scan_skip_off; [done| |].
  - eapply Forall_impl; [exact Hw|]. intros x' Hx'. cbn. unfold cis_str. by rewrite bool_decide_eq_false_2.
  - intros x' [= <-]. cbn. unfold cis_str. by rewrite bool_decide_eq_true_2.
Qed.
Lemma get_char_cons c rest : c <> 0 -> get_char (c :: rest) = Some (c, rest).
Proof.
  intros Hc. unfold get_char, pj_scan_get_char. cbn [at0 hd tail].
  by rewrite (proj2 (Z.eqb_neq _ _)), scan_skip_off.
Qed.
Lemma get_token_app w x rest :
  is_token w -> cs_token x = false -> get_token (w ++ x :: rest) = Some (w, x :: rest).
Proof.
  intros [Hne Hw] Hx. unfold get_token. rewrite scan_get_app, scan_skip_off; [done..|].
  by intros c [= <-].
Qed.
Lemma skip_two_cons a b rest : skip_two (a :: b :: rest) = Some rest.
Proof.
  unfold skip_two, pj_scan_advance_n. case_decide as H; [cbn in H; lia|]. by rewrite scan_skip_off.
Qed.

Lemma word_until w : word w -> Forall (fun x => x <> 32) w /\ Forall (fun x => x ∉ BLANK_EOL) w /\
  Forall (fun x => x <> 0) w.
Proof.
  intros Hw. split_and!; (eapply Forall_impl; [exact Hw|]); intros x Hx; unfold BLANK_EOL; set_solver.
Qed.
Lemma word_space w rest : word w -> get_until_space (w ++ 32 :: rest) = Some (w, 32 :: rest).
Proof. intros Hw. by apply until_ch_app, word_until. Qed.

Lemma utoa_word n : is_u32 n ->
  word (pj_utoa n) /\ is_token (pj_utoa n) /\ u32 (pj_strtoul (pj_utoa n)) = n.
Proof.
  intros Hn. pose proof (pj_utoa_digits n ltac:(unfold is_u32 in Hn; lia)) as (Hd & Hl & Hval & _).
  set (digits := pj_utoa n) in *. clearbody digits. split_and!.
  - eapply Forall_impl; [exact Hd|]. intros c Hc. rewrite !elem_of_cons, elem_of_nil. cbn in Hc. lia.
  - split; [by intros ->; cbn in Hl; lia|]. eapply Forall_impl; [exact Hd|]. intros c Hc.
    unfold cs_token, cis_alpha, pj_isdigit. cbn in Hc. lia.
  - unfold pj_strtoul. destruct (strtoul_loop_digits digits 0 Hd) as [Hs _]. change (u64 0) with 0 in Hs.
    rewrite Hs, Hval. unfold u64. rewrite Z.mod_small by (unfold is_u32 in Hn; lia). by apply u32_small.
Qed.

#[local] Opaque pj_utoa.

Lemma word_eol w rest :
  word w -> get_until_chr BLANK_EOL (w ++ 13 :: rest) = Some (w, 13 :: rest).
Proof. intros Hw. destruct (word_until w Hw) as (_ & H & _). apply until_chr_app; [done|set_solver]. Qed.
Lemma cs_token_eol c : cs_token c = true -> ((c =? 13) || (c =? 10)) = false.
Proof.
  intros Hc. destruct (Z.eqb_spec c 13) as [->|]; [discriminate|].
  by destruct (Z.eqb_spec c 10) as [->|].
Qed.

(** Reads the fields of a line one after another. *)
Ltac read :=
  repeat first
    [ rewrite <- !app_assoc | progress cbn [app]
    | rewrite skip_two_cons | rewrite word_space by assumption | rewrite get_char_cons by discriminate
    | progress cbn [mbind option_bind] ].

Lemma read_origin o rest :
  word (user o) -> word (origin_net_type o) -> word (origin_addr_type o) -> word (origin_addr o) ->
  is_u32 (origin_id o) -> is_u32 (version o) ->
  parse_origin (pj_str "o=" ++ user o ++ [32] ++ pj_utoa (origin_id o) ++ [32] ++
    pj_utoa (version o) ++ [32] ++ origin_net_type o ++ [32] ++ origin_addr_type o ++ [32] ++
    origin_addr o ++ CRLF ++ rest) = Some (o, rest).
Proof.
  intros Hu Hn Ht Ha Hid Hv. destruct (utoa_word _ Hid) as (? & _ & Hid').
  destruct (utoa_word _ Hv) as (? & _ & Hv'). unfold parse_origin.
  change (pj_str "o=") with [111; 61]. change (equal_sign _) with (Some ()). unfold CRLF. read.
  rewrite word_eol by assumption. cbn [mbind option_bind].
  rewrite Hid', Hv'. by destruct o.
Qed.

Lemma read_time t u rest :
  is_u32 t -> is_u32 u -> parse_time (time_text t u ++ rest) = Some ((t, u), rest).
Proof.
  intros Ht Hu. destruct (utoa_word _ Ht) as (? & _ & Ht'). destruct (utoa_word _ Hu) as (Hw & _ & Hu').
  unfold parse_time, time_text, CRLF. change (pj_str "t=") with [116; 61].
  change (equal_sign _) with (Some ()). read.
  rewrite word_eol by assumption. cbn [mbind option_bind].
  by rewrite Ht', Hu'.
Qed.

Lemma read_name name rest : no_eol name ->
  parse_generic_line (name_text name ++ rest) = Some (name, rest).
Proof.
  intros Hn. unfold parse_generic_line, name_text, CRLF. change (pj_str "s=") with [115; 61].
  change (equal_sign _) with (Some ()). read.
  rewrite until_chr_app; [done| |set_solver].
  eapply Forall_impl; [exact Hn|]. unfold EOL. set_solver.
Qed.

Definition conn_ok (c : pjmedia_sdp_conn) : Prop :=
  word (conn_net_type c) /\ word (conn_addr_type c) /\ word (conn_addr c) /\ 47 ∉ conn_addr c.
Lemma word_print w : word w -> c_print w = w.
Proof. intros Hw. by apply c_print_id, word_until. Qed.

Lemma read_conn c rest : conn_ok c -> parse_connection_info (conn_text c ++ rest) = Some (c, rest).
Proof.
  intros (Hn & Ht & Ha & Hs). unfold parse_connection_info, conn_text, CRLF.
  rewrite !word_print by done. change (pj_str "c=") with [99; 61]. read.
  rewrite until_chr_app; [cbn [mbind option_bind]; by destruct c| |set_solver].
  apply word_until in Ha as (_ & Ha & _). rewrite Forall_forall in Ha |- *. set_solver.
Qed.

Definition bandw_ok (b : pjmedia_sdp_bandw) : Prop := (58 ∉ modifier b) /\ is_u32 (bandw_value b).
Lemma read_bandw b rest : bandw_ok b -> parse_bandwidth_info (bandw_text b ++ rest) = Some (b, rest).
Proof.
  intros [Hm Hv]. destruct (utoa_word _ Hv) as (Hw & _ & Hv').
  unfold parse_bandwidth_info, bandw_text, CRLF. change (pj_str "b=") with [98; 61]. read.
  rewrite until_ch_app by (apply Forall_forall; set_solver). cbn [mbind option_bind].
  rewrite get_char_cons by done. cbn [mbind option_bind].
  rewrite word_eol by assumption. cbn [mbind option_bind].
  rewrite Hv'. by destruct b.
Qed.

Definition attr_ok (a : pjmedia_sdp_attr) : Prop := is_token (attr_name a) /\ no_eol (attr_value a).
Lemma read_attr a rest : attr_ok a -> parse_attr (attr_text a ++ rest) = Some (a, rest).
Proof.
  intros [Hn Hv]. unfold parse_attr, attr_text, CRLF. cbn zeta. change (pj_str "a=") with [97; 61].
  change (equal_sign _) with (Some ()). read.
  destruct a as [name value]. cbn [attr_name attr_value] in *.
  destruct value as [|v value].
  - change (zlen [] =? 0) with true. cbn [app]. rewrite get_token_app by done. done.
  - change (zlen (v :: value) =? 0) with false. cbn [app]. rewrite get_token_app by done.
    cbn [mbind option_bind at0 hd Z.eqb Pos.eqb orb]. rewrite get_char_cons by done.
    cbn [mbind option_bind at0 hd].
    assert (((v =? 13) || (v =? 10)) = false) as ->.
    { inversion Hv as [|? ? Hv0 _]; subst. rewrite !elem_of_cons, elem_of_nil in Hv0. lia. }
    rewrite app_comm_cons, until_chr_app; [done| |set_solver].
    eapply Forall_impl; [exact Hv|]. unfold EOL. set_solver.
Qed.

Definition media_ok (m : pjmedia_sdp_media) : Prop :=
  word (media_type m) /\ word (transport m) /\ Forall is_token (fmt m) /\ media_fits m /\
  port_count m <> 1 /\ match media_conn m with Some c => conn_ok c | None => True end /\
  Forall bandw_ok (media_bandw m) /\ Forall attr_ok (media_attr m).

Definition fmts_text : list (list Z) -> list Z := foldr (fun f l => [32] ++ f ++ l) CRLF.
Lemma read_fmt f x t : is_token f -> cs_token x = false -> parse_fmt (32 :: f ++ x :: t) = Some (Some f, x :: t).
Proof.
  intros Hf Hx. unfold parse_fmt. cbn [at0 hd Z.eqb Pos.eqb negb]. rewrite get_char_cons by done.
  cbn [mbind option_bind].
  assert (((at0 (f ++ x :: t) =? 13) || (at0 (f ++ x :: t) =? 10)) = false) as ->.
  { destruct Hf as [? Hf]. destruct Hf as [|c f Hc]; [done|]. cbn. apply cs_token_eol, Hc. }
  by rewrite get_token_app.
Qed.

Lemma read_fmts fmts (done_ : list (list Z)) (rest : list Z) fuel :
  Forall is_token fmts -> zlen done_ + zlen fmts <= PJMEDIA_MAX_SDP_FMT ->
  (length (fmts_text fmts ++ rest) < fuel)%nat ->
  parse_fmts fuel done_ (fmts_text fmts ++ rest) =
    Some (Some (done_ ++ fmts, CRLF ++ rest)).
Proof.
  intros Hf. revert done_ fuel. induction Hf as [|f fmts Hf Hfs IH]; intros done_ [|fuel] Hl Hfuel; try lia.
  - cbn. by rewrite app_nil_r.
  - change (fmts_text (f :: fmts)) with (32 :: f ++ fmts_text fmts) in *.
    set (tail_ := fmts_text fmts) in *.
    cbn [app] in *. rewrite <- app_assoc in *. cbn [parse_fmts].
    assert (exists x t, tail_ ++ rest = x :: t /\ cs_token x = false) as (x & t & Ht & Hx).
    { subst tail_. destruct fmts; cbn; eauto. }
    rewrite Ht, read_fmt by done. rewrite <- Ht.
    change (zlen (f :: fmts)) with (Z.of_nat (S (length fmts))) in Hl.
    pose proof (zlen_nonneg fmts). rewrite (proj2 (Z.ltb_lt _ _)) by (unfold zlen in *; lia).
    rewrite IH; [by rewrite <- app_assoc| |cbn in Hfuel; rewrite length_app in Hfuel; lia].
    rewrite zlen_app. change (zlen [f]) with 1. unfold zlen in *; lia.
Qed.

Lemma read_media_head m rest : media_ok m ->
  parse_media_head (media_line m ++ rest) =
    Some ((media_type m, port m, port_count m, transport m), fmts_text (fmt m) ++ rest).
Proof.
  intros (Hm & Ht & Hf & (Hp & Hc & Hl & _) & Hc1 & _).
  assert (is_u32 (port m)) as Hp32 by (unfold is_u16, is_u32 in *; lia).
  destruct (utoa_word _ Hp32) as (_ & Htok & Hport). destruct (utoa_word _ Hc) as (_ & Hctok & Hcount).
  unfold parse_media_head, media_line. cbn zeta. change (pj_str "m=") with [109; 61].
  change (equal_sign _) with (Some ()).
  fold (fmts_text (fmt m)). set (fmts := fmts_text (fmt m)).
  assert (exists x t, fmts ++ rest = x :: t /\ x ∈ BLANK_EOL) as (x & t & Hfmts & Hx).
  { subst fmts. unfold BLANK_EOL. destruct (fmt m); cbn; do 2 eexists; (split; [done|set_solver]). }
  assert (u16 (pj_strtoul (pj_utoa (port m))) = port m) as Hport16.
  { rewrite <- (u16_u32 (pj_strtoul _)), Hport. by apply u16_small. }
  assert (get_until_chr BLANK_EOL (transport m ++ fmts ++ rest) = Some (transport m, fmts ++ rest)) as Htr.
  { rewrite Hfmts. apply until_chr_app; [|done]. by apply word_until in Ht as (_ & ? & _). }
  clearbody fmts. unfold is_u32 in Hc.
  destruct (Z.gtb_spec (port_count m) 1) as [Hpc|Hpc].
  - read. rewrite get_token_app by (reflexivity || assumption). cbn [mbind option_bind at0 hd Z.eqb Pos.eqb].
    rewrite get_char_cons by discriminate. cbn [mbind option_bind].
    rewrite get_token_app by (reflexivity || assumption). cbn [mbind option_bind].
    rewrite get_char_cons by discriminate. cbn [mbind option_bind Z.eqb Pos.eqb negb].
    by rewrite Htr; cbn [mbind option_bind]; rewrite Hcount, Hport16.
  - assert (port_count m = 0) as -> by lia. read. rewrite get_token_app by (reflexivity || assumption).
    cbn [mbind option_bind at0 hd Z.eqb Pos.eqb].
    rewrite get_char_cons by discriminate. cbn [mbind option_bind Z.eqb Pos.eqb negb].
    by rewrite Htr; cbn [mbind option_bind]; rewrite Hport16.
Qed.

Lemma read_media m rest : media_ok m ->
  parse_media (media_line m ++ rest) =
    Some (Some (SdpMedia (media_type m) (port m) (port_count m) (transport m) (fmt m) None [] [], rest)).
Proof.
  intros Hm. unfold parse_media. rewrite read_media_head by done.
  destruct Hm as (_ & _ & Hf & (_ & _ & Hl & _) & _). by rewrite read_fmts by (done || lia).
Qed.

(** ** Reading back a session *)

Definition parses (p : parse_state) (s : list Z) (r : parse_state + pj_status) : Prop :=
  parse_lines (S (length s)) p s = Some r.

Lemma parses_line p s p' s' r :
  s <> [] -> parse_line p s = Some (inl (p', s')) -> parses p' s' r -> parses p s r.
Proof.
  intros Hs Hl Hr. unfold parses. cbn [parse_lines].
  rewrite (bool_decide_eq_false_2 _ Hs : pj_scan_is_eof s = false), Hl.
  destruct (parse_lines_fuel (S (length s')) p' s') as (r' & Hr' & Hf); [lia|].
  rewrite Hf; [|by apply (parse_line_length p _ p')]. unfold parses in Hr. congruence.
Qed.

(** Lines of one kind, which a growing list of the state holds. *)
Lemma parses_list {A} (text : A -> list Z) (ok : A -> Prop) (st : list A -> parse_state) (max : Z)
    l done_ rest r :
  (forall done_ x rest, ok x -> zlen done_ < max -> text x ++ rest <> [] /\
    parse_line (st done_) (text x ++ rest) = Some (inl (st (done_ ++ [x]), rest))) ->
  Forall ok l -> zlen done_ + zlen l <= max -> parses (st (done_ ++ l)) rest r ->
  parses (st done_) (concat (text <$> l) ++ rest) r.
Proof.
  intros Hstep Hl. revert done_. induction Hl as [|x l Hx _ IH]; intros done_ Hmax Hr.
  - by rewrite app_nil_r in Hr.
  - cbn [fmap list_fmap concat]. rewrite <- app_assoc.
    change (zlen (x :: l)) with (Z.of_nat (S (length l))) in Hmax. pose proof (zlen_nonneg l).
    destruct (Hstep done_ x (concat (text <$> l) ++ rest) Hx) as [Hne Hp]; [unfold zlen in *; lia|].
    eapply parses_line; [done|exact Hp|]. apply IH; [|by rewrite <- app_assoc].
    rewrite zlen_app. change (zlen [x]) with 1. unfold zlen in *; lia.
Qed.

Lemma add_attr_app a l : zlen l < PJMEDIA_MAX_SDP_ATTR -> add_attr a l = l ++ [a].
Proof. intros Hl. unfold add_attr, pjmedia_sdp_attr_add. by rewrite (proj2 (Z.ltb_lt _ _) Hl). Qed.
Lemma add_bandw_app b l : zlen l < PJMEDIA_MAX_SDP_BANDW -> add_bandw b l = l ++ [b].
Proof. intros Hl. unfold add_bandw. by rewrite (proj2 (Z.ltb_lt _ _) Hl). Qed.

Definition o_text (o : sdp_origin) : list Z :=
  pj_str "o=" ++ user o ++ [32] ++ pj_utoa (origin_id o) ++ [32] ++ pj_utoa (version o) ++ [32] ++
  origin_net_type o ++ [32] ++ origin_addr_type o ++ [32] ++ origin_addr o ++ CRLF.

Section Lines.
Context (p : parse_state) (rest : list Z).

Lemma line_attr a : attr_ok a -> parse_line p (attr_text a ++ rest) =
  Some (inl (at_media (fun m => m <| media_attr ::= add_attr a |>)
                (fun ses => ses <| sess_attr ::= add_attr a |>) p, rest)).
Proof. intros Ha. pose proof (read_attr a rest Ha) as H. unfold parse_line. change (at0 _) with 97.
  cbn zeta. cbn [Z.eqb Pos.eqb]. by rewrite H. Qed.
Lemma line_bandw b : bandw_ok b -> parse_line p (bandw_text b ++ rest) =
  Some (inl (at_media (fun m => m <| media_bandw ::= add_bandw b |>)
                (fun ses => ses <| sess_bandw ::= add_bandw b |>) p, rest)).
Proof. intros Hb. pose proof (read_bandw b rest Hb) as H. unfold parse_line. change (at0 _) with 98.
  cbn zeta. cbn [Z.eqb Pos.eqb orb]. by rewrite H. Qed.
Lemma line_conn c : conn_ok c -> parse_line p (conn_text c ++ rest) =
  Some (inl (at_media (fun m => m <| media_conn := Some c |>)
                (fun ses => ses <| sess_conn := Some c |>) p, rest)).
Proof. intros Hc. pose proof (read_conn c rest Hc) as H. unfold parse_line. change (at0 _) with 99.
  cbn zeta. cbn [Z.eqb Pos.eqb]. by rewrite H. Qed.
Lemma line_media m : media_ok m -> parse_line p (media_line m ++ rest) =
  Some (inl (start_media (SdpMedia (media_type m) (port m) (port_count m) (transport m) (fmt m) None [] []) p,
       rest)).
Proof. intros Hm. pose proof (read_media m rest Hm) as H. unfold parse_line. change (at0 _) with 109.
  cbn zeta. cbn [Z.eqb Pos.eqb]. by rewrite H. Qed.
Lemma line_version : parse_line p (pj_str "v=0" ++ CRLF ++ rest) = Some (inl (p, rest)).
Proof. done. Qed.
Lemma line_origin o :
  word (user o) -> word (origin_net_type o) -> word (origin_addr_type o) -> word (origin_addr o) ->
  is_u32 (origin_id o) -> is_u32 (version o) ->
  parse_line p (o_text o ++ rest) = Some (inl (p <| ps_session ::= fun ses => ses <| origin := o |> |>, rest)).
Proof.
  intros. assert (parse_origin (o_text o ++ rest) = Some (o, rest)) as H'.
  { unfold o_text. rewrite <- !app_assoc. by apply read_origin. }
  unfold parse_line. change (at0 _) with 111. cbn zeta. cbn [Z.eqb Pos.eqb]. by rewrite H'.
Qed.
Lemma line_name name : no_eol name -> parse_line p (name_text name ++ rest) =
  Some (inl (p <| ps_session ::= fun ses => ses <| sess_name := name |> |>, rest)).
Proof. intros Hn. pose proof (read_name name rest Hn) as H. unfold parse_line. change (at0 _) with 115.
  cbn zeta. cbn [Z.eqb Pos.eqb]. by rewrite H. Qed.
Lemma line_time t u : is_u32 t -> is_u32 u -> parse_line p (time_text t u ++ rest) =
  Some (inl (p <| ps_session ::= fun ses => ses <| time_start := t |> <| time_stop := u |> |>, rest)).
Proof. intros Ht Hu. pose proof (read_time t u rest Ht Hu) as H. unfold parse_line.
  change (at0 _) with 116. cbn zeta. cbn [Z.eqb Pos.eqb]. by rewrite H. Qed.
End Lines.

(** The lines of a media, read after its [m=] line. *)
Lemma parses_media_lines ses m rest r : media_ok m ->
  parses (ParseState ses (Some m) true) rest r ->
  parses (ParseState ses (Some (SdpMedia (media_type m) (port m) (port_count m) (transport m) (fmt m)
                                  None [] [])) true)
    (opt_text conn_text (media_conn m) ++ concat (bandw_text <$> media_bandw m) ++
     concat (attr_text <$> media_attr m) ++ rest) r.
Proof.
  intros (Hm & Ht & Hf & (Hp & Hc & Hl & (Hbn & _) & Han) & Hc1 & Hconn & Hb & Ha) Hr.
  destruct m as [mt po pc tr fm conn bws ats]. cbn [media_type port port_count transport fmt
    media_conn media_bandw media_attr] in *.
  assert (parses (ParseState ses (Some (SdpMedia mt po pc tr fm conn [] [])) true)
    (concat (bandw_text <$> bws) ++ concat (attr_text <$> ats) ++ rest) r) as Hlines.
  { apply (parses_list bandw_text bandw_ok
      (fun l => ParseState ses (Some (SdpMedia mt po pc tr fm conn l [])) true) PJMEDIA_MAX_SDP_BANDW);
      [|done..|].
    { intros l b rest' Hb' Hl'. split; [discriminate|].
      rewrite line_bandw by done. cbn. by rewrite add_bandw_app. }
    apply (parses_list attr_text attr_ok
      (fun l => ParseState ses (Some (SdpMedia mt po pc tr fm conn bws l)) true) PJMEDIA_MAX_SDP_ATTR);
      [|done..].
    intros l a rest' Ha' Hl'. split; [discriminate|].
    rewrite line_attr by done. cbn. by rewrite add_attr_app. }
  destruct conn as [c|]; [|done]. cbn [opt_text].
  eapply parses_line; [discriminate|by apply line_conn|done].
Qed.

Lemma parses_media ms p : Forall media_ok ms ->
  zlen (media (end_media p)) + zlen ms <= PJMEDIA_MAX_SDP_MEDIA ->
  exists p', parses p (concat (media_text <$> ms)) (inl p') /\
    end_media p' = (end_media p) <| media ::= fun l => l ++ ms |>.
Proof.
  intros Hms. revert p. induction Hms as [|m ms Hm _ IH]; intros p Hl.
  { exists p. split; [done|]. destruct (end_media p). cbn. by rewrite app_nil_r. }
  change (zlen (m :: ms)) with (Z.of_nat (S (length ms))) in Hl.
  assert (zlen (media (end_media p)) < PJMEDIA_MAX_SDP_MEDIA) as Hlt by (unfold zlen in *; lia).
  destruct (IH (ParseState (end_media p) (Some m) true)) as (p' & Hp' & He).
  { change (zlen (media (end_media p) ++ [m]) + zlen ms <= PJMEDIA_MAX_SDP_MEDIA).
    rewrite zlen_app. change (zlen [m]) with 1. unfold zlen in *; lia. }
  exists p'. split.
  - cbn [fmap list_fmap concat]. unfold media_text at 1. rewrite <- !app_assoc.
    eapply parses_line; [discriminate|by apply line_media|].
    unfold start_media. cbn zeta. rewrite (proj2 (Z.ltb_lt _ _) Hlt). by apply parses_media_lines.
  - rewrite He. change (end_media (ParseState (end_media p) (Some m) true))
      with ((end_media p) <| media ::= fun l => l ++ [m] |>).
    destruct (end_media p). cbn. by rewrite <- app_assoc.
Qed.

(** A session as a text can hold it: what [session_ok] refuses are the field values
    that the syntax cannot carry, and a direction at session level, which goes to
    the media when it is read. *)
Definition session_ok (s : pjmedia_sdp_session) : Prop :=
  word (user (origin s)) /\ word (origin_net_type (origin s)) /\
  word (origin_addr_type (origin s)) /\ word (origin_addr (origin s)) /\
  no_eol (sess_name s) /\ match sess_conn s with Some c => conn_ok c | None => True end /\
  Forall bandw_ok (sess_bandw s) /\ Forall attr_ok (sess_attr s) /\ Forall media_ok (media s) /\
  session_fits s /\ find_dir_attr 0 (sess_attr s) = None.

Lemma parses_session s : session_ok s ->
  exists p, parses (ParseState empty_session None false) (session_text s) (inl p) /\ end_media p = s.
Proof.
  intros (Hu & Hn & Hat & Had & Hname & Hconn & Hb & Ha & Hm & (Hid & Hv & Ht1 & Ht2 & [Hbl _] & Hal & Hml & _) & _).
  destruct s as [o name conn bws t u ats ms]. cbn [origin sess_name sess_conn sess_bandw time_start
    time_stop sess_attr media] in *.
  destruct (parses_media ms (ParseState (SdpSession o name conn bws t u ats []) None false) Hm Hml)
    as (p & Hp & He).
  exists p. split; [|by rewrite He].
  unfold session_text. cbn [origin sess_name sess_conn sess_bandw time_start time_stop sess_attr media].
  change (origin_text o) with (pj_str "v=0" ++ CRLF ++ o_text o). rewrite <- !app_assoc.
  eapply parses_line; [discriminate|apply line_version|].
  eapply parses_line; [discriminate|by apply line_origin|].
  eapply parses_line; [discriminate|by apply line_name|].
  assert (forall rest, parses (ParseState (SdpSession o name conn bws t u ats []) None false) rest (inl p) ->
    parses (ParseState (SdpSession o name conn [] 0 0 [] []) None false)
      (concat (bandw_text <$> bws) ++ time_text t u ++ concat (attr_text <$> ats) ++ rest) (inl p)) as Hlines.
  { intros rest Hrest. apply (parses_list bandw_text bandw_ok
      (fun l => ParseState (SdpSession o name conn l 0 0 [] []) None false) PJMEDIA_MAX_SDP_BANDW);
      [|done..|].
    { intros l b rest' Hb' Hl'. split; [discriminate|].
      rewrite line_bandw by done. cbn. by rewrite add_bandw_app. }
    eapply parses_line; [discriminate|by apply line_time|].
    apply (parses_list attr_text attr_ok
      (fun l => ParseState (SdpSession o name conn bws t u l []) None false) PJMEDIA_MAX_SDP_ATTR);
      [|done..].
    intros l a rest' Ha' Hl'. split; [discriminate|].
    rewrite line_attr by done. cbn. by rewrite add_attr_app. }
  destruct conn as [c|]; cbn [opt_text]; [|by apply Hlines].
  eapply parses_line; [discriminate|by apply line_conn|by apply Hlines].
Qed.

(** C6: what the printer writes for a session whose fields the syntax can carry, the
    parser reads back as that session, whatever the size of the buffer that was
    enough for it. *)
Theorem sdp_print_parse_roundtrip ses size n out :
  session_ok ses -> pjmedia_sdp_print ses size = (n, out) -> n <> -1 ->
  n = zlen out /\ pjmedia_sdp_parse out = Some (PJ_SUCCESS, Some ses).
Proof.
  intros Hok. unfold pjmedia_sdp_print. destruct (print_session ses size) as [[|] o] eqn:Hp;
    intros [= <- <-] Hn; [|done]. split; [done|].
  apply prints_session in Hp as ->. destruct (parses_session ses Hok) as (p & Hparse & He).
  unfold pjmedia_sdp_parse. change (skip_newlines (session_text ses)) with (session_text ses).
  cbn zeta. unfold parses in Hparse. rewrite Hparse. cbn [mbind option_bind]. rewrite He.
  unfold apply_media_direction. destruct Hok as (_ & _ & _ & _ & _ & _ & _ & _ & _ & _ & ->). done.
Qed.

Definition printed_session : pjmedia_sdp_session :=
  SdpSession (SdpOrigin (pj_str "-") 3414953978 1 (pj_str "IN") (pj_str "IP4") (pj_str "10.0.0.1"))
    (pj_str "pjmedia") (Some (SdpConn (pj_str "IN") (pj_str "IP4") (pj_str "10.0.0.1")))
    [SdpBandw (pj_str "AS") 84] 0 0 [SdpAttr (pj_str "X-nat") (pj_str "0")]
    [SdpMedia (pj_str "audio") 4000 0 (pj_str "RTP/AVP") [pj_str "98"; pj_str "0"] None
       [SdpBandw (pj_str "TIAS") 64000]
       [SdpAttr (pj_str "rtpmap") (pj_str "98 speex/16000"); SdpAttr (pj_str "sendrecv") []]].

#[local] Instance conn_ok_dec c : Decision (conn_ok c).
Proof. unfold conn_ok, word. apply _. Defined.
#[local] Instance attr_ok_dec a : Decision (attr_ok a).
Proof. unfold attr_ok, is_token, no_eol. apply _. Defined.
#[local] Instance bandw_ok_dec b : Decision (bandw_ok b).
Proof. unfold bandw_ok, is_u32. apply _. Defined.
#[local] Instance media_fits_dec m : Decision (media_fits m).
Proof. unfold media_fits, bandw_fits, is_u32, is_u16. apply _. Defined.
#[local] Instance media_ok_dec m : Decision (media_ok m).
Proof. unfold media_ok, word, is_token. destruct (media_conn m); apply _. Defined.
#[local] Instance session_ok_dec s : Decision (session_ok s).
Proof.
  unfold session_ok, session_fits, bandw_fits, word, no_eol, is_u32. destruct (sess_conn s); apply _.
Defined.

Lemma sdp_print_parse_roundtrip_witness :
  let out := snd (pjmedia_sdp_print printed_session 1000) in
  fst (pjmedia_sdp_print printed_session 1000) = 174 /\
  pjmedia_sdp_parse out = Some (PJ_SUCCESS, Some printed_session).
Proof.
  intros out. split; [vm_compute; reflexivity|].
  refine (proj2 (sdp_print_parse_roundtrip printed_session 1000 174 out _ _ _)).
  - apply (bool_decide_unpack _). vm_compute. exact I.
  - vm_compute; reflexivity.
  - discriminate.
Defined.

(** ** How far the printer writes *)

Definition in_room (f : Z -> printed) : Prop :=
  forall len, 0 <= len < 2147483648 -> zlen (snd (f len)) <= len.

Lemma in_room_then f g : in_room f -> in_room g -> in_room (f >>> g)%pj.
Proof.
  intros Hf Hg len Hlen. unfold print_then. specialize (Hf len Hlen).
  destruct (f len) as [[|] o] eqn:E; [|done]. cbn [snd] in Hf. pose proof (zlen_nonneg o).
  specialize (Hg (len - zlen o) ltac:(lia)). destruct (g (len - zlen o)) as [ok o']. cbn [snd] in *.
  rewrite zlen_app. lia.
Qed.
Lemma in_room_all {A} (f : A -> Z -> printed) l : Forall (fun x => in_room (f x)) l -> in_room (print_all f l).
Proof.
  induction 1 as [|x l Hx _ IH]; cbn [print_all].
  - intros len Hlen. apply Hlen.
  - by apply in_room_then.
Qed.
Lemma in_room_opt {A} (f : A -> Z -> printed) x : (forall x, in_room (f x)) -> in_room (print_opt f x).
Proof. intros Hf. destruct x; [apply Hf|]. intros len Hlen. apply Hlen. Qed.
Lemma in_room_line (g : Z -> Z) need text :
  (forall len, 0 <= len < 2147483648 -> g len = len) -> zlen text <= need ->
  in_room (fun len => if g len <? need then (false, []) else (true, text)).
Proof.
  intros Hg Ht len Hlen. rewrite Hg by done. destruct (Z.ltb_spec len need); cbn [snd]; [apply Hlen|lia].
Qed.
Lemma s32_room len : 0 <= len < 2147483648 -> s32 len = len.
Proof. intros Hl. apply s32_small. unfold is_s32. lia. Qed.

Lemma in_room_conn c : in_room (print_connection_info c).
Proof.
  intros len Hlen. unfold print_connection_info. rewrite s32_room by done. cbn zeta. pose proof (zlen_nonneg (conn_text c)).
  destruct (_ || _) eqn:E; cbn [snd]; [|apply orb_false_iff in E; lia]. unfold pj_ansi_snprintf.
  rewrite (proj2 (Z.ltb_ge _ _)) by lia.
  destruct (Z.ltb_spec (zlen (conn_text c)) len); [rewrite zlen_app; change (zlen [0]) with 1; lia|].
  destruct (Z.eqb_spec len 0); [apply Hlen|]. rewrite zlen_app. change (zlen [0]) with 1.
  unfold zlen in *. rewrite length_take. lia.
Qed.

Lemma utoa_length_u32 n : is_u32 n -> zlen (pj_utoa n) <= 10.
Proof. intros Hn. unfold is_u32 in Hn. apply (utoa_length n 10); [lia|lia|]. cbn. lia. Qed.
Lemma utoa_length_u16 n : is_u16 n -> zlen (pj_utoa n) <= 5.
Proof. intros Hn. unfold is_u16 in Hn. apply (utoa_length n 5); [lia|lia|]. cbn. lia. Qed.

(** What the length checks leave out: for the [m=] line, 14 bytes are left for the
    formats (25 when no number of ports is printed; 2 more for the end of the line);
    for the [o=] line, 13 for its numbers and the address type; two numbers of ten
    digits are one byte too many for the [t=] line. *)
Definition formats_short (m : pjmedia_sdp_media) : Prop :=
  zlen (fmts_text (fmt m)) <= (if port_count m >? 1 then 16 else 27).
Definition origin_excess (o : sdp_origin) : Z :=
  Z.max 0 (zlen (pj_utoa (origin_id o)) + zlen (pj_utoa (version o)) + zlen (origin_addr_type o) - 13).
Definition time_short (t u : Z) : Prop := zlen (pj_utoa t) + zlen (pj_utoa u) <= 19.

(** The length of a text, as the sum of the lengths of its pieces. *)
Ltac text_length := unfold CRLF; repeat rewrite ?zlen_app, ?zlen_cons; change (@zlen Z []) with 0; try lia.

Lemma origin_room o len : 0 <= len ->
  zlen (snd (print_origin o len)) <= len + origin_excess o.
Proof.
  intros Hlen. unfold print_origin, origin_excess. destruct (Z.ltb_spec len (5 + 2 + zlen (user o) +
    18 + zlen (origin_net_type o) + zlen (origin_addr o) + 2)); cbn [snd];
    [change (@zlen Z []) with 0; lia|].
  unfold origin_text. change (pj_str "v=0") with [118; 61; 48]. change (pj_str "o=") with [111; 61].
  text_length.
Qed.
Lemma in_room_name name : in_room (print_name name).
Proof.
  apply (in_room_line (fun len => len)); [done|]. change (pj_str "s=") with [115; 61]. text_length.
Qed.
Lemma in_room_time t u : time_short t u -> in_room (print_time t u).
Proof.
  intros Ht. unfold time_short in Ht. apply (in_room_line (fun len => len) 24); [done|].
  change (pj_str "t=") with [116; 61]. text_length.
Qed.
Lemma in_room_bandw b : is_u32 (bandw_value b) -> in_room (print_bandw b).
Proof.
  intros Hv. apply utoa_length_u32 in Hv. apply in_room_line; [apply s32_room|].
  unfold bandw_text. change (pj_str "b=") with [98; 61]. text_length.
Qed.
Lemma in_room_attr a : in_room (print_attr a).
Proof.
  apply in_room_line; [apply s32_room|]. unfold attr_text. change (pj_str "a=") with [97; 61].
  destruct (zlen (attr_value a) =? 0); pose proof (zlen_nonneg (attr_value a)); text_length.
Qed.
Lemma in_room_media m : media_fits m -> formats_short m -> in_room (print_media_desc m).
Proof.
  intros (Hp & Hc & _ & (_ & Hb) & _) Hf. unfold formats_short in Hf.
  pose proof (utoa_length_u16 _ Hp). pose proof (utoa_length_u32 _ Hc).
  intros len Hlen. unfold print_media_desc. rewrite s32_room by done. revert len Hlen.
  apply in_room_then.
  { apply (in_room_line (fun len => len)); [done|]. unfold media_line. fold (fmts_text (fmt m)).
    change (pj_str "m=") with [109; 61].
    destruct (port_count m >? 1); text_length. }
  apply in_room_then; [by apply in_room_opt, in_room_conn|].
  apply in_room_then; apply in_room_all.
  - eapply Forall_impl; [exact Hb|]. intros b Hv. by apply in_room_bandw.
  - apply Forall_forall. intros a _. apply in_room_attr.
Qed.

Lemma in_room_after_origin ses :
  session_fits ses -> time_short (time_start ses) (time_stop ses) -> Forall formats_short (media ses) ->
  in_room (print_name (sess_name ses) >>>
    print_opt print_connection_info (sess_conn ses) >>> print_all print_bandw (sess_bandw ses) >>>
    print_time (time_start ses) (time_stop ses) >>>
    print_all print_attr (sess_attr ses) >>> print_all print_media_desc (media ses))%pj.
Proof.
  intros (_ & _ & _ & _ & (_ & Hb) & _ & _ & Hm) Ht Hf.
  apply in_room_then; [apply in_room_name|]. apply in_room_then; [by apply in_room_opt, in_room_conn|].
  apply in_room_then.
  { apply in_room_all. eapply Forall_impl; [exact Hb|]. intros b Hv'. by apply in_room_bandw. }
  apply in_room_then; [by apply in_room_time|]. apply in_room_then.
  { apply in_room_all, Forall_forall. intros a _. apply in_room_attr. }
  apply in_room_all, Forall_forall. intros m Hin. rewrite Forall_forall in Hm, Hf.
  apply in_room_media; auto.
Qed.

(** A check that is [e] bytes short is caught by the next one. *)
Lemma caught_after f g e len :
  zlen (snd (f len)) <= len + e -> 0 <= e -> in_room g -> (forall len, len < 0 -> g len = (false, [])) ->
  0 <= len < 2147483648 ->
  zlen (snd ((f >>> g)%pj len)) <= len + e /\
  (fst ((f >>> g)%pj len) = true -> zlen (snd ((f >>> g)%pj len)) <= len).
Proof.
  intros Hf He Hg Hneg Hlen. unfold print_then. destruct (f len) as [[|] o]; cbn [fst snd] in *; [|done].
  pose proof (zlen_nonneg o). destruct (Z.ltb_spec (len - zlen o) 0) as [Hn|Hn].
  - rewrite Hneg by done. cbn [fst snd]. rewrite app_nil_r. by split; [|intros [=]].
  - specialize (Hg (len - zlen o) ltac:(lia)). destruct (g (len - zlen o)) as [ok o']. cbn [fst snd] in *.
    rewrite zlen_app. lia.
Qed.
Lemma no_room_for_name name g len : len < 0 -> (print_name name >>> g)%pj len = (false, []).
Proof.
  intros Hl. unfold print_then, print_name. pose proof (zlen_nonneg name).
  by rewrite (proj2 (Z.ltb_lt len _)) by lia.
Qed.

(** C32: what the printer reports is within the buffer, provided that the formats of
    each media and the times are as short as its length checks take them to be;
    and it writes past the buffer, before it reports a failure, by no more than
    the check of the origin line leaves out, 10 bytes for an address type of IP4
    or IP6. *)
Theorem sdp_print_in_bounds ses size n out :
  session_fits ses -> time_short (time_start ses) (time_stop ses) ->
  Forall formats_short (media ses) -> 0 <= size < 2147483648 ->
  pjmedia_sdp_print ses size = (n, out) ->
  n <= size /\ zlen out <= size + origin_excess (origin ses) /\
  (zlen (origin_addr_type (origin ses)) <= 3 -> origin_excess (origin ses) <= 10).
Proof.
  intros Hses Ht Hf Hsize Hp. pose proof (in_room_after_origin ses Hses Ht Hf) as Hrest.
  pose proof (origin_room (origin ses) size ltac:(lia)) as Ho.
  destruct Hses as (Hid & Hv & _). apply utoa_length_u32 in Hid, Hv.
  assert (0 <= origin_excess (origin ses)) by (unfold origin_excess; lia).
  destruct (caught_after _ _ _ _ Ho ltac:(done) Hrest ltac:(apply no_room_for_name) Hsize) as [Hall Hok].
  change (_ >>> _)%pj with (print_session ses) in Hall, Hok.
  unfold pjmedia_sdp_print in Hp. destruct (print_session ses size) as [ok o]. cbn [fst snd] in *.
  injection Hp as <- <-. split; [|split; [done|unfold origin_excess; lia]].
  destruct ok; [by apply Hok|lia].
Qed.

#[local] Instance session_fits_dec s : Decision (session_fits s).
Proof. unfold session_fits, bandw_fits, is_u32. apply _. Defined.

Lemma sdp_print_in_bounds_witness :
  let '(n, out) := pjmedia_sdp_print printed_session 200 in n <= 200 /\ zlen out <= 201.
Proof.
  assert (pjmedia_sdp_print printed_session 200 = (174, session_text printed_session)) as Hp
    by (vm_compute; reflexivity).
  pose proof (sdp_print_in_bounds printed_session 200 174 (session_text printed_session)) as H.
  rewrite Hp. destruct H as (Hn & Hout & _).
  - apply (bool_decide_unpack _). vm_compute. exact I.
  - vm_compute. discriminate.
  - apply Forall_cons. split; [vm_compute; discriminate|done].
  - lia.
  - exact Hp.
  - split; [exact Hn|]. exact Hout.
Defined.

(** The provisos are needed: this session passes the validation, and the printer
    reports more bytes than the buffer has. *)
Definition long_formats : pjmedia_sdp_session :=
  printed_session <| sess_attr := [] |> <| sess_bandw := [] |>
    <| media := [SdpMedia (pj_str "audio") 4000 0 (pj_str "RTP/AVP")
         (replicate 32 (pj_str "18")) None [] []] |>.
Lemma sdp_print_overflows :
  pjmedia_sdp_validate long_formats = PJ_SUCCESS /\ session_ok long_formats /\
  fst (pjmedia_sdp_print long_formats 150) = 194.
Proof.
  split; [vm_compute; reflexivity|]. split; [|vm_compute; reflexivity].
  apply (bool_decide_unpack _). vm_compute. exact I.
Qed.
