(* ===== verification/SdpAttr.v ===== *)
(** * The [rtcp] and [ssrc] attributes (pjmedia/src/pjmedia/sdp.c)

    The attributes that name the address of RTCP and the source of a stream,
    written and read. *)

From stdpp Require Import list.
From Stdlib Require Import Strings.String.
From S2P Require Import Prelude PjString Scanner Sdp SdpText SdpTextProps.
Set Warnings "-clear-no-such-hyp".
Open Scope string_scope.
Open Scope list_scope.
Open Scope Z_scope.

Definition PJMEDIA_SDP_EINRTCP := PJMEDIA_STATUS 35.
Definition PJMEDIA_SDP_EINSSRC := PJMEDIA_STATUS 38.
Definition ADDR_END : list Z := [47; 32; 9; 13; 10].

Record pjmedia_sdp_rtcp_attr := RtcpAttr {
  rtcp_port : Z; net_type : list Z; addr_type : list Z; addr : list Z }.
#[export] Instance eta_rtcp : Eta pjmedia_sdp_rtcp_attr := fun r =>
  RtcpAttr (rtcp_port r) (net_type r) (addr_type r) (addr r).

Record pjmedia_sdp_ssrc_attr := SsrcAttr { ssrc : Z; cname : list Z }.
#[export] Instance eta_ssrc : Eta pjmedia_sdp_ssrc_attr := fun r => SsrcAttr (ssrc r) (cname r).

(** The body of the [PJ_TRY], from the structure as it is before: what is assigned
    before a syntax error stays. *)
Definition rtcp_parse (r : pjmedia_sdp_rtcp_attr) (s : list Z) : pj_status * pjmedia_sdp_rtcp_attr :=
  match pj_scan_get true cs_token s with
  | None => (PJMEDIA_SDP_EINRTCP, r)
  | Some (token, s) =>
      let r := r <| rtcp_port := u32 (pj_strtoul token) |> in
      if pj_scan_is_eof s then (PJ_SUCCESS, r)
      else
        match pj_scan_get true cs_token s with
        | None => (PJMEDIA_SDP_EINRTCP, r)
        | Some (t, s) =>
            let r := r <| net_type := t |> in
            match pj_scan_get true cs_token s with
            | None => (PJMEDIA_SDP_EINRTCP, r)
            | Some (t, s) =>
                let r := r <| addr_type := t |> in
                match pj_scan_get_until_chr true ADDR_END s with
                | None => (PJMEDIA_SDP_EINRTCP, r)
                | Some (t, _) => (PJ_SUCCESS, r <| addr := t |>)
                end
            end
        end
  end.
Definition pjmedia_sdp_attr_get_rtcp (attr : pjmedia_sdp_attr) (rtcp : pjmedia_sdp_rtcp_attr) :
    pj_status * pjmedia_sdp_rtcp_attr :=
  if negb (pj_strcmp2 (attr_name attr) "rtcp" =? 0) then (PJ_EINVALIDOP, rtcp)
  else if zlen (attr_value attr) =? 0 then (PJMEDIA_SDP_EINATTR, rtcp)
  else
    rtcp_parse (rtcp <| net_type := [] |> <| addr_type := [] |> <| addr := [] |>)
      (pj_scan_init true (attr_value attr)).

(** What a buffer of [len] bytes holds after [snprintf], read up to the length that
    it returns. *)
Definition printed_value (s : list Z) (len : Z) : list Z :=
  take (length s) (pj_ansi_snprintf s len).

(** The socket address: its family, its port and what [pj_sockaddr_print] writes of
    the host. *)
Inductive sa_family := pj_AF_INET | pj_AF_INET6 | other_family.
Record pj_sockaddr := SockAddr { family : sa_family; sa_port : Z; sa_host : list Z }.
Definition ATTR_LEN : Z := 46 + 16.
Definition rtcp_text (a : pj_sockaddr) (kind : string) : list Z :=
  pj_utoa (sa_port a) ++ pj_str kind ++ sa_host a.
Definition pjmedia_sdp_attr_create_rtcp (a : pj_sockaddr) : option pjmedia_sdp_attr :=
  match family a with
  | pj_AF_INET => Some (SdpAttr (pj_str "rtcp") (printed_value (rtcp_text a " IN IP4 ") ATTR_LEN))
  | pj_AF_INET6 => Some (SdpAttr (pj_str "rtcp") (printed_value (rtcp_text a " IN IP6 ") ATTR_LEN))
  | other_family => None
  end.

Definition ssrc_parse (s : list Z) : pj_status * pjmedia_sdp_ssrc_attr :=
  let r := SsrcAttr 0 [] in
  match pj_scan_get true cs_digit s with
  | None => (PJMEDIA_SDP_EINSSRC, r)
  | Some (token, s) =>
      let r := r <| ssrc := u32 (pj_strtoul token) |> in
      match pj_scan_get_char true s with
      | None => (PJMEDIA_SDP_EINSSRC, r)
      | Some (_, s) =>
          match pj_scan_get true cs_token s with
          | None => (PJMEDIA_SDP_EINSSRC, r)
          | Some (scan_attr, s) =>
              if pj_scan_is_eof s then (PJ_SUCCESS, r)
              else
                match pj_scan_get_char true s with
                | None => (PJMEDIA_SDP_EINSSRC, r)
                | Some (c, s) =>
                    if (c =? 58) && negb (pj_strcmp2 scan_attr "cname" =? 0) then
                      match pj_scan_get true cs_token s with
                      | None => (PJMEDIA_SDP_EINSSRC, r)
                      | Some (t, _) => (PJ_SUCCESS, r <| cname := t |>)
                      end
                    else (PJ_SUCCESS, r)
                end
          end
      end
  end.
(** [None] is a structure that is not written. *)
Definition pjmedia_sdp_attr_get_ssrc (attr : pjmedia_sdp_attr) :
    pj_status * option pjmedia_sdp_ssrc_attr :=
  if negb (pj_strcmp2 (attr_name attr) "ssrc" =? 0) then (PJ_EINVALIDOP, None)
  else if zlen (attr_value attr) =? 0 then (PJMEDIA_SDP_EINATTR, None)
  else let '(status, r) := ssrc_parse (pj_scan_init true (attr_value attr)) in (status, Some r).

(** ["%d"] of a 32-bit number. *)
Definition print_d (n : Z) : list Z :=
  if s32 n <? 0 then 45 :: pj_utoa (- s32 n) else pj_utoa (s32 n).
Definition ssrc_text (ssrc : Z) (cname : list Z) : list Z :=
  print_d ssrc ++ pj_str " cname:" ++ c_print cname.
Definition pjmedia_sdp_attr_create_ssrc (ssrc : Z) (cname : list Z) : option pjmedia_sdp_attr :=
  if zlen cname =? 0 then None
  else Some (SdpAttr (pj_str "ssrc") (printed_value (ssrc_text ssrc cname) (zlen cname + 18))).

(** ** Written and read *)

Lemma printed_value_fits s len : 0 <= zlen s < len -> printed_value s len = s.
Proof.
  intros Hl. unfold printed_value, pj_ansi_snprintf. rewrite (proj2 (Z.ltb_ge len 0)) by lia.
  rewrite (proj2 (Z.ltb_lt (zlen s) len)) by lia. by rewrite take_app_length.
Qed.
Lemma until_chr_end skip_ws spec w :
  w <> [] -> Forall (fun x => x ∉ spec) w -> pj_scan_get_until_chr skip_ws spec w = Some (w, []).
Proof.
  intros Hne Hw. unfold pj_scan_get_until_chr. destruct w as [|x w]; [done|].
  rewrite <- (app_nil_r (x :: w)) at 1. rewrite scan_while_app; [by destruct skip_ws| |done].
  eapply Forall_impl; [exact Hw|]. intros x' Hx'. cbn. unfold cis_str. by rewrite bool_decide_eq_false_2.
Qed.
#[local] Opaque pj_utoa.

Definition host_ok (h : list Z) : Prop :=
  h <> [] /\ Forall (fun x => x ∉ ADDR_END) h /\ zlen h < 46.

Lemma zlen_app_eqb0 {A} (l : list A) x k : (zlen (l ++ x :: k) =? 0) = false.
Proof. apply Z.eqb_neq. rewrite zlen_0. by destruct l. Qed.

(** A token and the space after it. *)
Lemma get_token_skip t rest : is_token t -> PJ_SCAN_IS_SPACE (at0 rest) = false ->
  pj_scan_get true cs_token (t ++ 32 :: rest) = Some (t, rest).
Proof.
  intros Ht Hr. rewrite scan_get_token by (done || by intros c [= <-]). by rewrite scan_skip_space.
Qed.
Lemma scan_init_id s : PJ_SCAN_IS_SPACE (at0 s) = false -> pj_scan_init true s = s.
Proof. intros Hs. destruct s as [|c s]; [done|]. cbn in *. by rewrite Hs. Qed.

Lemma rtcp_parse_address port kind host r :
  is_u16 port -> is_token kind -> host_ok host ->
  rtcp_parse r (pj_utoa port ++ 32 :: pj_str "IN" ++ 32 :: kind ++ 32 :: host) =
    (PJ_SUCCESS, RtcpAttr port (pj_str "IN") kind host).
Proof.
  intros Hp Hk (Hne & Hh & _).
  destruct (utoa_word port) as (_ & Htok & Hval); [unfold is_u16, is_u32 in *; lia|].
  assert (is_token (pj_str "IN")) as Hin by (split; [discriminate|repeat constructor]).
  assert (PJ_SCAN_IS_SPACE (at0 host) = false) as Hsp.
  { destruct Hh as [|c host Hc _]; [done|]. unfold ADDR_END in Hc. unfold PJ_SCAN_IS_SPACE. cbn.
    rewrite !elem_of_cons, elem_of_nil in Hc. lia. }
  unfold rtcp_parse. rewrite get_token_skip; [|assumption|by apply token_no_space].
  change (pj_scan_is_eof _) with false. cbn iota zeta.
  rewrite get_token_skip; [|assumption|by apply token_no_space].
  rewrite get_token_skip; [|assumption|assumption].
  rewrite until_chr_end by assumption. cbn. by rewrite Hval.
Qed.

Definition family_kind (f : sa_family) : list Z :=
  match f with pj_AF_INET => pj_str "IP4" | _ => pj_str "IP6" end.

(** An [rtcp] attribute made for an IPv4 or IPv6 address reads back as the port,
    the type and the address, whatever the structure held. *)
Lemma rtcp_attr_roundtrip a attr rtcp :
  host_ok (sa_host a) -> is_u16 (sa_port a) -> pjmedia_sdp_attr_create_rtcp a = Some attr ->
  pjmedia_sdp_attr_get_rtcp attr rtcp =
    (PJ_SUCCESS, RtcpAttr (sa_port a) (pj_str "IN") (family_kind (family a)) (sa_host a)).
Proof.
  intros Hh Hp Hattr. pose proof (utoa_length_u16 _ Hp) as Hpl.
  pose proof (zlen_nonneg (pj_utoa (sa_port a))). pose proof (zlen_nonneg (sa_host a)).
  pose (text := pj_utoa (sa_port a) ++ 32 :: pj_str "IN" ++ 32 :: family_kind (family a) ++ 32 :: sa_host a).
  assert (attr = SdpAttr (pj_str "rtcp") text) as ->.
  { assert (zlen text < ATTR_LEN) as Hlen.
    { subst text. destruct Hh as (_ & _ & Hhl). destruct (family a); cbn [family_kind];
        change (pj_str "IN") with [73; 78]; change (pj_str "IP4") with [73; 80; 52];
        change (pj_str "IP6") with [73; 80; 54]; unfold ATTR_LEN; text_length. }
    subst text. unfold pjmedia_sdp_attr_create_rtcp, rtcp_text in Hattr.
    destruct (family a); cbn [family_kind] in *; [| |discriminate]; injection Hattr as <-; f_equal;
      apply printed_value_fits; (split; [apply zlen_nonneg|exact Hlen]). }
  unfold pjmedia_sdp_attr_get_rtcp. cbn [attr_name attr_value].
  change (negb (pj_strcmp2 (pj_str "rtcp") "rtcp" =? 0)) with false. cbn iota.
  assert (is_token (family_kind (family a))) as Hk.
  { destruct (family a); (split; [discriminate|cbn; repeat constructor]). }
  destruct (utoa_word (sa_port a)) as (_ & Htok & _); [unfold is_u16, is_u32 in *; lia|].
  subst text. rewrite zlen_app_eqb0.
  rewrite scan_init_id by (by apply token_no_space). by apply rtcp_parse_address.
Qed.

Lemma rtcp_attr_roundtrip_witness :
  let a := SockAddr pj_AF_INET 4001 (pj_str "10.0.0.1") in
  pjmedia_sdp_attr_create_rtcp a = Some (SdpAttr (pj_str "rtcp") (pj_str "4001 IN IP4 10.0.0.1")) /\
  pjmedia_sdp_attr_get_rtcp (SdpAttr (pj_str "rtcp") (pj_str "4001 IN IP4 10.0.0.1")) (RtcpAttr 0 [] [] []) =
    (PJ_SUCCESS, RtcpAttr 4001 (pj_str "IN") (pj_str "IP4") (pj_str "10.0.0.1")).
Proof.
  intros a. split; [vm_compute; reflexivity|].
  refine (rtcp_attr_roundtrip a _ _ _ _ _).
  - split; [discriminate|]. split; [apply (bool_decide_unpack _); vm_compute; exact I|reflexivity].
  - unfold is_u16. cbn. lia.
  - vm_compute. reflexivity.
Defined.

Lemma digits_end digits rest : Forall (fun c => 48 <= c <= 57) digits -> digits <> [] ->
  (forall c, head rest = Some c -> cs_digit c = false) ->
  pj_scan_get true cs_digit (digits ++ rest) = Some (digits, scan_skip true rest).
Proof.
  intros Hd Hne Hr. apply scan_get_app; [done| |done]. eapply Forall_impl; [exact Hd|].
  intros c Hc. unfold cs_digit, cis_digit, pj_isdigit. cbn in Hc. lia.
Qed.

(** After the space, the first letter of the attribute is taken as the separator. *)
Lemma ssrc_parse_value n c other name :
  is_u32 n -> is_token (c :: other) -> is_token other -> other <> pj_str "cname" -> is_token name ->
  ssrc_parse (pj_utoa n ++ 32 :: c :: other ++ 58 :: name) = (PJ_SUCCESS, SsrcAttr n name).
Proof.
  intros Hn Hco Ho Hne Hname. destruct (utoa_word n Hn) as (_ & _ & Hval).
  pose proof (pj_utoa_digits n ltac:(unfold is_u32 in Hn; lia)) as (Hd & Hl & _).
  unfold ssrc_parse. rewrite digits_end; [|done|by intros E; rewrite E in Hl; cbn in Hl; lia|by intros ? [= <-]].
  destruct Hco as [_ Hco]. inversion Hco as [|? ? Hc _]; subst. destruct (cs_token_code c Hc) as (Hc0 & _ & Hcs).
  rewrite scan_skip_space by done. unfold pj_scan_get_char at 1. cbn [at0 hd tail].
  rewrite (proj2 (Z.eqb_neq _ _) Hc0), scan_skip_id by (by apply token_no_space).
  rewrite scan_get_token by (done || by intros ? [= <-]). rewrite scan_skip_id by done.
  change (pj_scan_is_eof _) with false. cbn iota zeta. unfold pj_scan_get_char. cbn [at0 hd tail Z.eqb Pos.eqb].
  rewrite scan_skip_id by (rewrite <- (app_nil_r name); by apply token_no_space).
  unfold pj_strcmp2. rewrite strcmp_eqb, bool_decide_eq_false_2 by done. cbn [negb andb Z.eqb Pos.eqb].
  rewrite <- (app_nil_r name) at 1. rewrite scan_get_token by (done || by intros ? [=]).
  by rewrite Hval.
Qed.

(** An [ssrc] attribute made for a source and a name reads back as these when
    the source is below 2^31; a larger one is written as a negative number, which
    is refused.  And the value of every attribute of a source, not only of [cname],
    is taken as the name. *)
Lemma ssrc_attr_roundtrip n name attr :
  is_u32 n -> is_token name -> pjmedia_sdp_attr_create_ssrc n name = Some attr ->
  pjmedia_sdp_attr_get_ssrc attr =
    (if n <? 2147483648 then (PJ_SUCCESS, Some (SsrcAttr n name))
     else (PJMEDIA_SDP_EINSSRC, Some (SsrcAttr 0 []))) /\
  (forall c other, is_token (c :: other) -> is_token other -> other <> pj_str "cname" ->
    pjmedia_sdp_attr_get_ssrc
      (SdpAttr (pj_str "ssrc") (pj_utoa n ++ 32 :: c :: other ++ 58 :: name)) =
    (PJ_SUCCESS, Some (SsrcAttr n name))).
Proof.
  intros Hn Hname Hattr. assert (forall c other, is_token (c :: other) -> is_token other ->
    other <> pj_str "cname" -> pjmedia_sdp_attr_get_ssrc
      (SdpAttr (pj_str "ssrc") (pj_utoa n ++ 32 :: c :: other ++ 58 :: name)) =
    (PJ_SUCCESS, Some (SsrcAttr n name))) as Hread.
  { intros c other Hco Ho Hne. unfold pjmedia_sdp_attr_get_ssrc. cbn [attr_name attr_value].
    change (negb (pj_strcmp2 (pj_str "ssrc") "ssrc" =? 0)) with false. cbn iota.
    rewrite zlen_app_eqb0. by rewrite scan_init_id, ssrc_parse_value by (done || by apply token_no_space, utoa_word). }
  split; [|exact Hread]. revert Hattr. unfold pjmedia_sdp_attr_create_ssrc.
  destruct (zlen name =? 0); [discriminate|]. intros [= <-].
  pose proof (utoa_length_u32 _ Hn) as Hlen. unfold is_u32 in Hn.
  unfold ssrc_text. rewrite token_print by done. change (pj_str " cname:") with ([32; 99] ++ pj_str "name" ++ [58]).
  unfold print_d. destruct (Z.ltb_spec n 2147483648) as [Hs|Hs].
  - rewrite s32_small by (unfold is_s32; lia). rewrite (proj2 (Z.ltb_ge _ _)) by lia.
    rewrite <- !app_assoc. cbn [app]. rewrite printed_value_fits.
    + apply (Hread 99 (pj_str "name")); [split; [discriminate|repeat constructor]..|discriminate].
    + split; [apply zlen_nonneg|]. change (pj_str "name") with [110; 97; 109; 101]. cbn [app]. text_length.
  - assert (s32 n = n - 4294967296) as -> by (unfold s32; Z.to_euclidean_division_equations; lia).
    rewrite (proj2 (Z.ltb_lt _ _)) by lia.
    unfold printed_value, pj_ansi_snprintf.
    set (text := (45 :: _) ++ _). pose proof (zlen_nonneg name).
    rewrite (proj2 (Z.ltb_ge (zlen name + 18) 0)) by lia.
    assert (exists rest, take (length text) (if zlen text <? zlen name + 18 then text ++ [0]
      else if zlen name + 18 =? 0 then [] else take (Z.to_nat (zlen name + 18 - 1)) text ++ [0]) = 45 :: rest)
      as (rest & ->).
    { subst text. cbn [app length]. destruct (_ <? _); cbn [app take]; [by eexists|].
      rewrite (proj2 (Z.eqb_neq _ _)) by lia. destruct (Z.to_nat _) eqn:E; [lia|]. cbn. by eexists. }
    done.
Qed.

Lemma ssrc_attr_roundtrip_witness :
  pjmedia_sdp_attr_create_ssrc 3000000000 (pj_str "me") =
    Some (SdpAttr (pj_str "ssrc") (pj_str "-1294967296 cname:m" ++ [0])) /\
  pjmedia_sdp_attr_get_ssrc (SdpAttr (pj_str "ssrc") (pj_str "-1294967296 cname:m" ++ [0])) =
    (PJMEDIA_SDP_EINSSRC, Some (SsrcAttr 0 [])) /\
  pjmedia_sdp_attr_get_ssrc (SdpAttr (pj_str "ssrc") (pj_str "42 cname:me")) =
    (PJ_SUCCESS, Some (SsrcAttr 42 (pj_str "me"))).
Proof.
  split; [vm_compute; reflexivity|]. split.
  - refine (proj1 (ssrc_attr_roundtrip 3000000000 (pj_str "me") _ _ _ _)).
    + unfold is_u32. lia.
    + split; [discriminate|repeat constructor].
    + vm_compute. reflexivity.
  - refine (proj1 (ssrc_attr_roundtrip 42 (pj_str "me") _ _ _ _)).
    + unfold is_u32. lia.
    + split; [discriminate|repeat constructor].
    + vm_compute. reflexivity.
Defined.
