(* ===== verification/SdpCmp.v ===== *)
(** * Comparison of session descriptions (pjmedia/src/pjmedia/sdp_cmp.c)

    The comparison of two descriptions line by line, and of their attributes where
    they say something of the media: the direction, the [rtpmap] and the [fmtp] of
    each format.  The arguments are never NULL and the option is 0, as the
    functions assert. *)

From stdpp Require Import list.
From Stdlib Require Import Strings.String.
From S2P Require Import Prelude PjString Scanner Sdp.
Set Warnings "-clear-no-such-hyp".
Open Scope string_scope.
Open Scope list_scope.
Open Scope Z_scope.

Definition compare_conn (c1 c2 : pjmedia_sdp_conn) : pj_status :=
  if negb (pj_strcmp (conn_net_type c1) (conn_net_type c2) =? 0) then PJMEDIA_SDP_ECONNNOTEQUAL
  else if negb (pj_strcmp (conn_addr_type c1) (conn_addr_type c2) =? 0) then PJMEDIA_SDP_ECONNNOTEQUAL
  else if negb (pj_strcmp (conn_addr c1) (conn_addr c2) =? 0) then PJMEDIA_SDP_ECONNNOTEQUAL
  else PJ_SUCCESS.

(** The [fmtp] attribute of the other description for the same payload type. *)
Definition compare_fmtp (a1 : pjmedia_sdp_attr) (attr2 : list pjmedia_sdp_attr) : pj_status :=
  match pjmedia_sdp_attr_get_fmtp a1 with
  | (PJ_SUCCESS, (Some fmt1, Some fmt_param1)) =>
      match pjmedia_sdp_attr_find attr2 (attr_name a1) (Some fmt1) with
      | None => PJMEDIA_SDP_EFMTPNOTEQUAL
      | Some (_, a2) =>
          match pjmedia_sdp_attr_get_fmtp a2 with
          | (PJ_SUCCESS, (Some _, Some fmt_param2)) =>
              if negb (pj_strcmp fmt_param1 fmt_param2 =? 0) then PJMEDIA_SDP_EFMTPNOTEQUAL
              else PJ_SUCCESS
          | _ => PJMEDIA_SDP_EFMTPNOTEQUAL
          end
      end
  | _ => PJMEDIA_SDP_EFMTPNOTEQUAL
  end.

Definition compare_rtpmap (a1 : pjmedia_sdp_attr) (attr2 : list pjmedia_sdp_attr) : pj_status :=
  match pjmedia_sdp_attr_get_rtpmap a1 with
  | (PJ_SUCCESS, Some r1) =>
      match pjmedia_sdp_attr_find attr2 (attr_name a1) (Some (pt r1)) with
      | None => PJMEDIA_SDP_ERTPMAPNOTEQUAL
      | Some (_, a2) =>
          match pjmedia_sdp_attr_get_rtpmap a2 with
          | (PJ_SUCCESS, Some r2) =>
              if negb (pj_strcmp (pt r1) (pt r2) =? 0) then PJMEDIA_SDP_ERTPMAPNOTEQUAL
              else if negb (pj_strcmp (enc_name r1) (enc_name r2) =? 0) then PJMEDIA_SDP_ERTPMAPNOTEQUAL
              else if negb (clock_rate r1 =? clock_rate r2) then PJMEDIA_SDP_ERTPMAPNOTEQUAL
              else if negb (pj_strcmp (param r1) (param r2) =? 0) then PJMEDIA_SDP_ERTPMAPNOTEQUAL
              else PJ_SUCCESS
          | _ => PJMEDIA_SDP_ERTPMAPNOTEQUAL
          end
      end
  | _ => PJMEDIA_SDP_ERTPMAPNOTEQUAL
  end.

(** One attribute against the array of the other description. *)
Definition compare_one_attr (a1 : pjmedia_sdp_attr) (attr2 : list pjmedia_sdp_attr) : pj_status :=
  if is_attr "inactive" a1 || is_attr "sendrecv" a1 || is_attr "sendonly" a1 || is_attr "recvonly" a1 then
    match pjmedia_sdp_attr_find attr2 (attr_name a1) None with
    | None => PJMEDIA_SDP_EDIRNOTEQUAL
    | Some _ => PJ_SUCCESS
    end
  else if is_attr "fmtp" a1 then compare_fmtp a1 attr2
  else if is_attr "rtpmap" a1 then compare_rtpmap a1 attr2
  else PJ_SUCCESS.

(** The first status that is not a success. *)
Fixpoint first_failure {A} (f : A -> pj_status) (l : list A) : pj_status :=
  match l with
  | [] => PJ_SUCCESS
  | x :: l => match f x with PJ_SUCCESS => first_failure f l | status => status end
  end.
Definition compare_attr_imp (attr1 attr2 : list pjmedia_sdp_attr) : pj_status :=
  first_failure (fun a1 => compare_one_attr a1 attr2) attr1.

Definition compare_attr (attr1 attr2 : list pjmedia_sdp_attr) : pj_status :=
  match compare_attr_imp attr1 attr2 with
  | PJ_SUCCESS => compare_attr_imp attr2 attr1
  | status => status
  end.

Fixpoint compare_fmts (fmt1 fmt2 : list (list Z)) : bool :=
  match fmt1, fmt2 with
  | f1 :: fmt1, f2 :: fmt2 => (pj_strcmp f1 f2 =? 0) && compare_fmts fmt1 fmt2
  | _, _ => true
  end.

(** The status of the comparison of two connection lines is not looked at. *)
Definition pjmedia_sdp_media_cmp (sd1 sd2 : pjmedia_sdp_media) : pj_status :=
  if negb (pj_strcmp (media_type sd1) (media_type sd2) =? 0) then PJMEDIA_SDP_EMEDIANOTEQUAL
  else if negb (port sd1 =? port sd2) then PJMEDIA_SDP_EPORTNOTEQUAL
  else if negb (port_count sd1 =? port_count sd2) then PJMEDIA_SDP_EPORTNOTEQUAL
  else if negb (pj_strcmp (transport sd1) (transport sd2) =? 0) then PJMEDIA_SDP_ETPORTNOTEQUAL
  else if port sd1 =? 0 then PJ_SUCCESS
  else if negb (zlen (fmt sd1) =? zlen (fmt sd2)) then PJMEDIA_SDP_EFORMATNOTEQUAL
  else if negb (compare_fmts (fmt sd1) (fmt sd2)) then PJMEDIA_SDP_EFORMATNOTEQUAL
  else
    match media_conn sd1, media_conn sd2 with
    | Some _, None | None, Some _ => PJMEDIA_SDP_EMEDIANOTEQUAL
    | Some c1, Some c2 =>
        let status := compare_conn c1 c2 in
        let status := compare_attr (media_attr sd1) (media_attr sd2) in
        status
    | None, None => compare_attr (media_attr sd1) (media_attr sd2)
    end.

Definition compare_origin (o1 o2 : sdp_origin) : bool :=
  (pj_strcmp (user o1) (user o2) =? 0) && (origin_id o1 =? origin_id o2) &&
  (version o1 =? version o2) && (pj_strcmp (origin_net_type o1) (origin_net_type o2) =? 0) &&
  (pj_strcmp (origin_addr_type o1) (origin_addr_type o2) =? 0) &&
  (pj_strcmp (origin_addr o1) (origin_addr o2) =? 0).

Fixpoint compare_media (media1 media2 : list pjmedia_sdp_media) : pj_status :=
  match media1, media2 with
  | m1 :: media1, m2 :: media2 =>
      match pjmedia_sdp_media_cmp m1 m2 with
      | PJ_SUCCESS => compare_media media1 media2
      | status => status
      end
  | _, _ => PJ_SUCCESS
  end.

Definition pjmedia_sdp_session_cmp (sd1 sd2 : pjmedia_sdp_session) : pj_status :=
  if negb (compare_origin (origin sd1) (origin sd2)) then PJMEDIA_SDP_EORIGINNOTEQUAL
  else if negb (pj_strcmp (sess_name sd1) (sess_name sd2) =? 0) then PJMEDIA_SDP_ENAMENOTEQUAL
  else
    match match sess_conn sd1, sess_conn sd2 with
          | Some c1, Some c2 => compare_conn c1 c2
          | None, None => PJ_SUCCESS
          | _, _ => PJMEDIA_SDP_ECONNNOTEQUAL
          end with
    | PJ_SUCCESS =>
        if negb (time_start sd1 =? time_start sd2) then PJMEDIA_SDP_ETIMENOTEQUAL
        else if negb (time_stop sd1 =? time_stop sd2) then PJMEDIA_SDP_ETIMENOTEQUAL
        else
          match compare_attr (sess_attr sd1) (sess_attr sd2) with
          | PJ_SUCCESS =>
              if negb (zlen (media sd1) =? zlen (media sd2)) then PJMEDIA_SDP_EMEDIANOTEQUAL
              else compare_media (media sd1) (media sd2)
          | status => status
          end
    | status => status
    end.

Definition pjmedia_sdp_conn_cmp (conn1 conn2 : pjmedia_sdp_conn) : pj_status :=
  compare_conn conn1 conn2.

(** ** What it means that two descriptions compare equal *)

(** An attribute of one description has its counterpart in the other: the same
    direction, or the first [fmtp] or [rtpmap] for its format, with the same
    content. *)
Definition direction_names : list (list Z) :=
  [pj_str "inactive"; pj_str "sendrecv"; pj_str "sendonly"; pj_str "recvonly"].
Definition answered_in (l : list pjmedia_sdp_attr) (a : pjmedia_sdp_attr) : Prop :=
  (attr_name a ∈ direction_names -> exists b, b ∈ l /\ attr_name b = attr_name a) /\
  (attr_name a = pj_str "fmtp" -> exists f1 f2 p i b,
     pjmedia_sdp_attr_get_fmtp a = (PJ_SUCCESS, (Some f1, Some p)) /\
     pjmedia_sdp_attr_find2 l "fmtp" (Some f1) = Some (i, b) /\
     pjmedia_sdp_attr_get_fmtp b = (PJ_SUCCESS, (Some f2, Some p))) /\
  (attr_name a = pj_str "rtpmap" -> exists r i b,
     pjmedia_sdp_attr_get_rtpmap a = (PJ_SUCCESS, Some r) /\
     pjmedia_sdp_attr_find2 l "rtpmap" (Some (pt r)) = Some (i, b) /\
     pjmedia_sdp_attr_get_rtpmap b = (PJ_SUCCESS, Some r)).
Definition same_attrs (l1 l2 : list pjmedia_sdp_attr) : Prop :=
  Forall (answered_in l2) l1 /\ Forall (answered_in l1) l2.

(** Of the connection lines of a media only the presence counts. *)
Definition same_media (m1 m2 : pjmedia_sdp_media) : Prop :=
  media_type m1 = media_type m2 /\ port m1 = port m2 /\ port_count m1 = port_count m2 /\
  transport m1 = transport m2 /\
  (port m1 <> 0 -> fmt m1 = fmt m2 /\ (is_Some (media_conn m1) <-> is_Some (media_conn m2)) /\
                   same_attrs (media_attr m1) (media_attr m2)).
Definition same_session (s1 s2 : pjmedia_sdp_session) : Prop :=
  origin s1 = origin s2 /\ sess_name s1 = sess_name s2 /\ sess_conn s1 = sess_conn s2 /\
  time_start s1 = time_start s2 /\ time_stop s1 = time_stop s2 /\
  same_attrs (sess_attr s1) (sess_attr s2) /\ Forall2 same_media (media s1) (media s2).

(** Arrays of the sizes of the C structures. *)
Definition attrs_fit (s : pjmedia_sdp_session) : Prop :=
  zlen (sess_attr s) <= PJMEDIA_MAX_SDP_ATTR /\
  Forall (fun m => zlen (media_attr m) <= PJMEDIA_MAX_SDP_ATTR) (media s).

Lemma attr_find_loop_name n i l :
  is_Some (attr_find_loop n None i l) <-> exists b, b ∈ l /\ attr_name b = n.
Proof.
  revert i. induction l as [|a l IH]; intros i; cbn [attr_find_loop].
  - split; [by intros []|]. intros (b & Hb & _). by apply elem_of_nil in Hb.
  - rewrite strcmp_eqb. case_bool_decide as Hn.
    + split; [|done]. intros _. exists a. by split; [left|].
    + rewrite IH. split; intros (b & Hb & He); exists b; (split; [|done]).
      * by right.
      * apply elem_of_cons in Hb as [->|]; done.
Qed.
Lemma attr_find_name l n : zlen l <= PJMEDIA_MAX_SDP_ATTR ->
  is_Some (pjmedia_sdp_attr_find l n None) <-> exists b, b ∈ l /\ attr_name b = n.
Proof.
  intros Hl. unfold pjmedia_sdp_attr_find. destruct (Z.gtb_spec (zlen l) PJMEDIA_MAX_SDP_ATTR); [lia|].
  apply attr_find_loop_name.
Qed.

Lemma compare_fmtp_spec a l : attr_name a = pj_str "fmtp" ->
  compare_fmtp a l = PJ_SUCCESS <-> exists f1 f2 p i b,
     pjmedia_sdp_attr_get_fmtp a = (PJ_SUCCESS, (Some f1, Some p)) /\
     pjmedia_sdp_attr_find2 l "fmtp" (Some f1) = Some (i, b) /\
     pjmedia_sdp_attr_get_fmtp b = (PJ_SUCCESS, (Some f2, Some p)).
Proof.
  intros Hn. unfold compare_fmtp, pjmedia_sdp_attr_find2. rewrite Hn. split.
  - repeat case_match; try discriminate. rewrite strcmp_eqb in *.
    match goal with H : negb (bool_decide _) = false |- _ =>
      apply negb_false_iff, bool_decide_eq_true in H; subst end. eauto 10.
  - intros (f1 & f2 & p & i & b & -> & -> & ->). by rewrite strcmp_eqb, bool_decide_eq_true_2.
Qed.
Lemma compare_rtpmap_spec a l : attr_name a = pj_str "rtpmap" ->
  compare_rtpmap a l = PJ_SUCCESS <-> exists r i b,
     pjmedia_sdp_attr_get_rtpmap a = (PJ_SUCCESS, Some r) /\
     pjmedia_sdp_attr_find2 l "rtpmap" (Some (pt r)) = Some (i, b) /\
     pjmedia_sdp_attr_get_rtpmap b = (PJ_SUCCESS, Some r).
Proof.
  intros Hn. unfold compare_rtpmap, pjmedia_sdp_attr_find2. rewrite Hn. split.
  - destruct (pjmedia_sdp_attr_get_rtpmap a) as [st [r1|]]; [|by destruct st].
    destruct st; try discriminate.
    destruct (pjmedia_sdp_attr_find l _ _) as [[i b]|] eqn:Hf; [|discriminate].
    destruct (pjmedia_sdp_attr_get_rtpmap b) as [st [r2|]] eqn:Hb; [|by destruct st].
    destruct st; try discriminate. rewrite !strcmp_eqb.
    repeat (case_bool_decide; cbn [negb]; [|discriminate]).
    destruct (Z.eqb_spec (clock_rate r1) (clock_rate r2)); [|discriminate]. cbn [negb].
    case_bool_decide; [|discriminate]. intros _. exists r1, i, b. split_and!; [done..|].
    rewrite Hb. destruct r1, r2; cbn in *; by subst.
  - intros (r & i & b & -> & -> & ->). by rewrite !strcmp_eqb, !bool_decide_eq_true_2, Z.eqb_refl.
Qed.

Lemma compare_one_attr_spec a l : zlen l <= PJMEDIA_MAX_SDP_ATTR ->
  compare_one_attr a l = PJ_SUCCESS <-> answered_in l a.
Proof.
  intros Hl. unfold compare_one_attr, answered_in, is_attr. rewrite !strcmp_eqb.
  assert (((bool_decide (attr_name a = pj_str "inactive") || bool_decide (attr_name a = pj_str "sendrecv")
    || bool_decide (attr_name a = pj_str "sendonly")) || bool_decide (attr_name a = pj_str "recvonly"))
    = bool_decide (attr_name a ∈ direction_names)) as ->.
  { apply eq_bool_prop_intro. unfold direction_names. rewrite !orb_True, !bool_decide_spec, !elem_of_cons, elem_of_nil.
    naive_solver. }
  case_bool_decide as Hd.
  - pose proof (attr_find_name l (attr_name a) Hl) as Hf.
    assert (attr_name a <> pj_str "fmtp" /\ attr_name a <> pj_str "rtpmap") as [H1 H2].
    { split; intros E; unfold direction_names in Hd; rewrite E, !elem_of_cons, elem_of_nil in Hd;
        by destruct Hd as [|[|[|[|]]]]. }
    destruct (pjmedia_sdp_attr_find l (attr_name a) None) as [x|].
    + split; [|done]. intros _. split_and!; [|done..]. intros _. apply Hf. eauto.
    + split; [discriminate|]. intros (Hs & _). apply Hs in Hd. apply Hf in Hd as [? ?]. discriminate.
  - case_bool_decide as Hfm; [|case_bool_decide as Hr].
    + rewrite compare_fmtp_spec by done. split; [|naive_solver]. intros H. split_and!; [done..|].
      intros E. rewrite Hfm in E. discriminate.
    + rewrite compare_rtpmap_spec by done. naive_solver.
    + naive_solver.
Qed.
Lemma first_failure_success {A} (f : A -> pj_status) l :
  first_failure f l = PJ_SUCCESS <-> Forall (fun x => f x = PJ_SUCCESS) l.
Proof.
  induction l as [|x l IH]; cbn [first_failure]; [by split|]. rewrite Forall_cons, <- IH.
  destruct (f x); naive_solver.
Qed.
Lemma compare_attr_spec l1 l2 : zlen l1 <= PJMEDIA_MAX_SDP_ATTR -> zlen l2 <= PJMEDIA_MAX_SDP_ATTR ->
  compare_attr l1 l2 = PJ_SUCCESS <-> same_attrs l1 l2.
Proof.
  intros H1 H2. assert (forall k1 k2, zlen k2 <= PJMEDIA_MAX_SDP_ATTR ->
    compare_attr_imp k1 k2 = PJ_SUCCESS <-> Forall (answered_in k2) k1) as Himp.
  { intros k1 k2 Hk. unfold compare_attr_imp. rewrite first_failure_success.
    apply Forall_iff. intros a. by apply compare_one_attr_spec. }
  unfold compare_attr, same_attrs. rewrite <- (Himp l1 l2), <- (Himp l2 l1) by done.
  destruct (compare_attr_imp l1 l2); naive_solver.
Qed.

Lemma compare_fmts_spec f1 f2 : zlen f1 = zlen f2 -> compare_fmts f1 f2 = true <-> f1 = f2.
Proof.
  revert f2. induction f1 as [|f f1 IH]; intros [|g f2] Hl; cbn [compare_fmts]; try done.
  rewrite andb_true_iff, strcmp_eqb, bool_decide_eq_true, IH by (unfold zlen in *; cbn in *; lia).
  naive_solver.
Qed.
Lemma compare_conn_spec c1 c2 : compare_conn c1 c2 = PJ_SUCCESS <-> c1 = c2.
Proof.
  unfold compare_conn. rewrite !strcmp_eqb. destruct c1, c2; cbn.
  repeat (case_bool_decide; cbn [negb]); naive_solver.
Qed.
Lemma compare_origin_spec o1 o2 : compare_origin o1 o2 = true <-> o1 = o2.
Proof.
  unfold compare_origin. rewrite !andb_true_iff, !strcmp_eqb, !bool_decide_eq_true, !Z.eqb_eq.
  destruct o1, o2; cbn. naive_solver.
Qed.

Lemma media_cmp_spec m1 m2 :
  zlen (media_attr m1) <= PJMEDIA_MAX_SDP_ATTR -> zlen (media_attr m2) <= PJMEDIA_MAX_SDP_ATTR ->
  pjmedia_sdp_media_cmp m1 m2 = PJ_SUCCESS <-> same_media m1 m2.
Proof.
  intros H1 H2. pose proof (compare_attr_spec _ _ H1 H2) as Ha.
  unfold pjmedia_sdp_media_cmp, same_media. rewrite !strcmp_eqb.
  case_bool_decide; cbn [negb]; [|naive_solver].
  destruct (Z.eqb_spec (port m1) (port m2)); cbn [negb]; [|naive_solver].
  destruct (Z.eqb_spec (port_count m1) (port_count m2)); cbn [negb]; [|naive_solver].
  case_bool_decide; cbn [negb]; [|naive_solver].
  destruct (Z.eqb_spec (port m1) 0) as [|Hp]; [naive_solver|].
  destruct (Z.eqb_spec (zlen (fmt m1)) (zlen (fmt m2))) as [Hz|]; cbn [negb];
    [|split; [discriminate|]; intros (_ & _ & _ & _ & H'); destruct (H' Hp) as [Hf _]; congruence].
  pose proof (compare_fmts_spec _ _ Hz) as Hf.
  destruct (compare_fmts (fmt m1) (fmt m2)); cbn [negb]; [|naive_solver].
  destruct (media_conn m1), (media_conn m2); cbn zeta; rewrite ?Ha; 
    rewrite ?is_Some_alt; naive_solver.
Qed.

Lemma compare_media_spec l1 l2 : zlen l1 = zlen l2 ->
  Forall (fun m => zlen (media_attr m) <= PJMEDIA_MAX_SDP_ATTR) l1 ->
  Forall (fun m => zlen (media_attr m) <= PJMEDIA_MAX_SDP_ATTR) l2 ->
  compare_media l1 l2 = PJ_SUCCESS <-> Forall2 same_media l1 l2.
Proof.
  intros Hl Hl1. revert l2 Hl. induction Hl1 as [|m1 l1 H1 _ IH]; intros [|m2 l2] Hl Hl2; cbn [compare_media];
    try done; inversion Hl2 as [|? ? H2 Hl2']; subst.
  rewrite Forall2_cons_iff, <- (media_cmp_spec m1 m2 H1 H2), <- IH by (unfold zlen in *; cbn in *; lia || done).
  destruct (pjmedia_sdp_media_cmp m1 m2); naive_solver.
Qed.

(** Two descriptions compare equal exactly when their origins, names, connection
    lines and times are the same, the attributes that matter have their
    counterparts both ways, and so for each media, of which the connection line
    counts by its presence only. *)
Lemma sdp_session_cmp_spec s1 s2 : attrs_fit s1 -> attrs_fit s2 ->
  pjmedia_sdp_session_cmp s1 s2 = PJ_SUCCESS <-> same_session s1 s2.
Proof.
  intros [Ha1 Hm1] [Ha2 Hm2]. unfold pjmedia_sdp_session_cmp, same_session.
  rewrite <- compare_origin_spec, <- (compare_attr_spec _ _ Ha1 Ha2), strcmp_eqb.
  destruct (compare_origin _ _); cbn [negb]; [|naive_solver].
  case_bool_decide; cbn [negb]; [|naive_solver].
  assert (match sess_conn s1, sess_conn s2 with
          | Some c1, Some c2 => compare_conn c1 c2
          | None, None => PJ_SUCCESS
          | _, _ => PJMEDIA_SDP_ECONNNOTEQUAL
          end = PJ_SUCCESS <-> sess_conn s1 = sess_conn s2) as Hc.
  { destruct (sess_conn s1), (sess_conn s2); rewrite ?compare_conn_spec; naive_solver. }
  rewrite <- Hc. clear Hc.
  destruct (match sess_conn s1 with Some _ => _ | None => _ end); try naive_solver.
  destruct (Z.eqb_spec (time_start s1) (time_start s2)); cbn [negb]; [|naive_solver].
  destruct (Z.eqb_spec (time_stop s1) (time_stop s2)); cbn [negb]; [|naive_solver].
  destruct (compare_attr _ _); try naive_solver.
  destruct (Z.eqb_spec (zlen (media s1)) (zlen (media s2))) as [Hl|Hl]; cbn [negb].
  - rewrite compare_media_spec by done. naive_solver.
  - split; [discriminate|]. intros (_ & _ & _ & _ & _ & _ & H2%Forall2_length). unfold zlen in Hl. lia.
Qed.

Lemma sdp_session_cmp_spec_witness :
  let o := SdpOrigin (pj_str "-") 1 1 (pj_str "IN") (pj_str "IP4") (pj_str "h") in
  let m addr := SdpMedia (pj_str "audio") 4000 0 (pj_str "RTP/AVP") [pj_str "0"]
    (Some (SdpConn (pj_str "IN") (pj_str "IP4") (pj_str addr))) [] [SdpAttr (pj_str "sendrecv") []] in
  let s addr := SdpSession o (pj_str "-") None [] 0 0 [] [m addr] in
  pjmedia_sdp_session_cmp (s "10.0.0.1") (s "10.9.9.9") = PJ_SUCCESS /\
  same_session (s "10.0.0.1") (s "10.9.9.9").
Proof.
  intros o m s. split; [vm_compute; reflexivity|].
  apply (sdp_session_cmp_spec (s "10.0.0.1") (s "10.9.9.9")).
  - split; [vm_compute; discriminate|]. repeat constructor. vm_compute. discriminate.
  - split; [vm_compute; discriminate|]. repeat constructor. vm_compute. discriminate.
  - vm_compute. reflexivity.
Defined.
