(* ===== verification/SdpNeg.v ===== *)
(** * SDP offer/answer negotiation (pjmedia/src/pjmedia/sdp_neg.c)

    The negotiator with its calls, and the algorithms behind them: the answer to
    a remote offer, and the update of a local offer from a remote answer.  [None]
    is undefined behaviour: a null pointer is followed, or an uninitialised slot
    or one past an array is used. *)

From stdpp Require Import list.
From Stdlib Require Import Strings.String.
From S2P Require Import Prelude PjString Scanner Sdp.
Open Scope string_scope.
Open Scope list_scope.
Open Scope Z_scope.

(** ** Status codes and configuration *)

Definition PJMEDIA_SDPNEG_EINSTATE := PJMEDIA_STATUS 40.
Definition PJMEDIA_SDPNEG_ENOINITIAL := PJMEDIA_STATUS 41.
Definition PJMEDIA_SDPNEG_ENOACTIVE := PJMEDIA_STATUS 42.
Definition PJMEDIA_SDPNEG_ENONEG := PJMEDIA_STATUS 43.
Definition PJMEDIA_SDPNEG_EINVANSMEDIA := PJMEDIA_STATUS 45.
Definition PJMEDIA_SDPNEG_EINVANSTP := PJMEDIA_STATUS 46.
Definition PJMEDIA_SDPNEG_EANSNOMEDIA := PJMEDIA_STATUS 47.
Definition PJMEDIA_SDPNEG_ENOMEDIA := PJMEDIA_STATUS 48.
Definition PJMEDIA_SDPNEG_NOANSCODEC := PJMEDIA_STATUS 49.
Definition PJMEDIA_SDPNEG_NOANSUNKNOWN := PJMEDIA_STATUS 51.

Definition PJMEDIA_SDP_NEG_PREFER_REMOTE_CODEC_ORDER : bool := true.
Definition PJMEDIA_SDP_NEG_ANSWER_MULTIPLE_CODECS : bool := false.
Definition PJMEDIA_SDP_NEG_MAX_CUSTOM_FMT_NEG_CB : Z := 8.
Definition PJMEDIA_SDP_NEG_ALLOW_MEDIA_CHANGE : Z := 1.
Definition ALLOW_MODIFY_ANSWER : Z := 1.

(** ** Custom format matching

    The registered callbacks, by format name, and what the functions do: they get
    the offer and the answer with the indices of the formats, and return a status
    and the attributes of the answer, which they may change.  A function pointer
    is a number. *)

Definition fmt_match_cb_t : Type := list Z * nat.

Class FmtMatchCb := {
  fmt_match_cb : list fmt_match_cb_t;
  fmt_match_run : nat -> pjmedia_sdp_media -> nat -> pjmedia_sdp_media -> nat -> Z ->
    pj_status * list pjmedia_sdp_attr }.

Fixpoint find_fmt_match_cb (fmt_name : list Z) (cbs : list fmt_match_cb_t) :
    option (nat * nat) :=
  match cbs with
  | [] => None
  | (name, cb) :: cbs =>
      if pj_stricmp fmt_name name =? 0 then Some (0%nat, cb)
      else (fun '(i, cb) => (S i, cb)) <$> find_fmt_match_cb fmt_name cbs
  end.

(** [cb = None] unregisters. *)
Definition pjmedia_sdp_neg_register_fmt_match_cb (cbs : list fmt_match_cb_t)
    (fmt_name : list Z) (cb : option nat) : list fmt_match_cb_t * pj_status :=
  match find_fmt_match_cb fmt_name cbs, cb with
  | None, None => (cbs, PJ_ENOTFOUND)
  | Some (i, _), None => (delete i cbs, PJ_SUCCESS)
  | Some (_, cb'), Some cb => (cbs, if bool_decide (cb = cb') then PJ_SUCCESS else PJ_EEXISTS)
  | None, Some cb =>
      if zlen cbs >=? PJMEDIA_SDP_NEG_MAX_CUSTOM_FMT_NEG_CB then (cbs, PJ_ETOOMANY)
      else (cbs ++ [(fmt_name, cb)], PJ_SUCCESS)
  end.

Section Neg.
Context `{FmtMatchCb}.

(** The status, and the answer with its attributes changed. *)
Definition custom_fmt_match (fmt_name : list Z) (offer : pjmedia_sdp_media) (o_fmt_idx : nat)
    (answer : pjmedia_sdp_media) (a_fmt_idx : nat) (opt : Z) : pj_status * pjmedia_sdp_media :=
  match find_fmt_match_cb fmt_name fmt_match_cb with
  | Some (_, cb) =>
      let '(status, attr) := fmt_match_run cb offer o_fmt_idx answer a_fmt_idx opt in
      (status, answer <| media_attr := attr |>)
  | None => (PJ_SUCCESS, answer)
  end.

(** The [rtpmap] of a format: not found ([Some None]), or found; [None] when it is
    found and leaves the structure it is read into as it was. *)
Definition find_rtpmap (m : pjmedia_sdp_media) (f : list Z) : option (option pjmedia_sdp_rtpmap) :=
  match pjmedia_sdp_media_find_attr2 m "rtpmap" (Some f) with
  | None => Some None
  | Some (_, a) => Some <$> snd (pjmedia_sdp_attr_get_rtpmap a)
  end.

(** [slen == 1 && *ptr == '1'] *)
Definition is_one (s : list Z) : bool := (zlen s =? 1) && (at0 s =? 49).

(** The channel counts agree when one is 1 and the other is not given. *)
Definition param_match (o a : list Z) : bool :=
  (pj_stricmp o a =? 0) || ((zlen a =? 0) && is_one o) || ((zlen o =? 0) && is_one a).
Definition rtpmap_match (o a : pjmedia_sdp_rtpmap) : bool :=
  (pj_stricmp (enc_name o) (enc_name a) =? 0) && (clock_rate o =? clock_rate a) &&
  param_match (param o) (param a).

Definition pjmedia_sdp_neg_fmt_match (offer : pjmedia_sdp_media) (o_fmt_idx : nat)
    (answer : pjmedia_sdp_media) (a_fmt_idx : nat) (opt : Z) :
    option (pj_status * pjmedia_sdp_media) :=
  o_fmt ← fmt offer !! o_fmt_idx;
  a_fmt ← fmt answer !! a_fmt_idx;
  let o_pt := u32 (pj_strtoul o_fmt) in
  let a_pt := u32 (pj_strtoul a_fmt) in
  if (o_pt <? 96) || (a_pt <? 96) then
    Some (if o_pt =? a_pt then PJ_SUCCESS else PJMEDIA_SDP_EFORMATNOTEQUAL, answer)
  else
    o ← find_rtpmap offer o_fmt;
    match o with
    | None => Some (PJ_EBUG, answer)
    | Some o_rtpmap =>
        a ← find_rtpmap answer a_fmt;
        match a with
        | None => Some (PJ_EBUG, answer)
        | Some a_rtpmap =>
            if negb (rtpmap_match o_rtpmap a_rtpmap)
            then Some (PJMEDIA_SDP_EFORMATNOTEQUAL, answer)
            else Some (custom_fmt_match (enc_name o_rtpmap) offer o_fmt_idx answer a_fmt_idx opt)
        end
    end.

(** ** Media directions *)

Definition PJMEDIA_DIR_NONE : Z := 0.
Definition PJMEDIA_DIR_ENCODING : Z := 1.
Definition PJMEDIA_DIR_DECODING : Z := 2.
Definition PJMEDIA_DIR_ENCODING_DECODING : Z := 3.

Definition has_attr (m : pjmedia_sdp_media) (name : string) : bool :=
  bool_decide (is_Some (pjmedia_sdp_media_find_attr2 m name None)).

Definition remove_all_media_directions (m : pjmedia_sdp_media) : pjmedia_sdp_media :=
  let m := pjmedia_sdp_media_remove_all_attr m "inactive" in
  let m := pjmedia_sdp_media_remove_all_attr m "sendrecv" in
  let m := pjmedia_sdp_media_remove_all_attr m "sendonly" in
  pjmedia_sdp_media_remove_all_attr m "recvonly".

Definition local_direction (local : pjmedia_sdp_media) : Z :=
  if has_attr local "sendonly" then PJMEDIA_DIR_ENCODING
  else if has_attr local "recvonly" then PJMEDIA_DIR_DECODING
  else if has_attr local "inactive" then PJMEDIA_DIR_NONE
  else PJMEDIA_DIR_ENCODING_DECODING.

Definition adjusted_direction (remote : pjmedia_sdp_media) (old_dir : Z) : Z :=
  if has_attr remote "inactive" then PJMEDIA_DIR_NONE
  else if has_attr remote "sendonly" then
    if old_dir =? PJMEDIA_DIR_ENCODING_DECODING then PJMEDIA_DIR_DECODING
    else if old_dir =? PJMEDIA_DIR_DECODING then old_dir
    else PJMEDIA_DIR_NONE
  else if has_attr remote "recvonly" then
    if old_dir =? PJMEDIA_DIR_ENCODING_DECODING then PJMEDIA_DIR_ENCODING
    else if old_dir =? PJMEDIA_DIR_ENCODING then old_dir
    else PJMEDIA_DIR_NONE
  else old_dir.

Definition update_media_direction (remote local : pjmedia_sdp_media) : pjmedia_sdp_media :=
  let old_dir := local_direction local in
  let new_dir := adjusted_direction remote old_dir in
  if new_dir =? old_dir then local
  else
    let local := remove_all_media_directions local in
    if new_dir =? PJMEDIA_DIR_NONE then
      pjmedia_sdp_media_add_attr local (pjmedia_sdp_attr_create "inactive" None)
    else if new_dir =? PJMEDIA_DIR_ENCODING then
      pjmedia_sdp_media_add_attr local (pjmedia_sdp_attr_create "sendonly" None)
    else if new_dir =? PJMEDIA_DIR_DECODING then
      pjmedia_sdp_media_add_attr local (pjmedia_sdp_attr_create "recvonly" None)
    else local.

(** ** A remote answer to a local offer *)

(** What is removed from a media with a format: the format's [rtpmap] and
    [fmtp]. *)
Definition remove_fmt_attrs (m : pjmedia_sdp_media) (f : list Z) : pjmedia_sdp_media :=
  let m := match pjmedia_sdp_media_find_attr2 m "rtpmap" (Some f) with
           | Some (i, _) => pjmedia_sdp_media_remove_attr m i
           | None => m
           end in
  match pjmedia_sdp_media_find_attr2 m "fmtp" (Some f) with
  | Some (i, _) => pjmedia_sdp_media_remove_attr m i
  | None => m
  end.

(** The index of the first format of [l] that is the same text; the length of
    [l], added to [j], when there is none. *)
Fixpoint find_fmt (f : list Z) (j : nat) (l : list (list Z)) : nat :=
  match l with
  | [] => j
  | g :: l => if pj_strcmp f g =? 0 then j else find_fmt f (S j) l
  end.

(** The index [j] of the first format of the answer, from those left in [l] on,
    whose [rtpmap] matches [or_], the one of format [i] of the offer. *)
Fixpoint find_answer_fmt (offer : pjmedia_sdp_media) (i : nat) (or_ : pjmedia_sdp_rtpmap)
    (j : nat) (l : list (list Z)) (answer : pjmedia_sdp_media) :
    option (nat * pjmedia_sdp_media) :=
  match l with
  | [] => Some (j, answer)
  | f :: l =>
      a ← find_rtpmap answer f;
      match a with
      | None => find_answer_fmt offer i or_ (S j) l answer
      | Some ar =>
          if (pj_stricmp (enc_name or_) (enc_name ar) =? 0) &&
             (clock_rate or_ =? clock_rate ar) &&
             ((pj_stricmp (param or_) (param ar) =? 0) || is_one (param ar))
          then
            let '(status, answer) := custom_fmt_match (enc_name or_) offer i answer j 0 in
            if bool_decide (status = PJ_SUCCESS) then Some (j, answer)
            else find_answer_fmt offer i or_ (S j) l answer
          else find_answer_fmt offer i or_ (S j) l answer
      end
  end.

(** Removes the formats of the offer that have no match in the answer.  [prior]
    holds, for each format kept so far, the index of its match; [l] is what is
    left of the formats. *)
Fixpoint match_offer_fmts (prior : list (nat * list Z)) (l : list (list Z))
    (offer answer : pjmedia_sdp_media) :
    option (pj_status * list (nat * list Z) * pjmedia_sdp_media * pjmedia_sdp_media) :=
  match l with
  | [] => Some (PJ_SUCCESS, prior, offer, answer)
  | f :: l =>
      let i := length prior in
      r ← (if u32 (pj_strtoul f) <? 96 then Some (Some (find_fmt f 0 (fmt answer), answer))
           else
             o ← find_rtpmap offer f;
             match o with
             | None => Some None
             | Some or_ => Some <$> find_answer_fmt offer i or_ 0 (fmt answer) answer
             end);
      match r with
      | None => Some (PJ_EBUG, prior, offer, answer)
      | Some (j, answer) =>
          if bool_decide (j = length (fmt answer)) then
            let offer := remove_fmt_attrs offer f in
            match_offer_fmts prior l (offer <| fmt ::= delete i |>) answer
          else match_offer_fmts (prior ++ [(j, f)]) l offer answer
      end
  end.

(** The exchange sort: one round puts the least of a slot and those after it in
    the slot. *)
Fixpoint resort_round (x : nat * list Z) (l : list (nat * list Z)) :
    (nat * list Z) * list (nat * list Z) :=
  match l with
  | [] => (x, [])
  | y :: l =>
      if bool_decide (y.1 < x.1)%nat then let '(m, l) := resort_round y l in (m, x :: l)
      else let '(m, l) := resort_round x l in (m, y :: l)
  end.
Fixpoint resort_loop (n : nat) (l : list (nat * list Z)) : list (nat * list Z) :=
  match n, l with
  | S n, x :: l => let '(m, l) := resort_round x l in m :: resort_loop n l
  | _, _ => l
  end.
Definition resort (l : list (nat * list Z)) : list (nat * list Z) := resort_loop (length l) l.

(** Removes the formats of the answer without a match: [i] are kept, [del_cnt]
    removed so far. *)
Fixpoint remove_answer_fmts (prior : list nat) (i : nat) (del_cnt : Z) (l : list (list Z))
    (answer : pjmedia_sdp_media) : pjmedia_sdp_media :=
  match l with
  | [] => answer
  | f :: l =>
      if match prior !! i with
         | None => true
         | Some p => negb (u32 (Z.of_nat p - del_cnt) =? Z.of_nat i)
         end
      then
        let answer := remove_fmt_attrs answer f in
        remove_answer_fmts prior i (del_cnt + 1) l (answer <| fmt ::= delete i |>)
      else remove_answer_fmts prior (S i) del_cnt l answer
  end.

(** The offer and the answer as they are left. *)
Definition process_m_answer (offer answer : pjmedia_sdp_media) (allow_asym : bool) :
    option (pj_status * pjmedia_sdp_media * pjmedia_sdp_media) :=
  if negb (pj_strcmp (media_type answer) (media_type offer) =? 0)
  then Some (PJMEDIA_SDPNEG_EINVANSMEDIA, offer, answer)
  else if negb (bool_decide (pjmedia_sdp_transport_cmp (transport answer) (transport offer)
                             = PJ_SUCCESS))
  then Some (PJMEDIA_SDPNEG_EINVANSTP, offer, answer)
  else if port answer =? 0 then Some (PJ_SUCCESS, pjmedia_sdp_media_deactivate offer, answer)
  else if port offer =? 0 then Some (PJ_SUCCESS, offer, answer)
  else
    let offer := update_media_direction answer offer in
    if allow_asym then
      (* the format is looked up in the first formats of the answer itself, as
         many as the offer has *)
      let has (f : list Z) := existsb (fun g => pj_strcmp f g =? 0)
                                (take (length (fmt offer)) (fmt answer)) in
      Some (if existsb has (fmt answer) then PJ_SUCCESS else PJMEDIA_SDPNEG_EANSNOMEDIA,
            offer, answer)
    else
      '(status, prior, offer, answer) ← match_offer_fmts [] (fmt offer) offer answer;
      if negb (bool_decide (status = PJ_SUCCESS)) then Some (status, offer, answer)
      else if zlen (fmt offer) =? 0 then Some (PJMEDIA_SDPNEG_EANSNOMEDIA, offer, answer)
      else
        let prior := resort prior in
        let offer := offer <| fmt := prior.*2 |> in
        Some (PJ_SUCCESS, offer, remove_answer_fmts prior.*1 0 0 (fmt answer) answer).

(** [res->conn] of a line without a connection goes to the local line's, or to a
    loopback address. *)
Definition sdp_media_clone_deactivate (rem_med : pjmedia_sdp_media)
    (local_med : pjmedia_sdp_media) (local_conn : option pjmedia_sdp_conn) : pjmedia_sdp_media :=
  let res := pjmedia_sdp_media_clone_deactivate rem_med in
  match media_conn res, local_conn with
  | None, None =>
      match media_conn local_med with
      | Some c => res <| media_conn := Some c |>
      | None => res <| media_conn := Some (SdpConn (pj_str "IN") (pj_str "IP4") (pj_str "127.0.0.1")) |>
      end
  | _, _ => res
  end.

(** [oms] is the offer's media from [omi] on, [ams] the answer's from [ami] on;
    [k] is [answer->media_count].  The status is [PJ_SUCCESS] when the loop ends. *)
Fixpoint process_answer_loop (offer_conn : option pjmedia_sdp_conn) (allow_asym : bool) (k : Z)
    (oms ams : list pjmedia_sdp_media) (has_active : bool) :
    option (pj_status * list pjmedia_sdp_media * list pjmedia_sdp_media * bool) :=
  match oms with
  | [] => Some (PJ_SUCCESS, [], ams, has_active)
  | om :: oms =>
      match ams with
      | [] =>
          if k >=? PJMEDIA_MAX_SDP_MEDIA then None
          else
            let am := sdp_media_clone_deactivate om om offer_conn in
            '(status, oms, ams, has_active) ←
              process_answer_loop offer_conn allow_asym (k + 1) oms [] has_active;
            Some (status, pjmedia_sdp_media_deactivate om :: oms, am :: ams, has_active)
      | am :: ams =>
          '(status, om, am) ← process_m_answer om am allow_asym;
          if bool_decide (status = PJMEDIA_SDPNEG_EINVANSMEDIA) then
            '(status, oms, ams, has_active) ←
              process_answer_loop offer_conn allow_asym k oms (am :: ams) has_active;
            Some (status, pjmedia_sdp_media_deactivate om :: oms, ams, has_active)
          else
            let nomedia := bool_decide (status = PJMEDIA_SDPNEG_EANSNOMEDIA) in
            let om := if nomedia then pjmedia_sdp_media_deactivate om else om in
            let am := if nomedia then pjmedia_sdp_media_deactivate am else am in
            if negb nomedia && negb (bool_decide (status = PJ_SUCCESS))
            then Some (status, om :: oms, am :: ams, has_active)
            else
              '(status, oms, ams, has_active) ←
                process_answer_loop offer_conn allow_asym k oms ams
                  (has_active || negb (port om =? 0));
              Some (status, om :: oms, am :: ams, has_active)
      end
  end.

(** The status, and the offer and the answer as they are left; the active session
    is the offer. *)
Definition process_answer (offer answer : pjmedia_sdp_session) (allow_asym : bool) :
    option (pj_status * pjmedia_sdp_session * pjmedia_sdp_session) :=
  '(status, oms, ams, has_active) ←
    process_answer_loop (sess_conn offer) allow_asym (zlen (media answer))
      (media offer) (media answer) false;
  let offer := offer <| media := oms |> in
  let answer := answer <| media := ams |> in
  if negb (bool_decide (status = PJ_SUCCESS)) then Some (status, offer, answer)
  else Some (if has_active : bool then PJ_SUCCESS else PJMEDIA_SDPNEG_ENOMEDIA, offer, answer).

(** ** The answer to a remote offer *)

(** The text of a payload type at the head of an attribute's value becomes
    another; [None] writes past the end of a value that is shorter than the
    payload type. *)
Definition rewrite_pt (attr_val old_pt new_pt : list Z) : option (list Z) :=
  if zlen attr_val <? zlen old_pt then None else Some (new_pt ++ drop (length old_pt) attr_val).

(** An attribute found is rewritten and put aside. *)
Definition take_attr (name : string) (old_pt new_pt : list Z)
    (answer : pjmedia_sdp_media) (a_tmp : list pjmedia_sdp_attr) :
    option (pjmedia_sdp_media * list pjmedia_sdp_attr) :=
  match pjmedia_sdp_media_find_attr2 answer name (Some old_pt) with
  | None => Some (answer, a_tmp)
  | Some (i, a) =>
      v ← rewrite_pt (attr_value a) old_pt new_pt;
      Some (pjmedia_sdp_media_remove_attr answer i, a_tmp ++ [SdpAttr (attr_name a) v])
  end.

Fixpoint symmetric_pt_loop (i : nat) (pts : list (list Z * list Z)) (answer : pjmedia_sdp_media)
    (a_tmp : list pjmedia_sdp_attr) : option (pjmedia_sdp_media * list pjmedia_sdp_attr) :=
  match pts with
  | [] => Some (answer, a_tmp)
  | (pt_offer, pt_answer) :: pts =>
      if pj_strcmp pt_answer pt_offer =? 0 then symmetric_pt_loop (S i) pts answer a_tmp
      else
        let answer := answer <| fmt ::= <[i := pt_offer]> |> in
        '(answer, a_tmp) ← take_attr "rtpmap" pt_answer pt_offer answer a_tmp;
        '(answer, a_tmp) ← take_attr "fmtp" pt_answer pt_offer answer a_tmp;
        symmetric_pt_loop (S i) pts answer a_tmp
  end.
Definition apply_answer_symmetric_pt (answer : pjmedia_sdp_media) (pts : list (list Z * list Z)) :
    option pjmedia_sdp_media :=
  '(answer, a_tmp) ← symmetric_pt_loop 0 pts answer [];
  Some (foldl pjmedia_sdp_media_add_attr answer a_tmp).

(** The variables of [match_offer]: [pts] holds [pt_offer] and [pt_answer], of
    which each format of the master adds at most one. *)
Record match_state := MatchState {
  master_has_codec : bool; master_has_other : bool;
  found_matching_codec : bool; found_matching_telephone_event : bool;
  found_matching_other : bool;
  pts : list (list Z * list Z);
  clockrate : list Z }.
#[export] Instance eta_match : Eta match_state := fun s =>
  MatchState (master_has_codec s) (master_has_other s) (found_matching_codec s)
    (found_matching_telephone_event s) (found_matching_other s) (pts s) (clockrate s).

Definition note_clockrate (r : Z) (l : list Z) : list Z :=
  if existsb (fun x => x =? r) l then l else l ++ [r].

Section MatchOffer.
Context (prefer_remote_codec_order answer_with_multiple_codecs : bool).

Definition master (offer preanswer : pjmedia_sdp_media) : pjmedia_sdp_media :=
  if prefer_remote_codec_order then offer else preanswer.
Definition slave (offer preanswer : pjmedia_sdp_media) : pjmedia_sdp_media :=
  if prefer_remote_codec_order then preanswer else offer.

(** The formats of the offer and of the answer, from the master's and the
    slave's. *)
Definition pt_pair (master_fmt slave_fmt : list Z) : list Z * list Z :=
  if prefer_remote_codec_order then (master_fmt, slave_fmt) else (slave_fmt, master_fmt).

(** Among the slave's formats: the first with a static payload type. *)
Definition find_static (pt : Z) (l : list (list Z)) : option (list Z) :=
  snd <$> list_find (fun f => (u32 (pj_strtoul f) =? pt) && pj_isdigit (at0 f)) l.

(** The first, from those left in [l] on, whose [rtpmap] matches [or_], the one of
    the master's format [i]. *)
Fixpoint find_dynamic (offer : pjmedia_sdp_media) (i : nat) (or_ : pjmedia_sdp_rtpmap)
    (is_codec : bool) (j : nat) (l : list (list Z)) (preanswer : pjmedia_sdp_media) :
    option (option (list Z) * pjmedia_sdp_media) :=
  match l with
  | [] => Some (None, preanswer)
  | f :: l =>
      a ← find_rtpmap (slave offer preanswer) f;
      match a with
      | None => find_dynamic offer i or_ is_codec (S j) l preanswer
      | Some lr =>
          if rtpmap_match or_ lr then
            if is_codec then
              let o_fmt_idx := if prefer_remote_codec_order then i else j in
              let a_fmt_idx := if prefer_remote_codec_order then j else i in
              let '(status, preanswer) :=
                custom_fmt_match (enc_name or_) offer o_fmt_idx preanswer a_fmt_idx
                  ALLOW_MODIFY_ANSWER in
              if bool_decide (status = PJ_SUCCESS) then Some (Some f, preanswer)
              else find_dynamic offer i or_ is_codec (S j) l preanswer
            else Some (Some f, preanswer)
          else find_dynamic offer i or_ is_codec (S j) l preanswer
      end
  end.

(** One format [f], the [i]-th, of the master. *)
Definition match_fmt (offer : pjmedia_sdp_media) (i : nat) (f : list Z)
    (st : match_state) (preanswer : pjmedia_sdp_media) :
    option (pj_status * match_state * pjmedia_sdp_media) :=
  let slave_fmt := fmt (slave offer preanswer) in
  if pj_isdigit (at0 f) then
    let pt := u32 (pj_strtoul f) in
    if pt <? 96 then
      let st := st <| master_has_codec := true |> in
      if negb answer_with_multiple_codecs && found_matching_codec st
      then Some (PJ_SUCCESS, st, preanswer)
      else
        match find_static pt slave_fmt with
        | Some g =>
            Some (PJ_SUCCESS,
                  st <| found_matching_codec := true |> <| pts ::= fun l => l ++ [(g, g)] |>
                     <| clockrate ::= note_clockrate 8000 |>, preanswer)
        | None => Some (PJ_SUCCESS, st, preanswer)
        end
    else
      o ← find_rtpmap (master offer preanswer) f;
      match o with
      | None => Some (PJMEDIA_SDP_EMISSINGRTPMAP, st, preanswer)
      | Some or_ =>
          let is_codec := negb (pj_stricmp2 (enc_name or_) "telephone-event" =? 0) in
          let st := if is_codec then st <| master_has_codec := true |> else st in
          if is_codec && negb answer_with_multiple_codecs && found_matching_codec st
          then Some (PJ_SUCCESS, st, preanswer)
          else
            '(g, preanswer) ← find_dynamic offer i or_ is_codec 0 slave_fmt preanswer;
            match (g : option (list Z)) with
            | None => Some (PJ_SUCCESS, st, preanswer)
            | Some g =>
                let st :=
                  if is_codec
                  then st <| found_matching_codec := true |>
                          <| clockrate ::= note_clockrate (clock_rate or_) |>
                  else st <| found_matching_telephone_event := true |> in
                Some (PJ_SUCCESS, st <| pts ::= fun l => l ++ [pt_pair f g] |>, preanswer)
            end
      end
  else
    let st := st <| master_has_other := true |> in
    if found_matching_other st then Some (PJ_SUCCESS, st, preanswer)
    else
      match list_find (fun g => pj_strcmp f g =? 0) slave_fmt with
      | Some (_, g) =>
          Some (PJ_SUCCESS,
                st <| found_matching_other := true |> <| pts ::= fun l => l ++ [pt_pair f g] |>,
                preanswer)
      | None => Some (PJ_SUCCESS, st, preanswer)
      end.

Fixpoint match_fmts (offer : pjmedia_sdp_media) (i : nat) (l : list (list Z))
    (st : match_state) (preanswer : pjmedia_sdp_media) :
    option (pj_status * match_state * pjmedia_sdp_media) :=
  match l with
  | [] => Some (PJ_SUCCESS, st, preanswer)
  | f :: l =>
      '(status, st, preanswer) ← match_fmt offer i f st preanswer;
      if bool_decide (status = PJ_SUCCESS) then match_fmts offer (S i) l st preanswer
      else Some (status, st, preanswer)
  end.
End MatchOffer.

(** Removes the telephone events whose clock rate is none of the codecs': what is
    left, the first pair met, and the number that match. *)
Fixpoint televent_loop (preanswer : pjmedia_sdp_media) (clockrate : list Z)
    (pts : list (list Z * list Z)) (first_televent : list Z * list Z) (matched_cnt : Z) :
    option (list (list Z * list Z) * (list Z * list Z) * Z) :=
  match pts with
  | [] => Some ([], first_televent, matched_cnt)
  | (o, a) :: pts =>
      if negb (pj_isdigit (at0 a)) || (pj_strtol a <? 96) then
        '(l, first, n) ← televent_loop preanswer clockrate pts first_televent matched_cnt;
        Some ((o, a) :: l, first, n)
      else
        r ← find_rtpmap preanswer a;
        r ← (r : option pjmedia_sdp_rtpmap);
        if negb (pj_stricmp2 (enc_name r) "telephone-event" =? 0) then
          '(l, first, n) ← televent_loop preanswer clockrate pts first_televent matched_cnt;
          Some ((o, a) :: l, first, n)
        else
          let first := if zlen (first_televent.1) =? 0 then (o, a) else first_televent in
          if existsb (fun c => clock_rate r =? c) clockrate then
            '(l, first, n) ← televent_loop preanswer clockrate pts first (matched_cnt + 1);
            Some ((o, a) :: l, first, n)
          else televent_loop preanswer clockrate pts first matched_cnt
  end.
Definition remove_televents (preanswer : pjmedia_sdp_media) (clockrate : list Z)
    (pts : list (list Z * list Z)) : option (list (list Z * list Z)) :=
  '(pts, first, matched_cnt) ← televent_loop preanswer clockrate pts ([], []) 0;
  if matched_cnt =? 0 then
    if zlen pts >=? PJMEDIA_MAX_SDP_FMT then None else Some (pts ++ [first])
  else Some pts.

(** [str_swap] *)
Definition list_swap {A} (i j : nat) (l : list A) : option (list A) :=
  x ← l !! i; y ← l !! j; Some (<[j := x]> (<[i := y]> l)).

(** The formats of the answer are put in the order of [pt_answer]. *)
Fixpoint reorder_fmts (i : nat) (pt_answer : list (list Z)) (l : list (list Z)) :
    option (list (list Z)) :=
  match pt_answer with
  | [] => Some l
  | f :: pt_answer =>
      l ← list_swap i (find_fmt f i (drop i l)) l;
      reorder_fmts (S i) pt_answer l
  end.

Definition match_offer (prefer_remote_codec_order answer_with_multiple_codecs : bool)
    (offer preanswer : pjmedia_sdp_media) (preanswer_conn : option pjmedia_sdp_conn) :
    option (pj_status * option pjmedia_sdp_media * pjmedia_sdp_media) :=
  if port offer =? 0 then
    Some (PJ_SUCCESS, Some (sdp_media_clone_deactivate offer preanswer preanswer_conn), preanswer)
  else if port preanswer =? 0 then Some (PJ_SUCCESS, Some preanswer, preanswer)
  else
    '(status, st, preanswer) ←
      match_fmts prefer_remote_codec_order answer_with_multiple_codecs offer 0
        (fmt (master prefer_remote_codec_order offer preanswer))
        (MatchState false false false false false [] []) preanswer;
    if negb (bool_decide (status = PJ_SUCCESS)) then Some (status, None, preanswer)
    else if master_has_codec st && negb (found_matching_codec st)
    then Some (PJMEDIA_SDPNEG_NOANSCODEC, None, preanswer)
    else if master_has_other st && negb (found_matching_other st)
    then Some (PJMEDIA_SDPNEG_NOANSUNKNOWN, None, preanswer)
    else
      pts ← (if found_matching_telephone_event st
             then remove_televents preanswer (clockrate st) (pts st) else Some (pts st));
      let n := length pts in
      fmts ← reorder_fmts 0 pts.*2 (fmt preanswer);
      let answer := preanswer <| fmt := fmts |> in
      let answer := foldl remove_fmt_attrs answer (drop n fmts) in
      let answer := answer <| fmt := take n fmts |> in
      answer ← apply_answer_symmetric_pt answer pts;
      Some (PJ_SUCCESS, Some (update_media_direction offer answer), preanswer).

(** One line of the offer: the media of the initial description, with the flags
    [media_used], are tried in order. *)
Fixpoint answer_media (prefer_remote_codec_order answer_with_multiple_codecs : bool)
    (om : pjmedia_sdp_media) (initial_conn : option pjmedia_sdp_conn)
    (ims : list (pjmedia_sdp_media * bool)) (status : pj_status) :
    option (option pjmedia_sdp_media * list (pjmedia_sdp_media * bool) * pj_status) :=
  match ims with
  | [] => Some (None, [], status)
  | (im, used) :: ims =>
      if (pj_strcmp (media_type om) (media_type im) =? 0) &&
         (pj_strcmp (transport om) (transport im) =? 0) && negb used
      then
        '(status2, am, im) ←
          match_offer prefer_remote_codec_order answer_with_multiple_codecs om im initial_conn;
        if bool_decide (status2 = PJ_SUCCESS) then Some (am, (im, true) :: ims, status)
        else
          '(am, ims, status) ← answer_media prefer_remote_codec_order answer_with_multiple_codecs
                                 om initial_conn ims status2;
          Some (am, (im, used) :: ims, status)
      else
        '(am, ims, status) ← answer_media prefer_remote_codec_order answer_with_multiple_codecs
                               om initial_conn ims status;
        Some (am, (im, used) :: ims, status)
  end.

Fixpoint create_answer_loop (prefer_remote_codec_order answer_with_multiple_codecs : bool)
    (initial_conn : option pjmedia_sdp_conn) (oms : list pjmedia_sdp_media)
    (ims : list (pjmedia_sdp_media * bool)) (status : pj_status) (has_active : bool) :
    option (pj_status * list pjmedia_sdp_media * bool) :=
  match oms with
  | [] => Some (status, [], has_active)
  | om :: oms =>
      '(am, ims, status) ← answer_media prefer_remote_codec_order answer_with_multiple_codecs
                             om initial_conn ims status;
      let am := default (sdp_media_clone_deactivate om om initial_conn) am in
      '(status, ams, has_active) ←
        create_answer_loop prefer_remote_codec_order answer_with_multiple_codecs initial_conn
          oms ims status (has_active || negb (port am =? 0));
      Some (status, am :: ams, has_active)
  end.

(** The status starts as [PJ_SUCCESS], that of the validation. *)
Definition create_answer (prefer_remote_codec_order answer_with_multiple_codecs : bool)
    (initial : option pjmedia_sdp_session) (offer : pjmedia_sdp_session) :
    option (pj_status * option pjmedia_sdp_session) :=
  let status := pjmedia_sdp_validate offer in
  if negb (bool_decide (status = PJ_SUCCESS)) then Some (status, None)
  else
    match initial with
    | None => Some (PJ_ENOMEM, None)
    | Some initial =>
        '(status, ams, has_active) ←
          create_answer_loop prefer_remote_codec_order answer_with_multiple_codecs
            (sess_conn initial) (media offer) ((fun m => (m, false)) <$> media initial)
            status false;
        Some (if has_active : bool then PJ_SUCCESS else status, Some (initial <| media := ams |>))
    end.

(** ** The negotiator *)

Inductive pjmedia_sdp_neg_state :=
  | PJMEDIA_SDP_NEG_STATE_NULL
  | PJMEDIA_SDP_NEG_STATE_LOCAL_OFFER
  | PJMEDIA_SDP_NEG_STATE_REMOTE_OFFER
  | PJMEDIA_SDP_NEG_STATE_WAIT_NEGO
  | PJMEDIA_SDP_NEG_STATE_DONE.
#[export] Instance neg_state_eq_dec : EqDecision pjmedia_sdp_neg_state.
Proof. solve_decision. Defined.

Record pjmedia_sdp_neg := SdpNeg {
  state : pjmedia_sdp_neg_state;
  prefer_remote_codec_order : bool;
  answer_with_multiple_codecs : bool;
  has_remote_answer : bool;
  answer_was_remote : bool;
  initial_sdp : option pjmedia_sdp_session;
  initial_sdp_tmp : option pjmedia_sdp_session;
  active_local_sdp : option pjmedia_sdp_session;
  active_remote_sdp : option pjmedia_sdp_session;
  neg_local_sdp : option pjmedia_sdp_session;
  neg_remote_sdp : option pjmedia_sdp_session }.
#[export] Instance eta_neg : Eta pjmedia_sdp_neg := fun n =>
  SdpNeg (state n) (prefer_remote_codec_order n) (answer_with_multiple_codecs n)
    (has_remote_answer n) (answer_was_remote n) (initial_sdp n) (initial_sdp_tmp n)
    (active_local_sdp n) (active_remote_sdp n) (neg_local_sdp n) (neg_remote_sdp n).

(** [PJ_POOL_ZALLOC_T] and the default options. *)
Definition neg_alloc : pjmedia_sdp_neg :=
  SdpNeg PJMEDIA_SDP_NEG_STATE_NULL PJMEDIA_SDP_NEG_PREFER_REMOTE_CODEC_ORDER
    PJMEDIA_SDP_NEG_ANSWER_MULTIPLE_CODECS false false None None None None None None.

Definition pjmedia_sdp_neg_create_w_local_offer (local : pjmedia_sdp_session) :
    pj_status * option pjmedia_sdp_neg :=
  let status := pjmedia_sdp_validate local in
  if negb (bool_decide (status = PJ_SUCCESS)) then (status, None)
  else (PJ_SUCCESS, Some (neg_alloc
          <| state := PJMEDIA_SDP_NEG_STATE_LOCAL_OFFER |>
          <| initial_sdp := Some local |> <| neg_local_sdp := Some local |>)).

Definition pjmedia_sdp_neg_create_w_remote_offer (initial : option pjmedia_sdp_session)
    (remote : pjmedia_sdp_session) : pj_status * option pjmedia_sdp_neg :=
  let status := pjmedia_sdp_validate2 remote false in
  if negb (bool_decide (status = PJ_SUCCESS)) then (status, None)
  else
    let neg := neg_alloc <| neg_remote_sdp := Some remote |> in
    match initial with
    | Some init =>
        let status := pjmedia_sdp_validate init in
        if negb (bool_decide (status = PJ_SUCCESS)) then (status, None)
        else (PJ_SUCCESS, Some (neg <| initial_sdp := initial |> <| neg_local_sdp := initial |>
                                    <| state := PJMEDIA_SDP_NEG_STATE_WAIT_NEGO |>))
    | None => (PJ_SUCCESS, Some (neg <| state := PJMEDIA_SDP_NEG_STATE_REMOTE_OFFER |>))
    end.

Definition pjmedia_sdp_neg_set_prefer_remote_codec_order (neg : pjmedia_sdp_neg) (b : bool) :
    pjmedia_sdp_neg := neg <| prefer_remote_codec_order := b |>.
Definition pjmedia_sdp_neg_set_answer_multiple_codecs (neg : pjmedia_sdp_neg) (b : bool) :
    pjmedia_sdp_neg := neg <| answer_with_multiple_codecs := b |>.

Definition get_sdp (sdp : option pjmedia_sdp_session) (err : pj_status) :
    pj_status * option pjmedia_sdp_session :=
  match sdp with Some s => (PJ_SUCCESS, Some s) | None => (err, None) end.
Definition pjmedia_sdp_neg_get_active_local (neg : pjmedia_sdp_neg) :=
  get_sdp (active_local_sdp neg) PJMEDIA_SDPNEG_ENOACTIVE.
Definition pjmedia_sdp_neg_get_active_remote (neg : pjmedia_sdp_neg) :=
  get_sdp (active_remote_sdp neg) PJMEDIA_SDPNEG_ENOACTIVE.
Definition pjmedia_sdp_neg_get_neg_remote (neg : pjmedia_sdp_neg) :=
  get_sdp (neg_remote_sdp neg) PJMEDIA_SDPNEG_ENONEG.
Definition pjmedia_sdp_neg_get_neg_local (neg : pjmedia_sdp_neg) :=
  get_sdp (neg_local_sdp neg) PJMEDIA_SDPNEG_ENONEG.

Definition in_state (neg : pjmedia_sdp_neg) (s : pjmedia_sdp_neg_state) : bool :=
  bool_decide (state neg = s).

(** [pj_array_insert] of an element at [pos], over the array's slots from [pos] to
    [count]: the element that was at [count] is lost. *)
Definition array_insert {A} (count pos : nat) (v : A) (l : list A) : list A :=
  take pos l ++ v :: (drop pos (take count l)) ++ drop (S count) l.

(** The index of the first media, from [ni] on, of a type. *)
Fixpoint find_media (ni : nat) (type : list Z) (l : list pjmedia_sdp_media) :
    option (nat * pjmedia_sdp_media) :=
  match l with
  | [] => None
  | m :: l => if pj_strcmp (media_type m) type =? 0 then Some (ni, m)
              else find_media (S ni) type l
  end.

(** The media lines of the new offer are put in the order of the old ones, and
    the lines it lacks are added, disabled.  A line past the array is
    [None]. *)
Fixpoint fix_offer_media (local_conn : option pjmedia_sdp_conn) (oi : nat)
    (oms nms : list pjmedia_sdp_media) : option (list pjmedia_sdp_media) :=
  match oms with
  | [] => Some nms
  | om :: oms =>
      match find_media oi (media_type om) (drop oi nms) with
      | Some (ni, nm) =>
          fix_offer_media local_conn (S oi) oms
            (if bool_decide (ni = oi) then nms else array_insert ni oi nm nms)
      | None =>
          if zlen nms >=? PJMEDIA_MAX_SDP_MEDIA then None
          else fix_offer_media local_conn (S oi) oms
                 (array_insert (length nms) oi (sdp_media_clone_deactivate om om local_conn) nms)
      end
  end.

(** With media changes allowed, only the missing lines at the end are added. *)
Definition append_offer_media (local_conn : option pjmedia_sdp_conn)
    (oms nms : list pjmedia_sdp_media) : list pjmedia_sdp_media :=
  nms ++ ((fun om => sdp_media_clone_deactivate om om local_conn) <$> drop (length nms) oms).

Definition pjmedia_sdp_neg_modify_local_offer2 (neg : pjmedia_sdp_neg) (flags : Z)
    (local : pjmedia_sdp_session) : option (pj_status * pjmedia_sdp_neg) :=
  if negb (in_state neg PJMEDIA_SDP_NEG_STATE_DONE) then Some (PJMEDIA_SDPNEG_EINSTATE, neg)
  else
    let status := pjmedia_sdp_validate local in
    if negb (bool_decide (status = PJ_SUCCESS)) then Some (status, neg)
    else
      old_offer ← active_local_sdp neg;
      nms ← (if Z.land flags PJMEDIA_SDP_NEG_ALLOW_MEDIA_CHANGE =? 0
             then fix_offer_media (sess_conn local) 0 (media old_offer) (media local)
             else Some (append_offer_media (sess_conn local) (media old_offer) (media local)));
      let new_offer :=
        local <| origin := (origin old_offer) <| version ::= fun v => u32 (v + 1) |> |>
              <| media := nms |> in
      Some (PJ_SUCCESS,
            neg <| state := PJMEDIA_SDP_NEG_STATE_LOCAL_OFFER |>
                <| initial_sdp_tmp := initial_sdp neg |>
                <| initial_sdp := Some new_offer |>
                <| neg_local_sdp := Some new_offer |>).
Definition pjmedia_sdp_neg_modify_local_offer (neg : pjmedia_sdp_neg)
    (local : pjmedia_sdp_session) : option (pj_status * pjmedia_sdp_neg) :=
  pjmedia_sdp_neg_modify_local_offer2 neg 0 local.

(** The status, the offer to send, and the negotiator. *)
Definition pjmedia_sdp_neg_send_local_offer (neg : pjmedia_sdp_neg) :
    pj_status * option pjmedia_sdp_session * pjmedia_sdp_neg :=
  if in_state neg PJMEDIA_SDP_NEG_STATE_DONE then
    match active_local_sdp neg with
    | None => (PJMEDIA_SDPNEG_ENOACTIVE, None, neg)
    | Some active =>
        let neg := match initial_sdp neg with
                   | Some _ => neg <| initial_sdp_tmp := initial_sdp neg |>
                   | None => neg
                   end in
        (PJ_SUCCESS, Some active,
         neg <| state := PJMEDIA_SDP_NEG_STATE_LOCAL_OFFER |> <| neg_local_sdp := Some active |>)
    end
  else if in_state neg PJMEDIA_SDP_NEG_STATE_LOCAL_OFFER
  then (PJ_SUCCESS, neg_local_sdp neg, neg)
  else (PJMEDIA_SDPNEG_EINSTATE, None, neg).

Definition pjmedia_sdp_neg_set_remote_answer (neg : pjmedia_sdp_neg)
    (remote : pjmedia_sdp_session) : pj_status * pjmedia_sdp_neg :=
  if negb (in_state neg PJMEDIA_SDP_NEG_STATE_LOCAL_OFFER) then (PJMEDIA_SDPNEG_EINSTATE, neg)
  else (PJ_SUCCESS, neg <| state := PJMEDIA_SDP_NEG_STATE_WAIT_NEGO |>
                        <| has_remote_answer := true |> <| neg_remote_sdp := Some remote |>).

Definition pjmedia_sdp_neg_set_remote_offer (neg : pjmedia_sdp_neg)
    (remote : pjmedia_sdp_session) : pj_status * pjmedia_sdp_neg :=
  if negb (in_state neg PJMEDIA_SDP_NEG_STATE_DONE) then (PJMEDIA_SDPNEG_EINSTATE, neg)
  else (PJ_SUCCESS, neg <| state := PJMEDIA_SDP_NEG_STATE_REMOTE_OFFER |>
                        <| neg_remote_sdp := Some remote |>).

(** The argument is checked not to be null: the branch for a null one is never
    taken. *)
Definition pjmedia_sdp_neg_set_local_answer (neg : pjmedia_sdp_neg)
    (local : pjmedia_sdp_session) : pj_status * pjmedia_sdp_neg :=
  if negb (in_state neg PJMEDIA_SDP_NEG_STATE_REMOTE_OFFER ||
           in_state neg PJMEDIA_SDP_NEG_STATE_WAIT_NEGO)
  then (PJMEDIA_SDPNEG_EINSTATE, neg)
  else
    let neg := neg <| state := PJMEDIA_SDP_NEG_STATE_WAIT_NEGO |> in
    match initial_sdp neg with
    | Some initial =>
        (PJ_SUCCESS,
         neg <| neg_local_sdp :=
                  Some (local <| origin ::= fun o => o <| origin_id := origin_id (origin initial) |> |>) |>
             <| initial_sdp_tmp := Some initial |>)
    | None =>
        (PJ_SUCCESS, neg <| neg_local_sdp := Some local |> <| initial_sdp := Some local |>)
    end.

Definition pjmedia_sdp_neg_has_local_answer (neg : pjmedia_sdp_neg) : bool :=
  negb (has_remote_answer neg).

(** What [cancel_offer] and [negotiate] end with. *)
Definition clear_temporary (neg : pjmedia_sdp_neg) : pjmedia_sdp_neg :=
  neg <| initial_sdp_tmp := None |> <| neg_local_sdp := None |> <| neg_remote_sdp := None |>
      <| has_remote_answer := false |>.

Definition bump_version (s : pjmedia_sdp_session) : pjmedia_sdp_session :=
  s <| origin ::= fun o => o <| version ::= fun v => u32 (v + 1) |> |>.

Definition pjmedia_sdp_neg_cancel_offer (neg : pjmedia_sdp_neg) : pj_status * pjmedia_sdp_neg :=
  let local := in_state neg PJMEDIA_SDP_NEG_STATE_LOCAL_OFFER in
  if negb (local || in_state neg PJMEDIA_SDP_NEG_STATE_REMOTE_OFFER)
  then (PJMEDIA_SDPNEG_EINSTATE, neg)
  else
    let neg := if local then neg <| active_local_sdp ::= fmap bump_version |>
                                 <| initial_sdp := initial_sdp_tmp neg |>
               else neg in
    (PJ_SUCCESS, clear_temporary neg <| state := PJMEDIA_SDP_NEG_STATE_DONE |>).

Definition pjmedia_sdp_neg_negotiate (neg : pjmedia_sdp_neg) (allow_asym : bool) :
    option (pj_status * pjmedia_sdp_neg) :=
  if negb (in_state neg PJMEDIA_SDP_NEG_STATE_WAIT_NEGO)
  then Some (PJMEDIA_SDPNEG_EINSTATE, neg)
  else
    match neg_remote_sdp neg with
    | None => Some (PJ_EBUG, neg)
    | Some remote =>
        '(status, neg) ←
          (if has_remote_answer neg then
             match neg_local_sdp neg with
             | None => Some (PJ_EINVAL, neg)
             | Some local =>
                 '(status, active, answer) ← process_answer local remote allow_asym;
                 Some (status,
                       if bool_decide (status = PJ_SUCCESS)
                       then neg <| active_local_sdp := Some active |>
                                <| active_remote_sdp := Some answer |>
                       else neg)
             end
           else
             '(status, answer) ←
               create_answer (prefer_remote_codec_order neg) (answer_with_multiple_codecs neg)
                 (neg_local_sdp neg) remote;
             if bool_decide (status = PJ_SUCCESS) then
               answer ← (answer : option pjmedia_sdp_session);
               base ← match active_local_sdp neg with
                      | Some active => Some active
                      | None => initial_sdp neg
                      end;
               Some (status,
                     neg <| active_local_sdp :=
                              Some (answer <| origin ::= fun o =>
                                      o <| version := u32 (version (origin base) + 1) |> |>) |>
                         <| active_remote_sdp := Some remote |>)
             else Some (status, neg));
        let neg := neg <| state := PJMEDIA_SDP_NEG_STATE_DONE |>
                       <| answer_was_remote := has_remote_answer neg |> in
        let neg := if bool_decide (status = PJ_SUCCESS) then neg
                   else neg <| initial_sdp := initial_sdp_tmp neg |> in
        Some (status, clear_temporary neg)
    end.
End Neg.
