(* ===== verification/SdpNegProps.v ===== *)
(** * Properties of SDP negotiation

    What the answers and the updated offers of SdpNeg look like: the codecs and the
    directions of their lines, and which lines are left active. *)

From stdpp Require Import list.
From Stdlib Require Import Strings.String Sorting.Sorted.
From S2P Require Import Prelude PjString Scanner Sdp SdpNeg.
Set Warnings "-clear-no-such-hyp".
Open Scope string_scope.
Open Scope list_scope.
Open Scope Z_scope.

(** ** Lemmas on strings and attributes *)

(** ** Examples

    The descriptions that the witnesses use: no format callbacks, and one audio
    line each. *)

Definition no_callbacks : FmtMatchCb :=
  {| fmt_match_cb := []; fmt_match_run _ _ _ answer _ _ := (PJ_SUCCESS, media_attr answer) |}.

Definition ex_attr (name value : string) : pjmedia_sdp_attr := SdpAttr (pj_str name) (pj_str value).
Definition ex_audio (p : Z) (fmts : list string) (attr : list pjmedia_sdp_attr) : pjmedia_sdp_media :=
  SdpMedia (pj_str "audio") p 0 (pj_str "RTP/AVP") (pj_str <$> fmts) None [] attr.
Definition ex_session (ms : list pjmedia_sdp_media) : pjmedia_sdp_session :=
  SdpSession (SdpOrigin (pj_str "-") 1 1 (pj_str "IN") (pj_str "IP4") (pj_str "10.0.0.1"))
    (pj_str "call") (Some (SdpConn (pj_str "IN") (pj_str "IP4") (pj_str "10.0.0.1"))) [] 0 0 [] ms.

(** An offer of Opus, PCMU and telephone events, sending only; and a local
    description with PCMU, Speex and telephone events under other numbers. *)
Definition ex_offer : pjmedia_sdp_session :=
  ex_session [ex_audio 4000 ["96"; "0"; "101"]
    [ex_attr "rtpmap" "96 opus/48000/2"; ex_attr "rtpmap" "101 telephone-event/8000";
     ex_attr "sendonly" ""]].
Definition ex_local : pjmedia_sdp_session :=
  ex_session [ex_audio 5000 ["0"; "97"; "120"]
    [ex_attr "rtpmap" "97 speex/8000"; ex_attr "rtpmap" "120 telephone-event/8000";
     ex_attr "ptime" "20"]].
Definition ex_answer : pjmedia_sdp_session :=
  ex_session [ex_audio 6000 ["101"; "0"]
    [ex_attr "rtpmap" "101 telephone-event/8000"; ex_attr "recvonly" ""]].

(** ** What is kept of a media line *)

(** Everything but the formats and the attributes. *)
Definition line_of (m : pjmedia_sdp_media) :=
  (media_type m, port m, port_count m, transport m, media_conn m, media_bandw m).

Lemma line_of_attr m l : line_of (m <| media_attr := l |>) = line_of m.
Proof. done. Qed.
Lemma media_attr_attr m l : media_attr (m <| media_attr := l |>) = l.
Proof. done. Qed.
Lemma line_of_fmt m g : line_of (m <| fmt ::= g |>) = line_of m.
Proof. done. Qed.

Lemma remove_fmt_attrs_line m f :
  line_of (remove_fmt_attrs m f) = line_of m /\ fmt (remove_fmt_attrs m f) = fmt m.
Proof. unfold remove_fmt_attrs. repeat case_match; done. Qed.

Lemma foldl_keeps {A B C} (p : A -> C) (g : A -> B -> A) l a :
  (forall a b, p (g a b) = p a) -> p (foldl g a l) = p a.
Proof. intros Hg. revert a. induction l as [|b l IH]; intros a; [done|]. cbn. by rewrite IH. Qed.

Lemma remove_fmts_attrs_line l m : line_of (foldl remove_fmt_attrs m l) = line_of m.
Proof. apply foldl_keeps. intros. apply remove_fmt_attrs_line. Qed.
Lemma add_attrs_line l m :
  line_of (foldl pjmedia_sdp_media_add_attr m l) = line_of m /\
  fmt (foldl pjmedia_sdp_media_add_attr m l) = fmt m.
Proof. split; by apply foldl_keeps. Qed.

Lemma update_media_direction_line r m :
  line_of (update_media_direction r m) = line_of m /\ fmt (update_media_direction r m) = fmt m.
Proof. unfold update_media_direction, pjmedia_sdp_media_add_attr. repeat case_match; done. Qed.

Lemma clone_deactivate_line m l c :
  let m' := sdp_media_clone_deactivate m l c in
  media_type m' = media_type m /\ transport m' = transport m /\ port m' = 0 /\ fmt m' = fmt m.
Proof. unfold sdp_media_clone_deactivate. cbn zeta. repeat case_match; done. Qed.

Lemma take_attr_line name o n m tmp m' tmp' : take_attr name o n m tmp = Some (m', tmp') ->
  line_of m' = line_of m /\ fmt m' = fmt m.
Proof.
  unfold take_attr. destruct (pjmedia_sdp_media_find_attr2 _ _ _) as [[i a]|]; [|by intros [= <- <-]].
  destruct (rewrite_pt _ _ _) as [v|]; [|done]. by intros [= <- <-].
Qed.

(** ** The formats of an answer *)

(** Rewriting the payload types leaves the offer's formats. *)
Lemma symmetric_pt_loop_spec ps pre m tmp m' tmp' :
  symmetric_pt_loop (length pre) ps m tmp = Some (m', tmp') -> fmt m = pre ++ ps.*2 ->
  line_of m' = line_of m /\ fmt m' = pre ++ ps.*1.
Proof.
  revert pre m tmp. induction ps as [|[o a] ps IH]; intros pre m tmp Hloop Hf; cbn in *.
  { by injection Hloop as <- <-. }
  rewrite strcmp_eqb in Hloop. case_bool_decide as Heq.
  - subst o. destruct (IH (pre ++ [a]) m tmp) as [-> ->].
    + rewrite length_app, Nat.add_comm. exact Hloop.
    + by rewrite Hf, <- app_assoc.
    + by rewrite <- app_assoc.
  - set (m1 := m <| fmt ::= _ |>) in Hloop.
    destruct (take_attr "rtpmap" a o m1 tmp) as [[m2 tmp2]|] eqn:H1; [|done]. cbn in Hloop.
    destruct (take_attr "fmtp" a o m2 tmp2) as [[m3 tmp3]|] eqn:H2; [|done]. cbn in Hloop.
    apply take_attr_line in H1 as [Hl1 Hf1], H2 as [Hl2 Hf2].
    destruct (IH (pre ++ [o]) m3 tmp3) as [-> ->].
    + rewrite length_app, Nat.add_comm. exact Hloop.
    + rewrite Hf2, Hf1. change (fmt m1) with (<[length pre := o]> (fmt m)).
      rewrite Hf, insert_app_r_alt, Nat.sub_diag by lia. by rewrite <- app_assoc.
    + rewrite Hl2, Hl1, <- app_assoc. done.
Qed.

Lemma apply_answer_symmetric_pt_spec m ps m' :
  apply_answer_symmetric_pt m ps = Some m' -> fmt m = ps.*2 ->
  line_of m' = line_of m /\ fmt m' = ps.*1.
Proof.
  unfold apply_answer_symmetric_pt. intros Ha Hf.
  destruct (symmetric_pt_loop 0 ps m []) as [[m1 tmp]|] eqn:Hl; [|done]. injection Ha as <-.
  destruct (add_attrs_line tmp m1) as [-> ->]. by eapply (symmetric_pt_loop_spec ps [] m []).
Qed.

Lemma find_fmt_spec f j l :
  (exists k, find_fmt f j l = (j + k)%nat /\ l !! k = Some f) \/
  find_fmt f j l = (j + length l)%nat /\ f ∉ l.
Proof.
  revert j. induction l as [|g l IH]; intros j; cbn; [right; split; [lia|apply not_elem_of_nil]|].
  rewrite strcmp_eqb. case_bool_decide as Heq.
  - subst g. left. exists 0%nat. split; [lia|done].
  - destruct (IH (S j)) as [(k & -> & Hk)|[-> Hn]]; [left; exists (S k); split; [lia|done]|right].
    split; [lia|]. by apply not_elem_of_cons.
Qed.

Lemma list_swap_spec {A} (P : A -> Prop) i j (l : list A) l' :
  list_swap i j l = Some l' -> (i <= j)%nat ->
  exists y, l !! j = Some y /\ l' !! i = Some y /\ take i l' = take i l /\ (Forall P l -> Forall P l').
Proof.
  unfold list_swap. intros Hs Hij. destruct (l !! i) as [x|] eqn:Hi; [|done].
  destruct (l !! j) as [y|] eqn:Hj; [|done]. cbn in Hs. injection Hs as <-.
  pose proof (lookup_lt_Some _ _ _ Hi). pose proof (lookup_lt_Some _ _ _ Hj).
  exists y. split_and!; [done| | |].
  - destruct (decide (i = j)) as [<-|Hne].
    + rewrite Hi in Hj. injection Hj as ->. rewrite list_lookup_insert_eq; [done|].
      by rewrite length_insert.
    + rewrite list_lookup_insert_ne by done. by apply list_lookup_insert_eq.
  - rewrite !take_insert_ge by lia. done.
  - intros HP. repeat apply Forall_insert; [done|..]; by eapply Forall_lookup_1.
Qed.

(** The formats chosen come first, in their order. *)
Lemma reorder_fmts_spec (P : list Z -> Prop) ps pre l l' :
  reorder_fmts (length pre) ps l = Some l' -> take (length pre) l = pre -> Forall P l ->
  take (length pre + length ps) l' = pre ++ ps /\ Forall P ps.
Proof.
  revert pre l. induction ps as [|f ps IH]; intros pre l Hr Hpre HP; cbn [reorder_fmts] in Hr.
  { injection Hr as <-. by rewrite Nat.add_0_r, app_nil_r. }
  destruct (list_swap _ _ _) as [l1|] eqn:Hs; [|done]. cbn in Hr.
  pose proof (find_fmt_spec f (length pre) (drop (length pre) l)) as Hf.
  apply (list_swap_spec P) in Hs as (y & Hy & Hi & Ht & HP1);
    [|destruct Hf as [(k & -> & _)|[-> _]]; lia].
  destruct Hf as [(k & Hk & Hfk)|[Hk _]]; rewrite Hk in Hy.
  - rewrite lookup_drop in Hfk. rewrite Hfk in Hy. injection Hy as <-.
    destruct (IH (pre ++ [f]) l1) as [Hl HPs].
    + rewrite length_app, Nat.add_comm. exact Hr.
    + rewrite length_app, Nat.add_comm. cbn [length Nat.add].
      by rewrite (take_S_r _ _ _ Hi), Ht, Hpre.
    + by apply HP1.
    + rewrite length_app in Hl. cbn [length] in *. rewrite <- app_assoc in Hl.
      split; [replace (length pre + S (length ps))%nat with (length pre + 1 + length ps)%nat by lia;
              exact Hl|].
      constructor; [exact (Forall_lookup_1 _ _ _ _ HP Hfk)|done].
  - apply lookup_lt_Some in Hy. rewrite length_drop in Hy. lia.
Qed.

(** ** Codecs *)

(** Two formats with the same static payload type. *)
Definition same_static (f g : list Z) : Prop :=
  pj_isdigit (at0 f) = true /\ pj_isdigit (at0 g) = true /\
  u32 (pj_strtoul f) = u32 (pj_strtoul g) /\ u32 (pj_strtoul f) < 96.

(** No channel count, or "1". *)
Definition one_channel (s : list Z) : Prop := s = [] \/ s = [49].

(** Two [rtpmap]s name one codec: the encoding name in any case, the clock rate,
    and the channels, where none given is one. *)
Definition same_rtpmap (r s : pjmedia_sdp_rtpmap) : Prop :=
  pj_stricmp (enc_name r) (enc_name s) = 0 /\ clock_rate r = clock_rate s /\
  (pj_stricmp (param r) (param s) = 0 \/ one_channel (param r) /\ one_channel (param s)).

Definition same_dynamic (m : pjmedia_sdp_media) (f : list Z) (n : pjmedia_sdp_media) (g : list Z) :
    Prop :=
  exists r s, find_rtpmap m f = Some (Some r) /\ find_rtpmap n g = Some (Some s) /\ same_rtpmap r s.

Definition same_codec (m : pjmedia_sdp_media) (f : list Z) (n : pjmedia_sdp_media) (g : list Z) :
    Prop :=
  f = g /\ pj_isdigit (at0 f) = false \/ same_static f g \/ same_dynamic m f n g.

Lemma strncasecmp_sym n a b : strncasecmp n a b = 0 -> strncasecmp n b a = 0.
Proof.
  unfold strncasecmp. revert a b. induction n as [|n IH]; intros a b; [done|]. cbn.
  rewrite (Z.eqb_sym (pj_tolower (at0 b))). destruct (Z.eqb_spec (pj_tolower (at0 a)) (pj_tolower (at0 b))).
  - assert ((at0 a =? 0) = (at0 b =? 0)) as ->; [|case_match; auto].
    unfold pj_tolower in *. repeat case_match; lia.
  - intros Hs. destruct (Z.sgn_spec (pj_tolower (at0 a) - pj_tolower (at0 b))) as [[]|[[]|[]]]; lia.
Qed.

Lemma stricmp_sym a b : (pj_stricmp a b =? 0) = (pj_stricmp b a =? 0).
Proof.
  assert (forall a b, pj_stricmp a b = 0 -> pj_stricmp b a = 0) as Hs.
  { clear. intros a b. unfold pj_stricmp, str_compare.
    destruct (Z.eqb_spec (zlen a) 0), (Z.eqb_spec (zlen b) 0); try done.
    destruct (Z.ltb_spec (zlen a) (zlen b)), (Z.ltb_spec (zlen b) (zlen a)),
      (Z.eqb_spec (zlen a) (zlen b)), (Z.eqb_spec (zlen b) (zlen a)); try lia; cbn zeta.
    - destruct (_ =? 0) eqn:E; [done|lia].
    - destruct (_ =? 0) eqn:E; [done|lia].
    - unfold zlen in *. replace (length b) with (length a) by lia.
      destruct (Z.eqb_spec (strncasecmp (length a) a b) 0) as [E|E]; [|done].
      apply strncasecmp_sym in E. intros _. by rewrite E. }
  apply eq_bool_prop_intro. rewrite !Is_true_true, !Z.eqb_eq. split; apply Hs.
Qed.

Lemma rtpmap_match_sym r s : rtpmap_match r s = rtpmap_match s r.
Proof.
  unfold rtpmap_match, param_match.
  rewrite (stricmp_sym (enc_name r)), (stricmp_sym (param r)), (Z.eqb_sym (clock_rate r)).
  f_equal. rewrite <- !orb_assoc. f_equal. apply orb_comm.
Qed.

Lemma is_one_spec s : is_one s = true <-> s = [49].
Proof.
  unfold is_one. rewrite andb_true_iff, !Z.eqb_eq. split; [|by intros ->].
  intros [Hl Ha]. destruct s as [|c [|d s]]; unfold zlen in Hl; cbn in *; [lia|by subst|lia].
Qed.

(** The comparison of the code. *)
Lemma rtpmap_match_spec r s : rtpmap_match r s = true <-> same_rtpmap r s.
Proof.
  unfold rtpmap_match, param_match, same_rtpmap, one_channel.
  rewrite !andb_true_iff, !orb_true_iff, !andb_true_iff, !is_one_spec, !Z.eqb_eq, !zlen_0.
  split.
  - intros [[-> ->] [[?|[-> ->]]|[-> ->]]]; auto 8.
  - intros (-> & -> & [?|[[-> | ->] [-> | ->]]]); auto 8.
Qed.

Lemma same_codec_sym m f n g : same_codec m f n g -> same_codec n g m f.
Proof.
  intros [(-> & Hd)|[(Hf & Hg & He & Hl)|(r & s & Hr & Hs & Hm)]].
  - by left.
  - right; left. split_and!; [done..|lia].
  - right; right. exists s, r. by rewrite <- rtpmap_match_spec, rtpmap_match_sym, rtpmap_match_spec.
Qed.

(** ** Matching the formats

    What a format callback promises: it leaves the [rtpmap]s of the answer as they
    are.  (It may change its [fmtp]s.) *)

Class FmtMatchPromise `{FmtMatchCb} := fmt_match_keeps :
  forall cb offer o_idx answer a_idx opt f,
    find_rtpmap (answer <| media_attr := snd (fmt_match_run cb offer o_idx answer a_idx opt) |>) f =
    find_rtpmap answer f.

(** A media line whose attributes may have changed, but for its [rtpmap]s. *)
Definition keeps (m m' : pjmedia_sdp_media) : Prop :=
  line_of m' = line_of m /\ fmt m' = fmt m /\ forall f, find_rtpmap m' f = find_rtpmap m f.

Lemma keeps_refl m : keeps m m.
Proof. done. Qed.
Lemma keeps_trans m1 m2 m3 : keeps m1 m2 -> keeps m2 m3 -> keeps m1 m3.
Proof. intros (? & ? & H1) (? & ? & H2). split_and!; [congruence..|]. intros. by rewrite H2. Qed.

(** A pair of formats chosen by [match_offer]. *)
Definition is_fmt_of (m : pjmedia_sdp_media) (f : list Z) : Prop :=
  exists g, g ∈ fmt m /\ (f = g \/ same_static f g).
Definition pair_ok (offer preanswer : pjmedia_sdp_media) (p : list Z * list Z) : Prop :=
  is_fmt_of offer p.1 /\ is_fmt_of preanswer p.2 /\ same_codec offer p.1 preanswer p.2.

Lemma pair_ok_keeps o m m' p : keeps m m' -> pair_ok o m p <-> pair_ok o m' p.
Proof.
  intros (_ & Hf & Hr). unfold pair_ok, is_fmt_of, same_codec, same_dynamic. rewrite Hf.
  by setoid_rewrite Hr.
Qed.

Section Matching.
Context `{FmtMatchPromise}.

Lemma custom_fmt_match_keeps name offer o answer a opt :
  keeps answer (snd (custom_fmt_match name offer o answer a opt)).
Proof.
  unfold custom_fmt_match. destruct (find_fmt_match_cb _ _) as [[i cb]|]; [|apply keeps_refl].
  pose proof (fmt_match_keeps cb offer o answer a opt) as Hk.
  destruct (fmt_match_run cb offer o answer a opt) as [st attr]. split_and!; [done..|]. apply Hk.
Qed.

Lemma slave_keeps p offer pre pre' f : keeps pre pre' ->
  find_rtpmap (slave p offer pre') f = find_rtpmap (slave p offer pre) f.
Proof. intros (_ & _ & Hk). destruct p; [apply Hk|done]. Qed.

Lemma find_dynamic_spec p offer i or_ is_codec j l pre g pre' :
  find_dynamic p offer i or_ is_codec j l pre = Some (g, pre') ->
  keeps pre pre' /\
  forall g0, g = Some g0 -> g0 ∈ l /\
    exists s, find_rtpmap (slave p offer pre) g0 = Some (Some s) /\ rtpmap_match or_ s = true.
Proof.
  revert j pre. induction l as [|f l IH]; intros j pre Hd; cbn [find_dynamic] in Hd.
  { injection Hd as <- <-. split; [apply keeps_refl|done]. }
  destruct (find_rtpmap _ f) as [[lr|]|] eqn:Hlr; cbn in Hd; [|by apply IH in Hd as [Hk Hg];
    split; [done|]; intros g0 Hg0; destruct (Hg g0 Hg0) as [? ?]; split; [by right|] |done].
  destruct (rtpmap_match or_ lr) eqn:Hm; [|by apply IH in Hd as [Hk Hg];
    split; [done|]; intros g0 Hg0; destruct (Hg g0 Hg0) as [? ?]; split; [by right|] ].
  assert (f ∈ f :: l /\ exists s, find_rtpmap (slave p offer pre) f = Some (Some s) /\
    rtpmap_match or_ s = true) as Hf by (split; [left|eauto]).
  destruct is_codec; [|injection Hd as <- <-; split; [apply keeps_refl|by intros g0 [= <-]] ].
  pose proof (custom_fmt_match_keeps (enc_name or_) offer (if p then i else j) pre
    (if p then j else i) ALLOW_MODIFY_ANSWER) as Hk1.
  destruct (custom_fmt_match _ _ _ _ _ _) as [st pre1]. cbn [snd] in Hk1.
  case_bool_decide; [injection Hd as <- <-; split; [done|by intros g0 [= <-]]|].
  apply IH in Hd as [Hk Hg]. split; [by eapply keeps_trans|].
  intros g0 Hg0. destruct (Hg g0 Hg0) as (? & s & Hs & ?). split; [by right|].
  exists s. split; [|done]. by rewrite <- Hs; symmetry; apply slave_keeps.
Qed.

Lemma same_static_refl_l f g : same_static f g -> same_static g g.
Proof. intros (? & ? & ? & ?). split_and!; [done..|lia]. Qed.

Lemma find_static_spec n l g : find_static n l = Some g ->
  g ∈ l /\ pj_isdigit (at0 g) = true /\ u32 (pj_strtoul g) = n.
Proof.
  unfold find_static. destruct (list_find _ l) as [[i x]|] eqn:Hl; [|done]. intros [= <-].
  apply list_find_Some in Hl as (Hi & Hp & _). apply andb_prop_elim in Hp as [Hn Hd].
  apply Is_true_true in Hn, Hd. split_and!; [by eapply list_elem_of_lookup_2|done|lia].
Qed.

(** The pairs that the formats of the master and the slave make. *)
Lemma static_pair_ok p offer pre f g :
  f ∈ fmt (master p offer pre) -> g ∈ fmt (slave p offer pre) -> same_static f g ->
  pair_ok offer pre (g, g).
Proof.
  intros Hf Hg Hs. pose proof (same_static_refl_l _ _ Hs) as Hgg.
  assert (same_static g f) as Hgf by (destruct Hs as (? & ? & ? & ?); split_and!; [done..|lia]).
  unfold pair_ok, is_fmt_of, same_codec. cbn. destruct p; cbn in *; split_and!; eauto 8.
Qed.

Lemma pt_pair_ok p offer pre f g :
  f ∈ fmt (master p offer pre) -> g ∈ fmt (slave p offer pre) ->
  same_codec (master p offer pre) f (slave p offer pre) g ->
  pair_ok offer pre (pt_pair p f g).
Proof.
  intros Hf Hg Hc. unfold pair_ok, is_fmt_of. destruct p; cbn in *.
  - split_and!; [exists f; auto|exists g; auto|done].
  - split_and!; [exists g; auto|exists f; auto|by apply same_codec_sym].
Qed.

Lemma match_fmt_spec p multi offer i f st pre r st' pre' :
  match_fmt p multi offer i f st pre = Some (r, st', pre') -> f ∈ fmt (master p offer pre) ->
  keeps pre pre' /\
  exists l, pts st' = pts st ++ l /\ Forall (pair_ok offer pre) l.
Proof.
  unfold match_fmt. intros Hm Hf.
  assert (forall st1 : match_state, pts st1 = pts st -> keeps pre pre /\
    exists l, pts st1 = pts st ++ l /\ Forall (pair_ok offer pre) l) as Hnone.
  { intros st1 ->. split; [apply keeps_refl|]. exists []. by rewrite app_nil_r. }
  destruct (pj_isdigit (at0 f)) eqn:Hd.
  - destruct (Z.ltb_spec (u32 (pj_strtoul f)) 96) as [Hpt|Hpt].
    + destruct (_ && _); [injection Hm as <- <- <-; by apply Hnone|].
      destruct (find_static _ _) as [g|] eqn:Hg; [|injection Hm as <- <- <-; by apply Hnone].
      apply find_static_spec in Hg as (Hg & Hdg & Hpg). injection Hm as <- <- <-.
      split; [apply keeps_refl|]. exists [(g, g)]. split; [done|]. constructor; [|constructor].
      apply (static_pair_ok p offer pre f g Hf Hg). split_and!; [done..|lia].
    + destruct (find_rtpmap _ f) as [[or_|]|] eqn:Ho; cbn [mbind option_bind] in Hm; [| |done].
      2: { injection Hm as <- <- <-. by apply Hnone. }
      set (codec := negb _) in Hm.
      destruct (_ && _); [injection Hm as <- <- <-; apply Hnone; by destruct codec|].
      destruct (find_dynamic _ _ _ _ _ _ _ _) as [[g pre1]|] eqn:Hdyn; [|done]. cbn in Hm.
      apply find_dynamic_spec in Hdyn as [Hk Hg].
      destruct g as [g|]; injection Hm as <- <- <-; (split; [done|]);
        [|exists []; rewrite app_nil_r; split; [by destruct codec|constructor] ].
      destruct (Hg g eq_refl) as (Hin & s & Hs & Hms).
      exists [pt_pair p f g]. split; [by destruct codec|]. constructor; [|constructor].
      apply pt_pair_ok; [done..|]. right; right. exists or_, s. by rewrite <- rtpmap_match_spec.
  - destruct (found_matching_other _); [injection Hm as <- <- <-; by apply Hnone|].
    destruct (list_find _ _) as [[j g]|] eqn:Hl; injection Hm as <- <- <-; [|by apply Hnone].
    apply list_find_Some in Hl as (Hj & Hp & _). apply Is_true_true in Hp.
    rewrite strcmp_eqb in Hp. apply bool_decide_eq_true in Hp as <-.
    split; [apply keeps_refl|]. exists [pt_pair p f f]. split; [done|]. constructor; [|constructor].
    apply pt_pair_ok; [done|by eapply list_elem_of_lookup_2|]. by left.
Qed.

Lemma match_fmts_spec p multi offer i l st pre r st' pre' :
  match_fmts p multi offer i l st pre = Some (r, st', pre') ->
  Forall (fun f => f ∈ fmt (master p offer pre)) l ->
  keeps pre pre' /\
  (Forall (pair_ok offer pre) (pts st) -> Forall (pair_ok offer pre) (pts st')).
Proof.
  revert i st pre. induction l as [|f l IH]; intros i st pre Hm Hl; cbn [match_fmts] in Hm.
  { injection Hm as <- <- <-. split; [apply keeps_refl|done]. }
  apply Forall_cons in Hl as [Hf Hl].
  destruct (match_fmt _ _ _ _ _ _ _) as [[[r1 st1] pre1]|] eqn:H1; [|done]. cbn in Hm.
  apply match_fmt_spec in H1 as (Hk & ps & Hps & Hok); [|done].
  assert (Forall (pair_ok offer pre) (pts st) -> Forall (pair_ok offer pre) (pts st1)) as Hst1
    by (rewrite Hps; intros; by apply Forall_app).
  case_bool_decide; [|by injection Hm as <- <- <-].
  apply IH in Hm as [Hk2 Hst2].
  - split; [by eapply keeps_trans|]. intros Hst. specialize (Hst1 Hst).
    eapply Forall_impl; [apply Hst2; eapply Forall_impl; [exact Hst1|]|];
      intros q Hq; by eapply (pair_ok_keeps offer pre pre1).
  - eapply Forall_impl; [exact Hl|]. intros g Hg. destruct Hk as (_ & Hfk & _).
    by destruct p; cbn; rewrite ?Hfk.
Qed.

(** ** One line of the answer *)

Lemma televent_loop_spec (P : list Z * list Z -> Prop) pre cr ps first n l first' n' :
  televent_loop pre cr ps first n = Some (l, first', n') -> P first -> Forall P ps ->
  P first' /\ Forall P l.
Proof.
  revert first n l first' n'. induction ps as [|[o a] ps IH]; intros first n l first' n' Ht Hf Hps;
    cbn [televent_loop] in Ht.
  { injection Ht as <- <- <-. by split. }
  apply Forall_cons in Hps as [Hoa Hps].
  assert (forall first1 n1, P first1 ->
    ('(l, first, n) ← televent_loop pre cr ps first1 n1; Some ((o, a) :: l, first, n))
    = Some (l, first', n') -> P first' /\ Forall P l) as Hkeep.
  { intros first1 n1 Hf1 Hl. destruct (televent_loop pre cr ps first1 n1) as [[[l1 f1] n2]|] eqn:Hrec; [|done].
    cbn in Hl. injection Hl as <- <- <-. apply IH in Hrec as [? ?]; [|done..]. split; [done|by constructor]. }
  destruct (_ || _); [exact (Hkeep _ _ Hf Ht)|].
  destruct (find_rtpmap _ _) as [[r|]|]; cbn [mbind option_bind] in Ht; [|done..].
  destruct (negb _); [exact (Hkeep _ _ Hf Ht)|].
  destruct (existsb _ _); [eapply Hkeep, Ht|eapply IH, Hps; [exact Ht|] ]; by case_match.
Qed.

Lemma remove_televents_spec (P : list Z * list Z -> Prop) pre cr ps l :
  remove_televents pre cr ps = Some l -> Forall P ps ->
  Forall (fun p => P p \/ p = ([], [])) l.
Proof.
  unfold remove_televents. intros Hr Hps.
  destruct (televent_loop _ _ _ _ _) as [[[l1 first] n]|] eqn:Hl; [|done]. cbn in Hr.
  apply (televent_loop_spec (fun p => P p \/ p = ([], []))) in Hl as [Hf Hl1];
    [|by right|by eapply Forall_impl; [exact Hps|by left] ].
  destruct (n =? 0); [|by injection Hr as <-]. case_match; [done|]. injection Hr as <-.
  apply Forall_app. split; [done|by constructor].
Qed.

(** An accepted line: it is the local line [im], with formats of the offer, each
    naming the codec of a local format. *)
Definition accepts (om im am : pjmedia_sdp_media) : Prop :=
  line_of am = line_of im /\
  Forall (fun o => is_fmt_of om o /\ exists a, is_fmt_of im a /\ same_codec om o im a) (fmt am).

Lemma match_offer_spec p multi om im conn r am im' :
  match_offer p multi om im conn = Some (r, am, im') -> Forall (fun f => f <> []) (fmt im) ->
  keeps im im' /\
  forall am', am = Some am' ->
    (port om = 0 /\ am' = sdp_media_clone_deactivate om im conn) \/
    (port im = 0 /\ am' = im) \/
    (port om <> 0 /\ port im <> 0 /\ accepts om im am').
Proof.
  unfold match_offer. intros Hm Hne. destruct (Z.eqb_spec (port om) 0) as [Ho|Ho].
  { injection Hm as <- <- <-. split; [apply keeps_refl|]. intros am' [= <-]. by left. }
  destruct (Z.eqb_spec (port im) 0) as [Hi|Hi].
  { injection Hm as <- <- <-. split; [apply keeps_refl|]. intros am' [= <-]. by right; left. }
  destruct (match_fmts _ _ _ _ _ _ _) as [[[r1 st] pre]|] eqn:H1; [|done]. cbn in Hm.
  apply match_fmts_spec in H1 as [Hk Hok]; [|by apply Forall_forall].
  specialize (Hok ltac:(constructor)).
  repeat (destruct (_ && _) || destruct (negb _)); try (injection Hm as <- <- <-; by split).
  destruct (if found_matching_telephone_event st then _ else _) as [ps|] eqn:Hps; [|done].
  cbn in Hm.
  assert (Forall (fun q => pair_ok om im q \/ q = ([], [])) ps) as Hps'.
  { destruct (found_matching_telephone_event st); [by eapply remove_televents_spec|].
    injection Hps as <-. eapply Forall_impl; [exact Hok|by left]. }
  destruct (reorder_fmts _ _ _) as [fmts|] eqn:Hfmts; [|done]. cbn in Hm.
  destruct Hk as (Hkl & Hkf & Hkr). rewrite Hkf in Hfmts.
  apply (reorder_fmts_spec (fun f => f <> []) _ []) in Hfmts as [Hfmts Hnil]; [|done..].
  cbn in Hfmts. set (am0 := _ <| fmt := take _ _ |>) in Hm.
  destruct (apply_answer_symmetric_pt am0 ps) as [am1|] eqn:Ham; [|done]. cbn in Hm.
  injection Hm as <- <- <-. split; [done|]. intros am' [= <-]. right; right. split_and!; [done..|].
  apply apply_answer_symmetric_pt_spec in Ham as [Hl1 Hf1];
    [|subst am0; cbn; by rewrite <- length_fmap with (f := snd)].
  unfold accepts. destruct (update_media_direction_line om am1) as [-> ->].
  rewrite Hl1, Hf1. split.
  - subst am0. rewrite line_of_fmt, remove_fmts_attrs_line. exact Hkl.
  - apply Forall_fmap. rewrite (Forall_fmap snd) in Hnil.
    eapply Forall_impl; [apply Forall_and; split; [exact Hps'|exact Hnil]|]. intros q [[Hq|Hq] Hqn].
    + destruct Hq as (? & ? & ?). split; [done|]. by exists q.2.
    + by subst q.
Qed.

Lemma accepts_keeps om im im' am : keeps im im' -> accepts om im' am -> accepts om im am.
Proof.
  intros (Hl & Hf & Hr) [Hla Ha]. split; [congruence|].
  eapply Forall_impl; [exact Ha|]. unfold is_fmt_of, same_codec, same_dynamic.
  intros o [Ho Ho2]. split; [exact Ho|]. revert Ho2. rewrite Hf. by setoid_rewrite Hr.
Qed.

Lemma line_of_type m m' : line_of m = line_of m' -> media_type m = media_type m' /\
  transport m = transport m' /\ port m = port m'.
Proof. unfold line_of. intros Hl. by simplify_eq. Qed.

(** ** All lines of the answer *)

(** What becomes of the initial media while the lines are answered. *)
Definition entry_ok (p p' : pjmedia_sdp_media * bool) : Prop :=
  keeps p.1 p'.1 /\ (p.2 = true -> p'.2 = true).

Lemma entry_ok_refl p : entry_ok p p.
Proof. by split. Qed.
Lemma entries_ok_refl l : Forall2 entry_ok l l.
Proof. induction l; constructor; [apply entry_ok_refl|done]. Qed.
Lemma entries_ok_trans l1 l2 l3 :
  Forall2 entry_ok l1 l2 -> Forall2 entry_ok l2 l3 -> Forall2 entry_ok l1 l3.
Proof.
  intros H12. revert l3. induction H12 as [|p q l1 l2 [Hk Hu] _ IH]; intros l3 H23;
    inversion H23 as [|? r ? l3' [Hk' Hu'] H23']; constructor; [|by apply IH].
  split; [by eapply keeps_trans|auto].
Qed.

Definition fmts_nonempty (m : pjmedia_sdp_media) : Prop := Forall (fun f => f <> []) (fmt m).

(** The line [am] answers [om]; if it is accepted, by the local line [j]. *)
Definition answers (om am : pjmedia_sdp_media) (im : option pjmedia_sdp_media) : Prop :=
  media_type am = media_type om /\ transport am = transport om /\
  (port om = 0 -> port am = 0) /\
  (port am <> 0 -> exists m, im = Some m /\ accepts om m am).

Lemma answers_disabled om im : answers om (sdp_media_clone_deactivate om om im) None.
Proof.
  destruct (clone_deactivate_line om om im) as (Ht & Hp & H0' & _). unfold answers.
  rewrite Ht, Hp, H0'. split_and!; done.
Qed.

Lemma answer_media_spec p multi om conn ims st am ims' st' :
  answer_media p multi om conn ims st = Some (am, ims', st') ->
  Forall (fun q => fmts_nonempty q.1) ims ->
  Forall2 entry_ok ims ims' /\
  (am = None \/ exists j im im' am', am = Some am' /\ ims !! j = Some (im, false) /\
     ims' !! j = Some (im', true) /\ answers om am' (Some im)).
Proof.
  revert st am ims'. induction ims as [|[im used] ims IH]; intros st am ims' Ha Hne;
    cbn [answer_media] in Ha.
  { injection Ha as <- <- <-. split; [constructor|by left]. }
  apply Forall_cons in Hne as [Hn Hne].
  assert (forall im1 st1, keeps im im1 ->
    ('(am, ims, status) ← answer_media p multi om conn ims st1; Some (am, (im1, used) :: ims, status))
    = Some (am, ims', st') ->
    Forall2 entry_ok ((im, used) :: ims) ims' /\
    (am = None \/ exists j im' im2 am', am = Some am' /\ ((im, used) :: ims) !! j = Some (im', false) /\
     ims' !! j = Some (im2, true) /\ answers om am' (Some im'))) as Hskip.
  { intros im1 st1 Hk Hs. destruct (answer_media p multi om conn ims st1) as [[[am1 ims1] st2]|] eqn:Hrec;
      [|done]. cbn in Hs. injection Hs as <- <- <-. apply IH in Hrec as [Hall Ham]; [|done].
    split; [by constructor|]. destruct Ham as [?|(j & m & m' & am' & ? & ? & ? & ?)]; [by left|].
    right. exists (S j), m, m', am'. by split_and!. }
  destruct (_ && _) eqn:Hc; [|by eapply Hskip; [apply keeps_refl|exact Ha] ].
  rewrite !strcmp_eqb, !andb_true_iff, !bool_decide_eq_true, negb_true_iff in Hc.
  destruct Hc as [[Hty Htp] Hu]. subst used.
  destruct (match_offer p multi om im conn) as [[[st2 am2] im1]|] eqn:Hm; [|done].
  cbn [mbind option_bind] in Ha.
  apply match_offer_spec in Hm as [Hk Ham]; [|done].
  case_bool_decide; [|by eapply Hskip; [exact Hk|exact Ha] ].
  injection Ha as <- <- <-. split; [constructor; [by split|apply entries_ok_refl]|].
  destruct am2 as [am'|]; [|by left]. right. exists 0%nat, im, im1, am'. split_and!; [done..|].
  destruct (Ham am' eq_refl) as [[Ho ->]|[[Hi ->]|(Ho & Hi & Hacc)]].
  - destruct (clone_deactivate_line om im conn) as (Ht & Hp & H0' & _). unfold answers.
    rewrite Ht, Hp, H0'. by split_and!.
  - unfold answers. by rewrite Hi.
  - pose proof Hacc as [Hl _]. apply line_of_type in Hl as (Ht & Hp & Hport). unfold answers.
    rewrite Ht, Hp, Hport. split_and!; [done..|by eauto].
Qed.

Lemma answers_keeps om am im im' : keeps im im' -> answers om am (Some im') -> answers om am (Some im).
Proof.
  intros Hk (? & ? & ? & Ha). split_and!; [done..|]. intros Hp.
  destruct (Ha Hp) as (m & [= <-] & Hm). exists im. split; [done|]. by eapply accepts_keeps.
Qed.

Lemma fmts_nonempty_keeps m m' : keeps m m' -> fmts_nonempty m -> fmts_nonempty m'.
Proof. intros (_ & Hf & _). unfold fmts_nonempty. by rewrite Hf. Qed.

(** [sel] says which local line answers which line of the offer. *)
Lemma create_answer_loop_spec p multi conn (ms : list pjmedia_sdp_media) oms ims st act st' ams act' :
  create_answer_loop p multi conn oms ims st act = Some (st', ams, act') ->
  Forall fmts_nonempty ms -> Forall2 (fun m q => keeps m q.1) ms ims ->
  exists sel : list (option nat),
    Forall3 (fun om am k => answers om am (k ≫= fun j => ms !! j)) oms ams sel /\
    NoDup (omap id sel) /\
    Forall (fun j => (ims !! j) ≫= (fun q => Some q.2) = Some false) (omap id sel).
Proof.
  revert ims st act ams. induction oms as [|om oms IH]; intros ims st act ams Hl Hne Hims;
    cbn [create_answer_loop] in Hl.
  { injection Hl as <- <- <-. exists []. split_and!; constructor. }
  destruct (answer_media _ _ _ _ _ _) as [[[am1 ims1] st1]|] eqn:Ha; [|done].
  cbn [mbind option_bind] in Hl.
  destruct (create_answer_loop _ _ _ _ _ _ _) as [[[st2 ams2] act2]|] eqn:Hrec; [|done].
  cbn in Hl. injection Hl as <- <- <-.
  apply answer_media_spec in Ha as [Hall Ham].
  2: { clear -Hne Hims. induction Hims as [|m q ms ims Hk _ IH]; [constructor|].
       apply Forall_cons in Hne as [? ?]. constructor; [by eapply fmts_nonempty_keeps|by apply IH]. }
  apply IH in Hrec as (sel & Hsel & Hnd & Hfree); [|done|].
  2: { clear -Hims Hall. revert ims1 Hall. induction Hims as [|m q ms ims Hk _ IH]; intros ims1 Hall;
         inversion Hall as [|? q' ? ims1' [Hk' _] Hall']; constructor; [by eapply keeps_trans|by apply IH]. }
  assert (Forall (fun j => (ims !! j) ≫= (fun q => Some q.2) = Some false) (omap id sel)) as Hfree0.
  { eapply Forall_impl; [exact Hfree|]. intros j Hj. cbn in *.
    destruct (ims1 !! j) as [[m' u']|] eqn:Hj1; [|done]. cbn in Hj. injection Hj as ->.
    destruct (Forall2_lookup_r _ _ _ _ _ Hall Hj1) as ([m u] & -> & _ & Hu). cbn in *.
    destruct u; [by specialize (Hu eq_refl)|done]. }
  destruct Ham as [->|(j & im & im' & am' & -> & Hj & Hj1 & Hans)].
  - exists (None :: sel). cbn. split_and!; [|done..]. constructor; [|done]. apply answers_disabled.
  - exists (Some j :: sel). cbn. split_and!.
    + constructor; [|done]. destruct (Forall2_lookup_r _ _ _ _ _ Hims Hj) as (m & Hm & Hk).
      cbn [mbind option_bind]. rewrite Hm. by eapply answers_keeps.
    + constructor; [|done]. intros Hin. rewrite Forall_forall in Hfree. specialize (Hfree j Hin).
      by rewrite Hj1 in Hfree.
    + constructor; [by rewrite Hj|done].
Qed.
End Matching.

(** C3: the answer to an offer has the session lines of the local description and
    one line for each line of the offer, in order, of its type and transport.  A
    disabled line is answered by a disabled one.  An accepted line is a local
    line, and no local line is used twice: its formats are formats of the offer,
    and each names the codec of a local format: the same static payload type, or
    the same encoding name in any case, the same clock rate and the same channels,
    none given being one.  (No format of the local description is empty, and a
    registered format callback keeps the [rtpmap]s of the answer.) *)
Theorem sdp_answer_matches_offer `{FmtMatchPromise} p multi initial offer st answer :
  Forall fmts_nonempty (media initial) ->
  create_answer p multi (Some initial) offer = Some (st, Some answer) ->
  answer <| media := [] |> = initial <| media := [] |> /\
  exists sel : list (option nat), NoDup (omap id sel) /\
    Forall3 (fun om am k => answers om am (k ≫= fun j => media initial !! j))
      (media offer) (media answer) sel.
Proof.
  unfold create_answer. intros Hne Hc. destruct (negb _); [done|].
  destruct (create_answer_loop _ _ _ _ _ _ _) as [[[st1 ams] act]|] eqn:Hl; [|done].
  cbn in Hc. injection Hc as <- <-. split; [done|].
  apply (create_answer_loop_spec _ _ _ (media initial)) in Hl as (sel & Hsel & Hnd & _); [|done|].
  - by exists sel.
  - clear. induction (media initial); constructor; [apply keeps_refl|done].
Qed.

Lemma sdp_answer_matches_offer_witness :
  exists answer,
    @create_answer no_callbacks true false (Some ex_local) ex_offer = Some (PJ_SUCCESS, Some answer) /\
    fmt <$> media answer = [[pj_str "0"; pj_str "101"]] /\
    exists sel : list (option nat), NoDup (omap id sel) /\
      Forall3 (fun om am k => answers om am (k ≫= fun j => media ex_local !! j))
        (media ex_offer) (media answer) sel.
Proof.
  eexists. split; [vm_compute; reflexivity|]. split; [vm_compute; reflexivity|].
  refine (proj2 (@sdp_answer_matches_offer no_callbacks _ true false ex_local ex_offer PJ_SUCCESS _ _ _)).
  - intros cb o i a j opt f. reflexivity.
  - repeat constructor; discriminate.
  - vm_compute; reflexivity.
Defined.

(** ** Directions *)

Lemma attr_find_loop_any name i l :
  is_Some (attr_find_loop name None i l) <-> Exists (fun a => attr_name a = name) l.
Proof.
  revert i. induction l as [|a l IH]; intros i; cbn; [split; [by intros [? ?]|by inversion 1]|].
  rewrite Exists_cons, strcmp_eqb. case_bool_decide as Hn; [|rewrite IH; tauto].
  split; [by left|done].
Qed.

Definition named (name : string) (a : pjmedia_sdp_attr) : Prop := attr_name a = pj_str name.
#[local] Instance named_dec name a : Decision (named name a).
Proof. unfold named. apply _. Defined.

Lemma has_attr_spec m name : zlen (media_attr m) <= PJMEDIA_MAX_SDP_ATTR ->
  has_attr m name = bool_decide (Exists (named name) (media_attr m)).
Proof.
  intros Hlen. unfold has_attr, pjmedia_sdp_media_find_attr2, pjmedia_sdp_attr_find2,
    pjmedia_sdp_attr_find. destruct (Z.gtb_spec (zlen (media_attr m)) PJMEDIA_MAX_SDP_ATTR); [lia|].
  apply bool_decide_ext, attr_find_loop_any.
Qed.

Lemma attr_remove_all_filter name l :
  fst (attr_remove_all_loop name l) = filter (fun a => attr_name a <> name) l.
Proof.
  induction l as [|a l IH]; [done|]. cbn [attr_remove_all_loop].
  destruct (attr_remove_all_loop name l) as [l' n]. rewrite filter_cons, strcmp_eqb, <- IH.
  by repeat case_decide || case_bool_decide.
Qed.

Lemma media_remove_all_attr_spec m name : zlen (media_attr m) <= PJMEDIA_MAX_SDP_ATTR ->
  media_attr (pjmedia_sdp_media_remove_all_attr m name) =
  filter (fun a => ~ named name a) (media_attr m).
Proof.
  intros Hlen. unfold pjmedia_sdp_media_remove_all_attr, pjmedia_sdp_attr_remove_all.
  destruct (Z.gtb_spec (zlen (media_attr m)) PJMEDIA_MAX_SDP_ATTR); [lia|].
  etransitivity; [apply attr_remove_all_filter|]. by apply list_filter_iff.
Qed.

Definition is_direction (a : pjmedia_sdp_attr) : Prop :=
  named "inactive" a \/ named "sendrecv" a \/ named "sendonly" a \/ named "recvonly" a.
#[local] Instance is_direction_dec a : Decision (is_direction a).
Proof. unfold is_direction. apply _. Defined.

Lemma zlen_filter {A} (P : A -> Prop) `{forall x, Decision (P x)} l : zlen (filter P l) <= zlen l.
Proof. unfold zlen. pose proof (length_filter P l). lia. Qed.

Lemma remove_all_media_directions_spec m : zlen (media_attr m) <= PJMEDIA_MAX_SDP_ATTR ->
  media_attr (remove_all_media_directions m) = filter (fun a => ~ is_direction a) (media_attr m).
Proof.
  intros Hlen. unfold remove_all_media_directions. cbn zeta.
  repeat (rewrite media_remove_all_attr_spec; [|etransitivity; [|exact Hlen];
    repeat (rewrite media_remove_all_attr_spec; [|try lia]); rewrite ?zlen_filter; try lia]).
  rewrite !list_filter_filter. apply list_filter_iff. intros a. unfold is_direction. tauto.
Qed.

(** The direction the remote announces, as it sees it, and as we see it: its
    sending is our receiving. *)
Definition announced_direction (remote : pjmedia_sdp_media) : Z :=
  if has_attr remote "inactive" then PJMEDIA_DIR_NONE
  else if has_attr remote "sendonly" then PJMEDIA_DIR_ENCODING
  else if has_attr remote "recvonly" then PJMEDIA_DIR_DECODING
  else PJMEDIA_DIR_ENCODING_DECODING.
Definition flip_direction (dir : Z) : Z :=
  Z.lor (Z.shiftl (Z.land dir PJMEDIA_DIR_ENCODING) 1) (Z.shiftr dir 1).

Lemma adjusted_direction_spec remote local :
  adjusted_direction remote (local_direction local) =
  Z.land (local_direction local) (flip_direction (announced_direction remote)).
Proof.
  unfold adjusted_direction, announced_direction, local_direction.
  by repeat destruct (has_attr _ _).
Qed.

Lemma local_direction_add m dir l :
  media_attr m = filter (fun a => ~ is_direction a) l ->
  zlen (filter (fun a => ~ is_direction a) l) < PJMEDIA_MAX_SDP_ATTR ->
  let m' := pjmedia_sdp_media_add_attr m (pjmedia_sdp_attr_create dir None) in
  local_direction m' = local_direction (SdpMedia [] 0 0 [] [] None [] [pjmedia_sdp_attr_create dir None]) /\
  media_attr m' = media_attr m ++ [pjmedia_sdp_attr_create dir None].
Proof.
  intros Hm Hl m'. rewrite <- Hm in Hl. rename Hl into Hlm.
  assert (media_attr m' = media_attr m ++ [pjmedia_sdp_attr_create dir None]) as Ha.
  { subst m'. unfold pjmedia_sdp_media_add_attr, pjmedia_sdp_attr_add.
    cbn [media_attr]. by destruct (Z.ltb_spec (zlen (media_attr m)) PJMEDIA_MAX_SDP_ATTR); [|lia]. }
  split; [|done]. unfold local_direction.
  assert (forall n, (forall a, named n a -> is_direction a) ->
    has_attr m' n = has_attr (SdpMedia [] 0 0 [] [] None [] [pjmedia_sdp_attr_create dir None]) n) as Hn.
  { intros n Hn. rewrite !has_attr_spec; [| |rewrite Ha, zlen_app]; [|done|unfold zlen at 2; cbn; lia].
    apply bool_decide_ext. rewrite Ha, Hm, Exists_app. split; [|by right].
    intros [He|He]; [|done]. apply Exists_exists in He as (a & Hin & Hna).
    apply list_elem_of_filter in Hin as [Hd _]. destruct Hd. by apply Hn. }
  rewrite !Hn; [done|unfold is_direction; auto..].
Qed.

Lemma filter_full {A} (P : A -> Prop) `{forall x, Decision (P x)} l :
  zlen l <= zlen (filter P l) -> filter P l = l.
Proof.
  induction l as [|x l IH]; [done|]. rewrite filter_cons. unfold zlen in *. case_decide; cbn; intros Hl.
  - f_equal. apply IH. lia.
  - pose proof (length_filter P l). lia.
Qed.

(** A full array takes no direction, and none was in it. *)
Lemma local_direction_full local dir :
  zlen (media_attr local) <= PJMEDIA_MAX_SDP_ATTR ->
  PJMEDIA_MAX_SDP_ATTR <= zlen (filter (fun a => ~ is_direction a) (media_attr local)) ->
  let m' := pjmedia_sdp_media_add_attr (remove_all_media_directions local) dir in
  local_direction m' = local_direction local /\ media_attr m' = media_attr local.
Proof.
  intros Hlen Hfull m'. pose proof (remove_all_media_directions_spec local Hlen) as Hr.
  rewrite filter_full in Hr by lia. rewrite filter_full in Hfull by lia.
  assert (media_attr m' = media_attr local) as Ha.
  { subst m'. unfold pjmedia_sdp_media_add_attr, pjmedia_sdp_attr_add. rewrite Hr. cbn [media_attr].
    destruct (Z.ltb_spec (zlen (media_attr local)) PJMEDIA_MAX_SDP_ATTR); [lia|done]. }
  split; [|done]. unfold local_direction.
  assert (forall n, has_attr m' n = has_attr local n) as Hn.
  { intros n. rewrite !has_attr_spec by (rewrite ?Ha; done). by rewrite Ha. }
  by rewrite !Hn.
Qed.

(** C20: negotiating a direction leaves a local line in exactly the directions in
    which it was and the remote agrees: what it sends is what it could send and
    the remote receives; but for a line whose other attributes fill the array,
    which takes no direction attribute and keeps the direction it had. The other
    attributes stay as they are, in order. *)
Theorem sdp_direction_is_agreed remote local :
  zlen (media_attr local) <= PJMEDIA_MAX_SDP_ATTR ->
  let local' := update_media_direction remote local in
  let others := filter (fun a => ~ is_direction a) (media_attr local) in
  local_direction local' =
    (if decide (zlen others < PJMEDIA_MAX_SDP_ATTR)
     then Z.land (local_direction local) (flip_direction (announced_direction remote))
     else local_direction local) /\
  line_of local' = line_of local /\ fmt local' = fmt local /\
  filter (fun a => ~ is_direction a) (media_attr local') = others.
Proof.
  intros Hlen local' others. destruct (update_media_direction_line remote local) as [Hl Hf].
  enough (local_direction local' =
      (if decide (zlen others < PJMEDIA_MAX_SDP_ATTR)
       then adjusted_direction remote (local_direction local) else local_direction local) /\
    filter (fun a => ~ is_direction a) (media_attr local') = others) as [-> ->]
    by (rewrite adjusted_direction_spec; done).
  subst local'. clear Hl Hf. unfold update_media_direction.
  set (old := local_direction local). set (new := adjusted_direction remote old).
  destruct (Z.eqb_spec new old) as [He|Hne]; [rewrite He; by case_decide|].
  pose proof (remove_all_media_directions_spec local Hlen) as Hr.
  assert (new = 0 \/ new = 1 \/ new = 2 \/ (new = 3 /\ new = old)) as Hnew.
  { subst new. unfold adjusted_direction, old, local_direction. repeat destruct (has_attr _ _); cbn; tauto. }
  destruct Hnew as [->|[->|[->|[-> ?] ] ] ]; [..|done]; cbn [Z.eqb PJMEDIA_DIR_NONE PJMEDIA_DIR_ENCODING PJMEDIA_DIR_DECODING Pos.eqb].
  all: case_decide as Hroom;
    [match goal with |- context [pjmedia_sdp_attr_create ?d None] =>
       destruct (local_direction_add _ d _ Hr Hroom) as [-> ->] end
    |match goal with |- context [pjmedia_sdp_attr_create ?d None] =>
       destruct (local_direction_full local (pjmedia_sdp_attr_create d None) Hlen) as [-> ->];
         [unfold others in Hroom; lia|done] end].
  all: split; [reflexivity|]; rewrite Hr, filter_app, list_filter_filter_l by tauto.
  all: by rewrite app_nil_r.
Qed.

(** We can send and receive, and the remote only sends. *)
Lemma sdp_direction_is_agreed_witness :
  let local := ex_audio 5000 ["0"] [ex_attr "ptime" "20"] in
  let remote := ex_audio 4000 ["0"] [ex_attr "sendonly" ""] in
  media_attr (update_media_direction remote local) = [ex_attr "ptime" "20"; ex_attr "recvonly" ""] /\
  local_direction (update_media_direction remote local) =
    Z.land (local_direction local) (flip_direction (announced_direction remote)).
Proof.
  split; [vm_compute; reflexivity|].
  exact (proj1 (sdp_direction_is_agreed (ex_audio 4000 ["0"] [ex_attr "sendonly" ""])
    (ex_audio 5000 ["0"] [ex_attr "ptime" "20"]) ltac:(discriminate))).
Defined.

(** ** Finding attributes *)

(** The number a format or an attribute's value begins with. *)
Definition pt_of (f : list Z) : Z := u32 (pj_strtoul f).
Definition attr_pt (a : pjmedia_sdp_attr) : Z := u32 (fst (pj_strtoul2 (attr_value a) 10)).
Definition is_for (name : string) (n : Z) (a : pjmedia_sdp_attr) : Prop :=
  named name a /\ attr_pt a = n.
#[local] Instance is_for_dec name n a : Decision (is_for name n a).
Proof. unfold is_for. apply _. Defined.

Lemma attr_find_loop_value name n k l :
  match attr_find_loop (pj_str name) (Some n) k l with
  | Some (i, a) => head (filter (is_for name n) l) = Some a /\ (k <= i)%nat /\ l !! (i - k)%nat = Some a
  | None => filter (is_for name n) l = []
  end.
Proof.
  revert k. induction l as [|a l IH]; intros k; [done|]. cbn [attr_find_loop].
  rewrite strcmp_eqb, filter_cons. specialize (IH (S k)). fold (attr_pt a).
  assert (~ is_for name n a ->
    match attr_find_loop (pj_str name) (Some n) (S k) l with
    | Some (i, b) => head (if decide (is_for name n a) then a :: filter (is_for name n) l
                           else filter (is_for name n) l) = Some b /\
                     (k <= i)%nat /\ (a :: l) !! (i - k)%nat = Some b
    | None => (if decide (is_for name n a) then a :: filter (is_for name n) l
               else filter (is_for name n) l) = []
    end) as Hskip.
  { intros Hn. rewrite decide_False by done.
    destruct (attr_find_loop _ _ _ _) as [[i b]|]; [|done]. destruct IH as (? & ? & ?).
    split_and!; [done|lia|]. by replace (i - k)%nat with (S (i - S k)) by lia. }
  case_bool_decide as Hn; [|apply Hskip; by intros [? _]].
  destruct (Z.eqb_spec (attr_pt a) n) as [Hp|Hp]; [|apply Hskip; by intros [_ ?]].
  rewrite decide_True by done. split_and!; [done|lia|by rewrite Nat.sub_diag].
Qed.

(** What a lookup finds, in a list that is not longer than the array. *)
Definition found (m : pjmedia_sdp_media) (name : string) (f : list Z) : option pjmedia_sdp_attr :=
  if zlen (media_attr m) >? PJMEDIA_MAX_SDP_ATTR then None
  else head (filter (is_for name (pt_of f)) (media_attr m)).

Lemma find_attr_spec m name f :
  match pjmedia_sdp_media_find_attr2 m name (Some f) with
  | Some (i, a) => found m name f = Some a /\ media_attr m !! i = Some a /\ is_for name (pt_of f) a
  | None => found m name f = None
  end.
Proof.
  unfold pjmedia_sdp_media_find_attr2, pjmedia_sdp_attr_find2, pjmedia_sdp_attr_find, found.
  destruct (Z.gtb_spec (zlen (media_attr m)) PJMEDIA_MAX_SDP_ATTR); [done|]. cbn [fmap option_fmap option_map].
  pose proof (attr_find_loop_value name (pt_of f) 0 (media_attr m)) as Hl. fold (pt_of f).
  destruct (attr_find_loop _ _ _ _) as [[i a]|]; [|by rewrite Hl].
  destruct Hl as (Hh & _ & Hi). rewrite Nat.sub_0_r in Hi. split_and!; [done..|].
  destruct (filter _ _) as [|b l] eqn:Hf; [done|]. injection Hh as ->.
  assert (a ∈ filter (is_for name (pt_of f)) (media_attr m)) as Hin by (rewrite Hf; left).
  by apply list_elem_of_filter in Hin as [? _].
Qed.

Lemma find_rtpmap_found m f :
  find_rtpmap m f = match found m "rtpmap" f with
                    | Some a => Some <$> snd (pjmedia_sdp_attr_get_rtpmap a)
                    | None => Some None
                    end.
Proof.
  unfold find_rtpmap. pose proof (find_attr_spec m "rtpmap" f) as Hs.
  destruct (pjmedia_sdp_media_find_attr2 _ _ _) as [[i a]|]; [by destruct Hs as [-> _]|by rewrite Hs].
Qed.

(** Removing an attribute that is not for [g] leaves what is found for [g]. *)
Lemma found_remove m i a name g : media_attr m !! i = Some a -> ~ is_for name (pt_of g) a ->
  zlen (media_attr m) <= PJMEDIA_MAX_SDP_ATTR ->
  found (pjmedia_sdp_media_remove_attr m i) name g = found m name g.
Proof.
  intros Hi Hn Hlen. unfold found, pjmedia_sdp_media_remove_attr, pjmedia_sdp_attr_remove.
  destruct (Z.gtb_spec (zlen (media_attr m)) PJMEDIA_MAX_SDP_ATTR); [lia|]. cbn [fst].
  assert (zlen (delete i (media_attr m)) <= zlen (media_attr m)) as Hd.
  { unfold zlen. rewrite length_delete by (by eexists). lia. }
  rewrite media_attr_attr.
  destruct (Z.gtb_spec (zlen (delete i (media_attr m))) PJMEDIA_MAX_SDP_ATTR); [lia|].
  pose proof (take_drop_middle _ _ _ Hi) as Hm. rewrite <- Hm at 2.
  rewrite delete_take_drop, !filter_app, filter_cons.
  by rewrite decide_False.
Qed.

Lemma remove_fmt_attrs_found m f name g : name = "rtpmap" \/ name = "fmtp" -> pt_of f <> pt_of g ->
  found (remove_fmt_attrs m f) name g = found m name g.
Proof.
  intros Hname Hpt. unfold remove_fmt_attrs.
  assert (forall m n, found
     match pjmedia_sdp_media_find_attr2 m n (Some f) with
     | Some (i, _) => pjmedia_sdp_media_remove_attr m i
     | None => m
     end name g = found m name g) as Hrem; [|by rewrite !Hrem].
  clear m. intros m n. pose proof (find_attr_spec m n f) as Hs.
  destruct (pjmedia_sdp_media_find_attr2 _ _ _) as [[i a]|]; [|done].
  destruct Hs as (Hf & Hi & [_ Hp]). eapply found_remove; [exact Hi| |].
  - intros [_ Hq]. congruence.
  - unfold found in Hf. destruct (Z.gtb_spec (zlen (media_attr m)) PJMEDIA_MAX_SDP_ATTR); [done|lia].
Qed.

Lemma found_add m a name f : ~ named name a ->
  found (pjmedia_sdp_media_add_attr m a) name f = found m name f.
Proof.
  intros Hn. unfold found, pjmedia_sdp_media_add_attr, pjmedia_sdp_attr_add. rewrite media_attr_attr.
  destruct (Z.ltb_spec (zlen (media_attr m)) PJMEDIA_MAX_SDP_ATTR); [|done]. cbn [fst].
  rewrite zlen_app. change (zlen [a]) with 1.
  destruct (Z.gtb_spec (zlen (media_attr m) + 1) PJMEDIA_MAX_SDP_ATTR); [lia|].
  destruct (Z.gtb_spec (zlen (media_attr m)) PJMEDIA_MAX_SDP_ATTR); [lia|].
  rewrite filter_app, filter_cons, decide_False by (by intros [? _]). by rewrite app_nil_r.
Qed.

Lemma found_remove_all m n name f : pj_str n <> pj_str name ->
  found (pjmedia_sdp_media_remove_all_attr m n) name f = found m name f.
Proof.
  intros Hn. destruct (Z.leb_spec (zlen (media_attr m)) PJMEDIA_MAX_SDP_ATTR) as [Hl|Hl].
  - unfold found. rewrite media_remove_all_attr_spec by done.
    pose proof (zlen_filter (fun a => ~ named n a) (media_attr m)).
    destruct (Z.gtb_spec (zlen (filter (fun a => ~ named n a) (media_attr m))) PJMEDIA_MAX_SDP_ATTR); [lia|].
    destruct (Z.gtb_spec (zlen (media_attr m)) PJMEDIA_MAX_SDP_ATTR); [lia|].
    f_equal. rewrite list_filter_filter. apply list_filter_iff. intros a.
    unfold is_for, named. split; [tauto|]. intros [-> ?]. by split.
  - unfold pjmedia_sdp_media_remove_all_attr, pjmedia_sdp_attr_remove_all.
    destruct (Z.gtb_spec (zlen (media_attr m)) PJMEDIA_MAX_SDP_ATTR); [done|lia].
Qed.

Lemma update_media_direction_found r m f :
  found (update_media_direction r m) "rtpmap" f = found m "rtpmap" f.
Proof.
  assert (found (remove_all_media_directions m) "rtpmap" f = found m "rtpmap" f) as Hr.
  { unfold remove_all_media_directions. by rewrite !found_remove_all. }
  unfold update_media_direction. repeat case_match; rewrite ?found_add; done.
Qed.

(** ** Formats agreed on *)

(** The match of a format of the answer with one of our offer: the same text when
    the payload type is static, otherwise the same encoding name and clock rate,
    and the same channels, or one channel in the answer. *)
Definition answer_agrees (offer : pjmedia_sdp_media) (f : list Z) (answer : pjmedia_sdp_media)
    (h : list Z) : Prop :=
  if pt_of f <? 96 then f = h
  else exists r s, find_rtpmap offer f = Some (Some r) /\ find_rtpmap answer h = Some (Some s) /\
    pj_stricmp (enc_name r) (enc_name s) = 0 /\ clock_rate r = clock_rate s /\
    (pj_stricmp (param r) (param s) = 0 \/ is_one (param s) = true).

Definition distinct_pts (m : pjmedia_sdp_media) : Prop := NoDup (pt_of <$> fmt m).

(** No format of the answer is the match of two formats of the offer. *)
Definition one_match (offer answer : pjmedia_sdp_media) : Prop :=
  forall f g h, f ∈ fmt offer -> g ∈ fmt offer -> h ∈ fmt answer ->
    answer_agrees offer f answer h -> answer_agrees offer g answer h -> f = g.

Section Agreement.
Context `{FmtMatchPromise}.

Lemma find_answer_fmt_spec offer i f or_ j l answer j' answer' :
  find_answer_fmt offer i or_ j l answer = Some (j', answer') ->
  find_rtpmap offer f = Some (Some or_) -> 96 <= pt_of f ->
  keeps answer answer' /\
  ((exists k h, j' = (j + k)%nat /\ l !! k = Some h /\ answer_agrees offer f answer h) \/
   j' = (j + length l)%nat /\
   (fmt_match_cb = [] -> forall h, h ∈ l -> ~ answer_agrees offer f answer h)).
Proof.
  intros Hfind Hor Hpt. revert j answer Hfind. induction l as [|h l IH]; intros j answer Hfind;
    cbn [find_answer_fmt] in Hfind.
  { injection Hfind as <- <-. split; [apply keeps_refl|]. right. split; [cbn; lia|].
    intros _ h Hh. by apply not_elem_of_nil in Hh. }
  assert (forall answer1, keeps answer answer1 ->
    (fmt_match_cb = [] -> ~ answer_agrees offer f answer h) ->
    find_answer_fmt offer i or_ (S j) l answer1 = Some (j', answer') ->
    keeps answer answer' /\
    ((exists k h', j' = (j + k)%nat /\ (h :: l) !! k = Some h' /\ answer_agrees offer f answer h') \/
     j' = (j + length (h :: l))%nat /\
     (fmt_match_cb = [] -> forall h', h' ∈ h :: l -> ~ answer_agrees offer f answer h'))) as Hskip.
  { intros answer1 Hk1 Hno Hrec. apply IH in Hrec as [Hk Hcase]. split; [by eapply keeps_trans|].
    assert (forall h', answer_agrees offer f answer1 h' <-> answer_agrees offer f answer h') as Hiff.
    { intros h'. unfold answer_agrees. destruct Hk1 as (_ & _ & Hr). by rewrite Hr. }
    destruct Hcase as [(k & h' & -> & Hh' & Ha)|[-> Hnone]].
    - left. exists (S k), h'. split_and!; [lia|done|by apply Hiff].
    - right. split; [cbn; lia|]. intros Hcb h' Hin. apply elem_of_cons in Hin as [->|Hin]; [by apply Hno|].
      rewrite <- Hiff. by apply Hnone. }
  destruct (find_rtpmap answer h) as [[ar|]|] eqn:Har; cbn [mbind option_bind] in Hfind; [| |done].
  2: { apply (Hskip answer); [apply keeps_refl| |done]. intros _. unfold answer_agrees.
       rewrite (proj2 (Z.ltb_ge _ _)) by done. intros (r & s & _ & Hs & _). congruence. }
  assert (answer_agrees offer f answer h <->
    (pj_stricmp (enc_name or_) (enc_name ar) =? 0) && (clock_rate or_ =? clock_rate ar) &&
    ((pj_stricmp (param or_) (param ar) =? 0) || is_one (param ar)) = true) as Hagree.
  { unfold answer_agrees. rewrite (proj2 (Z.ltb_ge _ _)) by done.
    rewrite !andb_true_iff, orb_true_iff, !Z.eqb_eq. split.
    - intros (r & s & Hr & Hs & ? & ? & ?). rewrite Hor in Hr. rewrite Har in Hs. by simplify_eq.
    - intros [[? ?] ?]. by exists or_, ar. }
  destruct (_ && _ && _).
  2: { apply (Hskip answer); [apply keeps_refl| |done]. intros _. rewrite Hagree. done. }
  pose proof (custom_fmt_match_keeps (enc_name or_) offer i answer j 0) as Hk1.
  assert (fmt_match_cb = [] -> fst (custom_fmt_match (enc_name or_) offer i answer j 0) = PJ_SUCCESS)
    as Hcb by (unfold custom_fmt_match; by intros ->).
  destruct (custom_fmt_match _ _ _ _ _ _) as [st answer1]. cbn [fst snd] in *.
  case_bool_decide as Hst.
  - injection Hfind as <- <-. split; [done|]. left. exists 0%nat, h.
    split_and!; [lia|done|by apply Hagree].
  - apply (Hskip answer1); [done| |done]. intros ?. by destruct Hst; apply Hcb.
Qed.

(** Two offers that agree on a format agree on its match. *)
Lemma answer_agrees_offer o o' f a h : find_rtpmap o' f = find_rtpmap o f ->
  answer_agrees o' f a h <-> answer_agrees o f a h.
Proof. intros He. unfold answer_agrees. by rewrite He. Qed.
Lemma answer_agrees_answer o f a a' h : keeps a a' ->
  answer_agrees o f a' h <-> answer_agrees o f a h.
Proof. intros (_ & _ & Hr). unfold answer_agrees. by rewrite Hr. Qed.

(** The match of one format: [None] is a missing [rtpmap]. *)
Lemma match_one_spec offer i f answer r :
  (if pt_of f <? 96 then Some (Some (find_fmt f 0 (fmt answer), answer))
   else o ← find_rtpmap offer f;
        match o with
        | None => Some None
        | Some or_ => Some <$> find_answer_fmt offer i or_ 0 (fmt answer) answer
        end) = Some (Some r) ->
  keeps answer r.2 /\
  ((exists h, fmt answer !! r.1 = Some h /\ answer_agrees offer f answer h) \/
   r.1 = length (fmt answer) /\
   (fmt_match_cb = [] -> forall h, h ∈ fmt answer -> ~ answer_agrees offer f answer h)).
Proof.
  destruct (Z.ltb_spec (pt_of f) 96) as [Hpt|Hpt].
  - intros [= <-]. cbn. split; [apply keeps_refl|]. unfold answer_agrees.
    rewrite (proj2 (Z.ltb_lt _ _) Hpt).
    destruct (find_fmt_spec f 0 (fmt answer)) as [(k & -> & Hk)|[-> Hn]]; [by left; exists f|right].
    split; [done|]. by intros _ h Hh ->.
  - destruct (find_rtpmap offer f) as [[or_|]|] eqn:Ho; cbn [mbind option_bind]; [|done..].
    destruct (find_answer_fmt _ _ _ _ _ _) as [[j answer']|] eqn:Hf; [|done]. intros [= <-].
    eapply find_answer_fmt_spec in Hf as [Hk Hcase]; [|done..]. split; [done|].
    destruct Hcase as [(k & h & -> & Hh & Ha)|[-> Hn]]; [left; by exists h|by right].
Qed.

Lemma remove_fmt_rtpmap (kept : list (list Z)) f l offer i g :
  NoDup (pt_of <$> kept ++ f :: l) -> g ∈ kept ++ l ->
  find_rtpmap ((remove_fmt_attrs offer f) <| fmt ::= delete i |>) g = find_rtpmap offer g.
Proof.
  intros Hnd Hg. rewrite !find_rtpmap_found.
  change (found ((remove_fmt_attrs offer f) <| fmt ::= delete i |>)) with (found (remove_fmt_attrs offer f)).
  rewrite remove_fmt_attrs_found; [done|by left|]. rewrite fmap_app, fmap_cons in Hnd. intros He.
  rewrite <- Permutation_middle in Hnd. apply NoDup_cons in Hnd as [Hn _].
  destruct Hn. rewrite He, <- fmap_app. by apply list_elem_of_fmap_2.
Qed.

Lemma remove_fmt_fmt (prior : list (nat * list Z)) f l offer : fmt offer = prior.*2 ++ f :: l ->
  fmt ((remove_fmt_attrs offer f) <| fmt ::= delete (length prior) |>) = prior.*2 ++ l.
Proof.
  intros Hf. change (delete (length prior) (fmt (remove_fmt_attrs offer f)) = prior.*2 ++ l).
  by rewrite (proj2 (remove_fmt_attrs_line offer f)), Hf, <- (length_fmap snd prior), delete_middle.
Qed.

(** A match that fails has met a dynamic format without an [rtpmap]. *)
Lemma match_offer_fmts_ebug prior l offer answer prior' offer' answer' :
  match_offer_fmts prior l offer answer = Some (PJ_EBUG, prior', offer', answer') ->
  fmt offer = prior.*2 ++ l ->
  exists f, f ∈ l /\ 96 <= pt_of f /\
    (NoDup (pt_of <$> prior.*2 ++ l) -> find_rtpmap offer f = Some None).
Proof.
  revert prior offer answer. induction l as [|f l IH]; intros prior offer answer Hm Hfmt;
    cbn [match_offer_fmts] in Hm; [done|]. fold (pt_of f) in Hm.
  destruct (if pt_of f <? 96 then _ else _) as [[[j answer1]|]|] eqn:Hone; cbn [mbind option_bind] in Hm; [| |done].
  - case_bool_decide.
    + apply IH in Hm as (g & Hg & Hpt & Hr); [|by apply remove_fmt_fmt]. exists g.
      split_and!; [by right|done|]. intros Hnd.
      rewrite <- (remove_fmt_rtpmap prior.*2 f l offer (length prior)); [|done|apply elem_of_app; by right].
      apply Hr. rewrite fmap_app, fmap_cons, <- Permutation_middle in Hnd. apply NoDup_cons in Hnd as [_ Hnd].
      by rewrite fmap_app.
    + apply IH in Hm as (g & Hg & Hpt & Hr); [|by rewrite Hfmt, (fmap_app snd), <- app_assoc].
      exists g. split_and!; [by right|done|]. intros Hnd. apply Hr. by rewrite (fmap_app snd), <- app_assoc.
  - exists f. destruct (Z.ltb_spec (pt_of f) 96); [done|]. split_and!; [by left|lia|]. intros _.
    destruct (find_rtpmap offer f) as [[r|]|]; [|done..].
    cbn [mbind option_bind] in Hone. by destruct (find_answer_fmt _ _ _ _ _ _).
Qed.

Lemma match_offer_fmts_spec prior l offer answer st prior' offer' answer' :
  match_offer_fmts prior l offer answer = Some (st, prior', offer', answer') ->
  fmt offer = prior.*2 ++ l -> NoDup (pt_of <$> prior.*2 ++ l) ->
  line_of offer' = line_of offer /\ keeps answer answer' /\
  (st = PJ_SUCCESS -> exists m, prior' = prior ++ m /\ fmt offer' = prior'.*2 /\ m.*2 `sublist_of` l /\
    Forall (fun q => exists h, fmt answer !! q.1 = Some h /\ answer_agrees offer q.2 answer h) m /\
    (forall g, g ∈ prior'.*2 -> find_rtpmap offer' g = find_rtpmap offer g) /\
    (fmt_match_cb = [] -> forall f h, f ∈ l -> h ∈ fmt answer -> answer_agrees offer f answer h ->
       f ∈ m.*2)).
Proof.
  revert prior offer answer. induction l as [|f l IH]; intros prior offer answer Hm Hfmt Hnd;
    cbn [match_offer_fmts] in Hm.
  { injection Hm as <- <- <- <-. split_and!; [done|apply keeps_refl|]. intros _. exists [].
    rewrite !app_nil_r in *. split_and!; [done..|constructor|done|].
    intros _ f h Hf. by apply not_elem_of_nil in Hf. }
  fold (pt_of f) in Hm.
  destruct (if pt_of f <? 96 then _ else _) as [[[j answer1]|]|] eqn:Hone; cbn [mbind option_bind] in Hm;
    [|by injection Hm as <- <- <- <-|done].
  apply match_one_spec in Hone as [Hk Hcase]. cbn [fst snd] in Hk, Hcase. case_bool_decide as Hj.
  - destruct Hcase as [(h & Hh & _)|[_ Hno]].
    { apply lookup_lt_Some in Hh. subst j. destruct Hk as (_ & Hkf & _). rewrite Hkf in Hh. lia. }
    set (offer1 := _ <| fmt ::= _ |>) in Hm.
    assert (forall g, g ∈ prior.*2 ++ l -> find_rtpmap offer1 g = find_rtpmap offer g) as Hr1.
    { intros g Hg. by apply (remove_fmt_rtpmap prior.*2 f l). }
    assert (fmt offer1 = prior.*2 ++ l) as Hf1.
    { change (fmt offer1) with (delete (length prior) (fmt (remove_fmt_attrs offer f))).
      rewrite (proj2 (remove_fmt_attrs_line offer f)), Hfmt.
      rewrite <- (length_fmap snd prior), delete_middle. done. }
    apply IH in Hm as (Hl & Hk2 & Hres); [|done|].
    2: { rewrite fmap_app, fmap_cons, <- Permutation_middle in Hnd. apply NoDup_cons in Hnd as [_ Hnd].
         by rewrite fmap_app. }
    split_and!; [|by eapply keeps_trans|].
    { rewrite Hl. subst offer1. rewrite line_of_fmt. apply remove_fmt_attrs_line. }
    intros Hst. destruct (Hres Hst) as (m & -> & Hfo & Hsub & Hall & Hrt & Hcomp). exists m.
    assert (forall g, g ∈ prior.*2 ++ m.*2 -> find_rtpmap offer1 g = find_rtpmap offer g) as Hr2.
    { intros g Hg. apply Hr1. rewrite elem_of_app in *. destruct Hg; [by left|right].
      eapply elem_of_submseteq; [eassumption|]. by apply sublist_submseteq. }
    split_and!; [done..|by constructor| | |].
    + apply Forall_forall. intros q Hq. rewrite Forall_forall in Hall. destruct (Hall q Hq) as (h & Hh & Ha).
      exists h. destruct Hk as (? & Hkf & ?). rewrite Hkf in Hh. split; [done|].
      rewrite answer_agrees_answer in Ha by done. rewrite answer_agrees_offer in Ha; [done|].
      apply Hr2. rewrite elem_of_app. right. by apply list_elem_of_fmap_2.
    + intros g Hg. rewrite Hrt by done. apply Hr2. by rewrite <- fmap_app.
    + intros Hcb f' h Hin Hh Ha. apply elem_of_cons in Hin as [->|Hin]; [by destruct (Hno Hcb h)|].
      apply (Hcomp Hcb f' h); [done|by destruct Hk as (_ & -> & _)|].
      rewrite answer_agrees_answer by done. rewrite answer_agrees_offer; [done|].
      apply Hr1. rewrite elem_of_app. by right.
  - destruct Hcase as [(h & Hh & Hag)|[-> _]]; [|by destruct Hk as (_ & Hkf & _); rewrite Hkf in Hj].
    apply IH in Hm as (Hl & Hk2 & Hres); [|by rewrite ?Hfmt, (fmap_app snd), <- app_assoc..].
    split_and!; [done|by eapply keeps_trans|].
    intros Hst. destruct (Hres Hst) as (m & -> & Hfo & Hsub & Hall & Hrt & Hcomp). exists ((j, f) :: m).
    split_and!; [by rewrite <- app_assoc|done|by apply sublist_skip| | |].
    + constructor; [by exists h|]. eapply Forall_impl; [exact Hall|]. intros q (h' & Hh' & Ha').
      exists h'. destruct Hk as (? & Hkf & ?). rewrite Hkf in Hh'. split; [done|].
      by rewrite answer_agrees_answer in Ha'.
    + done.
    + intros Hcb f' h' Hin Hh' Ha'. cbn. apply elem_of_cons in Hin as [->|Hin]; [by left|right].
      apply (Hcomp Hcb f' h'); [done|by destruct Hk as (_ & -> & _)|].
      by rewrite answer_agrees_answer.
Qed.
End Agreement.

(** *** The sort *)

Definition le_fst (p q : nat * list Z) : Prop := (p.1 <= q.1)%nat.

Lemma resort_round_spec x l m r : resort_round x l = (m, r) ->
  m :: r ≡ₚ x :: l /\ Forall (fun y => (m.1 <= y.1)%nat) (x :: l) /\ length r = length l.
Proof.
  revert x m r. induction l as [|y l IH]; intros x m r Hr; cbn [resort_round] in Hr.
  { injection Hr as <- <-. split_and!; [done| |done]. by constructor. }
  case_bool_decide as Hlt.
  - destruct (resort_round y l) as [m1 r1] eqn:Hrec. injection Hr as <- <-.
    apply IH in Hrec as (Hp & Hle & Hlen). split_and!; [|constructor|cbn; lia].
    + by rewrite Permutation_swap, Hp.
    + apply Forall_inv in Hle. lia.
    + done.
  - destruct (resort_round x l) as [m1 r1] eqn:Hrec. injection Hr as <- <-.
    apply IH in Hrec as (Hp & Hle & Hlen). apply Forall_cons in Hle as [Hx Hle].
    split_and!; [|by repeat constructor; [|lia|]|cbn; lia].
    rewrite Permutation_swap, Hp. apply Permutation_swap.
Qed.

Lemma resort_loop_spec n l : (length l <= n)%nat ->
  resort_loop n l ≡ₚ l /\ StronglySorted le_fst (resort_loop n l).
Proof.
  revert l. induction n as [|n IH]; intros [|x l] Hn; cbn in *; [|lia| |];
    [split; [done|constructor]..|].
  destruct (resort_round x l) as [m r] eqn:Hr. apply resort_round_spec in Hr as (Hp & Hle & Hlen).
  destruct (IH r ltac:(lia)) as [Hpr Hs]. split; [by rewrite Hpr|]. constructor; [done|].
  rewrite Hpr. rewrite <- Hp in Hle. by apply Forall_cons in Hle as [_ ?].
Qed.

Lemma resort_spec l : NoDup l.*1 ->
  resort l ≡ₚ l /\ StronglySorted lt (resort l).*1.
Proof.
  intros Hnd. unfold resort. destruct (resort_loop_spec (length l) l ltac:(lia)) as [Hp Hs].
  split; [done|]. rewrite <- Hp in Hnd. clear Hp. induction Hs as [|x r _ IH Hx]; [constructor|].
  cbn in *. apply NoDup_cons in Hnd as [Hn Hnd]. constructor; [by apply IH|].
  apply Forall_fmap. rewrite Forall_forall in *. intros y Hy. cbn.
  assert (x.1 <> y.1) by (intros He; destruct Hn; rewrite He; by apply list_elem_of_fmap_2).
  specialize (Hx y Hy). unfold le_fst in Hx. lia.
Qed.

(** *** What is left of the answer *)

Lemma remove_one_fmt (answer : pjmedia_sdp_media) (f : list Z) (kept l : list (list Z)) :
  fmt answer = kept ++ f :: l ->
  let answer1 := (remove_fmt_attrs answer f) <| fmt ::= delete (length kept) |> in
  line_of answer1 = line_of answer /\ fmt answer1 = kept ++ l /\
  (NoDup (pt_of <$> fmt answer) ->
     NoDup (pt_of <$> fmt answer1) /\
     forall g, g ∈ fmt answer1 -> find_rtpmap answer1 g = find_rtpmap answer g).
Proof.
  intros Hf answer1. assert (fmt answer1 = kept ++ l) as Hf1.
  { change (fmt answer1) with (delete (length kept) (fmt (remove_fmt_attrs answer f))).
    by rewrite (proj2 (remove_fmt_attrs_line answer f)), Hf, delete_middle. }
  split_and!; [|done|].
  { subst answer1. rewrite line_of_fmt. apply remove_fmt_attrs_line. }
  intros Hnd. rewrite Hf, fmap_app, fmap_cons, <- Permutation_middle in Hnd.
  apply NoDup_cons in Hnd as [Hn Hnd]. rewrite <- fmap_app in *. rewrite Hf1. split; [done|].
  intros g Hg. rewrite !find_rtpmap_found. change (found answer1) with (found (remove_fmt_attrs answer f)).
  rewrite remove_fmt_attrs_found; [done|by left|]. intros He. destruct Hn. rewrite He.
  by apply list_elem_of_fmap_2.
Qed.

Lemma remove_answer_fmts_spec (fmts : list (list Z)) pre ps del l answer kept :
  StronglySorted lt ps -> zlen fmts <= PJMEDIA_MAX_SDP_FMT ->
  Forall (fun p => (length pre + del <= p < length fmts)%nat) ps ->
  l = drop (length pre + del) fmts -> fmt answer = kept ++ l -> length kept = length pre ->
  let answer' := remove_answer_fmts (pre ++ ps) (length pre) (Z.of_nat del) l answer in
  line_of answer' = line_of answer /\
  fmt answer' = kept ++ omap (fun p => fmts !! p) ps /\ (fmt answer' `sublist_of` fmt answer) /\
  (NoDup (pt_of <$> fmt answer) ->
     forall g, g ∈ fmt answer' -> find_rtpmap answer' g = find_rtpmap answer g).
Proof.
  intros Hsort Hmax. unfold PJMEDIA_MAX_SDP_FMT, zlen in Hmax.
  revert pre ps del answer kept Hsort.
  induction l as [|f l IH]; intros pre ps del answer kept Hsort Hps Hl Hf Hlen answer'.
  { assert (length fmts <= length pre + del)%nat as Hge.
    { apply (f_equal length) in Hl. rewrite length_drop in Hl. cbn in Hl. lia. }
    destruct ps as [|p ps]; [|apply Forall_inv in Hps; lia]. subst answer'. cbn. by rewrite Hf. }
  symmetry in Hl. pose proof (f_equal head Hl) as Hh. rewrite head_lookup, lookup_drop, Nat.add_0_r in Hh.
  cbn in Hh. pose proof (lookup_lt_Some _ _ _ Hh) as Hlt.
  rewrite (drop_S _ _ _ Hh) in Hl. injection Hl as Hl.
  assert (match (pre ++ ps) !! length pre with
          | None => true
          | Some p => negb (u32 (Z.of_nat p - Z.of_nat del) =? Z.of_nat (length pre))
          end = negb (bool_decide (head ps = Some (length pre + del)%nat))) as Htest.
  { rewrite lookup_app_r, Nat.sub_diag by lia. destruct ps as [|p ps]; [done|]. cbn.
    apply Forall_inv in Hps. f_equal. rewrite u32_small by (unfold is_u32; lia).
    apply eq_bool_prop_intro. rewrite bool_decide_spec, Is_true_true, Z.eqb_eq.
    split; [intros; f_equal; lia|intros [= ->]; lia]. }
  subst answer'. cbn [remove_answer_fmts]. rewrite Htest. case_bool_decide as Hhd; cbn [negb].
  - destruct ps as [|p ps]; [done|]. injection Hhd as ->. inversion Hsort as [|? ? Hs' Hgt].
    subst. specialize (IH (pre ++ [(length pre + del)%nat]) ps del answer (kept ++ [f]) Hs').
    rewrite length_app in IH. cbn [length] in IH. rewrite <- !app_assoc in IH. cbn [app] in IH.
    replace (length pre + 1)%nat with (S (length pre)) in IH by lia.
    destruct IH as (Hl2 & Hf2 & Hsub & Hr2).
    + rewrite Forall_forall in *. intros q Hq. specialize (Hgt q Hq). specialize (Hps q).
      rewrite elem_of_cons in Hps. specialize (Hps (or_intror Hq)). lia.
    + done.
    + exact Hf.
    + rewrite length_app. cbn. lia.
    + split_and!; [done| |done|done]. rewrite Hf2. cbn. by rewrite Hh.
  - destruct (remove_one_fmt answer f kept l Hf) as (Hl1 & Hf1 & Hnd1). rewrite Hlen in Hl1, Hf1, Hnd1.
    cbn zeta. set (answer1 := _ <| fmt ::= _ |>) in *.
    replace (Z.of_nat del + 1) with (Z.of_nat (S del)) by lia.
    destruct (IH pre ps (S del) answer1 kept Hsort) as (Hl2 & Hf2 & Hsub & Hr2).
    + rewrite Forall_forall in *. intros q Hq. pose proof (Hps q Hq).
      assert (q <> length pre + del)%nat; [|lia]. intros ->. destruct Hhd.
      destruct Hsort as [|p ps Hs Hgt]; [by apply not_elem_of_nil in Hq|].
      pose proof (Hps p ltac:(left)). apply elem_of_cons in Hq as [->|Hq]; [done|].
      rewrite Forall_forall in Hgt. specialize (Hgt _ Hq). lia.
    + by replace (length pre + S del)%nat with (S (length pre + del)) by lia.
    + done.
    + done.
    + split_and!; [congruence|exact Hf2| |].
      * etransitivity; [exact Hsub|]. rewrite Hf1, Hf. apply sublist_app; [done|by apply sublist_cons].
      * intros Hnd. destruct (Hnd1 Hnd) as [Hnd2 Hr1]. intros g Hg. rewrite (Hr2 Hnd2 g Hg).
        apply Hr1. eapply elem_of_submseteq; [exact Hg|]. by apply sublist_submseteq.
Qed.

Lemma update_media_direction_rtpmap r m f :
  find_rtpmap (update_media_direction r m) f = find_rtpmap m f.
Proof. by rewrite !find_rtpmap_found, update_media_direction_found. Qed.

(** Pairs in the order of the answer. *)
Lemma agreeing_formats offer answer prior :
  Forall (fun q => exists h, fmt answer !! q.1 = Some h /\ answer_agrees offer q.2 answer h) prior ->
  Forall2 (fun f h => answer_agrees offer f answer h) prior.*2 (omap (fun p => fmt answer !! p) prior.*1).
Proof.
  induction 1 as [|[p f] prior (h & Hh & Ha) _ IH]; [constructor|]. cbn in *. rewrite Hh. by constructor.
Qed.

Lemma distinct_matches offer answer prior : one_match offer answer ->
  NoDup prior.*2 -> prior.*2 ⊆ fmt offer ->
  Forall (fun q => exists h, fmt answer !! q.1 = Some h /\ answer_agrees offer q.2 answer h) prior ->
  NoDup prior.*1.
Proof.
  intros Hone Hnd Hsub Hall. induction prior as [|[p f] prior IH]; [constructor|]. cbn in *.
  apply NoDup_cons in Hnd as [Hf Hnd]. apply Forall_cons in Hall as [(h & Hh & Ha) Hall]. cbn in *.
  constructor; [|apply IH; [done| |done]; set_solver].
  intros Hp. apply list_elem_of_fmap in Hp as ([p' g] & -> & Hg). cbn in *.
  rewrite Forall_forall in Hall. destruct (Hall _ Hg) as (h' & Hh' & Ha'). cbn in *.
  rewrite Hh in Hh'. injection Hh' as <-. destruct Hf.
  apply (list_elem_of_fmap_2 snd) in Hg as Hg2. cbn in Hg2.
  assert (f = g) as ->; [|done].
  apply (Hone f g h); [set_solver..|by eapply list_elem_of_lookup_2|done|done].
Qed.

(** The formats of a line that is accepted. *)
Lemma accepted_formats `{FmtMatchPromise} offer answer offer' answer' :
  zlen (fmt answer) <= PJMEDIA_MAX_SDP_FMT -> distinct_pts offer -> distinct_pts answer ->
  one_match offer answer -> port offer <> 0 -> port answer <> 0 ->
  process_m_answer offer answer false = Some (PJ_SUCCESS, offer', answer') ->
  line_of offer' = line_of offer /\ line_of answer' = line_of answer /\
  Forall2 (fun f h => answer_agrees offer f answer h) (fmt offer') (fmt answer') /\
  fmt offer' <> [] /\ fmt offer' ⊆ fmt offer /\ fmt answer' `sublist_of` fmt answer /\
  (forall f, f ∈ fmt offer' -> find_rtpmap offer' f = find_rtpmap offer f) /\
  (forall h, h ∈ fmt answer' -> find_rtpmap answer' h = find_rtpmap answer h) /\
  (fmt_match_cb = [] -> forall f h, f ∈ fmt offer -> h ∈ fmt answer ->
     answer_agrees offer f answer h -> f ∈ fmt offer').
Proof.
  intros Hmax Hdo Hda Hone Hpo Hpa. unfold process_m_answer.
  repeat (destruct (negb _); [done|]). rewrite !(proj2 (Z.eqb_neq _ _)) by done. cbn zeta.
  destruct (update_media_direction_line answer offer) as [Hl0 Hf0].
  pose proof (update_media_direction_rtpmap answer offer) as Hr0.
  set (o0 := update_media_direction answer offer) in *. clearbody o0.
  destruct (match_offer_fmts _ _ _ _) as [[[[st prior] o1] a1]|] eqn:Hm; [|done].
  cbn [mbind option_bind]. apply match_offer_fmts_spec in Hm as (Hl1 & Hk & Hres); [|done|by rewrite Hf0].
  case_bool_decide as Hst; cbn [negb]; [|by intros [= ? _ _]].
  destruct (Z.eqb_spec (zlen (fmt o1)) 0) as [|Hne]; [done|]. intros [= <- <-].
  destruct (Hres Hst) as (m & -> & Hfo & Hsub & Hall & Hrt & Hcomp). cbn [app] in *.
  rewrite Hf0 in Hsub. assert (m.*2 ⊆ fmt offer) as Hin.
  { intros g Hg. eapply elem_of_submseteq; [exact Hg|by apply sublist_submseteq]. }
  assert (Forall (fun q => exists h, fmt answer !! q.1 = Some h /\ answer_agrees offer q.2 answer h) m)
    as Hall1.
  { eapply Forall_impl; [exact Hall|]. intros q (h & Hh & Ha). exists h. split; [done|].
    by rewrite answer_agrees_offer in Ha. }
  assert (NoDup m.*2) as Hndm.
  { eapply sublist_NoDup; [|exact Hsub]. by eapply NoDup_fmap_1. }
  destruct (resort_spec m) as [Hperm Hsort]; [by eapply distinct_matches|].
  assert (Forall (fun q => exists h, fmt answer !! q.1 = Some h /\ answer_agrees offer q.2 answer h)
    (resort m)) as Hall2 by (by rewrite Hperm).
  pose proof Hk as (Hla & Hfa & Hra).
  destruct (remove_answer_fmts_spec (fmt answer) [] (resort m).*1 0 (fmt a1) a1 []) as (Hl2 & Hf2 & Hsub2 & Hr2);
    [done|done| |by rewrite drop_0|done|done|].
  { apply Forall_fmap. eapply Forall_impl; [exact Hall2|]. intros q (h & Hh & _).
    apply lookup_lt_Some in Hh. cbn. lia. }
  cbn zeta in Hl2, Hf2, Hsub2, Hr2. cbn [app length] in Hl2, Hf2, Hsub2, Hr2.
  change (Z.of_nat 0) with 0 in Hl2, Hf2, Hsub2, Hr2. split_and!.
  - rewrite <- Hl0, <- Hl1. done.
  - by rewrite Hl2, Hla.
  - change (Forall2 (fun f h => answer_agrees offer f answer h) (resort m).*2
      (fmt (remove_answer_fmts (resort m).*1 0 0 (fmt a1) a1))).
    rewrite Hf2. by apply agreeing_formats.
  - intros He. change ((resort m).*2 = []) in He. apply Hne. rewrite Hfo.
    apply fmap_nil_inv in He. rewrite He in Hperm. apply Permutation_nil_l in Hperm.
    destruct m; [done|by inversion Hperm].
  - intros f Hf. change (f ∈ (resort m).*2) in Hf. rewrite Hperm in Hf. by apply Hin.
  - by rewrite <- Hfa.
  - intros f Hf. change (f ∈ (resort m).*2) in Hf. rewrite Hperm in Hf.
    etransitivity; [|apply Hr0]. by apply Hrt.
  - intros h Hh. rewrite Hr2; [apply Hra|by rewrite Hfa|done].
  - intros Hcb f h Hf Hh Ha. change (f ∈ (resort m).*2). rewrite Hperm.
    apply (Hcomp Hcb f h); [by rewrite Hf0|done|]. by rewrite answer_agrees_offer.
Qed.

(** C5: when the remote's line answers ours, both keep the formats that match, and
    the two lines end up with equally many formats that match one for one, in the
    order of the answer; the formats left still have the [rtpmap]s they had.  The
    line has a format left, and without format callbacks no format that has a
    match is lost.  (The payload types of each line are distinct, and no format of
    the answer matches two of the offer.) *)
Theorem sdp_formats_agree `{FmtMatchPromise} offer answer offer' answer' :
  zlen (fmt answer) <= PJMEDIA_MAX_SDP_FMT -> distinct_pts offer -> distinct_pts answer ->
  one_match offer answer -> port offer <> 0 -> port answer <> 0 ->
  process_m_answer offer answer false = Some (PJ_SUCCESS, offer', answer') ->
  line_of offer' = line_of offer /\ line_of answer' = line_of answer /\
  Forall2 (fun f h => answer_agrees offer f answer h) (fmt offer') (fmt answer') /\
  fmt offer' <> [] /\ fmt offer' ⊆ fmt offer /\ fmt answer' `sublist_of` fmt answer /\
  (forall f, f ∈ fmt offer' -> find_rtpmap offer' f = find_rtpmap offer f) /\
  (forall h, h ∈ fmt answer' -> find_rtpmap answer' h = find_rtpmap answer h) /\
  (fmt_match_cb = [] -> forall f h, f ∈ fmt offer -> h ∈ fmt answer ->
     answer_agrees offer f answer h -> f ∈ fmt offer').
Proof. by apply accepted_formats. Qed.

Lemma sdp_formats_agree_witness :
  let offer := ex_audio 4000 ["96"; "0"; "101"]
    [ex_attr "rtpmap" "96 opus/48000/2"; ex_attr "rtpmap" "101 telephone-event/8000"] in
  let answer := ex_audio 6000 ["101"; "0"; "8"] [ex_attr "rtpmap" "101 telephone-event/8000"] in
  exists offer' answer',
    @process_m_answer no_callbacks offer answer false = Some (PJ_SUCCESS, offer', answer') /\
    fmt offer' = [pj_str "101"; pj_str "0"] /\ fmt answer' = [pj_str "101"; pj_str "0"] /\
    Forall2 (fun f h => answer_agrees offer f answer h) (fmt offer') (fmt answer').
Proof.
  intros offer answer. eexists _, _. split; [vm_compute; reflexivity|].
  split; [reflexivity|]. split; [reflexivity|].
  refine (proj1 (proj2 (proj2 (@sdp_formats_agree no_callbacks _ offer answer _ _ _ _ _ _ _ _ _)))).
  - intros cb o i a j opt f. reflexivity.
  - discriminate.
  - vm_compute. repeat constructor; set_solver.
  - vm_compute. repeat constructor; set_solver.
  - assert (forall f h, f ∈ fmt offer -> h ∈ fmt answer -> answer_agrees offer f answer h -> f = h) as Hex.
    { intros f h Hf Hh. cbn in Hf, Hh.
      repeat (apply elem_of_cons in Hf as [->|Hf]); [..|by apply not_elem_of_nil in Hf];
        repeat (apply elem_of_cons in Hh as [->|Hh]); try (by apply not_elem_of_nil in Hh);
        vm_compute; try done; intros (r & s & Hr & Hs & Hm & _); by simplify_eq. }
    intros f g h Hf Hg Hh Hfh Hgh. transitivity h; [by apply Hex|symmetry; by apply Hex].
  - discriminate.
  - discriminate.
  - vm_compute; reflexivity.
Defined.

(** ** The lines of a session after the answer *)

Section Lines.
Context `{FmtMatchPromise}.

(** Formats that can be told apart. *)
Definition plain_formats (om am : pjmedia_sdp_media) : Prop :=
  zlen (fmt am) <= PJMEDIA_MAX_SDP_FMT /\ distinct_pts om /\ distinct_pts am /\ one_match om am.

Definition no_common_format (om am : pjmedia_sdp_media) : Prop :=
  forall f h, f ∈ fmt om -> h ∈ fmt am -> ~ answer_agrees om f am h.

(** A line left active: its formats agree one for one. *)
Definition formats_left (om am om' am' : pjmedia_sdp_media) : Prop :=
  fmt om' <> [] /\
  (plain_formats om am ->
     fmt am' <> [] /\ Forall2 (fun f h => answer_agrees om f am h) (fmt om') (fmt am')).

(** What the remote's line [am] makes of our line [om]. *)
Definition line_answered (allow_asym : bool) (om am om' am' : pjmedia_sdp_media) : Prop :=
  media_type om' = media_type om /\ media_type am' = media_type om /\
  pjmedia_sdp_transport_cmp (transport am') (transport om') = PJ_SUCCESS /\
  (port om = 0 \/ port am = 0 -> port om' = 0) /\
  (port om <> 0 -> port om' = 0 <-> port am' = 0) /\
  (port om' <> 0 -> port om' = port om /\ port am' = port am) /\
  (allow_asym = false -> port om <> 0 -> port am <> 0 ->
     (port om' <> 0 -> formats_left om am om' am') /\
     (port om' = 0 -> distinct_pts om -> fmt_match_cb = [] -> no_common_format om am)).

(** A line that fails the answer. *)
Definition line_fails (allow_asym : bool) (om am : pjmedia_sdp_media) (st : pj_status) : Prop :=
  st = PJMEDIA_SDPNEG_EINVANSTP /\
    pjmedia_sdp_transport_cmp (transport am) (transport om) <> PJ_SUCCESS \/
  st = PJ_EBUG /\ allow_asym = false /\ exists f, f ∈ fmt om /\ 96 <= pt_of f /\
    (distinct_pts om -> find_rtpmap om f = Some None).

Lemma match_offer_fmts_line prior l offer answer st prior' offer' answer' :
  match_offer_fmts prior l offer answer = Some (st, prior', offer', answer') ->
  line_of offer' = line_of offer /\ line_of answer' = line_of answer /\
  (st = PJ_SUCCESS \/ st = PJ_EBUG) /\
  (fmt offer = prior.*2 ++ l -> st = PJ_SUCCESS -> fmt offer' = prior'.*2).
Proof.
  revert prior offer answer. induction l as [|f l IH]; intros prior offer answer Hm;
    cbn [match_offer_fmts] in Hm.
  { injection Hm as <- <- <- <-. rewrite app_nil_r. auto. }
  fold (pt_of f) in Hm.
  destruct (if pt_of f <? 96 then _ else _) as [[[j answer1]|]|] eqn:Hone; cbn [mbind option_bind] in Hm;
    [|injection Hm as <- <- <- <-; split_and!; [done..|by right|done]|done].
  apply match_one_spec in Hone as [(Hk & _) _]. cbn [snd] in Hk. case_bool_decide.
  - apply IH in Hm as (-> & -> & ? & Hf). split_and!; [|done..|].
    + rewrite line_of_fmt. apply remove_fmt_attrs_line.
    + intros Ho. apply Hf.
      change (delete (length prior) (fmt (remove_fmt_attrs offer f)) = prior.*2 ++ l).
      by rewrite (proj2 (remove_fmt_attrs_line offer f)), Ho, <- (length_fmap snd prior), delete_middle.
  - apply IH in Hm as (-> & -> & ? & Hf). split_and!; [done..|]. intros Ho. apply Hf.
    by rewrite Ho, (fmap_app snd), <- app_assoc.
Qed.

Lemma remove_answer_fmts_line prior i del l answer :
  line_of (remove_answer_fmts prior i del l answer) = line_of answer.
Proof.
  revert i del answer. induction l as [|f l IH]; intros i del answer; [done|]. cbn [remove_answer_fmts].
  destruct (match prior !! i with Some _ => _ | None => _ end); [|apply IH].
  rewrite IH, line_of_fmt. apply remove_fmt_attrs_line.
Qed.

(** What [process_m_answer] returns when the types match. *)
Definition line_processed (asym : bool) (om am : pjmedia_sdp_media) (st : pj_status)
    (om' am' : pjmedia_sdp_media) : Prop :=
  media_type om' = media_type om /\ transport om' = transport om /\ line_of am' = line_of am /\
  (line_fails asym om am st \/
   pjmedia_sdp_transport_cmp (transport am) (transport om) = PJ_SUCCESS /\
   (st = PJ_SUCCESS /\ (port am = 0 \/ port om = 0) /\ port om' = 0 \/
    st = PJ_SUCCESS /\ port am <> 0 /\ port om <> 0 /\ port om' = port om /\
      (asym = false -> formats_left om am om' am') \/
    st = PJMEDIA_SDPNEG_EANSNOMEDIA /\ port am <> 0 /\ port om <> 0 /\
      (asym = false -> distinct_pts om -> fmt_match_cb = [] -> no_common_format om am))).

Lemma process_m_answer_left om am om' am' :
  process_m_answer om am false = Some (PJ_SUCCESS, om', am') -> port om <> 0 -> port am <> 0 ->
  fmt om' <> [] -> formats_left om am om' am'.
Proof.
  intros Hp Ho Ha Hf. split; [done|]. intros (Hmax & Hdo & Hda & Hone).
  destruct (accepted_formats om am om' am' Hmax Hdo Hda Hone Ho Ha Hp) as (_ & _ & H2 & _).
  split; [|done]. intros He. rewrite He in H2. by inversion H2.
Qed.

Lemma process_m_answer_line om am asym st om' am' :
  process_m_answer om am asym = Some (st, om', am') -> media_type am = media_type om ->
  line_processed asym om am st om' am'.
Proof.
  intros Hp Hty. pose proof Hp as Hp0.
  unfold process_m_answer in Hp. rewrite strcmp_eqb, bool_decide_eq_true_2 in Hp by done.
  cbn [negb] in Hp. case_bool_decide as Htp; cbn [negb] in Hp;
    [|injection Hp as <- <- <-; split_and!; [done..|]; left; by left].
  destruct (Z.eqb_spec (port am) 0) as [Ha|Ha];
    [injection Hp as <- <- <-; split_and!; [done..|]; right; split; [done|]; left; by split_and!; [|left|]|].
  destruct (Z.eqb_spec (port om) 0) as [Ho|Ho];
    [injection Hp as <- <- <-; split_and!; [done..|]; right; split; [done|]; left; by split_and!; [|right|]|].
  cbn zeta in Hp. destruct (update_media_direction_line am om) as [Hl0 Hf0].
  pose proof (update_media_direction_rtpmap am om) as Hr0.
  set (o0 := update_media_direction am om) in *. clearbody o0. destruct asym.
  { apply line_of_type in Hl0 as (Ht0 & Htp0 & Hpt0). injection Hp as Hst <- <-.
    split_and!; [done..|]. right. split; [done|]. right. subst st. case_match; [left|right]; by split_and!. }
  destruct (match_offer_fmts _ _ _ _) as [[[[st1 prior] o1] a1]|] eqn:Hm; [|done].
  cbn [mbind option_bind] in Hp.
  pose proof (match_offer_fmts_line _ _ _ _ _ _ _ _ Hm) as (Hl1 & Hl2 & Hst1 & Hf1).
  assert (line_of o1 = line_of om) as Hlo by congruence.
  case_bool_decide as Hst; cbn [negb] in Hp.
  2: { injection Hp as <- <- <-. apply line_of_type in Hlo as (? & ? & ?). split_and!; [done..|]. left. right.
       destruct Hst1 as [->| ->]; [done|]. split_and!; [done..|].
       destruct (match_offer_fmts_ebug _ _ _ _ _ _ _ Hm eq_refl) as (f & Hf & Hpt & Hr).
       exists f. rewrite Hf0 in Hf. split_and!; [done..|]. intros Hd. rewrite <- Hr0. apply Hr. by rewrite Hf0. }
  subst st1. destruct (Z.eqb_spec (zlen (fmt o1)) 0) as [Hz|Hne]; injection Hp as <- <- <-.
  - apply line_of_type in Hlo as (? & ? & ?). split_and!; [done..|]. right. split; [done|]. right; right.
    split_and!; [done..|]. intros _ Hd Hcb f h Hf Hh Hag.
    apply match_offer_fmts_spec in Hm as (_ & Hk & Hres); [|done|by rewrite Hf0].
    destruct (Hres eq_refl) as (m & -> & Hfo & _ & _ & _ & Hcomp).
    assert (f ∈ m.*2) as Hin.
    { apply (Hcomp Hcb f h); [by rewrite Hf0|done|]. by rewrite answer_agrees_offer. }
    apply zlen_0 in Hz. rewrite Hz in Hfo. cbn [app] in Hfo. rewrite <- Hfo in Hin. by apply not_elem_of_nil in Hin.
  - apply line_of_type in Hlo as (? & ? & ?).
    split_and!; [done..|by rewrite remove_answer_fmts_line|]. right. split; [done|]. right; left.
    split_and!; [done..|]. intros _. eapply process_m_answer_left; [exact Hp0|done..|].
    intros He. change ((resort prior).*2 = []) in He. apply Hne.
    rewrite Hf1 by done. apply fmap_nil_inv in He.
    destruct (resort_loop_spec (length prior) prior ltac:(lia)) as [Hperm _].
    unfold resort in He. rewrite He in Hperm. apply Permutation_nil_l in Hperm.
    destruct prior; [done|by inversion Hperm].
Qed.

(** A line without a common format is disabled on both sides. *)
Lemma line_processed_answered asym om am st om' am' :
  line_processed asym om am st om' am' -> media_type am = media_type om ->
  (st = PJ_SUCCESS -> line_answered asym om am om' am') /\
  (st = PJMEDIA_SDPNEG_EANSNOMEDIA ->
     line_answered asym om am (pjmedia_sdp_media_deactivate om') (pjmedia_sdp_media_deactivate am')) /\
  (st <> PJ_SUCCESS -> st <> PJMEDIA_SDPNEG_EANSNOMEDIA -> line_fails asym om am st).
Proof.
  intros (Ht & Htp & Hla & Hcase) Hty. apply line_of_type in Hla as (Hta & Htpa & Hpa).
  destruct Hcase as [Hf|[Hcmp Hcase]].
  - split_and!; [| |done]; intros ->; by destruct Hf as [(? & _)|(? & _)].
  - destruct Hcase as [(-> & Hz & Hp)|[(-> & Ha & Ho & Hp & Hf)|(-> & Ha & Ho & Hf)]].
    + split_and!; [intros _|done|done]. unfold line_answered. rewrite Ht, Hta, Htp, Htpa, Hp, Hpa.
      split_and!; try done; intros; tauto.
    + split_and!; [intros _|done|done]. unfold line_answered. rewrite Ht, Hta, Htp, Htpa, Hp, Hpa.
      split_and!; try done; intros; tauto.
    + split_and!; [done|intros _|done]. unfold line_answered.
      cbn [port media_type transport pjmedia_sdp_media_deactivate].
      change (media_type (pjmedia_sdp_media_deactivate om')) with (media_type om').
      change (media_type (pjmedia_sdp_media_deactivate am')) with (media_type am').
      change (transport (pjmedia_sdp_media_deactivate om')) with (transport om').
      change (transport (pjmedia_sdp_media_deactivate am')) with (transport am').
      rewrite Ht, Hta, Htp, Htpa. split_and!; try done.
      intros Has _ _. split; [done|]. intros _. by apply Hf.
Qed.

(** The lines of our offer and of the answer, before and after. *)
Inductive lines_answered (conn : option pjmedia_sdp_conn) (asym : bool) :
    list pjmedia_sdp_media -> list pjmedia_sdp_media ->
    list pjmedia_sdp_media -> list pjmedia_sdp_media -> Prop :=
  | lines_extra ams : lines_answered conn asym [] ams [] ams
  | lines_missing om oms oms' ams' :
      lines_answered conn asym oms [] oms' ams' ->
      lines_answered conn asym (om :: oms) [] (pjmedia_sdp_media_deactivate om :: oms')
        (sdp_media_clone_deactivate om om conn :: ams')
  | lines_line om am oms ams om' am' oms' ams' :
      line_answered asym om am om' am' -> lines_answered conn asym oms ams oms' ams' ->
      lines_answered conn asym (om :: oms) (am :: ams) (om' :: oms') (am' :: ams').

Definition is_active (m : pjmedia_sdp_media) : bool := negb (port m =? 0).

Lemma process_answer_loop_spec conn asym k oms ams act st oms' ams' act' :
  process_answer_loop conn asym k oms ams act = Some (st, oms', ams', act') ->
  (forall i om am, oms !! i = Some om -> ams !! i = Some am -> media_type am = media_type om) ->
  st = PJ_SUCCESS /\ lines_answered conn asym oms ams oms' ams' /\ act' = act || existsb is_active oms' \/
  exists i om am, oms !! i = Some om /\ ams !! i = Some am /\ line_fails asym om am st.
Proof.
  revert k ams act oms' ams' act'. induction oms as [|om oms IH]; intros k ams act oms' ams' act' Hl Hty;
    cbn [process_answer_loop] in Hl.
  { injection Hl as <- <- <- <-. left. split_and!; [done|constructor|by rewrite orb_false_r]. }
  destruct ams as [|am ams].
  - case_match; [done|].
    destruct (process_answer_loop _ _ _ _ _ _) as [[[[st1 oms1] ams1] act1]|] eqn:Hrec; [|done].
    cbn [mbind option_bind] in Hl. injection Hl as <- <- <- <-.
    apply IH in Hrec as [(-> & Hlines & ->)|(i & ? & ? & _ & ? & _)]; [left|done|done].
    by split_and!; [|constructor|].
  - pose proof (Hty 0%nat om am eq_refl eq_refl) as Hty0.
    assert (forall i om am, oms !! i = Some om -> ams !! i = Some am -> media_type am = media_type om)
      as Hty1 by (intros i; apply (Hty (S i))).
    destruct (process_m_answer om am asym) as [[[st1 om1] am1]|] eqn:Hm; [|done].
    cbn [mbind option_bind] in Hl.
    apply process_m_answer_line in Hm as Hlp; [|done].
    destruct (line_processed_answered _ _ _ _ _ _ Hlp Hty0) as (Hok & Hno & Hfail).
    rewrite bool_decide_eq_false_2 in Hl
      by (intros ->; destruct Hfail as [[? _]|[? _]]; done). cbn zeta in Hl.
    case_bool_decide as Hn; [|case_bool_decide as Hs]; cbn [negb andb] in Hl.
    3: { injection Hl as <- <- <- <-. right. exists 0%nat, om, am. split_and!; [done..|]. by apply Hfail. }
    all: destruct (process_answer_loop _ _ _ _ _ _) as [[[[st2 oms1] ams1] act1]|] eqn:Hrec; [|done].
    all: cbn [mbind option_bind] in Hl; injection Hl as <- <- <- <-.
    all: apply IH in Hrec as [(-> & Hlines & ->)|(i & om2 & am2 & ? & ? & ?)];
      [left|right; by exists (S i), om2, am2|done].
    all: split_and!; [done|constructor; [|done]|cbn; by rewrite orb_assoc].
    + by apply Hno.
    + by apply Hok.
Qed.
End Lines.

(** C12: when the lines of the remote's answer have the types of ours, the answer
    is applied line by line. A line that the remote disables is disabled; a line
    that the answer lacks is disabled on both sides, lines of the answer without
    one of ours are left as they are. Of a line that we offer, either both sides
    are active, with the ports they had and compatible transports, or none is.
    Without [allow_asym] a line that neither side disables stays active only if our
    line has a format left and, where the formats can be told apart, so has the
    remote's, and they agree one for one; and it is disabled, without format
    callbacks, only if the lines have no common format. The status is success
    exactly when a line is left active; an answer that fails otherwise fails for
    a line whose transports are incompatible, or, without [allow_asym], for one
    with a dynamic format that has no [rtpmap] (or, where two formats have one
    payload type, has lost it with the other). *)
Theorem sdp_answer_line_by_line `{FmtMatchPromise} offer answer asym st offer' answer' :
  process_answer offer answer asym = Some (st, offer', answer') ->
  (forall i om am, media offer !! i = Some om -> media answer !! i = Some am ->
     media_type am = media_type om) ->
  offer' <| media := [] |> = offer <| media := [] |> /\
  answer' <| media := [] |> = answer <| media := [] |> /\
  (st = PJ_SUCCESS \/ st = PJMEDIA_SDPNEG_ENOMEDIA ->
     lines_answered (sess_conn offer) asym (media offer) (media answer) (media offer') (media answer') /\
     (st = PJ_SUCCESS <-> existsb is_active (media offer') = true)) /\
  (st <> PJ_SUCCESS -> st <> PJMEDIA_SDPNEG_ENOMEDIA ->
     exists i om am, media offer !! i = Some om /\ media answer !! i = Some am /\ line_fails asym om am st).
Proof.
  unfold process_answer. intros Hp Hty.
  destruct (process_answer_loop _ _ _ _ _ _) as [[[[st1 oms] ams] act]|] eqn:Hl; [|done].
  cbn [mbind option_bind] in Hp.
  apply process_answer_loop_spec in Hl as [(-> & Hlines & Hact)|(i & om & am & Hom & Ham & Hf)]; [| |done].
  - cbn in Hact. injection Hp as <- <- <-. split_and!; [done..| |].
    + intros _. split; [exact Hlines|].
      change (media (offer <| media := oms |>)) with oms. subst act.
      by destruct (existsb is_active oms).
    + by destruct act.
  - assert (st1 <> PJ_SUCCESS /\ st1 <> PJMEDIA_SDPNEG_ENOMEDIA) as [H1 H2].
    { by destruct Hf as [[-> _]|[-> _]]. }
    rewrite bool_decide_eq_false_2 in Hp by done. injection Hp as <- <- <-.
    split_and!; [done..|by intros [?|?]|]. intros _ _. by exists i, om, am.
Qed.

Lemma sdp_answer_line_by_line_witness :
  exists offer' answer',
    @process_answer no_callbacks ex_offer ex_answer false = Some (PJ_SUCCESS, offer', answer') /\
    fmt <$> media offer' = [[pj_str "101"; pj_str "0"]] /\
    lines_answered (H := no_callbacks) (sess_conn ex_offer) false (media ex_offer) (media ex_answer)
      (media offer') (media answer').
Proof.
  eexists _, _. split; [vm_compute; reflexivity|]. split; [reflexivity|].
  refine (proj1 (proj1 (proj2 (proj2 (@sdp_answer_line_by_line no_callbacks _ ex_offer ex_answer false
    PJ_SUCCESS _ _ _ _))) (or_introl eq_refl))).
  - intros cb o i a j opt f. reflexivity.
  - vm_compute; reflexivity.
  - intros [|i] om am Ho Ha; [by injection Ho as <-; injection Ha as <-|by destruct i].
Defined.
