(* ===== verification/SdpExchange.v ===== *)
(** * The offer/answer exchanges of an SDP negotiator

    The negotiator of SdpNeg under any sequence of calls: which descriptions it
    holds in each state, that its exchanges are those of RFC 3264 and which calls it
    allows beyond them, and what an exchange that fails leaves behind. *)

From stdpp Require Import list.
From Stdlib Require Import Strings.String.
From S2P Require Import Prelude PjString Scanner Sdp SdpNeg SdpNegProps.
Set Warnings "-clear-no-such-hyp".
Open Scope string_scope.
Open Scope list_scope.
Open Scope Z_scope.

(** ** Calls *)

Inductive neg_op :=
  | SetPreferRemoteCodecOrder (b : bool)
  | SetAnswerMultipleCodecs (b : bool)
  | ModifyLocalOffer (flags : Z) (local : pjmedia_sdp_session)
  | SendLocalOffer
  | SetRemoteAnswer (remote : pjmedia_sdp_session)
  | SetRemoteOffer (remote : pjmedia_sdp_session)
  | SetLocalAnswer (local : pjmedia_sdp_session)
  | CancelOffer
  | Negotiate (allow_asym : bool).

Section Exchange.
Context `{FmtMatchCb}.

Definition neg_step (n : pjmedia_sdp_neg) (op : neg_op) : option (pj_status * pjmedia_sdp_neg) :=
  match op with
  | SetPreferRemoteCodecOrder b => Some (PJ_SUCCESS, pjmedia_sdp_neg_set_prefer_remote_codec_order n b)
  | SetAnswerMultipleCodecs b => Some (PJ_SUCCESS, pjmedia_sdp_neg_set_answer_multiple_codecs n b)
  | ModifyLocalOffer flags local => pjmedia_sdp_neg_modify_local_offer2 n flags local
  | SendLocalOffer => let '(st, _, n) := pjmedia_sdp_neg_send_local_offer n in Some (st, n)
  | SetRemoteAnswer remote => Some (pjmedia_sdp_neg_set_remote_answer n remote)
  | SetRemoteOffer remote => Some (pjmedia_sdp_neg_set_remote_offer n remote)
  | SetLocalAnswer local => Some (pjmedia_sdp_neg_set_local_answer n local)
  | CancelOffer => Some (pjmedia_sdp_neg_cancel_offer n)
  | Negotiate allow_asym => pjmedia_sdp_neg_negotiate n allow_asym
  end.

Inductive reachable : pjmedia_sdp_neg -> Prop :=
  | reachable_local local n :
      pjmedia_sdp_neg_create_w_local_offer local = (PJ_SUCCESS, Some n) -> reachable n
  | reachable_remote initial remote n :
      pjmedia_sdp_neg_create_w_remote_offer initial remote = (PJ_SUCCESS, Some n) -> reachable n
  | reachable_step n op st n' : reachable n -> neg_step n op = Some (st, n') -> reachable n'.

(** ** The abstract exchange

    What is agreed (our description and the remote's), and the exchange under
    way. *)

Inductive exchange :=
  | Idle
  | Offered (o : pjmedia_sdp_session)                         (* ours, to the remote *)
  | AnswerReceived (o a : pjmedia_sdp_session)
  | OfferReceived (r : pjmedia_sdp_session)                   (* the remote's, to us *)
  | Answering (l r : pjmedia_sdp_session).

Definition agreement : Type := option (pjmedia_sdp_session * pjmedia_sdp_session).

(** The calls that the exchange under way allows. *)
Definition enabled (op : neg_op) (x : exchange) : bool :=
  match op, x with
  | SetPreferRemoteCodecOrder _, _ | SetAnswerMultipleCodecs _, _ => true
  | ModifyLocalOffer _ _, Idle | SetRemoteOffer _, Idle => true
  | SendLocalOffer, (Idle | Offered _) => true
  | SetRemoteAnswer _, Offered _ => true
  | SetLocalAnswer _, (OfferReceived _ | AnswerReceived _ _ | Answering _ _) => true
  | CancelOffer, (Offered _ | OfferReceived _) => true
  | Negotiate _, (AnswerReceived _ _ | Answering _ _) => true
  | _, _ => false
  end.

Definition with_version (v : Z) (s : pjmedia_sdp_session) : pjmedia_sdp_session :=
  s <| origin ::= fun o => o <| version := v |> |>.
Definition with_id (i : Z) (s : pjmedia_sdp_session) : pjmedia_sdp_session :=
  s <| origin ::= fun o => o <| origin_id := i |> |>.

(** The calls and their status. The rules are those of RFC 3264, and what the
    negotiator allows beyond them and its header: an offer that is out may be sent
    again, and in WAIT_NEGO a local answer may take the place of the description
    of ours that is waiting, an answer or an offer. A modified offer has the origin
    of the description agreed on with the next version, one sent again has it with
    its version; our answer to an offer has the version next to the one agreed on.
    Cancelling our offer moves the version agreed on, so that the next modified
    offer is not taken for the cancelled one. A call that is not allowed, and one
    that fails, changes nothing that is agreed. *)
Inductive oa_step : neg_op -> pj_status -> agreement * exchange -> agreement * exchange -> Prop :=
  | oa_refused op s : enabled op s.2 = false -> oa_step op PJMEDIA_SDPNEG_EINSTATE s s
  | oa_set_order b s : oa_step (SetPreferRemoteCodecOrder b) PJ_SUCCESS s s
  | oa_set_multiple b s : oa_step (SetAnswerMultipleCodecs b) PJ_SUCCESS s s
  | oa_invalid flags local g :
      pjmedia_sdp_validate local <> PJ_SUCCESS ->
      oa_step (ModifyLocalOffer flags local) (pjmedia_sdp_validate local) (g, Idle) (g, Idle)
  | oa_modify flags local l r o :
      origin o = origin (bump_version l) ->
      oa_step (ModifyLocalOffer flags local) PJ_SUCCESS (Some (l, r), Idle) (Some (l, r), Offered o)
  | oa_send l r : oa_step SendLocalOffer PJ_SUCCESS (Some (l, r), Idle) (Some (l, r), Offered l)
  | oa_send_again g o : oa_step SendLocalOffer PJ_SUCCESS (g, Offered o) (g, Offered o)
  | oa_send_nothing : oa_step SendLocalOffer PJMEDIA_SDPNEG_ENOACTIVE (None, Idle) (None, Idle)
  | oa_answer_received g o a :
      oa_step (SetRemoteAnswer a) PJ_SUCCESS (g, Offered o) (g, AnswerReceived o a)
  | oa_offer_received g r : oa_step (SetRemoteOffer r) PJ_SUCCESS (g, Idle) (g, OfferReceived r)
  | oa_answer g l i r :
      oa_step (SetLocalAnswer l) PJ_SUCCESS (g, OfferReceived r) (g, Answering (with_id i l) r)
  | oa_replace_answer g l l' i r :
      oa_step (SetLocalAnswer l') PJ_SUCCESS (g, Answering l r) (g, Answering (with_id i l') r)
  | oa_replace_offer g o o' i a :
      oa_step (SetLocalAnswer o') PJ_SUCCESS (g, AnswerReceived o a) (g, AnswerReceived (with_id i o') a)
  | oa_cancel_local g o :
      oa_step CancelOffer PJ_SUCCESS (g, Offered o) ((fun '(l, r) => (bump_version l, r)) <$> g, Idle)
  | oa_cancel_remote g r : oa_step CancelOffer PJ_SUCCESS (g, OfferReceived r) (g, Idle)
  | oa_fail asym st g x :
      enabled (Negotiate asym) x = true -> st <> PJ_SUCCESS -> oa_step (Negotiate asym) st (g, x) (g, Idle)
  | oa_agree_local g o a asym o' a' :
      process_answer o a asym = Some (PJ_SUCCESS, o', a') -> origin o' = origin o ->
      oa_step (Negotiate asym) PJ_SUCCESS (g, AnswerReceived o a) (Some (o', a'), Idle)
  | oa_agree_remote g l r p multi asym l' v :
      create_answer p multi (Some l) r = Some (PJ_SUCCESS, Some l') ->
      (forall l0 r0, g = Some (l0, r0) -> v = u32 (version (origin l0) + 1)) ->
      oa_step (Negotiate asym) PJ_SUCCESS (g, Answering l r) (Some (with_version v l', r), Idle).

(** What a step changes of the agreement, and a call that is not allowed. *)
Lemma oa_step_agreed op st s s' : oa_step op st s s' ->
  s'.1 = s.1 \/ (st = PJ_SUCCESS /\
    ((exists asym, op = Negotiate asym) \/
     (op = CancelOffer /\ (exists o, s.2 = Offered o) /\
      s'.1 = (fun '(l, r) => (bump_version l, r)) <$> s.1))).
Proof. destruct 1; cbn; eauto 8. Qed.

Lemma oa_step_refused op st s s' : oa_step op st s s' -> enabled op s.2 = false ->
  st = PJMEDIA_SDPNEG_EINSTATE /\ s' = s.
Proof. destruct 1; cbn in *; try done; intros; congruence. Qed.

Definition agreed_of (n : pjmedia_sdp_neg) : agreement :=
  l ← active_local_sdp n; r ← active_remote_sdp n; Some (l, r).
Definition exchange_of (n : pjmedia_sdp_neg) : exchange :=
  match state n, neg_local_sdp n, neg_remote_sdp n with
  | PJMEDIA_SDP_NEG_STATE_LOCAL_OFFER, Some o, _ => Offered o
  | PJMEDIA_SDP_NEG_STATE_REMOTE_OFFER, _, Some r => OfferReceived r
  | PJMEDIA_SDP_NEG_STATE_WAIT_NEGO, Some l, Some r =>
      if has_remote_answer n then AnswerReceived l r else Answering l r
  | _, _, _ => Idle
  end.
Definition abs (n : pjmedia_sdp_neg) : agreement * exchange := (agreed_of n, exchange_of n).

(** ** The invariant

    Which descriptions the negotiator holds in each state. *)
Record neg_wf (n : pjmedia_sdp_neg) : Prop := {
  wf_active : is_Some (active_local_sdp n) <-> is_Some (active_remote_sdp n);
  wf_initial : is_Some (active_local_sdp n) -> is_Some (initial_sdp n);
  wf_answer : has_remote_answer n = true -> state n = PJMEDIA_SDP_NEG_STATE_WAIT_NEGO;
  wf_state :
    match state n with
    | PJMEDIA_SDP_NEG_STATE_NULL => False
    | PJMEDIA_SDP_NEG_STATE_LOCAL_OFFER =>
        is_Some (initial_sdp n) /\ is_Some (neg_local_sdp n) /\ neg_remote_sdp n = None /\
        (is_Some (active_local_sdp n) -> is_Some (initial_sdp_tmp n))
    | PJMEDIA_SDP_NEG_STATE_REMOTE_OFFER =>
        is_Some (neg_remote_sdp n) /\ neg_local_sdp n = None /\ initial_sdp_tmp n = None
    | PJMEDIA_SDP_NEG_STATE_WAIT_NEGO =>
        is_Some (initial_sdp n) /\ is_Some (neg_local_sdp n) /\ is_Some (neg_remote_sdp n) /\
        (is_Some (active_local_sdp n) -> is_Some (initial_sdp_tmp n))
    | PJMEDIA_SDP_NEG_STATE_DONE =>
        neg_local_sdp n = None /\ neg_remote_sdp n = None /\ initial_sdp_tmp n = None
    end }.

(** A step that keeps the invariant and is one of the abstract steps. *)
Definition step_ok (op : neg_op) (st : pj_status) (n n' : pjmedia_sdp_neg) : Prop :=
  neg_wf n' /\ oa_step op st (abs n) (abs n').

Lemma create_local_wf local n :
  pjmedia_sdp_neg_create_w_local_offer local = (PJ_SUCCESS, Some n) -> neg_wf n.
Proof.
  unfold pjmedia_sdp_neg_create_w_local_offer. cbn zeta. destruct (negb _); [done|].
  intros [= <-]. split; cbn; try done; try (by intros []); by split_and!; eauto.
Qed.

Lemma create_remote_wf initial remote n :
  pjmedia_sdp_neg_create_w_remote_offer initial remote = (PJ_SUCCESS, Some n) -> neg_wf n.
Proof.
  unfold pjmedia_sdp_neg_create_w_remote_offer. cbn zeta. destruct (negb _); [done|].
  destruct initial as [i|]; [destruct (negb _); [done|]|]; intros [= <-];
    split; cbn; try done; try (by intros []); by split_and!; eauto.
Qed.

Lemma in_state_true n s : in_state n s = true <-> state n = s.
Proof. unfold in_state. apply bool_decide_eq_true. Qed.

(** Opens the record, the invariant and the descriptions that a state has. *)
Ltac open_neg n :=
  destruct n as [s p m hra awr ini tmp al ar nl nr];
  intros Hwf; pose proof Hwf as [Hact Hini Hans Hst]; cbn in Hact, Hini, Hans, Hst.

Ltac close_wf := split; cbn; try done; try (by intros []); try (by split_and!; eauto).

(** A call in a state that does not allow it. *)
Lemma step_refused op n : neg_wf n -> enabled op (exchange_of n) = false ->
  step_ok op PJMEDIA_SDPNEG_EINSTATE n n.
Proof. split; [done|by apply oa_refused]. Qed.

Lemma in_state_false n s : in_state n s = false <-> state n <> s.
Proof. unfold in_state. apply bool_decide_eq_false. Qed.

(** What the invariant says of the exchange, in each state. *)
Lemma exchange_cases n : neg_wf n ->
  match state n, exchange_of n with
  | PJMEDIA_SDP_NEG_STATE_LOCAL_OFFER, Offered _
  | PJMEDIA_SDP_NEG_STATE_REMOTE_OFFER, OfferReceived _
  | PJMEDIA_SDP_NEG_STATE_WAIT_NEGO, (AnswerReceived _ _ | Answering _ _)
  | PJMEDIA_SDP_NEG_STATE_DONE, Idle => True
  | _, _ => False
  end.
Proof.
  intros [_ _ _ Hst]. unfold exchange_of. destruct (state n); [done|..].
  - destruct Hst as (_ & [o ->] & _). done.
  - destruct Hst as ([r Hr] & Hl & _). by rewrite ?Hl, Hr.
  - destruct Hst as (_ & [l ->] & [r ->] & _). by destruct (has_remote_answer n).
  - destruct Hst as (Hl & Hr & _). by rewrite ?Hl, ?Hr.
Qed.

Ltac wrong_state :=
  apply step_refused; [done|];
  match goal with Hwf : neg_wf ?m |- _ => pose proof (exchange_cases m Hwf) end;
  repeat match goal with Hs : in_state _ _ = false |- _ => apply in_state_false in Hs; cbn in Hs end;
  cbn [state] in *; by repeat case_match.
Ltac refused := intros [= <- <-]; wrong_state.

Lemma modify_ok n flags local st n' : neg_wf n ->
  pjmedia_sdp_neg_modify_local_offer2 n flags local = Some (st, n') ->
  step_ok (ModifyLocalOffer flags local) st n n'.
Proof.
  open_neg n. unfold pjmedia_sdp_neg_modify_local_offer2. cbn zeta.
  destruct (in_state _ _) eqn:Hs; cbn [negb]; [|refused].
  apply in_state_true in Hs. cbn in Hs. subst s. cbn in Hst. destruct Hst as (-> & -> & ->).
  case_bool_decide as Hv; cbn [negb]; [|intros [= <- <-]; split; [done|by apply oa_invalid] ].
  cbn [active_local_sdp]. destruct al as [old|]; [|done]. cbn [mbind option_bind].
  destruct (if _ =? 0 then _ else _) as [nms|]; [|done]. cbn [mbind option_bind].
  intros [= <- <-].
  assert (is_Some ar) as [r ->] by (apply Hact; eauto). assert (is_Some ini) as [i ->] by eauto.
  split; [|by apply oa_modify]. close_wf. intros Hra. by specialize (Hans Hra).
Qed.

Lemma send_ok n st o n' : neg_wf n ->
  pjmedia_sdp_neg_send_local_offer n = (st, o, n') -> step_ok SendLocalOffer st n n'.
Proof.
  open_neg n. unfold pjmedia_sdp_neg_send_local_offer.
  destruct (in_state _ _) eqn:Hs.
  - apply in_state_true in Hs. cbn in Hs. subst s. cbn in Hst. destruct Hst as (-> & -> & ->).
    cbn [active_local_sdp].
    destruct al as [old|]; [|intros [= <- <- <-]; split; [done|apply oa_send_nothing] ].
    assert (is_Some ar) as [r ->] by (apply Hact; eauto). assert (is_Some ini) as [i ->] by eauto.
    intros [= <- <- <-]. split; [|apply oa_send]. close_wf.
    intros Hra. by specialize (Hans Hra).
  - destruct (in_state _ PJMEDIA_SDP_NEG_STATE_LOCAL_OFFER) eqn:Hs2.
    + apply in_state_true in Hs2. cbn in Hs2. subst s. cbn in Hst. destruct Hst as (_ & [o0 ->] & -> & _).
      intros [= <- <- <-]. split; [done|apply oa_send_again].
    + intros [= <- <- <-]. wrong_state.
Qed.

Lemma remote_answer_ok n r st n' : neg_wf n ->
  pjmedia_sdp_neg_set_remote_answer n r = (st, n') -> step_ok (SetRemoteAnswer r) st n n'.
Proof.
  open_neg n. unfold pjmedia_sdp_neg_set_remote_answer.
  destruct (in_state _ _) eqn:Hs; cbn [negb]; [|refused].
  apply in_state_true in Hs. cbn in Hs. subst s. cbn in Hst. destruct Hst as ([i ->] & [o ->] & -> & Htmp).
  intros [= <- <-]. split; [|apply oa_answer_received]. close_wf.
Qed.

Lemma remote_offer_ok n r st n' : neg_wf n ->
  pjmedia_sdp_neg_set_remote_offer n r = (st, n') -> step_ok (SetRemoteOffer r) st n n'.
Proof.
  open_neg n. unfold pjmedia_sdp_neg_set_remote_offer.
  destruct (in_state _ _) eqn:Hs; cbn [negb]; [|refused].
  apply in_state_true in Hs. cbn in Hs. subst s. cbn in Hst. destruct Hst as (-> & -> & ->).
  intros [= <- <-]. split; [|apply oa_offer_received]. close_wf.
  intros Hra. by specialize (Hans Hra).
Qed.

Lemma with_id_same l : with_id (origin_id (origin l)) l = l.
Proof. by destruct l as [[] ]. Qed.

Lemma local_answer_ok n l st n' : neg_wf n ->
  pjmedia_sdp_neg_set_local_answer n l = (st, n') -> step_ok (SetLocalAnswer l) st n n'.
Proof.
  open_neg n. unfold pjmedia_sdp_neg_set_local_answer.
  destruct (in_state _ PJMEDIA_SDP_NEG_STATE_REMOTE_OFFER) eqn:Hs; cbn [orb negb].
  - apply in_state_true in Hs. cbn in Hs. subst s. cbn in Hst. destruct Hst as ([r ->] & -> & ->).
    destruct hra; [by specialize (Hans eq_refl)|].
    destruct ini as [i|]; intros [= <- <-]; (split; [close_wf|]); [apply oa_answer|].
    pose proof (oa_answer (agreed_of (SdpNeg PJMEDIA_SDP_NEG_STATE_DONE p m false awr None None al ar None None))
      l (origin_id (origin l)) r) as Ho. rewrite with_id_same in Ho. exact Ho.
  - destruct (in_state _ PJMEDIA_SDP_NEG_STATE_WAIT_NEGO) eqn:Hs2; cbn [negb]; [|refused].
    apply in_state_true in Hs2. cbn in Hs2. subst s. cbn in Hst.
    destruct Hst as ([i ->] & [l0 ->] & [r ->] & Htmp).
    intros [= <- <-]. split; [close_wf|]. destruct hra; [apply oa_replace_offer|apply oa_replace_answer].
Qed.

Lemma cancel_ok n st n' : neg_wf n ->
  pjmedia_sdp_neg_cancel_offer n = (st, n') -> step_ok CancelOffer st n n'.
Proof.
  open_neg n. unfold pjmedia_sdp_neg_cancel_offer. cbn zeta.
  destruct (in_state _ PJMEDIA_SDP_NEG_STATE_LOCAL_OFFER) eqn:Hs; cbn [orb negb].
  - apply in_state_true in Hs. cbn in Hs. subst s. cbn in Hst.
    destruct Hst as ([i ->] & [o ->] & -> & Htmp).
    destruct hra; [by specialize (Hans eq_refl)|]. intros [= <- <-]. split.
    + close_wf; cbn; rewrite ?fmap_is_Some; done.
    + destruct al as [l|], ar as [r|];
        [exact (oa_cancel_local (Some (l, r)) o)|exact (oa_cancel_local None o)..].
  - destruct (in_state _ PJMEDIA_SDP_NEG_STATE_REMOTE_OFFER) eqn:Hs2; cbn [negb]; [|refused].
    apply in_state_true in Hs2. cbn in Hs2. subst s. cbn in Hst. destruct Hst as ([r ->] & -> & ->).
    destruct hra; [by specialize (Hans eq_refl)|]. intros [= <- <-]. split; [close_wf|apply oa_cancel_remote].
Qed.

Lemma process_answer_origin o a asym st o' a' :
  process_answer o a asym = Some (st, o', a') -> origin o' = origin o.
Proof.
  unfold process_answer. destruct (process_answer_loop _ _ _ _ _ _) as [[[[? ?] ?] ?]|]; [|done].
  cbn [mbind option_bind]. destruct (negb _); by intros [= <- <- <-].
Qed.

(** The end of a negotiation. *)
Lemma negotiate_ok n asym st n' : neg_wf n ->
  pjmedia_sdp_neg_negotiate n asym = Some (st, n') -> step_ok (Negotiate asym) st n n'.
Proof.
  open_neg n. unfold pjmedia_sdp_neg_negotiate.
  destruct (in_state _ _) eqn:Hs; cbn [negb]; [|refused].
  apply in_state_true in Hs. cbn in Hs. subst s. cbn in Hst.
  destruct Hst as ([i ->] & [l ->] & [r ->] & Htmp). cbn [neg_remote_sdp has_remote_answer neg_local_sdp].
  destruct hra.
  - destruct (process_answer l r asym) as [[[st1 o'] a']|] eqn:Hp; [|done]. cbn [mbind option_bind].
    case_bool_decide as Hst1; intros [= <- <-].
    + subst st1. split; [close_wf|]. eapply oa_agree_local; [exact Hp|].
      by eapply process_answer_origin.
    + split; [close_wf|]. by apply oa_fail.
  - destruct (create_answer _ _ _ _) as [[st1 ans]|] eqn:Hc; [|done]. cbn [mbind option_bind].
    case_bool_decide as Hst1.
    + subst st1. destruct ans as [ans|]; [|done]. cbn [mbind option_bind active_local_sdp initial_sdp].
      destruct al as [al|]; intros [= <- <-]; (split; [close_wf|]).
      * eapply oa_agree_remote; [exact Hc|]. cbn. intros l0 r0 Hg.
        destruct ar; [|done]. by injection Hg as <- <-.
      * eapply oa_agree_remote; [exact Hc|]. done.
    + intros [= <- <-]. rewrite (bool_decide_eq_false_2 _ Hst1). split; [close_wf|]. by apply oa_fail.
Qed.

Lemma neg_step_ok n op st n' : neg_wf n -> neg_step n op = Some (st, n') -> step_ok op st n n'.
Proof.
  intros Hwf. destruct op; cbn [neg_step].
  - intros [= <- <-]. destruct n, Hwf as [? ? ? ?]. split; [by close_wf|constructor].
  - intros [= <- <-]. destruct n, Hwf as [? ? ? ?]. split; [by close_wf|constructor].
  - by apply modify_ok.
  - destruct (pjmedia_sdp_neg_send_local_offer n) as [[st1 o] n1] eqn:Hs. intros [= <- <-].
    by eapply send_ok.
  - intros [= Hs]. by eapply remote_answer_ok.
  - intros [= Hs]. by eapply remote_offer_ok.
  - intros [= Hs]. by eapply local_answer_ok.
  - intros [= Hs]. by eapply cancel_ok.
  - by apply negotiate_ok.
Qed.

Lemma neg_reachable_wf n : reachable n -> neg_wf n.
Proof.
  induction 1; [by eapply create_local_wf|by eapply create_remote_wf|]. by eapply neg_step_ok.
Qed.

(** ** An exchange that fails *)

(** Calls none of which is a successful negotiation, with the number of offers of
    ours that they cancel, and whether a local answer is set after the remote has
    answered. *)
Definition cancels (n : pjmedia_sdp_neg) (op : neg_op) : nat :=
  match op with
  | CancelOffer => if in_state n PJMEDIA_SDP_NEG_STATE_LOCAL_OFFER then 1 else 0
  | _ => 0
  end.
Definition answers_late (n : pjmedia_sdp_neg) (op : neg_op) : bool :=
  match op with SetLocalAnswer _ => has_remote_answer n | _ => false end.

Inductive failing_run : nat -> bool -> pjmedia_sdp_neg -> pjmedia_sdp_neg -> Prop :=
  | failing_refl n : failing_run 0 false n n
  | failing_step k late n op st n1 n2 :
      neg_step n op = Some (st, n1) ->
      (forall asym, op = Negotiate asym -> st <> PJ_SUCCESS) ->
      failing_run k late n1 n2 ->
      failing_run (cancels n op + k) (answers_late n op || late) n n2.

Lemma failing_next k late k' late' n op st n1 n2 :
  neg_step n op = Some (st, n1) -> (forall asym, op = Negotiate asym -> st <> PJ_SUCCESS) ->
  k' = (cancels n op + k)%nat -> late' = (answers_late n op || late)%bool ->
  failing_run k late n1 n2 -> failing_run k' late' n n2.
Proof. intros ? ? -> -> ?. by eapply failing_step. Qed.

(** What an exchange that started from [initial], [l] and [r] keeps. *)
Definition kept_back (initial : option pjmedia_sdp_session) (l r : pjmedia_sdp_session)
    (late : bool) (n : pjmedia_sdp_neg) : Prop :=
  active_remote_sdp n = Some r /\ active_local_sdp n = Some l /\
  (late = false ->
   match state n with
   | PJMEDIA_SDP_NEG_STATE_LOCAL_OFFER => initial_sdp_tmp n = initial
   | PJMEDIA_SDP_NEG_STATE_WAIT_NEGO =>
       initial_sdp_tmp n = initial /\ (has_remote_answer n = false -> initial_sdp n = initial)
   | _ => initial_sdp n = initial
   end).

Ltac open_kept n :=
  destruct n as [s p m hra awr ini tmp al ar nl nr];
  intros [Hact Hini Hans Hst] (Hr & Hl & Hs); cbn in Hact, Hini, Hans, Hst, Hr, Hl, Hs;
  subst al ar.

Lemma kept_back_step initial l r late n op st n' :
  neg_wf n -> kept_back initial l r late n -> neg_step n op = Some (st, n') ->
  (forall asym, op = Negotiate asym -> st <> PJ_SUCCESS) ->
  kept_back initial (Nat.iter (cancels n op) bump_version l) r (answers_late n op || late) n'.
Proof.
  assert (forall s p m hra awr ini tmp l' nl nr,
    (late = false ->
     match s with
     | PJMEDIA_SDP_NEG_STATE_LOCAL_OFFER => tmp = initial
     | PJMEDIA_SDP_NEG_STATE_WAIT_NEGO => tmp = initial /\ (hra = false -> ini = initial)
     | _ => ini = initial
     end) -> kept_back initial l' r late (SdpNeg s p m hra awr ini tmp (Some l') (Some r) nl nr)) as Hk.
  { intros. by split_and!. }
  open_kept n. intros Hop Hnego. assert (is_Some ini) as [i ->] by eauto.
  destruct op as [b|b|flags lo| |a|o|lo| |asym]; cbn [neg_step] in Hop; cbn [cancels answers_late orb Nat.iter].
  - injection Hop as <- <-. by apply Hk.
  - injection Hop as <- <-. by apply Hk.
  - unfold pjmedia_sdp_neg_modify_local_offer2 in Hop. cbn zeta in Hop.
    destruct (in_state _ _) eqn:Hd; cbn [negb] in Hop; [|injection Hop as <- <-; by apply Hk].
    apply in_state_true in Hd. cbn in Hd. subst s. destruct (negb _); [injection Hop as <- <-; by apply Hk|].
    cbn [active_local_sdp mbind option_bind] in Hop. destruct (if _ =? 0 then _ else _); [|done].
    injection Hop as <- <-. by apply Hk.
  - unfold pjmedia_sdp_neg_send_local_offer in Hop. destruct (in_state _ _) eqn:Hd.
    + apply in_state_true in Hd. cbn in Hd. subst s. injection Hop as <- <-. by apply Hk.
    + destruct (in_state _ PJMEDIA_SDP_NEG_STATE_LOCAL_OFFER); injection Hop as <- <-; by apply Hk.
  - unfold pjmedia_sdp_neg_set_remote_answer in Hop. destruct (in_state _ _) eqn:Hd; cbn [negb] in Hop;
      injection Hop as <- <-; [|by apply Hk].
    apply in_state_true in Hd. cbn in Hd. subst s. apply Hk. intros Hla. split; [by apply Hs|done].
  - unfold pjmedia_sdp_neg_set_remote_offer in Hop. destruct (in_state _ _) eqn:Hd; cbn [negb] in Hop;
      injection Hop as <- <-; [|by apply Hk].
    apply in_state_true in Hd. cbn in Hd. subst s. by apply Hk.
  - unfold pjmedia_sdp_neg_set_local_answer in Hop.
    destruct (in_state _ PJMEDIA_SDP_NEG_STATE_REMOTE_OFFER) eqn:Hd; cbn [orb negb] in Hop.
    + apply in_state_true in Hd. cbn in Hd. subst s. injection Hop as <- <-.
      split_and!; [done..|]. intros [_ Hla]%orb_false_iff. rewrite (Hs Hla). by split.
    + destruct (in_state _ PJMEDIA_SDP_NEG_STATE_WAIT_NEGO) eqn:Hd2; cbn [negb] in Hop;
        injection Hop as <- <-; (split_and!; [done..|]); intros [Hra Hla]%orb_false_iff; [|by apply Hs].
      apply in_state_true in Hd2. cbn in Hd2. subst s. cbn in *. destruct (Hs Hla) as [_ Hi].
      specialize (Hi Hra). by split.
  - unfold pjmedia_sdp_neg_cancel_offer in Hop. cbn zeta in Hop.
    destruct (in_state _ PJMEDIA_SDP_NEG_STATE_LOCAL_OFFER) eqn:Hd; cbn [orb negb] in Hop.
    + apply in_state_true in Hd. cbn in Hd. subst s. injection Hop as <- <-. by apply Hk.
    + destruct (in_state _ PJMEDIA_SDP_NEG_STATE_REMOTE_OFFER) eqn:Hd2; cbn [negb] in Hop;
        injection Hop as <- <-; [|by apply Hk].
      apply in_state_true in Hd2. cbn in Hd2. subst s. by apply Hk.
  - specialize (Hnego asym eq_refl). unfold pjmedia_sdp_neg_negotiate in Hop.
    destruct (in_state _ _) eqn:Hd; cbn [negb] in Hop; [|injection Hop as <- <-; by apply Hk].
    apply in_state_true in Hd. cbn in Hd. subst s. cbn in Hst. destruct Hst as (_ & [lo ->] & [ro ->] & _).
    cbn [neg_remote_sdp has_remote_answer neg_local_sdp] in Hop.
    assert (late = false -> tmp = initial) as Htmp by (intros Hla; by destruct (Hs Hla)). destruct hra.
    + destruct (process_answer _ _ _) as [[[st1 o'] a']|]; [|done]. cbn [mbind option_bind] in Hop.
      case_bool_decide as Hst1; injection Hop as <- <-; [done|]. by apply Hk.
    + destruct (create_answer _ _ _ _) as [[st1 ans]|]; [|done]. cbn [mbind option_bind] in Hop.
      case_bool_decide as Hst1.
      * destruct ans; [|done]. cbn [mbind option_bind active_local_sdp] in Hop. injection Hop as <- <-. done.
      * injection Hop as <- <-. rewrite (bool_decide_eq_false_2 _ Hst1). by apply Hk.
Qed.

Lemma kept_back_run initial l r k late' late n n' :
  neg_wf n -> kept_back initial l r late n -> failing_run k late' n n' ->
  neg_wf n' /\ kept_back initial (Nat.iter k bump_version l) r (late' || late) n'.
Proof.
  intros Hwf Hk Hrun. revert l late Hk.
  induction Hrun as [n|k late' n op st n1 n2 Hop Hnego _ IH]; intros l late Hk; [done|].
  eapply kept_back_step in Hk; [|done..].
  destruct (IH ltac:(by eapply neg_step_ok) _ _ Hk) as [Hwf2 Hk2]. split; [done|].
  rewrite Nat.add_comm, Nat.iter_add.
  replace (answers_late n op || late' || late)%bool with (late' || (answers_late n op || late))%bool; [done|].
  by destruct late', (answers_late n op), late.
Qed.

(** ** A modified offer *)

Lemma find_media_spec ni type l k m : find_media ni type l = Some (k, m) ->
  (ni <= k)%nat /\ l !! (k - ni)%nat = Some m /\ media_type m = type.
Proof.
  revert ni. induction l as [|x l IH]; intros ni; [done|]. cbn [find_media]. rewrite strcmp_eqb.
  case_bool_decide as Ht.
  - intros [= <- <-]. by rewrite Nat.sub_diag.
  - intros Hf. apply IH in Hf as (? & ? & ?). replace (k - ni)%nat with (S (k - S ni)) by lia.
    split_and!; [lia|done|done].
Qed.

Lemma array_insert_move {A} count pos (v : A) l : (pos <= count)%nat -> l !! count = Some v ->
  array_insert count pos v l ≡ₚ l /\ take (S pos) (array_insert count pos v l) = take pos l ++ [v].
Proof.
  intros Hp Hc. pose proof (lookup_lt_Some _ _ _ Hc). unfold array_insert. split.
  - rewrite <- Permutation_middle. rewrite <- (take_drop_middle _ _ _ Hc) at 4.
    rewrite <- Permutation_middle, app_assoc. apply Permutation_skip, Permutation_app_tail.
    rewrite <- (take_drop pos (take count l)) at 2. by rewrite take_take, Nat.min_l.
  - rewrite take_app, take_take, Nat.min_r, length_take, Nat.min_l by lia.
    by replace (S pos - pos)%nat with 1%nat by lia.
Qed.

Lemma array_insert_new {A} pos (v : A) l : (pos <= length l)%nat ->
  array_insert (length l) pos v l ≡ₚ l ++ [v] /\
  take (S pos) (array_insert (length l) pos v l) = take pos l ++ [v].
Proof.
  intros Hp. unfold array_insert. rewrite firstn_all, (drop_ge l (S (length l))), app_nil_r by lia. split.
  - rewrite <- Permutation_middle, take_drop. apply Permutation_cons_append.
  - rewrite take_app, take_take, Nat.min_r, length_take, Nat.min_l by lia.
    by replace (S pos - pos)%nat with 1%nat by lia.
Qed.

Definition disabled (m : pjmedia_sdp_media) : Prop := port m = 0.

Lemma fix_offer_media_spec conn oi oms nms nms' :
  fix_offer_media conn oi oms nms = Some nms' -> (oi <= length nms)%nat ->
  take oi nms' = take oi nms /\
  (exists added, nms' ≡ₚ nms ++ added /\ Forall disabled added) /\
  forall i om, oms !! i = Some om ->
    exists nm, nms' !! (oi + i)%nat = Some nm /\ media_type nm = media_type om.
Proof.
  revert oi nms. induction oms as [|om oms IH]; intros oi nms Hf Hoi; cbn [fix_offer_media] in Hf.
  { injection Hf as <-. split_and!; [done|exists []; by rewrite app_nil_r|done]. }
  assert (forall nms1 nm added1, fix_offer_media conn (S oi) oms nms1 = Some nms' ->
    nms1 ≡ₚ nms ++ added1 -> Forall disabled added1 -> take (S oi) nms1 = take oi nms ++ [nm] ->
    media_type nm = media_type om ->
    take oi nms' = take oi nms /\
    (exists added, nms' ≡ₚ nms ++ added /\ Forall disabled added) /\
    forall i om0, (om :: oms) !! i = Some om0 ->
      exists nm, nms' !! (oi + i)%nat = Some nm /\ media_type nm = media_type om0) as Hstep.
  { intros nms1 nm added1 Hrec Hperm Hdis Htake Hty. apply IH in Hrec as (Ht & (added & Hp & Hd) & Hi).
    - rewrite Htake in Ht. split_and!.
      + apply (f_equal (take oi)) in Ht. rewrite take_take, Nat.min_l in Ht by lia.
        by rewrite Ht, take_app_length' by (rewrite length_take; lia).
      + exists (added1 ++ added). split; [by rewrite Hp, Hperm, app_assoc|by apply Forall_app].
      + intros [|i] om0 Ho; cbn in Ho.
        * injection Ho as <-. exists nm. rewrite Nat.add_0_r. split; [|done].
          rewrite <- (lookup_take_lt _ (S oi)), Ht by lia.
          rewrite lookup_app_r, length_take, Nat.min_l, Nat.sub_diag by (rewrite ?length_take; lia). done.
        * destruct (Hi i om0 Ho) as (nm0 & ? & ?). exists nm0.
          by replace (oi + S i)%nat with (S oi + i)%nat by lia.
    - apply (f_equal length) in Htake. rewrite length_take, length_app, length_take in Htake.
      change (length [nm]) with 1%nat in Htake. lia. }
  destruct (find_media _ _ _) as [[ni nm]|] eqn:Hfind.
  - apply find_media_spec in Hfind as (Hle & Hnm & Hty). rewrite lookup_drop in Hnm.
    replace (oi + (ni - oi))%nat with ni in Hnm by lia.
    case_bool_decide as Heq.
    + subst ni. apply (Hstep nms nm []); [done|by rewrite app_nil_r|constructor|by apply take_S_r|done].
    + destruct (array_insert_move ni oi nm nms) as [Hp Ht]; [done..|].
      eapply (Hstep _ nm []); [exact Hf|by rewrite app_nil_r|constructor|done|done].
  - case_match; [done|]. set (new := sdp_media_clone_deactivate om om conn) in Hf.
    destruct (array_insert_new oi new nms Hoi) as [Hp Ht].
    destruct (clone_deactivate_line om om conn) as (Hty & _ & Hport & _).
    apply (Hstep _ new [new] Hf); [done|by repeat constructor|done|done].
Qed.

Lemma append_offer_media_spec conn oms nms :
  (length oms <= length (append_offer_media conn oms nms))%nat /\
  exists added, append_offer_media conn oms nms = nms ++ added /\ Forall disabled added.
Proof.
  unfold append_offer_media. rewrite length_app, length_fmap, length_drop. split; [lia|].
  eexists. split; [done|]. apply Forall_fmap, Forall_forall. intros om _.
  by destruct (clone_deactivate_line om om conn) as (_ & _ & ? & _).
Qed.
End Exchange.

(** ** Theorems *)

(** C2: a negotiator, from its creation on and under any calls, holds in each state
    the descriptions that the state needs and no others; and every call that
    returns is a step of the offer/answer model [oa_step], which is RFC 3264 with
    what the code allows beyond it. A call that the exchange under way does not
    allow is refused with the error for a wrong state and changes nothing. What is
    agreed changes only when a negotiation succeeds, and then to the negotiated
    pair, or when our offer is cancelled, and then only in the version of our
    description, which is one more. Our description in the pair is, if we offered,
    the offer, or what a local answer put in its place, updated from the answer,
    with its origin; an offer has the origin agreed before, with the next version if
    it is modified, with the same version if it is the agreed description sent
    again. If we answered, it is the answer, where something was agreed before with
    the version next to the one agreed. *)
Theorem sdp_refines_offer_answer `{FmtMatchCb} n :
  reachable n ->
  neg_wf n /\
  forall op st n', neg_step n op = Some (st, n') ->
    oa_step op st (abs n) (abs n') /\
    (enabled op (exchange_of n) = false -> st = PJMEDIA_SDPNEG_EINSTATE /\ abs n' = abs n) /\
    (agreed_of n' <> agreed_of n -> st = PJ_SUCCESS /\
       ((exists asym, op = Negotiate asym) \/
        (op = CancelOffer /\ (exists o, exchange_of n = Offered o) /\
         agreed_of n' = (fun '(l, r) => (bump_version l, r)) <$> agreed_of n))).
Proof.
  intros Hn. apply neg_reachable_wf in Hn. split; [done|]. intros op st n' Hop.
  assert (oa_step op st (abs n) (abs n')) as Hoa by by eapply neg_step_ok.
  split; [done|]. split; [exact (oa_step_refused _ _ _ _ Hoa)|].
  intros Hne. by destruct (oa_step_agreed _ _ _ _ Hoa).
Qed.

(** Our offer is sent, answered and negotiated. *)
Lemma sdp_refines_offer_answer_witness :
  exists n n1, pjmedia_sdp_neg_create_w_local_offer ex_offer = (PJ_SUCCESS, Some n) /\
    @neg_step no_callbacks n (SetRemoteAnswer ex_answer) = Some (PJ_SUCCESS, n1) /\
    abs n1 = (None, AnswerReceived ex_offer ex_answer) /\
    oa_step (H := no_callbacks) (SetRemoteAnswer ex_answer) PJ_SUCCESS (abs n) (abs n1).
Proof.
  eexists _, _. split; [vm_compute; reflexivity|]. split; [vm_compute; reflexivity|].
  split; [reflexivity|].
  destruct (@sdp_refines_offer_answer no_callbacks
    (default neg_alloc (snd (pjmedia_sdp_neg_create_w_local_offer ex_offer)))) as [_ Hstep].
  - by apply (@reachable_local no_callbacks ex_offer).
  - apply Hstep. vm_compute; reflexivity.
Defined.

(** C13: once something is agreed, an exchange that fails or is cancelled leaves the
    session as it was before it: the remote's description is the same, ours too
    but for its version, which is one more for each offer of ours that was
    cancelled, nothing of the exchange is left, so the next one can begin, and the
    initial description is the same, unless a local answer was set after the
    remote had answered. *)
Theorem sdp_failed_exchange_rolls_back `{FmtMatchCb} n n' l r k late :
  reachable n -> state n = PJMEDIA_SDP_NEG_STATE_DONE ->
  active_local_sdp n = Some l -> active_remote_sdp n = Some r ->
  failing_run k late n n' -> state n' = PJMEDIA_SDP_NEG_STATE_DONE ->
  active_local_sdp n' = Some (Nat.iter k bump_version l) /\ active_remote_sdp n' = Some r /\
  (late = false -> initial_sdp n' = initial_sdp n) /\
  neg_local_sdp n' = None /\ neg_remote_sdp n' = None /\ initial_sdp_tmp n' = None /\
  has_remote_answer n' = false.
Proof.
  intros Hn Hs Hl Hr Hrun Hs'. apply neg_reachable_wf in Hn.
  assert (kept_back (initial_sdp n) l r false n) as Hk.
  { split_and!; [done..|]. by rewrite Hs. }
  destruct (kept_back_run _ _ _ _ _ _ _ _ Hn Hk Hrun) as [[_ _ Hans Hst] (Hr' & Hl' & Hi)].
  rewrite orb_false_r in Hi. rewrite Hs' in Hst, Hi, Hans. destruct Hst as (? & ? & ?). split_and!; try done.
  destruct (has_remote_answer n'); [by specialize (Hans eq_refl)|done].
Qed.

(** After a first exchange, an offer is sent again and cancelled. *)
Definition neg_run `{FmtMatchCb} (n : option pjmedia_sdp_neg) (ops : list neg_op) :
    option pjmedia_sdp_neg :=
  foldl (fun n op => n ← n; snd <$> neg_step n op) n ops.
Definition ex_agreed : option pjmedia_sdp_neg :=
  neg_run (H := no_callbacks) (snd (pjmedia_sdp_neg_create_w_local_offer ex_offer))
    [SetRemoteAnswer ex_answer; Negotiate false].

Lemma neg_run_reachable `{FmtMatchCb} ops n n' :
  reachable n -> neg_run (Some n) ops = Some n' -> reachable n'.
Proof.
  revert n. induction ops as [|op ops IH]; intros n Hn; cbn; [by intros [= <-]|].
  destruct (neg_step n op) as [[st n1]|] eqn:Hop; cbn; [apply IH; by eapply reachable_step|].
  clear. induction ops as [|op ops IH]; [done|exact IH].
Qed.

Lemma sdp_failed_exchange_rolls_back_witness :
  exists n n' l r, ex_agreed = Some n /\
    pjmedia_sdp_neg_cancel_offer (snd (pjmedia_sdp_neg_send_local_offer n)) = (PJ_SUCCESS, n') /\
    active_local_sdp n = Some l /\ active_remote_sdp n = Some r /\ version (origin l) = 1 /\
    active_local_sdp n' = Some (bump_version l) /\
    active_remote_sdp n' = Some r /\ initial_sdp n' = initial_sdp n.
Proof.
  eexists _, _, _, _. do 5 (split; [vm_compute; reflexivity|]).
  match goal with |- active_local_sdp ?n' = Some (bump_version ?l) /\ _ = Some ?r /\ _ = initial_sdp ?n =>
    destruct (@sdp_failed_exchange_rolls_back no_callbacks n n' l r 1 false) as (H1 & H2 & H3 & _)
  end.
  - eapply (@neg_run_reachable no_callbacks [SetRemoteAnswer ex_answer; Negotiate false]);
      [apply (@reachable_local no_callbacks ex_offer); reflexivity|vm_compute; reflexivity].
  - reflexivity.
  - reflexivity.
  - reflexivity.
  - eapply (@failing_next no_callbacks 1 false 1 false _ SendLocalOffer);
      [vm_compute; reflexivity|discriminate|reflexivity..|].
    eapply (@failing_next no_callbacks 0 false 1 false _ CancelOffer);
      [vm_compute; reflexivity|discriminate|reflexivity..|].
    apply failing_refl.
  - reflexivity.
  - split; [exact H1|]. split; [exact H2|exact (H3 eq_refl)].
Defined.

(** A modified offer continues the session: it has the origin agreed before
    with the next version, at least as many lines as before, the lines the
    application gave, and beside them only disabled ones; and unless the types of
    lines may change, each line has the type of the line that was at its place. *)
Lemma sdp_modified_offer_continues n flags local old n' :
  active_local_sdp n = Some old -> in_state n PJMEDIA_SDP_NEG_STATE_DONE = true ->
  pjmedia_sdp_neg_modify_local_offer2 n flags local = Some (PJ_SUCCESS, n') ->
  exists new, neg_local_sdp n' = Some new /\ initial_sdp n' = Some new /\
    initial_sdp_tmp n' = initial_sdp n /\
    origin new = origin (bump_version old) /\
    new <| origin := origin local |> <| media := media local |> = local /\
    (length (media old) <= length (media new))%nat /\
    (exists added, media new ≡ₚ media local ++ added /\ Forall disabled added) /\
    (Z.land flags PJMEDIA_SDP_NEG_ALLOW_MEDIA_CHANGE = 0 -> forall i om, media old !! i = Some om ->
       exists nm, media new !! i = Some nm /\ media_type nm = media_type om).
Proof.
  unfold pjmedia_sdp_neg_modify_local_offer2. intros Hold -> Hm. cbn [negb] in Hm.
  case_bool_decide; cbn [negb] in Hm; [|by injection Hm as ? _].
  rewrite Hold in Hm. cbn [mbind option_bind] in Hm.
  destruct (if _ =? 0 then _ else _) as [nms|] eqn:Hn; [|done]. cbn [mbind option_bind] in Hm.
  injection Hm as <-. eexists. split_and!; [done..| | | |].
  - by destruct local.
  - destruct (Z.eqb_spec (Z.land flags PJMEDIA_SDP_NEG_ALLOW_MEDIA_CHANGE) 0).
    + apply fix_offer_media_spec in Hn as (_ & _ & Hi); [|cbn; lia].
      change (length (media old) <= length nms)%nat.
      destruct (decide (length (media old) <= length nms)%nat) as [|Hlt]; [done|].
      destruct (lookup_lt_is_Some_2 (media old) (length nms) ltac:(lia)) as [om Hom].
      destruct (Hi _ _ Hom) as (nm & Hnm & _). apply lookup_lt_Some in Hnm. cbn in Hnm. lia.
    + injection Hn as <-. apply append_offer_media_spec.
  - destruct (Z.eqb_spec (Z.land flags PJMEDIA_SDP_NEG_ALLOW_MEDIA_CHANGE) 0).
    + apply fix_offer_media_spec in Hn as (_ & ? & _); [done|cbn; lia].
    + injection Hn as <-. destruct (append_offer_media_spec (sess_conn local) (media old) (media local))
        as [_ (added & -> & ?)]. by exists added.
  - intros Hz i om Hi. rewrite Hz in Hn. apply fix_offer_media_spec in Hn as (_ & _ & Hall); [|cbn; lia].
    apply (Hall i om Hi).
Qed.

(** A video line before the audio line of the session: the audio line stays
    first. *)
Definition ex_video : pjmedia_sdp_media :=
  SdpMedia (pj_str "video") 7000 0 (pj_str "RTP/AVP") [pj_str "34"] None [] [].
Definition ex_done : pjmedia_sdp_neg :=
  neg_alloc <| state := PJMEDIA_SDP_NEG_STATE_DONE |>
    <| initial_sdp := Some ex_local |> <| active_local_sdp := Some ex_local |>
    <| active_remote_sdp := Some ex_offer |>.

Lemma sdp_modified_offer_continues_witness :
  let local := ex_session [ex_video; ex_audio 5002 ["0"] []] in
  exists n' new,
    pjmedia_sdp_neg_modify_local_offer2 ex_done 0 local = Some (PJ_SUCCESS, n') /\
    neg_local_sdp n' = Some new /\ media new = [ex_audio 5002 ["0"] []; ex_video] /\
    origin new = origin (bump_version ex_local).
Proof.
  intros local. eexists _, _. split; [vm_compute; reflexivity|]. split; [reflexivity|].
  split; [reflexivity|].
  edestruct (sdp_modified_offer_continues ex_done 0 local ex_local) as (new & Hnew & _ & _ & Ho & _);
    [reflexivity|reflexivity|vm_compute; reflexivity|].
  injection Hnew as <-. exact Ho.
Defined.
