(* ===== verification/Rtcp.v ===== *)
(** * RTCP sessions (pjmedia/src/pjmedia/rtcp.c, pjmedia/include/pjmedia/rtcp.h)

    The session that watches one bidirectional stream: what it learns from the
    RTP packets that arrive, the reports it builds, and what it learns from the
    compound packets of its peer.  A received datagram is the list of its bytes;
    reading past its end is the outcome [Overread].  The readings of the clocks
    are arguments, in the order in which the functions take them. *)

From S2P Require Import Prelude Mem PjMath TimeVal Rtp.

(** ** Packets

    The integer fields hold what is stored in memory: those of 16 and 32 bits
    are in network byte order. *)

Definition RTCP_SR : Z := 200.
Definition RTCP_RR : Z := 201.
Definition RTCP_SDES : Z := 202.
Definition RTCP_BYE : Z := 203.
Definition RTCP_XR : Z := 207.
Definition RTCP_RTPFB : Z := 205.
Definition RTCP_PSFB : Z := 206.

Definition RTCP_SDES_NULL : Z := 0.
Definition RTCP_SDES_CNAME : Z := 1.
Definition RTCP_SDES_NAME : Z := 2.
Definition RTCP_SDES_EMAIL : Z := 3.
Definition RTCP_SDES_PHONE : Z := 4.
Definition RTCP_SDES_LOC : Z := 5.
Definition RTCP_SDES_TOOL : Z := 6.
Definition RTCP_SDES_NOTE : Z := 7.

Definition JAN_1970 : Z := 2208988800.

(** The configuration of pjmedia/config.h. *)
Definition PJMEDIA_RTCP_IGNORE_FIRST_PACKETS : Z := 25.
Definition PJMEDIA_RTCP_NORMALIZE_FACTOR : Z := 3.
Definition PJMEDIA_RTCP_RX_SDES_BUF_LEN : Z := 64.

Record pjmedia_rtcp_common := RtcpCommon {
  rc_version : Z; rc_p : Z; rc_count : Z; rc_pt : Z; rc_length : Z; rc_ssrc : Z
}.
#[export] Instance eta_rtcp_common : Eta pjmedia_rtcp_common := fun r =>
  RtcpCommon (rc_version r) (rc_p r) (rc_count r) (rc_pt r) (rc_length r) (rc_ssrc r).

Record pjmedia_rtcp_sr := RtcpSr {
  ntp_sec : Z; ntp_frac : Z; sr_rtp_ts : Z; sender_pcount : Z; sender_bcount : Z
}.
#[export] Instance eta_rtcp_sr : Eta pjmedia_rtcp_sr := fun r =>
  RtcpSr (ntp_sec r) (ntp_frac r) (sr_rtp_ts r) (sender_pcount r) (sender_bcount r).

Record pjmedia_rtcp_rr := RtcpRr {
  rr_ssrc : Z; fract_lost : Z; total_lost_2 : Z; total_lost_1 : Z; total_lost_0 : Z;
  last_seq : Z; rr_jitter : Z; rr_lsr : Z; rr_dlsr : Z
}.
#[export] Instance eta_rtcp_rr : Eta pjmedia_rtcp_rr := fun r =>
  RtcpRr (rr_ssrc r) (fract_lost r) (total_lost_2 r) (total_lost_1 r) (total_lost_0 r)
         (last_seq r) (rr_jitter r) (rr_lsr r) (rr_dlsr r).

Record pjmedia_rtcp_sr_pkt := RtcpSrPkt {
  srp_common : pjmedia_rtcp_common; srp_sr : pjmedia_rtcp_sr; srp_rr : pjmedia_rtcp_rr
}.
#[export] Instance eta_rtcp_sr_pkt : Eta pjmedia_rtcp_sr_pkt := fun r =>
  RtcpSrPkt (srp_common r) (srp_sr r) (srp_rr r).

Record pjmedia_rtcp_rr_pkt := RtcpRrPkt {
  rrp_common : pjmedia_rtcp_common; rrp_rr : pjmedia_rtcp_rr
}.
#[export] Instance eta_rtcp_rr_pkt : Eta pjmedia_rtcp_rr_pkt := fun r =>
  RtcpRrPkt (rrp_common r) (rrp_rr r).

(** The bytes of the structures on a little-endian host. *)
Definition rtcp_common_bytes (c : pjmedia_rtcp_common) : list Z :=
  [rc_count c + 32 * rc_p c + 64 * rc_version c; rc_pt c]
  ++ st16 (rc_length c) ++ st32 (rc_ssrc c).

Definition rtcp_sr_bytes (s : pjmedia_rtcp_sr) : list Z :=
  st32 (ntp_sec s) ++ st32 (ntp_frac s) ++ st32 (sr_rtp_ts s)
  ++ st32 (sender_pcount s) ++ st32 (sender_bcount s).

Definition rtcp_rr_bytes (r : pjmedia_rtcp_rr) : list Z :=
  st32 (rr_ssrc r) ++ [fract_lost r; total_lost_2 r; total_lost_1 r; total_lost_0 r]
  ++ st32 (last_seq r) ++ st32 (rr_jitter r) ++ st32 (rr_lsr r) ++ st32 (rr_dlsr r).

Definition rtcp_sr_pkt_bytes (k : pjmedia_rtcp_sr_pkt) : list Z :=
  rtcp_common_bytes (srp_common k) ++ rtcp_sr_bytes (srp_sr k) ++ rtcp_rr_bytes (srp_rr k).

Definition rtcp_rr_pkt_bytes (k : pjmedia_rtcp_rr_pkt) : list Z :=
  rtcp_common_bytes (rrp_common k) ++ rtcp_rr_bytes (rrp_rr k).

(** The bit fields of the first word of a header. *)
Definition rtcp_count (w : Z) : Z := w mod 32.
Definition rtcp_pt (w : Z) : Z := w / 256 mod 256.
Definition rtcp_length (w : Z) : Z := w / 65536 mod 65536.

(** ** The session *)

(** A source description: seven strings.  Those of the peer point into the
    session's buffer, as offset and length, [None] when the pointer is NULL. *)
Record pjmedia_rtcp_sdes (A : Type) := RtcpSdes {
  sdes_cname : A; sdes_name : A; sdes_email : A; sdes_phone : A;
  sdes_loc : A; sdes_tool : A; sdes_note : A
}.
Arguments RtcpSdes {_} _ _ _ _ _ _ _.
Arguments sdes_cname {_} _.
Arguments sdes_name {_} _.
Arguments sdes_email {_} _.
Arguments sdes_phone {_} _.
Arguments sdes_loc {_} _.
Arguments sdes_tool {_} _.
Arguments sdes_note {_} _.
#[export] Instance eta_rtcp_sdes A : Eta (pjmedia_rtcp_sdes A) := fun r =>
  RtcpSdes (sdes_cname r) (sdes_name r) (sdes_email r) (sdes_phone r)
           (sdes_loc r) (sdes_tool r) (sdes_note r).

Definition sdes_slice : Type := option (Z * Z).
Definition sdes_zero : pjmedia_rtcp_sdes sdes_slice :=
  RtcpSdes None None None None None None None.

Record pjmedia_rtcp_ntp_rec := NtpRec { ntp_hi : Z; ntp_lo : Z }.

Record pjmedia_rtcp_stream_stat := RtcpStreamStat {
  ss_update : pj_time_val;
  ss_update_cnt : Z;
  ss_pkt : Z;
  ss_bytes : Z;
  ss_discard : Z;
  ss_loss : Z;
  ss_reorder : Z;
  ss_dup : Z;
  ss_loss_period : pj_math_stat;
  ss_burst : Z;
  ss_random : Z;
  ss_jitter : pj_math_stat
}.
#[export] Instance eta_rtcp_stream_stat : Eta pjmedia_rtcp_stream_stat := fun r =>
  RtcpStreamStat (ss_update r) (ss_update_cnt r) (ss_pkt r) (ss_bytes r) (ss_discard r)
    (ss_loss r) (ss_reorder r) (ss_dup r) (ss_loss_period r) (ss_burst r) (ss_random r)
    (ss_jitter r).

Definition stream_stat_zero : pjmedia_rtcp_stream_stat :=
  RtcpStreamStat (TV 0 0) 0 0 0 0 0 0 0 pj_math_stat_init 0 0 pj_math_stat_init.

Record pjmedia_rtcp_stat := RtcpStat {
  stat_start : pj_time_val;
  stat_tx : pjmedia_rtcp_stream_stat;
  stat_rx : pjmedia_rtcp_stream_stat;
  stat_rtt : pj_math_stat;
  rtp_tx_last_ts : Z;
  rtp_tx_last_seq : Z;
  peer_sdes : pjmedia_rtcp_sdes sdes_slice;
  peer_sdes_buf_ : list Z
}.
#[export] Instance eta_rtcp_stat : Eta pjmedia_rtcp_stat := fun r =>
  RtcpStat (stat_start r) (stat_tx r) (stat_rx r) (stat_rtt r) (rtp_tx_last_ts r)
    (rtp_tx_last_seq r) (peer_sdes r) (peer_sdes_buf_ r).

(** [struct pjmedia_rtcp_session] without its name; a field [f] is [rs_f]. *)
Record pjmedia_rtcp_session := RtcpSession {
  rs_sr_pkt : pjmedia_rtcp_sr_pkt;
  rs_rr_pkt : pjmedia_rtcp_rr_pkt;
  rs_seq_ctrl : pjmedia_rtp_seq_session;
  rs_rtp_last_ts : Z;
  rs_clock_rate : Z;
  rs_pkt_size : Z;
  rs_received : Z;
  rs_exp_prior : Z;
  rs_rx_prior : Z;
  rs_transit : Z;           (* pj_int32_t *)
  rs_jitter : Z;
  rs_tv_base : pj_time_val;
  rs_ts_base : Z;           (* 64 bits, as [rs_ts_freq] and [rs_rx_lsr_time] *)
  rs_ts_freq : Z;
  rs_rtp_ts_base : Z;
  rs_rx_lsr : Z;
  rs_rx_lsr_time : Z;
  rs_peer_ssrc : Z;
  rs_stat : pjmedia_rtcp_stat
}.
#[export] Instance eta_rtcp_session : Eta pjmedia_rtcp_session := fun r =>
  RtcpSession (rs_sr_pkt r) (rs_rr_pkt r) (rs_seq_ctrl r) (rs_rtp_last_ts r)
    (rs_clock_rate r) (rs_pkt_size r) (rs_received r) (rs_exp_prior r) (rs_rx_prior r)
    (rs_transit r) (rs_jitter r) (rs_tv_base r) (rs_ts_base r) (rs_ts_freq r)
    (rs_rtp_ts_base r) (rs_rx_lsr r) (rs_rx_lsr_time r) (rs_peer_ssrc r) (rs_stat r).

Record pjmedia_rtcp_session_setting := RtcpSetting {
  rset_clock_rate : Z; rset_samples_per_frame : Z; rset_ssrc : Z; rset_rtp_ts_base : Z
}.

(** Access to the statistics of a session. *)
Definition on_stat (f : pjmedia_rtcp_stat -> pjmedia_rtcp_stat) (sess : pjmedia_rtcp_session) :=
  sess <| rs_stat ::= f |>.
Definition on_rx (f : pjmedia_rtcp_stream_stat -> pjmedia_rtcp_stream_stat) :=
  on_stat (fun s => s <| stat_rx ::= f |>).
Definition on_tx (f : pjmedia_rtcp_stream_stat -> pjmedia_rtcp_stream_stat) :=
  on_stat (fun s => s <| stat_tx ::= f |>).
Definition rs_rx (sess : pjmedia_rtcp_session) := stat_rx (rs_stat sess).
Definition rs_tx (sess : pjmedia_rtcp_session) := stat_tx (rs_stat sess).

(** ** Set-up *)

Definition pjmedia_rtcp_session_setting_default : pjmedia_rtcp_session_setting :=
  RtcpSetting 0 0 0 0.

Definition pjmedia_rtcp_init_stat (now : pj_time_val) : pjmedia_rtcp_stat :=
  RtcpStat now stream_stat_zero stream_stat_zero pj_math_stat_init 0 0
    sdes_zero (replicate (Z.to_nat PJMEDIA_RTCP_RX_SDES_BUF_LEN) 0).

(** [now], [ts] and [freq] are what the clocks read, [now'] what the clock reads
    when the statistics are initialized. *)
Definition pjmedia_rtcp_init2 (settings : pjmedia_rtcp_session_setting)
    (now : pj_time_val) (ts freq : Z) (now' : pj_time_val) : pjmedia_rtcp_session :=
  let common := RtcpCommon 2 0 1 RTCP_SR (swap16 12) (swap32 (rset_ssrc settings)) in
  let rr_zero := RtcpRr 0 0 0 0 0 0 0 0 0 in
  {| rs_sr_pkt := RtcpSrPkt common (RtcpSr 0 0 0 0 0) rr_zero;
     rs_rr_pkt := RtcpRrPkt (common <| rc_pt := RTCP_RR |> <| rc_length := swap16 7 |>) rr_zero;
     rs_seq_ctrl := RtpSeq 0 0 0 0 0;
     rs_rtp_last_ts := u32 (-1);
     rs_clock_rate := rset_clock_rate settings;
     rs_pkt_size := rset_samples_per_frame settings;
     rs_received := 0; rs_exp_prior := 0; rs_rx_prior := 0; rs_transit := 0; rs_jitter := 0;
     rs_tv_base := now; rs_ts_base := ts; rs_ts_freq := freq;
     rs_rtp_ts_base := rset_rtp_ts_base settings;
     rs_rx_lsr := 0; rs_rx_lsr_time := 0; rs_peer_ssrc := 0;
     rs_stat := pjmedia_rtcp_init_stat now' |}.

Definition pjmedia_rtcp_init (clock_rate samples_per_frame ssrc : Z)
    (now : pj_time_val) (ts freq : Z) (now' : pj_time_val) : pjmedia_rtcp_session :=
  pjmedia_rtcp_init2 (RtcpSetting clock_rate samples_per_frame ssrc 0) now ts freq now'.

(** The time of the system clock that read [ts]. *)
Definition pjmedia_rtcp_get_ntp_time (sess : pjmedia_rtcp_session) (ts : Z) :
    pjmedia_rtcp_ntp_rec :=
  let elapsed := u64 (ts - rs_ts_base sess) in
  let hi := u32 (u32 (elapsed / rs_ts_freq sess) + sec (rs_tv_base sess) + JAN_1970) in
  let frac := u64 (Z.shiftl (elapsed mod rs_ts_freq sess) 32) / rs_ts_freq sess in
  NtpRec hi (u32 frac).

(** Without extended reports there is nothing to enable. *)
Definition pjmedia_rtcp_enable_xr (sess : pjmedia_rtcp_session) (enable : bool) :
    pj_status * pjmedia_rtcp_session := (PJ_ENOTSUP, sess).

(** ** RTP packets *)

Definition rtcp_init_seq (sess : pjmedia_rtcp_session) : pjmedia_rtcp_session :=
  sess <| rs_received := 0 |> <| rs_exp_prior := 0 |> <| rs_rx_prior := 0 |>
       <| rs_transit := 0 |> <| rs_jitter := 0 |>.

(** The time of [count] packets, in microseconds. *)
Definition loss_period_usec (sess : pjmedia_rtcp_session) (count : Z) : Z :=
  let period := u32 (u32 (count * rs_pkt_size sess) * 1000) / rs_clock_rate sess in
  u32 (period * 1000).

Definition rx_loss (sess : pjmedia_rtcp_session) (diff : Z) : pjmedia_rtcp_session :=
  if diff >? 1 then
    let period := loss_period_usec sess (diff - 1) in
    on_rx (fun r => r <| ss_loss ::= fun n => u32 (n + (diff - 1)) |>
                      <| ss_loss_period ::= fun st => pj_math_stat_update st (s32 period) |>) sess
  else sess.

(** Jitter in samples to microseconds, on reception of RTP. *)
Definition rx_jitter_usec (clock_rate jitter : Z) : Z :=
  if jitter <? 4294 then u32 (jitter * 1000000) / clock_rate
  else u32 (u32 (jitter * 1000) / clock_rate * 1000).

(** The jitter estimator of RFC 3550, in units of 1/16 sample. *)
Definition jitter_step (jitter d : Z) : Z :=
  u32 (jitter + (d - Z.shiftr (u32 (jitter + 8)) 4)).

Definition rx_jitter (sess : pjmedia_rtcp_session) (transit : Z) : pjmedia_rtcp_session :=
  if (rs_transit sess =? 0) || (rs_received sess <? PJMEDIA_RTCP_IGNORE_FIRST_PACKETS) then
    on_rx (fun r => r <| ss_jitter ::= fun st => st <| stat_min := s32 (u32 (-1)) |> |>)
          (sess <| rs_transit := transit |>)
  else
    let d := s32 (transit - rs_transit sess) in
    let d := if d <? 0 then s32 (- d) else d in
    let sess := sess <| rs_jitter ::= fun j => jitter_step j d |> in
    let jitter := rx_jitter_usec (rs_clock_rate sess) (Z.shiftr (rs_jitter sess) 4) in
    (on_rx (fun r => r <| ss_jitter ::= fun st => pj_math_stat_update st (s32 jitter) |>) sess)
      <| rs_transit := transit |>.

(** The arrival time of a packet in samples, less its timestamp. *)
Definition rx_transit (sess : pjmedia_rtcp_session) (ts rtp_ts : Z) : Z :=
  let arrival := u32 (u64 (ts * rs_clock_rate sess) / rs_ts_freq sess) in
  s32 (arrival - rtp_ts).

(** [ts] is the reading of the clock when the packet arrives; [discarded] is only
    for extended reports. *)
Definition pjmedia_rtcp_rx_rtp2 (sess : pjmedia_rtcp_session)
    (seq rtp_ts payload : Z) (discarded : bool) (ts : Z) : pjmedia_rtcp_session :=
  let sess := if ss_pkt (rs_rx sess) =? 0
              then sess <| rs_seq_ctrl ::= fun c => pjmedia_rtp_seq_init c (u16 seq) |>
              else sess in
  let sess := on_rx (fun r => r <| ss_pkt ::= fun n => u32 (n + 1) |>
                                <| ss_bytes ::= fun n => u32 (n + payload) |>) sess in
  let '(ctrl, seq_st) := pjmedia_rtp_seq_update (rs_seq_ctrl sess) (u16 seq) in
  let sess := sess <| rs_seq_ctrl := ctrl |> in
  let sess := if st_restart seq_st then rtcp_init_seq sess else sess in
  let sess := if st_dup seq_st
              then on_rx (fun r => r <| ss_dup ::= fun n => u32 (n + 1) |>) sess else sess in
  let sess := if st_outorder seq_st && negb (st_probation seq_st)
              then on_rx (fun r => r <| ss_reorder ::= fun n => u32 (n + 1) |>) sess else sess in
  if st_bad seq_st then on_rx (fun r => r <| ss_discard ::= fun n => u32 (n + 1) |>) sess
  else
    let sess := sess <| rs_received ::= fun n => u32 (n + 1) |> in
    let sess := rx_loss sess (st_diff seq_st) in
    let sess := if (st_diff seq_st =? 1) && negb (rtp_ts =? rs_rtp_last_ts sess)
                then rx_jitter sess (rx_transit sess ts rtp_ts) else sess in
    sess <| rs_rtp_last_ts := rtp_ts |>.

Definition pjmedia_rtcp_rx_rtp (sess : pjmedia_rtcp_session) (seq rtp_ts payload ts : Z) :=
  pjmedia_rtcp_rx_rtp2 sess seq rtp_ts payload false ts.

Definition pjmedia_rtcp_tx_rtp (sess : pjmedia_rtcp_session) (bytes_payload_size : Z) :=
  on_tx (fun t => t <| ss_pkt ::= fun n => u32 (n + 1) |>
                    <| ss_bytes ::= fun n => u32 (n + bytes_payload_size) |>) sess.
