(* ===== verification/RtcpFb.v ===== *)
(** * RTCP feedback (pjmedia/src/pjmedia/rtcp_fb.c, pjmedia/include/pjmedia/rtcp_fb.h)

    The feedback messages of RFC 4585: generic NACK, picture loss, slice loss and
    reference picture selection, built into a buffer and read from a packet. *)

From S2P Require Import Prelude Mem Rtp Rtcp.

(** ** Data *)

Inductive pjmedia_rtcp_fb_type :=
  | PJMEDIA_RTCP_FB_ACK | PJMEDIA_RTCP_FB_NACK | PJMEDIA_RTCP_FB_TRR_INT
  | PJMEDIA_RTCP_FB_OTHER.

Record pjmedia_rtcp_fb_nack := FbNack { nack_pid : Z; nack_blp : Z }.
Record pjmedia_rtcp_fb_sli := FbSli { sli_first : Z; sli_number : Z; sli_pict_id : Z }.

(** The bit string is in the memory [rpsi_mem] that starts where the pointer
    points; [rpsi_slen] is the length of the [pj_str_t]. *)
Record pjmedia_rtcp_fb_rpsi := FbRpsi {
  rpsi_pt : Z; rpsi_mem : list Z; rpsi_slen : Z; rpsi_bit_len : Z
}.

(** ** Building *)

(** The header of a feedback packet of [len] bytes. *)
Definition fb_header (sess : pjmedia_rtcp_session) (pt fmt len : Z) : pjmedia_rtcp_common :=
  (rrp_common (rs_rr_pkt sess)) <| rc_pt := pt |> <| rc_count := fmt |>
                                <| rc_length := swap16 (u16 (u32 (len / 4 - 1))) |>.

(** The status, the buffer and [*length] afterwards. *)
Definition built : Type := pj_status * list Z * Z.

(** The packet of [len] bytes with this header and these bytes behind it. *)
Definition fb_write (hdr : pjmedia_rtcp_common) (fci : list Z) (buf : list Z) (len : Z) :
    option built :=
  buf ← wr buf 0 (rtcp_common_bytes hdr);
  buf ← wr buf 8 fci;
  Some (PJ_SUCCESS, buf, len).

Definition nack_bytes (n : pjmedia_rtcp_fb_nack) : list Z :=
  st16 (swap16 (u16 (nack_pid n))) ++ st16 (swap16 (nack_blp n)).

Definition pjmedia_rtcp_fb_build_nack (sess : pjmedia_rtcp_session) (buf : list Z) (length : Z)
    (nack : list pjmedia_rtcp_fb_nack) : option built :=
  let nack_cnt := zlen nack in
  if nack_cnt =? 0 then Some (PJ_EINVAL, buf, length)
  else
    let len := u32 ((3 + nack_cnt) * 4) in
    if len >? length then Some (PJ_ETOOSMALL, buf, length)
    else fb_write (fb_header sess RTCP_RTPFB 1 len) (concat (map nack_bytes nack)) buf len.

Definition pjmedia_rtcp_fb_build_pli (sess : pjmedia_rtcp_session) (buf : list Z) (length : Z) :
    option built :=
  let len := 12 in
  if len >? length then Some (PJ_ETOOSMALL, buf, length)
  else fb_write (fb_header sess RTCP_PSFB 1 len) [] buf len.

(** 13, 13 and 6 bits. *)
Definition sli_bytes (s : pjmedia_rtcp_fb_sli) : list Z :=
  [ u8 (Z.land (Z.shiftr (sli_first s) 5) 255);
    u8 (Z.lor (u8 (Z.shiftl (Z.land (sli_first s) 31) 3))
              (u8 (Z.land (Z.shiftr (sli_number s) 10) 7)));
    u8 (Z.land (Z.shiftr (sli_number s) 2) 255);
    u8 (Z.lor (u8 (Z.shiftl (Z.land (sli_number s) 3) 6)) (Z.land (sli_pict_id s) 63)) ].

Definition pjmedia_rtcp_fb_build_sli (sess : pjmedia_rtcp_session) (buf : list Z) (length : Z)
    (sli : list pjmedia_rtcp_fb_sli) : option built :=
  let sli_cnt := zlen sli in
  if sli_cnt =? 0 then Some (PJ_EINVAL, buf, length)
  else
    let len := u32 ((3 + sli_cnt) * 4) in
    if len >? length then Some (PJ_ETOOSMALL, buf, length)
    else fb_write (fb_header sess RTCP_PSFB 2 len) (concat (map sli_bytes sli)) buf len.

(** The bytes of a bit string: [bit_len / 8], and one more when bits are left. *)
Definition rpsi_bytes (m : list Z) (bit_len : Z) : option (list Z) :=
  let n := Z.to_nat (bit_len / 8) in
  if zlen m <? bit_len / 8 then None
  else if truth (bit_len mod 8) then b ← rd8 m (bit_len / 8); Some (take n m ++ [b])
  else Some (take n m).

Definition pjmedia_rtcp_fb_build_rpsi (sess : pjmedia_rtcp_session) (buf : list Z) (length : Z)
    (rpsi : pjmedia_rtcp_fb_rpsi) : option built :=
  let bitlen := u32 (rpsi_bit_len rpsi + 16) in
  let padlen := u32 (32 - bitlen mod 32) mod 32 in
  let len := u32 ((3 + u32 (bitlen + padlen) / 32) * 4) in
  if len >? length then Some (PJ_ETOOSMALL, buf, length)
  else
    bits ← rpsi_bytes (rpsi_mem rpsi) (rpsi_bit_len rpsi);
    fb_write (fb_header sess RTCP_PSFB 3 len)
      ([u8 padlen; Z.land (rpsi_pt rpsi) 127] ++ bits
       ++ (if padlen >=? 8 then replicate (Z.to_nat (padlen / 8)) 0 else [])) buf len.

(** ** Reading *)

(** [parse_fci cnt p off f]: the [cnt] entries of four bytes at [off]. *)
Fixpoint parse_fci {A} (cnt : nat) (p : list Z) (off : Z) (f : Z -> Z -> Z -> Z -> A) :
    outcome (list A) :=
  match cnt with
  | O => Done []
  | S cnt =>
      b0 ← mem (rd8 p off); b1 ← mem (rd8 p (off + 1));
      b2 ← mem (rd8 p (off + 2)); b3 ← mem (rd8 p (off + 3));
      rest ← parse_fci cnt p (off + 4) f;
      Done (f b0 b1 b2 b3 :: rest)
  end.

Definition nack_entry (b0 b1 b2 b3 : Z) : pjmedia_rtcp_fb_nack :=
  FbNack (swap16 (b0 + 256 * b1)) (swap16 (b2 + 256 * b3)).

(** The entries of a packet of this type and format; at most [max]. *)
Definition parse_entries {A} (pt fmt : Z) (f : Z -> Z -> Z -> Z -> A)
    (buf : list Z) (length max : Z) : outcome (pj_status * list A) :=
  if length <? 8 then Done (PJ_ETOOSMALL, [])
  else
    w ← mem (rd32 buf 0);
    if negb (rtcp_pt w =? pt) || negb (rtcp_count w =? fmt) then Done (PJ_ENOTFOUND, [])
    else
      let cnt := u32 (swap16 (rtcp_length w) - 2) in
      if length <? u32 (u32 (cnt + 3) * 4) then Done (PJ_ETOOSMALL, [])
      else
        l ← parse_fci (Z.to_nat (Z.min max cnt)) buf 8 f;
        Done (PJ_SUCCESS, l).

Definition pjmedia_rtcp_fb_parse_nack (buf : list Z) (length nack_cnt : Z) :
    outcome (pj_status * list pjmedia_rtcp_fb_nack) :=
  parse_entries RTCP_RTPFB 1 nack_entry buf length nack_cnt.

Definition pjmedia_rtcp_fb_parse_pli (buf : list Z) (length : Z) : outcome pj_status :=
  if length <? 12 then Done PJ_ETOOSMALL
  else
    w ← mem (rd32 buf 0);
    if negb (rtcp_pt w =? RTCP_PSFB) || negb (rtcp_count w =? 1) then Done PJ_ENOTFOUND
    else Done PJ_SUCCESS.

Definition sli_entry (b0 b1 b2 b3 : Z) : pjmedia_rtcp_fb_sli :=
  FbSli (u16 (Z.shiftl b0 5 + Z.shiftr (Z.land b1 248) 3))
        (u16 (Z.shiftl (Z.land b1 7) 10 + Z.shiftl b2 2 + Z.shiftr (Z.land b3 192) 6))
        (u8 (Z.land b3 63)).

Definition pjmedia_rtcp_fb_parse_sli (buf : list Z) (length sli_cnt : Z) :
    outcome (pj_status * list pjmedia_rtcp_fb_sli) :=
  parse_entries RTCP_PSFB 2 sli_entry buf length sli_cnt.

(** The lengths are of type [pj_size_t], 64 bits. *)
Definition pjmedia_rtcp_fb_parse_rpsi (buf : list Z) (length : Z) :
    outcome (pj_status * option pjmedia_rtcp_fb_rpsi) :=
  if length <? 8 then Done (PJ_ETOOSMALL, None)
  else
    w ← mem (rd32 buf 0);
    if negb (rtcp_pt w =? RTCP_PSFB) || negb (rtcp_count w =? 3) then Done (PJ_ENOTFOUND, None)
    else
      let rpsi_len := u64 ((swap16 (rtcp_length w) - 2) * 4) in
      if length <? u64 (rpsi_len + 12) then Done (PJ_ETOOSMALL, None)
      else
        padlen ← mem (rd8 buf 8);
        pt ← mem (rd8 buf 9);
        let bit_len := u64 (rpsi_len * 8 - 16 - padlen) in
        Done (PJ_SUCCESS,
              Some (FbRpsi (Z.land pt 127) (drop 10 buf) (u64 (bit_len + 7) / 8) bit_len)).
