(* ===== verification/RtcpRx.v ===== *)
(** * RTCP packets received and built (pjmedia/src/pjmedia/rtcp.c)

    What a session does with a compound packet of its peer, and the reports,
    source descriptions and BYE packets it builds. *)

From S2P Require Import Prelude Mem PjMath TimeVal Rtp Rtcp RtcpFb.

(** The readings of the clocks while one packet is handled: those of the time
    stamp clock, in the order they are taken, and of the time of day. *)
Record rtcp_now := RtcpNow { now_ts : Z; now_ntp : Z; now_tod : pj_time_val }.

(** The data of [PJMEDIA_EVENT_RX_RTCP_FB]. *)
Record rtcp_fb_event := RtcpFbEvent {
  ev_ts : Z; ev_type : pjmedia_rtcp_fb_type; ev_pli : bool (* [cap.param] is "pli" *);
  ev_nack : option pjmedia_rtcp_fb_nack
}.

(** ** Reports *)

(** Jitter in samples to microseconds, on reception of a report. *)
Definition tx_jitter_usec (clock_rate jitter_samp : Z) : Z :=
  if jitter_samp <=? 4294 then u32 (jitter_samp * 1000000) / clock_rate
  else u32 (u32 (jitter_samp * 1000) / clock_rate * 1000).

(** The middle 32 bits of an NTP time, in 1/65536 s. *)
Definition ntp_mid (n : pjmedia_rtcp_ntp_rec) : Z :=
  u32 (Z.shiftl (Z.land (ntp_hi n) 65535) 16 + Z.shiftr (ntp_lo n) 16).

Definition rx_sr (sess : pjmedia_rtcp_session) (sec frac ts : Z) : pjmedia_rtcp_session :=
  sess <| rs_rx_lsr := Z.lor (u32 (Z.shiftl (Z.land (swap32 sec) 65535) 16))
                             (Z.land (Z.shiftr (swap32 frac) 16) 65535) |>
       <| rs_rx_lsr_time := ts |>.

(** The losses that the peer reports. *)
Definition rx_total_lost (sess : pjmedia_rtcp_session) (loss : Z) : pjmedia_rtcp_session :=
  let last_loss := ss_loss (rs_tx sess) in
  let sess := on_tx (fun t => t <| ss_loss := loss |>) sess in
  if loss >? last_loss then
    let period := loss_period_usec sess (u32 (loss - last_loss)) in
    on_tx (fun t => t <| ss_loss_period ::= fun st => pj_math_stat_update st (s32 period) |>) sess
  else sess.

Definition eedelay_usec (eedelay : Z) : Z :=
  if eedelay <? 4294 then Z.shiftr (u64 (eedelay * 1000000)) 16
  else u64 (Z.shiftr (u64 (eedelay * 1000)) 16 * 1000).

(** The limit on a round trip that is far above the mean. *)
Definition rtt_normalize (st : pj_math_stat) (rtt : Z) : Z :=
  if (rtt >? u32 (u32 (stat_mean st) * PJMEDIA_RTCP_NORMALIZE_FACTOR)) && truth (stat_n st)
  then u32 (stat_mean st * PJMEDIA_RTCP_NORMALIZE_FACTOR) else rtt.

(** The round trip [now - lsr - dlsr], when it makes sense. *)
Definition rtt_update (now lsr dlsr : Z) (st : pj_math_stat) : pj_math_stat :=
  let eedelay := eedelay_usec (u32 (u32 (now - lsr) - dlsr)) in
  if u32 (now - dlsr) >=? lsr then
    if eedelay >? 30 * 1000 * 1000 then st
    else pj_math_stat_update st (s32 (rtt_normalize st (u32 eedelay)))
  else st.

Definition rx_rtt (sess : pjmedia_rtcp_session) (lsr dlsr ts : Z) : pjmedia_rtcp_session :=
  let now := ntp_mid (pjmedia_rtcp_get_ntp_time sess ts) in
  on_stat (fun s => s <| stat_rtt ::= rtt_update now lsr dlsr |>) sess.

(** The report block at [off]. *)
Definition rx_rr (sess : pjmedia_rtcp_session) (pkt : list Z) (off : Z) (now : rtcp_now) :
    outcome pjmedia_rtcp_session :=
  lost ← mem (rd32 pkt (off + 4));
  let loss := Z.shiftl (lost / 256 mod 256) 16 + Z.shiftl (lost / 65536 mod 256) 8
              + lost / 16777216 mod 256 in
  let sess := rx_total_lost sess loss in
  jitter_samp ← mem (rd32 pkt (off + 12));
  let jitter := tx_jitter_usec (rs_clock_rate sess) (swap32 jitter_samp) in
  let sess := on_tx (fun t => t <| ss_jitter ::= fun st =>
                       pj_math_stat_update st (s32 jitter) |>) sess in
  lsr ← mem (rd32 pkt (off + 16));
  sess ← (if truth lsr then
            dlsr ← mem (rd32 pkt (off + 20));
            Done (if truth dlsr then rx_rtt sess (swap32 lsr) (swap32 dlsr) (now_ntp now)
                  else sess)
          else Done sess);
  Done (on_tx (fun t => t <| ss_update := now_tod now |>
                          <| ss_update_cnt ::= fun n => u32 (n + 1) |>) sess).

Definition parse_rtcp_report (sess : pjmedia_rtcp_session) (pkt : list Z) (size : Z)
    (now : rtcp_now) : outcome pjmedia_rtcp_session :=
  w ← mem (rd32 pkt 0);
  if rtcp_pt w =? RTCP_SR then
    sec ← mem (rd32 pkt 8);
    frac ← mem (rd32 pkt 12);
    let sess := rx_sr sess sec frac (now_ts now) in
    if (rtcp_count w >? 0) && (size >=? 52) then rx_rr sess pkt 28 now else Done sess
  else if (rtcp_pt w =? RTCP_RR) && (rtcp_count w >? 0) then rx_rr sess pkt 8 now
  else Done sess.

(** ** Source descriptions *)

Definition sdes_set (sdes : pjmedia_rtcp_sdes sdes_slice) (sdes_type : Z) (v : sdes_slice) :
    pjmedia_rtcp_sdes sdes_slice :=
  if sdes_type =? RTCP_SDES_CNAME then sdes <| sdes_cname := v |>
  else if sdes_type =? RTCP_SDES_NAME then sdes <| sdes_name := v |>
  else if sdes_type =? RTCP_SDES_EMAIL then sdes <| sdes_email := v |>
  else if sdes_type =? RTCP_SDES_PHONE then sdes <| sdes_phone := v |>
  else if sdes_type =? RTCP_SDES_LOC then sdes <| sdes_loc := v |>
  else if sdes_type =? RTCP_SDES_TOOL then sdes <| sdes_tool := v |>
  else if sdes_type =? RTCP_SDES_NOTE then sdes <| sdes_note := v |>
  else sdes.

(** Copying [n] bytes of the packet at [p] into the buffer at [b]. *)
Definition copy_in (pkt : list Z) (p n : Z) (buf : list Z) (b : Z) : outcome (list Z) :=
  if p + n <=? zlen pkt then
    mem (wr buf b (take (Z.to_nat n) (drop (Z.to_nat p) pkt)))
  else Overread.

(** The items from [p] on; [b] is the first free byte of the buffer. *)
Fixpoint sdes_items (fuel : nat) (pkt : list Z) (p p_end : Z)
    (sdes : pjmedia_rtcp_sdes sdes_slice) (buf : list Z) (b : Z) :
    outcome (pjmedia_rtcp_sdes sdes_slice * list Z) :=
  match fuel with
  | O => NoFuel
  | S fuel =>
      if p <? p_end then
        sdes_type ← mem (rd8 pkt p);
        let p := p + 1 in
        if (sdes_type =? RTCP_SDES_NULL) || (p =? p_end) then Done (sdes, buf)
        else
          sdes_len ← mem (rd8 pkt p);
          let p := p + 1 in
          if p + sdes_len >? p_end then Done (sdes, buf)
          else if b + sdes_len <? PJMEDIA_RTCP_RX_SDES_BUF_LEN then
            buf ← copy_in pkt p sdes_len buf b;
            sdes_items fuel pkt (p + sdes_len) p_end
              (sdes_set sdes sdes_type (Some (b, sdes_len))) buf (b + sdes_len)
          else sdes_items fuel pkt (p + sdes_len) p_end sdes buf b
      else Done (sdes, buf)
  end.

Definition parse_rtcp_sdes (sess : pjmedia_rtcp_session) (pkt : list Z) (size : Z) :
    outcome pjmedia_rtcp_session :=
  '(sdes, buf) ← sdes_items (Z.to_nat size) pkt 8 size sdes_zero
                   (peer_sdes_buf_ (rs_stat sess)) 0;
  Done (on_stat (fun s => s <| peer_sdes := sdes |> <| peer_sdes_buf_ := buf |>) sess).

(** What the session keeps of the peer: the text of one item. *)
Definition slice_text (buf : list Z) (s : sdes_slice) : list Z :=
  match s with
  | Some (b, n) => take (Z.to_nat n) (drop (Z.to_nat b) buf)
  | None => []
  end.
Definition peer_text (sess : pjmedia_rtcp_session) (s : sdes_slice) : list Z :=
  slice_text (peer_sdes_buf_ (rs_stat sess)) s.

(** The reason of a BYE is only logged, but it is kept in the buffer of the
    source description. *)
Definition parse_rtcp_bye (sess : pjmedia_rtcp_session) (pkt : list Z) (size : Z) :
    outcome pjmedia_rtcp_session :=
  if size >? 8 then
    n ← mem (rd8 pkt 8);
    let slen := Z.min PJMEDIA_RTCP_RX_SDES_BUF_LEN n in
    buf ← copy_in pkt 9 slen (peer_sdes_buf_ (rs_stat sess)) 0;
    Done (on_stat (fun s => s <| peer_sdes_buf_ := buf |>) sess)
  else Done sess.

(** ** Feedback and dispatch *)

Definition parse_rtcp_fb (pkt : list Z) (size : Z) (now : rtcp_now) :
    outcome (list rtcp_fb_event) :=
  '(st, nack) ← pjmedia_rtcp_fb_parse_nack pkt size 1;
  if bool_decide (st = PJ_SUCCESS) then
    Done [RtcpFbEvent (now_ts now) PJMEDIA_RTCP_FB_NACK false (head nack)]
  else
    st ← pjmedia_rtcp_fb_parse_pli pkt size;
    Done (if bool_decide (st = PJ_SUCCESS)
          then [RtcpFbEvent (now_ts now) PJMEDIA_RTCP_FB_NACK true None] else []).

(** One packet of [len] bytes at the start of [pkt]. *)
Definition rx_one (sess : pjmedia_rtcp_session) (pkt : list Z) (pt len : Z) (now : rtcp_now) :
    outcome (pjmedia_rtcp_session * list rtcp_fb_event) :=
  if (pt =? RTCP_SR) || (pt =? RTCP_RR) || (pt =? RTCP_XR) then
    sess ← parse_rtcp_report sess pkt len now; Done (sess, [])
  else if pt =? RTCP_SDES then sess ← parse_rtcp_sdes sess pkt len; Done (sess, [])
  else if pt =? RTCP_BYE then sess ← parse_rtcp_bye sess pkt len; Done (sess, [])
  else if (pt =? RTCP_RTPFB) || (pt =? RTCP_PSFB) then
    evs ← parse_rtcp_fb pkt len now; Done (sess, evs)
  else Done (sess, []).

(** [clk p] are the readings of the clocks while the packet at [p] is handled. *)
Fixpoint rx_loop (fuel : nat) (clk : Z -> rtcp_now) (sess : pjmedia_rtcp_session)
    (pkt : list Z) (p p_end : Z) : outcome (pjmedia_rtcp_session * list rtcp_fb_event) :=
  match fuel with
  | O => NoFuel
  | S fuel =>
      if p <? p_end then
        w ← mem (rd32 pkt p);
        let len := (swap16 (rtcp_length w) + 1) * 4 in
        if p + len >? p_end then Done (sess, [])
        else
          '(sess, evs) ← rx_one sess (drop (Z.to_nat p) pkt) (rtcp_pt w) len (clk p);
          '(sess, evs') ← rx_loop fuel clk sess pkt (p + len) p_end;
          Done (sess, evs ++ evs')
      else Done (sess, [])
  end.

Definition pjmedia_rtcp_rx_rtcp (clk : Z -> rtcp_now) (sess : pjmedia_rtcp_session)
    (pkt : list Z) (size : Z) : outcome (pjmedia_rtcp_session * list rtcp_fb_event) :=
  rx_loop (S (Z.to_nat size)) clk sess pkt 0 size.

(** ** Building reports *)

(** The report block of the packet that is built: the SR's or the RR's. *)
Definition the_rr (is_sr : bool) (sess : pjmedia_rtcp_session) : pjmedia_rtcp_rr :=
  if is_sr then srp_rr (rs_sr_pkt sess) else rrp_rr (rs_rr_pkt sess).
Definition on_rr (is_sr : bool) (f : pjmedia_rtcp_rr -> pjmedia_rtcp_rr)
    (sess : pjmedia_rtcp_session) : pjmedia_rtcp_session :=
  if is_sr then sess <| rs_sr_pkt ::= fun k => k <| srp_rr ::= f |> |>
  else sess <| rs_rr_pkt ::= fun k => k <| rrp_rr ::= f |> |>.

Definition fill_sr (sess : pjmedia_rtcp_session) (ntp : pjmedia_rtcp_ntp_rec) :
    pjmedia_rtcp_session :=
  let ts_sec := ntp_hi ntp - sec (rs_tv_base sess) - JAN_1970 in
  let ts_msec := ntp_lo ntp * 1000 / 4294967295 in
  let rtp_ts := u32 (rs_rtp_ts_base sess + u32 (rs_clock_rate sess * ts_sec)
                     + u32 (rs_clock_rate sess * ts_msec / 1000)) in
  sess <| rs_sr_pkt ::= fun k => k <| srp_sr ::= fun sr =>
    sr <| sender_pcount := swap32 (ss_pkt (rs_tx sess)) |>
       <| sender_bcount := swap32 (ss_bytes (rs_tx sess)) |>
       <| ntp_sec := swap32 (ntp_hi ntp) |> <| ntp_frac := swap32 (ntp_lo ntp) |>
       <| sr_rtp_ts := swap32 rtp_ts |> |> |>.

(** SSRC, extended sequence number, jitter and losses so far. *)
Definition fill_seq (is_sr : bool) (sess : pjmedia_rtcp_session) : pjmedia_rtcp_session :=
  let sess := on_rr is_sr (fun r =>
    r <| rr_ssrc := swap32 (rs_peer_ssrc sess) |>
      <| last_seq := Z.land (cycles (rs_seq_ctrl sess)) 4294901760 |>) sess in
  let add r := r <| last_seq ::= fun s => u32 (s + max_seq (rs_seq_ctrl sess)) |> in
  let sess := on_rr false add (on_rr true add sess) in
  on_rr is_sr (fun r => r <| last_seq ::= swap32 |>
                          <| rr_jitter := swap32 (Z.shiftr (rs_jitter sess) 4) |>) sess.

Definition fill_lost (is_sr : bool) (sess : pjmedia_rtcp_session) : pjmedia_rtcp_session :=
  let loss := ss_loss (rs_rx sess) in
  on_rr is_sr (fun r =>
    r <| total_lost_2 := Z.land (Z.shiftr loss 16) 255 |>
      <| total_lost_1 := Z.land (Z.shiftr loss 8) 255 |>
      <| total_lost_0 := Z.land loss 255 |>) sess.

(** The fraction lost since the last report, in 1/256. *)
Definition fraction_lost (expected_interval received_interval : Z) : Z :=
  let lost_interval := if expected_interval >=? received_interval
                       then u32 (expected_interval - received_interval) else 0 in
  if (expected_interval =? 0) || (lost_interval =? 0) then 0
  else u8 (u32 (Z.shiftl lost_interval 8) / expected_interval).

Definition fill_fract (is_sr : bool) (sess : pjmedia_rtcp_session) : pjmedia_rtcp_session :=
  let expected := u32 (swap32 (last_seq (the_rr is_sr sess)) - base_seq (rs_seq_ctrl sess)) in
  let expected_interval := u32 (expected - rs_exp_prior sess) in
  let received_interval := u32 (rs_received sess - rs_rx_prior sess) in
  on_rr is_sr (fun r => r <| fract_lost := fraction_lost expected_interval received_interval |>)
    (sess <| rs_exp_prior := expected |> <| rs_rx_prior := rs_received sess |>).

(** The time between two readings of the clock, in 1/65536 s. *)
Definition dlsr_of (sess : pjmedia_rtcp_session) (lsr_time ts_now : Z) : Z :=
  u32 (u64 (Z.shiftl ts_now 16) / rs_ts_freq sess
       - u64 (Z.shiftl lsr_time 16) / rs_ts_freq sess).

Definition fill_lsr (is_sr : bool) (sess : pjmedia_rtcp_session) (ts_now : Z) :
    pjmedia_rtcp_session :=
  on_rr is_sr (fun r =>
    if (rs_rx_lsr_time sess =? 0) || (rs_rx_lsr sess =? 0)
    then r <| rr_lsr := 0 |> <| rr_dlsr := 0 |>
    else r <| rr_lsr := swap32 (rs_rx_lsr sess) |>
           <| rr_dlsr := swap32 (dlsr_of sess (rs_rx_lsr_time sess) ts_now) |>) sess.

(** Whether RTP was sent since the last SR. *)
Definition sends_sr (sess : pjmedia_rtcp_session) : bool :=
  negb (ss_pkt (rs_tx sess) =? swap32 (sender_pcount (srp_sr (rs_sr_pkt sess)))).

(** The packet that was built is the returned list of bytes. *)
Definition pjmedia_rtcp_build_rtcp (sess : pjmedia_rtcp_session) (now : rtcp_now) :
    pjmedia_rtcp_session * list Z :=
  let ntp := pjmedia_rtcp_get_ntp_time sess (now_ntp now) in
  let is_sr := sends_sr sess in
  let sess := if is_sr then fill_sr sess ntp else sess in
  let sess := fill_seq is_sr sess in
  let sess := fill_lost is_sr sess in
  let sess := fill_fract is_sr sess in
  let sess := fill_lsr is_sr sess (now_ts now) in
  let sess := on_rx (fun r => r <| ss_update := now_tod now |>
                                <| ss_update_cnt ::= fun n => u32 (n + 1) |>) sess in
  (sess, if is_sr then rtcp_sr_pkt_bytes (rs_sr_pkt sess)
         else rtcp_rr_pkt_bytes (rs_rr_pkt sess)).

(** ** Building source descriptions and BYE *)

(** [while ((p-buf) % 4) *p++ = 0]: at most three rounds. *)
Fixpoint pad_loop (fuel : nat) (n : Z) : list Z :=
  match fuel with
  | O => []
  | S fuel => if truth (n mod 4) then 0 :: pad_loop fuel (n + 1) else []
  end.

Definition sdes_all {A} (sdes : pjmedia_rtcp_sdes A) : list A :=
  [sdes_cname sdes; sdes_name sdes; sdes_email sdes; sdes_phone sdes;
   sdes_loc sdes; sdes_tool sdes; sdes_note sdes].

Definition item_len (s : list Z) : Z := if truth (zlen s) then zlen s + 2 else 0.

Definition BUILD_SDES_ITEM (s : list Z) (sdes_type : Z) : list Z :=
  if truth (zlen s) then [sdes_type; u8 (zlen s)] ++ s else [].

Definition sdes_items_bytes (sdes : pjmedia_rtcp_sdes (list Z)) : list Z :=
  BUILD_SDES_ITEM (sdes_cname sdes) RTCP_SDES_CNAME
  ++ BUILD_SDES_ITEM (sdes_name sdes) RTCP_SDES_NAME
  ++ BUILD_SDES_ITEM (sdes_email sdes) RTCP_SDES_EMAIL
  ++ BUILD_SDES_ITEM (sdes_phone sdes) RTCP_SDES_PHONE
  ++ BUILD_SDES_ITEM (sdes_loc sdes) RTCP_SDES_LOC
  ++ BUILD_SDES_ITEM (sdes_tool sdes) RTCP_SDES_TOOL
  ++ BUILD_SDES_ITEM (sdes_note sdes) RTCP_SDES_NOTE.

(** The common header of the session with another type and length. *)
Definition own_header (sess : pjmedia_rtcp_session) (pt len : Z) : pjmedia_rtcp_common :=
  (srp_common (rs_sr_pkt sess)) <| rc_pt := pt |>
                                <| rc_length := swap16 (u16 (len / 4 - 1)) |>.

Definition pjmedia_rtcp_build_rtcp_sdes (sess : pjmedia_rtcp_session) (buf : list Z)
    (length : Z) (sdes : pjmedia_rtcp_sdes (list Z)) : option built :=
  if existsb (fun s => zlen s >? 255) (sdes_all sdes) then Some (PJ_EINVAL, buf, length)
  else
    let len := 8 + foldr (fun s n => item_len s + n) 0 (sdes_all sdes) + 1 in
    let len := (len + 3) / 4 * 4 in
    if len >? length then Some (PJ_ETOOSMALL, buf, length)
    else
      let items := sdes_items_bytes sdes ++ [0] in
      fb_write (own_header sess RTCP_SDES len) (items ++ pad_loop 4 (8 + zlen items)) buf len.

(** [reason] is [None] for the null pointer. *)
Definition pjmedia_rtcp_build_rtcp_bye (sess : pjmedia_rtcp_session) (buf : list Z)
    (length : Z) (reason : option (list Z)) : option built :=
  let reason := default [] reason in
  if zlen reason >? 255 then Some (PJ_EINVAL, buf, length)
  else
    let len := 8 + (if truth (zlen reason) then zlen reason + 1 else 0) in
    let len := (len + 3) / 4 * 4 in
    if len >? length then Some (PJ_ETOOSMALL, buf, length)
    else
      let text := if truth (zlen reason) then u8 (zlen reason) :: reason else [] in
      fb_write (own_header sess RTCP_BYE len) (text ++ pad_loop 4 (8 + zlen text)) buf len.
