(* ===== verification/RtcpProps.v ===== *)
(** * Properties of the reception of RTCP

    Any datagram is processed to its end; a compound of packets that are as long
    as their types need is processed packet by packet, without a read past its
    end. *)

From S2P Require Import Prelude Mem PjMath TimeVal Rtp Rtcp RtcpFb RtcpRx.

Set Warnings "-clear-no-such-hyp".

(** ** Every datagram is processed to its end *)

Lemma copy_in_ends pkt p n buf b : copy_in pkt p n buf b <> NoFuel.
Proof. unfold copy_in. case_match; [apply mem_ends|done]. Qed.

(** A loop that only reads. *)
Ltac reads_end :=
  repeat first
    [ done
    | apply mem_ends
    | apply copy_in_ends
    | apply bind_ends; [|intros]
    | case_match ].

Lemma sdes_items_ends fuel pkt p p_end sdes buf b : is_bytes pkt ->
  (0 < fuel)%nat -> p_end - p < Z.of_nat fuel -> sdes_items fuel pkt p p_end sdes buf b <> NoFuel.
Proof.
  intros Hb. revert p sdes buf b. induction fuel as [|fuel IH]; intros p sdes buf b Hf Hp; [lia|].
  cbn [sdes_items]. destruct (Z.ltb_spec p p_end); [|done].
  apply bind_ends; [apply mem_ends|]. intros t Ht. case_match; [done|].
  apply bind_ends; [apply mem_ends|]. intros n Hn.
  pose proof (mem_rd8_range _ _ _ Hb Hn) as Hn8.
  destruct (Z.gtb_spec (p + 1 + 1 + n) p_end); [done|].
  unfold is_u8 in Hn8.
  case_match; [apply bind_ends; [apply copy_in_ends|intros]|]; apply IH; lia.
Qed.

Lemma parse_fci_ends {A} cnt p off (f : Z -> Z -> Z -> Z -> A) : parse_fci cnt p off f <> NoFuel.
Proof.
  revert off. induction cnt as [|cnt IH]; intros off; [done|]. cbn [parse_fci].
  reads_end.
Qed.

Lemma parse_entries_ends {A} pt fmt (f : Z -> Z -> Z -> Z -> A) buf n max :
  parse_entries pt fmt f buf n max <> NoFuel.
Proof. unfold parse_entries. reads_end. apply parse_fci_ends. Qed.

Lemma rx_rr_ends sess pkt off now : rx_rr sess pkt off now <> NoFuel.
Proof. unfold rx_rr. reads_end. Qed.

Lemma rx_one_ends sess pkt pt len now : is_bytes pkt -> 4 <= len ->
  rx_one sess pkt pt len now <> NoFuel.
Proof.
  intros Hb Hl. unfold rx_one, parse_rtcp_report, parse_rtcp_sdes, parse_rtcp_bye, parse_rtcp_fb,
    pjmedia_rtcp_fb_parse_nack, pjmedia_rtcp_fb_parse_pli.
  reads_end; auto using rx_rr_ends, parse_entries_ends.
  apply sdes_items_ends; auto; lia.
Qed.

Lemma rx_len_pos w : 4 <= (swap16 (rtcp_length w) + 1) * 4.
Proof. pose proof (swap16_range (rtcp_length w)). unfold is_u16 in *. lia. Qed.

Lemma rx_loop_ends fuel clk sess pkt p p_end : is_bytes pkt ->
  (0 < fuel)%nat -> p_end - p < Z.of_nat fuel -> rx_loop fuel clk sess pkt p p_end <> NoFuel.
Proof.
  intros Hb. revert sess p. induction fuel as [|fuel IH]; intros sess p Hf Hp; [lia|].
  cbn [rx_loop]. destruct (Z.ltb_spec p p_end); [|done].
  apply bind_ends; [apply mem_ends|]. intros w _. pose proof (rx_len_pos w).
  case_match; [done|].
  apply bind_ends; [apply rx_one_ends; auto; by apply Forall_drop|]. intros [s1 e1] _.
  apply bind_ends; [apply IH; lia|]. by intros [s2 e2] _.
Qed.

(** The processing of a received datagram comes to its end, whatever its bytes and
    whatever size it is said to have. *)
Lemma rtcp_rx_ends clk sess pkt size : is_bytes pkt ->
  pjmedia_rtcp_rx_rtcp clk sess pkt size <> NoFuel.
Proof. intros Hb. apply rx_loop_ends; auto; lia. Qed.

Lemma rtcp_rx_ends_witness :
  is_bytes [128; 203; 0; 5; 1; 2] /\
  pjmedia_rtcp_rx_rtcp (fun _ => RtcpNow 0 0 (TV 0 0))
    (pjmedia_rtcp_init 8000 160 7 (TV 0 0) 0 1000 (TV 0 0)) [128; 203; 0; 5; 1; 2] 6 <> NoFuel.
Proof.
  assert (is_bytes [128; 203; 0; 5; 1; 2]) as H by (repeat constructor; unfold is_u8; lia).
  split; [exact H|]. exact (rtcp_rx_ends _ _ _ _ H).
Defined.

(** ** What is read within a packet does not depend on what follows it *)

Lemma refines_copy_in k rest p n buf b : 0 <= p -> 0 <= n ->
  refines (copy_in k p n buf b) (copy_in (k ++ rest) p n buf b).
Proof.
  intros Hp Hn a. unfold copy_in. rewrite zlen_app. pose proof (zlen_nonneg rest).
  destruct (Z.leb_spec (p + n) (zlen k)); [|done]. rewrite (proj2 (Z.leb_le _ _)) by lia.
  rewrite drop_app_le, take_app_le; [done| |]; rewrite ?length_drop; unfold zlen in *; lia.
Qed.

#[local] Hint Resolve refines_refl refines_rd8 refines_rd32 : core.

Ltac refine_reads :=
  repeat first
    [ assumption
    | apply refines_rd8
    | apply refines_rd32
    | apply refines_bind; [|intros]
    | case_match
    | apply refines_refl ].

Lemma sdes_items_refines fuel k rest p p_end sdes buf b : is_bytes k -> 0 <= p ->
  refines (sdes_items fuel k p p_end sdes buf b) (sdes_items fuel (k ++ rest) p p_end sdes buf b).
Proof.
  intros Hk. revert p sdes buf b. induction fuel as [|fuel IH]; intros p sdes buf b Hp; [done|].
  cbn [sdes_items]. destruct (p <? p_end); [|done].
  apply refines_bind; [auto|intros t _]. case_match; [done|].
  apply refines_bind; [auto|intros n Hn].
  pose proof (mem_rd8_range _ _ _ Hk Hn) as Hn8.
  unfold is_u8 in Hn8. case_match; [done|]. case_match; [|apply IH; lia].
  apply refines_bind; [apply refines_copy_in; lia|]. intros buf' _. apply IH. lia.
Qed.

Lemma parse_fci_refines {A} cnt k rest off (f : Z -> Z -> Z -> Z -> A) :
  refines (parse_fci cnt k off f) (parse_fci cnt (k ++ rest) off f).
Proof.
  revert off. induction cnt as [|cnt IH]; intros off; [done|]. cbn [parse_fci].
  refine_reads. apply IH.
Qed.

Lemma rx_rr_refines sess k rest off now :
  refines (rx_rr sess k off now) (rx_rr sess (k ++ rest) off now).
Proof. unfold rx_rr. refine_reads. Qed.

Lemma rx_one_refines sess k rest pt len now : is_bytes k ->
  refines (rx_one sess k pt len now) (rx_one sess (k ++ rest) pt len now).
Proof.
  intros Hk. unfold rx_one, parse_rtcp_report, parse_rtcp_sdes, parse_rtcp_bye, parse_rtcp_fb,
    pjmedia_rtcp_fb_parse_nack, pjmedia_rtcp_fb_parse_pli, parse_entries.
  refine_reads; auto using rx_rr_refines, parse_fci_refines.
  - apply sdes_items_refines; auto; lia.
  - apply refines_copy_in; [lia|]. unfold PJMEDIA_RTCP_RX_SDES_BUF_LEN.
    pose proof (mem_rd8_range _ _ _ Hk ltac:(eassumption)) as Hn. unfold is_u8 in Hn. lia.
Qed.

(** ** Packets that are long enough are processed without an overread *)

(** What one packet may change besides the statistics of reports: the buffer of
    the source description, which keeps its size and holds bytes. *)
Definition sdes_slice_ok (s : sdes_slice) : Prop :=
  match s with Some (b, n) => 0 <= b /\ 0 <= n /\ b + n < 64 | None => True end.

Record sdes_wf (buf : list Z) (sdes : pjmedia_rtcp_sdes sdes_slice) : Prop := {
  sdes_buf_len : zlen buf = 64;
  sdes_buf_bytes : is_bytes buf;
  sdes_slices : Forall sdes_slice_ok (sdes_all sdes)
}.

Definition room (sess : pjmedia_rtcp_session) : Prop :=
  sdes_wf (peer_sdes_buf_ (rs_stat sess)) (peer_sdes (rs_stat sess)).

Lemma room_on_tx f sess : room (on_tx f sess) <-> room sess.
Proof. done. Qed.
Lemma room_on_rx f sess : room (on_rx f sess) <-> room sess.
Proof. done. Qed.
Lemma room_total_lost sess loss : room (rx_total_lost sess loss) <-> room sess.
Proof. unfold rx_total_lost. by case_match. Qed.
Lemma room_rtt sess lsr dlsr ts : room (rx_rtt sess lsr dlsr ts) <-> room sess.
Proof. done. Qed.

Lemma copy_in_yields k p n buf b : is_bytes k -> 0 <= p -> 0 <= n -> p + n <= zlen k ->
  0 <= b -> b + n <= zlen buf -> is_bytes buf ->
  yields (copy_in k p n buf b) (fun buf' => zlen buf' = zlen buf /\ is_bytes buf').
Proof.
  intros Hk Hp Hn Hpn Hb Hbn Hbuf. unfold copy_in. rewrite (proj2 (Z.leb_le _ _)) by lia.
  assert (zlen (take (Z.to_nat n) (drop (Z.to_nat p) k)) = n) as El
    by (rewrite zlen_take; [done|rewrite zlen_drop; lia]).
  destruct (wr_spec buf b (take (Z.to_nat n) (drop (Z.to_nat p) k))) as (buf' & -> & Hl & Hb');
    [done|lia|].
  exists buf'. split_and!; auto. apply Hb'; auto. by apply Forall_take, Forall_drop.
Qed.

Lemma sdes_set_ok sdes t v : Forall sdes_slice_ok (sdes_all sdes) -> sdes_slice_ok v ->
  Forall sdes_slice_ok (sdes_all (sdes_set sdes t v)).
Proof.
  intros H Hv. destruct sdes. unfold sdes_all in *. cbn in H.
  repeat (apply Forall_cons in H as [? H]).
  unfold sdes_set. repeat case_match; cbn; repeat constructor; assumption.
Qed.

Lemma sdes_items_yields fuel k p sdes buf b : is_bytes k ->
  (0 < fuel)%nat -> zlen k - p < Z.of_nat fuel -> 0 <= p -> 0 <= b <= 64 ->
  zlen buf = 64 -> is_bytes buf -> Forall sdes_slice_ok (sdes_all sdes) ->
  yields (sdes_items fuel k p (zlen k) sdes buf b)
    (fun r => zlen r.2 = 64 /\ is_bytes r.2 /\ Forall sdes_slice_ok (sdes_all r.1)).
Proof.
  intros Hk. revert p sdes buf b. induction fuel as [|fuel IH]; intros p sdes buf b; [lia|].
  intros Hf Hp Hp0 Hb Hl Hbuf Hs. cbn [sdes_items].
  destruct (Z.ltb_spec p (zlen k)); [|by apply yields_done].
  eapply yields_bind; [apply (yields_rd8 k p); auto; lia|intros t _].
  destruct (_ =? _); [by apply yields_done|]. cbn [orb].
  destruct (Z.eqb_spec (p + 1) (zlen k)) as [|Hne]; [by apply yields_done|].
  eapply yields_bind; [apply (yields_rd8 k (p + 1)); auto; lia|intros n [Hn _]].
  unfold is_u8 in Hn.
  destruct (Z.gtb_spec (p + 1 + 1 + n) (zlen k)); [by apply yields_done|].
  unfold PJMEDIA_RTCP_RX_SDES_BUF_LEN. destruct (Z.ltb_spec (b + n) 64).
  - eapply yields_bind; [apply copy_in_yields; auto; lia|]. intros buf' [Hl' Hb'].
    apply IH; auto; try lia. apply sdes_set_ok; [done|]. cbn. lia.
  - apply IH; auto; lia.
Qed.

(** How many bytes the handler of a packet [k] with the first word [w] reads: of
    a report, the parts it uses; of a BYE, its reason; of a NACK, one entry. *)
Definition rtcp_reads (k : list Z) (w : Z) : Z :=
  if rtcp_pt w =? RTCP_SR then
    if (rtcp_count w >? 0) && (zlen k >=? 52) then 52 else 16
  else if (rtcp_pt w =? RTCP_RR) && (rtcp_count w >? 0) then 32
  else if (rtcp_pt w =? RTCP_BYE) && (zlen k >? 8) then
    9 + Z.min PJMEDIA_RTCP_RX_SDES_BUF_LEN (default 0 (rd8 k 8))
  else if (rtcp_pt w =? RTCP_RTPFB) && (rtcp_count w =? 1) && (zlen k =? 8) then 12
  else 4.

(** The length field of the packet gives its size, and the packet has what its
    type needs. *)
Definition well_sized (k : list Z) : Prop :=
  exists w, rd32 k 0 = Some w /\ zlen k = (swap16 (rtcp_length w) + 1) * 4 /\
            rtcp_reads k w <= zlen k.

(** The losses and jitter of a report block change statistics only. *)
Lemma rx_rr_yields sess k off now : is_bytes k -> 0 <= off -> off + 24 <= zlen k -> room sess ->
  yields (rx_rr sess k off now) room.
Proof.
  intros Hk Ho Hl Hr. unfold rx_rr.
  eapply yields_bind; [apply (yields_rd32 k (off + 4)); auto; lia|intros lost _].
  eapply yields_bind; [apply (yields_rd32 k (off + 12)); auto; lia|intros j _].
  eapply yields_bind; [apply (yields_rd32 k (off + 16)); auto; lia|intros lsr _].
  apply yields_bind with room; [|intros s Hs; by apply yields_done].
  case_match; [|by apply yields_done, room_on_tx, room_total_lost].
  eapply yields_bind; [apply (yields_rd32 k (off + 20)); auto; lia|intros dlsr _].
  apply yields_done. case_match; [apply room_rtt|]; by apply room_on_tx, room_total_lost.
Qed.

Lemma parse_fci_yields {A} cnt k off (f : Z -> Z -> Z -> Z -> A) : is_bytes k -> 0 <= off ->
  off + 4 * Z.of_nat cnt <= zlen k -> yields (parse_fci cnt k off f) (fun _ => True).
Proof.
  intros Hk. revert off. induction cnt as [|cnt IH]; intros off Ho Hl; [by apply yields_done|].
  cbn [parse_fci].
  eapply yields_bind; [apply (yields_rd8 k); auto; lia|intros ? _].
  eapply yields_bind; [apply (yields_rd8 k); auto; lia|intros ? _].
  eapply yields_bind; [apply (yields_rd8 k); auto; lia|intros ? _].
  eapply yields_bind; [apply (yields_rd8 k); auto; lia|intros ? _].
  eapply yields_bind; [apply IH; lia|intros ? _]. by apply yields_done.
Qed.

Lemma parse_nack_yields k w : is_bytes k -> rd32 k 0 = Some w ->
  zlen k = (swap16 (rtcp_length w) + 1) * 4 ->
  ((rtcp_pt w =? RTCP_RTPFB) && (rtcp_count w =? 1) && (zlen k =? 8) = false) ->
  yields (pjmedia_rtcp_fb_parse_nack k (zlen k) 1) (fun _ => True).
Proof.
  intros Hk Hw Hl Hn. unfold pjmedia_rtcp_fb_parse_nack, parse_entries.
  pose proof (swap16_range (rtcp_length w)) as Hs. unfold is_u16 in Hs.
  destruct (Z.ltb_spec (zlen k) 8); [by apply yields_done|].
  rewrite (mem_bind _ _ _ Hw).
  destruct (negb (rtcp_pt w =? RTCP_RTPFB) || negb (rtcp_count w =? 1)) eqn:E; [by apply yields_done|].
  apply orb_false_iff in E as [E1%negb_false_iff E2%negb_false_iff]. rewrite E1, E2 in Hn.
  cbn [andb] in Hn. apply Z.eqb_neq in Hn.
  set (L := swap16 (rtcp_length w)) in *. rewrite (u32_small (L - 2)) by (unfold is_u32; lia).
  rewrite !u32_small by (rewrite ?u32_small; unfold is_u32; lia).
  destruct (Z.ltb_spec (zlen k) ((L - 2 + 3) * 4)); [by apply yields_done|].
  eapply yields_bind; [apply parse_fci_yields; auto; lia|intros ? _]. by apply yields_done.
Qed.

(** A packet that is long enough: it is processed, and what follows it is not
    looked at. *)
Lemma rx_one_yields sess k w now : is_bytes k -> room sess -> rd32 k 0 = Some w ->
  zlen k = (swap16 (rtcp_length w) + 1) * 4 -> rtcp_reads k w <= zlen k ->
  yields (rx_one sess k (rtcp_pt w) (zlen k) now) (fun r => room r.1).
Proof.
  intros Hk Hr Hw Hl Hn. unfold rtcp_reads in Hn. unfold rx_one.
  pose proof (rx_len_pos w) as H4. rewrite <- Hl in H4.
  destruct (_ || _) eqn:Er.
  { eapply yields_bind with room; [|intros s Hs; by apply yields_done].
    unfold parse_rtcp_report. rewrite (mem_bind _ _ _ Hw).
    destruct (rtcp_pt w =? RTCP_SR) eqn:E1.
    - assert (16 <= zlen k) by (destruct (_ && _); lia).
      eapply yields_bind; [apply (yields_rd32 k 8); auto; lia|intros ? _].
      eapply yields_bind; [apply (yields_rd32 k 12); auto; lia|intros ? _].
      destruct (_ && _); [apply rx_rr_yields; auto; lia|by apply yields_done].
    - destruct (_ && _); [apply rx_rr_yields; auto; lia|by apply yields_done]. }
  apply orb_false_iff in Er as [[E1 E2]%orb_false_iff _]. rewrite E1, E2 in Hn. cbn [andb] in Hn.
  destruct (rtcp_pt w =? RTCP_SDES) eqn:E3.
  { eapply yields_bind with room; [|intros s Hs; by apply yields_done].
    unfold parse_rtcp_sdes. destruct Hr as [Hb1 Hb2 Hb3].
    eapply yields_bind.
    - apply sdes_items_yields; auto; try lia. repeat constructor.
    - intros [sdes buf] (H1 & H2 & H3). by apply yields_done. }
  destruct (rtcp_pt w =? RTCP_BYE) eqn:E4; cbn [andb] in Hn.
  { eapply yields_bind with room; [|intros s Hs; by apply yields_done].
    unfold parse_rtcp_bye. destruct (Z.gtb_spec (zlen k) 8); [|by apply yields_done].
    eapply yields_bind; [apply (yields_rd8 k 8); auto; lia|intros n [Hn8 En]].
    rewrite En in Hn. cbn in Hn. unfold is_u8 in Hn8. destruct Hr as [Hb1 Hb2 Hb3].
    eapply yields_bind; [apply copy_in_yields; auto; unfold PJMEDIA_RTCP_RX_SDES_BUF_LEN in *; lia|].
    intros buf [H1 H2]. apply yields_done. constructor; [exact (eq_trans H1 Hb1)|done..]. }
  destruct ((rtcp_pt w =? RTCP_RTPFB) || (rtcp_pt w =? RTCP_PSFB)); [|by apply yields_done].
  eapply yields_bind with (fun _ => True); [|intros; by apply yields_done].
  unfold parse_rtcp_fb. eapply yields_bind; [eapply parse_nack_yields; eauto|].
  - destruct (_ && (zlen k =? 8)) eqn:E5; [|done]. apply andb_true_iff in E5 as [_ E5]. lia.
  - clear Hn. intros [st nack] _. case_match; [by apply yields_done|].
    unfold pjmedia_rtcp_fb_parse_pli. rewrite (mem_bind _ _ _ Hw).
    case_match; [by apply yields_done|]. case_match; by apply yields_done.
Qed.

(** A compound packet by packet, each on its own: [p] is where the first of them
    is in the datagram. *)
Fixpoint rx_each (clk : Z -> rtcp_now) (sess : pjmedia_rtcp_session) (p : Z)
    (pkts : list (list Z)) : outcome (pjmedia_rtcp_session * list rtcp_fb_event) :=
  match pkts with
  | [] => Done (sess, [])
  | k :: pkts =>
      w ← mem (rd32 k 0);
      '(sess, evs) ← rx_one sess k (rtcp_pt w) (zlen k) (clk p);
      '(sess, evs') ← rx_each clk sess (p + zlen k) pkts;
      Done (sess, evs ++ evs')
  end.

Lemma rx_loop_each fuel clk sess pre pkts : Forall is_bytes pkts -> Forall well_sized pkts ->
  room sess -> zlen (concat pkts) < Z.of_nat fuel ->
  exists r, rx_each clk sess (zlen pre) pkts = Done r /\ room r.1 /\
    rx_loop fuel clk sess (pre ++ concat pkts) (zlen pre) (zlen pre + zlen (concat pkts)) = Done r.
Proof.
  revert fuel sess pre. induction pkts as [|k pkts IH]; intros fuel sess pre Hb Hw Hr Hf.
  { exists (sess, []). split_and!; auto. destruct fuel as [|fuel]; [pose proof (zlen_nonneg (@concat Z [])); lia|].
    cbn [rx_loop concat]. change (@zlen Z []) with 0.
    destruct (Z.ltb_spec (zlen pre) (zlen pre + 0)); [lia|done]. }
  apply Forall_cons in Hb as [Hk Hb]. apply Forall_cons in Hw as [(w & Ew & Hl & Hn) Hw].
  destruct (rx_one_yields sess k w (clk (zlen pre)) Hk Hr Ew Hl Hn) as ([s1 e1] & E1 & Hr1).
  pose proof (rx_len_pos w) as Hpos. cbn [concat] in *. rewrite zlen_app in *.
  pose proof (zlen_nonneg (concat pkts)). destruct fuel as [|fuel]; [lia|].
  destruct (IH fuel s1 (pre ++ k) Hb Hw Hr1 ltac:(lia)) as ([s2 e2] & E2 & Hr2 & E3).
  exists (s2, e1 ++ e2). cbn [rx_each]. rewrite (mem_bind _ _ _ Ew), E1.
  rewrite zlen_app in E2, E3. cbn [mbind outcome_bind]. rewrite E2. split_and!; [done..|].
  cbn [rx_loop].
  destruct (Z.ltb_spec (zlen pre) (zlen pre + (zlen k + zlen (concat pkts)))); [|lia].
  assert (drop (Z.to_nat (zlen pre)) (pre ++ k ++ concat pkts) = k ++ concat pkts) as Ed.
  { unfold zlen. by rewrite Nat2Z.id, drop_app_length. }
  assert (rd32 (pre ++ k ++ concat pkts) (zlen pre) = Some w) as ->.
  { pose proof (rd32_drop (pre ++ k ++ concat pkts) (zlen pre) 0 (zlen_nonneg pre) ltac:(lia)) as E.
    rewrite Z.add_0_r in E. by rewrite <- E, Ed, rd32_app_l by lia. }
  cbn [mem mbind outcome_bind]. rewrite <- Hl, Ed.
  destruct (Z.gtb_spec (zlen pre + zlen k) (zlen pre + (zlen k + zlen (concat pkts)))); [lia|].
  rewrite (rx_one_refines _ _ (concat pkts) _ _ _ Hk _ E1). cbn [mbind outcome_bind].
  rewrite <- app_assoc in E3. rewrite Z.add_assoc, E3. done.
Qed.

(** A datagram of one packet. *)
Lemma rx_single clk peer pkt w r : is_bytes pkt -> well_sized pkt -> room peer ->
  rd32 pkt 0 = Some w -> rx_one peer pkt (rtcp_pt w) (zlen pkt) (clk 0) = Done r ->
  pjmedia_rtcp_rx_rtcp clk peer pkt (zlen pkt) = Done r.
Proof.
  intros Hb Hsz Hp Ew E.
  destruct (rx_loop_each (S (Z.to_nat (zlen pkt))) clk peer [] [pkt]) as (r' & E1 & _ & E2);
    [by constructor|by constructor|done|cbn [concat]; rewrite app_nil_r; lia|].
  cbn [concat] in E2. rewrite app_nil_r in E2.
  unfold pjmedia_rtcp_rx_rtcp. change (zlen []) with 0 in E2. rewrite Z.add_0_l in E2.
  etransitivity; [exact E2|]. cbn [rx_each] in E1. rewrite (mem_bind _ _ _ Ew) in E1.
  change (zlen []) with 0 in E1. rewrite E in E1. destruct r as [s e]. cbn in E1.
  by rewrite <- E1, app_nil_r.
Qed.

(** C19: A datagram that is a sequence of packets, each with a length field that gives
    its size and each as long as its type needs, is processed packet by packet in
    order: nothing is read past its end, what a packet does depends on that packet
    alone, and the buffer of the peer's source description keeps its size. *)
Theorem rtcp_compound_spec clk sess pkts :
  Forall is_bytes pkts -> Forall well_sized pkts -> room sess ->
  exists sess' evs,
    pjmedia_rtcp_rx_rtcp clk sess (concat pkts) (zlen (concat pkts)) = Done (sess', evs) /\
    rx_each clk sess 0 pkts = Done (sess', evs) /\ room sess'.
Proof.
  intros Hb Hw Hr.
  destruct (rx_loop_each (S (Z.to_nat (zlen (concat pkts)))) clk sess [] pkts Hb Hw Hr)
    as ([s e] & E1 & Hr' & E2); [lia|].
  exists s, e. by split_and!.
Qed.

Lemma rtcp_compound_spec_witness :
  let clk := fun _ => RtcpNow 0 0 (TV 0 0) in
  let sess := pjmedia_rtcp_init 8000 160 7 (TV 0 0) 0 1000 (TV 0 0) in
  let pkts := [[128; 201; 0; 1; 0; 0; 0; 9]; [129; 202; 0; 2; 0; 0; 0; 9; 1; 1; 97; 0]] in
  (Forall is_bytes pkts /\ Forall well_sized pkts /\ room sess) /\
  exists sess' evs,
    pjmedia_rtcp_rx_rtcp clk sess (concat pkts) (zlen (concat pkts)) = Done (sess', evs) /\
    rx_each clk sess 0 pkts = Done (sess', evs) /\ room sess'.
Proof.
  intros clk sess pkts.
  assert (Forall is_bytes pkts /\ Forall well_sized pkts /\ room sess) as (H1 & H2 & H3).
  { split_and!.
    - repeat constructor; unfold is_u8; lia.
    - repeat constructor; (eexists; split; [reflexivity|split; [reflexivity|]]);
        vm_compute; discriminate.
    - constructor; [reflexivity| |].
      + apply Forall_replicate. unfold is_u8. lia.
      + repeat constructor. }
  split; [split_and!; assumption|]. exact (rtcp_compound_spec clk sess pkts H1 H2 H3).
Defined.
