(* ===== verification/RtcpReport.v ===== *)
(** * Reports: what a session measures and what its peer learns from it

    The sessions that any sequence of calls can reach, and the reports they
    build; then the two ends together: a report carries the measurements of one
    end to the other, and two of them give the round trip time. *)

From S2P Require Import Prelude Mem PjMath TimeVal Rtp Rtcp RtcpFb RtcpRx RtcpProps.

Set Warnings "-clear-no-such-hyp".

(** ** Well-formed sessions *)

Definition sr_ok (s : pjmedia_rtcp_sr) : Prop :=
  is_u32 (ntp_sec s) /\ is_u32 (ntp_frac s) /\ is_u32 (sr_rtp_ts s) /\
  is_u32 (sender_pcount s) /\ is_u32 (sender_bcount s).

Definition rr_ok (r : pjmedia_rtcp_rr) : Prop :=
  is_u32 (rr_ssrc r) /\ is_u8 (fract_lost r) /\ is_u8 (total_lost_2 r) /\
  is_u8 (total_lost_1 r) /\ is_u8 (total_lost_0 r) /\ is_u32 (last_seq r) /\
  is_u32 (rr_jitter r) /\ is_u32 (rr_lsr r) /\ is_u32 (rr_dlsr r).

Definition stream_ok (s : pjmedia_rtcp_stream_stat) : Prop :=
  is_u32 (ss_update_cnt s) /\ is_u32 (ss_pkt s) /\ is_u32 (ss_bytes s) /\
  is_u32 (ss_discard s) /\ is_u32 (ss_loss s) /\ is_u32 (ss_reorder s) /\ is_u32 (ss_dup s).

(** The cached packets have the headers that the set-up gave them, with the
    source [ssrc] of the session in network byte order. *)
Definition headers_ok (sess : pjmedia_rtcp_session) : Prop :=
  exists ssrc, is_u32 ssrc /\
    srp_common (rs_sr_pkt sess) = RtcpCommon 2 0 1 RTCP_SR (swap16 12) ssrc /\
    rrp_common (rs_rr_pkt sess) = RtcpCommon 2 0 1 RTCP_RR (swap16 7) ssrc.

Record rtcp_wf (sess : pjmedia_rtcp_session) : Prop := {
  wf_headers : headers_ok sess;
  wf_sr : sr_ok (srp_sr (rs_sr_pkt sess));
  wf_sr_rr : rr_ok (srp_rr (rs_sr_pkt sess));
  wf_rr : rr_ok (rrp_rr (rs_rr_pkt sess));
  wf_seq : seq_wf (rs_seq_ctrl sess);
  wf_clock : 0 < rs_clock_rate sess < 4294967296;
  wf_freq : 0 < rs_ts_freq sess < 18446744073709551616;
  wf_counts : is_u32 (rs_received sess) /\ is_u32 (rs_exp_prior sess) /\
              is_u32 (rs_rx_prior sess);
  wf_transit : is_s32 (rs_transit sess) /\ is_u32 (rs_jitter sess);
  wf_lsr : is_u32 (rs_rx_lsr sess);
  wf_rx : stream_ok (rs_rx sess);
  wf_tx : stream_ok (rs_tx sess);
  wf_room : room sess
}.

(** Fields that the calls only copy their arguments to. *)
Record copied_ok (sess : pjmedia_rtcp_session) : Prop := {
  co_last_ts : is_u32 (rs_rtp_last_ts sess);
  co_peer_ssrc : is_u32 (rs_peer_ssrc sess);
  co_tx_last_ts : is_u32 (rtp_tx_last_ts (rs_stat sess));
  co_tx_last_seq : is_u16 (rtp_tx_last_seq (rs_stat sess))
}.

(** What stream.c assigns itself: the packet it has sent, a packet that does not
    decode, and the reset of the statistics. *)
Definition stream_tx_last (sess : pjmedia_rtcp_session) (ts seq : Z) : pjmedia_rtcp_session :=
  on_stat (fun s => s <| rtp_tx_last_ts := ts |> <| rtp_tx_last_seq := seq |>) sess.
Definition stream_decode_error (sess : pjmedia_rtcp_session) : pjmedia_rtcp_session :=
  on_rx (fun r => r <| ss_discard ::= fun n => u32 (n + 1) |>) sess.
Definition pjmedia_stream_reset_stat (sess : pjmedia_rtcp_session) (now : pj_time_val) :
    pjmedia_rtcp_session :=
  sess <| rs_stat := pjmedia_rtcp_init_stat now |>.

(** What the stream does to its session (stream.c): its calls, and the assignments
    of [peer_ssrc], of the last timestamp and sequence number sent, of the count
    of packets that did not decode, and the reset of the statistics.  A packet is
    a memory that may go on behind the [size] bytes that were received. *)
Inductive rtcp_step : pjmedia_rtcp_session -> pjmedia_rtcp_session -> Prop :=
  | step_rx_rtp sess seq rtp_ts payload d ts : is_u32 rtp_ts ->
      rtcp_step sess (pjmedia_rtcp_rx_rtp2 sess seq rtp_ts payload d ts)
  | step_tx_rtp sess n : rtcp_step sess (pjmedia_rtcp_tx_rtp sess n)
  | step_rx_rtcp clk sess pkt size sess' evs : is_bytes pkt ->
      pjmedia_rtcp_rx_rtcp clk sess pkt size = Done (sess', evs) -> rtcp_step sess sess'
  | step_build sess now : rtcp_step sess (pjmedia_rtcp_build_rtcp sess now).1
  | step_peer_ssrc sess ssrc : is_u32 ssrc -> rtcp_step sess (sess <| rs_peer_ssrc := ssrc |>)
  | step_tx_last sess ts seq : is_u32 ts -> is_u16 seq ->
      rtcp_step sess (stream_tx_last sess ts seq)
  | step_discard sess : rtcp_step sess (stream_decode_error sess)
  | step_init_stat sess now : rtcp_step sess (pjmedia_stream_reset_stat sess now).

Inductive rtcp_reachable : pjmedia_rtcp_session -> Prop :=
  | reach_init settings now ts freq now' :
      0 < rset_clock_rate settings < 4294967296 -> is_u32 (rset_ssrc settings) ->
      0 < freq < 18446744073709551616 ->
      rtcp_reachable (pjmedia_rtcp_init2 settings now ts freq now')
  | reach_step sess sess' : rtcp_reachable sess -> rtcp_step sess sess' -> rtcp_reachable sess'.

(** ** The invariant is kept *)

Lemma init2_wf settings now ts freq now' :
  0 < rset_clock_rate settings < 4294967296 -> is_u32 (rset_ssrc settings) ->
  0 < freq < 18446744073709551616 -> rtcp_wf (pjmedia_rtcp_init2 settings now ts freq now').
Proof.
  intros Hc Hs Hf. constructor; cbn;
    try (unfold sr_ok, rr_ok, stream_ok, is_u32, is_s32, is_u8; cbn; lia).
  - exists (swap32 (rset_ssrc settings)). split_and!; auto with pj.
  - by constructor.
  - constructor; [done| |repeat constructor]. apply Forall_replicate. unfold is_u8. lia.
Qed.

(** A change of the statistics of one direction. *)
Lemma wf_on_rx f sess : rtcp_wf sess -> stream_ok (f (rs_rx sess)) -> rtcp_wf (on_rx f sess).
Proof. intros []. by constructor. Qed.
Lemma wf_on_tx f sess : rtcp_wf sess -> stream_ok (f (rs_tx sess)) -> rtcp_wf (on_tx f sess).
Proof. intros []. by constructor. Qed.

Ltac stream_solve :=
  match goal with H : rtcp_wf ?s |- stream_ok _ =>
    destruct (wf_rx s H) as (? & ? & ? & ? & ? & ? & ?);
    destruct (wf_tx s H) as (? & ? & ? & ? & ? & ? & ?)
  end;
  split_and!; first [assumption | apply u32_range].

Lemma wf_seq_ctrl sess c : rtcp_wf sess -> seq_wf c -> rtcp_wf (sess <| rs_seq_ctrl := c |>).
Proof. intros []. by constructor. Qed.

Lemma wf_init_seq sess : rtcp_wf sess -> rtcp_wf (rtcp_init_seq sess).
Proof. intros []. by constructor. Qed.

Lemma seq_init_wf c seq : seq_wf (pjmedia_rtp_seq_init c (u16 seq)).
Proof. constructor; [apply u16_range|done|done]. Qed.

Lemma wf_rx_loss sess diff : rtcp_wf sess -> rtcp_wf (rx_loss sess diff).
Proof.
  intros H. unfold rx_loss. case_match; [|done]. apply wf_on_rx; [done|]. stream_solve.
Qed.

Lemma wf_rx_jitter sess transit : rtcp_wf sess -> is_s32 transit -> rtcp_wf (rx_jitter sess transit).
Proof.
  intros H Ht. unfold rx_jitter. case_match.
  - apply wf_on_rx; [|stream_solve]. destruct H as [? ? ? ? ? ? ? ? [? ?]]. by constructor.
  - assert (forall j, is_u32 j -> rtcp_wf (sess <| rs_jitter := j |>)) as Hj.
    { intros j Hj. destruct H as [? ? ? ? ? ? ? ? [? ?]]. by constructor. }
    match goal with |- rtcp_wf (?s <| rs_transit := _ |>) => enough (rtcp_wf s) as [? ? ? ? ? ? ? ? [? ?]] end.
    { by constructor. }
    apply wf_on_rx; [apply Hj; unfold jitter_step; auto with pj|stream_solve].
Qed.

Lemma wf_count_received sess :
  rtcp_wf sess -> rtcp_wf (sess <| rs_received ::= fun n => u32 (n + 1) |>).
Proof.
  intros [? ? ? ? ? ? ? (? & ? & ?)]. constructor; try assumption.
  split_and!; [apply u32_range|assumption..].
Qed.

Lemma wf_last_ts sess t : rtcp_wf sess -> rtcp_wf (sess <| rs_rtp_last_ts := t |>).
Proof. intros []. by constructor. Qed.

Lemma rx_rtp2_wf sess seq rtp_ts payload d ts :
  rtcp_wf sess -> rtcp_wf (pjmedia_rtcp_rx_rtp2 sess seq rtp_ts payload d ts).
Proof.
  intros H. unfold pjmedia_rtcp_rx_rtp2.
  set (s0 := if ss_pkt _ =? 0 then _ else sess).
  assert (rtcp_wf s0) as H0.
  { unfold s0. case_match; [|done]. apply wf_seq_ctrl; auto using seq_init_wf. }
  set (s1 := on_rx _ s0).
  assert (rtcp_wf s1) as H1 by (apply wf_on_rx; [done|stream_solve]).
  pose proof (seq_update_wf (rs_seq_ctrl s1) (u16 seq) (wf_seq _ H1) (u16_range _)) as Hc.
  destruct (pjmedia_rtp_seq_update (rs_seq_ctrl s1) (u16 seq)) as [ctrl st]. cbn [fst] in Hc.
  set (s2 := s1 <| rs_seq_ctrl := ctrl |>).
  assert (rtcp_wf s2) as H2 by by apply wf_seq_ctrl.
  set (s3 := if st_restart st then _ else s2).
  assert (rtcp_wf s3) as H3 by (unfold s3; case_match; auto using wf_init_seq).
  set (s4 := if st_dup st then _ else s3).
  assert (rtcp_wf s4) as H4 by (unfold s4; case_match; [apply wf_on_rx; [done|stream_solve]|done]).
  set (s5 := if st_outorder st && _ then _ else s4).
  assert (rtcp_wf s5) as H5 by (unfold s5; case_match; [apply wf_on_rx; [done|stream_solve]|done]).
  destruct (st_bad st); [apply wf_on_rx; [done|stream_solve]|].
  apply wf_last_ts.
  pose proof (wf_rx_loss _ (st_diff st) (wf_count_received _ H5)) as H6.
  case_match; [|done]. apply wf_rx_jitter; [done|]. apply s32_range.
Qed.

Lemma tx_rtp_wf sess n : rtcp_wf sess -> rtcp_wf (pjmedia_rtcp_tx_rtp sess n).
Proof. intros H. apply wf_on_tx; [done|stream_solve]. Qed.

Lemma wf_on_rr b f sess : rtcp_wf sess -> (forall r, rr_ok r -> rr_ok (f r)) ->
  rtcp_wf (on_rr b f sess).
Proof.
  intros [[ssrc (? & ? & ?)] ?] Hf. destruct b; constructor; try assumption;
    try (exists ssrc; by split_and!); by apply Hf.
Qed.

Lemma wf_fill_sr sess ntp : rtcp_wf sess -> rtcp_wf (fill_sr sess ntp).
Proof.
  intros [[ssrc (? & ? & ?)] (? & ? & ? & ? & ?)]. constructor; try assumption.
  - exists ssrc. by split_and!.
  - repeat split; apply swap32_range.
Qed.

Ltac rr_solve :=
  intros r (? & ? & ? & ? & ? & ? & ? & ? & ?);
  split_and!; first [assumption | apply swap32_range | apply u32_range | apply u8_range
                    | apply land_u8 | done ].

Lemma wf_fill_seq b sess : rtcp_wf sess -> rtcp_wf (fill_seq b sess).
Proof.
  intros H. unfold fill_seq. apply wf_on_rr; [|rr_solve].
  assert (rtcp_wf (on_rr b (fun r => r <| rr_ssrc := swap32 (rs_peer_ssrc sess) |>
      <| last_seq := Z.land (cycles (rs_seq_ctrl sess)) 4294901760 |>) sess)) as H1.
  { apply wf_on_rr; [done|]. pose proof (wf_cycles _ (wf_seq _ H)) as Hc.
    intros r (? & ? & ? & ? & ? & ? & ? & ? & ?).
    split_and!; try assumption; try apply swap32_range.
    change (is_u32 (Z.land (cycles (rs_seq_ctrl sess)) 4294901760)). rewrite land_hi by done.
    clear -Hc. word_lia. }
  apply wf_on_rr; [apply wf_on_rr; [done|]|]; rr_solve.
Qed.

Lemma wf_fill_lost b sess : rtcp_wf sess -> rtcp_wf (fill_lost b sess).
Proof. intros H. apply wf_on_rr; [done|]. rr_solve. Qed.

Lemma fraction_lost_u8 e r : is_u8 (fraction_lost e r).
Proof. unfold fraction_lost. case_match; [unfold is_u8; lia|apply u8_range]. Qed.

Lemma wf_fill_fract b sess : rtcp_wf sess -> rtcp_wf (fill_fract b sess).
Proof.
  intros H. apply wf_on_rr.
  - destruct H as [? ? ? ? ? ? ? (? & ? & ?)]. constructor; try assumption.
    split_and!; try assumption. apply u32_range.
  - intros r (? & ? & ? & ? & ? & ? & ? & ? & ?).
    split_and!; first [assumption | apply fraction_lost_u8].
Qed.

Lemma wf_fill_lsr b sess ts : rtcp_wf sess -> rtcp_wf (fill_lsr b sess ts).
Proof. intros H. apply wf_on_rr; [done|]. case_match; rr_solve. Qed.

Lemma build_rtcp_wf sess now : rtcp_wf sess -> rtcp_wf (pjmedia_rtcp_build_rtcp sess now).1.
Proof.
  intros H. unfold pjmedia_rtcp_build_rtcp. cbn [fst].
  set (s0 := if sends_sr sess then _ else sess).
  assert (rtcp_wf s0) as H0 by (unfold s0; case_match; auto using wf_fill_sr).
  assert (rtcp_wf (fill_lsr (sends_sr sess) (fill_fract (sends_sr sess) (fill_lost (sends_sr sess)
            (fill_seq (sends_sr sess) s0))) (now_ts now))) as H1
    by auto using wf_fill_lsr, wf_fill_fract, wf_fill_lost, wf_fill_seq.
  apply wf_on_rx; [done|]. stream_solve.
Qed.

(** Reception and transmission take the same middle of an NTP time. *)
Lemma rx_lsr_mid hi lo : is_u32 hi -> is_u32 lo ->
  Z.lor (u32 (Z.shiftl (Z.land hi 65535) 16)) (Z.land (Z.shiftr lo 16) 65535)
  = ntp_mid (NtpRec hi lo).
Proof.
  intros Hh Hl. unfold ntp_mid. cbn [ntp_hi ntp_lo]. rewrite !land_ffff.
  assert (u32 (Z.shiftl (hi mod 65536) 16) = Z.shiftl (hi mod 65536) 16) as ->
    by (apply u32_small; rewrite Z.shiftl_mul_pow2 by lia; change (2 ^ 16) with 65536; word_lia).
  rewrite lor_hi_lo by (apply Z.mod_pos_bound; lia).
  rewrite Z.shiftl_mul_pow2, Z.shiftr_div_pow2 by lia. change (2 ^ 16) with 65536. word_lia.
Qed.

Lemma ntp_mid_u32 n : is_u32 (ntp_mid n).
Proof. apply u32_range. Qed.

Lemma wf_rx_sr sess sec frac ts : rtcp_wf sess -> rtcp_wf (rx_sr sess sec frac ts).
Proof.
  intros []. constructor; try assumption. cbn [rx_sr].
  change (is_u32 (Z.lor (u32 (Z.shiftl (Z.land (swap32 sec) 65535) 16))
                        (Z.land (Z.shiftr (swap32 frac) 16) 65535))).
  rewrite rx_lsr_mid; auto using ntp_mid_u32, swap32_range.
Qed.

Lemma wf_total_lost sess loss : rtcp_wf sess -> is_u32 loss -> rtcp_wf (rx_total_lost sess loss).
Proof.
  intros H Hl. unfold rx_total_lost.
  assert (rtcp_wf (on_tx (fun t => t <| ss_loss := loss |>) sess)) as H1
    by (apply wf_on_tx; [done|stream_solve]).
  case_match; [|done]. apply wf_on_tx; [done|]. stream_solve.
Qed.

Lemma wf_rtt sess lsr dlsr ts : rtcp_wf sess -> rtcp_wf (rx_rtt sess lsr dlsr ts).
Proof. intros []. by constructor. Qed.

(** The 24 bits of the total loss. *)
Definition total_lost (w : Z) : Z :=
  Z.shiftl (w / 256 mod 256) 16 + Z.shiftl (w / 65536 mod 256) 8 + w / 16777216 mod 256.

Lemma total_lost_range w : 0 <= total_lost w < 16777216.
Proof.
  unfold total_lost. rewrite !Z.shiftl_mul_pow2 by lia. change (2 ^ 16) with 65536.
  change (2 ^ 8) with 256. Z.to_euclidean_division_equations; lia.
Qed.

Lemma rx_rr_wf sess k off now : rtcp_wf sess -> results (rx_rr sess k off now) rtcp_wf.
Proof.
  intros H. unfold rx_rr.
  eapply results_bind with (fun _ => True); [done|intros lost _]. fold (total_lost lost).
  eapply results_bind with (fun _ => True); [done|intros j _].
  eapply results_bind with (fun _ => True); [done|intros lsr _].
  set (s1 := on_tx _ (rx_total_lost _ _)).
  assert (rtcp_wf s1) as H1.
  { assert (rtcp_wf (rx_total_lost sess (total_lost lost))) as H0.
    { apply wf_total_lost; [done|]. pose proof (total_lost_range lost). unfold is_u32. lia. }
    apply wf_on_tx; [done|]. stream_solve. }
  eapply results_bind with rtcp_wf.
  - case_match; [|by apply results_done].
    eapply results_bind with (fun _ => True); [done|intros dlsr _].
    apply results_done. case_match; auto using wf_rtt.
  - intros s Hs. apply results_done, wf_on_tx; [done|]. stream_solve.
Qed.

Lemma parse_report_wf sess k size now :
  rtcp_wf sess -> results (parse_rtcp_report sess k size now) rtcp_wf.
Proof.
  intros H. unfold parse_rtcp_report.
  eapply results_bind with (fun _ => True); [done|intros w _]. case_match.
  - eapply results_bind with (fun _ => True); [done|intros sec _].
    eapply results_bind with (fun _ => True); [done|intros frac _].
    case_match; [apply rx_rr_wf|apply results_done]; by apply wf_rx_sr.
  - case_match; [by apply rx_rr_wf|by apply results_done].
Qed.

Lemma wf_set_sdes sess sdes buf : rtcp_wf sess -> sdes_wf buf sdes ->
  rtcp_wf (on_stat (fun s => s <| peer_sdes := sdes |> <| peer_sdes_buf_ := buf |>) sess).
Proof. intros []. by constructor. Qed.

Lemma copy_in_results k p n buf b : is_bytes k -> is_bytes buf ->
  results (copy_in k p n buf b) (fun buf' => zlen buf' = zlen buf /\ is_bytes buf').
Proof.
  intros Hk Hb buf'. unfold copy_in. case_match; [|done].
  destruct (wr buf b _) eqn:E; [|done]. intros [= <-]. eapply wr_results; eauto.
  by apply Forall_take, Forall_drop.
Qed.

Lemma sdes_items_wf fuel k p p_end sdes buf b : is_bytes k -> 0 <= b ->
  sdes_wf buf sdes -> results (sdes_items fuel k p p_end sdes buf b) (fun r => sdes_wf r.2 r.1).
Proof.
  intros Hk. revert p sdes buf b. induction fuel as [|fuel IH]; intros p sdes buf b Hb H; [done|].
  cbn [sdes_items]. case_match; [|by apply results_done].
  eapply results_bind with (fun _ => True); [done|intros t _].
  case_match; [by apply results_done|].
  eapply results_bind; [by apply results_rd8|intros n Hn]. unfold is_u8 in Hn.
  case_match; [by apply results_done|].
  unfold PJMEDIA_RTCP_RX_SDES_BUF_LEN. destruct (Z.ltb_spec (b + n) 64); [|by apply IH].
  destruct H as [Hr1 Hr2 Hr3].
  eapply results_bind; [by apply copy_in_results|]. intros buf' [Hl Hb'].
  apply IH; [lia|]. constructor; [lia|done|]. apply sdes_set_ok; [done|]. cbn. lia.
Qed.

Lemma rx_one_wf sess k pt len now : is_bytes k -> rtcp_wf sess ->
  results (rx_one sess k pt len now) (fun r => rtcp_wf r.1).
Proof.
  intros Hk H. unfold rx_one. repeat case_match; try (by apply results_done).
  - eapply results_bind; [by apply parse_report_wf|]. intros; by apply results_done.
  - eapply results_bind with rtcp_wf; [|intros; by apply results_done].
    unfold parse_rtcp_sdes. destruct (wf_room _ H) as [Hr1 Hr2 Hr3].
    eapply results_bind; [apply sdes_items_wf; [done|lia|]|].
    + constructor; [done..|repeat constructor].
    + intros [sdes buf] Hs. apply results_done. by apply wf_set_sdes.
  - eapply results_bind with rtcp_wf; [|intros; by apply results_done].
    unfold parse_rtcp_bye. case_match; [|by apply results_done].
    destruct (wf_room _ H) as [H1' H2' H3'].
    eapply results_bind with (fun _ => True); [done|intros n _].
    eapply results_bind; [by apply copy_in_results|]. intros buf [Hl Hb].
    apply results_done. apply (wf_set_sdes sess (peer_sdes (rs_stat sess)) buf H).
    constructor; [exact (eq_trans Hl H1')|done..].
  - eapply results_bind with (fun _ => True); [done|]. intros; by apply results_done.
Qed.

Lemma rx_loop_wf fuel clk sess k p p_end : is_bytes k -> rtcp_wf sess ->
  results (rx_loop fuel clk sess k p p_end) (fun r => rtcp_wf r.1).
Proof.
  intros Hk. revert sess p. induction fuel as [|fuel IH]; intros sess p H; [done|].
  cbn [rx_loop]. case_match; [|by apply results_done].
  eapply results_bind with (fun _ => True); [done|intros w _]. case_match; [by apply results_done|].
  eapply results_bind; [apply rx_one_wf; [by apply Forall_drop|done]|]. intros [s1 e1] Hw1.
  eapply results_bind; [by apply IH|]. intros [s2 e2] Hw2. by apply results_done.
Qed.

(** ** The copied fields *)

Definition copied (sess : pjmedia_rtcp_session) :=
  (rs_peer_ssrc sess, rtp_tx_last_ts (rs_stat sess), rtp_tx_last_seq (rs_stat sess)).

Lemma copied_ok_eq sess sess' : copied sess' = copied sess -> is_u32 (rs_rtp_last_ts sess') ->
  copied_ok sess -> copied_ok sess'.
Proof. unfold copied. intros [= E1 E2 E3] Hl []. constructor; rewrite ?E1, ?E2, ?E3; assumption. Qed.

Lemma rx_rtp2_copied sess seq rtp_ts payload d ts : is_u32 rtp_ts -> copied_ok sess ->
  copied_ok (pjmedia_rtcp_rx_rtp2 sess seq rtp_ts payload d ts).
Proof.
  intros Ht H. unfold pjmedia_rtcp_rx_rtp2.
  set (s0 := if ss_pkt _ =? 0 then _ else sess). set (s1 := on_rx _ s0).
  destruct (pjmedia_rtp_seq_update _ _) as [c st]. set (s2 := s1 <| rs_seq_ctrl := c |>).
  set (s3 := if st_restart st then _ else s2). set (s4 := if st_dup st then _ else s3).
  set (s5 := if st_outorder st && negb _ then _ else s4).
  assert (copied_ok s5) as H5.
  { unfold s5, s4, s3, s2, s1, s0. destruct H.
    destruct (st_restart st), (st_dup st), (_ && _), (_ =? 0); by constructor. }
  clearbody s5. destruct (st_bad st); [by destruct H5|].
  set (s6 := s5 <| rs_received ::= _ |>).
  assert (copied (rx_loss s6 (st_diff st)) = copied s5) as E6 by (unfold rx_loss; by case_match).
  apply (copied_ok_eq s5); [|exact Ht|exact H5]. rewrite <- E6.
  case_match; [|done]. unfold rx_jitter. by case_match.
Qed.

(** Everything that the reception of RTCP leaves alone. *)
Definition unheard (sess : pjmedia_rtcp_session) := (copied sess, rs_rtp_last_ts sess).

Lemma rx_rr_unheard sess k off now : results (rx_rr sess k off now) (fun s => unheard s = unheard sess).
Proof.
  unfold rx_rr.
  eapply results_bind with (fun _ => True); [done|intros lost _]. fold (total_lost lost).
  eapply results_bind with (fun _ => True); [done|intros j _].
  eapply results_bind with (fun _ => True); [done|intros lsr _].
  set (s1 := on_tx _ (rx_total_lost _ _)).
  assert (unheard s1 = unheard sess) as E1 by (unfold s1, rx_total_lost; by case_match).
  eapply results_bind with (fun s => unheard s = unheard sess).
  - case_match; [|by apply results_done].
    eapply results_bind with (fun _ => True); [done|intros dlsr _]. apply results_done. by case_match.
  - intros s Hs. by apply results_done.
Qed.

Lemma rx_one_unheard sess k pt len now : results (rx_one sess k pt len now) (fun r => unheard r.1 = unheard sess).
Proof.
  unfold rx_one. repeat case_match; try (by apply results_done).
  - eapply results_bind with (fun s => unheard s = unheard sess); [|intros; by apply results_done].
    unfold parse_rtcp_report. eapply results_bind with (fun _ => True); [done|intros w _]. case_match.
    + eapply results_bind with (fun _ => True); [done|intros sec _].
      eapply results_bind with (fun _ => True); [done|intros frac _].
      case_match; [apply (rx_rr_unheard (rx_sr sess sec frac (now_ts now)))|by apply results_done].
    + case_match; [apply rx_rr_unheard|by apply results_done].
  - eapply results_bind with (fun s => unheard s = unheard sess); [|intros; by apply results_done].
    eapply results_bind with (fun _ => True); [done|intros [sdes buf] _]. by apply results_done.
  - eapply results_bind with (fun s => unheard s = unheard sess); [|intros; by apply results_done].
    unfold parse_rtcp_bye. case_match; [|by apply results_done].
    eapply results_bind with (fun _ => True); [done|intros n _].
    eapply results_bind with (fun _ => True); [done|intros buf _]. by apply results_done.
  - eapply results_bind with (fun _ => True); [done|]. intros; by apply results_done.
Qed.

Lemma rx_loop_unheard fuel clk sess k p p_end :
  results (rx_loop fuel clk sess k p p_end) (fun r => unheard r.1 = unheard sess).
Proof.
  revert sess p. induction fuel as [|fuel IH]; intros sess p; [done|].
  cbn [rx_loop]. case_match; [|by apply results_done].
  eapply results_bind with (fun _ => True); [done|intros w _]. case_match; [by apply results_done|].
  eapply results_bind; [apply rx_one_unheard|]. intros [s1 e1] E1.
  eapply results_bind; [apply IH|]. intros [s2 e2] E2. apply results_done. cbn in *. congruence.
Qed.

Lemma step_copied sess sess' : rtcp_step sess sess' -> copied_ok sess -> copied_ok sess'.
Proof.
  intros Hs H. destruct Hs.
  - by apply rx_rtp2_copied.
  - by destruct H.
  - pose proof (rx_loop_unheard _ _ _ _ _ _ (_, _) ltac:(eassumption)) as [= E1 E2 E3 E4].
    apply (copied_ok_eq sess); [unfold copied; congruence|rewrite E4; apply H|exact H].
  - apply (copied_ok_eq sess); [| |exact H];
      unfold pjmedia_rtcp_build_rtcp; destruct (sends_sr sess); cbn; [done..|apply H|apply H].
  - destruct H. by constructor.
  - destruct H. by constructor.
  - by destruct H.
  - destruct H. constructor; try done; unfold is_u32, is_u16; cbn; lia.
Qed.

(** ** Receptions with memory behind the datagram *)

(** A packet with 64 bytes of memory behind it is processed to its end, whatever it
    holds: what is read behind it is less than that, and nothing is written
    outside the buffer of the source description. *)
Lemma rx_one_roomy sess k w now : let len := (swap16 (rtcp_length w) + 1) * 4 in
  is_bytes k -> room sess -> rd32 k 0 = Some w -> len + 64 <= zlen k ->
  yields (rx_one sess k (rtcp_pt w) len now) (fun r => room r.1).
Proof.
  intros len Hk Hr Hw Hl. pose proof (rx_len_pos w) as H4. fold len in H4. unfold rx_one.
  destruct (_ || _).
  { eapply yields_bind with room; [|intros s Hs; by apply yields_done].
    unfold parse_rtcp_report. rewrite (mem_bind _ _ _ Hw). case_match.
    - eapply yields_bind; [apply (yields_rd32 k 8); auto; lia|intros ? _].
      eapply yields_bind; [apply (yields_rd32 k 12); auto; lia|intros ? _].
      case_match; [apply rx_rr_yields; auto; lia|by apply yields_done].
    - case_match; [apply rx_rr_yields; auto; lia|by apply yields_done]. }
  destruct (rtcp_pt w =? RTCP_SDES).
  { eapply yields_bind with room; [|intros s Hs; by apply yields_done].
    unfold parse_rtcp_sdes. destruct Hr as [Hb1 Hb2 Hb3].
    set (k1 := take (Z.to_nat len) k).
    assert (zlen k1 = len) as Hl1 by (unfold k1; rewrite zlen_take; lia).
    destruct (sdes_items_yields (Z.to_nat len) k1 8 sdes_zero (peer_sdes_buf_ (rs_stat sess)) 0)
      as ([sdes buf] & E & H1 & H2 & H3); try lia; auto; [by apply Forall_take|repeat constructor|].
    rewrite Hl1 in E. pose proof (sdes_items_refines (Z.to_nat len) k1 (drop (Z.to_nat len) k) 8 len
      sdes_zero (peer_sdes_buf_ (rs_stat sess)) 0 ltac:(by apply Forall_take) ltac:(lia) _ E) as E'.
    unfold k1 in E'. rewrite take_drop in E'. rewrite E'. by apply yields_done. }
  destruct (rtcp_pt w =? RTCP_BYE).
  { eapply yields_bind with room; [|intros s Hs; by apply yields_done].
    unfold parse_rtcp_bye. destruct (Z.gtb_spec len 8); [|by apply yields_done].
    eapply yields_bind; [apply (yields_rd8 k 8); auto; lia|intros n [Hn8 _]].
    unfold is_u8 in Hn8. destruct Hr as [Hb1 Hb2 Hb3].
    eapply yields_bind; [apply copy_in_yields; auto; unfold PJMEDIA_RTCP_RX_SDES_BUF_LEN in *; lia|].
    intros buf [H1 H2]. apply yields_done. constructor; [exact (eq_trans H1 Hb1)|done..]. }
  case_match; [|by apply yields_done].
  eapply yields_bind with (fun _ => True); [|intros; by apply yields_done].
  unfold parse_rtcp_fb, pjmedia_rtcp_fb_parse_nack, parse_entries.
  eapply yields_bind with (fun _ => True).
  - destruct (len <? 8) eqn:E8; [by apply yields_done|]. apply Z.ltb_ge in E8.
    rewrite (mem_bind _ _ _ Hw). repeat (case_match; [by apply yields_done|]).
    eapply yields_bind; [apply parse_fci_yields; auto; lia|intros ? _]. by apply yields_done.
  - intros [st nack] _. case_match; [by apply yields_done|].
    unfold pjmedia_rtcp_fb_parse_pli. rewrite (mem_bind _ _ _ Hw). eapply yields_bind with (fun _ => True);
      [repeat (case_match; [by apply yields_done|]); by apply yields_done|]. intros; by apply yields_done.
Qed.

Lemma rx_loop_roomy fuel clk sess pkt p p_end : is_bytes pkt -> room sess -> 0 <= p ->
  (0 < fuel)%nat -> p_end - p < Z.of_nat fuel -> p_end + 64 <= zlen pkt ->
  yields (rx_loop fuel clk sess pkt p p_end) (fun _ => True).
Proof.
  intros Hb. revert sess p. induction fuel as [|fuel IH]; intros sess p Hr Hp0 Hf Hp Hroom; [lia|].
  cbn [rx_loop]. destruct (Z.ltb_spec p p_end); [|by apply yields_done].
  eapply yields_bind; [apply (yields_rd32 pkt p); auto; lia|]. intros w [_ Hw].
  pose proof (rx_len_pos w) as Hl. set (len := (swap16 (rtcp_length w) + 1) * 4) in *.
  destruct (Z.gtb_spec (p + len) p_end); [by apply yields_done|].
  assert (rd32 (drop (Z.to_nat p) pkt) 0 = Some w) as Hw0
    by (rewrite rd32_drop by lia; by rewrite Z.add_0_r).
  eapply yields_bind.
  { apply (rx_one_roomy sess _ w (clk p)); [by apply Forall_drop|done|done|rewrite zlen_drop; lia]. }
  intros [s1 e1] Hr1. eapply yields_bind; [apply (IH s1 (p + len)); auto; lia|].
  intros [s2 e2] _. by apply yields_done.
Qed.

(** C30: Whatever a stream does to its session, and whatever its peer sends: the
    counters, sequence numbers, times and report fields stay in the ranges of
    their C types (the statistics of [pj_math_stat_state] apart), the two cached
    packets keep their headers, and the strings of the peer's source description
    lie in the session's buffer of 64 bytes.  And any datagram with 64 bytes of
    memory behind it is processed to its end, writing nothing outside of that
    buffer and reading nothing further behind. *)
Theorem rtcp_reachable_wf sess : rtcp_reachable sess ->
  rtcp_wf sess /\ copied_ok sess /\
  forall clk pkt size, is_bytes pkt -> 0 <= size -> size + 64 <= zlen pkt ->
    exists sess' evs, pjmedia_rtcp_rx_rtcp clk sess pkt size = Done (sess', evs) /\ rtcp_wf sess'.
Proof.
  intros Hreach. enough (rtcp_wf sess /\ copied_ok sess) as [Hw Hc].
  { split_and!; [done..|]. intros clk pkt size Hb Hs Hroom.
    destruct (rx_loop_roomy (S (Z.to_nat size)) clk sess pkt 0 size Hb (wf_room _ Hw)) as ([s e] & E & _);
      try lia. exists s, e. split; [exact E|]. exact (rx_loop_wf _ _ _ _ _ _ Hb Hw (_, _) E). }
  induction Hreach as [|sess sess' _ [IH IHc] Hs].
  { split; [by apply init2_wf|]. constructor; try (unfold is_u32, is_u16; cbn; lia). apply u32_range. }
  split; [|by eapply step_copied]. destruct Hs.
  - by apply rx_rtp2_wf.
  - by apply tx_rtp_wf.
  - by eapply (rx_loop_wf _ _ _ _ _ _ ltac:(eassumption) IH (_, _)).
  - by apply build_rtcp_wf.
  - destruct IH. by constructor.
  - destruct IH. by constructor.
  - apply wf_on_rx; [done|]. stream_solve.
  - assert (stream_ok stream_stat_zero) as Hz by (unfold stream_ok, is_u32; cbn; lia).
    destruct IH. constructor; try assumption.
    constructor; [done| |repeat constructor]. apply Forall_replicate. unfold is_u8. lia.
Qed.

(** After an RTP packet and a reset of the statistics, a BYE whose reason claims 255
    bytes arrives. *)
Lemma rtcp_reachable_wf_witness :
  let sess := pjmedia_rtcp_init 8000 160 7 (TV 0 0) 0 1000 (TV 0 0) in
  let sess := pjmedia_stream_reset_stat (pjmedia_rtcp_rx_rtp sess 5 160 20 3) (TV 9 0) in
  let pkt := [129; 203; 0; 2; 0; 0; 0; 9; 255; 98; 121; 101] ++ replicate 64 0 in
  rtcp_reachable sess /\ is_bytes pkt /\ zlen pkt = 12 + 64 /\ rtcp_wf sess /\
  exists sess' evs,
    pjmedia_rtcp_rx_rtcp (fun _ => RtcpNow 0 0 (TV 0 0)) sess pkt 12 = Done (sess', evs) /\ rtcp_wf sess'.
Proof.
  intros sess0 sess pkt. assert (rtcp_reachable sess) as H.
  { eapply reach_step; [|apply step_init_stat]. eapply reach_step; [|apply step_rx_rtp; unfold is_u32; lia].
    apply (reach_init (RtcpSetting 8000 160 7 0)); unfold is_u32; cbn; lia. }
  assert (is_bytes pkt) as Hb.
  { apply Forall_app_2; [repeat constructor; unfold is_u8; lia|]. apply Forall_replicate. unfold is_u8. lia. }
  destruct (rtcp_reachable_wf sess H) as (Hw & _ & Hrx).
  split; [exact H|]. split; [exact Hb|]. split; [reflexivity|]. split; [exact Hw|].
  exact (Hrx (fun _ => RtcpNow 0 0 (TV 0 0)) pkt 12 Hb ltac:(lia) ltac:(vm_compute; discriminate)).
Defined.
