(* ===== verification/RtcpMeasure.v ===== *)
(** * What RTCP measures: losses and jitter

    The losses and the jitter that a session computes over the RTP packets it
    receives, against the sender's own count of packets and against their transit
    times; and the reports that carry them to the peer. *)

From S2P Require Import Prelude Mem PjMath TimeVal Rtp Rtcp RtcpFb RtcpRx RtcpProps RtcpReport.

Set Warnings "-clear-no-such-hyp".

(** ** Runs of RTP packets *)

(** An RTP packet that arrives: the sender's unbounded count of its packets, of
    which the wire carries 16 bits, its timestamp and the size of its payload, and
    the reading of the receiver's clock. *)
Record rtp_arrival := Arrival { arr_count : Z; arr_rtp_ts : Z; arr_payload : Z; arr_ts : Z }.

Definition rx_arrival (sess : pjmedia_rtcp_session) (a : rtp_arrival) : pjmedia_rtcp_session :=
  pjmedia_rtcp_rx_rtp sess (arr_count a) (arr_rtp_ts a) (arr_payload a) (arr_ts a).

Definition rx_run (sess : pjmedia_rtcp_session) (l : list rtp_arrival) : pjmedia_rtcp_session :=
  foldl rx_arrival sess l.

(** How many of the packets were ahead of all before them. *)
Fixpoint advances (hi : Z) (xs : list Z) : Z :=
  match xs with
  | [] => 0
  | x :: xs => b2z (x >? hi) + advances (Z.max hi x) xs
  end.

(** What the reception of RTP leaves as it is. *)
Definition rx_frame (sess : pjmedia_rtcp_session) :=
  (rs_clock_rate sess, rs_pkt_size sess, rs_ts_freq sess, rs_exp_prior sess, rs_rx_prior sess,
   base_seq (rs_seq_ctrl sess)).

(** The packet that is neither bad nor a restart. *)
Definition rx_good (sess : pjmedia_rtcp_session) (st : pjmedia_rtp_status) (rtp_ts ts : Z) :
    pjmedia_rtcp_session :=
  let sess := sess <| rs_received ::= fun n => u32 (n + 1) |> in
  let sess := rx_loss sess (st_diff st) in
  let sess := if (st_diff st =? 1) && negb (rtp_ts =? rs_rtp_last_ts sess)
              then rx_jitter sess (rx_transit sess ts rtp_ts) else sess in
  sess <| rs_rtp_last_ts := rtp_ts |>.

Lemma rx_loss_fields sess diff :
  rs_received (rx_loss sess diff) = rs_received sess /\
  rs_seq_ctrl (rx_loss sess diff) = rs_seq_ctrl sess /\
  rx_frame (rx_loss sess diff) = rx_frame sess /\
  ss_pkt (rs_rx (rx_loss sess diff)) = ss_pkt (rs_rx sess) /\
  rs_jitter (rx_loss sess diff) = rs_jitter sess /\
  rs_transit (rx_loss sess diff) = rs_transit sess /\
  ss_loss (rs_rx (rx_loss sess diff)) =
    if diff >? 1 then u32 (ss_loss (rs_rx sess) + (diff - 1)) else ss_loss (rs_rx sess).
Proof. unfold rx_loss. by destruct (diff >? 1). Qed.

Lemma rx_jitter_fields sess t :
  rs_received (rx_jitter sess t) = rs_received sess /\
  rs_seq_ctrl (rx_jitter sess t) = rs_seq_ctrl sess /\
  rx_frame (rx_jitter sess t) = rx_frame sess /\
  ss_pkt (rs_rx (rx_jitter sess t)) = ss_pkt (rs_rx sess) /\
  ss_loss (rs_rx (rx_jitter sess t)) = ss_loss (rs_rx sess).
Proof. unfold rx_jitter. by destruct (_ || _). Qed.

Lemma rx_good_fields sess st rtp_ts ts :
  let sess' := rx_good sess st rtp_ts ts in
  rs_received sess' = u32 (rs_received sess + 1) /\
  rs_seq_ctrl sess' = rs_seq_ctrl sess /\
  rx_frame sess' = rx_frame sess /\
  ss_pkt (rs_rx sess') = ss_pkt (rs_rx sess) /\
  ss_loss (rs_rx sess') =
    if st_diff st >? 1 then u32 (ss_loss (rs_rx sess) + (st_diff st - 1)) else ss_loss (rs_rx sess).
Proof.
  unfold rx_good. cbn zeta. set (s1 := sess <| rs_received ::= _ |>).
  destruct (rx_loss_fields s1 (st_diff st)) as (E1 & E2 & E3 & E4 & _ & _ & E5).
  set (s2 := rx_loss s1 (st_diff st)) in *.
  destruct (_ && _).
  - destruct (rx_jitter_fields s2 (rx_transit s2 ts rtp_ts)) as (F1 & F2 & F3 & F4 & F5).
    set (s3 := rx_jitter s2 _) in *.
    split_and!; [exact (eq_trans F1 E1)|exact (eq_trans F2 E2)|exact (eq_trans F3 E3)
                |exact (eq_trans F4 E4)|exact (eq_trans F5 E5)].
  - split_and!; assumption.
Qed.

(** ** Losses *)

Lemma seq_update_base s seq : st_restart (pjmedia_rtp_seq_update s seq).2 = false ->
  base_seq (pjmedia_rtp_seq_update s seq).1 = base_seq s.
Proof. unfold pjmedia_rtp_seq_update. repeat case_match; done. Qed.

(** One arrival inside the tolerated window. *)
Lemma rx_arrival_tolerable sess hi a : seq_wf (rs_seq_ctrl sess) ->
  probation (rs_seq_ctrl sess) = 0 -> max_seq (rs_seq_ctrl sess) = u16 hi ->
  0 < ss_pkt (rs_rx sess) < 4294967295 ->
  hi - MAX_MISORDER < arr_count a < hi + MAX_DROPOUT ->
  let sess' := rx_arrival sess a in
  let hi' := Z.max hi (arr_count a) in
  seq_wf (rs_seq_ctrl sess') /\ probation (rs_seq_ctrl sess') = 0 /\
  max_seq (rs_seq_ctrl sess') = u16 hi' /\
  u32 (ext_seq (rs_seq_ctrl sess')) = u32 (ext_seq (rs_seq_ctrl sess) + (hi' - hi)) /\
  ss_pkt (rs_rx sess') = ss_pkt (rs_rx sess) + 1 /\
  rs_received sess' = u32 (rs_received sess + 1) /\
  rx_frame sess' = rx_frame sess /\
  u32 (ss_loss (rs_rx sess')) =
    u32 (ss_loss (rs_rx sess) + (hi' - hi - b2z (arr_count a >? hi))).
Proof.
  intros Hwf Hp Hm Hk Ha sess' hi'. unfold sess', rx_arrival, pjmedia_rtcp_rx_rtp, pjmedia_rtcp_rx_rtp2.
  destruct (Z.eqb_spec (ss_pkt (rs_rx sess)) 0); [lia|].
  set (s1 := on_rx _ sess). change (rs_seq_ctrl s1) with (rs_seq_ctrl sess).
  pose proof (seq_update_tolerable _ hi (arr_count a) Hwf Hp Hm Ha) as Hst.
  pose proof (seq_update_wf (rs_seq_ctrl sess) (u16 (arr_count a)) Hwf (u16_range _)) as Hw.
  pose proof (seq_update_base (rs_seq_ctrl sess) (u16 (arr_count a))) as Hbase.
  destruct (pjmedia_rtp_seq_update _ _) as [c st]. cbn [fst snd] in *.
  destruct Hst as (Hp' & Hm' & He' & Hbad & Hrst & Hd). rewrite Hbad, Hrst. specialize (Hbase Hrst).
  set (s2 := s1 <| rs_seq_ctrl := c |>).
  set (s3 := if st_dup st then _ else s2). set (s4 := if _ && negb _ then _ else s3).
  assert (rs_received s4 = rs_received sess /\ rs_seq_ctrl s4 = c /\
          rx_frame s4 = rx_frame sess /\ ss_pkt (rs_rx s4) = u32 (ss_pkt (rs_rx sess) + 1) /\
          ss_loss (rs_rx s4) = ss_loss (rs_rx sess)) as (F1 & F2 & F3 & F4 & F5).
  { assert (rx_frame s2 = rx_frame sess) as Hf.
    { unfold rx_frame. rewrite <- Hbase. done. }
    unfold s4, s3. destruct (st_outorder st && _), (st_dup st); by split_and!. }
  fold (rx_good s4 st (arr_rtp_ts a) (arr_ts a)).
  destruct (rx_good_fields s4 st (arr_rtp_ts a) (arr_ts a)) as (G1 & G2 & G3 & G4 & G5).
  rewrite G1, G2, G3, G4, G5, F1, F2, F3, F4, F5. clearbody s4 s3.
  rewrite (u32_small (ss_pkt (rs_rx sess) + 1)) by (unfold is_u32; lia). split_and!; auto.
  rewrite Hd. fold hi'. destruct (Z.gtb_spec (hi' - hi) 1), (Z.gtb_spec (arr_count a) hi);
    cbn [b2z]; unfold hi' in *; rewrite ?u32_idemp; f_equal; lia.
Qed.

(** A tolerable run. *)
Lemma rx_run_tolerable l : forall sess hi, seq_wf (rs_seq_ctrl sess) ->
  probation (rs_seq_ctrl sess) = 0 -> max_seq (rs_seq_ctrl sess) = u16 hi ->
  0 < ss_pkt (rs_rx sess) -> ss_pkt (rs_rx sess) + zlen l < 4294967296 ->
  tolerable hi (map arr_count l) ->
  let sess' := rx_run sess l in
  let hi' := high_water hi (map arr_count l) in
  u32 (ext_seq (rs_seq_ctrl sess')) = u32 (ext_seq (rs_seq_ctrl sess) + (hi' - hi)) /\
  u32 (rs_received sess') = u32 (rs_received sess + zlen l) /\
  rx_frame sess' = rx_frame sess /\
  u32 (ss_loss (rs_rx sess')) =
    u32 (ss_loss (rs_rx sess) + (hi' - hi - advances hi (map arr_count l))).
Proof.
  induction l as [|a l IH]; intros sess hi Hwf Hp Hm Hk0 Hk Ht sess' hi'.
  { unfold sess', hi', high_water. cbn. change (@zlen rtp_arrival []) with 0.
    by rewrite !Z.sub_diag, !Z.add_0_r. }
  destruct Ht as [Ha Ht]. rewrite zlen_cons in *. pose proof (zlen_nonneg l).
  destruct (rx_arrival_tolerable sess hi a Hwf Hp Hm ltac:(lia) Ha)
    as (Hwf1 & Hp1 & Hm1 & He1 & Hk1 & Hr1 & Hf1 & Hl1).
  destruct (IH (rx_arrival sess a) _ Hwf1 Hp1 Hm1 ltac:(lia) ltac:(lia) Ht)
    as (He2 & Hr2 & Hf2 & Hl2).
  unfold sess', hi'. cbn [rx_run foldl map high_water fold_left advances].
  fold (rx_run (rx_arrival sess a) l).
  fold (high_water (Z.max hi (arr_count a)) (map arr_count l)).
  split_and!.
  - rewrite He2, <- u32_add_l, He1, u32_add_l. f_equal. lia.
  - rewrite Hr2, Hr1, u32_add_l. f_equal. lia.
  - by rewrite Hf2.
  - rewrite Hl2, <- u32_add_l, Hl1, u32_add_l. f_equal. lia.
Qed.

(** ** Jitter *)

(** The estimator stays below its fixed point for the largest difference. *)
Lemma jitter_step_bound j d D : 0 <= d <= D -> 0 <= j <= 16 * D + 7 -> D < 134217728 ->
  0 <= jitter_step j d <= 16 * D + 7.
Proof.
  intros Hd Hj HD. unfold jitter_step. rewrite (u32_small (j + 8)) by (unfold is_u32; lia).
  rewrite Z.shiftr_div_pow2 by lia. change (2 ^ 4) with 16.
  rewrite u32_small; unfold is_u32; Z.to_euclidean_division_equations; lia.
Qed.

Definition transit_within (T D : Z) (sess : pjmedia_rtcp_session) : Prop :=
  (rs_transit sess = 0 \/ T <= rs_transit sess <= T + D) /\ 0 <= rs_jitter sess <= 16 * D + 7.

Lemma rx_jitter_bound T D sess t : 0 <= D < 134217728 -> -1073741824 <= T -> T + D < 1073741824 ->
  T <= t <= T + D -> transit_within T D sess -> transit_within T D (rx_jitter sess t).
Proof.
  intros HD HT HT' Ht [Htr Hj]. unfold rx_jitter.
  destruct (Z.eqb_spec (rs_transit sess) 0); [by split; [right|]|]. cbn [orb].
  destruct (_ <? _); [by split; [right|]|].
  destruct Htr as [|Htr]; [done|]. split; [by right|].
  change (0 <= jitter_step (rs_jitter sess) (if s32 (t - rs_transit sess) <? 0
    then s32 (- s32 (t - rs_transit sess)) else s32 (t - rs_transit sess)) <= 16 * D + 7).
  rewrite (s32_small (t - rs_transit sess)) by (unfold is_s32; lia).
  apply jitter_step_bound; auto; [|lia].
  destruct (Z.ltb_spec (t - rs_transit sess) 0); [|lia].
  rewrite s32_small by (unfold is_s32; lia). lia.
Qed.

Lemma rx_rtp2_bound T D sess seq rtp_ts payload d ts :
  0 <= D < 134217728 -> -1073741824 <= T -> T + D < 1073741824 ->
  T <= rx_transit sess ts rtp_ts <= T + D -> transit_within T D sess ->
  transit_within T D (pjmedia_rtcp_rx_rtp2 sess seq rtp_ts payload d ts).
Proof.
  intros HD HT HT' Ht H. unfold pjmedia_rtcp_rx_rtp2.
  set (s0 := if ss_pkt _ =? 0 then _ else sess).
  set (s1 := on_rx _ s0). destruct (pjmedia_rtp_seq_update _ _) as [c st].
  set (s2 := s1 <| rs_seq_ctrl := c |>). set (s3 := if st_restart st then _ else s2).
  set (s4 := if st_dup st then _ else s3). set (s5 := if _ && negb _ then _ else s4).
  assert (transit_within T D s5 /\ rs_clock_rate s5 = rs_clock_rate sess /\
          rs_ts_freq s5 = rs_ts_freq sess) as (H5 & Hc & Hf).
  { assert (transit_within T D s3 /\ rs_clock_rate s3 = rs_clock_rate sess /\
            rs_ts_freq s3 = rs_ts_freq sess) as H3.
    { assert (transit_within T D s2 /\ rs_clock_rate s2 = rs_clock_rate sess /\
              rs_ts_freq s2 = rs_ts_freq sess) as H2
        by (unfold s2, s1, s0; destruct (_ =? 0); exact (conj H (conj eq_refl eq_refl))).
      unfold s3. destruct (st_restart st); [|done]. destruct H2 as (_ & E1 & E2).
      split_and!; [|exact E1|exact E2]. split; [by left|]. change (0 <= 0 <= 16 * D + 7). lia. }
    unfold s5, s4. destruct (st_outorder st && _), (st_dup st); exact H3. }
  clearbody s5. destruct (st_bad st); [exact H5|].
  set (s6 := s5 <| rs_received ::= _ |>).
  destruct (rx_loss_fields s6 (st_diff st)) as (_ & _ & E3 & _ & E4 & E5 & _).
  set (s7 := rx_loss s6 (st_diff st)) in *. unfold rx_frame in E3. injection E3 as Ec _ Ef _ _ _.
  assert (transit_within T D s7) as H7 by (unfold transit_within; by rewrite E4, E5).
  assert (rx_transit s7 ts rtp_ts = rx_transit sess ts rtp_ts) as Et.
  { unfold rx_transit. by rewrite Ec, Ef; change (rs_clock_rate s6) with (rs_clock_rate s5);
      change (rs_ts_freq s6) with (rs_ts_freq s5); rewrite Hc, Hf. }
  match goal with |- transit_within T D (?s <| rs_rtp_last_ts := _ |>) =>
    change (transit_within T D s) end.
  destruct (_ && _); [|done]. apply rx_jitter_bound; auto. by rewrite Et.
Qed.

(** What only the set-up and the reports of the peer change. *)
Definition clock_frame (sess : pjmedia_rtcp_session) :=
  (rs_clock_rate sess, rs_ts_freq sess, rs_ts_base sess, rs_tv_base sess, rs_rx_lsr sess,
   rs_rx_lsr_time sess, stat_rtt (rs_stat sess)).

Lemma rx_loss_clock sess diff : clock_frame (rx_loss sess diff) = clock_frame sess.
Proof. unfold rx_loss. by case_match. Qed.
Lemma rx_jitter_clock sess t : clock_frame (rx_jitter sess t) = clock_frame sess.
Proof. unfold rx_jitter. by case_match. Qed.

Lemma rx_rtp2_clock sess seq rtp_ts payload d ts :
  clock_frame (pjmedia_rtcp_rx_rtp2 sess seq rtp_ts payload d ts) = clock_frame sess.
Proof.
  unfold pjmedia_rtcp_rx_rtp2.
  set (s0 := if ss_pkt _ =? 0 then _ else sess).
  set (s1 := on_rx _ s0). destruct (pjmedia_rtp_seq_update _ _) as [c st].
  set (s2 := s1 <| rs_seq_ctrl := c |>). set (s3 := if st_restart st then _ else s2).
  set (s4 := if st_dup st then _ else s3). set (s5 := if _ && negb _ then _ else s4).
  assert (clock_frame s5 = clock_frame sess) as H5.
  { unfold s5, s4, s3, s2, s1, s0.
    by destruct (st_restart st), (st_dup st), (_ && _), (_ =? 0). }
  clearbody s5. destruct (st_bad st); [exact H5|].
  set (s6 := s5 <| rs_received ::= _ |>).
  pose proof (rx_loss_clock s6 (st_diff st)) as H6.
  destruct (_ && _); [|by transitivity (clock_frame (rx_loss s6 (st_diff st)));
                       [|transitivity (clock_frame s6)]].
  etransitivity; [apply (rx_jitter_clock (rx_loss s6 (st_diff st)))|].
  by transitivity (clock_frame s6).
Qed.

Lemma rx_run_jitter T D l : 0 <= D < 134217728 -> -1073741824 <= T -> T + D < 1073741824 ->
  forall sess, Forall (fun a => T <= rx_transit sess (arr_ts a) (arr_rtp_ts a) <= T + D) l ->
  transit_within T D sess -> transit_within T D (rx_run sess l).
Proof.
  intros HD HT HT'. induction l as [|a l IH]; intros sess Hl H; [done|].
  apply Forall_cons in Hl as [Ha Hl]. cbn [rx_run foldl]. apply IH.
  - eapply Forall_impl; [exact Hl|]. intros b Hb. unfold rx_arrival, pjmedia_rtcp_rx_rtp.
    pose proof (rx_rtp2_clock sess (arr_count a) (arr_rtp_ts a) (arr_payload a) false (arr_ts a)) as E.
    unfold clock_frame in E. injection E as E1 E2 _ _ _ _ _.
    unfold rx_transit in *. by rewrite E1, E2.
  - by apply rx_rtp2_bound.
Qed.

(** The interarrival jitter that a new session computes, and reports, is never
    more than the spread of the transit times of the packets it received:
    whatever arrives, in whatever order, if the arrival time less the timestamp
    of each packet lies in an interval of [D] samples, the jitter is at most [D]. *)
Lemma rtcp_jitter_bounded settings now ts freq now' l T D :
  let sess := pjmedia_rtcp_init2 settings now ts freq now' in
  0 <= D < 134217728 -> -1073741824 <= T -> T + D < 1073741824 ->
  Forall (fun a => T <= rx_transit sess (arr_ts a) (arr_rtp_ts a) <= T + D) l ->
  0 <= Z.shiftr (rs_jitter (rx_run sess l)) 4 <= D.
Proof.
  intros sess HD HT HT' Hl.
  destruct (rx_run_jitter T D l HD HT HT' sess Hl) as [_ Hj].
  { split; [by left|]. change (0 <= 0 <= 16 * D + 7). lia. }
  rewrite Z.shiftr_div_pow2 by lia. change (2 ^ 4) with 16.
  Z.to_euclidean_division_equations; lia.
Qed.

(** A clock of 8000 ticks a second and packets of 20 ms: the transit times of 30
    packets alternate between 100 and 140 samples. *)
Definition jittery (n : Z) : rtp_arrival :=
  Arrival n (n * 160) 160 (n * 160 + 100 + 40 * (n mod 2)).

Lemma rtcp_jitter_bounded_witness :
  let sess := pjmedia_rtcp_init2 (RtcpSetting 8000 160 7 0) (TV 0 0) 0 8000 (TV 0 0) in
  let l := map (fun i => jittery (Z.of_nat i)) (seq 1 60) in
  Forall (fun a => 100 <= rx_transit sess (arr_ts a) (arr_rtp_ts a) <= 100 + 40) l /\
  0 < Z.shiftr (rs_jitter (rx_run sess l)) 4 /\
  0 <= Z.shiftr (rs_jitter (rx_run sess l)) 4 <= 40.
Proof.
  intros sess l.
  assert (Forall (fun a => 100 <= rx_transit sess (arr_ts a) (arr_rtp_ts a) <= 100 + 40) l) as H.
  { repeat constructor; vm_compute; discriminate. }
  split; [exact H|]. split; [reflexivity|].
  exact (rtcp_jitter_bounded (RtcpSetting 8000 160 7 0) (TV 0 0) 0 8000 (TV 0 0) l 100 40
           ltac:(lia) ltac:(lia) ltac:(lia) H).
Defined.

(** ** What a report says *)

Definition has_lsr (sess : pjmedia_rtcp_session) : bool :=
  negb ((rs_rx_lsr_time sess =? 0) || (rs_rx_lsr sess =? 0)).

(** The number of packets expected so far, less the first. *)
Definition expected (sess : pjmedia_rtcp_session) : Z :=
  u32 (ext_seq (rs_seq_ctrl sess) - base_seq (rs_seq_ctrl sess)).

(** The report block of a session: the counts of RFC 3550. *)
Definition report_rr (sess : pjmedia_rtcp_session) (ts_now : Z) : pjmedia_rtcp_rr :=
  let loss := ss_loss (rs_rx sess) in
  {| rr_ssrc := swap32 (rs_peer_ssrc sess);
     fract_lost := fraction_lost (u32 (expected sess - rs_exp_prior sess))
                                 (u32 (rs_received sess - rs_rx_prior sess));
     total_lost_2 := Z.land (Z.shiftr loss 16) 255;
     total_lost_1 := Z.land (Z.shiftr loss 8) 255;
     total_lost_0 := Z.land loss 255;
     last_seq := swap32 (ext_seq (rs_seq_ctrl sess));
     rr_jitter := swap32 (Z.shiftr (rs_jitter sess) 4);
     rr_lsr := if has_lsr sess then swap32 (rs_rx_lsr sess) else 0;
     rr_dlsr := if has_lsr sess
                then swap32 (dlsr_of sess (rs_rx_lsr_time sess) ts_now) else 0 |}.

(** What building a report leaves as it is. *)
Definition build_frame (sess : pjmedia_rtcp_session) :=
  (rs_seq_ctrl sess, rs_received sess, ss_loss (rs_rx sess), ss_pkt (rs_rx sess), rs_jitter sess,
   rs_transit sess, rs_tx sess).

Lemma ext_seq_u32 c : seq_wf c -> is_u32 (ext_seq c).
Proof. intros [H1 H2 H3]. unfold ext_seq. unfold is_u16, is_u32 in *. Z.to_euclidean_division_equations; lia. Qed.

Lemma land_cycles c : seq_wf c -> Z.land (cycles c) 4294901760 = cycles c.
Proof. intros [H1 H2 H3]. rewrite land_hi by done. lia. Qed.

Lemma build_fields sess now : rtcp_wf sess ->
  let sess' := (pjmedia_rtcp_build_rtcp sess now).1 in
  the_rr (sends_sr sess) sess' = report_rr sess (now_ts now) /\
  rs_exp_prior sess' = expected sess /\ rs_rx_prior sess' = rs_received sess /\
  build_frame sess' = build_frame sess /\ clock_frame sess' = clock_frame sess /\
  (sends_sr sess = true ->
     ntp_sec (srp_sr (rs_sr_pkt sess')) =
       swap32 (ntp_hi (pjmedia_rtcp_get_ntp_time sess (now_ntp now))) /\
     ntp_frac (srp_sr (rs_sr_pkt sess')) =
       swap32 (ntp_lo (pjmedia_rtcp_get_ntp_time sess (now_ntp now)))).
Proof.
  intros H. pose proof (ext_seq_u32 _ (wf_seq _ H)) as He. pose proof (land_cycles _ (wf_seq _ H)) as Hc.
  unfold report_rr, expected, has_lsr, ext_seq in *. unfold pjmedia_rtcp_build_rtcp.
  generalize (sends_sr sess) as b. intros b. clear H.
  destruct sess as [[sc [] []] [rc []] [ms cy bs bad pr] ? ? ? ? ? ? ? ? ? ? ? ? ? ? ? []].
  cbn in He, Hc. unfold ext_seq in He. cbn in He.
  destruct b;
    cbv -[swap32 u32 u64 Z.land Z.shiftr Z.shiftl Z.div Z.add Z.sub Z.mul Z.opp Z.eqb Z.modulo
          fraction_lost negb orb is_u32];
    rewrite !Hc, !swap32_swap32, !u32_idemp, !(u32_small (cy + ms)) by done;
    split_and!; (done || by destruct (_ || _)).
Qed.

(** ** A report read by the peer *)

Lemma rd32_app_r pre l i : 0 <= i -> rd32 (pre ++ l) (zlen pre + i) = rd32 l i.
Proof.
  intros Hi. pose proof (rd32_drop (pre ++ l) (zlen pre) i (zlen_nonneg pre) Hi) as <-.
  f_equal. unfold zlen. by rewrite Nat2Z.id, drop_app_length.
Qed.

Lemma zlen_rr_bytes r : zlen (rtcp_rr_bytes r) = 24.
Proof. done. Qed.
Lemma zlen_common_bytes c : zlen (rtcp_common_bytes c) = 8.
Proof. done. Qed.
Lemma zlen_sr_bytes s : zlen (rtcp_sr_bytes s) = 20.
Proof. done. Qed.

Lemma rr_bytes_read r : rr_ok r ->
  rd32 (rtcp_rr_bytes r) 4 = Some (fract_lost r + 256 * total_lost_2 r
                                   + 65536 * total_lost_1 r + 16777216 * total_lost_0 r) /\
  rd32 (rtcp_rr_bytes r) 12 = Some (rr_jitter r) /\
  rd32 (rtcp_rr_bytes r) 16 = Some (rr_lsr r) /\
  rd32 (rtcp_rr_bytes r) 20 = Some (rr_dlsr r).
Proof.
  intros (? & ? & ? & ? & ? & ? & ? & ? & ?).
  unfold rd32, rd8, rtcp_rr_bytes. split_and!; simpl; rewrite ?st32_sum by done; done.
Qed.


Lemma rr_bytes_bytes r : rr_ok r -> is_bytes (rtcp_rr_bytes r).
Proof.
  intros (? & ? & ? & ? & ? & ? & ? & ? & ?).
  unfold rtcp_rr_bytes. apply Forall_app_2; [apply st32_bytes|].
  apply Forall_app_2; [by do 4 (apply Forall_cons_2; [assumption|])|].
  do 3 (apply Forall_app_2; [apply st32_bytes|]). apply st32_bytes.
Qed.

Lemma common_bytes_bytes pt n c ssrc : is_u8 pt -> 0 <= c < 32 ->
  is_bytes (rtcp_common_bytes (RtcpCommon 2 0 c pt n ssrc)).
Proof.
  intros Hpt Hc. unfold rtcp_common_bytes. cbn [rc_count rc_p rc_version rc_pt rc_length rc_ssrc].
  apply (Forall_app_2 is_u8 [_; _]); [|apply Forall_app_2; [apply st16_bytes|apply st32_bytes]].
  repeat apply Forall_cons_2; [unfold is_u8; lia|done|constructor].
Qed.

Lemma sr_bytes_bytes s : is_bytes (rtcp_sr_bytes s).
Proof. unfold rtcp_sr_bytes. do 4 (apply Forall_app_2; [apply st32_bytes|]). apply st32_bytes. Qed.

(** The header of a packet of [(n + 1) * 4] bytes. *)
Lemma header_read pt c n ssrc rest : is_u8 pt -> 0 <= c < 32 -> is_u16 n ->
  exists w, rd32 (rtcp_common_bytes (RtcpCommon 2 0 c pt (swap16 n) ssrc) ++ rest) 0 = Some w /\
    rtcp_pt w = pt /\ rtcp_count w = c /\ swap16 (rtcp_length w) = n.
Proof.
  intros Hpt Hc Hn. eexists. split; [unfold rd32, rd8; simpl; reflexivity|].
  unfold is_u8, is_u16, rtcp_pt, rtcp_count, rtcp_length, swap16 in *.
  split_and!; Z.to_euclidean_division_equations; lia.
Qed.

Lemma stat_update_last st v : stat_last (pj_math_stat_update st v) = v.
Proof. unfold pj_math_stat_update, stat_carry. by repeat case_match. Qed.

(** What a session learns from a report block. *)
Definition learn (sess : pjmedia_rtcp_session) (r : pjmedia_rtcp_rr) (now : rtcp_now) :
    pjmedia_rtcp_session :=
  let sess := rx_total_lost sess (65536 * total_lost_2 r + 256 * total_lost_1 r + total_lost_0 r) in
  let jitter := tx_jitter_usec (rs_clock_rate sess) (swap32 (rr_jitter r)) in
  let sess := on_tx (fun t => t <| ss_jitter ::= fun st =>
                       pj_math_stat_update st (s32 jitter) |>) sess in
  let sess := if truth (rr_lsr r) && truth (rr_dlsr r)
              then rx_rtt sess (swap32 (rr_lsr r)) (swap32 (rr_dlsr r)) (now_ntp now) else sess in
  on_tx (fun t => t <| ss_update := now_tod now |>
                    <| ss_update_cnt ::= fun n => u32 (n + 1) |>) sess.

Lemma rx_rr_block sess pre r now : rr_ok r ->
  rx_rr sess (pre ++ rtcp_rr_bytes r) (zlen pre) now = Done (learn sess r now).
Proof.
  intros Hr. destruct (rr_bytes_read r Hr) as (E1 & E2 & E3 & E4).
  destruct Hr as (_ & F & L2 & L1 & L0 & _). unfold rx_rr.
  rewrite !rd32_app_r, E1, E2, E3, E4 by lia. cbn [mem mbind outcome_bind]. unfold learn.
  set (w := _ + 16777216 * total_lost_0 r). fold (total_lost w).
  assert (total_lost w = 65536 * total_lost_2 r + 256 * total_lost_1 r + total_lost_0 r) as ->.
  { unfold total_lost, w. rewrite !Z.shiftl_mul_pow2 by lia. change (2 ^ 16) with 65536.
    change (2 ^ 8) with 256. unfold is_u8 in *. Z.to_euclidean_division_equations; lia. }
  by destruct (truth (rr_lsr r)); [destruct (truth (rr_dlsr r))|].
Qed.

Lemma rx_total_lost_fields sess loss :
  rs_rx (rx_total_lost sess loss) = rs_rx sess /\
  clock_frame (rx_total_lost sess loss) = clock_frame sess /\
  ss_loss (rs_tx (rx_total_lost sess loss)) = loss /\
  ss_update_cnt (rs_tx (rx_total_lost sess loss)) = ss_update_cnt (rs_tx sess).
Proof. unfold rx_total_lost. by case_match. Qed.

Lemma learn_fields sess r now :
  let sess' := learn sess r now in
  rs_rx sess' = rs_rx sess /\
  ss_loss (rs_tx sess') = 65536 * total_lost_2 r + 256 * total_lost_1 r + total_lost_0 r /\
  stat_last (ss_jitter (rs_tx sess')) =
    s32 (tx_jitter_usec (rs_clock_rate sess) (swap32 (rr_jitter r))) /\
  ss_update_cnt (rs_tx sess') = u32 (ss_update_cnt (rs_tx sess) + 1) /\
  (rs_rx_lsr sess', rs_rx_lsr_time sess') = (rs_rx_lsr sess, rs_rx_lsr_time sess) /\
  stat_rtt (rs_stat sess') =
    if truth (rr_lsr r) && truth (rr_dlsr r)
    then rtt_update (ntp_mid (pjmedia_rtcp_get_ntp_time sess (now_ntp now)))
           (swap32 (rr_lsr r)) (swap32 (rr_dlsr r)) (stat_rtt (rs_stat sess))
    else stat_rtt (rs_stat sess).
Proof.
  unfold learn. cbn zeta. set (loss := 65536 * _ + _ + _).
  destruct (rx_total_lost_fields sess loss) as (E1 & E2 & E3 & E4).
  set (s1 := rx_total_lost sess loss) in *. clearbody s1. unfold clock_frame in E2.
  injection E2 as F1 F2 F3 F4 F5 F6 F7. rewrite <- F1.
  set (s2 := on_tx (fun t => t <| ss_jitter ::= _ |>) s1).
  assert (stat_last (ss_jitter (rs_tx s2)) =
          s32 (tx_jitter_usec (rs_clock_rate s1) (swap32 (rr_jitter r)))) as Hj.
  { change (ss_jitter (rs_tx s2)) with (pj_math_stat_update (ss_jitter (rs_tx s1))
      (s32 (tx_jitter_usec (rs_clock_rate s1) (swap32 (rr_jitter r))))). apply stat_update_last. }
  assert (pjmedia_rtcp_get_ntp_time s2 (now_ntp now) =
          pjmedia_rtcp_get_ntp_time sess (now_ntp now)) as Hn.
  { unfold pjmedia_rtcp_get_ntp_time. change (rs_ts_base s2) with (rs_ts_base s1).
    change (rs_ts_freq s2) with (rs_ts_freq s1). change (rs_tv_base s2) with (rs_tv_base s1).
    by rewrite F2, F3, F4. }
  destruct (truth (rr_lsr r) && truth (rr_dlsr r)).
  - unfold rx_rtt. rewrite Hn. split_and!; try done; [by rewrite <- E4|by rewrite <- F5, <- F6|].
    by rewrite <- F7.
  - split_and!; try done; [by rewrite <- E4|by rewrite <- F5, <- F6].
Qed.

(** The packet that is built: a header, the sender information of an SR, and the
    report block. *)
Lemma built_bytes sess now : rtcp_wf sess ->
  let sess' := (pjmedia_rtcp_build_rtcp sess now).1 in
  exists ssrc,
  (pjmedia_rtcp_build_rtcp sess now).2 =
    rtcp_common_bytes (RtcpCommon 2 0 1 (if sends_sr sess then RTCP_SR else RTCP_RR)
                         (swap16 (if sends_sr sess then 12 else 7)) ssrc)
    ++ (if sends_sr sess then rtcp_sr_bytes (srp_sr (rs_sr_pkt sess')) else [])
    ++ rtcp_rr_bytes (report_rr sess (now_ts now)) /\ is_u32 ssrc.
Proof.
  intros H sess'. pose proof (build_rtcp_wf sess now H) as Hw. fold sess' in Hw.
  destruct (build_fields sess now H) as (E & _). fold sess' in E.
  destruct (wf_headers _ Hw) as (ssrc & Hs & E1 & E2). exists ssrc. split; [|done].
  rewrite <- E. clear E. clear Hw H.
  transitivity (if sends_sr sess then rtcp_sr_pkt_bytes (rs_sr_pkt sess')
                else rtcp_rr_pkt_bytes (rs_rr_pkt sess')); [done|]. clearbody sess'.
  destruct (sends_sr sess); unfold rtcp_sr_pkt_bytes, rtcp_rr_pkt_bytes; by rewrite ?E1, ?E2.
Qed.

(** What the peer does with a report. *)
Definition rx_report (peer : pjmedia_rtcp_session) (sess : pjmedia_rtcp_session)
    (now at_peer : rtcp_now) : pjmedia_rtcp_session :=
  let ntp := pjmedia_rtcp_get_ntp_time sess (now_ntp now) in
  learn (if sends_sr sess
         then peer <| rs_rx_lsr := ntp_mid ntp |> <| rs_rx_lsr_time := now_ts at_peer |>
         else peer) (report_rr sess (now_ts now)) at_peer.

Lemma ntp_u32 sess ts : is_u32 (ntp_hi (pjmedia_rtcp_get_ntp_time sess ts)) /\
                        is_u32 (ntp_lo (pjmedia_rtcp_get_ntp_time sess ts)).
Proof. split; apply u32_range. Qed.

Lemma sr_bytes_read s rest : sr_ok s ->
  rd32 (rtcp_sr_bytes s ++ rest) 0 = Some (ntp_sec s) /\
  rd32 (rtcp_sr_bytes s ++ rest) 4 = Some (ntp_frac s).
Proof.
  intros (? & ? & ? & ? & ?). unfold rd32, rd8, rtcp_sr_bytes.
  split; simpl; rewrite st32_sum by done; done.
Qed.

Lemma report_rr_ok sess now : rtcp_wf sess -> rr_ok (report_rr sess (now_ts now)).
Proof.
  intros H. destruct (build_fields sess now H) as (<- & _).
  pose proof (build_rtcp_wf sess now H) as Hw. destruct (sends_sr sess);
    [exact (wf_sr_rr _ Hw)|exact (wf_rr _ Hw)].
Qed.

Lemma rx_report_one sess peer now at_peer : rtcp_wf sess ->
  exists w, rd32 (pjmedia_rtcp_build_rtcp sess now).2 0 = Some w /\
    well_sized (pjmedia_rtcp_build_rtcp sess now).2 /\
    is_bytes (pjmedia_rtcp_build_rtcp sess now).2 /\
    rx_one peer (pjmedia_rtcp_build_rtcp sess now).2 (rtcp_pt w)
      (zlen (pjmedia_rtcp_build_rtcp sess now).2) at_peer =
    Done (rx_report peer sess now at_peer, []).
Proof.
  intros H. destruct (built_bytes sess now H) as (ssrc & E & Hs).
  pose proof (report_rr_ok sess now H) as Hr. set (r := report_rr sess (now_ts now)) in *.
  pose proof (build_rtcp_wf sess now H) as Hw.
  destruct (build_fields sess now H) as (_ & _ & _ & _ & _ & Hntp).
  set (sess' := (pjmedia_rtcp_build_rtcp sess now).1) in *.
  rewrite E. clear E. set (hdr := rtcp_common_bytes _).
  set (body := if sends_sr sess then rtcp_sr_bytes _ else []).
  destruct (header_read (if sends_sr sess then RTCP_SR else RTCP_RR) 1
              (if sends_sr sess then 12 else 7) ssrc (body ++ rtcp_rr_bytes r))
    as (w & Ew & Ept & Ec & El);
    [unfold is_u8, RTCP_SR, RTCP_RR; case_match; lia|lia|unfold is_u16; case_match; lia|].
  fold hdr in Ew. exists w.
  assert (zlen (hdr ++ body ++ rtcp_rr_bytes r) = if sends_sr sess then 52 else 32) as El'.
  { rewrite !zlen_app, zlen_rr_bytes. unfold hdr, body. by case_match. }
  split_and!; [done| | |].
  - exists w. split_and!; [done|rewrite El', El; by case_match|].
    unfold rtcp_reads. rewrite El', Ept, Ec. by destruct (sends_sr sess).
  - apply Forall_app_2; [|apply Forall_app_2; [|by apply rr_bytes_bytes]].
    + apply common_bytes_bytes; [unfold is_u8, RTCP_SR, RTCP_RR; case_match|]; lia.
    + unfold body. case_match; [apply sr_bytes_bytes|constructor].
  - rewrite El', Ept. unfold rx_one, parse_rtcp_report. rewrite (mem_bind _ _ _ Ew), Ept, Ec.
    unfold body, rx_report in *. destruct (sends_sr sess) eqn:Es.
    + destruct (Hntp eq_refl) as [Hn1 Hn2].
      destruct (sr_bytes_read (srp_sr (rs_sr_pkt sess')) (rtcp_rr_bytes r) (wf_sr _ Hw)) as [R1 R2].
      change 8 with (zlen hdr + 0). rewrite rd32_app_r, R1 by lia.
      change 12 with (zlen hdr + 4). rewrite rd32_app_r, R2 by lia.
      cbn [mem mbind outcome_bind]. rewrite app_assoc.
      change 28 with (zlen (hdr ++ rtcp_sr_bytes (srp_sr (rs_sr_pkt sess')))).
      destruct (ntp_u32 sess (now_ntp now)) as [Hh Hl].
      rewrite rx_rr_block by done. rewrite Hn1, Hn2. unfold rx_sr.
      rewrite !swap32_swap32, (u32_small _ Hh), (u32_small _ Hl), rx_lsr_mid by done. done.
    + cbn [app]. change 8 with (zlen hdr). by rewrite rx_rr_block.
Qed.

Lemma rx_report_spec sess peer now clk : rtcp_wf sess -> room peer ->
  pjmedia_rtcp_rx_rtcp clk peer (pjmedia_rtcp_build_rtcp sess now).2
    (zlen (pjmedia_rtcp_build_rtcp sess now).2) = Done (rx_report peer sess now (clk 0), []).
Proof.
  intros H Hp. destruct (rx_report_one sess peer now (clk 0) H) as (w & Ew & Hsz & Hb & E).
  by eapply rx_single.
Qed.

(** A loss count in the 24 bits of a report. *)
Lemma loss_bytes n : is_u32 n ->
  65536 * Z.land (Z.shiftr n 16) 255 + 256 * Z.land (Z.shiftr n 8) 255 + Z.land n 255
  = n mod 16777216.
Proof.
  intros Hn. change 255 with (Z.ones 8). rewrite !Z.land_ones, !Z.shiftr_div_pow2 by lia.
  change (2 ^ 16) with 65536. change (2 ^ 8) with 256. unfold is_u32 in Hn.
  Z.to_euclidean_division_equations; lia.
Qed.

Lemma truth_swap32 v : is_u32 v -> truth (swap32 v) = truth v.
Proof.
  intros Hv. unfold truth. f_equal. destruct (Z.eqb_spec v 0) as [->|Hn]; [done|].
  apply Z.eqb_neq. intros E. apply Hn. rewrite <- (u32_small v Hv), <- swap32_swap32, E. done.
Qed.

(** The DLSR field of the next report. *)
Definition report_dlsr (sess : pjmedia_rtcp_session) (ts_now : Z) : Z :=
  dlsr_of sess (rs_rx_lsr_time sess) ts_now.

Lemma rx_report_fields sess peer now at_peer : rtcp_wf sess ->
  let peer' := rx_report peer sess now at_peer in
  rs_rx peer' = rs_rx peer /\
  ss_loss (rs_tx peer') = ss_loss (rs_rx sess) mod 16777216 /\
  stat_last (ss_jitter (rs_tx peer')) =
    s32 (tx_jitter_usec (rs_clock_rate peer) (Z.shiftr (rs_jitter sess) 4)) /\
  ss_update_cnt (rs_tx peer') = u32 (ss_update_cnt (rs_tx peer) + 1) /\
  (rs_rx_lsr peer', rs_rx_lsr_time peer') =
    (if sends_sr sess
     then (ntp_mid (pjmedia_rtcp_get_ntp_time sess (now_ntp now)), now_ts at_peer)
     else (rs_rx_lsr peer, rs_rx_lsr_time peer)) /\
  stat_rtt (rs_stat peer') =
    (if has_lsr sess && truth (report_dlsr sess (now_ts now))
     then rtt_update (ntp_mid (pjmedia_rtcp_get_ntp_time peer (now_ntp at_peer)))
            (rs_rx_lsr sess) (report_dlsr sess (now_ts now)) (stat_rtt (rs_stat peer))
     else stat_rtt (rs_stat peer)).
Proof.
  intros H. unfold rx_report. cbn zeta. set (p1 := if sends_sr sess then _ else peer).
  destruct (learn_fields p1 (report_rr sess (now_ts now)) at_peer) as (E1 & E2 & E3 & E4 & E5 & E6).
  destruct (wf_rx _ H) as (_ & _ & _ & _ & Hloss & _). destruct (wf_transit _ H) as [_ Hj].
  assert (is_u32 (Z.shiftr (rs_jitter sess) 4)) as Hj4.
  { unfold is_u32 in *. rewrite Z.shiftr_div_pow2 by lia. change (2 ^ 4) with 16.
    Z.to_euclidean_division_equations; lia. }
  rewrite E1, E2, E3, E4, E5, E6. unfold report_rr. cbn [total_lost_2 total_lost_1 total_lost_0
    rr_jitter rr_lsr rr_dlsr].
  rewrite loss_bytes, swap32_swap32, (u32_small _ Hj4) by done.
  split_and!; try (unfold p1; by destruct (sends_sr sess)).
  destruct (has_lsr sess) eqn:Eh; [|unfold p1; by destruct (sends_sr sess)].
  unfold has_lsr in Eh. apply negb_true_iff, orb_false_iff in Eh as [_ Eh].
  fold (report_dlsr sess (now_ts now)). assert (is_u32 (report_dlsr sess (now_ts now))) as Hd
    by apply u32_range.
  rewrite !truth_swap32, !swap32_swap32, !u32_small by (done || apply (wf_lsr _ H)).
  unfold truth at 1. rewrite Eh. cbn [negb andb].
  unfold p1. by destruct (sends_sr sess).
Qed.

(** C17: A report carries what one end measured to the other. Whatever the two sessions
    have been through, the packet built at one end is accepted at the other, which
    then has the number of packets lost on the way to the first (24 bits of it), its
    jitter converted to microseconds, and, from an SR, the middle of its NTP time
    with the time of arrival; the round trip is updated from the LSR and DLSR
    fields when both are there; and nothing changes in what the other has measured
    itself. *)
Theorem rtcp_report_roundtrip sess peer now clk : rtcp_wf sess -> rtcp_wf peer ->
  exists peer',
    pjmedia_rtcp_rx_rtcp clk peer (pjmedia_rtcp_build_rtcp sess now).2
      (zlen (pjmedia_rtcp_build_rtcp sess now).2) = Done (peer', []) /\
    rs_rx peer' = rs_rx peer /\
    ss_loss (rs_tx peer') = ss_loss (rs_rx sess) mod 16777216 /\
    stat_last (ss_jitter (rs_tx peer')) =
      s32 (tx_jitter_usec (rs_clock_rate peer) (Z.shiftr (rs_jitter sess) 4)) /\
    ss_update_cnt (rs_tx peer') = u32 (ss_update_cnt (rs_tx peer) + 1) /\
    (rs_rx_lsr peer', rs_rx_lsr_time peer') =
      (if sends_sr sess
       then (ntp_mid (pjmedia_rtcp_get_ntp_time sess (now_ntp now)), now_ts (clk 0))
       else (rs_rx_lsr peer, rs_rx_lsr_time peer)) /\
    stat_rtt (rs_stat peer') =
      (if has_lsr sess && truth (report_dlsr sess (now_ts now))
       then rtt_update (ntp_mid (pjmedia_rtcp_get_ntp_time peer (now_ntp (clk 0))))
              (rs_rx_lsr sess) (report_dlsr sess (now_ts now)) (stat_rtt (rs_stat peer))
       else stat_rtt (rs_stat peer)).
Proof.
  intros H Hp. exists (rx_report peer sess now (clk 0)).
  split; [by apply rx_report_spec, wf_room|]. by apply rx_report_fields.
Qed.

(** Two sessions, one of which has sent and received. *)
Definition sess_a : pjmedia_rtcp_session :=
  pjmedia_rtcp_tx_rtp (pjmedia_rtcp_rx_rtp
    (pjmedia_rtcp_init 8000 160 7 (TV 100 0) 5000 1000 (TV 100 0)) 5 160 20 5003) 20.
Definition sess_b : pjmedia_rtcp_session :=
  pjmedia_rtcp_init 8000 160 9 (TV 300 0) 70 1000 (TV 300 0).

Lemma rtcp_init_wf c n ssrc now ts freq now' : 0 < c < 4294967296 -> is_u32 ssrc ->
  0 < freq < 18446744073709551616 -> rtcp_wf (pjmedia_rtcp_init c n ssrc now ts freq now').
Proof. intros. by apply init2_wf. Qed.

Lemma sess_a_wf : rtcp_wf sess_a.
Proof. apply tx_rtp_wf, rx_rtp2_wf, rtcp_init_wf; unfold is_u32; lia. Qed.
Lemma sess_b_wf : rtcp_wf sess_b.
Proof. apply rtcp_init_wf; unfold is_u32; lia. Qed.

Lemma rtcp_report_roundtrip_witness :
  (rtcp_wf sess_a /\ rtcp_wf sess_b) /\
  exists peer',
    pjmedia_rtcp_rx_rtcp (fun _ => RtcpNow 75 76 (TV 300 0)) sess_b
      (pjmedia_rtcp_build_rtcp sess_a (RtcpNow 5010 5011 (TV 100 0))).2
      (zlen (pjmedia_rtcp_build_rtcp sess_a (RtcpNow 5010 5011 (TV 100 0))).2) = Done (peer', []) /\
    rs_rx_lsr_time peer' = 75.
Proof.
  split; [exact (conj sess_a_wf sess_b_wf)|].
  destruct (rtcp_report_roundtrip sess_a sess_b (RtcpNow 5010 5011 (TV 100 0))
    (fun _ => RtcpNow 75 76 (TV 300 0)) sess_a_wf sess_b_wf) as (p & E & _ & _ & _ & _ & El & _).
  exists p. split; [exact E|]. exact (f_equal snd El).
Defined.

(** ** The losses of one interval *)

Lemma rx_run_wf l : forall sess, rtcp_wf sess -> rtcp_wf (rx_run sess l).
Proof.
  induction l as [|a l IH]; intros sess H; [done|]. apply IH. by apply rx_rtp2_wf.
Qed.

Lemma advances_bounds xs : forall hi,
  0 <= advances hi xs <= zlen xs /\ advances hi xs <= high_water hi xs - hi.
Proof.
  unfold high_water. induction xs as [|x xs IH]; intros hi; cbn [advances fold_left].
  { change (@zlen Z []) with 0. lia. }
  rewrite zlen_cons. destruct (IH (Z.max hi x)). destruct (Z.gtb_spec x hi); cbn [b2z]; lia.
Qed.

Lemma fraction_lost_spec d n : 0 <= n -> 0 <= d < 16777216 -> (d = 0 \/ 0 < n) ->
  fraction_lost d n = if d >? n then 256 * (d - n) / d else 0.
Proof.
  intros Hn Hd H. unfold fraction_lost.
  destruct (Z.geb_spec d n) as [Hge|Hlt], (Z.gtb_spec d n); try lia; cbn [orb].
  - rewrite (u32_small (d - n)) by (unfold is_u32; lia).
    destruct (Z.eqb_spec d 0); [lia|]. destruct (Z.eqb_spec (d - n) 0); [lia|]. cbn [orb].
    rewrite Z.shiftl_mul_pow2 by lia. change (2 ^ 8) with 256.
    rewrite u32_small by (unfold is_u32; lia). rewrite (Z.mul_comm (d - n)).
    apply u8_small. unfold is_u8. split; [apply Z.div_pos; lia|apply Z.div_lt_upper_bound; lia].
  - replace (d - n) with 0 by lia. change (u32 0) with 0. by rewrite orb_true_r.
  - by rewrite orb_true_r.
Qed.

Lemma u32_sub_l x y : u32 (u32 x - y) = u32 (x - y).
Proof. unfold u32. apply Zminus_mod_idemp_l. Qed.
Lemma u32_sub_r x y : u32 (x - u32 y) = u32 (x - y).
Proof. unfold u32. apply Zminus_mod_idemp_r. Qed.

Lemma build_frame_eq s s' : build_frame s' = build_frame s ->
  rs_seq_ctrl s' = rs_seq_ctrl s /\ rs_received s' = rs_received s /\
  ss_loss (rs_rx s') = ss_loss (rs_rx s) /\ ss_pkt (rs_rx s') = ss_pkt (rs_rx s).
Proof. by intros [= -> -> -> -> _ _ _]. Qed.

Lemma rx_frame_eq s s' : rx_frame s' = rx_frame s ->
  rs_exp_prior s' = rs_exp_prior s /\ rs_rx_prior s' = rs_rx_prior s /\
  base_seq (rs_seq_ctrl s') = base_seq (rs_seq_ctrl s).
Proof. by intros [= _ _ _ -> -> ->]. Qed.

(** C18: Between two reports, over a network that loses, repeats and reorders within
    bounds: if the highest packet moved by [d] in the sender's own count while
    [n] packets came, the second report gives the fraction lost as the share of
    [d - n] in [d], rounded down in 1/256, and zero when no fewer came than were
    sent; it gives the highest packet; and its count of losses has grown by [d]
    less the packets that came in order, that is by the packets still missing and
    those that came late. *)
Theorem rtcp_interval_report s0 now0 hi l now1 :
  rtcp_wf s0 -> probation (rs_seq_ctrl s0) = 0 -> max_seq (rs_seq_ctrl s0) = u16 hi ->
  0 < ss_pkt (rs_rx s0) -> ss_pkt (rs_rx s0) + zlen l < 4294967296 ->
  tolerable hi (map arr_count l) ->
  let d := high_water hi (map arr_count l) - hi in
  let n := zlen l in
  d < 16777216 ->
  let s2 := rx_run (pjmedia_rtcp_build_rtcp s0 now0).1 l in
  let r := the_rr (sends_sr s2) (pjmedia_rtcp_build_rtcp s2 now1).1 in
  fract_lost r = (if d >? n then 256 * (d - n) / d else 0) /\
  swap32 (last_seq r) = u32 (ext_seq (rs_seq_ctrl s0) + d) /\
  65536 * total_lost_2 r + 256 * total_lost_1 r + total_lost_0 r =
    (ss_loss (rs_rx s0) + (d - advances hi (map arr_count l))) mod 16777216.
Proof.
  intros H Hp Hm Hk0 Hk Ht d n Hd s2 r.
  destruct (build_fields s0 now0 H) as (_ & Ee & Er & Ef & _ & _).
  pose proof (build_rtcp_wf s0 now0 H) as H1. set (s1 := (pjmedia_rtcp_build_rtcp s0 now0).1) in *.
  destruct (build_frame_eq _ _ Ef) as (F1 & F2 & F3 & F4).
  destruct (rx_run_tolerable l s1 hi) as (Ge & Gr & Gf & Gl); rewrite ?F1, ?F4; auto using wf_seq.
  fold s2 in Ge, Gr, Gf, Gl. rewrite F1 in Ge. rewrite F2 in Gr. rewrite F3 in Gl.
  assert (rtcp_wf s2) as H2 by by apply rx_run_wf.
  destruct (rx_frame_eq _ _ Gf) as (Gx & Gp & Gb). rewrite F1 in Gb.
  destruct (build_fields s2 now1 H2) as (Hr & _). unfold r. rewrite Hr. unfold report_rr.
  cbn [fract_lost last_seq total_lost_2 total_lost_1 total_lost_0].
  pose proof (advances_bounds (map arr_count l) hi) as [Ha1 Ha2].
  pose proof (fold_max_le hi (map arr_count l)). pose proof (zlen_nonneg l).
  split_and!.
  - assert (u32 (expected s2 - rs_exp_prior s2) = d) as ->.
    { rewrite Gx, Ee. unfold expected. rewrite Gb, u32_sub_r, u32_sub_l.
      rewrite <- (u32_small d) by (unfold is_u32, d in *; lia).
      rewrite <- Z.sub_add_distr, <- u32_sub_l, Ge, u32_sub_l. f_equal. unfold d. lia. }
    assert (d = 0 \/ 0 < n) as Hdn.
    { destruct l as [|a l]; [left; unfold d, high_water; cbn; lia|right].
      unfold n. rewrite zlen_cons. pose proof (zlen_nonneg l). lia. }
    assert (n < 4294967296) by (unfold n; lia).
    assert (u32 (rs_received s2 - rs_rx_prior s2) = n) as ->.
    { rewrite Gp, Er, <- u32_sub_l, Gr, u32_sub_l.
      replace (rs_received s0 + zlen l - rs_received s0) with n by (unfold n; lia).
      apply u32_small. unfold is_u32. unfold n in *. lia. }
    apply fraction_lost_spec; auto; unfold d; lia.
  - rewrite swap32_swap32. exact Ge.
  - destruct (wf_rx _ H2) as (_ & _ & _ & _ & Hl & _). rewrite loss_bytes by done.
    fold d in Gl. clear -Gl. unfold u32 in Gl. Z.to_euclidean_division_equations. lia.
Qed.

(** Packets 5 and 6, a report, then 7, 10, 9 and 13: of the seven packets that the
    highest moved by, four came, one of them late. *)
Definition sess_c : pjmedia_rtcp_session := rx_run sess_b [jittery 5; jittery 6].

Lemma rtcp_interval_report_witness :
  let l := [jittery 7; jittery 10; jittery 9; jittery 13] in
  let now := RtcpNow 5010 5011 (TV 300 0) in
  let s2 := rx_run (pjmedia_rtcp_build_rtcp sess_c now).1 l in
  let r := the_rr (sends_sr s2) (pjmedia_rtcp_build_rtcp s2 now).1 in
  fract_lost r = 256 * 3 / 7 /\
  65536 * total_lost_2 r + 256 * total_lost_1 r + total_lost_0 r = 4.
Proof.
  intros l now s2 r. assert (rtcp_wf sess_c) as H by (apply rx_run_wf, sess_b_wf).
  destruct (rtcp_interval_report sess_c now 6 l now H eq_refl eq_refl eq_refl eq_refl) as (E1 & _ & E3).
  - cbn. unfold MAX_MISORDER, MAX_DROPOUT. lia.
  - reflexivity.
  - split; [exact E1|exact E3].
Defined.
