(* ===== verification/RtcpRtt.v ===== *)
(** * The round trip time that two RTCP sessions measure

    One end sends a sender report, the other answers with a report of its own, and
    the first computes the round trip from the two times in it. *)

From S2P Require Import Prelude Mem PjMath TimeVal Rtp Rtcp RtcpFb RtcpRx RtcpProps RtcpReport RtcpMeasure.

Set Warnings "-clear-no-such-hyp".

(** ** Sessions that do not hear from their peer *)

(** What the session does without hearing from its peer. *)
Inductive quiet_step : pjmedia_rtcp_session -> pjmedia_rtcp_session -> Prop :=
  | quiet_rx sess seq rtp_ts payload d ts :
      quiet_step sess (pjmedia_rtcp_rx_rtp2 sess seq rtp_ts payload d ts)
  | quiet_tx sess n : quiet_step sess (pjmedia_rtcp_tx_rtp sess n)
  | quiet_build sess now : quiet_step sess (pjmedia_rtcp_build_rtcp sess now).1.

Lemma quiet_frame sess sess' : rtc quiet_step sess sess' -> rtcp_wf sess ->
  rtcp_wf sess' /\ clock_frame sess' = clock_frame sess.
Proof.
  induction 1 as [|s1 s2 s3 Hs _ IH]; intros H; [done|].
  assert (rtcp_wf s2 /\ clock_frame s2 = clock_frame s1) as [H2 E2].
  { destruct Hs.
    - split; [by apply rx_rtp2_wf|apply rx_rtp2_clock].
    - by split; [apply tx_rtp_wf|].
    - split; [by apply build_rtcp_wf|]. by destruct (build_fields sess now H) as (_ & _ & _ & _ & E & _). }
  destruct (IH H2) as [H3 E3]. split; [done|]. by rewrite E3.
Qed.

Lemma clock_frame_eq s s' : clock_frame s' = clock_frame s ->
  rs_ts_freq s' = rs_ts_freq s /\ rs_ts_base s' = rs_ts_base s /\ rs_tv_base s' = rs_tv_base s /\
  rs_rx_lsr s' = rs_rx_lsr s /\ rs_rx_lsr_time s' = rs_rx_lsr_time s /\
  stat_rtt (rs_stat s') = stat_rtt (rs_stat s).
Proof. by intros [= _ -> -> -> -> -> ->]. Qed.

(** The time of the system clock at [ts], in 1/65536 s since 1900. *)
Definition ntp_units (sess : pjmedia_rtcp_session) (ts : Z) : Z :=
  65536 * (sec (rs_tv_base sess) + JAN_1970) + 65536 * (ts - rs_ts_base sess) / rs_ts_freq sess.

Lemma ntp_mid_units sess ts : 0 < rs_ts_freq sess <= 4294967296 ->
  0 <= ts - rs_ts_base sess < 18446744073709551616 ->
  ntp_mid (pjmedia_rtcp_get_ntp_time sess ts) = u32 (ntp_units sess ts).
Proof.
  intros Hf Ht. unfold ntp_mid, pjmedia_rtcp_get_ntp_time, ntp_units. cbn [ntp_hi ntp_lo].
  rewrite (u64_small (ts - _)) by done. set (e := ts - rs_ts_base sess) in *.
  set (f := rs_ts_freq sess) in *. set (b := sec (rs_tv_base sess) + JAN_1970).
  assert (0 <= e mod f < f) as Hm by (apply Z.mod_pos_bound; lia).
  rewrite !Z.shiftl_mul_pow2 by lia.
  rewrite u64_small by (unfold is_u64; change (2 ^ 32) with 4294967296; lia).
  assert (0 <= e mod f * 2 ^ 32 / f < 4294967296) as Hlo.
  { change (2 ^ 32) with 4294967296. split; [apply Z.div_pos; lia|apply Z.div_lt_upper_bound; lia]. }
  rewrite (u32_small (e mod f * 2 ^ 32 / f)) by done. rewrite Z.shiftr_div_pow2 by lia.
  assert (e mod f * 2 ^ 32 / f / 2 ^ 16 = e mod f * 65536 / f) as ->.
  { rewrite Z.div_div by lia. rewrite (Z.mul_comm f), <- Z.div_div by lia. f_equal.
    change (2 ^ 32) with (65536 * 2 ^ 16). by rewrite Z.mul_assoc, Z.div_mul by lia. }
  assert (65536 * e / f = 65536 * (e / f) + e mod f * 65536 / f) as ->.
  { rewrite (Z.div_mod e f) at 1 by lia.
    replace (65536 * (f * (e / f) + e mod f)) with (65536 * (e / f) * f + e mod f * 65536) by ring.
    by rewrite Z.div_add_l by lia. }
  rewrite land_ffff, <- Z.add_assoc. fold b. set (q := e / f). set (m := e mod f * 65536 / f).
  change (2 ^ 16) with 65536. clear. word_lia.
Qed.

(** ** Rounding *)

(** The difference of two times in units, against the difference in ticks. *)
Lemma floor_diff f x y : 0 < f ->
  65536 * (y - x) - f < f * (65536 * y / f - 65536 * x / f) < 65536 * (y - x) + f.
Proof.
  intros Hf. pose proof (Z.div_mod (65536 * x) f ltac:(lia)). pose proof (Z.div_mod (65536 * y) f ltac:(lia)).
  pose proof (Z.mod_pos_bound (65536 * x) f Hf). pose proof (Z.mod_pos_bound (65536 * y) f Hf).
  set (qx := 65536 * x / f) in *. set (qy := 65536 * y / f) in *. lia.
Qed.

Lemma eedelay_usec_spec e : 0 <= e < 1900546 ->
  0 <= eedelay_usec e <= 29000031 /\
  1000000 * e - 65536000 < 65536 * eedelay_usec e <= 1000000 * e.
Proof.
  intros He. unfold eedelay_usec. destruct (Z.ltb_spec e 4294);
    rewrite !u64_small; rewrite ?u64_small; unfold is_u64; rewrite ?Z.shiftr_div_pow2 by lia;
    change (2 ^ 16) with 65536; Z.to_euclidean_division_equations; lia.
Qed.

(** The sample for a measured round trip: itself, or three times the mean of the
    earlier ones when it is above that. *)
Definition rtt_sample (st : pj_math_stat) (rtt : Z) : Z :=
  if decide (stat_n st <> 0 /\ 3 * stat_mean st < rtt) then 3 * stat_mean st else rtt.

Lemma rtt_normalize_sample st rtt : 0 <= stat_mean st <= 715827882 -> 0 <= rtt < 2147483648 ->
  s32 (rtt_normalize st rtt) = rtt_sample st rtt.
Proof.
  intros Hm Hr. unfold rtt_normalize, rtt_sample, PJMEDIA_RTCP_NORMALIZE_FACTOR, truth.
  rewrite (u32_small (stat_mean st)), (u32_small (stat_mean st * 3)) by (unfold is_u32; lia).
  rewrite (Z.mul_comm _ 3).
  destruct (Z.gtb_spec rtt (3 * stat_mean st)), (Z.eqb_spec (stat_n st) 0); cbn [andb negb];
    case_decide; try lia; apply s32_small; unfold is_s32; lia.
Qed.

Lemma update_counts st val :
  stat_last (pj_math_stat_update st val) = val /\ stat_n (pj_math_stat_update st val) = stat_n st + 1.
Proof.
  unfold pj_math_stat_update, stat_carry. cbv zeta. by repeat case_match.
Qed.

(** The computation at the end that started: [D] units have passed on its clock and
    [H] of them at the peer. *)
Lemma rtt_update_spec U D H st : 0 <= U < 4294967296 -> 1 <= H <= D -> U + D < 4294967296 ->
  D - H < 1900546 ->
  rtt_update (U + D) U H st = pj_math_stat_update st (s32 (rtt_normalize st (eedelay_usec (D - H)))).
Proof.
  intros HU HH HD He. unfold rtt_update.
  rewrite (u32_small (U + D - U)), (u32_small (U + D - U - H)), (u32_small (U + D - H))
    by (unfold is_u32; lia).
  replace (U + D - U - H) with (D - H) by lia.
  destruct (eedelay_usec_spec (D - H)) as [He1 _]; [lia|].
  destruct (Z.geb_spec (U + D - H) U); [|lia].
  destruct (Z.gtb_spec (eedelay_usec (D - H)) (30 * 1000 * 1000)); [lia|].
  by rewrite u32_small by (unfold is_u32; lia).
Qed.

(** From units and ticks to microseconds. *)
Lemma rtt_error fA fB dt hb D H : 0 < fA -> 0 < fB ->
  65536 * dt - fA < fA * D < 65536 * dt + fA ->
  65536 * hb - fB < fB * H < 65536 * hb + fB ->
  let num := dt * fB - hb * fA in let den := fA * fB in
  den <= 65536 * num -> num <= 29 * den ->
  0 <= D - H < 1900546 /\
  Z.abs (eedelay_usec (D - H) * den - 1000000 * num) <= 1032 * den.
Proof.
  intros HA HB HD HH num den H1 H2. assert (0 < den) as Hden by (unfold den; nia).
  assert (65536 * num - 2 * den < (D - H) * den < 65536 * num + 2 * den) as He
    by (unfold num, den in *; nia).
  assert (0 <= D - H < 1900546) as Hr by nia. split; [done|].
  destruct (eedelay_usec_spec (D - H) Hr) as [_ [E1 E2]].
  set (e := D - H) in *. set (u := eedelay_usec e) in *.
  apply (Z.mul_lt_mono_pos_r den) in E1; [|done].
  apply (Z.mul_le_mono_nonneg_r _ _ den) in E2; [|lia].
  replace ((1000000 * e - 65536000) * den) with (1000000 * (e * den) - 65536000 * den) in E1 by ring.
  replace (65536 * u * den) with (65536 * (u * den)) in E1, E2 by ring.
  replace (1000000 * e * den) with (1000000 * (e * den)) in E2 by ring. lia.
Qed.

(** ** The exchange *)

(** The clocks during one exchange: the SR is sent at [t1] and the answer comes back
    at [t2], on the clock of [a]; the SR arrives at [b1] and is answered at [b2], on
    the clock of the peer, of frequency [fB].  No counter overflows, the 32 bits
    that a report carries of the NTP time do not wrap between [t1] and [t2], the
    peer answers no sooner than 1/65536 s later, and the round trip is between
    1/65536 s and 29 s. *)
Record exchange_clocks (a : pjmedia_rtcp_session) (fB t1 t2 b1 b2 : Z) : Prop := {
  ec_freq : rs_ts_freq a <= 4294967296;
  ec_base : rs_ts_base a <= t1 /\ t1 <= t2 < rs_ts_base a + 18446744073709551616;
  ec_peer : 0 < b1 <= b2 /\ b2 < 281474976710656;
  ec_period : ntp_units a t1 / 4294967296 = ntp_units a t2 / 4294967296;
  ec_nonzero : u32 (ntp_units a t1) <> 0;
  ec_hold : 65536 * b1 / fB < 65536 * b2 / fB;
  ec_rtt : rs_ts_freq a * fB <= 65536 * ((t2 - t1) * fB - (b2 - b1) * rs_ts_freq a) /\
           (t2 - t1) * fB - (b2 - b1) * rs_ts_freq a <= 29 * (rs_ts_freq a * fB)
}.

(** The clock of [a] and the fields of the peer's report, as numbers. *)
Lemma dlsr_units sess b1 b2 : 0 < rs_ts_freq sess -> 0 < b1 <= b2 -> b2 < 281474976710656 ->
  dlsr_of sess b1 b2 = u32 (65536 * b2 / rs_ts_freq sess - 65536 * b1 / rs_ts_freq sess).
Proof.
  intros Hf Hb Hb2. unfold dlsr_of. rewrite !Z.shiftl_mul_pow2 by lia. change (2 ^ 16) with 65536.
  rewrite !u64_small by (unfold is_u64; lia). by rewrite !(Z.mul_comm _ 65536).
Qed.

Lemma rtt_of_exchange a fB t1 t2 b1 b2 st : 0 < rs_ts_freq a -> 0 < fB ->
  exchange_clocks a fB t1 t2 b1 b2 ->
  let H := u32 (65536 * b2 / fB - 65536 * b1 / fB) in
  H <> 0 /\
  exists rtt, rtt_update (u32 (ntp_units a t2)) (u32 (ntp_units a t1)) H st =
      pj_math_stat_update st (s32 (rtt_normalize st rtt)) /\
    0 <= rtt < 2147483648 /\
    Z.abs (rtt * (rs_ts_freq a * fB)
           - 1000000 * ((t2 - t1) * fB - (b2 - b1) * rs_ts_freq a)) <= 1032 * (rs_ts_freq a * fB).
Proof.
  intros HA HB [_ _ _ Hper _ Hhold [Hr1 Hr2]] H.
  pose proof (floor_diff (rs_ts_freq a) (t1 - rs_ts_base a) (t2 - rs_ts_base a) HA) as HD.
  pose proof (floor_diff fB b1 b2 HB) as HH.
  unfold ntp_units in *. set (U := 65536 * (sec (rs_tv_base a) + JAN_1970)) in *.
  set (q1 := 65536 * (t1 - rs_ts_base a) / rs_ts_freq a) in *.
  set (q2 := 65536 * (t2 - rs_ts_base a) / rs_ts_freq a) in *.
  set (h := 65536 * b2 / fB - 65536 * b1 / fB) in *.
  replace (t2 - rs_ts_base a - (t1 - rs_ts_base a)) with (t2 - t1) in HD by lia.
  destruct (rtt_error (rs_ts_freq a) fB (t2 - t1) (b2 - b1) (q2 - q1) h HA HB HD HH Hr1 Hr2)
    as [He1 He2].
  assert (0 < h) as Hh by (unfold h; lia).
  assert (u32 (U + q2) = u32 (U + q1) + (q2 - q1) /\ 0 <= u32 (U + q1) < 4294967296 /\
          u32 (U + q1) + (q2 - q1) < 4294967296) as (E & HU & HU2).
  { clear -Hper. unfold u32. Z.to_euclidean_division_equations. lia. }
  assert (H = h) as -> by (apply u32_small; unfold is_u32; lia). split; [lia|].
  exists (eedelay_usec (q2 - q1 - h)).
  split; [|split; [destruct (eedelay_usec_spec _ He1) as [He3 _]; lia|done]].
  rewrite E. apply rtt_update_spec; lia.
Qed.

Lemma rx_report_wf sess peer now clk : rtcp_wf sess -> rtcp_wf peer ->
  rtcp_wf (rx_report peer sess now (clk 0)).
Proof.
  intros H Hp. pose proof (rx_report_spec sess peer now clk H (wf_room _ Hp)) as E.
  destruct (rx_report_one sess peer now (clk 0) H) as (w & _ & _ & Hb & _).
  exact (rx_loop_wf _ _ _ _ _ _ Hb Hp _ E).
Qed.

Lemma learn_freq sess r now : rs_ts_freq (learn sess r now) = rs_ts_freq sess.
Proof. unfold learn, rx_total_lost, rx_rtt. by repeat case_match. Qed.

Lemma rx_report_freq peer sess now at_peer :
  rs_ts_freq (rx_report peer sess now at_peer) = rs_ts_freq peer.
Proof. unfold rx_report. rewrite learn_freq. by case_match. Qed.

(** C11: Two sessions measure the round trip time between them. One sends a sender
    report; the peer receives it and later, whatever RTP it sends and receives
    and whatever reports it builds in between, builds a report that the first
    receives, which too may have gone on; neither receives other RTCP meanwhile.
    The first then measures the time between sending and receiving on its own
    clock, less the time for which the peer held the report on the peer's clock,
    to within 1.032 milliseconds, whatever the two frequencies and offsets of the
    clocks; and it counts one sample more, which is what it measured, or three
    times the mean of the earlier samples when it measured more than that.  The
    mean before is taken to be below 715 s; a sample is never above 30 s. *)
Theorem rtcp_rtt_is_round_trip a b now_a now_b clk_a clk_b b1 evs a2 b2 :
  rtcp_wf a -> rtcp_wf b -> sends_sr a = true -> 0 <= stat_mean (stat_rtt (rs_stat a)) <= 715827882 ->
  pjmedia_rtcp_rx_rtcp clk_b b (pjmedia_rtcp_build_rtcp a now_a).2
    (zlen (pjmedia_rtcp_build_rtcp a now_a).2) = Done (b1, evs) ->
  rtc quiet_step b1 b2 -> rtc quiet_step (pjmedia_rtcp_build_rtcp a now_a).1 a2 ->
  let fA := rs_ts_freq a in let fB := rs_ts_freq b in
  let t1 := now_ntp now_a in let t2 := now_ntp (clk_a 0) in
  let s1 := now_ts (clk_b 0) in let s2 := now_ts now_b in
  exchange_clocks a fB t1 t2 s1 s2 ->
  exists a3 rtt,
    pjmedia_rtcp_rx_rtcp clk_a a2 (pjmedia_rtcp_build_rtcp b2 now_b).2
      (zlen (pjmedia_rtcp_build_rtcp b2 now_b).2) = Done (a3, []) /\
    Z.abs (rtt * (fA * fB) - 1000000 * ((t2 - t1) * fB - (s2 - s1) * fA)) <= 1032 * (fA * fB) /\
    let before := stat_rtt (rs_stat a) in let after := stat_rtt (rs_stat a3) in
    let sample := if decide (stat_n before <> 0 /\ 3 * stat_mean before < rtt)
                  then 3 * stat_mean before else rtt in
    after = pj_math_stat_update before sample /\ stat_last after = sample /\
    stat_n after = stat_n before + 1.
Proof.
  intros Ha Hb Hsr Hmean Hrx Hqb Hqa fA fB t1 t2 s1 s2 Hec.
  rewrite (rx_report_spec a b now_a clk_b Ha (wf_room _ Hb)) in Hrx. injection Hrx as <- <-.
  destruct (rx_report_fields a b now_a (clk_b 0) Ha) as (_ & _ & _ & _ & El & _).
  pose proof (rx_report_wf a b now_a clk_b Ha Hb) as Hb1.
  pose proof (rx_report_freq b a now_a (clk_b 0)) as Ef.
  set (b1 := rx_report b a now_a (clk_b 0)) in *. clearbody b1.
  rewrite Hsr in El. injection El as El1 El2.
  destruct (quiet_frame _ _ Hqb Hb1) as [Hb2 Eb]. apply clock_frame_eq in Eb as (Eb1 & _ & _ & Eb4 & Eb5 & _).
  destruct (build_fields a now_a Ha) as (_ & _ & _ & _ & Ea1 & _).
  destruct (quiet_frame _ _ Hqa (build_rtcp_wf a now_a Ha)) as [Ha2 Ea].
  rewrite Ea1 in Ea. apply clock_frame_eq in Ea as (Ea2 & Ea3 & Ea4 & _ & _ & Ea5).
  exists (rx_report a2 b2 now_b (clk_a 0)).
  destruct (rx_report_fields b2 a2 now_b (clk_a 0) Hb2) as (_ & _ & _ & _ & _ & Er).
  pose proof (wf_freq _ Ha) as HfA. pose proof (wf_freq _ Hb) as HfB.
  destruct (rtt_of_exchange a fB t1 t2 s1 s2 (stat_rtt (rs_stat a))) as (Hd & rtt & E1 & Hrng & E2);
    [lia|unfold fB; lia|done|].
  exists rtt. split; [by apply rx_report_spec, wf_room|]. split; [exact E2|].
  enough (stat_rtt (rs_stat (rx_report a2 b2 now_b (clk_a 0))) =
    pj_math_stat_update (stat_rtt (rs_stat a)) (rtt_sample (stat_rtt (rs_stat a)) rtt)) as ->
    by (split; [done|apply update_counts]).
  rewrite <- rtt_normalize_sample by done.
  destruct Hec as [Hc1 Hc2 Hc3 Hc4 Hc5 _ _].
  assert (rs_rx_lsr b2 = u32 (ntp_units a t1)) as Elsr
    by (rewrite Eb4, El1; apply ntp_mid_units; lia).
  assert (report_dlsr b2 s2 = u32 (65536 * s2 / fB - 65536 * s1 / fB)) as Edlsr.
  { unfold report_dlsr. rewrite Eb5, El2, dlsr_units; rewrite ?Eb1, ?Ef; unfold s1, s2 in *; auto; lia. }
  assert (has_lsr b2 = true) as Eh.
  { unfold has_lsr. rewrite Elsr, Eb5, El2. apply negb_true_iff, orb_false_iff.
    split; apply Z.eqb_neq; [unfold s1 in *; lia|done]. }
  rewrite Er, Eh, Ea5, Elsr. fold s2. rewrite Edlsr. unfold truth.
  rewrite (proj2 (Z.eqb_neq _ _) Hd). cbn [negb andb].
  assert (pjmedia_rtcp_get_ntp_time a2 (now_ntp (clk_a 0)) = pjmedia_rtcp_get_ntp_time a t2) as ->
    by (unfold pjmedia_rtcp_get_ntp_time; by rewrite Ea2, Ea3, Ea4).
  rewrite ntp_mid_units; [exact E1|lia|lia].
Qed.

(** The report leaves at 5011 ms on one clock and is back at 5611 ms; the peer holds
    it for 100 ms: half a second. *)
Lemma rtcp_rtt_is_round_trip_witness :
  let now_a := RtcpNow 5010 5011 (TV 100 0) in
  let clk_b := fun _ : Z => RtcpNow 75 76 (TV 300 0) in
  let now_b := RtcpNow 175 176 (TV 300 0) in
  let clk_a := fun _ : Z => RtcpNow 5610 5611 (TV 100 0) in
  let b1 := rx_report sess_b sess_a now_a (clk_b 0) in
  let a2 := (pjmedia_rtcp_build_rtcp sess_a now_a).1 in
  (sends_sr sess_a = true /\ exchange_clocks sess_a (rs_ts_freq sess_b) 5011 5611 75 175) /\
  exists a3 rtt,
    pjmedia_rtcp_rx_rtcp clk_a a2 (pjmedia_rtcp_build_rtcp b1 now_b).2
      (zlen (pjmedia_rtcp_build_rtcp b1 now_b).2) = Done (a3, []) /\
    Z.abs (rtt * (1000 * 1000) - 1000000 * ((5611 - 5011) * 1000 - (175 - 75) * 1000))
      <= 1032 * (1000 * 1000) /\
    let before := stat_rtt (rs_stat sess_a) in let after := stat_rtt (rs_stat a3) in
    let sample := if decide (stat_n before <> 0 /\ 3 * stat_mean before < rtt)
                  then 3 * stat_mean before else rtt in
    after = pj_math_stat_update before sample /\ stat_last after = sample /\
    stat_n after = stat_n before + 1.
Proof.
  intros now_a clk_b now_b clk_a b1 a2.
  assert (sends_sr sess_a = true) as H1 by reflexivity.
  assert (exchange_clocks sess_a (rs_ts_freq sess_b) 5011 5611 75 175) as H2.
  { constructor; [vm_compute; discriminate|split; [vm_compute; discriminate|split; [vm_compute; discriminate|reflexivity]]|lia|reflexivity|vm_compute; discriminate
                 |reflexivity|split; vm_compute; discriminate]. }
  split; [exact (conj H1 H2)|].
  exact (rtcp_rtt_is_round_trip sess_a sess_b now_a now_b clk_a clk_b b1 [] a2 b1
           sess_a_wf sess_b_wf H1 ltac:(vm_compute; split; discriminate) (rx_report_spec _ _ _ _ sess_a_wf (wf_room _ sess_b_wf))
           (rtc_refl _ _) (rtc_refl _ _) H2).
Defined.
