(* ===== verification/RtcpBuild.v ===== *)
(** * Source descriptions and feedback: what is built is what is read

    The source description that one end builds is the one its peer keeps; the
    feedback messages that are built read back as they were. *)

From S2P Require Import Prelude Mem PjMath TimeVal Rtp Rtcp RtcpFb RtcpRx RtcpProps RtcpReport RtcpMeasure.

Set Warnings "-clear-no-such-hyp".

(** ** Packets written into a buffer *)

Lemma fb_write_spec hdr fci buf len : 8 + zlen fci <= zlen buf ->
  fb_write hdr fci buf len =
    Some (PJ_SUCCESS, rtcp_common_bytes hdr ++ fci ++ drop (Z.to_nat (8 + zlen fci)) buf, len).
Proof.
  intros Hl. pose proof (zlen_nonneg fci). unfold fb_write.
  rewrite wr_some; rewrite ?zlen_common_bytes; [|lia|lia]. cbn [mbind option_bind].
  change (take (Z.to_nat 0) buf) with (@nil Z). cbn [app].
  change (Z.to_nat (0 + 8)) with 8%nat.
  rewrite wr_some; [|lia|rewrite zlen_app, zlen_common_bytes; unfold zlen in *; rewrite length_drop; lia].
  cbn [mbind option_bind]. do 3 f_equal. change (Z.to_nat 8) with (length (rtcp_common_bytes hdr)).
  rewrite take_app_length. f_equal. f_equal.
  replace (Z.to_nat (8 + zlen fci)) with (length (rtcp_common_bytes hdr) + Z.to_nat (zlen fci))%nat
    by (change (length (rtcp_common_bytes hdr)) with 8%nat; lia).
  rewrite <- drop_drop, drop_app_length, drop_drop. reflexivity.
Qed.

(** Padding to a multiple of four. *)
Lemma pad_loop_spec n : pad_loop 4 n = replicate (Z.to_nat (- n mod 4)) 0.
Proof.
  assert (n mod 4 = 0 \/ n mod 4 = 1 \/ n mod 4 = 2 \/ n mod 4 = 3) as H
    by (pose proof (Z.mod_pos_bound n 4); lia).
  cbn [pad_loop]. unfold truth.
  destruct H as [H|[H|[H|H]]].
  - replace (- n mod 4) with 0 by (Z.to_euclidean_division_equations; lia). by rewrite H.
  - replace (- n mod 4) with 3 by (Z.to_euclidean_division_equations; lia).
    replace ((n + 1) mod 4) with 2 by (Z.to_euclidean_division_equations; lia).
    replace ((n + 1 + 1) mod 4) with 3 by (Z.to_euclidean_division_equations; lia).
    replace ((n + 1 + 1 + 1) mod 4) with 0 by (Z.to_euclidean_division_equations; lia). by rewrite H.
  - replace (- n mod 4) with 2 by (Z.to_euclidean_division_equations; lia).
    replace ((n + 1) mod 4) with 3 by (Z.to_euclidean_division_equations; lia).
    replace ((n + 1 + 1) mod 4) with 0 by (Z.to_euclidean_division_equations; lia). by rewrite H.
  - replace (- n mod 4) with 1 by (Z.to_euclidean_division_equations; lia).
    replace ((n + 1) mod 4) with 0 by (Z.to_euclidean_division_equations; lia). by rewrite H.
Qed.

(** ** Feedback *)

Lemma zlen_pos {A} (l : list A) : l <> [] -> 0 < zlen l.
Proof. destruct l; [done|]. intros _. rewrite zlen_cons. pose proof (zlen_nonneg l). lia. Qed.

(** An encoding of four bytes and its inverse. *)
Definition four_bytes {A} (enc : A -> list Z) (dec : Z -> Z -> Z -> Z -> A) (a : A) : Prop :=
  exists b0 b1 b2 b3, enc a = [b0; b1; b2; b3] /\ dec b0 b1 b2 b3 = a /\ is_bytes (enc a).

Lemma parse_fci_enc {A} (enc : A -> list Z) dec l pre post n : Forall (four_bytes enc dec) l ->
  (n <= length l)%nat ->
  parse_fci n (pre ++ concat (map enc l) ++ post) (zlen pre) dec = Done (take n l).
Proof.
  revert pre l. induction n as [|n IH]; intros pre l Hl Hn; [done|].
  destruct l as [|a l]; [cbn in Hn; lia|]. apply Forall_cons in Hl as [(b0 & b1 & b2 & b3 & E & D & _) Hl].
  cbn [map concat parse_fci take]. rewrite E. cbn [app].
  assert (forall i b, [b0; b1; b2; b3] !! i = Some b ->
    rd8 (pre ++ b0 :: b1 :: b2 :: b3 :: concat (map enc l) ++ post) (zlen pre + Z.of_nat i) = Some b) as Hr.
  { intros i b Hi. apply rd8_spec. split; [unfold zlen; lia|].
    replace (Z.to_nat (zlen pre + Z.of_nat i)) with (length pre + i)%nat by (unfold zlen; lia).
    rewrite lookup_app_r by lia. replace (length pre + i - length pre)%nat with i by lia.
    do 4 (destruct i as [|i]; [exact Hi|]). done. }
  pose proof (Hr 0%nat b0 eq_refl) as R0. change (Z.of_nat 0) with 0 in R0. rewrite Z.add_0_r in R0.
  rewrite R0, (Hr 1%nat b1 eq_refl : rd8 _ (zlen pre + 1) = _),
    (Hr 2%nat b2 eq_refl : rd8 _ (zlen pre + 2) = _), (Hr 3%nat b3 eq_refl : rd8 _ (zlen pre + 3) = _).
  cbn [mem mbind outcome_bind]. specialize (IH (pre ++ [b0; b1; b2; b3]) l Hl ltac:(cbn in Hn; lia)).
  rewrite <- app_assoc, zlen_app in IH. cbn [app] in IH. change (zlen [b0; b1; b2; b3]) with 4 in IH.
  rewrite IH. cbn [mbind outcome_bind]. by rewrite D.
Qed.

Lemma zlen_concat_four {A} (enc : A -> list Z) dec l : Forall (four_bytes enc dec) l ->
  zlen (concat (map enc l)) = 4 * zlen l /\ is_bytes (concat (map enc l)).
Proof.
  induction 1 as [|a l (b0 & b1 & b2 & b3 & E & _ & Hb) _ [IH1 IH2]]; [by split; [|constructor]|].
  cbn [map concat]. rewrite zlen_app, zlen_cons, IH1. split; [rewrite E; change (zlen [b0; b1; b2; b3]) with 4; lia|].
  by apply Forall_app_2.
Qed.

(** The header of a feedback packet of [n] entries. *)
Definition fb_hdr (pt fmt n ssrc : Z) : list Z :=
  rtcp_common_bytes (RtcpCommon 2 0 fmt pt (swap16 (n + 2)) ssrc).

(** A packet of entries built into a buffer: the last four of the bytes it claims
    are those of the buffer. *)
Lemma entries_built {A} (enc : A -> list Z) dec sess pt fmt buf l :
  rtcp_wf sess -> Forall (four_bytes enc dec) l -> zlen l < 65534 ->
  (3 + zlen l) * 4 <= zlen buf -> let len := (3 + zlen l) * 4 in
  exists ssrc, fb_write (fb_header sess pt fmt len) (concat (map enc l)) buf len =
    Some (PJ_SUCCESS, fb_hdr pt fmt (zlen l) ssrc ++ concat (map enc l)
                      ++ drop (Z.to_nat (8 + 4 * zlen l)) buf, len).
Proof.
  intros Hs Hl Hn Hbuf len. destruct (zlen_concat_four enc dec l Hl) as [E4 _].
  pose proof (zlen_nonneg l). destruct (wf_headers _ Hs) as (ssrc & _ & _ & Eh). exists ssrc.
  assert (fb_header sess pt fmt len = RtcpCommon 2 0 fmt pt (swap16 (zlen l + 2)) ssrc) as Ehdr.
  { unfold fb_header. rewrite Eh. cbn. f_equal. f_equal.
    replace (len / 4 - 1) with (zlen l + 2) by (unfold len; Z.to_euclidean_division_equations; lia).
    rewrite u32_small by (unfold is_u32; lia). apply u16_small. unfold is_u16. lia. }
  rewrite fb_write_spec, Ehdr, E4 by lia. done.
Qed.

(** And read. *)
Lemma entries_read {A} (enc : A -> list Z) dec pt fmt ssrc l rest max :
  Forall (four_bytes enc dec) l -> l <> [] -> is_u8 pt -> 0 <= fmt < 32 -> zlen l < 65534 -> 0 <= max ->
  parse_entries pt fmt dec (fb_hdr pt fmt (zlen l) ssrc ++ concat (map enc l) ++ rest)
    ((3 + zlen l) * 4) max = Done (PJ_SUCCESS, take (Z.to_nat (Z.min max (zlen l))) l).
Proof.
  intros Hl Hne Hpt Hf Hn Hmax. pose proof (zlen_pos l Hne).
  destruct (header_read pt fmt (zlen l + 2) ssrc (concat (map enc l) ++ rest))
    as (w & Ew & Ep & Ec & El); [done|done|unfold is_u16; lia|].
  unfold parse_entries. destruct (Z.ltb_spec ((3 + zlen l) * 4) 8); [lia|].
  fold (fb_hdr pt fmt (zlen l) ssrc) in Ew.
  rewrite (mem_bind _ _ _ Ew), Ep, Ec, El, !Z.eqb_refl. cbn [negb orb].
  replace (zlen l + 2 - 2) with (zlen l) by lia. rewrite (u32_small (zlen l)) by (unfold is_u32; lia).
  rewrite !u32_small by (rewrite ?u32_small; unfold is_u32; lia).
  destruct (Z.ltb_spec ((3 + zlen l) * 4) ((zlen l + 3) * 4)); [lia|].
  change 8 with (zlen (fb_hdr pt fmt (zlen l) ssrc)).
  rewrite (parse_fci_enc enc dec); [done|done|]. unfold zlen in *. lia.
Qed.

Lemma nack_four n : is_u16 (nack_pid n) -> is_u16 (nack_blp n) ->
  four_bytes nack_bytes nack_entry n.
Proof.
  intros Hp Hb. unfold four_bytes, nack_bytes, st16. do 4 eexists. split_and!; [reflexivity| |].
  - unfold nack_entry. rewrite !st16_sum, !swap16_swap16, u16_idemp, !u16_small by auto with pj.
    by destruct n.
  - apply Forall_app_2; apply st16_bytes.
Qed.

Definition sli_ok (s : pjmedia_rtcp_fb_sli) : Prop :=
  0 <= sli_first s < 8192 /\ 0 <= sli_number s < 8192 /\ 0 <= sli_pict_id s < 64.

(** The four bytes of 13, 13 and 6 bits. *)
Lemma sli_bytes_eq s : sli_ok s ->
  sli_bytes s = [ sli_first s / 32; sli_first s mod 32 * 8 + sli_number s / 1024;
                  sli_number s / 4 mod 256; sli_number s mod 4 * 64 + sli_pict_id s ].
Proof.
  intros (Hf & Hn & Hp). unfold sli_bytes.
  change 255 with (Z.ones 8). change 31 with (Z.ones 5). change 7 with (Z.ones 3).
  change (Z.land (sli_number s) 3) with (Z.land (sli_number s) (Z.ones 2)). change 63 with (Z.ones 6).
  rewrite !Z.land_ones, !Z.shiftr_div_pow2 by lia.
  change (2 ^ 8) with 256. change (2 ^ 5) with 32. change (2 ^ 10) with 1024.
  change (2 ^ 3) with 8. change (2 ^ 2) with 4. change (2 ^ 6) with 64.
  rewrite (u8_small (Z.shiftl (sli_first s mod 32) 3)), (u8_small (Z.shiftl (sli_number s mod 4) 6))
    by (unfold is_u8; rewrite Z.shiftl_mul_pow2 by lia; change (2 ^ 3) with 8;
        change (2 ^ 6) with 64; Z.to_euclidean_division_equations; lia).
  rewrite (u8_small (sli_number s / 1024 mod 8)) by (unfold is_u8; Z.to_euclidean_division_equations; lia).
  rewrite !lor_fields by (lia || (change (2 ^ 3) with 8; change (2 ^ 6) with 64;
    Z.to_euclidean_division_equations; lia)).
  change (2 ^ 3) with 8. change (2 ^ 6) with 64. unfold u8.
  do 4 (apply (f_equal2 cons); [Z.to_euclidean_division_equations; lia|]). done.
Qed.

Lemma sli_four s : sli_ok s -> four_bytes sli_bytes sli_entry s.
Proof.
  intros Hs. unfold four_bytes. rewrite (sli_bytes_eq s Hs). destruct Hs as (Hf & Hn & Hp).
  do 4 eexists. split_and!; [reflexivity| |].
  - destruct s as [f n p]; cbn [sli_first sli_number sli_pict_id] in *. unfold sli_entry.
    change 248 with (Z.shiftl (Z.ones 5) 3). change 192 with (Z.shiftl (Z.ones 2) 6).
    change 7 with (Z.ones 3). change 63 with (Z.ones 6).
    rewrite !land_field, !Z.land_ones, !Z.shiftl_mul_pow2, !Z.shiftr_div_pow2 by lia.
    change (2 ^ 5) with 32. change (2 ^ 10) with 1024. change (2 ^ 3) with 8.
    change (2 ^ 2) with 4. change (2 ^ 6) with 64. unfold u16, u8.
    f_equal; Z.to_euclidean_division_equations; lia.
  - repeat apply Forall_cons_2; try constructor; Z.to_euclidean_division_equations; lia.
Qed.

Lemma len_guard n length : 0 < n < 65534 -> (3 + n) * 4 <= length ->
  u32 ((3 + n) * 4) = (3 + n) * 4 /\ ((3 + n) * 4 >? length) = false.
Proof.
  intros Hn Hl. split; [apply u32_small; unfold is_u32; lia|].
  destruct (Z.gtb_spec ((3 + n) * 4) length); lia.
Qed.

Lemma nacks_four nack : Forall (fun n => is_u16 (nack_pid n) /\ is_u16 (nack_blp n)) nack ->
  Forall (four_bytes nack_bytes nack_entry) nack.
Proof. intros H. eapply Forall_impl; [exact H|]. intros n [? ?]. by apply nack_four. Qed.

(** A NACK packet at the peer. *)
Lemma rx_nack peer clk ssrc nack rest : room peer ->
  Forall (four_bytes nack_bytes nack_entry) nack -> nack <> [] -> zlen nack < 65534 ->
  zlen rest = 4 -> is_bytes rest ->
  let pkt := fb_hdr RTCP_RTPFB 1 (zlen nack) ssrc ++ concat (map nack_bytes nack) ++ rest in
  pjmedia_rtcp_rx_rtcp clk peer pkt (zlen pkt) =
    Done (peer, [RtcpFbEvent (now_ts (clk 0)) PJMEDIA_RTCP_FB_NACK false (head nack)]).
Proof.
  intros Hp H4 Hne Hn Hr Hrb pkt. pose proof (zlen_pos nack Hne).
  destruct (zlen_concat_four _ _ _ H4) as [E4 Hb4].
  assert (zlen pkt = (3 + zlen nack) * 4) as Elen.
  { unfold pkt, fb_hdr. rewrite !zlen_app, E4, zlen_common_bytes. lia. }
  destruct (header_read RTCP_RTPFB 1 (zlen nack + 2) ssrc (concat (map nack_bytes nack) ++ rest))
    as (w & Ew & Ept & Ec & Ehl); [unfold is_u8, RTCP_RTPFB; lia|lia|unfold is_u16; lia|].
  apply (rx_single clk peer pkt w); [| |done|exact Ew|].
  - apply Forall_app_2; [apply common_bytes_bytes; [unfold is_u8, RTCP_RTPFB|]; lia|].
    by apply Forall_app_2.
  - exists w. split_and!; [exact Ew|rewrite Elen, Ehl; lia|].
    unfold rtcp_reads. rewrite Ept, Ec. change (RTCP_RTPFB =? RTCP_SR) with false.
    change (RTCP_RTPFB =? RTCP_RR) with false. change (RTCP_RTPFB =? RTCP_BYE) with false.
    cbn [andb]. case_match; lia.
  - rewrite Ept, Elen.
    change (rx_one peer pkt RTCP_RTPFB ((3 + zlen nack) * 4) (clk 0)) with
      (evs ← parse_rtcp_fb pkt ((3 + zlen nack) * 4) (clk 0); Done (peer, evs)).
    assert (pjmedia_rtcp_fb_parse_nack pkt ((3 + zlen nack) * 4) 1 =
            Done (PJ_SUCCESS, take (Z.to_nat (Z.min 1 (zlen nack))) nack)) as E
      by (apply (entries_read nack_bytes); auto; unfold is_u8, RTCP_RTPFB; lia).
    unfold parse_rtcp_fb. rewrite E, Z.min_l by lia. by destruct nack.
Qed.

(** Negative acknowledgements get through. What is built for a list of them fits the
    buffer whenever the length given for it is enough; it reads back as the list,
    as far as the reader has room; and the peer that receives the packet reports
    the first of them, with nothing changed in its session. *)
Lemma rtcp_nack_roundtrip sess peer clk buf length nack max :
  rtcp_wf sess -> rtcp_wf peer -> is_bytes buf ->
  Forall (fun n => is_u16 (nack_pid n) /\ is_u16 (nack_blp n)) nack -> nack <> [] ->
  zlen nack < 65534 -> (3 + zlen nack) * 4 <= length -> length <= zlen buf -> 0 <= max ->
  let len := (3 + zlen nack) * 4 in
  exists buf',
    pjmedia_rtcp_fb_build_nack sess buf length nack = Some (PJ_SUCCESS, buf', len) /\
    zlen buf' = zlen buf /\
    pjmedia_rtcp_fb_parse_nack buf' len max =
      Done (PJ_SUCCESS, take (Z.to_nat (Z.min max (zlen nack))) nack) /\
    pjmedia_rtcp_rx_rtcp clk peer (take (Z.to_nat len) buf') len =
      Done (peer, [RtcpFbEvent (now_ts (clk 0)) PJMEDIA_RTCP_FB_NACK false (head nack)]).
Proof.
  intros Hs Hp Hb Hok Hne Hn Hlen Hbuf Hmax len. pose proof (zlen_pos nack Hne) as Hpos.
  pose proof (nacks_four nack Hok) as H4. destruct (zlen_concat_four _ _ _ H4) as [E4 _].
  destruct (entries_built nack_bytes nack_entry sess RTCP_RTPFB 1 buf nack) as (ssrc & E1);
    [done..|lia|]. fold len in E1.
  set (tail := drop _ buf) in *. set (hdr := fb_hdr _ _ _ _) in *.
  assert (zlen tail = zlen buf - 8 - 4 * zlen nack) as Et
    by (unfold tail; rewrite zlen_drop by lia; lia).
  exists (hdr ++ concat (map nack_bytes nack) ++ tail). split_and!.
  - unfold pjmedia_rtcp_fb_build_nack. destruct (Z.eqb_spec (zlen nack) 0); [lia|].
    destruct (len_guard (zlen nack) length) as [Eu Eg]; [lia|done|]. rewrite Eu, Eg. exact E1.
  - rewrite !zlen_app, E4, Et. unfold hdr, fb_hdr. rewrite zlen_common_bytes. lia.
  - apply (entries_read nack_bytes); auto; unfold is_u8, RTCP_RTPFB; lia.
  - assert (take (Z.to_nat len) (hdr ++ concat (map nack_bytes nack) ++ tail) =
            hdr ++ concat (map nack_bytes nack) ++ take (Z.to_nat 4) tail) as ->.
    { rewrite app_assoc, take_app_ge, <- app_assoc by
        (rewrite length_app; change (List.length hdr) with 8%nat; unfold len, zlen in *; lia).
      do 3 f_equal. rewrite length_app. change (List.length hdr) with 8%nat. unfold len, zlen in *. lia. }
    pose proof (rx_nack peer clk ssrc nack (take (Z.to_nat 4) tail) (wf_room _ Hp) H4 Hne Hn) as E.
    rewrite zlen_take in E by lia. specialize (E eq_refl (Forall_take _ _ _ (Forall_drop _ _ _ Hb))).
    cbn zeta in E. rewrite !zlen_app, E4, zlen_take in E by lia. unfold fb_hdr at 2 in E. rewrite zlen_common_bytes in E.
    replace (8 + (4 * zlen nack + 4)) with len in E by (unfold len; lia). exact E.
Qed.

Lemma rtcp_nack_roundtrip_witness :
  let nack := [FbNack 65535 3; FbNack 17 0] in
  let buf := replicate 24 9 in
  exists buf',
    pjmedia_rtcp_fb_build_nack sess_a buf 24 nack = Some (PJ_SUCCESS, buf', 20) /\
    zlen buf' = 24 /\
    pjmedia_rtcp_fb_parse_nack buf' 20 5 = Done (PJ_SUCCESS, nack) /\
    pjmedia_rtcp_rx_rtcp (fun _ => RtcpNow 75 76 (TV 0 0)) sess_b (take 20 buf') 20 =
      Done (sess_b, [RtcpFbEvent 75 PJMEDIA_RTCP_FB_NACK false (Some (FbNack 65535 3))]).
Proof.
  intros nack buf.
  apply (rtcp_nack_roundtrip sess_a sess_b (fun _ => RtcpNow 75 76 (TV 0 0)) buf 24 nack 5
           sess_a_wf sess_b_wf); try done.
  - apply Forall_replicate. unfold is_u8. lia.
  - repeat constructor; cbn; lia.
Defined.

(** Slice losses read back as they were built. *)
Lemma rtcp_sli_roundtrip sess buf length sli max :
  rtcp_wf sess -> Forall sli_ok sli -> sli <> [] -> zlen sli < 65534 ->
  (3 + zlen sli) * 4 <= length -> length <= zlen buf -> 0 <= max ->
  let len := (3 + zlen sli) * 4 in
  exists buf',
    pjmedia_rtcp_fb_build_sli sess buf length sli = Some (PJ_SUCCESS, buf', len) /\
    zlen buf' = zlen buf /\
    pjmedia_rtcp_fb_parse_sli buf' len max =
      Done (PJ_SUCCESS, take (Z.to_nat (Z.min max (zlen sli))) sli).
Proof.
  intros Hs Hok Hne Hn Hlen Hbuf Hmax len. pose proof (zlen_pos sli Hne) as Hpos.
  assert (Forall (four_bytes sli_bytes sli_entry) sli) as H4
    by (eapply Forall_impl; [exact Hok|]; apply sli_four).
  destruct (zlen_concat_four _ _ _ H4) as [E4 _].
  destruct (entries_built sli_bytes sli_entry sess RTCP_PSFB 2 buf sli) as (ssrc & E1);
    [done..|lia|]. fold len in E1. eexists. split_and!.
  - unfold pjmedia_rtcp_fb_build_sli. destruct (Z.eqb_spec (zlen sli) 0); [lia|].
    destruct (len_guard (zlen sli) length) as [Eu Eg]; [lia|done|]. rewrite Eu, Eg. exact E1.
  - rewrite !zlen_app, E4, zlen_drop by lia. unfold fb_hdr. rewrite zlen_common_bytes. lia.
  - apply (entries_read sli_bytes); auto; unfold is_u8, RTCP_PSFB; lia.
Qed.

(** ** Source descriptions *)

(** The slice that an item gets in the peer's buffer, at [b]. *)
Definition slice_of (s : list Z) (b : Z) : sdes_slice :=
  if truth (zlen s) then Some (b, zlen s) else None.

(** The slices that a list of items gives. *)
Fixpoint assign (items : list (Z * list Z)) (sdes : pjmedia_rtcp_sdes sdes_slice) (b : Z) :
    pjmedia_rtcp_sdes sdes_slice :=
  match items with
  | [] => sdes
  | (t, s) :: items =>
      assign items (if truth (zlen s) then sdes_set sdes t (Some (b, zlen s)) else sdes) (b + zlen s)
  end.

Definition items_bytes (items : list (Z * list Z)) : list Z :=
  concat (map (fun i => BUILD_SDES_ITEM i.2 i.1) items).
Definition items_text (items : list (Z * list Z)) : list Z := concat (map snd items).

Lemma copy_mid pre s rest T R : zlen s <= zlen R ->
  copy_in (pre ++ s ++ rest) (zlen pre) (zlen s) (T ++ R) (zlen T) =
    Done (T ++ s ++ drop (Z.to_nat (zlen s)) R).
Proof.
  intros Hs. unfold copy_in. rewrite !zlen_app. pose proof (zlen_nonneg rest).
  rewrite (proj2 (Z.leb_le _ _)) by lia. rewrite take_drop_mid.
  rewrite wr_some; [|apply zlen_nonneg|rewrite zlen_app; lia]. cbn [mem]. do 2 f_equal.
  - unfold zlen. by rewrite Nat2Z.id, take_app_length.
  - f_equal. replace (Z.to_nat (zlen T + zlen s)) with (length T + Z.to_nat (zlen s))%nat
      by (unfold zlen; lia).
    by rewrite <- drop_drop, drop_app_length.
Qed.

(** One item that fits. *)
Lemma sdes_item_step fuel pre t s rest sdes T R : 0 < t -> zlen s <= 255 -> rest <> [] ->
  zlen T + zlen s < 64 -> zlen s <= zlen R ->
  let pkt := pre ++ t :: zlen s :: s ++ rest in
  sdes_items (S fuel) pkt (zlen pre) (zlen pkt) sdes (T ++ R) (zlen T) =
  sdes_items fuel pkt (zlen pre + 1 + 1 + zlen s) (zlen pkt)
    (sdes_set sdes t (Some (zlen T, zlen s))) (T ++ s ++ drop (Z.to_nat (zlen s)) R)
    (zlen T + zlen s).
Proof.
  intros Ht Hs Hrest HT HR pkt. pose proof (zlen_pos rest Hrest). pose proof (zlen_nonneg s).
  assert (zlen pkt = zlen pre + (1 + (1 + (zlen s + zlen rest)))) as Ek
    by (unfold pkt; by rewrite zlen_app, !zlen_cons, zlen_app).
  cbn [sdes_items]. destruct (Z.ltb_spec (zlen pre) (zlen pkt)); [|lia].
  assert (rd8 pkt (zlen pre) = Some t) as -> by apply rd8_mid.
  assert (rd8 pkt (zlen pre + 1) = Some (zlen s)) as E1.
  { pose proof (rd8_mid (pre ++ [t]) (zlen s) (s ++ rest)) as E.
    rewrite <- app_assoc, zlen_app in E. exact E. }
  cbn [mem mbind outcome_bind]. unfold RTCP_SDES_NULL.
  destruct (Z.eqb_spec t 0); [lia|]. destruct (Z.eqb_spec (zlen pre + 1) (zlen pkt)); [lia|]. cbn [orb].
  rewrite E1. cbn [mem mbind outcome_bind].
  destruct (Z.gtb_spec (zlen pre + 1 + 1 + zlen s) (zlen pkt)); [lia|].
  unfold PJMEDIA_RTCP_RX_SDES_BUF_LEN. destruct (Z.ltb_spec (zlen T + zlen s) 64); [|lia].
  pose proof (copy_mid (pre ++ [t; zlen s]) s rest T R HR) as E2.
  rewrite <- app_assoc, zlen_app in E2. cbn [app] in E2. change (zlen [t; zlen s]) with 2 in E2.
  fold pkt in E2. replace (zlen pre + 1 + 1) with (zlen pre + 2) by lia. by rewrite E2.
Qed.

(** The reader goes through the items, past the terminator it does not look. *)
Lemma sdes_items_read items : forall fuel pre rest sdes T R,
  Forall (fun i => 0 < i.1 /\ zlen i.2 <= 255) items ->
  zlen T + zlen (items_text items) < 64 -> zlen (T ++ R) = 64 ->
  zlen (items_bytes items) < Z.of_nat fuel ->
  let pkt := pre ++ items_bytes items ++ 0 :: rest in
  exists R', zlen (T ++ items_text items ++ R') = 64 /\
    sdes_items fuel pkt (zlen pre) (zlen pkt) sdes (T ++ R) (zlen T) =
      Done (assign items sdes (zlen T), T ++ items_text items ++ R').
Proof.
  induction items as [|[t s] items IH]; intros fuel pre rest sdes T R Hi Ht HR Hf pkt.
  { exists R. split; [done|]. change (zlen (items_bytes [])) with 0 in Hf.
    destruct fuel as [|fuel]; [lia|]. cbn [sdes_items].
    change pkt with (pre ++ 0 :: rest). pose proof (zlen_nonneg rest).
    destruct (Z.ltb_spec (zlen pre) (zlen (pre ++ 0 :: rest)));
      [|rewrite zlen_app, zlen_cons in *; lia].
    by rewrite rd8_mid. }
  apply Forall_cons in Hi as [[Ht0 Hs] Hi]. cbn [fst snd] in *.
  unfold items_text, items_bytes in *. cbn [map concat fst snd] in *.
  fold (items_text items) (items_bytes items) in *.
  pose proof (zlen_nonneg s). pose proof (zlen_nonneg T). pose proof (zlen_nonneg (items_text items)).
  rewrite !zlen_app in Ht, HR. rewrite zlen_app in Hf.
  unfold BUILD_SDES_ITEM in *. cbn [assign]. destruct (truth (zlen s)) eqn:Es.
  - change (zlen ([t; u8 (zlen s)] ++ s)) with (zlen (t :: u8 (zlen s) :: s)) in Hf.
    rewrite !zlen_cons in Hf. destruct fuel as [|fuel]; [pose proof (zlen_nonneg (items_bytes items)); lia|].
    destruct (IH fuel (pre ++ t :: u8 (zlen s) :: s) rest (sdes_set sdes t (Some (zlen T, zlen s)))
      (T ++ s) (drop (Z.to_nat (zlen s)) R)) as (R' & E1 & E2);
      [done|rewrite zlen_app; lia|rewrite !zlen_app, zlen_drop; lia|lia|].
    exists R'. rewrite <- !app_assoc in E1, E2 |- *. split; [exact E1|].
    rewrite (u8_small (zlen s)) in E2 by (unfold is_u8; lia).
    assert (pkt = pre ++ t :: zlen s :: s ++ items_bytes items ++ 0 :: rest) as Ek
      by (unfold pkt; rewrite u8_small by (unfold is_u8; lia); cbn [app]; by rewrite <- app_assoc).
    rewrite Ek, sdes_item_step; [|done|done|by destruct (items_bytes items)|lia|lia].
    replace (zlen pre + 1 + 1 + zlen s) with (zlen (pre ++ t :: zlen s :: s))
      by (rewrite zlen_app, !zlen_cons; lia).
    replace (zlen T + zlen s) with (zlen (T ++ s)) by apply zlen_app.
    rewrite <- !app_assoc in E2. exact E2.
  - assert (s = []) as -> by (apply zlen_0; unfold truth in Es; by apply negb_false_iff, Z.eqb_eq in Es).
    change (zlen []) with 0 in *. rewrite Z.add_0_r. cbn [app] in *.
    destruct (IH fuel pre rest sdes T R) as (R' & E1 & E2); [done|lia|rewrite zlen_app; lia|lia|].
    by exists R'.
Qed.

Definition items_of (sdes : pjmedia_rtcp_sdes (list Z)) : list (Z * list Z) :=
  [ (RTCP_SDES_CNAME, sdes_cname sdes); (RTCP_SDES_NAME, sdes_name sdes);
    (RTCP_SDES_EMAIL, sdes_email sdes); (RTCP_SDES_PHONE, sdes_phone sdes);
    (RTCP_SDES_LOC, sdes_loc sdes); (RTCP_SDES_TOOL, sdes_tool sdes);
    (RTCP_SDES_NOTE, sdes_note sdes) ].

Lemma items_of_bytes sdes : sdes_items_bytes sdes = items_bytes (items_of sdes).
Proof. unfold items_bytes, sdes_items_bytes. cbn [items_of map concat fst snd]. by rewrite app_nil_r. Qed.

Lemma items_of_text sdes : items_text (items_of sdes) = concat (sdes_all sdes).
Proof. done. Qed.

(** Each string in turn gets its slice. *)
Lemma assign_items sdes :
  assign (items_of sdes) sdes_zero 0 =
  let b1 := zlen (sdes_cname sdes) in let b2 := b1 + zlen (sdes_name sdes) in
  let b3 := b2 + zlen (sdes_email sdes) in let b4 := b3 + zlen (sdes_phone sdes) in
  let b5 := b4 + zlen (sdes_loc sdes) in let b6 := b5 + zlen (sdes_tool sdes) in
  RtcpSdes (slice_of (sdes_cname sdes) 0) (slice_of (sdes_name sdes) b1)
    (slice_of (sdes_email sdes) b2) (slice_of (sdes_phone sdes) b3) (slice_of (sdes_loc sdes) b4)
    (slice_of (sdes_tool sdes) b5) (slice_of (sdes_note sdes) b6).
Proof.
  assert (forall i items s (f : sdes_slice -> pjmedia_rtcp_sdes sdes_slice) b,
    (forall v, sdes_set (f None) i v = f v) ->
    assign ((i, s) :: items) (f None) b = assign items (f (slice_of s b)) (b + zlen s)) as step.
  { intros i items s f b Hf. cbn [assign]. unfold slice_of. case_match; [by rewrite Hf|done]. }
  destruct sdes as [s1 s2 s3 s4 s5 s6 s7]. unfold items_of, sdes_zero. cbn zeta.
  cbn [sdes_cname sdes_name sdes_email sdes_phone sdes_loc sdes_tool sdes_note].
  set (x1 := slice_of s1 0). set (b1 := zlen s1). set (x2 := slice_of s2 b1).
  set (b2 := b1 + zlen s2). set (x3 := slice_of s3 b2). set (b3 := b2 + zlen s3).
  set (x4 := slice_of s4 b3). set (b4 := b3 + zlen s4). set (x5 := slice_of s5 b4).
  set (b5 := b4 + zlen s5). set (x6 := slice_of s6 b5). set (b6 := b5 + zlen s6).
  etransitivity; [apply (step 1 _ s1 (fun v => RtcpSdes v None None None None None None) 0); done|].
  etransitivity; [apply (step 2 _ s2 (fun v => RtcpSdes x1 v None None None None None) b1); done|].
  etransitivity; [apply (step 3 _ s3 (fun v => RtcpSdes x1 x2 v None None None None) b2); done|].
  etransitivity; [apply (step 4 _ s4 (fun v => RtcpSdes x1 x2 x3 v None None None) b3); done|].
  etransitivity; [apply (step 5 _ s5 (fun v => RtcpSdes x1 x2 x3 x4 v None None) b4); done|].
  etransitivity; [apply (step 6 _ s6 (fun v => RtcpSdes x1 x2 x3 x4 x5 v None) b5); done|].
  etransitivity; [apply (step 7 _ s7 (fun v => RtcpSdes x1 x2 x3 x4 x5 x6 v) b6); done|].
  done.
Qed.

Lemma slice_of_text pre s post b : b = zlen pre -> slice_text (pre ++ s ++ post) (slice_of s b) = s.
Proof.
  intros ->. unfold slice_of, slice_text, truth. destruct (Z.eqb_spec (zlen s) 0) as [E|E].
  - symmetry. by apply zlen_0.
  - apply take_drop_mid.
Qed.

(** The slices cut the stored text into the strings. *)
Lemma assign_text sdes R :
  map (slice_text (concat (sdes_all sdes) ++ R)) (sdes_all (assign (items_of sdes) sdes_zero 0)) =
  sdes_all sdes.
Proof.
  rewrite assign_items. destruct sdes as [s1 s2 s3 s4 s5 s6 s7].
  unfold sdes_all. cbn zeta. cbn [sdes_cname sdes_name sdes_email sdes_phone sdes_loc sdes_tool sdes_note
    map concat].
  rewrite app_nil_r, <- !app_assoc.
  apply (f_equal2 cons); [by apply (slice_of_text [])|].
  apply (f_equal2 cons); [by apply slice_of_text|].
  apply (f_equal2 cons); [|apply (f_equal2 cons); [|apply (f_equal2 cons);
    [|apply (f_equal2 cons); [|apply (f_equal2 cons); [|done]]]]].
  - rewrite (app_assoc s1). apply slice_of_text. rewrite zlen_app. lia.
  - rewrite (app_assoc s1), (app_assoc (s1 ++ s2)). apply slice_of_text. rewrite !zlen_app. lia.
  - rewrite (app_assoc s1), (app_assoc (s1 ++ s2)), (app_assoc ((s1 ++ s2) ++ s3)).
    apply slice_of_text. rewrite !zlen_app. lia.
  - rewrite (app_assoc s1), (app_assoc (s1 ++ s2)), (app_assoc ((s1 ++ s2) ++ s3)),
      (app_assoc (((s1 ++ s2) ++ s3) ++ s4)). apply slice_of_text. rewrite !zlen_app. lia.
  - rewrite (app_assoc s1), (app_assoc (s1 ++ s2)), (app_assoc ((s1 ++ s2) ++ s3)),
      (app_assoc (((s1 ++ s2) ++ s3) ++ s4)), (app_assoc ((((s1 ++ s2) ++ s3) ++ s4) ++ s5)).
    apply slice_of_text. rewrite !zlen_app. lia.
Qed.

(** The size of the packet of a source description. *)
Definition sdes_size (sdes : pjmedia_rtcp_sdes (list Z)) : Z :=
  (8 + foldr (fun s n => item_len s + n) 0 (sdes_all sdes) + 1 + 3) / 4 * 4.

Lemma zlen_item s t : zlen (BUILD_SDES_ITEM s t) = item_len s.
Proof.
  unfold BUILD_SDES_ITEM, item_len. case_match; [|done]. rewrite zlen_app.
  change (zlen [t; u8 (zlen s)]) with 2. lia.
Qed.

Lemma zlen_items sdes :
  zlen (sdes_items_bytes sdes) = foldr (fun s n => item_len s + n) 0 (sdes_all sdes).
Proof. unfold sdes_items_bytes, sdes_all. cbn [foldr]. rewrite !zlen_app, !zlen_item. lia. Qed.

Lemma item_bytes s t : is_bytes s -> is_u8 t -> is_bytes (BUILD_SDES_ITEM s t).
Proof.
  intros Hs Ht. unfold BUILD_SDES_ITEM. case_match; [|constructor].
  by repeat apply Forall_cons_2; [|apply u8_range|].
Qed.

Lemma items_are_bytes sdes : Forall is_bytes (sdes_all sdes) -> is_bytes (sdes_items_bytes sdes).
Proof.
  destruct sdes as [s1 s2 s3 s4 s5 s6 s7]. unfold sdes_all. rewrite !Forall_cons.
  intros (? & ? & ? & ? & ? & ? & ? & _). unfold sdes_items_bytes.
  do 6 (apply Forall_app_2; [by apply item_bytes; [|unfold is_u8; vm_compute]|]).
  by apply item_bytes; [|unfold is_u8; vm_compute].
Qed.

(** Strings that are short together. *)
Lemma short_texts l : zlen (concat l) <= 255 ->
  Forall (fun s => zlen s <= 255) l /\ existsb (fun s => zlen s >? 255) l = false /\
  0 <= foldr (fun s n => item_len s + n) 0 l <= zlen (concat l) + 2 * zlen l.
Proof.
  induction l as [|s l IH]; intros Hl; [done|]. cbn [concat foldr existsb] in *.
  rewrite zlen_app in *. rewrite zlen_cons. pose proof (zlen_nonneg s). pose proof (zlen_nonneg (concat l)).
  assert (0 <= item_len s <= zlen s + 2) by (unfold item_len; case_match; lia).
  destruct IH as (IH1 & IH2 & IH3); [lia|]. split_and!; [| |lia|lia].
  - constructor; [lia|done].
  - rewrite IH2. destruct (Z.gtb_spec (zlen s) 255); [lia|done].
Qed.

Lemma items_of_ok sdes : Forall (fun s => zlen s <= 255) (sdes_all sdes) ->
  Forall (fun i => 0 < i.1 /\ zlen i.2 <= 255) (items_of sdes).
Proof.
  unfold sdes_all, items_of. rewrite !Forall_cons. intros (? & ? & ? & ? & ? & ? & ? & _).
  do 7 (split; [split; [reflexivity|assumption]|]). constructor.
Qed.

(** What a peer does with the packet of a source description. *)
Lemma rx_sdes peer clk n ssrc sdes pad : rtcp_wf peer -> is_u16 n ->
  Forall is_bytes (sdes_all sdes) -> zlen (concat (sdes_all sdes)) < 64 -> is_bytes pad ->
  let pkt := rtcp_common_bytes (RtcpCommon 2 0 1 RTCP_SDES (swap16 n) ssrc)
             ++ sdes_items_bytes sdes ++ 0 :: pad in
  zlen pkt = (n + 1) * 4 ->
  exists R, let buf := concat (sdes_all sdes) ++ R in
    pjmedia_rtcp_rx_rtcp clk peer pkt (zlen pkt) =
      Done (on_stat (fun s => s <| peer_sdes := assign (items_of sdes) sdes_zero 0 |>
                                <| peer_sdes_buf_ := buf |>) peer, []).
Proof.
  intros Hp Hn Hb Ht Hpad pkt Ek. destruct (short_texts (sdes_all sdes)) as (Hs & _ & _); [lia|].
  pose proof (items_of_ok sdes Hs) as Hi. destruct (wf_room _ Hp) as [Hl _ _].
  set (hdr := rtcp_common_bytes _) in *.
  destruct (header_read RTCP_SDES 1 n ssrc (sdes_items_bytes sdes ++ 0 :: pad))
    as (w & Ew & Ept & Ec & El); [unfold is_u8, RTCP_SDES; lia|lia|done|]. fold hdr pkt in Ew.
  destruct (sdes_items_read (items_of sdes) (Z.to_nat (zlen pkt)) hdr pad sdes_zero []
    (peer_sdes_buf_ (rs_stat peer))) as (R & _ & E); [done|done|done| |].
  { unfold pkt. rewrite items_of_bytes, !zlen_app, zlen_cons.
    pose proof (zlen_nonneg hdr). pose proof (zlen_nonneg pad). lia. }
  rewrite <- items_of_bytes in E. fold pkt in E. rewrite items_of_text in E.
  exists R. cbn zeta. apply (rx_single clk peer pkt w); [| |by apply wf_room|exact Ew|].
  - apply Forall_app_2; [apply common_bytes_bytes; [unfold is_u8, RTCP_SDES|]; lia|].
    apply Forall_app_2; [by apply items_are_bytes|]. apply Forall_cons_2; [unfold is_u8; lia|done].
  - exists w. split_and!; [exact Ew|by rewrite El|]. unfold rtcp_reads. rewrite Ept.
    change (4 <= zlen pkt). unfold is_u16 in Hn. lia.
  - rewrite Ept. change (rx_one peer pkt RTCP_SDES (zlen pkt) (clk 0)) with
      (sess ← parse_rtcp_sdes peer pkt (zlen pkt); Done (sess, @nil rtcp_fb_event)).
    unfold parse_rtcp_sdes. change 8 with (zlen hdr). change 0 with (zlen (@nil Z)) at 1.
    change (peer_sdes_buf_ (rs_stat peer)) with ([] ++ peer_sdes_buf_ (rs_stat peer)).
    rewrite E. done.
Qed.

(** A source description gets through. What is built for seven strings fits the
    buffer whenever the length given for it is enough, and nothing behind it is
    written; the peer that receives the packet then has exactly the strings,
    whatever it had before, when they are less than 64 bytes together; nothing
    else of its session changes. *)
Lemma rtcp_sdes_roundtrip sess peer clk buf length sdes :
  rtcp_wf sess -> rtcp_wf peer -> Forall is_bytes (sdes_all sdes) ->
  zlen (concat (sdes_all sdes)) < 64 ->
  let len := sdes_size sdes in
  len <= length -> length <= zlen buf ->
  exists buf' slices texts,
    pjmedia_rtcp_build_rtcp_sdes sess buf length sdes = Some (PJ_SUCCESS, buf', len) /\
    zlen buf' = zlen buf /\ drop (Z.to_nat len) buf' = drop (Z.to_nat len) buf /\
    let peer' := on_stat (fun s => s <| peer_sdes := slices |> <| peer_sdes_buf_ := texts |>) peer in
    pjmedia_rtcp_rx_rtcp clk peer (take (Z.to_nat len) buf') len = Done (peer', []) /\
    map (peer_text peer') (sdes_all (peer_sdes (rs_stat peer'))) = sdes_all sdes.
Proof.
  intros Hs Hp Hb Ht len Hlen Hbuf.
  destruct (short_texts (sdes_all sdes)) as (_ & Hex & Hsum); [lia|]. change (zlen (sdes_all sdes)) with 7 in Hsum.
  rewrite <- zlen_items in Hsum. set (items := sdes_items_bytes sdes) in *.
  set (pad := pad_loop 4 (8 + zlen (items ++ [0]))).
  assert (len = 8 + zlen items + 1 + zlen pad /\ len = (len / 4 - 1 + 1) * 4 /\ 8 <= len < 256)
    as (El & El4 & Hl).
  { unfold len, sdes_size, pad. rewrite <- zlen_items, pad_loop_spec, zlen_replicate, zlen_app by (apply Z.mod_pos_bound; lia). fold items.
    change (zlen [0]) with 1. Z.to_euclidean_division_equations; lia. }
  destruct (wf_headers _ Hs) as (ssrc & _ & Eh & _).
  assert (own_header sess RTCP_SDES len = RtcpCommon 2 0 1 RTCP_SDES (swap16 (len / 4 - 1)) ssrc) as Ehdr.
  { unfold own_header. rewrite Eh. cbn. f_equal. f_equal. apply u16_small. unfold is_u16.
    Z.to_euclidean_division_equations; lia. }
  set (hdr := rtcp_common_bytes (own_header sess RTCP_SDES len)).
  assert (zlen (hdr ++ (items ++ [0]) ++ pad) = len) as Ek
    by (rewrite !zlen_app; change (zlen hdr) with 8; change (zlen [0]) with 1; lia).
  destruct (rx_sdes peer clk (len / 4 - 1) ssrc sdes pad Hp) as (R & E); auto.
  { unfold is_u16. Z.to_euclidean_division_equations; lia. }
  { unfold pad. rewrite pad_loop_spec. apply Forall_replicate. unfold is_u8. lia. }
  { rewrite <- Ehdr. fold hdr items. change (0 :: pad) with ([0] ++ pad). rewrite (app_assoc items). lia. }
  cbn zeta in E. rewrite <- Ehdr in E. fold hdr items in E. change (0 :: pad) with ([0] ++ pad) in E.
  rewrite (app_assoc items), Ek in E.
  exists ((hdr ++ (items ++ [0]) ++ pad) ++ drop (Z.to_nat len) buf), (assign (items_of sdes) sdes_zero 0),
    (concat (sdes_all sdes) ++ R).
  assert (List.length (hdr ++ (items ++ [0]) ++ pad) = Z.to_nat len) as Eln by (unfold zlen in Ek; lia).
  split_and!.
  - unfold pjmedia_rtcp_build_rtcp_sdes. rewrite Hex. cbn zeta. fold (sdes_size sdes). fold len.
    destruct (Z.gtb_spec len length); [lia|]. fold items pad. rewrite fb_write_spec.
    + fold hdr. rewrite <- !app_assoc. do 7 f_equal. f_equal. rewrite !zlen_app. change (zlen [0]) with 1. lia.
    + rewrite !zlen_app. change (zlen [0]) with 1. lia.
  - rewrite zlen_app, Ek, zlen_drop; lia.
  - by rewrite <- Eln, drop_app_length.
  - cbn zeta. split; [|exact (assign_text sdes R)]. rewrite <- Eln, take_app_length. exact E.
Qed.

Lemma rtcp_sdes_roundtrip_witness :
  let sdes := RtcpSdes [97; 64; 98] [66; 111; 98] [] [] [] [] [104; 105] in
  let clk := fun _ : Z => RtcpNow 75 76 (TV 0 0) in
  exists buf' slices texts,
    pjmedia_rtcp_build_rtcp_sdes sess_a (replicate 28 9) 28 sdes = Some (PJ_SUCCESS, buf', 24) /\
    zlen buf' = 28 /\ drop 24 buf' = [9; 9; 9; 9] /\
    let peer' := on_stat (fun s => s <| peer_sdes := slices |> <| peer_sdes_buf_ := texts |>) sess_b in
    pjmedia_rtcp_rx_rtcp clk sess_b (take 24 buf') 24 = Done (peer', []) /\
    map (peer_text peer') (sdes_all (peer_sdes (rs_stat peer'))) = sdes_all sdes.
Proof.
  intros sdes clk.
  apply (rtcp_sdes_roundtrip sess_a sess_b clk (replicate 28 9) 28 sdes sess_a_wf sess_b_wf).
  - repeat constructor; lia.
  - reflexivity.
  - vm_compute. discriminate.
  - vm_compute. discriminate.
Defined.

(** ** What the reader does not check *)

Section Unchecked.
Let clk : Z -> rtcp_now := fun _ => RtcpNow 75 76 (TV 0 0).

(** A receiver report that says that it has a block, and is a header. *)
Lemma rr_overread : pjmedia_rtcp_rx_rtcp clk sess_b [129; 201; 0; 1; 0; 0; 0; 9] 8 = Overread.
Proof. reflexivity. Qed.

(** A sender report that is a header. *)
Lemma sr_overread : pjmedia_rtcp_rx_rtcp clk sess_b [128; 200; 0; 1; 0; 0; 0; 9] 8 = Overread.
Proof. reflexivity. Qed.

(** A BYE whose reason is longer than the packet. *)
Lemma bye_overread :
  pjmedia_rtcp_rx_rtcp clk sess_b [129; 203; 0; 2; 0; 0; 0; 9; 200; 97; 98; 99] 12 = Overread.
Proof. reflexivity. Qed.

(** A NACK of length 1, whose count of entries wraps. *)
Lemma nack_overread : pjmedia_rtcp_rx_rtcp clk sess_b [129; 205; 0; 1; 0; 0; 0; 9] 8 = Overread.
Proof. reflexivity. Qed.

(** A NACK without an entry is announced. *)
Lemma empty_nack_published :
  pjmedia_rtcp_rx_rtcp clk sess_b [129; 205; 0; 2; 0; 0; 0; 9; 0; 0; 0; 0] 12 =
    Done (sess_b, [RtcpFbEvent 75 PJMEDIA_RTCP_FB_NACK false None]).
Proof. reflexivity. Qed.

(** Less than a header at the end of a datagram. *)
Lemma header_overread : pjmedia_rtcp_rx_rtcp clk sess_b [128; 201; 0; 1; 0; 0; 0; 9; 128] 9 = Overread.
Proof. reflexivity. Qed.

(** The reason of a BYE overwrites the strings of the source description. *)
Lemma bye_clobbers_sdes :
  exists sess, pjmedia_rtcp_rx_rtcp clk sess_b
    [129; 202; 0; 2; 0; 0; 0; 9; 1; 2; 97; 98; 129; 203; 0; 2; 0; 0; 0; 9; 2; 120; 121; 0] 24
    = Done (sess, []) /\
  peer_text sess (sdes_cname (peer_sdes (rs_stat sess))) = [120; 121].
Proof. by eexists. Qed.

(** A NACK as RFC 4585 lays it out, for packet 4660 of the source 16909060: the
    entry that is reported is the source. *)
Lemma nack_rfc4585_layout :
  pjmedia_rtcp_rx_rtcp clk sess_b [129; 205; 0; 3; 0; 0; 0; 9; 1; 2; 3; 4; 18; 52; 0; 0] 16 =
    Done (sess_b, [RtcpFbEvent 75 PJMEDIA_RTCP_FB_NACK false (Some (FbNack 258 772))]).
Proof. reflexivity. Qed.

(** A picture loss indication is announced as a NACK. *)
Lemma pli_event_type :
  pjmedia_rtcp_rx_rtcp clk sess_b [129; 206; 0; 2; 0; 0; 0; 9; 1; 2; 3; 4] 12 =
    Done (sess_b, [RtcpFbEvent 75 PJMEDIA_RTCP_FB_NACK true None]).
Proof. reflexivity. Qed.

(** The number of padding bits of a reference picture selection is not checked. *)
Lemma rpsi_padding_wraps :
  match pjmedia_rtcp_fb_parse_rpsi [131; 206; 0; 3; 0; 0; 0; 9; 255; 0; 0; 0; 0; 0; 0; 0] 16 with
  | Done (st, Some r) => st = PJ_SUCCESS /\ rpsi_bit_len r = u64 (-239)
  | _ => False
  end.
Proof. by split. Qed.

(** Of two packets that were sent first, the loss of one is not in the fraction. *)
Lemma first_interval_misses_a_loss :
  let sess := rx_run sess_b [jittery 5; jittery 6; jittery 8] in
  fract_lost (the_rr (sends_sr sess) (pjmedia_rtcp_build_rtcp sess (clk 0)).1) = 0 /\
  ss_loss (rs_rx sess) = 1.
Proof. by split. Qed.
End Unchecked.
